(* ===== verification/_CoqProject ===== *)
-Q . S2P
Prelude.v
PyVal.v
Redaction.v
Store.v
Fixtures.v
AuditTrail.v
Logic.v
Like.v
Wallet.v
WalletRun.v
WalletSpec.v
WalletRefine.v
WalletInv.v
Policy.v
Uuid.v
Config.v
Subscription.v
Adapty.v
StoreKit.v
TokenPurchase.v
CloudPayments.v
Admin.v
Pagination.v
ChatTools.v
Website.v
Attachments.v
Workspaces.v
Byok.v
Kms.v
ChatContext.v
ChatRepo.v
Chat.v
ChatTurns.v
ChatReplay.v
Chats.v
InstanceConfig.v
Instances.v
Manager.v
InstanceLife.v
InstanceWaits.v
InstanceReplay.v
AgentRuns.v
Usage.v
Sse.v
Hermes.v
AgentService.v
AgentBilling.v
Drift.v
Ring.v
Broker.v
BrokerPipe.v
AgentClient.v
Orphans.v
Consumer.v
Relay.v
ConsumerDemo.v
ConsumerLife.v
ConsumerWatch.v
ConsumerOutage.v
Reaper.v
RateLimit.v
Gateway.v
Http.v
Checkout.v
Auth.v
Profile.v
Crm.v
RoutesBilling.v
Presets.v
RoutesClient.v
Llm.v
Requests.v
