(* ===== verification/Prelude.v ===== *)
(** * Verification of the claude-hermes control plane

    claude-hermes (src/app of the repository) is a FastAPI control plane that
    sells credits, meters generation against them, runs a chat with tools, and
    fronts per-user Hermes agent instances that it starts and hibernates.  This
    library models the services behind its routes and the background tasks, and
    proves the properties that make them correct; its routes are modelled too,
    with the request models they validate and the answers they give.

    ** The program and how its parts meet

    A request passes the gateway: a limit on its body, the client key, the
    subject it acts for, limits on the rate of its kind.  A user has a wallet
    (balance and debt) and an append-only ledger.  Credits
    come in through [WalletService.grant], called by the Adapty and
    CloudPayments webhooks, StoreKit token purchases and operators; they go out
    through [WalletService.consume], called by chat, by operators and by the
    billing of agent runs.  Access is decided by the policy engine from the
    subscription, the balance and the user's own key.

    A chat turn is one pass of the orchestrator: a policy decision, a claimed
    trial, a bounded loop of calls to the provider with tools run on the server
    or handed to the client, a debit keyed by the message.  Chats live in
    workspaces, write websites through the site tools, and are listed by keyset
    pages.

    An agent run is launched on the user's instance, which the manager starts
    in a Docker container, waits for, and hibernates when idle.  The run's
    events come back as SSE blocks; each block updates a snapshot, the lifecycle
    row and the wallet.  A consumer per run reads that stream: a working task, a
    supervisor that watches it and renews a Redis lease, and a
    self-termination that flushes, releases and records.  Events are published
    to a replay ring in Redis, from which the broker serves reconnecting
    clients; a reaper hibernates idle instances and finalizes runs that nobody
    consumes any more.

    ** Files

    Foundations.
    - [Prelude]: tactics, hint databases, sums and list lemmas.
    - [PyVal]: Python strings and the values of [json.loads].
    - [Store]: the rows of models/tables.py, [session_scope] of db.py, the
      exceptions of errors.py, and the state-and-error monad [M] of code that
      runs in a session.  [World] has the session's view of the database, the
      committed one and the container host; [commit], [rollback] and
      [begin_nested] act on them as SQLAlchemy's do, CHECK and BIGINT failures
      raise.
    - [Fixtures]: default settings and a small database for the witnesses.
    - [Logic]: [keeps I J m], preservation of an invariant of the session and
      of one of the committed database by a computation, whatever its outcome.
    - [Like]: SQL LIKE with an escape character.
    - [Pagination]: keyset pages over an ordered table.

    Money.
    - [Redaction], [AuditTrail]: observability/redaction.py, audit/service.py.
    - [Wallet]: wallet/service.py, one definition per method.
    - [WalletSpec], [WalletRun], [WalletRefine]: the abstract account, how the
      statements run, and the refinement theorems.  [WalletInv]: accounting
      identities and idempotency.
    - [Policy]: policy/engine.py, policy/loader.py.
    - [Uuid]: [uuid.UUID] and billing_common/resolve.py.  [Config]: the price
      tables of config.py.
    - [Subscription], [Adapty], [TokenPurchase], [CloudPayments], [Admin]: the
      services of the same names.  [StoreKit]: subscription/storekit.py, the
      verifier of purchases.  [Checkout]: billing_cloudpayments/checkout.py,
      the product catalogue, and who may call the webhooks.
    - [Crm]: admin/crm_repo.py and crm_service.py, the operator console.

    Chat (src/app/chat, chats, workspaces, website, byok, preferences).
    - [ChatTools]: tools.py.  [Website]: paths, projects, files, preview links
      and the site tools.  [Attachments]: attachments.py.  [ChatContext]: the
      prompts and the settings block.
    - [Workspaces]: workspaces and preferences.  [Byok]: the user's own key;
      [Kms]: the wrapping of its data key.  [Presets]: presets.py.
    - [ChatRepo]: chat/repository.py.  [Chat]: orchestrator.py.
      [ChatTurns], [ChatReplay]: what a turn and a replayed result cost.
    - [Chats]: lists, history and edits.
    - [Llm]: anthropic_client.py, openai_client.py and the factory.

    Gateway and accounts (src/app/api_gateway, deps.py, auth, profile).
    - [Gateway]: middleware.py (the size limit), the keys of auth.py, and from
      deps.py the subject, its provisioning and the client address.
    - [Http]: errors.py, the exception handlers of main.py, the remaining
      middlewares, and what stands before a client handler.
    - [RoutesBilling]: the routers of the wallet, the operators and the console,
      with their schemas.  [RoutesClient]: every other router.  A handler is a
      computation of [M] from the headers and the typed body to its answer.
    - [RateLimit]: rate_limit.py.  [Auth]: the sign-in service, its tokens and
      their cleanup.  [Profile]: the account id and the display name.

    Instances (src/app/hermes_runtime).
    - [InstanceConfig]: the rendered config.yaml and its character classes.
    - [Instances]: registry.py and docker_backend.py.  [Manager]: manager.py.
    - [InstanceLife], [InstanceWaits], [InstanceReplay]: who is served which
      instance, what a wait guarantees and when it ends, stale attempts.

    Agent runs (src/app/agent_proxy).
    - [AgentRuns]: runs_repo.py and snapshots_repo.py, the run state machine.
    - [Usage]: the readers of SSE payloads in service.py and billing.py.
      [Sse]: the splitting of the byte stream into blocks.
    - [Hermes]: the HTTP contour of service.py.
    - [AgentService]: [process_event], step and completion billing, pause at
      zero, orphan finalization.  [AgentBilling]: what they cost.  [Drift]: what
      a relay reports about events it cannot read.  [Relay]: [stream_events].
    - [AgentClient]: [run], [resume], [stop], [approval], [get_state].
    - [Ring]: transport.py.  [Broker]: the reader of broker.py.  [BrokerPipe]:
      the queue, the writer and the supervisor of a client stream, as a machine.
    - [Orphans]: [sweep_orphan_runs] of consumer.py.
    - [Consumer]: the rest of consumer.py as a machine; [ConsumerDemo] its
      concrete runs; [ConsumerLife], [ConsumerWatch], [ConsumerOutage] its
      theorems.  [Reaper]: reaper.py.
    - [Requests]: all of them together, as histories of committed databases.

    The interface between the components and the histories is the class
    [KeepsBooks] ([WalletInv]): each component has an instance for each of its
    operations, and [Requests] is proved against the class.  The components
    reach the world outside through records of operations: [Hermes] for the
    user's instance, [Bus] for Redis in the orphan sweep, [ChatDeps] for the
    provider of a chat, [Runtime] for the Docker daemon.  What the clients of
    the providers promise the orchestrator is the class [MeetsContract] ([Llm]).

    ** What is proved

    - The wallet refines an abstract account: [consume_refines],
      [grant_refines]; idempotency, [consume_charges_once]; the identities
      balance = credits - debits - repaid and debt = accrued - repaid hold in
      every history of the whole service, [books_balance]; the reconnect seed
      is exact, [charged_for_run_exact].
    - Every way in credits what it should, once: [purchase_refines],
      [adapty_applies], [adapty_applied_once], [payment_all_or_nothing],
      [callback_credits_only_verified], [select_creditable_exact],
      [admin_grant_once], [user_id_round_trip], [resolve_user_spec]; only what
      a trusted chain signed is a purchase, [only_trusted_purchases]; what is
      offered is what is credited, [link_iff_creditable],
      [catalogue_credits_true]; an operator's correction and extension are
      exact, [crm_correction_exact], [crm_extension_once].
    - The policy decision is the access rule: [evaluate_decides],
      [effective_agrees].
    - A chat turn pays once and asks boundedly: [turn_charged_once],
      [trial_spent_only_on_answer], [continuation_charges_once],
      [provider_asked_boundedly], [barrier_waits], [results_written_once],
      [edit_removes_tail].  What the model asks for is checked:
      [validated_args_typed], [offered_tools_resolve],
      [site_tools_stay_inside], [write_then_read], [attachments_within_limits],
      [context_block_hidden], [preview_link_bound].  Nobody reaches into
      another account: [foreign_chat_untouched], [chats_in_own_workspaces],
      [history_hides_provider_ids]; lists are complete,
      [workspace_pages_complete]; keys, [byok_key_life].
    - Whichever provider answers, the orchestrator reads the same language, and
      an answer is replayed as it was stored: [answers_meet_contract],
      [answers_replayed_verbatim], [attachments_in_last_user].
    - The gateway lets in who holds a key, limits what it says it limits, and
      takes no address from the sender: [only_key_holders_enter],
      [canonical_subject_round_trip], [body_limit_enforced],
      [window_counts_exactly], [client_ip_not_forged].
    - The routes: none is open without the key and a user,
      [every_route_guarded], or without the secret, [operators_only]; errors
      have one form, [errors_keep_contract]; request models keep out what the
      services rely on not to see, [preferences_stay_clean],
      [validated_results_wellformed], [single_form_is_batch_of_one],
      [locale_always_supported]; previews need a signature,
      [preview_serves_only_signed].
    - Sessions: [refresh_token_once], [reuse_ends_chain], [one_apple_account],
      [access_token_round_trip]; profiles: [account_id_shape],
      [display_name_kept].
    - A run pays exactly for its usage: [bill_step_exact],
      [run_billed_exactly], [pause_means_empty], [orphan_charges_remainder],
      [usage_reading_dominates]; the relay forwards what it bills,
      [relay_forwards_and_bills], and what it cannot read it reports, once:
      [zero_bill_never_silent], [silent_run_reported],
      [frozen_anchors_reported], [reports_bounded].
    - Runs obey their lifecycle: [run_follows_lifecycle], [one_resume_wins],
      [resume_never_strands], [foreign_run_invisible],
      [launch_never_sent_twice], [upsert_keeps_snapshot],
      [sweep_is_idempotent], [sweep_spares_live_runs].
    - An instance is the user's own, was healthy when it was handed out, and
      waits end: [own_instance_only], [ready_before_use], [waits_end],
      [wake_timeout_guarded]; a run under way keeps it awake,
      [heartbeat_keeps_instance_awake]; configuration cannot add structure to
      its config file, [config_no_injection].
    - The consumer bills whatever Redis does, decides nothing about the run it
      reads, lets go of it, is watched, and is alone:
      [redis_never_costs_billing], [consumer_never_decides],
      [consumer_lets_go], [supervision_bounded], [quiet_stream_spared],
      [one_consumer_per_run].
    - Events reach the client: [sse_chunking_irrelevant], [publish_keeps_ring],
      [lease_exclusive], [no_silent_loss], [unannounced_is_contiguous],
      [cursor_round_trip], [broker_stream_reads_only]; a client stream is handed
      over whole, closes, and cuts only a client that stopped:
      [stream_hands_over_everything], [finished_reader_closes],
      [steady_client_not_cut], [sentinel_always_fits].
    - Secrets stay out of logs: [redact_no_secret]; keys unwrap,
      [local_kms_round_trip].
    - Where the code departs from its documentation:
      [clawback_breaks_plain_identity], [resumed_parent_is_swept],
      [usage_to_credits_overcharges], [attachment_item_secret_survives],
      [superscript_cursor_raises], [orphan_never_heals],
      [shutdown_skips_release], [quiet_run_killed_without_redis],
      [final_flush_resurrects_approval], [one_proxy_client_ip_forged],
      [overlapping_refreshes_both_succeed], [cut_body_looks_complete],
      [other_spellings_same_subject], [foreign_key_not_refused],
      [cut_tool_call_differs], [developer_certificate_mints],
      [sandbox_and_refunded_credited], [one_transaction_two_users],
      [broken_link_not_validation_error], [prepaid_run_escapes],
      [body_user_ignored], [console_parameters_unchecked],
      [observation_can_raise], [huge_price_not_skipped],
      [static_catalogue_may_promise_more], [unhandled_outside_middleware],
      [preview_reveals_existence], [crm_ties_lose_users],
      [crm_ignores_cloudpayments], [crm_extension_cuts_open_ended].

    A main theorem with hypotheses has a [<name>_witness], which applies it
    to a concrete run of the definitions.

    ** Modelling choices and bounds

    - SQL is read as the language of the statements in the source: unique
      keys, foreign keys, CHECKs, ON CONFLICT, RETURNING and int8/int4 ranges
      are written out; each statement is atomic.  Text is ordered bytewise (the
      C collation); [now()] is one instant per request.
    - Concurrency: requests are interleaved as whole transactions in
      [Requests]; in [AgentRuns], [Ring] and the compare-and-set race single
      statements are interleaved in any order; the chat orchestrator and the
      instance manager take what others commit at each of their waits as a
      parameter ([others], [meanwhile]), sign-in what they commit between its
      statements.  Elsewhere a request's own reads see no
      foreign write in between: the row locks of the wallet statements make
      this exact for the wallet, the rest is an idealisation.  Values of the
      ORM's identity map that the code reads again without a refresh are kept as
      values.
    - A step of the consumer, or of a client stream, is what one of its tasks does
      between two awaits; a
      database operation is not cut by a cancellation, and the in-memory state
      that a failed handler leaves behind is arbitrary.
    - What lies outside the repository is a parameter: the Hermes instance, the
      provider of a chat, the Docker daemon, the payment provider, X.509 and
      signatures, Redis answers and clocks, ciphers, [sha256], HMAC, base64, PyJWT,
      [ipaddress], [uuid5], ISO dates,
      [json.loads], [json.dumps], UTF-8 decoding and [repr].  A theorem that
      needs a fact about one states it as a hypothesis.
    - Instants are microseconds, Redis expiries milliseconds; money and
      counters are [Z] with the column ranges checked; prices are binary64
      ([SpecFloat]).
    - Fuel: [launch_attempts] has the configured number of attempts, exactly the
      range of the source's loop; the generate loop of chat has
      [max_server_tool_rounds + 1] rounds, the source's own bound
      ([provider_asked_boundedly]); the health and row polls of the manager
      have a number of polls, after which the request counts as cancelled, and
      [waits_end] says which number is enough; [take_blocks] has the length of
      the buffer, more than its number of separators.
    - A Python [str] is a sequence of 8-bit characters (the Latin-1 part of
      Unicode); [lower] and [strip] act on its ASCII part.  A constant with
      other characters is written as its UTF-8 bytes.

    ** Not modelled

    Log lines, except those of the relay, and most metrics; the OpenAPI document, its examples and descriptions; the wiring of
    dependencies and the start-up and shutdown of the process, which construct
    services and decide nothing; the retired sign-in routes and the JWKS
    document, which no application includes; the rewriting of the Redis URL and
    the closing of a subscription; the migrations, whose schema is the one of
    the tables.  Parsing of a request body into its typed fields is pydantic's:
    a request model starts where the fields have their types.

    The order in which the model grew: the wallet and its callers, the chat,
    agent runs and their consumer, the instances, the gateway, the routes. *)

From Stdlib Require Export ZArith Lia.
From stdpp Require Export base tactics list gmap strings option.
Export list_basics.list list_relations.list list_monad.list list_misc.list.

(** ** Hint databases of the development *)

Create HintDb hermes discriminated.
Create HintDb hermes_rw.

(** ** Tactics *)

(** Case analysis on the innermost scrutinee of a [match] of the goal or of a
    hypothesis, keeping the equation. *)
Ltac case_match_goal :=
  match goal with
  | |- context [match ?x with _ => _ end] =>
      lazymatch x with
      | context [match _ with _ => _ end] => fail
      | _ => let E := fresh "E" in destruct x eqn:E
      end
  end.

Ltac case_match_hyp H :=
  match type of H with
  | context [match ?x with _ => _ end] =>
      lazymatch x with
      | context [match _ with _ => _ end] => fail
      | _ => let E := fresh "E" in destruct x eqn:E
      end
  end.

(** Boolean comparisons on [Z] turned into propositions. *)
Ltac zify_bool :=
  repeat match goal with
  | H : (_ <=? _)%Z = true |- _ => apply Z.leb_le in H
  | H : (_ <=? _)%Z = false |- _ => apply Z.leb_gt in H
  | H : (_ <? _)%Z = true |- _ => apply Z.ltb_lt in H
  | H : (_ <? _)%Z = false |- _ => apply Z.ltb_ge in H
  | H : (_ =? _)%Z = true |- _ => apply Z.eqb_eq in H
  | H : (_ =? _)%Z = false |- _ => apply Z.eqb_neq in H
  | H : (_ && _) = true |- _ => apply andb_prop in H; destruct H
  | H : negb _ = true |- _ => apply negb_true_iff in H
  | H : negb _ = false |- _ => apply negb_false_iff in H
  end.

(** ** Sums over lists *)

Section sums.
Context {A : Type}.
Local Open Scope Z_scope.

Definition sumZ (f : A -> Z) (l : list A) : Z := foldr (fun x acc => f x + acc) 0 l.

Lemma sumZ_nil f : sumZ f [] = 0.
Proof. done. Qed.

Lemma sumZ_cons f x l : sumZ f (x :: l) = f x + sumZ f l.
Proof. done. Qed.

Lemma sumZ_app f l k : sumZ f (l ++ k) = sumZ f l + sumZ f k.
Proof. induction l as [|x l IH]; [done|]. cbn [app]. rewrite !sumZ_cons. lia. Qed.

Lemma sumZ_singleton f x : sumZ f [x] = f x.
Proof. rewrite sumZ_cons, sumZ_nil. lia. Qed.

Lemma sumZ_nonneg f l : (forall x, x ∈ l -> 0 <= f x) -> 0 <= sumZ f l.
Proof.
  induction l as [|x l IH]; intros H; [done|]. rewrite sumZ_cons.
  assert (0 <= f x) by (apply H; left).
  assert (0 <= sumZ f l) by (apply IH; intros y Hy; apply H; by right).
  lia.
Qed.

Lemma sumZ_ext f g l : (forall x, x ∈ l -> f x = g x) -> sumZ f l = sumZ g l.
Proof.
  induction l as [|x l IH]; intros H; [done|]. rewrite !sumZ_cons.
  rewrite (H x) by left. f_equal. apply IH. intros y Hy. apply H. by right.
Qed.

Lemma sumZ_perm f l k : l ≡ₚ k -> sumZ f l = sumZ f k.
Proof. induction 1; rewrite ?sumZ_cons; lia. Qed.

Lemma sumZ_ones l : Z.of_nat (length l) = sumZ (fun _ => 1) l.
Proof. induction l as [|x l IH]; [done|]. rewrite sumZ_cons. cbn [length]. lia. Qed.

Lemma sumZ_filter (P : A -> Prop) `{!forall x, Decision (P x)} f l :
  sumZ f (filter P l) = sumZ (fun x => if decide (P x) then f x else 0) l.
Proof.
  induction l as [|x l IH]; [done|]. rewrite filter_cons.
  rewrite (sumZ_cons _ x l). case_decide; [rewrite sumZ_cons|]; lia.
Qed.
End sums.

Arguments sumZ {A} f l : simpl never.

(** A sum over a map, one key apart. *)
Lemma sumZ_map_split `{Countable K} {A} (f : K * A -> Z) (m : gmap K A) k :
  sumZ f (map_to_list m) =
  (sumZ f (map_to_list (base.delete k m)) + match m !! k with Some x => f (k, x) | None => 0 end)%Z.
Proof.
  destruct (m !! k) as [x|] eqn:E.
  - rewrite <- (insert_delete_id m k x E) at 1.
    rewrite (sumZ_perm _ _ _ (map_to_list_insert (base.delete k m) k x (lookup_delete_eq m k))), sumZ_cons. lia.
  - rewrite delete_id by done. lia.
Qed.

#[export] Hint Rewrite @sumZ_nil @sumZ_cons @sumZ_app @sumZ_singleton : hermes_rw.

(** ** Lists *)

Section lists.
Context {A : Type}.

(** First element satisfying a boolean test. *)
Fixpoint find_first (p : A -> bool) (l : list A) : option A :=
  match l with
  | [] => None
  | x :: l' => if p x then Some x else find_first p l'
  end.

Lemma find_first_app p l k :
  find_first p (l ++ k) =
  match find_first p l with Some x => Some x | None => find_first p k end.
Proof. induction l as [|x l IH]; cbn; [done|]. by destruct (p x). Qed.

Lemma find_first_Some p l x : find_first p l = Some x -> x ∈ l /\ p x = true.
Proof.
  induction l as [|y l IH]; cbn; [done|].
  destruct (p y) eqn:E; intros H; simplify_eq.
  - split; [left|done].
  - destruct (IH H). split; [by right|done].
Qed.

Lemma find_first_None p l : find_first p l = None <-> forall x, x ∈ l -> p x = false.
Proof.
  induction l as [|y l IH]; cbn.
  - split; [intros _ x Hx; by apply elem_of_nil in Hx|done].
  - destruct (p y) eqn:E.
    + split; [done|]. intros H. specialize (H y (list_elem_of_here _ _)). congruence.
    + rewrite IH. split; intros H x Hx.
      * apply elem_of_cons in Hx as [->|Hx]; auto.
      * apply H. by right.
Qed.

Lemma filter_none (P : A -> Prop) `{!forall x, Decision (P x)} l :
  (forall x, x ∈ l -> ~ P x) -> filter P l = [].
Proof.
  intros Hn. apply elem_of_nil_inv. intros x [Hp Hx]%list_elem_of_filter. by apply (Hn x).
Qed.
End lists.

(** ** Small numbers *)

(** A statement about every number below a bound is checked number by number. *)
Lemma below_all (P : N -> Prop) (k : nat) :
  Forall P (N.of_nat <$> seq 0 k) -> forall n, (n < N.of_nat k)%N -> P n.
Proof.
  rewrite Forall_fmap, Forall_forall. intros H n Hn. rewrite <- (N2Nat.id n).
  apply H, elem_of_seq. lia.
Qed.
