(* ===== verification/PyVal.v ===== *)
(** * Python values

    The part of Python's data model the service relies on: [str] operations and
    the values [json.loads] produces ([dict], [list], [str], [int], [float],
    [bool], [None]).  A [str] is a Rocq [string]; [lower] and [strip] act on the
    ASCII letters and blanks.  A [dict] is its insertion-ordered list of items,
    as Python keeps it. *)

From Stdlib Require Import SpecFloat Ascii String.
From stdpp Require Import pretty.
From S2P Require Import Prelude.

(** ** Strings *)

Module Str.
Definition lower_ascii (c : ascii) : ascii :=
  let n := N_of_ascii c in
  if (65 <=? n)%N && (n <=? 90)%N then ascii_of_N (n + 32) else c.

Fixpoint map_str (f : ascii -> ascii) (s : string) : string :=
  match s with
  | EmptyString => EmptyString
  | String c s' => String (f c) (map_str f s')
  end.

(** [s.lower()] *)
Definition lower (s : string) : string := map_str lower_ascii s.

(** [s.startswith(p)] *)
Definition startswith (p s : string) : bool := String.prefix p s.

(** [p in s] *)
Fixpoint contains (p s : string) : bool :=
  String.prefix p s ||
  match s with EmptyString => false | String _ s' => contains p s' end.

(** [s.endswith(p)] *)
Fixpoint endswith (p s : string) : bool :=
  String.eqb p s ||
  match s with EmptyString => false | String _ s' => endswith p s' end.

(** [str.isspace] on one ASCII character: tab, newline, vertical tab, form
    feed, carriage return, the four separators 28..31 and the blank. *)
Definition is_space (c : ascii) : bool :=
  let n := N_of_ascii c in
  ((9 <=? n)%N && (n <=? 13)%N) || ((28 <=? n)%N && (n <=? 32)%N).

Fixpoint lstrip (s : string) : string :=
  match s with
  | EmptyString => EmptyString
  | String c s' => if is_space c then lstrip s' else s
  end.

Fixpoint rstrip (s : string) : string :=
  match s with
  | EmptyString => EmptyString
  | String c s' =>
      match rstrip s' with
      | EmptyString => if is_space c then EmptyString else String c EmptyString
      | r => String c r
      end
  end.

(** [s.strip()] *)
Definition strip (s : string) : string := rstrip (lstrip s).

Definition nonempty (s : string) : bool :=
  match s with EmptyString => false | _ => true end.

(** [s.split(c)] for a one-character separator: always at least one piece. *)
Fixpoint split (sep : ascii) (s : string) : list string :=
  match s with
  | EmptyString => [EmptyString]
  | String c s' =>
      if Ascii.eqb c sep then EmptyString :: split sep s'
      else match split sep s' with
           | [] => [String c EmptyString]
           | w :: ws => String c w :: ws
           end
  end.

(** [sep.join(ws)] *)
Fixpoint join (sep : string) (ws : list string) : string :=
  match ws with
  | [] => EmptyString
  | [w] => w
  | w :: ws' => (w ++ sep ++ join sep ws')%string
  end.

Definition is_digit (c : ascii) : bool :=
  let n := N_of_ascii c in (48 <=? n)%N && (n <=? 57)%N.

Fixpoint all_digits (s : string) : bool :=
  match s with
  | EmptyString => true
  | String c s' => is_digit c && all_digits s'
  end.

(** [s.isdigit()]: non-empty and only decimal digits. *)
Definition isdigit (s : string) : bool := nonempty s && all_digits s.

Definition digit_val (c : ascii) : Z := Z.of_N (N_of_ascii c) - 48.

Fixpoint int_acc (acc : Z) (s : string) : Z :=
  match s with
  | EmptyString => acc
  | String c s' => int_acc (10 * acc + digit_val c) s'
  end.

(** [int(s)] on a string of decimal digits. *)
Definition int_of_digits (s : string) : Z := int_acc 0 s.

(** [str(z)] *)
Definition of_int (z : Z) : string := pretty z.

Lemma app_cons c (a b : string) : (String c a ++ b = String c (a ++ b))%string.
Proof. done. Qed.

Lemma app_assoc (a b c : string) : ((a ++ b) ++ c = a ++ (b ++ c))%string.
Proof. induction a as [|x a IH]; [done|]. exact (f_equal (String x) IH). Qed.

Lemma app_nil_r (a : string) : (a ++ "" = a)%string.
Proof. induction a as [|x a IH]; [done|]. exact (f_equal (String x) IH). Qed.

Lemma app_inv_head (a b c : string) : (a ++ b = a ++ c)%string -> b = c.
Proof. induction a as [|x a IH]; [done|]. rewrite !app_cons. intros [= H]. auto. Qed.

Lemma substring_all s : substring 0 (String.length s) s = s.
Proof. induction s as [|c s IH]; [done|]. exact (f_equal (String c) IH). Qed.

Lemma length_append (a b : string) : String.length (a ++ b) = (String.length a + String.length b)%nat.
Proof. induction a as [|c a IH]; [done|]. exact (f_equal S IH). Qed.

Lemma app_inv_tail (a b c : string) : (a ++ c = b ++ c)%string -> a = b.
Proof.
  revert b. induction a as [|x a IH]; intros [|y b] H; [done| | |].
  - exfalso. apply (f_equal String.length) in H. rewrite !length_append in H. cbn in H. lia.
  - exfalso. apply (f_equal String.length) in H. rewrite !length_append in H. cbn in H. lia.
  - rewrite !app_cons in H. injection H as -> H. f_equal. auto.
Qed.

Lemma prefix_app p s : String.prefix p (p ++ s) = true.
Proof.
  induction p as [|c p IH]; [by destruct s|]. rewrite app_cons. cbn.
  destruct (ascii_dec c c); [exact IH|congruence].
Qed.

Lemma prefix_spec p s : String.prefix p s = true <-> exists r, s = (p ++ r)%string.
Proof.
  split; [|intros [r ->]; apply prefix_app].
  revert s. induction p as [|c p IH]; intros s H; [by exists s|].
  destruct s as [|d s]; [done|]. cbn in H. destruct (ascii_dec c d) as [->|]; [|done].
  destruct (IH _ H) as [r ->]. by exists r.
Qed.

Lemma split_nonnil sep s : split sep s <> [].
Proof. destruct s as [|c s]; cbn; [done|]. destruct (Ascii.eqb c sep); [done|]. by destruct (split sep s). Qed.

(** A string without the separator is one piece. *)
Fixpoint has_char (sep : ascii) (s : string) : bool :=
  match s with
  | EmptyString => false
  | String c s' => Ascii.eqb c sep || has_char sep s'
  end.

Lemma has_char_app sep a b : has_char sep (a ++ b) = has_char sep a || has_char sep b.
Proof. induction a as [|c a IH]; [done|]. rewrite app_cons. cbn. rewrite IH. by destruct (Ascii.eqb c sep). Qed.

Lemma strip_absent s : (forall c, is_space c = true -> has_char c s = false) -> strip s = s.
Proof.
  intros H. unfold strip. assert (lstrip s = s) as ->.
  { destruct s as [|x s]; [done|]. cbn. destruct (is_space x) eqn:E; [|done].
    specialize (H x E). cbn in H. by rewrite Ascii.eqb_refl in H. }
  induction s as [|x s IH]; [done|]. cbn. rewrite IH.
  - destruct s; [|done]. destruct (is_space x) eqn:E; [|done]. specialize (H x E). cbn in H. by rewrite Ascii.eqb_refl in H.
  - intros c Hc. specialize (H c Hc). cbn in H. by apply orb_false_elim in H as [_ ?].
Qed.

Lemma split_no_sep sep w : has_char sep w = false -> split sep w = [w].
Proof.
  induction w as [|c w IH]; cbn; [done|]. intros [Hc Hw]%orb_false_elim.
  by rewrite Hc, (IH Hw).
Qed.

Lemma split_app_sep sep w r :
  has_char sep w = false -> split sep (w ++ String sep r) = w :: split sep r.
Proof.
  induction w as [|c w IH].
  - intros _. change (""%string ++ String sep r)%string with (String sep r). cbn. by rewrite Ascii.eqb_refl.
  - rewrite app_cons. cbn. intros [Hc Hw]%orb_false_elim. by rewrite Hc, (IH Hw).
Qed.

(** Splitting what [join] produced gives the pieces back. *)
Lemma split_join sep ws :
  ws <> [] -> Forall (fun w => has_char sep w = false) ws ->
  split sep (join (String sep EmptyString) ws) = ws.
Proof.
  induction ws as [|w ws IH]; [done|]. intros _ [Hw Hws]%Forall_cons_1.
  destruct ws as [|w2 ws]; [by apply split_no_sep|].
  change (join (String sep "") (w :: w2 :: ws))
    with (w ++ String sep (join (String sep "") (w2 :: ws)))%string.
  rewrite split_app_sep by done. f_equal. by apply IH.
Qed.

Lemma split_pieces_no_sep sep s : Forall (fun w => has_char sep w = false) (split sep s).
Proof.
  induction s as [|c s IH]; cbn; [by repeat constructor|].
  destruct (Ascii.eqb c sep) eqn:E; [by constructor|].
  destruct (split sep s) as [|w ws]; [by repeat constructor; cbn; rewrite E|].
  inversion IH; subst. constructor; [cbn; by rewrite E|done].
Qed.
End Str.

(** ** Decimal digits *)

Lemma digit_char n : (n < 10)%N ->
  Str.is_digit (pretty_N_char n) = true /\ Str.digit_val (pretty_N_char n) = Z.of_N n /\
  Ascii.eqb (pretty_N_char n) "-" = false.
Proof.
  revert n. apply (below_all _ 10). repeat constructor.
Qed.

(** Decimal digits read back as the number they were written from. *)
Lemma pretty_go_digits n : forall s,
  Str.all_digits s = true ->
  Str.all_digits (pretty_N_go n s) = true /\ Str.int_acc 0 (pretty_N_go n s) = Str.int_acc (Z.of_N n) s.
Proof.
  induction (N.lt_wf_0 n) as [n _ IH]. intros s Hs. destruct (decide (n = 0)%N) as [->|Hn]; [done|].
  rewrite pretty_N_go_step by lia. destruct (digit_char (n mod 10)) as (Hd & Hv & _); [by apply N.mod_lt|].
  destruct (IH (n / 10)%N (N.div_lt n 10 ltac:(lia) eq_refl) (String (pretty_N_char (n mod 10)) s)) as [H1 H2].
  { cbn. by rewrite Hd. }
  split; [done|]. rewrite H2. cbn. rewrite Hv. f_equal.
  rewrite (N.div_mod n 10) at 3 by done. lia.
Qed.

Lemma of_int_digits (z : Z) : (0 <= z)%Z ->
  Str.all_digits (Str.of_int z) = true /\ Str.int_of_digits (Str.of_int z) = z /\ Str.nonempty (Str.of_int z) = true.
Proof.
  intros Hz. destruct z as [|p|p]; [done| |lia].
  assert (E : Str.of_int (Z.pos p) = pretty_N_go (N.pos p) "") by done.
  destruct (pretty_go_digits (N.pos p) "" eq_refl) as [H1 H2]. rewrite E. split; [done|]. split; [exact H2|].
  destruct (pretty_N_go (N.pos p) "") eqn:Ee; [|done]. cbn in H2. discriminate H2.
Qed.

(** ** JSON values *)

Inductive json : Type :=
| JNull
| JBool (b : bool)
| JInt (z : Z)
| JFloat (f : spec_float)
| JStr (s : string)
| JArr (l : list json)
| JObj (d : list (string * json)).

Notation dict := (list (string * json)).

(** Induction over nested values. *)
Section json_induction.
Variable P : json -> Prop.
Hypothesis Pnull : P JNull.
Hypothesis Pbool : forall b, P (JBool b).
Hypothesis Pint : forall z, P (JInt z).
Hypothesis Pfloat : forall f, P (JFloat f).
Hypothesis Pstr : forall s, P (JStr s).
Hypothesis Parr : forall l, Forall P l -> P (JArr l).
Hypothesis Pobj : forall d, Forall (fun kv => P kv.2) d -> P (JObj d).

Fixpoint json_nested_ind (v : json) : P v :=
  match v with
  | JNull => Pnull
  | JBool b => Pbool b
  | JInt z => Pint z
  | JFloat f => Pfloat f
  | JStr s => Pstr s
  | JArr l =>
      Parr l ((fix go (l : list json) : Forall P l :=
                 match l with
                 | [] => Forall_nil_2 _
                 | x :: l' => Forall_cons_2 _ _ _ (json_nested_ind x) (go l')
                 end) l)
  | JObj d =>
      Pobj d ((fix go (d : dict) : Forall (fun kv => P kv.2) d :=
                 match d with
                 | [] => Forall_nil_2 _
                 | kv :: d' => Forall_cons_2 _ _ _ (json_nested_ind kv.2) (go d')
                 end) d)
  end.
End json_induction.

(** [bool(v)] *)
Definition truthy (v : json) : bool :=
  match v with
  | JNull => false
  | JBool b => b
  | JInt z => negb (z =? 0)%Z
  | JFloat (S754_zero _) => false
  | JFloat _ => true
  | JStr s => Str.nonempty s
  | JArr l => match l with [] => false | _ => true end
  | JObj d => match d with [] => false | _ => true end
  end.

(** [d.get(k)]: the value, or [None]. *)
Fixpoint dict_lookup (k : string) (d : dict) : option json :=
  match d with
  | [] => None
  | (k', v) :: d' => if String.eqb k k' then Some v else dict_lookup k d'
  end.

Definition dict_get (d : dict) (k : string) : json := default JNull (dict_lookup k d).

(** [d[k] = v]: replaces in place, else appends. *)
Fixpoint dict_set (d : dict) (k : string) (v : json) : dict :=
  match d with
  | [] => [(k, v)]
  | (k', v') :: d' => if String.eqb k k' then (k, v) :: d' else (k', v') :: dict_set d' k v
  end.

Lemma dict_lookup_set_eq d k v : dict_lookup k (dict_set d k v) = Some v.
Proof.
  induction d as [|[k' v'] d IH]; cbn; [by rewrite String.eqb_refl|].
  destruct (String.eqb k k') eqn:E; cbn; [by rewrite String.eqb_refl|]. by rewrite E.
Qed.

Lemma dict_lookup_set_ne d k k' v : k <> k' -> dict_lookup k (dict_set d k' v) = dict_lookup k d.
Proof.
  intros Hne. induction d as [|[k2 v2] d IH]; cbn.
  - by rewrite (proj2 (String.eqb_neq _ _) Hne).
  - destruct (String.eqb k' k2) eqn:E; cbn.
    + apply String.eqb_eq in E as <-. by rewrite (proj2 (String.eqb_neq _ _) Hne).
    + by rewrite IH.
Qed.

(** Optional values in a JSON literal. *)
Definition jopt_str (o : option string) : json := match o with Some s => JStr s | None => JNull end.

Definition as_str (v : json) : option string := match v with JStr s => Some s | _ => None end.
Definition as_int (v : json) : option Z := match v with JInt z => Some z | _ => None end.
Definition as_dict (v : json) : option dict := match v with JObj d => Some d | _ => None end.
