(* ===== verification/Redaction.v ===== *)
(** * Secret redaction of log and audit payloads

    Models [src/app/observability/redaction.py].  Every audit row goes through
    [assert_no_secrets], so the theorems here say what an audit row can carry. *)

From Stdlib Require Import Ascii String.
From S2P Require Import Prelude PyVal.

Open Scope string_scope.

Definition REDACTED : string := "***REDACTED***".

Definition _DENY_SUBSTRINGS : list string :=
  ["key"; "token"; "secret"; "password"; "authorization"; "credential"].

Definition _USAGE_COUNT_ALLOWLIST : list string :=
  ["input_tokens"; "output_tokens"; "total_tokens";
   "inputtokens"; "outputtokens"; "totaltokens";
   "cumulative_input_tokens"; "cumulative_output_tokens"; "cumulative_total_tokens";
   "cumulativeinputtokens"; "cumulativeoutputtokens"; "cumulativetotaltokens"].

Definition _IDEMPOTENCY_KEY_ALLOWLIST : list string := ["idempotencykey"; "idempotency_key"].

Definition _DENY_EXACT : list string :=
  ["apikey"; "transaction"; "jws"; "receipt"; "dek"; "nonce"; "encrypted_key";
   "encrypted_dek"; "x-admin-token"; "x_admin_token"].

Definition str_in (s : string) (l : list string) : bool := existsb (String.eqb s) l.

Definition _is_sensitive_key (key : string) : bool :=
  let lowered := Str.lower key in
  if str_in lowered _USAGE_COUNT_ALLOWLIST then false
  else if str_in lowered _IDEMPOTENCY_KEY_ALLOWLIST then false
  else if Str.endswith "status" lowered then false
  else if str_in lowered _DENY_EXACT then true
  else existsb (fun sub => Str.contains sub lowered) _DENY_SUBSTRINGS.

(** [_redact_attachments], with the recursive [redact] as its argument. *)
Definition _redact_attachments (redact : json -> json) (value : json) : json :=
  match value with
  | JArr items =>
      JArr (List.map (fun item =>
        match item with
        | JObj d => JObj (List.map (fun kv => (kv.1, if String.eqb kv.1 "data" then JStr REDACTED
                                                     else redact kv.2)) d)
        | _ => redact item
        end) items)
  | _ => redact value
  end.

Fixpoint redact (value : json) : json :=
  match value with
  | JObj d =>
      JObj (List.map (fun kv =>
        (kv.1, if _is_sensitive_key kv.1 then JStr REDACTED
               else if String.eqb (Str.lower kv.1) "attachments"
                    then _redact_attachments redact kv.2
               else redact kv.2)) d)
  | JArr l => JArr (List.map redact l)
  | _ => value
  end.

(** [assert_no_secrets] on a payload dict. *)
Definition redact_item (kv : string * json) : string * json :=
  (kv.1, if _is_sensitive_key kv.1 then JStr REDACTED
         else if String.eqb (Str.lower kv.1) "attachments" then _redact_attachments redact kv.2
         else redact kv.2).

Definition assert_no_secrets (payload : dict) : dict := List.map redact_item payload.

(** ** Where a value sits in a payload *)

(** [at_key v k x]: somewhere in [v] a dict maps [k] to [x]. *)
Inductive at_key : json -> string -> json -> Prop :=
| at_here d k x : (k, x) ∈ d -> at_key (JObj d) k x
| at_obj d k' y k x : (k', y) ∈ d -> at_key y k x -> at_key (JObj d) k x
| at_arr l y k x : y ∈ l -> at_key y k x -> at_key (JArr l) k x.

#[export] Hint Constructors at_key : hermes.

Lemma elem_of_Lmap {A B} (f : A -> B) l y : y ∈ List.map f l -> exists x, y = f x /\ x ∈ l.
Proof. intros H. apply list_elem_of_In, in_map_iff in H as (x & <- & Hx). exists x. by rewrite list_elem_of_In. Qed.

Lemma attachments_not_sensitive k :
  Str.lower k = "attachments" -> _is_sensitive_key k = false.
Proof. intros H. unfold _is_sensitive_key. by rewrite H. Qed.

Lemma redact_item_fst kv : (redact_item kv).1 = kv.1.
Proof. done. Qed.

Lemma redact_obj d : redact (JObj d) = JObj (assert_no_secrets d).
Proof. done. Qed.

(** A lookup goes through redaction when its key is neither sensitive nor an
    attachment list. *)
Lemma assert_no_secrets_lookup d k :
  _is_sensitive_key k = false -> String.eqb (Str.lower k) "attachments" = false ->
  dict_lookup k (assert_no_secrets d) = redact <$> dict_lookup k d.
Proof.
  intros Hs Ha. induction d as [|[k' v] d IH]; [done|].
  unfold assert_no_secrets in *. cbn [List.map dict_lookup redact_item fst snd].
  destruct (String.eqb k k') eqn:E; [|exact IH].
  apply String.eqb_eq in E as <-. by rewrite Hs, Ha.
Qed.

(** ** Idempotence *)

Section idempotent.
Let idem (v : json) : Prop := redact (redact v) = redact v.
Let idem_items (d : dict) : Prop := Forall (fun kv => idem kv.2) d.

Lemma Lmap_idem {A} (f : A -> A) l :
  Forall (fun x => f (f x) = f x) l -> List.map f (List.map f l) = List.map f l.
Proof. induction 1 as [|x l Hx _ IH]; cbn; [done|]. by rewrite Hx, IH. Qed.

Lemma redact_attachments_idem v :
  idem v ->
  match v with
  | JArr l => Forall (fun item => match item with JObj d => idem_items d | _ => idem item end) l
  | _ => True
  end ->
  _redact_attachments redact (_redact_attachments redact v) = _redact_attachments redact v.
Proof.
  destruct v as [|b|z|f|s|l|d]; cbn; intros Hv Hl; try done.
  f_equal. apply Lmap_idem. eapply Forall_impl; [exact Hl|]. intros item Hi.
  destruct item as [|b|z|f|s|l'|d]; try done. f_equal. apply Lmap_idem.
  eapply Forall_impl; [exact Hi|]. intros [k x] Hx. cbn [fst snd] in *.
  destruct (String.eqb k "data"); [done|]. by rewrite Hx.
Qed.

Lemma redact_idem_strong v :
  idem v /\
  match v with
  | JArr l => Forall (fun item => match item with JObj d => idem_items d | _ => idem item end) l
  | JObj d => idem_items d
  | _ => True
  end.
Proof.
  induction v as [| | | | |l IH|d IH] using json_nested_ind; try done.
  - split.
    + unfold idem. cbn. f_equal. apply Lmap_idem. eapply Forall_impl; [exact IH|]. by intros x [H _].
    + eapply Forall_impl; [exact IH|]. intros x [H1 H2]. by destruct x.
  - split.
    + unfold idem. rewrite !redact_obj. f_equal. apply Lmap_idem. eapply Forall_impl; [exact IH|].
      intros [k x] [H1 H2]. unfold redact_item. cbn [fst snd] in *.
      destruct (_is_sensitive_key k); [done|].
      destruct (String.eqb (Str.lower k) "attachments"); [|by rewrite H1].
      rewrite redact_attachments_idem; [done|done|]. by destruct x.
    + eapply Forall_impl; [exact IH|]. by intros x [H _].
Qed.
End idempotent.

Lemma redact_idem v : redact (redact v) = redact v.
Proof. exact (proj1 (redact_idem_strong v)). Qed.

(** ** What survives redaction *)

Lemma redact_no_secret_aux v k x :
  (forall k' x', at_key v k' x' -> Str.lower k' <> "attachments") ->
  at_key (redact v) k x -> _is_sensitive_key k = true -> x = JStr REDACTED.
Proof.
  induction v as [| | | | |l IH|d IH] using json_nested_ind; intros Hatt Hk Hs;
    try (by inversion Hk).
  - cbn in Hk. inversion Hk as [| |l' y k' x' Hy Hx]; subst.
    apply elem_of_Lmap in Hy as (z & -> & Hz).
    rewrite Forall_forall in IH. apply (IH z Hz); [|done|done].
    intros k' x' H. eapply Hatt, at_arr; eassumption.
  - rewrite redact_obj in Hk. rewrite Forall_forall in IH.
    inversion Hk as [d' k' x' Hin|d' k' y k2 x2 Hin Hx|]; subst;
      apply elem_of_Lmap in Hin as ([k3 z] & [= -> ->] & Hz); cbn in *.
    + by rewrite Hs.
    + assert (String.eqb (Str.lower k3) "attachments" = false) as Ha
        by (apply String.eqb_neq; eapply Hatt, at_here; eassumption).
      rewrite Ha in Hx. destruct (_is_sensitive_key k3); [by inversion Hx|].
      apply (IH _ Hz); [|done|done]. intros k' x' H. eapply Hatt, at_obj; eassumption.
Qed.

(** In the redacted copy of any payload that has no [attachments] field,
    at every depth, a dict entry whose key is sensitive holds the redaction
    mark: no value stored under such a key reaches a log line or an audit
    row. *)
Theorem redact_no_secret v k x :
  (forall k' x', at_key v k' x' -> Str.lower k' <> "attachments") ->
  at_key (redact v) k x -> _is_sensitive_key k = true -> x = JStr REDACTED.
Proof. apply redact_no_secret_aux. Qed.

Lemma redact_no_secret_witness :
  exists x, at_key (redact (JObj [("user", JObj [("apiKey", JStr "sk-1")])])) "apiKey" x /\
            x = JStr REDACTED.
Proof.
  eexists. assert (at_key (redact (JObj [("user", JObj [("apiKey", JStr "sk-1")])])) "apiKey"
                          (JStr REDACTED)) as H
    by (eapply at_obj; [left|]; apply at_here; left).
  split; [exact H|].
  apply (redact_no_secret (JObj [("user", JObj [("apiKey", JStr "sk-1")])]) "apiKey");
    [|exact H|reflexivity].
  intros k' x' Hk. inversion Hk as [d k1 x1 Hin|d k1 y k2 x2 Hin Hx|]; subst;
    apply list_elem_of_singleton in Hin; simplify_eq; [done|].
  inversion Hx as [d k1 x1 Hin|d k1 y k2 x2 Hin Hx2|]; subst;
    apply list_elem_of_singleton in Hin; simplify_eq; [done|]. inversion Hx2.
Defined.

(** The bytes of an inline attachment never survive: every [data] field of a
    dict in the attachment list of a payload is replaced by the mark. *)
Lemma attachment_data_redacted payload k items d x :
  Str.lower k = "attachments" ->
  (k, JArr items) ∈ assert_no_secrets payload -> JObj d ∈ items ->
  ("data", x) ∈ d -> x = JStr REDACTED.
Proof.
  intros Hk Hin Hd Hx. apply elem_of_Lmap in Hin as ([k' v] & [= <- Hv] & _).
  rewrite (attachments_not_sensitive _ Hk), Hk in Hv. cbn in Hv.
  destruct v as [|b|z|f|s|l|d']; try done. cbn in Hv. injection Hv as ->.
  apply elem_of_Lmap in Hd as (item & Hitem & _).
  destruct item as [|b|z|f|s|l'|d']; try done. injection Hitem as ->.
  apply elem_of_Lmap in Hx as ([k2 v2] & [= <- ->] & _). done.
Qed.

(** The guard of a dict's keys is not applied to the dicts of an
    attachment list: a credential stored there directly survives redaction. *)
Theorem attachment_item_secret_survives k s :
  String.eqb k "data" = false ->
  at_key (redact (JObj [("attachments", JArr [JObj [(k, JStr s)]])])) k (JStr s).
Proof.
  intros Hk. cbn. eapply at_obj; [left|]. eapply at_arr; [left|]. rewrite Hk. apply at_here. left.
Qed.

Lemma attachment_item_secret_survives_witness :
  _is_sensitive_key "apiKey" = true /\
  at_key (redact (JObj [("attachments", JArr [JObj [("apiKey", JStr "sk-1")]])])) "apiKey" (JStr "sk-1").
Proof. split; [reflexivity|]. apply (attachment_item_secret_survives "apiKey" "sk-1"). reflexivity. Defined.
