(* ===== verification/Store.v ===== *)
(** * The PostgreSQL store, the session and the error-and-state monad

    The rows of [src/app/models/tables.py] that the modelled services read or
    write, the transaction boundary of [src/app/db.py] ([session_scope],
    commit, rollback, savepoints), and the computations that run in it.

    Columns that only record wall-clock bookkeeping and that no modelled code
    reads ([updated_at] of most tables, [created_at] of the append-only ones)
    are left out; the ones the code does read are kept. *)

From Stdlib Require Import SpecFloat String.
From S2P Require Import Prelude PyVal Redaction.

Open Scope string_scope.
Open Scope list_scope.
Open Scope Z_scope.

(** A [uuid.UUID] is its 128-bit integer. *)
Notation uuid := N.

(** A [datetime] is its UTC instant in microseconds. *)
Notation instant := Z.

(** [str(u)]: 32 lower-case hexadecimal digits in groups of 8-4-4-4-12. *)
Definition hex_digit (n : N) : Ascii.ascii :=
  Ascii.ascii_of_N (if (n <? 10)%N then 48 + n else 87 + n)%N.

Fixpoint hex_digits (k : nat) (n : N) (acc : string) : string :=
  match k with
  | O => acc
  | S k' => hex_digits k' (n / 16)%N (String (hex_digit (n mod 16)) acc)
  end.

Definition uuid_str (u : uuid) : string :=
  let h := hex_digits 32 u "" in
  (substring 0 8 h ++ "-" ++ substring 8 4 h ++ "-" ++ substring 12 4 h ++ "-" ++
   substring 16 4 h ++ "-" ++ substring 20 12 h)%string.

(** ** Enumerations of the schema *)

Inductive SubscriptionStatus : Set := sub_active | sub_expired | sub_none.

Inductive ledger_tx_type : Set := credit | debit.

Inductive ByokState : Set :=
| byok_missing | byok_disabled | byok_invalid | byok_valid | byok_validating | byok_offline | byok_expired.

Inductive agent_run_status : Set :=
| run_running | run_paused | run_resumed | run_completed | run_failed | run_cancelled.

Inductive Mode : Set := mode_credits | mode_byok.

Inductive chat_role : Set := role_user | role_assistant | role_tool.

Inductive tool_call_status : Set := tc_pending | tc_completed | tc_errored.

#[global] Instance Mode_eq_dec : EqDecision Mode.
Proof. solve_decision. Defined.
#[global] Instance chat_role_eq_dec : EqDecision chat_role.
Proof. solve_decision. Defined.
#[global] Instance tool_call_status_eq_dec : EqDecision tool_call_status.
Proof. solve_decision. Defined.
#[global] Instance SubscriptionStatus_eq_dec : EqDecision SubscriptionStatus.
Proof. solve_decision. Defined.
#[global] Instance ledger_tx_type_eq_dec : EqDecision ledger_tx_type.
Proof. solve_decision. Defined.
#[global] Instance ByokState_eq_dec : EqDecision ByokState.
Proof. solve_decision. Defined.
#[global] Instance agent_run_status_eq_dec : EqDecision agent_run_status.
Proof. solve_decision. Defined.

(** ** Rows *)

Record UserRow : Type := mkUser { u_created_at : instant; u_trial_used : bool; u_display_name : option string }.

Definition with_trial (b : bool) (r : UserRow) : UserRow := mkUser r.(u_created_at) b r.(u_display_name).

Record Wallet : Type := mkWallet { balance : Z; debt : Z }.

Record LedgerTransaction : Type := mkLedger {
  lt_id : uuid;
  lt_user_id : uuid;
  lt_type : ledger_tx_type;
  lt_amount : Z;
  lt_meta : dict;
  lt_idempotency_key : string;
  lt_created_at : instant
}.

Record AuditLog : Type := mkAudit {
  al_user_id : uuid;
  al_session_id : option uuid;
  al_event_type : string;
  al_payload : dict
}.

Record Subscription : Type := mkSubscription {
  s_status : SubscriptionStatus;
  s_plan : option string;
  s_expires_at : option instant
}.

(** [bytes] are strings of 8-bit characters. *)
Record BYOKKey : Type := mkBYOKKey {
  bk_status : ByokState;
  bk_enabled : bool;
  bk_encrypted_key : string;
  bk_encrypted_dek : string;
  bk_nonce : string
}.

Record ChatSession : Type := mkChatSession {
  cs_user_id : uuid;
  cs_project_id : option string;
  cs_mode : Mode;
  cs_model : option string;
  cs_title : option string;
  cs_assistant_mode : string;
  cs_workspace_project_id : option uuid;
  cs_is_pinned : bool;
  cs_created_at : instant;
  cs_updated_at : instant
}.

Record ChatStep : Type := mkChatStep {
  st_id : uuid;
  st_seq : nat;
  st_session_id : uuid;
  st_message_step_id : uuid;
  st_role : chat_role;
  st_payload : dict;
  st_usage : option dict;
  st_created_at : instant
}.

Record ToolCall : Type := mkToolCall {
  tc_session_id : uuid;
  tc_message_step_id : uuid;
  tc_tool_name : string;
  tc_provider_tool_use_id : string;
  tc_args : dict;
  tc_status : tool_call_status;
  tc_result : option json;
  tc_created_at : instant
}.

Record SiteFile : Type := mkSiteFile {
  sf_content : string;
  sf_content_type : string;
  sf_size : Z
}.

Record UserPreferences : Type := mkUserPreferences {
  up_default_assistant_mode : string;
  up_notifications_enabled : bool;
  up_code_defaults : dict
}.

Record WorkspaceProject : Type := mkWorkspaceProject {
  wp_user_id : uuid;
  wp_name : string;
  wp_description : option string;
  wp_instructions : option string;
  wp_created_at : instant;
  wp_updated_at : instant
}.

Record WorkspaceFile : Type := mkWorkspaceFile {
  wf_workspace_project_id : uuid;
  wf_filename : string;
  wf_content : string;
  wf_media_type : string;
  wf_size : Z;
  wf_extracted_text : option string;
  wf_created_at : instant
}.

Record SubscriptionGrantEvent : Type := mkGrantEvent {
  ge_payload_hash : string;
  ge_plan : string;
  ge_expires_at : instant;
  ge_grant_credits : bool;
  ge_ledger_tx_id : option uuid
}.

Record AdaptyWebhookEvent : Type := mkAdaptyEvent {
  ae_user_id : uuid;
  ae_event_type : string;
  ae_payload : dict
}.

Record CloudPaymentsWebhookEvent : Type := mkCpEvent {
  ce_user_id : uuid;
  ce_product_id : string;
  ce_kind : string;
  ce_payload : dict
}.

Record AgentRun : Type := mkAgentRun {
  ar_user_id : uuid;
  ar_session_id : string;
  ar_status : agent_run_status;
  ar_cumulative_credits_spent : Z;
  ar_last_billed_step : Z;
  ar_paused_reason : option string;
  ar_continued_from : option string;
  ar_model : option string;
  ar_created_at : instant;
  ar_updated_at : instant
}.

Record AgentRunSnapshot : Type := mkSnapshot {
  sn_user_id : uuid;
  sn_result_text : string;
  sn_last_tool : option string;
  sn_pending_approval : option json;
  sn_input_tokens : Z;
  sn_output_tokens : Z;
  sn_updated_at : instant;
  sn_consumer_heartbeat_at : option instant
}.

Inductive hermes_instance_status : Set := hi_provisioning | hi_running | hi_stopped.

#[global] Instance hermes_instance_status_eq_dec : EqDecision hermes_instance_status.
Proof. solve_decision. Defined.

Record HermesInstance : Type := mkInstance {
  in_container_id : option string;
  in_endpoint : option string;
  in_api_key_enc : string;
  in_encrypted_dek : string;
  in_nonce : string;
  in_status : hermes_instance_status;
  in_port : option Z;
  in_last_active_at : instant;
  in_provisioning_started_at : option instant;
  in_created_at : instant
}.

Record AuthDevice : Type := mkAuthDevice { ad_user_id : uuid; ad_last_seen_at : instant }.

Record AuthIdentity : Type := mkAuthIdentity { ai_user_id : uuid; ai_email : option string }.

Record AuthRefreshToken : Type := mkAuthRefreshToken {
  rt_id : uuid;
  rt_user_id : uuid;
  rt_device_id : string;
  rt_expires_at : instant;
  rt_used_at : option instant;
  rt_revoked_at : option instant
}.

(** ** The database

    [projects] is keyed by its unique pair (owner, external id) and holds the
    row's id; [site_files] by its unique pair (project, path);
    [auth_identities] by its unique pair (provider, subject) and
    [auth_refresh_tokens] by its unique hash.  [chat_steps] is in insertion order. *)

Record Db : Type := mkDb {
  users : gmap uuid UserRow;
  chat_sessions : gmap uuid ChatSession;
  chat_steps : list ChatStep;
  tool_calls : gmap uuid ToolCall;
  projects : gmap (uuid * string) uuid;
  site_files : gmap (uuid * string) SiteFile;
  user_preferences : gmap uuid UserPreferences;
  workspace_projects : gmap uuid WorkspaceProject;
  workspace_files : gmap uuid WorkspaceFile;
  wallets : gmap uuid Wallet;
  ledger_transactions : list LedgerTransaction;
  audit_logs : list AuditLog;
  subscriptions : gmap uuid Subscription;
  byok_keys : gmap uuid BYOKKey;
  subscription_grant_events : gmap (uuid * string) SubscriptionGrantEvent;
  adapty_webhook_events : gmap string AdaptyWebhookEvent;
  cloudpayments_webhook_events : gmap string CloudPaymentsWebhookEvent;
  auth_devices : gmap string AuthDevice;
  auth_identities : gmap (string * string) AuthIdentity;
  auth_refresh_tokens : gmap string AuthRefreshToken;
  agent_runs : gmap string AgentRun;
  agent_run_snapshots : gmap string AgentRunSnapshot;
  hermes_instances : gmap uuid HermesInstance
}.

Definition empty_db : Db :=
  mkDb ∅ ∅ [] ∅ ∅ ∅ ∅ ∅ ∅ ∅ [] [] ∅ ∅ ∅ ∅ ∅ ∅ ∅ ∅ ∅ ∅ ∅.

Definition set_users (x : gmap uuid UserRow) (d : Db) : Db :=
  mkDb x d.(chat_sessions) d.(chat_steps) d.(tool_calls) d.(projects) d.(site_files) d.(user_preferences)
    d.(workspace_projects) d.(workspace_files) d.(wallets) d.(ledger_transactions) d.(audit_logs)
    d.(subscriptions) d.(byok_keys) d.(subscription_grant_events) d.(adapty_webhook_events)
    d.(cloudpayments_webhook_events) d.(auth_devices) d.(auth_identities) d.(auth_refresh_tokens)
    d.(agent_runs) d.(agent_run_snapshots) d.(hermes_instances).

Definition set_chat_sessions (x : gmap uuid ChatSession) (d : Db) : Db :=
  mkDb d.(users) x d.(chat_steps) d.(tool_calls) d.(projects) d.(site_files) d.(user_preferences)
    d.(workspace_projects) d.(workspace_files) d.(wallets) d.(ledger_transactions) d.(audit_logs)
    d.(subscriptions) d.(byok_keys) d.(subscription_grant_events) d.(adapty_webhook_events)
    d.(cloudpayments_webhook_events) d.(auth_devices) d.(auth_identities) d.(auth_refresh_tokens)
    d.(agent_runs) d.(agent_run_snapshots) d.(hermes_instances).

Definition set_chat_steps (x : list ChatStep) (d : Db) : Db :=
  mkDb d.(users) d.(chat_sessions) x d.(tool_calls) d.(projects) d.(site_files) d.(user_preferences)
    d.(workspace_projects) d.(workspace_files) d.(wallets) d.(ledger_transactions) d.(audit_logs)
    d.(subscriptions) d.(byok_keys) d.(subscription_grant_events) d.(adapty_webhook_events)
    d.(cloudpayments_webhook_events) d.(auth_devices) d.(auth_identities) d.(auth_refresh_tokens)
    d.(agent_runs) d.(agent_run_snapshots) d.(hermes_instances).

Definition set_tool_calls (x : gmap uuid ToolCall) (d : Db) : Db :=
  mkDb d.(users) d.(chat_sessions) d.(chat_steps) x d.(projects) d.(site_files) d.(user_preferences)
    d.(workspace_projects) d.(workspace_files) d.(wallets) d.(ledger_transactions) d.(audit_logs)
    d.(subscriptions) d.(byok_keys) d.(subscription_grant_events) d.(adapty_webhook_events)
    d.(cloudpayments_webhook_events) d.(auth_devices) d.(auth_identities) d.(auth_refresh_tokens)
    d.(agent_runs) d.(agent_run_snapshots) d.(hermes_instances).

Definition set_projects (x : gmap (uuid * string) uuid) (d : Db) : Db :=
  mkDb d.(users) d.(chat_sessions) d.(chat_steps) d.(tool_calls) x d.(site_files) d.(user_preferences)
    d.(workspace_projects) d.(workspace_files) d.(wallets) d.(ledger_transactions) d.(audit_logs)
    d.(subscriptions) d.(byok_keys) d.(subscription_grant_events) d.(adapty_webhook_events)
    d.(cloudpayments_webhook_events) d.(auth_devices) d.(auth_identities) d.(auth_refresh_tokens)
    d.(agent_runs) d.(agent_run_snapshots) d.(hermes_instances).

Definition set_site_files (x : gmap (uuid * string) SiteFile) (d : Db) : Db :=
  mkDb d.(users) d.(chat_sessions) d.(chat_steps) d.(tool_calls) d.(projects) x d.(user_preferences)
    d.(workspace_projects) d.(workspace_files) d.(wallets) d.(ledger_transactions) d.(audit_logs)
    d.(subscriptions) d.(byok_keys) d.(subscription_grant_events) d.(adapty_webhook_events)
    d.(cloudpayments_webhook_events) d.(auth_devices) d.(auth_identities) d.(auth_refresh_tokens)
    d.(agent_runs) d.(agent_run_snapshots) d.(hermes_instances).

Definition set_user_preferences (x : gmap uuid UserPreferences) (d : Db) : Db :=
  mkDb d.(users) d.(chat_sessions) d.(chat_steps) d.(tool_calls) d.(projects) d.(site_files) x
    d.(workspace_projects) d.(workspace_files) d.(wallets) d.(ledger_transactions) d.(audit_logs)
    d.(subscriptions) d.(byok_keys) d.(subscription_grant_events) d.(adapty_webhook_events)
    d.(cloudpayments_webhook_events) d.(auth_devices) d.(auth_identities) d.(auth_refresh_tokens)
    d.(agent_runs) d.(agent_run_snapshots) d.(hermes_instances).

Definition set_workspace_projects (x : gmap uuid WorkspaceProject) (d : Db) : Db :=
  mkDb d.(users) d.(chat_sessions) d.(chat_steps) d.(tool_calls) d.(projects) d.(site_files)
    d.(user_preferences) x d.(workspace_files) d.(wallets) d.(ledger_transactions) d.(audit_logs)
    d.(subscriptions) d.(byok_keys) d.(subscription_grant_events) d.(adapty_webhook_events)
    d.(cloudpayments_webhook_events) d.(auth_devices) d.(auth_identities) d.(auth_refresh_tokens)
    d.(agent_runs) d.(agent_run_snapshots) d.(hermes_instances).

Definition set_workspace_files (x : gmap uuid WorkspaceFile) (d : Db) : Db :=
  mkDb d.(users) d.(chat_sessions) d.(chat_steps) d.(tool_calls) d.(projects) d.(site_files)
    d.(user_preferences) d.(workspace_projects) x d.(wallets) d.(ledger_transactions) d.(audit_logs)
    d.(subscriptions) d.(byok_keys) d.(subscription_grant_events) d.(adapty_webhook_events)
    d.(cloudpayments_webhook_events) d.(auth_devices) d.(auth_identities) d.(auth_refresh_tokens)
    d.(agent_runs) d.(agent_run_snapshots) d.(hermes_instances).

Definition set_wallets (x : gmap uuid Wallet) (d : Db) : Db :=
  mkDb d.(users) d.(chat_sessions) d.(chat_steps) d.(tool_calls) d.(projects) d.(site_files)
    d.(user_preferences) d.(workspace_projects) d.(workspace_files) x d.(ledger_transactions) d.(audit_logs)
    d.(subscriptions) d.(byok_keys) d.(subscription_grant_events) d.(adapty_webhook_events)
    d.(cloudpayments_webhook_events) d.(auth_devices) d.(auth_identities) d.(auth_refresh_tokens)
    d.(agent_runs) d.(agent_run_snapshots) d.(hermes_instances).

Definition set_ledger_transactions (x : list LedgerTransaction) (d : Db) : Db :=
  mkDb d.(users) d.(chat_sessions) d.(chat_steps) d.(tool_calls) d.(projects) d.(site_files)
    d.(user_preferences) d.(workspace_projects) d.(workspace_files) d.(wallets) x d.(audit_logs)
    d.(subscriptions) d.(byok_keys) d.(subscription_grant_events) d.(adapty_webhook_events)
    d.(cloudpayments_webhook_events) d.(auth_devices) d.(auth_identities) d.(auth_refresh_tokens)
    d.(agent_runs) d.(agent_run_snapshots) d.(hermes_instances).

Definition set_audit_logs (x : list AuditLog) (d : Db) : Db :=
  mkDb d.(users) d.(chat_sessions) d.(chat_steps) d.(tool_calls) d.(projects) d.(site_files)
    d.(user_preferences) d.(workspace_projects) d.(workspace_files) d.(wallets) d.(ledger_transactions) x
    d.(subscriptions) d.(byok_keys) d.(subscription_grant_events) d.(adapty_webhook_events)
    d.(cloudpayments_webhook_events) d.(auth_devices) d.(auth_identities) d.(auth_refresh_tokens)
    d.(agent_runs) d.(agent_run_snapshots) d.(hermes_instances).

Definition set_subscriptions (x : gmap uuid Subscription) (d : Db) : Db :=
  mkDb d.(users) d.(chat_sessions) d.(chat_steps) d.(tool_calls) d.(projects) d.(site_files)
    d.(user_preferences) d.(workspace_projects) d.(workspace_files) d.(wallets) d.(ledger_transactions)
    d.(audit_logs) x d.(byok_keys) d.(subscription_grant_events) d.(adapty_webhook_events)
    d.(cloudpayments_webhook_events) d.(auth_devices) d.(auth_identities) d.(auth_refresh_tokens)
    d.(agent_runs) d.(agent_run_snapshots) d.(hermes_instances).

Definition set_byok_keys (x : gmap uuid BYOKKey) (d : Db) : Db :=
  mkDb d.(users) d.(chat_sessions) d.(chat_steps) d.(tool_calls) d.(projects) d.(site_files)
    d.(user_preferences) d.(workspace_projects) d.(workspace_files) d.(wallets) d.(ledger_transactions)
    d.(audit_logs) d.(subscriptions) x d.(subscription_grant_events) d.(adapty_webhook_events)
    d.(cloudpayments_webhook_events) d.(auth_devices) d.(auth_identities) d.(auth_refresh_tokens)
    d.(agent_runs) d.(agent_run_snapshots) d.(hermes_instances).

Definition set_subscription_grant_events (x : gmap (uuid * string) SubscriptionGrantEvent) (d : Db) : Db :=
  mkDb d.(users) d.(chat_sessions) d.(chat_steps) d.(tool_calls) d.(projects) d.(site_files)
    d.(user_preferences) d.(workspace_projects) d.(workspace_files) d.(wallets) d.(ledger_transactions)
    d.(audit_logs) d.(subscriptions) d.(byok_keys) x d.(adapty_webhook_events)
    d.(cloudpayments_webhook_events) d.(auth_devices) d.(auth_identities) d.(auth_refresh_tokens)
    d.(agent_runs) d.(agent_run_snapshots) d.(hermes_instances).

Definition set_adapty_webhook_events (x : gmap string AdaptyWebhookEvent) (d : Db) : Db :=
  mkDb d.(users) d.(chat_sessions) d.(chat_steps) d.(tool_calls) d.(projects) d.(site_files)
    d.(user_preferences) d.(workspace_projects) d.(workspace_files) d.(wallets) d.(ledger_transactions)
    d.(audit_logs) d.(subscriptions) d.(byok_keys) d.(subscription_grant_events) x
    d.(cloudpayments_webhook_events) d.(auth_devices) d.(auth_identities) d.(auth_refresh_tokens)
    d.(agent_runs) d.(agent_run_snapshots) d.(hermes_instances).

Definition set_cloudpayments_webhook_events (x : gmap string CloudPaymentsWebhookEvent) (d : Db) : Db :=
  mkDb d.(users) d.(chat_sessions) d.(chat_steps) d.(tool_calls) d.(projects) d.(site_files)
    d.(user_preferences) d.(workspace_projects) d.(workspace_files) d.(wallets) d.(ledger_transactions)
    d.(audit_logs) d.(subscriptions) d.(byok_keys) d.(subscription_grant_events) d.(adapty_webhook_events) x
    d.(auth_devices) d.(auth_identities) d.(auth_refresh_tokens) d.(agent_runs) d.(agent_run_snapshots)
    d.(hermes_instances).

Definition set_auth_devices (x : gmap string AuthDevice) (d : Db) : Db :=
  mkDb d.(users) d.(chat_sessions) d.(chat_steps) d.(tool_calls) d.(projects) d.(site_files)
    d.(user_preferences) d.(workspace_projects) d.(workspace_files) d.(wallets) d.(ledger_transactions)
    d.(audit_logs) d.(subscriptions) d.(byok_keys) d.(subscription_grant_events) d.(adapty_webhook_events)
    d.(cloudpayments_webhook_events) x d.(auth_identities) d.(auth_refresh_tokens) d.(agent_runs)
    d.(agent_run_snapshots) d.(hermes_instances).

Definition set_auth_identities (x : gmap (string * string) AuthIdentity) (d : Db) : Db :=
  mkDb d.(users) d.(chat_sessions) d.(chat_steps) d.(tool_calls) d.(projects) d.(site_files)
    d.(user_preferences) d.(workspace_projects) d.(workspace_files) d.(wallets) d.(ledger_transactions)
    d.(audit_logs) d.(subscriptions) d.(byok_keys) d.(subscription_grant_events) d.(adapty_webhook_events)
    d.(cloudpayments_webhook_events) d.(auth_devices) x d.(auth_refresh_tokens) d.(agent_runs)
    d.(agent_run_snapshots) d.(hermes_instances).

Definition set_auth_refresh_tokens (x : gmap string AuthRefreshToken) (d : Db) : Db :=
  mkDb d.(users) d.(chat_sessions) d.(chat_steps) d.(tool_calls) d.(projects) d.(site_files)
    d.(user_preferences) d.(workspace_projects) d.(workspace_files) d.(wallets) d.(ledger_transactions)
    d.(audit_logs) d.(subscriptions) d.(byok_keys) d.(subscription_grant_events) d.(adapty_webhook_events)
    d.(cloudpayments_webhook_events) d.(auth_devices) d.(auth_identities) x d.(agent_runs)
    d.(agent_run_snapshots) d.(hermes_instances).

Definition set_agent_runs (x : gmap string AgentRun) (d : Db) : Db :=
  mkDb d.(users) d.(chat_sessions) d.(chat_steps) d.(tool_calls) d.(projects) d.(site_files)
    d.(user_preferences) d.(workspace_projects) d.(workspace_files) d.(wallets) d.(ledger_transactions)
    d.(audit_logs) d.(subscriptions) d.(byok_keys) d.(subscription_grant_events) d.(adapty_webhook_events)
    d.(cloudpayments_webhook_events) d.(auth_devices) d.(auth_identities) d.(auth_refresh_tokens) x
    d.(agent_run_snapshots) d.(hermes_instances).

Definition set_agent_run_snapshots (x : gmap string AgentRunSnapshot) (d : Db) : Db :=
  mkDb d.(users) d.(chat_sessions) d.(chat_steps) d.(tool_calls) d.(projects) d.(site_files)
    d.(user_preferences) d.(workspace_projects) d.(workspace_files) d.(wallets) d.(ledger_transactions)
    d.(audit_logs) d.(subscriptions) d.(byok_keys) d.(subscription_grant_events) d.(adapty_webhook_events)
    d.(cloudpayments_webhook_events) d.(auth_devices) d.(auth_identities) d.(auth_refresh_tokens)
    d.(agent_runs) x d.(hermes_instances).

Definition set_hermes_instances (x : gmap uuid HermesInstance) (d : Db) : Db :=
  mkDb d.(users) d.(chat_sessions) d.(chat_steps) d.(tool_calls) d.(projects) d.(site_files)
    d.(user_preferences) d.(workspace_projects) d.(workspace_files) d.(wallets) d.(ledger_transactions)
    d.(audit_logs) d.(subscriptions) d.(byok_keys) d.(subscription_grant_events) d.(adapty_webhook_events)
    d.(cloudpayments_webhook_events) d.(auth_devices) d.(auth_identities) d.(auth_refresh_tokens)
    d.(agent_runs) d.(agent_run_snapshots) x.

(** ** Settings, environment and world *)

(** Chat, website, workspace and attachment limits. *)
Record ChatSettings : Type := mkChatSettings {
  llm_provider : string;
  anthropic_model : string;
  openai_model : string;
  anthropic_models_raw : option json;
  openai_models_raw : option json;
  byok_default_model : string;
  openai_byok_default_model : string;
  session_soft_ttl_us : Z;
  max_server_tool_rounds : nat;
  service_domain : string;
  preview_url_secret : string;
  preview_url_ttl_seconds : Z;
  preview_max_file_bytes : Z;
  preview_max_project_bytes : Z;
  preview_max_files : Z;
  attachment_max_count : Z;
  attachment_max_bytes_image : Z;
  attachment_max_bytes_document : Z;
  attachment_total_bytes : Z;
  attachment_pdf_max_pages : Z;
  workspace_file_max_count : Z;
  workspace_file_max_bytes : Z;
  workspace_files_total_bytes : Z;
  workspace_context_max_chars : N
}.

(** The settings the modelled services read ([src/app/config.py]).  A [..._raw]
    field holds what [json.loads] made of the variable; [None] is a document
    that does not parse.  A [..._us] field is the source's [..._seconds] in
    microseconds. *)
Record Settings : Type := mkSettings {
  agent_debt_reconcile_enabled : bool;
  agent_incremental_billing_enabled : bool;
  subscription_credits_per_period : Z;
  token_products_raw : option json;
  adapty_product_tokens_raw : option json;
  adapty_subscription_tokens_grant : Z;
  cloudpayments_api_token : string;
  cloudpayments_product_tokens_raw : option json;
  cloudpayments_subscription_tokens_grant : Z;
  cloudpayments_paid_statuses : list string;
  cloudpayments_payment_freshness_hours : Z;
  credits_per_1k_input : spec_float;
  credits_per_1k_output : spec_float;
  agent_state_flush_interval_us : Z;
  agent_state_result_text_max_chars : N;
  hermes_launch_budget_us : Z;
  hermes_launch_retry_attempts : Z;
  hermes_launch_retry_backoff_us : Z;
  agent_run_orphan_timeout_seconds : Z;
  agent_run_orphan_max_per_tick : nat;
  agent_run_orphan_redis_grace_seconds : Z;
  chat : ChatSettings
}.

(** What a request sees of the outside: the settings, the values
    [gen_random_uuid()] will return, the readings of the process clocks (wall
    and monotonic), the transaction timestamp and the request id. *)
Record Env : Type := mkEnv {
  env_settings : Settings;
  env_gen_random_uuid : nat -> uuid;
  env_clock : nat -> instant;
  env_monotonic : nat -> Z;
  env_pg_now : instant;
  env_request_id : option string
}.

(** The Docker host: containers by id, and the text of each instance's
    [config.yaml] by path. *)
Record Container : Type := mkContainer { ct_name : string; ct_running : bool }.

Record Host : Type := mkHost { containers : gmap string Container; config_files : gmap string string }.

(** The mutable world: the session's view of the database, the committed
    database, how many uuids and clock readings were drawn, the next value of
    the identity sequence of [chat_steps], and the Prometheus counters
    incremented so far (newest first), and the Docker host.  Only [w_db] is
    rolled back. *)
Record World : Type := mkWorld {
  w_db : Db;
  w_committed : Db;
  w_uuids : nat;
  w_ticks : nat;
  w_seq : nat;
  w_metrics : list (string * string);
  w_host : Host
}.

Definition with_db (d : Db) (w : World) : World :=
  mkWorld d w.(w_committed) w.(w_uuids) w.(w_ticks) w.(w_seq) w.(w_metrics) w.(w_host).

(** ** Exceptions *)

Inductive exn : Type :=
(* src/app/errors.py *)
| ConflictError (message : string)
| InsufficientCreditsError (message : string)
| ForbiddenError (message : string)
| UnauthorizedError (message : string)
| ServiceUnavailableError (message : string)
| RateLimitedError (message : string)
| SubscriptionRequiredError (message : string)
| NotFoundError (message : string)
| SessionNotFoundError (message : string)
| UserNotFoundError (message : string)
| WorkspaceNotFoundError (message : string)
| MessageNotFoundError (message : string)
| ValidationFailedError (message : string)
| BadRequestError (message : string)
| PayloadTooLargeError (message : string)
| RunNotResumableError (message : string)
| ResumeInProgressError (message : string)
| SessionExpiredError (message : string)
| UpstreamError (message : string)
| UpstreamTimeoutError (message : string)
| CloudPaymentsWebhookMisconfiguredError (message : string)
| CloudPaymentsVerificationUnavailableError (message : string)
| CloudPaymentsCheckoutNotConfiguredError (message : string)
(* src/app/billing_adapty/auth.py *)
| AdaptyWebhookMisconfiguredError (message : string)
(* FastAPI: the body or a parameter does not fit its schema *)
| RequestValidationError
(* src/app/chat/anthropic_client.py, openai_client.py *)
| LLMAuthError
(* src/app/chat/tools.py *)
| UnknownToolNameError
(* cryptography *)
| InvalidTag
| InvalidSignature
(* jwt, errors that are not an InvalidTokenError *)
| InvalidKeyError
(* src/app/website/service.py *)
| SiteFileError (code message : string)
(* raised inside WalletService only *)
| RetryNormalPath
(* raised by the database driver *)
| IntegrityError
| DataError
| LockNotAvailable
(* Python *)
| AssertionError
| TypeError
| ValueError
| AttributeError
| KeyError
| IndexError
| OverflowError
| RuntimeError
(* asyncio: the task is cancelled at an [await] *)
| CancelledError.

#[global] Instance exn_eq_dec : EqDecision exn.
Proof. solve_decision. Defined.

(** [except ConflictError] also catches its subclasses. *)
Definition is_ConflictError (e : exn) : bool :=
  match e with
  | ConflictError _ | InsufficientCreditsError _ | RunNotResumableError _
  | ResumeInProgressError _ | SessionExpiredError _ => true
  | _ => false
  end.

Definition is_InsufficientCreditsError (e : exn) : bool :=
  match e with InsufficientCreditsError _ => true | _ => false end.

Definition is_SQLAlchemyError (e : exn) : bool :=
  match e with IntegrityError | DataError | LockNotAvailable => true | _ => false end.

(** ** The monad of service code *)

(** A computation reads the environment, changes the world and returns a value
    or raises.  An exception keeps the changes made before it; undoing them is
    what savepoints and [session_scope] do. *)
Definition M (A : Type) : Type := Env -> World -> (exn + A) * World.

#[global] Instance M_ret : MRet M := fun A a _ w => (inr a, w).

#[global] Instance M_bind : MBind M := fun A B k m e w =>
  match m e w with
  | (inl x, w') => (inl x, w')
  | (inr a, w') => k a e w'
  end.

Definition raise {A} (x : exn) : M A := fun _ w => (inl x, w).

Definition settings : M Settings := fun e w => (inr e.(env_settings), w).

Definition get_db : M Db := fun _ w => (inr w.(w_db), w).

Definition modify_db (f : Db -> Db) : M unit := fun _ w => (inr tt, with_db (f w.(w_db)) w).

Definition gen_random_uuid : M uuid := fun e w =>
  (inr (e.(env_gen_random_uuid) w.(w_uuids)),
   mkWorld w.(w_db) w.(w_committed) (S w.(w_uuids)) w.(w_ticks) w.(w_seq) w.(w_metrics) w.(w_host)).

Definition py_now : M instant := fun e w =>
  (inr (e.(env_clock) w.(w_ticks)),
   mkWorld w.(w_db) w.(w_committed) w.(w_uuids) (S w.(w_ticks)) w.(w_seq) w.(w_metrics) w.(w_host)).

Definition py_monotonic : M Z := fun e w =>
  (inr (e.(env_monotonic) w.(w_ticks)),
   mkWorld w.(w_db) w.(w_committed) w.(w_uuids) (S w.(w_ticks)) w.(w_seq) w.(w_metrics) w.(w_host)).

(** The next value of an [Identity(always=True)] column; sequences are not
    rolled back. *)
Definition nextval : M nat := fun _ w =>
  (inr w.(w_seq), mkWorld w.(w_db) w.(w_committed) w.(w_uuids) w.(w_ticks) (S w.(w_seq)) w.(w_metrics) w.(w_host)).

Definition pg_now : M instant := fun e w => (inr e.(env_pg_now), w).

Definition get_request_id : M (option string) := fun e w => (inr e.(env_request_id), w).

(** [metric.labels(result=label).inc()] *)
Definition metric_inc (metric label : string) : M unit := fun _ w =>
  (inr tt, mkWorld w.(w_db) w.(w_committed) w.(w_uuids) w.(w_ticks) w.(w_seq) ((metric, label) :: w.(w_metrics)) w.(w_host)).

(** [try: m except E: h]: [h x] is [None] when [x] is not caught. *)
Definition try_except {A} (m : M A) (h : exn -> option (M A)) : M A := fun e w =>
  match m e w with
  | (inl x, w') => match h x with Some k => k e w' | None => (inl x, w') end
  | ok => ok
  end.

(** [async with session.begin_nested(): m]: an exception rolls the database
    back to the savepoint and propagates. *)
Definition begin_nested {A} (m : M A) : M A := fun e w =>
  match m e w with
  | (inl x, w') => (inl x, with_db w.(w_db) w')
  | ok => ok
  end.

Definition commit : M unit := fun _ w =>
  (inr tt, mkWorld w.(w_db) w.(w_db) w.(w_uuids) w.(w_ticks) w.(w_seq) w.(w_metrics) w.(w_host)).

Definition rollback : M unit := fun _ w => (inr tt, with_db w.(w_committed) w).

(** [session_scope]: commit on success, roll back and propagate on error. *)
Definition session_scope {A} (m : M A) : M A := fun e w =>
  match m e w with
  | (inl x, w') => (inl x, with_db w'.(w_committed) w')
  | (inr a, w') => (inr a, mkWorld w'.(w_db) w'.(w_db) w'.(w_uuids) w'.(w_ticks) w'.(w_seq) w'.(w_metrics) w'.(w_host))
  end.

(** ** Column constraints *)

Definition int8_min : Z := - 2 ^ 63.
Definition int8_max : Z := 2 ^ 63 - 1.

(** A value sent for, or computed into, a BIGINT column: out of range raises
    [DataError]. *)
Definition int8 (z : Z) : M Z :=
  if (int8_min <=? z) && (z <=? int8_max) then mret z else raise DataError.

(** A CHECK or FOREIGN KEY constraint. *)
Definition check_constraint (ok : bool) : M unit :=
  if ok then mret tt else raise IntegrityError.

Definition session_owner (d : Db) (s : uuid) : option uuid := cs_user_id <$> d.(chat_sessions) !! s.

Definition user_exists (d : Db) (u : uuid) : bool :=
  match d.(users) !! u with Some _ => true | None => false end.
