(* ===== verification/Fixtures.v ===== *)
(** * A concrete deployment

    The default settings of [src/app/config.py] and a small database, on which
    the theorems are evaluated. *)

From Stdlib Require Import SpecFloat Ascii String.
From S2P Require Import Prelude PyVal Redaction Store.

Open Scope string_scope.
Open Scope list_scope.
Open Scope Z_scope.

(** 1.0 and 5.0 as binary64. *)
Definition float_1 : spec_float := S754_finite false 4503599627370496 (-52).
Definition float_5 : spec_float := S754_finite false 5629499534213120 (-50).

Definition chat_defaults : ChatSettings :=
  mkChatSettings "anthropic" "claude-sonnet-4-5" "gpt-4o" (Some (JObj [])) (Some (JObj [])) "claude-sonnet-4-6" "gpt-4o"
    86400000000 16 "" "preview-secret" 900 1048576 10485760 200 10 5242880 8388608 10485760 100 20 8388608 33554432
    200000.

Definition default_settings : Settings :=
  mkSettings true false 1000 (Some (JObj [])) (Some (JObj [])) 1000 "cp-token" (Some (JObj [])) 1000
    ["succeeded"] 72 float_1 float_5 3000000 65536 150000000 3 2000000 900 20 600 chat_defaults.

Definition demo_env : Env :=
  mkEnv default_settings (fun n => N.of_nat (1000 + n)) (fun _ => 1700000000000000) (fun n => 1000000 * Z.of_nat n)
    1700000000000000 (Some "req-1").

Definition alice : uuid := 7%N.
Definition bob : uuid := 8%N.
Definition alice_session : uuid := 70%N.

(** Two users, one chat session, no money yet. *)
Definition demo_db : Db :=
  set_chat_sessions
    {[ alice_session := mkChatSession alice None mode_credits None None "chat" None false 1700000000000000 1700000000000000 ]}
    (set_users {[ alice := mkUser 0 false None; bob := mkUser 0 false None ]} empty_db).

Definition world_of (d : Db) : World := mkWorld d d 0 0 0 [] (mkHost ∅ ∅).

Lemma world_of_db d : (world_of d).(w_db) = d.
Proof. done. Qed.

Lemma world_of_committed d : (world_of d).(w_committed) = d.
Proof. done. Qed.

Definition demo_world : World := world_of demo_db.

(** ** A rendering of instants

    One text per instant, without separators: a sign and binary digits. *)

Fixpoint pos_text (p : positive) : string :=
  match p with
  | xH => "1"
  | xO p' => String "0" (pos_text p')
  | xI p' => String "1" (pos_text p')
  end.

Definition demo_isoformat (t : instant) : string :=
  match t with
  | Z0 => "T"
  | Zpos p => String "+" (pos_text p)
  | Zneg p => String "-" (pos_text p)
  end.

Lemma pos_text_inj p q : pos_text p = pos_text q -> p = q.
Proof.
  revert q. induction p as [p IH|p IH|]; intros [q|q|] H; cbn in H; try done; injection H as H;
    try (f_equal; by apply IH); by destruct p || by destruct q.
Qed.

Lemma demo_isoformat_inj s t : demo_isoformat s = demo_isoformat t -> s = t.
Proof. destruct s, t; cbn; intros H; try done; injection H as H; f_equal; by apply pos_text_inj. Qed.

Lemma demo_isoformat_no_sep t : Str.has_char "031" (demo_isoformat t) = false.
Proof. destruct t as [|p|p]; cbn; [done|..]; induction p as [p IH|p IH|]; cbn; done. Qed.

Fixpoint pos_parse (s : string) : option positive :=
  match s with
  | EmptyString => None
  | String c EmptyString => if Ascii.eqb c "1" then Some xH else None
  | String c s' => p ← pos_parse s'; Some (if Ascii.eqb c "0" then xO p else xI p)
  end.

Definition demo_fromisoformat (s : string) : option instant :=
  match s with
  | String c r => if Ascii.eqb c "T" then Some 0 else if Ascii.eqb c "+" then Zpos <$> pos_parse r else Zneg <$> pos_parse r
  | EmptyString => None
  end.

Lemma pos_parse_text p : pos_parse (pos_text p) = Some p.
Proof.
  induction p as [p IH|p IH|]; [| |done]; cbn [pos_text pos_parse]; rewrite IH; by destruct p.
Qed.

Lemma demo_fromisoformat_isoformat t : demo_fromisoformat (demo_isoformat t) = Some t.
Proof. destruct t as [|p|p]; cbn; [done|..]; by rewrite pos_parse_text. Qed.

Lemma demo_isoformat_no_bar t : Str.has_char "|" (demo_isoformat t) = false.
Proof. destruct t as [|p|p]; cbn; [done|..]; induction p as [p IH|p IH|]; cbn; done. Qed.
