(* ===== verification/AuditTrail.v ===== *)
(** * Append-only audit log

    Models [src/app/audit/service.py]: one event becomes one row, written in
    the caller's transaction after redaction. *)

From Stdlib Require Import String.
From S2P Require Import Prelude PyVal Redaction Store.

Open Scope string_scope.
Open Scope list_scope.

Definition EVENT_BILLING_DEBIT : string := "billing_debit".
Definition EVENT_BILLING_DEBIT_INSUFFICIENT : string := "billing_debit_insufficient".
Definition EVENT_BILLING_CREDIT : string := "billing_credit".
Definition EVENT_BILLING_DEBT_REPAID : string := "billing_debt_repaid".
Definition EVENT_ADAPTY_SUBSCRIPTION : string := "adapty_subscription".
Definition EVENT_CLOUDPAYMENTS_PAYMENT : string := "cloudpayments_payment".
Definition EVENT_ADMIN_GRANT : string := "admin_grant".
Definition EVENT_ADMIN_SUBSCRIPTION_GRANT : string := "admin_subscription_grant".
Definition EVENT_ADMIN_DEBIT : string := "admin_debit".

Record AuditEvent : Type := mkAuditEvent {
  ev_user_id : uuid;
  ev_session_id : option uuid;
  ev_event_type : string;
  ev_payload : dict
}.

(** The row an event becomes. *)
Definition audit_row (rid : option string) (ev : AuditEvent) : AuditLog :=
  mkAudit ev.(ev_user_id) ev.(ev_session_id) ev.(ev_event_type)
    (assert_no_secrets (dict_set ev.(ev_payload) "requestId" (jopt_str rid))).

Definition session_exists (d : Db) (s : option uuid) : bool :=
  match s with
  | None => true
  | Some sid => match session_owner d sid with Some _ => true | None => false end
  end.

(** [AuditService.record]: the foreign keys on the user and the session are
    checked when the row is flushed. *)
Definition record (ev : AuditEvent) : M unit :=
  rid ← get_request_id;
  d ← get_db;
  check_constraint (user_exists d ev.(ev_user_id));;
  check_constraint (session_exists d ev.(ev_session_id));;
  modify_db (fun d => set_audit_logs (d.(audit_logs) ++ [audit_row rid ev]) d).

(** An integer field of an audit row. *)
Definition audit_int (k : string) (r : AuditLog) : Z :=
  match dict_get r.(al_payload) k with JInt z => z | _ => 0 end.

Lemma audit_row_int rid ev k z :
  _is_sensitive_key k = false -> String.eqb (Str.lower k) "attachments" = false ->
  k <> "requestId" -> dict_lookup k ev.(ev_payload) = Some (JInt z) ->
  audit_int k (audit_row rid ev) = z.
Proof.
  intros Hs Ha Hk Hl. unfold audit_int, dict_get, audit_row. cbn.
  rewrite assert_no_secrets_lookup by done. by rewrite dict_lookup_set_ne, Hl.
Qed.
