(* ===== verification/Logic.v ===== *)
(** * Invariants of service code

    [keeps I J m]: the computation [m] keeps the invariant [I] of the session's
    view of the database and the invariant [J] of what is committed, whatever
    it returns or raises; the one exception is a statement aborted by [DataError], after
    which PostgreSQL refuses to go on until the transaction is rolled back. *)

From Stdlib Require Import String.
From S2P Require Import Prelude PyVal Redaction Store.

Section keeps.
Context (I J : Db -> Prop).

Definition sound (w : World) : Prop := I w.(w_db) /\ J w.(w_committed).

Definition keeps {A} (m : M A) : Prop :=
  forall e w, sound w ->
  let '(r, w') := m e w in
  J w'.(w_committed) /\ (r <> inl DataError -> I w'.(w_db)).

Lemma keeps_ret {A} (a : A) : keeps (mret a).
Proof. intros e w [H1 H2]. done. Qed.

Lemma keeps_raise {A} x : keeps (raise (A := A) x).
Proof. intros e w [H1 H2]. done. Qed.

Lemma keeps_bind {A B} (m : M A) (k : A -> M B) :
  keeps m -> (forall a, keeps (k a)) -> keeps (m ≫= k).
Proof.
  intros Hm Hk e w Hw. specialize (Hm e w Hw). unfold mbind, M_bind.
  destruct (m e w) as [[x|a] w']; [|apply Hk; split; by apply Hm].
  split; [apply Hm|]. intros Hx. apply Hm. congruence.
Qed.

Lemma keeps_get_db : keeps get_db.
Proof. intros e w [H1 H2]. done. Qed.

Lemma keeps_settings : keeps settings.
Proof. intros e w [H1 H2]. done. Qed.

Lemma keeps_request_id : keeps get_request_id.
Proof. intros e w [H1 H2]. done. Qed.

Lemma keeps_gen_random_uuid : keeps gen_random_uuid.
Proof. intros e w [H1 H2]. done. Qed.

Lemma keeps_py_now : keeps py_now.
Proof. intros e w [H1 H2]. done. Qed.

Lemma keeps_py_monotonic : keeps py_monotonic.
Proof. intros e w [H1 H2]. done. Qed.

Lemma keeps_pg_now : keeps pg_now.
Proof. intros e w [H1 H2]. done. Qed.

Lemma keeps_metric m l : keeps (metric_inc m l).
Proof. intros e w [H1 H2]. done. Qed.

Lemma keeps_int8 z : keeps (int8 z).
Proof. unfold int8. destruct (_ && _); [apply keeps_ret|apply keeps_raise]. Qed.

Lemma keeps_check b : keeps (check_constraint b).
Proof. destruct b; [apply keeps_ret|apply keeps_raise]. Qed.

Lemma keeps_modify f : (forall d, I d -> I (f d)) -> keeps (modify_db f).
Proof. intros Hf e w [H1 H2]. cbn. auto. Qed.

Lemma keeps_commit : (forall d, I d -> J d) -> keeps commit.
Proof. intros Hc e w [H1 H2]. cbn. auto. Qed.

Lemma keeps_rollback : (forall d, J d -> I d) -> keeps rollback.
Proof. intros Hc e w [H1 H2]. cbn. auto. Qed.

(** A savepoint also recovers from [DataError]. *)
Lemma keeps_nested {A} (m : M A) : keeps m -> keeps (begin_nested m).
Proof.
  intros Hm e w Hw. specialize (Hm e w Hw). unfold begin_nested.
  destruct (m e w) as [[x|a] w']; cbn; [|done]. destruct Hw as [H1 H2].
  split; [apply Hm|done].
Qed.

(** After a savepoint the session is sound even on [DataError]. *)
Lemma nested_sound {A} (m : M A) e w :
  keeps m -> sound w -> sound (begin_nested m e w).2.
Proof.
  intros Hm Hw. specialize (Hm e w Hw). unfold begin_nested, sound.
  destruct (m e w) as [[x|a] w']; cbn.
  - destruct Hw, Hm. done.
  - destruct Hm as [? H]. split; [by apply H|done].
Qed.

Lemma keeps_try {A} (m : M A) h :
  keeps m -> h DataError = None -> (forall x k, h x = Some k -> keeps k) ->
  keeps (try_except m h).
Proof.
  intros Hm Hd Hh e w Hw. specialize (Hm e w Hw). unfold try_except.
  destruct (m e w) as [[x|a] w']; [|exact Hm].
  destruct (h x) as [k|] eqn:Ek; [|done].
  apply (Hh _ _ Ek). split; apply Hm; congruence.
Qed.

End keeps.

Section scope.
Context (I : Db -> Prop) {A : Type} (m : M A).
Hypothesis Hm : keeps I I m.

(** One request: whatever it does, what is committed stays sound. *)
Lemma scope_sound e w : sound I I w -> sound I I (session_scope m e w).2.
Proof.
  intros Hw. pose proof (Hm e w Hw) as H. unfold session_scope, sound.
  destruct (m e w) as [[x|a] w']; cbn; destruct H as [H1 H2]; [done|].
  split; by apply H2.
Qed.

Lemma keeps_scope : keeps I I (session_scope m).
Proof.
  intros e w Hw. pose proof (scope_sound e w Hw) as [H1 H2].
  by destruct (session_scope m e w) as [r w'].
Qed.
End scope.

(** ** What one run keeps

    [holds e I m]: under the environment [e], whatever [m] returns or raises,
    the session's database still satisfies [I]. *)
Definition holds (e : Env) (I : Db -> Prop) {A} (m : M A) : Prop :=
  forall w, I w.(w_db) -> I (m e w).2.(w_db).

Section holds.
Context (e : Env) (I : Db -> Prop).

Lemma holds_silent {A} (m : M A) : (forall w, (m e w).2.(w_db) = w.(w_db)) -> holds e I m.
Proof. intros H w Hw. by rewrite H. Qed.

Lemma holds_bind {A B} (m : M A) (k : A -> M B) :
  holds e I m -> (forall a, holds e I (k a)) -> holds e I (m ≫= k).
Proof.
  intros Hm Hk w Hw. specialize (Hm w Hw). unfold mbind, M_bind.
  destruct (m e w) as [[x|a] w']; [done|by apply Hk].
Qed.

Lemma holds_try {A} (m : M A) h :
  holds e I m -> (forall x k, h x = Some k -> holds e I k) -> holds e I (try_except m h).
Proof.
  intros Hm Hh w Hw. specialize (Hm w Hw). unfold try_except. destruct (m e w) as [[x|a] w']; [|done].
  destruct (h x) as [k|] eqn:E; [by apply (Hh x)|done].
Qed.

Lemma holds_check b : holds e I (check_constraint b).
Proof. apply holds_silent. by destruct b. Qed.

Lemma holds_int8 z : holds e I (int8 z).
Proof. apply holds_silent. intros w. unfold int8. by destruct (_ && _). Qed.

Lemma holds_modify f : (forall d, I d -> I (f d)) -> holds e I (modify_db f).
Proof. intros H w Hw. cbn. auto. Qed.
End holds.

(** Walk through a computation, leaving the writes. *)
Ltac holds_step :=
  match goal with
  | |- holds _ _ (mbind _ _) => apply holds_bind; [|intros ?]
  | |- holds _ _ (match ?x with _ => _ end) => destruct x
  | |- holds _ _ (try_except _ _) => apply holds_try
  | |- holds _ _ (check_constraint _) => apply holds_check
  | |- holds _ _ (int8 _) => apply holds_int8
  | |- holds _ _ (modify_db _) => apply holds_modify; intros ? ?
  | |- holds _ _ _ => solve [apply holds_silent; done]
  end.

Ltac holds_walk := repeat (first [solve [eauto 2 with hermes] | holds_step]).

(** A computation that never commits. *)
Definition uncommitted {A} (m : M A) : Prop :=
  forall e w, (m e w).2.(w_committed) = w.(w_committed).

Lemma uncommitted_keeps {A} (m : M A) :
  (forall c, keeps (fun _ => True) (eq c) m) -> uncommitted m.
Proof.
  intros H e w. specialize (H w.(w_committed) e w (conj I eq_refl)).
  destruct (m e w) as [r w']. by destruct H.
Qed.

#[export] Hint Resolve keeps_ret keeps_raise keeps_get_db keeps_settings keeps_request_id
  keeps_gen_random_uuid keeps_py_now keeps_py_monotonic keeps_pg_now keeps_metric keeps_int8 keeps_check
  keeps_commit keeps_rollback keeps_nested keeps_scope : hermes.

(** Walk through a computation, leaving what the database does not know. *)
Ltac keeps_step :=
  match goal with
  | |- keeps _ _ (mbind _ _) => apply keeps_bind; [|intros ?]
  | |- keeps _ _ (match ?x with _ => _ end) => destruct x
  | |- keeps _ _ (let '(_, _) := ?x in _) => destruct x
  | |- keeps _ _ (begin_nested _) => apply keeps_nested
  | |- keeps _ _ (try_except _ _) =>
      apply keeps_try;
      [ | done | let x := fresh in let k := fresh in let H := fresh in
                 intros x k H; destruct x; simplify_eq/= ]
  | |- keeps _ _ (modify_db _) => apply keeps_modify; intros ? ?
  end.

Ltac keeps_walk := repeat (first [solve [eauto 2 with hermes] | keeps_step]).

(** ** Outcomes

    [ends e P m Q E]: run in [e] from a world in [P], [m] returns in [Q] or
    raises in [E]. *)
Definition ends (e : Env) {A} (P : World -> Prop) (m : M A) (Q : A -> World -> Prop) (E : exn -> World -> Prop) : Prop :=
  forall w, P w -> match m e w with (inl x, w') => E x w' | (inr a, w') => Q a w' end.

Section ends.
Context (e : Env) {A : Type}.
Implicit Types (P : World -> Prop) (m : M A) (Q : A -> World -> Prop) (E : exn -> World -> Prop).

Lemma ends_bind {B} P m (k : A -> M B) R Q E :
  ends e P m Q E -> (forall a, ends e (Q a) (k a) R E) -> ends e P (m ≫= k) R E.
Proof.
  intros Hm Hk w Hw. specialize (Hm w Hw). unfold mbind, M_bind.
  destruct (m e w) as [[x|a] w']; [done|]. by apply Hk.
Qed.

(** A prefix that keeps an invariant. *)
Lemma ends_keeps I J m : keeps I J m ->
  ends e (sound I J) m (fun _ => sound I J) (fun _ w => J w.(w_committed)).
Proof.
  intros Hm w Hw. specialize (Hm e w Hw). destruct (m e w) as [[x|a] w']; [apply Hm|].
  destruct Hm as [H1 H2]. split; [by apply H2|done].
Qed.

Lemma ends_then {B} I J m (k : A -> M B) R E :
  keeps I J m -> (forall x w, J w.(w_committed) -> E x w) ->
  (forall a, ends e (sound I J) (k a) R E) -> ends e (sound I J) (m ≫= k) R E.
Proof.
  intros Hm HE Hk. apply (ends_bind _ _ _ _ (fun _ => sound I J)); [|done].
  intros w Hw. pose proof (ends_keeps I J m Hm w Hw) as H. destruct (m e w) as [[x|a] w']; auto.
Qed.

(** The same when the exceptions must tell about the session too. *)
Lemma ends_then_db {B} I J m (k : A -> M B) R E :
  keeps I J m -> (forall x w, J w.(w_committed) -> (x <> DataError -> I w.(w_db)) -> E x w) ->
  (forall a, ends e (sound I J) (k a) R E) -> ends e (sound I J) (m ≫= k) R E.
Proof.
  intros Hm HE Hk. apply (ends_bind _ _ _ _ (fun _ => sound I J)); [|done].
  intros w Hw. specialize (Hm e w Hw). destruct (m e w) as [[x|a] w']; destruct Hm as [H1 H2].
  - apply HE; [done|]. intros Hx. apply H2. congruence.
  - split; [by apply H2|done].
Qed.

Lemma ends_try P m h Q E (F : exn -> World -> Prop) :
  ends e P m Q F -> (forall x w, h x = None -> F x w -> E x w) ->
  (forall x k, h x = Some k -> ends e (F x) k Q E) -> ends e P (try_except m h) Q E.
Proof.
  intros Hm Hn Hs w Hw. specialize (Hm w Hw). unfold try_except. destruct (m e w) as [[x|a] w']; [|done].
  destruct (h x) as [k|] eqn:Eh; [by apply (Hs x)|by apply Hn].
Qed.

Lemma ends_weaken P P' m Q Q' E E' :
  ends e P m Q E -> (forall w, P' w -> P w) -> (forall a w, Q a w -> Q' a w) -> (forall x w, E x w -> E' x w) ->
  ends e P' m Q' E'.
Proof. intros H HP HQ HE w Hw. specialize (H w (HP _ Hw)). destruct (m e w) as [[x|a] w']; auto. Qed.

(** A handler that begins by rolling back needs only what is committed. *)
Lemma keeps_recover I J m (h : exn -> M A) :
  (forall d, J d -> I d) -> keeps I J m -> (forall x, keeps I J (h x)) ->
  keeps I J (try_except m (fun x => Some (rollback;; h x))).
Proof.
  intros HJI Hm Hh e' w Hw. specialize (Hm e' w Hw). unfold try_except. destruct (m e' w) as [[x|a] w']; [|done].
  apply (Hh x e' (with_db w'.(w_committed) w')). destruct Hm as [H1 H2]. split; [by apply HJI|done].
Qed.
End ends.

Lemma keeps_and {A} (I J I' J' : Db -> Prop) (m : M A) :
  keeps I J m -> keeps I' J' m -> keeps (fun d => I d /\ I' d) (fun d => J d /\ J' d) m.
Proof.
  intros H H' e w [[H1 H2] [H3 H4]]. specialize (H e w (conj H1 H3)). specialize (H' e w (conj H2 H4)).
  destruct (m e w) as [r w']. destruct H, H'. auto.
Qed.
