(* ===== verification/Like.v ===== *)
(** * SQL [LIKE] with an escape character

    The pattern language that [WalletService.charged_for_run] builds its
    per-step key pattern in, and why escaping makes the pattern a literal
    prefix test. *)

From Stdlib Require Import Ascii String.
From S2P Require Import Prelude PyVal.

Open Scope char_scope.
Open Scope string_scope.

Definition backslash : ascii := "092".

(** [s.replace(c, r)] for a one-character [c]. *)
Fixpoint replace_char (c : ascii) (r : string) (s : string) : string :=
  match s with
  | EmptyString => ""
  | String x s' => (if Ascii.eqb x c then r else String x "") ++ replace_char c r s'
  end.

(** [p] holds of some suffix of [s]. *)
Fixpoint any_suffix (p : string -> bool) (s : string) : bool :=
  p s || match s with EmptyString => false | String _ s' => any_suffix p s' end.

(** [s LIKE pat ESCAPE '\'].  A pattern that ends in a bare escape is an error
    in PostgreSQL; it matches nothing here and is never built. *)
Fixpoint like (pat s : string) {struct pat} : bool :=
  match pat with
  | EmptyString => match s with EmptyString => true | _ => false end
  | String c pat' =>
      if Ascii.eqb c backslash then
        match pat' with
        | EmptyString => false
        | String x pat'' =>
            match s with String y s' => Ascii.eqb x y && like pat'' s' | EmptyString => false end
        end
      else if Ascii.eqb c "%" then any_suffix (like pat') s
      else if Ascii.eqb c "_" then
        match s with String _ s' => like pat' s' | EmptyString => false end
      else
        match s with String y s' => Ascii.eqb c y && like pat' s' | EmptyString => false end
  end.

(** The three [replace] calls of [charged_for_run]. *)
Definition escape_like (s : string) : string :=
  replace_char "_" (String backslash "_")
    (replace_char "%" (String backslash "%")
      (replace_char backslash (String backslash (String backslash "")) s)).

Lemma replace_char_app c r a b :
  replace_char c r (a ++ b) = replace_char c r a ++ replace_char c r b.
Proof.
  induction a as [|x a IH]; [done|]. rewrite Str.app_cons. cbn.
  by rewrite IH, Str.app_assoc.
Qed.

Definition is_meta (c : ascii) : bool :=
  Ascii.eqb c backslash || Ascii.eqb c "%" || Ascii.eqb c "_".

Lemma replace_char_single c r x :
  replace_char c r (String x "") = if Ascii.eqb x c then r else String x "".
Proof. cbn. apply Str.app_nil_r. Qed.

Lemma escape_like_cons c s :
  escape_like (String c s) =
  (if is_meta c then String backslash (String c "") else String c "") ++ escape_like s.
Proof.
  unfold escape_like, is_meta. cbn [replace_char].
  destruct (Ascii.eqb_spec c backslash) as [->|H1]; cbn [orb].
  { by rewrite !replace_char_app. }
  rewrite !replace_char_app, replace_char_single. f_equal.
  destruct (Ascii.eqb_spec c "%") as [->|H2]; [done|].
  rewrite replace_char_single. cbn [orb]. by destruct (Ascii.eqb_spec c "_") as [->|].
Qed.

Lemma like_percent s : like "%" s = true.
Proof.
  cbn. induction s as [|x s IH]; [done|]. cbn. exact IH.
Qed.

(** An escaped prefix matches literally. *)
Lemma like_escape_iff r pat s :
  like (escape_like r ++ pat) s = true <-> exists t, s = r ++ t /\ like pat t = true.
Proof.
  revert s. induction r as [|c r IH]; intros s.
  { change (escape_like "" ++ pat) with pat. split; [by exists s|by intros (t & -> & H)]. }
  rewrite escape_like_cons, Str.app_assoc.
  assert (Hstep : like ((if is_meta c then String backslash (String c "") else String c "") ++ escape_like r ++ pat) s =
          match s with String y s' => Ascii.eqb c y && like (escape_like r ++ pat) s' | EmptyString => false end).
  { unfold is_meta. destruct (Ascii.eqb_spec c backslash) as [->|H1]; [done|].
    destruct (Ascii.eqb_spec c "%") as [->|H2]; [done|].
    destruct (Ascii.eqb_spec c "_") as [->|H3]; [done|]. cbn [orb].
    rewrite Str.app_cons. cbn [like].
    by rewrite (proj2 (Ascii.eqb_neq _ _) H1), (proj2 (Ascii.eqb_neq _ _) H2), (proj2 (Ascii.eqb_neq _ _) H3). }
  rewrite Hstep. destruct s as [|y s].
  { split; [done|]. intros (t & Ht & _). discriminate. }
  destruct (Ascii.eqb_spec c y) as [<-|Hne]; cbn.
  - rewrite IH. split.
    + intros (t & -> & H). by exists t.
    + intros (t & Ht & H). exists t. rewrite Str.app_cons in Ht. by simplify_eq.
  - split; [done|]. intros (t & Ht & _). rewrite Str.app_cons in Ht. by simplify_eq.
Qed.

(** The pattern [escape(r) + ":%"] selects exactly the strings that start with
    [r + ":"]. *)
Lemma like_run_prefix r s :
  like (escape_like r ++ ":%") s = Str.startswith (r ++ ":") s.
Proof.
  apply eq_true_iff_eq. rewrite like_escape_iff. unfold Str.startswith. rewrite Str.prefix_spec. split.
  - intros (t & -> & H). destruct t as [|y t]; [done|]. change (like ":%" (String y t)) with
      (Ascii.eqb ":" y && like "%" t) in H. apply andb_prop in H as [Hy%Ascii.eqb_eq _]. subst y.
    exists t. by rewrite Str.app_assoc.
  - intros (t & ->). exists (String ":" t). rewrite Str.app_assoc. split; [done|].
    change (like ":%" (String ":" t)) with (Ascii.eqb ":" ":" && like "%" t). by rewrite like_percent.
Qed.
