(* ===== verification/Wallet.v ===== *)
(** * Wallet and ledger

    Models [src/app/wallet/service.py]: atomic, idempotent debits and grants
    over the [wallets] and [ledger_transactions] tables. *)

From Stdlib Require Import Ascii String.
From stdpp Require Import sorting.
From S2P Require Import Prelude PyVal Redaction Store AuditTrail Like.

Open Scope string_scope.
Open Scope list_scope.
Open Scope Z_scope.

Definition _AGENT_RUN_SOURCE : string := "agent_run".
Definition _NIL_TX_ID : uuid := 0%N.

Record ConsumeResult : Type := mkConsumeResult {
  cr_new_balance : Z;
  cr_ledger_tx_id : uuid;
  cr_idempotent_replay : bool;
  cr_charged_amount : Z
}.

Record GrantResult : Type := mkGrantResult {
  gr_new_balance : Z;
  gr_ledger_tx_id : uuid;
  gr_idempotent_replay : bool
}.

(** ** Statements *)

Definition is_tx (u : uuid) (key : string) (t : LedgerTransaction) : bool :=
  N.eqb t.(lt_user_id) u && String.eqb t.(lt_idempotency_key) key.

(** INSERT INTO ledger_transactions ... ON CONFLICT DO NOTHING RETURNING id *)
Definition insert_ledger (u : uuid) (ty : ledger_tx_type) (amount : Z) (meta : dict) (key : string) :
    M (option uuid) :=
  amount ← int8 amount;
  id ← gen_random_uuid;
  check_constraint (0 <? amount);;
  d ← get_db;
  match find_first (is_tx u key) d.(ledger_transactions) with
  | Some _ => mret None
  | None =>
      check_constraint (user_exists d u);;
      now ← pg_now;
      modify_db (fun d =>
        set_ledger_transactions (d.(ledger_transactions) ++ [mkLedger id u ty amount meta key now]) d);;
      mret (Some id)
  end.

(** UPDATE wallets SET ... WHERE user_id = :uid AND guard RETURNING ... *)
Definition update_wallet (u : uuid) (guard : Wallet -> bool) (f : Wallet -> Wallet) : M (option Wallet) :=
  d ← get_db;
  match d.(wallets) !! u with
  | None => mret None
  | Some w =>
      if guard w then
        b ← int8 (f w).(balance);
        t ← int8 (f w).(debt);
        check_constraint (0 <=? b);;
        check_constraint (0 <=? t);;
        modify_db (fun d => set_wallets (<[u := mkWallet b t]> d.(wallets)) d);;
        mret (Some (mkWallet b t))
      else mret None
  end.

(** ** Private reads and writes of the service *)

Definition _ensure_wallet (u : uuid) : M unit :=
  d ← get_db;
  match d.(wallets) !! u with
  | Some _ => mret tt
  | None =>
      check_constraint (user_exists d u);;
      modify_db (fun d => set_wallets (<[u := mkWallet 0 0]> d.(wallets)) d)
  end.

Definition _existing_tx (u : uuid) (key : string) : M (option LedgerTransaction) :=
  d ← get_db; mret (find_first (is_tx u key) d.(ledger_transactions)).

Definition wallet_balance (d : Db) (u : uuid) : Z :=
  match d.(wallets) !! u with Some w => w.(balance) | None => 0 end.

Definition wallet_debt (d : Db) (u : uuid) : Z :=
  match d.(wallets) !! u with Some w => w.(debt) | None => 0 end.

Definition _current_balance (u : uuid) : M Z := d ← get_db; mret (wallet_balance d u).
Definition current_balance (u : uuid) : M Z := _current_balance u.
Definition _current_debt (u : uuid) : M Z := d ← get_db; mret (wallet_debt d u).
Definition current_debt (u : uuid) : M Z := _current_debt u.

(** [charged_for_run]: SUM over the debits of the run's own key and of its
    per-step keys. *)
Definition charged_for_run (u : uuid) (run_id : string) : M Z :=
  let prefix := (escape_like run_id ++ ":%")%string in
  d ← get_db;
  mret (sumZ lt_amount
          (filter (fun t => t.(lt_user_id) = u /\ t.(lt_type) = debit /\
                     (t.(lt_idempotency_key) = run_id \/
                      Is_true (like prefix t.(lt_idempotency_key))))
             d.(ledger_transactions))).

Definition _validate_session (u sid : uuid) : M unit :=
  d ← get_db;
  match session_owner d sid with
  | None => raise (SessionNotFoundError "session not found")
  | Some owner =>
      if N.eqb owner u then mret tt
      else raise (ForbiddenError "session does not belong to user")
  end.

(** ** Debits *)

Definition _debit_in_savepoint (u : uuid) (amount : Z) (key : string) (meta : dict) :
    M (option uuid * option Z) :=
  begin_nested (
    inserted_id ← insert_ledger u debit amount meta key;
    match inserted_id with
    | None => mret (None, None)
    | Some id =>
        updated ← update_wallet u (fun w => amount <=? w.(balance))
                    (fun w => mkWallet (w.(balance) - amount) w.(debt));
        match updated with
        | None =>
            metric_inc "wallet_debit_total" "fail";;
            raise (InsufficientCreditsError "insufficient_credits")
        | Some w => mret (Some id, Some w.(balance))
        end
    end).

Definition _agent_reconcile_applies (meta : dict) : M bool :=
  match dict_get meta "source" with
  | JStr s => if String.eqb s _AGENT_RUN_SOURCE
              then s ← settings; mret s.(agent_debt_reconcile_enabled)
              else mret false
  | _ => mret false
  end.

Definition _consume_agent_with_debt (u : uuid) (amount : Z) (key : string) (meta : dict) :
    M (option ConsumeResult) :=
  existing ← _existing_tx u key;
  match existing with
  | Some tx =>
      current ← _current_balance u;
      mret (Some (mkConsumeResult current tx.(lt_id) true 0))
  | None =>
      bal ← _current_balance u;
      if amount <=? bal then mret None
      else if bal <=? 0 then mret None
      else
        let partial := bal in
        let delta := amount - bal in
        res ← try_except
          (begin_nested (
             inserted_id ← insert_ledger u debit partial meta key;
             match inserted_id with
             | None =>
                 existing ← _existing_tx u key;
                 match existing with
                 | None => raise (ConflictError "idempotency conflict")
                 | Some tx =>
                     current ← _current_balance u;
                     mret (inl (Some (mkConsumeResult current tx.(lt_id) true 0)))
                 end
             | Some id =>
                 delta ← int8 delta;
                 updated ← update_wallet u (fun w => partial <=? w.(balance))
                             (fun w => mkWallet (w.(balance) - partial) (w.(debt) + delta));
                 match updated with
                 | None => raise RetryNormalPath
                 | Some w => mret (inr (id, w.(debt)))
                 end
             end))
          (fun x => match x with RetryNormalPath => Some (mret (inl None)) | _ => None end);
        match res with
        | inl r => mret r
        | inr (id, new_debt) =>
            metric_inc "wallet_debit_total" "partial";;
            record (mkAuditEvent u None EVENT_BILLING_DEBIT_INSUFFICIENT
              [("runId", dict_get meta "runId"); ("usage", dict_get meta "usage");
               ("model", dict_get meta "model"); ("requiredAmount", JInt amount);
               ("partialDebited", JInt partial); ("debtAdded", JInt delta);
               ("debt", JInt new_debt)]);;
            mret (Some (mkConsumeResult 0 id false partial))
        end
  end.

(** The result row of the clamp statement: [(tx_id, charged, new_balance)]. *)
Definition clamp_statement (u : uuid) (amount : Z) (key : string) (meta : dict) :
    M (option uuid * option Z * option Z) :=
  amount ← int8 amount;
  d ← get_db;
  match d.(wallets) !! u with
  | None => mret (None, None, None)
  | Some w =>
      if 0 <? w.(balance) then
        let charged := Z.min amount w.(balance) in
        ins ← insert_ledger u debit charged meta key;
        match ins with
        | None => mret (None, None, Some w.(balance))
        | Some id =>
            upd ← update_wallet u (fun _ => true)
                    (fun w => mkWallet (w.(balance) - charged) w.(debt));
            mret (Some id, Some charged,
                  match upd with Some w' => Some w'.(balance) | None => Some w.(balance) end)
        end
      else mret (None, None, Some w.(balance))
  end.

Definition _consume_incremental_clamp (u : uuid) (amount : Z) (key : string) (meta : dict) :
    M ConsumeResult :=
  existing ← _existing_tx u key;
  match existing with
  | Some tx =>
      bal ← _current_balance u;
      mret (mkConsumeResult bal tx.(lt_id) true 0)
  | None =>
      row ← clamp_statement u amount key meta;
      let '(tx_id, charged, nb) := row in
      let new_balance := default 0 nb in
      match tx_id with
      | None =>
          replay ← _existing_tx u key;
          mret (match replay with
                | Some tx => mkConsumeResult new_balance tx.(lt_id) true 0
                | None => mkConsumeResult new_balance _NIL_TX_ID false 0
                end)
      | Some id =>
          let charged := default 0 charged in
          metric_inc "wallet_debit_total" "success";;
          record (mkAuditEvent u None EVENT_BILLING_DEBIT
            [("ledgerTxId", JStr (uuid_str id)); ("amount", JInt charged);
             ("newBalance", JInt new_balance); ("runId", dict_get meta "runId");
             ("stepIndex", dict_get meta "stepIndex"); ("model", dict_get meta "model")]);;
          mret (mkConsumeResult new_balance id false charged)
      end
  end.

(** The path of [consume] after the agent branches. *)
Definition consume_full (u : uuid) (amount : Z) (key : string) (meta : dict) (sid : option uuid) :
    M ConsumeResult :=
  r ← _debit_in_savepoint u amount key meta;
  match r with
  | (None, _) =>
      existing ← _existing_tx u key;
      match existing with
      | None => raise (ConflictError "idempotency conflict")
      | Some tx =>
          if negb (bool_decide (tx.(lt_type) = debit)) || negb (tx.(lt_amount) =? amount)
          then raise (ConflictError "idempotency key reused with different payload")
          else
            bal ← _current_balance u;
            mret (mkConsumeResult bal tx.(lt_id) true 0)
      end
  | (Some _, None) => raise AssertionError
  | (Some id, Some new_balance) =>
      metric_inc "wallet_debit_total" "success";;
      record (mkAuditEvent u sid EVENT_BILLING_DEBIT
        [("ledgerTxId", JStr (uuid_str id)); ("amount", JInt amount);
         ("newBalance", JInt new_balance);
         ("sessionId", jopt_str (uuid_str <$> sid)); ("model", dict_get meta "model")]);;
      mret (mkConsumeResult new_balance id false amount)
  end.

(** The three-way choice of [consume], after its guards. *)
Definition consume_rest (u : uuid) (amount : Z) (key : string) (meta : dict) (sid : option uuid) :
    M ConsumeResult :=
  if truthy (dict_get meta "incremental") then _consume_incremental_clamp u amount key meta
  else
    applies ← _agent_reconcile_applies meta;
    reconciled ← (if (applies : bool) then _consume_agent_with_debt u amount key meta else mret None);
    match reconciled with
    | Some r => mret r
    | None => consume_full u amount key meta sid
    end.

Definition consume (u : uuid) (amount : Z) (key : string) (meta : dict) (sid : option uuid) :
    M ConsumeResult :=
  if amount <=? 0 then raise (ConflictError "amount must be positive")
  else
    match sid with Some s => _validate_session u s | None => mret tt end;;
    _ensure_wallet u;;
    consume_rest u amount key meta sid.

(** ** Grants *)

(** [grant] after its guard and the provisioning of the wallet row. *)
Definition grant_rest (u : uuid) (amount : Z) (key : string) (meta : dict) (reason : string) : M GrantResult :=
  inserted_id ← insert_ledger u credit amount meta key;
  match inserted_id with
  | None =>
      existing ← _existing_tx u key;
      match existing with
      | None => raise (ConflictError "idempotency conflict")
      | Some tx =>
          if negb (bool_decide (tx.(lt_type) = credit)) || negb (tx.(lt_amount) =? amount)
          then raise (ConflictError "idempotency key reused with different payload")
          else
            bal ← _current_balance u;
            mret (mkGrantResult bal tx.(lt_id) true)
      end
  | Some id =>
      s ← settings;
      d ← get_db;
      let repaid := Z.min amount (wallet_debt d u) in
      row ← (if s.(agent_debt_reconcile_enabled)
             then
               updated ← update_wallet u (fun _ => true)
                 (fun w => mkWallet (w.(balance) + (amount - repaid)) (w.(debt) - repaid));
               mret match updated with
                    | Some w => (w.(balance), repaid, w.(debt))
                    | None => (amount, 0, 0)
                    end
             else
               updated ← update_wallet u (fun _ => true)
                 (fun w => mkWallet (w.(balance) + amount) w.(debt));
               mret match updated with
                    | Some w => (w.(balance), 0, 0)
                    | None => (amount, 0, 0)
                    end);
      let '(new_balance, repaid, debt_remaining) := row in
      record (mkAuditEvent u None EVENT_BILLING_CREDIT
        [("ledgerTxId", JStr (uuid_str id)); ("amount", JInt amount);
         ("newBalance", JInt new_balance); ("reason", JStr reason)]);;
      (if 0 <? repaid
       then record (mkAuditEvent u None EVENT_BILLING_DEBT_REPAID
              [("userId", JStr (uuid_str u)); ("repaid", JInt repaid);
               ("debtRemaining", JInt debt_remaining);
               ("grantLedgerTxId", JStr (uuid_str id))])
       else mret tt);;
      mret (mkGrantResult new_balance id false)
  end.

Definition grant (u : uuid) (amount : Z) (key : string) (meta : dict) (reason : string) : M GrantResult :=
  if amount <=? 0 then raise (ConflictError "amount must be positive")
  else
    _ensure_wallet u;;
    grant_rest u amount key meta reason.

(** ORDER BY created_at DESC *)
Definition newer (a b : LedgerTransaction) : Prop := b.(lt_created_at) <= a.(lt_created_at).

#[global] Instance newer_dec a b : Decision (newer a b).
Proof. unfold newer. apply _. Defined.

(** [get_wallet_view]: balance, debt and the newest ledger rows.  Rows with
    equal timestamps, whose order SQL leaves open, keep insertion order. *)
Definition get_wallet_view (u : uuid) (last_n : nat) : M (Z * Z * list LedgerTransaction) :=
  _ensure_wallet u;;
  d ← get_db;
  let txs := merge_sort newer
               (filter (fun t => t.(lt_user_id) = u) d.(ledger_transactions)) in
  mret (wallet_balance d u, wallet_debt d u, take last_n txs).
