(* ===== verification/WalletRun.v ===== *)
(** * Running the wallet's statements

    How each statement of [Wallet] acts on the world when its constraints
    hold, and the state-transformer vocabulary the wallet theorems use. *)

From Stdlib Require Import Ascii String.
From S2P Require Import Prelude PyVal Redaction Store AuditTrail Wallet.

Open Scope string_scope.
Open Scope list_scope.
Open Scope Z_scope.

(** ** Transformers *)

Definition put_wallet (u : uuid) (x : Wallet) (d : Db) : Db := set_wallets (<[u := x]> d.(wallets)) d.

Definition add_tx (t : LedgerTransaction) (d : Db) : Db :=
  set_ledger_transactions (d.(ledger_transactions) ++ [t]) d.

Definition add_audit (r : AuditLog) (d : Db) : Db := set_audit_logs (d.(audit_logs) ++ [r]) d.

Definition ensured (u : uuid) (d : Db) : Db :=
  match d.(wallets) !! u with Some _ => d | None => put_wallet u (mkWallet 0 0) d end.

Definition drew_uuid (w : World) : World :=
  mkWorld w.(w_db) w.(w_committed) (S w.(w_uuids)) w.(w_ticks) w.(w_seq) w.(w_metrics) w.(w_host).

Definition counted (m l : string) (w : World) : World :=
  mkWorld w.(w_db) w.(w_committed) w.(w_uuids) w.(w_ticks) w.(w_seq) ((m, l) :: w.(w_metrics)) w.(w_host).

Definition next_uuid (e : Env) (w : World) : uuid := e.(env_gen_random_uuid) w.(w_uuids).

Lemma with_db_id w : with_db w.(w_db) w = w.
Proof. by destruct w. Qed.

Lemma with_db_with_db d d' w : with_db d (with_db d' w) = with_db d w.
Proof. done. Qed.

#[export] Hint Rewrite with_db_id with_db_with_db : hermes_rw.

(** ** Bind *)

Lemma bind_inr {A B} (m : M A) (k : A -> M B) e w a w' :
  m e w = (inr a, w') -> (m ≫= k) e w = k a e w'.
Proof. intros H. unfold mbind, M_bind. by rewrite H. Qed.

Lemma bind_inl {A B} (m : M A) (k : A -> M B) e w x w' :
  m e w = (inl x, w') -> (m ≫= k) e w = (inl x, w').
Proof. intros H. unfold mbind, M_bind. by rewrite H. Qed.

Lemma bind_ok {A B} (m : M A) (k : A -> M B) e w b w' :
  (m ≫= k) e w = (inr b, w') -> exists a w1, m e w = (inr a, w1) /\ k a e w1 = (inr b, w').
Proof. unfold mbind, M_bind. destruct (m e w) as [[x|a] w1]; [done|]. intros H. by exists a, w1. Qed.

(** Take a successful run apart at its first step. *)
Ltac inv_bind H :=
  let a := fresh "a" in let w1 := fresh "w1" in let H1 := fresh "Hstep" in
  apply bind_ok in H as (a & w1 & H1 & H); cbn beta iota in H.

Lemma check_ok b e w x w' : check_constraint b e w = (inr x, w') -> b = true /\ w' = w.
Proof. unfold check_constraint. by destruct b; intros [= <-]. Qed.

Lemma get_db_ok e w d w' : get_db e w = (inr d, w') -> d = w.(w_db) /\ w' = w.
Proof. by intros [= <- <-]. Qed.

Lemma settings_ok e w s w' : settings e w = (inr s, w') -> s = e.(env_settings) /\ w' = w.
Proof. by intros [= <- <-]. Qed.

Lemma modify_ok f e w x w' : modify_db f e w = (inr x, w') -> w' = with_db (f w.(w_db)) w.
Proof. by intros [= _ <-]. Qed.

(** Run the head of a sequence: [run] with a proof of what it returns, [fails]
    with a proof of what it raises. *)
Tactic Notation "run" "by" tactic3(t) := erewrite bind_inr by t; cbn beta iota.
Tactic Notation "fails" "by" tactic3(t) := erewrite bind_inl by t; cbn beta iota.

(** ** Statements *)

Definition in_int8 (z : Z) : Prop := int8_min <= z <= int8_max.

Lemma int8_run z e w : in_int8 z -> int8 z e w = (inr z, w).
Proof.
  intros [H1 H2]. unfold int8. by rewrite (proj2 (Z.leb_le _ _) H1), (proj2 (Z.leb_le _ _) H2).
Qed.

Lemma int8_overflow z e w : int8_max < z -> int8 z e w = (inl DataError, w).
Proof. intros H. unfold int8. by rewrite (proj2 (Z.leb_gt _ _) H), andb_false_r. Qed.

Lemma check_run b e w : b = true -> check_constraint b e w = (inr tt, w).
Proof. by intros ->. Qed.

Lemma ensure_wallet_run u e w :
  user_exists w.(w_db) u = true ->
  _ensure_wallet u e w = (inr tt, with_db (ensured u w.(w_db)) w).
Proof.
  intros Hu. unfold _ensure_wallet, ensured. run by done. cbn.
  destruct (w.(w_db).(wallets) !! u) as [x|]; [by rewrite with_db_id|].
  run by (by apply check_run). done.
Qed.

Lemma ensure_wallet_no_user u e w :
  user_exists w.(w_db) u = false -> w.(w_db).(wallets) !! u = None ->
  _ensure_wallet u e w = (inl IntegrityError, w).
Proof.
  intros Hu Hw. unfold _ensure_wallet. run by done. cbn. rewrite Hw.
  fails by (unfold check_constraint; rewrite Hu; done). done.
Qed.

Lemma existing_tx_run u key e w :
  _existing_tx u key e w = (inr (find_first (is_tx u key) w.(w_db).(ledger_transactions)), w).
Proof. done. Qed.

Lemma current_balance_run u e w : _current_balance u e w = (inr (wallet_balance w.(w_db) u), w).
Proof. done. Qed.

(** A new ledger row, with the id the database draws. *)
Definition new_tx (e : Env) (w : World) (u : uuid) (ty : ledger_tx_type) (amount : Z) (meta : dict)
    (key : string) : LedgerTransaction :=
  mkLedger (next_uuid e w) u ty amount meta key e.(env_pg_now).

Lemma insert_ledger_new u ty amount meta key e w :
  0 < amount <= int8_max -> user_exists w.(w_db) u = true ->
  find_first (is_tx u key) w.(w_db).(ledger_transactions) = None ->
  insert_ledger u ty amount meta key e w =
  (inr (Some (next_uuid e w)),
   with_db (add_tx (new_tx e w u ty amount meta key) w.(w_db)) (drew_uuid w)).
Proof.
  intros Ha Hu Hf. unfold insert_ledger.
  rewrite (bind_inr _ _ _ _ amount w) by (apply int8_run; unfold in_int8, int8_min; lia).
  run by done. cbn.
  run by (apply check_run; lia). run by done. cbn. rewrite Hf.
  run by (by apply check_run). done.
Qed.

Lemma insert_ledger_replay u ty amount meta key e w t :
  0 < amount <= int8_max ->
  find_first (is_tx u key) w.(w_db).(ledger_transactions) = Some t ->
  insert_ledger u ty amount meta key e w = (inr None, drew_uuid w).
Proof.
  intros Ha Hf. unfold insert_ledger.
  rewrite (bind_inr _ _ _ _ amount w) by (apply int8_run; unfold in_int8, int8_min; lia).
  run by done. cbn.
  run by (apply check_run; lia). run by done. cbn. by rewrite Hf.
Qed.

Lemma update_wallet_run u guard f e w x :
  w.(w_db).(wallets) !! u = Some x -> guard x = true ->
  0 <= (f x).(balance) <= int8_max -> 0 <= (f x).(debt) <= int8_max ->
  update_wallet u guard f e w = (inr (Some (f x)), with_db (put_wallet u (f x) w.(w_db)) w).
Proof.
  intros Hx Hg Hb Hd. unfold update_wallet. run by done. cbn. rewrite Hx, Hg.
  rewrite (bind_inr _ _ _ _ (f x).(balance) w) by (apply int8_run; unfold in_int8, int8_min; lia).
  rewrite (bind_inr _ _ _ _ (f x).(debt) w) by (apply int8_run; unfold in_int8, int8_min; lia).
  run by (apply check_run; lia). run by (apply check_run; lia).
  unfold mbind, M_bind. by destruct (f x).
Qed.

Lemma update_wallet_overflow u guard f e w x :
  w.(w_db).(wallets) !! u = Some x -> guard x = true ->
  0 <= (f x).(balance) <= int8_max -> int8_max < (f x).(debt) ->
  update_wallet u guard f e w = (inl DataError, w).
Proof.
  intros Hx Hg Hb Hd. unfold update_wallet. run by done. cbn. rewrite Hx, Hg.
  rewrite (bind_inr _ _ _ _ (f x).(balance) w) by (apply int8_run; unfold in_int8, int8_min; lia).
  fails by (by apply int8_overflow). done.
Qed.

Lemma update_wallet_balance_overflow u guard f e w x :
  w.(w_db).(wallets) !! u = Some x -> guard x = true -> int8_max < (f x).(balance) ->
  update_wallet u guard f e w = (inl DataError, w).
Proof.
  intros Hx Hg Hb. unfold update_wallet. run by done. cbn. rewrite Hx, Hg.
  fails by (by apply int8_overflow). done.
Qed.

Lemma insert_ledger_overflow u ty amount meta key e w :
  int8_max < amount -> insert_ledger u ty amount meta key e w = (inl DataError, w).
Proof. intros H. unfold insert_ledger. fails by (by apply int8_overflow). done. Qed.

Lemma update_wallet_guard u guard f e w x :
  w.(w_db).(wallets) !! u = Some x -> guard x = false ->
  update_wallet u guard f e w = (inr None, w).
Proof. intros Hx Hg. unfold update_wallet. run by done. cbn. by rewrite Hx, Hg. Qed.

Lemma record_run ev e w :
  user_exists w.(w_db) ev.(ev_user_id) = true ->
  session_exists w.(w_db) ev.(ev_session_id) = true ->
  record ev e w = (inr tt, with_db (add_audit (audit_row e.(env_request_id) ev) w.(w_db)) w).
Proof.
  intros Hu Hs. unfold record. run by done. run by done. cbn.
  run by (by apply check_run). run by (by apply check_run). done.
Qed.

Lemma validate_session_run u sid e w :
  session_owner w.(w_db) sid = Some u -> _validate_session u sid e w = (inr tt, w).
Proof. intros H. unfold _validate_session. run by done. cbn. by rewrite H, N.eqb_refl. Qed.

Lemma record_ok ev e w x w' :
  record ev e w = (inr x, w') -> w' = with_db (add_audit (audit_row e.(env_request_id) ev) w.(w_db)) w.
Proof.
  unfold record. intros H. inv_bind H. injection Hstep as <- <-. inv_bind H. apply get_db_ok in Hstep as [-> ->].
  inv_bind H. apply check_ok in Hstep as [_ ->]. inv_bind H. apply check_ok in Hstep as [_ ->].
  by apply modify_ok in H.
Qed.
