(* ===== verification/WalletSpec.v ===== *)
(** * What the wallet promises

    The abstract account of one user, the debit and credit operations on it,
    how the tables determine it, and which writes leave it alone. *)

From Stdlib Require Import Ascii String.
From S2P Require Import Prelude PyVal Redaction Store AuditTrail Wallet WalletRun.

Open Scope string_scope.
Open Scope list_scope.
Open Scope Z_scope.

(** ** The abstract account *)

(** An account is a balance, the outstanding debt, the user's ledger rows, and
    the two running totals the audit log lets one recompute: the debt ever
    accrued and the debt ever repaid. *)
Record Account : Type := mkAccount {
  ac_balance : Z;
  ac_debt : Z;
  ac_txs : list LedgerTransaction;
  ac_accrued : Z;
  ac_repaid : Z
}.

Definition user_txs (d : Db) (u : uuid) : list LedgerTransaction :=
  filter (fun t => t.(lt_user_id) = u) d.(ledger_transactions).

Definition accrued_of (u : uuid) (r : AuditLog) : Z :=
  if N.eqb r.(al_user_id) u && String.eqb r.(al_event_type) EVENT_BILLING_DEBIT_INSUFFICIENT
  then audit_int "debtAdded" r else 0.

Definition repaid_of (u : uuid) (r : AuditLog) : Z :=
  if N.eqb r.(al_user_id) u && String.eqb r.(al_event_type) EVENT_BILLING_DEBT_REPAID
  then audit_int "repaid" r else 0.

Definition account (d : Db) (u : uuid) : Account :=
  mkAccount (wallet_balance d u) (wallet_debt d u) (user_txs d u)
    (sumZ (accrued_of u) d.(audit_logs)) (sumZ (repaid_of u) d.(audit_logs)).

Arguments account d u : simpl never.

Definition find_tx (key : string) (a : Account) : option LedgerTransaction :=
  find_first (fun t => String.eqb t.(lt_idempotency_key) key) a.(ac_txs).

(** The three debit disciplines of [consume]. *)
Inductive DebitMode : Set := Full | Reconcile | Clamp.

Definition debit_mode (s : Settings) (meta : dict) : DebitMode :=
  if truthy (dict_get meta "incremental") then Clamp
  else match dict_get meta "source" with
       | JStr src => if String.eqb src _AGENT_RUN_SOURCE && s.(agent_debt_reconcile_enabled)
                     then Reconcile else Full
       | _ => Full
       end.

Definition insufficient : exn := InsufficientCreditsError "insufficient_credits".
Definition key_reused : exn := ConflictError "idempotency key reused with different payload".

Definition same_payload (ty : ledger_tx_type) (amount : Z) (t : LedgerTransaction) : bool :=
  bool_decide (t.(lt_type) = ty) && (t.(lt_amount) =? amount).

(** Take [amount] credits, recording the row [mk amount]. *)
Definition take_credits (mk : Z -> LedgerTransaction) (amount : Z) (a : Account) : Account :=
  mkAccount (a.(ac_balance) - amount) a.(ac_debt) (a.(ac_txs) ++ [mk amount]) a.(ac_accrued) a.(ac_repaid).

Definition add_debt (delta : Z) (a : Account) : Account :=
  mkAccount a.(ac_balance) (a.(ac_debt) + delta) a.(ac_txs) (a.(ac_accrued) + delta) a.(ac_repaid).

Definition charged (mk : Z -> LedgerTransaction) (amount : Z) (a : Account) : ConsumeResult :=
  mkConsumeResult (a.(ac_balance) - amount) (mk amount).(lt_id) false amount.

Definition replayed (t : LedgerTransaction) (a : Account) : ConsumeResult :=
  mkConsumeResult a.(ac_balance) t.(lt_id) true 0.

(** A debit of more credits than the balance, under a fresh key. *)
Definition spec_shortfall (mode : DebitMode) (mk : Z -> LedgerTransaction) (amount : Z)
    (a : Account) : (exn + ConsumeResult) * Account :=
  let b := a.(ac_balance) in
  match mode with
  | Full => (inl (if amount <=? int8_max then insufficient else DataError), a)
  | Reconcile =>
      if b <=? 0 then (inl (if amount <=? int8_max then insufficient else DataError), a)
      else if a.(ac_debt) + (amount - b) <=? int8_max
           then (inr (charged mk b a), add_debt (amount - b) (take_credits mk b a))
           else (inl DataError, a)
  | Clamp =>
      if amount <=? int8_max
      then if b <=? 0 then (inr (mkConsumeResult b _NIL_TX_ID false 0), a)
           else (inr (charged mk b a), take_credits mk b a)
      else (inl DataError, a)
  end.

Definition spec_debit (mode : DebitMode) (mk : Z -> LedgerTransaction) (amount : Z) (key : string)
    (a : Account) : (exn + ConsumeResult) * Account :=
  match find_tx key a with
  | Some t =>
      match mode with
      | Full => (if amount <=? int8_max
                 then if same_payload debit amount t then inr (replayed t a) else inl key_reused
                 else inl DataError, a)
      | _ => (inr (replayed t a), a)
      end
  | None =>
      if amount <=? a.(ac_balance) then (inr (charged mk amount a), take_credits mk amount a)
      else spec_shortfall mode mk amount a
  end.

(** What a grant of [amount] repays of the debt. *)
Definition repayment (clawback : bool) (amount : Z) (debt : Z) : Z :=
  if clawback then Z.min amount debt else 0.

Definition credited_account (clawback : bool) (t : LedgerTransaction) (a : Account) : Account :=
  let repaid := repayment clawback t.(lt_amount) a.(ac_debt) in
  mkAccount (a.(ac_balance) + (t.(lt_amount) - repaid)) (a.(ac_debt) - repaid) (a.(ac_txs) ++ [t])
    a.(ac_accrued) (a.(ac_repaid) + repaid).

Definition spec_credit (clawback : bool) (t : LedgerTransaction) (a : Account) :
    (exn + GrantResult) * Account :=
  if t.(lt_amount) <=? int8_max then
    match find_tx t.(lt_idempotency_key) a with
    | Some t' =>
        if same_payload credit t.(lt_amount) t'
        then (inr (mkGrantResult a.(ac_balance) t'.(lt_id) true), a)
        else (inl key_reused, a)
    | None =>
        let a' := credited_account clawback t a in
        if a'.(ac_balance) <=? int8_max
        then (inr (mkGrantResult a'.(ac_balance) t.(lt_id) false), a')
        else (inl DataError, a)
    end
  else (inl DataError, a).

(** ** The account under the state transformers *)

Lemma account_put_wallet_eq d u x :
  account (put_wallet u x d) u =
  mkAccount x.(balance) x.(debt) (user_txs d u)
    (sumZ (accrued_of u) d.(audit_logs)) (sumZ (repaid_of u) d.(audit_logs)).
Proof. unfold account, wallet_balance, wallet_debt. cbn. by rewrite lookup_insert_eq. Qed.

Lemma account_put_wallet_ne d u u' x : u <> u' -> account (put_wallet u x d) u' = account d u'.
Proof. intros H. unfold account, wallet_balance, wallet_debt. cbn. by rewrite lookup_insert_ne. Qed.

Lemma user_txs_add_tx d u t :
  user_txs (add_tx t d) u = user_txs d u ++ (if decide (t.(lt_user_id) = u) then [t] else []).
Proof. unfold user_txs. cbn. rewrite filter_app. by rewrite filter_cons. Qed.

Lemma user_txs_put_wallet d u u' x : user_txs (put_wallet u x d) u' = user_txs d u'.
Proof. done. Qed.

Lemma account_add_tx_ne d u t : t.(lt_user_id) <> u -> account (add_tx t d) u = account d u.
Proof. intros H. unfold account. rewrite user_txs_add_tx, decide_False by done. by rewrite app_nil_r. Qed.

Lemma account_add_audit d u r :
  account (add_audit r d) u =
  let a := account d u in
  mkAccount a.(ac_balance) a.(ac_debt) a.(ac_txs)
    (a.(ac_accrued) + accrued_of u r) (a.(ac_repaid) + repaid_of u r).
Proof. unfold account. cbn. by rewrite !sumZ_app, !sumZ_singleton. Qed.

(** An audit row that accrues and repays nothing. *)
Definition neutral (r : AuditLog) : Prop := forall u, accrued_of u r = 0 /\ repaid_of u r = 0.

Lemma account_add_neutral d u r : neutral r -> account (add_audit r d) u = account d u.
Proof.
  intros H. rewrite account_add_audit. destruct (H u) as [-> ->]. cbn. by rewrite !Z.add_0_r.
Qed.

Lemma neutral_event_type r :
  r.(al_event_type) <> EVENT_BILLING_DEBIT_INSUFFICIENT ->
  r.(al_event_type) <> EVENT_BILLING_DEBT_REPAID -> neutral r.
Proof.
  intros H1 H2 u. unfold accrued_of, repaid_of.
  by rewrite (proj2 (String.eqb_neq _ _) H1), (proj2 (String.eqb_neq _ _) H2), !andb_false_r.
Qed.

Lemma audit_other_user u r : r.(al_user_id) <> u -> accrued_of u r = 0 /\ repaid_of u r = 0.
Proof. intros H. unfold accrued_of, repaid_of. by rewrite (proj2 (N.eqb_neq _ _) H). Qed.

Lemma account_add_audit_ne d u r : r.(al_user_id) <> u -> account (add_audit r d) u = account d u.
Proof.
  intros H. rewrite account_add_audit. destruct (audit_other_user u r H) as [-> ->].
  cbn. by rewrite !Z.add_0_r.
Qed.

Lemma account_ensured d u u' : account (ensured u d) u' = account d u'.
Proof.
  unfold ensured. destruct (d.(wallets) !! u) as [x|] eqn:E; [done|].
  destruct (decide (u = u')) as [<-|Hne]; [|by apply account_put_wallet_ne].
  rewrite account_put_wallet_eq. unfold account, wallet_balance, wallet_debt. by rewrite E.
Qed.

Lemma ensured_lookup d u :
  (ensured u d).(wallets) !! u = Some (mkWallet (wallet_balance d u) (wallet_debt d u)).
Proof.
  unfold ensured, wallet_balance, wallet_debt. destruct (d.(wallets) !! u) as [x|] eqn:E.
  - rewrite E. by destruct x.
  - cbn. by rewrite lookup_insert_eq.
Qed.

Lemma ensured_ledger d u : (ensured u d).(ledger_transactions) = d.(ledger_transactions).
Proof. unfold ensured. by destruct (d.(wallets) !! u). Qed.

Lemma ensured_sessions d u : (ensured u d).(chat_sessions) = d.(chat_sessions).
Proof. unfold ensured. by destruct (d.(wallets) !! u). Qed.

Lemma ensured_audit d u : (ensured u d).(audit_logs) = d.(audit_logs).
Proof. unfold ensured. by destruct (d.(wallets) !! u). Qed.

Lemma user_exists_ensured d u u' : user_exists (ensured u d) u' = user_exists d u'.
Proof. unfold ensured. by destruct (d.(wallets) !! u). Qed.

Lemma session_exists_ensured d u s : session_exists (ensured u d) s = session_exists d s.
Proof. unfold session_exists, session_owner. by rewrite ensured_sessions. Qed.

Lemma find_tx_account d u key :
  find_tx key (account d u) = find_first (is_tx u key) d.(ledger_transactions).
Proof.
  unfold find_tx, account, user_txs. cbn. induction d.(ledger_transactions) as [|t l IH]; [done|].
  rewrite filter_cons. cbn. unfold is_tx at 1. case_decide as E.
  - cbn. rewrite IH. by rewrite (proj2 (N.eqb_eq _ _) E).
  - rewrite IH. by rewrite (proj2 (N.eqb_neq _ _) E).
Qed.

(** ** What a wallet operation on one user leaves alone *)

(** The database with the three money tables emptied. *)
Definition other_tables (d : Db) : Db :=
  set_wallets ∅ (set_ledger_transactions [] (set_audit_logs [] d)).

(** Nobody else's account or wallet row moves, and no other table changes. *)
Record frame (u : uuid) (d d' : Db) : Prop := mkFrame {
  fr_account : forall v, v <> u -> account d' v = account d v;
  fr_wallets : forall v, v <> u -> d'.(wallets) !! v = d.(wallets) !! v;
  fr_tables : other_tables d' = other_tables d
}.

Section frame.
Context (u : uuid).

Lemma frame_refl d : frame u d d.
Proof. by split. Qed.

Lemma frame_trans d1 d2 d3 : frame u d1 d2 -> frame u d2 d3 -> frame u d1 d3.
Proof.
  intros [A1 W1 T1] [A2 W2 T2]. split.
  - intros v Hv. by rewrite A2, A1.
  - intros v Hv. by rewrite W2, W1.
  - by rewrite T2.
Qed.

Lemma frame_put_wallet d x : frame u d (put_wallet u x d).
Proof.
  split; [|intros v Hv; by apply lookup_insert_ne|done].
  intros v Hv. by apply account_put_wallet_ne.
Qed.

Lemma frame_add_tx d t : t.(lt_user_id) = u -> frame u d (add_tx t d).
Proof. intros Ht. split; [|done..]. intros v Hv. apply account_add_tx_ne. congruence. Qed.

Lemma frame_add_audit d r : r.(al_user_id) = u -> frame u d (add_audit r d).
Proof. intros Ht. split; [|done..]. intros v Hv. apply account_add_audit_ne. congruence. Qed.

Lemma frame_ensured d : frame u d (ensured u d).
Proof.
  unfold ensured. destruct (d.(wallets) !! u); [apply frame_refl|apply frame_put_wallet].
Qed.
End frame.

Lemma frame_users u d d' : frame u d d' -> d'.(users) = d.(users).
Proof. intros [_ _ T]. by apply (f_equal users) in T. Qed.

Lemma frame_sessions u d d' : frame u d d' -> d'.(chat_sessions) = d.(chat_sessions).
Proof. intros [_ _ T]. by apply (f_equal chat_sessions) in T. Qed.

#[export] Hint Resolve frame_refl frame_put_wallet frame_add_tx frame_add_audit frame_ensured : hermes.

#[export] Hint Rewrite account_put_wallet_eq account_ensured ensured_ledger
  ensured_sessions user_exists_ensured session_exists_ensured user_txs_put_wallet : hermes_rw.
