(* ===== verification/WalletRefine.v ===== *)
(** * The wallet implements its specification

    [consume] under each of its three disciplines and [grant] under both
    clawback settings, branch by branch, then the refinement theorems. *)

From Stdlib Require Import Ascii String.
From S2P Require Import Prelude PyVal Redaction Store AuditTrail Wallet WalletRun WalletSpec.

Open Scope string_scope.
Open Scope list_scope.
Open Scope Z_scope.

(** ** Each path of a debit *)

Section debit.
Context (e : Env) (u : uuid) (amount : Z) (key : string) (meta : dict) (sid : option uuid).
Context (w : World) (x : Wallet).
Hypothesis Hu : user_exists w.(w_db) u = true.
Hypothesis Hx : w.(w_db).(wallets) !! u = Some x.
Hypothesis Hb : 0 <= x.(balance) <= int8_max.
Hypothesis Hd : 0 <= x.(debt) <= int8_max.
Hypothesis Ha : 0 < amount.

Let ledger_find := find_first (is_tx u key) w.(w_db).(ledger_transactions).

(** The row and the database after taking [n] credits. *)
Definition debit_row (n : Z) : LedgerTransaction := new_tx e w u debit n meta key.
Definition debited (n : Z) (owe : Z) : Db :=
  put_wallet u (mkWallet (x.(balance) - n) (x.(debt) + owe)) (add_tx (debit_row n) w.(w_db)).

Lemma update_after_insert n guard f (w' : World) :
  w'.(w_db) = add_tx (debit_row n) w.(w_db) -> guard x = true ->
  0 <= (f x).(balance) <= int8_max -> 0 <= (f x).(debt) <= int8_max ->
  update_wallet u guard f e w' =
  (inr (Some (f x)), with_db (put_wallet u (f x) (add_tx (debit_row n) w.(w_db))) w').
Proof. intros Hw Hg H1 H2. rewrite (update_wallet_run _ _ _ _ _ x); rewrite ?Hw; done. Qed.

Lemma debit_in_savepoint_new :
  ledger_find = None -> amount <= x.(balance) ->
  _debit_in_savepoint u amount key meta e w =
  (inr (Some (next_uuid e w), Some (x.(balance) - amount)),
   with_db (debited amount 0) (drew_uuid w)).
Proof.
  intros Hf Hle. unfold _debit_in_savepoint, begin_nested.
  run by (apply insert_ledger_new; [lia|done|done]). cbn.
  run by (apply (update_after_insert amount); cbn; [done|lia..]). cbn.
  unfold debited. by rewrite Z.add_0_r.
Qed.

Lemma debit_in_savepoint_insufficient :
  amount <= int8_max -> ledger_find = None -> x.(balance) < amount ->
  _debit_in_savepoint u amount key meta e w =
  (inl insufficient, counted "wallet_debit_total" "fail" (drew_uuid w)).
Proof.
  intros Hm Hf Hlt. unfold _debit_in_savepoint, begin_nested.
  run by (apply insert_ledger_new; [lia|done|done]). cbn.
  run by (eapply update_wallet_guard; [exact Hx|cbn; lia]). done.
Qed.

Lemma debit_in_savepoint_replay t :
  amount <= int8_max -> ledger_find = Some t ->
  _debit_in_savepoint u amount key meta e w = (inr (None, None), drew_uuid w).
Proof.
  intros Hm Hf. unfold _debit_in_savepoint, begin_nested.
  run by (eapply insert_ledger_replay; [lia|exact Hf]). done.
Qed.

Lemma debit_in_savepoint_overflow :
  int8_max < amount -> _debit_in_savepoint u amount key meta e w = (inl DataError, w).
Proof.
  intros Hm. unfold _debit_in_savepoint, begin_nested.
  fails by (by apply insert_ledger_overflow). by rewrite with_db_id.
Qed.

(** The audit row of a plain debit. *)
Definition debit_event (n : Z) : AuditEvent :=
  mkAuditEvent u sid EVENT_BILLING_DEBIT
    [("ledgerTxId", JStr (uuid_str (next_uuid e w))); ("amount", JInt n);
     ("newBalance", JInt (x.(balance) - n));
     ("sessionId", jopt_str (uuid_str <$> sid)); ("model", dict_get meta "model")].

Lemma consume_full_new :
  session_exists w.(w_db) sid = true -> ledger_find = None -> amount <= x.(balance) ->
  consume_full u amount key meta sid e w =
  (inr (mkConsumeResult (x.(balance) - amount) (next_uuid e w) false amount),
   with_db (add_audit (audit_row e.(env_request_id) (debit_event amount)) (debited amount 0))
     (counted "wallet_debit_total" "success" (drew_uuid w))).
Proof.
  intros Hs Hf Hle. unfold consume_full.
  run by (by apply debit_in_savepoint_new). cbn beta iota.
  run by done. run by (by apply record_run). done.
Qed.

Lemma consume_full_overflow :
  int8_max < amount -> consume_full u amount key meta sid e w = (inl DataError, w).
Proof.
  intros Hm. unfold consume_full. fails by (by apply debit_in_savepoint_overflow). done.
Qed.

Lemma consume_full_insufficient :
  amount <= int8_max -> ledger_find = None -> x.(balance) < amount ->
  consume_full u amount key meta sid e w =
  (inl insufficient, counted "wallet_debit_total" "fail" (drew_uuid w)).
Proof.
  intros Hm Hf Hlt. unfold consume_full.
  fails by (by apply debit_in_savepoint_insufficient). done.
Qed.

Lemma consume_full_replay t :
  amount <= int8_max -> ledger_find = Some t ->
  consume_full u amount key meta sid e w =
  (if same_payload debit amount t then inr (mkConsumeResult x.(balance) t.(lt_id) true 0)
   else inl key_reused, drew_uuid w).
Proof.
  intros Hm Hf. unfold consume_full, same_payload.
  run by (by eapply debit_in_savepoint_replay).
  run by (apply existing_tx_run). cbn. unfold ledger_find in Hf. rewrite Hf.
  destruct (bool_decide (lt_type t = debit)), (lt_amount t =? amount); cbn; try done.
  run by done. cbn. unfold wallet_balance. by rewrite Hx.
Qed.

(** The shortfall path of an agent debit. *)
Definition shortfall_event : AuditEvent :=
  mkAuditEvent u None EVENT_BILLING_DEBIT_INSUFFICIENT
    [("runId", dict_get meta "runId"); ("usage", dict_get meta "usage");
     ("model", dict_get meta "model"); ("requiredAmount", JInt amount);
     ("partialDebited", JInt x.(balance)); ("debtAdded", JInt (amount - x.(balance)));
     ("debt", JInt (x.(debt) + (amount - x.(balance))))].

Lemma consume_agent_replay t :
  ledger_find = Some t ->
  _consume_agent_with_debt u amount key meta e w =
  (inr (Some (mkConsumeResult x.(balance) t.(lt_id) true 0)), w).
Proof.
  intros Hf. unfold _consume_agent_with_debt. run by (apply existing_tx_run).
  unfold ledger_find in Hf. rewrite Hf. run by done. cbn. unfold wallet_balance.
  by rewrite Hx.
Qed.

Lemma consume_agent_defers :
  ledger_find = None -> (amount <= x.(balance) \/ x.(balance) <= 0) ->
  _consume_agent_with_debt u amount key meta e w = (inr None, w).
Proof.
  intros Hf Hc. unfold _consume_agent_with_debt. run by (apply existing_tx_run).
  unfold ledger_find in Hf. rewrite Hf. run by done. cbn. unfold wallet_balance.
  rewrite Hx. destruct (amount <=? x.(balance)) eqn:E1; [done|].
  destruct (x.(balance) <=? 0) eqn:E2; [done|]. lia.
Qed.

Lemma consume_agent_shortfall :
  ledger_find = None -> 0 < x.(balance) < amount -> x.(debt) + (amount - x.(balance)) <= int8_max ->
  _consume_agent_with_debt u amount key meta e w =
  (inr (Some (mkConsumeResult 0 (next_uuid e w) false x.(balance))),
   with_db (add_audit (audit_row e.(env_request_id) shortfall_event)
              (debited x.(balance) (amount - x.(balance))))
     (counted "wallet_debit_total" "partial" (drew_uuid w))).
Proof.
  intros Hf Hlt Hmax. unfold _consume_agent_with_debt.
  run by (apply existing_tx_run).
  unfold ledger_find in Hf. rewrite Hf. run by done. cbn. unfold wallet_balance at 1 2.
  rewrite Hx, (proj2 (Z.leb_gt _ _)), (proj2 (Z.leb_gt _ _)) by lia.
  assert (wallet_balance (w_db w) u = x.(balance)) as -> by (unfold wallet_balance; by rewrite Hx).
  unfold try_except, begin_nested. unfold mbind at 1, M_bind at 1.
  run by (apply insert_ledger_new; [lia|done|done]). cbn.
  rewrite (bind_inr (int8 _) _ _ _ (amount - x.(balance)) _)
    by (apply int8_run; unfold in_int8, int8_min; lia).
  run by (apply (update_after_insert x.(balance)); cbn; [done|lia..]). cbn.
  run by done. run by (by apply record_run). done.
Qed.

Lemma consume_agent_overflow :
  ledger_find = None -> 0 < x.(balance) < amount ->
  int8_max < x.(debt) + (amount - x.(balance)) ->
  _consume_agent_with_debt u amount key meta e w = (inl DataError, drew_uuid w).
Proof.
  intros Hf Hlt Hmax. unfold _consume_agent_with_debt.
  run by (apply existing_tx_run).
  unfold ledger_find in Hf. rewrite Hf. run by done. cbn. unfold wallet_balance at 1 2.
  rewrite Hx, (proj2 (Z.leb_gt _ _)), (proj2 (Z.leb_gt _ _)) by lia.
  assert (wallet_balance (w_db w) u = x.(balance)) as -> by (unfold wallet_balance; by rewrite Hx).
  unfold try_except, begin_nested. unfold mbind at 1, M_bind at 1.
  run by (apply insert_ledger_new; [lia|done|done]). cbn.
  destruct (decide (amount - x.(balance) <= int8_max)) as [Hdel|Hdel].
  - rewrite (bind_inr (int8 _) _ _ _ (amount - x.(balance)) _)
      by (apply int8_run; unfold in_int8, int8_min; lia).
    fails by (eapply update_wallet_overflow; cbn; [done|lia..]). done.
  - fails by (apply int8_overflow; lia). done.
Qed.

(** The per-step clamp. *)
Definition step_event (n : Z) : AuditEvent :=
  mkAuditEvent u None EVENT_BILLING_DEBIT
    [("ledgerTxId", JStr (uuid_str (next_uuid e w))); ("amount", JInt n);
     ("newBalance", JInt (x.(balance) - n)); ("runId", dict_get meta "runId");
     ("stepIndex", dict_get meta "stepIndex"); ("model", dict_get meta "model")].

Lemma clamp_replay t :
  ledger_find = Some t ->
  _consume_incremental_clamp u amount key meta e w =
  (inr (mkConsumeResult x.(balance) t.(lt_id) true 0), w).
Proof.
  intros Hf. unfold _consume_incremental_clamp. run by (apply existing_tx_run).
  unfold ledger_find in Hf. rewrite Hf. run by done. cbn. unfold wallet_balance.
  by rewrite Hx.
Qed.

Lemma clamp_overflow :
  int8_max < amount -> ledger_find = None ->
  _consume_incremental_clamp u amount key meta e w = (inl DataError, w).
Proof.
  intros Hm Hf. unfold _consume_incremental_clamp. run by (apply existing_tx_run).
  unfold ledger_find in Hf. rewrite Hf.
  fails by (unfold clamp_statement; fails by (by apply int8_overflow); reflexivity). done.
Qed.

Lemma clamp_empty :
  amount <= int8_max -> ledger_find = None -> x.(balance) = 0 ->
  _consume_incremental_clamp u amount key meta e w = (inr (mkConsumeResult 0 _NIL_TX_ID false 0), w).
Proof.
  intros Hm Hf H0. unfold _consume_incremental_clamp. run by (apply existing_tx_run).
  unfold ledger_find in Hf. rewrite Hf.
  assert (clamp_statement u amount key meta e w = (inr (None, None, Some 0), w)) as Hc.
  { unfold clamp_statement.
    rewrite (bind_inr (int8 _) _ _ _ amount w) by (apply int8_run; unfold in_int8, int8_min; lia).
    run by done. cbn. by rewrite Hx, H0. }
  run by exact Hc. cbn. run by (apply existing_tx_run). by rewrite Hf.
Qed.

Lemma clamp_charges :
  amount <= int8_max -> ledger_find = None -> 0 < x.(balance) ->
  let n := Z.min amount x.(balance) in
  _consume_incremental_clamp u amount key meta e w =
  (inr (mkConsumeResult (x.(balance) - n) (next_uuid e w) false n),
   with_db (add_audit (audit_row e.(env_request_id) (step_event n)) (debited n 0))
     (counted "wallet_debit_total" "success" (drew_uuid w))).
Proof.
  intros Hm Hf Hpos n. unfold _consume_incremental_clamp. run by (apply existing_tx_run).
  unfold ledger_find in Hf. rewrite Hf.
  assert (clamp_statement u amount key meta e w =
          (inr (Some (next_uuid e w), Some n, Some (x.(balance) - n)),
           with_db (debited n 0) (drew_uuid w))) as Hc.
  { unfold clamp_statement.
    rewrite (bind_inr (int8 _) _ _ _ amount w) by (apply int8_run; unfold in_int8, int8_min; lia).
    run by done. cbn. rewrite Hx, (proj2 (Z.ltb_lt _ _)) by lia. fold n.
    run by (apply insert_ledger_new; [lia|done|done]). cbn.
    run by (apply (update_after_insert n); cbn; [done|done|lia..]). cbn.
    unfold debited. by rewrite Z.add_0_r. }
  run by exact Hc. cbn. run by done.
  run by (by apply record_run). done.
Qed.
End debit.

(** ** Refinement of [consume] *)

Definition account_ok (a : Account) : Prop :=
  0 <= a.(ac_balance) <= int8_max /\ 0 <= a.(ac_debt) <= int8_max.

Definition session_ok (d : Db) (u : uuid) (sid : option uuid) : Prop :=
  match sid with None => True | Some s => session_owner d s = Some u end.

Lemma session_ok_exists d u sid : session_ok d u sid -> session_exists d sid = true.
Proof. destruct sid as [s|]; cbn; [by intros ->|done]. Qed.

Lemma consume_starts e w u amount key meta sid :
  0 < amount -> user_exists w.(w_db) u = true -> session_ok w.(w_db) u sid ->
  consume u amount key meta sid e w =
  consume_rest u amount key meta sid e (with_db (ensured u w.(w_db)) w).
Proof.
  intros Ha Hu Hs. unfold consume. rewrite (proj2 (Z.leb_gt _ _)) by lia.
  assert ((match sid with Some s => _validate_session u s | None => mret tt end) e w = (inr tt, w)) as Hv.
  { destruct sid as [s|]; [by apply validate_session_run|done]. }
  run by exact Hv. run by (by apply ensure_wallet_run). done.
Qed.

Lemma reconcile_applies_run e w meta :
  truthy (dict_get meta "incremental") = false ->
  _agent_reconcile_applies meta e w =
  (inr match debit_mode e.(env_settings) meta with Reconcile => true | _ => false end, w).
Proof.
  intros Hi. unfold _agent_reconcile_applies, debit_mode. rewrite Hi.
  destruct (dict_get meta "source") as [| | | |s| |]; try done.
  destruct (String.eqb s _AGENT_RUN_SOURCE); [|done].
  run by done. by destruct (agent_debt_reconcile_enabled _).
Qed.

(** The discipline is chosen by [meta] and the settings alone. *)
Lemma consume_rest_by_mode u amount key meta sid e w :
  consume_rest u amount key meta sid e w =
  match debit_mode e.(env_settings) meta with
  | Full => consume_full u amount key meta sid e w
  | Reconcile =>
      (r ← _consume_agent_with_debt u amount key meta;
       match r with Some r => mret r | None => consume_full u amount key meta sid end) e w
  | Clamp => _consume_incremental_clamp u amount key meta e w
  end.
Proof.
  unfold consume_rest. destruct (truthy (dict_get meta "incremental")) eqn:Hi.
  { unfold debit_mode. by rewrite Hi. }
  run by (by apply reconcile_applies_run). unfold debit_mode. rewrite Hi.
  destruct (dict_get meta "source") as [| | | |s| |]; try done.
  by destruct (String.eqb s _AGENT_RUN_SOURCE && _).
Qed.

Section refine.
Context (e : Env) (u : uuid) (amount : Z) (key : string) (meta : dict) (sid : option uuid).
Context (w : World) (x : Wallet).
Hypothesis Hu : user_exists w.(w_db) u = true.
Hypothesis Hx : w.(w_db).(wallets) !! u = Some x.
Hypothesis Hb : 0 <= x.(balance) <= int8_max.
Hypothesis Hd : 0 <= x.(debt) <= int8_max.
Hypothesis Ha : 0 < amount.
Hypothesis Hs : session_exists w.(w_db) sid = true.

Let mk n := new_tx e w u debit n meta key.

Let accrued := sumZ (accrued_of u) w.(w_db).(audit_logs).
Let repaid := sumZ (repaid_of u) w.(w_db).(audit_logs).

(** The outcome is the specification's and nobody else's account moves. *)
Definition refines (out : (exn + ConsumeResult) * World) : Prop :=
  (out.1, account out.2.(w_db) u) =
    spec_debit (debit_mode e.(env_settings) meta) mk amount key (account w.(w_db) u) /\
  frame u w.(w_db) out.2.(w_db).

Lemma account_here :
  account w.(w_db) u = mkAccount x.(balance) x.(debt) (user_txs w.(w_db) u) accrued repaid.
Proof. unfold account, wallet_balance, wallet_debt. by rewrite Hx. Qed.

Lemma account_debited n owe :
  account (debited e u key meta w x n owe) u =
  mkAccount (x.(balance) - n) (x.(debt) + owe) (user_txs w.(w_db) u ++ [mk n]) accrued repaid.
Proof. unfold debited. rewrite account_put_wallet_eq, user_txs_add_tx. by rewrite decide_True. Qed.

Lemma frame_debited n owe : frame u w.(w_db) (debited e u key meta w x n owe).
Proof.
  unfold debited. eapply frame_trans; [|apply frame_put_wallet]; by apply frame_add_tx.
Qed.

Lemma frame_debited_audit n owe ev :
  ev.(ev_user_id) = u ->
  frame u w.(w_db) (add_audit (audit_row e.(env_request_id) ev) (debited e u key meta w x n owe)).
Proof.
  intros He. eapply frame_trans; [apply frame_debited|by apply frame_add_audit].
Qed.

(** A debit whose audit row moves no debt. *)
Lemma account_debited_neutral n ev :
  ev.(ev_event_type) = EVENT_BILLING_DEBIT ->
  account (add_audit (audit_row e.(env_request_id) ev) (debited e u key meta w x n 0)) u =
  take_credits mk n (account w.(w_db) u).
Proof.
  intros He. rewrite account_add_neutral.
  - rewrite account_debited, account_here, Z.add_0_r. done.
  - apply neutral_event_type; cbn; by rewrite He.
Qed.

Lemma account_shortfall :
  account (add_audit (audit_row e.(env_request_id) (shortfall_event u amount meta x))
             (debited e u key meta w x x.(balance) (amount - x.(balance)))) u =
  add_debt (amount - x.(balance)) (take_credits mk x.(balance) (account w.(w_db) u)).
Proof.
  rewrite account_add_audit, account_debited, account_here. cbv zeta. cbn.
  unfold accrued_of, repaid_of. cbn [al_user_id audit_row al_event_type ev_user_id ev_event_type shortfall_event].
  rewrite N.eqb_refl. cbn [andb String.eqb Ascii.eqb Bool.eqb EVENT_BILLING_DEBIT_INSUFFICIENT EVENT_BILLING_DEBT_REPAID].
  by rewrite (audit_row_int _ _ "debtAdded" (amount - x.(balance))), Z.add_0_r.
Qed.

Lemma refine_replay t :
  find_first (is_tx u key) w.(w_db).(ledger_transactions) = Some t ->
  refines (consume_rest u amount key meta sid e w).
Proof.
  intros Hf. unfold refines. rewrite consume_rest_by_mode. unfold spec_debit, replayed.
  rewrite find_tx_account, account_here, Hf. cbn [ac_balance].
  destruct (debit_mode _ meta).
  - destruct (amount <=? int8_max) eqn:Hm; zify_bool.
    + erewrite consume_full_replay with (x := x) by done. cbn. rewrite account_here.
      by destruct (same_payload debit amount t).
    + erewrite consume_full_overflow by lia. cbn [fst snd]. by rewrite account_here.
  - run by (by eapply consume_agent_replay). cbn. by rewrite account_here.
  - erewrite clamp_replay with (x := x) by done. cbn [fst snd]. by rewrite account_here.
Qed.

Lemma refine_covered :
  find_first (is_tx u key) w.(w_db).(ledger_transactions) = None -> amount <= x.(balance) ->
  refines (consume_rest u amount key meta sid e w).
Proof.
  intros Hf Hle. unfold refines. rewrite consume_rest_by_mode. unfold spec_debit, charged.
  rewrite find_tx_account, Hf, account_here. cbn [ac_balance].
  rewrite (proj2 (Z.leb_le _ _) Hle), <- account_here.
  destruct (debit_mode _ meta).
  - erewrite consume_full_new with (x := x) by done. cbn [fst snd w_db with_db].
    split; [by rewrite account_debited_neutral|by apply frame_debited_audit].
  - run by (apply (consume_agent_defers _ _ _ _ _ _ x); eauto).
    erewrite consume_full_new with (x := x) by done. cbn [fst snd w_db with_db].
    split; [by rewrite account_debited_neutral|by apply frame_debited_audit].
  - erewrite clamp_charges with (x := x) by (done || lia). rewrite Z.min_l by lia.
    cbn [fst snd w_db with_db].
    split; [by rewrite account_debited_neutral|by apply frame_debited_audit].
Qed.

Lemma full_short :
  find_first (is_tx u key) w.(w_db).(ledger_transactions) = None -> x.(balance) < amount ->
  exists w', consume_full u amount key meta sid e w =
    (inl (if amount <=? int8_max then insufficient else DataError), w') /\ w'.(w_db) = w.(w_db).
Proof.
  intros Hf Hlt. destruct (amount <=? int8_max) eqn:Hm; zify_bool.
  - eexists. erewrite consume_full_insufficient with (x := x) by done. done.
  - eexists. rewrite consume_full_overflow by lia. done.
Qed.

Lemma refine_short :
  find_first (is_tx u key) w.(w_db).(ledger_transactions) = None -> x.(balance) < amount ->
  refines (consume_rest u amount key meta sid e w).
Proof.
  intros Hf Hlt. unfold refines. rewrite consume_rest_by_mode. unfold spec_debit, spec_shortfall, charged.
  rewrite find_tx_account, Hf, account_here. cbn [ac_balance ac_debt].
  rewrite (proj2 (Z.leb_gt _ _) Hlt), <- account_here.
  destruct (full_short Hf Hlt) as (w' & Hfull & Hw').
  destruct (debit_mode _ meta).
  - rewrite Hfull. cbn. by rewrite Hw'.
  - destruct (x.(balance) <=? 0) eqn:H0; zify_bool.
    { run by (apply (consume_agent_defers _ _ _ _ _ _ x); eauto).
      rewrite Hfull. cbn. by rewrite Hw'. }
    destruct (x.(debt) + (amount - x.(balance)) <=? int8_max) eqn:Hm; zify_bool.
    + run by (apply (consume_agent_shortfall _ _ _ _ _ _ x); (done || lia)). cbn [fst snd mret M_ret w_db with_db].
      split; [by rewrite account_shortfall, Z.sub_diag|by apply frame_debited_audit].
    + fails by (apply (consume_agent_overflow _ _ _ _ _ _ x); (done || lia)). done.
  - destruct (amount <=? int8_max) eqn:Hm; zify_bool.
    + destruct (x.(balance) <=? 0) eqn:H0; zify_bool.
      * assert (x.(balance) = 0) as E0 by lia.
        erewrite clamp_empty with (x := x) by (done || lia). cbn. by rewrite E0.
      * erewrite clamp_charges with (x := x) by (done || lia). rewrite Z.min_r by lia.
        cbn [fst snd w_db with_db].
        split; [by rewrite account_debited_neutral|by apply frame_debited_audit].
    + rewrite clamp_overflow by (done || lia). done.
Qed.

Lemma consume_rest_refines : refines (consume_rest u amount key meta sid e w).
Proof.
  destruct (find_first (is_tx u key) w.(w_db).(ledger_transactions)) as [t|] eqn:Hf.
  - by eapply refine_replay.
  - destruct (decide (amount <= x.(balance))); [by apply refine_covered|apply refine_short; [done|lia]].
Qed.
End refine.

Lemma consume_account e w u amount key meta sid :
  user_exists w.(w_db) u = true -> session_ok w.(w_db) u sid -> account_ok (account w.(w_db) u) ->
  0 < amount -> refines e u amount key meta w (consume u amount key meta sid e w).
Proof.
  intros Hu Hs [Hb Hd] Ha. rewrite consume_starts by done. cbn in Hb, Hd.
  set (w1 := with_db (ensured u w.(w_db)) w).
  pose proof (consume_rest_refines e u amount key meta sid w1
                (mkWallet (wallet_balance w.(w_db) u) (wallet_debt w.(w_db) u))) as H.
  assert (account (w_db w1) u = account w.(w_db) u) as Hacc by apply account_ensured.
  unfold refines in *. rewrite Hacc in H. destruct H as [H1 H2]; cbn; try done.
  - by rewrite user_exists_ensured.
  - apply ensured_lookup.
  - rewrite session_exists_ensured. by eapply session_ok_exists.
  - split; [exact H1|]. eapply frame_trans; [apply frame_ensured|exact H2].
Qed.

(** C1: [consume] implements the abstract debit.  For an existing user with a
    valid session and a positive amount, the outcome (result or exception) and
    the debited user's account are those of [spec_debit] under the discipline
    that [meta] and the settings select, on every branch including the BIGINT
    overflows, and no other user's account changes.  In particular a debit that
    raises leaves every account exactly as it was. *)
Theorem consume_refines e w u amount key meta sid :
  user_exists w.(w_db) u = true -> session_ok w.(w_db) u sid -> account_ok (account w.(w_db) u) ->
  0 < amount ->
  let '(r, w') := consume u amount key meta sid e w in
  (r, account w'.(w_db) u) =
    spec_debit (debit_mode e.(env_settings) meta) (fun n => new_tx e w u debit n meta key)
      amount key (account w.(w_db) u) /\
  frame u w.(w_db) w'.(w_db).
Proof.
  intros Hu Hs Hok Ha. destruct (consume_account e w u amount key meta sid Hu Hs Hok Ha) as [H1 H2].
  destruct (consume u amount key meta sid e w) as [r w']. done.
Qed.

(** ** Refinement of [grant] *)

Section grant.
Context (e : Env) (u : uuid) (amount : Z) (key : string) (meta : dict) (reason : string).
Context (w : World) (x : Wallet).
Hypothesis Hu : user_exists w.(w_db) u = true.
Hypothesis Hx : w.(w_db).(wallets) !! u = Some x.
Hypothesis Hb : 0 <= x.(balance).
Hypothesis Hd : 0 <= x.(debt) <= int8_max.
Hypothesis Ha : 0 < amount.
Hypothesis Hmax : amount <= int8_max.

Let ledger_find := find_first (is_tx u key) w.(w_db).(ledger_transactions).
Let clawback := e.(env_settings).(agent_debt_reconcile_enabled).

Definition credit_row : LedgerTransaction := new_tx e w u credit amount meta key.
Let repaid_amount (cb : bool) : Z := repayment cb amount x.(debt).
Let new_balance (cb : bool) : Z := x.(balance) + (amount - repaid_amount cb).

Definition credited (cb : bool) : Db :=
  put_wallet u (mkWallet (x.(balance) + (amount - repaid_amount cb)) (x.(debt) - repaid_amount cb))
    (add_tx credit_row w.(w_db)).

Definition credit_event (new_balance : Z) : AuditEvent :=
  mkAuditEvent u None EVENT_BILLING_CREDIT
    [("ledgerTxId", JStr (uuid_str (next_uuid e w))); ("amount", JInt amount);
     ("newBalance", JInt new_balance); ("reason", JStr reason)].

Definition repaid_event (repaid remaining : Z) : AuditEvent :=
  mkAuditEvent u None EVENT_BILLING_DEBT_REPAID
    [("userId", JStr (uuid_str u)); ("repaid", JInt repaid); ("debtRemaining", JInt remaining);
     ("grantLedgerTxId", JStr (uuid_str (next_uuid e w)))].

(** The database after a new grant: row, wallet, [billing_credit] and, when
    debt was settled, [billing_debt_repaid]. *)
Definition grant_db (cb : bool) : Db :=
  let d1 := add_audit (audit_row e.(env_request_id)
              (credit_event (x.(balance) + (amount - repaid_amount cb)))) (credited cb) in
  if 0 <? repaid_amount cb
  then add_audit (audit_row e.(env_request_id)
         (repaid_event (repaid_amount cb) (x.(debt) - repaid_amount cb))) d1
  else d1.

Lemma grant_replay t :
  ledger_find = Some t ->
  grant_rest u amount key meta reason e w =
  (if same_payload credit amount t then inr (mkGrantResult x.(balance) t.(lt_id) true)
   else inl key_reused, drew_uuid w).
Proof.
  intros Hf. unfold grant_rest, same_payload.
  run by (eapply insert_ledger_replay; [lia|exact Hf]). run by (apply existing_tx_run).
  unfold ledger_find in Hf. cbn. rewrite Hf.
  destruct (bool_decide (lt_type t = credit)), (lt_amount t =? amount); cbn; try done.
  run by done. cbn. unfold wallet_balance. by rewrite Hx.
Qed.

(** The wallet update of a fresh grant, with and without clawback. *)
Definition grant_update (cb : bool) (repaid : Z) : M (Z * Z * Z) :=
  if cb
  then
    updated ← update_wallet u (fun _ => true)
      (fun w => mkWallet (w.(balance) + (amount - repaid)) (w.(debt) - repaid));
    mret match updated with
         | Some w => (w.(balance), repaid, w.(debt))
         | None => (amount, 0, 0)
         end
  else
    updated ← update_wallet u (fun _ => true)
      (fun w => mkWallet (w.(balance) + amount) w.(debt));
    mret match updated with
         | Some w => (w.(balance), 0, 0)
         | None => (amount, 0, 0)
         end.

Let w1 := with_db (add_tx credit_row w.(w_db)) (drew_uuid w).

Lemma grant_update_run cb :
  new_balance cb <= int8_max ->
  grant_update cb (Z.min amount x.(debt)) e w1 =
  (inr (new_balance cb, repaid_amount cb, if cb then x.(debt) - repaid_amount cb else 0),
   with_db (credited cb) w1).
Proof.
  intros Hfit. unfold grant_update, credited, new_balance, repaid_amount, repayment in *. destruct cb.
  - run by (apply (update_wallet_run _ _ _ _ _ x); cbn; [done|done|lia..]). done.
  - run by (apply (update_wallet_run _ _ _ _ _ x); cbn; [done|done|lia..]). cbn.
    by rewrite !Z.sub_0_r.
Qed.

Lemma grant_update_overflow cb :
  int8_max < new_balance cb -> grant_update cb (Z.min amount x.(debt)) e w1 = (inl DataError, w1).
Proof.
  intros Hfit. unfold grant_update, new_balance, repaid_amount, repayment in *. destruct cb.
  - fails by (apply (update_wallet_balance_overflow _ _ _ _ _ x); cbn; [done|done|lia..]). done.
  - fails by (apply (update_wallet_balance_overflow _ _ _ _ _ x); cbn; [done|done|lia..]). done.
Qed.

(** A fresh key: the row is inserted and the wallet update follows. *)
Lemma grant_fresh :
  ledger_find = None ->
  grant_rest u amount key meta reason e w =
  (row ← grant_update clawback (Z.min amount x.(debt));
   let '(new_balance, repaid, debt_remaining) := row in
   record (mkAuditEvent u None EVENT_BILLING_CREDIT
     [("ledgerTxId", JStr (uuid_str (next_uuid e w))); ("amount", JInt amount);
      ("newBalance", JInt new_balance); ("reason", JStr reason)]);;
   (if 0 <? repaid
    then record (repaid_event repaid debt_remaining)
    else mret tt);;
   mret (mkGrantResult new_balance (next_uuid e w) false)) e w1.
Proof.
  intros Hf. unfold grant_rest. run by (apply insert_ledger_new; [lia|done|done]).
  run by done. run by done. cbn [w_db with_db].
  assert (wallet_debt (add_tx (new_tx e w u credit amount meta key) (w_db w)) u = x.(debt)) as ->
    by (unfold wallet_debt; cbn; by rewrite Hx). done.
Qed.

Lemma grant_new :
  ledger_find = None -> new_balance clawback <= int8_max ->
  grant_rest u amount key meta reason e w =
  (inr (mkGrantResult (new_balance clawback) (next_uuid e w) false),
   with_db (grant_db clawback) (drew_uuid w)).
Proof.
  intros Hf Hfit. rewrite grant_fresh by done. run by (by apply grant_update_run).
  run by (by apply record_run). unfold grant_db.
  change (x.(balance) + (amount - repaid_amount clawback)) with (new_balance clawback).
  destruct (0 <? repaid_amount clawback) eqn:Hpos; [|by run by done].
  assert (clawback = true) as Hcb by (destruct clawback; [done|discriminate]). rewrite Hcb in *.
  run by (by apply record_run). done.
Qed.

Lemma grant_new_overflow :
  ledger_find = None -> int8_max < new_balance clawback ->
  grant_rest u amount key meta reason e w = (inl DataError, w1).
Proof.
  intros Hf Hfit. rewrite grant_fresh by done. fails by (by apply grant_update_overflow). done.
Qed.
End grant.

Section grant_refine.
Context (e : Env) (u : uuid) (amount : Z) (key : string) (meta : dict) (reason : string).
Context (w : World) (x : Wallet).
Hypothesis Hx : w.(w_db).(wallets) !! u = Some x.
Hypothesis Hd : 0 <= x.(debt).
Hypothesis Ha : 0 < amount.

Let here := mkAccount x.(balance) x.(debt) (user_txs w.(w_db) u)
              (sumZ (accrued_of u) w.(w_db).(audit_logs)) (sumZ (repaid_of u) w.(w_db).(audit_logs)).
Let row := new_tx e w u credit amount meta key.

Lemma account_credited cb :
  account (credited e u amount key meta w x cb) u =
  mkAccount (x.(balance) + (amount - repayment cb amount x.(debt))) (x.(debt) - repayment cb amount x.(debt))
    (user_txs w.(w_db) u ++ [row]) here.(ac_accrued) here.(ac_repaid).
Proof. unfold credited. rewrite account_put_wallet_eq, user_txs_add_tx. by rewrite decide_True. Qed.

Lemma account_repaid_event d r m :
  account (add_audit (audit_row e.(env_request_id) (repaid_event e u w r m)) d) u =
  let a := account d u in
  mkAccount a.(ac_balance) a.(ac_debt) a.(ac_txs) a.(ac_accrued) (a.(ac_repaid) + r).
Proof.
  rewrite account_add_audit. cbv zeta. unfold accrued_of, repaid_of.
  cbn [al_user_id audit_row al_event_type ev_user_id ev_event_type repaid_event].
  rewrite N.eqb_refl.
  cbn [andb String.eqb Ascii.eqb Bool.eqb EVENT_BILLING_DEBIT_INSUFFICIENT EVENT_BILLING_DEBT_REPAID].
  by rewrite (audit_row_int _ _ "repaid" r), Z.add_0_r.
Qed.

Lemma account_grant_db cb :
  account (grant_db e u amount key meta reason w x cb) u =
  mkAccount (x.(balance) + (amount - repayment cb amount x.(debt))) (x.(debt) - repayment cb amount x.(debt))
    (user_txs w.(w_db) u ++ [row]) here.(ac_accrued)
    (here.(ac_repaid) + repayment cb amount x.(debt)).
Proof.
  unfold grant_db. destruct (0 <? repayment cb amount x.(debt)) eqn:Hpos; zify_bool.
  - rewrite account_repaid_event, account_add_neutral by (by apply neutral_event_type).
    by rewrite account_credited.
  - rewrite account_add_neutral by (by apply neutral_event_type). rewrite account_credited.
    f_equal. unfold repayment in *. destruct cb; lia.
Qed.

Lemma frame_grant_db cb : frame u w.(w_db) (grant_db e u amount key meta reason w x cb).
Proof.
  unfold grant_db, credited. destruct (0 <? _); repeat (eapply frame_trans; [|by apply frame_add_audit]);
    (eapply frame_trans; [|apply frame_put_wallet]; by apply frame_add_tx).
Qed.
End grant_refine.

Lemma grant_starts e w u amount key meta reason :
  0 < amount -> user_exists w.(w_db) u = true ->
  grant u amount key meta reason e w =
  grant_rest u amount key meta reason e (with_db (ensured u w.(w_db)) w).
Proof.
  intros Ha Hu. unfold grant. rewrite (proj2 (Z.leb_gt _ _)) by lia.
  by run by (by apply ensure_wallet_run).
Qed.

Lemma grant_account e w u amount key meta reason :
  user_exists w.(w_db) u = true -> account_ok (account w.(w_db) u) -> 0 < amount ->
  let '(r, w') := grant u amount key meta reason e w in
  let '(r', a') := spec_credit e.(env_settings).(agent_debt_reconcile_enabled)
                     (new_tx e w u credit amount meta key) (account w.(w_db) u) in
  r = r' /\ (r <> inl DataError -> account w'.(w_db) u = a') /\ frame u w.(w_db) w'.(w_db).
Proof.
  intros Hu [Hb Hd] Ha. rewrite grant_starts by done. unfold account in Hb, Hd; cbn in Hb, Hd.
  set (w1 := with_db (ensured u w.(w_db)) w).
  set (x := mkWallet (wallet_balance w.(w_db) u) (wallet_debt w.(w_db) u)).
  assert (w1.(w_db).(wallets) !! u = Some x) as Hx by apply ensured_lookup.
  assert (user_exists w1.(w_db) u = true) as Hu1 by (cbn; by rewrite user_exists_ensured).
  assert (frame u (w_db w) (w_db w1)) as Hframe by apply frame_ensured.
  unfold spec_credit. cbn [lt_idempotency_key new_tx lt_amount].
  destruct (amount <=? int8_max) eqn:Hm; zify_bool.
  2: { unfold grant_rest. fails by (by apply insert_ledger_overflow). done. }
  rewrite find_tx_account, <- ensured_ledger with (u := u).
  destruct (find_first (is_tx u key) (ledger_transactions (ensured u (w_db w)))) as [t|] eqn:Hf.
  { rewrite (grant_replay e u amount key meta reason w1 x) with (t := t) by done.
    cbn. rewrite account_ensured. by destruct (same_payload credit amount t). }
  destruct (ac_balance _ <=? int8_max) eqn:Hfit; zify_bool.
  - rewrite (grant_new e u amount key meta reason w1 x) by first [done | exact Hfit | cbn; lia]. cbn [w_db with_db]. split_and!; [done|intros _|].
    + rewrite (account_grant_db e u amount key meta reason w1 x) by (cbn; lia).
      unfold account, credited_account, user_txs. cbn. by rewrite ensured_ledger, ensured_audit.
    + eapply frame_trans; [exact Hframe|by apply frame_grant_db].
  - rewrite (grant_new_overflow e u amount key meta reason w1 x) by first [done | exact Hfit | cbn; lia]. cbn [w_db with_db].
    split_and!; [done|done|]. eapply frame_trans; [exact Hframe|by apply frame_add_tx].
Qed.

(** C2: [grant] implements the abstract credit.  For an existing user and a
    positive amount: a fresh key credits the balance after repaying
    [min(amount, debt)] of the debt when reconciliation is on, and records the
    row with the full amount; a known key changes no account and either
    replays or reports the payload conflict; an amount or a balance that does
    not fit BIGINT raises [DataError]; nobody else's account changes. *)
Theorem grant_refines e w u amount key meta reason :
  user_exists w.(w_db) u = true -> account_ok (account w.(w_db) u) -> 0 < amount ->
  let '(r, w') := grant u amount key meta reason e w in
  let '(r', a') := spec_credit e.(env_settings).(agent_debt_reconcile_enabled)
                     (new_tx e w u credit amount meta key) (account w.(w_db) u) in
  r = r' /\ (r <> inl DataError -> account w'.(w_db) u = a') /\ frame u w.(w_db) w'.(w_db).
Proof. apply grant_account. Qed.
