(* ===== verification/WalletInv.v ===== *)
(** * Invariants of the money

    The accounting identities that hold of every account, that [consume] and
    [grant] keep them whatever their arguments and outcome, and that they hold
    in every database the wallet can commit. *)

From Stdlib Require Import Ascii String.
From S2P Require Import Prelude PyVal Redaction Store AuditTrail Logic Fixtures Like Wallet WalletRun WalletSpec WalletRefine.

Open Scope string_scope.
Open Scope list_scope.
Open Scope Z_scope.

(** ** The account invariant *)

(** A ledger row counts for the balance with its sign. *)
Definition signed (t : LedgerTransaction) : Z :=
  match t.(lt_type) with credit => t.(lt_amount) | debit => - t.(lt_amount) end.

Definition tx_ok (t : LedgerTransaction) : Prop := 0 < t.(lt_amount) <= int8_max.

Record account_inv (a : Account) : Prop := mkAccountInv {
  ai_ok : account_ok a;
  ai_balance : a.(ac_balance) = sumZ signed a.(ac_txs) - a.(ac_repaid);
  ai_debt : a.(ac_debt) = a.(ac_accrued) - a.(ac_repaid);
  ai_txs : Forall tx_ok a.(ac_txs);
  ai_keys : NoDup (lt_idempotency_key <$> a.(ac_txs))
}.

Lemma find_tx_None key a : find_tx key a = None -> key ∉ (lt_idempotency_key <$> a.(ac_txs)).
Proof.
  intros Hf [t [-> Ht]]%list_elem_of_fmap. unfold find_tx in Hf.
  rewrite find_first_None in Hf. specialize (Hf t Ht). cbn in Hf. by rewrite String.eqb_refl in Hf.
Qed.

(** Appending a row under a fresh key. *)
Lemma account_inv_append a a' t :
  account_inv a -> find_tx t.(lt_idempotency_key) a = None -> tx_ok t -> account_ok a' ->
  a'.(ac_txs) = a.(ac_txs) ++ [t] ->
  a'.(ac_balance) + a'.(ac_repaid) = a.(ac_balance) + a.(ac_repaid) + signed t ->
  a'.(ac_debt) + a'.(ac_repaid) - a'.(ac_accrued) = a.(ac_debt) + a.(ac_repaid) - a.(ac_accrued) ->
  account_inv a'.
Proof.
  intros [Hok Hb Hd Htx Hk] Hf Ht Hok' Htxs Hb' Hd'. split; [done|..]; rewrite ?Htxs.
  - rewrite sumZ_app, sumZ_singleton. lia.
  - lia.
  - apply Forall_app. split; [done|]. by apply Forall_singleton.
  - rewrite fmap_app. apply NoDup_app. split_and!; [done| |apply NoDup_singleton].
    intros k Hin ->%list_elem_of_singleton. by apply (find_tx_None _ _ Hf).
Qed.

Section spec_debit.
Context (mk : Z -> LedgerTransaction) (key : string) (amount : Z).
Hypothesis Hmk : forall n, (mk n).(lt_type) = debit /\ (mk n).(lt_amount) = n /\
                           (mk n).(lt_idempotency_key) = key.
Hypothesis Ha : 0 < amount.

Lemma take_credits_inv n a :
  account_inv a -> find_tx key a = None -> 0 < n <= a.(ac_balance) ->
  account_inv (take_credits mk n a).
Proof.
  intros Hi Hf Hn. destruct (Hmk n) as (Ht & Hm & Hkey). destruct (ai_ok _ Hi) as [Hb Hd].
  apply (account_inv_append a _ (mk n)); rewrite ?Hkey; unfold take_credits, account_ok, tx_ok, signed;
    rewrite ?Ht, ?Hm; cbn; try done; lia.
Qed.

Lemma add_debt_inv delta a :
  account_inv a -> 0 <= delta -> a.(ac_debt) + delta <= int8_max -> account_inv (add_debt delta a).
Proof.
  intros [[Hb Hd] Hbal Hdebt Htx Hk] H1 H2. split; cbn; try done; [split; cbn; lia|lia].
Qed.

Lemma spec_debit_inv mode a : account_inv a -> account_inv (spec_debit mode mk amount key a).2.
Proof.
  intros Hi. unfold spec_debit. destruct (find_tx key a) as [t|] eqn:Hf; [by destruct mode|].
  destruct (ai_ok _ Hi) as [Hb Hd].
  destruct (amount <=? _) eqn:Hle; zify_bool; [apply take_credits_inv; [done..|lia]|].
  unfold spec_shortfall. destruct mode; [done|..]; repeat case_match_goal; zify_bool; cbn; try done.
  - apply add_debt_inv; cbn; [apply take_credits_inv; [done..|lia]|lia|lia].
  - apply take_credits_inv; [done..|lia].
Qed.
End spec_debit.

Lemma spec_credit_inv cb t a :
  account_inv a -> t.(lt_type) = credit -> 0 < t.(lt_amount) ->
  account_inv (spec_credit cb t a).2.
Proof.
  intros Hi Ht Ha. unfold spec_credit. destruct (_ <=? int8_max) eqn:Hm; zify_bool; [|done].
  destruct (find_tx _ a) as [t'|] eqn:Hf; [by destruct (same_payload _ _ _)|].
  destruct (_ <=? int8_max) eqn:Hfit; zify_bool; [|done]. destruct (ai_ok _ Hi) as [Hb Hd].
  cbn in Hfit |- *.
  apply (account_inv_append a _ t); try done; unfold account_ok, tx_ok, signed, repayment in *;
    rewrite ?Ht; cbn; unfold repayment; destruct cb; lia.
Qed.

(** ** The database invariant *)

Record wallet_inv (d : Db) : Prop := mkWalletInv {
  wi_account : forall u, account_inv (account d u);
  wi_users : forall u x, d.(wallets) !! u = Some x -> user_exists d u = true
}.

(** Every account is as it was. *)
Definition same_accounts (d d' : Db) : Prop := forall u, account d' u = account d u.

Lemma account_unprovisioned d u :
  wallet_inv d -> user_exists d u = false -> d.(wallets) !! u = None.
Proof.
  intros Hi Hu. destruct (d.(wallets) !! u) as [x|] eqn:E; [|done].
  pose proof (wi_users _ Hi _ _ E). congruence.
Qed.

Lemma wallet_inv_step u d d' :
  wallet_inv d -> user_exists d u = true -> account_inv (account d' u) -> frame u d d' ->
  wallet_inv d'.
Proof.
  intros Hi Hu Ha Hf. split.
  - intros v. destruct (decide (v = u)) as [->|Hne]; [done|]. rewrite (fr_account _ _ _ Hf) by done. apply Hi.
  - intros v x Hv. unfold user_exists in *. rewrite (frame_users _ _ _ Hf).
    destruct (decide (v = u)) as [->|Hne]; [done|]. rewrite (fr_wallets _ _ _ Hf) in Hv by done.
    by apply (wi_users _ Hi v x).
Qed.

(** ** [consume] and [grant] keep it *)

Lemma spec_debit_raises mode mk amount key a x :
  (spec_debit mode mk amount key a).1 = inl x -> (spec_debit mode mk amount key a).2 = a.
Proof.
  unfold spec_debit, spec_shortfall. destruct (find_tx key a); [by destruct mode|].
  destruct mode; repeat case_match_goal; done.
Qed.

Lemma uncommitted_consume u amount key meta sid : uncommitted (consume u amount key meta sid).
Proof.
  apply uncommitted_keeps. intros c.
  unfold consume, _validate_session, _ensure_wallet, consume_rest, _consume_incremental_clamp,
    _agent_reconcile_applies, _consume_agent_with_debt, clamp_statement, consume_full, _debit_in_savepoint,
    insert_ledger, update_wallet, _existing_tx, _current_balance, record.
  keeps_walk.
Qed.

Lemma uncommitted_grant u amount key meta reason : uncommitted (grant u amount key meta reason).
Proof.
  apply uncommitted_keeps. intros c.
  unfold grant, _ensure_wallet, grant_rest, insert_ledger, update_wallet, _existing_tx, _current_balance, record.
  keeps_walk.
Qed.

(** A session that fails validation stops the debit before it starts. *)
Lemma validate_session_cases e w u (sid : option uuid) :
  let m := match sid with Some s => _validate_session u s | None => mret tt end in
  (session_ok w.(w_db) u sid /\ m e w = (inr tt, w)) \/ (exists x, m e w = (inl x, w)).
Proof.
  destruct sid as [s|]; [|by left]. cbn. unfold _validate_session, mbind, M_bind, get_db.
  destruct (session_owner w.(w_db) s) as [o|]; [|by right; eexists].
  destruct (N.eqb_spec o u) as [->|]; [by left|by right; eexists].
Qed.

Lemma ensure_wallet_missing e w u :
  wallet_inv w.(w_db) -> user_exists w.(w_db) u = false -> _ensure_wallet u e w = (inl IntegrityError, w).
Proof. intros Hi Hu. apply ensure_wallet_no_user; [done|by apply account_unprovisioned]. Qed.

(** A debit that succeeds had a positive amount, a user and a valid session. *)
Lemma consume_succeeds e w u amount key meta sid r w' :
  wallet_inv w.(w_db) -> consume u amount key meta sid e w = (inr r, w') ->
  0 < amount /\ user_exists w.(w_db) u = true /\ session_ok w.(w_db) u sid.
Proof.
  intros Hi Hrun. unfold consume in Hrun. destruct (amount <=? 0) eqn:Ha; [done|]. zify_bool.
  destruct (validate_session_cases e w u sid) as [[Hs Hv]|[x Hv]].
  2: { erewrite bind_inl in Hrun by exact Hv. done. }
  erewrite bind_inr in Hrun by exact Hv.
  destruct (user_exists w.(w_db) u) eqn:Hu; [done|].
  erewrite bind_inl in Hrun by (by apply ensure_wallet_missing). done.
Qed.

(** What a debit does, whatever its arguments: an exception leaves every
    account as it was, and the invariant holds afterwards. *)
Lemma consume_sound e w u amount key meta sid :
  wallet_inv w.(w_db) ->
  let '(r, w') := consume u amount key meta sid e w in
  wallet_inv w'.(w_db) /\ (forall x, r = inl x -> same_accounts w.(w_db) w'.(w_db)).
Proof.
  intros Hi. destruct (amount <=? 0) eqn:Ha; [unfold consume; by rewrite Ha|]. zify_bool.
  destruct (validate_session_cases e w u sid) as [[Hs Hv]|[x Hv]].
  2: { unfold consume. rewrite (proj2 (Z.leb_gt _ _)) by lia. fails by exact Hv. done. }
  destruct (user_exists w.(w_db) u) eqn:Hu.
  2: { unfold consume. rewrite (proj2 (Z.leb_gt _ _)) by lia. run by exact Hv.
       fails by (by apply ensure_wallet_missing). done. }
  pose proof (wi_account _ Hi u) as Hacc.
  pose proof (consume_account e w u amount key meta sid Hu Hs (ai_ok _ Hacc) Ha) as [Hr Hf].
  destruct (consume u amount key meta sid e w) as [r w']. cbn [fst snd] in *. split.
  - apply (wallet_inv_step u w.(w_db)); try done. apply (f_equal snd) in Hr. cbn [snd] in Hr. rewrite Hr.
    by apply spec_debit_inv.
  - intros x ->. intros v. destruct (decide (v = u)) as [->|Hne]; [|by apply Hf].
    pose proof (f_equal snd Hr) as Ha2. apply (f_equal fst) in Hr. cbn [fst snd] in *. rewrite Ha2.
    symmetry in Hr. by eapply spec_debit_raises.
Qed.

Lemma grant_sound e w u amount key meta reason :
  wallet_inv w.(w_db) ->
  let '(r, w') := grant u amount key meta reason e w in
  r <> inl DataError ->
  wallet_inv w'.(w_db) /\ (forall x, r = inl x -> same_accounts w.(w_db) w'.(w_db)).
Proof.
  intros Hi. destruct (amount <=? 0) eqn:Ha; [unfold grant; by rewrite Ha|]. zify_bool.
  destruct (user_exists w.(w_db) u) eqn:Hu.
  2: { unfold grant. rewrite (proj2 (Z.leb_gt _ _)) by lia.
       fails by (by apply ensure_wallet_missing). done. }
  pose proof (wi_account _ Hi u) as Hacc.
  pose proof (grant_account e w u amount key meta reason Hu (ai_ok _ Hacc) Ha) as Hg.
  destruct (grant u amount key meta reason e w) as [r w'].
  pose proof (spec_credit_inv (agent_debt_reconcile_enabled (env_settings e))
                (new_tx e w u credit amount meta key) _ Hacc eq_refl Ha) as Hinv.
  destruct (spec_credit _ _ _) as [r' a'] eqn:Hspec. destruct Hg as (-> & Hg & Hf).
  intros Hne. specialize (Hg Hne). cbn in Hinv. split.
  - apply (wallet_inv_step u w.(w_db)); try done. by rewrite Hg.
  - intros x ->. intros v. destruct (decide (v = u)) as [->|Hv]; [|by apply Hf].
    rewrite Hg. unfold spec_credit in Hspec. repeat case_match_hyp Hspec; congruence.
Qed.

Lemma keeps_consume u amount key meta sid : keeps wallet_inv wallet_inv (consume u amount key meta sid).
Proof.
  intros e w [H1 H2]. pose proof (consume_sound e w u amount key meta sid H1) as H.
  pose proof (uncommitted_consume u amount key meta sid e w) as Hc.
  destruct (consume _ _ _ _ _ e w) as [r w']. cbn in Hc. rewrite Hc. split; [done|]. intros _. by apply H.
Qed.

Lemma keeps_grant u amount key meta reason : keeps wallet_inv wallet_inv (grant u amount key meta reason).
Proof.
  intros e w [H1 H2]. pose proof (grant_sound e w u amount key meta reason H1) as H.
  pose proof (uncommitted_grant u amount key meta reason e w) as Hc.
  destruct (grant _ _ _ _ _ e w) as [r w']. cbn in Hc. rewrite Hc. split; [done|]. intros Hr. by apply H.
Qed.

Lemma grant_frame e w u amount key meta reason :
  wallet_inv w.(w_db) -> frame u w.(w_db) (grant u amount key meta reason e w).2.(w_db).
Proof.
  intros Hi. destruct (amount <=? 0) eqn:Ha; [unfold grant; rewrite Ha; apply frame_refl|]. zify_bool.
  destruct (user_exists w.(w_db) u) eqn:Hu.
  2: { unfold grant. rewrite (proj2 (Z.leb_gt _ _)) by lia.
       fails by (by apply ensure_wallet_missing). apply frame_refl. }
  pose proof (grant_account e w u amount key meta reason Hu (ai_ok _ (wi_account _ Hi u)) Ha) as Hg.
  destruct (grant u amount key meta reason e w) as [r w'].
  destruct (spec_credit _ _ _) as [r' a']. apply Hg.
Qed.

Lemma consume_frame e w u amount key meta sid :
  wallet_inv w.(w_db) -> frame u w.(w_db) (consume u amount key meta sid e w).2.(w_db).
Proof.
  intros Hi. destruct (amount <=? 0) eqn:Ha; [unfold consume; rewrite Ha; apply frame_refl|]. zify_bool.
  destruct (validate_session_cases e w u sid) as [[Hs Hv]|[x Hv]].
  2: { unfold consume. rewrite (proj2 (Z.leb_gt _ _)) by lia. fails by exact Hv. apply frame_refl. }
  destruct (user_exists w.(w_db) u) eqn:Hu.
  2: { unfold consume. rewrite (proj2 (Z.leb_gt _ _)) by lia. run by exact Hv.
       fails by (by apply ensure_wallet_missing). apply frame_refl. }
  apply (consume_account e w u amount key meta sid Hu Hs (ai_ok _ (wi_account _ Hi u)) Ha).
Qed.

(** The invariant reads the three money tables and [users] only. *)
Lemma wallet_inv_ext d d' :
  d'.(wallets) = d.(wallets) -> d'.(ledger_transactions) = d.(ledger_transactions) ->
  d'.(audit_logs) = d.(audit_logs) -> d'.(users) = d.(users) -> wallet_inv d -> wallet_inv d'.
Proof.
  intros Hw Hl Ha Hu [H1 H2]. split.
  - intros u. specialize (H1 u). unfold account, wallet_balance, wallet_debt, user_txs in *.
    by rewrite Hw, Hl, Ha.
  - intros u x. unfold user_exists. rewrite Hw, Hu. apply H2.
Qed.

Lemma wallet_inv_add_audit d r : neutral r -> wallet_inv d -> wallet_inv (add_audit r d).
Proof.
  intros Hn [H1 H2]. split; [|exact H2]. intros u. by rewrite account_add_neutral.
Qed.

Lemma keeps_record ev :
  ev.(ev_event_type) <> EVENT_BILLING_DEBIT_INSUFFICIENT ->
  ev.(ev_event_type) <> EVENT_BILLING_DEBT_REPAID ->
  keeps wallet_inv wallet_inv (record ev).
Proof.
  intros H1 H2. unfold record. keeps_walk. apply wallet_inv_add_audit; [|done].
  by apply neutral_event_type.
Qed.

#[export] Hint Resolve keeps_consume keeps_grant : hermes.

(** What every component promises to the others and to the histories of the
    whole service: run in a session over sound books, it leaves sound books,
    committed or not, whatever it returns or raises. *)
Class KeepsBooks {A} (m : M A) : Prop := keeps_books : keeps wallet_inv wallet_inv m.

#[export] Instance consume_books u amount key meta sid : KeepsBooks (consume u amount key meta sid).
Proof. apply keeps_consume. Qed.

#[export] Instance grant_books u amount key meta reason : KeepsBooks (grant u amount key meta reason).
Proof. apply keeps_grant. Qed.

#[export] Hint Extern 1 (keeps wallet_inv wallet_inv (record _)) =>
  apply keeps_record; discriminate : hermes.
#[export] Hint Extern 1 (wallet_inv _) =>
  match goal with H : wallet_inv ?d |- _ => apply (wallet_inv_ext d); [reflexivity..|exact H] end : hermes.

(** ** Idempotency *)

Lemma find_tx_append key a a' t :
  find_tx key a = None -> t.(lt_idempotency_key) = key ->
  (a.(ac_txs) ++ [t]) `prefix_of` a'.(ac_txs) -> find_tx key a' = Some t.
Proof.
  intros Hf Ht [l Hl]. unfold find_tx in *. rewrite Hl, !find_first_app, Hf. cbn.
  by rewrite Ht, String.eqb_refl.
Qed.

(** A debit that charges appends its row, and on the plain path the row has the
    full amount. *)
Lemma spec_debit_charges mode mk amount key a r a' :
  0 < amount -> account_ok a -> spec_debit mode mk amount key a = (inr r, a') -> 0 < r.(cr_charged_amount) ->
  exists n, find_tx key a = None /\ a'.(ac_txs) = a.(ac_txs) ++ [mk n] /\
    r.(cr_ledger_tx_id) = (mk n).(lt_id) /\ (mode = Full -> n = amount /\ amount <= int8_max).
Proof.
  intros Ha [Hb Hd] Hs Hc. unfold spec_debit, spec_shortfall in Hs.
  destruct (find_tx key a) as [t|].
  { destruct mode; repeat case_match_hyp Hs; simplify_eq; cbn in Hc; lia. }
  destruct mode; repeat case_match_hyp Hs; simplify_eq; cbn in Hc; try lia;
    eexists; split_and!; try done; intros ?; zify_bool; try done; split; [done|lia].
Qed.

(** C4: a debit is charged at most once per key.  Once a [consume] has charged
    the user, any later [consume] with the same key, amount and discipline, in
    any state whose ledger still holds the user's rows, reports a replay with
    the same transaction id, charges nothing and leaves every account as it
    was. *)
Theorem consume_charges_once e w u amount key meta sid r w' e2 w2 sid2 :
  wallet_inv w.(w_db) -> consume u amount key meta sid e w = (inr r, w') -> 0 < r.(cr_charged_amount) ->
  wallet_inv w2.(w_db) -> user_exists w2.(w_db) u = true -> session_ok w2.(w_db) u sid2 ->
  user_txs w'.(w_db) u `prefix_of` user_txs w2.(w_db) u ->
  debit_mode e2.(env_settings) meta = debit_mode e.(env_settings) meta ->
  let '(r2, w2') := consume u amount key meta sid2 e2 w2 in
  r2 = inr (mkConsumeResult (wallet_balance w2.(w_db) u) r.(cr_ledger_tx_id) true 0) /\
  same_accounts w2.(w_db) w2'.(w_db).
Proof.
  intros Hi Hrun Hc Hi2 Hu2 Hs2 Hpre Hmode.
  destruct (consume_succeeds _ _ _ _ _ _ _ _ _ Hi Hrun) as (Ha & Hu & Hs).
  pose proof (ai_ok _ (wi_account _ Hi u)) as Hok.
  destruct (consume_account e w u amount key meta sid Hu Hs Hok Ha) as [H1 _]. rewrite Hrun in H1. cbn [fst snd] in H1.
  symmetry in H1. destruct (spec_debit_charges _ _ _ _ _ _ _ Ha Hok H1 Hc) as (n & Hf & Htx & Hid & Hfull).
  pose proof (ai_ok _ (wi_account _ Hi2 u)) as Hok2.
  destruct (consume_account e2 w2 u amount key meta sid2 Hu2 Hs2 Hok2 Ha) as [H2 Hframe].
  destruct (consume u amount key meta sid2 e2 w2) as [r2 w2']. cbn [fst snd] in *.
  assert (find_tx key (account w2.(w_db) u) = Some (new_tx e w u debit n meta key)) as Hf2.
  { apply (find_tx_append _ (account w.(w_db) u)); [done|done|]. rewrite <- Htx. exact Hpre. }
  unfold spec_debit in H2. rewrite Hf2, Hmode in H2.
  assert (r2 = inr (replayed (new_tx e w u debit n meta key) (account w2.(w_db) u)) /\
          account w2'.(w_db) u = account w2.(w_db) u) as [-> Hacc].
  { destruct (debit_mode (env_settings e) meta); try (split; congruence). destruct (Hfull eq_refl) as [-> Hmax].
    rewrite (proj2 (Z.leb_le _ _) Hmax) in H2. unfold same_payload in H2. cbn [lt_type new_tx lt_amount] in H2.
    rewrite bool_decide_true, Z.eqb_refl in H2 by done. cbn in H2. split; congruence. }
  split; [unfold replayed; by rewrite Hid|].
  intros v. destruct (decide (v = u)) as [->|Hne]; [done|by apply Hframe].
Qed.

(** ** Money that a run has cost *)

(** The reconnect seed counts exactly the run's own rows: the debits whose
    key is the run id or starts with the run id and a colon, whatever [LIKE]
    metacharacters the run id contains. *)
Theorem charged_for_run_exact e w u run_id :
  charged_for_run u run_id e w =
  (inr (sumZ lt_amount
          (filter (fun t => t.(lt_user_id) = u /\ t.(lt_type) = debit /\
                     (t.(lt_idempotency_key) = run_id \/
                      Is_true (Str.startswith (run_id ++ ":")%string t.(lt_idempotency_key))))
             w.(w_db).(ledger_transactions))), w).
Proof.
  unfold charged_for_run. run by done. unfold mret, M_ret. do 3 f_equal. apply list_filter_iff. intros t. by rewrite like_run_prefix.
Qed.

(** ** A database with money, for the witnesses *)

Lemma wallet_inv_fresh d :
  d.(wallets) = ∅ -> d.(ledger_transactions) = [] -> d.(audit_logs) = [] -> wallet_inv d.
Proof.
  intros Hw Hl Ha. split.
  - intros u. unfold account, wallet_balance, wallet_debt, user_txs. rewrite Hw, Hl, Ha.
    split; cbn; try done. apply NoDup_nil_2.
  - intros u x Hx. by rewrite Hw in Hx.
Qed.

(** Alice after a grant of 100 credits. *)
Definition funded : World := (grant alice 100 "purchase-1" [] "purchase" demo_env demo_world).2.

Lemma funded_inv : wallet_inv funded.(w_db).
Proof.
  pose proof (grant_sound demo_env demo_world alice 100 "purchase-1" [] "purchase") as H.
  unfold funded. destruct (grant _ _ _ _ _ _ _) as [r w'] eqn:E.
  apply H; [by apply wallet_inv_fresh|]. intros ->. by vm_compute in E.
Qed.

Definition agent_meta : dict := [("source", JStr "agent_run"); ("runId", JStr "r1")].

(** The second [consume] of the same step charges nothing. *)
Definition after_step : World := (consume alice 30 "r1" agent_meta None demo_env funded).2.

Lemma consume_charges_once_witness :
  let '(r2, w2') := consume alice 30 "r1" agent_meta None demo_env after_step in
  r2 = inr (mkConsumeResult (wallet_balance after_step.(w_db) alice) 1001%N true 0) /\
  same_accounts after_step.(w_db) w2'.(w_db).
Proof.
  pose proof (consume_sound demo_env funded alice 30 "r1" agent_meta None funded_inv) as Hs.
  apply (consume_charges_once demo_env funded alice 30 "r1" agent_meta None
           (mkConsumeResult 70 1001%N false 30) after_step).
  - exact funded_inv.
  - vm_compute. reflexivity.
  - vm_compute. reflexivity.
  - unfold after_step. destruct (consume _ _ _ _ _ _ funded). apply Hs.
  - vm_compute. reflexivity.
  - exact I.
  - reflexivity.
  - reflexivity.
Defined.

Lemma consume_refines_witness :
  let '(r, w') := consume alice 130 "r1" agent_meta None demo_env funded in
  (r, account w'.(w_db) alice) =
    spec_debit Reconcile (fun n => new_tx demo_env funded alice debit n agent_meta "r1")
      130 "r1" (account funded.(w_db) alice) /\
  frame alice funded.(w_db) w'.(w_db).
Proof.
  apply (consume_refines demo_env funded alice 130 "r1" agent_meta None).
  - vm_compute. reflexivity.
  - exact I.
  - split; vm_compute; by split.
  - reflexivity.
Defined.

Lemma grant_refines_witness :
  let '(r, w') := grant alice 50 "purchase-2" [] "purchase" demo_env funded in
  let '(r', a') := spec_credit true (new_tx demo_env funded alice credit 50 [] "purchase-2")
                     (account funded.(w_db) alice) in
  r = r' /\ (r <> inl DataError -> account w'.(w_db) alice = a') /\ frame alice funded.(w_db) w'.(w_db).
Proof.
  apply (grant_refines demo_env funded alice 50 "purchase-2" [] "purchase").
  - vm_compute. reflexivity.
  - split; vm_compute; by split.
  - reflexivity.
Defined.

(** A debit is all or nothing.  From any sound database, whatever the
    arguments, a [consume] that raises leaves the account of every user (balance,
    debt, ledger rows) exactly as it was, and one that returns leaves a sound
    database. *)
Theorem consume_all_or_nothing e w u amount key meta sid :
  wallet_inv w.(w_db) ->
  let '(r, w') := consume u amount key meta sid e w in
  wallet_inv w'.(w_db) /\ (forall x, r = inl x -> same_accounts w.(w_db) w'.(w_db)).
Proof. apply consume_sound. Qed.

Lemma consume_all_or_nothing_witness :
  let '(r, w') := consume alice 500 "chat-1" [] None demo_env funded in
  wallet_inv w'.(w_db) /\ (forall x, r = inl x -> same_accounts funded.(w_db) w'.(w_db)).
Proof. apply (consume_all_or_nothing demo_env funded alice 500 "chat-1" [] None). exact funded_inv. Defined.

(** Alice overdraws by 30 on an agent run, then buys 50 credits. *)
Definition overdrawn : World := (consume alice 130 "r1" agent_meta None demo_env funded).2.
Definition repaid_world : World := (grant alice 50 "purchase-2" [] "purchase" demo_env overdrawn).2.

(** After a clawback the balance is not the sum of the credits less the sum
    of the debits: the repaid debt is missing from the ledger rows.  The
    identity that does hold subtracts what was repaid. *)
Theorem clawback_breaks_plain_identity :
  let a := account repaid_world.(w_db) alice in
  a.(ac_balance) = 20 /\ sumZ signed a.(ac_txs) = 50 /\ a.(ac_repaid) = 30.
Proof. vm_compute. done. Qed.
