(* ===== verification/Policy.v ===== *)
(** * Access policy

    Models [src/app/policy/engine.py] (the pure decision [evaluate]) and
    [src/app/policy/loader.py] (the state it is given and [/policy/effective]). *)

From Stdlib Require Import String.
From S2P Require Import Prelude PyVal Redaction Store Logic Fixtures Wallet WalletRun.

Open Scope Z_scope.

Inductive BlockReason : Set :=
| trial_used_reason | subscription_required | subscription_expired | credits_empty
| byok_disabled_reason | byok_invalid_reason | rate_limited | policy_denied
| debt_outstanding | max_tokens.

#[global] Instance BlockReason_eq_dec : EqDecision BlockReason.
Proof. solve_decision. Defined.

Record PolicyState : Type := mkPolicyState {
  ps_subscription_status : SubscriptionStatus;
  ps_trial_used : bool;
  ps_credits_balance : Z;
  ps_byok_enabled : bool;
  ps_byok_status : ByokState
}.

(** The source's [Decision]. *)
Record PolicyDecision : Type := mkDecision { allow : bool; block_reason : option BlockReason }.

Definition allowed : PolicyDecision := mkDecision true None.
Definition blocked (r : BlockReason) : PolicyDecision := mkDecision false (Some r).

Definition _byok_state (byok_enabled : bool) (byok_status : ByokState) : ByokState :=
  if negb byok_enabled then byok_disabled else byok_status.

Definition evaluate (state : PolicyState) (mode : Mode) : PolicyDecision :=
  match mode with
  | mode_byok =>
      match state.(ps_subscription_status) with
      | sub_expired => blocked subscription_expired
      | sub_none => blocked subscription_required
      | sub_active =>
          match _byok_state state.(ps_byok_enabled) state.(ps_byok_status) with
          | byok_disabled => blocked byok_disabled_reason
          | byok_valid => allowed
          | _ => blocked byok_invalid_reason
          end
      end
  | mode_credits =>
      match state.(ps_subscription_status) with
      | sub_active => if state.(ps_credits_balance) =? 0 then blocked credits_empty else allowed
      | sub_expired => blocked subscription_expired
      | sub_none => if state.(ps_trial_used) then blocked trial_used_reason else allowed
      end
  end.

(** Lazy expiry: the clock is read only for a stored [active] with a date. *)
Definition _effective_subscription_status (status : option SubscriptionStatus) (expires_at : option instant) :
    M SubscriptionStatus :=
  match status with
  | None | Some sub_none => mret sub_none
  | Some sub_expired => mret sub_expired
  | Some sub_active =>
      match expires_at with
      | Some t => now ← py_now; mret (if t <=? now then sub_expired else sub_active)
      | None => mret sub_active
      end
  end.

Definition load_policy_state (u : uuid) : M PolicyState :=
  d ← get_db;
  let trial_used := match d.(users) !! u with Some r => r.(u_trial_used) | None => false end in
  let sub := d.(subscriptions) !! u in
  sub_status ← _effective_subscription_status (s_status <$> sub) (s ← sub; s_expires_at s);
  let byok := d.(byok_keys) !! u in
  mret (mkPolicyState sub_status trial_used (wallet_balance d u)
          (match byok with Some k => k.(bk_enabled) | None => false end)
          (match byok with Some k => k.(bk_status) | None => byok_missing end)).

Record EffectivePolicy : Type := mkEffectivePolicy {
  is_subscribed : bool;
  trial_remaining : Z;
  ep_credits_balance : Z;
  ep_debt : Z;
  ep_byok_enabled : bool;
  can_generate_credits_mode : bool;
  can_generate_byok_mode : bool;
  reasons : list BlockReason
}.

(** Append a decision's reason unless it allows or the reason is there. *)
Definition append_reason (reasons : list BlockReason) (d : PolicyDecision) : list BlockReason :=
  if allow d then reasons
  else match d.(block_reason) with
       | Some r => if bool_decide (r ∈ reasons) then reasons else reasons ++ [r]
       | None => reasons
       end.

Definition effective (u : uuid) : M EffectivePolicy :=
  state ← load_policy_state u;
  d ← get_db;
  let debt := wallet_debt d u in
  let credits_decision := evaluate state mode_credits in
  let byok_decision := evaluate state mode_byok in
  let reasons := append_reason (append_reason [] credits_decision) byok_decision in
  let is_subscribed := bool_decide (state.(ps_subscription_status) = sub_active) in
  let trial_remaining :=
    if bool_decide (state.(ps_subscription_status) = sub_none) && negb state.(ps_trial_used) then 1 else 0 in
  let byok_enabled_effective :=
    state.(ps_byok_enabled) && bool_decide (state.(ps_byok_status) = byok_valid) in
  mret (mkEffectivePolicy is_subscribed trial_remaining state.(ps_credits_balance) debt
          byok_enabled_effective credits_decision.(allow) byok_decision.(allow) reasons).

(** ** What the decision is *)

(** The access rule of each mode, stated independently of the order in which
    the code asks. *)
Definition may_generate (s : PolicyState) (m : Mode) : Prop :=
  match m with
  | mode_credits =>
      (s.(ps_subscription_status) = sub_active /\ s.(ps_credits_balance) <> 0) \/
      (s.(ps_subscription_status) = sub_none /\ s.(ps_trial_used) = false)
  | mode_byok =>
      s.(ps_subscription_status) = sub_active /\ s.(ps_byok_enabled) = true /\
      s.(ps_byok_status) = byok_valid
  end.

(** The reasons a client of the chat path can be shown. *)
Definition chat_reason (r : BlockReason) : bool :=
  match r with rate_limited | policy_denied | debt_outstanding | max_tokens => false | _ => true end.

Lemma evaluate_allow s m : allow (evaluate s m) = true <-> may_generate s m.
Proof.
  destruct s as [st tr b en by_]. destruct m; cbn.
  - destruct st; cbn; [destruct (Z.eqb_spec b 0)| |destruct tr]; cbn; naive_solver.
  - destruct st; cbn; [|naive_solver..]. destruct en; cbn; [|naive_solver].
    destruct by_; cbn; naive_solver.
Qed.

Lemma evaluate_reason s m :
  match block_reason (evaluate s m) with
  | Some r => allow (evaluate s m) = false /\ chat_reason r = true
  | None => allow (evaluate s m) = true
  end.
Proof.
  destruct s as [st tr b en by_]. destruct m; cbn; destruct st; cbn; try done.
  - by destruct (b =? 0).
  - by destruct tr.
  - by destruct en, by_.
Qed.

(** The decision is the access rule: generation is allowed exactly when the
    rule of the mode holds, a refusal carries a reason, the reason is one the
    chat path may show, and an allowance carries none. *)
Theorem evaluate_decides s m :
  (allow (evaluate s m) = true <-> may_generate s m) /\
  match block_reason (evaluate s m) with
  | Some r => allow (evaluate s m) = false /\ chat_reason r = true
  | None => allow (evaluate s m) = true
  end.
Proof. split; [apply evaluate_allow|apply evaluate_reason]. Qed.

(** ** [/policy/effective] agrees with [/chat/run] *)

Lemma elem_of_nil_inv_iff {A} (l : list A) : l = [] <-> forall x, x ∉ l.
Proof. split; [intros -> x; apply not_elem_of_nil|apply elem_of_nil_inv]. Qed.

Lemma append_reason_in rs d r :
  block_reason d = None \/ allow d = false ->
  r ∈ append_reason rs d <-> r ∈ rs \/ block_reason d = Some r.
Proof.
  intros Hd. unfold append_reason. destruct (allow d) eqn:Ha.
  { destruct Hd as [->|]; [naive_solver|done]. }
  destruct (block_reason d) as [q|]; [|naive_solver].
  case_bool_decide as Hq; [naive_solver|]. rewrite elem_of_app, list_elem_of_singleton. naive_solver.
Qed.

Lemma evaluate_reason_or s m : block_reason (evaluate s m) = None \/ allow (evaluate s m) = false.
Proof. pose proof (evaluate_reason s m). destruct (block_reason (evaluate s m)); naive_solver. Qed.

Lemma append_reason_nodup rs d : NoDup rs -> NoDup (append_reason rs d).
Proof.
  intros H. unfold append_reason. destruct (allow d); [done|]. destruct (block_reason d) as [q|]; [|done].
  case_bool_decide as Hq; [done|]. apply NoDup_app. split_and!; [done| |apply NoDup_singleton].
  intros x Hx ->%list_elem_of_singleton. done.
Qed.

Lemma load_policy_state_total u e w :
  exists s w', load_policy_state u e w = (inr s, w') /\ w'.(w_db) = w.(w_db) /\
    w'.(w_committed) = w.(w_committed) /\ w'.(w_uuids) = w.(w_uuids).
Proof.
  unfold load_policy_state, _effective_subscription_status. run by done.
  destruct (w.(w_db).(subscriptions) !! u) as [[[] p [t|]]|]; cbn; by eexists _, _.
Qed.

(** [/policy/effective] never disagrees with the gate of [/chat/run]: both
    flags are the decisions on the state that [load_policy_state] reads in the
    same call, [reasons] lists, without repetition, exactly the reasons those
    decisions give, it is empty exactly when both modes may generate, and the
    reading changes nothing but the clock. *)
Theorem effective_agrees e w u :
  exists s ep w', load_policy_state u e w = (inr s, w') /\ effective u e w = (inr ep, w') /\
    w'.(w_db) = w.(w_db) /\
    (can_generate_credits_mode ep = true <-> may_generate s mode_credits) /\
    (can_generate_byok_mode ep = true <-> may_generate s mode_byok) /\
    (forall r, r ∈ reasons ep <-> exists m, block_reason (evaluate s m) = Some r) /\
    NoDup (reasons ep) /\
    (reasons ep = [] <-> can_generate_credits_mode ep = true /\ can_generate_byok_mode ep = true).
Proof.
  destruct (load_policy_state_total u e w) as (s & w' & Hs & Hd & _).
  exists s. unfold effective. eexists _, w'. split; [done|]. split.
  { run by exact Hs. run by done. reflexivity. }
  cbn [can_generate_credits_mode can_generate_byok_mode reasons].
  assert (Hin : forall r, r ∈ append_reason (append_reason [] (evaluate s mode_credits)) (evaluate s mode_byok) <->
            exists m, block_reason (evaluate s m) = Some r).
  { intros r. rewrite !append_reason_in by apply evaluate_reason_or. rewrite elem_of_nil. split.
    - intros [[[]|H]|H]; eauto.
    - intros [[] H]; auto. }
  split_and!; [done|apply evaluate_allow|apply evaluate_allow|exact Hin| |].
  - apply append_reason_nodup, append_reason_nodup, NoDup_nil_2.
  - rewrite elem_of_nil_inv_iff. setoid_rewrite Hin.
    pose proof (evaluate_reason s mode_credits). pose proof (evaluate_reason s mode_byok). split.
    + intros Hno. split; [destruct (block_reason (evaluate s mode_credits)) eqn:E|
        destruct (block_reason (evaluate s mode_byok)) eqn:E]; try done; exfalso; eapply Hno; eauto.
    + intros [H1 H2] r [[] E]; rewrite E in *; naive_solver congruence.
Qed.
