(* ===== verification/Uuid.v ===== *)
(** * Reading identifiers from outside

    [uuid.UUID(s)] of Python's standard library, which the webhook parsers use
    on the identifiers that arrive from payment providers, and its round trip
    with [str(u)]; the two-step resolution of [src/app/billing_common/resolve.py]. *)

From Stdlib Require Import Ascii String.
From S2P Require Import Prelude PyVal Redaction Store Logic.

Open Scope string_scope.
Open Scope list_scope.

(** [s.replace(p, "")]: [skip] characters of a match are still to be dropped. *)
Fixpoint remove_sub (p : string) (skip : nat) (s : string) : string :=
  match s with
  | EmptyString => ""
  | String c s' =>
      match skip with
      | S k => remove_sub p k s'
      | O => if String.prefix p s then remove_sub p (String.length p - 1) s'
             else String c (remove_sub p 0 s')
      end
  end.

(** [s.strip(chars)] *)
Fixpoint lstrip_chars (in_set : ascii -> bool) (s : string) : string :=
  match s with
  | EmptyString => ""
  | String c s' => if in_set c then lstrip_chars in_set s' else s
  end.

Fixpoint rstrip_chars (in_set : ascii -> bool) (s : string) : string :=
  match s with
  | EmptyString => ""
  | String c s' =>
      match rstrip_chars in_set s' with
      | EmptyString => if in_set c then "" else String c ""
      | r => String c r
      end
  end.

Definition strip_chars (in_set : ascii -> bool) (s : string) : string :=
  rstrip_chars in_set (lstrip_chars in_set s).

Definition hex_val (c : ascii) : option N :=
  let n := N_of_ascii c in
  if (48 <=? n)%N && (n <=? 57)%N then Some (n - 48)%N
  else if (97 <=? n)%N && (n <=? 102)%N then Some (n - 87)%N
  else if (65 <=? n)%N && (n <=? 70)%N then Some (n - 55)%N
  else None.

(** The digits of [int(s, 16)]: single underscores may separate them. *)
Fixpoint hex_acc (acc : N) (after_digit : bool) (s : string) : option N :=
  match s with
  | EmptyString => if after_digit then Some acc else None
  | String c s' =>
      if Ascii.eqb c "_" then (if after_digit then hex_acc acc false s' else None)
      else match hex_val c with
           | Some v => hex_acc (16 * acc + v) true s'
           | None => None
           end
  end.

Definition drop_0x (s : string) : string :=
  match s with
  | String "0" (String c s') =>
      if Ascii.eqb c "x" || Ascii.eqb c "X"
      then match s' with String "_" s'' => s'' | _ => s' end
      else s
  | _ => s
  end.

(** [int(s, 16)]: [None] is [ValueError]; the flag is the sign. *)
Definition int_base16 (s : string) : option (bool * N) :=
  let s := Str.strip s in
  let '(neg, s) := match s with
                   | String "-" s' => (true, s')
                   | String "+" s' => (false, s')
                   | _ => (false, s)
                   end in
  match hex_acc 0 false (drop_0x s) with Some n => Some (neg, n) | None => None end.

(** [uuid.UUID(raw)]: [None] is [ValueError]. *)
Definition UUID (raw : string) : option uuid :=
  let h := remove_sub "uuid:" 0 (remove_sub "urn:" 0 raw) in
  let h := remove_sub "-" 0 (strip_chars (fun c => Ascii.eqb c "{" || Ascii.eqb c "}") h) in
  if Nat.eqb (String.length h) 32 then
    match int_base16 h with
    | Some (false, n) => if (n <? 2 ^ 128)%N then Some n else None
    | Some (true, n) => if (n =? 0)%N then Some 0%N else None
    | None => None
    end
  else None.

(** ** Round trip *)

(** A lower-case hexadecimal digit. *)
Definition is_hex (c : ascii) : bool :=
  let n := N_of_ascii c in
  ((48 <=? n)%N && (n <=? 57)%N) || ((97 <=? n)%N && (n <=? 102)%N).

Fixpoint all_hex (s : string) : bool :=
  match s with EmptyString => true | String c s' => is_hex c && all_hex s' end.

Lemma hex_digit_val n : (n < 16)%N -> hex_val (hex_digit n) = Some n /\ is_hex (hex_digit n) = true.
Proof.
  revert n. apply (below_all _ 16). repeat constructor.
Qed.

Lemma hex_digits_length k n acc : String.length (hex_digits k n acc) = (k + String.length acc)%nat.
Proof. revert n acc. induction k as [|k IH]; intros n acc; cbn; [done|]. rewrite IH. cbn. lia. Qed.

Lemma hex_digits_hex k n acc : all_hex acc = true -> all_hex (hex_digits k n acc) = true.
Proof.
  revert n acc. induction k as [|k IH]; intros n acc Ha; cbn [hex_digits]; [done|]. apply IH. cbn.
  destruct (hex_digit_val (n mod 16)) as [_ ->]; [by apply N.mod_lt|done].
Qed.

Lemma hex_acc_digits k n acc a b :
  hex_acc a b (hex_digits (S k) n acc) = hex_acc (16 ^ N.of_nat (S k) * a + n mod 16 ^ N.of_nat (S k)) true acc.
Proof.
  revert n acc. induction k as [|k IH]; intros n acc.
  - cbn [hex_digits hex_acc]. destruct (hex_digit_val (n mod 16)) as [Hv Hx]; [by apply N.mod_lt|].
    rewrite Hv. destruct (Ascii.eqb_spec (hex_digit (n mod 16)) "_") as [E|E]; [by rewrite E in Hx|].
    by change (16 ^ N.of_nat 1)%N with 16%N.
  - change (hex_digits (S (S k)) n acc) with (hex_digits (S k) (n / 16) (String (hex_digit (n mod 16)) acc)).
    rewrite IH. cbn [hex_acc]. destruct (hex_digit_val (n mod 16)) as [Hv Hx]; [by apply N.mod_lt|].
    rewrite Hv. destruct (Ascii.eqb_spec (hex_digit (n mod 16)) "_") as [E|E]; [by rewrite E in Hx|].
    f_equal. rewrite (Nat2N.inj_succ (S k)), N.pow_succ_r'.
    rewrite N.Div0.mod_mul_r. lia.
Qed.

Lemma all_hex_no_char c s : is_hex c = false -> all_hex s = true -> Str.has_char c s = false.
Proof.
  intros Hc. induction s as [|x s IH]; cbn; [done|]. intros [Hx Hs]%andb_prop.
  rewrite IH by done. destruct (Ascii.eqb_spec x c) as [->|]; [congruence|done].
Qed.

Lemma remove_sub_ne c p x s :
  Ascii.eqb x c = false -> remove_sub (String c p) 0 (String x s) = String x (remove_sub (String c p) 0 s).
Proof.
  intros H. cbn. destruct (ascii_dec c x) as [->|Hne]; [by rewrite Ascii.eqb_refl in H|done].
Qed.

Lemma remove_sub_absent c p s : Str.has_char c s = false -> remove_sub (String c p) 0 s = s.
Proof.
  induction s as [|x s IH]; [done|]. cbn [Str.has_char]. intros [Hx Hs]%orb_false_elim.
  by rewrite remove_sub_ne, IH.
Qed.

Lemma remove_dash a b :
  Str.has_char "-" a = false -> remove_sub "-" 0 (a ++ "-" ++ b)%string = (a ++ remove_sub "-" 0 b)%string.
Proof.
  induction a as [|x a IH]; intros Ha; [by destruct b|]. cbn in Ha. apply orb_false_elim in Ha as [Hx Ha].
  by rewrite !(Str.app_cons x a), remove_sub_ne, IH.
Qed.

Lemma strip_chars_absent in_set s :
  (forall c, in_set c = true -> Str.has_char c s = false) -> strip_chars in_set s = s.
Proof.
  intros H. unfold strip_chars.
  assert (lstrip_chars in_set s = s) as ->.
  { destruct s as [|x s]; [done|]. cbn. destruct (in_set x) eqn:E; [|done].
    specialize (H x E). cbn in H. by rewrite Ascii.eqb_refl in H. }
  induction s as [|x s IH]; [done|]. cbn. rewrite IH.
  - destruct (in_set x) eqn:E; [|by destruct s]. specialize (H x E). cbn in H. by rewrite Ascii.eqb_refl in H.
  - intros c Hc. specialize (H c Hc). cbn in H. by apply orb_false_elim in H as [_ ?].
Qed.

Lemma substring_split i n m s :
  (substring i n s ++ substring (i + n) m s)%string = substring i (n + m) s.
Proof.
  revert i n. induction s as [|c s IH]; intros i n; [by destruct i, n, m|].
  destruct i as [|i]; cbn; [|by apply (IH i n)].
  destruct n as [|n]; cbn; [done|]. rewrite Str.app_cons. f_equal. by apply (IH 0%nat n).
Qed.

Lemma substring_hex i n s : all_hex s = true -> all_hex (substring i n s) = true.
Proof.
  revert i n. induction s as [|c s IH]; intros i n H; [by destruct i, n|].
  cbn in H. apply andb_prop in H as [Hc Hs]. destruct i, n; cbn; rewrite ?Hc; cbn; auto.
Qed.

Lemma strip_hex s : all_hex s = true -> Str.strip s = s.
Proof.
  intros H. assert (Hsp : forall c, is_hex c = true -> Str.is_space c = false).
  { intros c Hc. unfold is_hex, Str.is_space in *. revert Hc. generalize (N_of_ascii c). intros n.
    repeat (match goal with |- context [(?a <=? ?b)%N] => destruct (N.leb_spec a b) end; cbn [andb orb]);
      (done || lia). }
  unfold Str.strip. assert (Str.lstrip s = s) as ->.
  { destruct s as [|x s]; [done|]. cbn in *. apply andb_prop in H as [Hx _]. by rewrite Hsp. }
  induction s as [|x s IH]; [done|]. cbn in *. apply andb_prop in H as [Hx Hs].
  rewrite IH, Hsp by done. by destruct s.
Qed.

Lemma all_hex_app a b : all_hex (a ++ b)%string = all_hex a && all_hex b.
Proof. induction a as [|c a IH]; [done|]. rewrite Str.app_cons. cbn. by rewrite IH, andb_assoc. Qed.

(** The 32 digits, cut and joined again. *)
Lemma hex_slices h : String.length h = 32%nat ->
  (substring 0 8 h ++ substring 8 4 h ++ substring 12 4 h ++ substring 16 4 h ++ substring 20 12 h)%string = h.
Proof.
  intros Hl. rewrite (substring_split 16 4 12), (substring_split 12 4 16), (substring_split 8 4 20),
    (substring_split 0 8 24). cbn [Nat.add]. rewrite <- Hl. apply Str.substring_all.
Qed.

Lemma int_base16_hex c1 c2 s :
  all_hex (String c1 (String c2 s)) = true ->
  int_base16 (String c1 (String c2 s)) = (n ← hex_acc 0 false (String c1 (String c2 s)); Some (false, n)).
Proof.
  intros H. unfold int_base16. rewrite strip_hex by done. cbn in H.
  apply andb_prop in H as [H1 [H2 H3]%andb_prop].
  assert (drop_0x (String c1 (String c2 s)) = String c1 (String c2 s)) as Hd.
  { unfold drop_0x. destruct (Ascii.eqb_spec c2 "x") as [->|]; [done|].
    destruct (Ascii.eqb_spec c2 "X") as [->|]; [done|]. cbn. by destruct c1 as [[] [] [] [] [] [] [] []]. }
  assert (match String c1 (String c2 s) with
          | String "-" s' => (true, s')
          | String "+" s' => (false, s')
          | _ => (false, String c1 (String c2 s))
          end = (false, String c1 (String c2 s))) as ->.
  { by destruct c1 as [[] [] [] [] [] [] [] []]. }
  rewrite Hd. by destruct (hex_acc _ _ _).
Qed.

(** [uuid.UUID(str(u))] is [u], for every 128-bit [u]. *)
Lemma UUID_uuid_str u : (u < 2 ^ 128)%N -> UUID (uuid_str u) = Some u.
Proof.
  intros Hu. unfold uuid_str. set (h := hex_digits 32 u "").
  assert (Hl : String.length h = 32%nat) by apply hex_digits_length.
  assert (Hh : all_hex h = true) by by apply hex_digits_hex.
  assert (Hs : forall i n, all_hex (substring i n h) = true) by (intros; by apply substring_hex).
  set (s := (substring 0 8 h ++ "-" ++ _)%string).
  assert (Habs : forall c, is_hex c = false -> c <> "-"%char -> Str.has_char c s = false).
  { intros c Hc Hne. unfold s.
    assert (Str.has_char c "-" = false) as Hd
      by (change (Str.has_char c "-") with (Ascii.eqb "-" c || false); destruct (Ascii.eqb_spec "-" c); [congruence|done]).
    by rewrite !Str.has_char_app, Hd, !all_hex_no_char. }
  unfold UUID. rewrite (remove_sub_absent "u" "rn:"), (remove_sub_absent "u" "uid:") by by apply Habs.
  rewrite strip_chars_absent.
  2: { intros c [Hc|Hc]%orb_prop; apply Ascii.eqb_eq in Hc; subst c; by apply Habs. }
  unfold s. rewrite !remove_dash by (by apply all_hex_no_char).
  rewrite remove_sub_absent by (by apply all_hex_no_char).
  rewrite hex_slices, Hl by done. cbn [Nat.eqb].
  assert (Hacc : hex_acc 0 false h = Some u).
  { unfold h. rewrite hex_acc_digits. cbn [hex_acc]. f_equal. rewrite N.mul_0_r, N.mod_small; [done|].
    exact Hu. }
  destruct h as [|c1 [|c2 h']]; [done..|]. rewrite int_base16_hex by exact Hh. rewrite Hacc. cbn -[N.ltb N.pow].
  by rewrite (proj2 (N.ltb_lt _ _) Hu).
Qed.

Lemma uuid_str_no_char c u : is_hex c = false -> Ascii.eqb "-" c = false -> Str.has_char c (uuid_str u) = false.
Proof.
  intros Hc Hd. unfold uuid_str. set (h := hex_digits 32 u "").
  assert (Hh : all_hex h = true) by (by apply hex_digits_hex).
  rewrite !Str.has_char_app. cbn [Str.has_char]. rewrite Hd.
  by rewrite !(all_hex_no_char c) by (done || by apply substring_hex).
Qed.

Lemma uuid_str_inj u v : (u < 2 ^ 128)%N -> (v < 2 ^ 128)%N -> uuid_str u = uuid_str v -> u = v.
Proof. intros Hu Hv E. apply (f_equal UUID) in E. rewrite !UUID_uuid_str in E by done. congruence. Qed.

(** ** [resolve_user] *)

Definition RESOLVED_VIA_USER_ID : string := "user_id".
Definition RESOLVED_VIA_DEVICE_ID : string := "device_id".

(** The first row of a column in increasing order. *)
Definition least (l : list N) : option N :=
  match l with [] => None | v :: l' => Some (foldr N.min v l') end.

Definition device_users (d : Db) (x : string) : list uuid :=
  (fun kv => kv.2.(ad_user_id)) <$> filter (fun kv => Str.lower kv.1 = x) (map_to_list d.(auth_devices)).

(** SELECT user_id FROM auth_devices WHERE lower(device_id) = :x ORDER BY user_id LIMIT 1 *)
Definition first_device_user (d : Db) (x : string) : option uuid :=
  least (device_users d x).

Definition resolve_user (x : uuid) : M (option (uuid * string)) :=
  d ← get_db;
  if user_exists d x then mret (Some (x, RESOLVED_VIA_USER_ID))
  else match first_device_user d (uuid_str x) with
       | Some v => mret (Some (v, RESOLVED_VIA_DEVICE_ID))
       | None => mret None
       end.

Lemma resolve_user_total e w x : exists r, resolve_user x e w = (inr r, w).
Proof.
  unfold resolve_user, mbind, M_bind, get_db. destruct (user_exists _ x); [by eexists|].
  destruct (first_device_user _ _); by eexists.
Qed.

Lemma foldr_min_in v l : foldr N.min v l ∈ v :: l.
Proof.
  induction l as [|x l IH]; cbn; [left|].
  destruct (N.min_spec x (foldr N.min v l)) as [[_ ->]|[_ ->]]; [right; left|].
  apply elem_of_cons in IH as [->|H]; [left|by right; right].
Qed.

Lemma foldr_min_le v l x : x ∈ v :: l -> (foldr N.min v l <= x)%N.
Proof.
  induction l as [|y l IH]; cbn; intros Hx.
  - apply list_elem_of_singleton in Hx as ->. lia.
  - apply elem_of_cons in Hx as [->|[->|Hx]%elem_of_cons].
    + specialize (IH (list_elem_of_here _ _)). lia.
    + lia.
    + specialize (IH (list_elem_of_further _ _ _ Hx)). lia.
Qed.

Lemma least_spec l v : least l = Some v -> v ∈ l /\ forall x, x ∈ l -> (v <= x)%N.
Proof.
  destruct l as [|y l]; cbn; [done|]. intros [= <-]. split; [apply foldr_min_in|apply foldr_min_le].
Qed.

Lemma elem_of_device_users d x v :
  v ∈ device_users d x <-> exists k, ad_user_id <$> d.(auth_devices) !! k = Some v /\ Str.lower k = x.
Proof.
  unfold device_users. rewrite list_elem_of_fmap. setoid_rewrite list_elem_of_filter. split.
  - intros ([k r] & -> & Hk & Hin). apply elem_of_map_to_list in Hin. exists k. by rewrite Hin.
  - intros (k & (r & Hr & ->)%fmap_Some & Hx). exists (k, r). by rewrite elem_of_map_to_list.
Qed.

(** A payment identifier resolves to a user exactly as documented: itself
    when it is a user id, else the least user of a device with that id in any
    letter case, else nobody; and resolving writes nothing. *)
Theorem resolve_user_spec e w x :
  exists r, resolve_user x e w = (inr r, w) /\
  match r with
  | Some (v, via) =>
      (user_exists w.(w_db) x = true /\ v = x /\ via = RESOLVED_VIA_USER_ID) \/
      (user_exists w.(w_db) x = false /\ via = RESOLVED_VIA_DEVICE_ID /\
       (exists k, ad_user_id <$> w.(w_db).(auth_devices) !! k = Some v /\ Str.lower k = uuid_str x) /\
       forall k u, ad_user_id <$> w.(w_db).(auth_devices) !! k = Some u -> Str.lower k = uuid_str x -> (v <= u)%N)
  | None =>
      user_exists w.(w_db) x = false /\
      forall k u, ad_user_id <$> w.(w_db).(auth_devices) !! k = Some u -> Str.lower k <> uuid_str x
  end.
Proof.
  unfold resolve_user, mbind, M_bind, get_db. destruct (user_exists w.(w_db) x) eqn:Hu.
  { eexists. split; [done|]. by left. }
  destruct (first_device_user w.(w_db) (uuid_str x)) as [v|] eqn:Hf; (eexists; split; [done|]).
  - apply least_spec in Hf as [Hin Hle]. right. rewrite elem_of_device_users in Hin. split_and!; try done.
    intros k u Hk Hx. apply Hle, elem_of_device_users. eauto.
  - split; [done|]. intros k u Hk Hx. unfold first_device_user in Hf.
    assert (u ∈ device_users w.(w_db) (uuid_str x)) as Hin
      by (apply elem_of_device_users; eauto).
    destruct (device_users _ _); [by apply not_elem_of_nil in Hin|done].
Qed.
