(* ===== verification/Config.v ===== *)
(** * Tables of the configuration

    The pure parsers of [src/app/config.py] that turn an environment variable
    holding JSON into a table of credit amounts or of selectable models, or a
    list of words into the statuses that count as paid. *)

From Stdlib Require Import Ascii String.
From S2P Require Import Prelude PyVal Redaction Store.

Open Scope string_scope.
Open Scope list_scope.
Open Scope Z_scope.

(** The loop shared by the three parsers: only positive integers survive
    ([bool] is not an integer here), anything but an object yields nothing. *)
Definition positive_products (raw : option json) : list (string * Z) :=
  match raw with
  | Some (JObj items) =>
      omap (fun kv => match kv.2 with
                      | JInt z => if z <=? 0 then None else Some (kv.1, z)
                      | _ => None
                      end) items
  | _ => []
  end.

Definition token_products (s : Settings) : list (string * Z) := positive_products s.(token_products_raw).
Definition adapty_product_tokens (s : Settings) : list (string * Z) :=
  positive_products s.(adapty_product_tokens_raw).
Definition cloudpayments_product_tokens (s : Settings) : list (string * Z) :=
  positive_products s.(cloudpayments_product_tokens_raw).

(** [products.get(key)] *)
Definition product_get (products : list (string * Z)) (key : string) : option Z :=
  snd <$> find_first (fun kv => String.eqb kv.1 key) products.

Lemma product_get_positive raw key z : product_get (positive_products raw) key = Some z -> 0 < z.
Proof.
  unfold product_get. intros H. apply fmap_Some in H as ([k z'] & Hf & ->). cbn.
  apply find_first_Some in Hf as [Hin _]. unfold positive_products in Hin.
  destruct raw as [[| | | | | |items]|]; try by apply not_elem_of_nil in Hin.
  apply list_elem_of_omap in Hin as ([k0 v] & _ & Hv). cbn in Hv.
  repeat case_match_hyp Hv; simplify_eq; zify_bool; lia.
Qed.

(** A positive integer entry is found under its key, when keys do not repeat. *)
Lemma product_get_entry items key z :
  NoDup items.*1 -> (key, JInt z) ∈ items -> 0 < z ->
  product_get (positive_products (Some (JObj items))) key = Some z.
Proof.
  intros Hnd Hin Hz. unfold product_get, positive_products.
  induction items as [|[k v] items IH]; [by apply not_elem_of_nil in Hin|].
  apply NoDup_cons in Hnd as [Hk Hnd]. apply elem_of_cons in Hin as [Heq|Hin].
  - simplify_eq. cbn. rewrite (proj2 (Z.leb_gt _ _) Hz). cbn. by rewrite String.eqb_refl.
  - assert (k <> key) as Hne.
    { intros ->. apply Hk. apply list_elem_of_fmap. by exists (key, JInt z). }
    cbn. destruct v as [| |z'| | | |]; cbn; try by apply IH. destruct (z' <=? 0); cbn; [by apply IH|].
    rewrite (proj2 (String.eqb_neq _ _) Hne). by apply IH.
Qed.

(** ** Models of the instance *)

Definition openai_instance (cs : ChatSettings) : bool :=
  String.eqb (Str.lower (Str.strip cs.(llm_provider))) "openai".

Definition default_model (cs : ChatSettings) : string :=
  if openai_instance cs then cs.(openai_model) else cs.(anthropic_model).

(** A model id after [strip], and its display name. *)
Definition add_model (models : dict) (kv : string * json) : dict :=
  let stripped_key := Str.strip kv.1 in
  match kv.2 with
  | JStr name => if Str.nonempty stripped_key && Str.nonempty name then dict_set models stripped_key (JStr name) else models
  | _ => models
  end.

Definition allowed_models (cs : ChatSettings) : dict :=
  let raw := if openai_instance cs then cs.(openai_models_raw) else cs.(anthropic_models_raw) in
  let parsed_models := match raw with Some (JObj items) => foldl add_model [] items | _ => [] end in
  let default := default_model cs in
  match parsed_models with
  | [] => [(default, JStr default)]
  | _ => match dict_lookup default parsed_models with
         | Some _ => parsed_models
         | None => (default, JStr default) :: parsed_models
         end
  end.

Lemma default_model_allowed cs : dict_lookup (default_model cs) (allowed_models cs) <> None.
Proof.
  unfold allowed_models. destruct (match _ with Some (JObj items) => _ | _ => _ end) as [|kv l].
  - cbn. by rewrite String.eqb_refl.
  - destruct (dict_lookup (default_model cs) (kv :: l)) eqn:E; [by rewrite E|]. cbn. by rewrite String.eqb_refl.
Qed.

(** ** The paid statuses *)

(** Words after [strip] and [lower], the empty ones dropped. *)
Definition status_words (l : list string) : list string := List.filter Str.nonempty ((fun w => Str.lower (Str.strip w)) <$> l).

(** [cloudpayments_paid_statuses]: a JSON array or words between commas;
    [json_loads] gives [None] for a [ValueError]. *)
Definition paid_statuses_of (json_loads : string -> option json) (cloudpayments_paid_statuses_raw : string) : list string :=
  let raw := Str.strip cloudpayments_paid_statuses_raw in
  if negb (Str.nonempty raw) then ["succeeded"]
  else
    let statuses := if Str.startswith "[" raw
                    then match json_loads raw with Some (JArr l) => status_words (omap as_str l) | _ => [] end
                    else status_words (Str.split ","%char raw) in
    match statuses with [] => ["succeeded"] | _ => statuses end.

Definition _CLOUDPAYMENTS_DEFAULT_FRESHNESS_HOURS : Z := 72.

Definition _clamp_freshness_hours (value : Z) : Z := if (value <=? 0)%Z then _CLOUDPAYMENTS_DEFAULT_FRESHNESS_HOURS else value.

(** However the setting is written, some status counts as paid, the empty one
    never does, and payments stay fresh for a while. *)
Theorem paid_statuses_sane json_loads raw hours :
  paid_statuses_of json_loads raw <> [] /\ "" ∉ paid_statuses_of json_loads raw /\ (0 < _clamp_freshness_hours hours)%Z.
Proof.
  assert (Hw : forall l, "" ∉ status_words l).
  { intros l Hin%list_elem_of_In. unfold status_words in Hin. apply filter_In in Hin as [_ H]. done. }
  unfold paid_statuses_of. set (statuses := if Str.startswith "[" _ then _ else _).
  assert (Hs : "" ∉ statuses).
  { unfold statuses. destruct (Str.startswith _ _); [|apply Hw]. destruct (json_loads _) as [[]|]; first [apply Hw|set_solver]. }
  split_and!.
  - destruct (negb _); [done|]. by destruct statuses.
  - destruct (negb _); [set_solver|]. destruct statuses; [set_solver|done].
  - unfold _clamp_freshness_hours, _CLOUDPAYMENTS_DEFAULT_FRESHNESS_HOURS. destruct (Z.leb_spec hours 0); lia.
Qed.
