(* ===== verification/Subscription.v ===== *)
(** * Admin subscription grants

    Models [src/app/subscription/service.py]: activation of a subscription
    anchored by a row of [subscription_grant_events].  [sha256] and the ISO
    rendering of an instant are parameters. *)

From Stdlib Require Import Ascii String.
From S2P Require Import Prelude PyVal Redaction Store AuditTrail Logic Fixtures Wallet WalletRun WalletSpec WalletRefine WalletInv.

Open Scope string_scope.
Open Scope list_scope.
Open Scope Z_scope.

Record AdminGrantResult : Type := mkAdminGrantResult {
  ag_status : SubscriptionStatus;
  ag_plan : string;
  ag_expires_at : instant;
  ag_credits_granted : option Z;
  ag_ledger_tx_id : option uuid;
  ag_idempotent_replay : bool
}.

(** [subscriptions] row of a user, inserted or replaced. *)
Definition upsert_subscription (u : uuid) (s : Subscription) : M unit :=
  d ← get_db;
  match d.(subscriptions) !! u with
  | Some _ => mret tt
  | None => check_constraint (user_exists d u)
  end;;
  modify_db (fun d => set_subscriptions (<[u := s]> d.(subscriptions)) d).

Section subscription.
Context (sha256 : string -> string) (isoformat : instant -> string).

Definition unit_separator : string := String "031" "".

Definition py_bool_str (b : bool) : string := if b then "True" else "False".

Definition canonical_payload (plan : string) (expires_at : instant) (grant_credits : bool) : string :=
  (plan ++ unit_separator ++ isoformat expires_at ++ unit_separator ++ py_bool_str grant_credits)%string.

Definition _payload_hash (plan : string) (expires_at : instant) (grant_credits : bool) : string :=
  sha256 (canonical_payload plan expires_at grant_credits).

Definition _handle_existing_grant_event (u : uuid) (key payload_hash : string) : M AdminGrantResult :=
  d ← get_db;
  match d.(subscription_grant_events) !! (u, key) with
  | None => raise (ConflictError "idempotency conflict")
  | Some existing =>
      if negb (String.eqb existing.(ge_payload_hash) payload_hash)
      then raise (ConflictError "idempotency key reused with different payload")
      else
        s ← settings;
        mret (mkAdminGrantResult sub_active existing.(ge_plan) existing.(ge_expires_at)
                (if existing.(ge_grant_credits) then Some s.(subscription_credits_per_period) else None)
                existing.(ge_ledger_tx_id) true)
  end.

(** UPDATE subscription_grant_events SET ledger_tx_id *)
Definition set_ledger_tx_id (u : uuid) (key : string) (tx : uuid) : M unit :=
  modify_db (fun d =>
    match d.(subscription_grant_events) !! (u, key) with
    | Some g =>
        set_subscription_grant_events
          (<[(u, key) := mkGrantEvent g.(ge_payload_hash) g.(ge_plan) g.(ge_expires_at)
                           g.(ge_grant_credits) (Some tx)]> d.(subscription_grant_events)) d
    | None => d
    end).

Definition _apply_new_grant (u : uuid) (plan : string) (expires_at : instant) (grant_credits : bool)
    (key reason : string) : M AdminGrantResult :=
  upsert_subscription u (mkSubscription sub_active (Some plan) (Some expires_at));;
  tx ← (if grant_credits
        then
          s ← settings;
          g ← grant u s.(subscription_credits_per_period) ("admin-sub-grant:" ++ key)%string
                [("source", JStr "admin_subscription_grant"); ("reason", JStr reason)]
                "admin_subscription";
          set_ledger_tx_id u key g.(gr_ledger_tx_id);;
          mret (Some s.(subscription_credits_per_period), Some g.(gr_ledger_tx_id))
        else mret (None, None));
  let '(credits_granted, ledger_tx_id) := tx in
  record (mkAuditEvent u None EVENT_ADMIN_SUBSCRIPTION_GRANT
    [("actor", JStr "admin"); ("userId", JStr (uuid_str u)); ("plan", JStr plan);
     ("expiresAt", JStr (isoformat expires_at)); ("reason", JStr reason);
     ("idempotencyKey", JStr key); ("grantCredits", JBool grant_credits);
     ("ledgerTxId", jopt_str (uuid_str <$> ledger_tx_id))]);;
  mret (mkAdminGrantResult sub_active plan expires_at credits_granted ledger_tx_id false).

Definition admin_grant (u : uuid) (plan : string) (expires_at : instant) (grant_credits : bool)
    (key reason : string) : M AdminGrantResult :=
  let payload_hash := _payload_hash plan expires_at grant_credits in
  d ← get_db;
  match d.(subscription_grant_events) !! (u, key) with
  | Some _ => _handle_existing_grant_event u key payload_hash
  | None =>
      check_constraint (user_exists d u);;
      modify_db (fun d =>
        set_subscription_grant_events
          (<[(u, key) := mkGrantEvent payload_hash plan expires_at grant_credits None]>
             d.(subscription_grant_events)) d);;
      _apply_new_grant u plan expires_at grant_credits key reason
  end.
End subscription.

Lemma upsert_subscription_run u s e w :
  user_exists w.(w_db) u = true ->
  upsert_subscription u s e w =
  (inr tt, with_db (set_subscriptions (<[u := s]> w.(w_db).(subscriptions)) w.(w_db)) w).
Proof.
  intros Hu. unfold upsert_subscription. run by done.
  destruct (_ !! u); [by run by done|by run by (by apply check_run)].
Qed.

Lemma keeps_upsert_subscription u s : keeps wallet_inv wallet_inv (upsert_subscription u s).
Proof. unfold upsert_subscription. keeps_walk. Qed.

Lemma keeps_set_ledger_tx_id u key tx : keeps wallet_inv wallet_inv (set_ledger_tx_id u key tx).
Proof.
  unfold set_ledger_tx_id. keeps_walk. by destruct (_ !! _); eauto with hermes.
Qed.

#[export] Hint Resolve keeps_upsert_subscription keeps_set_ledger_tx_id : hermes.

Lemma keeps_admin_grant sha256 isoformat u plan exp gc key reason :
  keeps wallet_inv wallet_inv (admin_grant sha256 isoformat u plan exp gc key reason).
Proof. unfold admin_grant, _handle_existing_grant_event, _apply_new_grant. keeps_walk. Qed.

#[export] Hint Resolve keeps_admin_grant : hermes.

(** ** The payload hash *)

Lemma app_sep_inj (c : ascii) a1 a2 b1 b2 :
  Str.has_char c b1 = false -> Str.has_char c b2 = false ->
  (a1 ++ String c b1 = a2 ++ String c b2)%string -> a1 = a2 /\ b1 = b2.
Proof.
  intros H1 H2. revert a2.
  assert (Hno : forall a b, Str.has_char c (a ++ String c b)%string = true)
    by (intros a b; rewrite Str.has_char_app; cbn; by rewrite Ascii.eqb_refl, orb_true_r).
  assert (Hnil : forall s, ("" ++ s)%string = s) by done.
  induction a1 as [|x a1 IH]; intros [|y a2] H; rewrite ?Str.app_cons, ?Hnil in H;
    injection H; clear H; intros.
  - done.
  - exfalso. subst. by rewrite Hno in H1.
  - exfalso. subst. by rewrite Hno in H2.
  - destruct (IH a2) as [-> ->]; by subst.
Qed.

Section grant_once.
Context (sha256 : string -> string) (isoformat : instant -> string).
(** Documented behaviour of [hashlib.sha256] (no collision) and of
    [datetime.isoformat] on UTC instants (one text per instant, digits,
    signs, colons, a dot and a [T] only). *)
Context (sha256_inj : forall a b, sha256 a = sha256 b -> a = b).
Context (isoformat_inj : forall s t, isoformat s = isoformat t -> s = t).
Context (isoformat_no_sep : forall t, Str.has_char "031" (isoformat t) = false).

(** The canonical form is unambiguous, even for a plan that contains the
    separator. *)
Lemma canonical_payload_inj p1 t1 g1 p2 t2 g2 :
  canonical_payload isoformat p1 t1 g1 = canonical_payload isoformat p2 t2 g2 ->
  p1 = p2 /\ t1 = t2 /\ g1 = g2.
Proof.
  intros H. unfold canonical_payload, unit_separator in H. rewrite <- !Str.app_assoc in H.
  assert (forall a b, ((a ++ String "031" "") ++ b = a ++ String "031" b)%string) as E
    by (intros a b; by rewrite Str.app_assoc).
  rewrite !E in H.
  apply app_sep_inj in H as [H Hg]; [|by destruct g1|by destruct g2].
  apply app_sep_inj in H as [-> Ht]; [|done..].
  apply isoformat_inj in Ht as ->. destruct g1, g2; try done.
Qed.

Lemma payload_hash_eqb p1 t1 g1 p2 t2 g2 :
  String.eqb (_payload_hash sha256 isoformat p1 t1 g1) (_payload_hash sha256 isoformat p2 t2 g2) = true <->
  p1 = p2 /\ t1 = t2 /\ g1 = g2.
Proof.
  rewrite String.eqb_eq. split; [|by intros (-> & -> & ->)].
  intros H. by apply canonical_payload_inj, sha256_inj.
Qed.
End grant_once.

(** ** The anchor row *)

Section anchor.
Context (sha256 : string -> string) (isoformat : instant -> string).

(** The row that anchors a grant, with the ledger transaction if any. *)
Definition anchor_row (plan : string) (exp : instant) (gc : bool) (tx : option uuid) : SubscriptionGrantEvent :=
  mkGrantEvent (_payload_hash sha256 isoformat plan exp gc) plan exp gc tx.

Lemma upsert_subscription_ok u s e w x w' :
  upsert_subscription u s e w = (inr x, w') ->
  w' = with_db (set_subscriptions (<[u := s]> w.(w_db).(subscriptions)) w.(w_db)) w.
Proof.
  unfold upsert_subscription. intros H. inv_bind H. apply get_db_ok in Hstep as [-> ->].
  inv_bind H. apply modify_ok in H as ->. destruct (_ !! u); [by injection Hstep as _ <-|].
  by apply check_ok in Hstep as [_ ->].
Qed.

Lemma apply_new_grant_ok u plan exp gc key reason e w r w' g :
  wallet_inv w.(w_db) -> w.(w_db).(subscription_grant_events) !! (u, key) = Some g ->
  _apply_new_grant isoformat u plan exp gc key reason e w = (inr r, w') ->
  r = mkAdminGrantResult sub_active plan exp
        (if gc then Some e.(env_settings).(subscription_credits_per_period) else None)
        r.(ag_ledger_tx_id) false /\
  w'.(w_db).(subscriptions) !! u = Some (mkSubscription sub_active (Some plan) (Some exp)) /\
  w'.(w_db).(subscription_grant_events) !! (u, key) =
    Some (if gc then mkGrantEvent g.(ge_payload_hash) g.(ge_plan) g.(ge_expires_at) g.(ge_grant_credits)
                       r.(ag_ledger_tx_id) else g) /\
  (gc = false -> r.(ag_ledger_tx_id) = None).
Proof.
  intros Hi Hg H. unfold _apply_new_grant in H. inv_bind H. apply upsert_subscription_ok in Hstep as ->.
  inv_bind H. destruct gc.
  - inv_bind Hstep. apply settings_ok in Hstep0 as [-> ->]. inv_bind Hstep.
    inv_bind Hstep. unfold set_ledger_tx_id in Hstep1. apply modify_ok in Hstep1. injection Hstep as <- <-.
    inv_bind H. apply record_ok in Hstep. injection H as <- <-. subst.
    pose proof (grant_frame e
      (with_db (set_subscriptions (<[u := mkSubscription sub_active (Some plan) (Some exp)]>
                 w.(w_db).(subscriptions)) w.(w_db)) w)
      u (subscription_credits_per_period (env_settings e)) ("admin-sub-grant:" ++ key)%string
      [("source", JStr "admin_subscription_grant"); ("reason", JStr reason)] "admin_subscription"
      ltac:(cbn; eauto with hermes)) as Hf. rewrite Hstep0 in Hf. cbn [snd] in Hf.
    destruct Hf as [_ _ Ht].
    pose proof (f_equal subscriptions Ht) as Hs. pose proof (f_equal subscription_grant_events Ht) as He.
    cbn in Hs, He. cbn. rewrite He, Hg. cbn. rewrite Hs. by rewrite !lookup_insert_eq.
  - injection Hstep as <- <-. inv_bind H. apply record_ok in Hstep as ->. injection H as <- <-.
    cbn. by rewrite lookup_insert_eq.
Qed.

Lemma admin_grant_ok u plan exp gc key reason e w r w' :
  wallet_inv w.(w_db) -> admin_grant sha256 isoformat u plan exp gc key reason e w = (inr r, w') ->
  r.(ag_idempotent_replay) = false ->
  r = mkAdminGrantResult sub_active plan exp
        (if gc then Some e.(env_settings).(subscription_credits_per_period) else None)
        r.(ag_ledger_tx_id) false /\
  w'.(w_db).(subscriptions) !! u = Some (mkSubscription sub_active (Some plan) (Some exp)) /\
  w'.(w_db).(subscription_grant_events) !! (u, key) = Some (anchor_row plan exp gc r.(ag_ledger_tx_id)).
Proof.
  intros Hi H Hr. unfold admin_grant in H. inv_bind H. apply get_db_ok in Hstep as [-> ->].
  destruct (_ !! (u, key)) as [g|] eqn:Hg.
  { unfold _handle_existing_grant_event in H. inv_bind H. apply get_db_ok in Hstep as [-> ->].
    rewrite Hg in H. destruct (negb _); [done|]. inv_bind H. injection H as <- <-. done. }
  inv_bind H. apply check_ok in Hstep as [_ ->]. inv_bind H. apply modify_ok in Hstep as ->.
  apply (apply_new_grant_ok _ _ _ _ _ _ _ _ _ _ (anchor_row plan exp gc None)) in H as (H1 & H2 & H3 & H4).
  - split_and!; [done|done|]. rewrite H3. destruct gc; [done|]. by rewrite H4.
  - cbn. eauto with hermes.
  - cbn. by rewrite lookup_insert_eq.
Qed.

(** A later call under an anchored key, in closed form. *)
Lemma admin_grant_anchored u plan exp gc key reason e w g :
  w.(w_db).(subscription_grant_events) !! (u, key) = Some g ->
  admin_grant sha256 isoformat u plan exp gc key reason e w =
  (if String.eqb g.(ge_payload_hash) (_payload_hash sha256 isoformat plan exp gc)
   then inr (mkAdminGrantResult sub_active g.(ge_plan) g.(ge_expires_at)
               (if g.(ge_grant_credits) then Some e.(env_settings).(subscription_credits_per_period) else None)
               g.(ge_ledger_tx_id) true)
   else inl key_reused, w).
Proof.
  intros Hg. unfold admin_grant. run by done. rewrite Hg. unfold _handle_existing_grant_event.
  run by done. rewrite Hg. by destruct (String.eqb _ _).
Qed.
End anchor.

(** An admin grant happens at most once per key.  After a first success,
    any call with the same user and key, in any later state that still holds
    the anchor row, changes nothing: with the same plan, expiry and credit flag
    it echoes the first result as a replay, and with a different payload it
    raises the conflict, whether or not credits are granted. *)
Theorem admin_grant_once (sha256 : string -> string) (isoformat : instant -> string)
    u plan exp gc key reason e w r w' plan2 exp2 gc2 reason2 e2 w2 :
  (forall a b, sha256 a = sha256 b -> a = b) ->
  (forall s t, isoformat s = isoformat t -> s = t) ->
  (forall t, Str.has_char "031" (isoformat t) = false) ->
  wallet_inv w.(w_db) ->
  admin_grant sha256 isoformat u plan exp gc key reason e w = (inr r, w') ->
  r.(ag_idempotent_replay) = false ->
  w2.(w_db).(subscription_grant_events) !! (u, key) = w'.(w_db).(subscription_grant_events) !! (u, key) ->
  admin_grant sha256 isoformat u plan2 exp2 gc2 key reason2 e2 w2 =
  (if bool_decide (plan = plan2 /\ exp = exp2 /\ gc = gc2)
   then inr (mkAdminGrantResult sub_active plan exp
               (if gc then Some e2.(env_settings).(subscription_credits_per_period) else None)
               r.(ag_ledger_tx_id) true)
   else inl key_reused, w2).
Proof.
  intros Hsha Hiso Hsep Hi H Hr Hrow.
  destruct (admin_grant_ok sha256 isoformat u plan exp gc key reason e w r w' Hi H Hr) as (_ & _ & Hg).
  rewrite (admin_grant_anchored sha256 isoformat u plan2 exp2 gc2 key reason2 e2 w2
             (anchor_row sha256 isoformat plan exp gc (ag_ledger_tx_id r))) by (by rewrite Hrow).
  f_equal. cbn [anchor_row ge_payload_hash ge_plan ge_expires_at ge_grant_credits ge_ledger_tx_id].
  pose proof (payload_hash_eqb sha256 isoformat Hsha Hiso Hsep plan exp gc plan2 exp2 gc2) as Heq.
  case_bool_decide as Hp; [by rewrite (proj2 Heq Hp)|].
  destruct (String.eqb _ _); [|done]. by destruct Hp; apply Heq.
Qed.

Definition grant_world : World :=
  (admin_grant (fun s => s) demo_isoformat alice "pro" 1800000000000000 true "op-1" "goodwill"
     demo_env demo_world).2.

Lemma admin_grant_once_witness :
  admin_grant (fun s => s) demo_isoformat alice "pro" 1900000000000000 true "op-1" "again" demo_env grant_world =
  (inl key_reused, grant_world).
Proof.
  apply (admin_grant_once (fun s => s) demo_isoformat alice "pro" 1800000000000000 true "op-1" "goodwill"
           demo_env demo_world
           (mkAdminGrantResult sub_active "pro" 1800000000000000 (Some 1000) (Some 1000%N) false) grant_world).
  - done.
  - apply demo_isoformat_inj.
  - apply demo_isoformat_no_sep.
  - by apply wallet_inv_fresh.
  - vm_compute. reflexivity.
  - reflexivity.
  - reflexivity.
Defined.
