(* ===== verification/Adapty.v ===== *)
(** * Adapty webhook

    Models [src/app/billing_adapty/parser.py] and
    [src/app/billing_adapty/service.py]: a delivery is parsed defensively,
    deduplicated by its event id, and applied to the subscription and the
    wallet in one transaction.  [datetime.fromisoformat] and [isoformat] are
    parameters; a body is what [json.loads] makes of it. *)

From Stdlib Require Import Ascii String.
From S2P Require Import Prelude PyVal Redaction Store AuditTrail Logic Fixtures Wallet WalletRun WalletSpec WalletRefine WalletInv.
From S2P Require Import Uuid Config Subscription.

Open Scope string_scope.
Open Scope list_scope.
Open Scope Z_scope.

(** A request body: empty, not JSON, or JSON. *)
Inductive raw_body : Type := raw_empty | raw_invalid | raw_json (v : json).

Module Adapty.
Definition EVENT_STARTED : string := "subscription_started".
Definition EVENT_RENEWED : string := "subscription_renewed".
Definition EVENT_CANCELLED : string := "subscription_cancelled".
Definition EVENT_EXPIRED : string := "subscription_expired".

Definition GRANTING_EVENTS : list string := [EVENT_STARTED; EVENT_RENEWED].
Definition EXPIRING_EVENTS : list string := [EVENT_CANCELLED; EVENT_EXPIRED].
Definition KNOWN_EVENTS : list string := GRANTING_EVENTS ++ EXPIRING_EVENTS.

Record ParsedEvent : Type := mkParsedEvent {
  event_id : string;
  event_type : string;
  customer_user_id : uuid;
  vendor_product_id : option string;
  expires_at : option instant
}.

Inductive WebhookOutcome : Type :=
| ignored (reason event_type : option string)
| duplicate
| applied.

(** ** Parsing *)

Definition _as_dict (v : json) : dict := match v with JObj d => d | _ => [] end.

Fixpoint _first_str (candidates : list json) : option string :=
  match candidates with
  | [] => None
  | JStr s :: cs => if Str.nonempty s then Some s else _first_str cs
  | _ :: cs => _first_str cs
  end.

Definition parse_event_id (body : dict) : option string :=
  _first_str [dict_get body "event_id"; dict_get body "id"].

Definition parse_event_type (body : dict) : string :=
  match dict_get body "event_type" with JStr raw => Str.lower raw | _ => "" end.

Definition parse_customer_user_id (body : dict) : option uuid :=
  let profile := _as_dict (dict_get body "profile") in
  match _first_str [dict_get body "customer_user_id"; dict_get profile "customer_user_id";
                    dict_get body "user_id"] with
  | None => None
  | Some raw => UUID raw
  end.

Definition parse_vendor_product_id (body : dict) : option string :=
  let props := _as_dict (dict_get body "event_properties") in
  _first_str [dict_get props "vendor_product_id"; dict_get props "product_id";
              dict_get body "vendor_product_id"; dict_get body "product_id"].

(** [s[:-1]] *)
Fixpoint drop_last (s : string) : string :=
  match s with
  | EmptyString => ""
  | String c EmptyString => ""
  | String c s' => String c (drop_last s')
  end.

Section service.
Context (fromisoformat : string -> option instant) (isoformat : instant -> string).

Definition parse_expires_at (body : dict) : option instant :=
  let props := _as_dict (dict_get body "event_properties") in
  let profile := _as_dict (dict_get body "profile") in
  match _first_str [dict_get props "expires_at"; dict_get profile "expires_at"] with
  | None => None
  | Some raw =>
      fromisoformat (if Str.endswith "Z" raw then (drop_last raw ++ "+00:00")%string else raw)
  end.

(** ** The service *)

Definition _upsert_subscription (event : ParsedEvent) : M (SubscriptionStatus * option string) :=
  let u := event.(customer_user_id) in
  d ← get_db;
  let row := d.(subscriptions) !! u in
  let '(status, plan, new_row) :=
    if str_in event.(event_type) GRANTING_EVENTS
    then (sub_active, event.(vendor_product_id),
          mkSubscription sub_active event.(vendor_product_id) event.(expires_at))
    else match row with
         | None => (sub_expired, None, mkSubscription sub_expired None None)
         | Some s => (sub_expired, s.(s_plan), mkSubscription sub_expired s.(s_plan) s.(s_expires_at))
         end in
  upsert_subscription u new_row;;
  mret (status, plan).

Definition _tier_for (s : Settings) (vendor_product_id : option string) : Z :=
  match product_get (adapty_product_tokens s) (default "" vendor_product_id) with
  | Some mapped => mapped
  | None => s.(adapty_subscription_tokens_grant)
  end.

Definition grant_meta (event : ParsedEvent) : dict :=
  [("adaptyEventId", JStr event.(event_id)); ("eventType", JStr event.(event_type));
   ("vendorProductId", jopt_str event.(vendor_product_id))].

Definition grant_key (event : ParsedEvent) : string := ("adapty-event:" ++ event.(event_id))%string.

Definition _grant (event : ParsedEvent) : M GrantResult :=
  s ← settings;
  grant event.(customer_user_id) (_tier_for s event.(vendor_product_id)) (grant_key event)
    (grant_meta event) "adapty_subscription".

Definition status_str (s : SubscriptionStatus) : string :=
  match s with sub_active => "active" | sub_expired => "expired" | sub_none => "none" end.

Definition _apply (event : ParsedEvent) (body : dict) : M WebhookOutcome :=
  let u := event.(customer_user_id) in
  d ← get_db;
  match d.(adapty_webhook_events) !! event.(event_id) with
  | Some _ => mret duplicate
  | None =>
      check_constraint (user_exists d u);;
      modify_db (fun d => set_adapty_webhook_events
        (<[event.(event_id) := mkAdaptyEvent u event.(event_type) body]> d.(adapty_webhook_events)) d);;
      r ← _upsert_subscription event;
      let '(status, plan) := r in
      (if str_in event.(event_type) GRANTING_EVENTS then _grant event;; mret tt else mret tt);;
      record (mkAuditEvent u None EVENT_ADAPTY_SUBSCRIPTION
        [("adaptyEventId", JStr event.(event_id)); ("eventType", JStr event.(event_type));
         ("status", JStr (status_str status)); ("plan", jopt_str plan);
         ("expiresAt", jopt_str (isoformat <$> event.(expires_at)));
         ("customerId", JStr (uuid_str u))]);;
      mret applied
  end.

Definition handle (raw : raw_body) : M WebhookOutcome :=
  match raw with
  | raw_empty => mret (ignored (Some "empty_body") None)
  | raw_invalid => mret (ignored (Some "invalid_json") None)
  | raw_json (JObj body) =>
      match parse_event_id body with
      | None => mret (ignored (Some "missing_event_id") None)
      | Some event_id =>
          match parse_customer_user_id body with
          | None => mret (ignored (Some "missing_customer_user_id") None)
          | Some u =>
              let event_type := parse_event_type body in
              d ← get_db;
              if negb (user_exists d u) then mret (ignored (Some "user_not_found") None)
              else if negb (str_in event_type KNOWN_EVENTS)
                   then mret (ignored None (Some event_type))
                   else _apply (mkParsedEvent event_id event_type u
                                  (parse_vendor_product_id body) (parse_expires_at body)) body
          end
      end
  | raw_json _ => mret (ignored (Some "not_an_object") None)
  end.
End service.
End Adapty.

Import Adapty.

#[export] Instance adapty_books fi iso raw : KeepsBooks (handle fi iso raw).
Proof. unfold KeepsBooks, handle, _apply, _upsert_subscription, _grant. keeps_walk. Qed.

(** ** What a delivery does *)

(** The event a body stands for, when every stage before the transaction
    passes. *)
Definition recognised (fi : string -> option instant) (d : Db) (body : dict) : option ParsedEvent :=
  id ← parse_event_id body;
  u ← parse_customer_user_id body;
  let ty := parse_event_type body in
  if user_exists d u && str_in ty KNOWN_EVENTS
  then Some (mkParsedEvent id ty u (parse_vendor_product_id body) (parse_expires_at fi body))
  else None.

Lemma handle_recognised fi iso body e w ev :
  recognised fi w.(w_db) body = Some ev ->
  handle fi iso (raw_json (JObj body)) e w = _apply iso ev body e w.
Proof.
  unfold recognised, handle. intros H. apply bind_Some in H as (id & -> & H).
  apply bind_Some in H as (u & -> & H). run by done.
  destruct (user_exists _ u); [|done]. cbn [negb andb] in H |- *. destruct (str_in _ _); [|done].
  cbn [negb]. by injection H as <-.
Qed.

Lemma handle_unrecognised fi iso body e w :
  recognised fi w.(w_db) body = None ->
  exists reason ty, handle fi iso (raw_json (JObj body)) e w = (inr (ignored reason ty), w).
Proof.
  unfold recognised, handle. destruct (parse_event_id body) as [id|]; [|by eexists _, _].
  destruct (parse_customer_user_id body) as [u|]; [|by eexists _, _]. intros H.
  cbn [mbind option_bind] in H.
  unfold mbind, M_bind, get_db. destruct (user_exists _ u); [|by eexists _, _].
  cbn [negb andb] in H |- *. destruct (str_in _ _); [done|by eexists _, _].
Qed.

Lemma recognised_event fi d body ev :
  recognised fi d body = Some ev ->
  parse_event_id body = Some ev.(event_id) /\ user_exists d ev.(customer_user_id) = true /\
  str_in ev.(event_type) KNOWN_EVENTS = true.
Proof.
  unfold recognised. intros H. apply bind_Some in H as (id & -> & H). apply bind_Some in H as (u & _ & H).
  destruct (user_exists d u) eqn:Hu, (str_in _ _) eqn:Ht; cbn [andb] in H; try done. by injection H as <-.
Qed.

(** The subscription row after an event. *)
Definition mapped_subscription (ev : ParsedEvent) (old : option Subscription) : Subscription :=
  if str_in ev.(event_type) GRANTING_EVENTS
  then mkSubscription sub_active ev.(vendor_product_id) ev.(expires_at)
  else mkSubscription sub_expired (old ≫= s_plan) (old ≫= s_expires_at).

Lemma upsert_run (ev : ParsedEvent) e w :
  user_exists w.(w_db) ev.(customer_user_id) = true ->
  exists p, _upsert_subscription ev e w =
    (inr p, with_db (set_subscriptions
       (<[ev.(customer_user_id) := mapped_subscription ev (w.(w_db).(subscriptions) !! ev.(customer_user_id))]>
          w.(w_db).(subscriptions)) w.(w_db)) w).
Proof.
  intros Hu. unfold _upsert_subscription, mapped_subscription. run by done.
  destruct (str_in _ _); [|destruct (subscriptions (w_db w) !! _) as [s|]];
    (run by (by apply upsert_subscription_run)); by eexists.
Qed.

Section delivery.
Context (iso : instant -> string) (ev : ParsedEvent) (body : dict) (e : Env) (w : World).
Let u := ev.(customer_user_id).
Let tier := _tier_for e.(env_settings) ev.(vendor_product_id).
Hypothesis Hi : wallet_inv w.(w_db).
Hypothesis Hu : user_exists w.(w_db) u = true.
Hypothesis Hfresh : w.(w_db).(adapty_webhook_events) !! ev.(event_id) = None.

(** The session after the event row and the subscription. *)
Definition noted : Db :=
  let d := set_adapty_webhook_events
    (<[ev.(event_id) := mkAdaptyEvent u ev.(event_type) body]> w.(w_db).(adapty_webhook_events)) w.(w_db) in
  set_subscriptions (<[u := mapped_subscription ev (w.(w_db).(subscriptions) !! u)]> d.(subscriptions)) d.

Definition granting : bool := str_in ev.(event_type) GRANTING_EVENTS.

(** What [_apply] is after the bookkeeping. *)
Lemma apply_noted :
  exists payload, _apply iso ev body e w =
  ((if granting then _grant ev;; mret tt else mret tt);;
   record (mkAuditEvent u None EVENT_ADAPTY_SUBSCRIPTION payload);;
   mret applied) e (with_db noted w).
Proof.
  unfold _apply. run by done. rewrite Hfresh. run by (by apply check_run). run by done.
  destruct (upsert_run ev e (with_db (set_adapty_webhook_events
    (<[ev.(event_id) := mkAdaptyEvent u ev.(event_type) body]> w.(w_db).(adapty_webhook_events)) w.(w_db)) w)
    Hu) as [[st pl] Hrun].
  run by exact Hrun. eexists. reflexivity.
Qed.

Lemma apply_expiring :
  granting = false ->
  exists w', _apply iso ev body e w = (inr applied, w') /\
    same_accounts w.(w_db) w'.(w_db) /\
    w'.(w_db).(subscriptions) !! u = Some (mapped_subscription ev (w.(w_db).(subscriptions) !! u)) /\
    is_Some (w'.(w_db).(adapty_webhook_events) !! ev.(event_id)).
Proof.
  intros Hg. destruct apply_noted as [p ->]. rewrite Hg. run by done. run by (by apply record_run).
  eexists. split; [done|]. cbn. rewrite !lookup_insert_eq. split_and!; [|done|done].
  intros v. rewrite account_add_neutral; [done|by apply neutral_event_type].
Qed.

Lemma apply_granting g a :
  granting = true ->
  spec_credit e.(env_settings).(agent_debt_reconcile_enabled)
    (new_tx e w u credit tier (grant_meta ev) (grant_key ev)) (account w.(w_db) u) = (inr g, a) ->
  0 < tier ->
  exists w', _apply iso ev body e w = (inr applied, w') /\
    account w'.(w_db) u = a /\ (forall v, v <> u -> account w'.(w_db) v = account w.(w_db) v) /\
    w'.(w_db).(subscriptions) !! u = Some (mapped_subscription ev (w.(w_db).(subscriptions) !! u)) /\
    is_Some (w'.(w_db).(adapty_webhook_events) !! ev.(event_id)).
Proof.
  intros Hg Hspec Ht. destruct apply_noted as [p ->]. rewrite Hg.
  pose proof (grant_account e (with_db noted w) u tier (grant_key ev) (grant_meta ev)
                "adapty_subscription" Hu (ai_ok _ (wi_account _ Hi u)) Ht) as Hacc.
  change (account (w_db (with_db noted w)) u) with (account w.(w_db) u) in Hacc.
  change (new_tx e (with_db noted w)) with (new_tx e w) in Hacc. rewrite Hspec in Hacc.
  destruct (grant u tier _ _ _ e (with_db noted w)) as [r w1] eqn:Hrun.
  destruct Hacc as (-> & Ha & Hf).
  assert (Hgr : _grant ev e (with_db noted w) = (inr g, w1)) by (unfold _grant; by run by done).
  run by (run by exact Hgr; reflexivity).
  assert (user_exists w1.(w_db) u = true) as Hu1.
  { unfold user_exists. rewrite (frame_users _ _ _ Hf). exact Hu. }
  run by (by apply record_run). eexists. split; [done|]. cbn [w_db with_db].
  assert (Hneu : forall v, account (add_audit (audit_row e.(env_request_id)
            (mkAuditEvent u None EVENT_ADAPTY_SUBSCRIPTION p)) w1.(w_db)) v = account w1.(w_db) v)
    by (intros v; apply account_add_neutral; by apply neutral_event_type).
  pose proof (fr_tables _ _ _ Hf) as Htab.
  pose proof (f_equal subscriptions Htab) as Hs. pose proof (f_equal adapty_webhook_events Htab) as He.
  cbn in Hs, He. cbn [add_audit set_audit_logs subscriptions adapty_webhook_events]. rewrite Hs, He.
  rewrite !lookup_insert_eq. split_and!; [|intros v Hv|done|done].
  - rewrite Hneu. by apply Ha.
  - rewrite Hneu. by apply (fr_account _ _ _ Hf).
Qed.
End delivery.

(** An applied event has left its row. *)
Lemma applied_recorded fi iso body e w w' id :
  wallet_inv w.(w_db) -> handle fi iso (raw_json (JObj body)) e w = (inr applied, w') ->
  parse_event_id body = Some id -> is_Some (w'.(w_db).(adapty_webhook_events) !! id).
Proof.
  intros Hi Hrun Hid. destruct (recognised fi w.(w_db) body) as [ev|] eqn:Hrec.
  2: { destruct (handle_unrecognised fi iso body e w Hrec) as (r & t & H). congruence. }
  rewrite (handle_recognised _ _ _ _ _ ev Hrec) in Hrun.
  destruct (recognised_event _ _ _ _ Hrec) as (Hid' & Hu & _).
  rewrite Hid in Hid'. injection Hid' as ->.
  destruct (w.(w_db).(adapty_webhook_events) !! ev.(event_id)) as [row|] eqn:Hfresh.
  { unfold _apply in Hrun. erewrite bind_inr in Hrun by done. by rewrite Hfresh in Hrun. }
  destruct (apply_noted iso ev body e w Hu Hfresh) as [p Hp]. rewrite Hp in Hrun. clear Hp.
  inv_bind Hrun. inv_bind Hrun. apply record_ok in Hstep0 as ->. injection Hrun as <-. cbn.
  destruct (granting ev).
  - inv_bind Hstep. injection Hstep as _ <-. unfold _grant in Hstep0. inv_bind Hstep0.
    apply settings_ok in Hstep as [-> ->].
    match type of Hstep0 with grant ?u ?a ?k ?m ?rs _ ?w0 = _ =>
      pose proof (grant_frame e w0 u a k m rs ltac:(cbn; eauto with hermes)) as Hf end.
    rewrite Hstep0 in Hf. apply fr_tables, (f_equal adapty_webhook_events) in Hf. cbn in Hf. rewrite Hf.
    by rewrite lookup_insert_eq.
  - injection Hstep as _ <-. cbn. by rewrite lookup_insert_eq.
Qed.

(** A recognised delivery with a fresh event id is applied once and
    completely.  The event row is recorded and the subscription row becomes the
    documented one; a started/renewed event credits the product's tier exactly
    as the wallet's specification says, a cancelled/expired one moves no
    account; nobody else's account moves. *)
Theorem adapty_applies fi iso body e w ev :
  let u := ev.(customer_user_id) in
  let tier := _tier_for e.(env_settings) ev.(vendor_product_id) in
  wallet_inv w.(w_db) -> recognised fi w.(w_db) body = Some ev ->
  w.(w_db).(adapty_webhook_events) !! ev.(event_id) = None -> 0 < tier ->
  find_tx (grant_key ev) (account w.(w_db) u) = None -> wallet_balance w.(w_db) u + tier <= int8_max ->
  exists w', handle fi iso (raw_json (JObj body)) e w = (inr applied, w') /\
    account w'.(w_db) u =
      (if granting ev
       then credited_account e.(env_settings).(agent_debt_reconcile_enabled)
              (new_tx e w u credit tier (grant_meta ev) (grant_key ev)) (account w.(w_db) u)
       else account w.(w_db) u) /\
    (forall v, v <> u -> account w'.(w_db) v = account w.(w_db) v) /\
    w'.(w_db).(subscriptions) !! u = Some (mapped_subscription ev (w.(w_db).(subscriptions) !! u)) /\
    is_Some (w'.(w_db).(adapty_webhook_events) !! ev.(event_id)).
Proof.
  intros u tier Hi Hrec Hfresh Ht Hkey Hfit. rewrite (handle_recognised _ _ _ _ _ ev Hrec).
  destruct (recognised_event _ _ _ _ Hrec) as (_ & Hu & _).
  destruct (granting ev) eqn:Hg.
  - pose proof (ai_ok _ (wi_account _ Hi u)) as [Hb Hd]. unfold account in Hb, Hd. cbn in Hb, Hd.
    eapply apply_granting; try done. unfold spec_credit. cbn [lt_amount lt_idempotency_key new_tx].
    rewrite (proj2 (Z.leb_le _ _)) by (unfold tier in *; lia). fold u. rewrite Hkey. cbv zeta.
    rewrite (proj2 (Z.leb_le _ _)); [done|]. unfold credited_account, account, repayment. cbn.
    subst u tier. destruct (agent_debt_reconcile_enabled _); lia.
  - destruct (apply_expiring iso ev body e w Hu Hfresh Hg) as (w' & H1 & H2 & H3 & H4).
    exists w'. by split_and!.
Qed.

(** C21: redelivery is harmless.  Once an event has been applied, any later
    body that carries the same event id, in any state that still holds the
    event row, is answered without touching the session at all, and never as
    applied. *)
Theorem adapty_applied_once fi iso body e w w' body2 e2 w2 id :
  wallet_inv w.(w_db) -> handle fi iso (raw_json (JObj body)) e w = (inr applied, w') ->
  parse_event_id body = Some id -> parse_event_id body2 = Some id ->
  w2.(w_db).(adapty_webhook_events) !! id = w'.(w_db).(adapty_webhook_events) !! id ->
  exists out, handle fi iso (raw_json (JObj body2)) e2 w2 = (inr out, w2) /\ out <> applied.
Proof.
  intros Hi Hrun Hid Hid2 Hrow.
  destruct (recognised fi w2.(w_db) body2) as [ev2|] eqn:Hrec2.
  2: { destruct (handle_unrecognised fi iso body2 e2 w2 Hrec2) as (r & t & H). by eexists. }
  rewrite (handle_recognised _ _ _ _ _ ev2 Hrec2).
  destruct (recognised_event _ _ _ _ Hrec2) as (Hid2' & _ & _).
  assert (is_Some (w'.(w_db).(adapty_webhook_events) !! id)) as [row Hr].
  { by eapply applied_recorded. }
  exists duplicate. split; [|done]. unfold _apply. run by done. rewrite Hid2 in Hid2'. injection Hid2' as <-.
  by rewrite Hrow, Hr.
Qed.

(** ** A delivery for Alice *)

Definition renewal_body : dict :=
  [("event_id", JStr "ev-1"); ("event_type", JStr "SUBSCRIPTION_RENEWED");
   ("customer_user_id", JStr "00000000-0000-0000-0000-000000000007");
   ("event_properties", JObj [("vendor_product_id", JStr "pro.monthly")])].

Definition renewal : ParsedEvent :=
  mkParsedEvent "ev-1" "subscription_renewed" alice (Some "pro.monthly") None.

Lemma adapty_applies_witness :
  exists w', handle (fun _ => None) demo_isoformat (raw_json (JObj renewal_body)) demo_env funded = (inr applied, w') /\
    ac_balance (account w'.(w_db) alice) = 1100.
Proof.
  destruct (adapty_applies (fun _ => None) demo_isoformat renewal_body demo_env funded renewal)
    as (w' & H & Hacc & _).
  - exact funded_inv.
  - vm_compute. reflexivity.
  - vm_compute. reflexivity.
  - vm_compute. reflexivity.
  - vm_compute. reflexivity.
  - vm_compute. discriminate.
  - exists w'. split; [exact H|]. cbn [customer_user_id renewal] in Hacc. rewrite Hacc.
    vm_compute. reflexivity.
Defined.

Lemma adapty_applied_once_witness :
  let w' := (handle (fun _ => None) demo_isoformat (raw_json (JObj renewal_body)) demo_env funded).2 in
  exists out, handle (fun _ => None) demo_isoformat (raw_json (JObj renewal_body)) demo_env w' = (inr out, w') /\
    out <> applied.
Proof.
  apply (adapty_applied_once (fun _ => None) demo_isoformat renewal_body demo_env funded
           (handle (fun _ => None) demo_isoformat (raw_json (JObj renewal_body)) demo_env funded).2
           renewal_body demo_env _ "ev-1").
  - exact funded_inv.
  - vm_compute. reflexivity.
  - reflexivity.
  - reflexivity.
  - reflexivity.
Defined.
