(* ===== verification/StoreKit.v ===== *)
(** * StoreKit transactions

    Models [src/app/subscription/storekit.py]: the choice of the branch by the
    header, the certificate chain, the two signature checks and the reading of
    the payload.  Base64, JSON, X.509 and PyJWT are a record of operations;
    [str] of a value that is not a string and [fromtimestamp] are functions of
    it too. *)

From Stdlib Require Import Ascii String.
From S2P Require Import Prelude PyVal Redaction Store.

Open Scope string_scope.
Open Scope list_scope.
Open Scope Z_scope.

Module StoreKit.
Record VerifiedTransaction : Type := mkVerified {
  transaction_id : string;
  original_transaction_id : string;
  product_id : string;
  expires_at : option instant;
  revoked : bool;
  environment : string
}.

Inductive KeyKind : Set := ec_key | rsa_key | other_key.

(** [jwt.decode]: the payload, an [InvalidTokenError], or another exception. *)
Inductive Decoded : Type := payload (d : dict) | invalid_token | decode_raises (x : exn).

(** What the code uses of [cryptography], [jwt], [base64] and [json]. *)
Record Crypto (Cert : Type) : Type := mkCrypto {
  urlsafe_b64decode : string -> option string;
  b64decode : string -> option string;
  json_loads : string -> option json;
  load_der_x509_certificate : string -> option Cert;
  load_pem_x509_certificate : string -> option Cert;
  has_hash_algorithm : Cert -> bool;
  public_key_kind : Cert -> KeyKind;
  signature_verifies : Cert -> Cert -> bool;
  public_bytes : Cert -> string;
  decode_es256 : Cert -> string -> Decoded;
  decode_hs256 : string -> string -> Decoded;
  fromtimestamp_ms : json -> exn + instant;
  repr : json -> string
}.
Arguments urlsafe_b64decode {Cert} _ _.
Arguments b64decode {Cert} _ _.
Arguments json_loads {Cert} _ _.
Arguments load_der_x509_certificate {Cert} _ _.
Arguments load_pem_x509_certificate {Cert} _ _.
Arguments has_hash_algorithm {Cert} _ _.
Arguments public_key_kind {Cert} _ _.
Arguments signature_verifies {Cert} _ _ _.
Arguments public_bytes {Cert} _ _.
Arguments decode_es256 {Cert} _ _ _.
Arguments decode_hs256 {Cert} _ _ _.
Arguments fromtimestamp_ms {Cert} _ _.
Arguments repr {Cert} _ _.

Record AppStoreSettings : Type := mkAppStore {
  appstore_bundle_id : string;
  appstore_environment : string;
  appstore_root_cert_dir : string;
  storekit_test_secret : string;
  storekit_test_mode : bool
}.

Definition invalid (message : string) {A} : exn + A := inl (ValidationFailedError message).

Section verifier.
Context {Cert : Type} (c : Crypto Cert) (st : AppStoreSettings).

Definition str (v : json) : string := match v with JStr s => s | _ => c.(repr) v end.

(** [-len(segment) % 4] equals signs. *)
Definition padding (segment : string) : string :=
  match Nat.modulo (String.length segment) 4 with
  | 0%nat => "" | 1%nat => "===" | 2%nat => "==" | _ => "="
  end.

Definition _b64url_decode (segment : string) : option string :=
  c.(urlsafe_b64decode) (segment ++ padding segment)%string.

Definition _jws_header (jws : string) : exn + dict :=
  match _b64url_decode (default "" (head (Str.split "." jws))) ≫= c.(json_loads) with
  | None => invalid "StoreKit JWS header is not valid base64url JSON"
  | Some (JObj header) => inr header
  | Some _ => invalid "StoreKit JWS header must be a JSON object"
  end.

Definition load_one (v : json) : exn + Cert :=
  match v with
  | JStr s => match c.(b64decode) s ≫= c.(load_der_x509_certificate) with
              | Some cert => inr cert
              | None => inl ValueError
              end
  | _ => inl TypeError
  end.

Fixpoint load_all (l : list json) : exn + list Cert :=
  match l with
  | [] => inr []
  | v :: rest =>
      match load_one v with
      | inl x => inl x
      | inr cert => match load_all rest with inl x => inl x | inr certs => inr (cert :: certs) end
      end
  end.

Definition _load_certificate_chain (jws : string) : exn + list Cert :=
  match _jws_header jws with
  | inl x => inl x
  | inr header =>
      match dict_get header "x5c" with
      | JArr ((_ :: _) as l) => load_all l
      | _ => invalid "StoreKit JWS missing x5c certificate chain"
      end
  end.

Definition _verify_signed_by (child issuer : Cert) : exn + unit :=
  if negb (c.(has_hash_algorithm) child) then invalid "certificate missing signature hash algorithm"
  else match c.(public_key_kind) issuer with
       | ec_key | rsa_key => if c.(signature_verifies) child issuer then inr tt else inl InvalidSignature
       | other_key => invalid "Unsupported certificate key type in StoreKit chain"
       end.

Fixpoint verify_links (chain : list Cert) : exn + unit :=
  match chain with
  | child :: ((issuer :: _) as rest) =>
      match _verify_signed_by child issuer with inl x => inl x | inr _ => verify_links rest end
  | _ => inr tt
  end.

Definition signed_by_b (child trusted : Cert) : bool :=
  match _verify_signed_by child trusted with inr _ => true | inl _ => false end.

Definition _verify_chain (chain roots : list Cert) : exn + unit :=
  match verify_links chain with
  | inl x => inl x
  | inr _ =>
      match last chain with
      | None => inl IndexError
      | Some root_in_chain =>
          if existsb (fun r => String.eqb (c.(public_bytes) r) (c.(public_bytes) root_in_chain)) roots then inr tt
          else if existsb (signed_by_b root_in_chain) roots then inr tt
          else invalid "StoreKit certificate chain not anchored to a trusted root"
      end
  end.

(** ** The trust anchors *)

(** The part of a name from its last dot on, [Path.suffix]; a name that starts
    or ends with it has none. *)
Fixpoint last_dot (i : nat) (s : string) : option nat :=
  match s with
  | EmptyString => None
  | String ch rest =>
      match last_dot (S i) rest with
      | Some j => Some j
      | None => if Ascii.eqb ch "." then Some i else None
      end
  end.

Definition suffix (name : string) : string :=
  match last_dot 0 name with
  | Some i => if (0 <? i)%nat && (i <? String.length name - 1)%nat then substring i (String.length name - i) name else ""
  | None => ""
  end.

Definition cert_suffixes : list string := [".cer"; ".der"; ".pem"; ".crt"].

Fixpoint load_files (files : list (string * string)) : exn + list Cert :=
  match files with
  | [] => inr []
  | (name, data) :: rest =>
      if negb (bool_decide (Str.lower (suffix name) ∈ cert_suffixes)) then load_files rest
      else
        match (match c.(load_der_x509_certificate) data with
               | Some cert => Some cert
               | None => c.(load_pem_x509_certificate) data
               end) with
        | None => inl ValueError
        | Some cert => match load_files rest with inl x => inl x | inr certs => inr (cert :: certs) end
        end
  end.

(** [read_dir]: the files of a directory in the order of their names, or
    [None] when there is no such directory. *)
Definition _load_roots (read_dir : string -> option (list (string * string))) (cert_dir : string) : exn + list Cert :=
  if negb (Str.nonempty cert_dir) then inr []
  else match read_dir cert_dir with None => inr [] | Some files => load_files files end.

(** ** A transaction *)

Section transaction.
Context (roots : list Cert).

Definition _test_mode : bool := st.(storekit_test_mode) && Str.nonempty st.(storekit_test_secret).

Definition _normalize_payload (p : dict) : exn + VerifiedTransaction :=
  let bundle_id := dict_get p "bundleId" in
  if Str.nonempty st.(appstore_bundle_id) && negb (bool_decide (as_str bundle_id = Some st.(appstore_bundle_id)))
  then invalid "StoreKit transaction bundleId mismatch"
  else
    let environment := Str.lower (str (default (JStr st.(appstore_environment)) (dict_lookup "environment" p))) in
    let expires := match dict_get p "expiresDate" with
                   | JNull => inr None
                   | v => match c.(fromtimestamp_ms) v with inl x => inl x | inr t => inr (Some t) end
                   end in
    match expires with
    | inl x => inl x
    | inr expires_at =>
        let revoked := match dict_get p "revocationDate" with JNull => false | _ => true end in
        match dict_lookup "transactionId" p with
        | None => invalid "StoreKit transaction missing transactionId"
        | Some t =>
            inr (mkVerified (str t) (str (default t (dict_lookup "originalTransactionId" p)))
                   (str (default (JStr "") (dict_lookup "productId" p))) expires_at revoked environment)
        end
    end.

Definition normalize_decoded (r : Decoded) : exn + VerifiedTransaction :=
  match r with
  | payload p => _normalize_payload p
  | invalid_token => invalid "StoreKit JWS signature invalid"
  | decode_raises x => inl x
  end.

Definition _verify_real_transaction (jws : string) : exn + VerifiedTransaction :=
  match _load_certificate_chain jws with
  | inl x => inl x
  | inr [] => inl IndexError
  | inr ((leaf :: _) as chain) =>
      match roots with
      | [] => invalid "App Store root certificates not configured (APPSTORE_ROOT_CERT_DIR); cannot verify StoreKit transaction"
      | _ =>
          match _verify_chain chain roots with
          | inl x => inl x
          | inr _ => normalize_decoded (c.(decode_es256) leaf jws)
          end
      end
  end.

Definition _verify_test_transaction (jws : string) : exn + VerifiedTransaction :=
  normalize_decoded (c.(decode_hs256) st.(storekit_test_secret) jws).

Definition verify (signed_transaction : string) : exn + VerifiedTransaction :=
  if negb (length (Str.split "." signed_transaction) =? 3)%nat
  then invalid "StoreKit transaction must be a compact JWS string"
  else
    match _jws_header signed_transaction with
    | inl x => inl x
    | inr header =>
        let alg := str (default (JStr "") (dict_lookup "alg" header)) in
        if String.eqb alg "HS256"
        then if negb _test_mode then invalid "StoreKit JWS signature invalid"
             else _verify_test_transaction signed_transaction
        else _verify_real_transaction signed_transaction
    end.
End transaction.
End verifier.
End StoreKit.

(** ** What a verified transaction rests on *)

Section trust.
Context {Cert : Type} (c : StoreKit.Crypto Cert) (st : StoreKit.AppStoreSettings) (roots : list Cert).

Definition link_ok (child issuer : Cert) : Prop :=
  c.(StoreKit.has_hash_algorithm) child = true /\ c.(StoreKit.public_key_kind) issuer <> StoreKit.other_key /\
  c.(StoreKit.signature_verifies) child issuer = true.

(** Every certificate is signed by the next, and the last one is a trusted root
    or signed by one. *)
Definition anchored (chain : list Cert) : Prop :=
  (forall i child issuer, chain !! i = Some child -> chain !! S i = Some issuer -> link_ok child issuer) /\
  exists top root, last chain = Some top /\ root ∈ roots /\
    (c.(StoreKit.public_bytes) root = c.(StoreKit.public_bytes) top \/ link_ok top root).

(** What the payload says is what the transaction says, for our application. *)
Definition reads (p : dict) (v : StoreKit.VerifiedTransaction) : Prop :=
  (st.(StoreKit.appstore_bundle_id) = "" \/ dict_get p "bundleId" = JStr st.(StoreKit.appstore_bundle_id)) /\
  (exists t, dict_lookup "transactionId" p = Some t /\ v.(StoreKit.transaction_id) = StoreKit.str c t) /\
  v.(StoreKit.product_id) = StoreKit.str c (default (JStr "") (dict_lookup "productId" p)) /\
  (v.(StoreKit.revoked) = true <-> dict_get p "revocationDate" <> JNull).

Lemma signed_by_spec child issuer :
  StoreKit._verify_signed_by c child issuer = inr tt <-> link_ok child issuer.
Proof.
  unfold StoreKit._verify_signed_by, link_ok. destruct (StoreKit.has_hash_algorithm c child); cbn.
  2: { split; [done|]. by intros [? _]. }
  destruct (StoreKit.public_key_kind c issuer) eqn:Ek, (StoreKit.signature_verifies c child issuer);
    naive_solver.
Qed.

Lemma signed_by_b_spec child issuer : StoreKit.signed_by_b c child issuer = true <-> link_ok child issuer.
Proof.
  rewrite <- signed_by_spec. unfold StoreKit.signed_by_b.
  destruct (StoreKit._verify_signed_by c child issuer) as [x|[]]; naive_solver.
Qed.

Lemma verify_links_spec chain :
  StoreKit.verify_links c chain = inr tt <->
  forall i child issuer, chain !! i = Some child -> chain !! S i = Some issuer -> link_ok child issuer.
Proof.
  induction chain as [|a [|b rest] IH]; cbn [StoreKit.verify_links]; [naive_solver| |].
  { split; [|done]. intros _ [|i] x y; cbn; [done|]. by destruct i. }
  destruct (StoreKit._verify_signed_by c a b) as [x|[]] eqn:E.
  - split; [done|]. intros H. specialize (H 0%nat a b eq_refl eq_refl). apply signed_by_spec in H. congruence.
  - apply signed_by_spec in E. cbn in IH. rewrite IH. split.
    + intros H [|i] x y; cbn; [naive_solver|]. intros Hx Hy. apply (H i); done.
    + intros H i x y Hx Hy. apply (H (S i)); done.
Qed.

Lemma verify_chain_spec chain : StoreKit._verify_chain c chain roots = inr tt <-> anchored chain.
Proof.
  unfold StoreKit._verify_chain, anchored. rewrite <- verify_links_spec.
  destruct (StoreKit.verify_links c chain) as [x|[]]; [naive_solver|].
  destruct (last chain) as [top|] eqn:El; [|naive_solver].
  destruct (existsb _ roots) eqn:E1.
  { split; [|done]. intros _. split; [done|]. apply existsb_exists in E1 as (r & Hin & Hr).
    apply String.eqb_eq in Hr. exists top, r. rewrite list_elem_of_In. naive_solver. }
  destruct (existsb (StoreKit.signed_by_b c top) roots) eqn:E2.
  { split; [|done]. intros _. split; [done|]. apply existsb_exists in E2 as (r & Hin & Hr).
    apply signed_by_b_spec in Hr. exists top, r. rewrite list_elem_of_In. naive_solver. }
  split; [done|]. intros (_ & top' & r & [= <-] & Hin & [Hb|Hl]); exfalso; rewrite list_elem_of_In in Hin.
  - assert (existsb (fun r => String.eqb (StoreKit.public_bytes c r) (StoreKit.public_bytes c top)) roots = true) as Hx
      by (apply existsb_exists; exists r; by rewrite Hb, String.eqb_refl). congruence.
  - assert (existsb (StoreKit.signed_by_b c top) roots = true) as Hx
      by (apply existsb_exists; exists r; by rewrite signed_by_b_spec). congruence.
Qed.

Lemma normalize_reads p v : StoreKit._normalize_payload c st p = inr v -> reads p v.
Proof.
  unfold StoreKit._normalize_payload, reads. intros H.
  destruct (Str.nonempty (StoreKit.appstore_bundle_id st) && _) eqn:Eb; [done|].
  split.
  { destruct (StoreKit.appstore_bundle_id st) as [|ch b]; [by left|right]. cbn in Eb.
    apply negb_false_iff, bool_decide_eq_true in Eb. destruct (dict_get p "bundleId"); naive_solver. }
  destruct (match dict_get p "expiresDate" with JNull => _ | _ => _ end) as [x|t]; [done|].
  destruct (dict_lookup "transactionId" p) as [t'|]; [|done]. injection H as <-. cbn.
  split; [naive_solver|]. split; [done|]. destruct (dict_get p "revocationDate"); naive_solver.
Qed.

(** A transaction is verified only by the test secret, when the operator has
    switched the test mode on and set one, or by a certificate chain of the
    transaction whose links all verify and whose end is a configured root or
    signed by one.  The payload is the one the signature covers, for our
    bundle. *)
Definition trusted (jws : string) (v : StoreKit.VerifiedTransaction) : Prop :=
  exists p, reads p v /\
  ((st.(StoreKit.storekit_test_mode) = true /\ st.(StoreKit.storekit_test_secret) <> "" /\
    c.(StoreKit.decode_hs256) st.(StoreKit.storekit_test_secret) jws = StoreKit.payload p) \/
   exists leaf rest, StoreKit._load_certificate_chain c jws = inr (leaf :: rest) /\ anchored (leaf :: rest) /\
     c.(StoreKit.decode_es256) leaf jws = StoreKit.payload p).

Lemma verify_trusted jws v : StoreKit.verify c st roots jws = inr v -> trusted jws v.
Proof.
  unfold StoreKit.verify, trusted. destruct (negb _); [done|].
  destruct (StoreKit._jws_header c jws) as [x|header]; [done|]. destruct (String.eqb _ "HS256").
  - unfold StoreKit._test_mode. destruct (StoreKit.storekit_test_mode st); [|done].
    destruct (StoreKit.storekit_test_secret st) as [|ch s] eqn:Es; [done|]. cbn.
    unfold StoreKit._verify_test_transaction. rewrite Es. intros H.
    destruct (StoreKit.decode_hs256 c (String ch s) jws) as [p| |] eqn:Ed; try done.
    exists p. split; [by apply normalize_reads|]. by left.
  - unfold StoreKit._verify_real_transaction.
    destruct (StoreKit._load_certificate_chain c jws) as [x|[|leaf rest]] eqn:Ec; [done|done|].
    destruct roots as [|r0 rs] eqn:Er; [done|]. rewrite <- Er.
    destruct (StoreKit._verify_chain c (leaf :: rest) roots) as [x|[]] eqn:Ev; [done|]. intros H.
    destruct (StoreKit.decode_es256 c leaf jws) as [p| |] eqn:Ed; try done.
    exists p. split; [by apply normalize_reads|]. right. exists leaf, rest. split; [done|]. split; [|done].
    by apply verify_chain_spec.
Qed.

(** Without a root and without the test mode nothing is ever verified. *)
Lemma no_anchor_fails_closed jws :
  roots = [] -> StoreKit._test_mode st = false -> forall v, StoreKit.verify c st roots jws <> inr v.
Proof.
  intros Hr Ht v H. apply verify_trusted in H as (p & _ & [(Hm & Hs & _)|(leaf & rest & _ & (_ & top & r & _ & Hin & _) & _)]).
  - unfold StoreKit._test_mode in Ht. rewrite Hm in Ht. by destruct (StoreKit.storekit_test_secret st).
  - rewrite Hr in Hin. set_solver.
Qed.

(** A genuine transaction is verified: its chain loads and is anchored, the
    leaf's key verifies it, and the payload is of our bundle. *)
Lemma genuine_verified jws header leaf rest p t :
  length (Str.split "." jws) = 3%nat -> StoreKit._jws_header c jws = inr header ->
  StoreKit.str c (default (JStr "") (dict_lookup "alg" header)) <> "HS256" ->
  StoreKit._load_certificate_chain c jws = inr (leaf :: rest) -> anchored (leaf :: rest) ->
  c.(StoreKit.decode_es256) leaf jws = StoreKit.payload p ->
  (st.(StoreKit.appstore_bundle_id) = "" \/ dict_get p "bundleId" = JStr st.(StoreKit.appstore_bundle_id)) ->
  dict_get p "expiresDate" = JNull -> dict_lookup "transactionId" p = Some t ->
  exists v, StoreKit.verify c st roots jws = inr v /\ v.(StoreKit.transaction_id) = StoreKit.str c t.
Proof.
  intros Hl Hh Ha Hc Hok Hd Hb He Ht. unfold StoreKit.verify. rewrite Hl, Hh. cbn [Nat.eqb negb].
  rewrite (proj2 (String.eqb_neq _ _) Ha). unfold StoreKit._verify_real_transaction. rewrite Hc.
  destruct roots as [|r0 rs] eqn:Er. { destruct Hok as (_ & ? & ? & _ & Hin & _). set_solver. }
  rewrite <- Er in *. rewrite (proj2 (verify_chain_spec _) Hok), Hd. cbn. unfold StoreKit._normalize_payload.
  rewrite He, Ht.
  assert (Str.nonempty (StoreKit.appstore_bundle_id st) &&
          negb (bool_decide (as_str (dict_get p "bundleId") = Some (StoreKit.appstore_bundle_id st))) = false) as ->
    by (destruct Hb as [-> | ->]; [done|]; cbn; by rewrite bool_decide_true, andb_false_r).
  by eexists.
Qed.
End trust.
