(* ===== verification/TokenPurchase.v ===== *)
(** * Consumable purchases

    Models [src/app/token_purchase/service.py]: the subscription guard, the
    StoreKit verifier (any function; [StoreKit.verify] at the end), the server-side price table and the
    idempotent grant. *)

From Stdlib Require Import Ascii String.
From S2P Require Import Prelude PyVal Redaction Store AuditTrail Logic Fixtures Wallet WalletRun WalletSpec WalletRefine WalletInv.
From S2P Require Import Policy Config StoreKit.

Open Scope string_scope.
Open Scope list_scope.
Open Scope Z_scope.

Module TokenPurchase.
Import StoreKit.
Definition TOKEN_PURCHASE_SOURCE : string := "token_purchase".
Definition _IDEMPOTENCY_PREFIX : string := "token-purchase:".
Definition _GRANT_REASON : string := "token_purchase".

Record PurchaseResult : Type := mkPurchaseResult {
  credits_added : Z;
  new_balance : Z;
  pr_transaction_id : string
}.

Definition _require_active_subscription (u : uuid) : M unit :=
  state ← load_policy_state u;
  if bool_decide (state.(ps_subscription_status) = sub_active) then mret tt
  else
    metric_inc "token_purchase_total" "subscription_required";;
    raise (SubscriptionRequiredError "an active subscription is required to buy tokens").

Definition _credits_for_product (product_id : string) : M Z :=
  s ← settings;
  match product_get (token_products s) product_id with
  | Some credits => mret credits
  | None =>
      metric_inc "token_purchase_total" "unknown_product";;
      raise (ValidationFailedError "unknown token product")
  end.

Section service.
(** [StoreKitVerifier.verify]: a verified transaction or what it raises. *)
Context (verify : string -> exn + VerifiedTransaction).

Definition purchase_key (v : VerifiedTransaction) : string :=
  (_IDEMPOTENCY_PREFIX ++ v.(transaction_id))%string.

Definition purchase_meta (v : VerifiedTransaction) : dict :=
  [("source", JStr TOKEN_PURCHASE_SOURCE); ("productId", JStr v.(product_id));
   ("transactionId", JStr v.(transaction_id))].

Definition purchase (u : uuid) (signed_transaction : string) : M PurchaseResult :=
  _require_active_subscription u;;
  match verify signed_transaction with
  | inl (ValidationFailedError message) =>
      metric_inc "token_purchase_total" "invalid_transaction";;
      raise (ValidationFailedError message)
  | inl x => raise x
  | inr verified =>
      credits ← _credits_for_product verified.(product_id);
      result ← grant u credits (purchase_key verified) (purchase_meta verified) _GRANT_REASON;
      let credits_added := if result.(gr_idempotent_replay) then 0 else credits in
      metric_inc "token_purchase_total" (if result.(gr_idempotent_replay) then "replay" else "granted");;
      mret (mkPurchaseResult credits_added result.(gr_new_balance) verified.(transaction_id))
  end.
End service.
End TokenPurchase.

Import StoreKit TokenPurchase.

Lemma keeps_load_policy_state I J u : keeps I J (load_policy_state u).
Proof. unfold load_policy_state, _effective_subscription_status. keeps_walk. Qed.

#[export] Hint Resolve keeps_load_policy_state : hermes.

#[export] Instance purchase_books verify u tx : KeepsBooks (purchase verify u tx).
Proof. unfold KeepsBooks, purchase, _require_active_subscription, _credits_for_product. keeps_walk. Qed.

(** ** What a purchase does *)

Section purchase.
Context (verify : string -> exn + VerifiedTransaction) (u : uuid) (tx : string).
Context (e : Env) (w : World).

Lemma guard_run s w1 :
  load_policy_state u e w = (inr s, w1) -> s.(ps_subscription_status) = sub_active ->
  purchase verify u tx e w =
  (match verify tx with
   | inl (ValidationFailedError message) =>
       metric_inc "token_purchase_total" "invalid_transaction";;
       raise (ValidationFailedError message)
   | inl x => raise x
   | inr verified =>
       credits ← _credits_for_product verified.(product_id);
       result ← grant u credits (purchase_key verified) (purchase_meta verified) _GRANT_REASON;
       metric_inc "token_purchase_total" (if result.(gr_idempotent_replay) then "replay" else "granted");;
       mret (mkPurchaseResult (if result.(gr_idempotent_replay) then 0 else credits)
               result.(gr_new_balance) verified.(transaction_id))
   end) e w1.
Proof.
  intros Hs Ha. unfold purchase, _require_active_subscription.
  run by (run by exact Hs; rewrite bool_decide_true by done; reflexivity). done.
Qed.

Lemma guard_blocks s w1 :
  load_policy_state u e w = (inr s, w1) -> s.(ps_subscription_status) <> sub_active ->
  exists w', purchase verify u tx e w =
    (inl (SubscriptionRequiredError "an active subscription is required to buy tokens"), w') /\
    w'.(w_db) = w1.(w_db).
Proof.
  intros Hs Ha. unfold purchase, _require_active_subscription. eexists.
  fails by (run by exact Hs; rewrite bool_decide_false by done; run by done; reflexivity). done.
Qed.
End purchase.

(** The purchase as a function of the policy state, the verifier's answer, the
    price table and the account. *)
Definition spec_purchase (s : PolicyState) (verified : exn + VerifiedTransaction) (cfg : Settings)
    (mk : VerifiedTransaction -> Z -> LedgerTransaction) (a : Account) : (exn + PurchaseResult) * Account :=
  if bool_decide (s.(ps_subscription_status) = sub_active) then
    match verified with
    | inl x => (inl x, a)
    | inr v =>
        match product_get (token_products cfg) v.(product_id) with
        | None => (inl (ValidationFailedError "unknown token product"), a)
        | Some credits =>
            match spec_credit cfg.(agent_debt_reconcile_enabled) (mk v credits) a with
            | (inl x, a') => (inl x, a')
            | (inr g, a') =>
                (inr (mkPurchaseResult (if g.(gr_idempotent_replay) then 0 else credits)
                        g.(gr_new_balance) v.(transaction_id)), a')
            end
        end
    end
  else (inl (SubscriptionRequiredError "an active subscription is required to buy tokens"), a).

(** C18: a purchase credits exactly the server's price of a verified product,
    once.  The guard comes first, then the verifier, then the price table; a
    refusal at any of them leaves every account alone; a repeated transaction
    adds nothing; nobody else's account moves. *)
Theorem purchase_refines verify u tx e w s w1 :
  wallet_inv w.(w_db) -> user_exists w.(w_db) u = true -> load_policy_state u e w = (inr s, w1) ->
  let '(r, w') := purchase verify u tx e w in
  let '(r', a') := spec_purchase s (verify tx) e.(env_settings)
                     (fun v n => new_tx e w u credit n (purchase_meta v) (purchase_key v))
                     (account w.(w_db) u) in
  r = r' /\ (r <> inl DataError -> account w'.(w_db) u = a') /\
  forall v, v <> u -> account w'.(w_db) v = account w.(w_db) v.
Proof.
  intros Hi Hu Hs. destruct (load_policy_state_total u e w) as (s' & w1' & Hs' & Hdb & _ & Hid).
  rewrite Hs' in Hs. injection Hs as -> ->. unfold spec_purchase.
  case_bool_decide as Hact.
  2: { destruct (guard_blocks verify u tx e w s w1 Hs' Hact) as (w' & -> & Hw). by rewrite Hw, Hdb. }
  rewrite (guard_run verify u tx e w s w1 Hs' Hact).
  destruct (verify tx) as [x|v]; [destruct x; try (run by done); cbn; by rewrite Hdb|]. unfold _credits_for_product.
  destruct (product_get (token_products (env_settings e)) (product_id v)) as [credits|] eqn:Hp.
  2: { fails by (run by done; rewrite Hp; run by done; reflexivity). cbn. by rewrite Hdb. }
  run by (run by done; rewrite Hp; reflexivity).
  assert (0 < credits) as Hc by (by eapply product_get_positive).
  rewrite <- Hdb in Hi, Hu |- *.
  pose proof (grant_account e w1 u credits (purchase_key v) (purchase_meta v) _GRANT_REASON Hu
                (ai_ok _ (wi_account _ Hi u)) Hc) as Hg.
  assert (new_tx e w1 u credit credits (purchase_meta v) (purchase_key v) =
          new_tx e w u credit credits (purchase_meta v) (purchase_key v)) as Hmk
    by (unfold new_tx, next_uuid; by rewrite Hid).
  rewrite Hmk in Hg.
  destruct (grant u credits _ _ _ e w1) as [r w'] eqn:Hrun. destruct (spec_credit _ _ _) as [r' a'].
  destruct Hg as (-> & Hacc & Hf). destruct r' as [x|g].
  - fails by exact Hrun. split_and!; [done|intros Hne; apply Hacc; congruence|]. intros q Hq. by apply Hf.
  - run by exact Hrun. cbn. split_and!; [done| |intros q Hq; by apply Hf]. intros _. by apply Hacc.
Qed.

(** Alice with an active subscription and 100 credits. *)
Definition subscriber : World :=
  with_db (set_subscriptions {[ alice := mkSubscription sub_active (Some "pro") None ]} funded.(w_db)) funded.

Lemma subscriber_inv : wallet_inv subscriber.(w_db).
Proof. pose proof funded_inv. cbn. eauto with hermes. Qed.

Definition shop_env : Env :=
  mkEnv (mkSettings true false 1000 (Some (JObj [("tokens.500", JInt 500)])) (Some (JObj [])) 1000 "cp-token"
           (Some (JObj [])) 1000 ["succeeded"] 72 float_1 float_5 3000000 65536 150000000 3 2000000 900 20 600 chat_defaults)
    (fun n => N.of_nat (1000 + n)) (fun _ => 1700000000000000) (fun n => 1000000 * Z.of_nat n)
    1700000000000000 None.

Definition demo_verify (s : string) : exn + VerifiedTransaction := inr (mkVerified s s "tokens.500" None false "production").

Lemma purchase_refines_witness :
  let '(r, w') := purchase demo_verify alice "apple-1" shop_env subscriber in
  r = inr (mkPurchaseResult 500 600 "apple-1") /\
  forall v, v <> alice -> account w'.(w_db) v = account subscriber.(w_db) v.
Proof.
  pose proof (purchase_refines demo_verify alice "apple-1" shop_env subscriber
    (mkPolicyState sub_active false 100 false byok_missing) subscriber subscriber_inv
    ltac:(vm_compute; reflexivity) ltac:(vm_compute; reflexivity)) as H.
  destruct (purchase _ _ _ _ _) as [r w']. destruct (spec_purchase _ _ _ _ _) as [r' a'] eqn:E.
  destruct H as (-> & _ & H). split; [|exact H]. apply (f_equal fst) in E. cbn [fst] in E. rewrite <- E.
  vm_compute. reflexivity.
Defined.

(** ** The purchase with the verifier of the deployment *)


(** ** A small world of certificates

    Root 0 signs the authority 1, which signs Apple's signing certificate 2 and
    the certificate 3 of some developer, whose owner has signed 4 with it.
    The segments of a transaction are a header, a payload and who signed. *)

Definition issuer_of (n : nat) : nat := match n with 0 | 1 => 0 | 2 | 3 => 1 | _ => 3 end%nat.

Definition cert_of (s : string) : option nat :=
  match s with "0" => Some 0 | "1" => Some 1 | "2" => Some 2 | "3" => Some 3 | "4" => Some 4 | _ => None end%nat.

Definition chain_header (l : list string) : json := JObj [("alg", JStr "ES256"); ("x5c", JArr (JStr <$> l))].

Definition pack_payload (extra : dict) : dict :=
  [("bundleId", JStr "app.hermes"); ("transactionId", JStr "tx-1"); ("productId", JStr "tokens.500")] ++ extra.

Definition demo_crypto : Crypto nat := {|
  urlsafe_b64decode := Some;
  b64decode := Some;
  json_loads := fun s =>
    match s with
    | "appl" => Some (chain_header ["2"; "1"; "0"])
    | "deve" => Some (chain_header ["4"; "3"; "1"; "0"])
    | "gaps" => Some (chain_header ["2"; "0"])
    | _ => None
    end;
  load_der_x509_certificate := cert_of;
  load_pem_x509_certificate := fun _ => None;
  has_hash_algorithm := fun _ => true;
  public_key_kind := fun _ => ec_key;
  signature_verifies := fun child issuer => Nat.eqb (issuer_of child) issuer;
  public_bytes := fun n => Str.of_int (Z.of_nat n);
  decode_es256 := fun leaf jws =>
    match Str.split "."%char jws with
    | [_; p; s] =>
        if bool_decide (cert_of s = Some leaf)
        then payload (pack_payload (match p with
                                    | "sand" => [("environment", JStr "Sandbox")]
                                    | "refu" => [("revocationDate", JInt 1700000000000)]
                                    | _ => []
                                    end))
        else invalid_token
    | _ => invalid_token
    end;
  decode_hs256 := fun _ _ => invalid_token;
  fromtimestamp_ms := fun _ => inl ValueError;
  repr := fun _ => ""
|}.

Definition demo_appstore : AppStoreSettings := mkAppStore "app.hermes" "production" "/roots" "" false.

Definition shop (u : uuid) (tx : string) : M PurchaseResult := purchase (verify demo_crypto demo_appstore [0%nat]) u tx.

Definition bought_500 (r : exn + PurchaseResult) : bool :=
  match r with inr ok => (ok.(credits_added) =? 500)%Z | inl _ => false end.

(** The genuine transaction is credited, and a payload signed by a key outside
    the chain is not. *)
Example genuine_bought : bought_500 (shop alice "appl.pack.2" shop_env subscriber).1 = true.
Proof. vm_compute. reflexivity. Qed.

Example stranger_refused :
  (shop alice "appl.pack.4" shop_env subscriber).1 = inl (ValidationFailedError "StoreKit JWS signature invalid").
Proof. vm_compute. reflexivity. Qed.

(** The chain is checked by signatures alone: any holder of a certificate
    under the trusted root can issue one more with it and sign transactions of
    his own. *)
Theorem developer_certificate_mints : bought_500 (shop alice "deve.pack.4" shop_env subscriber).1 = true.
Proof. vm_compute. reflexivity. Qed.

(** A sandbox purchase is credited by a production deployment, and so is a
    refunded one: neither field of the verified transaction is looked at. *)
Theorem sandbox_and_refunded_credited :
  (exists v, verify demo_crypto demo_appstore [0%nat] "appl.sand.2" = inr v /\ v.(environment) = "sandbox") /\
  (exists v, verify demo_crypto demo_appstore [0%nat] "appl.refu.2" = inr v /\ v.(revoked) = true) /\
  bought_500 (shop alice "appl.sand.2" shop_env subscriber).1 = true /\
  bought_500 (shop alice "appl.refu.2" shop_env subscriber).1 = true.
Proof. split_and!; [by eexists|by eexists|vm_compute; reflexivity|vm_compute; reflexivity]. Qed.

(** Two subscribers. *)
Definition two_subscribers : World :=
  with_db (set_subscriptions {[ alice := mkSubscription sub_active (Some "pro") None;
                                bob := mkSubscription sub_active (Some "pro") None ]} funded.(w_db)) funded.

(** One purchase, redeemed by two users: the key of the credit is per user. *)
Theorem one_transaction_two_users :
  let '(first, w1) := shop alice "appl.pack.2" shop_env two_subscribers in
  let '(second, _) := shop bob "appl.pack.2" shop_env w1 in
  bought_500 first = true /\ bought_500 second = true.
Proof. vm_compute. split; reflexivity. Qed.

(** A chain with a broken link is an [InvalidSignature], not the validation
    error the client is promised. *)
Theorem broken_link_not_validation_error :
  (shop alice "gaps.pack.2" shop_env subscriber).1 = inl InvalidSignature.
Proof. vm_compute. reflexivity. Qed.
