(* ===== verification/CloudPayments.v ===== *)
(** * CloudPayments webhook

    Models [src/app/billing_cloudpayments/parser.py] (what the webhook reads),
    [verify.py] (the provider's answer and the pure reconciliation) and
    [service.py] (one transaction per verified payment).  The provider's HTTP
    answer, the ISO date functions and [repr] of floats and containers are
    parameters. *)

From Stdlib Require Import SpecFloat Ascii String.
From S2P Require Import Prelude PyVal Redaction Store AuditTrail Logic Fixtures Wallet WalletRun WalletSpec WalletRefine WalletInv.
From S2P Require Import Uuid Config Subscription Adapty.

Open Scope string_scope.
Open Scope list_scope.
Open Scope Z_scope.

Module CloudPayments.
Definition _SUB_KEYWORDS : list string := ["week"; "month"; "year"; "day"].
Definition _SUB_SUFFIXES : list string := ["_nottrial"; "_trial"].
Definition _INTERVAL_UNITS : list string := ["year"; "month"; "week"; "day"].
Definition KIND_SUBSCRIPTION : string := "subscription".
Definition KIND_TOKENS : string := "tokens".
Definition KIND_UNKNOWN : string := "unknown".
Definition _EXPIRY_DAYS : list (string * Z) := [("day", 1); ("week", 7); ("month", 30); ("year", 365)].
Definition _DEFAULT_EXPIRY_DAYS : Z := 30.

(** ** parser.py *)

Fixpoint _first_str (candidates : list json) : option string :=
  match candidates with
  | [] => None
  | JStr s :: cs => if Str.nonempty s then Some s else _first_str cs
  | JInt z :: _ => Some (Str.of_int z)
  | _ :: cs => _first_str cs
  end.

Definition parse_gate (status operation_type : string) : bool :=
  String.eqb status "completed" && String.eqb operation_type "payment".

Definition parse_transaction_id (body : dict) : option string := _first_str [dict_get body "TransactionId"].

Definition parse_user_id (body data : dict) : option uuid :=
  match _first_str [dict_get body "AccountId"; dict_get data "user_id"] with
  | None => None
  | Some raw => UUID (Str.lower raw)
  end.

Definition _looks_like_subscription (product_id : string) : bool :=
  let lowered := Str.lower product_id in
  if existsb (fun k => Str.contains k lowered) _SUB_KEYWORDS then true
  else existsb (fun s => Str.endswith s lowered) _SUB_SUFFIXES.

(** [^\d+_tokens], ignoring case. *)
Fixpoint skip_digits (s : string) : string :=
  match s with
  | EmptyString => ""
  | String c s' => if Str.is_digit c then skip_digits s' else s
  end.

Definition _TOKENS_NAME_RE (s : string) : bool :=
  match s with
  | EmptyString => false
  | String c s' => Str.is_digit c && Str.startswith "_tokens" (Str.lower (skip_digits s'))
  end.

Definition classify_product (product_id : string) (billing_interval_unit : option string)
    (token_product_ids : list string) : string :=
  if str_in product_id token_product_ids then KIND_TOKENS
  else if match billing_interval_unit with Some u => str_in u _INTERVAL_UNITS | None => false end
  then KIND_SUBSCRIPTION
  else if _TOKENS_NAME_RE product_id then KIND_TOKENS
  else if _looks_like_subscription product_id then KIND_SUBSCRIPTION
  else KIND_UNKNOWN.

Definition infer_interval_unit_from_code (product_code : string) : option string :=
  let lowered := Str.lower product_code in
  find_first (fun keyword => Str.contains keyword lowered) _SUB_KEYWORDS.

Definition day_us : Z := 86400 * 1000000.
Definition hour_us : Z := 3600 * 1000000.

Definition _compute_expiry (now : instant) (unit : option string) (count : Z) : instant :=
  let days := default _DEFAULT_EXPIRY_DAYS
                (snd <$> find_first (fun kv => String.eqb kv.1 (default "" unit)) _EXPIRY_DAYS) in
  now + days * Z.max count 1 * day_us.

(** ** verify.py *)

Record CreditablePayment : Type := mkCreditable {
  payment_id : string;
  product_code : string;
  payment_type : string;
  status : string;
  paid_at : instant
}.

(** What [httpx] returns for the payments of one identifier. *)
Inductive http_result : Type :=
| http_timeout
| http_connect_error
| http_response (code : Z) (body : option json).

Definition unavailable : exn :=
  CloudPaymentsVerificationUnavailableError "cloudpayments verification unavailable".

Definition list_payments (answer : http_result) : exn + list dict :=
  match answer with
  | http_timeout | http_connect_error => inl unavailable
  | http_response code body =>
      if code =? 404 then inr []
      else if negb ((200 <=? code) && (code <? 300)) then inl unavailable
      else match body with
           | Some (JObj b) =>
               match dict_get b "data" with
               | JArr data => inr (omap as_dict data)
               | _ => inl unavailable
               end
           | _ => inl unavailable
           end
  end.

(** Equality of hashable keys in a Python set: numbers compare by value. *)
Definition dyadic_eqb (m1 e1 m2 e2 : Z) : bool :=
  let e := Z.min e1 e2 in m1 * 2 ^ (e1 - e) =? m2 * 2 ^ (e2 - e).

Definition num_of (v : json) : option (Z * Z) :=
  match v with
  | JInt z => Some (z, 0)
  | JBool b => Some (if b then 1 else 0, 0)
  | JFloat (S754_finite s m e) => Some (if s then Zneg m else Zpos m, e)
  | JFloat (S754_zero _) => Some (0, 0)
  | _ => None
  end.

Definition key_eqb (a b : json) : bool :=
  match a, b with
  | JStr s, JStr t => String.eqb s t
  | JFloat (S754_infinity s), JFloat (S754_infinity t) => Bool.eqb s t
  | _, _ =>
      match num_of a, num_of b with
      | Some (m1, e1), Some (m2, e2) => dyadic_eqb m1 e1 m2 e2
      | _, _ => false
      end
  end.

Definition hashable (v : json) : bool := match v with JArr _ | JObj _ => false | _ => true end.

(** The loop of [_list_payments_both]. *)
Fixpoint unique_payments (seen : list json) (merged : list dict) : exn + list dict :=
  match merged with
  | [] => inr []
  | item :: rest =>
      match dict_get item "payment_id" with
      | JNull => match unique_payments seen rest with inl x => inl x | inr l => inr (item :: l) end
      | key =>
          if negb (hashable key) then inl TypeError
          else if existsb (key_eqb key) seen then unique_payments seen rest
          else match unique_payments (key :: seen) rest with inl x => inl x | inr l => inr (item :: l) end
      end
  end.

Section service.
Context (fromisoformat : string -> option instant) (isoformat : instant -> string).
Context (repr : json -> string).
Context (loads : string -> option json).
Context (provider : uuid -> http_result).

(** [str(v)] *)
Definition py_str (v : json) : string :=
  match v with
  | JNull => "None"
  | JBool b => if b then "True" else "False"
  | JInt z => Str.of_int z
  | JStr s => s
  | _ => repr v
  end.

(** [str(v or "").strip().lower()] *)
Definition normalised (v : json) : string :=
  Str.lower (Str.strip (if truthy v then py_str v else "")).

Definition parse_status (body : dict) : string := normalised (dict_get body "Status").
Definition parse_operation_type (body : dict) : string := normalised (dict_get body "OperationType").

Definition _parse_data (body : dict) : option dict :=
  match dict_get body "Data" with
  | JObj d => Some d
  | JStr raw => match loads raw with Some (JObj d) => Some d | _ => None end
  | _ => None
  end.

Definition _parse_paid_at (value : json) : option instant :=
  match value with
  | JStr s =>
      let text := Str.strip s in
      if negb (Str.nonempty text) then None
      else fromisoformat (if Str.endswith "Z" text || Str.endswith "z" text
                          then (Adapty.drop_last text ++ "+00:00")%string else text)
  | _ => None
  end.

(** A non-blank string. *)
Definition filled (v : json) : option string :=
  match v with
  | JStr s => if Str.nonempty (Str.strip s) then Some s else None
  | _ => None
  end.

(** One item of the loop of [select_creditable_payments]. *)
Definition creditable (paid_statuses : list string) (cutoff : instant) (item : dict) :
    option CreditablePayment :=
  let st := normalised (dict_get item "status") in
  if negb (str_in st paid_statuses) then None
  else match _parse_paid_at (dict_get item "paid_at") with
       | None => None
       | Some at_ =>
           if at_ <? cutoff then None
           else match filled (dict_get item "payment_id") with
                | None => None
                | Some pid =>
                    match dict_get item "product" with
                    | JObj product =>
                        match filled (dict_get product "code"), filled (dict_get product "payment_type") with
                        | Some code, Some pt =>
                            Some (mkCreditable (Str.strip pid) (Str.strip code)
                                    (Str.lower (Str.strip pt)) st at_)
                        | _, _ => None
                        end
                    | _ => None
                    end
                end
       end.

Definition select_creditable_payments (data : list dict) (paid_statuses : list string)
    (now : instant) (freshness_hours : Z) : list CreditablePayment :=
  omap (creditable paid_statuses (now - freshness_hours * hour_us)) data.

Definition _list_payments_both (u other : uuid) : exn + list dict :=
  match list_payments (provider u) with
  | inl x => inl x
  | inr l1 =>
      match (if N.eqb other u then inr [] else list_payments (provider other)) with
      | inl x => inl x
      | inr l2 => unique_payments [] (l1 ++ l2)
      end
  end.

(** ** service.py *)

Inductive payment_result : Set := pay_credited | pay_duplicate | pay_skipped.

(** Kind, credits and grant reason of a payment; [None] is skipped. *)
Definition price_payment (s : Settings) (p : CreditablePayment) : option (string * Z * string) :=
  let one_time_ids := (token_products s).*1 in
  let kind :=
    if String.eqb p.(payment_type) "one_time"
    then Some (if negb (str_in p.(product_code) one_time_ids) &&
                  String.eqb (classify_product p.(product_code) None one_time_ids) KIND_SUBSCRIPTION
               then KIND_SUBSCRIPTION else KIND_TOKENS)
    else if String.eqb p.(payment_type) "subscription" then Some KIND_SUBSCRIPTION
    else None in
  match kind with
  | None => None
  | Some kind =>
      if String.eqb kind KIND_TOKENS
      then match product_get (token_products s) p.(product_code) with
           | None => None
           | Some credits => if credits <=? 0 then None else Some (kind, credits, "cloudpayments_tokens")
           end
      else Some (kind, default s.(cloudpayments_subscription_tokens_grant)
                         (product_get (cloudpayments_product_tokens s) p.(product_code)),
                 "cloudpayments_subscription")
  end.

(** The rollback-and-reraise around one payment's transaction. *)
Definition in_transaction {A} (m : M A) : M A :=
  try_except m (fun x => Some (rollback;; raise x)).

Definition payment_key (p : CreditablePayment) : string := ("cp-txn:" ++ p.(payment_id))%string.
Definition payment_meta (p : CreditablePayment) (kind : string) : dict :=
  [("paymentId", JStr p.(payment_id)); ("productCode", JStr p.(product_code)); ("kind", JStr kind)].

Definition _apply_payment (p : CreditablePayment) (u : uuid) : M payment_result :=
  s ← settings;
  match price_payment s p with
  | None => mret pay_skipped
  | Some (kind, credits, reason) =>
      in_transaction (
        d ← get_db;
        match d.(cloudpayments_webhook_events) !! p.(payment_id) with
        | Some _ => rollback;; mret pay_duplicate
        | None =>
            check_constraint (user_exists d u);;
            modify_db (fun d => set_cloudpayments_webhook_events
              (<[p.(payment_id) := mkCpEvent u p.(product_code) kind
                   [("paymentId", JStr p.(payment_id)); ("productCode", JStr p.(product_code));
                    ("paymentType", JStr p.(payment_type)); ("status", JStr p.(status));
                    ("kind", JStr kind)]]> d.(cloudpayments_webhook_events)) d);;
            expires_at ← (if String.eqb kind KIND_SUBSCRIPTION
              then
                now ← py_now;
                let expires_at := _compute_expiry now (infer_interval_unit_from_code p.(product_code)) 1 in
                upsert_subscription u (mkSubscription sub_active (Some p.(product_code)) (Some expires_at));;
                mret (Some expires_at)
              else mret None);
            grant u credits (payment_key p) (payment_meta p kind) reason;;
            record (mkAuditEvent u None EVENT_CLOUDPAYMENTS_PAYMENT
              [("transactionId", JStr p.(payment_id)); ("paymentId", JStr p.(payment_id));
               ("productId", JStr p.(product_code)); ("kind", JStr kind); ("semantics", JStr kind);
               ("paymentType", JStr p.(payment_type));
               ("status", match expires_at with Some _ => JStr "active" | None => JNull end);
               ("plan", match expires_at with Some _ => JStr p.(product_code) | None => JNull end);
               ("expiresAt", jopt_str (isoformat <$> expires_at));
               ("creditsGranted", JInt credits); ("paidAt", JStr (isoformat p.(paid_at)))]);;
            commit;;
            mret pay_credited
        end)
  end.

Inductive WebhookOutcome : Type := ignored (reason : string) | duplicate | applied.

(** The loop over the creditable payments: how many were credited and skipped. *)
Fixpoint apply_all (ps : list CreditablePayment) (u : uuid) (credited skipped : nat) : M (nat * nat) :=
  match ps with
  | [] => mret (credited, skipped)
  | p :: rest =>
      r ← _apply_payment p u;
      match r with
      | pay_credited => apply_all rest u (S credited) skipped
      | pay_skipped => apply_all rest u credited (S skipped)
      | pay_duplicate => apply_all rest u credited skipped
      end
  end.

(** Everything after the callback has been read: only the device id of the
    callback matters from here on. *)
Definition settle (device_id : uuid) : M WebhookOutcome :=
  s ← settings;
  resolved ← resolve_user device_id;
  match resolved with
  | None => mret (ignored "user_not_found")
  | Some (u, _) =>
      commit;;
      match _list_payments_both u device_id with
      | inl x => raise x
      | inr data =>
          now ← py_now;
          match select_creditable_payments data s.(cloudpayments_paid_statuses) now
                  s.(cloudpayments_payment_freshness_hours) with
          | [] => mret (ignored "no_creditable_payment")
          | ps =>
              r ← apply_all ps u 0 0;
              let '(credited, skipped) := r in
              mret (if (1 <=? credited)%nat then applied
                    else if (1 <=? skipped)%nat then ignored "payment_skipped" else duplicate)
          end
      end
  end.

Definition handle (raw : raw_body) : M WebhookOutcome :=
  s ← settings;
  if negb (Str.nonempty s.(cloudpayments_api_token))
  then raise (CloudPaymentsWebhookMisconfiguredError "cloudpayments api token not configured")
  else
    match raw with
    | raw_empty => mret (ignored "empty_body")
    | raw_invalid => mret (ignored "invalid_json")
    | raw_json (JObj body) =>
        if negb (parse_gate (parse_status body) (parse_operation_type body))
        then mret (ignored "not_a_completed_payment")
        else
          match parse_user_id body (default [] (_parse_data body)) with
          | None => mret (ignored "invalid_account_id")
          | Some device_id => settle device_id
          end
    | raw_json _ => mret (ignored "not_an_object")
    end.
End service.
End CloudPayments.

Import CloudPayments.

(** ** The wallet invariant *)

Lemma in_transaction_inl {A} (m : M A) e w x w' :
  m e w = (inl x, w') -> in_transaction m e w = (inl x, with_db w'.(w_committed) w').
Proof. intros H. unfold in_transaction, try_except. by rewrite H. Qed.

Lemma in_transaction_inr {A} (m : M A) e w a w' :
  m e w = (inr a, w') -> in_transaction m e w = (inr a, w').
Proof. intros H. unfold in_transaction, try_except. by rewrite H. Qed.

Lemma keeps_in_transaction I {A} (m : M A) : keeps I I m -> keeps I I (in_transaction m).
Proof.
  intros Hm e w Hw. specialize (Hm e w Hw). unfold in_transaction, try_except.
  destruct (m e w) as [[x|a] w']; [|exact Hm]. cbn. destruct Hm as [Hc _]. by split.
Qed.

Lemma keeps_apply_payment iso p u : keeps wallet_inv wallet_inv (_apply_payment iso p u).
Proof. unfold _apply_payment. keeps_walk. apply keeps_in_transaction. keeps_walk. Qed.

#[export] Hint Resolve keeps_apply_payment : hermes.

Lemma keeps_apply_all iso ps u c k : keeps wallet_inv wallet_inv (apply_all iso ps u c k).
Proof. revert c k. induction ps as [|p ps IH]; intros c k; cbn [apply_all]; keeps_walk. Qed.

#[export] Hint Resolve keeps_apply_all : hermes.

#[export] Instance cloudpayments_books fi iso repr loads provider raw :
  KeepsBooks (handle fi iso repr loads provider raw).
Proof. unfold KeepsBooks, handle, settle, resolve_user. keeps_walk. Qed.

(** ** Reconciliation *)

Section reconcile.
Context (fi : string -> option instant) (repr : json -> string).

(** What makes an item of the provider's answer creditable. *)
Definition creditable_item (paid : list string) (cutoff : instant) (item : dict) (p : CreditablePayment) : Prop :=
  p.(status) = normalised repr (dict_get item "status") /\ str_in p.(status) paid = true /\
  _parse_paid_at fi (dict_get item "paid_at") = Some p.(paid_at) /\ cutoff <= p.(paid_at) /\
  exists pid code pt product,
    dict_get item "payment_id" = JStr pid /\ dict_get item "product" = JObj product /\
    dict_get product "code" = JStr code /\ dict_get product "payment_type" = JStr pt /\
    p.(payment_id) = Str.strip pid /\ p.(product_code) = Str.strip code /\
    p.(payment_type) = Str.lower (Str.strip pt) /\
    Str.nonempty (Str.strip pid) = true /\ Str.nonempty (Str.strip code) = true /\
    Str.nonempty (Str.strip pt) = true.

Lemma filled_spec v s : filled v = Some s <-> v = JStr s /\ Str.nonempty (Str.strip s) = true.
Proof.
  destruct v as [| | | |t| |]; cbn; try (split; [done|by intros [? _]]).
  destruct (Str.nonempty (Str.strip t)) eqn:E; split; try done.
  - by intros [= <-].
  - by intros [[= <-] _].
  - intros [[= <-] H]. congruence.
Qed.

Lemma creditable_spec paid cutoff item p :
  creditable fi repr paid cutoff item = Some p <-> creditable_item paid cutoff item p.
Proof.
  unfold creditable, creditable_item. cbv zeta. split.
  - destruct (str_in _ paid) eqn:Hs; cbn [negb]; [|done].
    destruct (_parse_paid_at fi _) as [t|] eqn:Ht; [|done].
    destruct (t <? cutoff) eqn:Hc; [done|].
    destruct (filled (dict_get item "payment_id")) as [pid|] eqn:Hp; [|done].
    destruct (dict_get item "product") as [| | | | | |product]; try done.
    destruct (filled (dict_get product "code")) as [code|] eqn:Hcode; [|done].
    destruct (filled (dict_get product "payment_type")) as [pt|] eqn:Hpt; [|done].
    apply filled_spec in Hp as [Hp Hp'], Hcode as [Hcode Hcode'], Hpt as [Hpt Hpt'].
    intros [= <-]. cbn. zify_bool. split_and!; try done. by exists pid, code, pt, product.
  - intros (Hst & Hs & Ht & Hc & pid & code & pt & product & Hp & Hprod & Hcode & Hpt & E1 & E2 & E3 & N1 & N2 & N3).
    rewrite <- Hst, Hs, Ht. cbn [negb]. rewrite (proj2 (Z.ltb_ge _ _)) by lia.
    rewrite Hp, Hprod. cbn [filled]. rewrite N1, Hcode, Hpt. cbn [filled]. rewrite N2, N3.
    destruct p. cbn in *. by subst.
Qed.
End reconcile.

(** Reconciliation credits exactly the provider's payments that are paid,
    fresh and complete: nothing else is selected and nothing of that kind is
    lost. *)
Theorem select_creditable_exact fi repr data paid now hours p :
  p ∈ select_creditable_payments fi repr data paid now hours <->
  exists item, item ∈ data /\ creditable_item fi repr paid (now - hours * hour_us) item p.
Proof.
  unfold select_creditable_payments. rewrite list_elem_of_omap. split.
  - intros (item & Hin & H). exists item. split; [done|]. by apply creditable_spec.
  - intros (item & Hin & H). exists item. split; [done|]. by apply creditable_spec.
Qed.

(** ** One payment *)

(** Nothing pending in the session. *)
Definition synced (w : World) : Prop := w.(w_db) = w.(w_committed).

Section payment.
Context (iso : instant -> string) (p : CreditablePayment) (u : uuid) (e : Env) (w : World).
Hypothesis Hi : wallet_inv w.(w_db).
Hypothesis Hsync : synced w.

Lemma apply_payment_skipped :
  price_payment e.(env_settings) p = None -> _apply_payment iso p u e w = (inr pay_skipped, w).
Proof. intros Hp. unfold _apply_payment. run by done. by rewrite Hp. Qed.

Lemma apply_payment_duplicate kind credits reason row :
  price_payment e.(env_settings) p = Some (kind, credits, reason) ->
  w.(w_db).(cloudpayments_webhook_events) !! p.(payment_id) = Some row ->
  _apply_payment iso p u e w = (inr pay_duplicate, w).
Proof.
  intros Hp Hrow. unfold _apply_payment. run by done. rewrite Hp. unfold in_transaction, try_except.
  erewrite bind_inr by done. rewrite Hrow. erewrite bind_inr by done.
  unfold mret, M_ret. rewrite <- Hsync. by rewrite with_db_id.
Qed.

(** The session once the event row, and for a subscription the subscription
    row, are in. *)
Definition booked (kind : string) (exp : option instant) (d : Db) : Prop :=
  d.(wallets) = w.(w_db).(wallets) /\ d.(ledger_transactions) = w.(w_db).(ledger_transactions) /\
  d.(audit_logs) = w.(w_db).(audit_logs) /\ d.(users) = w.(w_db).(users) /\
  is_Some (d.(cloudpayments_webhook_events) !! p.(payment_id)) /\
  d.(subscriptions) = match exp with
                      | Some t => <[u := mkSubscription sub_active (Some p.(product_code)) (Some t)]>
                                    w.(w_db).(subscriptions)
                      | None => w.(w_db).(subscriptions)
                      end.

Lemma booked_account kind exp d v : booked kind exp d -> account d v = account w.(w_db) v.
Proof.
  intros (Hw & Hl & Ha & _). unfold account, wallet_balance, wallet_debt, user_txs. by rewrite Hw, Hl, Ha.
Qed.

Lemma booked_inv kind exp d : booked kind exp d -> wallet_inv d.
Proof. intros (Hw & Hl & Ha & Hu & _). by apply (wallet_inv_ext w.(w_db)). Qed.

(** What remains of the transaction after the bookkeeping. *)
Lemma apply_payment_books kind credits reason :
  price_payment e.(env_settings) p = Some (kind, credits, reason) ->
  w.(w_db).(cloudpayments_webhook_events) !! p.(payment_id) = None ->
  user_exists w.(w_db) u = true ->
  exists exp w1 payload,
    booked kind exp w1.(w_db) /\ w1.(w_committed) = w.(w_committed) /\ w1.(w_uuids) = w.(w_uuids) /\
    (exp = None <-> kind <> KIND_SUBSCRIPTION) /\
    _apply_payment iso p u e w =
    in_transaction (
      grant u credits (payment_key p) (payment_meta p kind) reason;;
      record (mkAuditEvent u None EVENT_CLOUDPAYMENTS_PAYMENT payload);;
      commit;;
      mret pay_credited) e w1.
Proof.
  intros Hp Hrow Hu. unfold _apply_payment. rewrite (bind_inr _ _ _ _ e.(env_settings) w) by done. rewrite Hp.
  unfold in_transaction, try_except.
  rewrite (bind_inr get_db _ _ _ w.(w_db) w) by done. rewrite Hrow.
  erewrite (bind_inr (check_constraint _)) by (by apply check_run). erewrite (bind_inr (modify_db _)) by done.
  destruct (String.eqb_spec kind KIND_SUBSCRIPTION) as [Hk|Hk].
  - erewrite (bind_inr (py_now ≫= _)).
    2: { erewrite bind_inr by done. cbv zeta. erewrite bind_inr by (by apply upsert_subscription_run). reflexivity. }
    eexists (Some _), _, _. split_and!; [| | | |reflexivity]; cbn;
      [unfold booked; cbn; rewrite lookup_insert_eq; by split_and!|done|done|done].
  - erewrite (bind_inr (mret None)) by done.
    eexists None, _, _. split_and!; [| | | |reflexivity]; cbn;
      [unfold booked; cbn; rewrite lookup_insert_eq; by split_and!|done|done|done].
Qed.
(** What a committed payment looks like. *)
Definition payment_booked (kind : string) (credits : Z) (d' : Db) : Prop :=
  0 < credits /\
  (exists g, spec_credit e.(env_settings).(agent_debt_reconcile_enabled)
     (new_tx e w u credit credits (payment_meta p kind) (payment_key p)) (account w.(w_db) u) =
     (inr g, account d' u)) /\
  (forall v, v <> u -> account d' v = account w.(w_db) v) /\
  is_Some (d'.(cloudpayments_webhook_events) !! p.(payment_id)) /\
  (kind = KIND_SUBSCRIPTION ->
   exists t, d'.(subscriptions) !! u = Some (mkSubscription sub_active (Some p.(product_code)) (Some t))).

Lemma apply_payment_fresh kind credits reason :
  price_payment e.(env_settings) p = Some (kind, credits, reason) ->
  w.(w_db).(cloudpayments_webhook_events) !! p.(payment_id) = None ->
  user_exists w.(w_db) u = true ->
  let '(r, w') := _apply_payment iso p u e w in
  synced w' /\
  match r with
  | inr pay_credited => payment_booked kind credits w'.(w_db)
  | inr _ => False
  | inl _ => w'.(w_db) = w.(w_db)
  end.
Proof.
  intros Hp Hrow Hu.
  destruct (apply_payment_books kind credits reason Hp Hrow Hu) as (exp & w1 & payload & Hbk & Hc & Hid & Hexp & ->).
  pose proof (booked_inv _ _ _ Hbk) as Hi1.
  assert (user_exists w1.(w_db) u = true) as Hu1
    by (destruct Hbk as (_ & _ & _ & E & _); unfold user_exists; by rewrite E).
  pose proof (uncommitted_grant u credits (payment_key p) (payment_meta p kind) reason e w1) as Hunc.
  destruct (grant u credits (payment_key p) (payment_meta p kind) reason e w1) as [r w2] eqn:Hg.
  cbn [snd] in Hunc.
  destruct r as [x|g].
  { erewrite in_transaction_inl by (erewrite bind_inl by exact Hg; reflexivity).
    unfold synced. cbn. by rewrite Hunc, Hc, Hsync. }
  destruct (credits <=? 0) eqn:Hpos; [unfold grant in Hg; rewrite Hpos in Hg; done|]. zify_bool.
  pose proof (grant_account e w1 u credits (payment_key p) (payment_meta p kind) reason Hu1
                (ai_ok _ (wi_account _ Hi1 u)) Hpos) as Hacc.
  rewrite Hg, (booked_account _ _ _ u Hbk) in Hacc.
  assert (new_tx e w1 u credit credits (payment_meta p kind) (payment_key p) =
          new_tx e w u credit credits (payment_meta p kind) (payment_key p)) as Hmk
    by (unfold new_tx, next_uuid; by rewrite Hid).
  rewrite Hmk in Hacc. destruct (spec_credit _ _ _) as [r' a'] eqn:Hspec. destruct Hacc as (<- & Ha & Hf).
  assert (user_exists w2.(w_db) u = true) as Hu2
    by (unfold user_exists; rewrite (frame_users _ _ _ Hf); exact Hu1).
  erewrite in_transaction_inr.
  2: { erewrite bind_inr by exact Hg. erewrite bind_inr by (by apply record_run).
       erewrite bind_inr by done. reflexivity. }
  split; [done|]. cbn [w_db with_db].
  assert (Hneu : forall v, account (add_audit (audit_row e.(env_request_id)
            (mkAuditEvent u None EVENT_CLOUDPAYMENTS_PAYMENT payload)) w2.(w_db)) v = account w2.(w_db) v)
    by (intros v; apply account_add_neutral; by apply neutral_event_type).
  pose proof (fr_tables _ _ _ Hf) as Htab.
  pose proof (f_equal subscriptions Htab) as Hs. pose proof (f_equal cloudpayments_webhook_events Htab) as He.
  pose proof (fun v => booked_account _ _ _ v Hbk) as Hbacc.
  destruct Hbk as (_ & _ & _ & _ & Hev & Hsub). cbn in Hs, He.
  unfold payment_booked. cbn [add_audit set_audit_logs subscriptions cloudpayments_webhook_events].
  split_and!; [done| |intros v Hv| |].
  - exists g. rewrite Hneu, Hspec, Ha by done. done.
  - rewrite Hneu, (fr_account _ _ _ Hf) by done. apply Hbacc.
  - by rewrite He.
  - intros ->. destruct exp as [t|]; [|by destruct (proj1 Hexp eq_refl eq_refl)]. exists t.
    by rewrite Hs, Hsub, lookup_insert_eq.
Qed.

End payment.

Lemma apply_payment_outcome iso p u e w :
  wallet_inv w.(w_db) -> synced w ->
  let '(r, w') := _apply_payment iso p u e w in
  synced w' /\
  match r with
  | inr pay_credited =>
      w.(w_db).(cloudpayments_webhook_events) !! p.(payment_id) = None /\
      exists kind credits reason,
        price_payment e.(env_settings) p = Some (kind, credits, reason) /\
        payment_booked p u e w kind credits w'.(w_db)
  | inr pay_skipped => price_payment e.(env_settings) p = None /\ w'.(w_db) = w.(w_db)
  | inr pay_duplicate =>
      is_Some (w.(w_db).(cloudpayments_webhook_events) !! p.(payment_id)) /\ w'.(w_db) = w.(w_db)
  | inl _ => w'.(w_db) = w.(w_db)
  end.
Proof.
  intros Hi Hs. destruct (price_payment e.(env_settings) p) as [[[kind credits] reason]|] eqn:Hp.
  2: { by rewrite (apply_payment_skipped iso p u e w Hp). }
  destruct (w.(w_db).(cloudpayments_webhook_events) !! p.(payment_id)) as [row|] eqn:Hrow.
  { rewrite (apply_payment_duplicate iso p u e w Hs kind credits reason row Hp Hrow).
    split; [done|]. by split. }
  destruct (user_exists w.(w_db) u) eqn:Hu.
  - pose proof (apply_payment_fresh iso p u e w Hi Hs kind credits reason Hp Hrow Hu) as H.
    destruct (_apply_payment iso p u e w) as [[x|[]] w']; destruct H as [H1 H2]; try done.
    split; [done|]. split; [done|]. by exists kind, credits, reason.
  - unfold _apply_payment. rewrite (bind_inr _ _ _ _ e.(env_settings) w) by done. rewrite Hp.
    erewrite in_transaction_inl.
    2: { rewrite (bind_inr get_db _ _ _ w.(w_db) w) by done. rewrite Hrow.
         erewrite bind_inl by (unfold check_constraint; rewrite Hu; done). reflexivity. }
    cbn. by rewrite Hs.
Qed.

(** A verified payment is credited once and completely, or not at all.
    From a session with nothing pending, [_apply_payment] ends with nothing
    pending; an unknown product is skipped and a recorded payment is a
    duplicate, both without a change; a fresh one is committed whole (event
    row, the wallet's credit of exactly the server-side price, the subscription
    if it is one), and an exception on the way leaves the database as it was. *)
Theorem payment_all_or_nothing iso p u e w :
  wallet_inv w.(w_db) -> synced w ->
  let '(r, w') := _apply_payment iso p u e w in
  synced w' /\
  match r with
  | inr pay_credited =>
      w.(w_db).(cloudpayments_webhook_events) !! p.(payment_id) = None /\
      exists kind credits reason,
        price_payment e.(env_settings) p = Some (kind, credits, reason) /\
        payment_booked p u e w kind credits w'.(w_db)
  | inr pay_skipped => price_payment e.(env_settings) p = None /\ w'.(w_db) = w.(w_db)
  | inr pay_duplicate =>
      is_Some (w.(w_db).(cloudpayments_webhook_events) !! p.(payment_id)) /\ w'.(w_db) = w.(w_db)
  | inl _ => w'.(w_db) = w.(w_db)
  end.
Proof. apply apply_payment_outcome. Qed.

(** ** The whole callback *)

(** A ledger row that pays for [p] at the server's price. *)
Definition pays_for (s : Settings) (p : CreditablePayment) (t : LedgerTransaction) : Prop :=
  exists kind reason, price_payment s p = Some (kind, t.(lt_amount), reason) /\
    t.(lt_type) = credit /\ t.(lt_idempotency_key) = payment_key p.

(** The rows a user gained, all paying for a payment of [ps]. *)
Definition gained (s : Settings) (ps : list CreditablePayment) (a a' : Account) : Prop :=
  exists rows, a'.(ac_txs) = a.(ac_txs) ++ rows /\ Forall (fun t => exists p, p ∈ ps /\ pays_for s p t) rows.

Lemma gained_refl s ps a : gained s ps a a.
Proof. exists []. split; [by rewrite app_nil_r|constructor]. Qed.

Lemma gained_trans s ps a b c : gained s ps a b -> gained s ps b c -> gained s ps a c.
Proof.
  intros (r1 & H1 & F1) (r2 & H2 & F2). exists (r1 ++ r2). split; [by rewrite H2, H1, app_assoc|].
  by apply Forall_app.
Qed.

Lemma gained_mono s ps qs a b : ps ⊆ qs -> gained s ps a b -> gained s qs a b.
Proof.
  intros Hsub (rows & H & F). exists rows. split; [done|]. eapply Forall_impl; [exact F|].
  intros t (p & Hp & Ht). exists p. eauto.
Qed.

Lemma booked_gained p u e w kind credits reason d' :
  price_payment e.(env_settings) p = Some (kind, credits, reason) ->
  payment_booked p u e w kind credits d' ->
  gained e.(env_settings) [p] (account w.(w_db) u) (account d' u).
Proof.
  intros Hp (Hc & [g Hg] & _). unfold spec_credit in Hg. cbn [lt_amount new_tx lt_idempotency_key] in Hg.
  destruct (credits <=? int8_max); [|done]. destruct (find_tx _ _) as [t|].
  - destruct (same_payload _ _ _); [|done]. assert (account d' u = account w.(w_db) u) as -> by congruence.
    apply gained_refl.
  - cbv zeta in Hg. destruct (_ <=? int8_max); [|done]. apply (f_equal snd) in Hg. cbn [snd] in Hg.
    rewrite <- Hg. exists [new_tx e w u credit credits (payment_meta p kind) (payment_key p)].
    split; [done|]. apply Forall_singleton. exists p. split; [left|]. by exists kind, reason.
Qed.

(** The loop of [handle]. *)
Lemma apply_all_gained iso ps u c k e w :
  wallet_inv w.(w_db) -> synced w ->
  let '(r, w') := apply_all iso ps u c k e w in
  synced w' /\ gained e.(env_settings) ps (account w.(w_db) u) (account w'.(w_db) u) /\
  forall v, v <> u -> account w'.(w_db) v = account w.(w_db) v.
Proof.
  revert c k w. induction ps as [|p ps IH]; intros c k w Hi Hs; cbn [apply_all].
  { split_and!; [done|apply gained_refl|done]. }
  pose proof (apply_payment_outcome iso p u e w Hi Hs) as Hp.
  pose proof (keeps_apply_payment iso p u e w (conj Hi (eq_ind _ _ Hi _ Hs))) as Hk.
  destruct (_apply_payment iso p u e w) as [[x|r] w1] eqn:Hrun.
  - erewrite bind_inl by exact Hrun. destruct Hp as [Hs1 ->]. split_and!; [done|apply gained_refl|done].
  - erewrite bind_inr by exact Hrun. destruct Hp as [Hs1 Hp]. destruct Hk as [_ Hi1].
    specialize (Hi1 ltac:(done)).
    assert (gained e.(env_settings) (p :: ps) (account w.(w_db) u) (account w1.(w_db) u) /\
            forall v, v <> u -> account w1.(w_db) v = account w.(w_db) v) as [Hgain Hothers].
    { destruct r.
      - destruct Hp as (_ & kind & credits & reason & Hpr & Hbk). split; [|by apply Hbk].
        eapply gained_mono; [|by eapply booked_gained]. intros q ->%list_elem_of_singleton. left.
      - destruct Hp as [_ ->]. split; [apply gained_refl|done].
      - destruct Hp as [_ ->]. split; [apply gained_refl|done]. }
    assert (Hnext : forall c k, let '(r, w') := apply_all iso ps u c k e w1 in
      synced w' /\ gained e.(env_settings) (p :: ps) (account w.(w_db) u) (account w'.(w_db) u) /\
      forall v, v <> u -> account w'.(w_db) v = account w.(w_db) v).
    { intros c' k'. specialize (IH c' k' w1 Hi1 Hs1). destruct (apply_all iso ps u c' k' e w1) as [r' w'].
      destruct IH as (H1 & H2 & H3). split_and!; [done| |intros v Hv; by rewrite H3, Hothers].
      eapply gained_trans; [exact Hgain|]. eapply gained_mono; [|exact H2]. intros q Hq. by right. }
    destruct r; apply Hnext.
Qed.

Section callback.
Context (fi : string -> option instant) (iso : instant -> string) (repr : json -> string).
Context (loads : string -> option json) (provider : uuid -> http_result).

(** The payments of a user that the provider itself reports as creditable at
    some reading of the clock. *)
Definition verified_payment (e : Env) (v : uuid) (p : CreditablePayment) : Prop :=
  exists device data tick,
    _list_payments_both provider v device = inr data /\
    p ∈ select_creditable_payments fi repr data e.(env_settings).(cloudpayments_paid_statuses)
          (e.(env_clock) tick) e.(env_settings).(cloudpayments_payment_freshness_hours).

Definition gained_verified (e : Env) (v : uuid) (a a' : Account) : Prop :=
  exists rows, a'.(ac_txs) = a.(ac_txs) ++ rows /\
    Forall (fun t => exists p, verified_payment e v p /\ pays_for e.(env_settings) p t) rows.

Lemma gained_verified_refl e v a : gained_verified e v a a.
Proof. exists []. split; [by rewrite app_nil_r|constructor]. Qed.

Lemma settle_gained device e w :
  wallet_inv w.(w_db) -> synced w ->
  let '(r, w') := settle fi iso repr provider device e w in
  synced w' /\ forall v, gained_verified e v (account w.(w_db) v) (account w'.(w_db) v).
Proof.
  intros Hi Hs. unfold settle. rewrite (bind_inr settings _ _ _ e.(env_settings) w) by done.
  destruct (resolve_user_total e w device) as [res Hres]. erewrite bind_inr by exact Hres.
  destruct res as [[u via]|]; [|split; [done|intros v; apply gained_verified_refl]].
  erewrite bind_inr by done.
  destruct (_list_payments_both provider u device) as [x|data] eqn:Hl.
  { split; [done|intros v; apply gained_verified_refl]. }
  erewrite bind_inr by done. cbn [w_ticks].
  destruct (select_creditable_payments _ _ _ _ _ _) as [|p ps] eqn:Hsel.
  { split; [done|intros v; apply gained_verified_refl]. }
  match goal with |- context [(apply_all _ _ _ _ _ ≫= _) _ ?w0] => set (w1 := w0) end.
  pose proof (apply_all_gained iso (p :: ps) u 0 0 e w1 Hi eq_refl) as Ha.
  assert (Hfin : forall w2, synced w2 /\ gained e.(env_settings) (p :: ps) (account w.(w_db) u) (account w2.(w_db) u) /\
            (forall v, v <> u -> account w2.(w_db) v = account w.(w_db) v) ->
            synced w2 /\ forall v, gained_verified e v (account w.(w_db) v) (account w2.(w_db) v)).
  { intros w2 (H1 & (rows & H2 & H3) & H4). split; [done|]. intros v.
    destruct (decide (v = u)) as [->|Hne]; [|rewrite H4 by done; apply gained_verified_refl].
    exists rows. split; [done|]. eapply Forall_impl; [exact H3|]. intros t (q & Hq & Ht). exists q. split; [|done].
    exists device, data, w.(w_ticks). split; [done|]. by rewrite Hsel. }
  destruct (apply_all iso (p :: ps) u 0 0 e w1) as [[x|[c k]] w2] eqn:Hrun.
  - erewrite bind_inl by exact Hrun. by apply Hfin.
  - erewrite bind_inr by exact Hrun. by apply Hfin.
Qed.
End callback.


(** ** A payment for Alice *)

Definition settled : World := world_of funded.(w_db).

Definition demo_payment : CreditablePayment :=
  mkCreditable "pay-1" "pro_month" "subscription" "succeeded" 1700000000000000.

Lemma settled_inv : wallet_inv settled.(w_db).
Proof. exact funded_inv. Qed.

Lemma settled_synced : synced settled.
Proof. vm_compute. reflexivity. Qed.

Lemma payment_all_or_nothing_witness :
  let '(r, w') := _apply_payment demo_isoformat demo_payment alice demo_env settled in
  r = inr pay_credited /\ synced w'.
Proof.
  pose proof (payment_all_or_nothing demo_isoformat demo_payment alice demo_env settled settled_inv settled_synced) as H.
  assert ((_apply_payment demo_isoformat demo_payment alice demo_env settled).1 = inr pay_credited) as Hr
    by (vm_compute; reflexivity).
  destruct (_apply_payment demo_isoformat demo_payment alice demo_env settled) as [r w'].
  split; [exact Hr|]. apply H.
Defined.

(** The provider confirms one payment of Alice's. *)
Definition demo_provider (v : uuid) : http_result :=
  http_response 200 (Some (JObj [("data", JArr [JObj
    [("payment_id", JStr "pay-1"); ("status", JStr "Succeeded"); ("paid_at", JStr "now");
     ("product", JObj [("code", JStr "pro_month"); ("payment_type", JStr "subscription")])]])])).

Definition demo_callback : raw_body :=
  raw_json (JObj [("Status", JStr "Completed"); ("OperationType", JStr "Payment"); ("Amount", JInt 999999);
                  ("AccountId", JStr "00000000-0000-0000-0000-000000000007")]).


(** ** Identifiers *)

(** The user id that this service hands to a payment provider comes back
    as the same user.  A CloudPayments callback may carry it in any letter case
    (iOS sends upper case), an Adapty event carries it as printed; both parsers
    read the same 128-bit id back, and it resolves to that very user. *)
Theorem user_id_round_trip u raw body data event e w :
  (u < 2 ^ 128)%N -> user_exists w.(w_db) u = true -> Str.lower raw = uuid_str u ->
  dict_get body "AccountId" = JStr raw -> dict_get event "customer_user_id" = JStr (uuid_str u) ->
  parse_user_id body data = Some u /\ Adapty.parse_customer_user_id event = Some u /\
  resolve_user u e w = (inr (Some (u, RESOLVED_VIA_USER_ID)), w).
Proof.
  intros Hu Hx Hraw Hb He.
  assert (Hne : Str.nonempty (uuid_str u) = true) by (unfold uuid_str; by destruct (substring 0 8 _)).
  assert (Hr : Str.nonempty raw = true) by (destruct raw; [by rewrite <- Hraw in Hne|done]).
  unfold parse_user_id, Adapty.parse_customer_user_id. rewrite Hb, He. cbn [_first_str Adapty._first_str].
  rewrite Hr, Hne, Hraw, UUID_uuid_str by done. split_and!; [done..|].
  unfold resolve_user. run by done. by rewrite Hx.
Qed.

Lemma user_id_round_trip_witness :
  parse_user_id [("AccountId", JStr "00000000-0000-0000-0000-0000000000AB")] [] = Some 171%N /\
  Adapty.parse_customer_user_id [("customer_user_id", JStr (uuid_str 171))] = Some 171%N /\
  resolve_user 171 demo_env (world_of (set_users {[171%N := mkUser 0 false None]} empty_db)) =
  (inr (Some (171%N, RESOLVED_VIA_USER_ID)), world_of (set_users {[171%N := mkUser 0 false None]} empty_db)).
Proof.
  apply (user_id_round_trip 171 "00000000-0000-0000-0000-0000000000AB"); reflexivity.
Defined.
