(* ===== verification/Admin.v ===== *)
(** * Operator actions

    Models [src/app/admin/service.py]: the wrappers over the wallet and the
    subscription service that check the user, translate conflicts into metrics
    and add an audit row of their own. *)

From Stdlib Require Import String.
From S2P Require Import Prelude PyVal Redaction Store AuditTrail Logic Fixtures Wallet WalletRun WalletSpec WalletRefine WalletInv.
From S2P Require Import Subscription.

Open Scope string_scope.
Open Scope list_scope.
Open Scope Z_scope.

Module Admin.
Record AdminGrantResult : Type := mkAdminResult {
  ar_new_balance : Z;
  ar_ledger_tx : uuid;
  ar_idempotent_replay : bool
}.

Definition not_found : exn := UserNotFoundError "user not found".

Definition _require_user_exists (u : uuid) : M unit :=
  d ← get_db;
  if user_exists d u then mret tt
  else metric_inc "admin_grant_total" "not_found";; raise not_found.

(** [except ConflictError: metric; raise] *)
Definition count_conflict {A} (metric : string) (m : M A) : M A :=
  try_except m (fun x => if is_ConflictError x
                         then Some (metric_inc metric "conflict";; raise x) else None).

Definition admin_payload (u : uuid) (amount : Z) (reason key : string) (tx : uuid) (replay : bool) : dict :=
  [("actor", JStr "admin"); ("userId", JStr (uuid_str u)); ("amount", JInt amount); ("reason", JStr reason);
   ("idempotencyKey", JStr key); ("ledgerTxId", JStr (uuid_str tx)); ("idempotentReplay", JBool replay)].

Definition grant (u : uuid) (amount : Z) (key reason : string) : M AdminGrantResult :=
  _require_user_exists u;;
  result ← count_conflict "admin_grant_total"
             (Wallet.grant u amount key [("source", JStr "admin"); ("reason", JStr reason)] reason);
  record (mkAuditEvent u None EVENT_ADMIN_GRANT
    (admin_payload u amount reason key result.(gr_ledger_tx_id) result.(gr_idempotent_replay)));;
  metric_inc "admin_grant_total" "success";;
  mret (mkAdminResult result.(gr_new_balance) result.(gr_ledger_tx_id) result.(gr_idempotent_replay)).

Definition debit_meta (reason : string) : dict := [("source", JStr "admin_debit"); ("reason", JStr reason)].

Definition debit (u : uuid) (amount : Z) (key reason : string) : M AdminGrantResult :=
  d ← get_db;
  if negb (user_exists d u)
  then metric_inc "admin_debit_total" "not_found";; raise not_found
  else
    result ← try_except (Wallet.consume u amount key (debit_meta reason) None)
      (fun x => if is_InsufficientCreditsError x
                then Some (metric_inc "admin_debit_total" "insufficient";; raise x)
                else if is_ConflictError x
                then Some (metric_inc "admin_debit_total" "conflict";; raise x)
                else None);
    record (mkAuditEvent u None EVENT_ADMIN_DEBIT
      (admin_payload u amount reason key result.(cr_ledger_tx_id) result.(cr_idempotent_replay)));;
    metric_inc "admin_debit_total" "success";;
    mret (mkAdminResult result.(cr_new_balance) result.(cr_ledger_tx_id) result.(cr_idempotent_replay)).

Definition subscription_grant (sha256 : string -> string) (isoformat : instant -> string)
    (u : uuid) (plan : string) (expires_at : instant) (grant_credits : bool) (key reason : string) :
    M Subscription.AdminGrantResult :=
  d ← get_db;
  if negb (user_exists d u)
  then metric_inc "admin_subscription_grant_total" "not_found";; raise not_found
  else
    result ← count_conflict "admin_subscription_grant_total"
               (admin_grant sha256 isoformat u plan expires_at grant_credits key reason);
    metric_inc "admin_subscription_grant_total" "success";;
    mret result.

Definition get_wallet_view (u : uuid) (last_n : nat) : M (uuid * Z * Z * list LedgerTransaction) :=
  _require_user_exists u;;
  v ← Wallet.get_wallet_view u last_n;
  let '(balance, debt, txs) := v in
  mret (u, balance, debt, txs).
End Admin.

(** ** The wallet invariant *)

Lemma keeps_count_conflict I {A} metric (m : M A) :
  keeps I I m -> keeps I I (Admin.count_conflict metric m).
Proof.
  intros Hm. unfold Admin.count_conflict. apply keeps_try; [done|done|].
  intros x k. destruct (is_ConflictError x); [|done]. intros [= <-]. keeps_walk.
Qed.

#[export] Hint Resolve keeps_count_conflict : hermes.

Lemma keeps_require I u : keeps I I (Admin._require_user_exists u).
Proof. unfold Admin._require_user_exists. keeps_walk. Qed.

#[export] Hint Resolve keeps_require : hermes.

Lemma keeps_ensure_wallet u : keeps wallet_inv wallet_inv (_ensure_wallet u).
Proof.
  intros e w [H1 H2]. destruct (user_exists w.(w_db) u) eqn:Hu.
  - rewrite ensure_wallet_run by done. cbn. split; [done|]. intros _.
    apply (wallet_inv_step u w.(w_db)); [done|done|rewrite account_ensured; apply H1|apply frame_ensured].
  - by rewrite ensure_wallet_missing.
Qed.

#[export] Hint Resolve keeps_ensure_wallet : hermes.

#[export] Instance admin_grant_books u amount key reason : KeepsBooks (Admin.grant u amount key reason).
Proof. unfold KeepsBooks, Admin.grant. keeps_walk. Qed.

#[export] Instance admin_debit_books u amount key reason : KeepsBooks (Admin.debit u amount key reason).
Proof.
  unfold KeepsBooks, Admin.debit. keeps_walk.
Qed.

#[export] Instance admin_subscription_books sha iso u plan exp gc key reason :
  KeepsBooks (Admin.subscription_grant sha iso u plan exp gc key reason).
Proof. unfold KeepsBooks, Admin.subscription_grant. keeps_walk. Qed.

#[export] Instance admin_view_books u n : KeepsBooks (Admin.get_wallet_view u n).
Proof. unfold KeepsBooks, Admin.get_wallet_view, get_wallet_view. keeps_walk. Qed.

(** ** Operator debits *)

Definition admin_result (r : ConsumeResult) : Admin.AdminGrantResult :=
  Admin.mkAdminResult r.(cr_new_balance) r.(cr_ledger_tx_id) r.(cr_idempotent_replay).

Lemma debit_mode_admin s reason : debit_mode s (Admin.debit_meta reason) = Full.
Proof. done. Qed.

Lemma spec_debit_full_debt mk amount key a : (spec_debit Full mk amount key a).2.(ac_debt) = a.(ac_debt).
Proof. unfold spec_debit, spec_shortfall. by repeat case_match_goal. Qed.

(** An operator's debit is a plain debit.  It takes exactly the amount or
    nothing, reports a shortfall as [InsufficientCreditsError] without clamping,
    never creates or settles debt, and moves nobody else's account. *)
Theorem admin_debit_plain u amount key reason e w :
  wallet_inv w.(w_db) -> user_exists w.(w_db) u = true -> 0 < amount ->
  let '(r, w') := Admin.debit u amount key reason e w in
  let '(r', a') := spec_debit Full (fun n => new_tx e w u debit n (Admin.debit_meta reason) key)
                     amount key (account w.(w_db) u) in
  r = match r' with inl x => inl x | inr c => inr (admin_result c) end /\
  account w'.(w_db) u = a' /\ a'.(ac_debt) = (account w.(w_db) u).(ac_debt) /\
  forall v, v <> u -> account w'.(w_db) v = account w.(w_db) v.
Proof.
  intros Hi Hu Ha.
  destruct (consume_account e w u amount key (Admin.debit_meta reason) None Hu I
              (ai_ok _ (wi_account _ Hi u)) Ha) as [Hr Hf]. rewrite debit_mode_admin in Hr.
  pose proof (spec_debit_full_debt (fun n => new_tx e w u debit n (Admin.debit_meta reason) key) amount key
                (account w.(w_db) u)) as Hdebt.
  destruct (spec_debit _ _ _ _ _) as [r' a']. cbn [snd] in Hdebt.
  unfold Admin.debit. rewrite (bind_inr get_db _ _ _ w.(w_db) w) by done. rewrite Hu. cbn [negb].
  destruct (consume u amount key (Admin.debit_meta reason) None e w) as [r w1] eqn:Hrun.
  cbn [fst snd] in Hr, Hf. injection Hr as -> Hacc. destruct r' as [x|c].
  - assert (exists w2, (try_except (consume u amount key (Admin.debit_meta reason) None)
        (fun x => if is_InsufficientCreditsError x
                  then Some (metric_inc "admin_debit_total" "insufficient";; raise x)
                  else if is_ConflictError x
                  then Some (metric_inc "admin_debit_total" "conflict";; raise x)
                  else None)) e w = (inl x, w2) /\ w2.(w_db) = w1.(w_db)) as (w2 & H2 & Hdb).
    { unfold try_except. rewrite Hrun. destruct (is_InsufficientCreditsError x); [by eexists|].
      destruct (is_ConflictError x); by eexists. }
    erewrite bind_inl by exact H2. rewrite Hdb. split_and!; [done|done|done|]. intros v Hv. by apply Hf.
  - assert ((try_except (consume u amount key (Admin.debit_meta reason) None)
        (fun x => if is_InsufficientCreditsError x
                  then Some (metric_inc "admin_debit_total" "insufficient";; raise x)
                  else if is_ConflictError x
                  then Some (metric_inc "admin_debit_total" "conflict";; raise x)
                  else None)) e w = (inr c, w1)) as H2 by (unfold try_except; by rewrite Hrun).
    erewrite bind_inr by exact H2.
    erewrite bind_inr.
    2: { apply record_run; [|done]. cbn. unfold user_exists. rewrite (frame_users _ _ _ Hf). exact Hu. }
    erewrite bind_inr by done. cbn [w_db with_db mret M_ret counted].
    split_and!; [done| |done|intros v Hv]; rewrite account_add_neutral by (by apply neutral_event_type);
      [done|by apply Hf].
Qed.

Lemma admin_debit_plain_witness :
  let '(r, w') := Admin.debit alice 40 "fix-1" "correction" demo_env funded in
  r = inr (Admin.mkAdminResult 60 1001%N false).
Proof.
  pose proof (admin_debit_plain alice 40 "fix-1" "correction" demo_env funded funded_inv
                ltac:(vm_compute; reflexivity) ltac:(reflexivity)) as H.
  destruct (Admin.debit _ _ _ _ _ _) as [r w']. destruct (spec_debit _ _ _ _ _) as [r' a'] eqn:E.
  destruct H as [-> _]. apply (f_equal fst) in E. cbn [fst] in E. rewrite <- E. vm_compute. reflexivity.
Defined.
