(* ===== verification/Pagination.v ===== *)
(** * Keyset pagination

    The scheme shared by the chats and the workspaces lists
    ([src/app/chats/repository.py], [src/app/workspaces/repository.py]): rows in
    a strict order, [limit + 1] of those after the cursor are fetched, the
    extra one only tells whether there is a next page, and the cursor of the
    next page is the key of the last row served. *)

From stdpp Require Import sorting.
From S2P Require Import Prelude.

Section pagination.
Context {A : Type} (before : A -> A -> Prop) `{!RelDecision before}.

(** [ORDER BY]: [before x y] when [x] comes strictly first. *)
Definition row_le (x y : A) : Prop := ~ before y x.
#[global] Instance row_le_dec : RelDecision row_le.
Proof. intros x y. unfold row_le. apply _. Defined.

Definition order_rows (rows : list A) : list A := merge_sort row_le rows.

(** The rows after the cursor: the cursor is a row as it was when it was
    served. *)
Definition after_cursor (cursor : option A) (rows : list A) : list A :=
  match cursor with None => rows | Some c => filter (before c) rows end.

(** One page and the row whose key is the next cursor. *)
Definition page_of (limit : nat) (cursor : option A) (rows : list A) : list A * option A :=
  let fetched := take (S limit) (order_rows (after_cursor cursor rows)) in
  let page_rows := take limit fetched in
  (page_rows, if (limit <? length fetched)%nat then last page_rows else None).

(** A client that follows the cursors. *)
Fixpoint follow (fuel limit : nat) (cursor : option A) (rows : list A) : list A * bool :=
  match fuel with
  | O => ([], false)
  | S fuel' =>
      let '(page, next) := page_of limit cursor rows in
      match next with
      | None => (page, true)
      | Some c => let '(rest, done) := follow fuel' limit (Some c) rows in (page ++ rest, done)
      end
  end.

Context `{!StrictOrder before}.
Context (trich : forall x y, before x y \/ x = y \/ before y x).

#[local] Instance row_le_total : Total row_le.
Proof.
  intros x y. unfold row_le. destruct (trich x y) as [H|[->|H]].
  - left. intros H'. apply (StrictOrder_Irreflexive x). by trans y.
  - left. intros H'. by apply (StrictOrder_Irreflexive y).
  - right. intros H'. apply (StrictOrder_Irreflexive x). by trans y.
Qed.

#[local] Instance row_le_trans : Transitive row_le.
Proof.
  intros x y z Hxy Hyz Hzx. destruct (trich y x) as [H|[->|H]]; [done|done|].
  apply Hyz. destruct (trich z y) as [H'|[->|H']]; [done| |].
  - exfalso. by apply (StrictOrder_Irreflexive y); trans x.
  - exfalso. apply (StrictOrder_Irreflexive x). trans y; [done|by trans z].
Qed.

#[local] Instance row_le_anti : AntiSymm eq row_le.
Proof. intros x y Hxy Hyx. destruct (trich x y) as [H|[->|H]]; done. Qed.

(** A list in strict order is the order of any of its permutations. *)
Lemma order_rows_perm l k : l ≡ₚ k -> order_rows l = order_rows k.
Proof.
  intros H. apply (StronglySorted_unique row_le).
  - apply Sorted_StronglySorted; [apply _|]. apply Sorted_merge_sort. apply _.
  - apply Sorted_StronglySorted; [apply _|]. apply Sorted_merge_sort. apply _.
  - unfold order_rows. by rewrite !merge_sort_Permutation.
Qed.

Lemma order_rows_sorted l : StronglySorted row_le (order_rows l).
Proof. apply Sorted_StronglySorted; [apply _|]. apply Sorted_merge_sort. apply _. Qed.

Lemma order_rows_id l : StronglySorted row_le l -> order_rows l = l.
Proof.
  intros H. apply (StronglySorted_unique row_le); [apply order_rows_sorted|done|]. apply merge_sort_Permutation.
Qed.

(** Filtering commutes with ordering. *)
Lemma order_rows_filter (P : A -> Prop) `{!forall x, Decision (P x)} l :
  order_rows (filter P l) = filter P (order_rows l).
Proof.
  rewrite <- (order_rows_id (filter P (order_rows l))).
  - apply order_rows_perm. unfold order_rows. by rewrite merge_sort_Permutation.
  - pose proof (order_rows_sorted l) as Hs. induction Hs as [|x k Hk IH Hx]; [constructor|].
    rewrite filter_cons. case_decide; [|done]. constructor; [done|].
    apply Forall_forall. intros y [_ Hy]%list_elem_of_filter. rewrite Forall_forall in Hx. auto.
Qed.

Lemma filter_all (P : A -> Prop) `{!forall x, Decision (P x)} (l : list A) :
  (forall x, x ∈ l -> P x) -> filter P l = l.
Proof.
  induction l as [|x l IH]; intros Hl; [done|]. rewrite filter_cons, decide_True by (apply Hl; left).
  f_equal. apply IH. intros y Hy. apply Hl. by right.
Qed.

(** After the last row of a prefix of a strictly ordered list comes the rest. *)
Lemma filter_after pre c post :
  StronglySorted row_le (pre ++ c :: post) -> NoDup (pre ++ c :: post) -> filter (before c) (pre ++ c :: post) = post.
Proof.
  intros Hs Hn. rewrite filter_app, filter_cons, decide_False by apply StrictOrder_Irreflexive.
  assert (filter (before c) pre = []) as ->.
  { apply filter_none. intros x Hx. induction pre as [|y pre IH]; [by apply elem_of_nil in Hx|].
    cbn in Hs, Hn. inversion Hs as [|? ? Hs' Hy]; subst. apply NoDup_cons in Hn as [_ Hn].
    apply elem_of_cons in Hx as [->|Hx]; [|by apply IH]. rewrite Forall_forall in Hy. apply Hy.
    apply elem_of_app. right. left. }
  cbn. induction pre as [|y pre IH]; cbn in Hs, Hn.
  - inversion Hs as [|? ? _ Hc]; subst. apply NoDup_cons in Hn as [Hn _].
    apply filter_all. intros x Hx. rewrite Forall_forall in Hc.
    destruct (trich c x) as [H|[->|H]]; [done|done|]. by specialize (Hc x Hx).
  - inversion Hs; subst. apply NoDup_cons in Hn as [_ Hn]. by apply IH.
Qed.

(** What a client still has to read. *)
Definition remaining (cursor : option A) (rows : list A) : list A := order_rows (after_cursor cursor rows).

Lemma remaining_after cursor rows c :
  c ∈ remaining cursor rows -> remaining (Some c) rows = filter (before c) (remaining cursor rows).
Proof.
  unfold remaining. cbn [after_cursor]. rewrite order_rows_filter. destruct cursor as [c0|]; cbn [after_cursor]; [|done].
  rewrite order_rows_filter. intros [Hc _]%list_elem_of_filter. rewrite list_filter_filter_l; [done|].
  intros x Hx. by trans c.
Qed.

Lemma remaining_nodup cursor rows : NoDup rows -> NoDup (remaining cursor rows).
Proof.
  intros H. unfold remaining, order_rows. rewrite merge_sort_Permutation. destruct cursor; [by apply NoDup_filter|done].
Qed.

Lemma page_spec limit cursor rows :
  NoDup rows ->
  match page_of limit cursor rows with
  | (page, Some c) => remaining cursor rows = page ++ remaining (Some c) rows /\ length page = limit /\ (0 < limit)%nat
  | (page, None) => (0 < limit)%nat -> page = remaining cursor rows
  end.
Proof.
  intros Hn. unfold page_of. fold (remaining cursor rows). set (l := remaining cursor rows).
  rewrite take_take, Nat.min_l, length_take by lia.
  destruct (Nat.ltb_spec limit (S limit `min` length l)) as [Hlt|Hge].
  2: { intros Hl. apply take_ge. lia. }
  destruct (last (take limit l)) as [c|] eqn:El.
  2: { intros Hl. apply last_None in El. apply (f_equal length) in El. rewrite length_take in El. cbn in El. lia. }
  apply last_Some in El as [pre El].
  assert (length (take limit l) = limit) as Hlen by (rewrite length_take; lia).
  assert (l = pre ++ c :: drop limit l) as E.
  { rewrite <- (take_drop limit l) at 1. by rewrite El, <- app_assoc. }
  assert (c ∈ l) as Hc by (rewrite E; apply elem_of_app; right; left).
  split_and!; [|done|rewrite El, length_app in Hlen; cbn in Hlen; lia].
  rewrite (remaining_after cursor) by done. fold l. rewrite E at 3. rewrite filter_after.
  - by rewrite take_drop.
  - rewrite <- E. apply order_rows_sorted.
  - rewrite <- E. by apply remaining_nodup.
Qed.

(** Following the cursors reads every remaining row once, in order, and ends. *)
Lemma follow_complete fuel limit cursor rows :
  NoDup rows -> (0 < limit)%nat -> (length (remaining cursor rows) < fuel)%nat ->
  follow fuel limit cursor rows = (remaining cursor rows, true).
Proof.
  intros Hn Hl. revert cursor. induction fuel as [|fuel IH]; intros cursor Hf; [lia|]. cbn [follow].
  pose proof (page_spec limit cursor rows Hn) as H. destruct (page_of limit cursor rows) as [page [c|]].
  - destruct H as (E & Hlen & _). rewrite IH.
    + by rewrite E.
    + rewrite E, length_app in Hf. lia.
  - by rewrite H.
Qed.
End pagination.
