(* ===== verification/ChatTools.v ===== *)
(** * Tool schemas

    Models [src/app/chat/tools.py]: the registries of client-side, site and
    global tools, the map between dotted domain names and the underscore names
    the providers accept, the strict validation of arguments, and the
    definitions offered to a provider.

    The arguments of a tool are a pydantic model with [extra='forbid'].  Two
    things of pydantic are parameters: what its lax [bool] accepts and the JSON
    schema it prints.  The texts of [TOOL_DESCRIPTIONS] and [str()] of a value
    that is not text are parameters too. *)

From Stdlib Require Import Ascii String.
From S2P Require Import Prelude PyVal.

Open Scope string_scope.
Open Scope list_scope.
Open Scope Z_scope.

Definition TOOL_FILES_READ : string := "files.read".
Definition TOOL_FILES_WRITE : string := "files.write".
Definition TOOL_FILES_LIST : string := "files.list".
Definition TOOL_FILES_MKDIR : string := "files.mkdir".
Definition TOOL_CALENDAR_READ : string := "calendar.read".
Definition TOOL_CALENDAR_CREATE : string := "calendar.create_events".
Definition TOOL_REMINDERS_READ : string := "reminders.read".
Definition TOOL_REMINDERS_CREATE : string := "reminders.create".
Definition TOOL_SITE_WRITE_FILE : string := "site.write_file".
Definition TOOL_SITE_PREVIEW : string := "site.preview".
Definition TOOL_SITE_LIST : string := "site.list".
Definition TOOL_SITE_READ : string := "site.read".
Definition TOOL_SITE_DELETE : string := "site.delete".
Definition TOOL_TIME_NOW : string := "time.now".

(** [name in s] for a registry [s]. *)
Definition member (name : string) (s : list string) : bool := existsb (String.eqb name) s.

Definition SERVER_SIDE_TOOLS : list string :=
  [TOOL_SITE_WRITE_FILE; TOOL_SITE_PREVIEW; TOOL_SITE_LIST; TOOL_SITE_READ; TOOL_SITE_DELETE].

Definition GLOBAL_SERVER_SIDE_TOOLS : list string := [TOOL_TIME_NOW].

Definition ALL_TOOL_NAMES : list string :=
  [TOOL_FILES_READ; TOOL_FILES_WRITE; TOOL_FILES_LIST; TOOL_FILES_MKDIR; TOOL_CALENDAR_READ;
   TOOL_CALENDAR_CREATE; TOOL_REMINDERS_READ; TOOL_REMINDERS_CREATE]
  ++ SERVER_SIDE_TOOLS ++ GLOBAL_SERVER_SIDE_TOOLS.

Definition MUTATING_TOOLS : list string :=
  [TOOL_FILES_WRITE; TOOL_FILES_MKDIR; TOOL_CALENDAR_CREATE; TOOL_REMINDERS_CREATE;
   TOOL_SITE_WRITE_FILE; TOOL_SITE_DELETE].

(** A call that the iOS client executes. *)
Definition client_side (name : string) : bool :=
  negb (member name SERVER_SIDE_TOOLS) && negb (member name GLOBAL_SERVER_SIDE_TOOLS).

(** ** Names *)

Definition _DOMAIN_TO_ANTHROPIC : list (string * string) :=
  [(TOOL_FILES_READ, "files_read"); (TOOL_FILES_WRITE, "files_write"); (TOOL_FILES_LIST, "files_list");
   (TOOL_FILES_MKDIR, "files_mkdir"); (TOOL_CALENDAR_READ, "calendar_read");
   (TOOL_CALENDAR_CREATE, "calendar_create_events"); (TOOL_REMINDERS_READ, "reminders_read");
   (TOOL_REMINDERS_CREATE, "reminders_create"); (TOOL_SITE_WRITE_FILE, "site_write_file");
   (TOOL_SITE_PREVIEW, "site_preview"); (TOOL_SITE_LIST, "site_list"); (TOOL_SITE_READ, "site_read");
   (TOOL_SITE_DELETE, "site_delete"); (TOOL_TIME_NOW, "time_now")].

Definition _ANTHROPIC_TO_DOMAIN : list (string * string) := prod_swap <$> _DOMAIN_TO_ANTHROPIC.

Fixpoint table_get {A} (table : list (string * A)) (k : string) : option A :=
  match table with
  | [] => None
  | (k', v) :: rest => if String.eqb k k' then Some v else table_get rest k
  end.

(** [None] is [UnknownToolNameError]. *)
Definition to_anthropic_tool_name (domain_name : string) : option string :=
  table_get _DOMAIN_TO_ANTHROPIC domain_name.

Definition to_domain_tool_name (anthropic_name : string) : option string :=
  table_get _ANTHROPIC_TO_DOMAIN anthropic_name.

(** ** Arguments *)

Definition slashes (c : ascii) : ascii := if Ascii.eqb c "\" then "/"%char else c.

(** Pieces of a path, with backslashes read as slashes. *)
Definition path_parts (value : string) : list string := Str.split "/" (Str.map_str slashes value).

(** [_validate_safe_path]: [None] is the [ValueError]. *)
Definition _validate_safe_path (value : string) : option string :=
  if member ".." (path_parts value) then None else Some value.

Inductive scalar : Type :=
| f_str
| f_bool
| f_literal (allowed : list string)
| f_opt_str
| f_path.

Inductive field_type : Type :=
| f_scalar (t : scalar)
| f_models (fields : list (string * scalar)).

Definition is_optional (t : scalar) : bool := match t with f_opt_str => true | _ => false end.

Definition FilesReadArgs : list (string * field_type) := [("path", f_scalar f_path)].
Definition FilesWriteArgs : list (string * field_type) :=
  [("path", f_scalar f_path); ("content", f_scalar f_str); ("encoding", f_scalar (f_literal ["utf8"; "base64"]));
   ("overwrite", f_scalar f_bool)].
Definition FilesListArgs : list (string * field_type) := [("path", f_scalar f_path); ("recursive", f_scalar f_bool)].
Definition FilesMkdirArgs : list (string * field_type) :=
  [("path", f_scalar f_path); ("createIntermediates", f_scalar f_bool)].
Definition CalendarReadArgs : list (string * field_type) :=
  [("start", f_scalar f_str); ("end", f_scalar f_str); ("calendarId", f_scalar f_opt_str)].
Definition CalendarEventInput : list (string * scalar) :=
  [("title", f_str); ("start", f_str); ("end", f_str); ("location", f_opt_str); ("notes", f_opt_str);
   ("calendarId", f_opt_str)].
Definition CalendarCreateArgs : list (string * field_type) := [("events", f_models CalendarEventInput)].
Definition RemindersReadArgs : list (string * field_type) :=
  [("listId", f_scalar f_opt_str); ("includeCompleted", f_scalar f_bool)].
Definition ReminderInput : list (string * scalar) :=
  [("title", f_str); ("due", f_opt_str); ("notes", f_opt_str); ("listId", f_opt_str)].
Definition RemindersCreateArgs : list (string * field_type) := [("reminders", f_models ReminderInput)].
Definition SiteWriteFileArgs : list (string * field_type) :=
  [("path", f_scalar f_path); ("content", f_scalar f_str); ("contentType", f_scalar f_str);
   ("encoding", f_scalar (f_literal ["utf8"; "base64"]))].
Definition SitePreviewArgs : list (string * field_type) := [("entry", f_scalar f_opt_str)].
Definition SiteListArgs : list (string * field_type) := [].
Definition SiteReadArgs : list (string * field_type) := [("path", f_scalar f_path)].
Definition SiteDeleteArgs : list (string * field_type) := [("path", f_scalar f_path)].
Definition TimeNowArgs : list (string * field_type) := [("tz", f_scalar f_opt_str)].

Definition _ARGS_BY_TOOL : list (string * list (string * field_type)) :=
  [(TOOL_FILES_READ, FilesReadArgs); (TOOL_FILES_WRITE, FilesWriteArgs); (TOOL_FILES_LIST, FilesListArgs);
   (TOOL_FILES_MKDIR, FilesMkdirArgs); (TOOL_CALENDAR_READ, CalendarReadArgs);
   (TOOL_CALENDAR_CREATE, CalendarCreateArgs); (TOOL_REMINDERS_READ, RemindersReadArgs);
   (TOOL_REMINDERS_CREATE, RemindersCreateArgs); (TOOL_SITE_WRITE_FILE, SiteWriteFileArgs);
   (TOOL_SITE_PREVIEW, SitePreviewArgs); (TOOL_SITE_LIST, SiteListArgs); (TOOL_SITE_READ, SiteReadArgs);
   (TOOL_SITE_DELETE, SiteDeleteArgs); (TOOL_TIME_NOW, TimeNowArgs)].

Section tools.
(** What a lax [bool] field makes of a value, the schema pydantic prints for a
    model, and the description texts. *)
Context (lax_bool : json -> option bool).
Context (model_json_schema : list (string * field_type) -> dict).
Context (description : string -> string).
Context (py_str : json -> string).

Definition check_scalar (t : scalar) (v : json) : option json :=
  match t, v with
  | f_str, JStr s => Some (JStr s)
  | f_bool, _ => JBool <$> lax_bool v
  | f_literal allowed, JStr s => if member s allowed then Some (JStr s) else None
  | f_opt_str, JNull => Some JNull
  | f_opt_str, JStr s => Some (JStr s)
  | f_path, JStr s => if Str.nonempty s then JStr <$> _validate_safe_path s else None
  | _, _ => None
  end.

(** A model with [extra='forbid']: no unknown key, every field checked, a
    missing optional field defaulted, the dump in field order. *)
Definition check_model {T} (check : T -> json -> option json) (optional : T -> bool)
    (fields : list (string * T)) (args : dict) : option dict :=
  if forallb (fun kv => member kv.1 fields.*1) args then
    mapM (fun f : string * T =>
            match dict_lookup f.1 args with
            | Some v => (fun v' => (f.1, v')) <$> check f.2 v
            | None => if optional f.2 then Some (f.1, JNull) else None
            end) fields
  else None.

Definition check_item (fields : list (string * scalar)) (v : json) : option json :=
  match v with
  | JObj d => JObj <$> check_model check_scalar is_optional fields d
  | _ => None
  end.

Definition check_field (t : field_type) (v : json) : option json :=
  match t, v with
  | f_scalar t, _ => check_scalar t v
  | f_models fields, JArr l => JArr <$> mapM (check_item fields) l
  | f_models _, _ => None
  end.

Definition field_optional (t : field_type) : bool :=
  match t with f_scalar t => is_optional t | f_models _ => false end.

(** [validate_tool_args]: [None] is the [ValueError]. *)
Definition validate_tool_args (tool_name : string) (args : dict) : option dict :=
  fields ← table_get _ARGS_BY_TOOL tool_name;
  check_model check_field field_optional fields args.

(** ** Definitions offered to a provider *)

(** [d.pop(k, None)] *)
Definition dict_pop (d : dict) (k : string) : dict := filter (fun kv => Is_true (negb (String.eqb kv.1 k))) d.

(** A key of the table that is missing is a [KeyError], [None]. *)
Definition tool_input_schema (tool_name : string) : option dict :=
  fields ← table_get _ARGS_BY_TOOL tool_name;
  Some (dict_pop (model_json_schema fields) "title").

Definition offered (include_server_side : bool) : list string :=
  filter (fun name => Is_true (negb (negb include_server_side && member name SERVER_SIDE_TOOLS))) _ARGS_BY_TOOL.*1.

Definition tool_catalog : option (list dict) :=
  mapM (fun name =>
          schema ← tool_input_schema name;
          Some [("name", JStr name); ("description", JStr (description name));
                ("mutating", JBool (member name MUTATING_TOOLS));
                ("execution", JStr (if client_side name then "client" else "server"));
                ("inputSchema", JObj schema)]) _ARGS_BY_TOOL.*1.

Definition anthropic_tool_definitions (include_server_side : bool) : option (list dict) :=
  mapM (fun name =>
          wire ← to_anthropic_tool_name name;
          schema ← tool_input_schema name;
          Some [("name", JStr wire); ("description", JStr (description name)); ("input_schema", JObj schema)])
    (offered include_server_side).

Definition neutral_tool_definitions (include_server_side : bool) : option (list dict) :=
  mapM (fun name =>
          schema ← tool_input_schema name;
          Some [("name", JStr name); ("description", JStr (description name)); ("input_schema", JObj schema)])
    (offered include_server_side).

Definition openai_tool_function (neutral_def : dict) : option dict :=
  match dict_lookup "function" neutral_def with
  | Some _ => Some neutral_def
  | None =>
      let name := match dict_lookup "name" neutral_def with
                  | None => ""
                  | Some (JStr s) => s
                  | Some v => py_str v
                  end in
      fn_name ← (if Str.contains "." name then to_anthropic_tool_name name else Some name);
      desc ← dict_lookup "description" neutral_def;
      schema ← dict_lookup "input_schema" neutral_def;
      Some [("type", JStr "function");
            ("function", JObj [("name", JStr fn_name); ("description", desc); ("parameters", schema)])]
  end.

Definition openai_tool_definitions (include_server_side : bool) : option (list dict) :=
  defs ← neutral_tool_definitions include_server_side;
  mapM openai_tool_function defs.
End tools.

(** ** Names go out and come back *)

(** A character of [^[a-zA-Z0-9_-]{1,64}$]. *)
Definition wire_char (c : ascii) : bool :=
  let n := N_of_ascii c in
  ((97 <=? n)%N && (n <=? 122)%N) || ((65 <=? n)%N && (n <=? 90)%N) || ((48 <=? n)%N && (n <=? 57)%N) ||
  Ascii.eqb c "_" || Ascii.eqb c "-".

Fixpoint all_chars (p : ascii -> bool) (s : string) : bool :=
  match s with EmptyString => true | String c s' => p c && all_chars p s' end.

Definition wire_name (s : string) : bool :=
  Str.nonempty s && all_chars wire_char s && (String.length s <=? 64)%nat.

Lemma table_get_in {A} (table : list (string * A)) k v : table_get table k = Some v -> (k, v) ∈ table.
Proof.
  induction table as [|[k' v'] rest IH]; [done|]. cbn.
  destruct (String.eqb_spec k k') as [->|]; intros H; [simplify_eq; left|right; auto].
Qed.

Lemma names_agree :
  Forall (fun p : string * string =>
            to_anthropic_tool_name p.1 = Some p.2 /\ to_domain_tool_name p.2 = Some p.1 /\ wire_name p.2 = true /\
            is_Some (table_get _ARGS_BY_TOOL p.1))
    _DOMAIN_TO_ANTHROPIC.
Proof. repeat constructor; by eexists. Qed.

Lemma to_anthropic_inv d a :
  to_anthropic_tool_name d = Some a ->
  to_domain_tool_name a = Some d /\ wire_name a = true /\ is_Some (table_get _ARGS_BY_TOOL d).
Proof.
  intros H%table_get_in. pose proof names_agree as F. rewrite Forall_forall in F. by apply (F (d, a)).
Qed.

Lemma to_domain_inv a d : to_domain_tool_name a = Some d -> to_anthropic_tool_name d = Some a.
Proof.
  intros H%table_get_in. apply list_elem_of_fmap in H as ([d' a'] & [= <- <-] & H).
  pose proof names_agree as F. rewrite Forall_forall in F. by apply (F (d, a)).
Qed.

(** ** What is offered *)

Lemma offered_spec b name :
  name ∈ offered b <-> name ∈ ALL_TOOL_NAMES /\ (b = false -> member name SERVER_SIDE_TOOLS = false).
Proof.
  unfold offered. rewrite list_elem_of_filter. change _ARGS_BY_TOOL.*1 with ALL_TOOL_NAMES.
  destruct b, (member name SERVER_SIDE_TOOLS); cbn; naive_solver.
Qed.

Section offered.
Context (model_json_schema : list (string * field_type) -> dict).
Context (description : string -> string) (py_str : json -> string).

Definition fn_name (d : dict) : json :=
  match dict_get d "function" with JObj f => dict_get f "name" | _ => JNull end.

Lemma anthropic_defs b :
  exists l, anthropic_tool_definitions model_json_schema description b = Some l /\
    omap to_anthropic_tool_name (offered b) = omap (fun d => as_str (dict_get d "name")) l.
Proof. destruct b; eexists; split; reflexivity. Qed.

Lemma openai_defs b :
  exists l, openai_tool_definitions model_json_schema description py_str b = Some l /\
    omap to_anthropic_tool_name (offered b) = omap (fun d => as_str (fn_name d)) l.
Proof. destruct b; eexists; split; reflexivity. Qed.

(** The tools offered to either provider: both definition lists are built
    without error and carry the same transport names; each of those is legal
    for the provider, translates back to exactly one domain tool, which is one
    of the known tools and has an argument schema; a session without a project
    is never offered a [site.*] tool, and every other tool is always offered. *)
Theorem offered_tools_resolve b :
  exists la lo, anthropic_tool_definitions model_json_schema description b = Some la /\
    openai_tool_definitions model_json_schema description py_str b = Some lo /\
    omap (fun d => as_str (dict_get d "name")) la = omap (fun d => as_str (fn_name d)) lo /\
    (forall wire, wire ∈ omap (fun d => as_str (dict_get d "name")) la <->
       exists name, to_domain_tool_name wire = Some name /\ name ∈ ALL_TOOL_NAMES /\
                    (b = false -> member name SERVER_SIDE_TOOLS = false)) /\
    (forall wire name, to_domain_tool_name wire = Some name ->
       wire_name wire = true /\ to_anthropic_tool_name name = Some wire /\
       is_Some (tool_input_schema model_json_schema name)).
Proof.
  destruct (anthropic_defs b) as (la & Ha & Na). destruct (openai_defs b) as (lo & Ho & No).
  exists la, lo. rewrite <- Na, <- No. split_and!; [done..| |].
  - intros wire. rewrite list_elem_of_omap. setoid_rewrite offered_spec. split.
    + intros (name & Hin & Hw). exists name. by apply to_anthropic_inv in Hw as [-> _].
    + intros (name & Hd & Hin). exists name. by apply to_domain_inv in Hd as ->.
  - intros wire name Hd. pose proof (to_domain_inv _ _ Hd) as Ha'.
    destruct (to_anthropic_inv _ _ Ha') as (_ & Hw & [f Hf]). split_and!; [done..|].
    unfold tool_input_schema. rewrite Hf. by eexists.
Qed.
End offered.

(** ** Validated arguments *)

Section validated.
Context (lax_bool : json -> option bool).
Hypothesis lax_bool_idem : forall b, lax_bool (JBool b) = Some b.

(** The type of a dumped value. *)
Definition has_scalar (t : scalar) (v : json) : Prop :=
  match t, v with
  | f_str, JStr _ => True
  | f_bool, JBool _ => True
  | f_literal allowed, JStr s => s ∈ allowed
  | f_opt_str, JNull => True
  | f_opt_str, JStr _ => True
  | f_path, JStr s => s <> "" /\ ".." ∉ path_parts s
  | _, _ => False
  end.

Definition has_fields {T} (has : T -> json -> Prop) (fields : list (string * T)) (d : dict) : Prop :=
  Forall2 (fun f kv => kv.1 = f.1 /\ has f.2 kv.2) fields d.

Definition has_field (t : field_type) (v : json) : Prop :=
  match t, v with
  | f_scalar t, _ => has_scalar t v
  | f_models fields, JArr l =>
      Forall (fun x => match x with JObj d => has_fields has_scalar fields d | _ => False end) l
  | f_models _, _ => False
  end.

Lemma member_spec x l : member x l = true <-> x ∈ l.
Proof.
  unfold member. rewrite existsb_exists. split.
  - intros (y & Hy & ->%String.eqb_eq). by apply list_elem_of_In.
  - intros H. exists x. split; [by apply list_elem_of_In|apply String.eqb_refl].
Qed.

Lemma check_scalar_typed t v v' : check_scalar lax_bool t v = Some v' -> has_scalar t v'.
Proof.
  destruct t; cbn; try (destruct v; intros; simplify_eq; exact I).
  - by intros (b & _ & ->)%fmap_Some.
  - destruct v; try done. destruct (member s allowed) eqn:E; [|done]. intros [= <-]. by apply member_spec.
  - destruct v; try done. destruct s as [|c s]; [done|]. cbn [Str.nonempty]. unfold _validate_safe_path.
    destruct (member ".." _) eqn:E; [done|]. intros [= <-]. split; [done|]. intros H%member_spec. congruence.
Qed.

Lemma check_scalar_idem t v : has_scalar t v -> check_scalar lax_bool t v = Some v.
Proof.
  destruct t, v; cbn; try done.
  - by rewrite lax_bool_idem.
  - intros ->%member_spec. done.
  - intros [Hs Hp]. destruct s as [|c s]; [done|]. cbn [Str.nonempty]. unfold _validate_safe_path.
    destruct (member ".." _) eqn:E; [by apply member_spec in E|done].
Qed.

Lemma check_model_typed {T} (check : T -> json -> option json) optional (has : T -> json -> Prop) fields args d :
  (forall t v v', check t v = Some v' -> has t v') -> (forall t, optional t = true -> has t JNull) ->
  check_model check optional fields args = Some d -> has_fields has fields d.
Proof.
  intros Hc Ho. unfold check_model. destruct (forallb _ args); [|done].
  intros H%mapM_Some_1. unfold has_fields. eapply Forall2_impl; [exact H|].
  intros [k t] [k' v']; cbn. destruct (dict_lookup k args) as [v|].
  - intros (v2 & Hv & [= <- <-])%fmap_Some. eauto.
  - destruct (optional t) eqn:E; [|done]. intros [= <- <-]. auto.
Qed.

Lemma has_fields_lookup {T} (has : T -> json -> Prop) fields d k t :
  NoDup fields.*1 -> has_fields has fields d -> (k, t) ∈ fields ->
  exists v, dict_lookup k d = Some v /\ has t v /\ (k, v) ∈ d.
Proof.
  intros Hn H. induction H as [|[k1 t1] [k2 v2] fields d [Hk Hv] _ IH]; [by intros ?%elem_of_nil|].
  cbn in Hk, Hv; subst k2. apply NoDup_cons in Hn as [Hk Hn]. intros [[= -> ->]|Hin]%elem_of_cons; cbn.
  - rewrite String.eqb_refl. exists v2. split_and!; [done..|left].
  - destruct (String.eqb_spec k k1) as [->|].
    { exfalso. apply Hk. apply list_elem_of_fmap. by exists (k1, t). }
    destruct (IH Hn Hin) as (v & Hl & Ht & Hd). exists v. split_and!; [done..|by right].
Qed.

Lemma check_model_idem {T} (check : T -> json -> option json) optional (has : T -> json -> Prop) fields d :
  NoDup fields.*1 -> (forall t v, has t v -> check t v = Some v) ->
  has_fields has fields d -> check_model check optional fields d = Some d.
Proof.
  intros Hn Hc H. unfold check_model. assert (forallb (fun kv : string * json => member kv.1 fields.*1) d = true) as ->.
  { apply forallb_forall. intros kv Hkv%list_elem_of_In. apply member_spec.
    clear Hn. induction H as [|f kv' fields d [Hk _] _ IH]; [by apply elem_of_nil in Hkv|].
    apply elem_of_cons in Hkv as [->|Hkv]; cbn; [rewrite Hk; left|right; auto]. }
  apply mapM_Some_2.
  assert (forall f, f ∈ fields -> exists v, dict_lookup f.1 d = Some v /\ has f.2 v /\ (f.1, v) ∈ d) as Hall.
  { intros [k t] Hf. by apply (has_fields_lookup has fields). }
  apply Forall2_same_length_lookup_2; [by eapply Forall2_length|].
  intros i [k t] [k' v'] Hf Hd. destruct (Forall2_lookup_lr _ _ _ _ _ _ H Hf Hd) as [E Hv]. cbn in E, Hv; subst k'. cbn.
  destruct (Hall (k, t)) as (v & Hl & _ & Hin); [by eapply list_elem_of_lookup_2|]. cbn in Hl, Hin.
  assert (v = v') as ->; [|by rewrite Hl, (Hc _ _ Hv)].
  apply list_elem_of_lookup in Hin as [j Hj]. destruct (Forall2_lookup_r _ _ _ _ _ H Hj) as ([kj tj] & Hfj & Ej & _).
  cbn in Ej; subst kj. enough (i = j) as -> by congruence.
  apply (NoDup_lookup fields.*1 i j k Hn); by rewrite list_lookup_fmap, ?Hf, ?Hfj.
Qed.

(** No model names a field twice. *)
Definition distinct_fields (t : field_type) : Prop :=
  match t with f_scalar _ => True | f_models fields => NoDup fields.*1 end.

Lemma models_distinct :
  Forall (fun p : string * list (string * field_type) => NoDup p.2.*1 /\ Forall (fun f => distinct_fields f.2) p.2)
    _ARGS_BY_TOOL.
Proof.
  repeat apply Forall_cons_2; try apply Forall_nil_2;
    (split; [by apply (bool_decide_unpack _); vm_compute|]);
    repeat apply Forall_cons_2; try apply Forall_nil_2; cbn; try exact I; by apply (bool_decide_unpack _); vm_compute.
Qed.

Lemma check_item_typed fields v v' :
  check_item lax_bool fields v = Some v' ->
  match v' with JObj d => has_fields has_scalar fields d | _ => False end.
Proof.
  destruct v; try done. cbn. intros (d' & Hd & ->)%fmap_Some.
  apply (check_model_typed _ _ has_scalar) in Hd; [done|apply check_scalar_typed|by intros []].
Qed.

Lemma check_field_typed t v v' : check_field lax_bool t v = Some v' -> has_field t v'.
Proof.
  destruct t as [t|fields]; [apply check_scalar_typed|]. destruct v; try done. cbn.
  intros (l' & Hl & ->)%fmap_Some. cbn. apply mapM_Some_1 in Hl.
  apply Forall_forall. intros x Hx. apply list_elem_of_lookup in Hx as [i Hi].
  destruct (Forall2_lookup_r _ _ _ _ _ Hl Hi) as (y & _ & Hy). by apply (check_item_typed fields y).
Qed.

Lemma check_field_idem t v : distinct_fields t -> has_field t v -> check_field lax_bool t v = Some v.
Proof.
  destruct t as [t|fields]; [intros _; apply check_scalar_idem|]. destruct v; try done. cbn. intros Hn H.
  assert (mapM (check_item lax_bool fields) l = Some l) as ->; [|done].
  apply mapM_Some_2. induction H as [|x l Hx _ IH]; constructor; [|done].
  destruct x; try done. cbn. by rewrite (check_model_idem _ _ has_scalar) by (done || apply check_scalar_idem).
Qed.

(** C36: arguments that pass are well typed and canonical: the tool is known,
    the result has exactly the fields of its schema, in order, each of its
    declared type (a literal from its list, an optional text or null, a list of
    complete items), every path is non-empty and has no [..] segment under
    either slash, and validating the result again returns it unchanged. *)
Theorem validated_args_typed name args d :
  validate_tool_args lax_bool name args = Some d ->
  exists fields, table_get _ARGS_BY_TOOL name = Some fields /\ d.*1 = fields.*1 /\
    has_fields has_field fields d /\ validate_tool_args lax_bool name d = Some d.
Proof.
  unfold validate_tool_args. destruct (table_get _ARGS_BY_TOOL name) as [fields|] eqn:E; [|done]. cbn. intros H.
  pose proof models_distinct as D. rewrite Forall_forall in D. destruct (D _ (table_get_in _ _ _ E)) as [Hn Hd].
  cbn in Hn, Hd. apply (check_model_typed _ _ has_field) in H; [|apply check_field_typed|by intros [[]|]].
  exists fields. split_and!; [done| |done|].
  - clear Hn Hd D E. induction H as [|f kv fields d [Hk _] _ IH]; [done|]. cbn. by rewrite Hk, IH.
  - apply (check_model_idem _ _ (fun t v => distinct_fields t /\ has_field t v)); [done|intros t v []; by apply check_field_idem|].
    unfold has_fields in *. apply Forall2_same_length_lookup_2; [by eapply Forall2_length|].
    intros i f kv Hf Hkv. destruct (Forall2_lookup_lr _ _ _ _ _ _ H Hf Hkv) as [H1 H2]. split_and!; [done| |done].
    rewrite Forall_forall in Hd. apply (Hd f). by eapply list_elem_of_lookup_2.
Qed.
End validated.

Definition strict_bool (v : json) : option bool := match v with JBool b => Some b | _ => None end.

Lemma validated_args_typed_witness :
  exists d, validate_tool_args strict_bool TOOL_FILES_LIST [("recursive", JBool true); ("path", JStr "a/b")] = Some d /\
    d.*1 = ["path"; "recursive"] /\ validate_tool_args strict_bool TOOL_FILES_LIST d = Some d.
Proof.
  eexists. split; [reflexivity|].
  destruct (validated_args_typed strict_bool (fun _ => eq_refl) TOOL_FILES_LIST
              [("recursive", JBool true); ("path", JStr "a/b")] _ eq_refl) as (fields & Hf & Hk & _ & Hv).
  split; [reflexivity|exact Hv].
Defined.

(** A path that climbs out of the root is refused under either slash, and so
    is an argument the schema does not name. *)
Example traversal_refused :
  validate_tool_args strict_bool TOOL_FILES_READ [("path", JStr "a/../b")] = None /\
  validate_tool_args strict_bool TOOL_FILES_READ [("path", JStr "a\..\b")] = None /\
  validate_tool_args strict_bool TOOL_FILES_READ [("path", JStr "a"); ("user", JStr "bob")] = None /\
  validate_tool_args strict_bool TOOL_FILES_READ [("path", JStr "a..b")] = Some [("path", JStr "a..b")].
Proof. repeat split. Qed.
