(* ===== verification/Website.v ===== *)
(** * Website builder

    Models [src/app/website]: the path guard of paths.py, the project and file
    store of service.py with its limits, the signed preview links of
    signed_url.py, and the handlers of tools.py that the chat loop calls.

    The encodings of the standard library are the record [Codec]; the theorems
    that need a fact about one of them state it. *)

From Stdlib Require Import SpecFloat Ascii String.
From stdpp Require Import sorting.
From S2P Require Import Prelude PyVal Redaction Store AuditTrail Logic Fixtures WalletRun WalletInv Uuid ChatTools.

Open Scope string_scope.
Open Scope list_scope.
Open Scope Z_scope.

Definition EVENT_TOOL_MUTATION : string := "tool_mutation".

(** [base64.b64decode(s, validate=True)], [base64.b64encode], UTF-8, HMAC-SHA256,
    the URL-safe base64 without padding of signed_url.py, [int()] and
    [isoformat] of a Unix time. *)
Record Codec : Type := mkCodec {
  b64decode : string -> option string;
  b64encode : string -> string;
  utf8_encode : string -> string;
  utf8_decode : string -> option string;
  hmac_sha256 : string -> string -> string;
  urlsafe_b64encode : string -> string;
  urlsafe_b64decode : string -> option string;
  parse_int : string -> option Z;
  unix_isoformat : Z -> string;
  py_str : json -> string
}.

(** ** Paths *)

(** [normalize_site_path]: an error message or the canonical path. *)
Fixpoint clean_segments (segments : list string) : string + list string :=
  match segments with
  | [] => inr []
  | s :: rest =>
      if String.eqb s "" || String.eqb s "." then clean_segments rest
      else if String.eqb s ".." then inl "path must not contain '..' traversal"
      else match clean_segments rest with
           | inl m => inl m
           | inr kept => inr (s :: kept)
           end
  end.

Definition normalize_site_path (raw : string) : string + string :=
  if negb (Str.nonempty raw) then inl "path must not be empty"
  else if Str.has_char "000" raw then inl "path must not contain NUL"
  else if Str.has_char "\" raw then inl "path must not contain backslash"
  else if Str.startswith "/" raw then inl "path must be relative, not absolute"
  else match clean_segments (Str.split "/" raw) with
       | inl m => inl m
       | inr [] => inl "path resolves to empty"
       | inr segments => inr (Str.join "/" segments)
       end.

(** ** Projects and files *)

Definition PREVIEW_CONTENT_TYPE_ALLOWLIST : list string :=
  ["text/html"; "text/css"; "text/javascript"; "application/json"; "image/png"; "image/jpeg"; "image/svg+xml";
   "image/gif"; "image/webp"; "font/woff2"; "text/plain"].

Definition project_exists (d : Db) (p : uuid) : bool :=
  existsb (fun kv : (uuid * string) * uuid => N.eqb kv.2 p) (map_to_list d.(projects)).

(** [INSERT ... ON CONFLICT (user_id, external_project_id) DO NOTHING], then the
    row's id.  The primary key and the owner are checked. *)
Definition resolve_project (u : uuid) (external_project_id : string) : M uuid :=
  d ← get_db;
  match d.(projects) !! (u, external_project_id) with
  | Some p => mret p
  | None =>
      p ← gen_random_uuid;
      check_constraint (user_exists d u);;
      check_constraint (negb (project_exists d p));;
      modify_db (fun d => set_projects (<[(u, external_project_id) := p]> d.(projects)) d);;
      mret p
  end.

Definition get_existing_project (u : uuid) (external_project_id : string) : M (option uuid) :=
  d ← get_db; mret (d.(projects) !! (u, external_project_id)).

(** The files of a project with their paths. *)
Definition project_files (d : Db) (p : uuid) : list ((uuid * string) * SiteFile) :=
  filter (fun kv => kv.1.1 = p) (map_to_list d.(site_files)).

Record ProjectStats : Type := mkProjectStats { file_count : Z; project_bytes : Z }.

Definition stats_of (d : Db) (p : uuid) : ProjectStats :=
  mkProjectStats (Z.of_nat (length (project_files d p))) (sumZ (fun kv => kv.2.(sf_size)) (project_files d p)).

Definition _project_stats (p : uuid) : M ProjectStats := d ← get_db; mret (stats_of d p).

Record WriteResult : Type := mkWriteResult {
  wr_path : string; bytes_written : Z; wr_file_count : Z; wr_project_bytes : Z
}.

Definition site_path (path : string) : M string :=
  match normalize_site_path path with
  | inl m => raise (SiteFileError "invalid_path" m)
  | inr normalized => mret normalized
  end.

Definition write_file (p : uuid) (path content content_type : string) : M WriteResult :=
  s ← settings;
  if negb (member content_type PREVIEW_CONTENT_TYPE_ALLOWLIST)
  then raise (SiteFileError "invalid_content_type" ("content_type not allowed: " ++ content_type)%string)
  else
    normalized ← site_path path;
    let size := Z.of_nat (String.length content) in
    if s.(chat).(preview_max_file_bytes) <? size
    then raise (SiteFileError "file_too_large" "file exceeds the per-file size limit")
    else
      d ← get_db;
      let existing := d.(site_files) !! (p, normalized) in
      stats ← _project_stats p;
      let prior_size := match existing with Some f => f.(sf_size) | None => 0 end in
      let projected_bytes := stats.(project_bytes) - prior_size + size in
      let projected_count := stats.(file_count) + match existing with None => 1 | Some _ => 0 end in
      if s.(chat).(preview_max_project_bytes) <? projected_bytes
      then raise (SiteFileError "project_too_large" "project exceeds the total size limit")
      else if s.(chat).(preview_max_files) <? projected_count
      then raise (SiteFileError "too_many_files" "project exceeds the maximum number of files")
      else
        check_constraint (project_exists d p);;
        size ← int8 size;
        modify_db (fun d => set_site_files (<[(p, normalized) := mkSiteFile content content_type size]> d.(site_files)) d);;
        post ← _project_stats p;
        mret (mkWriteResult normalized size post.(file_count) post.(project_bytes)).

Record FileContent : Type := mkFileContent {
  fc_path : string; fc_content : string; fc_content_type : string; fc_size : Z
}.

Definition read_file (p : uuid) (path : string) : M (option FileContent) :=
  match normalize_site_path path with
  | inl _ => mret None
  | inr normalized =>
      d ← get_db;
      mret ((fun f => mkFileContent normalized f.(sf_content) f.(sf_content_type) f.(sf_size))
              <$> d.(site_files) !! (p, normalized))
  end.

Definition delete_file (p : uuid) (path : string) : M (bool * ProjectStats) :=
  normalized ← site_path path;
  d ← get_db;
  let deleted := match d.(site_files) !! (p, normalized) with Some _ => true | None => false end in
  modify_db (fun d => set_site_files (delete (p, normalized) d.(site_files)) d);;
  stats ← _project_stats p;
  mret (deleted, stats).

(** Bytewise order of paths, the order of [ORDER BY path ASC] under the C
    collation. *)
Definition by_path (a b : (uuid * string) * SiteFile) : Prop := String.leb a.1.2 b.1.2 = true.
#[global] Instance by_path_dec : RelDecision by_path := fun a b => bool_eq_dec _ _.

Definition list_files (p : uuid) : M (list ((uuid * string) * SiteFile) * ProjectStats) :=
  d ← get_db;
  stats ← _project_stats p;
  mret (merge_sort by_path (project_files d p), stats).

(** ** Signed preview links *)

Section codec.
Context (codec : Codec).

Definition _canonical (project_id owner_user_id : uuid) (exp : Z) : string :=
  (uuid_str project_id ++ "|" ++ uuid_str owner_user_id ++ "|" ++ Str.of_int exp)%string.

(** [None] is [PreviewSecretMissingError]. *)
Definition _sign (secret : string) (project_id owner_user_id : uuid) (exp : Z) : option string :=
  if Str.nonempty secret
  then Some (codec.(hmac_sha256) (codec.(utf8_encode) secret) (_canonical project_id owner_user_id exp))
  else None.

Definition build_token (cs : ChatSettings) (project_id owner_user_id : uuid) (now : Z) : option (string * Z) :=
  let exp := now + cs.(preview_url_ttl_seconds) in
  mac ← _sign cs.(preview_url_secret) project_id owner_user_id exp;
  Some ((codec.(urlsafe_b64encode) (Str.of_int exp) ++ "." ++ codec.(urlsafe_b64encode) mac)%string, exp).

(** The result, or [None] when the secret is missing. *)
Definition verify_token (cs : ChatSettings) (project_id owner_user_id : uuid) (token : string) (now : Z) : option bool :=
  match Str.split "." token with
  | [exp_part; mac_part] =>
      match codec.(urlsafe_b64decode) exp_part ≫= codec.(parse_int), codec.(urlsafe_b64decode) mac_part with
      | Some exp, Some presented_mac =>
          expected_mac ← _sign cs.(preview_url_secret) project_id owner_user_id exp;
          Some (String.eqb presented_mac expected_mac && (now <=? exp))
      | _, _ => Some false
      end
  | _ => Some false
  end.

(** ** Tool handlers *)

Record ToolExecution : Type := mkToolExecution {
  te_result : option dict;
  is_error : bool;
  error_code : option string;
  error_message : option string
}.

Definition exec_ok (result : dict) : ToolExecution := mkToolExecution (Some result) false None None.
Definition exec_error (code message : string) : ToolExecution := mkToolExecution None true (Some code) (Some message).

Definition to_tool_result_payload (x : ToolExecution) : dict :=
  if x.(is_error)
  then [("error", JObj [("code", jopt_str x.(error_code)); ("message", jopt_str x.(error_message))])]
  else [("result", match x.(te_result) with Some d => JObj d | None => JNull end)].

Definition _decode_content (content encoding : string) : option string :=
  if String.eqb encoding "utf8" then Some (codec.(utf8_encode) content) else codec.(b64decode) content.

(** [str(args[k])] *)
Definition arg_str (args : dict) (k : string) : M string :=
  match dict_lookup k args with
  | Some (JStr s) => mret s
  | Some v => mret (codec.(py_str) v)
  | None => raise KeyError
  end.

Definition is_SiteFileError (x : exn) : option (string * string) :=
  match x with SiteFileError code message => Some (code, message) | _ => None end.

Definition _write_file (args : dict) (u : uuid) (external_project_id : string) (sid : uuid) : M ToolExecution :=
  content ← arg_str args "content";
  encoding ← arg_str args "encoding";
  match _decode_content content encoding with
  | None =>
      metric_inc "site_file_write_total" "invalid_encoding";;
      mret (exec_error "invalid_encoding" "content is not valid base64")
  | Some content =>
      pr ← try_except
             (project ← resolve_project u external_project_id;
              path ← arg_str args "path";
              content_type ← arg_str args "contentType";
              result ← write_file project path content content_type;
              mret (project, result))
             (fun x => '(code, _) ← is_SiteFileError x;
                       Some (metric_inc "site_file_write_total" code;; raise x));
      let '(project, result) := pr in
      record (mkAuditEvent u (Some sid) EVENT_TOOL_MUTATION
                [("toolName", JStr TOOL_SITE_WRITE_FILE); ("projectId", JStr (uuid_str project));
                 ("path", JStr result.(wr_path)); ("bytesWritten", JInt result.(bytes_written))]);;
      metric_inc "site_file_write_total" "success";;
      mret (exec_ok [("path", JStr result.(wr_path)); ("bytesWritten", JInt result.(bytes_written));
                     ("fileCount", JInt result.(wr_file_count)); ("projectBytes", JInt result.(wr_project_bytes))])
  end.

(** [value.strip("/")] *)
Fixpoint lstrip_slash (s : string) : string :=
  match s with String "/" s' => lstrip_slash s' | _ => s end.

Fixpoint rstrip_slash (s : string) : string :=
  match s with
  | EmptyString => EmptyString
  | String c s' =>
      match rstrip_slash s' with
      | EmptyString => if Ascii.eqb c "/" then EmptyString else String c EmptyString
      | r => String c r
      end
  end.

Definition normalized_service_domain (cs : ChatSettings) : string :=
  let value := Str.strip cs.(service_domain) in
  let lowered := Str.lower value in
  let value :=
    if Str.startswith "https://" lowered then substring 8 (String.length value) value
    else if Str.startswith "http://" lowered then substring 7 (String.length value) value
    else value in
  rstrip_slash (lstrip_slash value).

(** [int(time.time())] from a reading of the wall clock. *)
Definition py_time : M Z := now ← py_now; mret (now / 1000000).

Definition _preview (args : dict) (u : uuid) (external_project_id : string) : M ToolExecution :=
  project ← get_existing_project u external_project_id;
  match project with
  | None => mret (exec_error "project_not_found" "no project to preview")
  | Some p =>
      let entry := match dict_get args "entry" with
                   | JStr s => if Str.nonempty s then s else "index.html"
                   | v => if truthy v then codec.(py_str) v else "index.html"
                   end in
      s ← settings;
      now ← py_time;
      match build_token s.(chat) p u now with
      | None => mret (exec_error "preview_unavailable" "PREVIEW_URL_SECRET is not configured")
      | Some (token, exp) =>
          let domain := normalized_service_domain s.(chat) in
          let path := ("/v1/preview/" ++ uuid_str p ++ "/" ++ token ++ "/" ++ entry)%string in
          let url := if Str.nonempty domain then ("https://" ++ domain ++ path)%string else path in
          mret (exec_ok [("url", JStr url); ("expiresAt", JStr (codec.(unix_isoformat) exp))])
      end
  end.

Definition _list (u : uuid) (external_project_id : string) : M ToolExecution :=
  project ← get_existing_project u external_project_id;
  match project with
  | None => mret (exec_ok [("files", JArr []); ("fileCount", JInt 0); ("projectBytes", JInt 0)])
  | Some p =>
      r ← list_files p;
      let '(files, stats) := r in
      mret (exec_ok
        [("files", JArr ((fun kv : (uuid * string) * SiteFile =>
                            JObj [("path", JStr kv.1.2); ("contentType", JStr kv.2.(sf_content_type));
                                  ("size", JInt kv.2.(sf_size))]) <$> files));
         ("fileCount", JInt stats.(file_count)); ("projectBytes", JInt stats.(project_bytes))])
  end.

Definition _read (args : dict) (u : uuid) (external_project_id : string) : M ToolExecution :=
  project ← get_existing_project u external_project_id;
  match project with
  | None => mret (exec_error "file_not_found" "file not found")
  | Some p =>
      path ← arg_str args "path";
      file ← read_file p path;
      match file with
      | None => mret (exec_error "file_not_found" "file not found")
      | Some f =>
          let as_base64 := (codec.(b64encode) f.(fc_content), "base64") in
          let '(content, encoding) :=
            if Str.startswith "text/" f.(fc_content_type) || String.eqb f.(fc_content_type) "application/json"
            then match codec.(utf8_decode) f.(fc_content) with Some t => (t, "utf8") | None => as_base64 end
            else as_base64 in
          mret (exec_ok [("path", JStr f.(fc_path)); ("content", JStr content); ("encoding", JStr encoding);
                         ("contentType", JStr f.(fc_content_type)); ("size", JInt f.(fc_size))])
      end
  end.

Definition _delete (args : dict) (u : uuid) (external_project_id : string) (sid : uuid) : M ToolExecution :=
  project ← get_existing_project u external_project_id;
  path ← arg_str args "path";
  match project with
  | None => mret (exec_ok [("path", JStr path); ("deleted", JBool false); ("fileCount", JInt 0); ("projectBytes", JInt 0)])
  | Some p =>
      r ← delete_file p path;
      let '(deleted, stats) := r in
      record (mkAuditEvent u (Some sid) EVENT_TOOL_MUTATION
                [("toolName", JStr TOOL_SITE_DELETE); ("projectId", JStr (uuid_str p)); ("path", JStr path);
                 ("deleted", JBool deleted)]);;
      mret (exec_ok [("path", JStr path); ("deleted", JBool deleted); ("fileCount", JInt stats.(file_count));
                     ("projectBytes", JInt stats.(project_bytes))])
  end.

(** [SiteToolHandlers.execute] *)
Definition site_execute (tool_name : string) (args : dict) (u : uuid) (external_project_id : string) (sid : uuid) :
    M ToolExecution :=
  try_except
    (if String.eqb tool_name TOOL_SITE_WRITE_FILE then _write_file args u external_project_id sid
     else if String.eqb tool_name TOOL_SITE_PREVIEW then _preview args u external_project_id
     else if String.eqb tool_name TOOL_SITE_LIST then _list u external_project_id
     else if String.eqb tool_name TOOL_SITE_READ then _read args u external_project_id
     else if String.eqb tool_name TOOL_SITE_DELETE then _delete args u external_project_id sid
     else mret (exec_error "unknown_tool" ("unknown server-side tool: " ++ tool_name)%string))
    (fun x => '(code, message) ← is_SiteFileError x; Some (mret (exec_error code message))).
End codec.

(** ** Paths *)

(** A canonical relative path: at least one segment, each a plain name. *)
Definition plain_segment (s : string) : Prop :=
  s <> "" /\ s <> "." /\ s <> ".." /\ Str.has_char "/" s = false /\ Str.has_char "\" s = false /\
  Str.has_char "000" s = false.

Definition canonical_path (p : string) : Prop :=
  exists segments, segments <> [] /\ Forall plain_segment segments /\ p = Str.join "/" segments.

Lemma clean_segments_plain l kept :
  clean_segments l = inr kept -> Forall (fun s => s ∈ l /\ s <> "" /\ s <> "." /\ s <> "..") kept.
Proof.
  revert kept. induction l as [|s l IH]; intros kept; cbn; [intros [= <-]; constructor|].
  destruct (String.eqb_spec s ""); cbn.
  { intros H. eapply Forall_impl; [by apply IH|]. cbn. intros x (Hx & ?). split; [by right|done]. }
  destruct (String.eqb_spec s "."); cbn.
  { intros H. eapply Forall_impl; [by apply IH|]. cbn. intros x (Hx & ?). split; [by right|done]. }
  destruct (String.eqb_spec s ".."); [done|]. destruct (clean_segments l) as [|kept']; [done|].
  intros [= <-]. constructor; [split_and!; [left|done..]|].
  eapply Forall_impl; [by apply IH|]. cbn. intros x (Hx & ?). split; [by right|done].
Qed.

Lemma clean_segments_id l : Forall plain_segment l -> clean_segments l = inr l.
Proof.
  induction 1 as [|s l (H1 & H2 & H3 & _) _ IH]; [done|]. cbn.
  rewrite (proj2 (String.eqb_neq _ _) H1), (proj2 (String.eqb_neq _ _) H2), (proj2 (String.eqb_neq _ _) H3). cbn.
  by rewrite IH.
Qed.

(** The characters of a piece are characters of the whole. *)
Lemma split_has_char sep c s : Str.has_char c s = false -> Forall (fun w => Str.has_char c w = false) (Str.split sep s).
Proof.
  induction s as [|x s IH]; cbn; [by repeat constructor|]. intros [Hx Hs]%orb_false_elim.
  destruct (Ascii.eqb x sep); [constructor; [done|auto]|].
  destruct (Str.split sep s) as [|w ws]; [constructor; [cbn; by rewrite Hx|constructor]|].
  specialize (IH Hs). inversion IH; subst. constructor; [cbn; by rewrite Hx|done].
Qed.

Lemma join_has_char c ws :
  Ascii.eqb "/" c = false -> Forall (fun w => Str.has_char c w = false) ws -> Str.has_char c (Str.join "/" ws) = false.
Proof.
  intros Hc. induction 1 as [|w ws Hw Hws IH]; [done|]. destruct ws as [|w2 ws]; [done|].
  change (Str.join "/" (w :: w2 :: ws)) with (w ++ "/" ++ Str.join "/" (w2 :: ws))%string.
  rewrite !Str.has_char_app, Hw, IH. cbn [Str.has_char]. by rewrite Hc.
Qed.

Lemma normalize_canonical raw p : normalize_site_path raw = inr p -> canonical_path p.
Proof.
  unfold normalize_site_path. destruct (Str.nonempty raw); [|done]. cbn.
  destruct (Str.has_char "000" raw) eqn:H0; [done|]. destruct (Str.has_char "\" raw) eqn:Hb; [done|].
  destruct (Str.startswith "/" raw); [done|]. destruct (clean_segments _) as [|kept] eqn:E; [done|].
  destruct kept as [|s kept]; [done|]. intros [= <-]. exists (s :: kept). split_and!; [done| |done].
  apply clean_segments_plain in E. eapply Forall_impl; [exact E|]. cbn. intros x (Hin & H1 & H2 & H3).
  pose proof (Str.split_pieces_no_sep "/" raw) as Hs. pose proof (split_has_char "/" _ _ H0) as Hn.
  pose proof (split_has_char "/" _ _ Hb) as Hbs. rewrite Forall_forall in Hs, Hn, Hbs.
  split_and!; auto.
Qed.

Lemma startswith_slash c r : c <> "/"%char -> Str.startswith "/" (String c r) = false.
Proof.
  intros Hc. destruct (Str.startswith "/" (String c r)) eqn:E; [|done].
  apply Str.prefix_spec in E as [r' E]. injection E as -> _. done.
Qed.

Lemma canonical_normalize p : canonical_path p -> normalize_site_path p = inr p.
Proof.
  intros (l & Hl & Hp & ->). unfold normalize_site_path.
  destruct l as [|s l]; [done|]. clear Hl.
  assert (Hc : forall c, Ascii.eqb "/" c = false -> Forall (fun w => Str.has_char c w = false) (s :: l) ->
                         Str.has_char c (Str.join "/" (s :: l)) = false) by (intros; by apply join_has_char).
  inversion Hp as [|? ? (Hs & _ & _ & Hslash & _) _]; subst.
  assert (exists c r, Str.join "/" (s :: l) = String c r /\ c <> "/"%char) as (c & r & E & Hne).
  { destruct s as [|c s]; [done|]. cbn in Hslash. apply orb_false_elim in Hslash as [Hc' _].
    exists c. destruct l; eexists; (split; [reflexivity|]); intros ->; done. }
  rewrite (Hc "000"%char), (Hc "\"%char) by (done || (eapply Forall_impl; [exact Hp|]; by intros x (?&?&?&?&?&?))).
  rewrite Str.split_join, clean_segments_id by (done || (eapply Forall_impl; [exact Hp|]; by intros x (?&?&?&?&?))).
  rewrite E. by rewrite startswith_slash.
Qed.

(** The path guard is exact: what it accepts is stored under a canonical
    relative path (non-empty plain segments, no [.] or [..], no backslash, no
    NUL, no leading slash), a canonical path is accepted and left as it is, so
    normalizing twice is normalizing once, and every file has one name. *)
Theorem normalize_site_path_canonical raw p :
  normalize_site_path raw = inr p ->
  canonical_path p /\ normalize_site_path p = inr p /\ Str.startswith "/" p = false /\ ".." ∉ Str.split "/" p.
Proof.
  intros H. pose proof (normalize_canonical _ _ H) as Hc. pose proof (canonical_normalize _ Hc) as Hn.
  split_and!; [done|done| |].
  - revert Hn. unfold normalize_site_path. destruct (Str.nonempty p), (Str.has_char "000" p), (Str.has_char "\" p);
      cbn; try done. by destruct (Str.startswith "/" p).
  - destruct Hc as (l & Hl & Hp & ->). rewrite Str.split_join.
    + intros Hin. rewrite Forall_forall in Hp. by destruct (Hp _ Hin) as (_ & _ & ? & _).
    + done.
    + eapply Forall_impl; [exact Hp|]. by intros x (?&?&?&?&?).
Qed.

Lemma normalize_site_path_canonical_witness :
  normalize_site_path "./css//site.css/" = inr "css/site.css" /\ normalize_site_path "css/site.css" = inr "css/site.css".
Proof.
  split; [reflexivity|]. apply (normalize_site_path_canonical "./css//site.css/"). reflexivity.
Defined.

(** ** Limits *)

Record site_inv (cs : ChatSettings) (d : Db) : Prop := mkSiteInv {
  si_count : forall p, (stats_of d p).(file_count) <= Z.max 0 cs.(preview_max_files);
  si_bytes : forall p, (stats_of d p).(project_bytes) <= Z.max 0 cs.(preview_max_project_bytes);
  si_files : forall p path f, d.(site_files) !! (p, path) = Some f ->
    canonical_path path /\ f.(sf_size) = Z.of_nat (String.length f.(sf_content)) /\
    f.(sf_size) <= cs.(preview_max_file_bytes) /\ member f.(sf_content_type) PREVIEW_CONTENT_TYPE_ALLOWLIST = true
}.

(** The statistics, one file apart. *)
Definition put_file (k : uuid * string) (f : SiteFile) (d : Db) : Db := set_site_files (<[k := f]> d.(site_files)) d.
Definition drop_file (k : uuid * string) (d : Db) : Db := set_site_files (delete k d.(site_files)) d.

Definition weigh (f : SiteFile -> Z) (p : uuid) (kv : (uuid * string) * SiteFile) : Z :=
  if decide (kv.1.1 = p) then f kv.2 else 0.

Lemma weigh_other f p k x : k.1 <> p -> weigh f p (k, x) = 0.
Proof. intros Hk. unfold weigh. by rewrite decide_False. Qed.

Lemma weigh_own f p path x : weigh f p ((p, path), x) = f x.
Proof. unfold weigh. by rewrite decide_True. Qed.

Lemma stats_sums d p :
  stats_of d p = mkProjectStats (sumZ (weigh (fun _ => 1) p) (map_to_list d.(site_files)))
                   (sumZ (weigh sf_size p) (map_to_list d.(site_files))).
Proof. unfold stats_of, project_files. by rewrite sumZ_ones, !sumZ_filter. Qed.

Lemma weigh_split f p d k :
  sumZ (weigh f p) (map_to_list d.(site_files)) =
  sumZ (weigh f p) (map_to_list (drop_file k d).(site_files)) +
  match d.(site_files) !! k with Some x => weigh f p (k, x) | None => 0 end.
Proof. apply sumZ_map_split. Qed.

Lemma weigh_put f p d k x :
  sumZ (weigh f p) (map_to_list (put_file k x d).(site_files)) =
  sumZ (weigh f p) (map_to_list (drop_file k d).(site_files)) + weigh f p (k, x).
Proof.
  rewrite (sumZ_map_split _ _ k). cbn. by rewrite delete_insert_eq, lookup_insert_eq.
Qed.

Lemma weigh_nonneg f p d : (forall k x, d.(site_files) !! k = Some x -> 0 <= f x) ->
  0 <= sumZ (weigh f p) (map_to_list d.(site_files)).
Proof.
  intros H. apply sumZ_nonneg. intros [k x] Hx%elem_of_map_to_list. unfold weigh. case_decide; [|done]. by eapply H.
Qed.

Section write.
Context (e : Env) (w : World) (p : uuid) (path content content_type : string).
Let cs := e.(env_settings).(chat).
Let size := Z.of_nat (String.length content).

(** The conditions under which a write is accepted, at the normalized path. *)
Record write_accepted (normalized : string) : Prop := mkWriteAccepted {
  wa_type : member content_type PREVIEW_CONTENT_TYPE_ALLOWLIST = true;
  wa_path : normalize_site_path path = inr normalized;
  wa_size : size <= cs.(preview_max_file_bytes);
  wa_bytes : (stats_of (put_file (p, normalized) (mkSiteFile content content_type size) w.(w_db)) p).(project_bytes)
             <= cs.(preview_max_project_bytes);
  wa_count : (stats_of (put_file (p, normalized) (mkSiteFile content content_type size) w.(w_db)) p).(file_count)
             <= cs.(preview_max_files);
  wa_project : project_exists w.(w_db) p = true;
  wa_int8 : in_int8 size
}.

Lemma stats_after_put normalized f :
  let existing := w.(w_db).(site_files) !! (p, normalized) in
  (stats_of (put_file (p, normalized) f w.(w_db)) p).(project_bytes) =
    (stats_of w.(w_db) p).(project_bytes) - match existing with Some x => x.(sf_size) | None => 0 end + f.(sf_size) /\
  (stats_of (put_file (p, normalized) f w.(w_db)) p).(file_count) =
    (stats_of w.(w_db) p).(file_count) + match existing with None => 1 | Some _ => 0 end.
Proof.
  cbv zeta. rewrite !stats_sums. cbn [project_bytes file_count].
  rewrite !weigh_put, !(weigh_split _ p w.(w_db) (p, normalized)).
  rewrite !weigh_own. destruct (_ !! (p, normalized)) as [x|]; rewrite ?weigh_own; lia.
Qed.

(** A write either raises and changes nothing, or was accepted and stores
    exactly the file. *)
Lemma write_file_cases r w' :
  write_file p path content content_type e w = (r, w') ->
  (exists x, r = inl x /\ w' = w) \/
  (exists normalized, write_accepted normalized /\
     w' = with_db (put_file (p, normalized) (mkSiteFile content content_type size) w.(w_db)) w /\
     r = inr (mkWriteResult normalized size (stats_of w'.(w_db) p).(file_count) (stats_of w'.(w_db) p).(project_bytes))).
Proof.
  unfold write_file. rewrite (bind_inr _ _ e w e.(env_settings) w) by done. cbn beta.
  destruct (member content_type _) eqn:Ht; [|intros Hr; injection Hr as <- <-; left; by eexists]. cbn [negb].
  unfold site_path. destruct (normalize_site_path path) as [m|normalized] eqn:Hn; [intros Hr; injection Hr as <- <-; left; by eexists|].
  rewrite (bind_inr _ _ e w normalized w) by done. cbn beta zeta.
  destruct (_ <? _) eqn:Hs; [intros Hr; injection Hr as <- <-; left; by eexists|]. zify_bool.
  rewrite (bind_inr _ _ e w w.(w_db) w) by done. cbn beta.
  rewrite (bind_inr _ _ e w (stats_of w.(w_db) p) w) by done. cbn beta zeta.
  destruct (stats_after_put normalized (mkSiteFile content content_type size)) as [Eb Ec]. cbn [sf_size] in Eb.
  fold cs size in Hs |- *. rewrite <- Eb, <- Ec.
  destruct (preview_max_project_bytes cs <? _) eqn:Hb; [intros Hr; injection Hr as <- <-; left; by eexists|].
  destruct (preview_max_files cs <? _) eqn:Hc; [intros Hr; injection Hr as <- <-; left; by eexists|]. zify_bool.
  unfold check_constraint. destruct (project_exists w.(w_db) p) eqn:Hp; [|intros Hr; injection Hr as <- <-; left; by eexists].
  rewrite (bind_inr _ _ e w tt w) by done. cbn beta. unfold int8.
  destruct (_ && _) eqn:Hi; [|intros Hr; injection Hr as <- <-; left; by eexists]. zify_bool.
  rewrite (bind_inr _ _ e w size w) by done. intros Hr; injection Hr as <- <-. right. exists normalized.
  split; [by split|]. split; [done|done].
Qed.

Lemma write_accepted_inv normalized :
  site_inv cs w.(w_db) -> write_accepted normalized ->
  site_inv cs (put_file (p, normalized) (mkSiteFile content content_type size) w.(w_db)).
Proof.
  intros [Hc Hb Hf] [Ht Hp Hs Hab Hac _ _]. split.
  - intros q. destruct (decide (q = p)) as [->|Hq]; [lia|]. specialize (Hc q). rewrite stats_sums in Hc |- *.
    cbn [file_count] in Hc |- *. rewrite weigh_put. rewrite (weigh_split _ q w.(w_db) (p, normalized)) in Hc.
    rewrite weigh_other by (cbn; congruence).
    destruct (_ !! _); [rewrite weigh_other in Hc by (cbn; congruence)|]; lia.
  - intros q. destruct (decide (q = p)) as [->|Hq]; [lia|]. specialize (Hb q). rewrite stats_sums in Hb |- *.
    cbn [project_bytes] in Hb |- *. rewrite weigh_put. rewrite (weigh_split _ q w.(w_db) (p, normalized)) in Hb.
    rewrite weigh_other by (cbn; congruence).
    destruct (_ !! _); [rewrite weigh_other in Hb by (cbn; congruence)|]; lia.
  - intros q path' f. cbn. intros [[[= <- <-] <-]|[Hne Hl]]%lookup_insert_Some; [|exact (Hf _ _ _ Hl)].
    split_and!; [exact (normalize_canonical _ _ Hp)|done..].
Qed.
End write.

Lemma site_inv_drop cs k d : site_inv cs d -> site_inv cs (drop_file k d).
Proof.
  intros [Hc Hb Hf]. split.
  - intros p. specialize (Hc p). rewrite stats_sums in Hc |- *. cbn [file_count] in *.
    rewrite (weigh_split _ p d k) in Hc. destruct (d.(site_files) !! k); [|lia].
    destruct k as [q path]. destruct (decide (q = p)) as [->|]; [rewrite weigh_own in Hc|rewrite weigh_other in Hc by done]; lia.
  - intros p. specialize (Hb p). rewrite stats_sums in Hb |- *. cbn [project_bytes] in *.
    rewrite (weigh_split _ p d k) in Hb. destruct (d.(site_files) !! k) as [x|] eqn:E; [|lia].
    destruct k as [q path]. destruct (Hf _ _ _ E) as (_ & Hs & _).
    destruct (decide (q = p)) as [->|]; [rewrite weigh_own in Hb|rewrite weigh_other in Hb by done]; lia.
  - intros p path f. cbn. intros [_ Hl]%lookup_delete_Some. by eapply Hf.
Qed.

(** ** The handlers stay inside their project *)

(** What a tool call for the project [(u, ext)] may change: that project's row
    (only to create it), its files, and the audit log (by appending mutations
    of [u]). *)
Definition rest_of (d : Db) : Db := set_projects ∅ (set_site_files ∅ (set_audit_logs [] d)).

Record site_frame (u : uuid) (ext : string) (d0 d : Db) : Prop := mkSiteFrame {
  sfr_rest : rest_of d = rest_of d0;
  sfr_projects : forall k, k <> (u, ext) -> d.(projects) !! k = d0.(projects) !! k;
  sfr_kept : forall p, d0.(projects) !! (u, ext) = Some p -> d.(projects) !! (u, ext) = Some p;
  sfr_files : forall q path, d.(projects) !! (u, ext) <> Some q ->
    d.(site_files) !! (q, path) = d0.(site_files) !! (q, path);
  sfr_audit : exists l, d.(audit_logs) = d0.(audit_logs) ++ l /\
    Forall (fun r => r.(al_user_id) = u /\ r.(al_event_type) = EVENT_TOOL_MUTATION) l
}.

Section handlers.
Context (codec : Codec) (e : Env) (u : uuid) (ext : string) (d0 : Db).
Let cs := e.(env_settings).(chat).

Definition inside (d : Db) : Prop := site_frame u ext d0 d /\ site_inv cs d.
Definition inside_of (p : uuid) (d : Db) : Prop := inside d /\ d.(projects) !! (u, ext) = Some p.

Lemma inside_put p path f d :
  inside_of p d -> site_inv cs (put_file (p, path) f d) -> inside_of p (put_file (p, path) f d).
Proof.
  intros [[[Hr Hp Hk Hf Ha] Hi] Hx] Hi'. split; [|done]. split; [|done]. split; try done.
  intros q path' Hq. cbn in Hq |- *. rewrite lookup_insert_ne by congruence. by apply Hf.
Qed.

Lemma inside_drop p path d : inside_of p d -> inside_of p (drop_file (p, path) d).
Proof.
  intros [[[Hr Hp Hk Hf Ha] Hi] Hx]. split; [|done]. split; [|by apply site_inv_drop]. split; try done.
  intros q path' Hq. cbn in Hq |- *. rewrite lookup_delete_ne by congruence. by apply Hf.
Qed.

Lemma inside_audit d ev rid :
  ev.(ev_user_id) = u -> ev.(ev_event_type) = EVENT_TOOL_MUTATION -> inside d ->
  inside (set_audit_logs (d.(audit_logs) ++ [audit_row rid ev]) d).
Proof.
  intros Hu Ht [[Hr Hp Hk Hf (l & Hl & Hall)] [H1 H2 H3]]. split; [|by split]. split; try done.
  exists (l ++ [audit_row rid ev]). cbn. rewrite Hl, app_assoc. split; [done|].
  apply Forall_app. split; [done|]. by apply Forall_singleton.
Qed.

Lemma holds_mutation ev :
  ev.(ev_user_id) = u -> ev.(ev_event_type) = EVENT_TOOL_MUTATION -> holds e inside (record ev).
Proof. intros Hu Ht. unfold record. holds_walk. by apply inside_audit. Qed.

Lemma holds_existing {A} (k : option uuid -> M A) :
  (forall p, holds e (inside_of p) (k (Some p))) -> holds e inside (k None) ->
  forall w, inside w.(w_db) ->
  let w' := ((get_existing_project u ext ≫= k) e w).2 in
  inside w'.(w_db).
Proof.
  intros Hs Hn w Hw. unfold get_existing_project. rewrite (bind_inr _ _ e w (w.(w_db).(projects) !! (u, ext)) w) by done.
  destruct (w.(w_db).(projects) !! (u, ext)) as [p|] eqn:E; [|by apply Hn]. by apply (Hs p).
Qed.

Lemma resolve_project_inside w r w' :
  inside w.(w_db) -> resolve_project u ext e w = (r, w') ->
  inside w'.(w_db) /\ (forall p, r = inr p -> inside_of p w'.(w_db)).
Proof.
  intros Hw. unfold resolve_project. rewrite (bind_inr _ _ e w w.(w_db) w) by done. cbn beta.
  destruct (w.(w_db).(projects) !! (u, ext)) as [p|] eqn:E.
  { intros [= <- <-]. split; [done|]. intros q [= <-]. by split. }
  unfold gen_random_uuid, mbind, M_bind, check_constraint.
  destruct (user_exists w.(w_db) u); cbn; [|intros [= <- <-]; by split].
  destruct (negb (project_exists _ _)) eqn:Hx; cbn; [|intros [= <- <-]; by split].
  intros [= <- <-]. cbn. set (p := e.(env_gen_random_uuid) _) in *.
  assert (inside_of p (set_projects (<[(u, ext) := p]> w.(w_db).(projects)) w.(w_db))) as H.
  { destruct Hw as [[Hr Hp Hk Hf Ha] [H1 H2 H3]]. split; [|apply lookup_insert_eq]. split; [|by split]. split; try done.
    - intros k Hne. cbn. rewrite lookup_insert_ne by done. by apply Hp.
    - intros q Hq. apply Hk in Hq. congruence.
    - intros q path Hq. cbn. apply Hf. congruence. }
  split; [apply H|]. by intros q [= <-].
Qed.

Lemma write_file_inside p path content ct : holds e (inside_of p) (write_file p path content ct).
Proof.
  intros w Hw. destruct (write_file p path content ct e w) as [r w'] eqn:E.
  destruct (write_file_cases _ _ _ _ _ _ _ _ E) as [(x & -> & ->)|(n & Ha & -> & _)]; [done|]. cbn.
  apply inside_put; [done|]. apply (write_accepted_inv e w p path); [apply Hw|done].
Qed.

Lemma inside_of_inside {A} (m : M A) p : holds e (inside_of p) m -> forall w, inside_of p w.(w_db) -> inside (m e w).2.(w_db).
Proof. intros H w Hw. by apply H. Qed.

Lemma write_handler_inside args sid : holds e inside (_write_file codec args u ext sid).
Proof.
  unfold _write_file. apply holds_bind; [unfold arg_str; holds_walk|intros content].
  apply holds_bind; [unfold arg_str; holds_walk|intros encoding].
  destruct (_decode_content codec content encoding) as [bytes|]; [|holds_walk].
  apply holds_bind.
  - apply holds_try.
    + intros w Hw. destruct (resolve_project u ext e w) as [r w1] eqn:E.
      destruct (resolve_project_inside _ _ _ Hw E) as [H1 H2]. unfold mbind at 1, M_bind at 1. rewrite E.
      destruct r as [x|p]; [done|]. apply (inside_of_inside _ p); [|by apply H2].
      apply holds_bind; [unfold arg_str; holds_walk|intros path].
      apply holds_bind; [unfold arg_str; holds_walk|intros ct].
      apply holds_bind; [apply write_file_inside|intros r]. holds_walk.
    + intros x k. destruct x; cbn; try done. intros [= <-]. holds_walk.
  - intros [p r]. apply holds_bind; [by apply holds_mutation|intros _]. holds_walk.
Qed.

Lemma delete_handler_inside args sid : holds e inside (_delete codec args u ext sid).
Proof.
  unfold _delete. intros w Hw. apply holds_existing; [|unfold arg_str; holds_walk|done].
  intros p. apply holds_bind; [unfold arg_str; holds_walk|intros path].
  apply holds_bind.
  - unfold delete_file, site_path, _project_stats. holds_walk. by apply inside_drop.
  - intros [deleted stats]. apply holds_bind; [|intros _; holds_walk].
    intros w1 [H1 H2]. split; [by apply holds_mutation|].
    unfold record. revert H2. apply (holds_bind e (fun d => d.(projects) !! (u, ext) = Some p)); [|intros rid].
    + by apply holds_silent.
    + holds_walk.
Qed.

Lemma site_execute_inside tool_name args sid : holds e inside (site_execute codec tool_name args u ext sid).
Proof.
  unfold site_execute. apply holds_try; [|intros [] k; cbn; try done; intros [= <-]; holds_walk].
  destruct (String.eqb tool_name TOOL_SITE_WRITE_FILE); [apply write_handler_inside|].
  destruct (String.eqb tool_name TOOL_SITE_PREVIEW); [unfold _preview, get_existing_project, py_time; holds_walk|].
  destruct (String.eqb tool_name TOOL_SITE_LIST); [unfold _list, get_existing_project, list_files, _project_stats; holds_walk|].
  destruct (String.eqb tool_name TOOL_SITE_READ); [unfold _read, get_existing_project, read_file, arg_str; holds_walk|].
  destruct (String.eqb tool_name TOOL_SITE_DELETE); [apply delete_handler_inside|]. holds_walk.
Qed.
End handlers.

(** C37: a site tool never leaves its project.  Whatever the tool, the
    model-supplied arguments and the outcome, a call made in a session of user
    [u] for project [ext] changes no project row but that one (which it may
    only create), no file of any other project, and nothing else in the
    database except mutation events of [u] appended to the audit log; and the
    configured limits on files per project, bytes per project and bytes per
    file, and the canonical form of every stored path, hold afterwards. *)
Theorem site_tools_stay_inside codec e w tool_name args u ext sid :
  site_inv e.(env_settings).(chat) w.(w_db) ->
  let w' := (site_execute codec tool_name args u ext sid e w).2 in
  site_frame u ext w.(w_db) w'.(w_db) /\ site_inv e.(env_settings).(chat) w'.(w_db).
Proof.
  intros Hi. apply (site_execute_inside codec e u ext w.(w_db) tool_name args sid). split; [|done].
  split; try done. exists []. by rewrite app_nil_r.
Qed.

(** A stored file is read back: after a write that succeeds, reading any
    path with the same normal form returns the very bytes and content type, the
    reported size is the number of bytes, and every other file is as before. *)
Theorem write_then_read e w p path path2 content ct r w' :
  write_file p path content ct e w = (inr r, w') -> normalize_site_path path2 = normalize_site_path path ->
  read_file p path2 e w' =
    (inr (Some (mkFileContent r.(wr_path) content ct (Z.of_nat (String.length content)))), w') /\
  r.(bytes_written) = Z.of_nat (String.length content) /\
  forall q path3, (q, path3) <> (p, r.(wr_path)) ->
    w'.(w_db).(site_files) !! (q, path3) = w.(w_db).(site_files) !! (q, path3).
Proof.
  intros Hw Hn. destruct (write_file_cases _ _ _ _ _ _ _ _ Hw) as [(x & [=] & _)|(n & Ha & -> & [= ->])].
  pose proof (wa_path _ _ _ _ _ _ _ Ha) as Hp. cbn [wr_path bytes_written]. split_and!; [|done|].
  - unfold read_file. rewrite Hn, Hp. unfold mbind, M_bind, get_db. cbn. by rewrite lookup_insert_eq.
  - intros q path3 Hne. cbn. by rewrite lookup_insert_ne.
Qed.

(** A codec for evaluation: texts are their own encodings. *)
Definition plain_codec : Codec :=
  mkCodec Some id id Some (fun k m => (k ++ ":" ++ m)%string) id Some
    (fun s => if Str.isdigit s then Some (Str.int_of_digits s) else None) Str.of_int (fun _ => "").

Definition site_world : World := world_of (set_projects {[ (alice, "shop") := 500%N ]} demo_db).

Lemma site_world_inv : site_inv chat_defaults site_world.(w_db).
Proof.
  split; [intros p; vm_compute; congruence..|]. intros p path f. vm_compute. by destruct p.
Qed.

Lemma site_tools_stay_inside_witness :
  let '(r, w') := site_execute plain_codec TOOL_SITE_WRITE_FILE
    [("path", JStr "./index.html"); ("content", JStr "hi"); ("contentType", JStr "text/html"); ("encoding", JStr "utf8")]
    alice "shop" alice_session demo_env site_world in
  (exists x, r = inr x /\ is_error x = false) /\ site_frame alice "shop" site_world.(w_db) w'.(w_db).
Proof.
  pose proof (site_tools_stay_inside plain_codec demo_env site_world TOOL_SITE_WRITE_FILE
    [("path", JStr "./index.html"); ("content", JStr "hi"); ("contentType", JStr "text/html"); ("encoding", JStr "utf8")]
    alice "shop" alice_session site_world_inv) as [H _].
  assert (exists x, (site_execute plain_codec TOOL_SITE_WRITE_FILE
    [("path", JStr "./index.html"); ("content", JStr "hi"); ("contentType", JStr "text/html"); ("encoding", JStr "utf8")]
    alice "shop" alice_session demo_env site_world).1 = inr x /\ is_error x = false) as Hr
    by (vm_compute; by eexists).
  destruct (site_execute _ _ _ _ _ _ _ _) as [r w']. split; [exact Hr|exact H].
Defined.

Lemma write_then_read_witness :
  let '(r, w') := write_file 500 "./index.html" "hi" "text/html" demo_env site_world in
  read_file 500 "index.html" demo_env w' = (inr (Some (mkFileContent "index.html" "hi" "text/html" 2)), w').
Proof.
  destruct (write_file 500 "./index.html" "hi" "text/html" demo_env site_world) as [[x|r] w'] eqn:E;
    [by vm_compute in E|].
  destruct (write_then_read demo_env site_world 500 "./index.html" "index.html" "hi" "text/html" r w' E eq_refl) as [H _].
  rewrite H. by vm_compute in E; injection E as <- _.
Defined.

(** ** Preview links *)

Section preview.
Context (codec : Codec).
Hypothesis b64_round_trip : forall s, urlsafe_b64decode codec (urlsafe_b64encode codec s) = Some s.
Hypothesis b64_no_dot : forall s, Str.has_char "." (urlsafe_b64encode codec s) = false.
Hypothesis int_round_trip : forall z, 0 <= z -> parse_int codec (Str.of_int z) = Some z.
(** No two messages with the same code under one key: HMAC-SHA256 has no
    collision that anybody can exhibit. *)
Hypothesis hmac_distinct : forall k m m', hmac_sha256 codec k m = hmac_sha256 codec k m' -> m = m'.

Lemma two_heads {A} (x y x' y' : A) l l' : x :: y :: l = x' :: y' :: l' -> x = x' /\ y = y'.
Proof. by intros [= -> ->]. Qed.

Lemma split_bar a r : Str.has_char "|" a = false -> Str.split "|" (a ++ "|" ++ r) = a :: Str.split "|" r.
Proof. apply Str.split_app_sep. Qed.

Lemma canonical_inj p o p' o' exp :
  (p < 2 ^ 128)%N -> (o < 2 ^ 128)%N -> (p' < 2 ^ 128)%N -> (o' < 2 ^ 128)%N ->
  _canonical p o exp = _canonical p' o' exp -> p = p' /\ o = o'.
Proof.
  intros H1 H2 H3 H4 E. apply (f_equal (Str.split "|")) in E. unfold _canonical in E.
  rewrite !split_bar in E by (by apply uuid_str_no_char).
  apply two_heads in E as [Ep Eo]. split; [by apply (uuid_str_inj p p')|by apply (uuid_str_inj o o')].
Qed.

(** A preview link opens exactly what it was made for: a token built for a
    project and its owner is accepted for that project and owner until its
    expiry, and for no other project, no other owner and no later time. *)
Theorem preview_link_bound cs p o p' o' issued now token exp :
  (p < 2 ^ 128)%N -> (o < 2 ^ 128)%N -> (p' < 2 ^ 128)%N -> (o' < 2 ^ 128)%N ->
  build_token codec cs p o issued = Some (token, exp) -> 0 <= exp ->
  exp = issued + cs.(preview_url_ttl_seconds) /\
  verify_token codec cs p' o' token now = Some (bool_decide (p' = p /\ o' = o /\ now <= exp)).
Proof.
  intros H1 H2 H3 H4. unfold build_token, verify_token, _sign. destruct (Str.nonempty _) eqn:Hs; [|done]. cbn.
  intros [= <- <-] He. split; [done|]. set (exp := issued + _) in *.
  change ("." ++ ?x)%string with (String "." x). rewrite Str.split_app_sep, Str.split_no_sep by apply b64_no_dot.
  rewrite !b64_round_trip. cbn. rewrite int_round_trip by done. cbn. f_equal.
  set (key := utf8_encode codec _). destruct (String.eqb_spec (hmac_sha256 codec key (_canonical p o exp))
    (hmac_sha256 codec key (_canonical p' o' exp))) as [E|E]; cbn.
  - apply hmac_distinct, canonical_inj in E as [-> ->]; [|done..].
    destruct (Z.leb_spec now exp); symmetry; [apply bool_decide_eq_true|apply bool_decide_eq_false]; naive_solver lia.
  - symmetry. apply bool_decide_eq_false. intros (-> & -> & _). done.
Qed.
End preview.

(** An encoding without dots: two hexadecimal digits for each character. *)
Fixpoint hex_text (s : string) : string :=
  match s with
  | EmptyString => EmptyString
  | String c s' => String (hex_digit (N_of_ascii c / 16)) (String (hex_digit (N_of_ascii c mod 16)) (hex_text s'))
  end.

Fixpoint unhex_text (s : string) : option string :=
  match s with
  | EmptyString => Some EmptyString
  | String a (String b s') =>
      x ← hex_val a; y ← hex_val b; r ← unhex_text s'; Some (String (ascii_of_N (16 * x + y)) r)
  | _ => None
  end.

Lemma unhex_hex s : unhex_text (hex_text s) = Some s.
Proof.
  induction s as [|c s IH]; [done|]. cbn [hex_text unhex_text]. pose proof (N_ascii_bounded c).
  destruct (hex_digit_val (N_of_ascii c / 16)) as [-> _]; [apply N.Div0.div_lt_upper_bound; lia|].
  destruct (hex_digit_val (N_of_ascii c mod 16)) as [-> _]; [by apply N.mod_lt|]. cbn. rewrite IH. cbn.
  rewrite <- N.div_mod by done. by rewrite ascii_N_embedding.
Qed.

Lemma hex_text_no_dot s : Str.has_char "." (hex_text s) = false.
Proof.
  apply all_hex_no_char; [done|]. induction s as [|c s IH]; [done|]. cbn [hex_text all_hex]. pose proof (N_ascii_bounded c).
  destruct (hex_digit_val (N_of_ascii c / 16)) as [_ ->]; [apply N.Div0.div_lt_upper_bound; lia|].
  destruct (hex_digit_val (N_of_ascii c mod 16)) as [_ ->]; [by apply N.mod_lt|]. exact IH.
Qed.

Definition hex_codec : Codec :=
  mkCodec Some id id Some (fun k m => (k ++ m)%string) hex_text unhex_text
    (fun s => if Str.isdigit s then Some (Str.int_of_digits s) else None) Str.of_int (fun _ => "").

Lemma preview_link_bound_witness :
  exists token exp, build_token hex_codec chat_defaults 500 alice 1700000000 = Some (token, exp) /\
    verify_token hex_codec chat_defaults 500 alice token 1700000900 = Some true /\
    verify_token hex_codec chat_defaults 500 bob token 1700000900 = Some false /\
    verify_token hex_codec chat_defaults 500 alice token 1700000901 = Some false.
Proof.
  assert (Hint : forall z, 0 <= z -> parse_int hex_codec (Str.of_int z) = Some z).
  { intros z Hz. destruct (of_int_digits z Hz) as (Hd & Hv & Hn). cbn. unfold Str.isdigit. by rewrite Hd, Hn, Hv. }
  assert (Hmac : forall k m m', hmac_sha256 hex_codec k m = hmac_sha256 hex_codec k m' -> m = m').
  { intros k m m'. apply Str.app_inv_head. }
  eexists _, _. split; [reflexivity|].
  split_and!.
  - etransitivity; [apply (preview_link_bound hex_codec unhex_hex hex_text_no_dot Hint Hmac chat_defaults 500 alice 500 alice
      1700000000); reflexivity || done|reflexivity].
  - etransitivity; [apply (preview_link_bound hex_codec unhex_hex hex_text_no_dot Hint Hmac chat_defaults 500 alice 500 bob
      1700000000); reflexivity || done|reflexivity].
  - etransitivity; [apply (preview_link_bound hex_codec unhex_hex hex_text_no_dot Hint Hmac chat_defaults 500 alice 500 alice
      1700000000); reflexivity || done|reflexivity].
Defined.
