(* ===== verification/Attachments.v ===== *)
(** * Inline attachments

    Models [src/app/chat/attachments.py] and [src/app/workspaces/text_extract.py]:
    the validation of inline base64 files, the content blocks built from them
    for each provider, and the placeholders that are stored in their place.

    [json.loads] and the PDF reader are parameters; a fixed text outside
    Latin-1 is written as its UTF-8 bytes. *)

From Stdlib Require Import Ascii String.
From S2P Require Import Prelude PyVal Redaction Store Fixtures ChatTools Website.

Open Scope string_scope.
Open Scope list_scope.
Open Scope Z_scope.

Definition _IMAGE_TYPES : list string := ["image/jpeg"; "image/png"; "image/gif"; "image/webp"].
Definition _DOCUMENT_TYPES : list string := ["application/pdf"].
Definition _TEXT_TYPES : list string := ["text/plain"; "text/markdown"; "text/csv"; "application/json"].

(** The classes of the schema's [Literal]. *)
Inductive attachment_type : Set := att_image | att_document | att_text.

Definition _ALLOWLIST (t : attachment_type) : list string :=
  match t with att_image => _IMAGE_TYPES | att_document => _DOCUMENT_TYPES | att_text => _TEXT_TYPES end.

Record AttachmentIn : Type := mkAttachmentIn {
  at_type : attachment_type;
  mediaType : string;
  filename : option string;
  data : string
}.

Definition bytes_of (l : list N) : string := string_of_list_ascii (ascii_of_N <$> l).

(** The magic numbers of an image or PDF type. *)
Definition _MAGIC_PREFIXES (media_type : string) : option (list string) :=
  if String.eqb media_type "image/jpeg" then Some [bytes_of [255; 216; 255]%N]
  else if String.eqb media_type "image/png" then Some [bytes_of [137; 80; 78; 71; 13; 10; 26; 10]%N]
  else if String.eqb media_type "image/gif" then Some ["GIF87a"; "GIF89a"]
  else if String.eqb media_type "application/pdf" then Some ["%PDF-"]
  else None.

Record PreparedAttachments : Type := mkPrepared { content_blocks : list dict; placeholders : list dict }.

Definition _max_bytes_for (t : attachment_type) (cs : ChatSettings) : Z :=
  match t with att_document => cs.(attachment_max_bytes_document) | _ => cs.(attachment_max_bytes_image) end.

(** [s.count("=")] of the last two characters. *)
Definition count_pad (s : string) : Z :=
  let tail := substring (String.length s - 2) 2 s in
  sumZ (fun c => if Ascii.eqb c "=" then 1 else 0) (list_ascii_of_string tail).

Definition _decoded_len_from_base64 (data : string) : Z :=
  let stripped := Str.strip data in
  let n := Z.of_nat (String.length stripped) in
  if n =? 0 then 0 else n / 4 * 3 - count_pad stripped.

(** What the PDF reader finds. *)
Inductive pdf_outcome : Type := pdf_encrypted | pdf_unreadable | pdf_pages (pages : list string).

Section attachments.
Context (codec : Codec) (json_loads_ok : string -> bool) (pdf_reader : string -> pdf_outcome).
Context (cs : ChatSettings).

Definition _decode_base64 (data : string) : exn + string :=
  match codec.(b64decode) data with
  | Some d => inr d
  | None => inl (ValidationFailedError "attachment data is not valid base64")
  end.

Definition mismatch : exn := ValidationFailedError "attachment content does not match declared mediaType".

Definition _check_magic_bytes (media_type decoded : string) : exn + unit :=
  if String.eqb media_type "image/webp" then
    if String.eqb (substring 0 4 decoded) "RIFF" && String.eqb (substring 8 4 decoded) "WEBP" then inr tt else inl mismatch
  else match _MAGIC_PREFIXES media_type with
       | None => inr tt
       | Some prefixes => if existsb (fun p => Str.startswith p decoded) prefixes then inr tt else inl mismatch
       end.

Definition _decode_text (media_type decoded : string) : exn + string :=
  match codec.(utf8_decode) decoded with
  | None => inl (ValidationFailedError "text attachment is not valid UTF-8")
  | Some text =>
      if String.eqb media_type "application/json" && negb (json_loads_ok text) then inl mismatch else inr text
  end.

Definition _check_pdf_pages (decoded : string) : exn + unit :=
  match pdf_reader decoded with
  | pdf_encrypted => inl (ValidationFailedError "password-protected PDF is not accepted")
  | pdf_unreadable => inl (ValidationFailedError "PDF could not be parsed")
  | pdf_pages pages =>
      if cs.(attachment_pdf_max_pages) <? Z.of_nat (length pages)
      then inl (ValidationFailedError "PDF exceeds the maximum allowed number of pages") else inr tt
  end.

Definition att_name (att : AttachmentIn) : string :=
  match att.(filename) with Some s => if Str.nonempty s then s else "file" | None => "file" end.

Definition double_quote : string := String "034" EmptyString.
Definition newline : string := String "010" EmptyString.

Definition _placeholder (att : AttachmentIn) (decoded_size : Z) : dict :=
  [("type", JStr "text");
   ("text", JStr ("[attachment: " ++ att.(mediaType) ++ " " ++ double_quote ++ att_name att ++ double_quote ++ ", " ++
                  Str.of_int decoded_size ++ "B — отправлено в первом обращении к модели]")%string)].

Definition _text_block (att : AttachmentIn) (text : option string) : dict :=
  [("type", JStr "text");
   ("text", JStr (att_name att ++ newline ++ "```" ++ newline ++ default "" text ++ newline ++ "```")%string)].

Definition base64_source (media_type data : string) : json :=
  JObj [("type", JStr "base64"); ("media_type", JStr media_type); ("data", JStr data)].

Definition data_uri (media_type data : string) : string := ("data:" ++ media_type ++ ";base64," ++ data)%string.

Definition _anthropic_content_block (att : AttachmentIn) (text : option string) : dict :=
  match att.(at_type) with
  | att_image => [("type", JStr "image"); ("source", base64_source att.(mediaType) att.(data))]
  | att_document => [("type", JStr "document"); ("source", base64_source "application/pdf" att.(data))]
  | att_text => _text_block att text
  end.

Definition _openai_content_block (att : AttachmentIn) (text : option string) : dict :=
  match att.(at_type) with
  | att_image => [("type", JStr "image_url"); ("image_url", JObj [("url", JStr (data_uri att.(mediaType) att.(data)))])]
  | att_document =>
      [("type", JStr "file");
       ("file", JObj [("filename", JStr (att_name att)); ("file_data", JStr (data_uri att.(mediaType) att.(data)))])]
  | att_text => _text_block att text
  end.

Definition _content_block (att : AttachmentIn) (text : option string) (provider : string) : dict :=
  if String.eqb provider "openai" then _openai_content_block att text else _anthropic_content_block att text.

Definition unsupported (media_type : string) : exn := ValidationFailedError ("unsupported_media_type: " ++ media_type)%string.

(** The loop of [prepare_attachments] from a running total. *)
Fixpoint prepare_rest (provider : string) (total_decoded : Z) (attachments : list AttachmentIn) :
    exn + PreparedAttachments :=
  match attachments with
  | [] => inr (mkPrepared [] [])
  | att :: rest =>
      if negb (member att.(mediaType) (_ALLOWLIST att.(at_type))) then inl (unsupported att.(mediaType))
      else
        let approx_decoded := _decoded_len_from_base64 att.(data) in
        if _max_bytes_for att.(at_type) cs <? approx_decoded
        then inl (ValidationFailedError "attachment exceeds the maximum size")
        else
          let total_decoded := total_decoded + approx_decoded in
          if cs.(attachment_total_bytes) <? total_decoded
          then inl (ValidationFailedError "attachments exceed the total size limit")
          else
            match _decode_base64 att.(data) with
            | inl x => inl x
            | inr decoded =>
                let checked : exn + option string :=
                  match att.(at_type) with
                  | att_image => match _check_magic_bytes att.(mediaType) decoded with inl x => inl x | inr _ => inr None end
                  | att_document =>
                      match _check_magic_bytes att.(mediaType) decoded with
                      | inl x => inl x
                      | inr _ => match _check_pdf_pages decoded with inl x => inl x | inr _ => inr None end
                      end
                  | att_text => match _decode_text att.(mediaType) decoded with inl x => inl x | inr t => inr (Some t) end
                  end in
                match checked with
                | inl x => inl x
                | inr text =>
                    match prepare_rest provider total_decoded rest with
                    | inl x => inl x
                    | inr p => inr (mkPrepared (_content_block att text provider :: p.(content_blocks))
                                      (_placeholder att (Z.of_nat (String.length decoded)) :: p.(placeholders)))
                    end
                end
            end
  end.

Definition prepare_attachments (attachments : list AttachmentIn) (provider : string) : exn + PreparedAttachments :=
  if cs.(attachment_max_count) <? Z.of_nat (length attachments) then inl (ValidationFailedError "too many attachments")
  else prepare_rest provider 0 attachments.

(** ** Workspace uploads *)

Record ExtractedFile : Type := mkExtracted { ef_content : string; ef_text : option string; ef_size : Z }.

Definition _extract_pdf_text (decoded : string) : exn + string :=
  match pdf_reader decoded with
  | pdf_pages parts => inr (Str.strip (Str.join (newline ++ newline)%string (filter (fun p => Is_true (Str.nonempty p)) parts)))
  | _ => inl (ValidationFailedError "PDF could not be parsed")
  end.

Definition validate_and_extract (req : AttachmentIn) : exn + ExtractedFile :=
  if negb (member req.(mediaType) (_ALLOWLIST req.(at_type))) then inl (unsupported req.(mediaType))
  else if cs.(workspace_file_max_bytes) <? _decoded_len_from_base64 req.(data)
  then inl (PayloadTooLargeError "file exceeds the maximum allowed size")
  else
    match _decode_base64 req.(data) with
    | inl x => inl x
    | inr decoded =>
        if cs.(workspace_file_max_bytes) <? Z.of_nat (String.length decoded)
        then inl (PayloadTooLargeError "file exceeds the maximum allowed size")
        else
          let extracted_text : exn + option string :=
            match req.(at_type) with
            | att_image => match _check_magic_bytes req.(mediaType) decoded with inl x => inl x | inr _ => inr None end
            | att_document =>
                match _check_magic_bytes req.(mediaType) decoded with
                | inl x => inl x
                | inr _ =>
                    match _check_pdf_pages decoded with
                    | inl x => inl x
                    | inr _ => match _extract_pdf_text decoded with inl x => inl x | inr t => inr (Some t) end
                    end
                end
            | att_text => match _decode_text req.(mediaType) decoded with inl x => inl x | inr t => inr (Some t) end
            end in
          match extracted_text with
          | inl x => inl x
          | inr t => inr (mkExtracted decoded t (Z.of_nat (String.length decoded)))
          end
    end.

(** ** What is accepted *)

(** Strict base64 carries three bytes in each four characters, less the padding. *)
Hypothesis b64_length : forall s d, b64decode codec s = Some d -> Z.of_nat (String.length d) <= _decoded_len_from_base64 s.

Record accepted_file (att : AttachmentIn) (decoded : string) : Prop := mkAcceptedFile {
  af_type : member att.(mediaType) (_ALLOWLIST att.(at_type)) = true;
  af_decoded : b64decode codec att.(data) = Some decoded;
  af_size : Z.of_nat (String.length decoded) <= _max_bytes_for att.(at_type) cs;
  af_magic : att.(at_type) <> att_text -> _check_magic_bytes att.(mediaType) decoded = inr tt;
  af_pages : att.(at_type) = att_document -> exists pages, pdf_reader decoded = pdf_pages pages /\
    Z.of_nat (length pages) <= cs.(attachment_pdf_max_pages);
  af_text : att.(at_type) = att_text -> is_Some (utf8_decode codec decoded)
}.

Lemma prepare_rest_accepts provider total atts p :
  prepare_rest provider total atts = inr p -> total <= cs.(attachment_total_bytes) ->
  exists files, Forall2 accepted_file atts files /\
    p.(placeholders) = zip_with (fun att d => _placeholder att (Z.of_nat (String.length d))) atts files /\
    length p.(content_blocks) = length atts /\
    total + sumZ (fun d => Z.of_nat (String.length d)) files <= cs.(attachment_total_bytes).
Proof.
  revert total p. induction atts as [|att atts IH]; intros total p; cbn [prepare_rest].
  { intros [= <-] Ht. exists []. split_and!; [constructor|done..|]. rewrite sumZ_nil. lia. }
  destruct (member _ _) eqn:Em; [|done]. cbn [negb]. destruct (_max_bytes_for _ _ <? _) eqn:Es; [done|].
  destruct (attachment_total_bytes cs <? _) eqn:Et; [done|]. zify_bool.
  unfold _decode_base64. destruct (b64decode codec (data att)) as [decoded|] eqn:Ed; [|done].
  pose proof (b64_length _ _ Ed) as Hlen. intros H Ht.
  assert (exists text, (match at_type att with
      | att_image => match _check_magic_bytes (mediaType att) decoded with inl x => inl x | inr _ => inr None end
      | att_document => match _check_magic_bytes (mediaType att) decoded with
          | inl x => inl x | inr _ => match _check_pdf_pages decoded with inl x => inl x | inr _ => inr None end end
      | att_text => match _decode_text (mediaType att) decoded with inl x => inl x | inr t => inr (Some t) end
      end = (inr text : exn + option string)) /\
      match prepare_rest provider (total + _decoded_len_from_base64 (data att)) atts with
      | inl x => inl x
      | inr p => inr (mkPrepared (_content_block att text provider :: p.(content_blocks))
                  (_placeholder att (Z.of_nat (String.length decoded)) :: p.(placeholders)))
      end = inr p) as (text & Hc & Hr).
  { revert H. destruct (match at_type att with att_image => _ | att_document => _ | att_text => _ end) as [x|text]; [done|].
    intros H. by exists text. }
  clear H. destruct (prepare_rest _ _ atts) as [x|q] eqn:Eq; [done|]. injection Hr as <-.
  destruct (IH _ _ Eq) as (files & Hf & Hp & Hl & Hs); [lia|]. exists (decoded :: files). cbn.
  rewrite Hp, Hl, sumZ_cons. split_and!; [|done..|lia]. constructor; [|done]. split; [done|done|lia|..].
  - intros Hn. destruct (at_type att); [..|done]; by destruct (_check_magic_bytes _ _) as [|[]].
  - intros Hn. rewrite Hn in Hc. destruct (_check_magic_bytes _ _); [done|]. revert Hc. unfold _check_pdf_pages.
    destruct (pdf_reader decoded) as [| |pages]; [done..|]. destruct (_ <? _) eqn:Hpg; [done|]. zify_bool. by exists pages.
  - intros Hn. rewrite Hn in Hc. revert Hc. unfold _decode_text. by destruct (utf8_decode codec decoded).
Qed.

(** What passes the attachment check is what the limits allow: there are
    at most the configured number of files, every file is well-formed base64 of
    an allowed type whose bytes carry that type's signature (a document within
    the page limit, a text in UTF-8), each is within its class's size and all
    together within the total; and what is stored for them is one placeholder
    per file, computed from its name, type and size only. *)
Theorem attachments_within_limits atts provider p :
  0 <= cs.(attachment_total_bytes) -> prepare_attachments atts provider = inr p ->
  Z.of_nat (length atts) <= cs.(attachment_max_count) /\
  exists files, Forall2 accepted_file atts files /\
    p.(placeholders) = zip_with (fun att d => _placeholder att (Z.of_nat (String.length d))) atts files /\
    length p.(content_blocks) = length atts /\
    sumZ (fun d => Z.of_nat (String.length d)) files <= cs.(attachment_total_bytes).
Proof.
  intros Ht. unfold prepare_attachments. destruct (_ <? _) eqn:E; [done|]. zify_bool. intros H.
  split; [done|]. destruct (prepare_rest_accepts _ _ _ _ H Ht) as (files & ? & ? & ? & ?).
  exists files. split_and!; [done..|lia].
Qed.
End attachments.

(** A decoder that knows one file. *)
Definition demo_codec : Codec :=
  mkCodec (fun s => if String.eqb s "JVBERi0x" then Some "%PDF-1" else None) id id Some (fun k m => (k ++ m)%string)
    hex_text unhex_text (fun _ => None) Str.of_int (fun _ => "").

Lemma attachments_within_limits_witness :
  exists p, prepare_attachments demo_codec (fun _ => true) (fun _ => pdf_pages ["one"]) chat_defaults
              [mkAttachmentIn att_document "application/pdf" None "JVBERi0x"] "anthropic" = inr p /\
    length p.(placeholders) = 1%nat.
Proof.
  eexists. split; [reflexivity|].
  destruct (attachments_within_limits demo_codec (fun _ => true) (fun _ => pdf_pages ["one"]) chat_defaults) with
    (atts := [mkAttachmentIn att_document "application/pdf" None "JVBERi0x"]) (provider := "anthropic")
    (p := mkPrepared [_anthropic_content_block (mkAttachmentIn att_document "application/pdf" None "JVBERi0x") None]
            [_placeholder (mkAttachmentIn att_document "application/pdf" None "JVBERi0x") 6]) as (_ & files & Hf & Hp & _).
  - intros s d. cbn. destruct (String.eqb_spec s "JVBERi0x") as [->|]; [intros [= <-]; vm_compute; congruence|done].
  - vm_compute. congruence.
  - reflexivity.
  - inversion Hf as [|? ? ? ? _ Hn]; subst. inversion Hn; subst. reflexivity.
Defined.
