(* ===== verification/Workspaces.v ===== *)
(** * Workspaces and preferences

    Models [src/app/workspaces] (cursor.py, repository.py, service.py) and
    [src/app/preferences/service.py].

    Text of dates and base64 are the record [CursorCodec]; the extraction of an
    upload is [Attachments.validate_and_extract]. *)

From Stdlib Require Import Ascii String.
From stdpp Require Import sorting.
From S2P Require Import Prelude PyVal Redaction Store AuditTrail Logic Fixtures Wallet WalletRun WalletSpec WalletInv Uuid.
From S2P Require Import Pagination ChatTools Website Attachments.

Open Scope string_scope.
Open Scope list_scope.
Open Scope Z_scope.

(** ** Preferences *)

Module Preferences.
Definition DEFAULT_ASSISTANT_MODE : string := "chat".

Definition _defaults : UserPreferences := mkUserPreferences DEFAULT_ASSISTANT_MODE false [].

Definition _load (u : uuid) : M (option UserPreferences) := d ← get_db; mret (d.(user_preferences) !! u).

Definition get (u : uuid) : M UserPreferences :=
  row ← _load u;
  mret (match row with None => _defaults | Some r => r end).

Definition patch (u : uuid) (default_assistant_mode : option string) (notifications_enabled : option bool)
    (code_defaults : option dict) : M UserPreferences :=
  row ← _load u;
  let base := match row with None => _defaults | Some r => r end in
  let r := mkUserPreferences (default base.(up_default_assistant_mode) default_assistant_mode)
             (default base.(up_notifications_enabled) notifications_enabled)
             (default base.(up_code_defaults) code_defaults) in
  d ← get_db;
  check_constraint (user_exists d u);;
  modify_db (fun d => set_user_preferences (<[u := r]> d.(user_preferences)) d);;
  commit;;
  mret r.

Definition get_default_assistant_mode (u : uuid) : M string :=
  row ← _load u;
  mret (match row with None => DEFAULT_ASSISTANT_MODE | Some r => r.(up_default_assistant_mode) end).
End Preferences.

(** ** The cursor *)

Record CursorCodec : Type := mkCursorCodec {
  isoformat : instant -> string;
  fromisoformat : string -> option instant;
  cursor_b64encode : string -> string;
  cursor_b64decode : string -> option string
}.

(** [raw.split(c, 1)] when the separator occurs. *)
Fixpoint split_once (sep : ascii) (s : string) : option (string * string) :=
  match s with
  | EmptyString => None
  | String c s' =>
      if Ascii.eqb c sep then Some (EmptyString, s')
      else '(a, b) ← split_once sep s'; Some (String c a, b)
  end.

Record WorkspaceCursor : Type := mkWorkspaceCursor { wc_updated_at : instant; wc_id : uuid }.

Section cursor.
Context (cc : CursorCodec).

Definition encode_workspace_cursor (c : WorkspaceCursor) : string :=
  cc.(cursor_b64encode) (cc.(isoformat) c.(wc_updated_at) ++ "|" ++ uuid_str c.(wc_id))%string.

(** [None] is [InvalidCursorError]. *)
Definition decode_workspace_cursor (value : string) : option WorkspaceCursor :=
  raw ← cc.(cursor_b64decode) value;
  '(updated_str, id_str) ← split_once "|" raw;
  updated ← cc.(fromisoformat) updated_str;
  id ← UUID id_str;
  Some (mkWorkspaceCursor updated id).
End cursor.

(** ** The repository *)

Record WorkspaceListItem : Type := mkWorkspaceListItem {
  wl_id : uuid; wl_workspace : WorkspaceProject; wl_file_count : Z; wl_chat_count : Z
}.

(** The sort key of a row; newest first, ties by descending id. *)
Notation ws_key := (instant * uuid)%type.
Definition ws_before (a b : ws_key) : Prop := b.1 < a.1 \/ (b.1 = a.1 /\ (b.2 < a.2)%N).
#[global] Instance ws_before_dec : RelDecision ws_before.
Proof. intros a b. unfold ws_before. apply _. Defined.

Definition file_of (workspace_id : uuid) (kv : uuid * WorkspaceFile) : Prop :=
  kv.2.(wf_workspace_project_id) = workspace_id.
#[global] Instance file_of_dec x : forall kv, Decision (file_of x kv).
Proof. intros kv. unfold file_of. apply _. Defined.

Definition files_of (d : Db) (workspace_id : uuid) : list (uuid * WorkspaceFile) :=
  filter (file_of workspace_id) (map_to_list d.(workspace_files)).

Definition by_created (a b : uuid * WorkspaceFile) : Prop :=
  a.2.(wf_created_at) < b.2.(wf_created_at) \/
  (a.2.(wf_created_at) = b.2.(wf_created_at) /\ (a.1 <= b.1)%N).
#[global] Instance by_created_dec : RelDecision by_created.
Proof. intros a b. unfold by_created. apply _. Defined.

Module WorkspacesRepo.
Definition create_workspace (u : uuid) (name : string) (description instructions : option string) :
    M (uuid * WorkspaceProject) :=
  d ← get_db;
  id ← gen_random_uuid;
  now ← pg_now;
  let row := mkWorkspaceProject u name description instructions now now in
  check_constraint (user_exists d u);;
  check_constraint (match d.(workspace_projects) !! id with None => true | Some _ => false end);;
  modify_db (fun d => set_workspace_projects (<[id := row]> d.(workspace_projects)) d);;
  commit;;
  mret (id, row).

Definition get_workspace (workspace_id u : uuid) : M (option WorkspaceProject) :=
  d ← get_db;
  mret (match d.(workspace_projects) !! workspace_id with
        | Some wp => if N.eqb wp.(wp_user_id) u then Some wp else None
        | None => None
        end).

Definition get_instructions (workspace_id u : uuid) : M (option string) :=
  wp ← get_workspace workspace_id u;
  mret (match wp with Some wp => wp.(wp_instructions) | None => None end).

(** The keys of the owner's rows. *)
Definition owned_keys (d : Db) (u : uuid) : list ws_key :=
  (fun kv : uuid * WorkspaceProject => (kv.2.(wp_updated_at), kv.1)) <$>
    filter (fun kv => kv.2.(wp_user_id) = u) (map_to_list d.(workspace_projects)).

Definition list_item (d : Db) (k : ws_key) : option WorkspaceListItem :=
  wp ← d.(workspace_projects) !! k.2;
  Some (mkWorkspaceListItem k.2 wp (Z.of_nat (length (files_of d k.2)))
          (Z.of_nat (length (filter (fun kv : uuid * ChatSession => kv.2.(cs_workspace_project_id) = Some k.2)
                               (map_to_list d.(chat_sessions)))))).

Definition list_workspaces (u : uuid) (cursor : option WorkspaceCursor) (limit : nat) :
    M (list WorkspaceListItem * option WorkspaceCursor) :=
  d ← get_db;
  let c := (fun c => (c.(wc_updated_at), c.(wc_id))) <$> cursor in
  let '(page, next) := page_of ws_before limit c (owned_keys d u) in
  mret (omap (list_item d) page, (fun k : ws_key => mkWorkspaceCursor k.1 k.2) <$> next).

Definition update_workspace (workspace_id : uuid) (wp : WorkspaceProject) (name : option string)
    (set_description : bool) (description : option string) (set_instructions : bool) (instructions : option string) :
    M WorkspaceProject :=
  now ← py_now;
  let row := mkWorkspaceProject wp.(wp_user_id) (default wp.(wp_name) name)
               (if set_description then description else wp.(wp_description))
               (if set_instructions then instructions else wp.(wp_instructions)) wp.(wp_created_at) now in
  modify_db (fun d => set_workspace_projects (<[workspace_id := row]> d.(workspace_projects)) d);;
  commit;;
  mret row.

(** ON DELETE SET NULL of the chats, ON DELETE CASCADE of the files. *)
Definition unbind (workspace_id : uuid) (s : ChatSession) : ChatSession :=
  if bool_decide (s.(cs_workspace_project_id) = Some workspace_id)
  then mkChatSession s.(cs_user_id) s.(cs_project_id) s.(cs_mode) s.(cs_model) s.(cs_title) s.(cs_assistant_mode) None
         s.(cs_is_pinned) s.(cs_created_at) s.(cs_updated_at)
  else s.

Definition delete_workspace (workspace_id u : uuid) : M bool :=
  wp ← get_workspace workspace_id u;
  match wp with
  | None => commit;; mret false
  | Some _ =>
      modify_db (fun d =>
        set_workspace_projects (delete workspace_id d.(workspace_projects))
          (set_workspace_files (filter (fun kv => ~ file_of workspace_id kv) d.(workspace_files))
             (set_chat_sessions (unbind workspace_id <$> d.(chat_sessions)) d)));;
      commit;;
      mret true
  end.

Definition list_files (workspace_id : uuid) : M (list (uuid * WorkspaceFile)) :=
  d ← get_db; mret (merge_sort by_created (files_of d workspace_id)).

Definition file_count (workspace_id : uuid) : M Z := d ← get_db; mret (Z.of_nat (length (files_of d workspace_id))).

Definition total_bytes (workspace_id : uuid) : M Z :=
  d ← get_db; mret (sumZ (fun kv => kv.2.(wf_size)) (files_of d workspace_id)).

Definition add_file (workspace_id : uuid) (filename content media_type : string) (size : Z)
    (extracted_text : option string) : M (uuid * WorkspaceFile) :=
  d ← get_db;
  id ← gen_random_uuid;
  now ← pg_now;
  size ← int8 size;
  let row := mkWorkspaceFile workspace_id filename content media_type size extracted_text now in
  check_constraint (match d.(workspace_projects) !! workspace_id with Some _ => true | None => false end);;
  check_constraint (match d.(workspace_files) !! id with None => true | Some _ => false end);;
  modify_db (fun d => set_workspace_files (<[id := row]> d.(workspace_files)) d);;
  commit;;
  mret (id, row).

Definition get_file (workspace_id file_id : uuid) : M (option WorkspaceFile) :=
  d ← get_db;
  mret (match d.(workspace_files) !! file_id with
        | Some f => if N.eqb f.(wf_workspace_project_id) workspace_id then Some f else None
        | None => None
        end).

Definition delete_file (workspace_id file_id : uuid) : M bool :=
  f ← get_file workspace_id file_id;
  match f with
  | None => commit;; mret false
  | Some _ => modify_db (fun d => set_workspace_files (delete file_id d.(workspace_files)) d);; commit;; mret true
  end.
End WorkspacesRepo.

(** ** The service *)

Module Workspaces.
Import WorkspacesRepo.

Record WorkspaceFileView : Type := mkFileView {
  fv_id : uuid; fv_filename : string; fv_media_type : string; fv_size : Z; has_extracted_text : bool;
  fv_created_at : instant
}.

Definition _file_view (kv : uuid * WorkspaceFile) : WorkspaceFileView :=
  mkFileView kv.1 kv.2.(wf_filename) kv.2.(wf_media_type) kv.2.(wf_size)
    (match kv.2.(wf_extracted_text) with Some t => Str.nonempty t | None => false end) kv.2.(wf_created_at).

(** [x or None] of a text. *)
Definition or_none (o : option string) : option string :=
  match o with Some s => if Str.nonempty s then Some s else None | None => None end.

Definition create (u : uuid) (name : string) (description instructions : option string) : M (uuid * WorkspaceProject) :=
  create_workspace u (Str.strip name) description instructions.

Definition list_workspaces (cc : CursorCodec) (u : uuid) (cursor : option string) (limit : nat) :
    M (list WorkspaceListItem * option string) :=
  decoded ← (match or_none cursor with
             | Some c =>
                 match decode_workspace_cursor cc c with
                 | Some c => mret (Some c)
                 | None => raise (ValidationFailedError "invalid cursor")
                 end
             | None => mret None
             end : M (option WorkspaceCursor));
  r ← WorkspacesRepo.list_workspaces u decoded limit;
  mret (r.1, encode_workspace_cursor cc <$> r.2).

Definition _require_workspace (workspace_id u : uuid) : M WorkspaceProject :=
  wp ← get_workspace workspace_id u;
  match wp with None => raise (NotFoundError "workspace not found") | Some wp => mret wp end.

Definition get_detail (workspace_id u : uuid) : M (WorkspaceProject * list WorkspaceFileView) :=
  wp ← _require_workspace workspace_id u;
  files ← WorkspacesRepo.list_files workspace_id;
  mret (wp, _file_view <$> files).

Definition update (workspace_id u : uuid) (name : option string) (set_description : bool) (description : option string)
    (set_instructions : bool) (instructions : option string) : M (WorkspaceProject * list WorkspaceFileView) :=
  wp ← _require_workspace workspace_id u;
  updated ← update_workspace workspace_id wp (Str.strip <$> name) set_description description set_instructions instructions;
  files ← WorkspacesRepo.list_files workspace_id;
  mret (updated, _file_view <$> files).

Definition delete (workspace_id u : uuid) : M unit :=
  deleted ← delete_workspace workspace_id u;
  match deleted with true => mret tt | false => raise (NotFoundError "workspace not found") end.

Section upload.
Context (codec : Codec) (json_loads_ok : string -> bool) (pdf_reader : string -> pdf_outcome).

Definition upload_file (workspace_id u : uuid) (name : string) (req : AttachmentIn) : M WorkspaceFileView :=
  _ ← _require_workspace workspace_id u;
  s ← settings;
  count ← file_count workspace_id;
  if s.(chat).(workspace_file_max_count) <=? count
  then raise (ValidationFailedError "workspace file count limit exceeded")
  else
    match validate_and_extract codec json_loads_ok pdf_reader s.(chat) req with
    | inl x => raise x
    | inr extracted =>
        current_total ← total_bytes workspace_id;
        if s.(chat).(workspace_files_total_bytes) <? current_total + extracted.(ef_size)
        then raise (ValidationFailedError "workspace total size limit exceeded")
        else
          row ← add_file workspace_id name extracted.(ef_content) req.(mediaType) extracted.(ef_size) extracted.(ef_text);
          mret (_file_view row)
    end.

Definition list_files (workspace_id u : uuid) : M (list WorkspaceFileView) :=
  _ ← _require_workspace workspace_id u;
  files ← WorkspacesRepo.list_files workspace_id;
  mret (_file_view <$> files).

Definition delete_file (workspace_id u file_id : uuid) : M unit :=
  _ ← _require_workspace workspace_id u;
  deleted ← WorkspacesRepo.delete_file workspace_id file_id;
  match deleted with true => mret tt | false => raise (NotFoundError "file not found") end.

(** ** What the orchestrator asks *)

Definition owns_workspace (workspace_id u : uuid) : M bool :=
  wp ← get_workspace workspace_id u;
  mret (match wp with Some _ => true | None => false end).

Definition instructions_for_session (workspace_id u : uuid) : M (option string) :=
  i ← get_instructions workspace_id u;
  mret (or_none i).

Definition _image_block (f : WorkspaceFile) (provider : string) : dict :=
  let data := codec.(b64encode) f.(wf_content) in
  if String.eqb provider "openai"
  then [("type", JStr "image_url"); ("image_url", JObj [("url", JStr (data_uri f.(wf_media_type) data))])]
  else [("type", JStr "image"); ("source", base64_source f.(wf_media_type) data)].

Definition file_header (filename : string) : string := ("[Файл проекта: " ++ filename ++ "]" ++ newline)%string.

(** The loop of [_build_file_attachments] with the characters already used. *)
Fixpoint file_blocks (max_chars used : nat) (provider : string) (files : list (uuid * WorkspaceFile)) : list dict :=
  match files with
  | [] => []
  | (_, f) :: rest =>
      if member f.(wf_media_type) _IMAGE_TYPES then _image_block f provider :: file_blocks max_chars used provider rest
      else match or_none f.(wf_extracted_text) with
           | None => file_blocks max_chars used provider rest
           | Some text =>
               if (max_chars <=? used)%nat then file_blocks max_chars used provider rest
               else
                 let snippet := substring 0 (max_chars - used) text in
                 [("type", JStr "text"); ("text", JStr (file_header f.(wf_filename) ++ snippet)%string)]
                   :: file_blocks max_chars (used + String.length snippet) provider rest
           end
  end.

Definition _build_file_attachments (max_chars : N) (files : list (uuid * WorkspaceFile)) (provider : string) :
    option PreparedAttachments :=
  match file_blocks (N.to_nat max_chars) 0 provider files with
  | [] => None
  | blocks => Some (mkPrepared blocks [])
  end.

Record WorkspaceContext : Type := mkWorkspaceContext {
  wx_instructions : option string; wx_attachments : option PreparedAttachments
}.

Definition context_for_session (workspace_id u : uuid) (provider : string) : M (option WorkspaceContext) :=
  wp ← get_workspace workspace_id u;
  match wp with
  | None => mret None
  | Some wp =>
      files ← WorkspacesRepo.list_files workspace_id;
      s ← settings;
      mret (Some (mkWorkspaceContext (or_none wp.(wp_instructions))
                    (_build_file_attachments s.(chat).(workspace_context_max_chars) files provider)))
  end.
End upload.
End Workspaces.

(** ** Money is not touched *)

#[export] Instance preferences_patch_books u m n c : KeepsBooks (Preferences.patch u m n c).
Proof. unfold KeepsBooks, Preferences.patch, Preferences._load. keeps_walk. Qed.

(** ** Reading every page *)

Lemma split_once_app sep a b : Str.has_char sep a = false -> split_once sep (a ++ String sep b)%string = Some (a, b).
Proof.
  induction a as [|c a IH].
  - intros _. change (""%string ++ String sep b)%string with (String sep b). cbn. by rewrite Ascii.eqb_refl.
  - rewrite Str.app_cons. cbn. intros [Hc Ha]%orb_false_elim. by rewrite Hc, (IH Ha).
Qed.

#[global] Instance ws_before_strict : StrictOrder ws_before.
Proof. split; [intros [a b] [H|H]; cbn in H; lia|]. intros [a1 b1] [a2 b2] [a3 b3]. unfold ws_before. cbn. lia. Qed.

Lemma ws_before_trich x y : ws_before x y \/ x = y \/ ws_before y x.
Proof.
  destruct x as [a b], y as [a' b']. unfold ws_before. cbn.
  destruct (decide (a = a')) as [->|]; [|lia]. destruct (decide (b = b')) as [->|]; [auto|lia].
Qed.

Lemma owned_keys_nodup d u : NoDup (WorkspacesRepo.owned_keys d u).
Proof.
  unfold WorkspacesRepo.owned_keys. apply (NoDup_fmap_1 snd). rewrite <- list_fmap_compose.
  apply (NoDup_fmap_2_strong _ _); [|apply NoDup_filter, NoDup_map_to_list].
  intros [i x] [j y] [_ Hx%elem_of_map_to_list]%list_elem_of_filter [_ Hy%elem_of_map_to_list]%list_elem_of_filter.
  cbn. intros ->. congruence.
Qed.

Section paging.
Context (cc : CursorCodec).
Hypothesis iso_round_trip : forall t, fromisoformat cc (isoformat cc t) = Some t.
Hypothesis iso_no_bar : forall t, Str.has_char "|" (isoformat cc t) = false.
Hypothesis b64_round_trip : forall s, cursor_b64decode cc (cursor_b64encode cc s) = Some s.
Hypothesis b64_nonempty : forall s, Str.nonempty s = true -> Str.nonempty (cursor_b64encode cc s) = true.

Lemma workspace_cursor_round_trip c :
  (c.(wc_id) < 2 ^ 128)%N -> decode_workspace_cursor cc (encode_workspace_cursor cc c) = Some c.
Proof.
  intros Hi. unfold decode_workspace_cursor, encode_workspace_cursor. rewrite b64_round_trip. cbn [mbind option_bind].
  change ("|" ++ uuid_str (wc_id c))%string with (String "|" (uuid_str (wc_id c))).
  rewrite split_once_app by apply iso_no_bar. cbn. rewrite iso_round_trip, UUID_uuid_str by done. by destruct c.
Qed.

Lemma encode_nonempty c : Str.nonempty (encode_workspace_cursor cc c) = true.
Proof.
  apply b64_nonempty. destruct (isoformat cc (wc_updated_at c)) as [|x s]; [done|]. by rewrite Str.app_cons.
Qed.

(** A client that reads page after page, giving each page's cursor back. *)
Fixpoint read_pages (fuel limit : nat) (u : uuid) (cursor : option string) : M (list WorkspaceListItem * bool) :=
  match fuel with
  | O => mret ([], false)
  | S fuel' =>
      r ← Workspaces.list_workspaces cc u cursor limit;
      match r.2 with
      | None => mret (r.1, true)
      | Some c => rest ← read_pages fuel' limit u (Some c); mret (r.1 ++ rest.1, rest.2)
      end
  end.

Lemma read_pages_follow e w u limit fuel c :
  (forall id wp, w.(w_db).(workspace_projects) !! id = Some wp -> (id < 2 ^ 128)%N) ->
  (forall k : ws_key, c = Some k -> (k.2 < 2 ^ 128)%N) ->
  read_pages fuel limit u ((fun k : ws_key => encode_workspace_cursor cc (mkWorkspaceCursor k.1 k.2)) <$> c) e w =
  (inr (let '(keys, done) := follow ws_before fuel limit c (WorkspacesRepo.owned_keys w.(w_db) u) in
        (omap (WorkspacesRepo.list_item w.(w_db)) keys, done)), w).
Proof.
  intros Hid. revert c. induction fuel as [|fuel IH]; intros c Hc; [done|]. cbn [read_pages follow].
  assert (Workspaces.list_workspaces cc u
            ((fun k : ws_key => encode_workspace_cursor cc (mkWorkspaceCursor k.1 k.2)) <$> c) limit e w =
          (inr (let '(page, next) := page_of ws_before limit c (WorkspacesRepo.owned_keys w.(w_db) u) in
                (omap (WorkspacesRepo.list_item w.(w_db)) page,
                 (fun k : ws_key => encode_workspace_cursor cc (mkWorkspaceCursor k.1 k.2)) <$> next)), w)) as Hpage.
  { unfold Workspaces.list_workspaces, WorkspacesRepo.list_workspaces.
    rewrite (bind_inr _ _ e w ((fun k : ws_key => mkWorkspaceCursor k.1 k.2) <$> c) w).
    - unfold mbind, M_bind, get_db. destruct c as [[t i]|]; cbn [fmap option_fmap option_map wc_updated_at wc_id fst snd];
        destruct (page_of _ _ _ _) as [page [k|]]; done.
    - destruct c as [[t i]|]; [|done]. cbn. rewrite encode_nonempty, workspace_cursor_round_trip; [done|]. by apply (Hc (t, i)). }
  destruct (page_of ws_before limit c (WorkspacesRepo.owned_keys w.(w_db) u)) as [page next] eqn:Ep.
  rewrite (bind_inr _ _ e w _ w Hpage). cbn beta. destruct next as [k|]; cbn [fst snd fmap option_fmap option_map]; [|done].
  assert (Hk : forall k', Some k = Some k' -> (k'.2 < 2 ^ 128)%N).
  { intros k' [= <-]. unfold page_of in Ep. injection Ep as <- Ek. destruct (_ <? _)%nat; [|done].
    apply last_Some_elem_of in Ek. apply elem_of_take in Ek as (i & Ek & _). apply list_elem_of_lookup_2 in Ek.
    apply elem_of_take in Ek as (j & Ek & _). apply list_elem_of_lookup_2 in Ek.
    assert (k ∈ WorkspacesRepo.owned_keys w.(w_db) u) as Hin.
    { unfold order_rows in Ek. rewrite merge_sort_Permutation in Ek. destruct c; cbn in Ek; [|done].
      by apply list_elem_of_filter in Ek as [_ Ek]. }
    apply list_elem_of_fmap in Hin as ([i' wp] & -> & [_ Hin%elem_of_map_to_list]%list_elem_of_filter). by eapply Hid. }
  specialize (IH (Some k) Hk). cbn [fmap option_fmap option_map] in IH. rewrite (bind_inr _ _ e w _ w IH). cbn beta.
  destruct (follow ws_before fuel limit (Some k) _) as [rest fin]. by rewrite omap_app.
Qed.

(** Following the cursors of the workspace list reads it all: with any
    positive page size, a client that sends back each opaque cursor as it got
    it terminates after at most one page per workspace and one more, and has
    then read every workspace of the user exactly once, newest first (ties by
    id), and no one else's; the reading changes nothing. *)
Theorem workspace_pages_complete e w u limit fuel :
  (0 < limit)%nat -> (forall id wp, w.(w_db).(workspace_projects) !! id = Some wp -> (id < 2 ^ 128)%N) ->
  (length (WorkspacesRepo.owned_keys w.(w_db) u) < fuel)%nat ->
  exists items, read_pages fuel limit u None e w = (inr (items, true), w) /\
    wl_id <$> items = snd <$> order_rows ws_before (WorkspacesRepo.owned_keys w.(w_db) u) /\
    NoDup (wl_id <$> items) /\
    forall id, id ∈ (wl_id <$> items) <-> exists wp, w.(w_db).(workspace_projects) !! id = Some wp /\ wp.(wp_user_id) = u.
Proof.
  intros Hl Hid Hf. pose proof (read_pages_follow e w u limit fuel None Hid) as H. cbn in H.
  rewrite H by done. clear H. rewrite (follow_complete ws_before ws_before_trich); [|apply owned_keys_nodup|done|].
  2: { unfold remaining, order_rows. cbn. by rewrite merge_sort_Permutation. }
  unfold remaining. cbn [after_cursor]. set (keys := order_rows ws_before _). eexists. split; [reflexivity|].
  assert (Hp : keys ≡ₚ WorkspacesRepo.owned_keys w.(w_db) u) by apply merge_sort_Permutation.
  assert (Hall : forall k, k ∈ keys -> exists wp, w.(w_db).(workspace_projects) !! k.2 = Some wp /\ wp.(wp_user_id) = u).
  { intros k Hk. rewrite Hp in Hk.
    apply list_elem_of_fmap in Hk as ([i wp] & -> & [Hu Hin%elem_of_map_to_list]%list_elem_of_filter). by exists wp. }
  assert (E : wl_id <$> omap (WorkspacesRepo.list_item w.(w_db)) keys = snd <$> keys).
  { clear Hp. induction keys as [|k keys IH]; [done|]. destruct (Hall k) as (wp & Hwp & _); [left|]. cbn.
    unfold WorkspacesRepo.list_item at 1. rewrite Hwp. cbn. f_equal. apply IH. intros k' Hk'. apply Hall. by right. }
  rewrite E. split_and!; [done| |].
  - rewrite Hp. apply (NoDup_fmap_2_strong _ _); [|apply owned_keys_nodup].
    intros x y Hx Hy Exy. apply list_elem_of_fmap in Hx as ([i a] & -> & [_ Hi%elem_of_map_to_list]%list_elem_of_filter).
    apply list_elem_of_fmap in Hy as ([j b] & -> & [_ Hj%elem_of_map_to_list]%list_elem_of_filter). cbn in Exy. subst j.
    congruence.
  - intros id. split.
    + intros (k & -> & Hk)%list_elem_of_fmap. by apply Hall.
    + intros (wp & Hwp & Hu). apply list_elem_of_fmap. exists (wp.(wp_updated_at), id). split; [done|]. rewrite Hp.
      apply list_elem_of_fmap. exists (id, wp). split; [done|]. apply list_elem_of_filter. split; [done|].
      by apply elem_of_map_to_list.
Qed.
End paging.

Definition demo_cursors : CursorCodec := mkCursorCodec demo_isoformat demo_fromisoformat id Some.

(** Alice has three workspaces, two of them of the same age; Bob has one. *)
Definition ws_world : World :=
  world_of (set_workspace_projects
    (<[11%N := mkWorkspaceProject alice "a" None None 5 5]> (<[12%N := mkWorkspaceProject alice "b" None None 9 9]>
      (<[13%N := mkWorkspaceProject alice "c" None None 5 5]> {[14%N := mkWorkspaceProject bob "d" None None 7 7]}))) demo_db).

Lemma workspace_pages_complete_witness :
  exists items, read_pages demo_cursors 4 2 alice None demo_env ws_world = (inr (items, true), ws_world) /\
    wl_id <$> items = [12; 13; 11]%N.
Proof.
  destruct (workspace_pages_complete demo_cursors demo_fromisoformat_isoformat demo_isoformat_no_bar
    (fun _ => eq_refl) (fun _ H => H) demo_env ws_world alice 2 4) as (items & Hr & Hi & _).
  - lia.
  - intros id wp H%elem_of_map_to_list. vm_compute in H.
    repeat (apply elem_of_cons in H as [[= -> _]|H]; [by vm_compute|]). by apply elem_of_nil in H.
  - vm_compute. lia.
  - exists items. split; [exact Hr|]. rewrite Hi. vm_compute. reflexivity.
Defined.

(** ** Owner isolation *)

(** A workspace that is not the user's. *)
Definition not_owned (d : Db) (workspace_id u : uuid) : Prop :=
  forall wp, d.(workspace_projects) !! workspace_id = Some wp -> wp.(wp_user_id) <> u.

Lemma get_workspace_foreign e w i u :
  not_owned w.(w_db) i u -> WorkspacesRepo.get_workspace i u e w = (inr None, w).
Proof.
  intros H. unfold WorkspacesRepo.get_workspace, mbind, M_bind, get_db. cbn.
  destruct (workspace_projects (w_db w) !! i) as [wp|] eqn:E; [|done].
  destruct (N.eqb_spec wp.(wp_user_id) u) as [Hu|]; [by apply (H wp) in Hu|done].
Qed.

Lemma require_foreign e w i u :
  not_owned w.(w_db) i u -> Workspaces._require_workspace i u e w = (inl (NotFoundError "workspace not found"), w).
Proof. intros H. unfold Workspaces._require_workspace. by rewrite (bind_inr _ _ e w None w (get_workspace_foreign e w i u H)). Qed.

(** A workspace of somebody else is indistinguishable from one that does
    not exist: reading, changing, deleting it, and listing, adding or removing
    its files all answer the same 404, the orchestrator is told that it is not
    owned, has no instructions and no context, and nothing is changed. *)
Theorem foreign_workspace_invisible codec jl pr e w i u :
  not_owned w.(w_db) i u -> w.(w_committed) = w.(w_db) ->
  let missing {A} (m : M A) := m e w = (inl (NotFoundError "workspace not found"), w) in
  missing (Workspaces.get_detail i u) /\
  (forall n sd d si ins, missing (Workspaces.update i u n sd d si ins)) /\
  missing (Workspaces.delete i u) /\
  (forall name req, missing (Workspaces.upload_file codec jl pr i u name req)) /\
  missing (Workspaces.list_files i u) /\ (forall f, missing (Workspaces.delete_file i u f)) /\
  Workspaces.owns_workspace i u e w = (inr false, w) /\
  Workspaces.instructions_for_session i u e w = (inr None, w) /\
  (forall p, Workspaces.context_for_session codec i u p e w = (inr None, w)).
Proof.
  intros H Hc. pose proof (require_foreign e w i u H) as Hr. pose proof (get_workspace_foreign e w i u H) as Hg. cbv zeta.
  split_and!; intros;
    unfold Workspaces.get_detail, Workspaces.update, Workspaces.upload_file, Workspaces.list_files, Workspaces.delete_file,
      Workspaces.owns_workspace, Workspaces.instructions_for_session, WorkspacesRepo.get_instructions,
      Workspaces.context_for_session;
    try (by rewrite (bind_inl _ _ e w _ w Hr)); try (by rewrite (bind_inr _ _ e w _ w Hg)).
  - unfold Workspaces.delete. rewrite (bind_inr _ _ e w false w); [done|]. unfold WorkspacesRepo.delete_workspace.
    rewrite (bind_inr _ _ e w _ w Hg). unfold mbind, M_bind, commit. cbn. destruct w; cbn in Hc; by subst.
  - rewrite (bind_inr _ _ e w None w); [done|]. by rewrite (bind_inr _ _ e w _ w Hg).
Qed.

Lemma foreign_workspace_invisible_witness :
  Workspaces.get_detail 14 alice demo_env ws_world = (inl (NotFoundError "workspace not found"), ws_world) /\
  Workspaces.delete 14 alice demo_env ws_world = (inl (NotFoundError "workspace not found"), ws_world).
Proof.
  destruct (foreign_workspace_invisible plain_codec (fun _ => true) (fun _ => pdf_encrypted) demo_env ws_world 14 alice)
    as (H1 & _ & H2 & _).
  - intros wp. vm_compute. intros [= <-]. discriminate.
  - reflexivity.
  - split; [exact H1|exact H2].
Defined.
