(* ===== verification/Byok.v ===== *)
(** * The user's own provider key

    Models [src/app/byok/service.py].  The cipher, the key-management service,
    [os.urandom] and the provider's answer about a key are parameters. *)

From Stdlib Require Import Ascii String.
From S2P Require Import Prelude PyVal Redaction Store AuditTrail Logic Fixtures Wallet WalletRun WalletSpec WalletInv Policy.
From S2P Require Import ChatTools Website.

Open Scope string_scope.
Open Scope list_scope.
Open Scope Z_scope.

Definition EVENT_BYOK_CHANGE : string := "byok_change".

(** [KeyValidation] of llm_client.py. *)
Inductive KeyValidation : Set := key_valid | key_invalid | key_offline.

(** AES-GCM under a data key and a nonce, the wrapping of the data key, and
    random bytes.  [None] is [InvalidTag]. *)
Record Crypto : Type := mkCrypto {
  aes_encrypt : string -> string -> string -> string;
  aes_decrypt : string -> string -> string -> option string;
  encrypt_dek : string -> string;
  decrypt_dek : string -> option string;
  urandom : nat -> nat -> string;
  key_utf8_encode : string -> string;
  key_utf8_decode : string -> option string
}.

Definition status_value (s : ByokState) : string :=
  match s with
  | byok_missing => "missing" | byok_disabled => "disabled" | byok_invalid => "invalid" | byok_valid => "valid"
  | byok_validating => "validating" | byok_offline => "offline" | byok_expired => "expired"
  end.

Record BYOKResult : Type := mkBYOKResult { br_enabled : bool; br_status : ByokState; active_model : option string }.

Definition _active_model_for (cs : ChatSettings) (s : ByokState) : option string :=
  match s with
  | byok_valid =>
      Some (if String.eqb (Str.lower (Str.strip cs.(llm_provider))) "openai" then cs.(openai_byok_default_model)
            else cs.(byok_default_model))
  | _ => None
  end.

Module Byok.
Section byok.
Context (crypto : Crypto) (validate_key : string -> KeyValidation).

Definition _load (u : uuid) : M (option BYOKKey) := d ← get_db; mret (d.(byok_keys) !! u).

Definition put_key (u : uuid) (k : BYOKKey) : M unit := modify_db (fun d => set_byok_keys (<[u := k]> d.(byok_keys)) d).

(** [os.urandom(n)]: the next bytes of the process. *)
Definition os_urandom (n : nat) : M string := fun _ w =>
  (inr (crypto.(urandom) w.(w_uuids) n),
   mkWorld w.(w_db) w.(w_committed) (S w.(w_uuids)) w.(w_ticks) w.(w_seq) w.(w_metrics) w.(w_host)).

Definition _DEK_LEN : nat := 32.
Definition _NONCE_LEN : nat := 12.

Definition set_key (u : uuid) (api_key : string) : M BYOKResult :=
  let key_status := match validate_key api_key with
                    | key_valid => byok_valid | key_invalid => byok_invalid | key_offline => byok_offline
                    end in
  dek ← os_urandom _DEK_LEN;
  nonce ← os_urandom _NONCE_LEN;
  let encrypted_key := crypto.(aes_encrypt) dek nonce (crypto.(key_utf8_encode) api_key) in
  let encrypted_dek := crypto.(encrypt_dek) dek in
  existing ← _load u;
  enabled ← (match existing with
             | None =>
                 d ← get_db;
                 check_constraint (user_exists d u);;
                 put_key u (mkBYOKKey key_status false encrypted_key encrypted_dek nonce);;
                 mret false
             | Some k =>
                 let enabled := if bool_decide (key_status = byok_valid) then k.(bk_enabled) else false in
                 put_key u (mkBYOKKey key_status enabled encrypted_key encrypted_dek nonce);;
                 mret enabled
             end : M bool);
  record (mkAuditEvent u None EVENT_BYOK_CHANGE
            [("action", JStr "set"); ("keyStatus", JStr (status_value key_status)); ("byokEnabled", JBool enabled)]);;
  s ← settings;
  mret (mkBYOKResult enabled key_status (_active_model_for s.(chat) key_status)).

Definition toggle (u : uuid) (enabled : bool) : M BYOKResult :=
  row ← _load u;
  s ← settings;
  match row with
  | None => mret (mkBYOKResult false byok_missing None)
  | Some k =>
      if enabled && negb (bool_decide (k.(bk_status) = byok_valid)) then
        record (mkAuditEvent u None EVENT_BYOK_CHANGE
                  [("action", JStr "toggle_rejected"); ("requested", JBool enabled);
                   ("keyStatus", JStr (status_value k.(bk_status)))]);;
        mret (mkBYOKResult false k.(bk_status) (_active_model_for s.(chat) k.(bk_status)))
      else
        put_key u (mkBYOKKey k.(bk_status) enabled k.(bk_encrypted_key) k.(bk_encrypted_dek) k.(bk_nonce));;
        record (mkAuditEvent u None EVENT_BYOK_CHANGE
                  [("action", JStr "toggle"); ("byokEnabled", JBool enabled);
                   ("keyStatus", JStr (status_value k.(bk_status)))]);;
        mret (mkBYOKResult enabled k.(bk_status) (_active_model_for s.(chat) k.(bk_status)))
  end.

Definition delete_key (u : uuid) : M BYOKResult :=
  modify_db (fun d => set_byok_keys (delete u d.(byok_keys)) d);;
  record (mkAuditEvent u None EVENT_BYOK_CHANGE
            [("action", JStr "delete"); ("byokEnabled", JBool false); ("keyStatus", JStr "missing")]);;
  mret (mkBYOKResult false byok_missing None).

Definition get_status (u : uuid) : M BYOKResult :=
  row ← _load u;
  s ← settings;
  mret (match row with
        | None => mkBYOKResult false byok_missing None
        | Some k => mkBYOKResult k.(bk_enabled) k.(bk_status) (_active_model_for s.(chat) k.(bk_status))
        end).

(** Bytes that are not UTF-8 raise [UnicodeDecodeError], a [ValueError]. *)
Definition get_plaintext_key (u : uuid) : M (option string) :=
  row ← _load u;
  match row with
  | None => mret None
  | Some k =>
      match crypto.(decrypt_dek) k.(bk_encrypted_dek) with
      | None => raise InvalidTag
      | Some dek =>
          match crypto.(aes_decrypt) dek k.(bk_nonce) k.(bk_encrypted_key) with
          | None => raise InvalidTag
          | Some plaintext =>
              match crypto.(key_utf8_decode) plaintext with
              | None => raise ValueError
              | Some s => mret (Some s)
              end
          end
      end
  end.

(** The body shared by [mark_invalid] and [mark_expired]. *)
Definition mark_unusable (u : uuid) (status : ByokState) (action : string) : M unit :=
  row ← _load u;
  match row with
  | None => mret tt
  | Some k =>
      put_key u (mkBYOKKey status false k.(bk_encrypted_key) k.(bk_encrypted_dek) k.(bk_nonce));;
      record (mkAuditEvent u None EVENT_BYOK_CHANGE
                [("action", JStr action); ("keyStatus", JStr (status_value status))])
  end.

Definition mark_invalid (u : uuid) : M unit := mark_unusable u byok_invalid "runtime_invalidate".
Definition mark_expired (u : uuid) : M unit := mark_unusable u byok_expired "runtime_expire".
End byok.
End Byok.

(** ** Money is not touched *)

Section books.
Context (crypto : Crypto) (validate_key : string -> KeyValidation).

Lemma keeps_urandom I J n : keeps I J (Byok.os_urandom crypto n).
Proof. intros e w [H1 H2]. done. Qed.

#[local] Hint Resolve keeps_urandom : hermes.

#[export] Instance set_key_books u k : KeepsBooks (Byok.set_key crypto validate_key u k).
Proof. unfold KeepsBooks, Byok.set_key, Byok._load, Byok.put_key. keeps_walk. Qed.

#[export] Instance toggle_books u b : KeepsBooks (Byok.toggle u b).
Proof. unfold KeepsBooks, Byok.toggle, Byok._load, Byok.put_key. keeps_walk. Qed.

#[export] Instance delete_key_books u : KeepsBooks (Byok.delete_key u).
Proof. unfold KeepsBooks, Byok.delete_key. keeps_walk. Qed.

#[export] Instance mark_unusable_books u s a : KeepsBooks (Byok.mark_unusable u s a).
Proof. unfold KeepsBooks, Byok.mark_unusable, Byok._load, Byok.put_key. keeps_walk. Qed.
End books.

(** ** Only a valid key is enabled *)

Definition byok_inv (d : Db) : Prop :=
  forall u k, d.(byok_keys) !! u = Some k -> k.(bk_enabled) = true -> k.(bk_status) = byok_valid.

Lemma byok_inv_put u k d :
  byok_inv d -> (k.(bk_enabled) = true -> k.(bk_status) = byok_valid) -> byok_inv (set_byok_keys (<[u := k]> d.(byok_keys)) d).
Proof. intros Hi Hk v x. cbn. intros [[_ <-]|[_ Hx]]%lookup_insert_Some; [done|by apply (Hi v)]. Qed.

Lemma byok_inv_delete u d : byok_inv d -> byok_inv (set_byok_keys (delete u d.(byok_keys)) d).
Proof. intros Hi v x. cbn. intros [_ Hx]%lookup_delete_Some. by apply (Hi v). Qed.

Lemma holds_byok_record e ev : holds e byok_inv (record ev).
Proof. unfold record. holds_walk. Qed.

#[export] Hint Resolve holds_byok_record : hermes.

Section byok_ops.
Context (crypto : Crypto) (validate_key : string -> KeyValidation).
Hypothesis aes_round_trip : forall k n s, aes_decrypt crypto k n (aes_encrypt crypto k n s) = Some s.
Hypothesis dek_round_trip : forall k, decrypt_dek crypto (encrypt_dek crypto k) = Some k.
Hypothesis utf8_round_trip : forall s, key_utf8_decode crypto (key_utf8_encode crypto s) = Some s.

(** The operations on a user's key. *)
Inductive byok_op : Type :=
| op_set (api_key : string) | op_toggle (enabled : bool) | op_delete | op_mark_invalid | op_mark_expired.

Definition run_op (u : uuid) (o : byok_op) : M unit :=
  match o with
  | op_set k => _ ← Byok.set_key crypto validate_key u k; mret tt
  | op_toggle b => _ ← Byok.toggle u b; mret tt
  | op_delete => _ ← Byok.delete_key u; mret tt
  | op_mark_invalid => Byok.mark_invalid u
  | op_mark_expired => Byok.mark_expired u
  end.

Lemma load_run e w u : Byok._load u e w = (inr (w.(w_db).(byok_keys) !! u), w).
Proof. done. Qed.

Lemma set_key_inv e u k : holds e byok_inv (Byok.set_key crypto validate_key u k).
Proof.
  unfold Byok.set_key, Byok._load, Byok.put_key. holds_walk; apply byok_inv_put; try done. cbn. by case_bool_decide.
Qed.

(** A step that depends on the row it has just read. *)
Lemma holds_load {A} e u (f : option BYOKKey -> M A) : (forall r, holds e byok_inv (f r)) ->
  holds e byok_inv (Byok._load u ≫= f).
Proof. intros H w Hw. rewrite (bind_inr _ _ e w _ w (load_run e w u)). by apply H. Qed.

Lemma toggle_inv e u b : holds e byok_inv (Byok.toggle u b).
Proof.
  unfold Byok.toggle. apply holds_load. intros [k|]; [|holds_walk].
  apply holds_bind; [by apply holds_silent|intros s].
  destruct (b && negb (bool_decide (bk_status k = byok_valid))) eqn:Eb; unfold Byok.put_key; holds_walk.
  apply byok_inv_put; [done|]. cbn. intros ->. cbn in Eb. by apply negb_false_iff, bool_decide_eq_true in Eb.
Qed.

Lemma run_op_inv e u o : holds e byok_inv (run_op u o).
Proof.
  destruct o; cbn [run_op].
  - apply holds_bind; [apply set_key_inv|intros ?; holds_walk].
  - apply holds_bind; [apply toggle_inv|intros ?; holds_walk].
  - apply holds_bind; [|intros ?; holds_walk]. unfold Byok.delete_key. holds_walk. by apply byok_inv_delete.
  - unfold Byok.mark_invalid, Byok.mark_unusable, Byok.put_key. apply holds_load. intros [k|]; holds_walk.
    by apply byok_inv_put.
  - unfold Byok.mark_expired, Byok.mark_unusable, Byok.put_key. apply holds_load. intros [k|]; holds_walk.
    by apply byok_inv_put.
Qed.

Lemma set_key_run e w u api_key :
  user_exists w.(w_db) u = true ->
  exists r w2 dek nonce status enabled, Byok.set_key crypto validate_key u api_key e w = (inr r, w2) /\
    w2.(w_db).(byok_keys) !! u =
      Some (mkBYOKKey status enabled (aes_encrypt crypto dek nonce (key_utf8_encode crypto api_key))
              (encrypt_dek crypto dek) nonce) /\
    user_exists w2.(w_db) u = true.
Proof.
  intros Hu. unfold Byok.set_key. do 2 (run by reflexivity). run by apply load_run. cbn [w_db].
  destruct (w.(w_db).(byok_keys) !! u) as [k|]; eexists _, _, _, _, _, _.
  - split; [|split].
    + run by reflexivity. run by (by apply record_run). run by done. reflexivity.
    + cbn. apply lookup_insert_eq.
    + done.
  - split; [|split].
    + run by (run by reflexivity; run by (by apply check_run); reflexivity).
      run by (by apply record_run). run by done. reflexivity.
    + cbn. apply lookup_insert_eq.
    + done.
Qed.

Lemma mark_unusable_run e w u k status action :
  w.(w_db).(byok_keys) !! u = Some k -> user_exists w.(w_db) u = true ->
  exists w3, Byok.mark_unusable u status action e w = (inr tt, w3) /\
    w3.(w_db).(byok_keys) !! u = Some (mkBYOKKey status false k.(bk_encrypted_key) k.(bk_encrypted_dek) k.(bk_nonce)).
Proof.
  intros Hk Hu. unfold Byok.mark_unusable, Byok.put_key. rewrite (bind_inr _ _ e w _ w (load_run e w u)). cbn beta.
  rewrite Hk. unfold mbind, M_bind, modify_db. cbn. eexists. rewrite record_run by done. split; [reflexivity|]. cbn.
  by rewrite lookup_insert_eq.
Qed.

(** A key that is off and not valid refuses the mode. *)
Lemma unusable_refused e w u s w' k :
  w.(w_db).(byok_keys) !! u = Some k -> k.(bk_enabled) = false -> load_policy_state u e w = (inr s, w') ->
  allow (evaluate s mode_byok) = false.
Proof.
  intros Hk Hb. unfold load_policy_state. rewrite (bind_inr _ _ e w w.(w_db) w) by done. cbn beta zeta. rewrite Hk.
  intros H. inv_bind H. injection H as <- <-. rewrite Hb. unfold evaluate. cbn. by destruct a.
Qed.

(** The user's key.  After any sequence of operations on it, starting
    without keys and whatever each of them returns or raises, the switch is on
    only over a key that the provider called valid; a key just set is stored
    only encrypted, and decrypts to the very text that was set; a key that the
    provider rejects in use is off, and the next decision in that mode is a
    refusal whatever the subscription. *)
Theorem byok_key_life e w u api_key ops :
  w.(w_db).(byok_keys) = ∅ -> user_exists w.(w_db) u = true ->
  let w1 := foldl (fun w o => (run_op u o e w).2) w ops in
  byok_inv w1.(w_db) /\
  (user_exists w1.(w_db) u = true ->
   exists r w2, Byok.set_key crypto validate_key u api_key e w1 = (inr r, w2) /\
     Byok.get_plaintext_key crypto u e w2 = (inr (Some api_key), w2) /\
     exists w3, Byok.mark_expired u e w2 = (inr tt, w3) /\
       forall w4 s w5, w4.(w_db) = w3.(w_db) -> load_policy_state u e w4 = (inr s, w5) ->
         allow (evaluate s mode_byok) = false).
Proof.
  intros Hk Hu w1. split.
  { subst w1. assert (Hi : byok_inv w.(w_db)) by (intros v x; by rewrite Hk, lookup_empty).
    clear Hk Hu. revert w Hi. induction ops as [|o ops IH]; intros w Hi; cbn; [done|]. apply IH. by apply run_op_inv. }
  intros Hu1. destruct (set_key_run e w1 u api_key Hu1) as (r & w2 & dek & nonce & st & en & Hs & Hr & Hu2).
  exists r, w2. split; [done|]. split.
  { unfold Byok.get_plaintext_key. rewrite (bind_inr _ _ e w2 _ w2 (load_run e w2 u)). cbn beta. rewrite Hr. cbn.
    by rewrite dek_round_trip, aes_round_trip, utf8_round_trip. }
  destruct (mark_unusable_run e w2 u _ byok_expired "runtime_expire" Hr Hu2) as (w3 & Hm & Hr3).
  exists w3. split; [done|]. intros w4 s w5 E Hl. eapply (unusable_refused e w4 u); [by rewrite E|done|done].
Qed.
End byok_ops.

(** A cipher that can be evaluated: the key material is written before the text. *)
Definition demo_crypto : Crypto :=
  mkCrypto (fun _ _ s => ("c" ++ s)%string) (fun _ _ s => match s with String _ r => Some r | _ => None end)
    (fun k => ("k" ++ k)%string) (fun s => match s with String _ r => Some r | _ => None end)
    (fun _ _ => "bytes") id Some.

Lemma byok_key_life_witness :
  let w1 := foldl (fun w o => (run_op demo_crypto (fun _ => key_valid) alice o demo_env w).2) demo_world
              [op_set "sk-1"; op_toggle true; op_mark_expired] in
  exists r w2, Byok.set_key demo_crypto (fun _ => key_valid) alice "sk-2" demo_env w1 = (inr r, w2) /\
    br_enabled r = false /\ Byok.get_plaintext_key demo_crypto alice demo_env w2 = (inr (Some "sk-2"), w2).
Proof.
  destruct (byok_key_life demo_crypto (fun _ => key_valid) (fun _ _ _ => eq_refl) (fun _ => eq_refl) (fun _ => eq_refl)
    demo_env demo_world alice "sk-2" [op_set "sk-1"; op_toggle true; op_mark_expired]) as [_ H];
    [reflexivity|reflexivity|]. cbv zeta. destruct H as (r & w2 & Hs & Hg & _); [vm_compute; reflexivity|].
  exists r, w2. split; [exact Hs|]. split; [|exact Hg]. apply (f_equal fst) in Hs. vm_compute in Hs. by injection Hs as <-.
Defined.
