(* ===== verification/Kms.v ===== *)
(** * The wrapping of data keys

    [src/app/byok/kms.py]: [LocalKmsClient] and the choice of the client.
    AES-GCM, [base64.b64decode] and the random nonces are parameters; a key
    is the text of its bytes.  The client is what [Byok] and [Manager] take as
    the wrapping of a data key, and the law they assume of it is proved here
    from the law of AES-GCM. *)

From Stdlib Require Import Ascii String.
From S2P Require Import Prelude PyVal Store Byok.

Open Scope string_scope.

Module Kms.
(** AES-GCM under a key and a nonce; [None] is a tag that does not verify or a
    nonce that is too short. *)
Record Aead : Type := mkAead {
  gcm_encrypt : string -> string -> string -> string;
  gcm_decrypt : string -> string -> string -> option string
}.

Definition _LOCAL_NONCE_LEN : nat := 12.

(** [LocalKmsClient.__init__]: the client is its master key. *)
Definition LocalKmsClient (master_key : string) : exn + string :=
  if (String.length master_key =? 32)%nat then inr master_key else inl ValueError.

Section client.
Context (aead : Aead) (key : string).

Definition local_encrypt_dek (nonce plaintext_dek : string) : string := nonce ++ aead.(gcm_encrypt) key nonce plaintext_dek.

Definition local_decrypt_dek (encrypted_dek : string) : option string :=
  aead.(gcm_decrypt) key (substring 0 _LOCAL_NONCE_LEN encrypted_dek)
    (substring _LOCAL_NONCE_LEN (String.length encrypted_dek - _LOCAL_NONCE_LEN) encrypted_dek).
End client.

(** [get_kms_client]: the client of the process, or the one the settings give. *)
Definition get_kms_client (b64decode : string -> option string) (kms_local_master_key : string) (singleton : option string) :
    exn + string :=
  match singleton with
  | Some client => inr client
  | None =>
      if negb (Str.nonempty kms_local_master_key) then inl RuntimeError
      else match b64decode kms_local_master_key with
           | None => inl ValueError
           | Some master_key => LocalKmsClient master_key
           end
  end.
End Kms.

Import Kms.

Lemma substring_head a b : substring 0 (String.length a) (a ++ b) = a.
Proof.
  induction a as [|c a IH]; [by destruct b|]. rewrite Str.app_cons. cbn [String.length substring]. by rewrite IH.
Qed.

Lemma substring_tail a b : substring (String.length a) (String.length (a ++ b) - String.length a) (a ++ b) = b.
Proof.
  induction a as [|c a IH]; [change ("" ++ b) with b; rewrite Nat.sub_0_r; apply Str.substring_all|].
  rewrite Str.app_cons. cbn [String.length substring Nat.sub]. exact IH.
Qed.

(** A wrapped key unwraps to itself, under whatever nonce of the right length it
    was wrapped. *)
Theorem local_kms_round_trip aead key nonce dek :
  (forall k n m, gcm_decrypt aead k n (gcm_encrypt aead k n m) = Some m) -> String.length nonce = _LOCAL_NONCE_LEN ->
  local_decrypt_dek aead key (local_encrypt_dek aead key nonce dek) = Some dek.
Proof.
  intros Hlaw Hn. unfold local_decrypt_dek, local_encrypt_dek. rewrite <- Hn, substring_head, substring_tail. apply Hlaw.
Qed.

(** The service starts with a client only when the master key has 256 bits, and
    keeps the client it started with. *)
Theorem kms_needs_full_key b64decode raw client :
  get_kms_client b64decode raw None = inr client ->
  String.length client = 32%nat /\ b64decode raw = Some client /\
  forall raw', get_kms_client b64decode raw' (Some client) = inr client.
Proof.
  unfold get_kms_client, LocalKmsClient. destruct (Str.nonempty raw); cbn; [|done].
  destruct (b64decode raw) as [m|]; [|done]. destruct (Nat.eqb_spec (String.length m) 32); [|done]. by intros [= <-].
Qed.
