(* ===== verification/ChatContext.v ===== *)
(** * What the model is told

    The pure helpers of [src/app/chat/orchestrator.py] that assemble the system
    prompt and the text of a user turn, [derive_title] of
    [src/app/chat/repository.py], and [strip_context_block] of
    [src/app/chats/repository.py], which hides the settings block again when
    the history is shown. *)

From Stdlib Require Import Ascii String.
From S2P Require Import Prelude PyVal Redaction Store Policy ChatTools Website Attachments.

Open Scope string_scope.
Open Scope list_scope.
Open Scope Z_scope.

(** ** Words *)

(** [s.split()]: the maximal runs of characters that are not blank. *)
Fixpoint words_acc (cur : string) (s : string) : list string :=
  match s with
  | EmptyString => if Str.nonempty cur then [cur] else []
  | String c s' =>
      if Str.is_space c
      then (if Str.nonempty cur then cur :: words_acc EmptyString s' else words_acc EmptyString s')
      else words_acc (cur ++ String c EmptyString)%string s'
  end.

Definition words (s : string) : list string := words_acc EmptyString s.

(** [" ".join(s.split())] *)
Definition collapse (s : string) : string := Str.join " " (words s).

Definition _TITLE_MAX_CHARS : nat := 60.

Definition derive_title (message : string) : option string :=
  let normalized := collapse message in
  if Str.nonempty normalized then Some (substring 0 _TITLE_MAX_CHARS normalized) else None.

(** ** System prompts *)

Definition _TIME_NOW_INSTRUCTION : string :=
  "You do not have built-in knowledge of the current date or time. If the user's request depends on the current date, time, or day of the week, call the time.now tool to get it; do not guess.".

Definition _SYSTEM_PROMPT_CHAT : string :=
  ("You are a helpful assistant integrated into an iOS app. You can call tools that the user's device executes locally (files, calendar, reminders). Use tools when needed and respond concisely. " ++ _TIME_NOW_INSTRUCTION)%string.

Definition _SYSTEM_PROMPT_CODE : string :=
  ("You are a coding assistant integrated into an iOS app. Favor precise, technical answers: produce correct, idiomatic code with brief explanations. You can call tools that the user's device executes locally (files, calendar, reminders) and server-side site tools. Use tools when needed and respond concisely. " ++ _TIME_NOW_INSTRUCTION)%string.

Definition _system_prompt_for (assistant_mode : string) : string :=
  if String.eqb assistant_mode "code" then _SYSTEM_PROMPT_CODE else _SYSTEM_PROMPT_CHAT.

Definition blank_line : string := (newline ++ newline)%string.

Definition _system_prompt_with_workspace (assistant_mode : string) (instructions : option string) : string :=
  let base := _system_prompt_for assistant_mode in
  match instructions with
  | Some i => if Str.nonempty (Str.strip i) then (base ++ blank_line ++ Str.strip i)%string else base
  | None => base
  end.

(** ** The settings block *)

Definition _CONTEXT_FREE_STRING_MAX (key : string) : option nat :=
  if String.eqb key "codeLanguage" then Some 40%nat
  else if String.eqb key "tone" then Some 40%nat
  else if String.eqb key "locale" then Some 35%nat
  else None.

Definition _CONTEXT_ENUMS (key : string) : option (list string) :=
  if String.eqb key "responseStyle" then Some ["concise"; "balanced"; "detailed"]
  else if String.eqb key "verbosity" then Some ["low"; "medium"; "high"]
  else None.

(** A letter, a digit, [_] or [-]. *)
Definition _CONTEXT_LOCALE_CHARS (c : ascii) : bool := wire_char c.

Definition _CONTEXT_KEY_ORDER : list string := ["codeLanguage"; "responseStyle"; "verbosity"; "tone"; "locale"].

Definition unstructure (c : ascii) : ascii :=
  if Ascii.eqb c "010" || Ascii.eqb c "013" || Ascii.eqb c ";" || Ascii.eqb c "=" then " "%char else c.

Definition _sanitize_context_value (value : string) : string := collapse (Str.map_str unstructure value).

Definition _validated_context_value (key : string) (raw : json) : option string :=
  match raw with
  | JStr s =>
      let value := Str.strip s in
      if negb (Str.nonempty value) then None
      else match _CONTEXT_ENUMS key with
           | Some allowed => let lowered := Str.lower value in if member lowered allowed then Some lowered else None
           | None =>
               match _CONTEXT_FREE_STRING_MAX key with
               | None => None
               | Some max =>
                   if (max <? String.length value)%nat then None
                   else if String.eqb key "locale" then
                     if all_chars _CONTEXT_LOCALE_CHARS value then Some value else None
                   else
                     let sanitized := _sanitize_context_value value in
                     if Str.nonempty sanitized then Some sanitized else None
               end
           end
  | _ => None
  end.

(** The [key=value] parts that survive, in the fixed order. *)
Definition context_parts (context : dict) : list string :=
  omap (fun key =>
          raw ← dict_lookup key context;
          value ← _validated_context_value key raw;
          Some (key ++ "=" ++ value)%string) _CONTEXT_KEY_ORDER.

Definition block_open : string := "[Conversation settings for this message: ".

Definition _render_context_block (context : option dict) : option string :=
  match context with
  | None => None
  | Some c => match context_parts c with
              | [] => None
              | parts => Some (block_open ++ Str.join "; " parts ++ "]")%string
              end
  end.

Definition _compose_turn0_text (block : option string) (msg : string) : string :=
  if negb (Str.nonempty (Str.strip msg)) then default "" block
  else match block with
       | Some b => (b ++ blank_line ++ msg)%string
       | None => msg
       end.

(** ** Hiding it again *)

(** The text after the first closing bracket. *)
Fixpoint after_bracket (s : string) : option string :=
  match s with
  | EmptyString => None
  | String c s' => if Ascii.eqb c "]" then Some s' else after_bracket s'
  end.

(** [_CONTEXT_BLOCK_RE.sub("", text, count=1)] *)
Definition strip_context_block (text : string) : string :=
  if Str.startswith block_open text then
    match after_bracket (substring (String.length block_open) (String.length text) text) with
    | None => text
    | Some rest =>
        if Str.startswith blank_line rest then substring 2 (String.length rest) rest
        else if Str.nonempty rest then text
        else ""
    end
  else text.

(** ** Other helpers of a turn *)

Definition _merge_attachments (chat workspace : option PreparedAttachments) : option PreparedAttachments :=
  match chat, workspace with
  | None, None => None
  | _, _ =>
      let blocks o := match o with Some p => p.(content_blocks) | None => [] end in
      let holders := match chat with Some p => p.(placeholders) | None => [] end in
      Some (mkPrepared (blocks workspace ++ blocks chat) holders)
  end.

Definition _SUMMARY_MAX_CHARS : nat := 120.

Definition _server_tool_summary (execution : ToolExecution) : string :=
  if execution.(is_error) then
    let code := match execution.(error_code) with Some c => if Str.nonempty c then c else "errored" | None => "errored" end in
    substring 0 _SUMMARY_MAX_CHARS code
  else "ok".

Record _BillingPlan : Type := mkBillingPlan { debit_credits : bool; mark_trial : bool }.

Definition _billing_plan (mode : Mode) (state : PolicyState) : _BillingPlan :=
  match mode with
  | mode_byok => mkBillingPlan false false
  | mode_credits =>
      match state.(ps_subscription_status) with
      | sub_active => mkBillingPlan true false
      | sub_none => mkBillingPlan false (negb state.(ps_trial_used))
      | sub_expired => mkBillingPlan false false
      end
  end.

(** ** Characters *)

Lemma join_chars (P : ascii -> bool) sep ws :
  all_chars P sep = true -> Forall (fun w => all_chars P w = true) ws -> all_chars P (Str.join sep ws) = true.
Proof.
  intros Hs. assert (Happ : forall a b, all_chars P (a ++ b)%string = all_chars P a && all_chars P b).
  { induction a as [|c a IH]; intros b; [done|]. rewrite Str.app_cons. cbn. by rewrite IH, andb_assoc. }
  induction 1 as [|w ws Hw Hws IH]; [done|]. destruct ws as [|w2 ws]; [done|].
  change (Str.join sep (w :: w2 :: ws)) with (w ++ sep ++ Str.join sep (w2 :: ws))%string. by rewrite !Happ, Hw, Hs, IH.
Qed.

Lemma all_chars_app P a b : all_chars P (a ++ b)%string = all_chars P a && all_chars P b.
Proof. induction a as [|c a IH]; [done|]. rewrite Str.app_cons. cbn. by rewrite IH, andb_assoc. Qed.

Lemma all_chars_impl (P Q : ascii -> bool) s : (forall c, P c = true -> Q c = true) -> all_chars P s = true -> all_chars Q s = true.
Proof. intros H. induction s as [|c s IH]; [done|]. cbn. intros [H1 H2]%andb_prop. by rewrite (H _ H1), IH. Qed.

Lemma words_acc_chars P cur s :
  all_chars P cur = true -> (forall c, Str.has_char c s = true -> Str.is_space c = false -> P c = true) ->
  Forall (fun w => all_chars P w = true) (words_acc cur s).
Proof.
  revert cur. induction s as [|c s IH]; intros cur Hc Hs; cbn [words_acc].
  - destruct (Str.nonempty cur); repeat constructor; done.
  - assert (Hs' : forall d, Str.has_char d s = true -> Str.is_space d = false -> P d = true).
    { intros d Hd. apply Hs. cbn. by rewrite Hd, orb_true_r. }
    destruct (Str.is_space c) eqn:E.
    + destruct (Str.nonempty cur); [constructor; [done|]|]; by apply IH.
    + apply IH; [|done]. rewrite all_chars_app, Hc. cbn. rewrite Hs; [done| |done]. cbn. by rewrite Ascii.eqb_refl.
Qed.

(** A collapsed text has no blanks but single spaces. *)
Lemma collapse_chars P s :
  P " "%char = true -> (forall c, Str.has_char c s = true -> Str.is_space c = false -> P c = true) ->
  all_chars P (collapse s) = true.
Proof.
  intros Hb Hs. apply join_chars; [cbn; by rewrite Hb|]. by apply words_acc_chars.
Qed.

Lemma has_char_map f c s : Str.has_char c (Str.map_str f s) = true -> exists d, Str.has_char d s = true /\ c = f d.
Proof.
  induction s as [|x s IH]; [done|]. cbn. intros [H|H]%orb_prop.
  - apply Ascii.eqb_eq in H as <-. exists x. by rewrite Ascii.eqb_refl.
  - destruct (IH H) as (d & Hd & ->). exists d. by rewrite Hd, orb_true_r.
Qed.

(** ** What a value may look like *)

(** Not a line break, not a separator of the block. *)
Definition value_char (c : ascii) : bool :=
  negb (Ascii.eqb c "010" || Ascii.eqb c "013" || Ascii.eqb c ";" || Ascii.eqb c "=").

Definition not_bracket (c : ascii) : bool := negb (Ascii.eqb c "]").

Lemma unstructure_value c : value_char (unstructure c) = true.
Proof.
  unfold unstructure. destruct (_ || _) eqn:E; [done|]. unfold value_char. by rewrite E.
Qed.

Lemma sanitize_value s : all_chars value_char (_sanitize_context_value s) = true.
Proof.
  apply collapse_chars; [done|]. intros c (d & _ & ->)%has_char_map _. apply unstructure_value.
Qed.

Lemma sanitize_not_bracket s : Str.has_char "]" s = false -> all_chars not_bracket (_sanitize_context_value s) = true.
Proof.
  intros Hs. apply collapse_chars; [done|]. intros c (d & Hd & ->)%has_char_map _.
  unfold unstructure, not_bracket. destruct (_ || _); [done|].
  destruct (Ascii.eqb_spec d "]") as [->|]; [congruence|done].
Qed.

Lemma strip_has_char c s : Str.has_char c s = false -> Str.has_char c (Str.strip s) = false.
Proof.
  intros H. unfold Str.strip. assert (Hl : Str.has_char c (Str.lstrip s) = false).
  { induction s as [|x s IH]; [done|]. cbn in H |- *. apply orb_false_elim in H as [Hx Hs].
    destruct (Str.is_space x); [auto|]. cbn. by rewrite Hx, Hs. }
  clear H. induction (Str.lstrip s) as [|x t IH]; [done|]. cbn in Hl |- *. apply orb_false_elim in Hl as [Hx Ht].
  specialize (IH Ht). destruct (Str.rstrip t) as [|y r]; [destruct (Str.is_space x); cbn; by rewrite ?Hx|].
  cbn. cbn in IH. by rewrite Hx, IH.
Qed.

(** The free texts of a context have no closing bracket. *)
Definition no_bracket (context : dict) : Prop :=
  forall s, dict_lookup "codeLanguage" context = Some (JStr s) \/ dict_lookup "tone" context = Some (JStr s) ->
            Str.has_char "]" s = false.

(** A valid value is one line, has no separator of the block, and has no
    bracket unless its free text had one. *)
Lemma validated_value key raw v :
  _validated_context_value key raw = Some v ->
  all_chars value_char v = true /\
  ((forall s, raw = JStr s -> Str.has_char "]" s = false) \/ (key <> "codeLanguage" /\ key <> "tone") ->
   all_chars not_bracket v = true).
Proof.
  unfold _validated_context_value. destruct raw; try done. destruct (Str.nonempty (Str.strip s)); [|done]. cbn [negb].
  destruct (_CONTEXT_ENUMS key) as [allowed|] eqn:Ee.
  { destruct (member _ allowed) eqn:Em; [|done]. intros [= <-]. apply member_spec in Em. revert Ee. unfold _CONTEXT_ENUMS.
    destruct (String.eqb key "responseStyle"); [|destruct (String.eqb key "verbosity"); [|done]]; intros [= <-];
      repeat (apply elem_of_cons in Em as [->|Em]; [done|]); by apply elem_of_nil in Em. }
  destruct (_CONTEXT_FREE_STRING_MAX key) as [m|] eqn:Em; [|done]. destruct (m <? _)%nat; [done|].
  destruct (String.eqb_spec key "locale") as [->|Hl].
  { destruct (all_chars _ _) eqn:Ea; [|done]. intros [= <-].
    assert (forall c, wire_char c = true -> value_char c = true /\ not_bracket c = true) as Hw.
    { intros c Hc. split; [unfold value_char|unfold not_bracket]; apply negb_true_iff;
        repeat apply orb_false_intro; apply Ascii.eqb_neq; intros ->; discriminate Hc. }
    split; [|intros _]; (eapply all_chars_impl; [|exact Ea]); intros c Hc; by apply Hw. }
  destruct (Str.nonempty (_sanitize_context_value _)); [|done]. intros [= <-]. split; [apply sanitize_value|].
  intros Hb. apply sanitize_not_bracket, strip_has_char. destruct Hb as [Hb|[H1 H2]]; [by apply Hb|].
  exfalso. revert Em. unfold _CONTEXT_FREE_STRING_MAX.
  by rewrite (proj2 (String.eqb_neq _ _) H1), (proj2 (String.eqb_neq _ _) H2), (proj2 (String.eqb_neq _ _) Hl).
Qed.

Lemma context_parts_chars context :
  Forall (fun p => exists key v, key ∈ _CONTEXT_KEY_ORDER /\ p = (key ++ "=" ++ v)%string /\ all_chars value_char v = true)
    (context_parts context) /\
  (no_bracket context -> Forall (fun p => all_chars not_bracket p = true) (context_parts context)).
Proof.
  split.
  - apply Forall_forall. intros p (key & Hk & Hp)%list_elem_of_omap.
    destruct (dict_lookup key context) as [raw|]; [|done]. cbn in Hp.
    destruct (_validated_context_value key raw) as [v|] eqn:Ev; [|done]. injection Hp as <-.
    exists key, v. split_and!; [done..|]. by apply (validated_value key raw).
  - intros Hb. apply Forall_forall. intros p (key & Hk & Hp)%list_elem_of_omap.
    destruct (dict_lookup key context) as [raw|] eqn:El; [|done]. cbn in Hp.
    destruct (_validated_context_value key raw) as [v|] eqn:Ev; [|done]. injection Hp as <-.
    destruct (validated_value key raw v Ev) as [_ Hv]. rewrite !all_chars_app.
    assert (all_chars not_bracket key = true) as ->.
    { repeat (apply elem_of_cons in Hk as [->|Hk]; [done|]). by apply elem_of_nil in Hk. }
    cbn [all_chars]. rewrite Hv; [done|].
    destruct (decide (key = "codeLanguage")) as [->|]; [left; intros s ->; apply Hb; auto|].
    destruct (decide (key = "tone")) as [->|]; [left; intros s ->; apply Hb; auto|]. auto.
Qed.

Lemma after_bracket_app a b : all_chars not_bracket a = true -> after_bracket (a ++ "]" ++ b)%string = Some b.
Proof.
  induction a as [|c a IH].
  - intros _. reflexivity.
  - rewrite Str.app_cons. cbn [all_chars]. intros [Hc Ha]%andb_prop. cbn [after_bracket]. unfold not_bracket in Hc.
    apply negb_true_iff in Hc as ->. by apply IH.
Qed.

Lemma substring_app_drop a b n : (String.length b <= n)%nat -> substring (String.length a) n (a ++ b)%string = b.
Proof.
  intros Hn. induction a as [|c a IH]; [|exact IH]. cbn [String.length]. change (""%string ++ b)%string with b.
  revert n Hn. induction b as [|c b IHb]; intros [|n] Hn; cbn in *; try done; [lia|]. by rewrite IHb by lia.
Qed.

Lemma length_app_str (a b : string) : String.length (a ++ b)%string = (String.length a + String.length b)%nat.
Proof. induction a as [|c a IH]; [done|]. rewrite Str.app_cons. cbn. by rewrite IH. Qed.

(** Stripping a text that starts with a well-formed block. *)
Lemma strip_block inner rest :
  all_chars not_bracket inner = true ->
  strip_context_block (block_open ++ inner ++ "]" ++ rest)%string =
  (if Str.startswith blank_line rest then substring 2 (String.length rest) rest
   else if Str.nonempty rest then (block_open ++ inner ++ "]" ++ rest)%string else "").
Proof.
  intros Hi. unfold strip_context_block. unfold Str.startswith at 1. rewrite Str.prefix_app.
  rewrite substring_app_drop by (rewrite (length_app_str block_open); lia). by rewrite after_bracket_app.
Qed.

(** The settings block is invisible to the user.  For every context whose
    free texts have no closing bracket, and every message, the stored text of
    the turn (the block, a blank line, the message) shows as exactly the
    message again, or as nothing for a turn without text. *)
Theorem context_block_hidden context msg block :
  no_bracket context -> _render_context_block (Some context) = Some block ->
  strip_context_block (_compose_turn0_text (Some block) msg) =
  (if Str.nonempty (Str.strip msg) then msg else "").
Proof.
  intros Hb. unfold _render_context_block. destruct (context_parts context) as [|p ps] eqn:Ep; [done|].
  intros Hblk. injection Hblk as <-. destruct (context_parts_chars context) as [_ Hc]. specialize (Hc Hb). rewrite Ep in Hc.
  assert (Hi : all_chars not_bracket (Str.join "; " (p :: ps)) = true) by (by apply join_chars).
  unfold _compose_turn0_text. destruct (Str.nonempty (Str.strip msg)) eqn:Em; cbn [negb].
  - rewrite !Str.app_assoc, strip_block by done. unfold Str.startswith. rewrite Str.prefix_app.
    by rewrite (substring_app_drop blank_line) by (rewrite length_app_str; lia).
  - cbn [default]. pose proof (strip_block _ "" Hi) as H. by rewrite Str.app_nil_r in H.
Qed.

Lemma context_block_hidden_witness :
  let context := [("tone", JStr "dry; formal"); ("verbosity", JStr "LOW"); ("mood", JStr "x"); ("locale", JStr "en-GB")] in
  exists block, _render_context_block (Some context) = Some block /\
    block = "[Conversation settings for this message: verbosity=low; tone=dry formal; locale=en-GB]" /\
    strip_context_block (_compose_turn0_text (Some block) "hello [x]") = "hello [x]".
Proof.
  cbv zeta. eexists. split; [reflexivity|]. split; [reflexivity|].
  apply (context_block_hidden
    [("tone", JStr "dry; formal"); ("verbosity", JStr "LOW"); ("mood", JStr "x"); ("locale", JStr "en-GB")] "hello [x]").
  - intros s [H|H]; [discriminate H|]. cbn in H. injection H as <-. reflexivity.
  - reflexivity.
Defined.

(** A bracket in a free text defeats it: the sanitizer leaves it in a
    value, the pattern that hides the block stops at the first bracket, and the
    whole internal block is shown to the user in front of the message. *)
Theorem bracket_shows_block :
  exists context msg block,
    _render_context_block (Some context) = Some block /\
    strip_context_block (_compose_turn0_text (Some block) msg) = (block ++ blank_line ++ msg)%string /\
    msg = "hi" /\ block = "[Conversation settings for this message: codeLanguage=C [99]]".
Proof. by exists [("codeLanguage", JStr "C [99]")], "hi"; eexists. Qed.
