(* ===== verification/ChatRepo.v ===== *)
(** * Chat persistence

    Models [src/app/chat/repository.py]: sessions, steps, tool calls and the
    trial flag.  A step's [seq] comes from the identity sequence of its table,
    which is never rolled back; every reading that the source orders by [seq]
    sorts by it here. *)

From Stdlib Require Import Ascii String.
From stdpp Require Import sorting.
From S2P Require Import Prelude PyVal Redaction Store AuditTrail Logic Fixtures Wallet WalletRun WalletSpec WalletInv.

Open Scope string_scope.
Open Scope list_scope.
Open Scope Z_scope.

Definition by_seq (a b : ChatStep) : Prop := (a.(st_seq) <= b.(st_seq))%nat.
#[global] Instance by_seq_dec : RelDecision by_seq.
Proof. intros a b. unfold by_seq. apply _. Defined.

(** [ORDER BY seq ASC] *)
Definition order_by_seq (l : list ChatStep) : list ChatStep := merge_sort by_seq l.

Definition by_created_id (a b : uuid * ToolCall) : Prop :=
  a.2.(tc_created_at) < b.2.(tc_created_at) \/ (a.2.(tc_created_at) = b.2.(tc_created_at) /\ (a.1 <= b.1)%N).
#[global] Instance by_created_id_dec : RelDecision by_created_id.
Proof. intros a b. unfold by_created_id. apply _. Defined.

(** A step of a session, and one of its turns. *)
Definition in_session (sid : uuid) (s : ChatStep) : Prop := s.(st_session_id) = sid.
#[global] Instance in_session_dec sid : forall s, Decision (in_session sid s).
Proof. intros s. unfold in_session. apply _. Defined.

Definition in_turn (sid msid : uuid) (role : chat_role) (s : ChatStep) : Prop :=
  s.(st_session_id) = sid /\ s.(st_message_step_id) = msid /\ s.(st_role) = role.
#[global] Instance in_turn_dec sid msid role : forall s, Decision (in_turn sid msid role s).
Proof. intros s. unfold in_turn. apply _. Defined.

Definition put_step (s : ChatStep) (d : Db) : Db := set_chat_steps (d.(chat_steps) ++ [s]) d.
Definition put_call (id : uuid) (t : ToolCall) (d : Db) : Db := set_tool_calls (<[id := t]> d.(tool_calls)) d.

Module ChatRepo.

(** ** The trial *)

Definition mark_trial_used (u : uuid) : M bool :=
  d ← get_db;
  match d.(users) !! u with
  | Some r =>
      if r.(u_trial_used) then mret false
      else modify_db (fun d => set_users (<[u := with_trial true r]> d.(users)) d);; mret true
  | None => mret false
  end.

Definition claim_trial (u : uuid) : M bool :=
  claimed ← mark_trial_used u;
  commit;;
  mret claimed.

Definition reconcile_trial (u : uuid) : M bool :=
  d ← get_db;
  updated ← (match d.(users) !! u with
             | Some r =>
                 if r.(u_trial_used) then modify_db (fun d => set_users (<[u := with_trial false r]> d.(users)) d);; mret true
                 else mret false
             | None => mret false
             end : M bool);
  commit;;
  mret updated.

(** ** Sessions *)

Definition get_session (sid u : uuid) : M (option ChatSession) :=
  d ← get_db;
  mret (match d.(chat_sessions) !! sid with
        | Some s => if N.eqb s.(cs_user_id) u then Some s else None
        | None => None
        end).

Definition is_expired (s : ChatSession) : M bool :=
  c ← settings;
  now ← py_now;
  mret (c.(chat).(session_soft_ttl_us) <? now - s.(cs_updated_at)).

Record SessionContext : Type := mkSessionContext { sc_id : uuid; sc_session : ChatSession; is_new : bool }.

Definition create_session (u : uuid) (project_id : option string) (mode : Mode) (assistant_mode : string)
    (title model : option string) (workspace_project_id : option uuid) : M SessionContext :=
  d ← get_db;
  id ← gen_random_uuid;
  now ← pg_now;
  let s := mkChatSession u project_id mode model title assistant_mode workspace_project_id false now now in
  check_constraint (user_exists d u);;
  check_constraint (match workspace_project_id with
                    | None => true
                    | Some i => match d.(workspace_projects) !! i with Some _ => true | None => false end
                    end);;
  check_constraint (match d.(chat_sessions) !! id with None => true | Some _ => false end);;
  modify_db (fun d => set_chat_sessions (<[id := s]> d.(chat_sessions)) d);;
  mret (mkSessionContext id s true).

Definition get_or_create_session (u : uuid) (project_id : option string) (mode : Mode) (session_id : option uuid)
    (assistant_mode : string) (title model : option string) (workspace_project_id : option uuid) : M SessionContext :=
  let create := create_session u project_id mode assistant_mode title model workspace_project_id in
  match session_id with
  | None => create
  | Some sid =>
      existing ← get_session sid u;
      match existing with
      | None => create
      | Some s =>
          expired ← is_expired s;
          match expired with
          | true => create
          | false => mret (mkSessionContext sid s false)
          end
      end
  end.

Definition with_updated_at (t : instant) (s : ChatSession) : ChatSession :=
  mkChatSession s.(cs_user_id) s.(cs_project_id) s.(cs_mode) s.(cs_model) s.(cs_title) s.(cs_assistant_mode)
    s.(cs_workspace_project_id) s.(cs_is_pinned) s.(cs_created_at) t.

Definition touch_session (sid : uuid) : M unit :=
  now ← py_now;
  modify_db (fun d => set_chat_sessions (alter (with_updated_at now) sid d.(chat_sessions)) d).

(** ** Steps *)

Definition add_step (sid msid : uuid) (role : chat_role) (payload : dict) (usage : option dict) : M ChatStep :=
  d ← get_db;
  id ← gen_random_uuid;
  seq ← nextval;
  now ← pg_now;
  let s := mkChatStep id seq sid msid role payload usage now in
  check_constraint (session_exists d (Some sid));;
  modify_db (put_step s);;
  mret s.

Definition list_steps (sid : uuid) : M (list ChatStep) :=
  d ← get_db; mret (order_by_seq (filter (in_session sid) d.(chat_steps))).

(** ** Tool calls *)

Definition create_tool_call (sid msid : uuid) (tool_name : string) (args : dict) (tool_call_id : uuid)
    (provider_tool_use_id : string) : M unit :=
  d ← get_db;
  now ← pg_now;
  check_constraint (session_exists d (Some sid));;
  check_constraint (match d.(tool_calls) !! tool_call_id with None => true | Some _ => false end);;
  modify_db (put_call tool_call_id
               (mkToolCall sid msid tool_name provider_tool_use_id args tc_pending None now)).

Definition get_tool_call (tool_call_id : uuid) : M (option ToolCall) :=
  d ← get_db; mret (d.(tool_calls) !! tool_call_id).

Definition call_of (sid msid : uuid) (kv : uuid * ToolCall) : Prop :=
  kv.2.(tc_session_id) = sid /\ kv.2.(tc_message_step_id) = msid.
#[global] Instance call_of_dec sid msid : forall kv, Decision (call_of sid msid kv).
Proof. intros kv. unfold call_of. apply _. Defined.

Definition list_tool_calls_for_step (sid msid : uuid) : M (list (uuid * ToolCall)) :=
  d ← get_db; mret (merge_sort by_created_id (filter (call_of sid msid) (map_to_list d.(tool_calls)))).

(** [UPDATE ... WHERE id = :id AND status = 'pending' RETURNING id] *)
Definition complete_tool_call (tool_call_id : uuid) (status : tool_call_status) (result : option json) : M bool :=
  d ← get_db;
  match d.(tool_calls) !! tool_call_id with
  | Some t =>
      match t.(tc_status) with
      | tc_pending =>
          modify_db (put_call tool_call_id
            (mkToolCall t.(tc_session_id) t.(tc_message_step_id) t.(tc_tool_name) t.(tc_provider_tool_use_id) t.(tc_args)
               status result t.(tc_created_at)));;
          mret true
      | _ => mret false
      end
  | None => mret false
  end.

(** ** Truncation *)

(** [SELECT min(seq)] *)
Definition min_seq (l : list ChatStep) : option nat :=
  match l with [] => None | s :: rest => Some (foldr (fun x m => Nat.min x.(st_seq) m) s.(st_seq) rest) end.

Definition from_anchor (sid : uuid) (anchor : nat) (s : ChatStep) : Prop :=
  s.(st_session_id) = sid /\ (anchor <= s.(st_seq))%nat.
#[global] Instance from_anchor_dec sid anchor : forall s, Decision (from_anchor sid anchor s).
Proof. intros s. unfold from_anchor. apply _. Defined.

Definition truncate_from_message_step (sid msid : uuid) : M (option Z) :=
  d ← get_db;
  match min_seq (filter (in_turn sid msid role_user) d.(chat_steps)) with
  | None => mret None
  | Some anchor =>
      let doomed := filter (from_anchor sid anchor) d.(chat_steps) in
      let turns := st_message_step_id <$> doomed in
      modify_db (fun d => set_tool_calls
        (filter (fun kv => ~ (kv.2.(tc_session_id) = sid /\ kv.2.(tc_message_step_id) ∈ turns)) d.(tool_calls)) d);;
      modify_db (fun d => set_chat_steps (filter (fun s => ~ from_anchor sid anchor s) d.(chat_steps)) d);;
      mret (Some (Z.of_nat (length doomed)))
  end.

(** ** Lookups by [seq] *)

Definition assistant_tool_step_id (sid msid : uuid) : M (option uuid) :=
  d ← get_db;
  mret (st_id <$> last (order_by_seq (filter (in_turn sid msid role_assistant) d.(chat_steps)))).

(** The tool step that records the result of a call. *)
Definition records_call (sid msid : uuid) (call : uuid) (s : ChatStep) : Prop :=
  in_turn sid msid role_tool s /\ dict_lookup "toolCallId" s.(st_payload) = Some (JStr (uuid_str call)).
#[global] Instance records_call_dec sid msid call : forall s, Decision (records_call sid msid call s).
Proof.
  intros s. unfold records_call. destruct (dict_lookup "toolCallId" (st_payload s)) as [[| | | |x| |]|];
    try (right; intros [_ H]; discriminate H).
  destruct (decide (in_turn sid msid role_tool s)) as [H1|H1]; [|right; tauto].
  destruct (String.string_dec x (uuid_str call)) as [->|Hne]; [by left|right; intros [_ [= H]]; done].
Defined.

Definition next_step_after (sid msid after_tool_call : uuid) : M (option ChatStep) :=
  d ← get_db;
  let assistants := filter (in_turn sid msid role_assistant) d.(chat_steps) in
  match head (order_by_seq (filter (records_call sid msid after_tool_call) d.(chat_steps))) with
  | Some anchor => mret (head (order_by_seq (filter (fun s => (anchor.(st_seq) < s.(st_seq))%nat) assistants)))
  | None => mret (last (order_by_seq assistants))
  end.
End ChatRepo.
