(* ===== verification/Chat.v ===== *)
(** * The chat orchestrator

    Models [src/app/chat/orchestrator.py] ([ChatOrchestrator.run] and
    [tool_result] with everything they call), [src/app/chat/global_tools.py]
    and the neutral types of [src/app/chat/llm_client.py].

    The provider is a parameter: the answer to the [n]-th request of one call.
    While it is awaited the connection is free and other requests may commit;
    what they did is a parameter too. *)

From Stdlib Require Import Ascii String.
From stdpp Require Import sorting.
From S2P Require Import Prelude PyVal Redaction Store AuditTrail Logic Fixtures Wallet WalletRun WalletSpec WalletInv.
From S2P Require Import Policy Uuid Config ChatTools Website Attachments Workspaces Byok ChatContext ChatRepo.

Open Scope string_scope.
Open Scope list_scope.
Open Scope Z_scope.

Definition EVENT_POLICY_DECISION : string := "policy_decision".
Definition EVENT_CHAT_STEP : string := "chat_step".
Definition EVENT_TOOL_CALL_INITIATED : string := "tool_call_initiated".
Definition EVENT_TOOL_CALL_COMPLETED : string := "tool_call_completed".

(** ** The neutral types of llm_client.py *)

Definition STOP_REASON_TOOL_USE : string := "tool_use".
Definition STOP_REASON_MAX_TOKENS : string := "max_tokens".

Record LLMUsage : Type := mkLLMUsage {
  input_tokens : Z; output_tokens : Z; usage_model : string; cache_read_tokens : Z; cache_write_tokens : Z
}.

Definition usage_to_dict (u : LLMUsage) : dict :=
  [("inputTokens", JInt u.(input_tokens)); ("outputTokens", JInt u.(output_tokens)); ("model", JStr u.(usage_model));
   ("cacheReadTokens", JInt u.(cache_read_tokens)); ("cacheWriteTokens", JInt u.(cache_write_tokens))].

(** One entry of [tool_uses]: [{id, name, input}]. *)
Record ToolUse : Type := mkToolUse { tu_id : string; tu_name : string; tu_input : dict }.

Record LLMResult : Type := mkLLMResult {
  stop_reason : option string;
  lr_content_blocks : list dict;
  lr_usage : LLMUsage;
  lr_text : string;
  tool_uses : list ToolUse
}.

(** For [role_tool] the domain record of the result, otherwise the blocks. *)
Record NeutralMessage : Type := mkNeutralMessage {
  nm_role : chat_role;
  nm_content_blocks : json;
  nm_tool_call_id : json;
  nm_provider_tool_use_id : json;
  nm_tool_name : json;
  nm_result : json;
  nm_error : json
}.

(** The arguments of [create_message]. *)
Record LLMRequest : Type := mkLLMRequest {
  rq_system_prompt : string;
  rq_messages : list NeutralMessage;
  rq_tools : list dict;
  rq_attachments : option PreparedAttachments;
  rq_api_key : option string;
  rq_model : option string
}.

(** ** What the orchestrator is given *)

Record ChatDeps : Type := mkChatDeps {
  (** the provider's answer to each request of one call *)
  llm : nat -> LLMRequest -> exn + LLMResult;
  (** what the rest of the service commits while that answer is awaited, and
      how many step numbers it draws *)
  others : nat -> Db -> Db;
  others_steps : nat -> nat;
  (** [ZoneInfo]: the key and the rendering of an instant in the zone *)
  zone_info : string -> option (string * (instant -> string));
  utc_isoformat : instant -> string;
  (** pydantic: lax booleans, schemas, descriptions, error texts *)
  lax_bool : json -> option bool;
  model_json_schema : list (string * field_type) -> dict;
  description : string -> string;
  args_error : string -> dict -> string;
  (** encodings, PDF reader and cipher *)
  codec : Codec;
  json_loads_ok : string -> bool;
  pdf_reader : string -> pdf_outcome;
  crypto : Crypto
}.

(** ** Results *)

Record ToolCallOut : Type := mkToolCallOut { to_id : string; to_name : string; to_args : dict }.

Record ServerToolExecutionOut : Type := mkServerToolOut {
  so_tool_call_id : uuid; so_tool_name : string; so_status : string; so_summary : string
}.

Record ToolResultIn : Type := mkToolResultIn {
  ti_tool_call_id : uuid; ti_result : option dict; ti_error : option dict
}.

Record ChatRunOut : Type := mkChatRunOut {
  co_status : string;
  co_session_id : uuid;
  co_assistant_message : option string;
  co_tool_calls : option (list ToolCallOut);
  co_tool_call : option ToolCallOut;
  co_block_reason : option string;
  co_usage : option dict;
  co_message_step_id : option uuid;
  co_step_id : option uuid;
  co_server_tools : list ServerToolExecutionOut
}.

Definition mode_value (m : Mode) : string := match m with mode_credits => "credits" | mode_byok => "byok" end.

Definition reason_value (r : BlockReason) : string :=
  match r with
  | trial_used_reason => "trial_used" | subscription_required => "subscription_required"
  | subscription_expired => "subscription_expired" | credits_empty => "credits_empty"
  | byok_disabled_reason => "byok_disabled" | byok_invalid_reason => "byok_invalid"
  | rate_limited => "rate_limited" | policy_denied => "policy_denied"
  | debt_outstanding => "debt_outstanding" | max_tokens => "max_tokens"
  end.

Definition call_status_value (s : tool_call_status) : string :=
  match s with tc_pending => "pending" | tc_completed => "completed" | tc_errored => "errored" end.

(** [status in ("completed", "errored")] *)
Definition is_done (t : ToolCall) : bool := match t.(tc_status) with tc_pending => false | _ => true end.

Definition jopt_dict (o : option dict) : json := match o with Some d => JObj d | None => JNull end.

(** [text or None] *)
Definition or_null (s : string) : option string := if Str.nonempty s then Some s else None.

(** [_active_provider] *)
Definition _active_provider (s : Settings) : string := Str.lower (Str.strip s.(chat).(llm_provider)).

(** ** Global server-side tools *)

Definition TIME_NOW_TZ_MAX_LENGTH : nat := 64.

Definition _WEEKDAYS : list string :=
  ["Monday"; "Tuesday"; "Wednesday"; "Thursday"; "Friday"; "Saturday"; "Sunday"].

(** [datetime.weekday()] of a UTC instant: 1 January 1970 was a Thursday. *)
Definition weekday (t : instant) : nat := Z.to_nat ((t / 86400000000 + 3) mod 7).

Module Orchestrator.
Section orchestrator.
Context (deps : ChatDeps).

Definition _time_now (args : dict) : M ToolExecution :=
  now_utc ← py_now;
  let result := [("utc", JStr (deps.(utc_isoformat) now_utc)); ("unix", JInt (Z.quot now_utc 1000000));
                 ("weekday", JStr (nth (weekday now_utc) _WEEKDAYS ""))] in
  match dict_get args "tz" with
  | JNull => mret (exec_ok result)
  | tz_raw =>
      let tz_name := match tz_raw with JStr s => s | v => py_str deps.(codec) v end in
      if (TIME_NOW_TZ_MAX_LENGTH <? String.length tz_name)%nat
      then mret (exec_error "invalid_timezone" "timezone name exceeds the 64-character limit")
      else match deps.(zone_info) tz_name with
           | None => mret (exec_error "invalid_timezone" ("unknown or unavailable timezone: " ++ tz_name)%string)
           | Some (key, local) => mret (exec_ok (result ++ [("timezone", JStr key); ("local", JStr (local now_utc))]))
           end
  end.

(** [GlobalToolHandlers.execute] *)
Definition global_execute (tool_name : string) (args : dict) : M ToolExecution :=
  if String.eqb tool_name TOOL_TIME_NOW then _time_now args
  else mret (exec_error "unknown_tool" ("unknown global server-side tool: " ++ tool_name)%string).

(** ** Internals *)

Definition _evaluate (u : uuid) (mode : Mode) (sid : uuid) : M (PolicyDecision * PolicyState) :=
  state ← load_policy_state u;
  let decision := evaluate state mode in
  record (mkAuditEvent u (Some sid) EVENT_POLICY_DECISION
            [("mode", JStr (mode_value mode)); ("decision", JStr (if allow decision then "allow" else "blocked"));
             ("blockReason", match decision.(block_reason) with Some r => JStr (reason_value r) | None => JNull end)]);;
  mret (decision, state).

Definition _blocked (sid : uuid) (reason : option BlockReason) : M ChatRunOut :=
  let resolved := default policy_denied reason in
  metric_inc "blocked_requests_total" (reason_value resolved);;
  mret (mkChatRunOut "blocked" sid None None None (Some (reason_value resolved)) None None None []).

Definition _resolve_api_key (u : uuid) (mode : Mode) : M (option string) :=
  match mode with
  | mode_byok =>
      metric_inc "byok_usage_share" "set 1";;
      key ← Byok.get_plaintext_key deps.(crypto) u;
      match key with
      | None => raise (ValidationFailedError "byok key unavailable")
      | Some k => mret (Some k)
      end
  | mode_credits => metric_inc "byok_usage_share" "set 0";; mret None
  end.

Definition _will_create_session (u : uuid) (session_id : option uuid) : M bool :=
  match session_id with
  | None => mret true
  | Some sid =>
      existing ← ChatRepo.get_session sid u;
      match existing with None => mret true | Some s => ChatRepo.is_expired s end
  end.

(** [payload[k]] *)
Definition item (payload : dict) (k : string) : exn + json :=
  match dict_lookup k payload with Some v => inr v | None => inl KeyError end.

Definition neutral_message (step : ChatStep) : exn + NeutralMessage :=
  let payload := step.(st_payload) in
  match step.(st_role) with
  | role_user | role_assistant =>
      match item payload "content" with
      | inl x => inl x
      | inr blocks => inr (mkNeutralMessage step.(st_role) blocks JNull JNull JNull JNull JNull)
      end
  | role_tool =>
      match item payload "providerToolUseId" with
      | inl x => inl x
      | inr id => inr (mkNeutralMessage role_tool (JArr []) (dict_get payload "toolCallId") id
                         (dict_get payload "toolName") (dict_get payload "result") (dict_get payload "error"))
      end
  end.

Fixpoint neutral_messages (steps : list ChatStep) : exn + list NeutralMessage :=
  match steps with
  | [] => inr []
  | s :: rest =>
      match neutral_message s with
      | inl x => inl x
      | inr m => match neutral_messages rest with inl x => inl x | inr ms => inr (m :: ms) end
      end
  end.

(** Raise the exception or go on. *)
Definition lift {A} (r : exn + A) : M A := match r with inl x => raise x | inr a => mret a end.

Definition _build_messages (sid : uuid) : M (list NeutralMessage) :=
  steps ← ChatRepo.list_steps sid; lift (neutral_messages steps).

(** [await llm.create_message(...)], called right after a commit. *)
Definition create_message (round : nat) (rq : LLMRequest) : M LLMResult := fun _ w =>
  let d := deps.(others) round w.(w_db) in
  (deps.(llm) round rq,
   mkWorld d d w.(w_uuids) w.(w_ticks) (w.(w_seq) + deps.(others_steps) round) w.(w_metrics) w.(w_host)).

Definition _debit (u sid msid : uuid) (usage : dict) : M unit :=
  consume u 1 (uuid_str msid) [("usage", JObj usage); ("model", dict_get usage "model")] (Some sid);;
  mret tt.

(** ** Tool calls of one turn *)

Definition content_payload (blocks : list dict) : dict := [("content", JArr (JObj <$> blocks))].

(** The tail shared by the two executors: outcome, tool step, audit. *)
Definition keep_execution (u sid msid call : uuid) (tool_name provider_id : string) (execution : ToolExecution)
    (server_tools : list ServerToolExecutionOut) : M (list ServerToolExecutionOut) :=
  let payload := to_tool_result_payload execution in
  let status := if execution.(is_error) then tc_errored else tc_completed in
  let entry := mkServerToolOut call tool_name (call_status_value status) (_server_tool_summary execution) in
  ChatRepo.complete_tool_call call status (Some (JObj payload));;
  ChatRepo.add_step sid msid role_tool
    [("toolCallId", JStr (uuid_str call)); ("providerToolUseId", JStr provider_id); ("toolName", JStr tool_name);
     ("result", dict_get payload "result"); ("error", dict_get payload "error")] None;;
  record (mkAuditEvent u (Some sid) EVENT_TOOL_CALL_COMPLETED
            [("toolCallId", JStr (uuid_str call)); ("toolName", JStr tool_name);
             ("status", JStr (call_status_value status))]);;
  mret (server_tools ++ [entry]).

Definition _execute_server_side_tool (u sid msid call : uuid) (tool_name : string) (args : dict) (provider_id : string)
    (external_project_id : string) (server_tools : list ServerToolExecutionOut) : M (list ServerToolExecutionOut) :=
  execution ← site_execute deps.(codec) tool_name args u external_project_id sid;
  keep_execution u sid msid call tool_name provider_id execution server_tools.

Definition _execute_global_server_side_tool (u sid msid call : uuid) (tool_name : string) (args : dict)
    (provider_id : string) (server_tools : list ServerToolExecutionOut) : M (list ServerToolExecutionOut) :=
  execution ← global_execute tool_name args;
  keep_execution u sid msid call tool_name provider_id execution server_tools.

(** The session is the object of the identity map that the request loaded. *)
Definition _external_project_id (sess : ChatSession) : M string :=
  match sess.(cs_project_id) with
  | None => raise (UpstreamError "site.* resolution attempted for a project-less session")
  | Some p => mret p
  end.

Definition has_project (sess : ChatSession) : bool := match sess.(cs_project_id) with Some _ => true | None => false end.

(** The loop over [result.tool_uses]. *)
Fixpoint use_tools (u sid msid : uuid) (external_project_id : option string) (uses : list ToolUse)
    (client_outs : list ToolCallOut) (server_tools : list ServerToolExecutionOut) :
    M (list ToolCallOut * list ServerToolExecutionOut) :=
  match uses with
  | [] => mret (client_outs, server_tools)
  | block :: rest =>
      let tool_name := block.(tu_name) in
      let provider_id := block.(tu_id) in
      if member tool_name SERVER_SIDE_TOOLS && negb (match external_project_id with Some _ => true | None => false end)
      then raise (UpstreamError "server-side site.* tool requested for a project-less session")
      else
        match validate_tool_args deps.(lax_bool) tool_name block.(tu_input) with
        | None => raise (ValidationFailedError (deps.(args_error) tool_name block.(tu_input)))
        | Some validated_args =>
            call ← gen_random_uuid;
            ChatRepo.create_tool_call sid msid tool_name validated_args call provider_id;;
            record (mkAuditEvent u (Some sid) EVENT_TOOL_CALL_INITIATED
                      [("toolCallId", JStr (uuid_str call)); ("toolName", JStr tool_name)]);;
            if member tool_name GLOBAL_SERVER_SIDE_TOOLS then
              server_tools ← _execute_global_server_side_tool u sid msid call tool_name validated_args provider_id
                               server_tools;
              use_tools u sid msid external_project_id rest client_outs server_tools
            else if member tool_name SERVER_SIDE_TOOLS then
              match external_project_id with
              | None => raise AssertionError
              | Some project =>
                  server_tools ← _execute_server_side_tool u sid msid call tool_name validated_args provider_id
                                   project server_tools;
                  use_tools u sid msid external_project_id rest client_outs server_tools
              end
            else
              use_tools u sid msid external_project_id rest
                (client_outs ++ [mkToolCallOut (uuid_str call) tool_name validated_args]) server_tools
        end
  end.

(** [_TurnOutcome.client_out] and the accumulator. *)
Definition _handle_tool_use (u sid msid : uuid) (sess : ChatSession) (result : LLMResult) (usage : dict)
    (server_tools : list ServerToolExecutionOut) : M (option ChatRunOut * list ServerToolExecutionOut) :=
  assistant_step ← ChatRepo.add_step sid msid role_assistant (content_payload result.(lr_content_blocks)) (Some usage);
  external_project_id ← (if has_project sess then p ← _external_project_id sess; mret (Some p) else mret None
                         : M (option string));
  r ← use_tools u sid msid external_project_id result.(tool_uses) [] server_tools;
  let '(client_outs, server_tools) := r in
  mret (match client_outs with
        | [] => None
        | first :: _ =>
            Some (mkChatRunOut "tool_call" sid (or_null result.(lr_text)) (Some client_outs) (Some first) None (Some usage)
                    (Some msid) (Some assistant_step.(st_id)) server_tools)
        end, server_tools).

Definition _handle_max_tokens (u sid msid : uuid) (result : LLMResult) (usage : dict)
    (server_tools : list ServerToolExecutionOut) : M ChatRunOut :=
  truncated_step ← ChatRepo.add_step sid msid role_assistant (content_payload result.(lr_content_blocks)) (Some usage);
  record (mkAuditEvent u (Some sid) EVENT_CHAT_STEP
            [("sessionId", JStr (uuid_str sid)); ("role", JStr "assistant");
             ("blockReason", JStr (reason_value max_tokens)); ("model", dict_get usage "model"); ("usage", JObj usage)]);;
  commit;;
  metric_inc "blocked_requests_total" (reason_value max_tokens);;
  mret (mkChatRunOut "blocked" sid (or_null result.(lr_text)) None None (Some (reason_value max_tokens)) (Some usage)
          (Some msid) (Some truncated_step.(st_id)) server_tools).

Definition _finalize_assistant (u sid msid : uuid) (billing : _BillingPlan) (result : LLMResult) (usage : dict)
    (server_tools : list ServerToolExecutionOut) : M ChatRunOut :=
  assistant_step ← ChatRepo.add_step sid msid role_assistant (content_payload result.(lr_content_blocks)) (Some usage);
  record (mkAuditEvent u (Some sid) EVENT_CHAT_STEP
            [("sessionId", JStr (uuid_str sid)); ("role", JStr "assistant"); ("model", dict_get usage "model");
             ("usage", JObj usage)]);;
  paid ← (if billing.(debit_credits)
          then try_except (_debit u sid msid usage;; mret true)
                 (fun x => if is_InsufficientCreditsError x then Some (mret false) else None)
          else mret true : M bool);
  match paid with
  | false => rollback;; _blocked sid (Some credits_empty)
  | true =>
      ChatRepo.touch_session sid;;
      commit;;
      mret (mkChatRunOut "assistant_message" sid (Some result.(lr_text)) None None None (Some usage) (Some msid)
              (Some assistant_step.(st_id)) server_tools)
  end.

(** ** The generation loop *)

(** The arguments a turn carries through its rounds. *)
Record Turn : Type := mkTurn {
  tn_user : uuid; tn_session : uuid; tn_sess : ChatSession; tn_message_step : uuid; tn_mode : Mode;
  tn_billing : _BillingPlan; tn_api_key : option string; tn_system_prompt : string
}.

Definition count_tokens (direction : string) (usage : LLMUsage) (n : Z) : M unit :=
  metric_inc "token_usage_total" (direction ++ "," ++ usage.(usage_model) ++ "," ++ Str.of_int n)%string.

(** [range(max_rounds + 1)]: [rounds] are left, [n] were done. *)
Fixpoint generate_rounds (t : Turn) (rounds n : nat) (turn0 : option PreparedAttachments)
    (server_tools : list ServerToolExecutionOut) : M ChatRunOut :=
  let '(mkTurn u sid sess msid mode billing api_key system_prompt) := t in
  match rounds with
  | O =>
      s ← settings;
      record (mkAuditEvent u (Some sid) EVENT_CHAT_STEP
                [("sessionId", JStr (uuid_str sid)); ("error", JStr "max_server_tool_rounds_exceeded");
                 ("maxRounds", JInt (Z.of_nat s.(chat).(max_server_tool_rounds)))]);;
      commit;;
      raise (UpstreamError "server-side tool loop exceeded maximum rounds")
  | S rounds =>
      messages ← _build_messages sid;
      commit;;
      tools ← lift (match neutral_tool_definitions deps.(model_json_schema) deps.(description) (has_project sess) with
                    | Some l => inr l | None => inl KeyError end);
      answer ← try_except
                 (r ← create_message n (mkLLMRequest system_prompt messages tools turn0 api_key
                                          (m ← sess.(cs_model); or_null m));
                  mret (Some r))
                 (fun x => match x, mode with
                           | LLMAuthError, mode_byok => Some (mret None)
                           | _, _ => None
                           end);
      match answer with
      | None => Byok.mark_expired u;; commit;; _blocked sid (Some byok_invalid_reason)
      | Some result =>
          let usage := usage_to_dict result.(lr_usage) in
          count_tokens "input" result.(lr_usage) result.(lr_usage).(input_tokens);;
          count_tokens "output" result.(lr_usage) result.(lr_usage).(output_tokens);;
          if bool_decide (result.(stop_reason) = Some STOP_REASON_MAX_TOKENS)
          then _handle_max_tokens u sid msid result usage server_tools
          else if bool_decide (result.(stop_reason) = Some STOP_REASON_TOOL_USE) &&
                  match result.(tool_uses) with [] => false | _ => true end
          then
            outcome ← _handle_tool_use u sid msid sess result usage server_tools;
            let '(client_out, server_tools) := outcome in
            commit;;
            match client_out with
            | Some out => mret out
            | None => generate_rounds t rounds (S n) None server_tools
            end
          else _finalize_assistant u sid msid billing result usage server_tools
      end
  end.

Definition _generate_loop (t : Turn) (turn0 : option PreparedAttachments) : M ChatRunOut :=
  s ← settings;
  generate_rounds t (s.(chat).(max_server_tool_rounds) + 1) 0 turn0 [].

Definition _generate_with_trial_reconcile (claimed_trial : bool) (t : Turn) (turn0 : option PreparedAttachments) :
    M ChatRunOut :=
  if negb claimed_trial then _generate_loop t turn0
  else
    out ← try_except (_generate_loop t turn0)
            (fun x => Some (rollback;; ChatRepo.reconcile_trial t.(tn_user);; raise x));
    if String.eqb out.(co_status) "assistant_message" || String.eqb out.(co_status) "tool_call" then mret out
    else ChatRepo.reconcile_trial t.(tn_user);; mret out.

(** ** [run] *)

(** The keyword arguments of [run] after [user_id]. *)
Record RunArgs : Type := mkRunArgs {
  ra_project_id : option string;
  ra_session_id : option uuid;
  ra_message : string;
  ra_mode : Mode;
  ra_assistant_mode : option string;
  ra_attachments : list AttachmentIn;
  ra_model : option string;
  ra_workspace_project_id : option uuid;
  ra_context : option dict;
  ra_edit_message_step_id : option uuid
}.

(** The guards and [get_or_create_session]. *)
Definition open_session (u : uuid) (a : RunArgs) : M ChatRepo.SessionContext :=
  let resolved_model := Str.strip <$> a.(ra_model) in
  will_create ← _will_create_session u a.(ra_session_id);
  s ← settings;
  (match will_create, resolved_model with
   | true, Some m =>
       match dict_lookup m (allowed_models s.(chat)) with
       | None => raise (ValidationFailedError ("model '" ++ m ++ "' is not available on this instance")%string)
       | Some _ => mret tt
       end
   | _, _ => mret tt
   end : M unit);;
  (match will_create, a.(ra_workspace_project_id) with
   | true, Some ws =>
       owned ← Workspaces.owns_workspace ws u;
       match owned with true => mret tt | false => raise (WorkspaceNotFoundError "workspace not found") end
   | _, _ => mret tt
   end : M unit);;
  resolved_assistant_mode ← (match a.(ra_assistant_mode) with
                             | Some m => mret m
                             | None => Preferences.get_default_assistant_mode u
                             end : M string);
  ChatRepo.get_or_create_session u a.(ra_project_id) a.(ra_mode) a.(ra_session_id) resolved_assistant_mode
    (derive_title a.(ra_message)) resolved_model (match will_create with true => a.(ra_workspace_project_id) | false => None end).

(** Edit and regenerate. *)
Definition truncate_for_edit (ctx : ChatRepo.SessionContext) (edit : option uuid) : M unit :=
  match edit with
  | None => mret tt
  | Some msid =>
      if ctx.(ChatRepo.is_new) then raise (MessageNotFoundError "message_not_found")
      else
        deleted ← ChatRepo.truncate_from_message_step ctx.(ChatRepo.sc_id) msid;
        match deleted with
        | None => raise (MessageNotFoundError "message_not_found")
        | Some _ => mret tt
        end
  end.

(** System prompt and workspace files. *)
Definition workspace_prompt (u : uuid) (ctx : ChatRepo.SessionContext) : M (string * option PreparedAttachments) :=
  let sess := ctx.(ChatRepo.sc_session) in
  let mode := sess.(cs_assistant_mode) in
  match sess.(cs_workspace_project_id) with
  | None => mret (_system_prompt_for mode, None)
  | Some ws =>
      if ctx.(ChatRepo.is_new) then
        s ← settings;
        ws_context ← Workspaces.context_for_session deps.(codec) ws u (_active_provider s);
        match ws_context with
        | None => mret (_system_prompt_for mode, None)
        | Some c => mret (_system_prompt_with_workspace mode c.(Workspaces.wx_instructions), c.(Workspaces.wx_attachments))
        end
      else
        instructions ← Workspaces.instructions_for_session ws u;
        mret (_system_prompt_with_workspace mode instructions, None)
  end.

(** Attachments and the content of the user step. *)
Definition user_content (a : RunArgs) : M (option PreparedAttachments * list dict) :=
  let message_text := _compose_turn0_text (_render_context_block a.(ra_context)) a.(ra_message) in
  s ← settings;
  prepared ← (match a.(ra_attachments) with
              | [] => mret None
              | l => p ← lift (prepare_attachments deps.(codec) deps.(json_loads_ok) deps.(pdf_reader) s.(chat) l
                                 (_active_provider s));
                     mret (Some p)
              end : M (option PreparedAttachments));
  let text_blocks := if Str.nonempty message_text then [[("type", JStr "text"); ("text", JStr message_text)]] else [] in
  mret (prepared, text_blocks ++ match prepared with Some p => p.(placeholders) | None => [] end).

Definition run (u : uuid) (a : RunArgs) : M ChatRunOut :=
  msid ← gen_random_uuid;
  ctx ← open_session u a;
  let sid := ctx.(ChatRepo.sc_id) in
  let sess := ctx.(ChatRepo.sc_session) in
  truncate_for_edit ctx a.(ra_edit_message_step_id);;
  ws ← workspace_prompt u ctx;
  let '(system_prompt, workspace_attachments) := ws in
  uc ← user_content a;
  let '(prepared, blocks) := uc in
  ChatRepo.add_step sid msid role_user (content_payload blocks) None;;
  ev ← _evaluate u sess.(cs_mode) sid;
  let '(decision, state) := ev in
  if negb (allow decision) then _blocked sid decision.(block_reason)
  else
    let billing := _billing_plan sess.(cs_mode) state in
    claimed ← (if billing.(mark_trial) then ChatRepo.claim_trial u else mret true : M bool);
    match claimed with
    | false => _blocked sid (Some trial_used_reason)
    | true =>
        api_key ← _resolve_api_key u sess.(cs_mode);
        _generate_with_trial_reconcile billing.(mark_trial)
          (mkTurn u sid sess msid sess.(cs_mode) billing api_key system_prompt)
          (_merge_attachments prepared workspace_attachments)
    end.

(** ** [tool_result] *)

Definition _apply_tool_result (u sid msid : uuid) (call : uuid) (t : ToolCall) (result error : option dict) : M unit :=
  let status := match error with Some _ => tc_errored | None => tc_completed end in
  transitioned ← ChatRepo.complete_tool_call call status
                   (JObj <$> (match result with Some _ => result | None => error end));
  match transitioned with
  | false => mret tt
  | true =>
      let audit := [("toolCallId", JStr (uuid_str call)); ("toolName", JStr t.(tc_tool_name));
                    ("status", JStr (call_status_value status))] in
      ChatRepo.add_step sid msid role_tool
        [("toolCallId", JStr (uuid_str call)); ("providerToolUseId", JStr t.(tc_provider_tool_use_id));
         ("toolName", JStr t.(tc_tool_name)); ("result", jopt_dict result); ("error", jopt_dict error)] None;;
      (if member t.(tc_tool_name) MUTATING_TOOLS
       then record (mkAuditEvent u (Some sid) EVENT_TOOL_MUTATION audit) else mret tt);;
      record (mkAuditEvent u (Some sid) EVENT_TOOL_CALL_COMPLETED audit)
  end.

(** Every referenced call, its row as the identity map holds it, and the turn. *)
Fixpoint resolve_calls (sid : uuid) (msid : option uuid) (results : list ToolResultIn) :
    M (list (ToolResultIn * ToolCall) * option uuid) :=
  match results with
  | [] => mret ([], msid)
  | r :: rest =>
      row ← ChatRepo.get_tool_call r.(ti_tool_call_id);
      match row with
      | None => raise (NotFoundError "tool call not found for session")
      | Some t =>
          if negb (N.eqb t.(tc_session_id) sid) then raise (NotFoundError "tool call not found for session")
          else
            msid ← (match msid with
                    | None => mret t.(tc_message_step_id)
                    | Some m => if N.eqb t.(tc_message_step_id) m then mret m
                                else raise (ValidationFailedError "all results must belong to the same turn")
                    end : M uuid);
            tail ← resolve_calls sid (Some msid) rest;
            let '(resolved, turn) := tail in
            mret ((r, t) :: resolved, turn)
      end
  end.

Fixpoint apply_results (u sid msid : uuid) (resolved : list (ToolResultIn * ToolCall)) : M unit :=
  match resolved with
  | [] => mret tt
  | (r, t) :: rest =>
      (if is_done t then mret tt
       else _apply_tool_result u sid msid r.(ti_tool_call_id) t r.(ti_result) r.(ti_error));;
      apply_results u sid msid rest
  end.

(** The rows of [resolved] after [populate_existing] refreshed them. *)
Definition refresh (turn_calls : list (uuid * ToolCall)) (resolved : list (ToolResultIn * ToolCall)) :
    list (ToolResultIn * ToolCall) :=
  (fun rt => (rt.1, match find_first (fun kv => N.eqb kv.1 rt.1.(ti_tool_call_id)) turn_calls with
                    | Some kv => kv.2 | None => rt.2 end)) <$> resolved.

Definition _all_already_done_before (resolved : list (ToolResultIn * ToolCall)) : bool :=
  forallb (fun rt => is_done rt.2) resolved.

(** Iterating a value as blocks; what is not a list of objects raises. *)
Fixpoint block_text (blocks : list json) : exn + string :=
  match blocks with
  | [] => inr ""
  | JObj b :: rest =>
      if match dict_lookup "type" b with Some (JStr s) => String.eqb s "text" | _ => false end then
        match default (JStr "") (dict_lookup "text" b) with
        | JStr s => match block_text rest with inl x => inl x | inr t => inr (s ++ t)%string end
        | _ => inl TypeError
        end
      else block_text rest
  | _ :: _ => inl AttributeError
  end.

Definition saved_text (payload : dict) : exn + string :=
  match dict_lookup "content" payload with
  | None | Some (JObj []) | Some (JStr EmptyString) => inr ""
  | Some (JArr blocks) => block_text blocks
  | Some (JObj _) | Some (JStr _) => inl AttributeError
  | Some _ => inl TypeError
  end.

Definition _render_saved_step (sid msid : uuid) (step : option ChatStep) : M ChatRunOut :=
  match step with
  | None => raise (NotFoundError "no completed step for tool result")
  | Some s =>
      text ← lift (saved_text s.(st_payload));
      mret (mkChatRunOut "assistant_message" sid (Some text) None None None s.(st_usage) (Some msid) (Some s.(st_id)) [])
  end.

Definition call_out (kv : uuid * ToolCall) : ToolCallOut :=
  mkToolCallOut (uuid_str kv.1) kv.2.(tc_tool_name) kv.2.(tc_args).

(** The client-side calls of a turn that still await their result. *)
Definition pending_calls (turn_calls : list (uuid * ToolCall)) : list (uuid * ToolCall) :=
  List.filter (fun kv => client_side kv.2.(tc_tool_name) && negb (is_done kv.2)) turn_calls.

(** The part of [tool_result] after the barrier closed. *)
Definition continue_turn (u sid : uuid) (sess : ChatSession) (msid : uuid) : M ChatRunOut :=
  let mode := sess.(cs_mode) in
  ev ← _evaluate u mode sid;
  let '(decision, state) := ev in
  inflight ← (match mode, state.(ps_subscription_status), state.(ps_trial_used) with
              | mode_credits, sub_none, true =>
                  step ← ChatRepo.assistant_tool_step_id sid msid;
                  mret (match step with Some _ => true | None => false end)
              | _, _, _ => mret false
              end : M bool);
  if negb (allow decision) && negb (bool_decide (decision.(block_reason) = Some trial_used_reason) && inflight)
  then _blocked sid decision.(block_reason)
  else
    api_key ← _resolve_api_key u mode;
    system_prompt ← (match sess.(cs_workspace_project_id) with
                     | None => mret (_system_prompt_for sess.(cs_assistant_mode))
                     | Some ws =>
                         instructions ← Workspaces.instructions_for_session ws u;
                         mret (_system_prompt_with_workspace sess.(cs_assistant_mode) instructions)
                     end : M string);
    _generate_with_trial_reconcile inflight
      (mkTurn u sid sess msid mode (_billing_plan mode state) api_key system_prompt) None.

Definition tool_result (u sid : uuid) (results : list ToolResultIn) : M ChatRunOut :=
  match results with
  | [] => raise (ValidationFailedError "results must be non-empty")
  | first :: _ =>
      session ← ChatRepo.get_session sid u;
      match session with
      | None => raise (NotFoundError "session not found")
      | Some sess =>
          rt ← resolve_calls sid None results;
          let '(resolved, turn) := rt in
          match turn with
          | None => raise AssertionError
          | Some msid =>
              apply_results u sid msid resolved;;
              turn_calls ← ChatRepo.list_tool_calls_for_step sid msid;
              let resolved := refresh turn_calls resolved in
              match call_out <$> pending_calls turn_calls with
              | next :: others =>
                  commit;;
                  step ← ChatRepo.assistant_tool_step_id sid msid;
                  mret (mkChatRunOut "tool_call" sid None (Some (next :: others)) (Some next) None None (Some msid) step [])
              | [] =>
                  saved ← ChatRepo.next_step_after sid msid first.(ti_tool_call_id);
                  match saved with
                  | Some s => if _all_already_done_before resolved then _render_saved_step sid msid (Some s)
                              else continue_turn u sid sess msid
                  | None => continue_turn u sid sess msid
                  end
              end
          end
      end
  end.
End orchestrator.
End Orchestrator.
