(* ===== verification/ChatTurns.v ===== *)
(** * What a chat turn does to the user's account

    Theorems about [Orchestrator.run] and [Orchestrator.tool_result]: what one
    turn costs, when it spends the trial, how often it asks the provider, and
    which rows it may not change. *)

From Stdlib Require Import Ascii String.
From stdpp Require Import sorting.
From S2P Require Import Prelude PyVal Redaction Store AuditTrail Logic Fixtures Wallet WalletRun WalletSpec WalletRefine WalletInv.
From S2P Require Import Policy Uuid Config ChatTools Website Attachments Workspaces Byok ChatContext ChatRepo Chat.
Import Orchestrator.

Open Scope string_scope.
Open Scope list_scope.
Open Scope Z_scope.

(** ** What the rounds of a turn leave alone *)

(** An invariant that no write of a turn, apart from billing and the trial,
    can break. *)
Class ChatStable (I : Db -> Prop) : Prop := mkChatStable {
  cst_step : forall s d, I d -> I (put_step s d);
  cst_create : forall sid msid name args call pid, keeps I I (ChatRepo.create_tool_call sid msid name args call pid);
  cst_complete : forall call st r, keeps I I (ChatRepo.complete_tool_call call st r);
  cst_sessions : forall x d, I d -> I (set_chat_sessions x d);
  cst_projects : forall x d, I d -> I (set_projects x d);
  cst_files : forall x d, I d -> I (set_site_files x d);
  cst_byok : forall x d, I d -> I (set_byok_keys x d);
  cst_audit : forall r d, neutral r -> I d -> I (add_audit r d)
}.

Section stable.
Context (I : Db -> Prop) `{!ChatStable I}.

Lemma stable_record ev :
  ev.(ev_event_type) <> EVENT_BILLING_DEBIT_INSUFFICIENT -> ev.(ev_event_type) <> EVENT_BILLING_DEBT_REPAID ->
  keeps I I (record ev).
Proof. intros H1 H2. unfold record. keeps_walk. apply cst_audit; [by apply neutral_event_type|done]. Qed.

#[local] Hint Resolve cst_create cst_complete : hermes.
#[local] Hint Extern 1 (keeps I I (record _)) => apply stable_record; discriminate : hermes.
#[local] Hint Extern 1 (I (put_step _ _)) => apply cst_step; assumption : hermes.
#[local] Hint Extern 1 (I (set_chat_sessions _ _)) => apply cst_sessions; assumption : hermes.
#[local] Hint Extern 1 (I (set_projects _ _)) => apply cst_projects; assumption : hermes.
#[local] Hint Extern 1 (I (set_site_files _ _)) => apply cst_files; assumption : hermes.
#[local] Hint Extern 1 (I (set_byok_keys _ _)) => apply cst_byok; assumption : hermes.

Lemma stable_add_step sid msid role p us : keeps I I (ChatRepo.add_step sid msid role p us).
Proof. unfold ChatRepo.add_step, nextval. keeps_walk. intros e w [H1 H2]. done. Qed.

Lemma stable_touch sid : keeps I I (ChatRepo.touch_session sid).
Proof. unfold ChatRepo.touch_session. keeps_walk. Qed.

Lemma stable_lift {A} (r : exn + A) : keeps I I (lift r).
Proof. destruct r; [apply keeps_raise|apply keeps_ret]. Qed.

#[local] Hint Resolve stable_add_step stable_touch stable_lift : hermes.

Lemma stable_site c name args u ext sid : keeps I I (site_execute c name args u ext sid).
Proof.
  unfold site_execute, _write_file, _preview, _list, _read, _delete, arg_str, resolve_project, write_file, delete_file,
    read_file, list_files, get_existing_project, site_path, _project_stats, py_time.
  keeps_walk.
Qed.

#[local] Hint Resolve stable_site : hermes.

Context (deps : ChatDeps).

Lemma stable_keep_execution u sid msid call name pid x l : keeps I I (keep_execution u sid msid call name pid x l).
Proof. unfold keep_execution. keeps_walk. Qed.

Lemma stable_global name args : keeps I I (global_execute deps name args).
Proof. unfold global_execute, _time_now. keeps_walk. Qed.

#[local] Hint Resolve stable_keep_execution stable_global : hermes.

Lemma stable_use_tools u sid msid ext uses co st : keeps I I (use_tools deps u sid msid ext uses co st).
Proof.
  revert co st. induction uses as [|b uses IH]; intros co st; cbn [use_tools];
    unfold _execute_global_server_side_tool, _execute_server_side_tool; keeps_walk.
Qed.

#[local] Hint Resolve stable_use_tools : hermes.

Lemma stable_tool_use u sid msid sess r us st : keeps I I (_handle_tool_use deps u sid msid sess r us st).
Proof. unfold _handle_tool_use, _external_project_id. keeps_walk. Qed.

Lemma stable_max_tokens u sid msid r us st : keeps I I (_handle_max_tokens u sid msid r us st).
Proof. unfold _handle_max_tokens. keeps_walk. Qed.

Lemma stable_messages sid : keeps I I (_build_messages sid).
Proof. unfold _build_messages, ChatRepo.list_steps. keeps_walk. Qed.

Lemma stable_expired u : keeps I I (Byok.mark_expired u).
Proof. unfold Byok.mark_expired, Byok.mark_unusable, Byok._load, Byok.put_key. keeps_walk. Qed.

Lemma stable_blocked sid r : keeps I I (_blocked sid r).
Proof. unfold _blocked. keeps_walk. Qed.

#[local] Hint Resolve stable_tool_use stable_max_tokens stable_messages stable_expired stable_blocked : hermes.

Lemma stable_evaluate u mode sid : keeps I I (_evaluate u mode sid).
Proof. unfold _evaluate, load_policy_state, _effective_subscription_status. keeps_walk. Qed.

Lemma stable_api_key u mode : keeps I I (_resolve_api_key deps u mode).
Proof. unfold _resolve_api_key, Byok.get_plaintext_key, Byok._load. keeps_walk. Qed.

(** What other requests commit while the provider is asked. *)
Hypothesis Hothers : forall n d, I d -> I (deps.(others) n d).

Lemma stable_message n rq : keeps I I (create_message deps n rq).
Proof. intros e w [H1 H2]. cbn. auto. Qed.

#[local] Hint Resolve stable_message : hermes.

(** One round, given what the final message does. *)
Lemma stable_rounds t rounds n turn0 st :
  (forall r us st, keeps I I (_finalize_assistant t.(tn_user) t.(tn_session) t.(tn_message_step) t.(tn_billing) r us st)) ->
  keeps I I (generate_rounds deps t rounds n turn0 st).
Proof.
  intros Hf. revert n turn0 st. destruct t as [u sid sess msid mode billing key prompt]. cbn in Hf.
  induction rounds as [|rounds IH]; intros n turn0 st; cbn [generate_rounds]; unfold count_tokens; keeps_walk.
  destruct mode; simplify_eq. apply keeps_ret.
Qed.

Lemma stable_finalize u sid msid billing r us st :
  (billing.(debit_credits) = true -> keeps I I (_debit u sid msid us)) ->
  keeps I I (_finalize_assistant u sid msid billing r us st).
Proof.
  intros Hd. unfold _finalize_assistant. destruct (debit_credits billing); keeps_walk.
Qed.

(** A whole request, given the final message and the restored trial. *)
Section request.
Context (u : uuid).
Hypothesis Hfinal : forall sid msid billing r us st, keeps I I (_finalize_assistant u sid msid billing r us st).
Hypothesis Htrial : keeps I I (ChatRepo.reconcile_trial u).

Lemma stable_generate claimed t turn0 : t.(tn_user) = u -> keeps I I (_generate_with_trial_reconcile deps claimed t turn0).
Proof.
  intros Hu. assert (Hl : keeps I I (_generate_loop deps t turn0)).
  { unfold _generate_loop. keeps_walk. apply stable_rounds. intros. rewrite Hu. apply Hfinal. }
  unfold _generate_with_trial_reconcile. destruct claimed; cbn [negb]; [|done]. rewrite Hu.
  apply keeps_bind; [|intros out; keeps_walk]. apply keeps_recover; [done|done|]. intros x. keeps_walk.
Qed.

#[local] Hint Resolve stable_evaluate stable_api_key : hermes.
#[local] Hint Extern 1 (keeps I I (_generate_with_trial_reconcile _ _ _ _)) => apply stable_generate; reflexivity : hermes.

Lemma stable_apply sid msid call t r x : keeps I I (_apply_tool_result u sid msid call t r x).
Proof. unfold _apply_tool_result. keeps_walk. Qed.

#[local] Hint Resolve stable_apply : hermes.

Lemma stable_apply_all sid msid l : keeps I I (apply_results u sid msid l).
Proof. induction l as [|[r t] l IH]; cbn [apply_results]; keeps_walk. Qed.

Lemma stable_resolve sid msid l : keeps I I (resolve_calls sid msid l).
Proof.
  revert msid. induction l as [|r l IH]; intros msid; cbn [resolve_calls]; unfold ChatRepo.get_tool_call; keeps_walk.
Qed.

#[local] Hint Resolve stable_apply_all stable_resolve : hermes.

Lemma stable_continue sid sess msid : keeps I I (continue_turn deps u sid sess msid).
Proof.
  unfold continue_turn, ChatRepo.assistant_tool_step_id, Workspaces.instructions_for_session,
    WorkspacesRepo.get_instructions, WorkspacesRepo.get_workspace. keeps_walk.
Qed.

#[local] Hint Resolve stable_continue : hermes.

Lemma stable_tool_result sid results : keeps I I (tool_result deps u sid results).
Proof.
  unfold tool_result, ChatRepo.get_session, ChatRepo.list_tool_calls_for_step, ChatRepo.assistant_tool_step_id,
    ChatRepo.next_step_after, _render_saved_step. keeps_walk.
Qed.
End request.
End stable.

(** An invariant that editing a chat cannot break either. *)
Class EditStable (I : Db -> Prop) : Prop := mkEditStable {
  est_steps : forall x d, I d -> I (set_chat_steps x d);
  est_calls : forall x d, I d -> I (set_tool_calls x d);
  est_sessions : forall x d, I d -> I (set_chat_sessions x d);
  est_projects : forall x d, I d -> I (set_projects x d);
  est_files : forall x d, I d -> I (set_site_files x d);
  est_byok : forall x d, I d -> I (set_byok_keys x d);
  est_audit : forall r d, neutral r -> I d -> I (add_audit r d)
}.

#[global] Instance edit_stable_chat I : EditStable I -> ChatStable I.
Proof.
  intros []. split; try done; intros; unfold put_step, ChatRepo.create_tool_call, ChatRepo.complete_tool_call, put_call;
    [auto|keeps_walk..]; auto.
Qed.

#[global] Instance and_edit I J : EditStable I -> EditStable J -> EditStable (fun d => I d /\ J d).
Proof. intros [] []. split; [intros x d [H1 H2]..|intros r d Hn [H1 H2]]; auto. Qed.

Section edit.
Context (I : Db -> Prop) `{!EditStable I} (deps : ChatDeps).

Lemma stable_open u a : keeps I I (open_session u a).
Proof.
  unfold open_session, _will_create_session, ChatRepo.get_or_create_session, ChatRepo.create_session, ChatRepo.get_session,
    ChatRepo.is_expired, Workspaces.owns_workspace, WorkspacesRepo.get_workspace, Preferences.get_default_assistant_mode,
    Preferences._load.
  keeps_walk; by apply est_sessions.
Qed.

Lemma stable_truncate ctx edit : keeps I I (truncate_for_edit ctx edit).
Proof.
  unfold truncate_for_edit, ChatRepo.truncate_from_message_step. keeps_walk; [by apply est_calls|by apply est_steps].
Qed.

Lemma stable_prompt u ctx : keeps I I (workspace_prompt deps u ctx).
Proof.
  unfold workspace_prompt, Workspaces.context_for_session, Workspaces.instructions_for_session,
    WorkspacesRepo.get_instructions, WorkspacesRepo.get_workspace, WorkspacesRepo.list_files. keeps_walk.
Qed.

Lemma stable_content a : keeps I I (user_content deps a).
Proof. unfold user_content. keeps_walk. by apply stable_lift. Qed.
End edit.

(** ** The books *)

#[global] Instance wallet_inv_edit : EditStable wallet_inv.
Proof.
  split; intros; try (apply (wallet_inv_ext d); [reflexivity..|assumption]). by apply wallet_inv_add_audit.
Qed.

Lemma wallet_inv_set_user u x d :
  user_exists d u = true -> wallet_inv d -> wallet_inv (set_users (<[u := x]> d.(users)) d).
Proof.
  intros Hu [H1 H2]. split; [exact H1|]. intros v y Hv. unfold user_exists in *. cbn in *.
  destruct (decide (u = v)) as [->|Hne]; [by rewrite lookup_insert_eq|]. rewrite lookup_insert_ne by done. by eapply H2.
Qed.

Lemma trial_books u : keeps wallet_inv wallet_inv (ChatRepo.claim_trial u) /\
  keeps wallet_inv wallet_inv (ChatRepo.reconcile_trial u).
Proof.
  unfold ChatRepo.claim_trial, ChatRepo.mark_trial_used, ChatRepo.reconcile_trial. split; intros e w [H1 H2];
    unfold mbind, M_bind, get_db; cbn; destruct (users (w_db w) !! u) as [[? [] ?]|] eqn:E; cbn; try done;
    (split; [|intros _]; apply wallet_inv_set_user; [by unfold user_exists; rewrite E|done|by unfold user_exists; rewrite E|done]).
Qed.

Lemma books_finalize u sid msid billing r us st :
  keeps wallet_inv wallet_inv (_finalize_assistant u sid msid billing r us st).
Proof. apply (stable_finalize _). intros _. unfold _debit. keeps_walk. Qed.

#[export] Hint Extern 1 (keeps _ _ (open_session _ _)) => (apply stable_open; apply _) : hermes.
#[export] Hint Extern 1 (keeps _ _ (truncate_for_edit _ _)) => (apply stable_truncate; apply _) : hermes.
#[export] Hint Extern 1 (keeps _ _ (workspace_prompt _ _ _)) => (apply stable_prompt; apply _) : hermes.
#[export] Hint Extern 1 (keeps _ _ (user_content _ _)) => (apply stable_content; apply _) : hermes.
#[export] Hint Extern 1 (keeps _ _ (ChatRepo.add_step _ _ _ _ _)) => (apply stable_add_step; apply _) : hermes.
#[export] Hint Extern 1 (keeps _ _ (_evaluate _ _ _)) => (apply stable_evaluate; apply _) : hermes.
#[export] Hint Extern 1 (keeps _ _ (_blocked _ _)) => (apply stable_blocked; apply _) : hermes.
#[export] Hint Extern 1 (keeps _ _ (_resolve_api_key _ _ _)) => (apply stable_api_key; apply _) : hermes.

Section books.
Context (deps : ChatDeps) (Hothers : forall n d, wallet_inv d -> wallet_inv (deps.(others) n d)).

Lemma chat_run_books u a : keeps wallet_inv wallet_inv (run deps u a).
Proof.
  pose proof (trial_books u) as [Hc Hr]. unfold run. keeps_walk.
  all: apply (stable_generate wallet_inv deps Hothers u); auto using books_finalize.
Qed.

Lemma tool_result_books u sid l : keeps wallet_inv wallet_inv (tool_result deps u sid l).
Proof. apply (stable_tool_result wallet_inv deps Hothers u); [apply books_finalize|apply trial_books]. Qed.
End books.

(** ** What a turn costs *)

(** The user's ledger rows under the key of a turn. *)
Definition turn_rows (d : Db) (u msid : uuid) : list LedgerTransaction :=
  filter (fun t => t.(lt_idempotency_key) = uuid_str msid) (user_txs d u).

Definition unpaid (u msid : uuid) (d : Db) : Prop := turn_rows d u msid = [].

(** One row: a debit of one credit. *)
Definition paid (u msid : uuid) (d : Db) : Prop :=
  exists t, turn_rows d u msid = [t] /\ t.(lt_type) = debit /\ t.(lt_amount) = 1.

Definition answered (out : ChatRunOut) : bool := String.eqb out.(co_status) "assistant_message".

Section bill.
Context (u msid : uuid).

Definition due (d : Db) : Prop := wallet_inv d /\ unpaid u msid d.
Definition settled (d : Db) : Prop := wallet_inv d /\ paid u msid d.

#[global] Instance due_edit : EditStable due.
Proof. apply and_edit; [apply _|by split]. Qed.

Lemma find_tx_head d : find_tx (uuid_str msid) (account d u) = head (turn_rows d u msid).
Proof.
  unfold turn_rows, find_tx, account. cbn [ac_txs]. induction (user_txs d u) as [|t l IH]; [done|]. cbn [find_first].
  destruct (decide (t.(lt_idempotency_key) = uuid_str msid)) as [E|E].
  - rewrite filter_cons_True by done. by rewrite (proj2 (String.eqb_eq _ _) E).
  - rewrite filter_cons_False by done. by rewrite (proj2 (String.eqb_neq _ _) E).
Qed.

Lemma debit_settles sid usage e w r w' :
  due w.(w_db) -> _debit u sid msid usage e w = (inr r, w') -> settled w'.(w_db) /\ w'.(w_committed) = w.(w_committed).
Proof.
  intros [Hi Hu] Hd. unfold _debit in Hd. apply bind_ok in Hd as (c & w1 & Hc & [= _ Hw]). subst w1.
  set (meta := [("usage", JObj usage); ("model", dict_get usage "model")]) in Hc.
  pose proof (uncommitted_consume u 1 (uuid_str msid) meta (Some sid) e w) as Hco. rewrite Hc in Hco. split; [|exact Hco].
  pose proof (consume_sound e w u 1 (uuid_str msid) meta (Some sid) Hi) as Hso. rewrite Hc in Hso. split; [apply Hso|].
  destruct (consume_succeeds _ _ _ _ _ _ _ _ _ Hi Hc) as (Ha & Hex & Hs).
  destruct (consume_account e w u 1 (uuid_str msid) meta (Some sid) Hex Hs (ai_ok _ (wi_account _ Hi u)) Ha) as [H1 _].
  rewrite Hc in H1. cbn [fst snd] in H1. unfold spec_debit in H1. rewrite find_tx_head, Hu in H1. cbn [head] in H1.
  destruct (1 <=? _); [|done]. apply (f_equal (fun p => ac_txs p.2)) in H1. cbn in H1.
  exists (new_tx e w u debit 1 meta (uuid_str msid)). split; [|done].
  unfold turn_rows. change (user_txs w'.(w_db) u) with (ac_txs (account w'.(w_db) u)). rewrite H1.
  rewrite filter_app. change (ac_txs (account w.(w_db) u)) with (user_txs w.(w_db) u).
  unfold unpaid, turn_rows in Hu. rewrite Hu. by rewrite filter_cons_True.
Qed.

(** A prefix that keeps what is due, then the rest. *)
Lemma bill_then {A B} e (m : M A) (k : A -> M B) Q :
  keeps due due m -> (forall a, ends e (sound due due) (k a) Q (fun _ w => due w.(w_committed))) ->
  ends e (sound due due) (m ≫= k) Q (fun _ w => due w.(w_committed)).
Proof. intros Hm Hk. by apply ends_then. Qed.

Lemma bill_ret {A} e (a : A) (Q : A -> World -> Prop) E :
  (forall w, sound due due w -> Q a w) -> ends e (sound due due) (mret a) Q E.
Proof. intros H w Hw. by apply H. Qed.

(** The outcome of a turn under a billing plan. *)
Definition billed (sid : uuid) (billing : _BillingPlan) (out : ChatRunOut) (w : World) : Prop :=
  out.(co_session_id) = sid /\
  if answered out && billing.(debit_credits) then sound settled settled w else sound due due w.

Lemma bill_blocked e sid billing reason :
  ends e (sound due due) (_blocked sid reason) (billed sid billing) (fun _ w => due w.(w_committed)).
Proof. unfold _blocked. apply bill_then; [keeps_walk|intros _]. apply bill_ret. by split. Qed.

Lemma bill_finalize e sid billing r us st :
  ends e (sound due due) (_finalize_assistant u sid msid billing r us st) (billed sid billing)
    (fun _ w => due w.(w_committed)).
Proof.
  unfold _finalize_assistant. apply bill_then; [keeps_walk|intros step].
  apply bill_then; [apply (stable_record due); discriminate|intros _]. destruct (debit_credits billing) eqn:Hb.
  - apply (ends_bind e _ _ _ _ (fun (ok : bool) w => due w.(w_committed) /\ if ok then settled w.(w_db) else True)).
    + intros w [H1 H2]. unfold try_except, mbind, M_bind.
      pose proof (fun r w' => debit_settles sid us e w r w' H1) as Hd.
      assert (Hc : (_debit u sid msid us e w).2.(w_committed) = w.(w_committed)).
      { apply (uncommitted_keeps (_debit u sid msid us)). intros c. unfold _debit. apply keeps_bind; [|keeps_walk].
        intros e' w' [_ Hw']. pose proof (uncommitted_consume u 1 (uuid_str msid)
          [("usage", JObj us); ("model", dict_get us "model")] (Some sid) e' w') as Hco.
        destruct (consume _ _ _ _ _ e' w') as [r' w'']. cbn in Hco. by rewrite Hco. }
      destruct (_debit u sid msid us e w) as [[x|[]] w']; cbn in *.
      * destruct (is_InsufficientCreditsError x); cbn; by rewrite Hc.
      * destruct (Hd () w' eq_refl) as [Hs _]. by rewrite Hc.
    + intros [].
      * intros w [H1 H2]. unfold ChatRepo.touch_session, py_now, mbind, M_bind, modify_db, commit, with_db. cbn.
        split; [done|]. rewrite Hb. cbn. split; (split; [apply (wallet_inv_ext w.(w_db)); [reflexivity..|apply H2]|apply H2]).
      * intros w [H1 _]. cbn. split; [done|]. by split.
  - apply bill_then; [keeps_walk|intros [] ]; [|].
    + apply bill_then; [apply (stable_touch due)|intros _]. apply bill_then; [keeps_walk|intros _]. apply bill_ret.
      intros w Hw. split; [done|]. by rewrite Hb, andb_false_r.
    + apply bill_then; [keeps_walk|intros _]. apply bill_blocked.
Qed.

Context (deps : ChatDeps) (Hothers : forall n d, due d -> due (deps.(others) n d)).

Lemma bill_max_tokens e sid billing r us st :
  ends e (sound due due) (_handle_max_tokens u sid msid r us st) (billed sid billing) (fun _ w => due w.(w_committed)).
Proof.
  unfold _handle_max_tokens. apply bill_then; [keeps_walk|intros step].
  apply bill_then; [apply (stable_record due); discriminate|intros _].
  do 2 (apply bill_then; [keeps_walk|intros _]). apply bill_ret. by split.
Qed.

Lemma bill_tool_use e sid sess billing r us st :
  ends e (sound due due) (_handle_tool_use deps u sid msid sess r us st)
    (fun o w => sound due due w /\ forall out, o.1 = Some out -> billed sid billing out w)
    (fun _ w => due w.(w_committed)).
Proof.
  unfold _handle_tool_use, _external_project_id. apply bill_then; [keeps_walk|intros step].
  apply bill_then; [keeps_walk|intros ext]. apply bill_then; [apply (stable_use_tools due)|intros [co st']].
  apply bill_ret. intros w Hw. split; [done|]. destruct co; intros out [= <-]. by split.
Qed.

Lemma bill_rounds e t rounds n turn0 st :
  t.(tn_user) = u -> t.(tn_message_step) = msid ->
  ends e (sound due due) (generate_rounds deps t rounds n turn0 st) (billed t.(tn_session) t.(tn_billing))
    (fun _ w => due w.(w_committed)).
Proof.
  destruct t as [u' sid sess msid' mode billing key prompt]. cbn [tn_user tn_message_step tn_session tn_billing].
  intros -> ->. revert n turn0 st. induction rounds as [|rounds IH]; intros n turn0 st; cbn [generate_rounds].
  { apply bill_then; [keeps_walk|intros s]. apply bill_then; [apply (stable_record due); discriminate|intros _].
    apply bill_then; [keeps_walk|intros _]. by intros w [_ Hw]. }
  apply bill_then; [apply (stable_messages due)|intros msgs]. apply bill_then; [keeps_walk|intros _].
  apply bill_then; [apply (stable_lift due)|intros tools]. apply bill_then.
  { apply keeps_try; [|done|intros x k Hk; destruct x, mode; simplify_eq; apply keeps_ret].
    apply keeps_bind; [by apply (stable_message due)|intros; apply keeps_ret]. }
  intros [result|].
  - do 2 (apply bill_then; [unfold count_tokens; keeps_walk|intros _]).
    destruct (bool_decide (stop_reason result = Some STOP_REASON_MAX_TOKENS)); [apply bill_max_tokens|].
    destruct (_ && _); [|apply bill_finalize].
    eapply ends_bind; [apply (bill_tool_use e sid sess billing)|]. intros [co st']. cbn [fst].
    intros w [Hw Hout]. unfold commit at 1, mbind at 1, M_bind at 1. cbn beta iota.
    destruct co as [out|].
    + destruct (Hout out eq_refl) as [H1 H2]. cbn. split; [done|].
      destruct (answered out && debit_credits billing); split; apply H2.
    + apply IH. destruct Hw as [H1 H2]. by split.
  - apply bill_then; [apply (stable_expired due)|intros _]. apply bill_then; [keeps_walk|intros _]. apply bill_blocked.
Qed.

Lemma due_set_user x d : user_exists d u = true -> due d -> due (set_users (<[u := x]> d.(users)) d).
Proof. intros Hu [H1 H2]. split; [by apply wallet_inv_set_user|exact H2]. Qed.

Lemma due_trial : keeps due due (ChatRepo.claim_trial u) /\ keeps due due (ChatRepo.reconcile_trial u).
Proof.
  unfold ChatRepo.claim_trial, ChatRepo.mark_trial_used, ChatRepo.reconcile_trial. split; intros e w [H1 H2];
    unfold mbind, M_bind, get_db; cbn; destruct (users (w_db w) !! u) as [[? [] ?]|] eqn:E; cbn; try done;
    (split; [|intros _]; apply due_set_user; [by unfold user_exists; rewrite E|done|by unfold user_exists; rewrite E|done]).
Qed.

Lemma bill_generate e claimed t turn0 :
  t.(tn_user) = u -> t.(tn_message_step) = msid ->
  ends e (sound due due) (_generate_with_trial_reconcile deps claimed t turn0) (billed t.(tn_session) t.(tn_billing))
    (fun _ w => due w.(w_committed)).
Proof.
  intros Hu Hm. assert (Hl : ends e (sound due due) (_generate_loop deps t turn0) (billed t.(tn_session) t.(tn_billing))
    (fun _ w => due w.(w_committed))).
  { unfold _generate_loop. apply bill_then; [keeps_walk|intros s]. by apply bill_rounds. }
  destruct due_trial as [_ Hr]. unfold _generate_with_trial_reconcile. destruct claimed; cbn [negb]; [|done]. rewrite Hu.
  apply (ends_bind e _ _ _ _ (billed t.(tn_session) t.(tn_billing))).
  - eapply ends_try; [exact Hl|done|]. intros x k [= <-]. intros w Hw.
    assert (Hk : keeps due due (ChatRepo.reconcile_trial u;; raise (A := ChatRunOut) x)).
    { apply keeps_bind; [done|intros; apply keeps_raise]. }
    specialize (Hk e (with_db w.(w_committed) w) (conj Hw Hw)).
    change ((rollback;; ChatRepo.reconcile_trial u;; raise x) e w)
      with ((ChatRepo.reconcile_trial u;; raise (A := ChatRunOut) x) e (with_db w.(w_committed) w)).
    unfold mbind, M_bind in Hk |- *. destruct (ChatRepo.reconcile_trial u e _) as [[y|b] w']; cbn in *; apply Hk.
  - intros out w Hw. destruct Hw as [Hs Hw]. destruct (String.eqb (co_status out) "assistant_message") eqn:Ea; cbn [orb].
    + by split.
    + assert (Hd : sound due due w) by (unfold answered in Hw; by rewrite Ea in Hw).
      destruct (String.eqb (co_status out) "tool_call"); [split; [done|by unfold answered; rewrite Ea]|].
      clear Hw. revert w Hd. apply bill_then; [done|intros b]. apply bill_ret. intros w Hw. split; [done|].
      unfold answered. by rewrite Ea.
Qed.
End bill.

(** The status of a subscription row at an instant. *)
Definition subscription_at (now : instant) (s : option Subscription) : SubscriptionStatus :=
  match s with
  | None => sub_none
  | Some s => match s.(s_status), s.(s_expires_at) with
              | sub_active, Some t => if t <=? now then sub_expired else sub_active
              | st, _ => st
              end
  end.

(** A resumed session keeps its mode, a new one takes the request's. *)
Definition session_mode (d : Db) (a : RunArgs) (sid : uuid) : Mode :=
  match d.(chat_sessions) !! sid with Some s => s.(cs_mode) | None => a.(ra_mode) end.

Lemma evaluate_reads e w u mode sid dec st w' :
  _evaluate u mode sid e w = (inr (dec, st), w') ->
  dec = evaluate st mode /\
  (exists k, st.(ps_subscription_status) = subscription_at (e.(env_clock) k) (w.(w_db).(subscriptions) !! u)) /\
  st.(ps_trial_used) = match w.(w_db).(users) !! u with Some r => r.(u_trial_used) | None => false end.
Proof.
  unfold _evaluate, load_policy_state, _effective_subscription_status. intros H.
  apply bind_ok in H as (s & w1 & Hs & H). apply bind_ok in H as ([] & w2 & _ & [= <- <- _]). split; [done|].
  apply bind_ok in Hs as (d & w3 & [= <- <-] & Hs). apply bind_ok in Hs as (stt & w4 & Ht & [= <- _]). cbn.
  split; [|done]. destruct (subscriptions (w_db w) !! u) as [[[] p [t|]]|];
    injection Ht as <- _; first [by exists 0%nat|by exists w.(w_ticks)].
Qed.

Lemma plan_charges mode st :
  debit_credits (_billing_plan mode st) =
  bool_decide (mode = mode_credits) && bool_decide (st.(ps_subscription_status) = sub_active).
Proof. unfold _billing_plan. by destruct mode, (ps_subscription_status st). Qed.

Lemma created_session u pid mode am t m ws e w ctx w' :
  ChatRepo.create_session u pid mode am t m ws e w = (inr ctx, w') ->
  w.(w_db).(chat_sessions) !! ctx.(ChatRepo.sc_id) = None /\ cs_mode ctx.(ChatRepo.sc_session) = mode.
Proof.
  unfold ChatRepo.create_session. intros H. apply bind_ok in H as (d & w1 & [= <- <-] & H).
  apply bind_ok in H as (id & w2 & [= <- <-] & H). apply bind_ok in H as (now & w3 & [= <- <-] & H).
  do 2 (apply bind_ok in H as ([] & ? & [_ ->]%check_ok & H)). apply bind_ok in H as ([] & w4 & [Hf ->]%check_ok & H).
  apply bind_ok in H as ([] & w5 & _ & [= <- _]). cbn. by destruct (chat_sessions (w_db w) !! _).
Qed.

(** Before the session is opened nothing is written. *)
Lemma open_session_mode u a e w ctx w' :
  open_session u a e w = (inr ctx, w') ->
  cs_mode ctx.(ChatRepo.sc_session) = session_mode w.(w_db) a ctx.(ChatRepo.sc_id).
Proof.
  intros H. set (C := w.(w_db).(chat_sessions)). set (opening := sound (fun d => d.(chat_sessions) = C) (fun _ => True)).
  set (good := fun (ctx : ChatRepo.SessionContext) (_ : World) => cs_mode ctx.(ChatRepo.sc_session) =
            match C !! ctx.(ChatRepo.sc_id) with Some s => s.(cs_mode) | None => a.(ra_mode) end).
  cut (ends e opening (open_session u a) good (fun _ _ => True)).
  { intros Hc. specialize (Hc w (conj eq_refl Logic.I)). by rewrite H in Hc. }
  unfold open_session. clear H w'.
  apply ends_then; [unfold _will_create_session, ChatRepo.get_session, ChatRepo.is_expired; keeps_walk|done|intros wc].
  apply ends_then; [keeps_walk|done|intros s]. apply ends_then; [keeps_walk|done|intros []].
  apply ends_then; [unfold Workspaces.owns_workspace, WorkspacesRepo.get_workspace; keeps_walk|done|intros []].
  apply ends_then; [unfold Preferences.get_default_assistant_mode, Preferences._load; keeps_walk|done|intros am].
  assert (Hc : forall t m ws, ends e opening
            (ChatRepo.create_session u (ra_project_id a) (ra_mode a) am t m ws) good (fun _ _ => True)).
  { intros t m ws w0 [E _]. destruct (ChatRepo.create_session _ _ _ _ _ _ _ e w0) as [[x|c] w1] eqn:Ec; [done|].
    apply created_session in Ec as [H1 H2]. unfold good. rewrite <- E, H1. exact H2. }
  unfold ChatRepo.get_or_create_session. destruct (ra_session_id a) as [sid|]; [|apply Hc].
  apply (ends_bind e _ _ _ _ (fun r w => opening w /\ forall s, r = Some s -> C !! sid = Some s)).
  { intros w0 Hw0. cbn. split; [done|]. destruct Hw0 as [<- _]. intros s0.
    destruct (chat_sessions (w_db w0) !! sid) as [s1|]; [|done]. by destruct (N.eqb _ _). }
  intros [s0|] w0 [Hw0 Hs]; [|by apply Hc]. specialize (Hs s0 eq_refl).
  revert w0 Hw0. apply ends_then; [unfold ChatRepo.is_expired; keeps_walk|done|intros []]; [apply Hc|].
  intros w1 _. cbn. unfold good. cbn. by rewrite Hs.
Qed.

(** Whether an answer in this mode under this subscription costs a credit. *)
Definition charges (mode : Mode) (status : SubscriptionStatus) : bool :=
  bool_decide (mode = mode_credits) && bool_decide (status = sub_active).

(** The part of [run] after the session is open. *)
Section run_bill.
Context (deps : ChatDeps) (e : Env) (u msid : uuid) (subs : gmap uuid Subscription).
Hypothesis Hothers : forall n d, due u msid d -> due u msid (deps.(others) n d).

Definition opened (d : Db) : Prop := due u msid d /\ d.(subscriptions) = subs.

#[global] Instance opened_edit : EditStable opened.
Proof. apply and_edit; [apply _|by split]. Qed.

Definition fair (mode : Mode) (sid : uuid) (out : ChatRunOut) (w : World) : Prop :=
  out.(co_session_id) = sid /\ exists k,
  if answered out && charges mode (subscription_at (e.(env_clock) k) (subs !! u))
  then sound (settled u msid) (settled u msid) w else sound (due u msid) (due u msid) w.

Lemma sound_due w : sound opened opened w -> sound (due u msid) (due u msid) w.
Proof. intros [[H1 _] [H2 _]]. by split. Qed.

Lemma fair_blocked mode sid reason :
  ends e (sound opened opened) (_blocked sid reason) (fair mode sid) (fun _ w => due u msid w.(w_committed)).
Proof.
  unfold _blocked. apply ends_then; [keeps_walk|by intros x w [H _]|intros _]. intros w Hw%sound_due. cbn.
  split; [done|]. by exists 0%nat.
Qed.

Lemma fair_generate claimed t turn0 k :
  t.(tn_user) = u -> t.(tn_message_step) = msid ->
  debit_credits t.(tn_billing) = charges t.(tn_mode) (subscription_at (e.(env_clock) k) (subs !! u)) ->
  ends e (sound opened opened) (_generate_with_trial_reconcile deps claimed t turn0) (fair t.(tn_mode) t.(tn_session))
    (fun _ w => due u msid w.(w_committed)).
Proof.
  intros Hu Hm Hb. eapply ends_weaken; [by apply (bill_generate u msid deps Hothers e)|apply sound_due| |done].
  intros out w [H1 H2]. split; [done|]. exists k. by rewrite <- Hb.
Qed.

Lemma fair_trial : keeps opened opened (ChatRepo.claim_trial u).
Proof.
  apply (keeps_and (due u msid) (due u msid)); [apply due_trial|].
  unfold ChatRepo.claim_trial, ChatRepo.mark_trial_used. keeps_walk.
Qed.

Lemma fair_then {A B} (m : M A) (k : A -> M B) Q :
  keeps opened opened m -> (forall a, ends e (sound opened opened) (k a) Q (fun _ w => due u msid w.(w_committed))) ->
  ends e (sound opened opened) (m ≫= k) Q (fun _ w => due u msid w.(w_committed)).
Proof. intros Hm Hk. apply ends_then; [done|by intros x w [H _]|done]. Qed.

(** From the reading of the policy to the end. *)
Lemma fair_decide sid sess prompt turn0 :
  ends e (sound opened opened)
    (ev ← _evaluate u sess.(cs_mode) sid;
     let '(decision, state) := ev in
     if negb (allow decision) then _blocked sid decision.(block_reason)
     else
       let billing := _billing_plan sess.(cs_mode) state in
       claimed ← (if billing.(mark_trial) then ChatRepo.claim_trial u else mret true : M bool);
       match claimed with
       | false => _blocked sid (Some trial_used_reason)
       | true =>
           api_key ← _resolve_api_key deps u sess.(cs_mode);
           _generate_with_trial_reconcile deps billing.(mark_trial)
             (mkTurn u sid sess msid sess.(cs_mode) billing api_key prompt) turn0
       end)
    (fair sess.(cs_mode) sid) (fun _ w => due u msid w.(w_committed)).
Proof.
  apply (ends_bind e _ _ _ _ (fun ev w => sound opened opened w /\ exists k,
    debit_credits (_billing_plan sess.(cs_mode) ev.2) = charges sess.(cs_mode) (subscription_at (e.(env_clock) k) (subs !! u)))).
  - intros w Hw. pose proof (stable_evaluate opened u sess.(cs_mode) sid e w Hw) as Hk.
    destruct (_evaluate u (cs_mode sess) sid e w) as [[x|[dec st]] w'] eqn:E; [apply Hk|].
    apply evaluate_reads in E as (_ & [k Hs] & _). destruct Hw as [[_ Hsub] _]. rewrite Hsub in Hs.
    split; [by split; apply Hk|]. exists k. cbn [snd]. by rewrite plan_charges, Hs.
  - intros [dec st] w [Hw [k Hk]]. cbn [snd] in Hk. destruct (allow dec); cbn [negb]; [|by apply fair_blocked].
    revert w Hw. apply fair_then; [destruct (mark_trial _); [apply fair_trial|keeps_walk]|intros []]; [|apply fair_blocked].
    apply fair_then; [keeps_walk|intros key]. by apply (fair_generate _ (mkTurn _ _ _ _ _ _ _ _) _ k).
Qed.
End run_bill.


(** ** A concrete provider *)

Definition demo_usage : LLMUsage := mkLLMUsage 10 20 "claude-sonnet-4-5" 0 0.

Definition says (text : string) : exn + LLMResult :=
  inr (mkLLMResult (Some "end_turn") [[("type", JStr "text"); ("text", JStr text)]] demo_usage text []).

Definition asks_for (uses : list ToolUse) : exn + LLMResult :=
  inr (mkLLMResult (Some STOP_REASON_TOOL_USE) [[("type", JStr "text"); ("text", JStr "looking")]] demo_usage "looking" uses).

(** A provider by its answers; nobody else writes. *)
Definition demo_deps (answers : nat -> exn + LLMResult) : ChatDeps :=
  mkChatDeps (fun n _ => answers n) (fun _ d => d) (fun _ => O) (fun _ => None) demo_isoformat strict_bool (fun _ => [])
    (fun _ => "") (fun _ _ => "invalid arguments") demo_codec (fun _ => true) (fun _ => pdf_unreadable) demo_crypto.

Definition ask (sid : option uuid) (message : string) : RunArgs :=
  mkRunArgs None sid message mode_credits None [] None None None None.

Definition subscribed : World :=
  world_of (set_subscriptions {[ alice := mkSubscription sub_active (Some "pro") None ]} funded.(w_db)).

Lemma subscribed_inv : wallet_inv subscribed.(w_db).
Proof. apply (wallet_inv_ext funded.(w_db)); [reflexivity..|apply funded_inv]. Qed.


(** ** When the trial is spent *)

Section trial.
Context (deps : ChatDeps) (e : Env) (u : uuid).

Definition trial_is (b : bool) (d : Db) : Prop := u_trial_used <$> d.(users) !! u = Some b.

#[global] Instance trial_is_edit b : EditStable (trial_is b).
Proof. by split. Qed.

Lemma trial_debit b sid msid usage : keeps (trial_is b) (trial_is b) (_debit u sid msid usage).
Proof.
  unfold _debit, consume, _validate_session, _ensure_wallet, consume_rest, _consume_incremental_clamp,
    _agent_reconcile_applies, _consume_agent_with_debt, clamp_statement, consume_full, _debit_in_savepoint,
    insert_ledger, update_wallet, _existing_tx, _current_balance, record.
  keeps_walk; assumption.
Qed.

Hypothesis Hothers : forall n d, (deps.(others) n d).(users) !! u = d.(users) !! u.

Lemma trial_loop b t turn0 : t.(tn_user) = u -> keeps (trial_is b) (trial_is b) (_generate_loop deps t turn0).
Proof.
  intros Hu. unfold _generate_loop. keeps_walk. apply (stable_rounds (trial_is b)).
  - intros n d Hd. unfold trial_is. by rewrite Hothers.
  - intros r us st. rewrite Hu. apply (stable_finalize (trial_is b)). intros _. apply trial_debit.
Qed.

Lemma trial_restored w : trial_is true w.(w_db) ->
  exists w', ChatRepo.reconcile_trial u e w = (inr true, w') /\ sound (trial_is false) (trial_is false) w'.
Proof.
  intros H. unfold ChatRepo.reconcile_trial, mbind, M_bind, get_db. cbn. apply fmap_Some in H as (r & -> & Hr). rewrite <- Hr. cbn.
  eexists. split; [reflexivity|]. split; unfold trial_is; cbn; by rewrite lookup_insert_eq.
Qed.

Lemma trial_claimed w : trial_is false w.(w_db) ->
  exists w', ChatRepo.claim_trial u e w = (inr true, w') /\ sound (trial_is true) (trial_is true) w'.
Proof.
  intros H. unfold ChatRepo.claim_trial, ChatRepo.mark_trial_used, mbind, M_bind, get_db. cbn.
  apply fmap_Some in H as (r & -> & Hr). rewrite <- Hr. cbn. eexists. split; [reflexivity|].
  split; unfold trial_is; cbn; by rewrite lookup_insert_eq.
Qed.

(** A response that leaves the trial spent. *)
Definition spends (out : ChatRunOut) : bool := answered out || String.eqb out.(co_status) "tool_call".

Definition spent_by (out : ChatRunOut) (w : World) : Prop := sound (trial_is (spends out)) (trial_is (spends out)) w.
Definition unspent (_ : exn) (w : World) : Prop := trial_is false w.(w_committed).

Lemma trial_generate t turn0 : t.(tn_user) = u ->
  ends e (sound (trial_is true) (trial_is true)) (_generate_with_trial_reconcile deps true t turn0) spent_by unspent.
Proof.
  intros Hu. unfold _generate_with_trial_reconcile. cbn [negb]. rewrite Hu.
  apply (ends_bind e _ _ _ _ (fun _ => sound (trial_is true) (trial_is true))).
  - eapply ends_try; [by apply ends_keeps, (trial_loop true)|done|]. intros x k [= <-] w Hw.
    destruct (trial_restored (with_db w.(w_committed) w) Hw) as (w' & Hr & _ & Hc).
    unfold mbind at 1, M_bind at 1, rollback. cbn. by rewrite (bind_inr _ _ _ _ _ _ Hr).
  - intros out w [H1 H2]. assert (Hs : spends out = (String.eqb (co_status out) "assistant_message" ||
      String.eqb (co_status out) "tool_call")) by done. rewrite <- Hs. destruct (spends out) eqn:Eb.
    + cbn. unfold spent_by. rewrite Eb. by split.
    + destruct (trial_restored w H1) as (w' & Hr & Hc). rewrite (bind_inr _ _ _ _ _ _ Hr). cbn.
      unfold spent_by. by rewrite Eb.
Qed.

(** Before the claim: the trial is there and there is no subscription. *)
Definition newcomer (d : Db) : Prop := trial_is false d /\ d.(subscriptions) !! u = None.

#[global] Instance newcomer_edit : EditStable newcomer.
Proof. apply and_edit; [apply _|by split]. Qed.

Lemma trial_then {A B} (m : M A) (k : A -> M B) Q :
  keeps newcomer newcomer m -> (forall a, ends e (sound newcomer newcomer) (k a) Q unspent) ->
  ends e (sound newcomer newcomer) (m ≫= k) Q unspent.
Proof. intros Hm Hk. apply ends_then; [done|by intros x w [H _]|done]. Qed.

Lemma newcomer_blocked sid reason : ends e (sound newcomer newcomer) (_blocked sid reason) spent_by unspent.
Proof. unfold _blocked. apply trial_then; [keeps_walk|intros _]. by intros w [[H1 _] [H2 _]]. Qed.

Lemma newcomer_decides mode st :
  st.(ps_subscription_status) = sub_none -> st.(ps_trial_used) = false ->
  (mode = mode_credits /\ allow (evaluate st mode) = true /\ mark_trial (_billing_plan mode st) = true) \/
  allow (evaluate st mode) = false.
Proof. intros H1 H2. destruct mode; cbn; rewrite H1, ?H2; auto. Qed.

Lemma newcomer_turn sid sess msid prompt turn0 :
  ends e (sound newcomer newcomer)
    (ev ← _evaluate u sess.(cs_mode) sid;
     let '(decision, state) := ev in
     if negb (allow decision) then _blocked sid decision.(block_reason)
     else
       let billing := _billing_plan sess.(cs_mode) state in
       claimed ← (if billing.(mark_trial) then ChatRepo.claim_trial u else mret true : M bool);
       match claimed with
       | false => _blocked sid (Some trial_used_reason)
       | true =>
           api_key ← _resolve_api_key deps u sess.(cs_mode);
           _generate_with_trial_reconcile deps billing.(mark_trial)
             (mkTurn u sid sess msid sess.(cs_mode) billing api_key prompt) turn0
       end) spent_by unspent.
Proof.
  intros w Hw. pose proof (stable_evaluate newcomer u sess.(cs_mode) sid e w Hw) as Hk. unfold mbind at 1, M_bind at 1.
  destruct (_evaluate u (cs_mode sess) sid e w) as [[x|[dec st]] w1] eqn:E; [by destruct Hk as [[H _] _]|].
  apply evaluate_reads in E as (-> & [k Hs] & Ht). destruct Hw as [[Hu Hsub] _]. rewrite Hsub in Hs. cbn in Hs.
  apply fmap_Some in Hu as (row & Hu & Hf). rewrite Hu, <- Hf in Ht.
  assert (Hw1 : sound newcomer newcomer w1) by (split; by apply Hk).
  destruct (newcomer_decides sess.(cs_mode) st Hs Ht) as [(Hm & -> & Hp)| ->]; cbn [negb]; [|by apply newcomer_blocked].
  cbv zeta. rewrite Hp. destruct (trial_claimed w1 (proj1 (proj1 Hw1))) as (w2 & Hc & Hw2).
  rewrite (bind_inr _ _ _ _ _ _ Hc). rewrite Hm. cbn [_resolve_api_key].
  apply (trial_generate (mkTurn _ _ _ _ _ _ _ _)); [done|]. exact Hw2.
Qed.
End trial.

(** C6: the free trial is spent only on a turn that goes through.  For a user
    without a subscription whose trial is unused, [/chat/run] leaves the
    committed trial flag set exactly when it responds with an assistant message
    or a tool call; every block, every truncated generation and every
    exception, raised anywhere before, during or between the provider's
    answers, leaves the trial unused. *)
Theorem trial_spent_only_on_answer deps e w u a :
  u_trial_used <$> w.(w_db).(users) !! u = Some false -> w.(w_db).(subscriptions) !! u = None ->
  w.(w_committed) = w.(w_db) -> (forall n d, (deps.(others) n d).(users) !! u = d.(users) !! u) ->
  let '(r, w') := session_scope (run deps u a) e w in
  u_trial_used <$> w'.(w_committed).(users) !! u = Some (match r with inr out => spends out | inl _ => false end).
Proof.
  intros Ht Hs Hc Ho.
  assert (Hw : sound (newcomer u) (newcomer u) w) by (unfold sound; rewrite Hc; by split_and!).
  cut (ends e (sound (newcomer u) (newcomer u)) (run deps u a) (spent_by u) (unspent u)).
  { intros H. specialize (H w Hw). unfold session_scope. destruct (run deps u a e w) as [[x|out] w']; cbn; [exact H|apply H]. }
  unfold run. apply trial_then; [keeps_walk|intros msid]. apply trial_then; [keeps_walk|intros ctx].
  apply trial_then; [keeps_walk|intros _]. apply trial_then; [keeps_walk|intros [prompt ws]].
  apply trial_then; [keeps_walk|intros [prepared blocks]]. apply trial_then; [keeps_walk|intros step].
  by apply newcomer_turn.
Qed.

(** Alice's first message: the provider fails, and her trial is still there. *)
Lemma trial_spent_only_on_answer_witness :
  let deps := demo_deps (fun _ => inl (UpstreamError "provider down")) in
  let '(r, w') := session_scope (run deps alice (ask None "hello")) demo_env demo_world in
  (exists x, r = inl x) /\ u_trial_used <$> w'.(w_committed).(users) !! alice = Some false.
Proof.
  pose proof (trial_spent_only_on_answer (demo_deps (fun _ => inl (UpstreamError "provider down"))) demo_env demo_world
    alice (ask None "hello") eq_refl eq_refl eq_refl (fun _ _ => eq_refl)) as H.
  cbv zeta. destruct (session_scope _ demo_env demo_world) as [r w'] eqn:E. apply (f_equal fst) in E. cbn [fst] in E.
  assert (Hr : exists x, r = inl x) by (rewrite <- E; vm_compute; eexists; reflexivity).
  clear E. destruct Hr as [x ->]. split; [exists x; reflexivity|exact H].
Defined.
