(* ===== verification/ChatReplay.v ===== *)
(** * Rounds, barriers and replays of a chat turn

    How often a turn asks the provider, when a batch of tool results may go
    on, what a replayed batch may change, and what editing a message removes. *)

From Stdlib Require Import Ascii String.
From stdpp Require Import sorting.
From S2P Require Import Prelude PyVal Redaction Store AuditTrail Logic Fixtures Wallet WalletRun WalletSpec WalletRefine WalletInv.
From S2P Require Import Policy Uuid Config ChatTools Website Attachments Workspaces Byok ChatContext ChatRepo Chat ChatTurns.
Import Orchestrator.

Open Scope string_scope.
Open Scope list_scope.
Open Scope Z_scope.

(** ** The provider is asked finitely often *)

(** The same instance with another provider and other traffic. *)
Definition with_provider (deps : ChatDeps) (llm' : nat -> LLMRequest -> exn + LLMResult) (others' : nat -> Db -> Db)
    (steps' : nat -> nat) : ChatDeps :=
  mkChatDeps llm' others' steps' deps.(zone_info) deps.(utc_isoformat) deps.(lax_bool) deps.(model_json_schema)
    deps.(description) deps.(args_error) deps.(codec) deps.(json_loads_ok) deps.(pdf_reader) deps.(crypto).

Lemma bind_ext {A B} (m m' : M A) (k k' : A -> M B) e w :
  m e w = m' e w -> (forall a w', k a e w' = k' a e w') -> (m ≫= k) e w = (m' ≫= k') e w.
Proof. intros Hm Hk. unfold mbind, M_bind. rewrite Hm. destruct (m' e w) as [[x|a] w']; [done|apply Hk]. Qed.

Section bounded.
Context (deps : ChatDeps) (llm' : nat -> LLMRequest -> exn + LLMResult) (others' : nat -> Db -> Db) (steps' : nat -> nat).
Context (bound : nat).
Hypothesis Hsame : forall n, (n < bound)%nat ->
  (forall rq, deps.(llm) n rq = llm' n rq) /\ (forall d, deps.(others) n d = others' n d) /\ deps.(others_steps) n = steps' n.
Let deps' := with_provider deps llm' others' steps'.

Lemma same_message n rq e w : (n < bound)%nat -> create_message deps n rq e w = create_message deps' n rq e w.
Proof. intros Hn. destruct (Hsame n Hn) as (H1 & H2 & H3). unfold create_message. cbn. by rewrite H1, H2, H3. Qed.

Lemma same_rounds t rounds n turn0 st e w :
  (n + rounds <= bound)%nat -> generate_rounds deps t rounds n turn0 st e w = generate_rounds deps' t rounds n turn0 st e w.
Proof.
  destruct t as [u sid sess msid mode billing key prompt]. revert n turn0 st w.
  induction rounds as [|rounds IH]; intros n turn0 st w Hn; [done|]. cbn [generate_rounds].
  apply bind_ext; [done|intros msgs w1]. apply bind_ext; [done|intros _ w2]. apply bind_ext; [done|intros tools w3].
  apply bind_ext.
  { unfold try_except. erewrite (bind_ext (create_message deps n _) (create_message deps' n _));
      [reflexivity|apply same_message; lia|done]. }
  intros [result|] w4; [|done]. do 2 (apply bind_ext; [done|intros _ ?]).
  destruct (bool_decide (stop_reason result = _)); [done|]. destruct (_ && _); [|done].
  apply bind_ext; [done|intros [co st'] w7]. apply bind_ext; [done|intros _ w8]. destruct co; [done|]. apply IH. lia.
Qed.

Lemma same_generate claimed t turn0 e w :
  bound = (e.(env_settings).(chat).(max_server_tool_rounds) + 1)%nat ->
  _generate_with_trial_reconcile deps claimed t turn0 e w = _generate_with_trial_reconcile deps' claimed t turn0 e w.
Proof.
  intros Hb. assert (Hl : forall w, _generate_loop deps t turn0 e w = _generate_loop deps' t turn0 e w).
  { intros w0. unfold _generate_loop, settings, mbind, M_bind. apply same_rounds. lia. }
  unfold _generate_with_trial_reconcile. destruct claimed; cbn [negb]; [|apply Hl].
  apply bind_ext; [|done]. unfold try_except. by rewrite Hl.
Qed.
End bounded.

(** C34: a request asks the provider at most [max_server_tool_rounds + 1]
    times.  Two providers that give the same first [max_server_tool_rounds + 1]
    answers, amid the same traffic, give the same outcome and the same final
    state, both for [/chat/run] and for [/chat/tool-result]: nothing depends on
    any further answer, however many rounds of server-side tools the model
    asks for. *)
Theorem provider_asked_boundedly deps llm' others' steps' e w u :
  (forall n, (n < e.(env_settings).(chat).(max_server_tool_rounds) + 1)%nat ->
    (forall rq, deps.(llm) n rq = llm' n rq) /\ (forall d, deps.(others) n d = others' n d) /\
    deps.(others_steps) n = steps' n) ->
  let deps' := with_provider deps llm' others' steps' in
  (forall a, run deps u a e w = run deps' u a e w) /\
  (forall sid results, tool_result deps u sid results e w = tool_result deps' u sid results e w).
Proof.
  intros Hsame. cbv zeta. split.
  - intros a. unfold run. do 2 (apply bind_ext; [done|intros ? ?]). apply bind_ext; [done|intros _ ?].
    apply bind_ext; [done|intros [prompt ws] ?]. apply bind_ext; [done|intros [prepared blocks] ?].
    apply bind_ext; [done|intros ? ?]. apply bind_ext; [done|intros [dec st] ?].
    destruct (negb (allow dec)); [done|]. apply bind_ext; [done|intros [] ?]; [|done].
    apply bind_ext; [done|intros key ?]. by eapply same_generate.
  - intros sid results. unfold tool_result. destruct results as [|r0 l]; [done|].
    apply bind_ext; [done|intros [sess|] ?]; [|done]. apply bind_ext; [done|intros [resolved [msid|]] ?]; [|done].
    apply bind_ext; [done|intros _ ?]. apply bind_ext; [done|intros calls ?].
    destruct (call_out <$> pending_calls calls); [|done]. apply bind_ext; [done|intros saved ?].
    assert (Hc : forall w, continue_turn deps u sid sess msid e w =
              continue_turn (with_provider deps llm' others' steps') u sid sess msid e w).
    { intros w0. unfold continue_turn. apply bind_ext; [done|intros [dec st] ?]. apply bind_ext; [done|intros inflight ?].
      destruct (_ && _); [done|]. apply bind_ext; [done|intros key ?]. apply bind_ext; [done|intros prompt ?].
      by eapply same_generate. }
    destruct saved; [|apply Hc]. destruct (_all_already_done_before _); [done|apply Hc].
Qed.

(** Seventeen rounds are asked by default; a provider that changes its mind
    afterwards is not heard. *)
Lemma provider_asked_boundedly_witness :
  let clock := asks_for [mkToolUse "tu1" "time.now" []] in
  let deps := demo_deps (fun _ => clock) in
  run deps alice (ask None "hello") demo_env demo_world =
  run (with_provider deps (fun n _ => if (n <? 17)%nat then clock else says "late") (fun _ d => d) (fun _ => O))
    alice (ask None "hello") demo_env demo_world.
Proof.
  apply provider_asked_boundedly. intros n Hn. change (n < 17)%nat in Hn. split_and!; [|done..].
  intros rq. by rewrite (proj2 (Nat.ltb_lt n 17) Hn).
Defined.

(** The model that never stops calling tools is stopped. *)
Example endless_tools_give_up :
  fst (run (demo_deps (fun _ => asks_for [mkToolUse "tu1" "time.now" []])) alice (ask None "hello") demo_env demo_world) =
  inl (UpstreamError "server-side tool loop exceeded maximum rounds").
Proof. vm_compute. reflexivity. Qed.

(** ** The barrier *)

(** The calls a batch names all belong to the turn [msid]. *)
Definition batch_of (d : Db) (msid : uuid) (results : list ToolResultIn) : Prop :=
  Forall (fun r => forall t, d.(tool_calls) !! r.(ti_tool_call_id) = Some t -> t.(tc_message_step_id) = msid) results.

Lemma resolve_reads sid msid turn results e w :
  batch_of w.(w_db) msid results -> turn = None \/ turn = Some msid ->
  let '(r, w') := resolve_calls sid turn results e w in
  w' = w /\ forall resolved turn', r = inr (resolved, turn') ->
    resolved.*1 = results /\ turn' = match results with [] => turn | _ => Some msid end.
Proof.
  intros Hb Ht. revert turn Ht. induction results as [|r results IH]; intros turn Ht; cbn [resolve_calls].
  { split; [done|]. by intros resolved turn' [= <- <-]. }
  apply Forall_cons in Hb as [Hr Hb]. unfold ChatRepo.get_tool_call, get_db, mbind, M_bind. cbn.
  destruct (tool_calls (w_db w) !! ti_tool_call_id r) as [t|] eqn:E; cbn; [|by split; [|intros]].
  destruct (negb _); cbn; [by split; [|intros]|]. specialize (Hr t eq_refl). rewrite Hr.
  specialize (IH Hb (Some msid) (or_intror eq_refl)).
  destruct Ht as [->| ->]; cbn; rewrite ?N.eqb_refl; cbn;
    (destruct (resolve_calls sid (Some msid) results e w) as [[x|[res turn']] w2]; destruct IH as [-> IH]; cbn;
     [by split; [|intros]|split; [done|]]; intros resolved tn [= <- <-];
     destruct (IH _ _ eq_refl) as [H1 ->]; split; [by cbn; rewrite H1|by destruct results]).
Qed.

(** A call that a batch does not name keeps its row. *)
Section unnamed.
Context (c : uuid) (t : ToolCall).

Definition call_is (d : Db) : Prop := d.(tool_calls) !! c = Some t.

Lemma unnamed_apply u sid msid resolved :
  c ∉ ti_tool_call_id <$> resolved.*1 -> keeps call_is (fun _ => True) (apply_results u sid msid resolved).
Proof.
  induction resolved as [|[r x] resolved IH]; cbn [apply_results fmap list_fmap fst]; intros Hc; [keeps_walk|].
  apply not_elem_of_cons in Hc as [Hne Hc]. specialize (IH Hc).
  unfold _apply_tool_result, ChatRepo.complete_tool_call, ChatRepo.add_step, nextval, record, put_call. keeps_walk; try assumption.
  - unfold call_is. cbn. by rewrite lookup_insert_ne.
  - by intros e w [H1 H2].
Qed.

Lemma listed_call e w sid msid :
  call_is w.(w_db) -> t.(tc_session_id) = sid -> t.(tc_message_step_id) = msid ->
  exists l, ChatRepo.list_tool_calls_for_step sid msid e w = (inr l, w) /\ (c, t) ∈ l.
Proof.
  intros Hc <- <-. eexists. split; [reflexivity|]. rewrite merge_sort_Permutation. apply list_elem_of_filter.
  split; [done|]. by apply elem_of_map_to_list.
Qed.
End unnamed.

Lemma pending_listed c t l :
  (c, t) ∈ l -> client_side t.(tc_tool_name) = true -> is_done t = false -> call_out (c, t) ∈ call_out <$> pending_calls l.
Proof.
  intros Hin Hc Hd. apply list_elem_of_fmap_2, list_elem_of_In, filter_In. split; [by apply list_elem_of_In|]. cbn.
  by rewrite Hc, Hd.
Qed.

(** An unanswered tool call stops the turn.  While some client-side call of
    a turn is pending and a batch of results does not bring its result, the
    batch never reaches the provider: the outcome is the same whatever the
    provider and the rest of the instance are, and when it succeeds it is a
    [tool_call] response that lists that call, with the batch's results
    committed. *)
Theorem barrier_waits deps deps' e w u sid results c t :
  w.(w_db).(tool_calls) !! c = Some t -> t.(tc_session_id) = sid -> client_side t.(tc_tool_name) = true ->
  is_done t = false -> c ∉ ti_tool_call_id <$> results -> batch_of w.(w_db) t.(tc_message_step_id) results ->
  tool_result deps u sid results e w = tool_result deps' u sid results e w /\
  forall out w', tool_result deps u sid results e w = (inr out, w') ->
    out.(co_status) = "tool_call" /\ (exists l, out.(co_tool_calls) = Some l /\ call_out (c, t) ∈ l) /\
    w'.(w_committed) = w'.(w_db).
Proof.
  intros Hct Hsid Hcl Hd Hn Hb. unfold tool_result. destruct results as [|r0 l0]; [done|].
  remember (r0 :: l0) as results eqn:Eres. unfold ChatRepo.get_session, get_db, mbind, M_bind. cbn.
  destruct (match chat_sessions (w_db w) !! sid with Some _ => _ | None => _ end) as [sess|]; cbn; [|done].
  pose proof (resolve_reads sid (tc_message_step_id t) None results e w Hb (or_introl eq_refl)) as Hr.
  destruct (resolve_calls sid None results e w) as [[x|[resolved turn]] w1]; destruct Hr as [-> Hr]; [done|].
  destruct (Hr _ _ eq_refl) as [Hres ->]. rewrite Eres. cbn. rewrite <- Hres in Hn.
  pose proof (unnamed_apply c t u sid (tc_message_step_id t) resolved Hn e w (conj Hct Logic.I)) as Ha.
  destruct (apply_results u sid (tc_message_step_id t) resolved e w) as [[x|[]] w2]; [done|]. destruct Ha as [_ Ha].
  destruct (listed_call c t e w2 sid (tc_message_step_id t) (Ha ltac:(done)) Hsid eq_refl) as (calls & Hl & Hin).
  rewrite Hl. pose proof (pending_listed c t calls Hin Hcl Hd) as Hp.
  destruct (call_out <$> pending_calls calls) as [|next rest]; [by apply not_elem_of_nil in Hp|].
  split; [done|]. intros out w'. unfold commit, ChatRepo.assistant_tool_step_id, get_db. cbn. intros [= <- <-].
  split_and!; [done|by eexists|done].
Qed.

(** Alice's turn waits for two files on her device. *)
Definition reads_file (id path : string) : ToolUse := mkToolUse id "files.read" [("path", JStr path)].

Definition two_calls : World :=
  (session_scope (run (demo_deps (fun _ => asks_for [reads_file "tu1" "a"; reads_file "tu2" "b"])) alice (ask None "hello"))
     demo_env demo_world).2.

Definition brings (call : uuid) (text : string) : ToolResultIn := mkToolResultIn call (Some [("content", JStr text)]) None.

Definition second_call : ToolCall :=
  mkToolCall 1001%N 1000%N "files.read" "tu2" [("path", JStr "b")] tc_pending None 1700000000000000.

Lemma second_call_pending : two_calls.(w_db).(tool_calls) !! 1005%N = Some second_call.
Proof. vm_compute. reflexivity. Qed.

Lemma first_call_batch : batch_of two_calls.(w_db) 1000%N [brings 1004%N "A"].
Proof.
  apply Forall_singleton. intros t.
  assert (E : tc_message_step_id <$> two_calls.(w_db).(tool_calls) !! 1004%N = Some 1000%N) by (vm_compute; reflexivity).
  cbn [brings ti_tool_call_id]. intros H. rewrite H in E. by injection E.
Qed.

(** One of the two results is not enough, whoever the provider is. *)
Lemma barrier_waits_witness :
  exists out w', tool_result (demo_deps (fun _ => says "done")) alice 1001%N [brings 1004%N "A"] demo_env two_calls =
    (inr out, w') /\ out.(co_status) = "tool_call".
Proof.
  assert (Hn : 1005%N ∉ ti_tool_call_id <$> [brings 1004%N "A"]) by (apply (bool_decide_unpack _); exact Logic.I).
  destruct (barrier_waits (demo_deps (fun _ => says "done")) (demo_deps (fun _ => says "done")) demo_env two_calls alice
    1001%N [brings 1004%N "A"] 1005%N second_call second_call_pending eq_refl eq_refl eq_refl Hn first_call_batch) as [_ Hb].
  assert (Hr : match (tool_result (demo_deps (fun _ => says "done")) alice 1001%N [brings 1004%N "A"] demo_env two_calls).1 with
               | inr _ => true | inl _ => false end = true) by (vm_compute; reflexivity).
  destruct (tool_result (demo_deps (fun _ => says "done")) alice 1001%N [brings 1004%N "A"] demo_env two_calls) as [[x|out] w'].
  - discriminate Hr.
  - exists out, w'. exact (conj eq_refl (proj1 (Hb out w' eq_refl))).
Defined.

(** ** Results are written once *)

Section written.
Context (c : uuid) (t : ToolCall) (Hdone : is_done t = true).

Lemma written_stable : ChatStable (call_is c t).
Proof.
  split; try done.
  - intros sid msid name args call pid. unfold ChatRepo.create_tool_call, put_call. intros e w [H1 H2].
    unfold mbind, M_bind, get_db, pg_now, check_constraint. cbn -[session_exists]. destruct (session_exists (w_db w) (Some sid)); cbn [negb]; [|done].
    destruct (tool_calls (w_db w) !! call) eqn:E; cbn; [done|]. split; [done|]. intros _. unfold call_is in *. cbn.
    rewrite lookup_insert_ne; [done|]. by intros ->; rewrite E in H1.
  - intros call st r. unfold ChatRepo.complete_tool_call, put_call. intros e w [H1 H2].
    unfold mbind, M_bind, get_db. cbn. destruct (tool_calls (w_db w) !! call) as [x|] eqn:E; cbn; [|done].
    destruct (tc_status x) eqn:Es; cbn; try done. split; [done|]. intros _. unfold call_is in *. cbn.
    rewrite lookup_insert_ne; [done|]. intros ->. rewrite H1 in E. injection E as <-. unfold is_done in Hdone.
    by rewrite Es in Hdone.
Qed.

Lemma written_trial u : keeps (call_is c t) (call_is c t) (ChatRepo.reconcile_trial u).
Proof. unfold ChatRepo.reconcile_trial. keeps_walk. Qed.

Lemma written_debit u sid msid us : keeps (call_is c t) (call_is c t) (_debit u sid msid us).
Proof.
  unfold _debit, consume, _validate_session, _ensure_wallet, consume_rest, _consume_incremental_clamp,
    _agent_reconcile_applies, _consume_agent_with_debt, clamp_statement, consume_full, _debit_in_savepoint,
    insert_ledger, update_wallet, _existing_tx, _current_balance, record.
  keeps_walk; assumption.
Qed.
End written.

(** The result of a tool call is written once.  After a call is completed
    or errored, no later batch of results, whatever it claims for that call,
    whatever the rest of its turn does and however it ends, changes the stored
    status, result or arguments of the call. *)
Theorem results_written_once deps e w u sid results c t :
  is_done t = true -> w.(w_db).(tool_calls) !! c = Some t -> w.(w_committed).(tool_calls) !! c = Some t ->
  (forall n d, d.(tool_calls) !! c = Some t -> (deps.(others) n d).(tool_calls) !! c = Some t) ->
  (session_scope (tool_result deps u sid results) e w).2.(w_committed).(tool_calls) !! c = Some t.
Proof.
  intros Hd H1 H2 Ho. pose proof (written_stable c t Hd) as Hst.
  assert (Hk : keeps (call_is c t) (call_is c t) (tool_result deps u sid results)).
  { apply (stable_tool_result (call_is c t)); [exact Ho| |apply written_trial].
    intros. apply (stable_finalize (call_is c t)). intros _. apply written_debit. }
  apply (scope_sound (call_is c t) _ Hk e w). by split.
Qed.

Definition one_done : World :=
  (session_scope (tool_result (demo_deps (fun _ => says "done")) alice 1001%N [brings 1004%N "A"]) demo_env two_calls).2.

Definition first_done : ToolCall :=
  mkToolCall 1001%N 1000%N "files.read" "tu1" [("path", JStr "a")] tc_completed (Some (JObj [("content", JStr "A")]))
    1700000000000000.

Lemma first_done_db : one_done.(w_db).(tool_calls) !! 1004%N = Some first_done /\
  one_done.(w_committed).(tool_calls) !! 1004%N = Some first_done.
Proof. vm_compute. split; reflexivity. Qed.

(** A second result for the same call is dropped. *)
Lemma results_written_once_witness :
  (session_scope (tool_result (demo_deps (fun _ => says "done")) alice 1001%N [brings 1004%N "B"; brings 1005%N "C"])
     demo_env one_done).2.(w_committed).(tool_calls) !! 1004%N = Some first_done.
Proof.
  exact (results_written_once (demo_deps (fun _ => says "done")) demo_env one_done alice 1001%N
    [brings 1004%N "B"; brings 1005%N "C"] 1004%N first_done eq_refl (proj1 first_done_db) (proj2 first_done_db)
    (fun _ _ H => H)).
Defined.

(** ** Charges over the whole life of a turn *)

Section life.
Context (deps : ChatDeps) (e : Env) (u m : uuid).

(** The turn was paid with the row [t]. *)
Definition paid_with (t : LedgerTransaction) (d : Db) : Prop := wallet_inv d /\ turn_rows d u m = [t].

#[global] Instance paid_with_edit t : EditStable (paid_with t).
Proof. apply and_edit; [apply _|by split]. Qed.

Lemma same_account_rows d d' : account d' u = account d u -> turn_rows d' u m = turn_rows d u m.
Proof. intros H. unfold turn_rows. change (user_txs d' u) with (ac_txs (account d' u)). by rewrite H. Qed.

(** A second debit under the same key is a replay; another key is another
    row. *)
Lemma paid_debit t sid msid us :
  t.(lt_type) = debit -> t.(lt_amount) = 1 -> keeps (paid_with t) (paid_with t) (_debit u sid msid us).
Proof.
  intros Ht Ha. unfold _debit. set (meta := [("usage", JObj us); ("model", dict_get us "model")]).
  apply keeps_bind; [|intros; apply keeps_ret]. intros e' w [[Hi Hr] Hc].
  pose proof (uncommitted_consume u 1 (uuid_str msid) meta (Some sid) e' w) as Hco.
  pose proof (consume_sound e' w u 1 (uuid_str msid) meta (Some sid) Hi) as Hso.
  destruct (consume u 1 (uuid_str msid) meta (Some sid) e' w) as [r w'] eqn:E. cbn in Hco. rewrite Hco. split; [done|].
  intros _. destruct Hso as [Hi' Hx]. split; [done|]. rewrite <- Hr.
  destruct r as [x|r]; [by apply same_account_rows, (Hx x)|].
  destruct (consume_succeeds _ _ _ _ _ _ _ _ _ Hi E) as (Hp & Hex & Hs).
  destruct (consume_account e' w u 1 (uuid_str msid) meta (Some sid) Hex Hs (ai_ok _ (wi_account _ Hi u)) Hp) as [H1 _].
  rewrite E in H1. cbn [fst snd] in H1. unfold spec_debit in H1.
  destruct (find_tx (uuid_str msid) (account (w_db w) u)) as [t'|] eqn:Ef.
  { apply same_account_rows. by apply (f_equal snd) in H1. }
  destruct (1 <=? _); [|done]. apply (f_equal (fun p => ac_txs p.2)) in H1. cbn in H1. unfold turn_rows.
  change (user_txs (w_db w') u) with (ac_txs (account (w_db w') u)). rewrite H1, filter_app.
  rewrite (filter_cons_False _ (new_tx e' w u debit 1 meta (uuid_str msid))), filter_nil, app_nil_r; [done|].
  cbn. intros Hk. rewrite Hk, find_tx_head, Hr in Ef. done.
Qed.

Lemma paid_trial t : keeps (paid_with t) (paid_with t) (ChatRepo.reconcile_trial u).
Proof.
  apply (keeps_and wallet_inv wallet_inv); [apply trial_books|]. unfold ChatRepo.reconcile_trial. keeps_walk.
Qed.

(** The outcome of a batch for an unpaid turn. *)
Definition once (out : ChatRunOut) (w : World) : Prop :=
  sound (due u m) (due u m) w \/ (answered out = true /\ sound (settled u m) (settled u m) w).

Hypothesis Hothers : forall n d, due u m d -> due u m (deps.(others) n d).

Lemma once_continue sid sess :
  ends e (sound (due u m) (due u m)) (continue_turn deps u sid sess m) once (fun _ w => due u m w.(w_committed)).
Proof.
  unfold continue_turn. apply bill_then; [keeps_walk|intros [dec st]].
  apply bill_then; [unfold ChatRepo.assistant_tool_step_id; keeps_walk|intros inflight].
  assert (Hb : forall billing out w, billed u m sid billing out w -> once out w).
  { intros billing out w [_ H]. unfold once. destruct (answered out); cbn in H; [|by left].
    destruct (debit_credits billing); [by right|by left]. }
  destruct (_ && _).
  { eapply ends_weaken; [apply (bill_blocked u m e sid (mkBillingPlan false false))|done|apply Hb|done]. }
  apply bill_then; [keeps_walk|intros key].
  apply bill_then; [unfold Workspaces.instructions_for_session, WorkspacesRepo.get_instructions,
                     WorkspacesRepo.get_workspace; keeps_walk|intros prompt].
  eapply ends_weaken; [by apply (bill_generate u m deps Hothers e inflight (mkTurn u sid sess m _ _ _ _))|done|apply Hb|done].
Qed.
End life.

Section life_request.
Context (deps : ChatDeps) (e : Env) (w : World) (u sid m : uuid) (results : list ToolResultIn).
Hypothesis Hothers : forall n d, due u m d -> due u m (deps.(others) n d).

Lemma once_tool_result :
  sound (due u m) (due u m) w -> batch_of w.(w_db) m results ->
  match tool_result deps u sid results e w with
  | (inl _, w') => due u m w'.(w_committed)
  | (inr out, w') => once u m out w'
  end.
Proof.
  intros Hw Hb. unfold tool_result. destruct results as [|r0 l0]; [apply Hw|]. remember (r0 :: l0) as l eqn:El.
  unfold ChatRepo.get_session, get_db. unfold mbind at 1, M_bind at 1. unfold mbind at 1, M_bind at 1. cbn [mret M_ret].
  destruct (match chat_sessions (w_db w) !! sid with Some s => _ | None => _ end) as [sess|]; [|apply Hw].
  pose proof (resolve_reads sid m None l e w Hb (or_introl eq_refl)) as Hr. unfold mbind at 1, M_bind at 1.
  destruct (resolve_calls sid None l e w) as [[x|[resolved turn]] w1]; destruct Hr as [-> Hr]; [apply Hw|].
  destruct (Hr _ _ eq_refl) as [_ ->]. rewrite El. clear Hr.
  match goal with |- match ?k e w with _ => _ end =>
    cut (ends e (sound (due u m) (due u m)) k (once u m) (fun _ w => due u m w.(w_committed))); [intros H; by apply H|] end.
  apply bill_then; [apply (stable_apply_all (due u m))|intros _].
  apply bill_then; [unfold ChatRepo.list_tool_calls_for_step; keeps_walk|intros calls].
  destruct (call_out <$> pending_calls calls) as [|next rest].
  - apply bill_then; [unfold ChatRepo.next_step_after; keeps_walk|intros [saved|]]; [|by apply once_continue].
    destruct (_all_already_done_before _); [|by apply once_continue]. unfold _render_saved_step.
    apply bill_then; [apply (stable_lift (due u m))|intros text]. apply bill_ret. by left.
  - apply bill_then; [keeps_walk|intros _]. apply bill_then; [unfold ChatRepo.assistant_tool_step_id; keeps_walk|intros step].
    apply bill_ret. by left.
Qed.
End life_request.

(** C35: a turn that continues through tool results is still charged at most
    once.  A batch for an unpaid turn leaves it unpaid, or answers and leaves
    exactly one debit of one credit under the turn's key; a batch for a turn
    that is already paid, a replay included, leaves that very row and adds
    none. *)
Theorem continuation_charges_once deps e w u sid results m :
  wallet_inv w.(w_db) -> w.(w_committed) = w.(w_db) -> batch_of w.(w_db) m results ->
  (forall n d, wallet_inv d -> wallet_inv (deps.(others) n d)) ->
  (forall n d, turn_rows (deps.(others) n d) u m = turn_rows d u m) ->
  let '(r, w') := session_scope (tool_result deps u sid results) e w in
  (forall t, turn_rows w.(w_db) u m = [t] -> t.(lt_type) = debit -> t.(lt_amount) = 1 ->
    turn_rows w'.(w_committed) u m = [t]) /\
  (unpaid u m w.(w_db) -> unpaid u m w'.(w_committed) \/
    (paid u m w'.(w_committed) /\ exists out, r = inr out /\ answered out = true)).
Proof.
  intros Hi Hc Hb Ho Hr. destruct (session_scope (tool_result deps u sid results) e w) as [r w'] eqn:E. split.
  - intros t Ht Hty Ham.
    assert (Hk : keeps (paid_with u m t) (paid_with u m t) (tool_result deps u sid results)).
    { apply (stable_tool_result (paid_with u m t)); [|intros; apply (stable_finalize (paid_with u m t)) |apply paid_trial].
      - intros n d [H1 H2]. split; [auto|]. by rewrite Hr.
      - intros _. by apply paid_debit. }
    pose proof (scope_sound _ _ Hk e w) as Hs. rewrite E in Hs. apply Hs. unfold sound. by rewrite Hc.
  - intros Hu. unfold session_scope in E.
    assert (Hw : sound (due u m) (due u m) w) by (unfold sound; by rewrite Hc).
    assert (Hd : forall n d, due u m d -> due u m (deps.(others) n d)).
    { intros n d [H1 H2]. split; [auto|]. unfold unpaid. by rewrite Hr. }
    pose proof (once_tool_result deps e w u sid m results Hd Hw Hb) as H.
    destruct (tool_result deps u sid results e w) as [[x|out] w1]; injection E as <- <-; cbn; [left; apply H|].
    destruct H as [H|[Ha H]]; [left; apply H|right]. split; [apply H|]. by exists out.
Qed.

Lemma scope_clean {A} (x : M A) e w : (session_scope x e w).2.(w_committed) = (session_scope x e w).2.(w_db).
Proof. unfold session_scope. by destruct (x e w) as [[y|a] w']. Qed.

(** Alice, with a subscription, waits for one file. *)
Definition reader : ChatDeps := demo_deps (fun _ => asks_for [reads_file "tu1" "a"]).
Definition waiting : World := (session_scope (run reader alice (ask (Some alice_session) "read a")) demo_env subscribed).2.
Definition answerer : ChatDeps := demo_deps (fun _ => says "it says A").

Lemma waiting_inv : wallet_inv waiting.(w_db).
Proof.
  pose proof (scope_sound wallet_inv (run reader alice (ask (Some alice_session) "read a"))
    (chat_run_books reader (fun _ _ H => H) alice _) demo_env subscribed (conj subscribed_inv subscribed_inv)) as [H _].
  unfold waiting. exact H.
Qed.

Lemma waiting_batch : batch_of waiting.(w_db) 1000%N [brings 1003%N "A"].
Proof.
  apply Forall_singleton. intros t.
  assert (E : tc_message_step_id <$> waiting.(w_db).(tool_calls) !! 1003%N = Some 1000%N) by (vm_compute; reflexivity).
  cbn [brings ti_tool_call_id]. intros H. rewrite H in E. by injection E.
Qed.

Lemma waiting_unpaid : unpaid alice 1000%N waiting.(w_db).
Proof. vm_compute. reflexivity. Qed.

(** The file arrives, the answer follows, and the one credit with it. *)
Lemma continuation_charges_once_witness :
  let '(r, w') := session_scope (tool_result answerer alice alice_session [brings 1003%N "A"]) demo_env waiting in
  unpaid alice 1000%N w'.(w_committed) \/
  (paid alice 1000%N w'.(w_committed) /\ exists out, r = inr out /\ answered out = true).
Proof.
  pose proof (continuation_charges_once answerer demo_env waiting alice alice_session [brings 1003%N "A"] 1000%N
    waiting_inv (scope_clean _ _ _) waiting_batch (fun _ _ H => H) (fun _ _ => eq_refl)) as H.
  destruct (session_scope _ demo_env waiting) as [r w']. exact (proj2 H waiting_unpaid).
Defined.

(** A field of a response, when there is one. *)
Definition responds {B} (f : ChatRunOut -> B) (r : exn + ChatRunOut) : option B :=
  match r with inr out => Some (f out) | inl _ => None end.

(** ** A mixed batch is answered with a stale step *)

(** The turn reads one file, then another. *)
Definition second_wait : World :=
  (session_scope (tool_result (demo_deps (fun _ => asks_for [reads_file "tu2" "b"])) alice alice_session [brings 1003%N "A"])
     demo_env waiting).2.

(** A batch that repeats an old result beside the one awaited is answered
    with the wrong step.  The model read file a, then asked for file b; the
    client sends both results.  The result for b is stored and closes the
    barrier, but the check for a replayed batch reads the statuses after they
    were refreshed, so the response is an assistant message with the text of
    the step that asked for b, and the provider is not asked. *)
Theorem mixed_batch_returns_stale_step :
  let '(r, w') := session_scope (tool_result answerer alice alice_session [brings 1003%N "A"; brings 1006%N "B"])
                    demo_env second_wait in
  responds co_status r = Some "assistant_message" /\ responds co_assistant_message r = Some (Some "looking") /\
  (tc_status <$> w'.(w_committed).(tool_calls) !! 1006%N) = Some tc_completed.
Proof. vm_compute. split_and!; reflexivity. Qed.

(** ** One trial, two answers *)

(** Alice has no subscription.  Her first turn asks for a file; when the file
    arrives the provider fails. *)
Definition failed_turn : World :=
  let w1 := (session_scope (run reader alice (ask (Some alice_session) "read a")) demo_env demo_world).2 in
  (session_scope (tool_result (demo_deps (fun _ => inl (UpstreamError "provider down"))) alice alice_session
                    [brings 1003%N "A"]) demo_env w1).2.

(** Her second turn takes the trial and is answered; then she sends the file
    of the first turn again. *)
Definition second_turn : (exn + ChatRunOut) * World :=
  session_scope (run answerer alice (ask (Some alice_session) "hello")) demo_env failed_turn.
Definition first_turn_again : (exn + ChatRunOut) * World :=
  session_scope (tool_result answerer alice alice_session [brings 1003%N "A"]) demo_env second_turn.2.

(** The trial can answer twice.  A turn that began on the trial and failed
    gives the trial back; after a second turn has spent it, the results of the
    first turn, sent again, are still taken for the continuation of a trial
    turn in flight and are answered free of charge, although the policy says
    the trial is used. *)
Theorem trial_answers_twice :
  (u_trial_used <$> users (w_committed failed_turn) !! alice = Some false) /\
  responds co_status second_turn.1 = Some "assistant_message" /\
  (u_trial_used <$> users (w_committed second_turn.2) !! alice = Some true) /\
  responds co_status first_turn_again.1 = Some "assistant_message" /\
  ledger_transactions (w_committed first_turn_again.2) = [].
Proof. vm_compute. split_and!; reflexivity. Qed.

(** ** Editing a message *)

#[global] Instance by_seq_total : Total by_seq.
Proof. intros a b. unfold by_seq. lia. Qed.
#[global] Instance by_seq_trans : Transitive by_seq.
Proof. intros a b c. unfold by_seq. lia. Qed.

(** Step numbers come from an identity column. *)
Definition seq_unique (d : Db) : Prop := NoDup (st_seq <$> d.(chat_steps)).

Lemma seq_inj (l : list ChatStep) a b : NoDup (st_seq <$> l) -> a ∈ l -> b ∈ l -> st_seq a = st_seq b -> a = b.
Proof.
  intros Hnd (i & Hi)%list_elem_of_lookup (j & Hj)%list_elem_of_lookup Hs.
  assert (i = j) as ->; [|congruence]. eapply NoDup_lookup; [exact Hnd|..]; rewrite list_lookup_fmap.
  - rewrite Hi. reflexivity.
  - rewrite Hj. cbn. by rewrite Hs.
Qed.

Lemma seq_unique_filter (P : ChatStep -> Prop) `{!forall s, Decision (P s)} (l : list ChatStep) :
  NoDup (st_seq <$> l) -> NoDup (st_seq <$> filter P l).
Proof.
  induction l as [|s l IH]; [done|]. rewrite fmap_cons, NoDup_cons. intros [Hs Hl]. destruct (decide (P s)).
  - rewrite filter_cons_True by done. rewrite fmap_cons, NoDup_cons. split; [|by apply IH].
    intros (x & E & Hx)%list_elem_of_fmap. apply Hs, list_elem_of_fmap. exists x. split; [done|].
    by apply list_elem_of_filter in Hx as [_ Hx].
  - rewrite filter_cons_False by done. by apply IH.
Qed.

(** Cutting a sorted list at a step number cuts off a tail. *)
Lemma order_split (l : list ChatStep) n :
  NoDup (st_seq <$> l) ->
  order_by_seq l =
    order_by_seq (filter (fun s => (st_seq s < n)%nat) l) ++ order_by_seq (filter (fun s => (n <= st_seq s)%nat) l).
Proof.
  intros Hnd. unfold order_by_seq. set (lo := filter _ l). set (hi := filter (fun s => (n <= st_seq s)%nat) l).
  assert (Hp : lo ++ hi ≡ₚ l).
  { subst lo hi. clear Hnd. induction l as [|s l IH]; [done|].
    destruct (decide (st_seq s < n)%nat) as [H|H].
    - rewrite filter_cons_True by done. rewrite (filter_cons_False _ s) by lia. cbn. by rewrite IH.
    - rewrite filter_cons_False by done. rewrite (filter_cons_True _ s) by lia.
      rewrite <- Permutation_middle. by rewrite IH. }
  apply (Sorted_unique_strong by_seq).
  - intros a b Ha Hb H1 H2. apply (seq_inj l); [done|..|unfold by_seq in *; lia].
    + by rewrite merge_sort_Permutation in Ha.
    + rewrite <- Hp. rewrite !elem_of_app, !merge_sort_Permutation in Hb. by rewrite elem_of_app.
  - apply Sorted_merge_sort; apply _.
  - apply StronglySorted_Sorted, StronglySorted_app_2; try (apply StronglySorted_merge_sort; apply _).
    intros a b. rewrite !merge_sort_Permutation. unfold lo, hi, by_seq. rewrite !list_elem_of_filter. lia.
  - by rewrite !merge_sort_Permutation, Hp.
Qed.

Lemma min_seq_spec l n : ChatRepo.min_seq l = Some n ->
  (exists s, s ∈ l /\ st_seq s = n) /\ forall s, s ∈ l -> (n <= st_seq s)%nat.
Proof.
  destruct l as [|s l]; [done|]. intros [= <-]. induction l as [|x l IH]; cbn.
  - split; [exists s; split; [by left|done]|]. intros y Hy. apply list_elem_of_singleton in Hy as ->. done.
  - destruct IH as [(y & Hy & Ey) IH]. split.
    + destruct (Nat.min_dec (st_seq x) (foldr (fun x m => Nat.min (st_seq x) m) (st_seq s) l)) as [E|E]; rewrite E.
      * exists x. split; [by right; left|done].
      * exists y. split; [|done]. apply elem_of_cons in Hy as [->|Hy]; [by left|by right; right].
    + intros z Hz. assert (z = x \/ z ∈ s :: l) as [->|Hz'] by set_solver; [lia|]. specialize (IH z Hz'). lia.
Qed.

(** Editing a message removes it and everything after it, and nothing else.
    When a turn is edited, the history of the session becomes a proper prefix
    of what it was: the first removed step is numbered like the edited user
    message, every removed step is numbered at least as high, the number
    returned is how many were removed; the steps of all other sessions are as
    before; and a tool call is deleted exactly when it belongs to a removed
    turn of the session.  The edit is refused exactly when the session has no
    user message of that turn. *)
Theorem edit_removes_tail e w sid msid :
  seq_unique w.(w_db) ->
  let '(r, w') := ChatRepo.truncate_from_message_step sid msid e w in
  let history d := order_by_seq (filter (in_session sid) d.(chat_steps)) in
  match r with
  | inr (Some n) =>
      exists s tail, s ∈ tail /\ in_turn sid msid role_user s /\
      history w.(w_db) = history w'.(w_db) ++ tail /\ Z.of_nat (length tail) = n /\
      Forall (fun x => (st_seq s <= st_seq x)%nat) tail /\
      filter (fun x => ~ in_session sid x) w'.(w_db).(chat_steps) = filter (fun x => ~ in_session sid x) w.(w_db).(chat_steps) /\
      forall c t, w'.(w_db).(tool_calls) !! c = Some t <->
        w.(w_db).(tool_calls) !! c = Some t /\
        ~ (t.(tc_session_id) = sid /\ t.(tc_message_step_id) ∈ st_message_step_id <$> tail)
  | inr None => w' = w /\ filter (in_turn sid msid role_user) w.(w_db).(chat_steps) = []
  | inl _ => False
  end.
Proof.
  intros Hu. unfold ChatRepo.truncate_from_message_step, get_db, mbind, M_bind. cbn.
  destruct (ChatRepo.min_seq (filter (in_turn sid msid role_user) (chat_steps (w_db w)))) as [anchor|] eqn:Em; cbn.
  2: { split; [done|]. by destruct (filter _ _). }
  apply min_seq_spec in Em as [(s & Hs & <-) _]. apply list_elem_of_filter in Hs as [Ht Hs].
  set (n := st_seq s). set (l := chat_steps (w_db w)) in *.
  assert (Hhi : filter (fun x => (n <= st_seq x)%nat) (filter (in_session sid) l) = filter (ChatRepo.from_anchor sid n) l).
  { rewrite list_filter_filter. apply list_filter_iff. intros x. unfold ChatRepo.from_anchor, in_session. tauto. }
  assert (Hlo : filter (fun x => (st_seq x < n)%nat) (filter (in_session sid) l) =
                filter (in_session sid) (filter (fun x => ~ ChatRepo.from_anchor sid n x) l)).
  { rewrite !list_filter_filter. apply list_filter_iff. intros x. unfold ChatRepo.from_anchor, in_session.
    split; [lia|]. intros [H1 H2]. split; [|done]. destruct (decide (n <= st_seq x)%nat); [tauto|lia]. }
  exists s, (order_by_seq (filter (ChatRepo.from_anchor sid n) l)). unfold order_by_seq at 1 4 5 6. split_and!.
  - rewrite merge_sort_Permutation. apply list_elem_of_filter. split; [|done]. split; [apply Ht|done].
  - done.
  - rewrite <- Hhi, <- Hlo. by apply order_split, seq_unique_filter.
  - by rewrite merge_sort_Permutation.
  - rewrite merge_sort_Permutation. apply Forall_forall. intros x. rewrite list_elem_of_filter. by intros [[_ H] _].
  - rewrite list_filter_filter. apply list_filter_iff. intros x. unfold ChatRepo.from_anchor, in_session. tauto.
  - intros c t. rewrite map_lookup_filter_Some. cbn. by rewrite merge_sort_Permutation.
Qed.

Lemma waiting_seq : seq_unique waiting.(w_db).
Proof.
  unfold seq_unique. assert (E : st_seq <$> waiting.(w_db).(chat_steps) = [0; 1]%nat) by (vm_compute; reflexivity).
  rewrite E. apply (bool_decide_unpack _). exact Logic.I.
Qed.

(** Alice edits the message of the turn that waits. *)
Lemma edit_removes_tail_witness :
  exists n w', ChatRepo.truncate_from_message_step alice_session 1000%N demo_env waiting = (inr (Some n), w') /\
  exists s tail, s ∈ tail /\ Z.of_nat (length tail) = n /\
    order_by_seq (filter (in_session alice_session) waiting.(w_db).(chat_steps)) =
    order_by_seq (filter (in_session alice_session) w'.(w_db).(chat_steps)) ++ tail.
Proof.
  pose proof (edit_removes_tail demo_env waiting alice_session 1000%N waiting_seq) as H.
  assert (Hr : (ChatRepo.truncate_from_message_step alice_session 1000%N demo_env waiting).1 = inr (Some 2))
    by (vm_compute; reflexivity).
  destruct (ChatRepo.truncate_from_message_step _ _ demo_env waiting) as [r w']. cbn [fst] in Hr. subst r.
  destruct H as (s & tail & H1 & _ & H3 & H4 & _). exists 2, w'. split; [reflexivity|]. exists s, tail.
  split; [exact H1|]. split; [exact H4|exact H3].
Defined.
