(* ===== verification/Chats.v ===== *)
(** * Chat lists and histories

    Models [src/app/chats/cursor.py], [repository.py] and [service.py]: what a
    user sees of the chats, and the edits of their metadata. *)

From Stdlib Require Import Ascii String.
From stdpp Require Import sorting.
From S2P Require Import Prelude PyVal Redaction Store AuditTrail Logic Fixtures Like Wallet WalletRun WalletSpec WalletInv.
From S2P Require Import Policy Uuid Pagination ChatTools Website Attachments Workspaces ChatContext ChatRepo Chat.

Open Scope string_scope.
Open Scope list_scope.
Open Scope Z_scope.

(** ** The cursor *)

Record ChatCursor : Type := mkChatCursor { cc_is_pinned : bool; cc_updated_at : instant; cc_id : uuid }.

(** [int(s)], [str(v)] of a value that is no string, and the text PostgreSQL's
    [->>] gives for one. *)
Record ChatsCodec : Type := mkChatsCodec {
  cursors : CursorCodec; py_int : string -> option Z; py_text : json -> string; pg_text : json -> string
}.

Section cursor.
Context (cc : ChatsCodec).

Definition encode_chat_cursor (c : ChatCursor) : string :=
  cc.(cursors).(cursor_b64encode)
    ((if c.(cc_is_pinned) then "1" else "0") ++ "|" ++ cc.(cursors).(isoformat) c.(cc_updated_at) ++ "|" ++
     uuid_str c.(cc_id))%string.

(** [raw.split("|", 2)] must give three parts; [None] is [InvalidCursorError]. *)
Definition decode_chat_cursor (value : string) : option ChatCursor :=
  raw ← cc.(cursors).(cursor_b64decode) value;
  '(pinned_str, rest) ← split_once "|" raw;
  '(updated_str, id_str) ← split_once "|" rest;
  updated ← cc.(cursors).(fromisoformat) updated_str;
  pinned ← cc.(py_int) pinned_str;
  id ← UUID id_str;
  Some (mkChatCursor (negb (pinned =? 0)) updated id).
End cursor.

(** ** Text of a step *)

(** The blocks of a value: a string or an object is iterated too, but yields
    no objects. *)
Definition content_of (payload : dict) : exn + list json :=
  match dict_lookup "content" payload with
  | None => inr []
  | Some (JArr l) => inr l
  | Some (JStr _) | Some (JObj _) => inr []
  | Some _ => inl TypeError
  end.

(** [block.get("type") == t] for a block that is an object. *)
Definition has_type (t : string) (b : dict) : bool :=
  match dict_lookup "type" b with Some (JStr s) => String.eqb s t | _ => false end.

Definition str_of (as_text : json -> string) (v : json) : string := match v with JStr s => s | v => as_text v end.

Definition text_parts (as_text : json -> string) (blocks : list json) : list string :=
  omap (fun b => match b with
                 | JObj d => if has_type "text" d then Some (str_of as_text (default (JStr "") (dict_lookup "text" d))) else None
                 | _ => None
                 end) blocks.

Definition join_parts (parts : list string) : string := Str.join " " (List.filter Str.nonempty parts).

Definition _PREVIEW_MAX_CHARS : nat := 160.

Definition _truncate (limit : nat) (value : string) : string := substring 0 limit (collapse value).

(** ** Orders *)

(** [int(is_pinned)], [updated_at], [id]; all descending. *)
Notation chat_key := (bool * instant * uuid)%type.

Definition chat_before (a b : chat_key) : Prop :=
  let '(pa, ta, ia) := a in
  let '(pb, tb, ib) := b in
  (pa = true /\ pb = false) \/ (pa = pb /\ tb < ta) \/ (pa = pb /\ ta = tb /\ (ib < ia)%N).
#[global] Instance chat_before_dec : RelDecision chat_before.
Proof. intros [[pa ta] ia] [[pb tb] ib]. unfold chat_before. apply _. Defined.

(** [ORDER BY created_at, id] *)
Definition by_created_then_id (a b : ChatStep) : Prop :=
  a.(st_created_at) < b.(st_created_at) \/ (a.(st_created_at) = b.(st_created_at) /\ (a.(st_id) <= b.(st_id))%N).
#[global] Instance by_created_then_id_dec : RelDecision by_created_then_id.
Proof. intros a b. unfold by_created_then_id. apply _. Defined.

Definition by_created_order (l : list ChatStep) : list ChatStep := merge_sort by_created_then_id l.

(** ** Repository *)

Module ChatsRepo.
Section repo.
Context (cc : ChatsCodec).

(** [ILIKE] *)
Definition ilike (pattern s : string) : bool := like (Str.lower pattern) (Str.lower s).

(** [payload["content"][0]["text"].astext] *)
Definition first_text (payload : dict) : option string :=
  match dict_lookup "content" payload with
  | Some (JArr (JObj b :: _)) =>
      match dict_lookup "text" b with
      | None | Some JNull => None
      | Some v => Some (str_of cc.(pg_text) v)
      end
  | _ => None
  end.

Definition matches (d : Db) (query : option string) (id : uuid) (s : ChatSession) : bool :=
  match query with
  | None | Some EmptyString => true
  | Some q =>
      let pattern := ("%" ++ q ++ "%")%string in
      match s.(cs_title) with Some t => ilike pattern t | None => false end ||
      existsb (fun st => bool_decide (in_session id st) && bool_decide (st.(st_role) = role_user) &&
                         match first_text st.(st_payload) with Some t => ilike pattern t | None => false end) d.(chat_steps)
  end.

Definition selected (d : Db) (u : uuid) (query : option string) (ws : option uuid) (kv : uuid * ChatSession) : bool :=
  N.eqb kv.2.(cs_user_id) u &&
  match ws with Some _ => bool_decide (kv.2.(cs_workspace_project_id) = ws) | None => true end &&
  matches d query kv.1 kv.2.

Definition chat_keys (d : Db) (u : uuid) (query : option string) (ws : option uuid) : list chat_key :=
  (fun kv : uuid * ChatSession => (kv.2.(cs_is_pinned), kv.2.(cs_updated_at), kv.1)) <$>
    List.filter (selected d u query ws) (map_to_list d.(chat_sessions)).

Definition speaks (s : ChatStep) : Prop := s.(st_role) = role_user \/ s.(st_role) = role_assistant.
#[global] Instance speaks_dec s : Decision (speaks s).
Proof. unfold speaks. apply _. Defined.

Definition _text_from_payload (payload : dict) : exn + string :=
  match content_of payload with
  | inl x => inl x
  | inr blocks => inr (Str.strip (join_parts (text_parts cc.(py_text) blocks)))
  end.

Definition _preview (sid : uuid) : M (option string) :=
  d ← get_db;
  match last (by_created_order (filter speaks (filter (in_session sid) d.(chat_steps)))) with
  | None => mret None
  | Some step =>
      match _text_from_payload step.(st_payload) with
      | inl x => raise x
      | inr text =>
          let text := if bool_decide (step.(st_role) = role_user) && Str.nonempty text then strip_context_block text else text in
          mret (if Str.nonempty text then Some (_truncate _PREVIEW_MAX_CHARS text) else None)
      end
  end.

Record ChatListItem : Type := mkChatListItem { ci_id : uuid; ci_session : ChatSession; ci_preview : option string }.

Fixpoint items_of (keys : list chat_key) : M (list ChatListItem) :=
  match keys with
  | [] => mret []
  | k :: rest =>
      d ← get_db;
      match d.(chat_sessions) !! k.2 with
      | None => items_of rest
      | Some s => preview ← _preview k.2; tail ← items_of rest; mret (mkChatListItem k.2 s preview :: tail)
      end
  end.

Definition list_chats (u : uuid) (query : option string) (cursor : option ChatCursor) (limit : nat) (ws : option uuid) :
    M (list ChatListItem * option string) :=
  d ← get_db;
  let after := (fun c => (c.(cc_is_pinned), c.(cc_updated_at), c.(cc_id))) <$> cursor in
  let '(page_rows, next) := page_of chat_before limit after (chat_keys d u query ws) in
  items ← items_of page_rows;
  mret (items, (fun k : chat_key => encode_chat_cursor cc (mkChatCursor k.1.1 k.1.2 k.2)) <$> next).
End repo.

Definition get_session (sid u : uuid) : M (option ChatSession) := ChatRepo.get_session sid u.

Definition list_steps (sid : uuid) : M (list ChatStep) :=
  d ← get_db; mret (by_created_order (filter (in_session sid) d.(chat_steps))).

Definition latest_message_step_id (sid : uuid) : M (option uuid) :=
  d ← get_db; mret (st_message_step_id <$> last (by_created_order (filter (in_session sid) d.(chat_steps)))).

Definition of_message (sid msid : uuid) (s : ChatStep) : Prop := s.(st_session_id) = sid /\ s.(st_message_step_id) = msid.
#[global] Instance of_message_dec sid msid : forall s, Decision (of_message sid msid s).
Proof. intros s. unfold of_message. apply _. Defined.

Definition steps_for_message (sid msid : uuid) : M (list ChatStep) :=
  d ← get_db; mret (by_created_order (filter (of_message sid msid) d.(chat_steps))).

Definition tool_calls_for_message (sid msid : uuid) : M (gmap uuid ToolCall) :=
  d ← get_db; mret (filter (ChatRepo.call_of sid msid) d.(tool_calls)).

(** The rows come in no particular order; the last one of a provider id wins. *)
Definition provider_id_to_domain_id (sid : uuid) : M (list (string * uuid)) :=
  d ← get_db;
  mret (reverse ((fun kv : uuid * ToolCall => (kv.2.(tc_provider_tool_use_id), kv.1)) <$>
                   filter (fun kv => kv.2.(tc_session_id) = sid) (map_to_list d.(tool_calls)))).

Record Metadata : Type := mkMetadata {
  md_title : option string; md_set_title : bool; md_is_pinned : option bool;
  md_set_workspace : bool; md_workspace : option uuid
}.

Definition edited (m : Metadata) (now : instant) (s : ChatSession) : ChatSession :=
  mkChatSession s.(cs_user_id) s.(cs_project_id) s.(cs_mode) s.(cs_model)
    (if m.(md_set_title) then m.(md_title) else s.(cs_title)) s.(cs_assistant_mode)
    (if m.(md_set_workspace) then m.(md_workspace) else s.(cs_workspace_project_id))
    (default s.(cs_is_pinned) m.(md_is_pinned)) s.(cs_created_at) now.

Definition update_metadata (sid : uuid) (s : ChatSession) (m : Metadata) : M ChatSession :=
  now ← py_now;
  d ← get_db;
  let s' := edited m now s in
  check_constraint (match s'.(cs_workspace_project_id) with
                    | None => true
                    | Some i => match d.(workspace_projects) !! i with Some _ => true | None => false end
                    end);;
  modify_db (fun d => set_chat_sessions (<[sid := s']> d.(chat_sessions)) d);;
  commit;;
  mret s'.

(** Foreign keys: steps and tool calls CASCADE, audit rows SET NULL. *)
Definition forget_session (sid : uuid) (r : AuditLog) : AuditLog :=
  if bool_decide (r.(al_session_id) = Some sid) then mkAudit r.(al_user_id) None r.(al_event_type) r.(al_payload) else r.

Definition drop_session (sid : uuid) (d : Db) : Db :=
  set_chat_sessions (delete sid d.(chat_sessions))
    (set_chat_steps (filter (fun s => ~ in_session sid s) d.(chat_steps))
       (set_tool_calls (filter (fun kv => kv.2.(tc_session_id) <> sid) d.(tool_calls))
          (set_audit_logs (forget_session sid <$> d.(audit_logs)) d))).

Definition delete_session (sid u : uuid) : M bool :=
  row ← get_session sid u;
  match row with
  | None => commit;; mret false
  | Some _ => modify_db (drop_session sid);; commit;; mret true
  end.
End ChatsRepo.

(** ** Service *)

Module Chats.
Section service.
Context (cc : ChatsCodec).

Record ChatListItemView : Type := mkChatListItemView {
  iv_id : uuid; iv_title : option string; iv_preview : option string; iv_assistant_mode : string; iv_is_pinned : bool;
  iv_project_id : option string; iv_workspace_project_id : option uuid; iv_updated_at : instant
}.

Definition item_view (i : ChatsRepo.ChatListItem) : ChatListItemView :=
  let s := i.(ChatsRepo.ci_session) in
  mkChatListItemView i.(ChatsRepo.ci_id) s.(cs_title) i.(ChatsRepo.ci_preview) s.(cs_assistant_mode) s.(cs_is_pinned)
    s.(cs_project_id) s.(cs_workspace_project_id) s.(cs_updated_at).

Definition list_chats (u : uuid) (query cursor : option string) (limit : nat) (ws : option uuid) :
    M (list ChatListItemView * option string) :=
  decoded ← (match cursor with
             | None | Some EmptyString => mret None
             | Some c => match decode_chat_cursor cc c with
                         | Some d => mret (Some d)
                         | None => raise (ValidationFailedError "invalid cursor")
                         end
             end : M (option ChatCursor));
  page ← ChatsRepo.list_chats cc u query decoded limit ws;
  mret (item_view <$> page.1, page.2).

Definition _require_session (sid u : uuid) : M ChatSession :=
  s ← ChatsRepo.get_session sid u;
  match s with None => raise (NotFoundError "chat not found") | Some s => mret s end.

(** *** Payloads as the client sees them *)

Definition domain_of (ids : list (string * uuid)) (v : json) : option uuid :=
  match v with JStr p => table_get ids p | _ => None end.

Definition _normalize_tool_use_block (ids : list (string * uuid)) (block : dict) : dict :=
  let block := match dict_get block "name" with
               | JStr raw_name => match to_domain_tool_name raw_name with
                                  | Some name => dict_set block "name" (JStr name)
                                  | None => block
                                  end
               | _ => block
               end in
  match domain_of ids (dict_get block "id") with
  | Some id => dict_set block "id" (JStr (uuid_str id))
  | None => block
  end.

Definition _normalize_tool_result_block (ids : list (string * uuid)) (block : dict) : dict :=
  match domain_of ids (dict_get block "tool_use_id") with
  | Some id => dict_set block "tool_use_id" (JStr (uuid_str id))
  | None => block
  end.

Fixpoint _strip_leading_context_block (content : list json) : list json :=
  match content with
  | [] => []
  | JObj b :: rest =>
      if has_type "text" b
      then JObj (dict_set b "text" (JStr (strip_context_block (str_of cc.(py_text) (default (JStr "") (dict_lookup "text" b)))))) :: rest
      else JObj b :: _strip_leading_context_block rest
  | v :: rest => v :: _strip_leading_context_block rest
  end.

Definition normalize_block (ids : list (string * uuid)) (v : json) : json :=
  match v with
  | JObj b =>
      if has_type "tool_use" b then JObj (_normalize_tool_use_block ids b)
      else if has_type "tool_result" b then JObj (_normalize_tool_result_block ids b)
      else v
  | _ => v
  end.

Definition _normalize_payload (step : ChatStep) (ids : list (string * uuid)) : dict :=
  let payload := dict_pop step.(st_payload) "providerToolUseId" in
  match dict_get payload "content" with
  | JArr content =>
      let content := if bool_decide (step.(st_role) = role_user) then _strip_leading_context_block content else content in
      dict_set payload "content" (JArr (normalize_block ids <$> content))
  | _ => payload
  end.

Record ChatStepView : Type := mkChatStepView {
  sv_id : uuid; sv_message_step_id : uuid; sv_role : chat_role; sv_payload : dict; sv_usage : option dict;
  sv_created_at : instant
}.

Definition step_view (ids : list (string * uuid)) (step : ChatStep) : ChatStepView :=
  mkChatStepView step.(st_id) step.(st_message_step_id) step.(st_role) (_normalize_payload step ids) step.(st_usage)
    step.(st_created_at).

Record ChatHistoryView : Type := mkChatHistoryView {
  hv_id : uuid; hv_title : option string; hv_assistant_mode : string; hv_mode : Mode; hv_steps : list ChatStepView
}.

Definition get_history (sid u : uuid) : M ChatHistoryView :=
  s ← _require_session sid u;
  steps ← ChatsRepo.list_steps sid;
  ids ← ChatsRepo.provider_id_to_domain_id sid;
  mret (mkChatHistoryView sid s.(cs_title) s.(cs_assistant_mode) s.(cs_mode) (step_view ids <$> steps)).

(** *** The steps of one turn *)

Definition _SUMMARY_MAX_CHARS : nat := 120.

Inductive step_kind : Set := kind_reasoning | kind_tool_call | kind_tool_result | kind_assistant_message.

Record StepsViewStep : Type := mkStepsViewStep {
  vs_kind : step_kind; vs_tool_name : option string; vs_summary : string; vs_created_at : instant
}.

Definition _text_summary (blocks : list json) : string :=
  _truncate _SUMMARY_MAX_CHARS (join_parts (text_parts cc.(py_text) blocks)).

(** The calls of the turn by provider id; the last one wins. *)
Definition by_provider_id (calls : gmap uuid ToolCall) (pid : string) : option ToolCall :=
  table_get (reverse ((fun kv : uuid * ToolCall => (kv.2.(tc_provider_tool_use_id), kv.2)) <$> map_to_list calls)) pid.

(** [f"..{name}"] for a name that is present and not empty. *)
Definition phrase (prefix general : string) (name : option string) : string :=
  match name with Some n => if Str.nonempty n then (prefix ++ n)%string else general | None => general end.

Definition call_view (calls : gmap uuid ToolCall) (at_ : instant) (v : json) : option StepsViewStep :=
  match v with
  | JObj b =>
      if has_type "tool_use" b then
        let name := tc_tool_name <$> by_provider_id calls (str_of cc.(py_text) (dict_get b "id")) in
        Some (mkStepsViewStep kind_tool_call name (phrase "вызов " "вызов инструмента" name) at_)
      else None
  | _ => None
  end.

Definition is_tool_use (v : json) : bool := match v with JObj b => has_type "tool_use" b | _ => false end.

Definition _render_step (calls : gmap uuid ToolCall) (step : ChatStep) : exn + list StepsViewStep :=
  match step.(st_role) with
  | role_user => inr []
  | role_assistant =>
      match content_of step.(st_payload) with
      | inl x => inl x
      | inr content =>
          let summary := _text_summary content in
          let head := if Str.nonempty summary
                      then [mkStepsViewStep (if existsb is_tool_use content then kind_reasoning else kind_assistant_message) None
                              summary step.(st_created_at)]
                      else [] in
          inr (head ++ omap (call_view calls step.(st_created_at)) content)
      end
  | role_tool =>
      let tool_name := match dict_get step.(st_payload) "toolName" with
                       | JStr n => Some n
                       | JNull =>
                           match dict_get step.(st_payload) "toolCallId" with
                           | JNull => None
                           | v => id ← UUID (str_of cc.(py_text) v); tc_tool_name <$> calls !! id
                           end
                       | v => Some (if truthy v then cc.(py_text) v else "")
                       end in
      inr [mkStepsViewStep kind_tool_result tool_name (phrase "результат " "результат инструмента" tool_name)
             step.(st_created_at)]
  end.

Fixpoint render_steps (calls : gmap uuid ToolCall) (steps : list ChatStep) : exn + list StepsViewStep :=
  match steps with
  | [] => inr []
  | s :: rest =>
      match _render_step calls s with
      | inl x => inl x
      | inr l => match render_steps calls rest with inl x => inl x | inr l' => inr (l ++ l') end
      end
  end.

Definition steps_view (sid u : uuid) (message_step_id : option uuid) : M (uuid * nat * list StepsViewStep) :=
  _require_session sid u;;
  target ← (match message_step_id with Some m => mret (Some m) | None => ChatsRepo.latest_message_step_id sid end
            : M (option uuid));
  match target with
  | None => raise (NotFoundError "no steps for chat")
  | Some msid =>
      steps ← ChatsRepo.steps_for_message sid msid;
      match steps with
      | [] => raise (NotFoundError "message step not found")
      | _ =>
          calls ← ChatsRepo.tool_calls_for_message sid msid;
          match render_steps calls steps with
          | inl x => raise x
          | inr l => mret (msid, length l, l)
          end
      end
  end.
End service.

Definition rename_or_pin (sid u : uuid) (m : ChatsRepo.Metadata) : M ChatSession :=
  s ← _require_session sid u;
  (match m.(ChatsRepo.md_set_workspace), m.(ChatsRepo.md_workspace) with
   | true, Some ws =>
       owned ← Workspaces.owns_workspace ws u;
       match owned with true => mret tt | false => raise (WorkspaceNotFoundError "workspace not found") end
   | _, _ => mret tt
   end : M unit);;
  ChatsRepo.update_metadata sid s m.

Definition delete_chat (sid u : uuid) : M unit :=
  deleted ← ChatsRepo.delete_session sid u;
  match deleted with true => mret tt | false => raise (NotFoundError "chat not found") end.
End Chats.

(** ** Isolation *)

(** No session [sid] of the user [u]. *)
Definition not_mine (d : Db) (sid u : uuid) : Prop :=
  forall s, d.(chat_sessions) !! sid = Some s -> s.(cs_user_id) <> u.

Lemma get_session_foreign e w sid u : not_mine w.(w_db) sid u -> ChatsRepo.get_session sid u e w = (inr None, w).
Proof.
  intros H. unfold ChatsRepo.get_session, ChatRepo.get_session, mbind, M_bind, get_db. cbn. unfold not_mine in H.
  destruct (chat_sessions (w_db w) !! sid) as [s|]; [|done]. by rewrite (proj2 (N.eqb_neq _ _) (H s eq_refl)).
Qed.

Lemma require_session_foreign e w sid u :
  not_mine w.(w_db) sid u -> Chats._require_session sid u e w = (inl (NotFoundError "chat not found"), w).
Proof. intros H. unfold Chats._require_session. by rewrite (bind_inr _ _ _ _ _ _ (get_session_foreign e w sid u H)). Qed.

(** Another user's chat does not exist.  For a chat that is missing or
    belongs to someone else, history, steps view, rename, pin, move and delete
    all answer the same not-found error, and none of them changes anything. *)
Theorem foreign_chat_untouched cc e w sid u :
  not_mine w.(w_db) sid u -> w.(w_committed) = w.(w_db) ->
  let missing := NotFoundError "chat not found" in
  Chats.get_history cc sid u e w = (inl missing, w) /\
  (forall m, Chats.steps_view cc sid u m e w = (inl missing, w)) /\
  (forall m, Chats.rename_or_pin sid u m e w = (inl missing, w)) /\
  Chats.delete_chat sid u e w = (inl missing, w).
Proof.
  intros H Hc. pose proof (require_session_foreign e w sid u H) as Hr. split_and!.
  - unfold Chats.get_history. by erewrite bind_inl by exact Hr.
  - intros m. unfold Chats.steps_view. by erewrite bind_inl by exact Hr.
  - intros m. unfold Chats.rename_or_pin. by erewrite bind_inl by exact Hr.
  - unfold Chats.delete_chat, ChatsRepo.delete_session.
    assert (E : (row ← ChatsRepo.get_session sid u;
                 match row with Some _ => modify_db (ChatsRepo.drop_session sid);; commit;; mret true
                 | None => commit;; mret false end) e w = (inr false, w)).
    { rewrite (bind_inr _ _ _ _ _ _ (get_session_foreign e w sid u H)). unfold commit, mbind, M_bind. cbn.
      rewrite <- Hc at 2. by destruct w. }
    by rewrite (bind_inr _ _ _ _ _ _ E).
Qed.

Definition demo_chats : ChatsCodec :=
  mkChatsCodec demo_cursors (fun s => if String.eqb s "1" then Some 1 else if String.eqb s "0" then Some 0 else None)
    (fun _ => "") (fun _ => "").

(** Bob cannot touch Alice's chat. *)
Lemma foreign_chat_untouched_witness :
  Chats.delete_chat alice_session bob demo_env demo_world = (inl (NotFoundError "chat not found"), demo_world).
Proof.
  apply (foreign_chat_untouched demo_chats demo_env demo_world alice_session bob); [|done].
  intros s Hs. apply (f_equal (fmap cs_user_id)) in Hs. cbn in Hs. injection Hs as <-. done.
Defined.

(** ** What the history shows *)

(** The provider ids of the calls of a session. *)
Definition provider_ids (d : Db) (sid : uuid) (p : string) : Prop :=
  exists c t, d.(tool_calls) !! c = Some t /\ t.(tc_session_id) = sid /\ t.(tc_provider_tool_use_id) = p.

Lemma dict_pop_lookup d k : dict_lookup k (dict_pop d k) = None.
Proof.
  unfold dict_pop in *. induction d as [|[k' v] d IH]; [done|]. destruct (String.eqb k' k) eqn:E.
  - rewrite filter_cons_False; [exact IH|]. cbn. rewrite E. by intros [].
  - rewrite filter_cons_True; [|by cbn; rewrite E]. cbn [dict_lookup]. by rewrite String.eqb_sym, E.
Qed.

Lemma table_get_none {A} (table : list (string * A)) k : table_get table k = None -> k ∉ table.*1.
Proof.
  induction table as [|[k' v] table IH]; cbn; [set_solver|]. destruct (String.eqb k k') eqn:E; [done|].
  intros H. apply not_elem_of_cons. split; [|by apply IH]. intros ->. by rewrite String.eqb_refl in E.
Qed.

Section shown.
Context (cc : ChatsCodec) (e : Env) (w : World) (sid : uuid).
Let ids := reverse ((fun kv : uuid * ToolCall => (kv.2.(tc_provider_tool_use_id), kv.1)) <$>
                      filter (fun kv => kv.2.(tc_session_id) = sid) (map_to_list w.(w_db).(tool_calls))).

(** Domain ids and provider ids are different texts. *)
Hypothesis Hapart : forall c t p, w.(w_db).(tool_calls) !! c = Some t -> provider_ids w.(w_db) sid p -> uuid_str c <> p.

Lemma ids_spec p c : (p, c) ∈ ids <-> exists t, w.(w_db).(tool_calls) !! c = Some t /\ t.(tc_session_id) = sid /\
  t.(tc_provider_tool_use_id) = p.
Proof.
  unfold ids. rewrite elem_of_reverse, list_elem_of_fmap. split.
  - intros ([c' t] & [= -> ->] & [Hs Hm]%list_elem_of_filter). apply elem_of_map_to_list in Hm. by exists t.
  - intros (t & Hm & Hs & <-). exists (c, t). split; [done|]. apply list_elem_of_filter. split; [done|].
    by apply elem_of_map_to_list.
Qed.

(** A translated id is not a provider id, and one left alone was none. *)
Lemma domain_hides v p : provider_ids w.(w_db) sid p ->
  match Chats.domain_of ids v with Some c => uuid_str c <> p | None => v <> JStr p end.
Proof.
  intros Hp. destruct v as [| | | |q| |]; try done. cbn. destruct (table_get ids q) as [c|] eqn:E.
  - apply table_get_in, ids_spec in E as (t & Hm & _). by apply (Hapart c t).
  - apply table_get_none in E. intros [= ->]. apply E. destruct Hp as (c & t & Hm & Hs & Hpid). apply list_elem_of_fmap.
    exists (p, c). split; [done|]. apply ids_spec. by exists t.
Qed.

Lemma tool_use_hidden b p : provider_ids w.(w_db) sid p -> dict_get (Chats._normalize_tool_use_block ids b) "id" <> JStr p.
Proof.
  intros Hp. unfold Chats._normalize_tool_use_block. set (b1 := match dict_get b "name" with JStr _ => _ | _ => b end).
  pose proof (domain_hides (dict_get b1 "id") p Hp) as H. destruct (Chats.domain_of ids (dict_get b1 "id")) as [c|]; [|done].
  unfold dict_get. rewrite dict_lookup_set_eq. cbn. congruence.
Qed.

Lemma tool_result_hidden b p :
  provider_ids w.(w_db) sid p -> dict_get (Chats._normalize_tool_result_block ids b) "tool_use_id" <> JStr p.
Proof.
  intros Hp. unfold Chats._normalize_tool_result_block. pose proof (domain_hides (dict_get b "tool_use_id") p Hp) as H.
  destruct (Chats.domain_of ids (dict_get b "tool_use_id")) as [c|]; [|done].
  unfold dict_get. rewrite dict_lookup_set_eq. cbn. congruence.
Qed.

Lemma has_type_set t b k v : k <> "type" -> has_type t (dict_set b k v) = has_type t b.
Proof. intros H. unfold has_type. by rewrite dict_lookup_set_ne by done. Qed.

Lemma normalize_use_type t b : has_type t (Chats._normalize_tool_use_block ids b) = has_type t b.
Proof.
  unfold Chats._normalize_tool_use_block. destruct (Chats.domain_of ids _); rewrite ?has_type_set by done;
    destruct (dict_get b "name"); try done; destruct (to_domain_tool_name _); by rewrite ?has_type_set.
Qed.

Lemma normalize_result_type t b : has_type t (Chats._normalize_tool_result_block ids b) = has_type t b.
Proof. unfold Chats._normalize_tool_result_block. destruct (Chats.domain_of ids _); by rewrite ?has_type_set. Qed.

Lemma types_differ b : has_type "tool_use" b = true -> has_type "tool_result" b = true -> False.
Proof.
  unfold has_type. destruct (dict_lookup "type" b) as [[| | | |x| |]|]; try done.
  intros ->%String.eqb_eq. by vm_compute.
Qed.

Lemma block_hidden v b p :
  provider_ids w.(w_db) sid p -> Chats.normalize_block ids v = JObj b ->
  (has_type "tool_use" b = true -> dict_get b "id" <> JStr p) /\
  (has_type "tool_result" b = true -> dict_get b "tool_use_id" <> JStr p).
Proof.
  intros Hp. destruct v as [| | | | | |b0]; try done. cbn. destruct (has_type "tool_use" b0) eqn:Eu.
  { intros [= <-]. rewrite !normalize_use_type, Eu. split; [by intros _; apply tool_use_hidden|].
    intros H. exfalso. by apply (types_differ b0). }
  destruct (has_type "tool_result" b0) eqn:Er; intros [= <-]; rewrite ?normalize_result_type, ?Eu, ?Er.
  - split; [done|]. intros _. by apply tool_result_hidden.
  - done.
Qed.

Lemma step_hidden s :
  let payload := Chats.sv_payload (Chats.step_view cc ids s) in
  dict_lookup "providerToolUseId" payload = None /\
  forall content b p, dict_lookup "content" payload = Some (JArr content) -> JObj b ∈ content ->
    provider_ids w.(w_db) sid p ->
    (has_type "tool_use" b = true -> dict_get b "id" <> JStr p) /\
    (has_type "tool_result" b = true -> dict_get b "tool_use_id" <> JStr p).
Proof.
  cbn. unfold Chats._normalize_payload. set (payload := dict_pop _ _).
  assert (Hn : dict_lookup "providerToolUseId" payload = None) by apply dict_pop_lookup.
  destruct (dict_get payload "content") as [| | | | |l|] eqn:El;
    try (split; [done|]; intros content b' p Hc; unfold dict_get in El; by rewrite Hc in El).
  split; [by rewrite dict_lookup_set_ne|]. intros content b p. rewrite dict_lookup_set_eq. intros [= <-] Hb Hp.
  apply list_elem_of_fmap in Hb as (v & Hv & _). by apply (block_hidden v).
Qed.
End shown.

(** The history never shows a provider's tool id.  In the history of a chat
    no payload carries the internal [providerToolUseId], and the id of every
    [tool_use] block and the [tool_use_id] of every [tool_result] block is not
    the provider id of any call of the chat, whatever was stored; reading the
    history writes nothing. *)
Theorem history_hides_provider_ids cc e w sid u h w' :
  (forall c t p, w.(w_db).(tool_calls) !! c = Some t -> provider_ids w.(w_db) sid p -> uuid_str c <> p) ->
  Chats.get_history cc sid u e w = (inr h, w') ->
  w' = w /\
  Forall (fun v =>
    dict_lookup "providerToolUseId" v.(Chats.sv_payload) = None /\
    forall content b p, dict_lookup "content" v.(Chats.sv_payload) = Some (JArr content) -> JObj b ∈ content ->
      provider_ids w.(w_db) sid p ->
      (has_type "tool_use" b = true -> dict_get b "id" <> JStr p) /\
      (has_type "tool_result" b = true -> dict_get b "tool_use_id" <> JStr p)) h.(Chats.hv_steps).
Proof.
  intros Ha H. unfold Chats.get_history, Chats._require_session, ChatsRepo.get_session, ChatRepo.get_session in H.
  apply bind_ok in H as (s & w1 & Hs & H). apply bind_ok in Hs as (r & w2 & Hr & Hs).
  apply bind_ok in Hr as (d & w3 & [= <- <-] & [= <- <-]).
  destruct (match chat_sessions (w_db w) !! sid with Some s => _ | None => None end); [|done]. injection Hs as <- <-.
  apply bind_ok in H as (steps & w4 & [= <- <-] & H). apply bind_ok in H as (ids & w5 & [= <- <-] & [= <- <-]).
  split; [done|]. cbn. apply Forall_fmap, Forall_true. intros st. by apply (step_hidden cc w sid).
Qed.

(** A turn of Alice's that called a tool: the same instant for the step that
    asked and the step that answered, as in one transaction. *)
Definition asking_step : ChatStep :=
  mkChatStep 22%N 1 alice_session 9%N role_assistant
    [("content", JArr [JObj [("type", JStr "tool_use"); ("id", JStr "toolu_1"); ("name", JStr "time_now"); ("input", JObj [])]])]
    None 200.
Definition answering_step : ChatStep :=
  mkChatStep 21%N 2 alice_session 9%N role_tool
    [("toolCallId", JStr (uuid_str 5%N)); ("providerToolUseId", JStr "toolu_1"); ("toolName", JStr "time.now");
     ("result", JObj []); ("error", JNull)] None 200.
Definition user_step : ChatStep :=
  mkChatStep 20%N 0 alice_session 9%N role_user [("content", JArr [JObj [("type", JStr "text"); ("text", JStr "time?")]])]
    None 100.

Definition clock_call : ToolCall := mkToolCall alice_session 9%N "time.now" "toolu_1" [] tc_completed None 200.

Definition called : World :=
  world_of (set_chat_steps [user_step; asking_step; answering_step] (set_tool_calls {[ 5%N := clock_call ]} demo_db)).

Lemma called_calls c t : called.(w_db).(tool_calls) !! c = Some t -> c = 5%N /\ t = clock_call.
Proof.
  change (called.(w_db).(tool_calls)) with ({[ 5%N := clock_call ]} : gmap uuid ToolCall).
  intros [<- <-]%lookup_singleton_Some. done.
Qed.

Lemma history_hides_provider_ids_witness :
  exists h, Chats.get_history demo_chats alice_session alice demo_env called = (inr h, called) /\
  length h.(Chats.hv_steps) = 3%nat /\
  Forall (fun v => dict_lookup "providerToolUseId" v.(Chats.sv_payload) = None) h.(Chats.hv_steps).
Proof.
  assert (Hh : exists h, (Chats.get_history demo_chats alice_session alice demo_env called).1 = inr h /\
                length h.(Chats.hv_steps) = 3%nat) by (eexists; split; vm_compute; reflexivity).
  destruct (Chats.get_history demo_chats alice_session alice demo_env called) as [r w'] eqn:E.
  destruct Hh as (h & Hr & Hl). cbn [fst] in Hr. subst r.
  destruct (history_hides_provider_ids demo_chats demo_env called alice_session alice h w') as [-> Hf]; [|exact E|].
  - intros c t p [-> _]%called_calls (c' & t' & [-> ->]%called_calls & _ & <-). vm_compute. discriminate.
  - exists h. split; [reflexivity|]. split; [exact Hl|]. eapply Forall_impl; [exact Hf|]. intros v H. apply H.
Defined.

(** The history orders the steps of one transaction by their random ids.
    Two steps written at the same instant are shown by [GET /v1/chats/{id}] in
    the order of their ids, so a tool result can come before the call it
    answers; the order of [seq], in which the model was shown them, is the
    other one. *)
Theorem history_shows_result_first :
  (fun s => st_id s) <$> by_created_order called.(w_db).(chat_steps) = [20; 21; 22]%N /\
  (fun s => st_id s) <$> order_by_seq called.(w_db).(chat_steps) = [20; 22; 21]%N /\
  exists h, Chats.get_history demo_chats alice_session alice demo_env called = (inr h, called) /\
    Chats.sv_role <$> h.(Chats.hv_steps) = [role_user; role_tool; role_assistant].
Proof. split; [reflexivity|]. split; [reflexivity|]. eexists. split; vm_compute; reflexivity. Qed.

(** ** Chats and workspaces *)

Import Orchestrator.

(** Every chat that is bound to a workspace is bound to one of its owner. *)
Definition in_own_workspace (d : Db) : Prop :=
  forall sid s ws, d.(chat_sessions) !! sid = Some s -> s.(cs_workspace_project_id) = Some ws ->
  exists wp, d.(workspace_projects) !! ws = Some wp /\ wp.(wp_user_id) = s.(cs_user_id).

Definition owned_by (u : uuid) (ws : option uuid) (d : Db) : Prop :=
  forall i, ws = Some i -> exists wp, d.(workspace_projects) !! i = Some wp /\ wp.(wp_user_id) = u.

Lemma put_session_own sid s d :
  in_own_workspace d -> owned_by s.(cs_user_id) s.(cs_workspace_project_id) d ->
  in_own_workspace (set_chat_sessions (<[sid := s]> d.(chat_sessions)) d).
Proof.
  intros Hd Ho sid' s' ws Hs Hw. cbn in Hs |- *. destruct (decide (sid' = sid)) as [->|Hne].
  - rewrite lookup_insert_eq in Hs. injection Hs as <-. by apply Ho.
  - rewrite lookup_insert_ne in Hs by done. by eapply Hd.
Qed.

(** The guard that precedes every binding. *)
Lemma owns_workspace_reads ws u e w b w' :
  Workspaces.owns_workspace ws u e w = (inr b, w') -> w' = w /\ (b = true -> owned_by u (Some ws) w.(w_db)).
Proof.
  unfold Workspaces.owns_workspace, WorkspacesRepo.get_workspace, mbind, M_bind, get_db. cbn.
  destruct (workspace_projects (w_db w) !! ws) as [wp|] eqn:E; cbn; [|by intros [= <- <-]].
  destruct (N.eqb_spec (wp_user_id wp) u); cbn; intros [= <- <-]; split; try done. intros _ i [= <-]. by exists wp.
Qed.

Lemma owns_workspace_total ws u e w : exists b, Workspaces.owns_workspace ws u e w = (inr b, w).
Proof.
  unfold Workspaces.owns_workspace, WorkspacesRepo.get_workspace, mbind, M_bind, get_db. cbn.
  destruct (workspace_projects (w_db w) !! ws) as [wp|]; [destruct (N.eqb _ _)|]; by eexists.
Qed.

Lemma check_silent b e w : (check_constraint b e w).2 = w.
Proof. by destruct b. Qed.

Section binding.
Context (e : Env) (u : uuid) (d0 c0 : Db) (Hd0 : in_own_workspace d0) (Hc0 : in_own_workspace c0).
Let still := sound (eq d0) (eq c0).
Let fine (_ : exn) (w : World) : Prop := in_own_workspace w.(w_committed) /\ in_own_workspace w.(w_db).

Lemma guarded {A} (ws : option uuid) (check : bool) (k : unit -> M A) Q :
  (forall w, still w -> check = true -> owned_by u ws d0 -> match k tt e w with (inl x, w') => fine x w' | (inr a, w') => Q a w' end) ->
  (check = false -> ends e still (k tt) Q fine) ->
  ends e still
    ((match check, ws with
      | true, Some i => owned ← Workspaces.owns_workspace i u;
                        match owned with true => mret tt | false => raise (WorkspaceNotFoundError "workspace not found") end
      | _, _ => mret tt
      end : M unit) ≫= k) Q fine.
Proof.
  intros H1 H2 w Hw. destruct check; [|by apply H2]. destruct ws as [i|]; [|by apply H1].
  destruct (owns_workspace_total i u e w) as [b Hb]. unfold mbind at 1, M_bind at 1. rewrite (bind_inr _ _ _ _ _ _ Hb).
  apply owns_workspace_reads in Hb as [_ Hb]. destruct b; cbn.
  - apply H1; [done|done|]. destruct Hw as [-> _]. by apply Hb.
  - destruct Hw as [E1 E2]. split; [by rewrite <- E2|by rewrite <- E1].
Qed.

Lemma still_fine x w : still w -> fine x w.
Proof. intros [E1 E2]. split; [by rewrite <- E2|by rewrite <- E1]. Qed.

Lemma still_then {A B} (m : M A) (k : A -> M B) Q :
  (forall w, still w -> (m e w).2.(w_db) = w.(w_db) /\ (m e w).2.(w_committed) = w.(w_committed)) ->
  (forall a, ends e still (k a) Q fine) -> ends e still (m ≫= k) Q fine.
Proof.
  intros Hm Hk w Hw. specialize (Hm w Hw). destruct Hw as [E1 E2]. unfold mbind, M_bind.
  destruct (m e w) as [[x|a] w']; cbn in Hm; destruct Hm as [H1 H2].
  - apply still_fine. split; congruence.
  - apply Hk. split; congruence.
Qed.

Definition bound (_ : ChatRepo.SessionContext) (w : World) : Prop :=
  in_own_workspace w.(w_committed) /\ in_own_workspace w.(w_db).

Lemma create_bound pid mode am t m ws :
  owned_by u ws d0 -> ends e still (ChatRepo.create_session u pid mode am t m ws) bound fine.
Proof.
  intros Ho w Hw. unfold ChatRepo.create_session. apply still_then; [done|intros d|done].
  apply still_then; [done|intros id]. apply still_then; [done|intros now].
  do 3 (apply still_then; [intros ? _; by rewrite check_silent|intros _]).
  intros w1 [E1 E2]. split; cbn; [by rewrite <- E2|]. rewrite <- E1. by apply put_session_own.
Qed.

Lemma open_bound a : ends e still (Orchestrator.open_session u a) bound fine.
Proof.
  unfold Orchestrator.open_session. apply still_then; [|intros wc].
  { intros w _. unfold Orchestrator._will_create_session. destruct (ra_session_id a) as [sid|]; [|done].
    unfold ChatRepo.get_session, mbind, M_bind, get_db. cbn.
    destruct (match chat_sessions (w_db w) !! sid with Some _ => _ | None => None end); done. }
  apply still_then; [done|intros s]. apply still_then.
  { intros w _. destruct wc, (Str.strip <$> ra_model a) as [m|]; try done. by destruct (dict_lookup m _). }
  intros []. set (resolved := Str.strip <$> ra_model a).
  assert (Hrest : forall ws, owned_by u ws d0 -> ends e still
    (am ← (match ra_assistant_mode a with Some m => mret m | None => Preferences.get_default_assistant_mode u end : M string);
     ChatRepo.get_or_create_session u (ra_project_id a) (ra_mode a) (ra_session_id a) am (derive_title (ra_message a))
       resolved ws) bound fine).
  { intros ws Ho. apply still_then; [|intros am].
    { intros w _. destruct (ra_assistant_mode a); [done|]. unfold Preferences.get_default_assistant_mode, Preferences._load,
        mbind, M_bind, get_db. cbn. by destruct (user_preferences (w_db w) !! u). }
    unfold ChatRepo.get_or_create_session. destruct (ra_session_id a) as [sid|]; [|by apply create_bound].
    apply still_then; [done|intros [s0|]]; [|by apply create_bound].
    apply still_then; [done|intros []]; [by apply create_bound|].
    intros w Hw. exact (still_fine DataError w Hw). }
  apply guarded.
  - intros w Hw -> Ho. by apply Hrest.
  - intros ->. apply Hrest. done.
Qed.

Lemma rename_bound sid m :
  ends e still (Chats.rename_or_pin sid u m) (fun _ w => in_own_workspace w.(w_committed) /\ in_own_workspace w.(w_db)) fine.
Proof.
  unfold Chats.rename_or_pin.
  apply (ends_bind e _ _ _ _ (fun s w => still w /\ d0.(chat_sessions) !! sid = Some s /\ s.(cs_user_id) = u)).
  { intros w Hw. unfold Chats._require_session, ChatsRepo.get_session, ChatRepo.get_session, mbind, M_bind, get_db. cbn.
    destruct (chat_sessions (w_db w) !! sid) as [s|] eqn:E; cbn; [|by apply still_fine].
    destruct (N.eqb_spec (cs_user_id s) u); cbn; [|by apply still_fine]. split; [done|]. destruct Hw as [-> _]. done. }
  intros s w (Hw & Hs & Hu). revert w Hw.
  assert (Hup : (ChatsRepo.md_set_workspace m = true -> owned_by u (ChatsRepo.md_workspace m) d0) ->
    ends e still (ChatsRepo.update_metadata sid s m)
      (fun _ w => in_own_workspace w.(w_committed) /\ in_own_workspace w.(w_db)) fine).
  { intros Ho. unfold ChatsRepo.update_metadata. apply still_then; [done|intros now]. apply still_then; [done|intros d].
    apply still_then; [intros ? _; by rewrite check_silent|intros _].
    intros w [E1 E2]. unfold mbind, M_bind, modify_db, commit, with_db. cbn. rewrite <- E1. assert (H : in_own_workspace (set_chat_sessions
      (<[sid := ChatsRepo.edited m now s]> d0.(chat_sessions)) d0)); [|by split].
    apply put_session_own; [done|]. cbn. rewrite Hu. destruct (ChatsRepo.md_set_workspace m); [by apply Ho|].
    intros i Hi. rewrite <- Hu. by eapply Hd0. }
  apply guarded.
  - intros w Hw _ Ho. by apply Hup.
  - intros Hf. apply Hup. congruence.
Qed.
End binding.

(** The other writers of the two tables. *)

Lemma create_workspace_own u name ds ins : keeps in_own_workspace in_own_workspace (Workspaces.create u name ds ins).
Proof.
  intros e w [H1 H2]. unfold Workspaces.create, WorkspacesRepo.create_workspace, mbind, M_bind, get_db, gen_random_uuid,
    pg_now, check_constraint. cbn -[user_exists]. destruct (user_exists (w_db w) u); cbn; [|done].
  destruct (workspace_projects (w_db w) !! env_gen_random_uuid e (w_uuids w)) as [x|] eqn:E; cbn; [done|].
  assert (H : in_own_workspace (set_workspace_projects
    (<[env_gen_random_uuid e (w_uuids w) := mkWorkspaceProject u (Str.strip name) ds ins (env_pg_now e) (env_pg_now e)]>
       (workspace_projects (w_db w))) (w_db w))); [|by split].
  intros sid s ws Hs Hw. cbn in *. destruct (H1 sid s ws Hs Hw) as (wp & Hwp & Hu). exists wp. split; [|done].
  rewrite lookup_insert_ne; [done|]. intros <-. congruence.
Qed.

Lemma update_workspace_own i u n sd ds si ins :
  keeps in_own_workspace in_own_workspace (Workspaces.update i u n sd ds si ins).
Proof.
  intros e w [H1 H2]. unfold Workspaces.update, Workspaces._require_workspace, WorkspacesRepo.get_workspace,
    WorkspacesRepo.update_workspace, WorkspacesRepo.list_files, mbind, M_bind, get_db, py_now. cbn.
  destruct (workspace_projects (w_db w) !! i) as [wp|] eqn:E; cbn; [|done].
  destruct (N.eqb (wp_user_id wp) u); cbn; [|done].
  match goal with |- in_own_workspace ?d /\ _ => assert (H : in_own_workspace d); [|by split] end.
  intros sid s ws Hs Hw. cbn in *. destruct (H1 sid s ws Hs Hw) as (wp' & Hwp & Hu).
  destruct (decide (i = ws)) as [->|Hne]; [|exists wp'; by rewrite lookup_insert_ne].
  eexists. rewrite lookup_insert_eq. split; [done|]. cbn. congruence.
Qed.

Lemma delete_workspace_own i u : keeps in_own_workspace in_own_workspace (Workspaces.delete i u).
Proof.
  intros e w [H1 H2]. unfold Workspaces.delete, WorkspacesRepo.delete_workspace, WorkspacesRepo.get_workspace, mbind, M_bind,
    get_db. cbn. destruct (workspace_projects (w_db w) !! i) as [wp|] eqn:E; cbn; [|by split].
  destruct (N.eqb (wp_user_id wp) u); cbn; [|by split].
  match goal with |- in_own_workspace ?d /\ _ => assert (H : in_own_workspace d); [|by split] end.
  intros sid s ws Hs Hw. cbn in *. rewrite lookup_fmap in Hs. apply fmap_Some in Hs as (s0 & Hs0 & ->).
  unfold WorkspacesRepo.unbind in *. case_bool_decide as Hb; [done|].
  destruct (H1 sid s0 ws Hs0 Hw) as (wp' & Hwp & Hu). exists wp'. split; [|done].
  rewrite lookup_delete_ne; [done|]. intros ->. by apply Hb.
Qed.

Lemma delete_chat_own sid u : keeps in_own_workspace in_own_workspace (Chats.delete_chat sid u).
Proof.
  intros e w [H1 H2]. unfold Chats.delete_chat, ChatsRepo.delete_session, ChatsRepo.get_session, ChatRepo.get_session, mbind,
    M_bind, get_db. cbn. destruct (chat_sessions (w_db w) !! sid) as [s|] eqn:E; cbn; [|by split].
  destruct (N.eqb (cs_user_id s) u); cbn; [|by split].
  match goal with |- in_own_workspace ?d /\ _ => assert (H : in_own_workspace d); [|by split] end.
  intros sid' s' ws Hs Hw. cbn in *. apply lookup_delete_Some in Hs as [_ Hs]. by eapply H1.
Qed.

(** A request that writes chats or workspaces. *)
Inductive binding_request : Type :=
| bind_open (u : uuid) (a : RunArgs)
| bind_edit (sid u : uuid) (m : ChatsRepo.Metadata)
| bind_delete_chat (sid u : uuid)
| bind_create (u : uuid) (name : string) (description instructions : option string)
| bind_update (i u : uuid) (name : option string) (sd : bool) (ds : option string) (si : bool) (ins : option string)
| bind_delete (i u : uuid).

Definition serve_binding (q : binding_request) : M unit :=
  match q with
  | bind_open u a => open_session u a;; mret tt
  | bind_edit sid u m => Chats.rename_or_pin sid u m;; mret tt
  | bind_delete_chat sid u => Chats.delete_chat sid u
  | bind_create u n ds ins => Workspaces.create u n ds ins;; mret tt
  | bind_update i u n sd ds si ins => Workspaces.update i u n sd ds si ins;; mret tt
  | bind_delete i u => Workspaces.delete i u
  end.

Lemma still_keeps {A} (m : M A) :
  (forall e d0 c0, in_own_workspace d0 -> in_own_workspace c0 ->
    ends e (sound (eq d0) (eq c0)) m (fun _ w => in_own_workspace w.(w_committed) /\ in_own_workspace w.(w_db))
      (fun _ w => in_own_workspace w.(w_committed) /\ in_own_workspace w.(w_db))) ->
  keeps in_own_workspace in_own_workspace m.
Proof.
  intros H e w [H1 H2]. specialize (H e (w_db w) (w_committed w) H1 H2 w (conj eq_refl eq_refl)).
  destruct (m e w) as [[x|a] w']; by destruct H.
Qed.

Lemma binding_keeps q : keeps in_own_workspace in_own_workspace (serve_binding q).
Proof.
  destruct q; cbn [serve_binding]; try (apply keeps_bind; [|intros; apply keeps_ret]).
  - apply still_keeps. intros e d0 c0 H1 H2. by apply open_bound.
  - apply still_keeps. intros e d0 c0 H1 H2. by apply rename_bound.
  - apply delete_chat_own.
  - apply create_workspace_own.
  - apply update_workspace_own.
  - apply delete_workspace_own.
Qed.

(** A chat is only ever in a workspace of its owner.  Over any sequence of
    requests of any users that open chats, rename, pin, move or delete them,
    and create, change or delete workspaces, each with its own outcome, every
    committed chat that is bound to a workspace is bound to an existing
    workspace of the chat's own user. *)
Theorem chats_in_own_workspaces e requests w :
  in_own_workspace w.(w_db) -> in_own_workspace w.(w_committed) ->
  let w' := foldl (fun w q => (session_scope (serve_binding q) e w).2) w requests in
  in_own_workspace w'.(w_db) /\ in_own_workspace w'.(w_committed).
Proof.
  revert w. induction requests as [|q requests IH]; intros w H1 H2; [done|]. cbn.
  destruct (scope_sound in_own_workspace _ (binding_keeps q) e w (conj H1 H2)) as [H3 H4]. by apply IH.
Qed.

(** Alice makes a workspace and opens a chat in it; Bob's attempt fails. *)
Lemma chats_in_own_workspaces_witness :
  let open u := mkRunArgs None None "hi" mode_credits None [] None (Some 1000%N) None None in
  let w' := foldl (fun w q => (session_scope (serve_binding q) demo_env w).2) demo_world
              [bind_create alice "notes" None None; bind_open bob (open bob); bind_open alice (open alice)] in
  size w'.(w_committed).(chat_sessions) = 2%nat /\ in_own_workspace w'.(w_committed).
Proof.
  assert (H : in_own_workspace demo_db).
  { intros sid s ws Hs. cbn in Hs. by apply lookup_singleton_Some in Hs as [<- <-]. }
  split; [vm_compute; reflexivity|]. by apply chats_in_own_workspaces.
Defined.

(** ** Money is not touched *)

Lemma forgotten_account sid d u : account (ChatsRepo.drop_session sid d) u = account d u.
Proof.
  unfold account, wallet_balance, wallet_debt, user_txs. cbn.
  assert (H : forall (f : AuditLog -> Z), (forall r, f (ChatsRepo.forget_session sid r) = f r) ->
            sumZ f (ChatsRepo.forget_session sid <$> d.(audit_logs)) = sumZ f d.(audit_logs)).
  { intros f Hf. induction (audit_logs d) as [|r l IH]; [done|]. rewrite fmap_cons, !sumZ_cons. by rewrite Hf, IH. }
  rewrite !H; [done|..]; intros r; unfold ChatsRepo.forget_session; by case_bool_decide.
Qed.

#[export] Instance delete_chat_books sid u : KeepsBooks (Chats.delete_chat sid u).
Proof.
  unfold KeepsBooks, Chats.delete_chat, ChatsRepo.delete_session, ChatsRepo.get_session, ChatRepo.get_session. keeps_walk.
  split; [|by apply H]. intros v. rewrite forgotten_account. apply H.
Qed.

#[export] Instance rename_books sid u m : KeepsBooks (Chats.rename_or_pin sid u m).
Proof.
  unfold KeepsBooks, Chats.rename_or_pin, Chats._require_session, ChatsRepo.get_session, ChatRepo.get_session,
    Workspaces.owns_workspace, WorkspacesRepo.get_workspace, ChatsRepo.update_metadata. keeps_walk.
Qed.
