(* ===== verification/InstanceConfig.v ===== *)
(** * Configuration of an instance

    Models [src/app/hermes_runtime/config_yaml.py] (the [config.yaml] written
    into a user's volume), the tables and helpers of [src/app/config.py] it
    relies on, and the start-up checks of the runtime settings. *)

From Stdlib Require Import Ascii String.
From S2P Require Import Prelude PyVal Redaction Store ChatTools.

Open Scope string_scope.
Open Scope list_scope.
Open Scope Z_scope.

Record RuntimeSettings : Type := mkRuntimeSettings {
  hermes_image : string;
  hermes_llm_api_key : string;
  hermes_llm_provider : string;
  hermes_model : string;
  hermes_llm_base_url : string;
  hermes_default_toolset_raw : string;
  hermes_docker_network : string;
  hermes_volume_root : string;
  hermes_uid : Z;
  hermes_gid : Z;
  hermes_api_key_bytes : nat;
  hermes_provisioning_stale_seconds : Z;
  hermes_provision_ready_timeout_seconds : Z;
  hermes_provision_ready_interval_seconds : Z;
  hermes_launch_budget_seconds : Z;
  hermes_proxy_timeout_seconds : Z;
  hermes_idle_timeout_seconds : Z
}.

(** ** Start-up checks: [None] accepts, otherwise the setting that is refused *)

Definition _validate_hermes_provision_invariant (s : RuntimeSettings) : option string :=
  if s.(hermes_provisioning_stale_seconds) <=? s.(hermes_provision_ready_timeout_seconds)
  then Some "HERMES_PROVISIONING_STALE_SECONDS" else None.

Definition _validate_hermes_launch_budget_invariant (s : RuntimeSettings) : option string :=
  let minimum := s.(hermes_provision_ready_timeout_seconds) + 2 * s.(hermes_proxy_timeout_seconds) in
  if s.(hermes_launch_budget_seconds) <? minimum then Some "HERMES_LAUNCH_BUDGET_SECONDS" else None.

(** ** Providers *)

Definition HERMES_PROVIDER_ALLOWLIST : list string :=
  ["auto"; "openrouter"; "nous"; "nous-api"; "anthropic"; "openai-codex"; "copilot"; "gemini"; "zai"; "kimi-coding";
   "minimax"; "minimax-cn"; "huggingface"; "nvidia"; "xiaomi"; "arcee"; "ollama-cloud"; "kilocode"; "azure-foundry";
   "lmstudio"; "custom"].

Definition HERMES_PROVIDER_FORBIDDEN : list string := ["auto"].

Definition HERMES_PROVIDER_KEY_ENV : list (string * string) :=
  [("anthropic", "ANTHROPIC_API_KEY"); ("openrouter", "OPENROUTER_API_KEY"); ("gemini", "GOOGLE_API_KEY");
   ("nous-api", "NOUS_API_KEY"); ("nous", "NOUS_API_KEY"); ("zai", "GLM_API_KEY"); ("kimi-coding", "KIMI_API_KEY");
   ("huggingface", "HF_TOKEN"); ("nvidia", "NVIDIA_API_KEY"); ("lmstudio", "LM_API_KEY")].

Definition HERMES_PROVIDERS_CONFIG_API_KEY : list string := ["custom"].
Definition HERMES_INSTANCE_LLM_KEY_ENV : string := "HERMES_INSTANCE_LLM_KEY".
Definition HERMES_PROVIDERS_REQUIRING_BASE_URL : list string := ["custom"; "azure-foundry"].

(** [str.upper] on ASCII letters. *)
Definition upper_ascii (c : ascii) : ascii :=
  let n := N_of_ascii c in if ((97 <=? n)%N && (n <=? 122)%N) then ascii_of_N (n - 32) else c.

Definition hermes_provider_key_env (provider : string) : string :=
  match table_get HERMES_PROVIDER_KEY_ENV provider with
  | Some env => env
  | None => (Str.map_str upper_ascii provider ++ "_API_KEY")%string
  end.

(** ** The toolset *)

Definition default_toolset : list string := ["web"; "file"; "vision"; "skills"; "todo"].

(** [seen.setdefault(entry, None)] *)
Definition add_tool (seen : list string) (raw : string) : list string :=
  let entry := Str.strip raw in
  if Str.nonempty entry && negb (member entry seen) then seen ++ [entry] else seen.

Definition hermes_default_toolset (s : RuntimeSettings) : list string :=
  match foldl add_tool [] (Str.split "," s.(hermes_default_toolset_raw)) with
  | [] => default_toolset
  | seen => seen
  end.

(** ** Regular expressions *)

Definition eol : ascii := "010".

(** [^[cls]+$]: the dollar also matches before a newline at the very end. *)
Fixpoint re_class (cls : ascii -> bool) (s : string) : bool :=
  match s with
  | EmptyString => false
  | String c rest => cls c && (String.eqb rest "" || String.eqb rest (String eol "") || re_class cls rest)
  end.

Definition alnum (c : ascii) : bool :=
  let n := N_of_ascii c in
  ((48 <=? n)%N && (n <=? 57)%N) || ((65 <=? n)%N && (n <=? 90)%N) || ((97 <=? n)%N && (n <=? 122)%N).

Definition in_class (extra : string) (c : ascii) : bool := alnum c || Str.has_char c extra.

Definition _TOOLSET_NAME_RE : string -> bool := re_class (in_class "_-").
Definition _MODEL_NAME_RE : string -> bool := re_class (in_class "._/-").

(** [https?://] and the class. *)
Definition after (p s : string) : option string :=
  if Str.startswith p s then Some (substring (String.length p) (String.length s - String.length p) s) else None.

Definition _BASE_URL_RE (s : string) : bool :=
  match after "https://" s, after "http://" s with
  | Some rest, _ | None, Some rest => re_class (in_class "._:/-") rest
  | None, None => false
  end.

Definition _APPROVALS_MODE : string := "deny".

Definition dquote : string := String "034" "".

(** The lines that are joined: tools, model section, and the reference to the
    key for a provider that takes it from the file. *)
Definition config_body (safe : list string) (provider model base_url : string) (key_ref : bool) : list string :=
  ["# Generated by control plane (ADR-046/ADR-055). Restricts toolset + pins the LLM model.";
   "platform_toolsets:"; "  api_server:"] ++
  ((fun name => "    - " ++ name)%string <$> safe) ++
  ["approvals:"; ("  mode: " ++ _APPROVALS_MODE)%string; "model:"] ++
  [("  default: " ++ dquote ++ provider ++ "/" ++ model ++ dquote)%string;
   ("  provider: " ++ dquote ++ provider ++ dquote)%string] ++
  (if Str.nonempty base_url then [("  base_url: " ++ dquote ++ base_url ++ dquote)%string] else []) ++
  (if key_ref then [("  api_key: " ++ dquote ++ "${" ++ HERMES_INSTANCE_LLM_KEY_ENV ++ "}" ++ dquote)%string] else []) ++
  [""].

(** [f'...: {value!r}']: the text of the refusal uses [repr]. *)
Section render.
Context (repr : string -> string).

Definition not_configured (what : string) : exn + list string :=
  inl (UpstreamError ("hermes runtime is not configured (" ++ what ++ ")")%string).

(** The lines of the file, or the refusal. *)
Definition config_lines (toolset : list string) (provider model base_url api_key : string) : exn + list string :=
  let safe := List.filter _TOOLSET_NAME_RE toolset in
  let safe := match safe with [] => default_toolset | _ => safe end in
  let provider := Str.strip provider in
  let model := Str.strip model in
  let base_url := Str.strip base_url in
  if negb (member provider HERMES_PROVIDER_ALLOWLIST)
  then not_configured ("HERMES_LLM_PROVIDER=" ++ repr provider ++ " invalid")%string
  else if negb (Str.nonempty model) || negb (_MODEL_NAME_RE model)
  then not_configured ("HERMES_MODEL=" ++ repr model ++ " empty or unsafe")%string
  else if Str.nonempty base_url && negb (_BASE_URL_RE base_url)
  then not_configured ("HERMES_LLM_BASE_URL=" ++ repr base_url ++ " unsafe")%string
  else
    let key_ref := member provider HERMES_PROVIDERS_CONFIG_API_KEY in
    if key_ref && negb (Str.nonempty (Str.strip api_key))
    then not_configured ("HERMES_LLM_API_KEY required for provider " ++ repr provider)%string
    else inr (config_body safe provider model base_url key_ref).

Definition render_instance_config (toolset : list string) (provider model base_url api_key : string) : exn + string :=
  match config_lines toolset provider model base_url api_key with
  | inl x => inl x
  | inr lines => inr (Str.join (String eol "") lines)
  end.
End render.

(** ** Nothing can be injected into the file *)

Lemma rstrip_idem s : Str.rstrip (Str.rstrip s) = Str.rstrip s.
Proof.
  induction s as [|c s IH]; [done|]. cbn. destruct (Str.rstrip s) as [|d r] eqn:E.
  - destruct (Str.is_space c) eqn:Ec; [done|]. cbn. by rewrite Ec.
  - cbn in IH |- *. by rewrite IH.
Qed.

Lemma rstrip_cons c s : Str.rstrip (String c s) = String c s -> s = "" \/ Str.rstrip s = s.
Proof.
  cbn. destruct (Str.rstrip s) as [|d r] eqn:E; intros H.
  - destruct (Str.is_space c); [done|]. injection H as <-. by left.
  - injection H as <-. by right.
Qed.

(** A stripped string that matches has no newline: the one the dollar would
    allow has been stripped. *)
Lemma re_class_one_line cls s :
  cls eol = false -> Str.rstrip s = s -> re_class cls s = true -> Str.has_char eol s = false.
Proof.
  intros He. induction s as [|c s IH]; [done|]. intros Hs [Hc Hr]%andb_true_iff.
  assert (Ec : Ascii.eqb c eol = false) by (apply Ascii.eqb_neq; intros ->; congruence).
  change (Ascii.eqb c eol || Str.has_char eol s = false). rewrite Ec.
  apply rstrip_cons in Hs as [->|Hs]; [done|]. apply orb_true_iff in Hr as [[->%String.eqb_eq| ->%String.eqb_eq]%orb_true_iff|Hr].
  - done.
  - by cbn in Hs.
  - by apply IH.
Qed.

Lemma re_class_absent cls d s :
  cls d = false -> d <> eol -> re_class cls s = true -> Str.has_char d s = false.
Proof.
  intros He Hd. induction s as [|c s IH]; [done|]. intros [Hc Hr]%andb_true_iff.
  assert (Ec : Ascii.eqb c d = false) by (apply Ascii.eqb_neq; intros ->; congruence).
  change (Ascii.eqb c d || Str.has_char d s = false). rewrite Ec.
  apply orb_true_iff in Hr as [[->%String.eqb_eq| ->%String.eqb_eq]%orb_true_iff|Hr]; [done| |by apply IH].
  change (Ascii.eqb eol d || false = false). rewrite orb_false_r. by apply Ascii.eqb_neq.
Qed.

Lemma strip_idem s : Str.rstrip (Str.strip s) = Str.strip s.
Proof. apply rstrip_idem. Qed.

Lemma toolset_stripped s : Forall (fun t => Str.rstrip t = t) (hermes_default_toolset s).
Proof.
  unfold hermes_default_toolset. set (l := Str.split _ _).
  assert (H : forall seen, Forall (fun t => Str.rstrip t = t) seen -> Forall (fun t => Str.rstrip t = t) (foldl add_tool seen l)).
  { induction l as [|x l IH]; [done|]. intros seen Hs. cbn. apply IH. unfold add_tool. destruct (_ && _); [|done].
    apply Forall_app_2; [done|]. apply Forall_singleton, strip_idem. }
  specialize (H [] (Forall_nil_2 _)). destruct (foldl add_tool [] l); [|done]. by repeat constructor.
Qed.

Lemma has_char_line d p v q :
  Str.has_char d p = false -> Str.has_char d v = false -> Str.has_char d q = false ->
  Str.has_char d (p ++ v ++ q)%string = false.
Proof. intros H1 H2 H3. by rewrite !Str.has_char_app, H1, H2, H3. Qed.

Lemma has_char_substring d n m s : Str.has_char d s = false -> Str.has_char d (substring n m s) = false.
Proof.
  revert n m. induction s as [|c s IH]; intros n m H; [by destruct n, m|].
  apply orb_false_iff in H as [Hc Hs]. destruct n as [|n].
  - destruct m as [|m]; [done|]. cbn. rewrite Hc. by apply (IH 0%nat).
  - by apply IH.
Qed.

Lemma after_eq p s r : after p s = Some r -> s = (p ++ r)%string.
Proof.
  unfold after, Str.startswith. destruct (String.prefix p s) eqn:E; [|done]. intros [= <-].
  apply Str.prefix_spec in E as [r ->]. f_equal. induction p as [|c p IH]; [|exact IH].
  change ("" ++ r)%string with r. by rewrite Nat.sub_0_r, Str.substring_all.
Qed.

Lemma rstrip_app_tail p s : Str.rstrip (p ++ s)%string = (p ++ s)%string -> Str.nonempty s = true -> Str.rstrip s = s.
Proof.
  intros H Hs. induction p as [|c p IH]; [done|]. rewrite Str.app_cons in H. apply rstrip_cons in H as [H|H]; [|by apply IH].
  by destruct p, s.
Qed.

Lemma base_url_chars d s :
  in_class "._:/-" d = false -> Str.rstrip s = s -> _BASE_URL_RE s = true -> Str.has_char d s = false.
Proof.
  intros Hd Hs H. unfold _BASE_URL_RE in H.
  assert (Hp : forall p r, s = (p ++ r)%string -> Str.has_char d p = false -> re_class (in_class "._:/-") r = true ->
               Str.has_char d s = false).
  { intros p r -> Hp Hr. rewrite Str.has_char_app, Hp. cbn. destruct (Ascii.eqb d eol) eqn:E.
    - apply Ascii.eqb_eq in E as ->. apply (re_class_one_line _ _ Hd); [|done]. apply (rstrip_app_tail p); [done|]. by destruct r.
    - apply Ascii.eqb_neq in E. by apply (re_class_absent _ _ _ Hd). }
  assert (Hc : forall c, Str.has_char c "https://" = true \/ Str.has_char c "http://" = true -> in_class "._:/-" c = true).
  { intros c. unfold in_class. cbn. intros Hc. destruct c as [[] [] [] [] [] [] [] []]; by destruct Hc. }
  assert (Ha : forall p, p = "https://" \/ p = "http://" -> Str.has_char d p = false).
  { intros p Hpp. destruct (Str.has_char d p) eqn:E; [|done]. rewrite Hc in Hd; [done|]. destruct Hpp as [-> | ->]; auto. }
  destruct (after "https://" s) as [r|] eqn:E1; [|destruct (after "http://" s) as [r|] eqn:E2; [|done]].
  - apply (Hp "https://" r (after_eq _ _ _ E1)); [apply Ha; by left|by destruct (after "http://" s)].
  - apply (Hp "http://" r (after_eq _ _ _ E2)); [apply Ha; by right|done].
Qed.

Lemma provider_chars d p : in_class "-" d = false -> member p HERMES_PROVIDER_ALLOWLIST = true -> Str.has_char d p = false.
Proof.
  intros Hd Hp. apply existsb_exists in Hp as (x & Hx & ->%String.eqb_eq).
  assert (Hall : forallb (fun q => forallb (in_class "-") (list_ascii_of_string q)) HERMES_PROVIDER_ALLOWLIST = true) by reflexivity.
  rewrite forallb_forall in Hall. specialize (Hall x Hx). revert Hall. clear Hx.
  induction x as [|c x IH]; [done|]. cbn. intros [Hc Hr]%andb_true_iff. rewrite (IH Hr).
  destruct (Ascii.eqb c d) eqn:E; [|done]. apply Ascii.eqb_eq in E as ->. congruence.
Qed.

Lemma config_lines_one_line repr s provider model base_url key lines :
  config_lines repr (hermes_default_toolset s) provider model base_url key = inr lines ->
  Forall (fun l => Str.has_char eol l = false) lines.
Proof.
  unfold config_lines, not_configured. destruct (member (Str.strip provider) _) eqn:Hp; cbn [negb]; [|done].
  destruct (Str.nonempty (Str.strip model)) eqn:Hm; cbn [negb orb]; [|done].
  destruct (_MODEL_NAME_RE (Str.strip model)) eqn:Hre; cbn [negb]; [|done].
  destruct (Str.nonempty (Str.strip base_url) && _) eqn:Hb; [done|].
  destruct (_ && negb (Str.nonempty (Str.strip key))); [done|]. intros [= <-].
  pose proof (provider_chars eol _ eq_refl Hp) as Hpc.
  pose proof (re_class_one_line _ _ (eq_refl : in_class "._/-" eol = false) (strip_idem model) Hre) as Hmc.
  assert (Htools : Forall (fun t => Str.has_char eol t = false)
            match List.filter _TOOLSET_NAME_RE (hermes_default_toolset s) with [] => default_toolset | _ => List.filter _TOOLSET_NAME_RE (hermes_default_toolset s) end).
  { pose proof (toolset_stripped s) as Ht.
    assert (Hf : Forall (fun t => Str.has_char eol t = false) (List.filter _TOOLSET_NAME_RE (hermes_default_toolset s))).
    { induction Ht as [|t l Hs Hl IH]; [done|]. cbn. destruct (_TOOLSET_NAME_RE t) eqn:E; [|done].
      constructor; [|done]. by apply (re_class_one_line (in_class "_-")). }
    destruct (List.filter _ _); [by repeat constructor|done]. }
  unfold config_body. apply Forall_app_2; [repeat constructor|]. apply Forall_app_2.
  { apply Forall_fmap. eapply Forall_impl; [exact Htools|]. intros t Ht. unfold compose. by rewrite Str.has_char_app, Ht. }
  apply Forall_app_2; [repeat constructor|]. apply Forall_app_2.
  { repeat constructor; unfold dquote; by rewrite !Str.has_char_app, Hpc, ?Hmc. }
  apply Forall_app_2; [|apply Forall_app_2; [|repeat constructor]].
  - destruct (Str.nonempty (Str.strip base_url)); [|done]. cbn in Hb. apply negb_false_iff in Hb.
    apply Forall_singleton. unfold dquote. by rewrite !Str.has_char_app, (base_url_chars eol _ eq_refl (strip_idem base_url) Hb).
  - destruct (_ || false); repeat constructor.
Qed.


Definition demo_runtime : RuntimeSettings :=
  mkRuntimeSettings "hermes:1" "sk-live" "custom" "claude-3" "https://llm.example/v1" " web , file,web, bad name " "hermes-net"
    "/srv/hermes/" 1000 1000 32 120 90 2 150 30 1800.

