(* ===== verification/Instances.v ===== *)
(** * Instance registry and Docker backend

    Models [src/app/hermes_runtime/registry.py] (the statements on
    [hermes_instances], one row per user) and
    [src/app/hermes_runtime/docker_backend.py] over the state of the Docker host
    ([w_host]).  Whether the daemon answers, how long a row lock is held by
    somebody else and what a health probe sees come from the outside: they are
    the fields of [Runtime], indexed by the reading of the world's clock. *)

From Stdlib Require Import String.
From stdpp Require Import sorting.
From S2P Require Import Prelude PyVal Redaction Store AuditTrail Logic Byok.

Open Scope string_scope.
Open Scope list_scope.
Open Scope Z_scope.

(** ** What the runtime is given *)

Record Runtime : Type := mkRuntime {
  (** the daemon answers the call made at this tick *)
  docker_up : nat -> bool;
  (** the id of a container created at this tick *)
  new_container_id : nat -> string;
  (** the status of [GET /health] at an address with a key, unless the
      connection fails *)
  probe : nat -> string -> string -> option Z;
  (** milliseconds for which another transaction still holds the row lock *)
  lock_held_ms : nat -> Z;
  (** what other requests commit, and do to the host, while this one waits *)
  meanwhile : nat -> Db * Host -> Db * Host;
  (** the tick at which a task that goes to sleep for some microseconds resumes *)
  resumes : nat -> Z -> nat;
  token_urlsafe : nat -> nat -> string;
  runtime_crypto : Crypto
}.

(** The next event of the outside world. *)
Definition tick : M nat := fun _ w =>
  (inr w.(w_ticks),
   mkWorld w.(w_db) w.(w_committed) w.(w_uuids) (S w.(w_ticks)) w.(w_seq) w.(w_metrics) w.(w_host)).

Definition get_host : M Host := fun _ w => (inr w.(w_host), w).

Definition set_host (h : Host) : M unit := fun _ w =>
  (inr tt, mkWorld w.(w_db) w.(w_committed) w.(w_uuids) w.(w_ticks) w.(w_seq) w.(w_metrics) h).

(** An [await] outside any transaction: others commit. *)
Definition await_others (rt : Runtime) : M unit := fun _ w =>
  let '(d, h) := rt.(meanwhile) w.(w_ticks) (w.(w_committed), w.(w_host)) in
  (inr tt, mkWorld d d w.(w_uuids) (S w.(w_ticks)) w.(w_seq) w.(w_metrics) h).

(** [asyncio.sleep], outside any transaction. *)
Definition sleep (rt : Runtime) (us : Z) : M unit := fun _ w =>
  let '(d, h) := rt.(meanwhile) w.(w_ticks) (w.(w_committed), w.(w_host)) in
  (inr tt, mkWorld d d w.(w_uuids) (Nat.max (S w.(w_ticks)) (rt.(resumes) w.(w_ticks) us)) w.(w_seq) w.(w_metrics) h).

(** ** The registry *)

Module Registry.
Definition get (u : uuid) : M (option HermesInstance) := d ← get_db; mret (d.(hermes_instances) !! u).

(** [SELECT ... FOR UPDATE]: a wait that outlasts [lock_timeout] raises. *)
Definition get_for_update (rt : Runtime) (u : uuid) (lock_timeout_ms : option Z) : M (option HermesInstance) :=
  t ← tick;
  match lock_timeout_ms with
  | Some ms => if ms <? rt.(lock_held_ms) t then raise LockNotAvailable else get u
  | None => get u
  end.

Definition put (u : uuid) (r : HermesInstance) : M unit :=
  modify_db (fun d => set_hermes_instances (<[u := r]> d.(hermes_instances)) d).

(** [INSERT ... ON CONFLICT (user_id) DO NOTHING RETURNING]. *)
Definition create_provisioning (u : uuid) (api_key_enc encrypted_dek nonce : string) : M (option HermesInstance) :=
  d ← get_db;
  now ← pg_now;
  match d.(hermes_instances) !! u with
  | Some _ => mret None
  | None =>
      check_constraint (user_exists d u);;
      let r := mkInstance None None api_key_enc encrypted_dek nonce hi_provisioning None now (Some now) now in
      put u r;;
      mret (Some r)
  end.

(** [UPDATE ... WHERE user_id = :u]: nothing when there is no row. *)
Definition update (u : uuid) (f : HermesInstance -> HermesInstance) : M unit :=
  row ← get u;
  match row with Some r => put u (f r) | None => mret tt end.

Definition with_status (s : hermes_instance_status) (r : HermesInstance) : HermesInstance :=
  mkInstance r.(in_container_id) r.(in_endpoint) r.(in_api_key_enc) r.(in_encrypted_dek) r.(in_nonce) s r.(in_port)
    r.(in_last_active_at) r.(in_provisioning_started_at) r.(in_created_at).

Definition with_active (now : instant) (r : HermesInstance) : HermesInstance :=
  mkInstance r.(in_container_id) r.(in_endpoint) r.(in_api_key_enc) r.(in_encrypted_dek) r.(in_nonce) r.(in_status)
    r.(in_port) now r.(in_provisioning_started_at) r.(in_created_at).

Definition mark_provisioning (u : uuid) (started_at : instant) : M unit :=
  now ← py_now;
  update u (fun r => mkInstance r.(in_container_id) r.(in_endpoint) r.(in_api_key_enc) r.(in_encrypted_dek) r.(in_nonce)
                       hi_provisioning r.(in_port) now (Some started_at) r.(in_created_at)).

(** Guarded by the identity of the attempt; the number of rows changed. *)
Definition mark_stopped_if_provisioning (u : uuid) (started_at : instant) : M Z :=
  row ← get u;
  match row with
  | Some r =>
      if bool_decide (r.(in_status) = hi_provisioning /\ r.(in_provisioning_started_at) = Some started_at)
      then put u (with_status hi_stopped r);; mret 1
      else mret 0
  | None => mret 0
  end.

Definition mark_running (u : uuid) (container_id endpoint : string) (port : option Z) : M unit :=
  now ← py_now;
  update u (fun r => mkInstance (Some container_id) (Some endpoint) r.(in_api_key_enc) r.(in_encrypted_dek) r.(in_nonce)
                       hi_running port now r.(in_provisioning_started_at) r.(in_created_at)).

Definition mark_stopped (u : uuid) : M unit := update u (with_status hi_stopped).

Definition touch_active (u : uuid) : M unit := now ← py_now; update u (with_active now).

Definition older (a b : uuid * HermesInstance) : Prop := a.2.(in_last_active_at) <= b.2.(in_last_active_at).

#[global] Instance older_dec : RelDecision older.
Proof. intros a b. unfold older. apply _. Defined.

Definition idle (cutoff : instant) (kv : uuid * HermesInstance) : Prop :=
  kv.2.(in_status) = hi_running /\ kv.2.(in_last_active_at) < cutoff.

Definition list_idle_running (threshold_seconds : Z) (limit : nat) : M (list (uuid * HermesInstance)) :=
  now ← py_now;
  d ← get_db;
  let cutoff := now - threshold_seconds * 1000000 in
  mret (take limit (merge_sort older (filter (idle cutoff) (map_to_list d.(hermes_instances))))).

Definition delete (u : uuid) : M unit :=
  modify_db (fun d => set_hermes_instances (base.delete u d.(hermes_instances)) d).
End Registry.

(** ** The Docker backend *)

Definition HERMES_API_PORT : Z := 8642.

Record ContainerRef : Type := mkContainerRef { cr_container_id : string; cr_name : string; cr_endpoint : string }.

Record ProvisionSpec : Type := mkProvisionSpec {
  sp_name : string;
  sp_image : string;
  sp_env : list (string * string);
  sp_volume_host_path : string;
  sp_network : string;
  sp_config_yaml : string
}.

Definition endpoint_of (name : string) : string := ("http://" ++ name ++ ":" ++ Str.of_int HERMES_API_PORT)%string.

Definition config_markers : list string := ["platform_toolsets:"; "api_server:"; "model:"; "default:"; "provider:"].

(** A readable file that is not blank and has every marker. *)
Definition _existing_config_valid (content : option string) : bool :=
  match content with
  | None => false
  | Some c => Str.nonempty (Str.strip c) && forallb (fun m => Str.contains m c) config_markers
  end.

Module Docker.
Section docker.
Context (rt : Runtime).

Definition name_taken (h : Host) (name : string) : bool :=
  match find_first (fun kv : string * Container => String.eqb kv.2.(ct_name) name) (map_to_list h.(containers)) with
  | Some _ => true | None => false
  end.

(** [docker run --name]: a name in use is an [APIError] (409). *)
Definition _provision_sync (spec : ProvisionSpec) : M ContainerRef :=
  h ← get_host;
  let config_file := (spec.(sp_volume_host_path) ++ "/config.yaml")%string in
  let files := if _existing_config_valid (h.(config_files) !! config_file) then h.(config_files)
               else <[config_file := spec.(sp_config_yaml)]> h.(config_files) in
  set_host (mkHost h.(containers) files);;
  t ← tick;
  if negb (rt.(docker_up) t) || name_taken h spec.(sp_name)
  then raise (UpstreamError "failed to provision hermes runtime")
  else
    let id := rt.(new_container_id) t in
    set_host (mkHost (<[id := mkContainer spec.(sp_name) true]> h.(containers)) files);;
    mret (mkContainerRef id spec.(sp_name) (endpoint_of spec.(sp_name))).

Definition _start_sync (c : ContainerRef) : M unit :=
  t ← tick;
  h ← get_host;
  match rt.(docker_up) t, h.(containers) !! c.(cr_container_id) with
  | true, Some k => set_host (mkHost (<[c.(cr_container_id) := mkContainer k.(ct_name) true]> h.(containers)) h.(config_files))
  | _, _ => raise (UpstreamError "failed to start hermes runtime")
  end.

(** A container that is gone counts as stopped. *)
Definition _stop_sync (c : ContainerRef) : M unit :=
  t ← tick;
  h ← get_host;
  if negb (rt.(docker_up) t) then raise (UpstreamError "failed to stop hermes runtime")
  else match h.(containers) !! c.(cr_container_id) with
       | Some k => set_host (mkHost (<[c.(cr_container_id) := mkContainer k.(ct_name) false]> h.(containers)) h.(config_files))
       | None => mret tt
       end.

(** A container that is gone counts as removed. *)
Definition _remove_sync (c : ContainerRef) : M unit :=
  t ← tick;
  h ← get_host;
  if negb (rt.(docker_up) t) then raise (UpstreamError "failed to remove hermes runtime")
  else set_host (mkHost (base.delete c.(cr_container_id) h.(containers)) h.(config_files)).

(** [GET /health] with the bearer key; a connection error is [false]. *)
Definition health (endpoint api_key : string) : M bool :=
  t ← tick;
  mret (match rt.(probe) t endpoint api_key with Some status => (200 <=? status) && (status <? 300) | None => false end).
End docker.
End Docker.
