(* ===== verification/Manager.v ===== *)
(** * The instance manager

    Models [src/app/hermes_runtime/manager.py]: [HermesInstanceManager] over the
    registry, the Docker backend and the envelope encryption of the instance's
    key.  [polls] bounds the turns of the two waiting loops: a request that is
    still waiting after that many is cancelled, which is how a task that nobody
    waits for any more ends ([CancelledError] at its [await]); how many turns are
    enough is a theorem. *)

From Stdlib Require Import String.
From stdpp Require Import sorting.
From S2P Require Import Prelude PyVal Redaction Store Fixtures AuditTrail Logic Uuid Byok ChatTools Website InstanceConfig Instances.

Open Scope string_scope.
Open Scope list_scope.
Open Scope Z_scope.

Definition _MIN_API_KEY_BYTES : nat := 16.
Definition _REAPER_BATCH_LIMIT : nat := 100.

(** [_is_lock_timeout]: SQLSTATE 55P03. *)
Definition _is_lock_timeout (x : exn) : bool := match x with LockNotAvailable => true | _ => false end.

Definition is_UpstreamError (x : exn) : bool :=
  match x with UpstreamError _ | UpstreamTimeoutError _ => true | _ => false end.

Record InstanceEndpoint : Type := mkEndpoint { ep_base_url : string; ep_api_key : string }.

Definition _container_name (u : uuid) : string := ("hermes-user-" ++ uuid_str u)%string.

(** [x or default] on an optional string. *)
Definition or_else (x : option string) (fallback : string) : string :=
  match x with Some (String c s) => String c s | _ => fallback end.

Definition not_ready : exn := UpstreamTimeoutError "hermes instance did not become ready in time".

Module Manager.
Section manager.
Context (rt : Runtime) (hs : RuntimeSettings) (repr : string -> string) (polls : nat).

(** ** Helpers *)

Definition sum_to_M {A} (r : exn + A) : M A := match r with inl x => raise x | inr a => mret a end.

Definition by_name (a b : string) : Prop := String.leb a b = true.

#[global] Instance by_name_dec : RelDecision by_name.
Proof. intros a b. unfold by_name. apply _. Defined.

Definition allowed_providers : list string :=
  merge_sort by_name (List.filter (fun p => negb (member p HERMES_PROVIDER_FORBIDDEN)) HERMES_PROVIDER_ALLOWLIST).

Definition refuse (what : string) : M unit :=
  raise (UpstreamError ("hermes runtime is not configured (" ++ what ++ ")")%string).

Definition _require_provision_config : M unit :=
  let blank s := negb (Str.nonempty (Str.strip s)) in
  let provider := Str.strip hs.(hermes_llm_provider) in
  if blank hs.(hermes_image) then refuse "HERMES_IMAGE"
  else if blank hs.(hermes_llm_api_key) then refuse "HERMES_LLM_API_KEY"
  else if member provider HERMES_PROVIDER_FORBIDDEN || negb (member provider HERMES_PROVIDER_ALLOWLIST)
  then refuse ("HERMES_LLM_PROVIDER=" ++ repr provider ++ " invalid; allowed: " ++ Str.join ", " allowed_providers)%string
  else if blank hs.(hermes_model) then refuse "HERMES_MODEL"
  else if member provider HERMES_PROVIDERS_REQUIRING_BASE_URL && blank hs.(hermes_llm_base_url)
  then refuse ("HERMES_LLM_BASE_URL required for provider " ++ repr provider)%string
  else mret tt.

Definition _generate_api_key : M string :=
  t ← tick; mret (rt.(token_urlsafe) t (Nat.max hs.(hermes_api_key_bytes) _MIN_API_KEY_BYTES)).

Definition _encrypt_key (api_key : string) : M (string * string * string) :=
  let crypto := rt.(runtime_crypto) in
  dek ← Byok.os_urandom crypto Byok._DEK_LEN;
  nonce ← Byok.os_urandom crypto Byok._NONCE_LEN;
  mret (crypto.(aes_encrypt) dek nonce (crypto.(key_utf8_encode) api_key), crypto.(encrypt_dek) dek, nonce).

Definition _decrypt_key (row : HermesInstance) : M string :=
  let crypto := rt.(runtime_crypto) in
  match crypto.(decrypt_dek) row.(in_encrypted_dek) with
  | None => raise InvalidTag
  | Some dek =>
      match crypto.(aes_decrypt) dek row.(in_nonce) row.(in_api_key_enc) with
      | None => raise InvalidTag
      | Some plaintext => match crypto.(key_utf8_decode) plaintext with None => raise ValueError | Some s => mret s end
      end
  end.

Definition _container_env (api_key : string) : list (string * string) :=
  let provider := Str.strip hs.(hermes_llm_provider) in
  [("API_SERVER_ENABLED", "true"); ("API_SERVER_KEY", api_key); ("API_SERVER_HOST", "0.0.0.0");
   ("API_SERVER_PORT", Str.of_int HERMES_API_PORT); ("HERMES_UID", Str.of_int hs.(hermes_uid));
   ("HERMES_GID", Str.of_int hs.(hermes_gid))] ++
  [((if member provider HERMES_PROVIDERS_CONFIG_API_KEY then HERMES_INSTANCE_LLM_KEY_ENV
     else hermes_provider_key_env provider), hs.(hermes_llm_api_key))].

Definition _volume_path (u : uuid) : string := (rstrip_slash hs.(hermes_volume_root) ++ "/" ++ uuid_str u)%string.

Definition _container_ref_from_row (u : uuid) (row : HermesInstance) : ContainerRef :=
  mkContainerRef (or_else row.(in_container_id) "") (_container_name u)
    (or_else row.(in_endpoint) (endpoint_of (_container_name u))).

Definition _endpoint_from_row (u : uuid) (row : HermesInstance) : M InstanceEndpoint :=
  key ← _decrypt_key row;
  mret (mkEndpoint (or_else row.(in_endpoint) (_container_ref_from_row u row).(cr_endpoint)) key).

Definition _reload (u : uuid) : M HermesInstance :=
  row ← Registry.get u;
  match row with Some r => mret r | None => raise (UpstreamError "hermes instance state inconsistent") end.

(** ** Time *)

(** A spent budget is 1 ms, never 0 (which waits for ever). *)
Definition _lock_timeout_ms (deadline : option Z) : M (option Z) :=
  match deadline with
  | None => mret None
  | Some d => now ← py_monotonic; mret (Some (Z.max (Z.quot (d - now) 1000) 1))
  end.

Definition _poll_deadline (deadline : option Z) : M Z :=
  now ← py_monotonic;
  let own := now + hs.(hermes_provision_ready_timeout_seconds) * 1000000 in
  mret (match deadline with None => own | Some d => Z.min own d end).

Definition poll_interval : Z := Z.max hs.(hermes_provision_ready_interval_seconds) 1 * 1000000.

Definition _is_stale_provisioning (row : HermesInstance) : M bool :=
  let threshold := hs.(hermes_provisioning_stale_seconds) in
  if threshold <=? 0 then mret false
  else
    now ← py_now;
    let anchor := default row.(in_created_at) row.(in_provisioning_started_at) in
    mret (threshold * 1000000 <? now - anchor).

(** ** Waiting *)

(** The loop of [_wait_for_ready]: others go on while a probe is awaited. *)
Fixpoint poll_health (n : nat) (endpoint api_key : string) (stop_at : Z) : M bool :=
  match n with
  | O => raise CancelledError
  | S n =>
      await_others rt;;
      ready ← Docker.health rt endpoint api_key;
      if (ready : bool) then mret true
      else
        now ← py_monotonic;
        if stop_at <? now + poll_interval then mret false
        else sleep rt poll_interval;; poll_health n endpoint api_key stop_at
  end.

Definition _wait_for_ready (endpoint api_key : string) (deadline : option Z) : M bool :=
  stop_at ← _poll_deadline deadline;
  poll_health polls endpoint api_key stop_at.

(** The loop of [_await_concurrent_ready]: every turn reads the committed row. *)
Fixpoint poll_row (n : nat) (u : uuid) (stop_at : Z) : M InstanceEndpoint :=
  match n with
  | O => raise CancelledError
  | S n =>
      row ← Registry.get u;
      commit;;
      match row with
      | None => raise (UpstreamError "hermes instance failed to become ready")
      | Some r =>
          if bool_decide (r.(in_status) = hi_running) then _endpoint_from_row u r
          else
            now ← py_monotonic;
            if stop_at <? now + poll_interval then raise not_ready
            else sleep rt poll_interval;; poll_row n u stop_at
      end
  end.

Definition _await_concurrent_ready (u : uuid) (deadline : option Z) : M InstanceEndpoint :=
  stop_at ← _poll_deadline deadline;
  poll_row polls u stop_at.

(** ** Provisioning, waking, hibernating *)

Definition best_effort (m : M unit) : M unit :=
  try_except m (fun x => if is_UpstreamError x then Some (mret tt) else None).

Definition _cleanup_failed_provision (u : uuid) (ref : ContainerRef) : M unit :=
  best_effort (Docker._remove_sync rt ref);;
  Registry.delete u;;
  commit.

Definition provision_spec (u : uuid) (api_key config : string) : ProvisionSpec :=
  mkProvisionSpec (_container_name u) hs.(hermes_image) (_container_env api_key) (_volume_path u)
    hs.(hermes_docker_network) config.

Definition _provision_locked (u : uuid) (deadline : option Z) : M InstanceEndpoint :=
  _require_provision_config;;
  api_key ← _generate_api_key;
  enc ← _encrypt_key api_key;
  let '(api_key_enc, encrypted_dek, nonce) := enc in
  inserted ← Registry.create_provisioning u api_key_enc encrypted_dek nonce;
  match inserted with
  | None => rollback;; _await_concurrent_ready u deadline
  | Some _ =>
      commit;;
      config ← sum_to_M (render_instance_config repr (hermes_default_toolset hs) (Str.strip hs.(hermes_llm_provider))
                           (Str.strip hs.(hermes_model)) (Str.strip hs.(hermes_llm_base_url)) hs.(hermes_llm_api_key));
      await_others rt;;
      ref ← Docker._provision_sync rt (provision_spec u api_key config);
      ready ← _wait_for_ready ref.(cr_endpoint) api_key deadline;
      if (ready : bool) then
        Registry.mark_running u ref.(cr_container_id) ref.(cr_endpoint) None;;
        commit;;
        mret (mkEndpoint ref.(cr_endpoint) api_key)
      else
        _cleanup_failed_provision u ref;;
        raise not_ready
  end.

(** Steps 0 to 6: start the container, publish the attempt, wait.  The key, the
    start of the attempt and whether the instance answered. *)
Definition wake_attempt (u : uuid) (row : HermesInstance) (deadline : option Z) : M (string * instant * bool) :=
  let ref := _container_ref_from_row u row in
  api_key ← _decrypt_key row;
  attempt_started_at ← py_now;
  Docker._start_sync rt ref;;
  Registry.mark_provisioning u attempt_started_at;;
  commit;;
  ready ← _wait_for_ready (or_else row.(in_endpoint) ref.(cr_endpoint)) api_key deadline;
  mret (api_key, attempt_started_at, ready).

Definition _wake_locked (u : uuid) (row : HermesInstance) (deadline : option Z) : M InstanceEndpoint :=
  let ref := _container_ref_from_row u row in
  let endpoint := or_else row.(in_endpoint) ref.(cr_endpoint) in
  attempt ← wake_attempt u row deadline;
  let '(api_key, attempt_started_at, ready) := attempt in
  if (ready : bool) then
    Registry.mark_running u ref.(cr_container_id) endpoint row.(in_port);;
    commit;;
    mret (mkEndpoint endpoint api_key)
  else
    rows ← Registry.mark_stopped_if_provisioning u attempt_started_at;
    (if rows =? 1 then best_effort (Docker._stop_sync rt ref);; commit else rollback);;
    raise not_ready.

Definition _replay_stale_provisioning (u : uuid) (row : HermesInstance) : M unit :=
  (match row.(in_container_id) with
   | Some (String _ _) => Docker._remove_sync rt (_container_ref_from_row u row)
   | _ => mret tt
   end);;
  Registry.delete u.

Definition ensure_running (u : uuid) (deadline : option Z) : M InstanceEndpoint :=
  row ← try_except (ms ← _lock_timeout_ms deadline; Registry.get_for_update rt u ms)
          (fun x => if _is_lock_timeout x
                    then Some (rollback;; raise (UpstreamTimeoutError "hermes instance is busy with another request"))
                    else None);
  match row with
  | None => _provision_locked u deadline
  | Some r =>
      match r.(in_status) with
      | hi_provisioning =>
          stale ← _is_stale_provisioning r;
          if (stale : bool) then _replay_stale_provisioning u r;; _provision_locked u deadline
          else rollback;; _await_concurrent_ready u deadline
      | hi_stopped => _wake_locked u r deadline
      | hi_running =>
          Registry.touch_active u;;
          r ← _reload u;
          endpoint ← _endpoint_from_row u r;
          commit;;
          mret endpoint
      end
  end.

Definition provision (u : uuid) (deadline : option Z) : M InstanceEndpoint :=
  existing ← Registry.get_for_update rt u None;
  match existing with
  | Some r => _endpoint_from_row u r
  | None => _provision_locked u deadline
  end.

Definition touch_active (u : uuid) : M unit := Registry.touch_active u;; commit.

(** The loop of [stop_idle]: a container that cannot be stopped stays. *)
Fixpoint stop_rows (rows : list (uuid * HermesInstance)) (stopped : Z) : M Z :=
  match rows with
  | [] => mret stopped
  | (u, r) :: rest =>
      done ← try_except (Docker._stop_sync rt (_container_ref_from_row u r);; mret true)
               (fun x => if is_UpstreamError x then Some (mret false) else None);
      if (done : bool) then Registry.mark_stopped u;; stop_rows rest (stopped + 1)
      else stop_rows rest stopped
  end.

Definition stop_idle (threshold_seconds : Z) : M Z :=
  rows ← Registry.list_idle_running threshold_seconds _REAPER_BATCH_LIMIT;
  stop_rows rows 0.

Definition deprovision (u : uuid) : M unit :=
  row ← Registry.get_for_update rt u None;
  match row with
  | None => mret tt
  | Some r =>
      (match r.(in_container_id) with
       | Some (String _ _) => Docker._remove_sync rt (_container_ref_from_row u r)
       | _ => mret tt
       end);;
      Registry.delete u
  end.

Definition health (u : uuid) : M bool :=
  row ← Registry.get u;
  match row with
  | None => mret false
  | Some r =>
      match r.(in_endpoint) with
      | Some (String _ _ as endpoint) => key ← _decrypt_key r; Docker.health rt endpoint key
      | _ => mret false
      end
  end.
End manager.
End Manager.
