(* ===== verification/InstanceLife.v ===== *)
(** * The life of an instance

    What the manager guarantees about the registry row and the container of a
    user while several requests provision, wake and hibernate at once. *)

From Stdlib Require Import String.
From S2P Require Import Prelude PyVal Redaction Store Fixtures AuditTrail Logic Uuid Byok ChatTools Website InstanceConfig Instances Manager.
Import Manager.

Open Scope string_scope.
Open Scope list_scope.
Open Scope Z_scope.

(** ** Every row leads to its own user's container *)

Definition own_address (u : uuid) : string := endpoint_of (_container_name u).

(** A row that has an address has that of its user's container, and a running
    row has an address and a container. *)
Definition row_ok (u : uuid) (r : HermesInstance) : Prop :=
  (r.(in_endpoint) = None \/ r.(in_endpoint) = Some (own_address u)) /\
  (r.(in_status) = hi_running -> is_Some r.(in_container_id) /\ r.(in_endpoint) = Some (own_address u)).

Definition registry_inv (d : Db) : Prop := map_Forall row_ok d.(hermes_instances).

Definition registry_ok (w : World) : Prop := registry_inv w.(w_db) /\ registry_inv w.(w_committed).

Lemma own_address_inj u v : (u < 2 ^ 128)%N -> (v < 2 ^ 128)%N -> own_address u = own_address v -> u = v.
Proof.
  intros Hu Hv H. apply (uuid_str_inj u v Hu Hv). unfold own_address, endpoint_of, _container_name in H.
  by apply Str.app_inv_head, Str.app_inv_tail, Str.app_inv_head in H.
Qed.

Lemma or_else_own r u : (r = None \/ r = Some (own_address u)) -> or_else r (own_address u) = own_address u.
Proof. by intros [-> | ->]. Qed.

Lemma row_address u r : row_ok u r -> or_else r.(in_endpoint) (_container_ref_from_row u r).(cr_endpoint) = own_address u.
Proof. intros [H _]. unfold _container_ref_from_row. cbn [cr_endpoint]. fold (own_address u). by rewrite !or_else_own. Qed.

(** [serves P m]: [m] keeps the registry sound, and what it returns is in [P]. *)
Definition serves {A} (P : A -> Prop) (m : M A) : Prop :=
  forall e w, registry_ok w ->
  registry_ok (m e w).2 /\ match (m e w).1 with inr a => P a | inl _ => True end.

Lemma serves_ret {A} (P : A -> Prop) a : P a -> serves P (mret a).
Proof. by intros H e w Hw. Qed.

Lemma serves_raise {A} (P : A -> Prop) x : serves P (raise x).
Proof. by intros e w Hw. Qed.

Lemma serves_bind {A B} (P : A -> Prop) (Q : B -> Prop) (m : M A) (k : A -> M B) :
  serves P m -> (forall a, P a -> serves Q (k a)) -> serves Q (m ≫= k).
Proof.
  intros Hm Hk e w Hw. destruct (Hm e w Hw) as [H1 H2]. unfold mbind, M_bind.
  destruct (m e w) as [[x|a] w']; [done|]. by apply Hk.
Qed.

Lemma serves_try {A} (P : A -> Prop) (m : M A) h :
  serves P m -> (forall x k, h x = Some k -> serves P k) -> serves P (try_except m h).
Proof.
  intros Hm Hh e w Hw. destruct (Hm e w Hw) as [H1 H2]. unfold try_except.
  destruct (m e w) as [[x|a] w']; [|done]. destruct (h x) as [k|] eqn:E; [by apply (Hh x)|done].
Qed.

Lemma serves_weaken {A} (P Q : A -> Prop) (m : M A) : serves P m -> (forall a, P a -> Q a) -> serves Q m.
Proof.
  intros Hm HPQ e w Hw. destruct (Hm e w Hw) as [H1 H2]. split; [done|].
  destruct (m e w) as [[x|a] w']; [done|]. by apply HPQ.
Qed.

(** Anything that leaves both databases alone. *)
Lemma serves_silent {A} (m : M A) :
  (forall e w, w_db (m e w).2 = w.(w_db) /\ w_committed (m e w).2 = w.(w_committed)) -> serves (fun _ => True) m.
Proof.
  intros H e w [H1 H2]. unfold registry_ok. destruct (H e w) as [-> ->]. split; [done|]. by destruct (m e w).1.
Qed.

Lemma serves_modify f : (forall d, registry_inv d -> registry_inv (f d)) -> serves (fun _ => True) (modify_db f).
Proof. intros Hf e w [H1 H2]. split; [|done]. split; [by apply Hf|done]. Qed.

Lemma serves_commit : serves (fun _ => True) commit.
Proof. intros e w [H1 H2]. done. Qed.

Lemma serves_rollback : serves (fun _ => True) rollback.
Proof. intros e w [H1 H2]. done. Qed.

Lemma serves_get u : serves (fun r => match r with Some r => row_ok u r | None => True end) (Registry.get u).
Proof.
  intros e w [H1 H2]. split; [done|]. change (Registry.get u e w).1 with (inr (A := exn) (hermes_instances (w_db w) !! u)).
  destruct (hermes_instances (w_db w) !! u) eqn:E; [by apply (H1 u)|done].
Qed.

Lemma serves_put u r : row_ok u r -> serves (fun _ => True) (Registry.put u r).
Proof. intros Hr. apply serves_modify. intros d Hd. by apply map_Forall_insert_2. Qed.

Lemma serves_delete u : serves (fun _ => True) (Registry.delete u).
Proof. apply serves_modify. intros d Hd. by apply map_Forall_delete. Qed.

Lemma serves_update u f : (forall r, row_ok u r -> row_ok u (f r)) -> serves (fun _ => True) (Registry.update u f).
Proof.
  intros Hf. eapply serves_bind; [apply serves_get|]. intros [r|] Hr; [apply serves_put; auto|by apply serves_ret].
Qed.

#[local] Hint Resolve serves_ret serves_raise serves_commit serves_rollback serves_get serves_put serves_delete : hermes.

Ltac serves_step :=
  match goal with
  | |- serves _ (mret _) => apply serves_ret
  | |- serves _ (mbind _ _) =>
      first [eapply serves_bind; [solve [eauto 3 with hermes]|intros ? ?] | apply (serves_bind (fun _ => True)); [|intros ? ?]]
  | |- serves _ (match ?x with _ => _ end) => destruct x eqn:?
  | |- serves _ (try_except _ _) => apply serves_try; [|intros ? ? ?]
  | |- serves _ _ => solve [apply serves_silent; done]
  end.

Ltac serves_walk := repeat (first [solve [eauto 3 with hermes] | serves_step]).

Lemma serves_reset u t : serves (fun _ => True) (Registry.mark_stopped_if_provisioning u t).
Proof.
  eapply serves_bind; [apply serves_get|]. intros [r|] Hr; serves_walk. apply serves_put. by destruct Hr.
Qed.

Lemma serves_mark_running u id port : serves (fun _ => True) (Registry.mark_running u id (own_address u) port).
Proof. unfold Registry.mark_running. serves_walk. apply serves_update. intros r Hr. split; [by right|done]. Qed.

Lemma serves_mark_provisioning u t : serves (fun _ => True) (Registry.mark_provisioning u t).
Proof. unfold Registry.mark_provisioning. serves_walk. apply serves_update. intros r [Hr _]. done. Qed.

Lemma serves_mark_stopped u : serves (fun _ => True) (Registry.mark_stopped u).
Proof. apply serves_update. intros r [Hr _]. done. Qed.

Lemma serves_touch u : serves (fun _ => True) (Registry.touch_active u).
Proof. unfold Registry.touch_active. serves_walk. apply serves_update. by intros r Hr. Qed.

Lemma serves_create u k d n : serves (fun _ => True) (Registry.create_provisioning u k d n).
Proof.
  unfold Registry.create_provisioning. serves_walk.
  - apply serves_silent. intros e w. by destruct (user_exists _ _).
  - apply serves_put. split; [by left|done].
Qed.

#[local] Hint Resolve serves_reset serves_mark_running serves_mark_provisioning serves_mark_stopped serves_touch
  serves_create : hermes.

(** ** The operations of the manager *)

Section inv.
Context (rt : Runtime) (hs : RuntimeSettings) (repr : string -> string) (polls : nat).
(** What other requests commit is sound. *)
Hypothesis Hmeanwhile : forall t d h, registry_inv d -> registry_inv (rt.(meanwhile) t (d, h)).1.

Lemma serves_await : serves (fun _ => True) (await_others rt).
Proof.
  intros e w [H1 H2]. unfold await_others. specialize (Hmeanwhile w.(w_ticks) w.(w_committed) w.(w_host) H2).
  by destruct (meanwhile rt _ _).
Qed.

Lemma serves_sleep us : serves (fun _ => True) (sleep rt us).
Proof.
  intros e w [H1 H2]. unfold sleep. specialize (Hmeanwhile w.(w_ticks) w.(w_committed) w.(w_host) H2).
  by destruct (meanwhile rt _ _).
Qed.

Lemma serves_for_update u ms :
  serves (fun r => match r with Some r => row_ok u r | None => True end) (Registry.get_for_update rt u ms).
Proof. unfold Registry.get_for_update. serves_walk. Qed.

Lemma serves_docker_provision spec :
  serves (fun r => r.(cr_endpoint) = endpoint_of spec.(sp_name)) (Docker._provision_sync rt spec).
Proof. unfold Docker._provision_sync. serves_walk. Qed.

Lemma serves_docker_start c : serves (fun _ => True) (Docker._start_sync rt c).
Proof. unfold Docker._start_sync. serves_walk. Qed.

Lemma serves_docker_stop c : serves (fun _ => True) (Docker._stop_sync rt c).
Proof. unfold Docker._stop_sync. serves_walk. Qed.

Lemma serves_docker_remove c : serves (fun _ => True) (Docker._remove_sync rt c).
Proof. unfold Docker._remove_sync. serves_walk. Qed.

Lemma serves_docker_health a k : serves (fun _ => True) (Docker.health rt a k).
Proof. unfold Docker.health. serves_walk. Qed.

#[local] Hint Resolve serves_await serves_sleep serves_for_update serves_docker_provision serves_docker_start serves_docker_stop
  serves_docker_remove serves_docker_health : hermes.

Lemma serves_decrypt r : serves (fun _ => True) (_decrypt_key rt r).
Proof. unfold _decrypt_key. serves_walk. Qed.

Lemma serves_endpoint u r : row_ok u r -> serves (fun ep => ep.(ep_base_url) = own_address u) (_endpoint_from_row rt u r).
Proof.
  intros Hr. unfold _endpoint_from_row. eapply serves_bind; [apply serves_decrypt|]. intros key _.
  apply serves_ret. by apply row_address.
Qed.

Lemma serves_poll_health n a k s : serves (fun _ => True) (poll_health rt hs n a k s).
Proof. induction n as [|n IH]; cbn [poll_health]; serves_walk. Qed.

Lemma serves_wait a k dl : serves (fun _ => True) (_wait_for_ready rt hs polls a k dl).
Proof.
  unfold _wait_for_ready. eapply serves_bind; [|intros ? _; apply serves_poll_health].
  by apply serves_silent.
Qed.

Lemma serves_poll_row n u s : serves (fun ep => ep.(ep_base_url) = own_address u) (poll_row rt hs n u s).
Proof.
  induction n as [|n IH]; cbn [poll_row]; [apply serves_raise|]. eapply serves_bind; [apply serves_get|].
  intros [r|] Hr; serves_walk. by apply serves_endpoint.
Qed.

Lemma serves_await_ready u dl : serves (fun ep => ep.(ep_base_url) = own_address u) (_await_concurrent_ready rt hs polls u dl).
Proof.
  unfold _await_concurrent_ready. eapply serves_bind; [|intros ? _; apply serves_poll_row]. by apply serves_silent.
Qed.

Lemma serves_best_effort m : serves (fun _ => True) m -> serves (fun _ => True) (best_effort m).
Proof. intros Hm. unfold best_effort. apply serves_try; [done|]. intros x k. destruct (is_UpstreamError x); [|done]. intros [= <-]. by apply serves_ret. Qed.

Lemma serves_sum {A} (r : exn + A) : serves (fun _ => True) (sum_to_M r).
Proof. destruct r; by serves_walk. Qed.

#[local] Hint Resolve serves_decrypt serves_endpoint serves_wait serves_await_ready serves_best_effort : hermes.

Lemma serves_provision_locked u dl :
  serves (fun ep => ep.(ep_base_url) = own_address u) (_provision_locked rt hs repr polls u dl).
Proof.
  unfold _provision_locked, _cleanup_failed_provision.
  eapply serves_bind; [apply serves_silent; intros; unfold _require_provision_config; repeat case_match; done|intros _ _].
  do 2 (eapply serves_bind; [by apply serves_silent|intros ? _]). case_match; case_match.
  eapply serves_bind; [apply serves_create|]. intros [r|] _; [|by serves_walk].
  eapply serves_bind; [apply serves_commit|intros _ _]. eapply serves_bind; [apply serves_sum|intros config _].
  eapply serves_bind; [apply serves_await|intros _ _]. eapply serves_bind; [apply serves_docker_provision|].
  intros ref Hr. eapply serves_bind; [apply serves_wait|]. intros [] _; [|by serves_walk].
  rewrite Hr. eapply serves_bind; [apply serves_mark_running|intros _ _]. by serves_walk.
Qed.

Lemma serves_wake_attempt u r dl : serves (fun _ => True) (wake_attempt rt hs polls u r dl).
Proof. unfold wake_attempt. serves_walk. Qed.

Lemma serves_wake u r dl : row_ok u r ->
  serves (fun ep => ep.(ep_base_url) = own_address u) (_wake_locked rt hs polls u r dl).
Proof.
  intros Hr. unfold _wake_locked. eapply serves_bind; [apply serves_wake_attempt|]. intros [[key t] []] _.
  - rewrite (row_address u r Hr). serves_walk.
  - eapply serves_bind; [apply serves_reset|intros rows _].
    eapply serves_bind; [|intros ? _; apply serves_raise]. instantiate (1 := fun _ => True). serves_walk.
Qed.

Lemma serves_replay u r : serves (fun _ => True) (_replay_stale_provisioning rt u r).
Proof. unfold _replay_stale_provisioning. serves_walk. Qed.

Lemma serves_stale r : serves (fun _ => True) (_is_stale_provisioning hs r).
Proof. unfold _is_stale_provisioning. serves_walk. Qed.

Lemma serves_reload u : serves (row_ok u) (_reload u).
Proof. unfold _reload. eapply serves_bind; [apply serves_get|]. intros [r|] Hr; serves_walk. Qed.

#[local] Hint Resolve serves_reload serves_provision_locked serves_wake serves_replay serves_stale : hermes.

Lemma serves_ensure_running u dl :
  serves (fun ep => ep.(ep_base_url) = own_address u) (ensure_running rt hs repr polls u dl).
Proof.
  unfold ensure_running. eapply serves_bind.
  - apply serves_try.
    + eapply serves_bind; [|intros ms _; apply serves_for_update]. apply serves_silent. intros e w. by destruct dl.
    + intros x k. destruct (_is_lock_timeout x); [|done]. intros [= <-]. serves_walk.
  - intros [r|] Hr; [|apply serves_provision_locked]. destruct (in_status r); [| |by apply serves_wake]; serves_walk.
Qed.

Lemma serves_provision u dl : serves (fun ep => ep.(ep_base_url) = own_address u) (provision rt hs repr polls u dl).
Proof. unfold provision. eapply serves_bind; [apply serves_for_update|]. intros [r|] Hr; serves_walk. Qed.

Lemma serves_stop_rows l n : serves (fun _ => True) (stop_rows rt l n).
Proof.
  revert n. induction l as [|[u r] l IH]; intros n; cbn [stop_rows]; [by serves_walk|].
  eapply (serves_bind (fun _ => True)); [|intros [] _; serves_walk].
  apply serves_try; [serves_walk|]. intros x k. destruct (is_UpstreamError x); [|done]. intros [= <-]. serves_walk.
Qed.

(** One request to the manager. *)
Inductive ManagerOp : Type :=
| op_ensure_running (u : uuid) (deadline : option Z) | op_provision (u : uuid) (deadline : option Z)
| op_touch_active (u : uuid) | op_stop_idle (threshold_seconds : Z) | op_deprovision (u : uuid) | op_health (u : uuid).

Definition run_manager_op (o : ManagerOp) : M unit :=
  match o with
  | op_ensure_running u d => _ ← ensure_running rt hs repr polls u d; mret tt
  | op_provision u d => _ ← provision rt hs repr polls u d; mret tt
  | op_touch_active u => touch_active u
  | op_stop_idle s => _ ← stop_idle rt s; mret tt
  | op_deprovision u => deprovision rt u
  | op_health u => _ ← health rt u; mret tt
  end.

Lemma serves_op o : serves (fun _ => True) (run_manager_op o).
Proof.
  destruct o; cbn [run_manager_op].
  - eapply serves_bind; [apply serves_ensure_running|intros ? _]. by serves_walk.
  - eapply serves_bind; [apply serves_provision|intros ? _]. by serves_walk.
  - unfold touch_active. by serves_walk.
  - unfold stop_idle. eapply (serves_bind (fun _ => True)); [|by intros; serves_walk].
    eapply (serves_bind (fun _ => True)); [by apply serves_silent|intros ? _; apply serves_stop_rows].
  - unfold deprovision. by serves_walk.
  - unfold health. by serves_walk.
Qed.

(** Requests one after the other, each in its own transaction. *)
Definition serve_all (e : Env) (w : World) (l : list ManagerOp) : World :=
  foldl (fun w o => (session_scope (run_manager_op o) e w).2) w l.

Lemma serve_all_ok e w l : registry_ok w -> registry_ok (serve_all e w l).
Proof.
  revert w. induction l as [|o l IH]; intros w Hw; [done|]. cbn. apply IH.
  destruct (serves_op o e w Hw) as [[H1 H2] _]. unfold session_scope.
  by destruct (run_manager_op o e w) as [[x|a] w'].
Qed.

(** C29: one user is never given another user's instance.  After any sequence of
    requests to the manager, with other requests committing whatever keeps the
    registry sound at every wait, the endpoint that [ensure_running] or
    [provision] returns is the address of the container of the user asked for,
    which no other user's container has; every row of the registry that is
    marked running has that address and a container. *)
Theorem own_instance_only e w l u dl :
  registry_ok w -> (u < 2 ^ 128)%N ->
  let w1 := serve_all e w l in
  (forall ep w2, ensure_running rt hs repr polls u dl e w1 = (inr ep, w2) \/ provision rt hs repr polls u dl e w1 = (inr ep, w2) ->
     ep.(ep_base_url) = own_address u /\
     forall v, (v < 2 ^ 128)%N -> own_address v = ep.(ep_base_url) -> v = u) /\
  forall v r, w1.(w_committed).(hermes_instances) !! v = Some r -> r.(in_status) = hi_running ->
    r.(in_endpoint) = Some (own_address v) /\ is_Some r.(in_container_id).
Proof.
  intros Hw Hu w1. pose proof (serve_all_ok e w l Hw) as Hok. fold w1 in Hok. split.
  - intros ep w2 H. assert (ep.(ep_base_url) = own_address u) as E.
    { destruct H as [H|H].
      - pose proof (serves_ensure_running u dl e w1 Hok) as [_ H2]. by rewrite H in H2.
      - pose proof (serves_provision u dl e w1 Hok) as [_ H2]. by rewrite H in H2. }
    split; [done|]. intros v Hv. rewrite E. by apply own_address_inj.
  - intros v r Hr Hs. destruct Hok as [_ Hok]. destruct (Hok v r Hr) as [_ H]. destruct (H Hs). done.
Qed.
End inv.

(** ** Fixtures *)

(** A host where everything answers; nobody else is there.  A tick is a
    second. *)
Definition demo_rt (probe : nat -> string -> string -> option Z) : Runtime :=
  mkRuntime (fun _ => true) (fun t => ("c" ++ Str.of_int (Z.of_nat t))%string) probe (fun _ => 0) (fun _ x => x)
    (fun t us => (t + Z.to_nat (us / 1000000) + 1)%nat) (fun _ _ => "token") demo_crypto.

Definition healthy : nat -> string -> string -> option Z := fun _ _ _ => Some 200.

(** Nothing answers before the given tick. *)
Definition healthy_from (n : nat) : nat -> string -> string -> option Z :=
  fun t _ _ => if (n <=? t)%nat then Some 200 else None.

Lemma own_instance_only_witness :
  let w1 := serve_all (demo_rt healthy) demo_runtime id 60 demo_env demo_world
              [op_ensure_running alice None; op_deprovision alice; op_provision bob None] in
  exists ep w2, ensure_running (demo_rt healthy) demo_runtime id 60 alice None demo_env w1 = (inr ep, w2) /\
    ep.(ep_base_url) = own_address alice /\ own_address bob <> own_address alice.
Proof.
  intros w1.
  destruct (ensure_running (demo_rt healthy) demo_runtime id 60 alice None demo_env w1) as [[x|ep] w2] eqn:E;
    [vm_compute in E; discriminate E|].
  destruct (own_instance_only (demo_rt healthy) demo_runtime id 60 (fun _ _ _ H => H) demo_env demo_world
              [op_ensure_running alice None; op_deprovision alice; op_provision bob None] alice None
              (conj (map_Forall_empty _) (map_Forall_empty _)) eq_refl) as [H _].
  destruct (H ep w2 (or_introl E)) as [H1 H2]. exists ep, w2. split; [done|]. split; [done|].
  intros Hb. rewrite <- H1 in Hb. discriminate (H2 bob eq_refl Hb).
Defined.
