(* ===== verification/InstanceWaits.v ===== *)
(** * Waiting for an instance

    The readiness gate of the manager: an instance is handed out only when it
    has answered or is recorded as running, a wake that times out touches only
    its own attempt, and every wait ends. *)

From Stdlib Require Import String.
From S2P Require Import Prelude PyVal Redaction Store Fixtures AuditTrail Logic WalletRun Uuid Byok ChatTools Website InstanceConfig Instances Manager InstanceLife.
Import Manager.

Open Scope string_scope.
Open Scope list_scope.
Open Scope Z_scope.

(** ** Time does not go back *)

Definition mono {A} (m : M A) : Prop := forall e w, (w.(w_ticks) <= (m e w).2.(w_ticks))%nat.

Lemma mono_bind {A B} (m : M A) (k : A -> M B) : mono m -> (forall a, mono (k a)) -> mono (m ≫= k).
Proof.
  intros Hm Hk e w. specialize (Hm e w). unfold mbind, M_bind. destruct (m e w) as [[x|a] w']; [done|].
  specialize (Hk a e w'). cbn in Hm. lia.
Qed.

Lemma mono_try {A} (m : M A) h : mono m -> (forall x k, h x = Some k -> mono k) -> mono (try_except m h).
Proof.
  intros Hm Hh e w. specialize (Hm e w). unfold try_except. destruct (m e w) as [[x|a] w']; [|done].
  destruct (h x) as [k|] eqn:E; [|done]. specialize (Hh x k E e w'). cbn in Hm. lia.
Qed.

Lemma mono_await rt : mono (await_others rt).
Proof. intros e w. unfold await_others. destruct (meanwhile rt _ _). cbn. lia. Qed.

Lemma mono_sleep rt us : mono (sleep rt us).
Proof. intros e w. unfold sleep. destruct (meanwhile rt _ _). cbn. lia. Qed.

#[local] Hint Resolve mono_await mono_sleep : hermes.

Ltac mono_walk :=
  repeat first
    [ solve [eauto 3 with hermes]
    | match goal with
      | |- mono (mbind _ _) => apply mono_bind; [|intros ?]
      | |- mono (match ?x with _ => _ end) => destruct x eqn:?
      | |- mono (try_except _ _) => apply mono_try; [|intros ? ? ?]
      | |- mono _ => solve [intros ? ?; cbn; lia]
      end ].

Section gate.
Context (rt : Runtime) (hs : RuntimeSettings) (repr : string -> string) (polls : nat).

Lemma mono_update u f : mono (Registry.update u f).
Proof. unfold Registry.update, Registry.get, Registry.put. mono_walk. Qed.

#[local] Hint Resolve mono_update : hermes.

Lemma mono_mark_running u id a port : mono (Registry.mark_running u id a port).
Proof. unfold Registry.mark_running. mono_walk. Qed.

Lemma mono_mark_provisioning u t : mono (Registry.mark_provisioning u t).
Proof. unfold Registry.mark_provisioning. mono_walk. Qed.

Lemma mono_touch u : mono (Registry.touch_active u).
Proof. unfold Registry.touch_active. mono_walk. Qed.

Lemma mono_create u k d n : mono (Registry.create_provisioning u k d n).
Proof. unfold Registry.create_provisioning, check_constraint, Registry.put. mono_walk. Qed.

Lemma mono_start c : mono (Docker._start_sync rt c).
Proof. unfold Docker._start_sync. mono_walk. Qed.

Lemma mono_remove c : mono (Docker._remove_sync rt c).
Proof. unfold Docker._remove_sync. mono_walk. Qed.

Lemma mono_docker_provision spec : mono (Docker._provision_sync rt spec).
Proof. unfold Docker._provision_sync. mono_walk. Qed.

Lemma mono_decrypt r : mono (_decrypt_key rt r).
Proof. unfold _decrypt_key. mono_walk. Qed.

Lemma mono_poll_deadline dl : mono (_poll_deadline hs dl).
Proof. unfold _poll_deadline. mono_walk. Qed.

(** ** What a caller is given *)

(** The address answered with the key at a tick from [t0] on. *)
Definition answered (t0 : nat) (ep : InstanceEndpoint) (w : World) : Prop :=
  exists t status, (t0 <= t < w.(w_ticks))%nat /\ rt.(probe) t ep.(ep_base_url) ep.(ep_api_key) = Some status /\
    200 <= status < 300.

(** The row that is committed says running, and has this address and key. *)
Definition recorded (u : uuid) (ep : InstanceEndpoint) (w : World) : Prop :=
  exists r, w.(w_committed).(hermes_instances) !! u = Some r /\ r.(in_status) = hi_running /\
    forall e, _endpoint_from_row rt u r e w = (inr ep, w).

Definition usable (t0 : nat) (u : uuid) (ep : InstanceEndpoint) (w : World) : Prop := answered t0 ep w \/ recorded u ep w.

Definition after (t0 : nat) (w : World) : Prop := (t0 <= w.(w_ticks))%nat.

Definition anyhow (x : exn) (w : World) : Prop := True.

Section run.
Context (e : Env) (t0 : nat).

Lemma ends_mono {A} (m : M A) : mono m -> ends e (after t0) m (fun _ => after t0) anyhow.
Proof. intros Hm w Hw. specialize (Hm e w). unfold after in *. destruct (m e w) as [[x|a] w']; [done|]. cbn in Hm. lia. Qed.

Lemma ends_mono_bind {A B} (m : M A) (k : A -> M B) Q :
  mono m -> (forall a, ends e (after t0) (k a) Q anyhow) -> ends e (after t0) (m ≫= k) Q anyhow.
Proof. intros Hm. apply ends_bind. by apply ends_mono. Qed.

Lemma ends_pre {A} (P P' : World -> Prop) (m : M A) Q E :
  (forall w, P' w -> P w) -> ends e P m Q E -> ends e P' m Q E.
Proof. intros H Hm w Hw. by apply Hm, H. Qed.

(** A continuation that only raises. *)
Lemma ends_raises {A B} P (m : M A) (k : A -> M B) Q :
  (forall a w, match k a e w with (inr _, _) => False | _ => True end) -> ends e P (m ≫= k) Q anyhow.
Proof.
  intros Hk w _. unfold mbind, M_bind. destruct (m e w) as [[x|a] w']; [done|]. specialize (Hk a w').
  by destruct (k a e w') as [[x|b] w2].
Qed.

Lemma poll_health_answered n a k s :
  ends e (after t0) (poll_health rt hs n a k s) (fun b w => after t0 w /\ (b = true -> answered t0 (mkEndpoint a k) w)) anyhow.
Proof.
  induction n as [|n IH]; cbn [poll_health]; [done|]. apply ends_mono_bind; [apply mono_await|intros _].
  eapply (ends_bind _ _ _ _ _ (fun b w => after t0 w /\ (b = true -> answered t0 (mkEndpoint a k) w))).
  - intros w Hw. unfold Docker.health, tick, mbind, M_bind. cbn. unfold after in *. cbn. split; [lia|].
    destruct (probe rt (w_ticks w) a k) as [status|] eqn:Ep; [|done]. intros Hs. exists w.(w_ticks), status. cbn. split; [lia|]. split; [done|lia].
  - intros []; [by intros w Hw|]. apply (ends_pre (after t0)); [by intros w [H _]|].
    apply ends_mono_bind; [by intros ? ?; cbn; lia|]. intros now. case_match; [by intros w Hw|]. apply ends_mono_bind; [apply mono_sleep|done].
Qed.

Lemma wait_answered a k dl :
  ends e (after t0) (_wait_for_ready rt hs polls a k dl) (fun b w => after t0 w /\ (b = true -> answered t0 (mkEndpoint a k) w)) anyhow.
Proof. unfold _wait_for_ready. apply ends_mono_bind; [apply mono_poll_deadline|]. intros s. apply poll_health_answered. Qed.

Lemma endpoint_silent u r e1 w1 e2 w2 : match _endpoint_from_row rt u r e1 w1 with
  | (inr ep, w1') => w1' = w1 /\ _endpoint_from_row rt u r e2 w2 = (inr ep, w2) | (inl _, _) => True end.
Proof.
  unfold _endpoint_from_row, _decrypt_key, mbind, M_bind. cbv zeta. destruct (decrypt_dek _ _) as [dek|]; [|done].
  destruct (aes_decrypt _ _ _ _) as [text|]; [|done]. by destruct (key_utf8_decode _ _).
Qed.

(** A committed row that says running gives a usable endpoint. *)
Lemma endpoint_recorded u r w : w.(w_committed).(hermes_instances) !! u = Some r -> r.(in_status) = hi_running ->
  match _endpoint_from_row rt u r e w with (inr ep, w') => usable t0 u ep w' | (inl _, _) => True end.
Proof.
  intros Hr Hs. pose proof (fun e' => endpoint_silent u r e w e' w) as H.
  destruct (_endpoint_from_row rt u r e w) as [[x|ep] w']; [done|]. destruct (H e) as [-> _].
  right. exists r. split; [done|]. split; [done|]. intros e'. by destruct (H e').
Qed.

Lemma poll_row_recorded n u s : ends e (after t0) (poll_row rt hs n u s) (usable t0 u) anyhow.
Proof.
  induction n as [|n IH]; cbn [poll_row]; [done|]. intros w Hw. unfold Registry.get at 1.
  erewrite bind_inr by reflexivity. erewrite bind_inr by reflexivity.
  destruct (hermes_instances (w_db w) !! u) as [r|] eqn:E; [|done]. case_bool_decide as Hs.
  - pose proof (endpoint_recorded u r (mkWorld (w_db w) (w_db w) (w_uuids w) (w_ticks w) (w_seq w) (w_metrics w) (w_host w)) E Hs) as H.
    by case_match; case_match.
  - pose (k := now ← py_monotonic;
               if s <? now + poll_interval hs then raise not_ready else sleep rt (poll_interval hs);; poll_row rt hs n u s).
    assert (ends e (after t0) k (usable t0 u) anyhow) as Hk; [|by apply Hk].
    apply ends_mono_bind; [by intros ? ?; cbn; lia|]. intros now. case_match; [done|].
    apply ends_mono_bind; [apply mono_sleep|done].
Qed.

Lemma await_recorded u dl : ends e (after t0) (_await_concurrent_ready rt hs polls u dl) (usable t0 u) anyhow.
Proof. unfold _await_concurrent_ready. apply ends_mono_bind; [apply mono_poll_deadline|]. intros s. apply poll_row_recorded. Qed.

(** After the gate, only the database changes. *)
Lemma answered_mono {A} (m : M A) ep : mono m -> ends e (answered t0 ep) m (fun _ => answered t0 ep) anyhow.
Proof.
  intros Hm w (t & status & Ht & Hp). specialize (Hm e w). destruct (m e w) as [[x|a] w']; [done|]. cbn in Hm.
  exists t, status. split; [lia|done].
Qed.

Lemma mark_usable u id ep port : ends e (answered t0 ep)
  (Registry.mark_running u id ep.(ep_base_url) port;; commit;; mret ep) (fun ep' w => ep' = ep /\ answered t0 ep w) anyhow.
Proof.
  eapply ends_bind; [apply answered_mono, mono_mark_running|]. intros [].
  eapply ends_bind; [apply answered_mono; by intros ? ?; cbn; lia|]. intros [] w Hw. done.
Qed.

Lemma provision_locked_usable u dl : ends e (after t0) (_provision_locked rt hs repr polls u dl) (usable t0 u) anyhow.
Proof.
  unfold _provision_locked.
  apply ends_mono_bind; [unfold _require_provision_config, refuse; mono_walk|intros _].
  do 2 (apply ends_mono_bind; [unfold _generate_api_key, _encrypt_key, Byok.os_urandom; mono_walk|intros ?]). do 2 case_match.
  apply ends_mono_bind; [apply mono_create|]. intros [r|].
  - apply ends_mono_bind; [by intros ? ?; cbn; lia|intros _].
    apply ends_mono_bind; [unfold sum_to_M; mono_walk|intros config]. apply ends_mono_bind; [apply mono_await|intros _].
    apply ends_mono_bind; [apply mono_docker_provision|intros ref]. eapply ends_bind; [apply wait_answered|].
    intros []; cbn beta.
    + apply (ends_pre (answered t0 (mkEndpoint ref.(cr_endpoint) a))); [by intros w [_ Hb]; apply Hb|].
      eapply ends_weaken; [apply (mark_usable u ref.(cr_container_id) (mkEndpoint ref.(cr_endpoint) a) None)|done| |done].
      intros ep w [-> Hw]. by left.
    + by apply ends_raises.
  - apply ends_mono_bind; [by intros ? ?; cbn; lia|intros _]. apply await_recorded.
Qed.

Lemma wake_usable u r dl : ends e (after t0) (_wake_locked rt hs polls u r dl) (usable t0 u) anyhow.
Proof.
  unfold _wake_locked, wake_attempt. set (a := or_else (in_endpoint r) _).
  eapply (ends_bind _ _ _ _ _ (fun x w => x.2 = true -> answered t0 (mkEndpoint a x.1.1) w)).
  - apply ends_mono_bind; [apply mono_decrypt|intros key]. apply ends_mono_bind; [by intros ? ?; cbn; lia|intros t].
    apply ends_mono_bind; [apply mono_start|intros _]. apply ends_mono_bind; [apply mono_mark_provisioning|intros _].
    apply ends_mono_bind; [by intros ? ?; cbn; lia|intros _]. eapply ends_bind; [apply wait_answered|].
    intros b w [_ Hb]. exact Hb.
  - intros [[key t] []]; cbn [fst snd].
    + apply (ends_pre (answered t0 (mkEndpoint a key))); [by intros w H; apply H|].
      eapply ends_weaken; [apply (mark_usable u _ (mkEndpoint a key) r.(in_port))|done| |done].
      intros ep w [-> Hw]. by left.
    + apply ends_raises. intros rows w1. apply (ends_raises (fun _ => True)); done.
Qed.

(** The fast path: the row is running, so it is still running after the touch. *)
Lemma touch_reload u r w : w.(w_db).(hermes_instances) !! u = Some r -> r.(in_status) = hi_running ->
  match (Registry.touch_active u;; r ← _reload u; endpoint ← _endpoint_from_row rt u r; commit;; mret endpoint) e w with
  | (inr ep, w') => usable t0 u ep w' | (inl _, _) => True end.
Proof.
  intros Hr Hs. unfold Registry.touch_active, Registry.update.
  set (w1 := (py_now e w).2). set (r' := Registry.with_active (env_clock e (w_ticks w)) r).
  set (w2 := with_db (set_hermes_instances (<[u := r']> (hermes_instances (w_db w))) (w_db w)) w1).
  assert ((now ← py_now; row ← Registry.get u;
           match row with Some x => Registry.put u (Registry.with_active now x) | None => mret tt end) e w = (inr tt, w2)) as H1.
  { do 2 (erewrite bind_inr by reflexivity). cbn [w_db]. by rewrite Hr. }
  rewrite (bind_inr _ _ e w _ _ H1).
  assert (_reload u e w2 = (inr r', w2)) as H2.
  { unfold _reload. erewrite bind_inr by reflexivity. cbn. by rewrite lookup_insert_eq. }
  rewrite (bind_inr _ _ e w2 _ _ H2). unfold mbind at 1, M_bind at 1.
  set (w3 := (commit e w2).2).
  pose proof (fun e' => endpoint_silent u r' e w2 e' w3) as H.
  destruct (_endpoint_from_row rt u r' e w2) as [[x|ep] w2']; [done|]. destruct (H e) as [-> _].
  erewrite bind_inr by reflexivity. cbn. right. exists r'.
  split; [apply lookup_insert_eq|]. split; [done|]. intros e'. by destruct (H e').
Qed.

Lemma ensure_running_usable u dl : ends e (after t0) (ensure_running rt hs repr polls u dl) (usable t0 u) anyhow.
Proof.
  unfold ensure_running.
  eapply (ends_bind _ _ _ _ _ (fun r w => after t0 w /\ r = w.(w_db).(hermes_instances) !! u)).
  - eapply (ends_try _ _ _ _ _ _ anyhow); [|done|].
    + apply ends_mono_bind; [unfold _lock_timeout_ms; mono_walk|]. intros ms. unfold Registry.get_for_update.
      apply ends_mono_bind; [by intros ? ?; cbn; lia|]. intros t. by repeat case_match; intros w Hw.
    + intros x k. destruct (_is_lock_timeout x); [|done]. intros [= <-] w _. done.
  - intros [r|]; [|apply (ends_pre (after t0)); [by intros w [H _]|apply provision_locked_usable]].
    destruct (in_status r) eqn:Es.
    + apply (ends_pre (after t0)); [by intros w [H _]|]. unfold _is_stale_provisioning.
      apply ends_mono_bind; [mono_walk|]. intros [].
      * apply ends_mono_bind; [|intros _; apply provision_locked_usable]. unfold _replay_stale_provisioning.
        pose proof mono_remove. mono_walk.
      * apply ends_mono_bind; [by intros ? ?; cbn; lia|intros _]. apply await_recorded.
    + intros w [_ Hw]. pose proof (touch_reload u r w (eq_sym Hw) Es) as H. by repeat case_match.
    + apply (ends_pre (after t0)); [by intros w [H _]|apply wake_usable].
Qed.
End run.

(** An instance that has not answered is not handed out.  An endpoint that
    [ensure_running] returns has either answered a health probe, made during
    this call at that address and with that key, with a 2xx status, or is what
    the committed row of the user holds, and that row says running. *)
Theorem ready_before_use e w u dl ep w' :
  ensure_running rt hs repr polls u dl e w = (inr ep, w') -> usable w.(w_ticks) u ep w'.
Proof.
  intros H. pose proof (ensure_running_usable e w.(w_ticks) u dl w (Nat.le_refl _)) as Hu. by rewrite H in Hu.
Qed.
End gate.

(** The instance answers at the sixth tick. *)
Lemma ready_before_use_witness :
  exists ep w', ensure_running (demo_rt (healthy_from 10)) demo_runtime id 60 alice None demo_env demo_world = (inr ep, w') /\
    usable (demo_rt (healthy_from 10)) 0 alice ep w' /\ (10 <= w'.(w_ticks))%nat.
Proof.
  destruct (ensure_running (demo_rt (healthy_from 10)) demo_runtime id 60 alice None demo_env demo_world) as [[x|ep] w'] eqn:E;
    [vm_compute in E; discriminate E|].
  exists ep, w'. split; [done|]. split; [by apply (ready_before_use _ _ _ _ _ _ _ _ _ _ E)|].
  apply (f_equal (fun p => p.2.(w_ticks))) in E. cbn [snd] in E. rewrite <- E. apply Nat.leb_le. vm_compute. reflexivity.
Defined.


(** ** A wake that times out *)

Section wake.
Context (rt : Runtime) (hs : RuntimeSettings) (polls : nat) (e : Env).

Definition synced (w : World) : Prop := w.(w_db) = w.(w_committed).

(** After a probe the session sees what is committed. *)
Lemma poll_health_synced n a k s : ends e (fun _ => True) (poll_health rt hs n a k s) (fun _ => synced) anyhow.
Proof.
  induction n as [|n IH]; cbn [poll_health]; [done|]. apply (ends_bind _ _ _ _ _ (fun _ => synced)).
  - intros w _. unfold await_others. by destruct (meanwhile rt _ _).
  - intros _. apply (ends_bind _ _ _ _ _ (fun _ => synced)); [by intros w Hw|]. intros []; [by intros w Hw|].
    apply (ends_bind _ _ _ _ _ (fun _ => synced)); [by intros w Hw|]. intros now. case_match; [by intros w Hw|].
    apply (ends_bind _ _ _ _ _ (fun _ _ => True)); [|done]. intros w _. by case_match; case_match.
Qed.

Lemma wake_attempt_synced u r dl : ends e (fun _ => True) (wake_attempt rt hs polls u r dl) (fun _ => synced) anyhow.
Proof.
  unfold wake_attempt. do 5 (apply (ends_bind _ _ _ _ _ (fun _ _ => True)); [by intros w _; case_match; case_match|intros ?]).
  apply (ends_bind _ _ _ _ _ (fun _ => synced)); [|by intros b w Hw]. unfold _wait_for_ready.
  apply (ends_bind _ _ _ _ _ (fun _ _ => True)); [done|]. intros s. apply poll_health_synced.
Qed.

Definition stop_container (c : Container) : Container := mkContainer c.(ct_name) false.

Lemma stop_best_effort c w :
  best_effort (Docker._stop_sync rt c) e w =
    (inr tt, mkWorld w.(w_db) w.(w_committed) w.(w_uuids) (S w.(w_ticks)) w.(w_seq) w.(w_metrics)
       (if rt.(docker_up) w.(w_ticks)
        then mkHost (alter stop_container c.(cr_container_id) w.(w_host).(containers)) w.(w_host).(config_files)
        else w.(w_host))).
Proof.
  unfold best_effort, try_except, Docker._stop_sync. do 2 (erewrite bind_inr by reflexivity). cbn.
  destruct (docker_up rt (w_ticks w)); cbn; [|done].
  destruct (containers (w_host w) !! cr_container_id c) as [k|] eqn:E; cbn.
  - do 3 f_equal. apply map_eq. intros i. destruct (decide (i = cr_container_id c)) as [-> |Hi].
    + by rewrite lookup_insert_eq, lookup_alter_eq, E.
    + by rewrite lookup_insert_ne, lookup_alter_ne by done.
  - rewrite alter_id' by done. by destruct w as [? ? ? ? ? ? [? ?]].
Qed.

(** A wake that times out re-hibernates its own attempt and nothing else.
    When the committed row still carries the start of this attempt, the row
    becomes stopped, its other columns stay, and the container is stopped if
    the daemon answers; when another request has taken the row meanwhile, the
    registry and the host are left exactly as that request left them. *)
Theorem wake_timeout_guarded u row dl key T w w1 :
  wake_attempt rt hs polls u row dl e w = (inr (key, T, false), w1) ->
  exists w2, _wake_locked rt hs polls u row dl e w = (inl not_ready, w2) /\
  let rows := w1.(w_committed).(hermes_instances) in
  match rows !! u with
  | Some r =>
      if bool_decide (r.(in_status) = hi_provisioning /\ r.(in_provisioning_started_at) = Some T) then
        w2.(w_committed) = set_hermes_instances (<[u := Registry.with_status hi_stopped r]> rows) w1.(w_committed) /\
        w2.(w_host) = if rt.(docker_up) w1.(w_ticks)
                      then mkHost (alter stop_container (or_else row.(in_container_id) "") w1.(w_host).(containers))
                             w1.(w_host).(config_files)
                      else w1.(w_host)
      else w2.(w_committed) = w1.(w_committed) /\ w2.(w_host) = w1.(w_host)
  | None => w2.(w_committed) = w1.(w_committed) /\ w2.(w_host) = w1.(w_host)
  end.
Proof.
  intros H. pose proof (wake_attempt_synced u row dl w I) as Hs. rewrite H in Hs. unfold synced in Hs.
  unfold _wake_locked. rewrite (bind_inr _ _ e w _ _ H). unfold Registry.mark_stopped_if_provisioning. rewrite <- Hs.
  destruct (hermes_instances (w_db w1) !! u) as [r|] eqn:Er; [case_bool_decide as Hb|].
  - rewrite (bind_inr _ _ e w1 1 (with_db (set_hermes_instances (<[u := Registry.with_status hi_stopped r]>
               (hermes_instances (w_db w1))) (w_db w1)) w1)).
    + unfold mbind at 1, M_bind at 1. cbn [Z.eqb Pos.eqb]. rewrite (bind_inr _ _ e _ _ _ (stop_best_effort _ _)). cbn.
      eexists. split; [reflexivity|]. done.
    + erewrite bind_inr by reflexivity. rewrite Er. by rewrite bool_decide_true.
  - rewrite (bind_inr _ _ e w1 0 w1); [|erewrite bind_inr by reflexivity; rewrite Er; by rewrite bool_decide_false].
    eexists. split; [reflexivity|done].
  - rewrite (bind_inr _ _ e w1 0 w1); [|erewrite bind_inr by reflexivity; by rewrite Er].
    eexists. split; [reflexivity|done].
Qed.
End wake.

(** Another request has provisioned the user anew while the wake was waiting. *)
Definition taken_row : HermesInstance :=
  mkInstance (Some "c-new") (Some (own_address alice)) "ctoken" "kbytes" "bytes" hi_running None 0 (Some 1) 0.

Definition taken_rt : Runtime :=
  mkRuntime (fun _ => true) (fun _ => "c") (fun _ _ _ => None) (fun _ => 0)
    (fun _ x => (set_hermes_instances {[ alice := taken_row ]} x.1, x.2)) (fun t us => (t + Z.to_nat (us / 1000000) + 1)%nat)
    (fun _ _ => "token") demo_crypto.

Definition asleep_row : HermesInstance :=
  mkInstance (Some "c-old") (Some (own_address alice)) "ctoken" "kbytes" "bytes" hi_stopped None 0 (Some 0) 0.

Definition asleep_world : World :=
  let d := set_hermes_instances {[ alice := asleep_row ]} demo_db in
  mkWorld d d 0 0 0 [] (mkHost {[ "c-old" := mkContainer (_container_name alice) false ]} ∅).

Lemma wake_timeout_guarded_witness :
  exists w2, _wake_locked taken_rt demo_runtime 60 alice asleep_row None demo_env asleep_world = (inl not_ready, w2) /\
    w2.(w_committed).(hermes_instances) !! alice = Some taken_row.
Proof.
  destruct (wake_timeout_guarded taken_rt demo_runtime 60 demo_env alice asleep_row None "token" 1700000000000000 asleep_world
              (wake_attempt taken_rt demo_runtime 60 alice asleep_row None demo_env asleep_world).2) as (w2 & H1 & H2).
  - vm_compute. reflexivity.
  - exists w2. split; [exact H1|].
    assert ((wake_attempt taken_rt demo_runtime 60 alice asleep_row None demo_env asleep_world).2.(w_committed).(hermes_instances)
            = {[ alice := taken_row ]}) as E by (vm_compute; reflexivity).
    cbv zeta in H2. rewrite E in H2. rewrite lookup_singleton_eq in H2. rewrite bool_decide_false in H2 by (intros [H _]; discriminate H).
    destruct H2 as [-> _]. rewrite E. apply lookup_singleton_eq.
Defined.

(** ** Every wait ends *)

(** The waits of the model are cut off, as by a cancellation of the request, when
    their number of turns is used up. *)
Definition still_waiting {A} (r : exn + A) : Prop := r = inl CancelledError.

Section ending.
Context (rt : Runtime) (hs : RuntimeSettings) (repr : string -> string) (polls : nat) (e : Env).
Hypothesis Hclock : forall t, e.(env_monotonic) t <= e.(env_monotonic) (S t).
(** [asyncio.sleep(d)] lasts [d] at least. *)
Hypothesis Hsleep : forall t us, e.(env_monotonic) t + us <= e.(env_monotonic) (rt.(resumes) t us).
Hypothesis Hpolls : hs.(hermes_provision_ready_timeout_seconds) * 1000000 < Z.of_nat polls * poll_interval hs.

Lemma clock_le s t : (s <= t)%nat -> e.(env_monotonic) s <= e.(env_monotonic) t.
Proof. induction 1 as [|t H IH]; [lia|]. specialize (Hclock t). lia. Qed.

Lemma interval_pos : 1000000 <= poll_interval hs.
Proof. unfold poll_interval. lia. Qed.

Definition calm {A} (m : M A) : Prop := forall w, ~ still_waiting (m e w).1.

Lemma calm_bind {A B} (m : M A) (k : A -> M B) : calm m -> (forall a, calm (k a)) -> calm (m ≫= k).
Proof.
  intros Hm Hk w. specialize (Hm w). unfold mbind, M_bind. destruct (m e w) as [[x|a] w']; [|apply Hk].
  cbn in *. congruence.
Qed.

Lemma calm_try {A} (m : M A) h : calm m -> (forall x k, h x = Some k -> calm k) -> calm (try_except m h).
Proof.
  intros Hm Hh w. specialize (Hm w). unfold try_except. destruct (m e w) as [[x|a] w']; [|done].
  destruct (h x) as [k|] eqn:E; [by apply (Hh x)|]. cbn in *. congruence.
Qed.

Ltac calm_walk :=
  repeat first
    [ solve [eauto 3 with hermes]
    | match goal with
      | |- calm (mbind _ _) => apply calm_bind; [|intros ?]
      | |- calm (match ?x with _ => _ end) => destruct x eqn:?
      | |- calm (try_except _ _) => apply calm_try; [|intros ? ? ?]
      | |- calm _ => solve [intros ?; done]
      end ].

Lemma calm_await : calm (await_others rt).
Proof. intros w. unfold await_others. by destruct (meanwhile rt _ _). Qed.

#[local] Hint Resolve calm_await : hermes.

Lemma poll_health_ends n a k s w :
  s < e.(env_monotonic) w.(w_ticks) + Z.of_nat n * poll_interval hs -> (1 <= n)%nat ->
  (poll_health rt hs n a k s e w).1 <> inl CancelledError.
Proof.
  pose proof interval_pos as Hi. revert w. induction n as [|n IH]; intros w Hs Hn; [lia|]. cbn [poll_health].
  unfold mbind, M_bind at 1. unfold await_others. destruct (meanwhile rt _ _) as [d h].
  unfold M_bind, Docker.health, tick, mbind, M_bind. cbn -[poll_interval poll_health].
  destruct (match probe rt _ a k with Some _ => _ | None => _ end); [done|]. unfold mret, M_ret.
  cbn -[poll_interval poll_health]. destruct (s <? _) eqn:E; [done|]. apply Z.ltb_ge in E.
  unfold sleep. cbn -[poll_interval poll_health Nat.max]. destruct (meanwhile rt _ _) as [d' h'].
  cbn -[poll_interval poll_health Nat.max]. set (t := S (S (S (w_ticks w)))) in *.
  pose proof (clock_le (w_ticks w) t ltac:(lia)). pose proof (clock_le (w_ticks w) (S (S (w_ticks w))) ltac:(lia)).
  pose proof (Hsleep t (poll_interval hs)). pose proof (clock_le _ (Nat.max (S t) (resumes rt t (poll_interval hs))) (Nat.le_max_r _ _)).
  destruct n as [|n].
  - exfalso. lia.
  - apply IH; cbn [w_ticks]; lia.
Qed.

Lemma calm_endpoint u r : calm (_endpoint_from_row rt u r).
Proof. unfold _endpoint_from_row, _decrypt_key. calm_walk. Qed.

Lemma poll_row_ends n u s w :
  s < e.(env_monotonic) w.(w_ticks) + Z.of_nat n * poll_interval hs -> (1 <= n)%nat ->
  (poll_row rt hs n u s e w).1 <> inl CancelledError.
Proof.
  pose proof interval_pos as Hi. revert w. induction n as [|n IH]; intros w Hs Hn; [lia|]. cbn [poll_row].
  unfold Registry.get at 1. do 2 (erewrite bind_inr by reflexivity).
  destruct (hermes_instances (w_db w) !! u) as [r|]; [|done]. case_bool_decide; [apply calm_endpoint|].
  erewrite bind_inr by reflexivity. cbn -[poll_interval poll_row]. destruct (s <? _) eqn:E; [done|]. apply Z.ltb_ge in E.
  unfold mbind, M_bind, sleep. cbn -[poll_interval poll_row Nat.max]. destruct (meanwhile rt _ _) as [d' h'].
  set (t := S (w_ticks w)) in *. pose proof (clock_le (w_ticks w) t ltac:(lia)).
  pose proof (Hsleep t (poll_interval hs)). pose proof (clock_le _ (Nat.max (S t) (resumes rt t (poll_interval hs))) (Nat.le_max_r _ _)).
  destruct n as [|n]; [exfalso; lia|]. apply IH; cbn [w_ticks]; lia.
Qed.

(** The own budget of the gate is the longest wait. *)
Lemma poll_deadline_run dl w : exists stop, _poll_deadline hs dl e w =
    (inr stop, mkWorld w.(w_db) w.(w_committed) w.(w_uuids) (S w.(w_ticks)) w.(w_seq) w.(w_metrics) w.(w_host)) /\
  stop < e.(env_monotonic) (S w.(w_ticks)) + Z.of_nat polls * poll_interval hs.
Proof.
  pose proof (Hclock w.(w_ticks)) as Hc.
  exists (let own := e.(env_monotonic) w.(w_ticks) + hs.(hermes_provision_ready_timeout_seconds) * 1000000 in
          match dl with None => own | Some d => Z.min own d end).
  split; [reflexivity|]. cbv zeta. destruct dl; lia.
Qed.

Hypothesis Hsome : (1 <= polls)%nat.

Lemma calm_wait a k dl : calm (_wait_for_ready rt hs polls a k dl).
Proof.
  intros w. unfold _wait_for_ready. destruct (poll_deadline_run dl w) as (stop & E & H).
  rewrite (bind_inr _ _ e w _ _ E). by apply poll_health_ends.
Qed.

Lemma calm_await_ready u dl : calm (_await_concurrent_ready rt hs polls u dl).
Proof.
  intros w. unfold _await_concurrent_ready. destruct (poll_deadline_run dl w) as (stop & E & H).
  rewrite (bind_inr _ _ e w _ _ E). by apply poll_row_ends.
Qed.

Lemma calm_check b : calm (check_constraint b).
Proof. by destruct b. Qed.

Lemma calm_update u f : calm (Registry.update u f).
Proof. unfold Registry.update, Registry.get, Registry.put. calm_walk. Qed.

Lemma calm_decrypt r : calm (_decrypt_key rt r).
Proof. unfold _decrypt_key. calm_walk. Qed.

Lemma calm_remove c : calm (Docker._remove_sync rt c).
Proof. unfold Docker._remove_sync. calm_walk. Qed.

Lemma calm_stop c : calm (Docker._stop_sync rt c).
Proof. unfold Docker._stop_sync. calm_walk. Qed.

Lemma calm_best_effort m : calm m -> calm (best_effort m).
Proof. intros Hm. apply calm_try; [done|]. intros x k. destruct (is_UpstreamError x); [|done]. by intros [= <-]. Qed.

Lemma calm_reset u t : calm (Registry.mark_stopped_if_provisioning u t).
Proof. unfold Registry.mark_stopped_if_provisioning, Registry.put. calm_walk. Qed.

#[local] Hint Resolve calm_wait calm_await_ready calm_check calm_update calm_decrypt calm_remove calm_stop calm_best_effort
  calm_endpoint calm_reset : hermes.

Lemma calm_render a b c d : calm (sum_to_M (render_instance_config repr a b c d hs.(hermes_llm_api_key))).
Proof.
  unfold render_instance_config, config_lines, not_configured. intros w. by repeat case_match; simplify_eq/=.
Qed.

Lemma calm_provision_locked u dl : calm (_provision_locked rt hs repr polls u dl).
Proof.
  pose proof calm_render.
  unfold _provision_locked, _cleanup_failed_provision, _require_provision_config, refuse, _generate_api_key, _encrypt_key,
    Registry.create_provisioning, Registry.put, Docker._provision_sync, Registry.mark_running. calm_walk.
Qed.

Lemma calm_wake u r dl : calm (_wake_locked rt hs polls u r dl).
Proof. unfold _wake_locked, wake_attempt, Docker._start_sync, Registry.mark_provisioning, Registry.mark_running. calm_walk. Qed.

#[local] Hint Resolve calm_provision_locked calm_wake : hermes.

End ending.

