(* ===== verification/InstanceReplay.v ===== *)
(** * Replay of a stale attempt

    What a request finds after another one died half-way: a row that is still
    [provisioning].  A young row is left to its owner; an old one is torn down
    and provisioned again, which works when the row knows its container and
    never when the container was started but not recorded. *)

From Stdlib Require Import String.
From S2P Require Import Prelude PyVal Redaction Store Fixtures AuditTrail Logic WalletRun Uuid Byok ChatTools Website InstanceConfig Instances Manager InstanceLife InstanceWaits.
Import Manager.

Open Scope string_scope.
Open Scope list_scope.
Open Scope Z_scope.

(** ** An orphan container *)

Section orphan.
Context (rt : Runtime) (hs : RuntimeSettings) (repr : string -> string) (polls : nat) (u : uuid).

(** The attempt was committed and its container started, but the container's id
    was never recorded. *)
Definition orphaned (d : Db) (h : Host) : Prop :=
  (exists r, d.(hermes_instances) !! u = Some r /\ r.(in_status) = hi_provisioning /\ r.(in_container_id) = None) /\
  Docker.name_taken h (_container_name u) = true.

(** Other requests leave the user's row and container alone. *)
Hypothesis Hmeanwhile : forall t d h, orphaned d h ->
  let '(d', h') := rt.(meanwhile) t (d, h) in orphaned d' h'.

Definition stuck (w : World) : Prop := orphaned w.(w_committed) w.(w_host) /\ w.(w_db) = w.(w_committed).

Lemma stuck_awaits e w : stuck w -> stuck (await_others rt e w).2.
Proof.
  intros [H _]. unfold await_others. specialize (Hmeanwhile w.(w_ticks) _ _ H). by destruct (meanwhile rt _ _).
Qed.

Lemma stuck_sleeps us e w : stuck w -> stuck (sleep rt us e w).2.
Proof. intros [H _]. unfold sleep. specialize (Hmeanwhile w.(w_ticks) _ _ H). by destruct (meanwhile rt _ _). Qed.

Definition refused (x : exn) (w : World) : Prop := stuck w.

Lemma poll_row_stuck e n s : ends e stuck (poll_row rt hs n u s) (fun _ _ => False) refused.
Proof.
  induction n as [|n IH]; cbn [poll_row]; [by intros w Hw|]. intros w [[(r & Hr & Hs & Hc) Hn] Hd].
  unfold Registry.get at 1. do 2 (erewrite bind_inr by reflexivity). rewrite Hd, Hr. rewrite bool_decide_false by congruence.
  erewrite bind_inr by reflexivity. cbn -[poll_interval poll_row sleep].
  destruct (s <? _).
  - unfold refused, stuck. cbn. split; [|done]. split; [by exists r|done].
  - set (w1 := mkWorld _ _ _ _ _ _ _). assert (stuck w1) as H1 by (split; [split; [by exists r|done]|done]).
    assert (exists w2, sleep rt (poll_interval hs) e w1 = (inr tt, w2)) as [w2 E].
    { unfold sleep. case_match. by eexists. }
    pose proof (stuck_sleeps (poll_interval hs) e w1 H1) as H2. rewrite E in H2.
    rewrite (bind_inr _ _ e w1 _ _ E). by apply IH.
Qed.

Lemma await_ready_stuck e dl : ends e stuck (_await_concurrent_ready rt hs polls u dl) (fun _ _ => False) refused.
Proof.
  unfold _await_concurrent_ready. eapply (ends_bind _ _ _ _ _ (fun _ => stuck)); [|intros s; apply poll_row_stuck].
  intros w Hw. by destruct dl.
Qed.

(** Provisioning again is refused by the daemon: the name is taken. *)
Lemma docker_refuses e spec : spec.(sp_name) = _container_name u ->
  ends e stuck (Docker._provision_sync rt spec) (fun _ _ => False) refused.
Proof.
  intros Hs w [[H1 H2] Hd]. unfold Docker._provision_sync. do 3 (erewrite bind_inr by reflexivity). cbn.
  rewrite Hs, H2, orb_true_r. cbn. split; [|done]. split; [done|]. done.
Qed.
(** ** Provisioning again *)

(** Steps that touch neither the registry nor the host. *)
Definition quiet {A} (m : M A) : Prop := forall e w,
  (m e w).2.(w_db) = w.(w_db) /\ (m e w).2.(w_committed) = w.(w_committed) /\ (m e w).2.(w_host) = w.(w_host).

(** The row is deleted in the transaction, or inserted again; outside it nothing
    has changed. *)
Definition deleting (w : World) : Prop := w.(w_db).(hermes_instances) !! u = None /\ orphaned w.(w_committed) w.(w_host).
Definition inserting (w : World) : Prop := orphaned w.(w_db) w.(w_host) /\ orphaned w.(w_committed) w.(w_host).
Definition outside (x : exn) (w : World) : Prop := orphaned w.(w_committed) w.(w_host).

Lemma deleting_quiet {A B} e (m : M A) (k : A -> M B) Q :
  quiet m -> (forall a, ends e deleting (k a) Q outside) -> ends e deleting (m ≫= k) Q outside.
Proof.
  intros Hm. apply ends_bind. intros w [H1 H2]. specialize (Hm e w) as (E1 & E2 & E3). destruct (m e w) as [[x|a] w'].
  - unfold outside. cbn in *. by rewrite E2, E3.
  - unfold deleting. cbn in *. by rewrite E1, E2, E3.
Qed.

Lemma create_again e k d n :
  ends e deleting (Registry.create_provisioning u k d n) (fun r w => is_Some r /\ inserting w) outside.
Proof.
  intros w [H1 H2]. unfold Registry.create_provisioning. do 2 (erewrite bind_inr by reflexivity). rewrite H1.
  destruct (user_exists (w_db w) u); [|done]. cbn. split; [by eexists|]. split; [|done]. destruct H2 as [_ H2].
  split; [|done]. eexists. split; [apply lookup_insert_eq|done].
Qed.

Lemma provision_again e dl : ends e deleting (_provision_locked rt hs repr polls u dl) (fun _ _ => False) outside.
Proof.
  unfold _provision_locked.
  apply deleting_quiet; [unfold quiet, _require_provision_config, refuse; intros; repeat case_match; done|intros _].
  do 2 (apply deleting_quiet; [done|intros ?]). do 2 case_match. eapply ends_bind; [apply create_again|].
  intros [r|]; [|intros w [Hr _]; by destruct Hr].
  apply (ends_bind _ _ _ _ _ (fun _ => stuck)); [by intros w (_ & [H1 H2] & _)|intros _].
  apply (ends_bind _ _ _ _ _ (fun _ => stuck)).
  { intros w Hw. unfold sum_to_M. destruct (render_instance_config _ _ _ _ _ _); [apply Hw|done]. }
  intros config. apply (ends_bind _ _ _ _ _ (fun _ => stuck)).
  { intros w Hw. pose proof (stuck_awaits e w Hw) as H1. unfold await_others in *. by destruct (meanwhile rt _ _). }
  intros _. apply (ends_bind _ _ _ _ _ (fun _ _ => False)); [|intros ref w []].
  eapply ends_weaken; [by apply docker_refuses|done|done|]. by intros x w [H1 _].
Qed.

Lemma ensure_running_stuck e dl : ends e stuck (ensure_running rt hs repr polls u dl) (fun _ _ => False) outside.
Proof.
  unfold ensure_running.
  apply (ends_bind _ _ _ _ _ (fun r w => r = w.(w_db).(hermes_instances) !! u /\ stuck w)).
  - apply (ends_try _ _ _ _ _ _ outside); [|done|].
    + apply (ends_bind _ _ _ _ _ (fun _ => stuck)); [intros w Hw; by destruct dl|]. intros ms w Hw.
      unfold Registry.get_for_update. erewrite bind_inr by reflexivity. destruct ms as [ms|]; [|done]. destruct (ms <? _); [apply Hw|done].
    + intros x k. destruct (_is_lock_timeout x); [|done]. by intros [= <-] w Hw.
  - intros row w (Hrow & Hw). pose proof Hw as [[(r & Hr & Hs & Hc) Hn] Hd]. rewrite Hd, Hr in Hrow. subst row. rewrite Hs.
    revert w Hw Hr Hn Hd. intros w Hw Hr Hn Hd.
    assert (exists b w1, _is_stale_provisioning hs r e w = (inr b, w1) /\ stuck w1) as (b & w1 & E & H1).
    { unfold _is_stale_provisioning. case_match; [by eexists _, w|]. by eexists _, _. }
    rewrite (bind_inr _ _ e w _ _ E). destruct b.
    + unfold _replay_stale_provisioning. rewrite Hc. erewrite bind_inr by reflexivity. apply provision_again.
      destruct H1 as [H1 _]. split; [apply lookup_delete_eq|done].
    + erewrite bind_inr by reflexivity. destruct H1 as [H1 _].
      eapply ends_weaken; [apply await_ready_stuck|done|done|by intros x w' [H _]|]. done.
Qed.

(** One request after the other, at its own time and with its own budget. *)
Definition retry (w : World) (l : list (Env * option Z)) : World :=
  foldl (fun w x => (session_scope (ensure_running rt hs repr polls u x.2) x.1 w).2) w l.

(** A container that was started but not recorded blocks its user for good.
    When a request dies between [docker run] and [mark_running], the committed
    row says provisioning without a container while the container holds the
    user's fixed name; then no later call of [ensure_running] succeeds, however
    many are made and whether or not they find the row stale, unless somebody
    removes the container by hand. *)
Theorem orphan_never_heals w l e dl :
  stuck w -> exists x w', session_scope (ensure_running rt hs repr polls u dl) e (retry w l) = (inl x, w') /\ stuck w'.
Proof.
  assert (forall e dl w, stuck w ->
    exists x w', session_scope (ensure_running rt hs repr polls u dl) e w = (inl x, w') /\ stuck w') as Hstep.
  { intros e1 dl1 w1 H1. pose proof (ensure_running_stuck e1 dl1 w1 H1) as H. unfold session_scope.
    destruct (ensure_running rt hs repr polls u dl1 e1 w1) as [[x|ep] w2]; [|done]. by eexists _, _. }
  intros Hw. apply Hstep. revert w Hw. induction l as [|[e1 dl1] l IH]; intros w Hw; [done|]. cbn. apply IH.
  destruct (Hstep e1 dl1 w Hw) as (x & w' & E & H). by rewrite E.
Qed.
End orphan.

(** The process was restarted while alice's first instance was starting. *)
Definition orphan_world : World :=
  let r := mkInstance None None "ctoken" "kbytes" "bytes" hi_provisioning None 1700000000000000 (Some 1700000000000000)
             1700000000000000 in
  let d := set_hermes_instances {[ alice := r ]} demo_db in
  mkWorld d d 0 0 0 [] (mkHost {[ "c1" := mkContainer (_container_name alice) true ]} ∅).

(** Ten minutes later. *)
Definition later_env : Env :=
  mkEnv default_settings (fun n => N.of_nat (1000 + n)) (fun _ => 1700000600000000) (fun n => 1000000 * Z.of_nat n)
    1700000600000000 (Some "req-2").

Lemma orphan_never_heals_witness :
  exists x w', session_scope (ensure_running (demo_rt healthy) demo_runtime id 60 alice None) later_env
                 (retry (demo_rt healthy) demo_runtime id 60 alice orphan_world [(demo_env, None); (later_env, None)]) = (inl x, w') /\
    stuck alice w'.
Proof.
  apply (orphan_never_heals (demo_rt healthy) demo_runtime id 60 alice).
  - intros t d h H. exact H.
  - split; [|reflexivity]. split; [|vm_compute; reflexivity]. eexists. split; [apply lookup_singleton_eq|]. split; reflexivity.
Defined.
