(* ===== verification/AgentRuns.v ===== *)
(** * Agent-run rows

    Models [src/app/agent_proxy/runs_repo.py] and
    [src/app/agent_proxy/snapshots_repo.py]: the lifecycle row of a run with
    its conditional status transitions and the resume compare-and-set, and the
    state snapshot with its per-column guards. *)

From Stdlib Require Import Ascii String.
From stdpp Require Import sorting.
From S2P Require Import Prelude PyVal Redaction Store AuditTrail Logic Fixtures Wallet WalletRun WalletSpec WalletRefine WalletInv.

Open Scope string_scope.
Open Scope list_scope.
Open Scope Z_scope.

Definition int4_max : Z := 2 ^ 31 - 1.

(** A value sent for an INTEGER column. *)
Definition int4 (z : Z) : M Z :=
  if (- 2 ^ 31 <=? z) && (z <=? int4_max) then mret z else raise DataError.

Definition is_active (s : agent_run_status) : bool :=
  match s with run_running | run_resumed => true | _ => false end.

Definition with_status (s : agent_run_status) (now : instant) (r : AgentRun) : AgentRun :=
  mkAgentRun r.(ar_user_id) r.(ar_session_id) s r.(ar_cumulative_credits_spent) r.(ar_last_billed_step)
    r.(ar_paused_reason) r.(ar_continued_from) r.(ar_model) r.(ar_created_at) now.

Definition with_paused_reason (reason : string) (r : AgentRun) : AgentRun :=
  mkAgentRun r.(ar_user_id) r.(ar_session_id) r.(ar_status) r.(ar_cumulative_credits_spent)
    r.(ar_last_billed_step) (Some reason) r.(ar_continued_from) r.(ar_model) r.(ar_created_at) r.(ar_updated_at).

Definition put_run (run_id : string) (r : AgentRun) (d : Db) : Db :=
  set_agent_runs (<[run_id := r]> d.(agent_runs)) d.

Definition put_snapshot (run_id : string) (s : AgentRunSnapshot) (d : Db) : Db :=
  set_agent_run_snapshots (<[run_id := s]> d.(agent_run_snapshots)) d.

(** ** AgentRunsRepository *)

Module Runs.
Definition get (run_id : string) : M (option AgentRun) :=
  d ← get_db; mret (d.(agent_runs) !! run_id).

Definition create_running (run_id : string) (u : uuid) (session_id : string) (model : option string)
    (continued_from_run_id : option string) (status : agent_run_status) : M unit :=
  d ← get_db;
  match d.(agent_runs) !! run_id with
  | Some _ => mret tt
  | None =>
      check_constraint (user_exists d u);;
      check_constraint (match continued_from_run_id with
                        | Some p => bool_decide (is_Some (d.(agent_runs) !! p))
                        | None => true
                        end);;
      now ← pg_now;
      modify_db (put_run run_id (mkAgentRun u session_id status 0 0 None continued_from_run_id model now now))
  end.

(** UPDATE agent_runs SET ... WHERE run_id = :run_id AND guard; the rowcount. *)
Definition update_run (run_id : string) (guard : AgentRun -> bool) (f : instant -> AgentRun -> AgentRun) : M Z :=
  d ← get_db;
  now ← pg_now;
  match d.(agent_runs) !! run_id with
  | Some r => if guard r then modify_db (put_run run_id (f now r));; mret 1 else mret 0
  | None => mret 0
  end.

Definition record_step (run_id : string) (step_index credits : Z) : M unit :=
  step ← int4 step_index;
  credits ← int8 credits;
  d ← get_db;
  now ← pg_now;
  match d.(agent_runs) !! run_id with
  | None => mret tt
  | Some r =>
      spent ← int8 (r.(ar_cumulative_credits_spent) + credits);
      check_constraint (0 <=? spent);;
      check_constraint (0 <=? Z.max r.(ar_last_billed_step) step);;
      modify_db (put_run run_id
        (mkAgentRun r.(ar_user_id) r.(ar_session_id) r.(ar_status) spent
           (Z.max r.(ar_last_billed_step) step) r.(ar_paused_reason) r.(ar_continued_from)
           r.(ar_model) r.(ar_created_at) now))
  end.

Definition mark_paused (run_id reason : string) : M Z :=
  update_run run_id (fun r => is_active r.(ar_status))
    (fun now r => with_paused_reason reason (with_status run_paused now r)).

Definition mark_status (run_id : string) (status : agent_run_status) : M Z :=
  update_run run_id (fun r => is_active r.(ar_status)) (with_status status).

Definition mark_stopped (run_id : string) (u : uuid) : M Z :=
  update_run run_id (fun r => N.eqb r.(ar_user_id) u && is_active r.(ar_status)) (with_status run_cancelled).

(** SELECT ... WHERE continued_from_run_id = :parent; which of several rows
    comes first is left open by SQL, any of them answers the callers. *)
Definition child_of (d : Db) (parent : string) : option (string * AgentRun) :=
  find_first (fun kv => bool_decide (ar_continued_from kv.2 = Some parent)) (map_to_list d.(agent_runs)).

Definition active_child (parent_run_id : string) : M (option (string * AgentRun)) :=
  d ← get_db; mret (child_of d parent_run_id).

Definition cas_resume (run_id : string) : M (option (string * option string)) :=
  d ← get_db;
  n ← update_run run_id (fun r => bool_decide (r.(ar_status) = run_paused)) (with_status run_resumed);
  mret (if n =? 1
        then (fun r => (r.(ar_session_id), r.(ar_model))) <$> (d.(agent_runs) !! run_id)
        else None).

Definition revert_cas (run_id : string) : M Z :=
  d ← get_db;
  match child_of d run_id with
  | Some _ => mret 0
  | None => update_run run_id (fun r => bool_decide (r.(ar_status) = run_resumed)) (with_status run_paused)
  end.

Record OrphanCandidate : Type := mkCandidate {
  oc_run_id : string;
  oc_user_id : uuid;
  oc_snapshot_present : bool;
  oc_heartbeat_age : Z;
  oc_input_tokens : Z;
  oc_output_tokens : Z;
  oc_created_at : instant
}.

Definition older (a b : OrphanCandidate) : Prop := a.(oc_created_at) <= b.(oc_created_at).

#[global] Instance older_dec a b : Decision (older a b).
Proof. unfold older. apply _. Defined.

Definition last_sign (d : Db) (run_id : string) (r : AgentRun) : instant :=
  default r.(ar_created_at) (s ← d.(agent_run_snapshots) !! run_id; s.(sn_consumer_heartbeat_at)).

Definition candidate (d : Db) (now : instant) (run_id : string) (r : AgentRun) : OrphanCandidate :=
  let s := d.(agent_run_snapshots) !! run_id in
  mkCandidate run_id r.(ar_user_id) (bool_decide (is_Some s)) (now - last_sign d run_id r)
    (default 0 (sn_input_tokens <$> s)) (default 0 (sn_output_tokens <$> s)) r.(ar_created_at).

Definition is_orphan (d : Db) (now : instant) (timeout_seconds : Z) (kv : string * AgentRun) : bool :=
  is_active kv.2.(ar_status) && (last_sign d kv.1 kv.2 <? now - timeout_seconds * 1000000).

Definition list_orphan_candidates (timeout_seconds : Z) (limit : nat) : M (list OrphanCandidate) :=
  d ← get_db;
  now ← pg_now;
  mret (take limit (merge_sort older
    (map (fun kv => candidate d now kv.1 kv.2)
       (filter (fun kv => Is_true (is_orphan d now timeout_seconds kv)) (map_to_list d.(agent_runs)))))).
End Runs.

(** ** AgentRunSnapshotsRepository *)

Module Snapshots.
Record SnapshotUpsertResult : Type := mkUpsert { applied : bool; stored_text_length : Z }.

Definition get (run_id : string) (u : uuid) : M (option AgentRunSnapshot) :=
  d ← get_db;
  mret (s ← d.(agent_run_snapshots) !! run_id; if N.eqb s.(sn_user_id) u then Some s else None).

Definition text_length (s : string) : Z := Z.of_nat (String.length s).

(** CASE WHEN char_length(new) >= char_length(old) AND left(new, char_length(old)) = old *)
Definition continue_text (old new : string) : string :=
  if (text_length old <=? text_length new) &&
     String.eqb (String.substring 0 (String.length old) new) old
  then new else old.

Definition run_exists (d : Db) (run_id : string) : bool := bool_decide (is_Some (d.(agent_runs) !! run_id)).

Definition upsert (run_id : string) (u : uuid) (result_text : string) (last_tool : option string)
    (pending_approval : option json) (input_tokens output_tokens : Z) (assert_pending_approval : bool) :
    M SnapshotUpsertResult :=
  input ← int8 input_tokens;
  output ← int8 output_tokens;
  check_constraint (0 <=? input);;
  check_constraint (0 <=? output);;
  d ← get_db;
  now ← pg_now;
  match d.(agent_run_snapshots) !! run_id with
  | None =>
      check_constraint (user_exists d u);;
      check_constraint (run_exists d run_id);;
      modify_db (put_snapshot run_id
        (mkSnapshot u result_text last_tool pending_approval input output now None));;
      mret (mkUpsert true (text_length result_text))
  | Some t =>
      if N.eqb t.(sn_user_id) u then
        let text := continue_text t.(sn_result_text) result_text in
        modify_db (put_snapshot run_id
          (mkSnapshot u text last_tool
             (if assert_pending_approval then pending_approval else t.(sn_pending_approval))
             (Z.max t.(sn_input_tokens) input) (Z.max t.(sn_output_tokens) output) now
             t.(sn_consumer_heartbeat_at)));;
        mret (mkUpsert true (text_length text))
      else mret (mkUpsert false 0)
  end.

Definition touch_consumer_heartbeat (run_id : string) : M Z :=
  d ← get_db;
  now ← pg_now;
  match d.(agent_run_snapshots) !! run_id with
  | None => mret 0
  | Some t =>
      modify_db (put_snapshot run_id
        (mkSnapshot t.(sn_user_id) t.(sn_result_text) t.(sn_last_tool) t.(sn_pending_approval)
           t.(sn_input_tokens) t.(sn_output_tokens) t.(sn_updated_at) (Some now)));;
      mret 1
  end.

Definition ensure_row (run_id : string) (u : uuid) : M unit :=
  d ← get_db;
  now ← pg_now;
  match d.(agent_run_snapshots) !! run_id with
  | Some _ => mret tt
  | None =>
      check_constraint (user_exists d u);;
      check_constraint (run_exists d run_id);;
      modify_db (put_snapshot run_id (mkSnapshot u "" None None 0 0 now None))
  end.

Definition clear_pending_approval (run_id : string) (u : uuid) : M Z :=
  d ← get_db;
  now ← pg_now;
  match d.(agent_run_snapshots) !! run_id with
  | Some t =>
      if N.eqb t.(sn_user_id) u && bool_decide (is_Some t.(sn_pending_approval)) then
        modify_db (put_snapshot run_id
          (mkSnapshot t.(sn_user_id) t.(sn_result_text) t.(sn_last_tool) None
             t.(sn_input_tokens) t.(sn_output_tokens) now t.(sn_consumer_heartbeat_at)));;
        mret 1
      else mret 0
  | None => mret 0
  end.

(** The rows the retention sweep clears. *)
Definition expired (d : Db) (now : instant) (ttl_days : Z) (run_id : string) (t : AgentRunSnapshot) : bool :=
  (t.(sn_updated_at) <? now - ttl_days * 86400 * 1000000) &&
  (negb (String.eqb t.(sn_result_text) "") || bool_decide (is_Some t.(sn_pending_approval))) &&
  match d.(agent_runs) !! run_id with
  | Some r => negb (is_active r.(ar_status))
  | None => false
  end.

Definition cleared (t : AgentRunSnapshot) : AgentRunSnapshot :=
  mkSnapshot t.(sn_user_id) "" t.(sn_last_tool) None t.(sn_input_tokens) t.(sn_output_tokens)
    t.(sn_updated_at) t.(sn_consumer_heartbeat_at).

Definition sweep_expired (ttl_days : Z) : M Z :=
  d ← get_db;
  now ← pg_now;
  modify_db (fun d => set_agent_run_snapshots
    (map_imap (fun k t => Some (if expired d now ttl_days k t then cleared t else t)) d.(agent_run_snapshots)) d);;
  mret (Z.of_nat (length (filter (fun kv => Is_true (expired d now ttl_days kv.1 kv.2))
                            (map_to_list d.(agent_run_snapshots))))).
End Snapshots.

(** ** The lifecycle as a state machine *)

Definition terminal (s : agent_run_status) : bool :=
  match s with run_completed | run_failed | run_cancelled => true | _ => false end.

Inductive transition : agent_run_status -> agent_run_status -> Prop :=
| tr_pause s : is_active s = true -> transition s run_paused
| tr_finish s s' : is_active s = true -> terminal s' = true -> transition s s'
| tr_resume : transition run_paused run_resumed.

(** The statements the service issues against [agent_runs]. *)
Inductive run_op : Type :=
| op_create (run_id : string) (u : uuid) (session_id : string) (model parent : option string)
| op_record_step (run_id : string) (step_index credits : Z)
| op_pause (run_id reason : string)
| op_finish (run_id : string) (s : agent_run_status) (Hs : terminal s = true)
| op_stop (run_id : string) (u : uuid)
| op_cas_resume (run_id : string)
| op_revert_cas (run_id : string).

Definition run_sem (o : run_op) : M unit :=
  match o with
  | op_create r u s m p => Runs.create_running r u s m p run_running
  | op_record_step r s c => Runs.record_step r s c
  | op_pause r reason => _ ← Runs.mark_paused r reason; mret tt
  | op_finish r s _ => _ ← Runs.mark_status r s; mret tt
  | op_stop r u => _ ← Runs.mark_stopped r u; mret tt
  | op_cas_resume r => _ ← Runs.cas_resume r; mret tt
  | op_revert_cas r => _ ← Runs.revert_cas r; mret tt
  end.

(** What one statement may do to a run's row. *)
Record row_step (r r' : AgentRun) : Prop := mkRowStep {
  rs_user : r'.(ar_user_id) = r.(ar_user_id);
  rs_session : r'.(ar_session_id) = r.(ar_session_id);
  rs_parent : r'.(ar_continued_from) = r.(ar_continued_from);
  rs_created : r'.(ar_created_at) = r.(ar_created_at);
  rs_status : r'.(ar_status) = r.(ar_status) \/ transition r.(ar_status) r'.(ar_status);
  rs_billed : r.(ar_last_billed_step) <= r'.(ar_last_billed_step)
}.

Lemma row_step_refl r : row_step r r.
Proof. split; first [done | by left | lia]. Qed.

(** Every run that was there still is, moved by at most one transition. *)
Definition rows_step (d d' : Db) : Prop :=
  forall k r, d.(agent_runs) !! k = Some r -> exists r', d'.(agent_runs) !! k = Some r' /\ row_step r r'.

Lemma rows_step_refl d : rows_step d d.
Proof. intros k r Hr. exists r. split; [done|apply row_step_refl]. Qed.

Lemma rows_step_put d k r r' :
  d.(agent_runs) !! k = Some r -> row_step r r' -> rows_step d (put_run k r' d).
Proof.
  intros Hr Hs k' q Hq. cbn. destruct (decide (k = k')) as [<-|Hne].
  - rewrite lookup_insert_eq. exists r'. split; [done|]. by simplify_eq.
  - rewrite lookup_insert_ne by done. exists q. split; [done|apply row_step_refl].
Qed.

Lemma rows_step_new d k r :
  d.(agent_runs) !! k = None -> rows_step d (put_run k r d).
Proof.
  intros Hn k' q Hq. cbn. rewrite lookup_insert_ne by congruence. exists q. split; [done|apply row_step_refl].
Qed.

Lemma row_step_status r s now : transition r.(ar_status) s -> row_step r (with_status s now r).
Proof. intros H. split; cbn; first [done | by right | lia]. Qed.

Lemma row_step_paused r now reason :
  is_active r.(ar_status) = true -> row_step r (with_paused_reason reason (with_status run_paused now r)).
Proof. intros H. split; cbn; first [done | by right; constructor | lia]. Qed.

(** The conditional UPDATE, in closed form. *)
Lemma update_run_run run_id guard f e w :
  Runs.update_run run_id guard f e w =
  match w.(w_db).(agent_runs) !! run_id with
  | Some r => if guard r then (inr 1, with_db (put_run run_id (f e.(env_pg_now) r) w.(w_db)) w) else (inr 0, w)
  | None => (inr 0, w)
  end.
Proof.
  unfold Runs.update_run. run by done. run by done.
  destruct (_ !! run_id) as [r|]; [|done]. by destruct (guard r).
Qed.

Lemma update_run_step run_id guard f e w :
  (forall r now, guard r = true -> row_step r (f now r)) ->
  rows_step w.(w_db) (Runs.update_run run_id guard f e w).2.(w_db).
Proof.
  intros Hf. rewrite update_run_run. destruct (_ !! run_id) as [r|] eqn:Hr; [|apply rows_step_refl].
  destruct (guard r) eqn:Hg; [|apply rows_step_refl]. cbn. eapply rows_step_put; [exact Hr|by apply Hf].
Qed.

Lemma update_run_total run_id guard f e w : exists n, (Runs.update_run run_id guard f e w).1 = inr n.
Proof. rewrite update_run_run. destruct (_ !! _) as [r|]; [destruct (guard r)|]; by eexists. Qed.

(** Dropping a statement's result. *)
Lemma drop_result {A} (m : M A) e w : (m ≫= (fun _ => mret tt)) e w =
  (match (m e w).1 with inl x => inl x | inr _ => inr tt end, (m e w).2).
Proof. unfold mbind, M_bind. by destruct (m e w) as [[x|a] w']. Qed.

(** A step that only reads or refuses. *)
Lemma rows_step_guard {A B} (m : M A) (k : A -> M B) e w :
  (m e w).2 = w -> (forall a, rows_step w.(w_db) (k a e w).2.(w_db)) ->
  rows_step w.(w_db) ((m ≫= k) e w).2.(w_db).
Proof.
  intros Hm Hk. unfold mbind, M_bind. destruct (m e w) as [[x|a] w']; cbn in Hm; subst w';
    [apply rows_step_refl|apply Hk].
Qed.

Lemma int8_cases z e w : int8 z e w = (inr z, w) \/ int8 z e w = (inl DataError, w).
Proof. unfold int8. destruct (_ && _); [by left|by right]. Qed.

Lemma int8_world z e w : (int8 z e w).2 = w.
Proof. unfold int8. by destruct (_ && _). Qed.

Lemma int4_world z e w : (int4 z e w).2 = w.
Proof. unfold int4. by destruct (_ && _). Qed.

Lemma check_world b e w : (check_constraint b e w).2 = w.
Proof. by destruct b. Qed.

Ltac guards :=
  repeat (apply rows_step_guard; [first [apply int8_world | apply int4_world | apply check_world | done]|intros ?]).

Lemma run_sem_step o e w : rows_step w.(w_db) (run_sem o e w).2.(w_db).
Proof.
  destruct o; cbn [run_sem]; rewrite ?drop_result; cbn [snd].
  - unfold Runs.create_running. run by done. destruct (_ !! run_id) as [r|] eqn:Hr; [apply rows_step_refl|].
    guards. by apply rows_step_new.
  - unfold Runs.record_step. apply rows_step_guard; [apply int4_world|intros step].
    apply rows_step_guard; [apply int8_world|intros c]. run by done. run by done.
    destruct (_ !! run_id) as [r|] eqn:Hr; [|apply rows_step_refl]. guards.
    eapply rows_step_put; [exact Hr|]. split; cbn; first [done | by left | lia].
  - apply update_run_step. intros r now Hg. by apply row_step_paused.
  - apply update_run_step. intros r now Hg. by apply row_step_status, tr_finish.
  - apply update_run_step. intros r now [_ Hg]%andb_prop. by apply row_step_status, tr_finish.
  - unfold Runs.cas_resume. run by done. unfold mbind, M_bind.
    pose proof (update_run_step run_id (fun r => bool_decide (r.(ar_status) = run_paused))
                  (with_status run_resumed) e w) as H.
    destruct (Runs.update_run _ _ _ _ _) as [[x|n] w']; apply H; intros r now Hg; apply row_step_status;
      apply bool_decide_eq_true in Hg as ->; apply tr_resume.
  - unfold Runs.revert_cas. run by done. destruct (Runs.child_of _ _); [apply rows_step_refl|].
    apply update_run_step. intros r now Hg. apply row_step_status. apply bool_decide_eq_true in Hg as ->.
    by apply tr_pause.
Qed.

(** Any sequence of statements, each in its own transaction or not, committed
    or refused. *)
Inductive run_step (d : Db) : Db -> Prop :=
| run_step_op o e w : w.(w_db) = d -> run_step d (run_sem o e w).2.(w_db).

(** The transitions of a row over a history, and what never changes of it. *)
Record row_history (r r' : AgentRun) : Prop := mkRowHistory {
  rh_user : r'.(ar_user_id) = r.(ar_user_id);
  rh_session : r'.(ar_session_id) = r.(ar_session_id);
  rh_parent : r'.(ar_continued_from) = r.(ar_continued_from);
  rh_status : rtc transition r.(ar_status) r'.(ar_status);
  rh_billed : r.(ar_last_billed_step) <= r'.(ar_last_billed_step)
}.

Lemma row_history_step r r1 r2 : row_step r r1 -> row_history r1 r2 -> row_history r r2.
Proof.
  intros [U S P C T B] [U' S' P' T' B']. split; try congruence; [|lia].
  destruct T as [E|T]; [by rewrite <- E|by eapply rtc_l].
Qed.

Lemma history_rows d d' k r :
  rtc run_step d d' -> d.(agent_runs) !! k = Some r ->
  exists r', d'.(agent_runs) !! k = Some r' /\ row_history r r'.
Proof.
  intros H. revert r. induction H as [d|d d1 d2 [o e w <-] _ IH]; intros r Hr.
  { exists r. split; [done|]. by split. }
  destruct (run_sem_step o e w k r Hr) as (r1 & Hr1 & Hs). destruct (IH r1 Hr1) as (r2 & Hr2 & Hh).
  exists r2. split; [done|]. by eapply row_history_step.
Qed.

Lemma terminal_stuck s s' : terminal s = true -> rtc transition s s' -> s' = s.
Proof.
  intros Ht H. destruct H as [|s1 s2 s3 Hstep _]; [done|]. exfalso. destruct Hstep as [s H|s s' H _|]; [by destruct s|by destruct s|done].
Qed.


(** The first terminal status wins.  Once a run is completed, failed or
    cancelled no statement changes its status again, whatever the order in
    which late events and stop requests arrive. *)
Theorem terminal_status_is_final d d' k r :
  rtc run_step d d' -> d.(agent_runs) !! k = Some r -> terminal r.(ar_status) = true ->
  exists r', d'.(agent_runs) !! k = Some r' /\ r'.(ar_status) = r.(ar_status).
Proof.
  intros Hh Hr Ht. destruct (history_rows d d' k r Hh Hr) as (r' & Hr' & H). exists r'. split; [done|].
  by apply terminal_stuck, H.
Qed.

(** ** The resume arbiter *)

Lemma cas_resume_run run_id e w :
  Runs.cas_resume run_id e w =
  match w.(w_db).(agent_runs) !! run_id with
  | Some r =>
      if bool_decide (r.(ar_status) = run_paused)
      then (inr (Some (r.(ar_session_id), r.(ar_model))),
            with_db (put_run run_id (with_status run_resumed e.(env_pg_now) r) w.(w_db)) w)
      else (inr None, w)
  | None => (inr None, w)
  end.
Proof.
  unfold Runs.cas_resume. run by done. unfold mbind at 1, M_bind at 1. rewrite update_run_run.
  destruct (_ !! run_id) as [r|] eqn:Hr; [|done]. by destruct (bool_decide _).
Qed.

(** Several callers, one after the other as the row lock serialises them. *)
Fixpoint cas_race (run_id : string) (callers : list Env) (w : World) :
    list (exn + option (string * option string)) * World :=
  match callers with
  | [] => ([], w)
  | e :: es =>
      let '(r, w1) := Runs.cas_resume run_id e w in
      let '(rs, w2) := cas_race run_id es w1 in
      (r :: rs, w2)
  end.

Lemma cas_race_lost run_id es w r :
  w.(w_db).(agent_runs) !! run_id = Some r -> r.(ar_status) <> run_paused ->
  cas_race run_id es w = (replicate (length es) (inr None), w).
Proof.
  intros Hr Hs. induction es as [|e es IH]; [done|]. cbn [cas_race length replicate].
  by rewrite cas_resume_run, Hr, bool_decide_false, IH.
Qed.

(** Exactly one of any number of concurrent resume requests wins a paused
    run; it gets the run's session and model, the others get nothing, and the
    run ends up resumed. *)
Theorem one_resume_wins run_id e es w r :
  w.(w_db).(agent_runs) !! run_id = Some r -> r.(ar_status) = run_paused ->
  exists w', cas_race run_id (e :: es) w =
    (inr (Some (r.(ar_session_id), r.(ar_model))) :: replicate (length es) (inr None), w') /\
    w'.(w_db) = put_run run_id (with_status run_resumed e.(env_pg_now) r) w.(w_db).
Proof.
  intros Hr Hs. cbn [cas_race]. rewrite cas_resume_run, Hr, bool_decide_true by done.
  erewrite cas_race_lost; [by eexists| |].
  - cbn. by rewrite lookup_insert_eq.
  - done.
Qed.

(** ** Snapshots *)

Lemma substring_prefix a b : String.substring 0 (String.length a) b = a -> exists t, b = (a ++ t)%string.
Proof.
  revert b. induction a as [|c a IH]; intros b; [by exists b|].
  destruct b as [|c' b]; cbn; [done|]. intros [= -> H]. destruct (IH b H) as [t ->]. by exists t.
Qed.

Lemma substring_app a t : String.substring 0 (String.length a) (a ++ t)%string = a.
Proof.
  induction a as [|c a IH]; [by destruct t|]. rewrite Str.app_cons. cbn. by rewrite IH.
Qed.

(** The text guard keeps the stored text as a prefix, and accepts exactly the
    continuations. *)
Lemma continue_text_extends old new : exists t, Snapshots.continue_text old new = (old ++ t)%string.
Proof.
  unfold Snapshots.continue_text. destruct (_ <=? _); cbn [andb]; [|exists ""; by rewrite Str.app_nil_r].
  destruct (String.eqb_spec (String.substring 0 (String.length old) new) old) as [E|E];
    [by apply substring_prefix|exists ""; by rewrite Str.app_nil_r].
Qed.

Lemma string_length_app a b : String.length (a ++ b)%string = (String.length a + String.length b)%nat.
Proof. induction a as [|c a IH]; [done|]. rewrite Str.app_cons. cbn. by rewrite IH. Qed.

Lemma continue_text_accepts old t : Snapshots.continue_text old (old ++ t)%string = (old ++ t)%string.
Proof.
  unfold Snapshots.continue_text. rewrite substring_app, String.eqb_refl.
  unfold Snapshots.text_length. rewrite string_length_app, (proj2 (Z.leb_le _ _)) by lia. done.
Qed.

Definition snapshot_grows (t t' : AgentRunSnapshot) : Prop :=
  t'.(sn_user_id) = t.(sn_user_id) /\ (exists s, t'.(sn_result_text) = (t.(sn_result_text) ++ s)%string) /\
  t.(sn_input_tokens) <= t'.(sn_input_tokens) /\ t.(sn_output_tokens) <= t'.(sn_output_tokens) /\
  t'.(sn_consumer_heartbeat_at) = t.(sn_consumer_heartbeat_at).

(** A snapshot never loses what it holds.  Whatever a relay flushes, the
    stored text is kept as a prefix and grows by exactly a continuation, the
    token counters never decrease, the heartbeat column is not touched, and a
    writer who is not the owner changes nothing and is told so. *)
Theorem upsert_keeps_snapshot run_id u text tool appr inp out assert_appr e w t :
  w.(w_db).(agent_run_snapshots) !! run_id = Some t ->
  let '(r, w') := Snapshots.upsert run_id u text tool appr inp out assert_appr e w in
  (exists t', w'.(w_db).(agent_run_snapshots) !! run_id = Some t' /\ snapshot_grows t t') /\
  (forall res, r = inr res ->
     if N.eqb t.(sn_user_id) u
     then res = Snapshots.mkUpsert true (Snapshots.text_length (Snapshots.continue_text t.(sn_result_text) text))
     else res = Snapshots.mkUpsert false 0 /\ w' = w).
Proof.
  intros Ht.
  assert (Hstay : exists t', w.(w_db).(agent_run_snapshots) !! run_id = Some t' /\ snapshot_grows t t').
  { exists t. split; [done|]. unfold snapshot_grows. split_and!; try done; try lia.
    exists "". by rewrite Str.app_nil_r. }
  unfold Snapshots.upsert.
  destruct (int8_cases inp e w) as [Hin|Hin]; [run by exact Hin|fails by exact Hin; done].
  destruct (int8_cases out e w) as [Hout|Hout]; [run by exact Hout|fails by exact Hout; done].
  destruct (0 <=? inp) eqn:H1; [run by done|fails by done; done].
  destruct (0 <=? out) eqn:H2; [run by done|fails by done; done].
  run by done. run by done. rewrite Ht. destruct (N.eqb t.(sn_user_id) u) eqn:Hown.
  - apply N.eqb_eq in Hown. run by done. cbn. rewrite lookup_insert_eq. split; [|by intros res [= <-]].
    eexists. split; [done|]. unfold snapshot_grows. cbn.
    destruct (continue_text_extends t.(sn_result_text) text) as [s ->]. split_and!; try done; try lia. by exists s.
  - split; [done|]. by intros res [= <-].
Qed.

(** ** Retention *)

Definition swept (d : Db) (now : instant) (ttl : Z) (k : string) (t : AgentRunSnapshot) : AgentRunSnapshot :=
  if Snapshots.expired d now ttl k t then Snapshots.cleared t else t.

Lemma sweep_run ttl e w :
  Snapshots.sweep_expired ttl e w =
  (inr (Z.of_nat (length (filter (fun kv => Is_true (Snapshots.expired w.(w_db) e.(env_pg_now) ttl kv.1 kv.2))
                            (map_to_list w.(w_db).(agent_run_snapshots))))),
   with_db (set_agent_run_snapshots
     (map_imap (fun k t => Some (swept w.(w_db) e.(env_pg_now) ttl k t)) w.(w_db).(agent_run_snapshots)) w.(w_db)) w).
Proof. done. Qed.

Lemma swept_not_expired d d' now ttl k t :
  d'.(agent_runs) = d.(agent_runs) -> Snapshots.expired d' now ttl k (swept d now ttl k t) = false.
Proof.
  intros Hd. unfold swept. destruct (Snapshots.expired d now ttl k t) eqn:E.
  - unfold Snapshots.expired, Snapshots.cleared. cbn. by rewrite andb_false_r.
  - unfold Snapshots.expired in *. by rewrite Hd.
Qed.

Lemma sweep_noop d now ttl :
  (forall k t, d.(agent_run_snapshots) !! k = Some t -> Snapshots.expired d now ttl k t = false) ->
  map_imap (fun k t => Some (swept d now ttl k t)) d.(agent_run_snapshots) = d.(agent_run_snapshots).
Proof.
  intros Hn. apply map_eq. intros k. rewrite map_lookup_imap.
  destruct (_ !! k) as [t|] eqn:Hk; [|done]. cbn. unfold swept. by rewrite (Hn k t Hk).
Qed.

(** The retention sweep is idempotent and gentle.  A second pass at the
    same time reports zero rows and changes nothing; a pass clears only the
    text and the pending approval, keeps [updated_at], and leaves the snapshots
    of active runs exactly as they were. *)
Theorem sweep_is_idempotent ttl e w :
  let '(_, w') := Snapshots.sweep_expired ttl e w in
  (exists w'', Snapshots.sweep_expired ttl e w' = (inr 0, w'') /\
     w''.(w_db).(agent_run_snapshots) = w'.(w_db).(agent_run_snapshots)) /\
  forall k t, w.(w_db).(agent_run_snapshots) !! k = Some t ->
    exists t', w'.(w_db).(agent_run_snapshots) !! k = Some t' /\
      (t' = t \/ t' = Snapshots.cleared t) /\ t'.(sn_updated_at) = t.(sn_updated_at) /\
      (forall r, w.(w_db).(agent_runs) !! k = Some r -> is_active r.(ar_status) = true -> t' = t).
Proof.
  rewrite sweep_run. set (d' := set_agent_run_snapshots _ _). set (w' := with_db d' w).
  assert (Hnone : forall k t, d'.(agent_run_snapshots) !! k = Some t ->
            Snapshots.expired d' e.(env_pg_now) ttl k t = false).
  { intros k t H. cbn in H. rewrite map_lookup_imap in H. apply bind_Some in H as (t0 & _ & [= <-]).
    by apply swept_not_expired. }
  split.
  - eexists. rewrite sweep_run. split.
    + f_equal. f_equal. change 0 with (Z.of_nat 0). f_equal. apply length_zero_iff_nil.
      apply filter_none. intros [k t] Hin%elem_of_map_to_list. cbn. rewrite (Hnone k t Hin). by intros [].
    + by apply sweep_noop.
  - intros k t Hk. exists (swept w.(w_db) e.(env_pg_now) ttl k t). cbn. rewrite map_lookup_imap, Hk. cbn.
    split; [done|]. unfold swept. destruct (Snapshots.expired _ _ _ k t) eqn:E.
    + split_and!; [by right|done|]. intros r Hr Ha. unfold Snapshots.expired in E.
      rewrite Hr, Ha, andb_false_r in E. done.
    + split_and!; [by left|done|done].
Qed.

(** ** A run of Alice's, for the witnesses *)

Definition demo_run (s : agent_run_status) : AgentRun :=
  mkAgentRun alice "sess-1" s 0 0 None None (Some "m") 1700000000000000 1700000000000000.
Definition demo_snapshot : AgentRunSnapshot := mkSnapshot alice "Hel" None None 10 2 1700000000000000 None.
Definition run_world (s : agent_run_status) : World :=
  world_of (put_snapshot "r1" demo_snapshot (put_run "r1" (demo_run s) demo_db)).

(** Pausing a running run, then finishing it too late. *)
Definition paused_then_completed : Db :=
  (run_sem (op_finish "r1" run_completed eq_refl) demo_env
     (run_sem (op_pause "r1" "credits_exhausted") demo_env (run_world run_running)).2).2.(w_db).


Lemma terminal_status_is_final_witness :
  exists r', (run_sem (op_stop "r1" alice) demo_env (run_world run_failed)).2.(w_db).(agent_runs) !! "r1" = Some r' /\
             r'.(ar_status) = run_failed.
Proof.
  apply (terminal_status_is_final (run_world run_failed).(w_db) _ "r1" (demo_run run_failed)); [|reflexivity..].
  apply rtc_once. by apply run_step_op.
Defined.

Lemma one_resume_wins_witness :
  exists w', cas_race "r1" [demo_env; demo_env; demo_env] (run_world run_paused) =
    ([inr (Some ("sess-1", Some "m")); inr None; inr None], w') /\
    w'.(w_db) = put_run "r1" (with_status run_resumed 1700000000000000 (demo_run run_paused)) (run_world run_paused).(w_db).
Proof.
  apply (one_resume_wins "r1" demo_env [demo_env; demo_env] (run_world run_paused) (demo_run run_paused)); reflexivity.
Defined.

Lemma upsert_keeps_snapshot_witness :
  let '(r, w') := Snapshots.upsert "r1" bob "Mallory" None None 99 99 true demo_env (run_world run_running) in
  (exists t', w'.(w_db).(agent_run_snapshots) !! "r1" = Some t' /\ snapshot_grows demo_snapshot t') /\
  (forall res, r = inr res -> res = Snapshots.mkUpsert false 0 /\ w' = run_world run_running).
Proof.
  apply (upsert_keeps_snapshot "r1" bob "Mallory" None None 99 99 true demo_env (run_world run_running) demo_snapshot).
  reflexivity.
Defined.
