(* ===== verification/Usage.v ===== *)
(** * Reading the agent's events

    Models the pure readers of [src/app/agent_proxy/service.py] (the SSE block
    parser, the event name, the text, tool and approval carriers, the token
    counts of a usage payload) and [src/app/agent_proxy/billing.py] (tokens to
    credits in binary64 arithmetic). *)

From Stdlib Require Import SpecFloat Ascii String.
From S2P Require Import Prelude PyVal Redaction Store Fixtures.

Open Scope string_scope.
Open Scope list_scope.
Open Scope Z_scope.

(** ** Floats *)

Definition fprec : Z := 53.
Definition femax : Z := 1024.

(** [float(z)]: [None] is [OverflowError]. *)
Definition float_of_int (z : Z) : option spec_float :=
  match binary_normalize fprec femax z 0 false with
  | S754_infinity _ => None
  | f => Some f
  end.

Definition fdiv := SFdiv fprec femax.
Definition fmul := SFmul fprec femax.
Definition fadd := SFadd fprec femax.

(** The value of a finite float rounded up, or toward zero. *)
Definition ceil_dyadic (m e : Z) : Z := if 0 <=? e then m * 2 ^ e else - ((- m) / 2 ^ (- e)).
Definition trunc_dyadic (m e : Z) : Z := if 0 <=? e then m * 2 ^ e else Z.quot m (2 ^ (- e)).

Definition signed_mantissa (s : bool) (m : positive) : Z := if s then Zneg m else Zpos m.

(** [math.ceil(f)] *)
Definition math_ceil (f : spec_float) : exn + Z :=
  match f with
  | S754_zero _ => inr 0
  | S754_infinity _ => inl OverflowError
  | S754_nan => inl ValueError
  | S754_finite s m e => inr (ceil_dyadic (signed_mantissa s m) e)
  end.

(** [int(f)] *)
Definition int_of_float (f : spec_float) : exn + Z :=
  match f with
  | S754_zero _ => inr 0
  | S754_infinity _ => inl OverflowError
  | S754_nan => inl ValueError
  | S754_finite s m e => inr (trunc_dyadic (signed_mantissa s m) e)
  end.

(** ** Tokens to credits *)

Definition thousand : spec_float := S754_finite false 8796093022208000 (-43).

Definition cost_term (tokens : Z) (rate : spec_float) : exn + spec_float :=
  match float_of_int tokens with
  | None => inl OverflowError
  | Some f => inr (fmul (fdiv f thousand) rate)
  end.

Definition usage_to_credits (input_tokens output_tokens : Z) (credits_per_1k_input credits_per_1k_output : spec_float) :
    exn + Z :=
  let safe_input := Z.max input_tokens 0 in
  let safe_output := Z.max output_tokens 0 in
  if (safe_input =? 0) && (safe_output =? 0) then inr 0
  else
    match cost_term safe_input credits_per_1k_input with
    | inl x => inl x
    | inr a =>
        match cost_term safe_output credits_per_1k_output with
        | inl x => inl x
        | inr b =>
            match math_ceil (fadd a b) with
            | inl x => inl x
            | inr amount => inr (Z.max amount 1)
            end
        end
    end.

(** ** SSE blocks *)

Record SseEvent : Type := mkSseEvent { sse_name : option string; sse_data : dict }.

Definition newline : ascii := "010".

(** [s[len(p):]] after [s.startswith(p)]. *)
Definition after_prefix (p s : string) : option string :=
  if Str.startswith p s
  then Some (substring (String.length p) (String.length s - String.length p) s) else None.

Section sse.
(** [line.decode("utf-8")] and [json.loads]. *)
Context (decode : string -> option string) (loads : string -> option json).

(** The loop over the lines of a block: the name so far and the data lines,
    newest first. *)
Definition sse_line (acc : option string * list string) (line_bytes : string) : option string * list string :=
  match decode line_bytes with
  | None => acc
  | Some line =>
      if Str.startswith ":" line then acc
      else match after_prefix "event:" line with
           | Some rest => (Some (Str.strip rest), acc.2)
           | None =>
               match after_prefix "data:" line with
               | Some rest => (acc.1, Str.strip rest :: acc.2)
               | None => acc
               end
           end
  end.

Definition _parse_sse_block (block : string) : SseEvent :=
  let '(name, data_lines) := fold_left sse_line (Str.split newline block) (None, []) in
  let data :=
    match data_lines with
    | [] => []
    | _ => match loads (Str.join (String newline "") (rev data_lines)) with
           | Some (JObj d) => d
           | _ => []
           end
    end in
  mkSseEvent name data.
End sse.

Definition _event_name (event : SseEvent) : option string :=
  match event.(sse_name) with
  | Some (String c s) => Some (String c s)
  | _ =>
      match dict_get event.(sse_data) "type" with
      | JStr v => Some v
      | _ => match dict_get event.(sse_data) "event" with JStr v => Some v | _ => None end
      end
  end.

(** First key of [keys] whose value in [d] is a non-empty string. *)
Fixpoint first_text (d : dict) (keys : list string) : option string :=
  match keys with
  | [] => None
  | k :: ks =>
      match dict_get d k with
      | JStr s => if Str.nonempty s then Some s else first_text d ks
      | _ => first_text d ks
      end
  end.

Definition _as_event_text (value : json) : option string :=
  match value with
  | JStr s => if Str.nonempty s then Some s else None
  | JObj d => first_text d ["text"; "content"; "value"]
  | _ => None
  end.

Fixpoint tool_name_from (d : dict) (keys : list string) : option string :=
  match keys with
  | [] => None
  | k :: ks =>
      match dict_get d k with
      | JStr s => if Str.nonempty s then Some s else tool_name_from d ks
      | JObj nested =>
          match first_text nested ["name"; "tool"; "tool_name"] with
          | Some s => Some s
          | None => tool_name_from d ks
          end
      | _ => tool_name_from d ks
      end
  end.

Definition _extract_tool_name (event : SseEvent) : option string :=
  tool_name_from event.(sse_data) ["tool"; "tool_name"; "name"].

Fixpoint event_text_from (d : dict) (keys : list string) : option string :=
  match keys with
  | [] => None
  | k :: ks =>
      match _as_event_text (dict_get d k) with
      | Some s => Some s
      | None => event_text_from d ks
      end
  end.

Definition _extract_approval_preview (event : SseEvent) : option string :=
  event_text_from event.(sse_data) ["preview"; "description"; "summary"].

Definition _DELTA_TEXT_KEYS : list string := ["text"; "delta"; "content"].

Definition _extract_delta_text (event : SseEvent) : string :=
  default "" (event_text_from event.(sse_data) _DELTA_TEXT_KEYS).

Definition _extract_model (event : SseEvent) : option string := as_str (dict_get event.(sse_data) "model").

Definition is_terminal_event (event : SseEvent) : bool :=
  match _event_name event with
  | Some n => str_in n ["run.completed"; "run.failed"; "run.paused"]
  | None => false
  end.

(** ** Token counts *)

(** [_as_int_or_none]: a float is truncated, which raises on NaN and infinities. *)
Definition _as_int_or_none (value : json) : exn + option Z :=
  match value with
  | JInt z => inr (Some z)
  | JFloat f => match int_of_float f with inl x => inl x | inr z => inr (Some z) end
  | _ => inr None
  end.

Definition _as_int (value : json) : exn + Z :=
  match _as_int_or_none value with inl x => inl x | inr o => inr (default 0 o) end.

Record UsageCounts : Type := mkUsage {
  uc_input_tokens : Z;
  uc_output_tokens : Z;
  uc_total_tokens : Z;
  uc_recognised : bool;
  uc_partial : bool;
  uc_sources : list string;
  uc_divergent : bool;
  uc_non_monotonic : bool
}.

Record FieldSet : Type := mkFieldSet { fs_name : string; fs_input : string; fs_output : string; fs_total : string }.

Definition _USAGE_FIELD_SETS : list FieldSet :=
  [mkFieldSet "cumulative" "cumulative_input_tokens" "cumulative_output_tokens" "cumulative_total_tokens";
   mkFieldSet "per_step" "input_tokens" "output_tokens" "total_tokens"].

(** A carrier and field set that gave both counts. *)
Record FullMatch : Type := mkFull {
  fm_set : string; fm_label : string; fm_input : Z; fm_output : Z; fm_total : Z
}.

Definition carriers (event : SseEvent) : list (string * dict) :=
  match dict_get event.(sse_data) "usage" with
  | JObj u => [("usage", u); ("top", event.(sse_data))]
  | _ => [("top", event.(sse_data))]
  end.

Definition probes (event : SseEvent) : list (FieldSet * (string * dict)) :=
  fs ← _USAGE_FIELD_SETS; c ← carriers event; [(fs, c)].

Definition probe_label (fs : FieldSet) (carrier : string) : string := (carrier ++ "." ++ fs.(fs_name))%string.

(** What one probe contributes. *)
Inductive probe_result : Type :=
| probe_none
| probe_partial (i o : option Z)
| probe_full (i o : Z).

Definition probe (fs : FieldSet) (source : dict) : exn + probe_result :=
  match _as_int_or_none (dict_get source fs.(fs_input)) with
  | inl x => inl x
  | inr i =>
      match _as_int_or_none (dict_get source fs.(fs_output)) with
      | inl x => inl x
      | inr o =>
          inr match i, o with
              | None, None => probe_none
              | Some i, Some o => probe_full i o
              | i, o => probe_partial i o
              end
      end
  end.

(** The double loop: full matches in order and the first partial one. *)
Fixpoint collect (ps : list (FieldSet * (string * dict))) (full : list FullMatch) (partial : option UsageCounts) :
    exn + (list FullMatch * option UsageCounts) :=
  match ps with
  | [] => inr (full, partial)
  | (fs, (carrier, source)) :: ps' =>
      match probe fs source with
      | inl x => inl x
      | inr probe_none => collect ps' full partial
      | inr (probe_partial i o) =>
          match partial with
          | Some _ => collect ps' full partial
          | None =>
              match _as_int (dict_get source fs.(fs_total)) with
              | inl x => inl x
              | inr total =>
                  collect ps' full
                    (Some (mkUsage (default 0 i) (default 0 o) total true true
                             [probe_label fs carrier] false false))
              end
          end
      | inr (probe_full i o) =>
          match _as_int (dict_get source fs.(fs_total)) with
          | inl x => inl x
          | inr total =>
              collect ps' (full ++ [mkFull fs.(fs_name) (probe_label fs carrier) i o total]) partial
          end
      end
  end.

(** [max(...)] of a non-empty list. *)
Definition max_of (f : FullMatch -> Z) (m : FullMatch) (ms : list FullMatch) : Z :=
  fold_left (fun acc x => Z.max acc (f x)) ms (f m).

Definition in_set (name : string) (m : FullMatch) : bool := String.eqb m.(fm_set) name.

(** Two full matches of one field set with different values. *)
Definition divergent (full : list FullMatch) : bool :=
  existsb (fun a => existsb (fun b =>
    String.eqb a.(fm_set) b.(fm_set) &&
    negb ((a.(fm_input) =? b.(fm_input)) && (a.(fm_output) =? b.(fm_output)))) full) full.

Definition non_monotonic (full : list FullMatch) : bool :=
  match List.filter (in_set "per_step") full, List.filter (in_set "cumulative") full with
  | p :: ps, c :: cs =>
      (max_of fm_input c cs <? max_of fm_input p ps) || (max_of fm_output c cs <? max_of fm_output p ps)
  | _, _ => false
  end.

Definition _extract_usage_counts (event : SseEvent) : exn + UsageCounts :=
  match collect (probes event) [] None with
  | inl x => inl x
  | inr (m :: ms, _) =>
      inr (mkUsage (max_of fm_input m ms) (max_of fm_output m ms) (max_of fm_total m ms) true false
             (map fm_label (m :: ms)) (divergent (m :: ms)) (non_monotonic (m :: ms)))
  | inr ([], Some p) => inr p
  | inr ([], None) => inr (mkUsage 0 0 0 false false [] false false)
  end.

(** ** The billing gate *)

Definition _USAGE_GATE_MAX_DEPTH : nat := 4.

Definition _is_empty_value (v : json) : bool :=
  match v with
  | JNull => true
  | JStr "" | JArr [] | JObj [] => true
  | _ => false
  end.

Fixpoint _mentions_usage (depth : nat) (node : json) : bool :=
  match depth with
  | O => false
  | S depth' =>
      match node with
      | JObj d =>
          existsb (fun kv =>
            let lowered := Str.lower kv.1 in
            Str.contains "token" lowered ||
            (Str.contains "usage" lowered && negb (_is_empty_value kv.2)) ||
            _mentions_usage depth' kv.2) d
      | JArr l => existsb (_mentions_usage depth') l
      | _ => false
      end
  end.

Definition _is_provably_usage_free (event : SseEvent) : bool :=
  negb (_mentions_usage _USAGE_GATE_MAX_DEPTH (JObj event.(sse_data))).

(** ** Properties of the conversion *)

(** The price of a run.  Whatever the rates, a run with no positive token
    count is free, any other run costs at least one credit, and negative counts
    cost nothing. *)
Theorem usage_to_credits_floor i o ri ro :
  match usage_to_credits i o ri ro with
  | inr n => (n = 0 <-> i <= 0 /\ o <= 0) /\ 0 <= n
  | inl x => (0 < i \/ 0 < o) /\ (x = OverflowError \/ x = ValueError)
  end.
Proof.
  unfold usage_to_credits. cbv zeta.
  destruct ((Z.max i 0 =? 0) && (Z.max o 0 =? 0)) eqn:E; zify_bool; [lia|].
  assert (Hpos : 0 < i \/ 0 < o) by (apply andb_false_iff in E as [?|?]; zify_bool; lia).
  unfold cost_term. destruct (float_of_int (Z.max i 0)); [|auto].
  destruct (float_of_int (Z.max o 0)); [|auto].
  destruct (fadd _ _) as [sg|sg| |sg m ex]; cbn [math_ceil]; try (split; lia); auto.
Qed.

(** Rounding the binary64 sum up is not rounding the cost up: at the
    default rates 25 input and 1195 output tokens cost exactly 6 credits, and
    the run is billed 7. *)
Theorem usage_to_credits_overcharges :
  25 * 1 + 1195 * 5 = 6 * 1000 /\ usage_to_credits 25 1195 float_1 float_5 = inr 7.
Proof. vm_compute. done. Qed.

(** ** Properties of the usage reader *)

Lemma collect_full_keeps ps : forall full partial full' partial',
  collect ps full partial = inr (full', partial') -> full `prefix_of` full'.
Proof.
  induction ps as [|[fs [c src]] ps IH]; intros full partial full' partial' H; cbn in H; [by simplify_eq|].
  repeat case_match_hyp H; try done; apply IH in H; eauto.
  etrans; [|exact H]. by exists [mkFull (fs_name fs) (probe_label fs c) i o z].
Qed.

(** Every complete reading is among the matches that are folded. *)
Lemma collect_complete ps : forall full partial full' partial' fs c src i o,
  collect ps full partial = inr (full', partial') ->
  (fs, (c, src)) ∈ ps -> probe fs src = inr (probe_full i o) ->
  exists m, m ∈ full' /\ m.(fm_input) = i /\ m.(fm_output) = o.
Proof.
  induction ps as [|[fs0 [c0 src0]] ps IH]; intros full partial full' partial' fs c src i o H Hin Hp.
  { by apply not_elem_of_nil in Hin. }
  apply elem_of_cons in Hin as [Heq|Hin].
  - injection Heq as <- <- <-. cbn in H. rewrite Hp in H.
    destruct (_as_int _) as [x|total]; [done|]. apply collect_full_keeps in H as [rest ->].
    eexists. split; [apply elem_of_app; left; apply elem_of_app; right; left|done].
  - cbn in H. repeat case_match_hyp H; try done; by eapply IH.
Qed.

(** Every folded match is a complete reading of some carrier. *)
Lemma collect_sound ps : forall full partial full' partial' m,
  collect ps full partial = inr (full', partial') -> m ∈ full' ->
  m ∈ full \/ exists fs c src, (fs, (c, src)) ∈ ps /\ probe fs src = inr (probe_full m.(fm_input) m.(fm_output)).
Proof.
  induction ps as [|[fs [c src]] ps IH]; intros full partial full' partial' m H Hm; cbn in H.
  { simplify_eq. by left. }
  assert (Hlater : forall f p, collect ps f p = inr (full', partial') ->
    m ∈ f \/ exists fs0 c0 src0, (fs0, (c0, src0)) ∈ (fs, (c, src)) :: ps /\
      probe fs0 src0 = inr (probe_full m.(fm_input) m.(fm_output))).
  { intros f p Hf. destruct (IH f p full' partial' m Hf Hm) as [?|(f0 & c0 & s0 & Hin & Hp)]; [by left|].
    right. exists f0, c0, s0. split; [by right|done]. }
  destruct (probe fs src) as [x|[|i o|i o]] eqn:Hp; [done|by apply Hlater in H| |].
  - destruct partial; [by apply Hlater in H|]. destruct (_as_int _); [done|]. by apply Hlater in H.
  - destruct (_as_int _) as [x|total]; [done|]. apply Hlater in H as [[Hf| ->%list_elem_of_singleton]%elem_of_app|H];
      [by left| |by right].
    right. exists fs, c, src. split; [left|done].
Qed.

Lemma max_of_ge f m ms x : x ∈ m :: ms -> f x <= max_of f m ms.
Proof.
  unfold max_of. intros Hx.
  assert (Hacc : forall l a, a <= fold_left (fun acc y => Z.max acc (f y)) l a).
  { intros l. induction l as [|y l IH]; intros a; cbn; [lia|]. specialize (IH (Z.max a (f y))). lia. }
  apply elem_of_cons in Hx as [->|Hx]; [apply Hacc|].
  generalize (f m). induction ms as [|y ms IH]; intros a; [by apply not_elem_of_nil in Hx|].
  cbn. apply elem_of_cons in Hx as [->|Hx]; [|by apply IH].
  specialize (Hacc ms (Z.max a (f y))). lia.
Qed.

Lemma max_of_in f m ms : exists x, x ∈ m :: ms /\ max_of f m ms = f x.
Proof.
  unfold max_of. assert (H : forall l a, fold_left (fun acc y => Z.max acc (f y)) l a = a \/
    exists x, x ∈ l /\ fold_left (fun acc y => Z.max acc (f y)) l a = f x).
  { intros l. induction l as [|y l IH]; intros a; cbn; [by left|].
    destruct (IH (Z.max a (f y))) as [->|(x & Hx & ->)]; [|right; exists x; split; [by right|done]].
    destruct (Z.max_spec a (f y)) as [[_ ->]|[_ ->]]; [right; exists y; split; [left|done]|by left]. }
  destruct (H ms (f m)) as [->|(x & Hx & ->)]; [exists m; split; [left|done]|exists x; split; [by right|done]].
Qed.

(** No carrier of token counts can hide another.  When some carrier of the
    event gives both counts, the reading is recognised and complete, each count
    is at least that carrier's, and each count is one that some carrier really
    reports: a zeroed carrier never shadows a populated one and no count is
    invented. *)
Theorem usage_reading_dominates event u fs c src i o :
  _extract_usage_counts event = inr u ->
  (fs, (c, src)) ∈ probes event -> probe fs src = inr (probe_full i o) ->
  uc_recognised u = true /\ uc_partial u = false /\ i <= uc_input_tokens u /\ o <= uc_output_tokens u /\
  (exists fs' c' src' o', (fs', (c', src')) ∈ probes event /\ probe fs' src' = inr (probe_full (uc_input_tokens u) o')) /\
  (exists fs' c' src' i', (fs', (c', src')) ∈ probes event /\ probe fs' src' = inr (probe_full i' (uc_output_tokens u))).
Proof.
  unfold _extract_usage_counts. intros H Hin Hp.
  destruct (collect (probes event) [] None) as [x|[full partial]] eqn:Hc; [done|].
  destruct (collect_complete _ _ _ _ _ _ _ _ _ _ Hc Hin Hp) as (m & Hm & <- & <-).
  destruct full as [|m0 ms]; [by apply not_elem_of_nil in Hm|]. injection H as <-. cbn.
  assert (Hsrc : forall x, x ∈ m0 :: ms -> exists fs c src, (fs, (c, src)) ∈ probes event /\
            probe fs src = inr (probe_full x.(fm_input) x.(fm_output))).
  { intros x Hx. destruct (collect_sound _ _ _ _ _ x Hc Hx) as [?%not_elem_of_nil|?]; done. }
  split_and!; [done|done|by apply max_of_ge|by apply max_of_ge| |].
  - destruct (max_of_in fm_input m0 ms) as (x & Hx & ->). destruct (Hsrc x Hx) as (f & c' & s & H1 & H2).
    by exists f, c', s, (fm_output x).
  - destruct (max_of_in fm_output m0 ms) as (x & Hx & ->). destruct (Hsrc x Hx) as (f & c' & s & H1 & H2).
    by exists f, c', s, (fm_input x).
Qed.

Definition mixed_usage : SseEvent :=
  mkSseEvent (Some "run.completed")
    [("usage", JObj [("input_tokens", JInt 6313); ("output_tokens", JInt 658)]);
     ("cumulative_input_tokens", JInt 0); ("cumulative_output_tokens", JInt 0)].

Lemma usage_reading_dominates_witness :
  exists u, _extract_usage_counts mixed_usage = inr u /\ 6313 <= uc_input_tokens u.
Proof.
  eexists. split; [vm_compute; reflexivity|].
  eapply (usage_reading_dominates mixed_usage _
            (mkFieldSet "per_step" "input_tokens" "output_tokens" "total_tokens") "usage"
            [("input_tokens", JInt 6313); ("output_tokens", JInt 658)] 6313 658).
  - vm_compute. reflexivity.
  - do 2 right. left.
  - reflexivity.
Defined.
