(* ===== verification/Sse.v ===== *)
(** * Splitting an event stream into blocks

    Models [_iter_sse_blocks] of [src/app/agent_proxy/service.py], the reader
    that the relay and the background consumer share: chunks of bytes come in as
    the network cut them, blocks go out at every blank line.  The theorem says
    that the cuts do not matter and that no byte is lost. *)

From Stdlib Require Import Ascii String.
From S2P Require Import Prelude PyVal Usage.

Open Scope string_scope.
Open Scope list_scope.
Open Scope Z_scope.

(** [b"\n\n"] *)
Definition separator : string := String newline (String newline "").

(** [buffer.split(b"\n\n", 1)] when the separator occurs. *)
Fixpoint split_once_at (buffer : string) : option (string * string) :=
  match buffer with
  | String c ((String d tail) as rest) =>
      if Ascii.eqb c newline && Ascii.eqb d newline then Some ("", tail)
      else (fun p => (String c p.1, p.2)) <$> split_once_at rest
  | _ => None
  end.

(** The inner [while]: the blocks that are complete and the rest of the buffer.
    Every turn takes at least the separator away, so the length of the buffer is
    fuel enough ([take_blocks_enough]). *)
Fixpoint take_blocks (fuel : nat) (buffer : string) : list string * string :=
  match fuel, split_once_at buffer with
  | S fuel, Some (block, rest) => let '(blocks, last) := take_blocks fuel rest in (block :: blocks, last)
  | _, _ => ([], buffer)
  end.

Definition blocks_of (buffer : string) : list string * string := take_blocks (String.length buffer) buffer.

(** The outer loop over [response.aiter_bytes()]. *)
Fixpoint feed (buffer : string) (chunks : list string) : list string * string :=
  match chunks with
  | [] => ([], buffer)
  | chunk :: rest =>
      let '(blocks, buffer) := blocks_of (buffer ++ chunk)%string in
      let '(more, last) := feed buffer rest in
      (blocks ++ more, last)
  end.

(** [bytes.strip()] leaves nothing. *)
Fixpoint blank (s : string) : bool :=
  match s with
  | EmptyString => true
  | String c rest =>
      let n := N_of_ascii c in
      (((9 <=? n)%N && (n <=? 13)%N) || (n =? 32)%N) && blank rest
  end.

Section iter.
Context (decode : string -> option string) (loads : string -> option json).

Definition _iter_sse_blocks (chunks : list string) : list (SseEvent * string) :=
  let '(blocks, last) := feed "" chunks in
  ((fun b => (_parse_sse_block decode loads b, (b ++ separator)%string)) <$> blocks) ++
  if blank last then [] else [(_parse_sse_block decode loads last, last)].
End iter.

(** [b"".join(chunks)] *)
Definition glue (chunks : list string) : string := foldr String.append "" chunks.

(** ** Splitting *)

Lemma glue_app l1 l2 : glue (l1 ++ l2) = (glue l1 ++ glue l2)%string.
Proof. induction l1 as [|x l1 IH]; [done|]. cbn [glue foldr app]. fold (glue l1) (glue (l1 ++ l2)). by rewrite IH, Str.app_assoc. Qed.

Lemma split_once_at_eq s a t : split_once_at s = Some (a, t) -> s = (a ++ separator ++ t)%string.
Proof.
  revert a. induction s as [|c s IH]; intros a H; [done|]. cbn in H. destruct s as [|d s']; [done|].
  destruct (Ascii.eqb c newline && Ascii.eqb d newline) eqn:E.
  - injection H as <- <-. zify_bool. apply Ascii.eqb_eq in H, H0. by subst.
  - destruct (split_once_at (String d s')) as [[x y]|]; [|done]. cbn in H. injection H as <- <-.
    rewrite Str.app_cons. f_equal. by apply IH.
Qed.

Lemma split_once_at_cons c d s :
  split_once_at (String c (String d s)) =
    if Ascii.eqb c newline && Ascii.eqb d newline then Some ("", s)
    else (fun p => (String c p.1, p.2)) <$> split_once_at (String d s).
Proof. done. Qed.

(** What comes later does not move a separator that is already there. *)
Lemma split_once_at_app s b a t :
  split_once_at s = Some (a, t) -> split_once_at (s ++ b) = Some (a, (t ++ b)%string).
Proof.
  revert a. induction s as [|c s IH]; intros a H; [done|]. destruct s as [|d s']; [done|].
  rewrite split_once_at_cons in H. rewrite !Str.app_cons, split_once_at_cons.
  destruct (Ascii.eqb c newline && Ascii.eqb d newline) eqn:E; [by injection H as <- <-|].
  destruct (split_once_at (String d s')) as [[x y]|] eqn:Es; [|done]. cbn in H. injection H as <- <-.
  specialize (IH x eq_refl). rewrite Str.app_cons in IH. by rewrite IH.
Qed.

Lemma split_once_at_shorter s a t : split_once_at s = Some (a, t) -> (String.length t < String.length s)%nat.
Proof. intros ->%split_once_at_eq. rewrite !Str.length_append. cbn. lia. Qed.

Lemma take_blocks_enough s : forall n m,
  (String.length s <= n)%nat -> (String.length s <= m)%nat -> take_blocks n s = take_blocks m s.
Proof.
  remember (String.length s) as k eqn:Ek. revert s Ek.
  induction (lt_wf k) as [k _ IH]. intros s -> n m Hn Hm. destruct (split_once_at s) as [[a t]|] eqn:E.
  - pose proof (split_once_at_shorter _ _ _ E) as Hl. destruct n as [|n], m as [|m]; try lia.
    cbn [take_blocks]. rewrite E, (IH _ Hl t eq_refl n m) by lia. done.
  - destruct n, m; cbn [take_blocks]; by rewrite ?E.
Qed.

(** The loop as an equation without fuel. *)
Lemma blocks_of_eq s :
  blocks_of s = match split_once_at s with
                | Some (a, t) => let '(bs, l) := blocks_of t in (a :: bs, l)
                | None => ([], s)
                end.
Proof.
  unfold blocks_of at 1. destruct (split_once_at s) as [[a t]|] eqn:E.
  - pose proof (split_once_at_shorter _ _ _ E) as Hl. destruct (String.length s) as [|n] eqn:En; [lia|].
    cbn [take_blocks]. rewrite E. unfold blocks_of. by rewrite (take_blocks_enough t n (String.length t)) by lia.
  - destruct (String.length s); cbn [take_blocks]; by rewrite ?E.
Qed.

Lemma blocks_of_app s b :
  blocks_of (s ++ b) = let '(bs, l) := blocks_of s in let '(bs', l') := blocks_of (l ++ b) in (bs ++ bs', l').
Proof.
  remember (String.length s) as k eqn:Ek. revert s Ek.
  induction (lt_wf k) as [k _ IH]. intros s ->. rewrite (blocks_of_eq s).
  destruct (split_once_at s) as [[a t]|] eqn:E.
  - rewrite (blocks_of_eq (s ++ b)), (split_once_at_app _ b _ _ E).
    rewrite (IH _ (split_once_at_shorter _ _ _ E) t eq_refl). destruct (blocks_of t) as [bs l].
    by destruct (blocks_of (l ++ b)).
  - by destruct (blocks_of (s ++ b)).
Qed.

Lemma blocks_of_rest s bs l : blocks_of s = (bs, l) -> blocks_of l = ([], l).
Proof.
  remember (String.length s) as k eqn:Ek. revert s bs Ek.
  induction (lt_wf k) as [k _ IH]. intros s bs -> H. rewrite blocks_of_eq in H.
  destruct (split_once_at s) as [[a t]|] eqn:E.
  - destruct (blocks_of t) as [bs' l'] eqn:Et. injection H as _ <-.
    by apply (IH _ (split_once_at_shorter _ _ _ E) t bs' eq_refl).
  - injection H as <- <-. by rewrite blocks_of_eq, E.
Qed.

(** The blocks and the rest are the buffer. *)
Lemma blocks_of_glue s : let '(bs, l) := blocks_of s in
  (glue ((fun b => b ++ separator)%string <$> bs) ++ l = s)%string.
Proof.
  remember (String.length s) as k eqn:Ek. revert s Ek.
  induction (lt_wf k) as [k _ IH]. intros s ->. rewrite blocks_of_eq.
  destruct (split_once_at s) as [[a t]|] eqn:E; [|done].
  specialize (IH _ (split_once_at_shorter _ _ _ E) t eq_refl). destruct (blocks_of t) as [bs l].
  rewrite fmap_cons. change (glue (?x :: ?y)) with (x ++ glue y)%string.
  apply split_once_at_eq in E. rewrite E, Str.app_assoc, IH, Str.app_assoc. done.
Qed.

(** Feeding chunk after chunk is splitting their concatenation. *)
Lemma feed_glue chunks : forall buffer,
  blocks_of buffer = ([], buffer) -> feed buffer chunks = blocks_of (buffer ++ glue chunks).
Proof.
  induction chunks as [|c rest IH]; intros buffer H; cbn [feed glue foldr]; [by rewrite Str.app_nil_r|].
  fold (glue rest). rewrite <- Str.app_assoc, (blocks_of_app (buffer ++ c)).
  destruct (blocks_of (buffer ++ c)) as [bs l] eqn:E. rewrite (IH l (blocks_of_rest _ _ _ E)).
  by destruct (blocks_of (l ++ glue rest)).
Qed.

(** ** The theorem *)

(** C31: the reader of the event stream sees through the network.  Two streams
    with the same bytes yield the same events, however they were cut into
    chunks, and the raw blocks handed on are the bytes of the stream, in order
    and complete except for trailing white space. *)
Theorem sse_chunking_irrelevant decode loads chunks chunks' :
  glue chunks = glue chunks' ->
  _iter_sse_blocks decode loads chunks = _iter_sse_blocks decode loads chunks' /\
  exists tail, blank tail = true /\ (glue (_iter_sse_blocks decode loads chunks).*2 ++ tail = glue chunks)%string.
Proof.
  intros H. unfold _iter_sse_blocks. rewrite !feed_glue, <- H by done. split; [done|].
  pose proof (blocks_of_glue (glue chunks)) as Hg. change ("" ++ glue chunks)%string with (glue chunks).
  destruct (blocks_of (glue chunks)) as [bs l]. rewrite fmap_app, glue_app, <- list_fmap_compose. unfold compose. cbn [snd].
  destruct (blank l) eqn:El; [exists l|exists ""]; split; try done; cbn; by rewrite ?Str.app_nil_r.
Qed.

(** An event cut in the middle of its name and of its separator. *)
Lemma sse_chunking_irrelevant_witness :
  let nl := String newline "" in
  let loads := fun s => if String.eqb s "{}" then Some (JObj [("n", JInt 1)]) else None in
  _iter_sse_blocks Some loads ["eve"; ("nt: usage.delta" ++ nl ++ "data: {}" ++ nl)%string; nl; ("event: x" ++ nl)%string] =
    [(mkSseEvent (Some "usage.delta") [("n", JInt 1)], ("event: usage.delta" ++ nl ++ "data: {}" ++ separator)%string);
     (mkSseEvent (Some "x") [], ("event: x" ++ nl)%string)].
Proof.
  intros nl loads.
  rewrite (proj1 (sse_chunking_irrelevant Some loads
    ["eve"; ("nt: usage.delta" ++ nl ++ "data: {}" ++ nl)%string; nl; ("event: x" ++ nl)%string]
    [("event: usage.delta" ++ nl ++ "data: {}" ++ separator ++ "event: x" ++ nl)%string] eq_refl)).
  vm_compute. reflexivity.
Defined.
