(* ===== verification/Hermes.v ===== *)
(** * Calls to the user's Hermes instance

    The HTTP half of [src/app/agent_proxy/service.py]: the end-to-end budget,
    the classification of transport failures, the launch with its connect-only
    retry, the session transcript and the passthrough [POST].

    The instance and the instance manager are the parameter [Hermes]: what the
    manager's [ensure_running] raises, and how each request ends.  Instants are
    readings of the monotonic clock in microseconds.  The timeout probe around
    the launch phases only counts and re-raises; it is left out. *)

From Stdlib Require Import Ascii String.
From S2P Require Import Prelude PyVal Redaction Store Logic Fixtures.

Open Scope string_scope.
Open Scope list_scope.
Open Scope Z_scope.

(** How one HTTP request ends: an answer (with its body if that is JSON), a
    connect-phase failure, a later timeout, another transport failure, or the
    [asyncio.timeout] of the budget. *)
Inductive HttpOutcome : Type :=
| answered (status_code : Z) (body : option json)
| connect_error
| connect_timeout
| pool_timeout
| other_timeout
| other_transport
| budget_expired.

Record Hermes : Type := mkHermes {
  ensure_running : uuid -> option exn;
  post_run : uuid -> dict -> nat -> HttpOutcome;
  get_messages : uuid -> string -> HttpOutcome;
  post : uuid -> string -> option dict -> HttpOutcome
}.

Definition budget_message : string := "hermes instance did not answer within the request budget".

Definition is_connect_error (o : HttpOutcome) : bool :=
  match o with connect_error | connect_timeout | pool_timeout => true | _ => false end.

Definition is_TimeoutException (o : HttpOutcome) : bool :=
  match o with connect_timeout | pool_timeout | other_timeout => true | _ => false end.

Definition _transport_error (o : HttpOutcome) : exn :=
  if is_TimeoutException o then UpstreamTimeoutError budget_message
  else UpstreamError "hermes instance unreachable".

Definition _MIN_ATTEMPT_US : Z := 1000000.

Definition _budget_deadline : M Z :=
  s ← settings;
  now ← py_monotonic;
  mret (now + s.(hermes_launch_budget_us)).

Definition _remaining (deadline : Z) : M Z :=
  now ← py_monotonic;
  let left := deadline - now in
  if left <? _MIN_ATTEMPT_US then raise (UpstreamTimeoutError budget_message) else mret left.

Definition is_2xx (status_code : Z) : bool := (200 <=? status_code) && (status_code <? 300).

Section hermes.
Context (hermes : Hermes).

Definition _ensure_running (u : uuid) : M unit :=
  match hermes.(ensure_running) u with Some x => raise x | None => mret tt end.

(** The retry loop of [_launch_run]; [fuel] is the number of attempts left. *)
Fixpoint launch_attempts (fuel attempt : nat) (attempts backoff deadline : Z) (send : nat -> HttpOutcome) :
    M (Z * option json) :=
  match fuel with
  | O => raise (UpstreamError "hermes instance unreachable")
  | S fuel' =>
      _ ← _remaining deadline;
      match send attempt with
      | answered status_code body => mret (status_code, body)
      | budget_expired => raise (UpstreamTimeoutError budget_message)
      | o =>
          now ← py_monotonic;
          let budget_left := deadline - now in
          let retryable := is_connect_error o && (Z.of_nat attempt <? attempts) in
          if retryable && (_MIN_ATTEMPT_US <=? budget_left - backoff)
          then launch_attempts fuel' (S attempt) attempts backoff deadline send
          else raise (_transport_error o)
      end
  end.

(** What the answer to [POST /v1/runs] means. *)
Definition launch_answer (r : Z * option json) : exn + (string * string) :=
  if negb (is_2xx r.1) then inl (UpstreamError "hermes run launch failed")
  else match r.2 with
       | None => inl (UpstreamError "hermes run launch returned invalid body")
       | Some (JObj payload) =>
           match dict_get payload "run_id" with
           | JStr run_id =>
               if Str.nonempty run_id then
                 inr (run_id, match dict_get payload "status" with
                              | JStr s => if String.eqb s "queued" || String.eqb s "running" then s else "queued"
                              | _ => "queued"
                              end)
               else inl (UpstreamError "hermes run launch returned no run_id")
           | _ => inl (UpstreamError "hermes run launch returned no run_id")
           end
       | Some _ => inl AttributeError
       end.

Definition of_result {A} (r : exn + A) : M A := match r with inl x => raise x | inr a => mret a end.

Definition _launch_run (u : uuid) (body : dict) (deadline : Z) : M (string * string) :=
  s ← settings;
  let attempts := Z.max s.(hermes_launch_retry_attempts) 1 in
  r ← launch_attempts (Z.to_nat attempts) 1 attempts s.(hermes_launch_retry_backoff_us) deadline
        (hermes.(post_run) u body);
  of_result (launch_answer r).

(** [item] of the transcript that carries both a role and a content. *)
Definition transcript_item (item : json) : option json :=
  match item with
  | JObj d =>
      match dict_lookup "role" d, dict_lookup "content" d with
      | Some role, Some content => Some (JObj [("role", role); ("content", content)])
      | _, _ => None
      end
  | _ => None
  end.

Definition transcript_of (payload : json) : list json :=
  let raw := match payload with
             | JObj d => if truthy (dict_get d "messages") then dict_get d "messages"
                         else if truthy (dict_get d "data") then dict_get d "data" else JArr []
             | _ => payload
             end in
  match raw with JArr items => omap transcript_item items | _ => [] end.

Definition _fetch_session_transcript (u : uuid) (session_id : string) (deadline : Z) : M (list json) :=
  _ ← _remaining deadline;
  match hermes.(get_messages) u session_id with
  | answered status_code body =>
      if status_code =? 404 then raise (SessionExpiredError "session transcript not found")
      else if negb (is_2xx status_code) then raise (UpstreamError "hermes session transcript failed")
      else match body with
           | None => raise (UpstreamError "hermes session transcript invalid body")
           | Some payload =>
               match transcript_of payload with
               | [] => raise (SessionExpiredError "session transcript empty")
               | history => mret history
               end
           end
  | budget_expired => raise (UpstreamTimeoutError budget_message)
  | o => raise (_transport_error o)
  end.

Definition _passthrough_post (u : uuid) (path : string) (body : option dict) : M dict :=
  deadline ← _budget_deadline;
  _ensure_running u;;
  _ ← _remaining deadline;
  match hermes.(post) u path body with
  | answered status_code data =>
      if negb (is_2xx status_code) then raise (UpstreamError "hermes request failed")
      else mret (match data with Some (JObj d) => d | _ => [] end)
  | budget_expired => raise (UpstreamTimeoutError budget_message)
  | o => raise (_transport_error o)
  end.
End hermes.

(** ** No call touches the database *)

Definition quiet {A} (m : M A) : Prop :=
  forall e w, (m e w).2.(w_db) = w.(w_db) /\ (m e w).2.(w_committed) = w.(w_committed).

Lemma quiet_keeps {A} (m : M A) I J : quiet m -> keeps I J m.
Proof.
  intros Hq e w [H1 H2]. destruct (Hq e w) as [E1 E2]. destruct (m e w) as [r w']. cbn in *. by rewrite E1, E2.
Qed.

Lemma quiet_bind {A B} (m : M A) (k : A -> M B) : quiet m -> (forall a, quiet (k a)) -> quiet (m ≫= k).
Proof.
  intros Hm Hk e w. destruct (Hm e w) as [H1 H2]. unfold mbind, M_bind. destruct (m e w) as [[x|a] w']; [done|].
  cbn in *. rewrite <- H1, <- H2. apply Hk.
Qed.

Ltac quiet_step :=
  match goal with
  | |- quiet (mbind _ _) => apply quiet_bind; [|intros ?]
  | |- quiet (match ?x with _ => _ end) => destruct x
  | |- quiet _ => by intros ? ?
  end.

Section quiet.
Context (hermes : Hermes).

Lemma quiet_remaining deadline : quiet (_remaining deadline).
Proof. unfold _remaining. repeat quiet_step. Qed.

Lemma quiet_budget_deadline : quiet _budget_deadline.
Proof. unfold _budget_deadline. repeat quiet_step. Qed.

Lemma quiet_ensure_running u : quiet (_ensure_running hermes u).
Proof. unfold _ensure_running. repeat quiet_step. Qed.

Lemma quiet_launch_attempts fuel : forall attempt attempts backoff deadline send,
  quiet (launch_attempts fuel attempt attempts backoff deadline send).
Proof.
  induction fuel as [|fuel IH]; intros; cbn [launch_attempts]; [by intros ? ?|].
  apply quiet_bind; [apply quiet_remaining|intros _]. destruct (send attempt); repeat first [apply IH|quiet_step].
Qed.

Lemma quiet_launch_run u body deadline : quiet (_launch_run hermes u body deadline).
Proof.
  unfold _launch_run. apply quiet_bind; [by intros ? ?|intros s]. apply quiet_bind; [apply quiet_launch_attempts|].
  intros r. unfold of_result. repeat quiet_step.
Qed.

Lemma quiet_transcript u sid deadline : quiet (_fetch_session_transcript hermes u sid deadline).
Proof. unfold _fetch_session_transcript. apply quiet_bind; [apply quiet_remaining|]. intros _. repeat quiet_step. Qed.

Lemma quiet_passthrough u path body : quiet (_passthrough_post hermes u path body).
Proof.
  unfold _passthrough_post. apply quiet_bind; [apply quiet_budget_deadline|intros d].
  apply quiet_bind; [apply quiet_ensure_running|intros _]. apply quiet_bind; [apply quiet_remaining|intros _].
  repeat quiet_step.
Qed.
End quiet.

#[export] Hint Resolve quiet_remaining quiet_budget_deadline quiet_ensure_running quiet_launch_run quiet_transcript
  quiet_passthrough : hermes.
#[export] Hint Extern 1 (keeps _ _ (_passthrough_post _ _ _ _)) => apply quiet_keeps, quiet_passthrough : hermes.

(** ** The retry of the launch *)

Lemma launch_attempts_agree fuel : forall attempt attempts backoff deadline send send' k e w,
  (forall n, (attempt <= n <= k)%nat -> send n = send' n) ->
  (attempt <= k)%nat -> is_connect_error (send k) = false \/ attempts <= Z.of_nat k ->
  launch_attempts fuel attempt attempts backoff deadline send e w =
  launch_attempts fuel attempt attempts backoff deadline send' e w.
Proof.
  induction fuel as [|fuel IH]; intros attempt attempts backoff deadline send send' k e w Hag Hle Hend; [done|].
  cbn [launch_attempts]. unfold mbind, M_bind.
  destruct (_remaining deadline e w) as [[x|left] w1]; [done|].
  rewrite <- (Hag attempt) by lia.
  assert (Hstep : is_connect_error (send attempt) && (Z.of_nat attempt <? attempts) = true ->
            (S attempt <= k)%nat).
  { intros H. zify_bool. destruct (decide (attempt = k)) as [->|]; [|lia]. destruct Hend; [congruence|lia]. }
  destruct (send attempt); try done; cbn [is_connect_error andb] in Hstep |- *; cbn.
  all: destruct (Z.of_nat attempt <? attempts); cbn; try done.
  all: destruct (_ <=? _); try done.
  all: apply (IH _ _ _ _ _ _ k); [intros n Hn; apply Hag; lia|by apply Hstep|done].
Qed.

(** A launch is never sent twice.  The outcome of [_launch_run] depends
    only on the requests up to the first one that may have reached the
    instance (one that did not fail in the connect phase), and on no more
    requests than the configured number of attempts: two instances that agree
    on those give the same result and leave the same world. *)
Theorem launch_never_sent_twice hermes hermes' u body deadline e w k :
  (1 <= k)%nat -> (forall n, (1 <= n <= k)%nat -> post_run hermes u body n = post_run hermes' u body n) ->
  is_connect_error (post_run hermes u body k) = false \/
    Z.max e.(env_settings).(hermes_launch_retry_attempts) 1 <= Z.of_nat k ->
  _launch_run hermes u body deadline e w = _launch_run hermes' u body deadline e w.
Proof.
  intros Hk Hag Hend. unfold _launch_run, mbind at 1 3, M_bind at 1 3. cbn [settings].
  unfold mbind, M_bind. by rewrite (launch_attempts_agree _ 1 _ _ _ _ (post_run hermes' u body) k).
Qed.

(** An instance that refuses the first connection and times out reading the second. *)
Definition slow_hermes (third : HttpOutcome) : Hermes :=
  mkHermes (fun _ => None)
    (fun _ _ n => match n with 1%nat => connect_error | 2%nat => other_timeout | _ => third end)
    (fun _ _ => other_transport) (fun _ _ _ => other_transport).

Lemma launch_never_sent_twice_witness :
  _launch_run (slow_hermes connect_error) alice [] 150000000 demo_env demo_world =
  _launch_run (slow_hermes (answered 200 (Some (JObj [("run_id", JStr "r9")])))) alice [] 150000000 demo_env demo_world.
Proof.
  apply (launch_never_sent_twice _ _ alice [] 150000000 demo_env demo_world 2).
  - lia.
  - intros n Hn. destruct n as [|[|[|n]]]; [lia|reflexivity|reflexivity|lia].
  - left. reflexivity.
Defined.
