(* ===== verification/AgentService.v ===== *)
(** * Agent runs: events, billing, pause, orphans

    Models the stateful part of [src/app/agent_proxy/service.py] behind the
    event stream: what one upstream event does to the snapshot, the lifecycle
    row and the wallet, and the finalization of orphaned runs.  Calls to the
    user's Hermes instance go through [Hermes]; log lines and the latches that
    only limit them are left out. *)

From Stdlib Require Import SpecFloat Ascii String.
From S2P Require Import Prelude PyVal Redaction Store AuditTrail Logic Fixtures Wallet WalletRun WalletSpec WalletRefine WalletInv.
From S2P Require Import Policy AgentRuns Usage Hermes.

Open Scope string_scope.
Open Scope list_scope.
Open Scope Z_scope.

Definition EVENT_AGENT_RUN : string := "agent_run".
Definition EVENT_ORPHAN_FINALIZED : string := "agent_run_orphan_finalized".
Definition _REASON_CREDITS_EXHAUSTED : string := "credits_exhausted".

(** A pure step that may raise. *)
Definition of_sum {A} (r : exn + A) : M A := match r with inl x => raise x | inr a => mret a end.

(** [except SQLAlchemyError: rollback; ...] *)
Definition or_rollback {A} (m : M A) (fallback : A) : M A :=
  try_except m (fun x => if is_SQLAlchemyError x then Some (rollback;; mret fallback) else None).

(** ** Run status for the client *)

Inductive ClientRunStatus : Set :=
| cs_running | cs_waiting_approval | cs_paused | cs_completed | cs_failed | cs_stopped.

Definition map_client_status (db_status : agent_run_status) (has_pending_approval : bool) : ClientRunStatus :=
  match db_status with
  | run_running | run_resumed => if has_pending_approval then cs_waiting_approval else cs_running
  | run_paused => cs_paused
  | run_completed => cs_completed
  | run_failed => cs_failed
  | run_cancelled => cs_stopped
  end.

(** ** Relay state *)

Record RelayState : Type := mkRelay {
  rs_partial_text : list string;
  rs_steps : list dict;
  rs_last_tool : option string;
  rs_pending_approval : option json;
  rs_input_tokens : Z;
  rs_output_tokens : Z;
  rs_last_flush_at : Z
}.

Definition new_relay : RelayState := mkRelay [] [] None None 0 0 0.

Record RunProcessing : Type := mkProcessing {
  rp_user_id : uuid;
  rp_run_id : string;
  rp_incremental : bool;
  rp_charged : Z;
  rp_billed : bool;
  rp_state : RelayState
}.

Definition with_state (s : RelayState) (r : RunProcessing) : RunProcessing :=
  mkProcessing r.(rp_user_id) r.(rp_run_id) r.(rp_incremental) r.(rp_charged) r.(rp_billed) s.
Definition with_charged (c : Z) (r : RunProcessing) : RunProcessing :=
  mkProcessing r.(rp_user_id) r.(rp_run_id) r.(rp_incremental) c r.(rp_billed) r.(rp_state).
Definition with_billed (b : bool) (r : RunProcessing) : RunProcessing :=
  mkProcessing r.(rp_user_id) r.(rp_run_id) r.(rp_incremental) r.(rp_charged) b r.(rp_state).

Definition no_approval (s : RelayState) : RelayState :=
  mkRelay s.(rs_partial_text) s.(rs_steps) s.(rs_last_tool) None s.(rs_input_tokens) s.(rs_output_tokens)
    s.(rs_last_flush_at).
Definition with_tokens (i o : Z) (s : RelayState) : RelayState :=
  mkRelay s.(rs_partial_text) s.(rs_steps) s.(rs_last_tool) s.(rs_pending_approval) i o s.(rs_last_flush_at).

Definition new_run_processing (u : uuid) (run_id : string) : M RunProcessing :=
  s ← settings;
  let incremental := s.(agent_incremental_billing_enabled) in
  charged ← (if incremental then charged_for_run u run_id else mret 0);
  mret (mkProcessing u run_id incremental charged false new_relay).

(** [text[:n]] *)
Definition head_chars (n : N) (s : string) : string := substring 0 (N.to_nat n) s.

(** [_flush_snapshot]: the relay state with its buffer collapsed. *)
Definition _flush_snapshot (u : uuid) (run_id : string) (state : RelayState) (immediate assert_approval : bool) :
    M RelayState :=
  s ← settings;
  due ← (if immediate then mret true
         else
           now ← py_monotonic;
           mret (negb (now - state.(rs_last_flush_at) <? s.(agent_state_flush_interval_us))));
  if negb (due : bool) then mret state
  else
    let result_text := head_chars s.(agent_state_result_text_max_chars) (Str.join "" state.(rs_partial_text)) in
    or_rollback (
      Snapshots.upsert run_id u result_text state.(rs_last_tool) state.(rs_pending_approval)
        state.(rs_input_tokens) state.(rs_output_tokens) assert_approval;;
      commit) tt;;
    now ← py_monotonic;
    mret (mkRelay [result_text] state.(rs_steps) state.(rs_last_tool) state.(rs_pending_approval)
            state.(rs_input_tokens) state.(rs_output_tokens) now).

Definition _mark_terminal (run_id : string) (status : agent_run_status) : M unit :=
  or_rollback (Runs.mark_status run_id status;; commit) tt.

Definition _build_pending_approval (max_chars : N) (event : SseEvent) : json :=
  JObj [("tool", jopt_str (_extract_tool_name event));
        ("preview", jopt_str (head_chars max_chars <$> _extract_approval_preview event))].

(** ** Billing *)

Definition credits_of (s : Settings) (i o : Z) : exn + Z :=
  usage_to_credits i o s.(credits_per_1k_input) s.(credits_per_1k_output).

Definition step_key (run_id : string) (step_index : Z) : string :=
  (run_id ++ ":" ++ Str.of_int step_index)%string.

Definition step_meta (run_id : string) (step_index : Z) (raw : list Z) (usage : UsageCounts)
    (model : option string) : dict :=
  [("source", JStr "agent_run"); ("incremental", JBool true); ("runId", JStr run_id);
   ("stepIndex", JInt step_index);
   ("usage", JObj (zip ["input_tokens"; "output_tokens"; "cumulative_input_tokens"; "cumulative_output_tokens"]
                     (map JInt raw) ++
                   [("billed_input", JInt usage.(uc_input_tokens)); ("billed_output", JInt usage.(uc_output_tokens));
                    ("billed_from", JArr (map JStr usage.(uc_sources)))]));
   ("model", jopt_str model)].

(** Bill one [usage.delta]: the new total charged and whether the balance ran out. *)
Definition _bill_step (u : uuid) (run_id : string) (event : SseEvent) (charged : Z) : M (Z * bool) :=
  s ← settings;
  usage ← of_sum (_extract_usage_counts event);
  let data := event.(sse_data) in
  step_index ← of_sum (_as_int (dict_get data "step_index"));
  let model := _extract_model event in
  owed ← of_sum (credits_of s usage.(uc_input_tokens) usage.(uc_output_tokens));
  let want := owed - charged in
  if want <=? 0 then mret (charged, false)
  else
    balance ← current_balance u;
    let charge := Z.min want balance in
    if 0 <? charge then
      r1 ← of_sum (_as_int (dict_get data "input_tokens"));
      r2 ← of_sum (_as_int (dict_get data "output_tokens"));
      r3 ← of_sum (_as_int (dict_get data "cumulative_input_tokens"));
      r4 ← of_sum (_as_int (dict_get data "cumulative_output_tokens"));
      result ← consume u charge (step_key run_id step_index)
                 (step_meta run_id step_index [r1; r2; r3; r4] usage model) None;
      if result.(cr_idempotent_replay) then mret (charged, false)
      else
        let actual := result.(cr_charged_amount) in
        (if 0 <? actual then Runs.record_step run_id step_index actual else mret tt);;
        commit;;
        mret (charged + actual, actual <? want)
    else mret (charged, 0 <? want).

Definition _record_insufficient (u : uuid) (run_id : string) (amount : Z) (model : option string)
    (input_tokens output_tokens total_tokens : Z) : M unit :=
  balance ← current_balance u;
  record (mkAuditEvent u None EVENT_BILLING_DEBIT_INSUFFICIENT
    [("runId", JStr run_id);
     ("usage", JObj [("input_tokens", JInt input_tokens); ("output_tokens", JInt output_tokens);
                     ("total_tokens", JInt total_tokens)]);
     ("model", jopt_str model); ("amount", JInt amount); ("balance", JInt balance)]).

Definition final_meta (run_id : string) (usage : UsageCounts) (model : option string) : dict :=
  [("source", JStr "agent_run"); ("runId", JStr run_id);
   ("usage", JObj [("input_tokens", JInt usage.(uc_input_tokens)); ("output_tokens", JInt usage.(uc_output_tokens));
                   ("total_tokens", JInt usage.(uc_total_tokens))]);
   ("model", jopt_str model)].

(** Charge what remains of a completed run.  A shortfall is recorded, any other
    failure rolls back; neither breaks the relay. *)
Definition _bill_completed (u : uuid) (run_id : string) (event : SseEvent) (charged : Z) : M bool :=
  s ← settings;
  usage ← of_sum (_extract_usage_counts event);
  let model := _extract_model event in
  owed ← of_sum (credits_of s usage.(uc_input_tokens) usage.(uc_output_tokens));
  let amount := owed - charged in
  if amount <=? 0 then mret true
  else
    result ← try_except
      (r ← consume u amount run_id (final_meta run_id usage model) None; mret (Some r))
      (fun x => Some (if is_InsufficientCreditsError x
                      then _record_insufficient u run_id amount model usage.(uc_input_tokens)
                             usage.(uc_output_tokens) usage.(uc_total_tokens);;
                           commit;; mret None
                      else rollback;; mret None));
    match result with
    | None => mret true
    | Some _ => commit;; mret true
    end.

(** ** Events *)

Section hermes.
Context (hermes : Hermes).

Definition _interrupt_run (u : uuid) (run_id : string) : M dict :=
  _passthrough_post hermes u ("/v1/runs/" ++ run_id ++ "/stop")%string None.

(** The body of the synthetic [run.paused]. *)
Record PausedBlock : Type := mkPaused {
  pb_run_id : string;
  pb_output : string;
  pb_steps : list dict;
  pb_billed : Z;
  pb_input_tokens : Z;
  pb_output_tokens : Z
}.

Definition _pause_run (u : uuid) (run_id : string) (charged : Z) (state : RelayState) :
    M (RelayState * PausedBlock) :=
  _ ← _interrupt_run u run_id;
  state ← _flush_snapshot u run_id (no_approval state) true true;
  Runs.mark_paused run_id _REASON_CREDITS_EXHAUSTED;;
  commit;;
  mret (state, mkPaused run_id (Str.join "" state.(rs_partial_text)) state.(rs_steps) charged
                 state.(rs_input_tokens) state.(rs_output_tokens)).

Definition tool_prefix : string := "tool.".

(** [process_event]: the run afterwards and the [run.paused] block if the run
    was paused. *)
Definition process_event (run : RunProcessing) (block : SseEvent) : M (RunProcessing * option PausedBlock) :=
  let u := run.(rp_user_id) in
  let run_id := run.(rp_run_id) in
  let st := run.(rp_state) in
  s ← settings;
  let name := default "" (_event_name block) in
  if String.eqb name "message.delta" then
    let piece := _extract_delta_text block in
    if Str.nonempty piece then
      let st := mkRelay (st.(rs_partial_text) ++ [piece]) st.(rs_steps) st.(rs_last_tool)
                  st.(rs_pending_approval) st.(rs_input_tokens) st.(rs_output_tokens) st.(rs_last_flush_at) in
      st ← _flush_snapshot u run_id st false false;
      mret (with_state st run, None)
    else mret (run, None)
  else if Str.startswith tool_prefix name then
    let tool := match _extract_tool_name block with Some t => Some t | None => st.(rs_last_tool) end in
    let st := mkRelay st.(rs_partial_text) (st.(rs_steps) ++ [block.(sse_data)]) tool None
                st.(rs_input_tokens) st.(rs_output_tokens) st.(rs_last_flush_at) in
    st ← _flush_snapshot u run_id st true true;
    mret (with_state st run, None)
  else if String.eqb name "approval.request" then
    let st := mkRelay st.(rs_partial_text) st.(rs_steps) st.(rs_last_tool)
                (Some (_build_pending_approval s.(agent_state_result_text_max_chars) block))
                st.(rs_input_tokens) st.(rs_output_tokens) st.(rs_last_flush_at) in
    st ← _flush_snapshot u run_id st true true;
    mret (with_state st run, None)
  else if String.eqb name "usage.delta" then
    anchors ← of_sum (_extract_usage_counts block);
    let st' := with_tokens (Z.max st.(rs_input_tokens) anchors.(uc_input_tokens))
                 (Z.max st.(rs_output_tokens) anchors.(uc_output_tokens)) st in
    let advanced := negb ((st'.(rs_input_tokens) =? st.(rs_input_tokens)) &&
                          (st'.(rs_output_tokens) =? st.(rs_output_tokens))) in
    st' ← (if advanced then _flush_snapshot u run_id st' true false else mret st');
    let run := with_state st' run in
    if run.(rp_incremental) then
      b ← _bill_step u run_id block run.(rp_charged);
      let '(charged, depleted) := b in
      let run := with_charged charged run in
      if (depleted : bool) then
        p ← _pause_run u run_id charged st';
        mret (with_state p.1 run, Some p.2)
      else mret (run, None)
    else mret (run, None)
  else if String.eqb name "run.failed" then
    st ← _flush_snapshot u run_id (no_approval st) true true;
    _mark_terminal run_id run_failed;;
    mret (with_state st run, None)
  else if String.eqb name "run.completed" then
    usage ← of_sum (_extract_usage_counts block);
    let st := no_approval (with_tokens (Z.max st.(rs_input_tokens) usage.(uc_input_tokens))
                (Z.max st.(rs_output_tokens) usage.(uc_output_tokens)) st) in
    st ← _flush_snapshot u run_id st true true;
    _mark_terminal run_id run_completed;;
    let run := with_state st run in
    if run.(rp_billed) then mret (run, None)
    else
      billed ← _bill_completed u run_id block run.(rp_charged);
      mret (with_billed billed run, None)
  else mret (run, None).
End hermes.

(** ** Orphans *)

Inductive BillingBasis : Set := BILLING_BASIS_SNAPSHOT | BILLING_BASIS_ZERO_USAGE | BILLING_BASIS_NO_SNAPSHOT.

Definition _orphan_billing_basis (snapshot_present : bool) (input_tokens output_tokens : Z) : BillingBasis :=
  if negb snapshot_present then BILLING_BASIS_NO_SNAPSHOT
  else if (input_tokens =? 0) && (output_tokens =? 0) then BILLING_BASIS_ZERO_USAGE
  else BILLING_BASIS_SNAPSHOT.

Definition basis_str (b : BillingBasis) : string :=
  match b with
  | BILLING_BASIS_SNAPSHOT => "snapshot"
  | BILLING_BASIS_ZERO_USAGE => "zero_usage"
  | BILLING_BASIS_NO_SNAPSHOT => "no_snapshot"
  end.

Definition orphan_meta (run_id : string) : dict :=
  [("source", JStr "agent_run"); ("orphan", JBool true); ("runId", JStr run_id)].

(** [heartbeat_age] is the rounded age that goes to the audit row. *)
Definition finalize_orphan_run (u : uuid) (run_id : string) (input_tokens output_tokens : Z)
    (snapshot_present : bool) (heartbeat_age : json) : M unit :=
  let basis := _orphan_billing_basis snapshot_present input_tokens output_tokens in
  s ← settings;
  observed ← of_sum (credits_of s input_tokens output_tokens);
  already_charged ← charged_for_run u run_id;
  let owed := Z.max (observed - already_charged) 0 in
  billed ← (if 0 <? owed
            then try_except
                   (r ← consume u owed run_id (orphan_meta run_id) None; mret r.(cr_charged_amount))
                   (fun x => if is_InsufficientCreditsError x
                             then Some (_record_insufficient u run_id owed None input_tokens output_tokens
                                          (input_tokens + output_tokens);; mret 0)
                             else None)
            else mret 0);
  _mark_terminal run_id run_failed;;
  record (mkAuditEvent u None EVENT_ORPHAN_FINALIZED
    [("runId", JStr run_id);
     ("usage", JObj [("input_tokens", JInt input_tokens); ("output_tokens", JInt output_tokens)]);
     ("observed", JInt observed); ("alreadyCharged", JInt already_charged); ("billed", JInt billed);
     ("billingBasis", JStr (basis_str basis)); ("heartbeatAgeSeconds", heartbeat_age)]);;
  commit;;
  metric_inc "agent_run_orphan_finalized_total" (basis_str basis).

(** ** The wallet invariant *)

Lemma keeps_of_sum I J {A} (r : exn + A) : keeps I J (of_sum r).
Proof. destruct r; cbn; auto with hermes. Qed.

#[export] Hint Resolve keeps_of_sum : hermes.

Lemma keeps_or_rollback I {A} (m : M A) a : keeps I I m -> keeps I I (or_rollback m a).
Proof.
  intros Hm e w Hw. specialize (Hm e w Hw). unfold or_rollback, try_except.
  destruct (m e w) as [[x|b] w']; [|exact Hm]. destruct Hm as [H1 H2].
  destruct (is_SQLAlchemyError x) eqn:E; [done|]. split; [done|]. intros H. by apply H2.
Qed.

#[export] Hint Resolve keeps_or_rollback : hermes.

Lemma wallet_inv_put_run k r d : wallet_inv d -> wallet_inv (put_run k r d).
Proof. intros H. eauto with hermes. Qed.

Lemma wallet_inv_put_snapshot k r d : wallet_inv d -> wallet_inv (put_snapshot k r d).
Proof. intros H. eauto with hermes. Qed.

#[export] Hint Resolve wallet_inv_put_run wallet_inv_put_snapshot : hermes.

Lemma keeps_int4 I J z : keeps I J (int4 z).
Proof. unfold int4. destruct (_ && _); auto with hermes. Qed.

#[export] Hint Resolve keeps_int4 : hermes.

Lemma keeps_update_run k g f : keeps wallet_inv wallet_inv (Runs.update_run k g f).
Proof. unfold Runs.update_run. keeps_walk. Qed.

#[export] Hint Resolve keeps_update_run : hermes.

Lemma keeps_mark_terminal k s : keeps wallet_inv wallet_inv (_mark_terminal k s).
Proof. unfold _mark_terminal, Runs.mark_status. apply keeps_or_rollback. keeps_walk. Qed.

Lemma keeps_record_step k s c : keeps wallet_inv wallet_inv (Runs.record_step k s c).
Proof. unfold Runs.record_step. keeps_walk. Qed.

Lemma keeps_upsert k u t lt p i o b : keeps wallet_inv wallet_inv (Snapshots.upsert k u t lt p i o b).
Proof. unfold Snapshots.upsert. keeps_walk. Qed.

#[export] Hint Resolve keeps_mark_terminal keeps_record_step keeps_upsert : hermes.

Lemma keeps_flush_snapshot u k st i a : keeps wallet_inv wallet_inv (_flush_snapshot u k st i a).
Proof. unfold _flush_snapshot. keeps_walk. apply keeps_or_rollback. keeps_walk. Qed.

Lemma keeps_charged_for_run I J u k : keeps I J (charged_for_run u k).
Proof. unfold charged_for_run. keeps_walk. Qed.

Lemma keeps_current_balance I J u : keeps I J (current_balance u).
Proof. unfold current_balance, _current_balance. keeps_walk. Qed.

#[export] Hint Resolve keeps_flush_snapshot keeps_charged_for_run keeps_current_balance : hermes.

(** The uncharged usage is recorded without accruing debt. *)
Lemma insufficient_row_neutral rid u run_id usage model amount bal :
  neutral (audit_row rid (mkAuditEvent u None EVENT_BILLING_DEBIT_INSUFFICIENT
    [("runId", JStr run_id); ("usage", usage); ("model", model); ("amount", JInt amount); ("balance", JInt bal)])).
Proof.
  intros v. unfold accrued_of, repaid_of. cbn [al_event_type audit_row ev_event_type].
  rewrite andb_false_r. split; [|done].
  assert (audit_int "debtAdded" (audit_row rid (mkAuditEvent u None EVENT_BILLING_DEBIT_INSUFFICIENT
    [("runId", JStr run_id); ("usage", usage); ("model", model); ("amount", JInt amount); ("balance", JInt bal)])) = 0) as ->.
  { unfold audit_int, dict_get, audit_row. cbn [al_payload ev_payload].
    rewrite assert_no_secrets_lookup by done. by rewrite dict_lookup_set_ne. }
  by destruct (_ && _).
Qed.

Lemma keeps_record_insufficient u k a m i o t :
  keeps wallet_inv wallet_inv (_record_insufficient u k a m i o t).
Proof.
  unfold _record_insufficient. keeps_walk. unfold record. keeps_walk.
  apply wallet_inv_add_audit; [apply insufficient_row_neutral|done].
Qed.

#[export] Hint Resolve keeps_record_insufficient : hermes.

Lemma keeps_bill_step u k ev c : keeps wallet_inv wallet_inv (_bill_step u k ev c).
Proof. unfold _bill_step. keeps_walk. Qed.

(** [try: m except ...] where a statement the database aborted is rolled back. *)
Lemma keeps_try_rollback I {A} (m k : M A) h :
  keeps I I m -> keeps I I k -> h DataError = Some (rollback;; k) ->
  (forall x k', x <> DataError -> h x = Some k' -> keeps I I k') ->
  keeps I I (try_except m h).
Proof.
  intros Hm Hk Hd Hh e w Hw. specialize (Hm e w Hw). unfold try_except.
  destruct (m e w) as [[x|a] w']; [|exact Hm]. destruct Hm as [H1 H2].
  destruct (decide (x = DataError)) as [->|Hx].
  - rewrite Hd. by apply (Hk e (with_db w'.(w_committed) w')).
  - destruct (h x) as [k'|] eqn:E; [|done]. apply (Hh x k' Hx E).
    split; [apply H2; congruence|done].
Qed.

Lemma keeps_bill_completed u k ev c : keeps wallet_inv wallet_inv (_bill_completed u k ev c).
Proof.
  unfold _bill_completed. keeps_walk.
  apply (keeps_try_rollback _ _ (mret None)); [keeps_walk..|done|].
  intros x k' _ [= <-]. destruct (is_InsufficientCreditsError x); keeps_walk.
Qed.

#[export] Hint Resolve keeps_bill_step keeps_bill_completed : hermes.

Lemma keeps_pause_run hermes u k c st : keeps wallet_inv wallet_inv (_pause_run hermes u k c st).
Proof. unfold _pause_run, _interrupt_run, Runs.mark_paused. keeps_walk. Qed.

#[export] Hint Resolve keeps_pause_run : hermes.

Lemma keeps_process_event hermes run block : keeps wallet_inv wallet_inv (process_event hermes run block).
Proof. unfold process_event. keeps_walk. Qed.

Lemma keeps_finalize_orphan u k i o p h : keeps wallet_inv wallet_inv (finalize_orphan_run u k i o p h).
Proof. unfold finalize_orphan_run. keeps_walk. Qed.

#[export] Hint Resolve keeps_process_event keeps_finalize_orphan : hermes.

#[export] Instance process_event_books hermes run block : KeepsBooks (process_event hermes run block).
Proof. apply keeps_process_event. Qed.

#[export] Instance finalize_orphan_books u k i o p h : KeepsBooks (finalize_orphan_run u k i o p h).
Proof. apply keeps_finalize_orphan. Qed.
