(* ===== verification/AgentBilling.v ===== *)
(** * Billing of agent runs

    What the events of a run cost: the per-step debits of [_bill_step], the
    remainder of [_bill_completed] and of [finalize_orphan_run], and the
    agreement of the relay's running total with the ledger. *)

From Stdlib Require Import SpecFloat Ascii String.
From S2P Require Import Prelude PyVal Redaction Store AuditTrail Logic Like Fixtures Wallet WalletRun WalletSpec.
From S2P Require Import WalletRefine WalletInv Policy AgentRuns Usage Hermes AgentService.

Open Scope string_scope.
Open Scope list_scope.
Open Scope Z_scope.

(** ** What the ledger says a run has cost *)

Definition of_run (run_id : string) (t : LedgerTransaction) : bool :=
  bool_decide (t.(lt_type) = debit) &&
  (String.eqb t.(lt_idempotency_key) run_id || like (escape_like run_id ++ ":%")%string t.(lt_idempotency_key)).

Definition run_cost (run_id : string) (a : Account) : Z :=
  sumZ (fun t => if of_run run_id t then t.(lt_amount) else 0) a.(ac_txs).

Lemma of_run_iff run_id t :
  of_run run_id t = true <->
  t.(lt_type) = debit /\ (t.(lt_idempotency_key) = run_id \/ Is_true (like (escape_like run_id ++ ":%")%string t.(lt_idempotency_key))).
Proof.
  unfold of_run. rewrite andb_true_iff, orb_true_iff, bool_decide_eq_true, String.eqb_eq, <- Is_true_true. done.
Qed.

Lemma charged_for_run_cost u run_id e w :
  charged_for_run u run_id e w = (inr (run_cost run_id (account w.(w_db) u)), w).
Proof.
  unfold charged_for_run. run by done. unfold mret, M_ret. do 2 f_equal.
  unfold run_cost, account, user_txs. cbn [ac_txs]. rewrite !sumZ_filter. apply sumZ_ext. intros t _.
  pose proof (of_run_iff run_id t) as Ho. destruct (of_run run_id t); repeat case_decide; naive_solver congruence.
Qed.

Lemma step_key_of_run run_id i t :
  t.(lt_type) = debit -> t.(lt_idempotency_key) = step_key run_id i -> of_run run_id t = true.
Proof.
  intros Ht Hk. apply of_run_iff. split; [done|]. right. rewrite Hk, like_run_prefix. unfold step_key, Str.startswith.
  apply Is_true_true, Str.prefix_spec. exists (Str.of_int i). by rewrite Str.app_assoc.
Qed.

Lemma run_key_of_run run_id t :
  t.(lt_type) = debit -> t.(lt_idempotency_key) = run_id -> of_run run_id t = true.
Proof. intros Ht Hk. apply of_run_iff. auto. Qed.

Lemma string_app_neq s c t : s <> (s ++ String c t)%string.
Proof.
  intros H. apply (f_equal String.length) in H. rewrite string_length_app in H. cbn in H. lia.
Qed.

(** Taking credits under a key of the run adds them to its cost. *)
Lemma run_cost_take run_id mk n a :
  of_run run_id (mk n) = true -> (mk n).(lt_amount) = n -> run_cost run_id (take_credits mk n a) = run_cost run_id a + n.
Proof.
  intros Ho Hn. unfold run_cost, take_credits. cbn [ac_txs]. rewrite sumZ_app, sumZ_singleton, Ho, Hn. done.
Qed.

(** ** One step *)

(** The abstract step: charge what is newly owed, as far as the balance goes,
    once per key; the new total and whether the balance fell short. *)
Definition spec_step (owed : Z) (key : string) (mk : Z -> LedgerTransaction) (charged : Z) (a : Account) :
    (Z * bool) * Account :=
  let want := owed - charged in
  let charge := Z.min want a.(ac_balance) in
  if want <=? 0 then ((charged, false), a)
  else if 0 <? charge then
    match find_tx key a with
    | Some _ => ((charged, false), a)
    | None => ((charged + charge, charge <? want), take_credits mk charge a)
    end
  else ((charged, true), a).

Record step_fact (owed : Z) (run_id key : string) (charged charged' : Z) (depleted : bool) (a a' : Account) : Prop :=
  mkStepFact {
    sf_cost : run_cost run_id a' - run_cost run_id a = charged' - charged;
    sf_balance : a.(ac_balance) - a'.(ac_balance) = charged' - charged;
    sf_debt : a'.(ac_debt) = a.(ac_debt);
    sf_range : charged <= charged' <= Z.max charged owed;
    sf_depleted : depleted = true -> a'.(ac_balance) <= 0 /\ charged' < owed;
    sf_paid : depleted = false -> owed <= charged' \/ is_Some (find_tx key a);
    sf_other : forall k, k <> key -> find_tx k a' = find_tx k a
  }.

Lemma find_tx_snoc_ne k a a' t :
  t.(lt_idempotency_key) <> k -> a'.(ac_txs) = a.(ac_txs) ++ [t] -> find_tx k a' = find_tx k a.
Proof.
  intros Hne Ha. unfold find_tx. rewrite Ha, find_first_app. destruct (find_first _ _); [done|]. cbn.
  by rewrite (proj2 (String.eqb_neq _ _) Hne).
Qed.

Lemma spec_step_fact owed run_id i mk charged a :
  (forall n, (mk n).(lt_type) = debit /\ (mk n).(lt_amount) = n /\ (mk n).(lt_idempotency_key) = step_key run_id i) ->
  let '((c, d), a') := spec_step owed (step_key run_id i) mk charged a in
  step_fact owed run_id (step_key run_id i) charged c d a a'.
Proof.
  intros Hmk. unfold spec_step. destruct (_ <=? 0) eqn:Ew; zify_bool.
  { split; try done; lia. }
  destruct (0 <? _) eqn:Ec; zify_bool.
  2: { split; try done; lia. }
  destruct (find_tx _ a) as [t|] eqn:Ef.
  { split; try done; try lia. by right. }
  destruct (Hmk (Z.min (owed - charged) (ac_balance a))) as (Ht & Hn & Hk).
  split; try done.
  - rewrite run_cost_take by eauto using step_key_of_run. lia.
  - cbn. lia.
  - lia.
  - intros Hd. zify_bool. cbn. lia.
  - intros Hd. zify_bool. left. lia.
  - intros k Hne. eapply find_tx_snoc_ne; [|done]. rewrite Hk. congruence.
Qed.

Lemma of_sum_ok {A} (r : exn + A) e w a w' : of_sum r e w = (inr a, w') -> r = inr a /\ w' = w.
Proof. destruct r; cbn; intros H; [discriminate H|]. injection H as -> ->. done. Qed.

(** What the wallet sees of a database operation that is not its own. *)
Lemma account_put_run k r d u : account (put_run k r d) u = account d u.
Proof. done. Qed.

Lemma account_put_snapshot k r d u : account (put_snapshot k r d) u = account d u.
Proof. done. Qed.

(** The accounts of the session's view and of what is committed are those of [d0]. *)
Definition books (d0 d : Db) : Prop := wallet_inv d /\ same_accounts d0 d.

Lemma books_put_run d0 k r d : books d0 d -> books d0 (put_run k r d).
Proof. intros [H1 H2]. split; [auto with hermes|]. exact H2. Qed.

Lemma books_put_snapshot d0 k r d : books d0 d -> books d0 (put_snapshot k r d).
Proof. intros [H1 H2]. split; [auto with hermes|]. exact H2. Qed.

#[export] Hint Resolve books_put_run books_put_snapshot : hermes.

Lemma record_step_books d0 J k s c : keeps (books d0) J (Runs.record_step k s c).
Proof. unfold Runs.record_step. keeps_walk. Qed.

Lemma update_run_books d0 J k g f : keeps (books d0) J (Runs.update_run k g f).
Proof. unfold Runs.update_run. keeps_walk. Qed.

#[export] Hint Resolve record_step_books update_run_books : hermes.

Lemma keeps_ok (I J : Db -> Prop) {A} (m : M A) e w a w' :
  keeps I J m -> I w.(w_db) -> J w.(w_committed) -> m e w = (inr a, w') -> I w'.(w_db) /\ J w'.(w_committed).
Proof.
  intros Hm Hi Hj Hrun. specialize (Hm e w (conj Hi Hj)). rewrite Hrun in Hm. destruct Hm as [H1 H2].
  split; [by apply H2|done].
Qed.

(** What a debit leaves alone, whatever it returns. *)
Lemma consume_leaves e w u amount key meta sid r w' :
  wallet_inv w.(w_db) -> consume u amount key meta sid e w = (r, w') ->
  wallet_inv w'.(w_db) /\ frame u w.(w_db) w'.(w_db) /\ w'.(w_committed) = w.(w_committed) /\
  (forall x, r = inl x -> same_accounts w.(w_db) w'.(w_db)).
Proof.
  intros Hi Hrun. pose proof (consume_frame e w u amount key meta sid Hi) as Hfr.
  pose proof (uncommitted_consume u amount key meta sid e w) as Hco.
  pose proof (consume_sound e w u amount key meta sid Hi) as Hsnd. rewrite Hrun in Hfr, Hco, Hsnd.
  destruct Hsnd. done.
Qed.

(** The running total of the relay after a debit under a step key. *)
Lemma consume_step_account e w u run_id i raw usage model amount r w' :
  wallet_inv w.(w_db) -> amount <= wallet_balance w.(w_db) u ->
  consume u amount (step_key run_id i) (step_meta run_id i raw usage model) None e w = (inr r, w') ->
  let a := account w.(w_db) u in
  let mk n := new_tx e w u debit n (step_meta run_id i raw usage model) (step_key run_id i) in
  match find_tx (step_key run_id i) a with
  | Some t => r.(cr_idempotent_replay) = true /\ account w'.(w_db) u = a
  | None => r.(cr_idempotent_replay) = false /\ r.(cr_charged_amount) = amount /\
            account w'.(w_db) u = take_credits mk amount a
  end.
Proof.
  intros Hi Hb Hrun a mk. destruct (consume_succeeds _ _ _ _ _ _ _ _ _ Hi Hrun) as (Ha & Hu & Hs).
  destruct (consume_account e w u amount (step_key run_id i) (step_meta run_id i raw usage model) None
              Hu Hs (ai_ok _ (wi_account _ Hi u)) Ha) as [H1 _].
  rewrite Hrun in H1. cbn [fst snd] in H1. unfold spec_debit in H1.
  change (find_tx (step_key run_id i) a) with (find_tx (step_key run_id i) (account w.(w_db) u)).
  change (debit_mode e.(env_settings) (step_meta run_id i raw usage model)) with Clamp in H1.
  cbn iota in H1. subst a mk. destruct (find_tx _ _) as [t|].
  - split; [|congruence]. assert (r = replayed t (account (w_db w) u)) as -> by congruence. done.
  - rewrite (proj2 (Z.leb_le amount (ac_balance (account w.(w_db) u)))) in H1 by done.
    split_and!; [| |congruence]; apply (f_equal fst) in H1; injection H1 as ->; done.
Qed.

(** [_bill_step] that returns did the abstract step for the credits that the
    event's usage is worth, and leaves the session settled if it was. *)
Lemma bill_step_account e w u run_id ev charged c d w' :
  wallet_inv w.(w_db) -> same_accounts w.(w_committed) w.(w_db) ->
  _bill_step u run_id ev charged e w = (inr (c, d), w') ->
  exists usage i owed mk,
    _extract_usage_counts ev = inr usage /\
    credits_of e.(env_settings) usage.(uc_input_tokens) usage.(uc_output_tokens) = inr owed /\
    (forall n, (mk n).(lt_type) = debit /\ (mk n).(lt_amount) = n /\ (mk n).(lt_idempotency_key) = step_key run_id i) /\
    ((c, d), account w'.(w_db) u) = spec_step owed (step_key run_id i) mk charged (account w.(w_db) u) /\
    wallet_inv w'.(w_db) /\ same_accounts w'.(w_committed) w'.(w_db) /\
    (forall v, v <> u -> account w'.(w_db) v = account w.(w_db) v).
Proof.
  intros Hi Hset Hrun. unfold _bill_step in Hrun.
  inv_bind Hrun. apply settings_ok in Hstep as [-> ->].
  inv_bind Hrun. apply of_sum_ok in Hstep as [Hus ->].
  inv_bind Hrun. apply of_sum_ok in Hstep as [Hidx ->].
  inv_bind Hrun. apply of_sum_ok in Hstep as [Howed ->].
  rename a into usage, a0 into i, a1 into owed.
  set (mk0 n := new_tx e w u debit n [] (step_key run_id i)).
  destruct (owed - charged <=? 0) eqn:Ew.
  { injection Hrun as <- <- <-. exists usage, i, owed, mk0. unfold spec_step. rewrite Ew. done. }
  inv_bind Hrun. injection Hstep as <- <-.
  destruct (0 <? _) eqn:Ec.
  2: { injection Hrun as <- <- <-. exists usage, i, owed, mk0. unfold spec_step. rewrite Ew.
       change (ac_balance (account w.(w_db) u)) with (wallet_balance w.(w_db) u). rewrite Ec.
       zify_bool. rewrite (proj2 (Z.ltb_lt _ _)) by lia. done. }
  do 4 (inv_bind Hrun; apply of_sum_ok in Hstep as [_ ->]). inv_bind Hrun.
  pose proof (consume_step_account _ _ _ _ _ _ _ _ _ _ _ Hi (Z.le_min_r _ _) Hstep) as Hcons.
  destruct (consume_leaves _ _ _ _ _ _ _ _ _ Hi Hstep) as (Hi1 & Hfr & Hco & Hexn). cbv zeta in Hcons.
  exists usage, i, owed. eexists. do 2 (split; [done|]). split.
  2: { unfold spec_step. rewrite Ew. change (ac_balance (account w.(w_db) u)) with (wallet_balance w.(w_db) u).
       rewrite Ec. destruct (find_tx _ _) as [t|]; destruct Hcons as [Hrep Hacc].
       - rewrite Hrep in Hrun. injection Hrun as <- <- <-. split; [by rewrite Hacc|]. split; [done|]. split; [|apply Hfr].
         intros v. rewrite Hco. destruct (decide (v = u)) as [->|Hv]; [by rewrite Hacc|]. rewrite (fr_account _ _ _ Hfr) by done. apply Hset.
       - destruct Hacc as [Hch Hacc]. rewrite Hrep, Hch, Ec in Hrun. inv_bind Hrun. inv_bind Hrun.
         injection Hstep1 as <- <-. injection Hrun as <- <- <-.
         pose proof (record_step_books w1.(w_db) (fun _ => True) run_id i) as Hrs. 
         pose proof (keeps_ok _ _ _ _ _ _ _ (Hrs _) (conj Hi1 (fun v => eq_refl)) I Hstep0) as [[Hi2 Hsame] _].
         cbn [w_db w_committed]. rewrite (Hsame u), Hacc. split; [done|]. split; [done|]. split; [done|].
         intros v Hv. rewrite Hsame. by apply Hfr. }
  intros n. done.
Qed.

(** Billing a step of an agent run.  When [_bill_step] returns, what was
    taken from the balance, what the ledger says the run has cost and the
    relay's running total all moved by the same amount; the debt did not move
    and nobody else's account did; the total never exceeds what the cumulative
    usage is worth; and the step reports depletion exactly when it emptied the
    balance before covering it. *)
Theorem bill_step_exact e w u run_id ev charged c d w' :
  wallet_inv w.(w_db) -> same_accounts w.(w_committed) w.(w_db) ->
  _bill_step u run_id ev charged e w = (inr (c, d), w') ->
  exists usage i owed,
    _extract_usage_counts ev = inr usage /\
    credits_of e.(env_settings) usage.(uc_input_tokens) usage.(uc_output_tokens) = inr owed /\
    step_fact owed run_id (step_key run_id i) charged c d (account w.(w_db) u) (account w'.(w_db) u) /\
    (forall v, v <> u -> account w'.(w_db) v = account w.(w_db) v).
Proof.
  intros Hi Hset Hrun.
  destruct (bill_step_account _ _ _ _ _ _ _ _ _ Hi Hset Hrun) as (usage & i & owed & mk & H1 & H2 & Hmk & H3 & _ & _ & H4).
  exists usage, i, owed. split_and!; try done. pose proof (spec_step_fact owed run_id i mk charged (account w.(w_db) u) Hmk) as Hf.
  by rewrite <- H3 in Hf.
Qed.

(** ** Completion *)

Lemma books_refl d : wallet_inv d -> books d d.
Proof. intros H. by split. Qed.

Lemma books_trans d0 d1 d2 : same_accounts d0 d1 -> books d1 d2 -> books d0 d2.
Proof. intros H1 [H2 H3]. split; [done|]. intros v. by rewrite H3, H1. Qed.

(** Recording an uncharged amount moves no money and succeeds for a user. *)
Lemma record_insufficient_run e w u k a m i o t :
  wallet_inv w.(w_db) -> user_exists w.(w_db) u = true ->
  exists w', _record_insufficient u k a m i o t e w = (inr tt, w') /\ books w.(w_db) w'.(w_db) /\
             w'.(w_committed) = w.(w_committed).
Proof.
  intros Hi Hu. unfold _record_insufficient. run by apply current_balance_run.
  eexists. split; [by rewrite record_run|]. split; [|done].
  split; [apply wallet_inv_add_audit; [apply insufficient_row_neutral|done]|].
  intros v. cbn [w_db with_db]. apply account_add_neutral, insufficient_row_neutral.
Qed.

(** Between events a relay holds no money that is not committed. *)
Record settled (w : World) : Prop := mkSettled {
  se_db : wallet_inv w.(w_db);
  se_committed : wallet_inv w.(w_committed);
  se_same : same_accounts w.(w_committed) w.(w_db)
}.

Lemma settled_books w : settled w -> books w.(w_db) w.(w_db) /\ books w.(w_db) w.(w_committed).
Proof. intros [H1 H2 H3]. split; [by apply books_refl|]. split; [done|]. intros v. by rewrite H3. Qed.

Lemma books_settled d w : books d w.(w_db) -> books d w.(w_committed) -> settled w.
Proof. intros [H1 H2] [H3 H4]. split; [done..|]. intros v. by rewrite H2, H4. Qed.

Definition others_same (u : uuid) (d d' : Db) : Prop := forall v, v <> u -> account d' v = account d v.

Lemma frame_others u d d' : frame u d d' -> others_same u d d'.
Proof. intros H v Hv. by apply H. Qed.

Definition final_row (e : Env) (w : World) (u : uuid) (run_id : string) (usage : UsageCounts) (ev : SseEvent)
    (n : Z) : LedgerTransaction :=
  new_tx e w u debit n (final_meta run_id usage (_extract_model ev)) run_id.

(** A debit for nobody in particular: without a user row it raises, and the
    abstract debit of an empty account changes nothing either. *)
Lemma consume_nobody e w u amount key meta :
  wallet_inv w.(w_db) -> 0 < amount -> user_exists w.(w_db) u = false ->
  consume u amount key meta None e w = (inl IntegrityError, w).
Proof.
  intros Hi Ha Hu. unfold consume. rewrite (proj2 (Z.leb_gt _ _)) by lia. run by done.
  by fails by (by apply ensure_wallet_missing).
Qed.

Lemma spec_debit_empty mode mk amount key a :
  0 < amount -> a.(ac_balance) = 0 -> (spec_debit mode mk amount key a).2 = a.
Proof.
  intros Ha Hb. unfold spec_debit, spec_shortfall. destruct (find_tx key a); [by destruct mode|].
  rewrite Hb, (proj2 (Z.leb_gt _ _)) by lia. destruct mode; [done..|]. by destruct (_ <=? _).
Qed.

Lemma consume_account_any e w u amount key meta r w' :
  wallet_inv w.(w_db) -> 0 < amount -> consume u amount key meta None e w = (r, w') ->
  account w'.(w_db) u = (spec_debit (debit_mode e.(env_settings) meta) (fun n => new_tx e w u debit n meta key)
                           amount key (account w.(w_db) u)).2.
Proof.
  intros Hi Ha Hrun. destruct (user_exists w.(w_db) u) eqn:Hu.
  - destruct (consume_account e w u amount key meta None Hu I (ai_ok _ (wi_account _ Hi u)) Ha) as [H _].
    rewrite Hrun in H. by apply (f_equal snd) in H.
  - rewrite consume_nobody in Hrun by done. injection Hrun as <- <-. rewrite spec_debit_empty; [done..|].
    unfold account, wallet_balance. cbn. by rewrite account_unprovisioned.
Qed.

(** [_bill_completed] always returns once the usage is read, and the account
    is the one of the abstract debit of the remainder. *)
Lemma bill_completed_account e w u run_id ev c usage owed :
  settled w -> _extract_usage_counts ev = inr usage ->
  credits_of e.(env_settings) usage.(uc_input_tokens) usage.(uc_output_tokens) = inr owed ->
  let a := account w.(w_db) u in
  let '(r, w') := _bill_completed u run_id ev c e w in
  r = inr true /\ settled w' /\ others_same u w.(w_db) w'.(w_db) /\
  account w'.(w_db) u =
    (if owed - c <=? 0 then a
     else (spec_debit (debit_mode e.(env_settings) (final_meta run_id usage (_extract_model ev)))
             (final_row e w u run_id usage ev) (owed - c) run_id a).2).
Proof.
  intros Hs Hus Howed a. unfold _bill_completed. run by done. rewrite Hus. run by done. rewrite Howed. run by done.
  destruct (owed - c <=? 0) eqn:Ew; [done|]. zify_bool. unfold try_except, mbind, M_bind.
  destruct (consume u _ run_id _ None e w) as [r w1] eqn:Hrun.
  pose proof (consume_account_any e w u (owed - c) _ _ _ _ (se_db _ Hs) ltac:(lia) Hrun) as Hacc.
  destruct (consume_leaves _ _ _ _ _ _ _ _ _ (se_db _ Hs) Hrun) as (Hi1 & Hfr & Hco & Hexn).
  change (fun n => _) with (final_row e w u run_id usage ev) in Hacc. subst a. rewrite <- Hacc.
  destruct r as [x|r]; cbn [fst snd].
  2: { split; [done|]. split; [by split|]. split; [by apply frame_others|done]. }
  specialize (Hexn x eq_refl). destruct (is_InsufficientCreditsError x) eqn:Ex.
  - assert (Hu : user_exists w.(w_db) u = true).
    { destruct (user_exists w.(w_db) u) eqn:Hu; [done|]. rewrite consume_nobody in Hrun by (apply Hs || lia || done).
      by injection Hrun as <- <-. }
    destruct (record_insufficient_run e w1 u run_id (owed - c) (_extract_model ev) (uc_input_tokens usage)
                (uc_output_tokens usage) (uc_total_tokens usage)) as (w2 & Hw2 & [Hi2 Hb2] & _); [done| |].
    { unfold user_exists in *. by rewrite (frame_users _ _ _ Hfr). }
    rewrite Hw2. cbn. split; [done|]. split; [by split|]. split; [|by rewrite (Hb2 u)].
    intros v Hv. by rewrite Hb2, Hexn.
  - cbn. destruct Hs as [H1 H2 H3]. rewrite Hco. split; [done|].
    split; [split; cbn; by rewrite ?Hco|].
    split; [intros v Hv; by rewrite H3|]. by rewrite <- H3, (Hexn u).
Qed.

(** ** Events *)

Lemma flush_books d0 u k st i a : keeps (books d0) (books d0) (_flush_snapshot u k st i a).
Proof.
  unfold _flush_snapshot, Snapshots.upsert. keeps_walk. apply keeps_or_rollback. keeps_walk.
Qed.

Lemma mark_terminal_books d0 k s : keeps (books d0) (books d0) (_mark_terminal k s).
Proof. unfold _mark_terminal, Runs.mark_status. apply keeps_or_rollback. keeps_walk. Qed.

#[export] Hint Resolve flush_books mark_terminal_books : hermes.

Lemma pause_books d0 hermes u k c st : keeps (books d0) (books d0) (_pause_run hermes u k c st).
Proof. unfold _pause_run, _interrupt_run, Runs.mark_paused. keeps_walk. Qed.

#[export] Hint Resolve pause_books : hermes.

(** Statements that raise nothing but the driver's errors, and the writes of the
    relay that are built from them, which therefore always return. *)
Definition sql_only {A} (m : M A) : Prop :=
  forall e w x w', m e w = (inl x, w') -> is_SQLAlchemyError x = true.

Lemma sql_only_bind {A B} (m : M A) (k : A -> M B) : sql_only m -> (forall a, sql_only (k a)) -> sql_only (m ≫= k).
Proof.
  intros Hm Hk e w x w'. unfold mbind, M_bind. destruct (m e w) as [[y|a] w1] eqn:E; [|apply Hk].
  intros [= -> ->]. by eapply Hm.
Qed.

Lemma sql_only_check b : sql_only (check_constraint b).
Proof. intros e w x w'. unfold check_constraint. by destruct b; intros [= <- <-]. Qed.

Lemma sql_only_int8 z : sql_only (int8 z).
Proof. intros e w x w'. unfold int8. by destruct (_ && _); intros [= <- <-]. Qed.

Lemma or_rollback_returns {A} (m : M A) a e w : sql_only m -> exists r w', or_rollback m a e w = (inr r, w').
Proof.
  intros Hm. unfold or_rollback, try_except. destruct (m e w) as [[x|r] w1] eqn:E; [|by eexists _, _].
  rewrite (Hm _ _ _ _ E). by eexists _, _.
Qed.

Lemma sql_only_upsert k u text tool appr i o b : sql_only (Snapshots.upsert k u text tool appr i o b).
Proof.
  unfold Snapshots.upsert. repeat (apply sql_only_bind; [first [apply sql_only_int8|apply sql_only_check|done]|intros ?]).
  destruct (_ !! k) as [t|]; [by destruct (N.eqb _ _)|].
  by repeat (apply sql_only_bind; [apply sql_only_check|intros ?]).
Qed.

Lemma flush_returns u k st a e w : exists st' w', _flush_snapshot u k st true a e w = (inr st', w').
Proof.
  unfold _flush_snapshot. run by done. run by done. cbn [negb].
  edestruct (or_rollback_returns (A := unit)) as (r & w1 & E); [|run by exact E].
  { apply sql_only_bind; [apply sql_only_upsert|done]. }
  by eexists _, _.
Qed.

(** An operation that moves no money, from a settled session. *)
Lemma settled_step {A} (m : M A) e w a w' :
  (forall d, keeps (books d) (books d) m) -> settled w -> m e w = (inr a, w') ->
  settled w' /\ same_accounts w.(w_db) w'.(w_db).
Proof.
  intros Hm Hs Hrun. destruct (settled_books w Hs) as [H1 H2].
  destruct (keeps_ok _ _ _ _ _ _ _ (Hm w.(w_db)) H1 H2 Hrun) as [H3 H4].
  split; [by eapply books_settled|]. apply H3.
Qed.

Lemma pause_inactive hermes u k c st e w x w' r :
  _pause_run hermes u k c st e w = (inr x, w') -> w'.(w_db).(agent_runs) !! k = Some r ->
  is_active r.(ar_status) = false.
Proof.
  intros Hrun Hr. unfold _pause_run in Hrun. inv_bind Hrun. inv_bind Hrun. inv_bind Hrun. inv_bind Hrun.
  injection Hstep2 as <- <-. injection Hrun as <- <-. unfold Runs.mark_paused in Hstep1.
  rewrite update_run_run in Hstep1. cbn [w_db] in Hr.
  destruct (_ !! k) as [r0|] eqn:Hr0; [|simplify_eq; congruence].
  destruct (is_active (ar_status r0)) eqn:Ha; simplify_eq; [|congruence].
  cbn in Hr. rewrite lookup_insert_eq in Hr. by injection Hr as <-.
Qed.

Definition is_completion (ev : SseEvent) : bool := String.eqb (default "" (_event_name ev)) "run.completed".

(** How the books moved over some events of a run that is not completed. *)
Record run_fact (run run' : RunProcessing) (w w' : World) : Prop := mkRunFact {
  rf_user : run'.(rp_user_id) = run.(rp_user_id);
  rf_run : run'.(rp_run_id) = run.(rp_run_id);
  rf_incremental : run'.(rp_incremental) = run.(rp_incremental);
  rf_billed : run'.(rp_billed) = run.(rp_billed);
  rf_settled : settled w';
  rf_others : others_same run.(rp_user_id) w.(w_db) w'.(w_db);
  rf_cost : let k := run.(rp_run_id) in
            let a := account w.(w_db) run.(rp_user_id) in
            let a' := account w'.(w_db) run.(rp_user_id) in
            run_cost k a' - run_cost k a = run'.(rp_charged) - run.(rp_charged) /\
            a.(ac_balance) - a'.(ac_balance) = run'.(rp_charged) - run.(rp_charged) /\
            run.(rp_charged) <= run'.(rp_charged) /\
            a'.(ac_debt) = a.(ac_debt) /\ find_tx k a' = find_tx k a
}.

Lemma run_fact_trans r1 r2 r3 w1 w2 w3 : run_fact r1 r2 w1 w2 -> run_fact r2 r3 w2 w3 -> run_fact r1 r3 w1 w3.
Proof.
  intros [U1 R1 I1 B1 S1 O1 C1] [U2 R2 I2 B2 S2 O2 C2]. rewrite U1, R1 in *. cbv zeta in C1, C2.
  split; [congruence..|done|intros v Hv; by rewrite O2, O1|]. cbv zeta.
  destruct C1 as (?&?&?&?&?), C2 as (?&?&?&?&?). split_and!; first [lia|congruence].
Qed.

(** An event that moves no money. *)
Lemma run_fact_same run run' w w' :
  run'.(rp_user_id) = run.(rp_user_id) -> run'.(rp_run_id) = run.(rp_run_id) ->
  run'.(rp_incremental) = run.(rp_incremental) -> run'.(rp_billed) = run.(rp_billed) ->
  run'.(rp_charged) = run.(rp_charged) ->
  settled w' -> same_accounts w.(w_db) w'.(w_db) -> run_fact run run' w w'.
Proof.
  intros ????? Hs Ha. split; try done; [intros v _; apply Ha|]. cbv zeta. rewrite Ha. split_and!; first [done|lia].
Qed.

Lemma bill_step_run e w st run ev c d w' :
  settled w -> _bill_step run.(rp_user_id) run.(rp_run_id) ev run.(rp_charged) e w = (inr (c, d), w') ->
  run_fact run (with_charged c (with_state st run)) w w' /\
  (d = true -> (account w'.(w_db) run.(rp_user_id)).(ac_balance) = 0).
Proof.
  intros Hs Hrun. pose proof (bill_step_account _ _ _ _ _ _ _ _ _ (se_db _ Hs) (se_same _ Hs) Hrun)
    as (usage & i & owed & mk & _ & _ & Hmk & Hstep & Hi & Hset & Hoth).
  pose proof (spec_step_fact owed _ i mk run.(rp_charged) (account w.(w_db) run.(rp_user_id)) Hmk) as Hf.
  rewrite <- Hstep in Hf. destruct Hf as [F1 F2 F3 F4 F5 F6 F7]. split.
  - split; try done; cbn.
    + split; [done| |done].
      by apply (keeps_ok _ _ _ _ _ _ _ (keeps_bill_step _ _ _ _) (se_db _ Hs) (se_committed _ Hs) Hrun).
    + split_and!; try done; [lia..|]. apply F7. unfold step_key. apply string_app_neq.
  - intros ->. destruct (F5 eq_refl) as [H _]. destruct (ai_ok _ (wi_account _ Hi run.(rp_user_id))). lia.
Qed.

Ltac books_step Hs H :=
  let Hs' := fresh "Hs" in let Ha := fresh "Ha" in
  pose proof (settled_step _ _ _ _ _ (fun d => ltac:(auto with hermes)) Hs H) as [Hs' Ha].

(** A flush, then only bookkeeping. *)
Lemma flush_run e w run st i a st' w' :
  settled w -> _flush_snapshot run.(rp_user_id) run.(rp_run_id) st i a e w = (inr st', w') ->
  settled w' /\ same_accounts w.(w_db) w'.(w_db).
Proof. intros Hs H. by apply (settled_step _ _ _ _ _ (fun d => flush_books d _ _ _ _ _) Hs H). Qed.

(** The billing part of [usage.delta]. *)
Lemma usage_delta_fact hermes run st ev e w run' p w' :
  settled w ->
  (let run1 := with_state st run in
   if run1.(rp_incremental) then
     b ← _bill_step run.(rp_user_id) run.(rp_run_id) ev run1.(rp_charged);
     let '(charged, depleted) := b in
     let run2 := with_charged charged run1 in
     if (depleted : bool) then
       q ← _pause_run hermes run.(rp_user_id) run.(rp_run_id) charged st; mret (with_state q.1 run2, Some q.2)
     else mret (run2, None)
   else mret (run1, None)) e w = (inr (run', p), w') ->
  run_fact run run' w w' /\
  (is_Some p -> (account w'.(w_db) run.(rp_user_id)).(ac_balance) = 0 /\
                forall r, w'.(w_db).(agent_runs) !! run.(rp_run_id) = Some r -> is_active r.(ar_status) = false).
Proof.
  intros Hs H. cbv zeta in H. change (rp_incremental (with_state st run)) with run.(rp_incremental) in H.
  destruct (rp_incremental run) eqn:Einc.
  2: { injection H as <- <- <-. split; [by apply run_fact_same|by intros [? ?]]. }
  inv_bind H. destruct a as [c d]. destruct (bill_step_run _ _ st _ _ _ _ _ Hs Hstep) as [Hf Hd].
  destruct d.
  2: { injection H as <- <- <-. split; [exact Hf|by intros [? ?]]. }
  inv_bind H. destruct (settled_step _ _ _ _ _ (fun d => pause_books d _ _ _ _ _) (rf_settled _ _ _ _ Hf) Hstep0) as [Hs2 Ha2].
  injection H as <- <- <-. split.
  - eapply run_fact_trans; [exact Hf|]. by apply run_fact_same.
  - intros _. rewrite Ha2. split; [by apply Hd|]. intros r. by apply (pause_inactive _ _ _ _ _ _ _ _ _ _ Hstep0).
Qed.

(** What holds after an event, and after the pause it may have caused. *)
Definition event_fact (run run' : RunProcessing) (p : option PausedBlock) (w w' : World) : Prop :=
  run_fact run run' w w' /\
  (is_Some p -> (account w'.(w_db) run.(rp_user_id)).(ac_balance) = 0 /\
                forall r, w'.(w_db).(agent_runs) !! run.(rp_run_id) = Some r -> is_active r.(ar_status) = false).

(** An event that only updates the snapshot and the status. *)
Lemma plain_event run st w w' :
  settled w' -> same_accounts w.(w_db) w'.(w_db) -> event_fact run (with_state st run) None w w'.
Proof. intros Hs Ha. split; [by apply run_fact_same|by intros [? ?]]. Qed.

Lemma event_fact_after run run' p w w1 w' :
  same_accounts w.(w_db) w1.(w_db) -> event_fact run run' p w1 w' -> event_fact run run' p w w'.
Proof.
  intros Ha [[] Hp]. split; [|done]. split; try done.
  - intros v Hv. by rewrite rf_others0.
  - cbv zeta. by rewrite <- Ha.
Qed.

Lemma process_event_fact hermes run ev e w run' p w' :
  settled w -> is_completion ev = false -> process_event hermes run ev e w = (inr (run', p), w') ->
  event_fact run run' p w w'.
Proof.
  intros Hs Hc H. unfold process_event in H. inv_bind H. apply settings_ok in Hstep as [-> ->].
  unfold is_completion in Hc. cbv zeta in H. rewrite Hc in H.
  assert (Hskip : event_fact run run None w w) by (split; [by apply run_fact_same|by intros [? ?]]).
  destruct (String.eqb _ "message.delta").
  { destruct (Str.nonempty _); [|by injection H as <- <- <-]. inv_bind H. destruct (flush_run _ _ run _ _ _ _ _ Hs Hstep).
    injection H as <- <- <-. by apply plain_event. }
  destruct (Str.startswith _ _).
  { inv_bind H. destruct (flush_run _ _ run _ _ _ _ _ Hs Hstep). injection H as <- <- <-. by apply plain_event. }
  destruct (String.eqb _ "approval.request").
  { inv_bind H. destruct (flush_run _ _ run _ _ _ _ _ Hs Hstep). injection H as <- <- <-. by apply plain_event. }
  destruct (String.eqb _ "usage.delta").
  { inv_bind H. apply of_sum_ok in Hstep as [_ ->]. inv_bind H.
    assert (settled w1 /\ same_accounts w.(w_db) w1.(w_db)) as [Hs1 Ha1].
    { destruct (negb _); [by apply (flush_run _ _ run _ _ _ _ _ Hs Hstep)|by injection Hstep as <- <-]. }
    eapply event_fact_after; [exact Ha1|]. by apply (usage_delta_fact hermes run a0 ev e w1). }
  destruct (String.eqb _ "run.failed"); [|by injection H as <- <- <-].
  inv_bind H. destruct (flush_run _ _ run _ _ _ _ _ Hs Hstep) as [Hs1 Ha1]. inv_bind H.
  destruct (settled_step _ _ _ _ _ (fun d => mark_terminal_books d _ _) Hs1 Hstep0) as [Hs2 Ha2]. injection H as <- <- <-.
  apply plain_event; [done|]. intros v. by rewrite Ha2, Ha1.
Qed.

(** ** A whole run *)

(** The relay loop of [stream_events]: events in order until a pause ends it. *)
Fixpoint relay_events (hermes : Hermes) (run : RunProcessing) (blocks : list SseEvent) :
    M (RunProcessing * option PausedBlock) :=
  match blocks with
  | [] => mret (run, None)
  | block :: rest =>
      q ← process_event hermes run block;
      match q.2 with
      | Some paused => mret (q.1, Some paused)
      | None => relay_events hermes q.1 rest
      end
  end.

Lemma relay_events_fact hermes blocks : forall run e w run' p w',
  settled w -> forallb (fun b => negb (is_completion b)) blocks = true ->
  relay_events hermes run blocks e w = (inr (run', p), w') -> event_fact run run' p w w'.
Proof.
  induction blocks as [|block rest IH]; intros run e w run' p w' Hs Hall H; cbn [relay_events] in H.
  { injection H as <- <- <-. split; [by apply run_fact_same|by intros [? ?]]. }
  cbn in Hall. zify_bool. inv_bind H. destruct a as [run1 [q|]]; cbn [fst snd] in H.
  - injection H as <- <- <-. by apply (process_event_fact hermes run block e).
  - destruct (process_event_fact hermes run block e _ _ _ _ Hs H0 Hstep) as [Hf _].
    destruct (IH run1 e w1 run' p w' (rf_settled _ _ _ _ Hf) H1 H) as [Hf2 Hp2].
    split; [by eapply run_fact_trans|]. by rewrite <- (rf_user _ _ _ _ Hf), <- (rf_run _ _ _ _ Hf).
Qed.

(** The completion event: the books are those of the abstract debit of the
    remainder, whichever way the flush and the status update went. *)
Lemma completion_fact hermes run ev e w usage owed run' p w' :
  settled w -> is_completion ev = true -> run.(rp_billed) = false ->
  _extract_usage_counts ev = inr usage ->
  credits_of e.(env_settings) usage.(uc_input_tokens) usage.(uc_output_tokens) = inr owed ->
  process_event hermes run ev e w = (inr (run', p), w') ->
  let a := account w.(w_db) run.(rp_user_id) in
  run'.(rp_billed) = true /\ p = None /\ settled w' /\ others_same run.(rp_user_id) w.(w_db) w'.(w_db) /\
  exists mk, (forall n, (mk n).(lt_type) = debit /\ (mk n).(lt_amount) = n /\
                        (mk n).(lt_idempotency_key) = run.(rp_run_id)) /\
  account w'.(w_db) run.(rp_user_id) =
    (if owed - run.(rp_charged) <=? 0 then a
     else (spec_debit (debit_mode e.(env_settings) (final_meta run.(rp_run_id) usage (_extract_model ev)))
             mk (owed - run.(rp_charged)) run.(rp_run_id) a).2).
Proof.
  intros Hs Hc Hb Hus Howed H a. unfold process_event in H. inv_bind H. apply settings_ok in Hstep as [-> ->].
  unfold is_completion in Hc. apply String.eqb_eq in Hc. cbv zeta in H. rewrite Hc in H. 
  change (Str.startswith tool_prefix "run.completed") with false in H. cbn [String.eqb Ascii.eqb Bool.eqb] in H.
  rewrite Hus in H. inv_bind H. injection Hstep as <- <-.
  inv_bind H. destruct (flush_run _ _ run _ _ _ _ _ Hs Hstep) as [Hs1 Ha1]. inv_bind H.
  destruct (settled_step _ _ _ _ _ (fun d => mark_terminal_books d _ _) Hs1 Hstep0) as [Hs2 Ha2].
  change (rp_billed (with_state a0 run)) with run.(rp_billed) in H. rewrite Hb in H. inv_bind H.
  pose proof (bill_completed_account e w0 run.(rp_user_id) run.(rp_run_id) ev run.(rp_charged) usage owed Hs2 Hus Howed) as Hk.
  change (rp_charged (with_state a0 run)) with run.(rp_charged) in Hstep1. rewrite Hstep1 in Hk.
  destruct Hk as (Hr & Hs3 & Ho3 & Ha3). injection Hr as ->. injection H as <- <- <-.
  assert (Hsame : same_accounts w.(w_db) w0.(w_db)) by (intros v; by rewrite Ha2, Ha1).
  split; [done|]. split; [done|]. split; [done|]. split; [intros v Hv; by rewrite Ho3, Hsame|].
  exists (final_row e w0 run.(rp_user_id) run.(rp_run_id) usage ev). split; [done|].
  rewrite Ha3, Hsame. done.
Qed.

(** A terminal status is written together with what the session holds. *)
Lemma mark_terminal_run k s e w :
  exists w', _mark_terminal k s e w = (inr tt, w') /\ w'.(w_committed) = w'.(w_db) /\
    (wallet_inv w.(w_db) -> books w.(w_db) w'.(w_db)) /\
    (terminal s = true -> forall r, w'.(w_db).(agent_runs) !! k = Some r -> is_active r.(ar_status) = false).
Proof.
  unfold _mark_terminal, or_rollback, try_except, Runs.mark_status.
  unfold mbind, M_bind. rewrite update_run_run.
  destruct (_ !! k) as [r0|] eqn:Hr0; [destruct (is_active (ar_status r0)) eqn:Ha|];
    eexists; (split; [done|]); cbn; (split; [done|]); (split; [eauto using books_put_run, books_refl|]); intros Hs r.
  - rewrite lookup_insert_eq. intros [= <-]. by destruct s.
  - congruence.
  - congruence.
Qed.

(** A completion whose usage can be read and priced is always processed. *)
Lemma completion_returns hermes run ev e w usage owed :
  settled w -> is_completion ev = true -> run.(rp_billed) = false ->
  _extract_usage_counts ev = inr usage ->
  credits_of e.(env_settings) usage.(uc_input_tokens) usage.(uc_output_tokens) = inr owed ->
  exists run' w', process_event hermes run ev e w = (inr (run', None), w').
Proof.
  intros Hs Hc Hb Hus Howed. unfold process_event. run by done. cbv zeta.
  unfold is_completion in Hc. apply String.eqb_eq in Hc. rewrite Hc.
  change (Str.startswith tool_prefix "run.completed") with false. cbn [String.eqb Ascii.eqb Bool.eqb].
  rewrite Hus. run by done.
  match goal with |- context [_flush_snapshot ?u ?k ?st true true] =>
    destruct (flush_returns u k st true e w) as (st' & w1 & E1) end.
  run by exact E1. destruct (flush_run _ _ run _ _ _ _ _ Hs E1) as [Hs1 _].
  destruct (mark_terminal_run run.(rp_run_id) run_completed e w1) as (w2 & E2 & _). run by exact E2.
  destruct (settled_step _ _ _ _ _ (fun d => mark_terminal_books d _ _) Hs1 E2) as [Hs2 _].
  change (rp_billed (with_state st' run)) with run.(rp_billed). rewrite Hb.
  pose proof (bill_completed_account e w2 run.(rp_user_id) run.(rp_run_id) ev run.(rp_charged) usage owed Hs2 Hus Howed) as Hk.
  cbv zeta in Hk. change (rp_charged (with_state st' run)) with run.(rp_charged).
  destruct (_bill_completed _ _ ev _ e w2) as [r w3] eqn:E3. destruct Hk as (-> & _). run by exact E3. by eexists _, _.
Qed.

(** C8: an agent run is billed for exactly what it used.  Start from a settled
    session with the running total seeded from the ledger and no final debit
    yet; let any events but a completion be relayed without a pause, then the
    completion, whose usage is worth [owed], no less than the steps have cost.
    If the balance covers what remains, the completion is processed without an
    exception and the ledger then says that the run has
    cost [owed], the balance has dropped by exactly the part of it that was not
    charged before, and no debt was added.  The steps may replay, arrive out of
    order or share an index. *)
Theorem run_billed_exactly hermes run blocks final e w run1 w1 usage owed :
  settled w -> run.(rp_billed) = false ->
  run.(rp_charged) = run_cost run.(rp_run_id) (account w.(w_db) run.(rp_user_id)) ->
  find_tx run.(rp_run_id) (account w.(w_db) run.(rp_user_id)) = None ->
  forallb (fun b => negb (is_completion b)) blocks = true ->
  relay_events hermes run blocks e w = (inr (run1, None), w1) ->
  is_completion final = true -> _extract_usage_counts final = inr usage ->
  credits_of e.(env_settings) usage.(uc_input_tokens) usage.(uc_output_tokens) = inr owed ->
  run1.(rp_charged) <= owed <= run1.(rp_charged) + wallet_balance w1.(w_db) run.(rp_user_id) ->
  exists run2 w2, process_event hermes run1 final e w1 = (inr (run2, None), w2) /\
  let a := account w.(w_db) run.(rp_user_id) in
  let a2 := account w2.(w_db) run.(rp_user_id) in
  run2.(rp_billed) = true /\ run_cost run.(rp_run_id) a2 = owed /\
  a.(ac_balance) - a2.(ac_balance) = owed - run_cost run.(rp_run_id) a /\ a2.(ac_debt) = a.(ac_debt).
Proof.
  intros Hs Hb Hseed Hfree Hall Hrelay Hc Hus Howed [Hlo Hhi].
  destruct (relay_events_fact hermes blocks _ _ _ _ _ _ Hs Hall Hrelay) as [[U R _ B S1 _ C] _]. cbv zeta in C.
  destruct C as (C1 & C2 & _ & C4 & C5).
  destruct (completion_returns hermes run1 final e w1 usage owed S1 Hc ltac:(congruence) Hus Howed) as (run2 & w2 & Hfin).
  exists run2, w2. split; [done|]. intros a a2.
  pose proof (completion_fact hermes run1 final e w1 usage owed run2 None w2 S1 Hc ltac:(congruence) Hus Howed Hfin) as Hk.
  rewrite U, R in Hk. cbv zeta in Hk. destruct Hk as (Hb2 & _ & _ & _ & mk & Hmk & Hacc).
  split; [done|]. subst a a2. rewrite Hacc. destruct (_ <=? 0) eqn:E; zify_bool.
  { split_and!; first [lia|congruence]. }
  unfold spec_debit. rewrite C5, Hfree.
  change (wallet_balance w1.(w_db) (rp_user_id run)) with (ac_balance (account w1.(w_db) (rp_user_id run))) in Hhi.
  rewrite (proj2 (Z.leb_le _ _)) by lia. cbn [snd].
  destruct (Hmk (owed - run1.(rp_charged))) as (Ht & Hn & Hkey).
  rewrite run_cost_take by eauto using run_key_of_run. cbn [take_credits ac_balance ac_debt].
  split_and!; first [lia|congruence].
Qed.

(** Pause at zero.  A relay stops with a pause only when the balance is
    exactly zero; nothing was borrowed, what the ledger says the run has cost
    is what left the balance, and the run's lifecycle row is no longer active. *)
Theorem pause_means_empty hermes run blocks e w run' paused w' :
  settled w -> forallb (fun b => negb (is_completion b)) blocks = true ->
  relay_events hermes run blocks e w = (inr (run', Some paused), w') ->
  let a := account w.(w_db) run.(rp_user_id) in
  let a' := account w'.(w_db) run.(rp_user_id) in
  a'.(ac_balance) = 0 /\ a'.(ac_debt) = a.(ac_debt) /\
  run_cost run.(rp_run_id) a' - run_cost run.(rp_run_id) a = a.(ac_balance) /\
  (forall r, w'.(w_db).(agent_runs) !! run.(rp_run_id) = Some r -> is_active r.(ar_status) = false).
Proof.
  intros Hs Hall H a a'. destruct (relay_events_fact hermes blocks _ _ _ _ _ _ Hs Hall H) as [[_ _ _ _ _ _ C] Hp].
  destruct C as (C1 & C2 & _ & C4 & _). destruct (Hp (ex_intro _ _ eq_refl)) as [Hz Hr].
  subst a a'. split_and!; [done|done|lia|done].
Qed.

(** ** Orphans *)

(** What any debit under the run's own key does to the books. *)
Lemma run_debit_bounds mode mk run_id amount a :
  (forall n, (mk n).(lt_type) = debit /\ (mk n).(lt_amount) = n /\ (mk n).(lt_idempotency_key) = run_id) ->
  0 < amount -> account_ok a ->
  let a' := (spec_debit mode mk amount run_id a).2 in
  run_cost run_id a' - run_cost run_id a = a.(ac_balance) - a'.(ac_balance) /\
  0 <= a.(ac_balance) - a'.(ac_balance) <= amount /\
  a'.(ac_debt) - a.(ac_debt) <= amount - (a.(ac_balance) - a'.(ac_balance)).
Proof.
  intros Hmk Ha [Hb Hd] a'. subst a'.
  assert (Htake : forall n, run_cost run_id (take_credits mk n a) - run_cost run_id a = n).
  { intros n. destruct (Hmk n) as (H1 & H2 & H3). rewrite run_cost_take by eauto using run_key_of_run. lia. }
  assert (Hdebt : forall n k, run_cost run_id (add_debt k (take_credits mk n a)) - run_cost run_id a = n) by exact (fun n k => Htake n).
  unfold spec_debit, spec_shortfall. destruct (find_tx run_id a); [destruct mode; cbn; lia|].
  destruct mode; repeat case_match_goal; zify_bool; cbn [snd]; rewrite ?Htake, ?Hdebt;
    cbn [take_credits add_debt ac_balance ac_debt]; lia.
Qed.

(** The debit of an orphan's remainder, with its shortfall recorded. *)
Lemma orphan_debit_books e w u run_id owed i o billed w' :
  settled w -> 0 < owed ->
  try_except (r ← consume u owed run_id (orphan_meta run_id) None; mret r.(cr_charged_amount))
    (fun x => if is_InsufficientCreditsError x
              then Some (_record_insufficient u run_id owed None i o (i + o);; mret 0) else None) e w = (inr billed, w') ->
  wallet_inv w'.(w_db) /\ others_same u w.(w_db) w'.(w_db) /\
  exists mk, (forall n, (mk n).(lt_type) = debit /\ (mk n).(lt_amount) = n /\ (mk n).(lt_idempotency_key) = run_id) /\
  account w'.(w_db) u = (spec_debit (debit_mode e.(env_settings) (orphan_meta run_id)) mk owed run_id
                           (account w.(w_db) u)).2.
Proof.
  intros Hs Hp. unfold try_except. unfold mbind at 1, M_bind at 1.
  destruct (consume u _ run_id _ None e w) as [r w1] eqn:Hrun.
  pose proof (consume_account_any e w u owed _ _ _ _ (se_db _ Hs) Hp Hrun) as Hacc.
  destruct (consume_leaves _ _ _ _ _ _ _ _ _ (se_db _ Hs) Hrun) as (Hi1 & Hfr & Hco & Hexn).
  destruct r as [x|r]; cbn [fst snd].
  - specialize (Hexn x eq_refl). destruct (is_InsufficientCreditsError x) eqn:Ex; [|done].
    intros H. inv_bind H. injection H as <- <-.
    assert (Hb : books w1.(w_db) w0.(w_db)).
    { unfold _record_insufficient in Hstep. inv_bind Hstep. injection Hstep0 as <- <-. apply record_ok in Hstep as ->.
      split; [apply wallet_inv_add_audit; [apply insufficient_row_neutral|done]|].
      intros v. apply account_add_neutral, insufficient_row_neutral. }
    destruct Hb as [Hi2 Hb2]. split; [done|]. split; [intros v Hv; by rewrite Hb2, Hexn|].
    eexists. split; [|by rewrite Hb2]. done.
  - intros [= <- <-]. split; [done|]. split; [by apply frame_others|]. eexists. split; [|done]. done.
Qed.

Lemma orphan_event_neutral rid u payload : neutral (audit_row rid (mkAuditEvent u None EVENT_ORPHAN_FINALIZED payload)).
Proof. by apply neutral_event_type. Qed.

(** A debit under a fresh key, or under any key with reconciliation on, either
    returns or reports the shortfall, when the numbers fit their columns. *)
Lemma spec_debit_regular mode mk amount key a :
  mode <> Clamp -> find_tx key a = None \/ mode = Reconcile -> account_ok a ->
  a.(ac_debt) + amount <= int8_max ->
  (exists r, (spec_debit mode mk amount key a).1 = inr r) \/ (spec_debit mode mk amount key a).1 = inl insufficient.
Proof.
  intros Hm Hk [Hb Hd] Ha. unfold spec_debit, spec_shortfall. cbv zeta.
  rewrite (proj2 (Z.leb_le (_ + (_ - _)) _)), (proj2 (Z.leb_le amount int8_max)) by lia.
  destruct (find_tx key a); [destruct Hk as [Hk|Hk]; [done|subst mode; by left; eexists]|].
  destruct mode; [| |done]; repeat case_match_goal; by eauto.
Qed.

Lemma run_cost_nonneg run_id a : account_inv a -> 0 <= run_cost run_id a.
Proof.
  intros Hi. unfold run_cost. apply sumZ_nonneg. intros t Ht. destruct (of_run run_id t); [|done].
  pose proof (ai_txs _ Hi) as Htx. rewrite Forall_forall in Htx. destruct (Htx t Ht). lia.
Qed.

Lemma mark_terminal_users k s e w : (_mark_terminal k s e w).2.(w_db).(users) = w.(w_db).(users).
Proof.
  unfold _mark_terminal, or_rollback, try_except, Runs.mark_status, mbind, M_bind. rewrite update_run_run.
  by destruct (_ !! k) as [r0|]; [destruct (is_active (ar_status r0))|].
Qed.

(** The debit of an orphan's remainder returns. *)
Lemma orphan_debit_returns e w u run_id owed i o :
  settled w -> user_exists w.(w_db) u = true -> 0 < owed ->
  find_tx run_id (account w.(w_db) u) = None \/ e.(env_settings).(agent_debt_reconcile_enabled) = true ->
  wallet_debt w.(w_db) u + owed <= int8_max ->
  exists n w', try_except (r ← consume u owed run_id (orphan_meta run_id) None; mret r.(cr_charged_amount))
    (fun x => if is_InsufficientCreditsError x
              then Some (_record_insufficient u run_id owed None i o (i + o);; mret 0) else None) e w = (inr n, w') /\
    w'.(w_db).(users) = w.(w_db).(users).
Proof.
  intros Hs Hu Hp Hkey Hfit. pose proof (ai_ok _ (wi_account _ (se_db _ Hs) u)) as [Hb Hd].
  destruct (consume_account e w u owed run_id (orphan_meta run_id) None Hu I (conj Hb Hd) Hp) as [Hr Hf].
  unfold try_except, mbind, M_bind. destruct (consume u owed run_id _ None e w) as [r w1] eqn:Hrun. cbn [fst snd] in *.
  destruct (consume_leaves _ _ _ _ _ _ _ _ _ (se_db _ Hs) Hrun) as (Hi1 & _).
  pose proof (frame_users _ _ _ Hf) as Hus. apply (f_equal fst) in Hr. cbn [fst] in Hr.
  destruct (spec_debit_regular (debit_mode e.(env_settings) (orphan_meta run_id))
              (fun n => new_tx e w u debit n (orphan_meta run_id) run_id) owed run_id (account w.(w_db) u)) as [[x Hx]|Hx].
  - unfold debit_mode. cbn. by destruct (agent_debt_reconcile_enabled _).
  - destruct Hkey as [|Hkey]; [by left|right]. unfold debit_mode. cbn. by rewrite Hkey.
  - by split.
  - exact Hfit.
  - rewrite Hx in Hr. subst r. by eexists _, _.
  - rewrite Hx in Hr. subst r. cbn.
    assert (Hu1 : user_exists w1.(w_db) u = true) by (unfold user_exists in *; by rewrite Hus).
    unfold _record_insufficient, mbind, M_bind. rewrite current_balance_run, record_run by done.
    by eexists _, _.
Qed.

(** Finalizing returns, then. *)
Lemma orphan_returns u run_id i o present age e w observed :
  settled w -> user_exists w.(w_db) u = true -> credits_of e.(env_settings) i o = inr observed ->
  find_tx run_id (account w.(w_db) u) = None \/ e.(env_settings).(agent_debt_reconcile_enabled) = true ->
  wallet_debt w.(w_db) u + observed <= int8_max ->
  exists w', finalize_orphan_run u run_id i o present age e w = (inr tt, w').
Proof.
  intros Hs Hu Hobs Hkey Hfit. unfold finalize_orphan_run. cbv zeta. run by done. rewrite Hobs. run by done.
  run by apply charged_for_run_cost. set (owed := Z.max _ 0).
  match goal with |- context [mbind _ ?m] => set (debit_step := m) end.
  assert (Hd : exists n w1, debit_step e w = (inr n, w1) /\ w1.(w_db).(users) = w.(w_db).(users)).
  { subst debit_step. destruct (0 <? owed) eqn:E; zify_bool; [|by eexists _, _].
    pose proof (run_cost_nonneg run_id _ (wi_account _ (se_db _ Hs) u)). apply orphan_debit_returns; try done. lia. }
  destruct Hd as (n & w1 & E1 & Hu1). run by exact E1.
  destruct (mark_terminal_run run_id run_failed e w1) as (w2 & E2 & _). run by exact E2.
  pose proof (mark_terminal_users run_id run_failed e w1) as Hu2. rewrite E2 in Hu2. cbn [snd] in Hu2.
  run by (apply record_run; [unfold user_exists in *; cbn; by rewrite Hu2, Hu1|done]). by eexists.
Qed.

(** What a finalization that returns has done. *)
Lemma orphan_books u run_id i o present age e w observed w' :
  settled w -> credits_of e.(env_settings) i o = inr observed ->
  finalize_orphan_run u run_id i o present age e w = (inr tt, w') ->
  let a := account w.(w_db) u in
  let a' := account w'.(w_db) u in
  settled w' /\ others_same u w.(w_db) w'.(w_db) /\
  run_cost run_id a' - run_cost run_id a = a.(ac_balance) - a'.(ac_balance) /\
  run_cost run_id a <= run_cost run_id a' <= Z.max (run_cost run_id a) observed /\
  a'.(ac_debt) - a.(ac_debt) <= Z.max 0 (observed - run_cost run_id a') /\
  (forall r, w'.(w_db).(agent_runs) !! run_id = Some r -> is_active r.(ar_status) = false).
Proof.
  intros Hs Hobs H a a'. unfold finalize_orphan_run in H. cbv zeta in H. inv_bind H. injection Hstep as <- <-.
  rewrite Hobs in H. inv_bind H. injection Hstep as <- <-. inv_bind H. rewrite charged_for_run_cost in Hstep.
  injection Hstep as <- <-. inv_bind H. rename a0 into billed, w1 into wd.
  inv_bind H. inv_bind H. inv_bind H. injection Hstep2 as <- <-. injection H as <-.
  destruct (mark_terminal_run run_id run_failed e wd) as (wm & Hm & _ & Hbooks & Hrow). rewrite Hm in Hstep0.
  injection Hstep0 as <- <-. apply record_ok in Hstep1 as ->.
  assert (Hdebit : wallet_inv wd.(w_db) /\ others_same u w.(w_db) wd.(w_db) /\
    let ad := account wd.(w_db) u in
    run_cost run_id ad - run_cost run_id a = a.(ac_balance) - ad.(ac_balance) /\
    0 <= a.(ac_balance) - ad.(ac_balance) <= Z.max 0 (observed - run_cost run_id a) /\
    ad.(ac_debt) - a.(ac_debt) <= Z.max 0 (observed - run_cost run_id a) - (a.(ac_balance) - ad.(ac_balance))).
  { subst a. destruct (0 <? _) eqn:E; zify_bool.
    - destruct (orphan_debit_books _ _ _ _ _ _ _ _ _ Hs E Hstep) as (Hi & Ho & mk & Hmk & Hacc).
      split; [done|]. split; [done|]. cbv zeta. rewrite Hacc.
      destruct (run_debit_bounds (debit_mode e.(env_settings) (orphan_meta run_id)) mk run_id _ _ Hmk E
                  (ai_ok _ (wi_account _ (se_db _ Hs) u))) as (B1 & B2 & B3).
      split_and!; [exact B1|lia..].
    - injection Hstep as <- <-. split; [apply Hs|]. split; [done|]. cbv zeta. lia. }
  destruct Hdebit as (Hi & Ho & D1 & D2 & D3). destruct (Hbooks Hi) as [Him Hbm].
  assert (Hfin : forall d r v, d = wm.(w_db) -> neutral r -> account (add_audit r d) v = account wd.(w_db) v).
  { intros d r v -> Hn. rewrite account_add_neutral by done. apply Hbm. }
  subst a'. cbn [w_db w_committed with_db]. 
  split; [split; cbn; [by apply wallet_inv_add_audit; [apply orphan_event_neutral|]..|done]|].
  rewrite Hfin by first [done|apply orphan_event_neutral].
  split; [intros v Hv; rewrite Hfin by first [done|apply orphan_event_neutral]; by apply Ho|].
  cbv zeta in D1, D2, D3. split_and!; [done|lia..|]. intros r. by apply Hrow.
Qed.

(** C33: finalizing an orphan charges at most the remainder.  For an existing
    user, with numbers that fit their columns and either no debit under the
    run's own key yet or reconciliation on, the finalization goes through.
    Whatever the steps already cost is subtracted: what is taken from the
    balance is what the ledger adds to the cost of the run, the two together
    never exceed what the observed usage is worth, a debt is only the part that
    the balance did not cover, everything is committed and the run is no longer
    active. *)
Theorem orphan_charges_remainder u run_id i o present age e w observed :
  settled w -> user_exists w.(w_db) u = true -> credits_of e.(env_settings) i o = inr observed ->
  find_tx run_id (account w.(w_db) u) = None \/ e.(env_settings).(agent_debt_reconcile_enabled) = true ->
  wallet_debt w.(w_db) u + observed <= int8_max ->
  exists w', finalize_orphan_run u run_id i o present age e w = (inr tt, w') /\
  let a := account w.(w_db) u in
  let a' := account w'.(w_db) u in
  settled w' /\ others_same u w.(w_db) w'.(w_db) /\
  run_cost run_id a' - run_cost run_id a = a.(ac_balance) - a'.(ac_balance) /\
  run_cost run_id a <= run_cost run_id a' <= Z.max (run_cost run_id a) observed /\
  a'.(ac_debt) - a.(ac_debt) <= Z.max 0 (observed - run_cost run_id a') /\
  (forall r, w'.(w_db).(agent_runs) !! run_id = Some r -> is_active r.(ar_status) = false).
Proof.
  intros Hs Hu Hobs Hkey Hfit.
  destruct (orphan_returns u run_id i o present age e w observed Hs Hu Hobs Hkey Hfit) as [w' H].
  exists w'. split; [done|]. by apply (orphan_books u run_id i o present age e w observed w').
Qed.

(** ** Alice's run, for the witnesses *)

Definition billing_settings : Settings :=
  mkSettings true true 1000 (Some (JObj [])) (Some (JObj [])) 1000 "cp-token" (Some (JObj [])) 1000
    ["succeeded"] 72 float_1 float_5 3000000 65536 150000000 3 2000000 900 20 600 chat_defaults.
Definition billing_env : Env :=
  mkEnv billing_settings (fun n => N.of_nat (1000 + n)) (fun _ => 1700000000000000) (fun n => 1000000 * Z.of_nat n)
    1700000000000000 (Some "req-1").

(** A running run and [n] credits, all committed. *)
Definition run_with_credits (n : Z) : World :=
  (session_scope (grant alice n "purchase-1" [] "purchase") billing_env (run_world run_running)).2.

Lemma run_with_credits_settled n : settled (run_with_credits n).
Proof.
  assert (H : sound wallet_inv wallet_inv (run_world run_running)) by (split; by apply wallet_inv_fresh).
  pose proof (scope_sound wallet_inv _ (keeps_grant alice n "purchase-1" [] "purchase") billing_env _ H) as [H1 H2].
  split; [exact H1|exact H2|]. unfold run_with_credits, session_scope.
  destruct (grant _ _ _ _ _ _ _) as [[x|r] w'] eqn:E; cbn; done.
Qed.

Definition usage_delta (step input output : Z) : SseEvent :=
  mkSseEvent (Some "usage.delta") [("step_index", JInt step); ("cumulative_input_tokens", JInt input);
    ("cumulative_output_tokens", JInt output)].
Definition message_delta (s : string) : SseEvent := mkSseEvent (Some "message.delta") [("text", JStr s)].
Definition completion (input output : Z) : SseEvent :=
  mkSseEvent (Some "run.completed")
    [("usage", JObj [("input_tokens", JInt input); ("output_tokens", JInt output); ("total_tokens", JInt (input + output))])].

Definition fresh_run : RunProcessing := mkProcessing alice "r1" true 0 false new_relay.
(** An instance that answers every request. *)
Definition demo_hermes : Hermes :=
  mkHermes (fun _ => None) (fun _ _ _ => answered 200 (Some (JObj [("run_id", JStr "r2"); ("status", JStr "running")])))
    (fun _ _ => answered 200 (Some (JArr [JObj [("role", JStr "user"); ("content", JStr "hi")]])))
    (fun _ _ _ => answered 200 (Some (JObj []))).

(** 1500 input and 700 output tokens cost 5 credits, 3000 and 2000 cost 13. *)
Definition some_blocks : list SseEvent :=
  [message_delta "Hello"; usage_delta 1 1500 700; message_delta " world"; usage_delta 1 1500 700].

Definition relayed (n : Z) (blocks : list SseEvent) : (exn + (RunProcessing * option PausedBlock)) * World :=
  relay_events demo_hermes fresh_run blocks billing_env (run_with_credits n).

Definition first_step : (exn + (Z * bool)) * World :=
  _bill_step alice "r1" (usage_delta 1 1500 700) 0 billing_env (run_with_credits 100).

Lemma bill_step_exact_witness :
  exists usage i owed,
    _extract_usage_counts (usage_delta 1 1500 700) = inr usage /\
    credits_of billing_settings usage.(uc_input_tokens) usage.(uc_output_tokens) = inr owed /\
    step_fact owed "r1" (step_key "r1" i) 0 5 false (account (run_with_credits 100).(w_db) alice)
      (account first_step.2.(w_db) alice) /\
    (forall v, v <> alice -> account first_step.2.(w_db) v = account (run_with_credits 100).(w_db) v).
Proof.
  apply (bill_step_exact billing_env (run_with_credits 100) alice "r1" (usage_delta 1 1500 700) 0 5 false).
  - apply run_with_credits_settled.
  - apply run_with_credits_settled.
  - vm_compute. reflexivity.
Defined.

Definition relayed_run (n : Z) (blocks : list SseEvent) : RunProcessing :=
  match (relayed n blocks).1 with inr (r, _) => r | inl _ => fresh_run end.
Lemma run_billed_exactly_witness :
  exists run2 w2, process_event demo_hermes (relayed_run 100 some_blocks) (completion 3000 2000) billing_env
                    (relayed 100 some_blocks).2 = (inr (run2, None), w2) /\
  run2.(rp_billed) = true /\ run_cost "r1" (account w2.(w_db) alice) = 13 /\
  100 - (account w2.(w_db) alice).(ac_balance) = 13 - 0 /\ (account w2.(w_db) alice).(ac_debt) = 0.
Proof.
  apply (run_billed_exactly demo_hermes fresh_run some_blocks (completion 3000 2000) billing_env (run_with_credits 100)
           (relayed_run 100 some_blocks) (relayed 100 some_blocks).2
           (mkUsage 3000 2000 5000 true false ["usage.per_step"] false false) 13).
  - apply run_with_credits_settled.
  - reflexivity.
  - vm_compute. reflexivity.
  - vm_compute. reflexivity.
  - reflexivity.
  - vm_compute. reflexivity.
  - reflexivity.
  - vm_compute. reflexivity.
  - vm_compute. reflexivity.
  - vm_compute. by split.
Defined.

Definition paused_blocks : list SseEvent := [message_delta "Hello"; usage_delta 1 1500 700].
Definition demo_paused : PausedBlock := mkPaused "r1" "Hello" [] 3 1500 700.

Lemma pause_means_empty_witness :
  let a := account (run_with_credits 3).(w_db) alice in
  let a' := account (relayed 3 paused_blocks).2.(w_db) alice in
  a'.(ac_balance) = 0 /\ a'.(ac_debt) = a.(ac_debt) /\ run_cost "r1" a' - run_cost "r1" a = a.(ac_balance) /\
  (forall r, (relayed 3 paused_blocks).2.(w_db).(agent_runs) !! "r1" = Some r -> is_active r.(ar_status) = false).
Proof.
  apply (pause_means_empty demo_hermes fresh_run paused_blocks billing_env (run_with_credits 3)
           (relayed_run 3 paused_blocks) demo_paused).
  - apply run_with_credits_settled.
  - reflexivity.
  - vm_compute. reflexivity.
Defined.

Lemma relayed_settled : settled (relayed 100 some_blocks).2.
Proof.
  destruct (relay_events_fact demo_hermes some_blocks fresh_run billing_env (run_with_credits 100)
              (relayed_run 100 some_blocks) None (relayed 100 some_blocks).2) as [Hf _];
    [apply run_with_credits_settled|reflexivity|vm_compute; reflexivity|]. apply Hf.
Qed.

Lemma orphan_charges_remainder_witness :
  exists w', finalize_orphan_run alice "r1" 3000 2000 true (JInt 900) billing_env (relayed 100 some_blocks).2 = (inr tt, w') /\
  let a := account (relayed 100 some_blocks).2.(w_db) alice in
  let a' := account w'.(w_db) alice in
  settled w' /\ others_same alice (relayed 100 some_blocks).2.(w_db) w'.(w_db) /\
  run_cost "r1" a' - run_cost "r1" a = a.(ac_balance) - a'.(ac_balance) /\
  run_cost "r1" a <= run_cost "r1" a' <= Z.max (run_cost "r1" a) 13 /\
  a'.(ac_debt) - a.(ac_debt) <= Z.max 0 (13 - run_cost "r1" a') /\
  (forall r, w'.(w_db).(agent_runs) !! "r1" = Some r -> is_active r.(ar_status) = false).
Proof.
  apply (orphan_charges_remainder alice "r1" 3000 2000 true (JInt 900) billing_env (relayed 100 some_blocks).2 13).
  - exact relayed_settled.
  - vm_compute. reflexivity.
  - vm_compute. reflexivity.
  - left. vm_compute. reflexivity.
  - vm_compute. discriminate.
Defined.
