(* ===== verification/Drift.v ===== *)
(** * What the relay reports about events it cannot read

    The diagnostics of [src/app/agent_proxy/service.py]: the counters and the
    latches of [_RelayState] and the checks of a relay over its events, which
    write log lines and change nothing else.  A log line is a [Warning]; what a
    check does is a function from the latches to the lines it writes and the
    latches afterwards, and the relay is the sequence of its checks over what
    it reads.  Whether the run was billed before, what was charged and whether
    a step paused the run are inputs, decided by [process_event]. *)

From Stdlib Require Import Ascii String.
From stdpp Require Import sorting.
From S2P Require Import Prelude PyVal Redaction Store Fixtures Usage AgentService.

Open Scope string_scope.
Open Scope list_scope.
Open Scope Z_scope.

Module Drift.
(** ** Shapes of a block *)

Definition _SHAPE_SUMMARY_MAX_KEYS : nat := 40.
Definition _USAGE_ANCHOR_STALL_WARN_AFTER : Z := 5.
Definition _DELTA_SILENT_WARN_AFTER : Z := 10.
Definition _DELTA_ENVELOPE_KEYS : list string :=
  _DELTA_TEXT_KEYS ++ ["event"; "type"; "run_id"; "runId"; "id"; "session_id"; "sessionId"; "model"; "role"; "index"; "timestamp"].

Fixpoint enumerated {A} (i : Z) (l : list A) : list (string * A) :=
  match l with [] => [] | x :: l' => (Str.of_int i, x) :: enumerated (i + 1) l' end.

(** The items of a container, [None] for any other value. *)
Definition items_of (node : json) : option (list (string * json)) :=
  match node with JObj d => Some d | JArr l => Some (enumerated 0 l) | _ => None end.

Fixpoint _key_paths (depth : nat) (prefix : string) (node : json) : list string :=
  match depth with
  | O => []
  | S depth' =>
      flat_map (fun kv =>
        let path := (prefix ++ kv.1)%string in
        match items_of kv.2, depth' with
        | Some (_ :: _), S _ => _key_paths depth' (path ++ ".") kv.2
        | _, _ => [path]
        end) (default [] (items_of node))
  end.

Definition path_le (a b : string) : Prop := String.leb a b = true.
#[global] Instance path_le_dec : RelDecision path_le := fun a b => bool_eq_dec _ _.

Definition sorted_keys (l : list string) : list string := merge_sort path_le l.

(** [sorted(set(paths))[:40]] *)
Definition _shape_summary (event : SseEvent) : list string :=
  take _SHAPE_SUMMARY_MAX_KEYS (sorted_keys (remove_dups (_key_paths _USAGE_GATE_MAX_DEPTH "" (JObj event.(sse_data))))).

(** [isinstance(value, int) and not isinstance(value, bool)] *)
Definition token_field (kv : string * json) : bool :=
  Str.contains "token" (Str.lower kv.1) && match kv.2 with JInt _ => true | _ => false end.

Definition _has_token_like_field (event : SseEvent) : bool :=
  existsb token_field event.(sse_data) ||
  match dict_get event.(sse_data) "usage" with JObj nested => existsb token_field nested | _ => false end.

(** A known carrier that is neither absent nor empty and holds no text, or a
    text outside the carriers and the envelope. *)
Definition unusable (value : json) : bool :=
  match value with
  | JNull | JStr "" => false
  | _ => match _as_event_text value with None => true | Some _ => false end
  end.

Definition _delta_shape_looks_unknown (event : SseEvent) : bool :=
  existsb (fun k => unusable (dict_get event.(sse_data) k)) _DELTA_TEXT_KEYS ||
  existsb (fun kv => negb (str_in kv.1 _DELTA_ENVELOPE_KEYS) && match _as_event_text kv.2 with Some _ => true | None => false end)
    event.(sse_data).

(** ** Lines and latches *)

Inductive Warning : Type :=
| carrier_unknown (keys : list string)
| no_text_after (events : Z) (keys : list string)
| no_text_for_run (events : Z)
| usage_unrecognised (kind : string) (keys : list string)
| usage_half_read (kind : string) (usage : UsageCounts)
| usage_disagrees (kind : string) (usage : UsageCounts)
| step_above_total (kind : string) (usage : UsageCounts)
| anchors_frozen (events input_tokens output_tokens : Z)
| zero_with_text (events : Z) (recognised : bool) (keys : list string)
| zero_shape_unknown (recognised numeric_token_fields : bool) (keys : list string)
| below_already_billed (owed charged : Z) (recognised partial : bool)
| snapshot_skipped
| text_frozen (stored submitted : Z).

(** The part of [_RelayState] that only the checks use, and the token anchors. *)
Record Latches : Type := mkLatches {
  tenancy_skip_logged : bool;
  text_frozen_logged : bool;
  delta_shape_unknown_logged : bool;
  delta_events : Z;
  delta_text_seen : bool;
  delta_silent_logged : bool;
  usage_anomalies_logged : list (string * string);
  usage_events_since_anchor_advance : Z;
  anchor_input : Z;
  anchor_output : Z
}.

Definition new_latches : Latches := mkLatches false false false 0 false false [] 0 0 0.

Definition set_usage (l : list (string * string)) (s : Latches) : Latches :=
  mkLatches s.(tenancy_skip_logged) s.(text_frozen_logged) s.(delta_shape_unknown_logged) s.(delta_events) s.(delta_text_seen)
    s.(delta_silent_logged) l s.(usage_events_since_anchor_advance) s.(anchor_input) s.(anchor_output).
Definition set_since (n : Z) (s : Latches) : Latches :=
  mkLatches s.(tenancy_skip_logged) s.(text_frozen_logged) s.(delta_shape_unknown_logged) s.(delta_events) s.(delta_text_seen)
    s.(delta_silent_logged) s.(usage_anomalies_logged) n s.(anchor_input) s.(anchor_output).
Definition set_anchors (i o : Z) (s : Latches) : Latches :=
  mkLatches s.(tenancy_skip_logged) s.(text_frozen_logged) s.(delta_shape_unknown_logged) s.(delta_events) s.(delta_text_seen)
    s.(delta_silent_logged) s.(usage_anomalies_logged) s.(usage_events_since_anchor_advance) i o.
Definition set_silent (s : Latches) : Latches :=
  mkLatches s.(tenancy_skip_logged) s.(text_frozen_logged) s.(delta_shape_unknown_logged) s.(delta_events) s.(delta_text_seen)
    true s.(usage_anomalies_logged) s.(usage_events_since_anchor_advance) s.(anchor_input) s.(anchor_output).
Definition set_shape (s : Latches) : Latches :=
  mkLatches s.(tenancy_skip_logged) s.(text_frozen_logged) true s.(delta_events) s.(delta_text_seen)
    s.(delta_silent_logged) s.(usage_anomalies_logged) s.(usage_events_since_anchor_advance) s.(anchor_input) s.(anchor_output).
Definition set_tenancy (s : Latches) : Latches :=
  mkLatches true s.(text_frozen_logged) s.(delta_shape_unknown_logged) s.(delta_events) s.(delta_text_seen)
    s.(delta_silent_logged) s.(usage_anomalies_logged) s.(usage_events_since_anchor_advance) s.(anchor_input) s.(anchor_output).
Definition set_text_frozen (s : Latches) : Latches :=
  mkLatches s.(tenancy_skip_logged) true s.(delta_shape_unknown_logged) s.(delta_events) s.(delta_text_seen)
    s.(delta_silent_logged) s.(usage_anomalies_logged) s.(usage_events_since_anchor_advance) s.(anchor_input) s.(anchor_output).
Definition count_delta (text : bool) (s : Latches) : Latches :=
  mkLatches s.(tenancy_skip_logged) s.(text_frozen_logged) s.(delta_shape_unknown_logged) (s.(delta_events) + 1)
    (text || s.(delta_text_seen)) s.(delta_silent_logged) s.(usage_anomalies_logged) s.(usage_events_since_anchor_advance)
    s.(anchor_input) s.(anchor_output).

(** A check: the lines it writes and the latches afterwards. *)
Definition Reporter : Type := Latches -> list Warning * Latches.

Definition nothing : Reporter := fun s => ([], s).
Definition say (w : Warning) : Reporter := fun s => ([w], s).
Definition change (f : Latches -> Latches) : Reporter := fun s => ([], f s).
Definition andthen (f g : Reporter) : Reporter := fun s =>
  let '(w1, s1) := f s in let '(w2, s2) := g s1 in (w1 ++ w2, s2).

Definition when (b : bool) (f : Reporter) : Reporter := if b then f else nothing.

(** [latch_usage_anomaly]: whether this is the first of its kind. *)
Definition latch_usage_anomaly (kind anomaly : string) (s : Latches) : bool * Latches :=
  if bool_decide ((kind, anomaly) ∈ s.(usage_anomalies_logged)) then (false, s)
  else (true, set_usage ((kind, anomaly) :: s.(usage_anomalies_logged)) s).

(** [if cond and state.latch_usage_anomaly(kind, anomaly): logger.warning(w)] *)
Definition report_once (cond : bool) (kind anomaly : string) (w : Latches -> Warning) : Reporter := fun s =>
  if cond then let '(first, s') := latch_usage_anomaly kind anomaly s in (if first then [w s'] else [], s') else ([], s).

(** ** The checks *)

Definition _note_anchor_progress (advanced : bool) : Reporter := fun s =>
  if advanced then ([], set_since 0 s)
  else
    let s := set_since (s.(usage_events_since_anchor_advance) + 1) s in
    if s.(usage_events_since_anchor_advance) <? _USAGE_ANCHOR_STALL_WARN_AFTER then ([], s)
    else report_once true "usage.delta" "anchors_frozen"
           (fun s => anchors_frozen s.(usage_events_since_anchor_advance) s.(anchor_input) s.(anchor_output)) s.

Definition _warn_usage_anomalies (kind : string) (usage : UsageCounts) (event : option SseEvent) : Reporter :=
  andthen (match event with
           | Some ev => report_once (negb usage.(uc_recognised) && negb (_is_provably_usage_free ev)) kind "unrecognised"
                          (fun _ => usage_unrecognised kind (_shape_summary ev))
           | None => nothing
           end)
    (andthen (report_once usage.(uc_partial) kind "half_read" (fun _ => usage_half_read kind usage))
      (andthen (report_once usage.(uc_divergent) kind "divergent" (fun _ => usage_disagrees kind usage))
        (report_once usage.(uc_non_monotonic) kind "non_monotonic" (fun _ => step_above_total kind usage)))).

Definition _assert_billable_usage (event : SseEvent) (usage : UsageCounts) (owed : Z) : Reporter :=
  andthen (_warn_usage_anomalies "run.completed" usage None)
    (when (owed <=? 0)
       (andthen (fun s => when s.(delta_text_seen) (say (zero_with_text s.(delta_events) usage.(uc_recognised) (_shape_summary event))) s)
          (when (negb (_is_provably_usage_free event))
             (say (zero_shape_unknown usage.(uc_recognised) (_has_token_like_field event) (_shape_summary event)))))).

Definition _warn_if_no_delta_text : Reporter := fun s =>
  if (0 <? s.(delta_events)) && negb s.(delta_text_seen) && negb s.(delta_silent_logged)
  then ([no_text_for_run s.(delta_events)], set_silent s) else ([], s).

Definition _log_write_anomaly (applied : bool) (stored_text_length submitted_length : Z) : Reporter := fun s =>
  if negb applied then
    if s.(tenancy_skip_logged) then ([], s) else ([snapshot_skipped], set_tenancy s)
  else if (stored_text_length <? submitted_length) && negb s.(text_frozen_logged)
  then ([text_frozen stored_text_length submitted_length], set_text_frozen s) else ([], s).

(** The branch of [process_event] for a [message.delta]. *)
Definition note_delta (block : SseEvent) : Reporter :=
  let text := Str.nonempty (_extract_delta_text block) in
  andthen (change (count_delta text))
    (andthen (fun s => when (negb text && negb s.(delta_shape_unknown_logged) && _delta_shape_looks_unknown block)
                         (fun s => ([carrier_unknown (sorted_keys block.(sse_data).*1)], set_shape s)) s)
       (fun s => if negb s.(delta_text_seen) && negb s.(delta_silent_logged) && (_DELTA_SILENT_WARN_AFTER <=? s.(delta_events))
                 then ([no_text_after s.(delta_events) (sorted_keys block.(sse_data).*1)], set_silent s) else ([], s))).

Definition raise_anchors (usage : UsageCounts) (s : Latches) : Latches :=
  set_anchors (Z.max s.(anchor_input) usage.(uc_input_tokens)) (Z.max s.(anchor_output) usage.(uc_output_tokens)) s.

Definition moves_anchors (usage : UsageCounts) (s : Latches) : bool :=
  negb ((Z.max s.(anchor_input) usage.(uc_input_tokens) =? s.(anchor_input)) &&
        (Z.max s.(anchor_output) usage.(uc_output_tokens) =? s.(anchor_output))).

(** For a [usage.delta]: the shape, then the anchors, then the pause. *)
Definition note_usage (usage : UsageCounts) (block : SseEvent) (paused : bool) : Reporter :=
  andthen (_warn_usage_anomalies "usage.delta" usage (Some block))
    (andthen (fun s => _note_anchor_progress (moves_anchors usage s) (raise_anchors usage s))
       (when paused _warn_if_no_delta_text)).

(** For a [run.completed], with what it owes when it is billed here. *)
Definition note_completed (usage : UsageCounts) (block : SseEvent) (bill : option Z) (charged : Z) : Reporter :=
  andthen _warn_if_no_delta_text
    (andthen (change (raise_anchors usage))
       (match bill with
        | None => nothing
        | Some owed =>
            andthen (_assert_billable_usage block usage owed)
              (when ((0 <? charged) && (owed <? charged))
                 (say (below_already_billed owed charged usage.(uc_recognised) usage.(uc_partial))))
        end)).

(** ** The relay *)

(** A block with whether the run was billed, what was charged and whether the
    step paused it; or the outcome of a snapshot write. *)
Inductive Input : Type :=
| i_block (block : SseEvent) (billed : bool) (charged : Z) (paused : bool)
| i_written (applied : bool) (stored_text_length submitted_length : Z).

Section relay.
Context (st : Settings).

(** The checks of one input, and the exception that ends the relay in it. *)
Definition watch (i : Input) : Reporter * option exn :=
  match i with
  | i_written applied stored submitted => (_log_write_anomaly applied stored submitted, None)
  | i_block block billed charged paused =>
      let name := default "" (_event_name block) in
      if String.eqb name "message.delta" then (note_delta block, None)
      else if String.eqb name "usage.delta" then
        match _extract_usage_counts block with
        | inl x => (nothing, Some x)
        | inr usage => (note_usage usage block paused, None)
        end
      else if String.eqb name "run.failed" then (_warn_if_no_delta_text, None)
      else if String.eqb name "run.completed" then
        match _extract_usage_counts block with
        | inl x => (nothing, Some x)
        | inr usage =>
            if billed then (note_completed usage block None charged, None)
            else match credits_of st usage.(uc_input_tokens) usage.(uc_output_tokens) with
                 | inl x => (note_completed usage block None charged, Some x)
                 | inr owed => (note_completed usage block (Some owed) charged, None)
                 end
        end
      else (nothing, None)
  end.

Fixpoint observe (l : list Input) : Reporter :=
  match l with
  | [] => nothing
  | i :: rest =>
      match watch i with
      | (f, Some _) => f
      | (f, None) => andthen f (observe rest)
      end
  end.
End relay.
End Drift.

Import Drift.

(** ** One line per anomaly *)

Inductive Class : Type := c_usage (kind anomaly : string) | c_shape | c_silent | c_tenancy | c_text.

(** The latch of a line; the three lines about the bill of a run have none. *)
Definition class_of (w : Warning) : option Class :=
  match w with
  | carrier_unknown _ => Some c_shape
  | no_text_after _ _ | no_text_for_run _ => Some c_silent
  | usage_unrecognised kind _ => Some (c_usage kind "unrecognised")
  | usage_half_read kind _ => Some (c_usage kind "half_read")
  | usage_disagrees kind _ => Some (c_usage kind "divergent")
  | step_above_total kind _ => Some (c_usage kind "non_monotonic")
  | anchors_frozen _ _ _ => Some (c_usage "usage.delta" "anchors_frozen")
  | snapshot_skipped => Some c_tenancy
  | text_frozen _ _ => Some c_text
  | zero_with_text _ _ _ | zero_shape_unknown _ _ _ | below_already_billed _ _ _ _ => None
  end.

Definition classes (ws : list Warning) : list Class := omap class_of ws.

Definition latched (s : Latches) (c : Class) : Prop :=
  match c with
  | c_usage kind anomaly => (kind, anomaly) ∈ s.(usage_anomalies_logged)
  | c_shape => s.(delta_shape_unknown_logged) = true
  | c_silent => s.(delta_silent_logged) = true
  | c_tenancy => s.(tenancy_skip_logged) = true
  | c_text => s.(text_frozen_logged) = true
  end.

Definition known : list Class :=
  [c_usage "usage.delta" "unrecognised"; c_usage "usage.delta" "half_read"; c_usage "usage.delta" "divergent";
   c_usage "usage.delta" "non_monotonic"; c_usage "usage.delta" "anchors_frozen"; c_usage "run.completed" "half_read";
   c_usage "run.completed" "divergent"; c_usage "run.completed" "non_monotonic"; c_shape; c_silent; c_tenancy; c_text].

(** A check whose lines are of open latches, each once, and which closes
    exactly the latches of its lines. *)
Definition fair (f : Reporter) : Prop := forall s,
  NoDup (classes (f s).1) /\ (forall c, c ∈ classes (f s).1 -> c ∈ known /\ ~ latched s c) /\
  (forall c, latched (f s).2 c <-> latched s c \/ c ∈ classes (f s).1).

Definition keeps_latches (g : Latches -> Latches) : Prop := forall s c, latched (g s) c <-> latched s c.

Lemma fair_nothing : fair nothing.
Proof. intros s. split; [constructor|]. split; cbn; set_solver. Qed.

Lemma fair_say w : class_of w = None -> fair (say w).
Proof. intros H s. unfold classes. cbn. rewrite H. split; [constructor|]. split; set_solver. Qed.

Lemma fair_change g : keeps_latches g -> fair (change g).
Proof. intros H s. split; [constructor|]. split; cbn; [set_solver|]. intros c. rewrite (H s c). set_solver. Qed.

Lemma fair_andthen f g : fair f -> fair g -> fair (andthen f g).
Proof.
  intros Hf Hg s. unfold andthen. destruct (f s) as [w1 s1] eqn:E1, (g s1) as [w2 s2] eqn:E2.
  pose proof (Hf s) as (N1 & O1 & L1). pose proof (Hg s1) as (N2 & O2 & L2). rewrite E1 in N1, O1, L1. rewrite E2 in N2, O2, L2.
  cbn in *. unfold classes in *. rewrite omap_app. split; [|split].
  - apply NoDup_app. split; [done|]. split; [|done]. intros c Hc Hc2. apply (proj2 (O2 c Hc2)). apply L1. by right.
  - intros c [Hc|Hc]%elem_of_app; [by apply O1|]. destruct (O2 c Hc) as [Hk Hn]. split; [done|]. intros Hs. apply Hn, L1. by left.
  - intros c. rewrite L2, L1, elem_of_app. tauto.
Qed.

Lemma fair_when b f : fair f -> fair (when b f).
Proof. intros Hf. destruct b; [exact Hf|apply fair_nothing]. Qed.

Lemma fair_read {A} (h : Latches -> A) (g : A -> Reporter) : (forall x, fair (g x)) -> fair (fun s => g (h s) s).
Proof. intros Hg s. apply Hg. Qed.

Lemma fair_after g f : keeps_latches g -> fair f -> fair (fun s => f (g s)).
Proof.
  intros Hg Hf s. destruct (Hf (g s)) as (N & O & L). split; [done|]. split.
  - intros c Hc. destruct (O c Hc) as [Hk Hn]. split; [done|]. by rewrite <- (Hg s c).
  - intros c. by rewrite L, (Hg s c).
Qed.

Lemma fair_report_once b kind anomaly w :
  (forall s, class_of (w s) = Some (c_usage kind anomaly)) -> c_usage kind anomaly ∈ known -> fair (report_once b kind anomaly w).
Proof.
  intros Hc Hk s. unfold report_once, latch_usage_anomaly, classes. destruct b; [|apply fair_nothing].
  case_bool_decide as Hin; cbn; [split; [constructor|]; split; set_solver|]. rewrite Hc. cbn. split; [apply NoDup_singleton|]. split.
  - intros c ->%list_elem_of_singleton. done.
  - intros [k a| | | |]; cbn; rewrite list_elem_of_singleton; [|naive_solver..].
    rewrite elem_of_cons. split; [intros [[= -> ->]|H]; auto|intros [H|[= -> ->]]; auto].
Qed.

(** A check with a latch of its own. *)
Lemma fair_latch (cond : Latches -> bool) (w : Latches -> Warning) (close : Latches -> Latches) c :
  c ∈ known -> (forall s, class_of (w s) = Some c) -> (forall s, cond s = true -> ~ latched s c) ->
  (forall s d, latched (close s) d <-> latched s d \/ d = c) ->
  fair (fun s => if cond s then ([w s], close s) else ([], s)).
Proof.
  intros Hk Hw Hopen Hclose s. destruct (cond s) eqn:E; [|apply fair_nothing]. unfold classes. cbn. rewrite Hw. cbn.
  split; [apply NoDup_singleton|]. split; [intros d ->%list_elem_of_singleton; split; [done|by apply Hopen]|].
  intros d. rewrite Hclose, list_elem_of_singleton. done.
Qed.

Ltac in_known := vm_compute; repeat (first [by left | right]).

Lemma anomalies_fair kind usage event :
  kind = "usage.delta" \/ (kind = "run.completed" /\ event = None) -> fair (_warn_usage_anomalies kind usage event).
Proof.
  intros Hk. unfold _warn_usage_anomalies. repeat apply fair_andthen.
  - destruct event as [ev|]; [|apply fair_nothing]. destruct Hk as [->|[_ ?]]; [|done]. apply fair_report_once; [done|in_known].
  - destruct Hk as [->|[-> _]]; (apply fair_report_once; [done|in_known]).
  - destruct Hk as [->|[-> _]]; (apply fair_report_once; [done|in_known]).
  - destruct Hk as [->|[-> _]]; (apply fair_report_once; [done|in_known]).
Qed.

Lemma since_keeps n : keeps_latches (set_since n).
Proof. by intros s []. Qed.

Lemma anchors_keep usage : keeps_latches (raise_anchors usage).
Proof. by intros s []. Qed.

Lemma progress_fair b : fair (_note_anchor_progress b).
Proof.
  intros s. unfold _note_anchor_progress. destruct b; [apply (fair_change (set_since 0)), since_keeps|].
  set (n := usage_events_since_anchor_advance s + 1).
  apply (fair_after (set_since n) (fun s => if usage_events_since_anchor_advance s <? _USAGE_ANCHOR_STALL_WARN_AFTER then ([], s)
    else report_once true "usage.delta" "anchors_frozen"
           (fun s => anchors_frozen (usage_events_since_anchor_advance s) (anchor_input s) (anchor_output s)) s)); [apply since_keeps|].
  intros s'. destruct (_ <? _); [apply fair_nothing|]. apply fair_report_once; [done|in_known].
Qed.

Lemma no_text_fair : fair _warn_if_no_delta_text.
Proof.
  apply (fair_latch _ (fun s => no_text_for_run (delta_events s)) set_silent c_silent); [in_known|done| |].
  - intros s H. cbn. destruct (delta_silent_logged s); [|done]. by rewrite andb_false_r in H.
  - intros s []; cbn; naive_solver.
Qed.

Lemma fair_ext f g : (forall s, f s = g s) -> fair g -> fair f.
Proof. intros He Hg s. rewrite (He s). apply Hg. Qed.

Lemma write_fair a m n : fair (_log_write_anomaly a m n).
Proof.
  destruct a.
  - apply (fair_latch (fun s => (m <? n) && negb (text_frozen_logged s)) (fun _ => text_frozen m n) set_text_frozen c_text);
      [in_known|done| |intros x []; cbn; naive_solver].
    intros x H. cbn. destruct (text_frozen_logged x); [|done]. by rewrite andb_false_r in H.
  - eapply fair_ext; [|apply (fair_latch (fun s => negb (tenancy_skip_logged s)) (fun _ => snapshot_skipped) set_tenancy c_tenancy);
      [in_known|done|intros x Hx; cbn; by destruct (tenancy_skip_logged x)|intros x []; cbn; naive_solver]].
    intros s. unfold _log_write_anomaly. cbn. by destruct (tenancy_skip_logged s).
Qed.

Lemma delta_fair block : fair (note_delta block).
Proof.
  unfold note_delta. set (text := Str.nonempty _). apply fair_andthen; [apply fair_change; by intros s []|]. apply fair_andthen.
  - eapply fair_ext; [|apply (fair_latch (fun s => negb text && negb (delta_shape_unknown_logged s) && _delta_shape_looks_unknown block)
      (fun _ => carrier_unknown (sorted_keys (sse_data block).*1)) set_shape c_shape); [in_known|done| |intros x []; cbn; naive_solver]].
    + intros s. unfold when, nothing. by destruct (_ && _ && _).
    + intros x Hx. cbn. destruct (delta_shape_unknown_logged x); [by rewrite andb_false_r in Hx|done].
  - apply (fair_latch _ (fun s => no_text_after (delta_events s) (sorted_keys (sse_data block).*1)) set_silent c_silent); [in_known|done| |].
    + intros s H. cbn. destruct (delta_silent_logged s); [|done]. by rewrite andb_false_r in H.
    + intros s []; cbn; naive_solver.
Qed.

Lemma usage_fair usage block paused : fair (note_usage usage block paused).
Proof.
  unfold note_usage. apply fair_andthen; [by apply anomalies_fair; left|]. apply fair_andthen; [|apply fair_when, no_text_fair].
  apply (fair_read (moves_anchors usage) (fun b s => _note_anchor_progress b (raise_anchors usage s))).
  intros b. apply fair_after; [apply anchors_keep|apply progress_fair].
Qed.

Lemma completed_fair usage block bill charged : fair (note_completed usage block bill charged).
Proof.
  unfold note_completed. apply fair_andthen; [apply no_text_fair|]. apply fair_andthen; [apply fair_change, anchors_keep|].
  destruct bill as [owed|]; [|apply fair_nothing]. apply fair_andthen; [|by apply fair_when, fair_say].
  unfold _assert_billable_usage. apply fair_andthen; [apply anomalies_fair; by right|]. apply fair_when, fair_andthen.
  - intros s. by apply fair_when, fair_say.
  - by apply fair_when, fair_say.
Qed.

Lemma watch_fair st i : fair (watch st i).1.
Proof.
  destruct i as [block billed charged paused|a m n]; cbn; [|apply write_fair].
  destruct (String.eqb _ "message.delta"); [apply delta_fair|].
  destruct (String.eqb _ "usage.delta"); [destruct (_extract_usage_counts block); [apply fair_nothing|apply usage_fair]|].
  destruct (String.eqb _ "run.failed"); [apply no_text_fair|].
  destruct (String.eqb _ "run.completed"); [|apply fair_nothing].
  destruct (_extract_usage_counts block) as [x|usage]; [apply fair_nothing|].
  destruct billed; [apply completed_fair|]. by destruct (credits_of _ _ _); apply completed_fair.
Qed.

Lemma observe_fair st l : fair (observe st l).
Proof.
  induction l as [|i l IH]; cbn; [apply fair_nothing|]. pose proof (watch_fair st i) as Hi.
  destruct (watch st i) as [f [x|]]; cbn in Hi; [done|]. by apply fair_andthen.
Qed.

(** ** How many lines *)

Definition unlatched (w : Warning) : Prop := class_of w = None.
#[global] Instance unlatched_dec w : Decision (unlatched w).
Proof. unfold unlatched. destruct (class_of w); [right|left]; done. Defined.

(** At most [n] lines without a latch. *)
Definition loud (n : nat) (f : Reporter) : Prop := forall s, (length (filter unlatched (f s).1) <= n)%nat.

Lemma loud_andthen m n f g : loud m f -> loud n g -> loud (m + n) (andthen f g).
Proof.
  intros Hf Hg s. unfold andthen. specialize (Hf s). destruct (f s) as [w1 s1]. specialize (Hg s1). destruct (g s1) as [w2 s2].
  cbn in *. rewrite filter_app, length_app. lia.
Qed.

Lemma loud_more m n f : (m <= n)%nat -> loud m f -> loud n f.
Proof. intros Hmn Hf s. specialize (Hf s). lia. Qed.

Lemma report_loud b kind anomaly w : (forall s, class_of (w s) <> None) -> loud 0 (report_once b kind anomaly w).
Proof.
  intros Hw s. unfold report_once, latch_usage_anomaly. destruct b; [|done]. case_bool_decide; [done|]. cbn [fst].
  by rewrite filter_cons_False by apply Hw.
Qed.

Lemma anomalies_loud kind usage event : loud 0 (_warn_usage_anomalies kind usage event).
Proof.
  unfold _warn_usage_anomalies. apply (loud_andthen 0 0); [destruct event; [by apply report_loud|by intros s]|].
  repeat (apply (loud_andthen 0 0); [by apply report_loud|]). by apply report_loud.
Qed.

Lemma no_text_loud : loud 0 _warn_if_no_delta_text.
Proof. intros s. unfold _warn_if_no_delta_text. by destruct (_ && _ && _). Qed.

Lemma when_loud n b f : loud n f -> loud n (when b f).
Proof. intros Hf. destruct b; [exact Hf|]. intros s. cbn. lia. Qed.

Lemma say_loud w : loud 1 (say w).
Proof. intros s. unfold say. cbn [fst]. rewrite filter_cons. case_decide; cbn; lia. Qed.

Definition unbilled_completion (i : Input) : bool :=
  match i with
  | i_block block billed _ _ => String.eqb (default "" (_event_name block)) "run.completed" && negb billed
  | i_written _ _ _ => false
  end.

Lemma completed_loud usage block bill charged :
  loud (match bill with Some _ => 3 | None => 0 end) (note_completed usage block bill charged).
Proof.
  unfold note_completed. destruct bill as [owed|].
  - apply (loud_andthen 0 3); [apply no_text_loud|]. apply (loud_andthen 0 3); [by intros s|].
    apply (loud_andthen 2 1); [|apply when_loud, say_loud]. unfold _assert_billable_usage.
    apply (loud_andthen 0 2); [apply anomalies_loud|]. apply when_loud, (loud_andthen 1 1); [|apply when_loud, say_loud].
    intros s. apply when_loud, say_loud.
  - apply (loud_andthen 0 0); [apply no_text_loud|]. apply (loud_andthen 0 0); by intros s.
Qed.

Lemma watch_loud st i : loud (if unbilled_completion i then 3 else 0) (watch st i).1.
Proof.
  destruct i as [block billed charged paused|a m n]; cbn [watch unbilled_completion].
  2: { intros s. unfold _log_write_anomaly. cbn. repeat case_match; cbn; done || lia. }
  destruct (String.eqb_spec (default "" (_event_name block)) "message.delta") as [->|_].
  { cbn [String.eqb Ascii.eqb Bool.eqb andb fst]. unfold note_delta. apply (loud_andthen 0 0); [by intros s|]. apply (loud_andthen 0 0).
    - intros s. unfold when, nothing. by destruct (_ && _ && _).
    - intros s. by destruct (_ && _ && _). }
  destruct (String.eqb_spec (default "" (_event_name block)) "usage.delta") as [->|_].
  { cbn [String.eqb Ascii.eqb Bool.eqb andb]. destruct (_extract_usage_counts block) as [x|usage]; [by intros s|]. cbn [fst].
    apply (loud_andthen 0 0); [apply anomalies_loud|]. apply (loud_andthen 0 0); [|apply when_loud, no_text_loud].
    intros s. unfold _note_anchor_progress. destruct (moves_anchors usage s); [done|]. destruct (_ <? _); [done|]. by apply report_loud. }
  destruct (String.eqb_spec (default "" (_event_name block)) "run.failed") as [->|_]; [apply no_text_loud|].
  destruct (String.eqb _ "run.completed"); [|by intros s]. destruct (_extract_usage_counts block) as [x|usage]; [intros s; cbn; lia|].
  destruct billed; cbn [negb andb]; [apply (completed_loud _ _ None)|].
  destruct (credits_of _ _ _); [|apply (completed_loud _ _ (Some _))]. apply (loud_more 0); [lia|]. apply (completed_loud _ _ None).
Qed.

Lemma observe_loud st l : loud (3 * length (List.filter unbilled_completion l)) (observe st l).
Proof.
  induction l as [|i l IH]; [by intros s|]. cbn [observe List.filter]. pose proof (watch_loud st i) as Hi.
  destruct (watch st i) as [f [x|]]; cbn in Hi.
  - destruct (unbilled_completion i); cbn [length]; (eapply loud_more; [|exact Hi]); lia.
  - destruct (unbilled_completion i); cbn [length]; (eapply loud_more; [|apply (loud_andthen _ _ _ _ Hi IH)]); lia.
Qed.

Lemma lines_split ws : length ws = (length (classes ws) + length (filter unlatched ws))%nat.
Proof.
  unfold classes. induction ws as [|w ws IH]; [done|]. cbn [omap list_omap]. rewrite filter_cons.
  case_decide as H; unfold unlatched in H; destruct (class_of w); try done; cbn; lia.
Qed.

(** The log of a relay stays readable.  However many events arrive and however
    badly they can be read, each kind of anomaly is reported once, so a relay
    writes at most twelve lines, and three more for each completion that is
    billed. *)
Theorem reports_bounded st l :
  let '(ws, _) := observe st l new_latches in
  NoDup (classes ws) /\ (length ws <= 12 + 3 * length (List.filter unbilled_completion l))%nat.
Proof.
  pose proof (observe_fair st l new_latches) as (Hn & Hk & _). pose proof (observe_loud st l new_latches) as Hl.
  destruct (observe st l new_latches) as [ws s]. cbn [fst] in *. split; [done|]. rewrite lines_split.
  assert (length (classes ws) <= length known)%nat by (apply submseteq_length, NoDup_submseteq; [done|]; intros c Hc; by apply Hk).
  cbn in *. lia.
Qed.

(** ** What the counters know *)

Definition is_delta (i : Input) : bool :=
  match i with i_block block _ _ _ => String.eqb (default "" (_event_name block)) "message.delta" | i_written _ _ _ => false end.

Definition carries_text (i : Input) : bool :=
  match i with i_block block _ _ _ => is_delta i && Str.nonempty (_extract_delta_text block) | i_written _ _ _ => false end.

(** The relay goes on after the input. *)
Definition goes_on (st : Settings) (i : Input) : Prop := (watch st i).2 = None.

Definition tracks (n : Z) (text : bool) (f : Reporter) : Prop := forall s,
  delta_events (f s).2 = delta_events s + n /\ delta_text_seen (f s).2 = text || delta_text_seen s.

Lemma tracks_andthen n m a b f g : tracks n a f -> tracks m b g -> tracks (n + m) (a || b) (andthen f g).
Proof.
  intros Hf Hg s. unfold andthen. specialize (Hf s). destruct (f s) as [w1 s1]. specialize (Hg s1). destruct (g s1) as [w2 s2].
  cbn in *. destruct Hf as [E1 T1], Hg as [E2 T2]. rewrite E2, E1, T2, T1. split; [lia|]. by destruct a, b.
Qed.

Lemma idle_andthen f g : tracks 0 false f -> tracks 0 false g -> tracks 0 false (andthen f g).
Proof. intros Hf Hg. by apply (tracks_andthen 0 0 false false). Qed.

Lemma idle_nothing : tracks 0 false nothing.
Proof. intros s. cbn. split; [lia|done]. Qed.

Lemma idle_when b f : tracks 0 false f -> tracks 0 false (when b f).
Proof. intros Hf. destruct b; [exact Hf|apply idle_nothing]. Qed.

Lemma idle_report b kind anomaly w : tracks 0 false (report_once b kind anomaly w).
Proof.
  intros s. unfold report_once, latch_usage_anomaly. destruct b; [|apply idle_nothing]. case_bool_decide; cbn; split; done || lia.
Qed.

Lemma idle_anomalies kind usage event : tracks 0 false (_warn_usage_anomalies kind usage event).
Proof.
  unfold _warn_usage_anomalies. repeat apply idle_andthen; try apply idle_report. destruct event; [apply idle_report|apply idle_nothing].
Qed.

Lemma idle_no_text : tracks 0 false _warn_if_no_delta_text.
Proof. intros s. unfold _warn_if_no_delta_text. destruct (_ && _ && _); cbn; split; done || lia. Qed.

Lemma delta_tracks block : tracks 1 (Str.nonempty (_extract_delta_text block)) (note_delta block).
Proof.
  unfold note_delta. set (text := Str.nonempty _). rewrite <- (orb_false_r text) at 1.
  apply (tracks_andthen 1 0); [by intros s|]. apply idle_andthen; intros s; unfold when, nothing;
    destruct (_ && _ && _); cbn; split; done || lia.
Qed.

Lemma idle_say w : tracks 0 false (say w).
Proof. intros s. cbn. split; done || lia. Qed.

Lemma idle_billable block usage owed : tracks 0 false (_assert_billable_usage block usage owed).
Proof.
  unfold _assert_billable_usage. apply idle_andthen; [apply idle_anomalies|]. apply idle_when, idle_andthen; [|apply idle_when, idle_say].
  intros s. apply idle_when, idle_say.
Qed.

(** The part of [note_completed] after its look at the text. *)
Lemma idle_bill usage block bill charged :
  tracks 0 false (andthen (change (raise_anchors usage))
    (match bill with
     | None => nothing
     | Some owed => andthen (_assert_billable_usage block usage owed)
         (when ((0 <? charged) && (owed <? charged)) (say (below_already_billed owed charged (uc_recognised usage) (uc_partial usage))))
     end)).
Proof.
  apply idle_andthen; [intros s; cbn; split; done || lia|]. destruct bill as [owed|]; [|apply idle_nothing].
  apply idle_andthen; [apply idle_billable|apply idle_when, idle_say].
Qed.

Lemma idle_completed usage block bill charged : tracks 0 false (note_completed usage block bill charged).
Proof. apply idle_andthen; [apply idle_no_text|apply idle_bill]. Qed.

Lemma idle_progress usage : tracks 0 false (fun s => _note_anchor_progress (moves_anchors usage s) (raise_anchors usage s)).
Proof.
  intros s. unfold _note_anchor_progress. destruct (moves_anchors usage s); [cbn; split; done || lia|].
  destruct (_ <? _); [cbn; split; done || lia|]. unfold report_once, latch_usage_anomaly. case_bool_decide; cbn; split; done || lia.
Qed.

Lemma watch_tracks st i : tracks (if is_delta i then 1 else 0) (carries_text i) (watch st i).1.
Proof.
  destruct i as [block billed charged paused|a m n]; cbn [watch is_delta carries_text].
  2: { intros s. unfold _log_write_anomaly. cbn. repeat case_match; cbn; split; done || lia. }
  destruct (String.eqb _ "message.delta"); [apply delta_tracks|]. cbn [andb].
  destruct (String.eqb _ "usage.delta").
  { destruct (_extract_usage_counts block) as [x|usage]; [apply idle_nothing|]. cbn [fst].
    apply idle_andthen; [apply idle_anomalies|]. apply idle_andthen; [apply idle_progress|apply idle_when, idle_no_text]. }
  destruct (String.eqb _ "run.failed"); [apply idle_no_text|]. destruct (String.eqb _ "run.completed"); [|apply idle_nothing].
  destruct (_extract_usage_counts block) as [x|usage]; [apply idle_nothing|]. destruct billed; [apply idle_completed|].
  destruct (credits_of _ _ _); apply idle_completed.
Qed.

Definition deltas (l : list Input) : Z := sumZ (fun i => if is_delta i then 1 else 0) l.

Lemma observe_tracks st l : Forall (goes_on st) l -> tracks (deltas l) (existsb carries_text l) (observe st l).
Proof.
  unfold deltas. induction 1 as [|i l Hi Hl IH]; [apply idle_nothing|]. cbn [observe existsb]. rewrite sumZ_cons.
  pose proof (watch_tracks st i) as Ht. unfold goes_on in Hi. destruct (watch st i) as [f x]. cbn in Hi, Ht. subst x.
  by apply tracks_andthen.
Qed.

Lemma observe_app st l l' s :
  Forall (goes_on st) l -> observe st (l ++ l') s = andthen (observe st l) (observe st l') s.
Proof.
  intros Hl. revert s. induction Hl as [|i l Hi Hl IH]; intros s; [by unfold andthen; cbn; destruct (observe st l' s)|].
  cbn [observe app]. unfold goes_on in Hi. destruct (watch st i) as [f x]. cbn in Hi. subst x. unfold andthen.
  destruct (f s) as [w1 s1]. rewrite IH. unfold andthen. destruct (observe st l s1) as [w2 s2], (observe st l' s2) as [w3 s3].
  by rewrite app_assoc.
Qed.


(** ** No silent failure *)

(** The inputs at which the relay looks back at the text of the run: a failure,
    a completion whose usage could be read, and a step that paused the run. *)
Definition ends_run (i : Input) : Prop :=
  match i with
  | i_block block _ _ paused =>
      let name := default "" (_event_name block) in
      name = "run.failed" \/
      ((name = "run.completed" \/ (name = "usage.delta" /\ paused = true)) /\ exists usage, _extract_usage_counts block = inr usage)
  | i_written _ _ _ => False
  end.

Lemma silent_latched s : 0 < delta_events s -> delta_text_seen s = false -> delta_silent_logged (_warn_if_no_delta_text s).2 = true.
Proof.
  intros He Ht. unfold _warn_if_no_delta_text. rewrite (proj2 (Z.ltb_lt _ _) He), Ht. cbn. by destruct (delta_silent_logged s) eqn:E.
Qed.

Lemma andthen_snd f g s : (andthen f g s).2 = (g (f s).2).2.
Proof. unfold andthen. destruct (f s) as [w1 s1]. cbn. by destruct (g s1). Qed.

Lemma latch_stays f s c : fair f -> latched s c -> latched (f s).2 c.
Proof. intros Hf Hs. apply Hf. by left. Qed.

Lemma ends_run_latches st i s :
  ends_run i -> 0 < delta_events s -> delta_text_seen s = false -> latched ((watch st i).1 s).2 c_silent.
Proof.
  destruct i as [block billed charged paused|]; [|done]. intros Hi He Ht.
  destruct Hi as [Hn|[[Hn|[Hn Hp]] [usage Hu]]]; cbn [watch]; rewrite Hn; cbn [String.eqb Ascii.eqb Bool.eqb].
  - by apply silent_latched.
  - rewrite Hu.
    assert (Hc : forall bill, latched (note_completed usage block bill charged s).2 c_silent).
    { intros bill. unfold note_completed. rewrite andthen_snd. apply latch_stays; [|by apply silent_latched].
      apply fair_andthen; [apply fair_change, anchors_keep|]. destruct bill as [owed|]; [|apply fair_nothing].
      apply fair_andthen; [|by apply fair_when, fair_say]. apply fair_andthen; [apply anomalies_fair; by right|].
      apply fair_when, fair_andthen; [intros s'|]; by apply fair_when, fair_say. }
    destruct billed; [apply Hc|]. destruct (credits_of _ _ _); apply Hc.
  - rewrite Hu. cbn [fst]. unfold note_usage. rewrite !andthen_snd, Hp. cbn [when].
    destruct (idle_anomalies "usage.delta" usage (Some block) s) as [E1 T1].
    destruct (idle_progress usage (_warn_usage_anomalies "usage.delta" usage (Some block) s).2) as [E2 T2].
    apply silent_latched; [rewrite E2, E1; lia|by rewrite T2, T1].
Qed.

(** A check that speaks of a run without text only when there is none. *)
Definition truthful (f : Reporter) : Prop := forall s,
  c_silent ∈ classes (f s).1 -> delta_text_seen (f s).2 = false /\ 0 < delta_events (f s).2.

Lemma truthful_andthen f g : truthful f -> truthful g -> tracks 0 false g -> truthful (andthen f g).
Proof.
  intros Hf Hg Hi s. unfold andthen. specialize (Hf s). destruct (f s) as [w1 s1]. specialize (Hg s1). destruct (Hi s1) as [E T].
  destruct (g s1) as [w2 s2]. unfold classes in *. cbn in *. rewrite omap_app. intros [H|H]%elem_of_app; [|by apply Hg].
  rewrite E, T. destruct (Hf H). split; [done|lia].
Qed.

Lemma truthful_quiet f : (forall s, c_silent ∉ classes (f s).1) -> truthful f.
Proof. intros H s Hs. by destruct (H s). Qed.

Lemma quiet_report b kind anomaly w : (forall s, class_of (w s) = Some (c_usage kind anomaly)) -> truthful (report_once b kind anomaly w).
Proof.
  intros Hw. apply truthful_quiet. intros s. unfold report_once, latch_usage_anomaly, classes.
  destruct b; [|set_solver]. case_bool_decide; [set_solver|]. cbn. rewrite Hw. cbn. set_solver.
Qed.

Lemma truthful_anomalies kind usage event : truthful (_warn_usage_anomalies kind usage event).
Proof.
  unfold _warn_usage_anomalies. apply truthful_andthen.
  - destruct event; [by apply quiet_report|]. apply truthful_quiet. set_solver.
  - apply truthful_andthen; [by apply quiet_report|apply truthful_andthen; [by apply quiet_report..|apply idle_report]|].
    apply idle_andthen; apply idle_report.
  - repeat apply idle_andthen; apply idle_report.
Qed.

Lemma truthful_no_text : truthful _warn_if_no_delta_text.
Proof.
  intros s. unfold _warn_if_no_delta_text. destruct (0 <? delta_events s) eqn:He, (delta_text_seen s) eqn:Ht; cbn; try set_solver.
  destruct (delta_silent_logged s); cbn; [set_solver|]. intros _. split; [done|]. by apply Z.ltb_lt.
Qed.

Lemma truthful_when b f : truthful f -> truthful (when b f).
Proof. intros Hf. destruct b; [exact Hf|]. apply truthful_quiet. set_solver. Qed.

Lemma truthful_delta block s : 0 <= delta_events s -> c_silent ∈ classes (note_delta block s).1 ->
  delta_text_seen (note_delta block s).2 = false /\ 0 < delta_events (note_delta block s).2.
Proof.
  intros He. unfold note_delta, andthen, change, when, nothing. set (text := Str.nonempty _).
  destruct (negb text && _ && _); cbn.
  all: match goal with |- context [if ?c then _ else _] => destruct c eqn:E end; cbn; [|set_solver]; intros _.
  all: apply andb_true_iff in E as [E _]; apply andb_true_iff in E as [E _]; apply negb_true_iff in E; split; [done|lia].
Qed.

Lemma truthful_say w : class_of w = None -> truthful (say w).
Proof. intros Hw. apply truthful_quiet. intros s. unfold classes. cbn. rewrite Hw. set_solver. Qed.

Lemma truthful_billable block usage owed : truthful (_assert_billable_usage block usage owed).
Proof.
  unfold _assert_billable_usage. apply truthful_andthen; [apply truthful_anomalies| |].
  - apply truthful_when, truthful_andthen; [|by apply truthful_when, truthful_say|apply idle_when, idle_say].
    intros s. by apply truthful_when, truthful_say.
  - apply idle_when, idle_andthen; [intros s|]; apply idle_when, idle_say.
Qed.

Lemma truthful_completed usage block bill charged : truthful (note_completed usage block bill charged).
Proof.
  unfold note_completed. apply truthful_andthen; [apply truthful_no_text| |apply idle_bill].
  apply truthful_andthen; [apply truthful_quiet; set_solver| |].
  - destruct bill as [owed|]; [|apply truthful_quiet; set_solver].
    apply truthful_andthen; [apply truthful_billable|by apply truthful_when, truthful_say|apply idle_when, idle_say].
  - destruct bill as [owed|]; [|apply idle_nothing]. apply idle_andthen; [apply idle_billable|apply idle_when, idle_say].
Qed.

Lemma watch_truthful st i s : 0 <= delta_events s -> c_silent ∈ classes ((watch st i).1 s).1 ->
  delta_text_seen ((watch st i).1 s).2 = false /\ 0 < delta_events ((watch st i).1 s).2.
Proof.
  intros He. destruct i as [block billed charged paused|a m n]; cbn [watch].
  2: { unfold _log_write_anomaly, classes. cbn. repeat case_match; cbn; set_solver. }
  destruct (String.eqb _ "message.delta"); [by apply truthful_delta|].
  destruct (String.eqb _ "usage.delta").
  { destruct (_extract_usage_counts block) as [x|usage]; [set_solver|]. apply truthful_andthen; [apply truthful_anomalies| |].
    - apply truthful_andthen; [|apply truthful_when, truthful_no_text|apply idle_when, idle_no_text].
      intros s'. unfold _note_anchor_progress. destruct (moves_anchors usage s'); [set_solver|]. destruct (_ <? _); [set_solver|].
      unfold report_once, latch_usage_anomaly, classes. case_bool_decide; cbn; set_solver.
    - apply idle_andthen; [apply idle_progress|apply idle_when, idle_no_text]. }
  destruct (String.eqb _ "run.failed"); [by apply truthful_no_text|]. destruct (String.eqb _ "run.completed"); [|set_solver].
  destruct (_extract_usage_counts block) as [x|usage]; [set_solver|]. destruct billed; [by apply truthful_completed|].
  destruct (credits_of _ _ _); by apply truthful_completed.
Qed.

Lemma observe_truthful st l s : 0 <= delta_events s -> c_silent ∈ classes (observe st l s).1 ->
  exists p, p `prefix_of` l /\ 0 < delta_events s + deltas p /\ existsb carries_text p || delta_text_seen s = false.
Proof.
  revert s. induction l as [|i l IH]; intros s He; [by intros ?%not_elem_of_nil|]. cbn [observe].
  pose proof (watch_truthful st i s He) as Hw. pose proof (watch_tracks st i s) as [E T].
  assert (Hone : c_silent ∈ classes ((watch st i).1 s).1 ->
    exists p, p `prefix_of` i :: l /\ 0 < delta_events s + deltas p /\ existsb carries_text p || delta_text_seen s = false).
  { intros Hc. destruct (Hw Hc) as [H1 H2]. exists [i]. split; [by exists l|]. unfold deltas. rewrite sumZ_singleton, <- E.
    split; [done|]. cbn [existsb]. rewrite orb_false_r, <- T. done. }
  destruct (watch st i) as [f [x|]]; cbn [fst] in *; [exact Hone|]. unfold andthen. destruct (f s) as [w1 s1]. cbn [fst snd] in *.
  specialize (IH s1). destruct (observe st l s1) as [w2 s2]. unfold classes in *. cbn [fst] in *. rewrite omap_app.
  intros [H|H]%elem_of_app; [by apply Hone|]. destruct IH as (p & Hp & Hd & Ht); [|done|].
  { rewrite E. destruct (is_delta i); lia. }
  exists (i :: p). split; [by apply prefix_cons|]. unfold deltas in *. rewrite sumZ_cons. split; [rewrite E in Hd; lia|].
  cbn [existsb]. rewrite T in Ht. rewrite <- Ht. by destruct (carries_text i), (existsb carries_text p).
Qed.

(** A run whose text is lost does not go unnoticed.  When a run ends after
    deltas none of which gave any text, exactly one line says so; and such a line
    is only ever written where, up to some input, there were deltas and no text. *)
Theorem silent_run_reported st l :
  (c_silent ∈ classes (observe st l new_latches).1 -> exists p, p `prefix_of` l /\ 0 < deltas p /\ existsb carries_text p = false) /\
  (forall t, Forall (goes_on st) l -> ends_run t -> 0 < deltas l -> existsb carries_text l = false ->
     exists before after, classes (observe st (l ++ [t]) new_latches).1 = before ++ c_silent :: after /\ c_silent ∉ before ++ after).
Proof.
  split.
  - intros Hc. destruct (observe_truthful st l new_latches) as (p & Hp & Hd & Ht); [done|done|]. exists p.
    rewrite orb_false_r in Ht. cbn in Hd. auto with lia.
  - intros t Hl He Hd Ht. destruct (observe_fair st (l ++ [t]) new_latches) as (Hn & _ & Hlat).
    assert (Hc : c_silent ∈ classes (observe st (l ++ [t]) new_latches).1).
    { destruct (proj1 (Hlat c_silent)) as [H|H]; [|done|done]. rewrite observe_app by done. rewrite andthen_snd. cbn [observe].
      destruct (observe_tracks st l Hl new_latches) as [E T]. rewrite Ht in T. cbn in E, T.
      pose proof (ends_run_latches st t (observe st l new_latches).2 He ltac:(lia) T) as Hw.
      destruct (watch st t) as [f [x|]]; [done|]. rewrite andthen_snd. exact Hw. }
    apply list_elem_of_split in Hc as (b & a & Hc). exists b, a. split; [done|]. rewrite Hc in Hn.
    apply NoDup_app in Hn as (_ & Hb & [Ha _]%NoDup_cons). intros [H|H]%elem_of_app; [|done]. apply (Hb _ H). by left.
Qed.

(** The two lines about a bill of nothing. *)
Definition zero_line (w : Warning) : bool :=
  match w with zero_with_text _ _ _ | zero_shape_unknown _ _ _ => true | _ => false end.

Lemma calm_no_zero f s : loud 0 f -> existsb zero_line (f s).1 = false.
Proof.
  intros Hf. specialize (Hf s). destruct (existsb zero_line (f s).1) eqn:E; [|done].
  apply existsb_exists in E as (w & Hin & Hz). apply list_elem_of_In in Hin.
  assert (Hw : w ∈ filter unlatched (f s).1) by (apply list_elem_of_filter; split; [by destruct w|done]).
  destruct (filter unlatched (f s).1); [by apply not_elem_of_nil in Hw|]. cbn in Hf. lia.
Qed.

Lemma zero_andthen f g s :
  existsb zero_line (andthen f g s).1 = existsb zero_line (f s).1 || existsb zero_line (g (f s).2).1.
Proof. unfold andthen. destruct (f s) as [w1 s1]. cbn. destruct (g s1) as [w2 s2]. cbn. apply existsb_app. Qed.

Lemma zero_when b f s : existsb zero_line (when b f s).1 = b && existsb zero_line (f s).1.
Proof. by destruct b. Qed.

Lemma billable_zero block usage owed s :
  existsb zero_line (_assert_billable_usage block usage owed s).1 = (owed <=? 0) && (delta_text_seen s || negb (_is_provably_usage_free block)).
Proof.
  unfold _assert_billable_usage. rewrite zero_andthen, (calm_no_zero _ s (anomalies_loud _ _ _)). cbn [orb].
  destruct (idle_anomalies "run.completed" usage None s) as [_ T]. rewrite zero_when, zero_andthen, !zero_when, T.
  cbn. by rewrite !andb_true_r.
Qed.


(** A check that leaves the anchors alone. *)
Definition still (f : Reporter) : Prop := forall s,
  usage_events_since_anchor_advance (f s).2 = usage_events_since_anchor_advance s /\
  anchor_input (f s).2 = anchor_input s /\ anchor_output (f s).2 = anchor_output s.

Lemma still_andthen f g : still f -> still g -> still (andthen f g).
Proof. intros Hf Hg s. rewrite andthen_snd. destruct (Hf s) as (E & I & O), (Hg (f s).2) as (E' & I' & O'). split_and!; congruence. Qed.

Lemma still_report b kind anomaly w : still (report_once b kind anomaly w).
Proof. intros s. unfold report_once, latch_usage_anomaly. destruct b; [|done]. by case_bool_decide. Qed.

Lemma still_anomalies kind usage event : still (_warn_usage_anomalies kind usage event).
Proof.
  unfold _warn_usage_anomalies. repeat apply still_andthen; try apply still_report. destruct event; [apply still_report|by intros s].
Qed.

(** A [usage.delta] that does not move the anchors. *)
Definition stands_still (s : Latches) (b : SseEvent) : Prop :=
  default "" (_event_name b) = "usage.delta" /\ exists usage, _extract_usage_counts b = inr usage /\
    uc_input_tokens usage <= anchor_input s /\ uc_output_tokens usage <= anchor_output s.

Lemma step_stands st s b billed charged :
  stands_still s b ->
  let s' := ((watch st (i_block b billed charged false)).1 s).2 in
  goes_on st (i_block b billed charged false) /\ anchor_input s' = anchor_input s /\ anchor_output s' = anchor_output s /\
  usage_events_since_anchor_advance s' = usage_events_since_anchor_advance s + 1 /\
  (5 <= usage_events_since_anchor_advance s + 1 -> latched s' (c_usage "usage.delta" "anchors_frozen")).
Proof.
  intros (Hn & usage & Hu & Hi & Ho). unfold goes_on. cbn [watch]. rewrite Hn. cbn [String.eqb Ascii.eqb Bool.eqb]. rewrite Hu. cbn [fst snd].
  split; [done|]. unfold note_usage. rewrite !andthen_snd. cbn [when nothing snd].
  destruct (still_anomalies "usage.delta" usage (Some b) s) as (E & I & O). set (s1 := (_warn_usage_anomalies _ _ _ s).2) in *.
  assert (Hm : moves_anchors usage s1 = false).
  { unfold moves_anchors. rewrite I, O, !Z.max_l, !Z.eqb_refl by done. done. }
  rewrite Hm. unfold _note_anchor_progress. cbn [usage_events_since_anchor_advance set_since raise_anchors set_anchors].
  rewrite E. unfold _USAGE_ANCHOR_STALL_WARN_AFTER. destruct (Z.ltb_spec (usage_events_since_anchor_advance s + 1) 5); cbn.
  - rewrite I, O, !Z.max_l by done. split_and!; [done..|lia].
  - unfold report_once, latch_usage_anomaly. case_bool_decide as Hin; cbn; rewrite I, O, !Z.max_l by done; split_and!; try done.
    intros _. by left.
Qed.

(** Anchors that stand still for five steps are reported, whatever came before. *)
Theorem frozen_anchors_reported st s blocks :
  0 <= usage_events_since_anchor_advance s -> (5 <= length blocks)%nat -> Forall (stands_still s) blocks ->
  latched (observe st ((fun b => i_block b false 0 false) <$> blocks) s).2 (c_usage "usage.delta" "anchors_frozen").
Proof.
  intros H0 Hlen. assert (H5 : 5 <= usage_events_since_anchor_advance s + Z.of_nat (length blocks)) by lia.
  assert (Hne : blocks <> []) by (by destruct blocks; [cbn in Hlen; lia|]). clear H0 Hlen. intros Hb. revert s H5 Hne Hb.
  induction blocks as [|b blocks IH]; intros s H5 Hne Hb; [done|]. apply Forall_cons in Hb as [Hb Hbs]. rewrite fmap_cons. cbn [observe].
  destruct (step_stands st s b false 0 Hb) as (Hg & Hi & Ho & Hsince & Hlat). unfold goes_on in Hg.
  destruct (watch st (i_block b false 0 false)) as [f x]. cbn [fst snd] in *. subst x. rewrite andthen_snd.
  destruct (Z_le_gt_dec 5 (usage_events_since_anchor_advance s + 1)) as [Hle|Hgt]; [apply latch_stays; [apply observe_fair|by apply Hlat]|].
  apply IH.
  - rewrite Hsince. cbn in H5. lia.
  - intros ->. cbn in H5. lia.
  - eapply Forall_impl; [exact Hbs|]. intros x (Hx & u & Hu & H1 & H2). split; [done|]. exists u. by rewrite Hi, Ho.
Qed.

(** ** A concrete relay *)

Definition event_of (name : string) (d : dict) : SseEvent := mkSseEvent (Some name) d.

(** A delta whose carrier changed its type, and a final usage that was renamed. *)
Definition drifted_delta : Input := i_block (event_of "message.delta" [("delta", JObj [("chunk", JStr "hi")])]) false 0 false.
Definition drifted_end : SseEvent := event_of "run.completed" [("usage", JObj [("prompt_tokens", JInt 10)])].


Example drift_lines :
  (observe default_settings [drifted_delta; drifted_delta; i_block drifted_end false 0 false] new_latches).1 =
  [carrier_unknown ["delta"]; no_text_for_run 2; zero_shape_unknown false true ["usage.prompt_tokens"]].
Proof. vm_compute. reflexivity. Qed.
