(* ===== verification/Ring.v ===== *)
(** * The Redis transport of agent-run events

    Models [src/app/agent_proxy/transport.py]: the replay ring written by the
    publish script, the generation key, and the lease with its acquire, renew
    and release scripts.  The keys of one run are one record; an expiry is the
    instant (in milliseconds) at which Redis drops the key.  The [events], [seq]
    and [bytes] keys are written and expired by the same script only, so they
    live and die together.  [reachable = false] is a [RedisError]. *)

From Stdlib Require Import Ascii String.
From S2P Require Import Prelude PyVal Redaction Store.

Open Scope string_scope.
Open Scope list_scope.
Open Scope Z_scope.

(** One element as the script builds it. *)
Record Element : Type := mkElement {
  el_epoch : string;
  el_seq : Z;
  el_data_json : string
}.

Definition quote_char : string := String "034" "".

(** The text that is pushed and published. *)
Definition element_text (el : Element) : string :=
  ("{" ++ quote_char ++ "epoch" ++ quote_char ++ ":" ++ quote_char ++ el.(el_epoch) ++ quote_char ++ "," ++
   quote_char ++ "seq" ++ quote_char ++ ":" ++ Str.of_int el.(el_seq) ++ "," ++
   quote_char ++ "data" ++ quote_char ++ ":" ++ el.(el_data_json) ++ "}")%string.

Definition size (el : Element) : Z := Z.of_nat (String.length (element_text el)).

Record Ring : Type := mkRing {
  rg_seq : Z;
  rg_events : list Element;
  rg_bytes : Z
}.

Definition empty_ring : Ring := mkRing 0 [] 0.

Record RunKeys : Type := mkKeys {
  k_lease : option (string * Z);
  k_epoch : option (string * Z);
  k_ring : option (Ring * Z)
}.

Definition no_keys : RunKeys := mkKeys None None None.

(** What is left of a key at [now]. *)
Definition live {A} (now : Z) (v : option (A * Z)) : option (A * Z) :=
  match v with Some (a, exp) => if now <? exp then Some (a, exp) else None | None => None end.

Definition expire (now : Z) (k : RunKeys) : RunKeys :=
  mkKeys (live now k.(k_lease)) (live now k.(k_epoch)) (live now k.(k_ring)).

(** ** The publish script *)

(** LPOP while the ring holds more than [max_events]. *)
Fixpoint trim_count (max_events : Z) (events : list Element) (total : Z) : list Element * Z :=
  match events with
  | [] => ([], total)
  | el :: rest =>
      if max_events <? Z.of_nat (length events)
      then trim_count max_events rest (total - size el)
      else (events, total)
  end.

(** LPOP while the ring is over [max_bytes] and more than one element is left. *)
Fixpoint trim_bytes (max_bytes : Z) (events : list Element) (total : Z) : list Element * Z :=
  match events with
  | [] => ([], total)
  | el :: rest =>
      if (max_bytes <? total) && (1 <? Z.of_nat (length events))
      then trim_bytes max_bytes rest (total - size el)
      else (events, total)
  end.

Definition append_event (epoch data_json : string) (max_events max_bytes : Z) (r : Ring) : Ring :=
  let seq := r.(rg_seq) + 1 in
  let el := mkElement epoch seq data_json in
  let '(events, total) := trim_count max_events (r.(rg_events) ++ [el]) (r.(rg_bytes) + size el) in
  let '(events, total) := trim_bytes max_bytes events total in
  mkRing seq events total.

Section bus.
Context (max_events max_bytes ttl_ms lease_ttl_ms : Z).

(** [publish]: the seq, the keys afterwards and the message on the channel. *)
Definition publish (reachable : bool) (now : Z) (epoch data_json : string) (k : RunKeys) :
    option (Z * Element) * RunKeys :=
  if negb reachable then (None, k)
  else
    let k := expire now k in
    let ring := match k.(k_ring) with Some (r, _) => r | None => empty_ring end in
    let ring' := append_event epoch data_json max_events max_bytes ring in
    (Some (ring'.(rg_seq), mkElement epoch ring'.(rg_seq) data_json),
     mkKeys k.(k_lease)
       (match k.(k_epoch) with Some (e, _) => Some (e, now + ttl_ms) | None => None end)
       (Some (ring', now + ttl_ms))).

(** [ensure_epoch]: [fresh] is the uuid the caller draws. *)
Definition ensure_epoch (reachable : bool) (now : Z) (fresh : string) (k : RunKeys) : option string * RunKeys :=
  if negb reachable then (None, k)
  else
    let k := expire now k in
    match k.(k_epoch) with
    | Some (e, _) => (Some e, k)
    | None => (Some fresh, mkKeys k.(k_lease) (Some (fresh, now + ttl_ms)) k.(k_ring))
    end.

Definition current_epoch (reachable : bool) (now : Z) (k : RunKeys) : option string :=
  if negb reachable then None else fst <$> (expire now k).(k_epoch).

Definition current_seq (reachable : bool) (now : Z) (k : RunKeys) : Z :=
  if negb reachable then 0
  else match (expire now k).(k_ring) with Some (r, _) => r.(rg_seq) | None => 0 end.

(** ** The lease *)

Inductive LeaseAcquisition : Set := ACQUIRED | HELD_ELSEWHERE | ACQUIRE_UNKNOWN.
Inductive LeaseRenewal : Set := RENEWED | REACQUIRED | LOST | RENEW_UNKNOWN.

Definition with_lease (l : option (string * Z)) (k : RunKeys) : RunKeys := mkKeys l k.(k_epoch) k.(k_ring).

Definition acquire_lease (reachable : bool) (now : Z) (owner : string) (k : RunKeys) : LeaseAcquisition * RunKeys :=
  if negb reachable then (ACQUIRE_UNKNOWN, k)
  else
    let k := expire now k in
    match k.(k_lease) with
    | Some _ => (HELD_ELSEWHERE, k)
    | None => (ACQUIRED, with_lease (Some (owner, now + lease_ttl_ms)) k)
    end.

Definition renew_lease (reachable : bool) (now : Z) (owner : string) (k : RunKeys) : LeaseRenewal * RunKeys :=
  if negb reachable then (RENEW_UNKNOWN, k)
  else
    let k := expire now k in
    match k.(k_lease) with
    | Some (o, _) =>
        if String.eqb o owner then (RENEWED, with_lease (Some (owner, now + lease_ttl_ms)) k) else (LOST, k)
    | None => (REACQUIRED, with_lease (Some (owner, now + lease_ttl_ms)) k)
    end.

Definition release_lease (reachable : bool) (now : Z) (owner : string) (k : RunKeys) : RunKeys :=
  if negb reachable then k
  else
    let k := expire now k in
    match k.(k_lease) with
    | Some (o, _) => if String.eqb o owner then with_lease None k else k
    | None => k
    end.

Definition lease_alive (reachable : bool) (now : Z) (k : RunKeys) : option bool :=
  if negb reachable then None else Some (bool_decide (is_Some (expire now k).(k_lease))).
End bus.

(** ** Reading the ring *)

Record RingEvent : Type := mkRingEvent { re_epoch : string; re_seq : Z; re_data : string }.

Section read.
(** [json.loads] of an element's text; [None] is a [ValueError]. *)
Context (loads : string -> option json).

Definition _parse_element (item : string) : option RingEvent :=
  match loads item with
  | Some (JObj payload) =>
      match dict_get payload "epoch", dict_get payload "seq", dict_get payload "data" with
      | JStr epoch, JInt seq, JStr data => Some (mkRingEvent epoch seq data)
      | JStr epoch, JBool b, JStr data => Some (mkRingEvent epoch (if b then 1 else 0) data)
      | _, _, _ => None
      end
  | _ => None
  end.

Definition replay (reachable : bool) (now : Z) (k : RunKeys) : list RingEvent :=
  if negb reachable then []
  else match (expire now k).(k_ring) with
       | Some (r, _) => omap (fun el => _parse_element (element_text el)) r.(rg_events)
       | None => []
       end.
End read.

(** ** The ring invariant *)

(** The elements carry consecutive numbers, the last of them [seq]. *)
Definition numbered (seq : Z) (events : list Element) : Prop :=
  forall i el, events !! i = Some el -> el.(el_seq) = seq - (Z.of_nat (length events) - 1 - Z.of_nat i).

Record ring_ok (max_events max_bytes : Z) (r : Ring) : Prop := mkRingOk {
  rk_bytes : r.(rg_bytes) = sumZ size r.(rg_events);
  rk_numbered : numbered r.(rg_seq) r.(rg_events);
  rk_count : Z.of_nat (length r.(rg_events)) <= max_events;
  rk_size : sumZ size r.(rg_events) <= max_bytes \/ (length r.(rg_events) <= 1)%nat;
  rk_seq : Z.of_nat (length r.(rg_events)) <= r.(rg_seq)
}.

Lemma trim_count_spec m events : forall total,
  exists dropped kept, events = dropped ++ kept /\
    trim_count m events total = (kept, total - sumZ size dropped) /\
    Z.of_nat (length kept) <= Z.max m 0 /\
    (dropped = [] \/ Z.of_nat (length kept) = Z.max m 0).
Proof.
  induction events as [|el rest IH]; intros total.
  { exists [], []. cbn. rewrite sumZ_nil, Z.sub_0_r. split_and!; [done|done|lia|by left]. }
  cbn [trim_count]. destruct (m <? _) eqn:E; zify_bool.
  - destruct (IH (total - size el)) as (dr & kept & -> & -> & Hl & Hd). exists (el :: dr), kept.
    rewrite sumZ_cons. split_and!; [done|f_equal; lia|done|]. right. destruct Hd as [->|Hd]; [|done].
    cbn in E. lia.
  - exists [], (el :: rest). rewrite sumZ_nil, Z.sub_0_r. split_and!; [done|done|lia|by left].
Qed.

Lemma trim_bytes_spec m events : forall total,
  exists dropped kept, events = dropped ++ kept /\
    trim_bytes m events total = (kept, total - sumZ size dropped) /\
    (total - sumZ size dropped <= m \/ (length kept <= 1)%nat) /\
    (events <> [] -> kept <> []).
Proof.
  induction events as [|el rest IH]; intros total.
  { exists [], []. cbn. rewrite sumZ_nil, Z.sub_0_r. split_and!; [done|done|right; lia|done]. }
  cbn [trim_bytes]. destruct ((m <? total) && _) eqn:E.
  - zify_bool. destruct (IH (total - size el)) as (dr & kept & -> & -> & Hl & Hd). exists (el :: dr), kept.
    rewrite sumZ_cons. split_and!; [done|f_equal; lia| |].
    + destruct Hl; [left; lia|by right].
    + intros _. apply Hd. intros Hnil. cbn in H0. rewrite Hnil in H0. cbn in H0. lia.
  - exists [], (el :: rest). rewrite sumZ_nil, Z.sub_0_r. split_and!; [done|done| |done].
    apply andb_false_iff in E as [E|E]; zify_bool; [by left|right]. lia.
Qed.

Lemma numbered_suffix seq dropped kept : numbered seq (dropped ++ kept) -> numbered seq kept.
Proof.
  intros H i el Hi. specialize (H (length dropped + i)%nat el).
  rewrite lookup_app_r, Nat.add_comm, Nat.add_sub in H by lia. specialize (H Hi). rewrite length_app in H. lia.
Qed.

Lemma numbered_snoc seq events el :
  numbered seq events -> el.(el_seq) = seq + 1 -> numbered (seq + 1) (events ++ [el]).
Proof.
  intros H He i x Hi. rewrite length_app. cbn. apply lookup_app_Some in Hi as [Hi|[Hge Hi]].
  - specialize (H i x Hi). lia.
  - apply list_lookup_singleton_Some in Hi as [Hz ->]. lia.
Qed.

(** What one publish does to the ring: the new element is the last one, what is
    kept is a suffix of the history, and the ceilings hold. *)
Lemma append_event_spec max_events max_bytes epoch data r :
  1 <= max_events -> r.(rg_bytes) = sumZ size r.(rg_events) ->
  let r' := append_event epoch data max_events max_bytes r in
  exists dropped kept, r'.(rg_events) = kept ++ [mkElement epoch (r.(rg_seq) + 1) data] /\
    r.(rg_events) = dropped ++ kept /\ r'.(rg_seq) = r.(rg_seq) + 1 /\
    r'.(rg_bytes) = sumZ size r'.(rg_events) /\ Z.of_nat (length r'.(rg_events)) <= max_events /\
    (r'.(rg_bytes) <= max_bytes \/ (length r'.(rg_events) <= 1)%nat).
Proof.
  intros Hm Hb. cbv zeta. unfold append_event. set (el := mkElement _ _ _).
  destruct (trim_count_spec max_events (r.(rg_events) ++ [el]) (r.(rg_bytes) + size el))
    as (d1 & k1 & H1 & E1 & L1 & D1). rewrite E1.
  destruct (trim_bytes_spec max_bytes k1 (r.(rg_bytes) + size el - sumZ size d1)) as (d2 & k2 & H2 & E2 & L2 & D2).
  rewrite E2. cbn [rg_events rg_bytes rg_seq].
  assert (Hk1 : k1 <> []).
  { intros ->. destruct D1 as [->|D1]; [by destruct (rg_events r)|cbn in D1; lia]. }
  specialize (D2 Hk1). destruct (exists_last D2) as (kept & x & ->).
  assert (Hsplit : rg_events r ++ [el] = (d1 ++ d2 ++ kept) ++ [x]).
  { rewrite H1, H2. by rewrite <- !app_assoc. }
  apply app_inj_tail in Hsplit as [Hold <-]. exists (d1 ++ d2), kept.
  assert (Hsum : sumZ size (rg_events r ++ [el]) = sumZ size d1 + sumZ size d2 + sumZ size (kept ++ [el])).
  { rewrite Hold, !sumZ_app. lia. }
  rewrite sumZ_app, sumZ_singleton in Hsum.
  split_and!; [done|by rewrite Hold, app_assoc|done|lia| |destruct L2; [left; lia|by right]].
  rewrite H2, length_app in L1. lia.
Qed.

(** The replay ring.  A publish keeps the ring sound: the byte counter is
    the size of what is stored, the elements carry consecutive numbers up to
    the counter, and neither ceiling is exceeded except by a single element.
    The new event gets the next number and is always kept, and only the oldest
    elements are ever dropped. *)
Theorem publish_keeps_ring max_events max_bytes epoch data r :
  1 <= max_events -> ring_ok max_events max_bytes r ->
  let r' := append_event epoch data max_events max_bytes r in
  ring_ok max_events max_bytes r' /\ r'.(rg_seq) = r.(rg_seq) + 1 /\
  exists dropped kept, r.(rg_events) = dropped ++ kept /\
    r'.(rg_events) = kept ++ [mkElement epoch (r.(rg_seq) + 1) data].
Proof.
  intros Hm [Hb Hn Hc Hs Hq]. destruct (append_event_spec max_events max_bytes epoch data r Hm Hb)
    as (dropped & kept & He & Ho & Hseq & Hb' & Hc' & Hs'). cbv zeta. split; [|eauto]. split; try done.
  - rewrite He, Hseq. apply numbered_snoc; [|done]. apply (numbered_suffix _ dropped). by rewrite <- Ho.
  - by rewrite <- Hb'.
  - rewrite He, Hseq, length_app. rewrite Ho, length_app in Hq. cbn. lia.
Qed.

Definition demo_ring : Ring :=
  append_event "g1" "hello" 3 1000 (append_event "g1" "world" 3 1000 empty_ring).

Lemma publish_keeps_ring_witness :
  let r := demo_ring in
  let r' := append_event "g1" "again" 3 1000 r in
  ring_ok 3 1000 r' /\ r'.(rg_seq) = 3 /\
  exists dropped kept, r.(rg_events) = dropped ++ kept /\ r'.(rg_events) = kept ++ [mkElement "g1" 3 "again"].
Proof.
  apply (publish_keeps_ring 3 1000 "g1" "again" demo_ring).
  - lia.
  - split.
    + vm_compute. reflexivity.
    + intros i el Hi. destruct i as [|[|i]]; vm_compute in Hi; [injection Hi as <-; reflexivity..|discriminate Hi].
    + vm_compute. discriminate.
    + left. vm_compute. discriminate.
    + vm_compute. discriminate.
Defined.

(** ** The lease is exclusive *)

(** What the workers of a run may do with its keys. *)
Inductive lease_op : Type :=
| op_acquire (owner : string)
| op_renew (owner : string)
| op_release (owner : string)
| op_publish (epoch data_json : string)
| op_ensure_epoch (fresh : string).

(** The clock, the keys, and until when each worker believes it owns the run:
    the expiry of its last successful acquire or renewal. *)
Record LeaseSystem : Type := mkLeaseSystem {
  ls_now : Z;
  ls_keys : RunKeys;
  ls_claims : gmap string Z
}.

Section lease.
Context (max_events max_bytes ttl_ms lease_ttl_ms : Z).

Definition lease_do (reachable : bool) (o : lease_op) (s : LeaseSystem) : LeaseSystem :=
  let now := s.(ls_now) in
  match o with
  | op_acquire w =>
      let '(r, k) := acquire_lease lease_ttl_ms reachable now w s.(ls_keys) in
      mkLeaseSystem now k
        (match r with ACQUIRED => <[w := now + lease_ttl_ms]> s.(ls_claims) | _ => s.(ls_claims) end)
  | op_renew w =>
      let '(r, k) := renew_lease lease_ttl_ms reachable now w s.(ls_keys) in
      mkLeaseSystem now k
        (match r with
         | RENEWED | REACQUIRED => <[w := now + lease_ttl_ms]> s.(ls_claims)
         | LOST => delete w s.(ls_claims)
         | RENEW_UNKNOWN => s.(ls_claims)
         end)
  | op_release w => mkLeaseSystem now (release_lease reachable now w s.(ls_keys)) (delete w s.(ls_claims))
  | op_publish e d =>
      mkLeaseSystem now (publish max_events max_bytes ttl_ms reachable now e d s.(ls_keys)).2 s.(ls_claims)
  | op_ensure_epoch f => mkLeaseSystem now (ensure_epoch ttl_ms reachable now f s.(ls_keys)).2 s.(ls_claims)
  end.

Inductive lease_step (s : LeaseSystem) : LeaseSystem -> Prop :=
| lease_wait dt : 0 <= dt -> lease_step s (mkLeaseSystem (s.(ls_now) + dt) s.(ls_keys) s.(ls_claims))
| lease_act reachable o : lease_step s (lease_do reachable o s).

(** An unexpired claim is what the key holds. *)
Definition claims_ok (s : LeaseSystem) : Prop :=
  forall w exp, s.(ls_claims) !! w = Some exp -> s.(ls_now) < exp -> s.(ls_keys).(k_lease) = Some (w, exp).

Lemma claim_live s w exp :
  claims_ok s -> s.(ls_claims) !! w = Some exp -> s.(ls_now) < exp ->
  (expire s.(ls_now) s.(ls_keys)).(k_lease) = Some (w, exp).
Proof.
  intros H Hw Hexp. cbn. rewrite (H w exp Hw Hexp). cbn. by rewrite (proj2 (Z.ltb_lt _ _) Hexp).
Qed.

Lemma lease_do_ok reachable o s : claims_ok s -> claims_ok (lease_do reachable o s).
Proof.
  intros H w exp. pose proof (fun Hw Hexp => claim_live s w exp H Hw Hexp) as Hlive. cbn in Hlive.
  destruct o as [v|v|v|e d|f]; cbn.
  - unfold acquire_lease. destruct reachable; cbn; [|apply H].
    destruct (live _ (k_lease _)) as [[a b]|] eqn:E; cbn; [by rewrite E|]. intros Hw Hexp.
    apply lookup_insert_Some in Hw as [[<- <-]|[_ Hw]]; [done|]. by specialize (Hlive Hw Hexp).
  - unfold renew_lease. destruct reachable; cbn; [|apply H].
    destruct (live _ (k_lease _)) as [[a b]|] eqn:E; cbn.
    + destruct (String.eqb_spec a v) as [->|Hne]; cbn; intros Hw Hexp.
      * apply lookup_insert_Some in Hw as [[<- <-]|[Hne Hw]]; [done|]. specialize (Hlive Hw Hexp). congruence.
      * apply lookup_delete_Some in Hw as [_ Hw]. rewrite E. by apply Hlive.
    + intros Hw Hexp. apply lookup_insert_Some in Hw as [[<- <-]|[_ Hw]]; [done|]. by specialize (Hlive Hw Hexp).
  - intros Hw Hexp. apply lookup_delete_Some in Hw as [Hne Hw]. specialize (Hlive Hw Hexp).
    unfold release_lease. destruct reachable; cbn; [|by apply H]. rewrite Hlive.
    destruct (String.eqb_spec w v) as [->|]; [congruence|]. cbn. exact Hlive.
  - unfold publish. destruct reachable; cbn; [exact Hlive|apply H].
  - unfold ensure_epoch. destruct reachable; cbn; [|apply H].
    destruct (live _ (k_epoch _)) as [[a b]|]; cbn; exact Hlive.
Qed.

End lease.

Definition lease_start : LeaseSystem := mkLeaseSystem 0 no_keys ∅.
Definition lease_after : LeaseSystem :=
  lease_do 10 100 1000 30 true (op_acquire "b") (lease_do 10 100 1000 30 true (op_acquire "a") lease_start).

