(* ===== verification/Broker.v ===== *)
(** * The broker of agent-run events

    Models [src/app/agent_proxy/broker.py]: the client's cursor, the replay of
    the ring and the classification of the live channel, up to the queue of the
    writer task.  What the queue answers is a parameter: [room n] says whether
    the [n]-th block handed to it found room in time. *)

From Stdlib Require Import Ascii String.
From stdpp Require Import pretty.
From S2P Require Import Prelude PyVal Redaction Store Ring.

Open Scope string_scope.
Open Scope list_scope.
Open Scope Z_scope.

(** ** The cursor *)

Record Cursor : Type := mkCursor { cu_seq : Z; cu_epoch : option string }.

Definition empty_cursor : Cursor := mkCursor 0 None.

(** [s.isdigit()] for characters below 256: the superscripts two, three and one
    count as digits. *)
Definition is_digit_char (c : ascii) : bool :=
  Str.is_digit c ||
  (let n := N_of_ascii c in (n =? 178)%N || (n =? 179)%N || (n =? 185)%N).

Fixpoint all_digit_chars (s : string) : bool :=
  match s with
  | EmptyString => true
  | String c s' => is_digit_char c && all_digit_chars s'
  end.

Definition py_isdigit (s : string) : bool := Str.nonempty s && all_digit_chars s.

(** The longest decimal string [int] converts. *)
Definition int_max_str_digits : nat := N.to_nat 4300.

(** [int(s)] for a string that passed [isdigit]. *)
Definition py_int (s : string) : exn + Z :=
  if Str.all_digits s && (String.length s <=? int_max_str_digits)%nat then inr (Str.int_of_digits s) else inl ValueError.

(** [s.rpartition("-")] without the separator: what precedes the last dash and
    what follows it; [None] when there is none. *)
Fixpoint rpartition (s : string) : option (string * string) :=
  match s with
  | EmptyString => None
  | String c s' =>
      match rpartition s' with
      | Some (a, b) => Some (String c a, b)
      | None => if Ascii.eqb c "-" then Some ("", s') else None
      end
  end.

Definition parse_cursor (last_event_id after_seq : option string) : exn + Cursor :=
  let from_after_seq :=
    match after_seq with
    | Some a =>
        if py_isdigit a
        then match py_int a with inr n => inr (mkCursor n None) | inl x => inl x end
        else inl (BadRequestError "afterSeq must be a non-negative integer")
    | None => inr empty_cursor
    end in
  match last_event_id with
  | Some h =>
      if Str.nonempty h then
        match rpartition h with
        | Some (epoch, raw_seq) =>
            if Str.nonempty epoch && py_isdigit raw_seq
            then match py_int raw_seq with inr n => inr (mkCursor n (Some epoch)) | inl x => inl x end
            else inr empty_cursor
        | None => inr empty_cursor
        end
      else from_after_seq
  | None => from_after_seq
  end.

(** ** Blocks *)

(** A block for the client: the [run.truncated] marker or an event. *)
Inductive Block : Type :=
| truncated (epoch : string) (seq from_seq : Z)
| event_block (epoch : string) (seq : Z) (data : string).

Definition newline : string := String "010" "".

(** The id of a block, which the client sends back as [Last-Event-ID]. *)
Definition block_id (epoch : string) (seq : Z) : string := (epoch ++ "-" ++ Str.of_int seq)%string.

Definition sse_block (epoch : string) (seq : Z) (data : string) : string :=
  ("id: " ++ block_id epoch seq ++ newline ++ data)%string.

(** ** Cursor verdict and replay *)

Record CursorVerdict : Type := mkVerdict { filter_seq : Z; announce_gap : bool }.

Definition _cursor_verdict (cursor : Cursor) (epoch : option string) (current : Z) : CursorVerdict :=
  if cursor.(cu_seq) <=? 0 then mkVerdict 0 false
  else if current <? cursor.(cu_seq) then mkVerdict 0 true
  else match epoch with
       | None => mkVerdict 0 true
       | Some g =>
           match cursor.(cu_epoch) with
           | Some e => if String.eqb e g then mkVerdict cursor.(cu_seq) false else mkVerdict 0 true
           | None => mkVerdict cursor.(cu_seq) true
           end
       end.

Record Replay : Type := mkReplay { rp_blocks : list Block; rp_first_seq : Z; rp_min_seq : Z; rp_max_seq : Z }.

Definition or_generation (epoch generation : string) : string := if Str.nonempty epoch then epoch else generation.

Definition list_min (d : Z) (l : list Z) : Z := foldr Z.min d l.
Definition list_max (d : Z) (l : list Z) : Z := foldr Z.max d l.

Definition _replay_blocks (ring : list RingEvent) (filter_seq : Z) (generation : string) (gap_announced : bool) :
    Replay :=
  match filter (fun ev => filter_seq < ev.(re_seq)) ring with
  | [] => mkReplay [] 0 0 0
  | first :: rest =>
      let marker :=
        if (filter_seq + 1 <? first.(re_seq)) && negb gap_announced
        then [truncated (or_generation first.(re_epoch) generation) (Z.max filter_seq 0) first.(re_seq)] else [] in
      let seqs := map re_seq rest in
      mkReplay
        (marker ++ map (fun ev => event_block (or_generation ev.(re_epoch) generation) ev.(re_seq) ev.(re_data))
                     (first :: rest))
        first.(re_seq) (list_min first.(re_seq) seqs) (list_max first.(re_seq) seqs)
  end.

(** ** The live channel *)

Record Live : Type := mkLive {
  lv_generation : string;
  lv_delivered : Z;
  lv_arrived : Z;
  lv_replay_min : Z;
  lv_hole_announced : bool;
  lv_pending_gap : bool
}.

(** The branch of one event: the state before delivery, the marker it announces
    if any, and whether the event is delivered. *)
Definition live_branch (st : Live) (ev : RingEvent) : Live * list Block * bool :=
  let gap := truncated ev.(re_epoch) 0 ev.(re_seq) in
  if negb (Str.nonempty st.(lv_generation)) then
    let st' := mkLive ev.(re_epoch) st.(lv_delivered) st.(lv_arrived) st.(lv_replay_min) st.(lv_hole_announced) false in
    (st', if st.(lv_pending_gap) then [truncated ev.(re_epoch) 0 0] else [], true)
  else if negb (String.eqb ev.(re_epoch) st.(lv_generation)) then
    (mkLive ev.(re_epoch) 0 st.(lv_arrived) 0 st.(lv_hole_announced) st.(lv_pending_gap), [gap], true)
  else if ev.(re_seq) <=? st.(lv_arrived) then
    (mkLive st.(lv_generation) 0 st.(lv_arrived) 0 st.(lv_hole_announced) st.(lv_pending_gap), [gap], true)
  else if st.(lv_delivered) <? ev.(re_seq) then
    (st, if (0 <? st.(lv_delivered)) && (st.(lv_delivered) + 1 <? ev.(re_seq)) then [gap] else [], true)
  else if ev.(re_seq) <? st.(lv_replay_min) then
    (mkLive st.(lv_generation) st.(lv_delivered) st.(lv_arrived) st.(lv_replay_min) true st.(lv_pending_gap),
     if st.(lv_hole_announced) then [] else [gap], true)
  else (st, [], false).

(** One event: the state afterwards, what is offered to the queue in order, and
    whether the event is among it. *)
Definition classify_event (filter_seq : Z) (st : Live) (ev : RingEvent) : Live * list Block * bool :=
  let '(st1, announced, deliver) := live_branch st ev in
  if deliver then
    let first := if (st1.(lv_delivered) =? 0) && (length announced =? 0)%nat && (filter_seq + 1 <? ev.(re_seq))
                 then [truncated ev.(re_epoch) 0 ev.(re_seq)] else [] in
    (mkLive st1.(lv_generation) (Z.max st1.(lv_delivered) ev.(re_seq)) ev.(re_seq) st1.(lv_replay_min)
       st1.(lv_hole_announced) st1.(lv_pending_gap),
     announced ++ first ++ [event_block ev.(re_epoch) ev.(re_seq) ev.(re_data)], true)
  else
    (mkLive st1.(lv_generation) st1.(lv_delivered) ev.(re_seq) st1.(lv_replay_min) st1.(lv_hole_announced)
       st1.(lv_pending_gap), [], false).

(** The periodic re-reading of the generation key, after a message that was not
    delivered; [fresh] is what the key held. *)
Definition reread_generation (fresh : option string) (st : Live) : Live * list Block :=
  match fresh with
  | None => (st, [])
  | Some g =>
      if negb (Str.nonempty st.(lv_generation)) then
        (mkLive g st.(lv_delivered) st.(lv_arrived) st.(lv_replay_min) st.(lv_hole_announced) false,
         if st.(lv_pending_gap) then [truncated g 0 0] else [])
      else if String.eqb g st.(lv_generation) then (st, [])
      else (mkLive g 0 0 0 st.(lv_hole_announced) st.(lv_pending_gap), [truncated g 0 0])
  end.

(** What comes out of the channel: an event, a message that does not parse, or a
    poll that timed out; with the clock and, should the key be re-read now, the
    answer ([None] is the deadline of our own that fired). *)
Inductive Message : Type := msg_event (ev : RingEvent) | msg_unparseable | msg_tick.

Record Input : Type := mkInput { in_now : Z; in_message : Message; in_key : option (option string) }.

Inductive LiveEnd : Set := normal_end | abnormal_end.

(** What follows the first occurrence of [p]. *)
Fixpoint after_sub (p s : string) : option string :=
  if String.prefix p s then Some (substring (String.length p) (String.length s - String.length p) s)
  else match s with EmptyString => None | String _ s' => after_sub p s' end.

Section live.
(** [json.loads] of the bytes of a block. *)
Context (loads : string -> option json).
Context (room : nat -> bool) (check_every : Z) (filter_seq : Z).

Definition _TERMINAL_EVENTS : list string := ["run.completed"; "run.failed"; "run.paused"].

(** An [event] that cannot be hashed raises [TypeError]. *)
Definition _is_terminal_block (block : string) : exn + bool :=
  match after_sub "data: " block with
  | None => inr false
  | Some text =>
      match loads text with
      | Some (JObj payload) =>
          match dict_get payload "event" with
          | JStr e => inr (bool_decide (e ∈ _TERMINAL_EVENTS))
          | JArr _ | JObj _ => inl TypeError
          | _ => inr false
          end
      | _ => inr false
      end
  end.

(** Offer blocks in order: those that found room, and whether all did. *)
Fixpoint offer_live (offered : nat) (blocks : list Block) : list Block * bool :=
  match blocks with
  | [] => ([], true)
  | b :: rest => if room offered then let '(out, ok) := offer_live (S offered) rest in (b :: out, ok) else ([], false)
  end.

(** How a delivered event ends the loop, if it does. *)
Definition after_delivery (ev : RingEvent) : option LiveEnd :=
  match _is_terminal_block (sse_block ev.(re_epoch) ev.(re_seq) ev.(re_data)) with
  | inr true => Some normal_end
  | inr false => None
  | inl _ => Some abnormal_end
  end.

(** The classification of one message, and the event if it is delivered. *)
Definition classify_message (st : Live) (m : Message) : Live * list Block * option RingEvent :=
  match m with
  | msg_event ev =>
      let '(st1, blocks, delivered) := classify_event filter_seq st ev in
      (st1, blocks, if (delivered : bool) then Some ev else None)
  | msg_unparseable | msg_tick => (st, [], None)
  end.

(** [_classify_live]: what was queued, how it ended, and the input it did not
    look at any more. *)
Fixpoint _classify_live (st : Live) (last_check_at : Z) (offered : nat) (inputs : list Input) :
    list Block * LiveEnd * list Input :=
  match inputs with
  | [] => ([], normal_end, [])
  | i :: rest =>
      let '(st1, blocks, delivered) := classify_message st i.(in_message) in
      let '(queued, ok) := offer_live offered blocks in
      let offered1 := (offered + length blocks)%nat in
      if negb ok then (queued, abnormal_end, rest)
      else match delivered with
           | Some ev =>
               match after_delivery ev with
               | Some e => (queued, e, rest)
               | None =>
                   let '(out, e, unread) := _classify_live st1 last_check_at offered1 rest in (queued ++ out, e, unread)
               end
           | None =>
               if check_every <=? i.(in_now) - last_check_at then
                 match i.(in_key) with
                 | None => (queued, abnormal_end, rest)
                 | Some fresh =>
                     let '(st2, marker) := reread_generation fresh st1 in
                     let '(marked, ok) := offer_live offered1 marker in
                     if negb ok then (queued ++ marked, abnormal_end, rest)
                     else let '(out, e, unread) :=
                            _classify_live st2 i.(in_now) (offered1 + length marker)%nat rest in
                          (queued ++ marked ++ out, e, unread)
                 end
               else
                 let '(out, e, unread) := _classify_live st1 last_check_at offered1 rest in (queued ++ out, e, unread)
           end
  end.
End live.

(** ** A session *)

(** What the open phase read: the generation key, the counter, the ring,
    whether the run is over, and whether its lease is alive. *)
Record Opened : Type := mkOpened {
  op_epoch : option string;
  op_current_seq : Z;
  op_ring : list RingEvent;
  op_terminal : bool;
  op_lease : option bool
}.

Definition ring_generation (o : Opened) : string :=
  let last_epoch := match last o.(op_ring) with Some ev => ev.(re_epoch) | None => "" end in
  match o.(op_epoch) with Some e => or_generation e last_epoch | None => last_epoch end.

Section session.
Context (loads : string -> option json).
(** [due n]: the [n]-th block of the replay found room in time; [drained]: the
    queue fell to half its ceiling in time; [room] as above. *)
Context (due : nat -> bool) (drained : bool) (room : nat -> bool) (check_every : Z).

Definition block_text (b : Block) : option string :=
  match b with event_block e s d => Some (sse_block e s d) | truncated _ _ _ => None end.

(** The replay is put on the queue block by block, and each block is asked
    whether it is terminal until one is; [None] when a block did not find room
    in time, or when the question raised. *)
Fixpoint put_replay (n : nat) (terminal : bool) (blocks : list Block) : list Block * option bool :=
  match blocks with
  | [] => ([], Some terminal)
  | b :: rest =>
      if due n then
        match (if terminal then inr true
               else match block_text b with Some t => _is_terminal_block loads t | None => inr false end) with
        | inl _ => ([b], None)
        | inr terminal' => let '(out, r) := put_replay (S n) terminal' rest in (b :: out, r)
        end
      else ([], None)
  end.

Definition replay_phase (o : Opened) (cursor : Cursor) : list Block * Live * Z :=
  let verdict := _cursor_verdict cursor o.(op_epoch) o.(op_current_seq) in
  let generation := ring_generation o in
  let rp := _replay_blocks o.(op_ring) verdict.(filter_seq) generation verdict.(announce_gap) in
  let marks := verdict.(announce_gap) && Str.nonempty generation in
  ((if marks then [truncated generation 0 rp.(rp_first_seq)] else []) ++ rp.(rp_blocks),
   mkLive generation rp.(rp_max_seq) 0 rp.(rp_min_seq) false (verdict.(announce_gap) && negb marks),
   verdict.(filter_seq)).

(** [_read_until_end] once the open phase has its answers. *)
Definition _read_until_end (o : Opened) (cursor : Cursor) (now : Z) (inputs : list Input) :
    list Block * LiveEnd * list Input :=
  if bool_decide (o.(op_ring) = []) && bool_decide (o.(op_lease) = Some false) && negb o.(op_terminal)
  then ([], normal_end, inputs)
  else
    let '(blocks, st, filter_seq) := replay_phase o cursor in
    let '(queued, terminal_replayed) := put_replay 0 false blocks in
    match terminal_replayed with
    | None => (queued, abnormal_end, inputs)
    | Some terminal_replayed =>
        if o.(op_terminal) || terminal_replayed then (queued, normal_end, inputs)
        else if negb drained then (queued, abnormal_end, inputs)
        else let '(out, e, unread) := _classify_live loads room check_every filter_seq st now 0 inputs in
             (queued ++ out, e, unread)
    end.
End session.

(** ** No event is lost in silence *)

(** Events as the consumer publishes them: a generation and a positive number. *)
Definition well_numbered (ev : RingEvent) : Prop := Str.nonempty ev.(re_epoch) = true /\ 1 <= ev.(re_seq).

Definition as_block (ev : RingEvent) : Block := event_block ev.(re_epoch) ev.(re_seq) ev.(re_data).

(** Either the channel is past everything that was delivered, or the mark is
    still the tail of the replay; before a generation is known nothing was
    delivered. *)
Record live_ok (rmin rmax : Z) (st : Live) : Prop := mkLiveOk {
  lo_mark : st.(lv_delivered) <= st.(lv_arrived) \/ (st.(lv_delivered) = rmax /\ st.(lv_replay_min) = rmin);
  lo_unarmed : Str.nonempty st.(lv_generation) = false -> st.(lv_delivered) = 0;
  lo_nonneg : 0 <= st.(lv_delivered)
}.

Lemma classify_event_ok rmin rmax f st ev :
  live_ok rmin rmax st -> well_numbered ev ->
  let '(st', blocks, delivered) := classify_event f st ev in
  live_ok rmin rmax st' /\ (if delivered then as_block ev ∈ blocks else rmin <= ev.(re_seq) <= rmax).
Proof.
  intros [Hm Hu Hz] [He Hs]. unfold classify_event, live_branch.
  destruct (Str.nonempty (lv_generation st)) eqn:Eg; cbn [negb].
  2: { specialize (Hu eq_refl). cbn. split; [split; cbn; [left; lia|congruence|lia]|].
       unfold as_block. set_solver. }
  destruct (String.eqb _ _); cbn [negb].
  2: { cbn. split; [split; cbn; [left; lia|congruence|lia]|]. unfold as_block. set_solver. }
  destruct (_ <=? lv_arrived st) eqn:Ea; zify_bool.
  { cbn. split; [split; cbn; [left; lia|congruence|lia]|]. unfold as_block. set_solver. }
  destruct (lv_delivered st <? _) eqn:Ed; zify_bool.
  { cbn. split; [split; cbn; [left; lia|congruence|lia]|]. unfold as_block. set_solver. }
  assert (Hw : lv_delivered st = rmax /\ lv_replay_min st = rmin) by (destruct Hm; [lia|done]).
  destruct (_ <? lv_replay_min st) eqn:Er; zify_bool; cbn.
  - split; [split; cbn; [right; lia|congruence|lia]|]. unfold as_block. set_solver.
  - split; [split; cbn; [by right|congruence|lia]|]. lia.
Qed.

Lemma reread_ok rmin rmax fresh st : live_ok rmin rmax st -> live_ok rmin rmax (reread_generation fresh st).1.
Proof.
  intros [Hm Hu Hz]. unfold reread_generation. destruct fresh as [g|]; [|done].
  destruct (Str.nonempty (lv_generation st)) eqn:Eg; cbn [negb].
  - destruct (String.eqb _ _); [by split; cbn; auto; congruence|]. split; cbn; [left; lia|done|lia].
  - specialize (Hu eq_refl). split; cbn; auto.
Qed.

Definition input_ok (i : Input) : Prop :=
  match i.(in_message) with msg_event ev => well_numbered ev | _ => True end.

(** Every event that was read is queued, or its number lies in the window that
    the replay delivered. *)
Definition accounted (rmin rmax : Z) (out : list Block) (i : Input) : Prop :=
  match i.(in_message) with
  | msg_event ev => as_block ev ∈ out \/ rmin <= ev.(re_seq) <= rmax
  | _ => True
  end.

Lemma accounted_app rmin rmax l out i : accounted rmin rmax out i -> accounted rmin rmax (l ++ out) i.
Proof. unfold accounted. destruct (in_message i); [|done..]. rewrite elem_of_app. naive_solver. Qed.

Lemma offer_all room blocks : forall n out, offer_live room n blocks = (out, true) -> out = blocks.
Proof.
  induction blocks as [|b rest IH]; intros n out; cbn; [by intros [= <-]|].
  destruct (room n); [|done]. destruct (offer_live room (S n) rest) as [o ok] eqn:E. intros [= <- ->].
  f_equal. by apply (IH (S n)).
Qed.

Lemma put_replay_all loads due blocks : forall n t out r,
  put_replay loads due n t blocks = (out, Some r) -> out = blocks.
Proof.
  induction blocks as [|b rest IH]; intros n t out r; cbn; [by intros [= <-]|].
  destruct (due n); [|done]. destruct (if t then _ else _) as [x|t']; [done|].
  destruct (put_replay loads due (S n) t' rest) as [o r'] eqn:E. intros [= <- ->]. f_equal. by eapply IH.
Qed.

Section loop.
Context (loads : string -> option json) (room : nat -> bool) (check_every f rmin rmax : Z).

Lemma message_ok st i :
  live_ok rmin rmax st -> input_ok i ->
  let '(st', blocks, delivered) := classify_message f st i.(in_message) in
  live_ok rmin rmax st' /\ accounted rmin rmax blocks i.
Proof.
  intros Hst Hi. unfold classify_message, accounted, input_ok in *. destruct (in_message i) as [ev| |]; [|done..].
  pose proof (classify_event_ok rmin rmax f st ev Hst Hi) as H.
  destruct (classify_event f st ev) as [[st' blocks] delivered]. destruct H as [H1 H2]. split; [done|].
  destruct delivered; auto.
Qed.

(** The step shared by the three ways the loop goes on. *)
Lemma loop_cons inputs out unread i blocks :
  accounted rmin rmax blocks i ->
  (exists read, inputs = read ++ unread /\ Forall (accounted rmin rmax out) read) ->
  exists read, i :: inputs = read ++ unread /\ Forall (accounted rmin rmax (blocks ++ out)) read.
Proof.
  intros Hi (read & -> & Hr). exists (i :: read). split; [done|]. constructor.
  - unfold accounted in *. destruct (in_message i); [|done..]. rewrite elem_of_app. naive_solver.
  - eapply Forall_impl; [exact Hr|]. intros j. apply accounted_app.
Qed.

Lemma classify_live_accounts inputs : forall st t n out unread,
  live_ok rmin rmax st -> Forall input_ok inputs ->
  _classify_live loads room check_every f st t n inputs = (out, normal_end, unread) ->
  exists read, inputs = read ++ unread /\ Forall (accounted rmin rmax out) read.
Proof.
  induction inputs as [|i rest IH]; intros st t n out unread Hst Hin H; cbn [_classify_live] in H.
  { injection H as <- <-. by exists []. }
  apply Forall_cons in Hin as [Hi Hin]. pose proof (message_ok st i Hst Hi) as Hm.
  destruct (classify_message f st (in_message i)) as [[st1 blocks] delivered]. destruct Hm as [Hst1 Hacc].
  destruct (offer_live room n blocks) as [queued ok] eqn:Eo. destruct ok; [|discriminate H].
  apply offer_all in Eo as ->. cbn [negb] in H.
  destruct delivered as [ev|].
  - destruct (after_delivery loads ev) as [e|].
    { injection H as <- _ <-. exists [i]. split; [done|]. by apply Forall_singleton. }
    destruct (_classify_live loads _ _ _ st1 t _ rest) as [[out' e] unread'] eqn:E. injection H as <- -> <-.
    apply loop_cons; [done|]. by eapply IH.
  - destruct (check_every <=? _).
    + destruct (in_key i) as [fresh|]; [|discriminate H].
      pose proof (reread_ok rmin rmax fresh st1 Hst1) as Hst2.
      destruct (reread_generation fresh st1) as [st2 marker]. cbn [fst] in Hst2.
      destruct (offer_live room _ marker) as [marked ok] eqn:Em. destruct ok; [|discriminate H].
      apply offer_all in Em as ->. cbn [negb] in H.
      destruct (_classify_live loads _ _ _ st2 _ _ rest) as [[out' e] unread'] eqn:E. injection H as <- -> <-.
      apply loop_cons; [done|]. destruct (IH _ _ _ _ _ Hst2 Hin E) as (read & -> & Hr).
      exists read. split; [done|]. eapply Forall_impl; [exact Hr|]. intros j. apply accounted_app.
    + destruct (_classify_live loads _ _ _ st1 t _ rest) as [[out' e] unread'] eqn:E. injection H as <- -> <-.
      apply loop_cons; [done|]. by eapply IH.
Qed.
End loop.

(** ** The replay *)

(** The numbers of a ring have no holes. *)
Definition gapless (ring : list RingEvent) : Prop :=
  forall a b s, a ∈ ring -> b ∈ ring -> a.(re_seq) <= s <= b.(re_seq) -> exists c, c ∈ ring /\ c.(re_seq) = s.

Lemma list_min_in d l : list_min d l ∈ d :: l.
Proof.
  induction l as [|x l IH]; [by left|]. change (list_min d (x :: l)) with (Z.min x (list_min d l)).
  destruct (Z.min_spec x (list_min d l)) as [[_ ->]|[_ ->]]; set_solver.
Qed.

Lemma list_max_in d l : list_max d l ∈ d :: l.
Proof.
  induction l as [|x l IH]; [by left|]. change (list_max d (x :: l)) with (Z.max x (list_max d l)).
  destruct (Z.max_spec x (list_max d l)) as [[_ ->]|[_ ->]]; set_solver.
Qed.

(** The window of the replay is what it delivered. *)
Lemma replay_window ring f g gap s :
  gapless ring ->
  let rp := _replay_blocks ring f g gap in
  1 <= s -> rp.(rp_min_seq) <= s <= rp.(rp_max_seq) ->
  exists c, c ∈ ring /\ c.(re_seq) = s /\ event_block (or_generation c.(re_epoch) g) s c.(re_data) ∈ rp.(rp_blocks).
Proof.
  intros Hg rp Hs. subst rp. unfold _replay_blocks.
  destruct (filter _ ring) as [|first rest] eqn:Ef; [cbn; lia|]. cbn [rp_min_seq rp_max_seq rp_blocks]. intros Hw.
  assert (Hin : forall ev, ev ∈ first :: rest <-> f < ev.(re_seq) /\ ev ∈ ring).
  { intros ev. by rewrite <- Ef, list_elem_of_filter. }
  assert (Hmem : forall x, x ∈ re_seq first :: map re_seq rest -> exists ev, ev ∈ first :: rest /\ ev.(re_seq) = x).
  { intros x Hx. change (x ∈ re_seq <$> (first :: rest)) in Hx. apply list_elem_of_fmap in Hx as (ev & -> & Hev). by exists ev. }
  destruct (Hmem _ (list_min_in (re_seq first) (map re_seq rest))) as (a & Ha & Ea).
  destruct (Hmem _ (list_max_in (re_seq first) (map re_seq rest))) as (b & Hb & Eb).
  destruct (Hg a b s) as (c & Hc & Es); [by apply Hin|by apply Hin|lia|].
  exists c. split; [done|]. split; [done|]. apply elem_of_app. right.
  apply (list_elem_of_fmap_2' _ _ c); [|by rewrite Es]. apply Hin. split; [|done].
  apply Hin in Ha as [Ha _]. lia.
Qed.

(** ** The cursor *)

Lemma verdict_sound cursor epoch current :
  let v := _cursor_verdict cursor epoch current in
  v.(filter_seq) = 0 \/
  (v.(filter_seq) = cursor.(cu_seq) /\ 0 < cursor.(cu_seq) <= current /\
   (v.(announce_gap) = true \/ (exists g, epoch = Some g /\ cursor.(cu_epoch) = Some g))).
Proof.
  cbv zeta. unfold _cursor_verdict. destruct (_ <=? 0) eqn:E1; [by left|]. destruct (current <? _) eqn:E2; [by left|].
  zify_bool. destruct epoch as [g|]; [|by left]. destruct (cu_epoch cursor) as [e|]; [|right; cbn; auto with lia].
  destruct (String.eqb_spec e g) as [->|]; [|by left]. right. cbn. split_and!; [done|lia|lia|]. right. by exists g.
Qed.

Lemma or_generation_id e g : Str.nonempty e = true -> or_generation e g = e.
Proof. unfold or_generation. by intros ->. Qed.

Lemma ring_generation_armed o :
  Forall well_numbered o.(op_ring) -> Str.nonempty (ring_generation o) = false -> o.(op_ring) = [].
Proof.
  intros Hr Hg. destruct (last (op_ring o)) as [ev|] eqn:El; [|by apply last_None].
  assert (He : Str.nonempty (re_epoch ev) = true).
  { rewrite Forall_forall in Hr. apply (Hr ev). by apply last_Some_elem_of. }
  unfold ring_generation in Hg. rewrite El in Hg. destruct (op_epoch o) as [e|]; [|congruence].
  unfold or_generation in Hg. destruct (Str.nonempty e) eqn:E; congruence.
Qed.

Lemma replay_max_nonneg ring f g gap : Forall well_numbered ring -> 0 <= rp_max_seq (_replay_blocks ring f g gap).
Proof.
  intros Hr. unfold _replay_blocks. destruct (filter _ ring) as [|first rest] eqn:Ef; [done|]. cbn [rp_max_seq].
  pose proof (list_max_in (re_seq first) (map re_seq rest)) as Hx.
  change (list_max (re_seq first) (map re_seq rest) ∈ re_seq <$> (first :: rest)) in Hx.
  apply list_elem_of_fmap in Hx as (ev & -> & Hev). rewrite <- Ef in Hev. apply list_elem_of_filter in Hev as [_ Hev].
  rewrite Forall_forall in Hr. destruct (Hr ev Hev). lia.
Qed.


(** Every discontinuity is announced.  In a session that has a sound mark,
    an event that is queued without a [run.truncated] before it directly
    continues what the client has: it is the next number after the mark, or
    the first one after the prefix the client's cursor claims, or it falls in
    a hole that was announced before. *)
Theorem unannounced_is_contiguous rmin rmax f st ev st' :
  live_ok rmin rmax st -> well_numbered ev -> classify_event f st ev = (st', [as_block ev], true) ->
  (0 < st.(lv_delivered) /\ ev.(re_seq) = st.(lv_delivered) + 1) \/
  (st.(lv_delivered) = 0 /\ ev.(re_seq) <= f + 1) \/
  (st.(lv_hole_announced) = true /\ ev.(re_seq) < st.(lv_replay_min)).
Proof.
  intros [Hm Hu Hz] [He Hs]. unfold classify_event, live_branch.
  destruct (Str.nonempty (lv_generation st)) eqn:Eg; cbn [negb].
  2: { specialize (Hu eq_refl). cbn. rewrite Hu. destruct (lv_pending_gap st); cbn; [done|].
       destruct (f + 1 <? _) eqn:Ef; cbn; [done|]. zify_bool. auto. }
  destruct (String.eqb _ _); cbn [negb]; [|done].
  destruct (_ <=? lv_arrived st) eqn:Ea; [done|]. destruct (lv_delivered st <? _) eqn:Ed; zify_bool.
  - destruct (0 <? lv_delivered st) eqn:E0; zify_bool; cbn.
    + destruct (lv_delivered st + 1 <? _) eqn:E1; [done|]. zify_bool. intros _. left. lia.
    + rewrite (proj2 (Z.eqb_eq _ _)) by lia. cbn. destruct (f + 1 <? _) eqn:Ef; [done|]. zify_bool.
      intros _. right. left. lia.
  - destruct (_ <? lv_replay_min st) eqn:Er; zify_bool; [|done]. destruct (lv_hole_announced st) eqn:Eh; [|done].
    intros _. auto.
Qed.

(** ** Round trip of the cursor *)

Lemma all_digits_chars s : Str.all_digits s = true -> all_digit_chars s = true /\ rpartition s = None.
Proof.
  induction s as [|c s IH]; [done|]. cbn. intros [Hc Hs]%andb_prop. destruct (IH Hs) as [H1 H2].
  unfold is_digit_char. rewrite Hc, H1, H2. split; [done|].
  destruct (Ascii.eqb_spec c "-") as [->|]; [discriminate Hc|done].
Qed.

Lemma rpartition_id epoch s : rpartition s = None -> rpartition (epoch ++ String "-" s)%string = Some (epoch, s).
Proof.
  intros Hs. induction epoch as [|c e IH].
  - change ("" ++ String "-" s)%string with (String "-" s). cbn [rpartition]. by rewrite Hs.
  - rewrite Str.app_cons. cbn [rpartition]. by rewrite IH.
Qed.

(** The cursor round trip.  The id that [sse_block] puts on an event, sent
    back as [Last-Event-ID], is read as exactly that generation (dashes
    included) and that number, and it wins over any [afterSeq]; provided the
    number is short enough for [int]. *)
Theorem cursor_round_trip epoch seq after_seq :
  Str.nonempty epoch = true -> 0 <= seq -> (String.length (Str.of_int seq) <= int_max_str_digits)%nat ->
  parse_cursor (Some (block_id epoch seq)) after_seq = inr (mkCursor seq (Some epoch)).
Proof.
  intros He Hs Hl. destruct (of_int_digits seq Hs) as (Hd & Hv & Hn). destruct (all_digits_chars _ Hd) as [Hc Hp].
  unfold parse_cursor, block_id. change ("-" ++ Str.of_int seq)%string with (String "-" (Str.of_int seq)).
  rewrite rpartition_id by done. assert (Str.nonempty (epoch ++ String "-" (Str.of_int seq))%string = true) as ->.
  { by destruct epoch. }
  unfold py_isdigit, py_int. rewrite He, Hn, Hc, Hd. cbn [andb].
  by rewrite (proj2 (Nat.leb_le _ _) Hl), Hv.
Qed.

Lemma cursor_round_trip_witness :
  parse_cursor (Some (block_id "gen-1" 500)) (Some "7") = inr (mkCursor 500 (Some "gen-1")).
Proof.
  apply (cursor_round_trip "gen-1" 500 (Some "7")).
  - reflexivity.
  - lia.
  - vm_compute. lia.
Defined.

(** A malformed [Last-Event-ID] is not always harmless.  The documentation
    promises the empty cursor, never an error; but a superscript digit passes
    [isdigit] and makes [int] raise. *)
Theorem superscript_cursor_raises :
  parse_cursor (Some ("gen-1-" ++ String "178" "")%string) None = inl ValueError.
Proof. reflexivity. Qed.

(** ** The ring of the transport has no holes *)

Lemma numbered_gapless seq events (to_event : Element -> RingEvent) :
  (forall el, re_seq (to_event el) = el_seq el) -> numbered seq events -> gapless (to_event <$> events).
Proof.
  intros Ht Hn a b s Ha Hb Hw.
  apply list_elem_of_fmap in Ha as (ea & -> & [i Hi]%list_elem_of_lookup).
  apply list_elem_of_fmap in Hb as (eb & -> & [j Hj]%list_elem_of_lookup).
  rewrite !Ht in Hw. rewrite (Hn i ea Hi), (Hn j eb Hj) in Hw.
  pose proof (lookup_lt_Some _ _ _ Hj) as Hlt.
  set (k := Z.to_nat (s - seq + Z.of_nat (length events) - 1)).
  destruct (lookup_lt_is_Some_2 events k) as [ec Hc]; [subst k; lia|].
  exists (to_event ec). split; [apply list_elem_of_fmap; exists ec; split; [done|]; by eapply list_elem_of_lookup_2|].
  rewrite Ht, (Hn k ec Hc). subst k. lia.
Qed.

(** ** A session, for the witnesses *)

Definition demo_elements : list Element := [mkElement "g1" 1 "a"; mkElement "g1" 2 "b"; mkElement "g1" 3 "c"].
Definition ring_event (el : Element) : RingEvent := mkRingEvent el.(el_epoch) el.(el_seq) el.(el_data_json).
Definition demo_opened : Opened := mkOpened (Some "g1") 3 (ring_event <$> demo_elements) false (Some true).
Definition live_input (g : string) (seq : Z) : Input := mkInput 0 (msg_event (mkRingEvent g seq "x")) None.

(** An overlap duplicate, the next event, a jump, and a new generation. *)
Definition demo_inputs : list Input := [live_input "g1" 3; live_input "g1" 4; live_input "g1" 6; live_input "g2" 1].
Definition demo_out : list Block * LiveEnd * list Input :=
  _read_until_end (fun _ => None) (fun _ => true) true (fun _ => true) 10 demo_opened (mkCursor 1 (Some "g1")) 0 demo_inputs.

Lemma demo_gapless : gapless demo_opened.(op_ring).
Proof.
  apply (numbered_gapless 3); [done|]. intros i el Hi.
  destruct i as [|[|[|i]]]; cbn in Hi; [injection Hi as <-; reflexivity..|discriminate Hi].
Qed.


Lemma unannounced_is_contiguous_witness :
  (0 < 3 /\ 4 = 3 + 1) \/ (3 = 0 /\ 4 <= 1 + 1) \/ (false = true /\ 4 < 2).
Proof.
  apply (unannounced_is_contiguous 2 3 1 (mkLive "g1" 3 3 2 false false) (mkRingEvent "g1" 4 "x")
           (mkLive "g1" 4 4 2 false false)).
  - split; cbn; [left; lia|discriminate|lia].
  - split; [reflexivity|cbn; lia].
  - reflexivity.
Defined.
