(* ===== verification/BrokerPipe.v ===== *)
(** * The three tasks of a client stream

    Models [AgentRunBroker.stream], [_read_channel], [_put_due_replay],
    [_await_live_phase], [_offer_live], [_supervise] and
    [_handover_in_progress] of [src/app/agent_proxy/broker.py]: the reader, the
    writer and the supervisor around one bounded queue.  What the reader wants
    to queue is the subject of [Broker]; here it is any sequence of blocks, put
    under the disciplines of its phases. *)

From Stdlib Require Import Ascii String.
From stdpp Require Import relations.
From S2P Require Import Prelude PyVal Redaction Store Ring Broker.

Open Scope string_scope.
Open Scope list_scope.
Open Scope Z_scope.

Module Pipe.
(** The settings of the subscriber, times in microseconds. *)
Record Knobs : Type := mkKnobs {
  agent_run_subscriber_queue_max : nat;
  agent_run_subscriber_drain : Z;
  agent_run_downstream_idle_timeout : Z
}.

Inductive QueueItem : Type := item_block (b : Block) | _END_OF_STREAM.

(** The reader: before its open phase has answered, between two puts of the
    replay, inside [_put_due_replay], inside [_await_live_phase], in the live
    phase, finished, ended by an exception. *)
Inductive Reader : Type :=
| r_opening
| r_replaying
| r_waiting (b : Block) (deadline : Z)
| r_settling (queued : nat) (deadline : Z)
| r_live
| r_done
| r_failed.

(** The supervisor: asleep, inside the status probe, inside the lease probe. *)
Inductive Supervisor : Set := s_sleeping | s_probing | s_lease | s_done | s_failed.

Inductive CloseReason : Set := ended | abandoned | drain_exhausted | disconnected.

(** The writer: at the top of its loop, in a [yield] ([refresh]: the one that
    moves the drain deadline), in [asyncio.wait], returned. *)
Inductive Writer : Set := w_top | w_yielding (refresh : bool) | w_waiting | w_closed (why : CloseReason).

(** The session: the clock, the queue, the two signals, the tasks, the writer's
    deadline and the activity record; and, for the statements only, every block
    ever queued, every block handed to the client and when the last item was
    taken from the queue. *)
Record Pipe : Type := mkPipe {
  now : Z;
  queue : list QueueItem;
  is_normal_end : bool;
  is_closing : bool;
  reader : Reader;
  supervisor : Supervisor;
  writer : Writer;
  drain_deadline : option Z;
  last_event_at : Z;
  last_delivered_at : Z;
  put : list Block;
  handed : list Block;
  last_taken : Z
}.

Definition opened (t : Z) : Pipe :=
  mkPipe t [] false false r_opening s_sleeping w_top None t t [] [] t.

Definition set_reader (r : Reader) (p : Pipe) : Pipe :=
  mkPipe p.(now) p.(queue) p.(is_normal_end) p.(is_closing) r p.(supervisor) p.(writer) p.(drain_deadline)
    p.(last_event_at) p.(last_delivered_at) p.(put) p.(handed) p.(last_taken).

Definition set_supervisor (s : Supervisor) (p : Pipe) : Pipe :=
  mkPipe p.(now) p.(queue) p.(is_normal_end) p.(is_closing) p.(reader) s p.(writer) p.(drain_deadline)
    p.(last_event_at) p.(last_delivered_at) p.(put) p.(handed) p.(last_taken).

Definition set_writer (w : Writer) (p : Pipe) : Pipe :=
  mkPipe p.(now) p.(queue) p.(is_normal_end) p.(is_closing) p.(reader) p.(supervisor) w p.(drain_deadline)
    p.(last_event_at) p.(last_delivered_at) p.(put) p.(handed) p.(last_taken).

Definition set_deadline (d : option Z) (p : Pipe) : Pipe :=
  mkPipe p.(now) p.(queue) p.(is_normal_end) p.(is_closing) p.(reader) p.(supervisor) p.(writer) d
    p.(last_event_at) p.(last_delivered_at) p.(put) p.(handed) p.(last_taken).

(** [closing.set()] *)
Definition close (p : Pipe) : Pipe :=
  mkPipe p.(now) p.(queue) p.(is_normal_end) true p.(reader) p.(supervisor) p.(writer) p.(drain_deadline)
    p.(last_event_at) p.(last_delivered_at) p.(put) p.(handed) p.(last_taken).

Section session.
Context (k : Knobs).

Definition ceiling : nat := k.(agent_run_subscriber_queue_max).
Definition budget : Z := k.(agent_run_subscriber_drain).

(** [queue.put_nowait(item)] on a queue of [ceiling + 1] slots; [None] is
    [QueueFull], which ends the reader. *)
Definition put_nowait (i : QueueItem) (p : Pipe) : option Pipe :=
  if (S ceiling <=? length p.(queue))%nat then None
  else Some (mkPipe p.(now) (p.(queue) ++ [i]) p.(is_normal_end) p.(is_closing) p.(reader) p.(supervisor) p.(writer)
               p.(drain_deadline) p.(last_event_at) p.(last_delivered_at)
               (match i with item_block b => p.(put) ++ [b] | _END_OF_STREAM => p.(put) end) p.(handed) p.(last_taken)).

Definition put_or_fail (i : QueueItem) (r : Reader) (p : Pipe) : Pipe :=
  match put_nowait i p with Some p' => set_reader r p' | None => set_reader r_failed p end.

(** [_read_channel]: the flag before the sentinel, or the abnormal signal. *)
Definition _read_channel (ended_normally : bool) (p : Pipe) : Pipe :=
  if ended_normally then
    put_or_fail _END_OF_STREAM r_done
      (mkPipe p.(now) p.(queue) true p.(is_closing) p.(reader) p.(supervisor) p.(writer) p.(drain_deadline)
         p.(last_event_at) p.(last_delivered_at) p.(put) p.(handed) p.(last_taken))
  else set_reader r_done (close p).

(** One turn of the loop of [_put_due_replay]. *)
Definition _put_due_replay (b : Block) (deadline : Z) (p : Pipe) : Pipe :=
  if (ceiling <=? length p.(queue))%nat then
    if deadline <=? p.(now) then _read_channel false p else p
  else put_or_fail (item_block b) r_replaying p.

(** One turn of the loop of [_await_live_phase]. *)
Definition _await_live_phase (queued : nat) (deadline : Z) (p : Pipe) : Pipe :=
  if (Nat.div ceiling 2 <? length p.(queue))%nat then
    if (length p.(queue) <? queued)%nat then set_reader (r_settling (length p.(queue)) (p.(now) + budget)) p
    else if deadline <=? p.(now) then _read_channel false p
    else p
  else set_reader r_live p.

(** [_offer_live]; an event, unlike a marker, is recorded as activity first. *)
Definition _offer_live (b : Block) (p : Pipe) : Pipe :=
  let p := match b with
           | event_block _ _ _ =>
               mkPipe p.(now) p.(queue) p.(is_normal_end) p.(is_closing) p.(reader) p.(supervisor) p.(writer)
                 p.(drain_deadline) p.(now) p.(last_delivered_at) p.(put) p.(handed) p.(last_taken)
           | truncated _ _ _ => p
           end in
  if (ceiling <=? length p.(queue))%nat then _read_channel false p else put_or_fail (item_block b) r_live p.

Definition _handover_in_progress (p : Pipe) : bool :=
  match p.(queue) with [] => false | _ => p.(now) - p.(last_delivered_at) <? budget end.

(** A verdict of the supervisor, checked once more against the hand-over. *)
Definition verdict (p : Pipe) : Pipe :=
  if _handover_in_progress p then set_supervisor s_sleeping p else set_supervisor s_done (close p).

(** What one probe answered: the deadline of our own fired, another exception,
    or an answer. *)
Inductive Probe (A : Type) : Type := probe_timeout | probe_raised | probe_answer (a : A).
Arguments probe_timeout {A}.
Arguments probe_raised {A}.
Arguments probe_answer {A} a.

Definition after_status (o : Probe bool) (p : Pipe) : Pipe :=
  match o with
  | probe_timeout => set_supervisor s_sleeping p
  | probe_raised => set_supervisor s_failed p
  | probe_answer true => verdict p
  | probe_answer false =>
      if k.(agent_run_downstream_idle_timeout) <=? p.(now) - p.(last_event_at) then set_supervisor s_lease p
      else set_supervisor s_sleeping p
  end.

(** [lease_alive] is [None] when Redis did not answer. *)
Definition after_lease (o : Probe (option bool)) (p : Pipe) : Pipe :=
  match o with
  | probe_timeout => set_supervisor s_sleeping p
  | probe_raised => set_supervisor s_failed p
  | probe_answer (Some false) => verdict p
  | probe_answer _ => set_supervisor s_sleeping p
  end.

(** [_task_failed] *)
Definition supervisor_failed (p : Pipe) : bool := match p.(supervisor) with s_failed => true | _ => false end.
Definition reader_done (p : Pipe) : bool := match p.(reader) with r_done | r_failed => true | _ => false end.
Definition supervisor_done (p : Pipe) : bool := match p.(supervisor) with s_done | s_failed => true | _ => false end.

(** The item at the head of the queue goes to the client, or ends the stream. *)
Definition take_item (refresh : bool) (p : Pipe) : option Pipe :=
  match p.(queue) with
  | [] => None
  | i :: q =>
      let p' := mkPipe p.(now) q p.(is_normal_end) p.(is_closing) p.(reader) p.(supervisor) p.(writer) p.(drain_deadline)
                  p.(last_event_at) p.(last_delivered_at) p.(put)
                  (match i with item_block b => p.(handed) ++ [b] | _END_OF_STREAM => p.(handed) end) p.(now) in
      Some (set_writer (match i with item_block _ => w_yielding refresh | _END_OF_STREAM => w_closed ended end) p')
  end.

(** The writer from the top of its loop to its next await. *)
Definition writer_turn (p : Pipe) : Pipe :=
  let p := match p.(drain_deadline) with
           | None => if p.(is_normal_end) then set_deadline (Some (p.(now) + budget)) p else p
           | Some _ => p
           end in
  let draining := match p.(drain_deadline) with Some _ => true | None => false end in
  if negb draining && (p.(is_closing) || reader_done p || supervisor_failed p) then set_writer (w_closed abandoned) p
  else match take_item true p with
       | Some p' => p'
       | None =>
           match p.(drain_deadline) with
           | Some t => if t <=? p.(now) then set_writer (w_closed drain_exhausted) p else set_writer w_waiting p
           | None => set_writer w_waiting p
           end
       end.

(** The client took what was yielded. *)
Definition client_took (refresh : bool) (p : Pipe) : Pipe :=
  let d := if refresh then match p.(drain_deadline) with Some _ => Some (p.(now) + budget) | None => None end
           else p.(drain_deadline) in
  mkPipe p.(now) p.(queue) p.(is_normal_end) p.(is_closing) p.(reader) p.(supervisor) w_top d p.(last_event_at) p.(now)
    p.(put) p.(handed) p.(last_taken).

(** [asyncio.wait] returns: with the getter done, or for another reason. *)
Definition wait_returned (got : bool) (p : Pipe) : option Pipe :=
  if got then take_item false p
  else if reader_done p || supervisor_done p || p.(is_closing) || p.(is_normal_end)
          || match p.(drain_deadline) with Some _ => true | None => false end
  then Some (set_writer w_top p) else None.

(** ** One step of the session *)

Inductive Action : Type :=
| a_tick (dt : Z)
| a_open
| a_put (b : Block)
| a_poll
| a_settle
| a_offer (b : Block)
| a_end (normally : bool)
| a_raise
| a_writer
| a_client
| a_wait (got : bool)
| a_leave
| a_wake
| a_status (o : Probe bool)
| a_lease (o : Probe (option bool)).

(** The reader's actions by phase.  It ends normally when nothing is owed at
    open, after a terminal replay or event, or when the channel ended; it
    ends abnormally on a Redis error or a deadline. *)
Definition reader_act (a : Action) (p : Pipe) : option Pipe :=
  match p.(reader), a with
  | r_opening, a_open => Some (set_reader r_replaying p)
  | r_opening, a_end b => Some (_read_channel b p)
  | r_replaying, a_put b => Some (set_reader (r_waiting b (p.(now) + budget)) p)
  | r_replaying, a_settle => Some (set_reader (r_settling (length p.(queue)) (p.(now) + budget)) p)
  | r_replaying, a_end true => Some (_read_channel true p)
  | r_waiting b d, a_poll => Some (_put_due_replay b d p)
  | r_settling n d, a_poll => Some (_await_live_phase n d p)
  | r_live, a_offer b => Some (_offer_live b p)
  | r_live, a_end b => Some (_read_channel b p)
  | (r_opening | r_replaying | r_live), a_raise => Some (set_reader r_failed p)
  | _, _ => None
  end.

Definition writer_act (a : Action) (p : Pipe) : option Pipe :=
  match p.(writer), a with
  | w_top, a_writer => Some (writer_turn p)
  | w_yielding r, a_client => Some (client_took r p)
  | w_yielding _, a_leave => Some (set_writer (w_closed disconnected) p)
  | w_waiting, a_wait got => wait_returned got p
  | w_waiting, a_leave => Some (set_writer (w_closed disconnected) p)
  | _, _ => None
  end.

Definition supervisor_act (a : Action) (p : Pipe) : option Pipe :=
  match p.(supervisor), a with
  | s_sleeping, a_wake => Some (if _handover_in_progress p then p else set_supervisor s_probing p)
  | s_probing, a_status o => Some (after_status o p)
  | s_lease, a_lease o => Some (after_lease o p)
  | _, _ => None
  end.

(** The clock moves forward; nothing moves once the writer has returned and
    cancelled the others. *)
Definition is_closed (p : Pipe) : bool := match p.(writer) with w_closed _ => true | _ => false end.

Definition elapse (dt : Z) (p : Pipe) : Pipe :=
  mkPipe (p.(now) + dt) p.(queue) p.(is_normal_end) p.(is_closing) p.(reader) p.(supervisor) p.(writer)
    p.(drain_deadline) p.(last_event_at) p.(last_delivered_at) p.(put) p.(handed) p.(last_taken).

Definition act (a : Action) (p : Pipe) : option Pipe :=
  if is_closed p then None
  else match a with
       | a_tick dt => if dt <? 0 then None else Some (elapse dt p)
       | a_open | a_put _ | a_poll | a_settle | a_offer _ | a_end _ | a_raise => reader_act a p
       | a_writer | a_client | a_wait _ | a_leave => writer_act a p
       | a_wake | a_status _ | a_lease _ => supervisor_act a p
       end.

Fixpoint run_actions (l : list Action) (p : Pipe) : option Pipe :=
  match l with
  | [] => Some p
  | a :: l' => match act a p with Some p' => run_actions l' p' | None => None end
  end.

Definition step (p p' : Pipe) : Prop := exists a, act a p = Some p'.
End session.
End Pipe.

(** ** The invariant of a session *)

Definition queued_blocks (q : list Pipe.QueueItem) : list Block :=
  omap (fun i => match i with Pipe.item_block b => Some b | Pipe._END_OF_STREAM => None end) q.

Lemma queued_blocks_items bs : queued_blocks (Pipe.item_block <$> bs) = bs.
Proof. induction bs as [|b bs IH]; [done|]. unfold queued_blocks in *. cbn. by rewrite IH. Qed.

Lemma queued_blocks_app q r : queued_blocks (q ++ r) = queued_blocks q ++ queued_blocks r.
Proof. apply omap_app. Qed.

(** What the reader's phase says of the queue and the clock. *)
Definition reader_inv (k : Pipe.Knobs) (p : Pipe.Pipe) : Prop :=
  match p.(Pipe.reader) with
  | Pipe.r_waiting _ d =>
      (Pipe.ceiling k <= length p.(Pipe.queue))%nat -> p.(Pipe.last_taken) <= d - Pipe.budget k
  | Pipe.r_settling n d =>
      (length p.(Pipe.queue) <= n)%nat /\ (length p.(Pipe.queue) = n -> p.(Pipe.last_taken) <= d - Pipe.budget k)
  | _ => True
  end.

(** The sentinel is in the queue, last, exactly from the normal end until the
    writer takes it. *)
Definition queue_shape (p : Pipe.Pipe) : Prop :=
  if p.(Pipe.is_normal_end) then
    p.(Pipe.reader) = Pipe.r_done /\
    (p.(Pipe.queue) = [] /\ p.(Pipe.writer) = Pipe.w_closed Pipe.ended \/
     exists bs, p.(Pipe.queue) = (Pipe.item_block <$> bs) ++ [Pipe._END_OF_STREAM] /\
                p.(Pipe.writer) <> Pipe.w_closed Pipe.ended)
  else (exists bs, p.(Pipe.queue) = Pipe.item_block <$> bs) /\ p.(Pipe.writer) <> Pipe.w_closed Pipe.ended.

Record pipe_inv (k : Pipe.Knobs) (p : Pipe.Pipe) : Prop := mkPipeInv {
  pi_fifo : p.(Pipe.handed) ++ queued_blocks p.(Pipe.queue) = p.(Pipe.put);
  pi_shape : queue_shape p;
  pi_bound : (length (queued_blocks p.(Pipe.queue)) <= Pipe.ceiling k)%nat;
  pi_reader : reader_inv k p;
  pi_taken : p.(Pipe.last_taken) <= p.(Pipe.now);
  pi_abandoned : p.(Pipe.writer) = Pipe.w_closed Pipe.abandoned -> p.(Pipe.is_normal_end) = false;
  pi_exhausted : p.(Pipe.writer) <> Pipe.w_closed Pipe.drain_exhausted
}.

Lemma opened_inv k t : pipe_inv k (Pipe.opened t).
Proof. split; cbn; try done; try lia. split; [by exists []|done]. Qed.

Section preserved.
Context (k : Pipe.Knobs).

Lemma not_ended p : pipe_inv k p -> p.(Pipe.is_normal_end) = false -> exists bs,
  p.(Pipe.queue) = Pipe.item_block <$> bs /\ queued_blocks p.(Pipe.queue) = bs /\ length p.(Pipe.queue) = length bs.
Proof.
  intros Hi He. pose proof (pi_shape _ _ Hi) as Hs. unfold queue_shape in Hs. rewrite He in Hs.
  destruct Hs as [[bs Hq] _]. exists bs. by rewrite Hq, queued_blocks_items, length_fmap.
Qed.

Lemma reader_going p : pipe_inv k p -> Pipe.reader_done p = false -> p.(Pipe.is_normal_end) = false.
Proof.
  intros Hi Hr. destruct (Pipe.is_normal_end p) eqn:E; [|done]. pose proof (pi_shape _ _ Hi) as Hs.
  unfold queue_shape in Hs. rewrite E in Hs. destruct Hs as [Hd _]. unfold Pipe.reader_done in Hr. by rewrite Hd in Hr.
Qed.

(** The abnormal signal. *)
Lemma closing_inv p : pipe_inv k p -> p.(Pipe.is_normal_end) = false -> pipe_inv k (Pipe._read_channel k false p).
Proof. intros [H1 H2 H3 H4 H5 H6 H7] He. split; cbn; try done. unfold queue_shape in *. cbn. by rewrite He in H2 |- *. Qed.

(** Another reader phase that owes nothing. *)
Lemma set_reader_inv r p :
  pipe_inv k p -> p.(Pipe.is_normal_end) = false -> reader_inv k (Pipe.set_reader r p) -> pipe_inv k (Pipe.set_reader r p).
Proof. intros [H1 H2 H3 H4 H5 H6 H7] He Hr. split; cbn; try done. unfold queue_shape in *. cbn. by rewrite He in H2 |- *. Qed.

(** A block that found room. *)
Lemma put_block_inv b r p :
  pipe_inv k p -> p.(Pipe.is_normal_end) = false -> (length p.(Pipe.queue) < Pipe.ceiling k)%nat ->
  r = Pipe.r_replaying \/ r = Pipe.r_live -> pipe_inv k (Pipe.put_or_fail k (Pipe.item_block b) r p).
Proof.
  intros Hi He Hl Hr. destruct (not_ended p Hi He) as (bs & Hq & Hb & Hlen).
  unfold Pipe.put_or_fail, Pipe.put_nowait. rewrite (proj2 (Nat.leb_gt _ _)) by lia.
  destruct Hi as [H1 H2 H3 H4 H5 H6 H7]. split; cbn; try done.
  - by rewrite queued_blocks_app, app_assoc, H1.
  - unfold queue_shape in *. cbn. rewrite He in H2 |- *. destruct H2 as [_ H2]. split; [|done].
    exists (bs ++ [b]). by rewrite Hq, fmap_app.
  - rewrite queued_blocks_app, length_app, Hb. cbn. lia.
  - by destruct Hr as [-> | ->].
Qed.

(** The sentinel always finds its slot. *)
Lemma normal_end_inv p :
  pipe_inv k p -> p.(Pipe.is_normal_end) = false -> (forall why, p.(Pipe.writer) <> Pipe.w_closed why) ->
  pipe_inv k (Pipe._read_channel k true p) /\ (Pipe._read_channel k true p).(Pipe.reader) = Pipe.r_done.
Proof.
  intros Hi He Hw. destruct (not_ended p Hi He) as (bs & Hq & Hb & Hlen). pose proof (pi_bound _ _ Hi) as Hc.
  unfold Pipe._read_channel, Pipe.put_or_fail, Pipe.put_nowait. cbn [Pipe.queue].
  rewrite (proj2 (Nat.leb_gt _ _)) by (rewrite Hb in Hc; lia).
  split; [|done]. destruct Hi as [H1 H2 H3 H4 H5 H6 H7]. split; cbn; try done.
  - by rewrite queued_blocks_app, app_nil_r.
  - split; [done|]. right. exists bs. split; [by rewrite Hq|apply Hw].
  - by rewrite queued_blocks_app, app_nil_r.
  - intros Hx. by destruct (Hw _ Hx).
Qed.
Definition is_open (p : Pipe.Pipe) : Prop := forall why, p.(Pipe.writer) <> Pipe.w_closed why.

(** The turns of the two waiting loops. *)
Lemma put_due_inv b d p :
  pipe_inv k p -> p.(Pipe.reader) = Pipe.r_waiting b d -> pipe_inv k (Pipe._put_due_replay k b d p).
Proof.
  intros Hi Hr. assert (He : Pipe.is_normal_end p = false) by (apply reader_going; [done|]; unfold Pipe.reader_done; by rewrite Hr).
  unfold Pipe._put_due_replay. destruct (Nat.leb_spec (Pipe.ceiling k) (length p.(Pipe.queue))).
  - destruct (d <=? _); [by apply closing_inv|done].
  - apply put_block_inv; [done|done|lia|by left].
Qed.

Lemma await_live_inv n d p :
  pipe_inv k p -> p.(Pipe.reader) = Pipe.r_settling n d -> pipe_inv k (Pipe._await_live_phase k n d p).
Proof.
  intros Hi Hr. assert (He : Pipe.is_normal_end p = false) by (apply reader_going; [done|]; unfold Pipe.reader_done; by rewrite Hr).
  unfold Pipe._await_live_phase. destruct (_ <? _)%nat; [|by apply set_reader_inv].
  destruct (_ <? _)%nat.
  - apply set_reader_inv; [done|done|]. cbn. pose proof (pi_taken _ _ Hi). split; [lia|]. intros _. lia.
  - destruct (d <=? _); [by apply closing_inv|done].
Qed.

Lemma offer_inv b p : pipe_inv k p -> p.(Pipe.reader) = Pipe.r_live -> pipe_inv k (Pipe._offer_live k b p).
Proof.
  intros Hi Hr. assert (He : Pipe.is_normal_end p = false) by (apply reader_going; [done|]; unfold Pipe.reader_done; by rewrite Hr).
  unfold Pipe._offer_live. set (q := match b with event_block _ _ _ => _ | truncated _ _ _ => _ end).
  assert (pipe_inv k q /\ Pipe.is_normal_end q = false) as [Hq Heq].
  { subst q. destruct b; [done|]. split; [|done]. destruct Hi as [H1 H2 H3 H4 H5 H6 H7]. by split. }
  clearbody q. destruct (Nat.leb_spec (Pipe.ceiling k) (length q.(Pipe.queue))); [by apply closing_inv|].
  apply put_block_inv; [done|done|lia|by right].
Qed.

Lemma reader_act_inv a p p' :
  is_open p -> pipe_inv k p -> Pipe.reader_act k a p = Some p' -> pipe_inv k p'.
Proof.
  intros Ho Hi H. unfold Pipe.reader_act in H.
  assert (He : Pipe.reader_done p = false) by (unfold Pipe.reader_done; by destruct (Pipe.reader p)).
  pose proof (reader_going p Hi He) as Hn. pose proof (pi_taken _ _ Hi) as Ht.
  destruct (Pipe.reader p) eqn:Hr; destruct a as [| | | | | |normally| | | | | | | |]; try done; try destruct normally;
    try done; injection H as <-;
    first [by apply normal_end_inv|by apply closing_inv|by apply put_due_inv|by apply await_live_inv|by apply offer_inv
          |apply set_reader_inv; [done|done|cbn; lia || done]].
Qed.

(** ** The writer and the supervisor *)

Lemma take_item_inv r p p' : is_open p -> pipe_inv k p -> Pipe.take_item r p = Some p' -> pipe_inv k p'.
Proof.
  intros Ho [H1 H2 H3 H4 H5 H6 H7] H. unfold Pipe.take_item in H.
  destruct (Pipe.queue p) as [|i q] eqn:Hq; [done|]. injection H as <-.
  assert (Hri : reader_inv k (Pipe.set_writer Pipe.w_top (Pipe.mkPipe (Pipe.now p) q (Pipe.is_normal_end p) (Pipe.is_closing p)
     (Pipe.reader p) (Pipe.supervisor p) (Pipe.writer p) (Pipe.drain_deadline p) (Pipe.last_event_at p)
     (Pipe.last_delivered_at p) (Pipe.put p) (Pipe.handed p) (Pipe.now p)))).
  { unfold reader_inv in *. cbn. rewrite Hq in H4. cbn in H4. destruct (Pipe.reader p) eqn:Hr; try done.
    - intros Hc. exfalso. unfold queue_shape in H2. destruct (Pipe.is_normal_end p); [destruct H2; congruence|].
      destruct H2 as [[bs Hb] _]. rewrite Hq in Hb. rewrite Hb, queued_blocks_items in H3. destruct bs; [done|].
      injection Hb as _ ->. rewrite length_fmap in Hc. cbn in H3. lia.
    - lia. }
  unfold queue_shape in H2. destruct i as [b|].
  - split; cbn; try done.
    + by rewrite <- app_assoc.
    + unfold queue_shape. cbn. destruct (Pipe.is_normal_end p).
      * destruct H2 as [Hd [[? _]|(bs & Hb & _)]]; [congruence|]. split; [done|]. right. rewrite Hq in Hb.
        destruct bs; [done|]. injection Hb as _ Hb. by exists bs.
      * destruct H2 as [[bs Hb] _]. rewrite Hq in Hb. destruct bs; [done|]. injection Hb as _ Hb. split; [by exists bs|done].
    + cbn in H3. lia.
  - split; cbn; try done.
    + unfold queue_shape. cbn. destruct (Pipe.is_normal_end p).
      * destruct H2 as [Hd [[? _]|(bs & Hb & _)]]; [congruence|]. split; [done|]. left. rewrite Hq in Hb.
        destruct bs as [|b bs]; [|done]. by injection Hb as ->.
      * destruct H2 as [[bs Hb] _]. rewrite Hq in Hb. by destruct bs.
Qed.

(** A change of the writer's own state, the stream still open or given up. *)
Lemma set_writer_inv w d p :
  is_open p -> pipe_inv k p -> w <> Pipe.w_closed Pipe.ended -> w <> Pipe.w_closed Pipe.drain_exhausted ->
  (w = Pipe.w_closed Pipe.abandoned -> p.(Pipe.is_normal_end) = false) ->
  pipe_inv k (Pipe.set_writer w (Pipe.set_deadline d p)).
Proof.
  intros Ho [H1 H2 H3 H4 H5 H6 H7] Hw1 Hw2 Hw3. split; cbn; try done. unfold queue_shape in *. cbn.
  destruct (Pipe.is_normal_end p); [|by destruct H2 as [H2 _]].
  destruct H2 as [Hd [[_ Hc]|(bs & Hb & _)]]; [by apply Ho in Hc|]. split; [done|]. right. by exists bs.
Qed.
(** An open session past its normal end still holds the sentinel. *)
Lemma draining_nonempty p :
  is_open p -> pipe_inv k p -> p.(Pipe.is_normal_end) = true -> p.(Pipe.queue) <> [].
Proof.
  intros Ho Hi He. pose proof (pi_shape _ _ Hi) as H. unfold queue_shape in H. rewrite He in H.
  destruct H as [_ [[_ Hc]|(bs & -> & _)]]; [by apply Ho in Hc|by destruct bs].
Qed.

(** The writer has a deadline only once the end is normal. *)
Definition deadline_inv (p : Pipe.Pipe) : Prop := p.(Pipe.drain_deadline) <> None -> p.(Pipe.is_normal_end) = true.

Lemma set_deadline_same p : Pipe.set_deadline p.(Pipe.drain_deadline) p = p.
Proof. by destruct p. Qed.

Lemma writer_turn_inv p :
  is_open p -> pipe_inv k p -> deadline_inv p -> pipe_inv k (Pipe.writer_turn k p) /\ deadline_inv (Pipe.writer_turn k p).
Proof.
  intros Ho Hi Hd. unfold Pipe.writer_turn.
  set (q := match Pipe.drain_deadline p with None => _ | Some _ => _ end).
  assert (exists d, q = Pipe.set_deadline d p /\ (d <> None <-> p.(Pipe.is_normal_end) = true)) as (d & Hq & Hdn).
  { subst q. unfold deadline_inv in Hd. destruct (Pipe.drain_deadline p) as [t|] eqn:E.
    - exists (Some t). rewrite <- E, set_deadline_same. split; [done|]. split; intros _; [by apply Hd|by rewrite E].
    - destruct (Pipe.is_normal_end p) eqn:En; [by eexists|]. exists None. rewrite <- E, set_deadline_same. by split. }
  clearbody q. subst q. assert (Hi' : pipe_inv k (Pipe.set_deadline d p)) by (destruct Hi; by split).
  assert (Ho' : is_open (Pipe.set_deadline d p)) by exact Ho.
  destruct (negb _ && _) eqn:Ea.
  - split; [|unfold deadline_inv; cbn; by intros ?%Hdn]. apply set_writer_inv; try done. cbn in Ea. intros _.
    destruct d; [done|]. destruct (Pipe.is_normal_end p); [|done]. by destruct (proj2 Hdn eq_refl).
  - destruct (Pipe.take_item true (Pipe.set_deadline d p)) as [p'|] eqn:Et.
    + split; [by eapply take_item_inv|]. unfold Pipe.take_item in Et. cbn in Et. destruct (Pipe.queue p); [done|].
      injection Et as <-. unfold deadline_inv. cbn. by intros ?%Hdn.
    + assert (Hnil : p.(Pipe.queue) = []) by (unfold Pipe.take_item in Et; cbn in Et; by destruct (Pipe.queue p)).
      cbn. destruct d as [t|].
      { exfalso. apply (draining_nonempty p Ho Hi); [by apply Hdn|done]. }
      split; [by apply set_writer_inv|]. unfold deadline_inv. cbn. by intros ?%Hdn.
Qed.

Lemma writer_act_inv a p p' :
  is_open p -> pipe_inv k p -> deadline_inv p -> Pipe.writer_act k a p = Some p' -> pipe_inv k p' /\ deadline_inv p'.
Proof.
  intros Ho Hi Hd H. unfold Pipe.writer_act in H.
  assert (Hset : forall w, w <> Pipe.w_closed Pipe.ended -> w <> Pipe.w_closed Pipe.drain_exhausted ->
            w <> Pipe.w_closed Pipe.abandoned -> pipe_inv k (Pipe.set_writer w p) /\ deadline_inv (Pipe.set_writer w p)).
  { intros w H1 H2 H3. split; [|done]. rewrite <- (set_deadline_same p) at 1. by apply set_writer_inv. }
  destruct (Pipe.writer p) as [|r| |why] eqn:Hw; destruct a as [| | | | | | | | | |got| | | |]; try done.
  - injection H as <-. by apply writer_turn_inv.
  - injection H as <-. unfold Pipe.client_took. split.
    + destruct Hi as [H1 H2 H3 H4 H5 H6 H7]. split; cbn; try done. unfold queue_shape in *. cbn.
      destruct (Pipe.is_normal_end p); [|by destruct H2 as [H2 _]].
      destruct H2 as [Hr [[_ Hc]|(bs & Hb & _)]]; [congruence|]. split; [done|]. right. by exists bs.
    + unfold deadline_inv in *. cbn. destruct r; [|done]. by destruct (Pipe.drain_deadline p); [intros _; apply Hd|].
  - injection H as <-. by apply Hset.
  - unfold Pipe.wait_returned in H. destruct got.
    + split; [by eapply take_item_inv|]. unfold Pipe.take_item in H. destruct (Pipe.queue p); [done|]. by injection H as <-.
    + destruct (_ || _); [|done]. injection H as <-. by apply Hset.
  - injection H as <-. by apply Hset.
Qed.

Lemma supervisor_act_inv a p p' :
  pipe_inv k p -> deadline_inv p -> Pipe.supervisor_act k a p = Some p' -> pipe_inv k p' /\ deadline_inv p'.
Proof.
  intros [H1 H2 H3 H4 H5 H6 H7] Hd H.
  assert (Hs : forall s, pipe_inv k (Pipe.set_supervisor s p) /\ deadline_inv (Pipe.set_supervisor s p)) by (intros s; by split).
  assert (Hv : pipe_inv k (Pipe.verdict k p) /\ deadline_inv (Pipe.verdict k p)).
  { unfold Pipe.verdict. destruct (Pipe._handover_in_progress k p); [apply Hs|]. by split. }
  unfold Pipe.supervisor_act in H. destruct (Pipe.supervisor p); destruct a; try done; injection H as <-.
  - destruct (Pipe._handover_in_progress k p); [by split|apply Hs].
  - unfold Pipe.after_status. destruct o as [| |[|]]; try apply Hs; [done|]. destruct (_ <=? _); apply Hs.
  - unfold Pipe.after_lease. destruct o as [| |[[|]|]]; try apply Hs. done.
Qed.

Lemma reader_deadline a p p' : deadline_inv p -> Pipe.reader_act k a p = Some p' -> deadline_inv p'.
Proof.
  intros Hd H. assert (Hc : forall b p, deadline_inv p -> deadline_inv (Pipe._read_channel k b p)).
  { intros b q Hq. destruct b; [|exact Hq]. unfold Pipe._read_channel, Pipe.put_or_fail, Pipe.put_nowait.
    destruct (_ <=? _)%nat; by intros ?. }
  assert (Hp : forall i r p, deadline_inv p -> deadline_inv (Pipe.put_or_fail k i r p)).
  { intros i r q Hq. unfold Pipe.put_or_fail, Pipe.put_nowait. by destruct (_ <=? _)%nat. }
  unfold Pipe.reader_act in H. destruct (Pipe.reader p); destruct a as [| | | | |bl|normally| | | | | | | |]; try done;
    try destruct normally; try done; injection H as <-; try exact Hd; try (by apply Hc).
  all: unfold Pipe._put_due_replay, Pipe._await_live_phase, Pipe._offer_live; repeat case_match_goal;
    first [exact Hd|by apply Hc|by apply Hp].
Qed.
End preserved.

(** Every state a session can be in. *)
Definition reachable (k : Pipe.Knobs) (p : Pipe.Pipe) : Prop := exists t, rtc (Pipe.step k) (Pipe.opened t) p.

Lemma step_inv k p p' : pipe_inv k p -> deadline_inv p -> Pipe.step k p p' -> pipe_inv k p' /\ deadline_inv p'.
Proof.
  intros Hi Hd [a H]. unfold Pipe.act in H. destruct (Pipe.is_closed p) eqn:Hc; [done|].
  assert (Ho : is_open p) by (intros why E; unfold Pipe.is_closed in Hc; by rewrite E in Hc).
  assert (Hr : Pipe.reader_act k a p = Some p' -> pipe_inv k p' /\ deadline_inv p')
    by (intros; split; [by eapply reader_act_inv|by eapply reader_deadline]).
  assert (Hw : Pipe.writer_act k a p = Some p' -> pipe_inv k p' /\ deadline_inv p') by (by apply writer_act_inv).
  assert (Hs : Pipe.supervisor_act k a p = Some p' -> pipe_inv k p' /\ deadline_inv p') by (by apply supervisor_act_inv).
  destruct a as [dt| | | | | | | | | | | | | |]; auto. destruct (Z.ltb_spec dt 0); [done|]. injection H as <-.
  destruct Hi as [H1 H2 H3 H4 H5 H6 H7]. split; [|done]. split; cbn; try done. lia.
Qed.

Lemma reachable_inv k p : reachable k p -> pipe_inv k p /\ deadline_inv p.
Proof.
  intros [t H]. eapply (rtc_ind_r (fun p => pipe_inv k p /\ deadline_inv p)); [| |exact H].
  - split; [apply opened_inv|by intros []].
  - intros x y _ Hs [H1 H2]. by eapply step_inv.
Qed.

(** ** What the client gets *)

(** C14: a client stream is handed over in order and without loss.  In every session,
    whatever the tasks, the clock and the client do: the client has been handed,
    in order and each once, a prefix of the blocks the reader queued; a stream
    that closes after the reader's normal end has handed over all of them, the
    terminal event included, because neither the supervisor's verdict nor the
    drain deadline ends it before the sentinel; and it is given up with blocks
    still queued only when the end was not normal or the client left. *)
Theorem stream_hands_over_everything k p :
  reachable k p ->
  p.(Pipe.handed) `prefix_of` p.(Pipe.put) /\
  match p.(Pipe.writer) with
  | Pipe.w_closed Pipe.ended => p.(Pipe.is_normal_end) = true /\ p.(Pipe.handed) = p.(Pipe.put)
  | Pipe.w_closed Pipe.abandoned => p.(Pipe.is_normal_end) = false
  | Pipe.w_closed Pipe.drain_exhausted => False
  | _ => True
  end.
Proof.
  intros [[H1 H2 H3 H4 H5 H6 H7] _]%reachable_inv. split; [by exists (queued_blocks p.(Pipe.queue))|].
  destruct (Pipe.writer p) as [| | |[]] eqn:Hw; try done; [|by apply H6].
  unfold queue_shape in H2. rewrite Hw in H2. destruct (Pipe.is_normal_end p); [|by destruct H2].
  destruct H2 as [_ [[Hq _]|(? & _ & ?)]]; [|done]. split; [done|]. rewrite <- H1, Hq. cbn. by rewrite app_nil_r.
Qed.

(** The reserved slot: the queue never holds more blocks than its ceiling, so the
    sentinel is never refused and the reader never dies of a full queue. *)
Theorem sentinel_always_fits k p i r :
  reachable k p -> (length (queued_blocks p.(Pipe.queue)) <= Pipe.ceiling k)%nat /\
  (Pipe.reader_done p = false -> (length p.(Pipe.queue) <= Pipe.ceiling k)%nat /\
     (Pipe.put_or_fail k i r p).(Pipe.reader) = r).
Proof.
  intros [Hi _]%reachable_inv. split; [apply (pi_bound _ _ Hi)|]. intros Hr.
  destruct (not_ended k p Hi (reader_going k p Hi Hr)) as (bs & _ & Hb & Hl). pose proof (pi_bound _ _ Hi) as Hc.
  rewrite Hb in Hc. split; [lia|]. unfold Pipe.put_or_fail, Pipe.put_nowait. by rewrite (proj2 (Nat.leb_gt _ _)) by lia.
Qed.

(** Only a client that has stopped is cut.  Where the reader gives up while it
    waits for room in the replay, or for the queue to fall to half before the
    live phase, the client has taken nothing for a whole budget; in the live phase it gives
    up only when a full ceiling of blocks is owed. *)
Theorem steady_client_not_cut k p a p' :
  reachable k p -> Pipe.act k a p = Some p' -> p.(Pipe.is_closing) = false -> p'.(Pipe.is_closing) = true ->
  match p.(Pipe.reader), a with
  | (Pipe.r_waiting _ _ | Pipe.r_settling _ _), Pipe.a_poll => Pipe.budget k <= p.(Pipe.now) - p.(Pipe.last_taken)
  | Pipe.r_live, Pipe.a_offer _ => (Pipe.ceiling k <= length p.(Pipe.queue))%nat
  | _, _ => True
  end.
Proof.
  intros [Hi _]%reachable_inv H Hc Hc'. pose proof (pi_reader _ _ Hi) as Hr. unfold reader_inv in Hr.
  unfold Pipe.act in H. destruct (Pipe.is_closed p); [done|].
  destruct (Pipe.reader p) eqn:Er; destruct a; try done; unfold Pipe.reader_act in H; rewrite Er in H; injection H as <-.
  - unfold Pipe._put_due_replay in Hc'. destruct (Nat.leb_spec (Pipe.ceiling k) (length p.(Pipe.queue))).
    + destruct (Z.leb_spec deadline p.(Pipe.now)); [|congruence]. specialize (Hr ltac:(lia)). lia.
    + unfold Pipe.put_or_fail, Pipe.put_nowait in Hc'. destruct (_ <=? _)%nat; cbn in Hc'; congruence.
  - unfold Pipe._await_live_phase in Hc'. destruct (_ <? _)%nat; [|cbn in Hc'; congruence].
    destruct (Nat.ltb_spec (length p.(Pipe.queue)) queued); [cbn in Hc'; congruence|].
    destruct (Z.leb_spec deadline p.(Pipe.now)); [|congruence]. destruct Hr as [H1 H2]. specialize (H2 ltac:(lia)). lia.
  - unfold Pipe._offer_live in Hc'. destruct (Nat.leb_spec (Pipe.ceiling k) (length p.(Pipe.queue))); [done|].
    destruct b; cbn [Pipe.queue] in Hc'; rewrite (proj2 (Nat.leb_gt _ _)) in Hc' by lia;
      unfold Pipe.put_or_fail, Pipe.put_nowait in Hc'; destruct (_ <=? _)%nat; cbn in Hc'; congruence.
Qed.

(** ** The stream closes *)

Definition of_writer (a : Pipe.Action) : Prop :=
  match a with Pipe.a_writer | Pipe.a_client | Pipe.a_wait _ => True | _ => False end.

Section closes.
Context (k : Pipe.Knobs).

Lemma run_cons a l p p1 p' :
  Pipe.act k a p = Some p1 -> Pipe.run_actions k l p1 = Some p' -> Pipe.run_actions k (a :: l) p = Some p'.
Proof. intros H1 H2. cbn. by rewrite H1. Qed.

(** From the top of the loop past a normal end: each block takes two steps. *)
Lemma drain_from_top bs : forall p,
  p.(Pipe.writer) = Pipe.w_top -> p.(Pipe.is_normal_end) = true ->
  p.(Pipe.queue) = (Pipe.item_block <$> bs) ++ [Pipe._END_OF_STREAM] ->
  exists l p', (length l = 2 * length bs + 1)%nat /\ Forall of_writer l /\ Pipe.run_actions k l p = Some p' /\
    p'.(Pipe.writer) = Pipe.w_closed Pipe.ended /\ p'.(Pipe.handed) = p.(Pipe.handed) ++ bs.
Proof.
  induction bs as [|b bs IH]; intros p Hw He Hq.
  - exists [Pipe.a_writer]. eexists. split; [done|]. split; [by repeat constructor|]. cbn. unfold Pipe.act, Pipe.is_closed.
    rewrite Hw. unfold Pipe.writer_act. rewrite Hw. split; [done|]. unfold Pipe.writer_turn. rewrite He.
    rewrite app_nil_r. destruct (Pipe.drain_deadline p) eqn:Ed; cbn; rewrite ?Ed; cbn; unfold Pipe.take_item; cbn; by rewrite Hq.
  - assert (exists p1, Pipe.act k Pipe.a_writer p = Some p1 /\ p1.(Pipe.writer) = Pipe.w_yielding true /\
      p1.(Pipe.is_normal_end) = true /\ p1.(Pipe.queue) = (Pipe.item_block <$> bs) ++ [Pipe._END_OF_STREAM] /\
      p1.(Pipe.handed) = p.(Pipe.handed) ++ [b]) as (p1 & H1 & Hw1 & He1 & Hq1 & Hh1).
    { eexists. unfold Pipe.act, Pipe.is_closed. rewrite Hw. unfold Pipe.writer_act. rewrite Hw. split; [done|].
      unfold Pipe.writer_turn. rewrite He.
      destruct (Pipe.drain_deadline p) eqn:Ed; cbn; rewrite ?Ed; cbn; unfold Pipe.take_item; cbn; by rewrite Hq. }
    assert (exists p2, Pipe.act k Pipe.a_client p1 = Some p2 /\ p2.(Pipe.writer) = Pipe.w_top /\
      p2.(Pipe.is_normal_end) = true /\ p2.(Pipe.queue) = p1.(Pipe.queue) /\ p2.(Pipe.handed) = p1.(Pipe.handed))
      as (p2 & H2 & Hw2 & He2 & Hq2 & Hh2).
    { eexists. unfold Pipe.act, Pipe.is_closed. rewrite Hw1. unfold Pipe.writer_act. rewrite Hw1. done. }
    destruct (IH p2 Hw2 He2 ltac:(congruence)) as (l & p' & Hl & Hf & Hr & Hc & Hh).
    exists (Pipe.a_writer :: Pipe.a_client :: l), p'. split_and!; [cbn; lia|by repeat constructor| |done|].
    + by eapply run_cons; [|eapply run_cons].
    + by rewrite Hh, Hh2, Hh1, <- app_assoc.
Qed.

(** From the top of the loop when the reader ended without its signal. *)
Lemma abandon_from_top p :
  p.(Pipe.writer) = Pipe.w_top -> p.(Pipe.drain_deadline) = None -> p.(Pipe.is_normal_end) = false ->
  Pipe.reader_done p = true ->
  Pipe.act k Pipe.a_writer p = Some (Pipe.set_writer (Pipe.w_closed Pipe.abandoned) p).
Proof.
  intros Hw Hd He Hr. unfold Pipe.act, Pipe.is_closed. rewrite Hw. unfold Pipe.writer_act. rewrite Hw.
  unfold Pipe.writer_turn. rewrite Hd, He, Hd. cbn. by rewrite Hr, orb_true_r.
Qed.

(** One step brings an open writer of a finished reader back to the top, or
    past the sentinel. *)
Lemma writer_returns p :
  pipe_inv k p -> deadline_inv p -> is_open p -> Pipe.reader_done p = true ->
  exists l p', (length l <= 1)%nat /\ Forall of_writer l /\ Pipe.run_actions k l p = Some p' /\
    p'.(Pipe.is_normal_end) = p.(Pipe.is_normal_end) /\ Pipe.reader_done p' = true /\
    (length p'.(Pipe.queue) <= length p.(Pipe.queue))%nat /\ p'.(Pipe.put) = p.(Pipe.put) /\
    pipe_inv k p' /\ deadline_inv p' /\
    (p'.(Pipe.writer) = Pipe.w_top \/ p'.(Pipe.writer) = Pipe.w_closed Pipe.ended).
Proof.
  intros Hi Hd Ho Hr.
  assert (Hstep : forall a p1, Pipe.act k a p = Some p1 -> pipe_inv k p1 /\ deadline_inv p1)
    by (intros a p1 H; by eapply step_inv; [| |exists a]).
  destruct (Pipe.writer p) as [|r| |why] eqn:Hw.
  - exists [], p. split_and!; first [done|cbn; lia|by left].
  - assert (H : Pipe.act k Pipe.a_client p = Some (Pipe.client_took k r p))
      by (unfold Pipe.act, Pipe.is_closed; rewrite Hw; unfold Pipe.writer_act; by rewrite Hw).
    destruct (Hstep _ _ H) as [H1 H2].
    exists [Pipe.a_client], (Pipe.client_took k r p). split_and!; first [done|by left|by repeat constructor|cbn; by rewrite H].
  - assert (H : Pipe.act k (Pipe.a_wait false) p = Some (Pipe.set_writer Pipe.w_top p)).
    { unfold Pipe.act, Pipe.is_closed; rewrite Hw; unfold Pipe.writer_act; rewrite Hw. cbn. by rewrite Hr. }
    destruct (Hstep _ _ H) as [H1 H2].
    exists [Pipe.a_wait false], (Pipe.set_writer Pipe.w_top p).
    split_and!; first [done|by left|by repeat constructor|cbn; by rewrite H].
  - by destruct (Ho why).
Qed.
End closes.

(** C15: no stream stays open and silent.  Once the reader has finished, normally, by
    its abnormal signal or by an exception, a client that keeps taking what it is
    handed sees the stream close within two steps per queued item and two more,
    without any help of the supervisor or the clock; after a normal end it has
    then been handed everything. *)
Theorem finished_reader_closes k p :
  reachable k p -> Pipe.reader_done p = true -> Pipe.is_closed p = false ->
  exists l p', (length l <= 2 * length p.(Pipe.queue) + 2)%nat /\ Forall of_writer l /\ Pipe.run_actions k l p = Some p' /\
    Pipe.is_closed p' = true /\ (p.(Pipe.is_normal_end) = true -> p'.(Pipe.handed) = p.(Pipe.put)).
Proof.
  intros [Hi Hd]%reachable_inv Hr Hc.
  assert (Ho : is_open p) by (intros why E; unfold Pipe.is_closed in Hc; by rewrite E in Hc).
  destruct (writer_returns k p Hi Hd Ho Hr) as (l & p1 & Hl & Hf & Hrun & He & Hr1 & Hq & Hput & Hi1 & Hd1 & Hw).
  pose proof (pi_shape _ _ Hi1) as Hs. unfold queue_shape in Hs.
  assert (Happ : forall l2 p2, Pipe.run_actions k l2 p1 = Some p2 -> Pipe.run_actions k (l ++ l2) p = Some p2).
  { clear -Hrun. revert p Hrun. induction l as [|a l IH]; intros p Hrun l2 p2 H; [by injection Hrun as ->|].
    cbn in Hrun |- *. destruct (Pipe.act k a p); [|done]. by apply IH. }
  destruct Hw as [Hw|Hw].
  - destruct (Pipe.is_normal_end p1) eqn:En.
    + destruct Hs as [_ [[_ ?]|(bs & Hb & _)]]; [congruence|].
      destruct (drain_from_top k bs p1 Hw En Hb) as (l2 & p2 & Hl2 & Hf2 & Hr2 & Hc2 & Hh).
      exists (l ++ l2), p2. rewrite Hb, length_app, length_fmap in Hq. cbn in Hq.
      split_and!; [rewrite length_app; lia|by apply Forall_app|by apply Happ|unfold Pipe.is_closed; by rewrite Hc2|].
      intros _. rewrite Hh, <- Hput, <- (pi_fifo _ _ Hi1), Hb, queued_blocks_app, queued_blocks_items. cbn. by rewrite app_nil_r.
    + assert (Pipe.drain_deadline p1 = None) as Hdn.
      { destruct (Pipe.drain_deadline p1) eqn:E; [|done]. unfold deadline_inv in Hd1. rewrite E, En in Hd1. by discriminate Hd1. }
      exists (l ++ [Pipe.a_writer]), (Pipe.set_writer (Pipe.w_closed Pipe.abandoned) p1).
      split_and!; [rewrite length_app; cbn; lia|apply Forall_app; by repeat constructor| |done|congruence].
      apply Happ. cbn. by rewrite abandon_from_top.
  - exists l, p1. split_and!; [lia|done|done|unfold Pipe.is_closed; by rewrite Hw|].
    intros Hen. rewrite <- Hput, <- (pi_fifo _ _ Hi1). rewrite He, Hen, Hw in Hs.
    destruct Hs as [_ [[-> _]|(? & _ & ?)]]; [|done]. cbn. by rewrite app_nil_r.
Qed.

(** ** A session *)

Definition demo_knobs : Pipe.Knobs := Pipe.mkKnobs 2 120000000 30000000.

Definition ev (n : Z) : Block := event_block "g" n "data: {}".

(** Three events pass through a queue of two while the status probe finds the
    run over. *)
Definition busy_actions : list Pipe.Action :=
  [Pipe.a_open; Pipe.a_put (ev 1); Pipe.a_poll; Pipe.a_put (ev 2); Pipe.a_poll; Pipe.a_put (ev 3); Pipe.a_poll;
   Pipe.a_writer; Pipe.a_tick 5; Pipe.a_client; Pipe.a_poll; Pipe.a_end true; Pipe.a_tick 200000000;
   Pipe.a_wake; Pipe.a_status (Pipe.probe_answer _ true)].

Definition busy : Pipe.Pipe := default (Pipe.opened 0) (Pipe.run_actions demo_knobs busy_actions (Pipe.opened 0)).

Lemma run_reachable k l : forall p p', reachable k p -> Pipe.run_actions k l p = Some p' -> reachable k p'.
Proof.
  induction l as [|a l IH]; intros p p' Hp H; [by injection H as <-|]. cbn in H.
  destruct (Pipe.act k a p) as [p1|] eqn:E; [|done]. apply (IH p1); [|done]. destruct Hp as [t Hp]. exists t.
  eapply rtc_r; [exact Hp|by exists a].
Qed.

Lemma busy_reachable : reachable demo_knobs busy.
Proof.
  apply (run_reachable _ busy_actions (Pipe.opened 0)); [by exists 0|]. vm_compute. reflexivity.
Qed.

(** The supervisor's verdict is in, and the stream is still handed over in full. *)
Definition busy_closed : Pipe.Pipe :=
  default busy (Pipe.run_actions demo_knobs [Pipe.a_writer; Pipe.a_client; Pipe.a_writer; Pipe.a_client; Pipe.a_writer] busy).

Lemma stream_hands_over_everything_witness :
  busy.(Pipe.is_closing) = true /\ busy_closed.(Pipe.writer) = Pipe.w_closed Pipe.ended /\
  busy_closed.(Pipe.handed) = [ev 1; ev 2; ev 3] /\ busy_closed.(Pipe.handed) = busy_closed.(Pipe.put).
Proof.
  assert (reachable demo_knobs busy_closed) as H.
  { apply (run_reachable _ [Pipe.a_writer; Pipe.a_client; Pipe.a_writer; Pipe.a_client; Pipe.a_writer] busy);
      [exact busy_reachable|vm_compute; reflexivity]. }
  assert (Pipe.writer busy_closed = Pipe.w_closed Pipe.ended) as Hw by (vm_compute; reflexivity).
  pose proof (stream_hands_over_everything demo_knobs busy_closed H) as [_ H2]. rewrite Hw in H2.
  split; [vm_compute; reflexivity|]. split; [exact Hw|]. split; [vm_compute; reflexivity|exact (proj2 H2)].
Defined.

Lemma finished_reader_closes_witness :
  exists l p', (length l <= 8)%nat /\ Forall of_writer l /\ Pipe.run_actions demo_knobs l busy = Some p' /\
    Pipe.is_closed p' = true /\ p'.(Pipe.handed) = [ev 1; ev 2; ev 3].
Proof.
  assert (Pipe.put busy = [ev 1; ev 2; ev 3]) as Hp by (vm_compute; reflexivity).
  assert (length busy.(Pipe.queue) = 3%nat) as Hq by (vm_compute; reflexivity).
  destruct (finished_reader_closes demo_knobs busy busy_reachable ltac:(vm_compute; reflexivity)
              ltac:(vm_compute; reflexivity)) as (l & p' & H1 & H2 & H3 & H4 & H5).
  rewrite Hq in H1. rewrite Hp in H5. exists l, p'. split; [exact H1|]. split; [exact H2|]. split; [exact H3|].
  split; [exact H4|]. apply H5. vm_compute. reflexivity.
Defined.

(** A client that takes nothing while the replay waits for room. *)
Definition stalled : Pipe.Pipe :=
  default (Pipe.opened 0) (Pipe.run_actions demo_knobs
    [Pipe.a_open; Pipe.a_put (ev 1); Pipe.a_poll; Pipe.a_put (ev 2); Pipe.a_poll; Pipe.a_put (ev 3); Pipe.a_tick 120000000]
    (Pipe.opened 0)).

Lemma steady_client_not_cut_witness :
  exists p', Pipe.act demo_knobs Pipe.a_poll stalled = Some p' /\ p'.(Pipe.is_closing) = true /\
    120000000 <= stalled.(Pipe.now) - stalled.(Pipe.last_taken).
Proof.
  assert (Pipe.reader stalled = Pipe.r_waiting (ev 3) 120000000) as Hr by (vm_compute; reflexivity).
  eexists. split; [vm_compute; reflexivity|]. split; [vm_compute; reflexivity|].
  assert (reachable demo_knobs stalled) as H.
  2: { pose proof (steady_client_not_cut demo_knobs stalled Pipe.a_poll _ H ltac:(vm_compute; reflexivity)
         ltac:(vm_compute; reflexivity) ltac:(vm_compute; reflexivity)) as H2. rewrite Hr in H2. exact H2. }
  apply (run_reachable _ [Pipe.a_open; Pipe.a_put (ev 1); Pipe.a_poll; Pipe.a_put (ev 2); Pipe.a_poll; Pipe.a_put (ev 3);
    Pipe.a_tick 120000000] (Pipe.opened 0)); [exists 0; apply rtc_refl|vm_compute; reflexivity].
Defined.
