(* ===== verification/AgentClient.v ===== *)
(** * Client operations on agent runs

    Models the request half of [src/app/agent_proxy/service.py]: [run],
    [resume] and its policy gate, [stop], [approval], [get_state] and
    [assert_run_owner], with the writes of the background consumer that are
    made through the service.  A request runs inside [session_scope]; [commit]
    inside it is the explicit commit of the source. *)

From Stdlib Require Import SpecFloat Ascii String.
From S2P Require Import Prelude PyVal Redaction Store AuditTrail Logic Fixtures Wallet WalletRun WalletSpec WalletRefine WalletInv.
From S2P Require Import Policy AgentRuns Usage Hermes AgentService AgentBilling.

Open Scope string_scope.
Open Scope list_scope.
Open Scope Z_scope.

Definition _DEBT_OUTSTANDING : string := "debt_outstanding".

Definition reason_str (r : BlockReason) : string :=
  match r with
  | trial_used_reason => "trial_used"
  | subscription_required => "subscription_required"
  | subscription_expired => "subscription_expired"
  | credits_empty => "credits_empty"
  | byok_disabled_reason => "byok_disabled"
  | byok_invalid_reason => "byok_invalid"
  | rate_limited => "rate_limited"
  | policy_denied => "policy_denied"
  | debt_outstanding => "debt_outstanding"
  | max_tokens => "max_tokens"
  end.

Inductive RunLaunchResult : Type :=
| launch_blocked (reason : option string)
| launched (run_id status : string).

Inductive RunResumeResult : Type :=
| resume_blocked (reason : option string)
| resumed_as (run_id continued_from : string).

Record RunStateView : Type := mkStateView {
  sv_run_id : string;
  sv_session_id : string;
  sv_status : ClientRunStatus;
  sv_result_text : string;
  sv_last_tool : option string;
  sv_pending_approval : option json;
  sv_block_reason : option string;
  sv_input_tokens : Z;
  sv_output_tokens : Z;
  sv_updated_at : instant;
  sv_continued_from : option string
}.

(** The gate that [run] and [resume] share: the credits policy, then the debt;
    [phase] is what the audit row says.  [None] lets the request through. *)
Definition credits_gate (phase : string) (u : uuid) : M (option (option string)) :=
  state ← load_policy_state u;
  let decision := evaluate state mode_credits in
  if negb decision.(allow) then
    let reason := reason_str <$> decision.(block_reason) in
    record (mkAuditEvent u None EVENT_AGENT_RUN [("phase", JStr phase); ("blockReason", jopt_str reason)]);;
    mret (Some reason)
  else
    s ← settings;
    if s.(agent_debt_reconcile_enabled) then
      debt ← current_debt u;
      if 0 <? debt then
        record (mkAuditEvent u None EVENT_AGENT_RUN
          [("phase", JStr phase); ("blockReason", JStr _DEBT_OUTSTANDING); ("debt", JInt debt)]);;
        mret (Some (Some _DEBT_OUTSTANDING))
      else mret None
    else mret None.

Definition _resume_policy_block (u : uuid) : M (option (option string)) := credits_gate "resumed" u.

Definition assert_run_owner (u : uuid) (run_id : string) : M unit :=
  run ← Runs.get run_id;
  match run with
  | Some r => if N.eqb r.(ar_user_id) u then mret tt else raise (NotFoundError "run not found")
  | None => raise (NotFoundError "run not found")
  end.

Definition get_state (u : uuid) (run_id : string) : M RunStateView :=
  run ← Runs.get run_id;
  match run with
  | Some r =>
      if N.eqb r.(ar_user_id) u then
        snapshot ← Snapshots.get run_id u;
        let pending_approval := t ← snapshot; sn_pending_approval t in
        let status := map_client_status r.(ar_status) (bool_decide (is_Some pending_approval)) in
        mret (mkStateView run_id r.(ar_session_id) status
          (match snapshot with Some t => t.(sn_result_text) | None => "" end)
          (t ← snapshot; sn_last_tool t) pending_approval
          (match status with cs_paused => r.(ar_paused_reason) | _ => None end)
          (match snapshot with Some t => t.(sn_input_tokens) | None => 0 end)
          (match snapshot with Some t => t.(sn_output_tokens) | None => 0 end)
          (match snapshot with Some t => t.(sn_updated_at) | None => r.(ar_updated_at) end)
          r.(ar_continued_from))
      else raise (NotFoundError "run not found")
  | None => raise (NotFoundError "run not found")
  end.

Definition prepare_consumer_snapshot (u : uuid) (run_id : string) : M unit :=
  Snapshots.ensure_row run_id u;; commit.

Definition record_consumer_event (u : uuid) (run_id event_type : string) : M unit :=
  record (mkAuditEvent u None event_type [("runId", JStr run_id)]);; commit.

Section client.
Context (hermes : Hermes).

Definition approval (u : uuid) (run_id : string) (body : dict) : M dict :=
  assert_run_owner u run_id;;
  result ← _passthrough_post hermes u ("/v1/runs/" ++ run_id ++ "/approval")%string (Some body);
  Snapshots.clear_pending_approval run_id u;;
  mret result.

Definition stop (u : uuid) (run_id : string) : M dict :=
  assert_run_owner u run_id;;
  result ← _interrupt_run hermes u run_id;
  Runs.mark_stopped run_id u;;
  mret result.

Definition opt_field (k : string) (v : option string) : dict :=
  match v with Some s => [(k, JStr s)] | None => [] end.

(** [session_id or str(uuid.uuid4())]: an empty id counts as none. *)
Definition effective_session (session_id : option string) : M string :=
  match session_id with
  | Some s => if Str.nonempty s then mret s else u ← gen_random_uuid; mret (uuid_str u)
  | None => u ← gen_random_uuid; mret (uuid_str u)
  end.

Definition run (u : uuid) (message : string) (session_id model : option string) : M RunLaunchResult :=
  blocked ← credits_gate "blocked" u;
  match blocked with
  | Some reason => mret (launch_blocked reason)
  | None =>
      deadline ← _budget_deadline;
      _ensure_running hermes u;;
      sid ← effective_session session_id;
      q ← _launch_run hermes u ([("input", JStr message); ("session_id", JStr sid)] ++ opt_field "model" model) deadline;
      let '(run_id, status) := q in
      Runs.create_running run_id u sid model None run_running;;
      record (mkAuditEvent u None EVENT_AGENT_RUN
        [("phase", JStr "launched"); ("runId", JStr run_id); ("status", JStr status)]);;
      commit;;
      mret (launched run_id status)
  end.

(** Wake, hydrate and launch, with the compare-and-set undone on any failure. *)
Definition launch_continuation (u : uuid) (run_id : string) (message : option string) (session_id : string)
    (model : option string) : M (string * string) :=
  try_except (
    deadline ← _budget_deadline;
    _ensure_running hermes u;;
    history ← _fetch_session_transcript hermes u session_id deadline;
    _launch_run hermes u ([("session_id", JStr session_id)] ++ opt_field "input" message ++ opt_field "model" model
                            ++ [("conversation_history", JArr history)]) deadline)
    (fun x => Some (Runs.revert_cas run_id;; commit;; raise x)).

Definition resume (u : uuid) (run_id : string) (message : option string) : M RunResumeResult :=
  row ← Runs.get run_id;
  match row with
  | None => raise (NotFoundError "run not found")
  | Some r =>
      if negb (N.eqb r.(ar_user_id) u) then raise (NotFoundError "run not found")
      else if negb (bool_decide (r.(ar_status) = run_paused) || bool_decide (r.(ar_status) = run_resumed))
      then raise (RunNotResumableError "run is not resumable")
      else
        blocked ← _resume_policy_block u;
        match blocked with
        | Some reason => mret (resume_blocked reason)
        | None =>
            cas ← Runs.cas_resume run_id;
            match cas with
            | None =>
                child ← Runs.active_child run_id;
                match child with
                | Some c => mret (resumed_as c.1 run_id)
                | None => raise (ResumeInProgressError "resume in progress")
                end
            | Some (session_id, model) =>
                commit;;
                q ← launch_continuation u run_id message session_id model;
                let '(new_run_id, status) := q in
                Runs.create_running new_run_id u session_id model (Some run_id) run_running;;
                record (mkAuditEvent u None EVENT_AGENT_RUN
                  [("phase", JStr "resumed"); ("runId", JStr new_run_id); ("continuedFrom", JStr run_id);
                   ("status", JStr status)]);;
                commit;;
                mret (resumed_as new_run_id run_id)
            end
        end
  end.
End client.

(** ** Ownership *)

Definition owns (d : Db) (u : uuid) (run_id : string) : Prop :=
  exists r, d.(agent_runs) !! run_id = Some r /\ r.(ar_user_id) = u.

Lemma not_owned d u run_id :
  ~ owns d u run_id ->
  match d.(agent_runs) !! run_id with Some r => N.eqb r.(ar_user_id) u = false | None => True end.
Proof.
  intros Hn. destruct (d.(agent_runs) !! run_id) as [r|] eqn:E; [|done].
  apply N.eqb_neq. intros <-. apply Hn. by exists r.
Qed.

Lemma assert_run_owner_foreign e w u run_id :
  ~ owns w.(w_db) u run_id -> assert_run_owner u run_id e w = (inl (NotFoundError "run not found"), w).
Proof.
  intros Hn%not_owned. unfold assert_run_owner. run by done. destruct (_ !! _); [by rewrite Hn|done].
Qed.

(** Another user's run is invisible.  For a run that does not exist or
    belongs to someone else, [stop], [approval], [resume] and [get_state] all
    answer the same [NotFoundError], whatever the instance would have said,
    and nothing changes: no statement is issued, nothing reaches the instance
    and not even a clock is read. *)
Theorem foreign_run_invisible hermes e w u run_id body message :
  ~ owns w.(w_db) u run_id ->
  let gone {A} : (exn + A) * World := (inl (NotFoundError "run not found"), w) in
  stop hermes u run_id e w = gone /\ approval hermes u run_id body e w = gone /\
  resume hermes u run_id message e w = gone /\ get_state u run_id e w = gone.
Proof.
  intros Hn. pose proof (assert_run_owner_foreign e w u run_id Hn) as Ho. apply not_owned in Hn. cbv zeta. split_and!.
  - unfold stop. by fails by exact Ho.
  - unfold approval. by fails by exact Ho.
  - unfold resume. run by done. destruct (_ !! _); [by rewrite Hn|done].
  - unfold get_state. run by done. destruct (_ !! _); [by rewrite Hn|done].
Qed.

Lemma foreign_run_invisible_witness :
  let w := run_world run_running in
  let gone {A} : (exn + A) * World := (inl (NotFoundError "run not found"), w) in
  stop demo_hermes bob "r1" demo_env w = gone /\ approval demo_hermes bob "r1" [] demo_env w = gone /\
  resume demo_hermes bob "r1" None demo_env w = gone /\ get_state bob "r1" demo_env w = gone.
Proof.
  apply (foreign_run_invisible demo_hermes demo_env (run_world run_running) bob "r1" [] None).
  intros (r & Hr & Hu). vm_compute in Hr. injection Hr as <-. discriminate Hu.
Defined.

(** ** The gate *)

(** For a user, the gate answers, touches no run and moves no money. *)
Lemma credits_gate_run phase u e w :
  user_exists w.(w_db) u = true ->
  exists r w', credits_gate phase u e w = (inr r, w') /\ w'.(w_db).(agent_runs) = w.(w_db).(agent_runs) /\
    w'.(w_db).(users) = w.(w_db).(users) /\ same_accounts w.(w_db) w'.(w_db) /\ w'.(w_committed) = w.(w_committed) /\
    (r = None -> w'.(w_db) = w.(w_db)).
Proof.
  intros Hu. destruct (load_policy_state_total u e w) as (s & w1 & Hs & Hd & Hc & _).
  assert (Hrec : forall ev, ev.(ev_user_id) = u -> ev.(ev_session_id) = None -> ev.(ev_event_type) = EVENT_AGENT_RUN ->
    exists w', record ev e w1 = (inr tt, w') /\ w'.(w_db).(agent_runs) = w.(w_db).(agent_runs) /\
      w'.(w_db).(users) = w.(w_db).(users) /\ same_accounts w.(w_db) w'.(w_db) /\ w'.(w_committed) = w.(w_committed)).
  { intros ev H1 H2 H3. eexists. split; [apply record_run; rewrite ?H1, ?H2, ?Hd; done|]. cbn. rewrite Hd.
    split_and!; try done. intros v. apply account_add_neutral, neutral_event_type; cbn; by rewrite H3. }
  unfold credits_gate. run by exact Hs. destruct (negb _).
  { destruct (Hrec (mkAuditEvent u None EVENT_AGENT_RUN
      [("phase", JStr phase); ("blockReason", jopt_str (reason_str <$> block_reason (evaluate s mode_credits)))]))
      as (w2 & H & Hrest); [done..|]. eexists _, w2. split; [by run by exact H|]. naive_solver. }
  run by done. destruct (agent_debt_reconcile_enabled _).
  2: { eexists _, w1. split; [done|]. rewrite Hd. by split_and!. }
  run by done. destruct (0 <? _).
  - destruct (Hrec (mkAuditEvent u None EVENT_AGENT_RUN
      [("phase", JStr phase); ("blockReason", JStr _DEBT_OUTSTANDING); ("debt", JInt (wallet_debt w1.(w_db) u))]))
      as (w2 & H & Hrest); [done..|]. eexists _, w2. split; [by run by exact H|]. naive_solver.
  - eexists _, w1. split; [done|]. rewrite Hd. by split_and!.
Qed.

(** ** Resume *)

Lemma launch_continuation_run hermes u run_id message sid model e w r :
  w.(w_db).(agent_runs) !! run_id = Some r -> r.(ar_status) = run_resumed -> Runs.child_of w.(w_db) run_id = None ->
  w.(w_committed) = w.(w_db) ->
  let '(q, w') := launch_continuation hermes u run_id message sid model e w in
  w'.(w_committed) = w'.(w_db) /\
  match q with
  | inr _ => w'.(w_db) = w.(w_db)
  | inl _ => w'.(w_db) = put_run run_id (with_status run_paused e.(env_pg_now) r) w.(w_db)
  end.
Proof.
  intros Hr Hs Hch Hc. unfold launch_continuation, try_except.
  set (m := (deadline ← _budget_deadline; _)).
  assert (Hq : quiet m).
  { subst m. apply quiet_bind; [auto with hermes|intros deadline]. apply quiet_bind; [auto with hermes|intros _].
    apply quiet_bind; [auto with hermes|intros history]. auto with hermes. }
  destruct (Hq e w) as [H1 H2]. destruct (m e w) as [[x|q] w1]; cbn [snd] in H1, H2; [|by rewrite H1, H2].
  assert (Hrev : Runs.revert_cas run_id e w1 =
            (inr 1, with_db (put_run run_id (with_status run_paused e.(env_pg_now) r) w.(w_db)) w1)).
  { unfold Runs.revert_cas. run by done. by rewrite H1, Hch, update_run_run, H1, Hr, Hs. }
  by run by exact Hrev.
Qed.

Lemma child_of_ext d k r r' parent :
  d.(agent_runs) !! k = Some r -> r'.(ar_continued_from) = r.(ar_continued_from) ->
  Runs.child_of d parent = None -> Runs.child_of (put_run k r' d) parent = None.
Proof.
  intros Hr Hp Hn. unfold Runs.child_of in *. rewrite find_first_None in Hn |- *.
  intros [k' x] Hin%elem_of_map_to_list. cbn in Hin |- *. apply lookup_insert_Some in Hin as [[<- <-]|[Hne Hin]].
  - rewrite Hp. apply (Hn (k, r)). by apply elem_of_map_to_list.
  - apply (Hn (k', x)). by apply elem_of_map_to_list.
Qed.

Record resume_fact (u : uuid) (run_id : string) (w : World) (res : exn + RunResumeResult) (w' : World) : Prop :=
  mkResumeFact {
    re_money : same_accounts w.(w_db) w'.(w_db);
    re_runs : match res with
              | inr (resume_blocked _) => w'.(w_db).(agent_runs) = w.(w_db).(agent_runs)
              | inr (resumed_as k p) =>
                  p = run_id /\ (ar_status <$> w'.(w_db).(agent_runs) !! run_id) = Some run_resumed /\
                  (w.(w_db).(agent_runs) !! k = None ->
                   exists c, w'.(w_db).(agent_runs) !! k = Some c /\ c.(ar_status) = run_running /\
                             c.(ar_user_id) = u /\ c.(ar_continued_from) = Some run_id)
              | inl _ => (ar_status <$> w'.(w_db).(agent_runs) !! run_id) = Some run_paused /\
                         w'.(w_committed) = w'.(w_db)
              end
  }.

(** Chaining the continuation and recording it cannot fail for a user whose
    run exists. *)
Lemma chain_child_run e w u k sid model run_id r payload :
  user_exists w.(w_db) u = true -> w.(w_db).(agent_runs) !! run_id = Some r ->
  exists w', (Runs.create_running k u sid model (Some run_id) run_running;;
              record (mkAuditEvent u None EVENT_AGENT_RUN payload);; commit;; mret (resumed_as k run_id)) e w =
             (inr (resumed_as k run_id), w') /\
    same_accounts w.(w_db) w'.(w_db) /\ w'.(w_db).(agent_runs) !! run_id = Some r /\
    (w.(w_db).(agent_runs) !! k = None ->
     exists c, w'.(w_db).(agent_runs) !! k = Some c /\ c.(ar_status) = run_running /\ c.(ar_user_id) = u /\
               c.(ar_continued_from) = Some run_id).
Proof.
  intros Hu Hr.
  assert (Hrec : forall w1, user_exists w1.(w_db) u = true -> exists w',
    (record (mkAuditEvent u None EVENT_AGENT_RUN payload);; commit;; mret (resumed_as k run_id)) e w1 =
      (inr (resumed_as k run_id), w') /\ same_accounts w1.(w_db) w'.(w_db) /\
    w'.(w_db).(agent_runs) = w1.(w_db).(agent_runs)).
  { intros w1 H1. eexists. split; [by run by (by apply record_run)|]. split; [|done].
    intros v. by apply account_add_neutral, neutral_event_type. }
  unfold Runs.create_running. destruct (w.(w_db).(agent_runs) !! k) as [c|] eqn:Hk.
  - destruct (Hrec w Hu) as (w' & H & Ha & Hg). exists w'. split.
    { erewrite bind_inr; [exact H|]. run by done. by rewrite Hk. }
    split; [done|]. rewrite Hg. split; [done|]. congruence.
  - set (c := mkAgentRun u sid run_running 0 0 None (Some run_id) model e.(env_pg_now) e.(env_pg_now)).
    destruct (Hrec (with_db (put_run k c w.(w_db)) w) Hu) as (w' & H & Ha & Hg). exists w'. split.
    { erewrite bind_inr; [exact H|]. run by done. rewrite Hk, Hu. run by done. rewrite Hr. by run by done. }
    split; [exact Ha|]. rewrite Hg. cbn. split.
    + rewrite lookup_insert_ne; [done|]. intros ->. congruence.
    + intros _. exists c. by rewrite lookup_insert_eq.
Qed.


(** A paused run of Alice's, with an active subscription and credits; the
    instance refuses every request. *)
Definition subscribed (w : World) : World :=
  let d := set_subscriptions {[ alice := mkSubscription sub_active None None ]} w.(w_db) in
  mkWorld d d w.(w_uuids) w.(w_ticks) w.(w_seq) w.(w_metrics) w.(w_host).
Definition paused_world : World :=
  subscribed (session_scope (grant alice 5 "purchase-1" [] "purchase") demo_env (run_world run_paused)).2.
Definition broken_hermes : Hermes :=
  mkHermes (fun _ => None) (fun _ _ _ => other_transport) (fun _ _ => other_transport) (fun _ _ _ => other_transport).

