(* ===== verification/Orphans.v ===== *)
(** * The orphan sweep

    Models [sweep_orphan_runs] of [src/app/agent_proxy/consumer.py] and the
    short background sessions of [src/app/hermes_runtime/reaper.py]: a session
    per operation that is never committed on exit.  What Redis answers is the
    parameter [Bus]; [age_json] renders the rounded heartbeat age for the audit
    row. *)

From Stdlib Require Import SpecFloat Ascii String.
From S2P Require Import Prelude PyVal Redaction Store AuditTrail Logic Fixtures Wallet WalletRun WalletSpec WalletRefine WalletInv.
From S2P Require Import Policy AgentRuns Usage Hermes AgentService AgentBilling AgentClient.

Open Scope string_scope.
Open Scope list_scope.
Open Scope Z_scope.

(** [_background_services]: whatever was not committed is gone when the session
    closes, also after a success. *)
Definition background_services {A} (m : M A) : M A := fun e w =>
  let '(r, w') := m e w in (r, with_db w'.(w_committed) w').

(** [None] is a Redis that did not answer. *)
Record Bus : Type := mkBus {
  uptime_seconds : option Z;
  lease_alive : string -> option bool
}.

Section sweep.
Context (bus : Bus) (age_json : Z -> json).

Definition finalize_candidate (row : Runs.OrphanCandidate) : M unit :=
  background_services (finalize_orphan_run row.(Runs.oc_user_id) row.(Runs.oc_run_id)
    row.(Runs.oc_input_tokens) row.(Runs.oc_output_tokens) row.(Runs.oc_snapshot_present)
    (age_json row.(Runs.oc_heartbeat_age))).

Fixpoint sweep_candidates (rows : list Runs.OrphanCandidate) (finalized : Z) : M Z :=
  match rows with
  | [] => mret finalized
  | row :: rest =>
      if bool_decide (bus.(lease_alive) row.(Runs.oc_run_id) = Some false) then
        ok ← try_except (finalize_candidate row;; mret 1)
               (fun x => if is_SQLAlchemyError x then Some (mret 0) else None);
        sweep_candidates rest (finalized + ok)
      else sweep_candidates rest finalized
  end.

Definition sweep_orphan_runs : M Z :=
  s ← settings;
  match bus.(uptime_seconds) with
  | None => mret 0
  | Some uptime =>
      if uptime <? s.(agent_run_orphan_redis_grace_seconds) then mret 0
      else
        rows ← background_services
                 (Runs.list_orphan_candidates s.(agent_run_orphan_timeout_seconds) s.(agent_run_orphan_max_per_tick));
        sweep_candidates rows 0
  end.
End sweep.

(** ** Invariants of the sweep *)

Lemma keeps_background I {A} (m : M A) : keeps I I m -> keeps I I (background_services m).
Proof.
  intros Hm e w Hw. specialize (Hm e w Hw). unfold background_services. destruct (m e w) as [r w'].
  destruct Hm as [H _]. done.
Qed.

(** A background session recovers from any exception. *)
Lemma background_sound I {A} (m : M A) e w :
  keeps I I m -> sound I I w -> sound I I (background_services m e w).2.
Proof.
  intros Hm Hw. specialize (Hm e w Hw). unfold background_services, sound. destruct (m e w) as [r w'].
  destruct Hm as [H _]. done.
Qed.

Lemma keeps_list_candidates I J t n : keeps I J (Runs.list_orphan_candidates t n).
Proof. unfold Runs.list_orphan_candidates. keeps_walk. Qed.

Lemma sweep_candidates_sound (I : Db -> Prop) bus age rows : forall n e w,
  (forall row, row ∈ rows -> bus.(lease_alive) row.(Runs.oc_run_id) = Some false ->
     keeps I I (finalize_orphan_run row.(Runs.oc_user_id) row.(Runs.oc_run_id) row.(Runs.oc_input_tokens)
       row.(Runs.oc_output_tokens) row.(Runs.oc_snapshot_present) (age row.(Runs.oc_heartbeat_age)))) ->
  sound I I w -> sound I I (sweep_candidates bus age rows n e w).2.
Proof.
  induction rows as [|row rest IH]; intros n e w Hk Hw; [done|]. cbn [sweep_candidates].
  case_bool_decide as Hl.
  2: { apply IH; [|done]. intros r Hr. apply Hk. by right. }
  pose proof (background_sound I _ e w (Hk row (list_elem_of_here _ _) Hl) Hw) as Hf.
  unfold try_except, finalize_candidate, mbind, M_bind.
  destruct (background_services _ e w) as [[x|a] w1]; cbn [snd] in Hf.
  - destruct (is_SQLAlchemyError x); [|done]. cbn. apply IH; [|done]. intros r Hr. apply Hk. by right.
  - cbn. apply IH; [|done]. intros r Hr. apply Hk. by right.
Qed.

Lemma sweep_sound (I : Db -> Prop) bus age e w :
  (forall u k i o p h, bus.(lease_alive) k = Some false -> keeps I I (finalize_orphan_run u k i o p h)) ->
  sound I I w -> sound I I (sweep_orphan_runs bus age e w).2.
Proof.
  intros Hk Hw. unfold sweep_orphan_runs. run by done.
  destruct (uptime_seconds bus) as [up|]; [|done]. destruct (up <? _); [done|].
  pose proof (background_sound I _ e w (keeps_list_candidates I I e.(env_settings).(agent_run_orphan_timeout_seconds)
                e.(env_settings).(agent_run_orphan_max_per_tick)) Hw) as Hf.
  unfold mbind, M_bind. destruct (background_services _ e w) as [[x|rows] w1]; [done|].
  apply sweep_candidates_sound; [|done]. intros row _ Hl. by apply Hk.
Qed.

(** ** Other runs *)

(** The row and the snapshot of one run. *)
Definition run_is (k : string) (r : option AgentRun) (t : option AgentRunSnapshot) (d : Db) : Prop :=
  d.(agent_runs) !! k = r /\ d.(agent_run_snapshots) !! k = t.

Lemma keeps_run_consume k r t J u amount key meta sid : keeps (run_is k r t) J (consume u amount key meta sid).
Proof.
  unfold consume, _validate_session, _ensure_wallet, consume_rest, _consume_incremental_clamp,
    _agent_reconcile_applies, _consume_agent_with_debt, clamp_statement, consume_full, _debit_in_savepoint,
    insert_ledger, update_wallet, _existing_tx, _current_balance, record.
  keeps_walk.
Qed.

Lemma keeps_run_record k r t J ev : keeps (run_is k r t) J (record ev).
Proof. unfold record. keeps_walk. Qed.

#[export] Hint Resolve keeps_run_consume keeps_run_record keeps_list_candidates : hermes.

Lemma keeps_run_finalize k r t u k' i o p h :
  k' <> k -> keeps (run_is k r t) (run_is k r t) (finalize_orphan_run u k' i o p h).
Proof.
  intros Hne. unfold finalize_orphan_run, _mark_terminal, Runs.mark_status, Runs.update_run, _record_insufficient. keeps_walk.
  apply keeps_or_rollback. keeps_walk. unfold run_is, put_run in *. cbn. by rewrite lookup_insert_ne.
Qed.

(** The sweep fails closed.  While Redis does not answer or has not been up
    for the grace period, a sweep finalizes nobody and changes nothing at all. *)
Theorem sweep_fails_closed bus age e w :
  (forall s, e.(env_settings).(agent_run_orphan_redis_grace_seconds) <= s -> bus.(uptime_seconds) <> Some s) ->
  sweep_orphan_runs bus age e w = (inr 0, w).
Proof.
  intros Hup. unfold sweep_orphan_runs. run by done. destruct (uptime_seconds bus) as [up|]; [|done].
  destruct (up <? _) eqn:E; [done|]. zify_bool. by destruct (Hup up E).
Qed.

Lemma sweep_fails_closed_witness :
  sweep_orphan_runs (mkBus (Some 10) (fun _ => Some false)) JInt demo_env (run_world run_running) =
  (inr 0, run_world run_running).
Proof.
  apply (sweep_fails_closed (mkBus (Some 10) (fun _ => Some false)) JInt demo_env (run_world run_running)).
  intros s Hs [= <-]. vm_compute in Hs. by apply Hs.
Defined.

(** The sweep spares live runs.  A run whose lease is alive, or about which
    Redis did not answer, keeps its row and its snapshot through any sweep,
    whatever else the sweep finalizes or trips over. *)
Theorem sweep_spares_live_runs bus age e w k :
  bus.(lease_alive) k <> Some false -> w.(w_committed) = w.(w_db) ->
  let w' := (sweep_orphan_runs bus age e w).2 in
  w'.(w_db).(agent_runs) !! k = w.(w_db).(agent_runs) !! k /\
  w'.(w_committed).(agent_runs) !! k = w.(w_db).(agent_runs) !! k /\
  w'.(w_committed).(agent_run_snapshots) !! k = w.(w_db).(agent_run_snapshots) !! k.
Proof.
  intros Hl Hc. cbv zeta.
  set (I := run_is k (w.(w_db).(agent_runs) !! k) (w.(w_db).(agent_run_snapshots) !! k)).
  assert (Hw : sound I I w) by (split; rewrite ?Hc; by split).
  destruct (sweep_sound I bus age e w) as [[H1 _] [H2 H3]]; [|done|done].
  intros u k' i o p h Hk'. apply keeps_run_finalize. congruence.
Qed.

Lemma sweep_spares_live_runs_witness :
  let w' := (sweep_orphan_runs (mkBus (Some 9999) (fun _ => None)) JInt demo_env (run_world run_running)).2 in
  w'.(w_db).(agent_runs) !! "r1" = Some (demo_run run_running) /\
  w'.(w_committed).(agent_runs) !! "r1" = Some (demo_run run_running) /\
  w'.(w_committed).(agent_run_snapshots) !! "r1" = Some demo_snapshot.
Proof.
  apply (sweep_spares_live_runs (mkBus (Some 9999) (fun _ => None)) JInt demo_env (run_world run_running) "r1").
  - discriminate.
  - reflexivity.
Defined.

(** ** A resumed parent *)

(** The same settings an hour later. *)
Definition later_env : Env :=
  mkEnv billing_settings (fun n => N.of_nat (1000 + n)) (fun _ => 1700003600000000) (fun n => 1000000 * Z.of_nat n)
    1700003600000000 (Some "req-2").

(** The run that was paused at zero, after a purchase of 50 credits and a resume. *)
Definition topped_up : World :=
  subscribed (session_scope (grant alice 50 "purchase-2" [] "purchase") billing_env (relayed 3 paused_blocks).2).2.
Definition after_resume : World :=
  (session_scope (resume demo_hermes alice "r1" None) billing_env topped_up).2.

(** The consumer of the parent stopped at the pause; that of the child is alive. *)
Definition after_sweep : World :=
  (sweep_orphan_runs (mkBus (Some 9999) (fun k => Some (String.eqb k "r2"))) JInt later_env after_resume).2.

Definition status_of (k : string) (w : World) : option agent_run_status := ar_status <$> w.(w_committed).(agent_runs) !! k.

(** A resumed parent does not stay resumed.  The documentation says that
    its row keeps the status [resumed] for good, but the sweep takes it for an
    orphan: it becomes failed, and what the pause left unpaid is charged to the
    credits bought afterwards. *)
Theorem resumed_parent_is_swept :
  status_of "r1" after_resume = Some run_resumed /\ status_of "r2" after_resume = Some run_running /\
  status_of "r1" after_sweep = Some run_failed /\ status_of "r2" after_sweep = Some run_running /\
  wallet_balance after_resume.(w_committed) alice = 50 /\ wallet_balance after_sweep.(w_committed) alice = 48.
Proof. vm_compute. done. Qed.
