(* ===== verification/Consumer.v ===== *)
(** * The background consumer of a run

    Models [src/app/agent_proxy/consumer.py] (the orphan sweep is [Orphans]) and
    the operations of the agent service that only the consumer calls: the
    beacon, the liveness rule, the working task, the supervisor, the task group
    around them and the self-termination procedure, for one run.

    The two tasks and whoever shuts the process down take turns: a step of the
    machine is what one task does between two [await]s, and a label says which
    task moved and what the outside world answered.  The keys of the run in
    Redis and the database are part of the state.  A database operation is one
    step: a cancellation comes before or after it. *)

From Stdlib Require Import SpecFloat Ascii String.
From S2P Require Import Prelude PyVal Redaction Store AuditTrail Logic Fixtures Wallet WalletRun WalletSpec WalletRefine WalletInv.
From S2P Require Import Policy ChatTools Website Instances Manager AgentRuns Usage Sse Hermes AgentService AgentBilling Ring AgentClient Orphans.

Open Scope string_scope.
Open Scope list_scope.
Open Scope Z_scope.

(** ** Settings

    Instants and periods of the process are in microseconds; the settings are in
    seconds, those that are floats in microseconds. *)

Record ConsumerSettings : Type := mkConsumerSettings {
  agent_run_max_duration_seconds : Z;
  agent_run_consumer_lease_ttl_seconds : Z;
  agent_run_consumer_lease_renew_seconds : Z;
  agent_run_consumer_heartbeat_seconds : Z;
  agent_run_upstream_tcp_keepidle_seconds : Z;
  agent_run_upstream_tcp_keepintvl_seconds : Z;
  agent_run_upstream_tcp_keepcnt : Z;
  agent_run_processing_stall_seconds : Z;
  agent_run_first_byte_stall_seconds : Z;
  agent_run_event_buffer_max : Z;
  agent_run_event_buffer_max_bytes : Z;
  agent_run_event_buffer_ttl_seconds : Z;
  agent_run_subscriber_queue_max : Z;
  agent_run_downstream_idle_timeout_seconds : Z;
  agent_run_orphan_timeout_seconds : Z;
  agent_run_orphan_max_per_tick : Z;
  agent_run_orphan_redis_grace_seconds : Z;
  agent_run_handshake_timeout_us : Z;
  agent_run_shutdown_drain_us : Z;
  agent_run_subscriber_probe_us : Z;
  agent_run_subscriber_drain_us : Z;
  agent_run_redis_db : Z;
  (** the path of [REDIS_URL], unless the URL cannot be parsed *)
  redis_url_path : option string
}.

Definition seconds (s : Z) : Z := s * 1000000.

Fixpoint lstrip_slash (s : string) : string :=
  match s with String "/" rest => lstrip_slash rest | _ => s end.

(** [_redis_url_db]: the logical database a URL names, 0 by default. *)
Definition _redis_url_db (path : option string) : option Z :=
  match path with
  | None => None
  | Some p =>
      let segment := lstrip_slash p in
      if negb (Str.nonempty segment) then Some 0
      else if Str.isdigit segment then Some (Str.int_of_digits segment) else None
  end.

Definition positive_settings (s : ConsumerSettings) : list (string * Z) :=
  [("AGENT_RUN_CONSUMER_LEASE_TTL_SECONDS", s.(agent_run_consumer_lease_ttl_seconds));
   ("AGENT_RUN_CONSUMER_LEASE_RENEW_SECONDS", s.(agent_run_consumer_lease_renew_seconds));
   ("AGENT_RUN_CONSUMER_HEARTBEAT_SECONDS", s.(agent_run_consumer_heartbeat_seconds));
   ("AGENT_RUN_UPSTREAM_TCP_KEEPIDLE_SECONDS", s.(agent_run_upstream_tcp_keepidle_seconds));
   ("AGENT_RUN_UPSTREAM_TCP_KEEPINTVL_SECONDS", s.(agent_run_upstream_tcp_keepintvl_seconds));
   ("AGENT_RUN_UPSTREAM_TCP_KEEPCNT", s.(agent_run_upstream_tcp_keepcnt));
   ("AGENT_RUN_PROCESSING_STALL_SECONDS", s.(agent_run_processing_stall_seconds));
   ("AGENT_RUN_FIRST_BYTE_STALL_SECONDS", s.(agent_run_first_byte_stall_seconds));
   ("AGENT_RUN_EVENT_BUFFER_MAX", s.(agent_run_event_buffer_max));
   ("AGENT_RUN_EVENT_BUFFER_MAX_BYTES", s.(agent_run_event_buffer_max_bytes));
   ("AGENT_RUN_EVENT_BUFFER_TTL_SECONDS", s.(agent_run_event_buffer_ttl_seconds));
   ("AGENT_RUN_SUBSCRIBER_QUEUE_MAX", s.(agent_run_subscriber_queue_max));
   ("AGENT_RUN_DOWNSTREAM_IDLE_TIMEOUT_SECONDS", s.(agent_run_downstream_idle_timeout_seconds));
   ("AGENT_RUN_ORPHAN_TIMEOUT_SECONDS", s.(agent_run_orphan_timeout_seconds));
   ("AGENT_RUN_ORPHAN_MAX_PER_TICK", s.(agent_run_orphan_max_per_tick));
   ("AGENT_RUN_ORPHAN_REDIS_GRACE_SECONDS", s.(agent_run_orphan_redis_grace_seconds))].

(** The first setting that is refused at start-up. *)
Definition _validate_agent_run_consumer_invariants (s : ConsumerSettings) : option string :=
  if s.(agent_run_max_duration_seconds) <=? 0 then Some "AGENT_RUN_MAX_DURATION_SECONDS"
  else if s.(agent_run_handshake_timeout_us) <=? 0 then Some "AGENT_RUN_HANDSHAKE_TIMEOUT_SECONDS"
  else if s.(agent_run_shutdown_drain_us) <=? 0 then Some "AGENT_RUN_SHUTDOWN_DRAIN_SECONDS"
  else if s.(agent_run_subscriber_probe_us) <=? 0 then Some "AGENT_RUN_SUBSCRIBER_PROBE_SECONDS"
  else if s.(agent_run_subscriber_drain_us) <=? 0 then Some "AGENT_RUN_SUBSCRIBER_DRAIN_SECONDS"
  else match find_first (fun kv : string * Z => kv.2 <=? 0) (positive_settings s) with
  | Some (name, _) => Some name
  | None =>
      if s.(agent_run_consumer_lease_ttl_seconds) <=? s.(agent_run_consumer_lease_renew_seconds)
      then Some "AGENT_RUN_CONSUMER_LEASE_RENEW_SECONDS"
      else if s.(agent_run_orphan_timeout_seconds) <=? s.(agent_run_consumer_heartbeat_seconds)
      then Some "AGENT_RUN_CONSUMER_HEARTBEAT_SECONDS"
      else if s.(agent_run_orphan_redis_grace_seconds) <=? s.(agent_run_consumer_lease_renew_seconds)
      then Some "AGENT_RUN_ORPHAN_REDIS_GRACE_SECONDS"
      else if s.(agent_run_redis_db) <? 0 then Some "AGENT_RUN_REDIS_DB"
      else match _redis_url_db s.(redis_url_path) with
           | Some main => if main =? s.(agent_run_redis_db) then Some "AGENT_RUN_REDIS_DB" else None
           | None => None
           end
  end.

(** ** The beacon *)

Inductive BeaconState : Set := BEACON_CONNECTING | BEACON_AWAITING_UPSTREAM | BEACON_PROCESSING.

#[global] Instance BeaconState_eq_dec : EqDecision BeaconState.
Proof. solve_decision. Defined.

Record ConsumerBeacon : Type := mkBeacon {
  be_state : BeaconState;
  be_since : Z;
  be_bytes_read : Z;
  be_last_published_seq : Z;
  be_transitions : Z
}.

Definition new_beacon (now : Z) : ConsumerBeacon := mkBeacon BEACON_CONNECTING now 0 0 0.

(** Declaring the same state again does not move [since]. *)
Definition set_state (now : Z) (s : BeaconState) (b : ConsumerBeacon) : ConsumerBeacon :=
  if bool_decide (b.(be_state) = s) then b
  else mkBeacon s now b.(be_bytes_read) b.(be_last_published_seq) (b.(be_transitions) + 1).

Definition note_bytes (now count : Z) (b : ConsumerBeacon) : ConsumerBeacon :=
  let b := if (0 <? count) && (b.(be_bytes_read) =? 0) then set_state now BEACON_AWAITING_UPSTREAM b else b in
  mkBeacon b.(be_state) b.(be_since) (b.(be_bytes_read) + count) b.(be_last_published_seq) b.(be_transitions).

Definition saw_first_byte (b : ConsumerBeacon) : bool := 0 <? b.(be_bytes_read).

(** [if seq is not None: beacon.last_published_seq = seq] *)
Definition note_seq (seq : option Z) (b : ConsumerBeacon) : ConsumerBeacon :=
  match seq with
  | Some n => mkBeacon b.(be_state) b.(be_since) b.(be_bytes_read) n b.(be_transitions)
  | None => b
  end.

(** ** The liveness rule *)

Record _ProgressWindow : Type := mkWindow { pw_bytes_read : Z; pw_published_seq : Z; pw_transitions : Z; pw_at : Z }.

Definition window_of (now : Z) (b : ConsumerBeacon) : _ProgressWindow :=
  mkWindow b.(be_bytes_read) b.(be_last_published_seq) b.(be_transitions) now.

Definition advanced (w : _ProgressWindow) (b : ConsumerBeacon) : bool :=
  (w.(pw_bytes_read) <? b.(be_bytes_read)) || (w.(pw_published_seq) <? b.(be_last_published_seq)).

Definition _SPIN_TRANSITIONS : Z := 4.

Definition stall_threshold (s : ConsumerSettings) (b : ConsumerBeacon) : Z :=
  if bool_decide (b.(be_state) = BEACON_CONNECTING) && negb (saw_first_byte b)
  then seconds s.(agent_run_first_byte_stall_seconds) else seconds s.(agent_run_processing_stall_seconds).

Definition is_stalled (s : ConsumerSettings) (now : Z) (b : ConsumerBeacon) (w : _ProgressWindow) : bool :=
  match b.(be_state) with
  | BEACON_PROCESSING | BEACON_CONNECTING => stall_threshold s b <=? now - b.(be_since)
  | BEACON_AWAITING_UPSTREAM =>
      negb (advanced w b) && (_SPIN_TRANSITIONS <=? b.(be_transitions) - w.(pw_transitions)) &&
      (seconds s.(agent_run_processing_stall_seconds) <=? now - w.(pw_at))
  end.

(** The socket options of the upstream subscription on a platform that defines
    the given TCP options. *)
Definition keepalive_socket_options (s : ConsumerSettings) (defines : string -> bool) : list (string * Z) :=
  ("SO_KEEPALIVE", 1) ::
  List.filter (fun kv => defines kv.1)
    [("TCP_KEEPIDLE", s.(agent_run_upstream_tcp_keepidle_seconds)); ("TCP_KEEPINTVL", s.(agent_run_upstream_tcp_keepintvl_seconds));
     ("TCP_KEEPCNT", s.(agent_run_upstream_tcp_keepcnt))].

(** ** The handshake *)

Record SubscriptionHandshake : Type := mkHandshake { hk_done : bool; hk_established : bool }.

Definition new_handshake : SubscriptionHandshake := mkHandshake false false.
Definition mark_established (h : SubscriptionHandshake) : SubscriptionHandshake := mkHandshake true true.
Definition mark_failed (h : SubscriptionHandshake) : SubscriptionHandshake := mkHandshake true h.(hk_established).

(** [wait]: what the caller is told when it is resumed, by the event or by the
    time-out. *)
Definition handshake_wait (timed_out : bool) (h : SubscriptionHandshake) : bool :=
  if negb h.(hk_done) && timed_out then false else h.(hk_established).

(** ** The service operations of the consumer *)

Definition consumer_heartbeat (u : uuid) (run_id : string) : M bool :=
  stamped ← Snapshots.touch_consumer_heartbeat run_id;
  Manager.touch_active u;;
  commit;;
  mret (0 <? stamped).

Definition flush_run_snapshot (run : RunProcessing) : M RelayState :=
  _flush_snapshot run.(rp_user_id) run.(rp_run_id) run.(rp_state) true true.

Definition EVENT_CONSUMER_FAILED : string := "agent_run_consumer_failed".
Definition EVENT_CONSUMER_DISCONNECTED : string := "agent_run_consumer_disconnected".
Definition EVENT_CONSUMER_MAX_DURATION : string := "agent_run_consumer_max_duration".
Definition EVENT_CONSUMER_STALLED : string := "agent_run_consumer_stalled".
Definition EVENT_CONSUMER_SHUTDOWN : string := "agent_run_consumer_shutdown".

(** ** The state of one consumer *)

(** What an [await] of the stream returned. *)
Inductive Received : Type := chunk (bytes : string) | closed | transport_error.

(** How the working task ended. *)
Inductive WorkerEnd : Type :=
| we_outcome (audit_event : option string) (terminal_seen : bool)
| we_subscription_error
| we_raised (x : exn)
| we_cancelled.

(** Where the working task waits.  [todo] are the blocks of the last chunk that
    are still to be handled, [eof] that the stream has ended after them. *)
Record Reader : Type := mkReader {
  rd_todo : list (SseEvent * string);
  rd_buffer : string;
  rd_eof : bool;
  rd_terminal_seen : bool
}.

Inductive WorkerPc : Type :=
| w_start
| w_subscribe
| w_read (buffer : string) (terminal_seen : bool)
| w_publish (block : SseEvent) (raw : string) (rd : Reader)
| w_process (block : SseEvent) (rd : Reader)
| w_publish_paused (paused : PausedBlock)
| w_ended (how : WorkerEnd).

Inductive SupervisorEnd : Type := se_verdict (audit_event : option string) | se_raised (x : exn) | se_cancelled.

Inductive SupervisorPc : Type :=
| s_waiting (window : _ProgressWindow) (wake_at : Z)
| s_renewing (window : _ProgressWindow)
| s_generation (window : _ProgressWindow)
| s_beating (window : _ProgressWindow)
| s_ended (how : SupervisorEnd).

(** [run_consumer] itself; [reraise] says that the task ends with an exception. *)
Inductive Phase : Type :=
| p_lease
| p_epoch
| p_snapshot
| p_running
| p_flush (audit_event : option string) (reraise : bool)
| p_release (audit_event : option string) (reraise : bool)
| p_audit (audit_event : string) (reraise : bool)
| p_done (reraise : bool)
| p_skipped
| p_cancelled.

Record Consumer : Type := mkConsumer {
  co_now : Z;
  co_phase : Phase;
  co_worker : WorkerPc;
  co_supervisor : SupervisorPc;
  co_beacon : ConsumerBeacon;
  co_epoch : string;
  co_started_at : Z;
  co_processing : option RunProcessing;
  co_handshake : SubscriptionHandshake;
  co_keys : RunKeys;
  co_world : World
}.

(** The circumstances of a step: the clocks, whether Redis answers, the uuid
    that is drawn, the environment of the database operations. *)
Record Moment : Type := mkMoment {
  mo_now : Z;
  mo_redis_now : Z;
  mo_reachable : bool;
  mo_fresh : string;
  mo_env : Env
}.

Inductive Label : Type :=
| l_consumer (m : Moment)
| l_flush (m : Moment) (timed_out : bool)
| l_worker (m : Moment)
| l_response (m : Moment) (status : option Z)
| l_receive (m : Moment) (what : Received)
| l_process (m : Moment) (left_behind : RunProcessing)
| l_supervisor (m : Moment)
| l_shutdown (m : Moment).

Definition with_phase (p : Phase) (c : Consumer) : Consumer :=
  mkConsumer c.(co_now) p c.(co_worker) c.(co_supervisor) c.(co_beacon) c.(co_epoch) c.(co_started_at) c.(co_processing)
    c.(co_handshake) c.(co_keys) c.(co_world).
Definition with_worker (p : WorkerPc) (c : Consumer) : Consumer :=
  mkConsumer c.(co_now) c.(co_phase) p c.(co_supervisor) c.(co_beacon) c.(co_epoch) c.(co_started_at) c.(co_processing)
    c.(co_handshake) c.(co_keys) c.(co_world).
Definition with_supervisor (p : SupervisorPc) (c : Consumer) : Consumer :=
  mkConsumer c.(co_now) c.(co_phase) c.(co_worker) p c.(co_beacon) c.(co_epoch) c.(co_started_at) c.(co_processing)
    c.(co_handshake) c.(co_keys) c.(co_world).
Definition with_beacon (b : ConsumerBeacon) (c : Consumer) : Consumer :=
  mkConsumer c.(co_now) c.(co_phase) c.(co_worker) c.(co_supervisor) b c.(co_epoch) c.(co_started_at) c.(co_processing)
    c.(co_handshake) c.(co_keys) c.(co_world).
Definition with_epoch (e : string) (c : Consumer) : Consumer :=
  mkConsumer c.(co_now) c.(co_phase) c.(co_worker) c.(co_supervisor) c.(co_beacon) e c.(co_started_at) c.(co_processing)
    c.(co_handshake) c.(co_keys) c.(co_world).
Definition with_processing (r : option RunProcessing) (c : Consumer) : Consumer :=
  mkConsumer c.(co_now) c.(co_phase) c.(co_worker) c.(co_supervisor) c.(co_beacon) c.(co_epoch) c.(co_started_at) r
    c.(co_handshake) c.(co_keys) c.(co_world).
Definition with_handshake (h : SubscriptionHandshake) (c : Consumer) : Consumer :=
  mkConsumer c.(co_now) c.(co_phase) c.(co_worker) c.(co_supervisor) c.(co_beacon) c.(co_epoch) c.(co_started_at) c.(co_processing)
    h c.(co_keys) c.(co_world).
Definition with_keys (k : RunKeys) (c : Consumer) : Consumer :=
  mkConsumer c.(co_now) c.(co_phase) c.(co_worker) c.(co_supervisor) c.(co_beacon) c.(co_epoch) c.(co_started_at) c.(co_processing)
    c.(co_handshake) k c.(co_world).
Definition with_world (w : World) (c : Consumer) : Consumer :=
  mkConsumer c.(co_now) c.(co_phase) c.(co_worker) c.(co_supervisor) c.(co_beacon) c.(co_epoch) c.(co_started_at) c.(co_processing)
    c.(co_handshake) c.(co_keys) w.

(** What the consumer of a run is started with. *)
Definition new_consumer (now : Z) (k : RunKeys) (w : World) : Consumer :=
  mkConsumer now p_lease w_start (s_ended se_cancelled) (new_beacon now) "" now None new_handshake k w.

Definition at_time (now : Z) (c : Consumer) : Consumer :=
  mkConsumer now c.(co_phase) c.(co_worker) c.(co_supervisor) c.(co_beacon) c.(co_epoch) c.(co_started_at) c.(co_processing)
    c.(co_handshake) c.(co_keys) c.(co_world).

(** Run a database operation in a session of its own. *)
Definition in_session {A} (m : Moment) (op : M A) (c : Consumer) : (exn + A) * Consumer :=
  let '(r, w) := background_services op m.(mo_env) c.(co_world) in (r, with_world w c).

Section consumer.
Context (cs : ConsumerSettings) (hermes : Hermes).
(** [bytes.decode], [json.loads], [json.dumps] of a document, and [json.dumps]
    of a block of bytes decoded with [surrogateescape]. *)
Context (decode : string -> option string) (loads : string -> option json) (dumps : json -> string)
        (_encode_data : string -> string).
Context (u : uuid) (run_id : string) (owner : string).

Definition ring_ttl_ms : Z := cs.(agent_run_event_buffer_ttl_seconds) * 1000.
Definition lease_ttl_ms : Z := cs.(agent_run_consumer_lease_ttl_seconds) * 1000.
Definition interval : Z := seconds cs.(agent_run_consumer_lease_renew_seconds).

(** The synthetic terminal block of a pause. *)
Definition paused_bytes (p : PausedBlock) : string :=
  ("data: " ++ dumps (JObj
     [("event", JStr "run.paused"); ("run_id", JStr p.(pb_run_id)); ("reason", JStr _REASON_CREDITS_EXHAUSTED);
      ("status", JStr "paused"); ("output", JStr p.(pb_output)); ("steps", JArr (JObj <$> p.(pb_steps)));
      ("billed", JInt p.(pb_billed)); ("balance", JInt 0);
      ("usage", JObj [("cumulative_input_tokens", JInt p.(pb_input_tokens));
                      ("cumulative_output_tokens", JInt p.(pb_output_tokens))])]) ++ separator)%string.

(** [await bus.publish(run_id, epoch=ctx.epoch, raw=raw)] and the beacon. *)
Definition publish_raw (m : Moment) (raw : string) (c : Consumer) : Consumer :=
  let '(r, k) := publish cs.(agent_run_event_buffer_max) cs.(agent_run_event_buffer_max_bytes) ring_ttl_ms
                   m.(mo_reachable) m.(mo_redis_now) c.(co_epoch) (_encode_data raw) c.(co_keys) in
  with_keys k (with_beacon (note_seq (fst <$> r) c.(co_beacon)) c).

(** ** The working task *)

Definition stream_block (b : string) : SseEvent * string := (_parse_sse_block decode loads b, (b ++ separator)%string).

(** On to the next block, to the next read, or to the end of the stream. *)
Definition proceed (now : Z) (rd : Reader) (c : Consumer) : Consumer :=
  match rd.(rd_todo) with
  | (block, raw) :: todo =>
      with_worker (w_publish block raw (mkReader todo rd.(rd_buffer) rd.(rd_eof) rd.(rd_terminal_seen)))
        (with_beacon (set_state now BEACON_PROCESSING c.(co_beacon)) c)
  | [] =>
      if rd.(rd_eof)
      then with_worker (w_ended (we_outcome (if rd.(rd_terminal_seen) then None else Some EVENT_CONSUMER_DISCONNECTED)
                                   rd.(rd_terminal_seen))) c
      else with_worker (w_read rd.(rd_buffer) rd.(rd_terminal_seen)) c
  end.

Definition worker_start (m : Moment) (c : Consumer) : Consumer :=
  match in_session m (new_run_processing u run_id) c with
  | (inr run, c) =>
      with_worker w_subscribe (with_processing (Some run) (with_beacon (set_state m.(mo_now) BEACON_CONNECTING c.(co_beacon)) c))
  | (inl x, c) => with_worker (w_ended (we_raised x)) c
  end.

(** Anything but a 2xx, or no answer at all, spends the subscription. *)
Definition worker_subscribe (status : option Z) (c : Consumer) : Consumer :=
  match status with
  | Some code =>
      if (200 <=? code) && (code <? 300)
      then with_worker (w_read "" false) (with_handshake (mark_established c.(co_handshake)) c)
      else with_worker (w_ended we_subscription_error) c
  | None => with_worker (w_ended we_subscription_error) c
  end.

Definition worker_receive (m : Moment) (buffer : string) (terminal_seen : bool) (what : Received) (c : Consumer) : Consumer :=
  match what with
  | chunk bytes =>
      let '(blocks, rest) := blocks_of (buffer ++ bytes)%string in
      proceed m.(mo_now) (mkReader (stream_block <$> blocks) rest false terminal_seen)
        (with_beacon (note_bytes m.(mo_now) (Z.of_nat (String.length bytes)) c.(co_beacon)) c)
  | closed =>
      proceed m.(mo_now)
        (mkReader (if blank buffer then [] else [(_parse_sse_block decode loads buffer, buffer)]) "" true terminal_seen) c
  | transport_error => with_worker (w_ended we_subscription_error) c
  end.

(** What is left of the run in memory when its handler raises. *)
Definition left_over (run behind : RunProcessing) : RunProcessing :=
  mkProcessing run.(rp_user_id) run.(rp_run_id) run.(rp_incremental) behind.(rp_charged) behind.(rp_billed) behind.(rp_state).

Definition worker_process (m : Moment) (behind : RunProcessing) (run : RunProcessing) (block : SseEvent) (rd : Reader)
    (c : Consumer) : Consumer :=
  match in_session m (process_event hermes run block) c with
  | (inl x, c) => with_worker (w_ended (we_raised x)) (with_processing (Some (left_over run behind)) c)
  | (inr (run', Some paused), c) => with_worker (w_publish_paused paused) (with_processing (Some run') c)
  | (inr (run', None), c) =>
      let rd := mkReader rd.(rd_todo) rd.(rd_buffer) rd.(rd_eof) (rd.(rd_terminal_seen) || is_terminal_event block) in
      proceed m.(mo_now) rd
        (with_processing (Some run') (with_beacon (set_state m.(mo_now) BEACON_AWAITING_UPSTREAM c.(co_beacon)) c))
  end.

(** ** The supervisor *)

Definition cancel_worker (c : Consumer) : Consumer :=
  match c.(co_worker) with w_ended _ => c | _ => with_worker (w_ended we_cancelled) c end.

Definition worker_done (c : Consumer) : bool := match c.(co_worker) with w_ended _ => true | _ => false end.

(** The wait for the worker returns: it has ended, or the period is over. *)
Definition supervisor_wake (m : Moment) (window : _ProgressWindow) (c : Consumer) : Consumer :=
  let now := m.(mo_now) in
  if worker_done c then with_supervisor (s_ended (se_verdict None)) c
  else if seconds cs.(agent_run_max_duration_seconds) <=? now - c.(co_started_at)
  then with_supervisor (s_ended (se_verdict (Some EVENT_CONSUMER_MAX_DURATION))) (cancel_worker c)
  else if is_stalled cs now c.(co_beacon) window
  then with_supervisor (s_ended (se_verdict (Some EVENT_CONSUMER_STALLED))) (cancel_worker c)
  else with_supervisor (s_renewing (if advanced window c.(co_beacon) then window_of now c.(co_beacon) else window)) c.

Definition supervisor_renew (m : Moment) (window : _ProgressWindow) (c : Consumer) : Consumer :=
  let '(renewal, k) := renew_lease lease_ttl_ms m.(mo_reachable) m.(mo_redis_now) owner c.(co_keys) in
  let c := with_keys k c in
  match renewal with
  | LOST => with_supervisor (s_ended (se_verdict (Some EVENT_CONSUMER_SHUTDOWN))) (cancel_worker c)
  | RENEWED | REACQUIRED | RENEW_UNKNOWN => with_supervisor (s_generation window) c
  end.

Definition supervisor_generation (m : Moment) (window : _ProgressWindow) (c : Consumer) : Consumer :=
  let '(fresh, k) := ensure_epoch ring_ttl_ms m.(mo_reachable) m.(mo_redis_now) m.(mo_fresh) c.(co_keys) in
  with_supervisor (s_beating window) (with_epoch (default c.(co_epoch) fresh) (with_keys k c)).

(** A heartbeat that fails in the database is not fatal. *)
Definition supervisor_beat (m : Moment) (window : _ProgressWindow) (c : Consumer) : Consumer :=
  match in_session m (consumer_heartbeat u run_id) c with
  | (inr _, c) => with_supervisor (s_waiting window (m.(mo_now) + interval)) c
  | (inl x, c) =>
      if is_SQLAlchemyError x then with_supervisor (s_waiting window (m.(mo_now) + interval)) c
      else with_supervisor (s_ended (se_raised x)) c
  end.

(** ** The task group *)

Definition cancel_supervisor (c : Consumer) : Consumer :=
  match c.(co_supervisor) with s_ended _ => c | _ => with_supervisor (s_ended se_cancelled) c end.

(** A task that dies takes the other one with it. *)
Definition abort (c : Consumer) : Consumer :=
  let c := match c.(co_worker) with
           | w_ended (we_subscription_error | we_raised _) => cancel_supervisor c
           | _ => c
           end in
  match c.(co_supervisor) with s_ended (se_raised _) => cancel_worker c | _ => c end.

(** [a or b] on the audit event. *)
Definition or_event (a b : option string) : option string := match a with Some e => Some e | None => b end.

(** The audit event of an exception that ends the consumer, and whether it goes on. *)
Definition failure (x : exn) : option string * bool := (Some EVENT_CONSUMER_FAILED, negb (is_SQLAlchemyError x)).

Definition ending (w : WorkerEnd) (s : SupervisorEnd) : option string * bool :=
  match w, s with
  | we_subscription_error, _ => (Some EVENT_CONSUMER_FAILED, false)
  | we_raised x, _ => failure x
  | _, se_raised x => failure x
  | we_outcome audit _, se_verdict v => (or_event v audit, false)
  | we_cancelled, se_verdict v => (or_event v (Some EVENT_CONSUMER_SHUTDOWN), false)
  | _, se_cancelled => (Some EVENT_CONSUMER_SHUTDOWN, false)
  end.

(** ** Self-termination *)

(** The first thing [_finalize] does is to release whoever waits; the flush
    comes next when the worker got as far as its processing state. *)
Definition finalize (e : option string * bool) (c : Consumer) : Consumer :=
  with_phase (match c.(co_processing) with Some _ => p_flush e.1 e.2 | None => p_release e.1 e.2 end)
    (with_handshake (mark_failed c.(co_handshake)) c).

(** Leave the group when both tasks have ended. *)
Definition join (c : Consumer) : Consumer :=
  match c.(co_worker), c.(co_supervisor) with
  | w_ended w, s_ended s => finalize (ending w s) c
  | _, _ => c
  end.

Definition group (c : Consumer) : Consumer := join (abort c).

(** Time-bounded and best-effort: what it cannot write is lost. *)
Definition finalize_flush (m : Moment) (timed_out : bool) (audit : option string) (reraise : bool) (c : Consumer) : Consumer :=
  let c := match c.(co_processing) with
           | Some run => if timed_out then c else (in_session m (flush_run_snapshot run) c).2
           | None => c
           end in
  with_phase (p_release audit reraise) c.

Definition finalize_release (m : Moment) (audit : option string) (reraise : bool) (c : Consumer) : Consumer :=
  let c := with_keys (release_lease m.(mo_reachable) m.(mo_redis_now) owner c.(co_keys)) c in
  with_phase (match audit with Some event => p_audit event reraise | None => p_done reraise end) c.

Definition finalize_audit (m : Moment) (event : string) (reraise : bool) (c : Consumer) : Consumer :=
  match in_session m (record_consumer_event u run_id event) c with
  | (inr _, c) => with_phase (p_done reraise) c
  | (inl x, c) => with_phase (p_done (reraise || negb (is_SQLAlchemyError x))) c
  end.

(** ** [run_consumer] *)

Definition consumer_lease (m : Moment) (c : Consumer) : Consumer :=
  let '(acquisition, k) := acquire_lease lease_ttl_ms m.(mo_reachable) m.(mo_redis_now) owner c.(co_keys) in
  let c := with_keys k c in
  match acquisition with
  | HELD_ELSEWHERE => with_phase p_skipped (with_handshake (mark_failed c.(co_handshake)) c)
  | ACQUIRED | ACQUIRE_UNKNOWN => with_phase p_epoch c
  end.

(** Without Redis the consumer starts with a generation of its own. *)
Definition consumer_epoch (m : Moment) (c : Consumer) : Consumer :=
  let '(fresh, k) := ensure_epoch ring_ttl_ms m.(mo_reachable) m.(mo_redis_now) m.(mo_fresh) c.(co_keys) in
  mkConsumer c.(co_now) p_snapshot w_start (s_ended se_cancelled) (new_beacon m.(mo_now)) (default m.(mo_fresh) fresh)
    m.(mo_now) None c.(co_handshake) k c.(co_world).

Definition consumer_snapshot (m : Moment) (c : Consumer) : Consumer :=
  match in_session m (prepare_consumer_snapshot u run_id) c with
  | (inr _, c) =>
      with_phase p_running (with_supervisor (s_waiting (window_of m.(mo_now) c.(co_beacon)) (m.(mo_now) + interval)) c)
  | (inl x, c) => finalize (failure x) c
  end.

(** The process shuts down: before the group there is nothing to undo, inside it
    both tasks are cancelled, and in [_finalize] the cancellation goes through. *)
Definition shutdown (c : Consumer) : option Consumer :=
  match c.(co_phase) with
  | p_lease | p_epoch | p_flush _ _ | p_release _ _ | p_audit _ _ => Some (with_phase p_cancelled c)
  | p_snapshot => Some (finalize (Some EVENT_CONSUMER_SHUTDOWN, false) c)
  | p_running => Some (group (cancel_supervisor (cancel_worker c)))
  | p_done _ | p_skipped | p_cancelled => None
  end.

Definition moment_of (l : Label) : Moment :=
  match l with
  | l_consumer m | l_flush m _ | l_worker m | l_response m _ | l_receive m _ | l_process m _ | l_supervisor m | l_shutdown m => m
  end.

(** One step of a task that is able to take it. *)
Definition act (l : Label) (c : Consumer) : option Consumer :=
  match l, c.(co_phase) with
  | l_shutdown m, _ => shutdown c
  | l_consumer m, p_lease => Some (consumer_lease m c)
  | l_consumer m, p_epoch => Some (consumer_epoch m c)
  | l_consumer m, p_snapshot => Some (consumer_snapshot m c)
  | l_flush m timed_out, p_flush audit reraise => Some (finalize_flush m timed_out audit reraise c)
  | l_consumer m, p_release audit reraise => Some (finalize_release m audit reraise c)
  | l_consumer m, p_audit event reraise => Some (finalize_audit m event reraise c)
  | l_supervisor m, p_running =>
      match c.(co_supervisor) with
      | s_waiting window wake_at =>
          if worker_done c || (wake_at <=? m.(mo_now)) then Some (group (supervisor_wake m window c)) else None
      | s_renewing window => Some (group (supervisor_renew m window c))
      | s_generation window => Some (supervisor_generation m window c)
      | s_beating window => Some (group (supervisor_beat m window c))
      | s_ended _ => None
      end
  | l_worker m, p_running =>
      match c.(co_worker) with
      | w_start => Some (group (worker_start m c))
      | w_publish block raw rd => Some (with_worker (w_process block rd) (publish_raw m raw c))
      | w_publish_paused paused => Some (group (with_worker (w_ended (we_outcome None true)) (publish_raw m (paused_bytes paused) c)))
      | _ => None
      end
  | l_response m status, p_running =>
      match c.(co_worker) with w_subscribe => Some (group (worker_subscribe status c)) | _ => None end
  | l_receive m what, p_running =>
      match c.(co_worker) with
      | w_read buffer terminal_seen => Some (group (worker_receive m buffer terminal_seen what c))
      | _ => None
      end
  | l_process m behind, p_running =>
      match c.(co_worker), c.(co_processing) with
      | w_process block rd, Some run => Some (group (worker_process m behind run block rd c))
      | _, _ => None
      end
  | _, _ => None
  end.

(** The clock of the process does not go back. *)
Definition step (l : Label) (c : Consumer) : option Consumer :=
  let now := (moment_of l).(mo_now) in
  if now <? c.(co_now) then None else act l (at_time now c).

Fixpoint steps (c : Consumer) (trace : list Label) : option Consumer :=
  match trace with
  | [] => Some c
  | l :: rest => match step l c with Some c' => steps c' rest | None => None end
  end.
End consumer.

(** ** The registry of the process

    Tasks are numbered as they are created; a task that has ended stays in the
    dictionary until its callback removes it. *)

Record Task : Type := mkTask { tk_run_id : string; tk_done : bool }.

Record ConsumerRegistry : Type := mkRegistry {
  cr_tasks : gmap string nat;
  cr_all : list Task
}.

Definition empty_registry : ConsumerRegistry := mkRegistry ∅ [].

Definition task_done (r : ConsumerRegistry) (i : nat) : bool :=
  match r.(cr_all) !! i with Some t => t.(tk_done) | None => true end.

(** [start]: the task that drives the run, an existing one when it is alive. *)
Definition start (run_id : string) (r : ConsumerRegistry) : nat * ConsumerRegistry :=
  match r.(cr_tasks) !! run_id with
  | Some i =>
      if task_done r i
      then (length r.(cr_all), mkRegistry (<[run_id := length r.(cr_all)]> r.(cr_tasks)) (r.(cr_all) ++ [mkTask run_id false]))
      else (i, r)
  | None =>
      (length r.(cr_all), mkRegistry (<[run_id := length r.(cr_all)]> r.(cr_tasks)) (r.(cr_all) ++ [mkTask run_id false]))
  end.

(** [_forget]: the callback of a task that has ended removes itself only. *)
Definition _forget (run_id : string) (i : nat) (r : ConsumerRegistry) : ConsumerRegistry :=
  if bool_decide (r.(cr_tasks) !! run_id = Some i)
  then mkRegistry (base.delete run_id r.(cr_tasks)) r.(cr_all) else r.

(** The tasks of the dictionary that are not done. *)
Definition live_tasks (r : ConsumerRegistry) : list (string * nat) :=
  List.filter (fun kv => negb (task_done r kv.2)) (map_to_list r.(cr_tasks)).

Definition active (r : ConsumerRegistry) : nat := length (live_tasks r).

Definition end_task (i : nat) (r : ConsumerRegistry) : ConsumerRegistry :=
  mkRegistry r.(cr_tasks) (alter (fun t => mkTask t.(tk_run_id) true) i r.(cr_all)).

(** [drain]: cancel what is alive; how many were cancelled.  [survive] are those
    that outlast the budget. *)
Definition drain (survive : nat -> bool) (r : ConsumerRegistry) : nat * ConsumerRegistry :=
  let tasks := live_tasks r in
  (length tasks, foldl (fun r kv => if survive kv.2 then r else end_task kv.2 r) r tasks).

(** [start_and_wait]: [h] is what the new task has made of its handshake when the
    wait is over; the handshake of a start that is not needed stays untouched. *)
Definition start_and_wait (run_id : string) (timed_out : bool) (h : SubscriptionHandshake) (r : ConsumerRegistry) :
    bool * ConsumerRegistry :=
  let '(i, r') := start run_id r in
  (handshake_wait timed_out (if Nat.eqb i (length r.(cr_all)) then h else new_handshake), r').
