(* ===== verification/Relay.v ===== *)
(** * The stream of a run, as the client gets it from the service

    [stream_events] of [src/app/agent_proxy/service.py]: with the broker, the
    owner is checked, the session released and the broker's chunks passed on;
    without it, the relay of the instance's stream, which forwards every block
    and handles it.  An asynchronous generator is a function that gives the
    chunks it yielded and how it ended.  The instance's answer (the status and
    the bytes it sends until it closes or drops) and the chunks of the broker
    are parameters; the broker itself is [Broker] and [BrokerPipe]. *)

From Stdlib Require Import SpecFloat Ascii String.
From S2P Require Import Prelude PyVal Redaction Store AuditTrail Logic Fixtures Wallet WalletRun WalletSpec WalletRefine WalletInv.
From S2P Require Import AgentRuns Usage Sse Hermes AgentService AgentBilling AgentClient Consumer.

Open Scope string_scope.
Open Scope list_scope.
Open Scope Z_scope.

Module Relay.
(** What the subscription meets: a failure before any answer, or a status, the
    chunks of the body, and a failure in the middle of them if there is one. *)
Inductive Upstream : Type :=
| up_failed (o : HttpOutcome)
| up_answered (status : Z) (chunks : list string) (dropped : option HttpOutcome).

(** A generator: what it yielded and how it ended, in the world it left. *)
Definition Gen : Type := Env -> World -> (list string * option exn) * World.

Definition gen_raise (x : exn) : Gen := fun _ w => (([], Some x), w).
Definition gen_end : Gen := fun _ w => (([], None), w).
Definition yield (chunk : string) (g : Gen) : Gen := fun e w =>
  let '((out, r), w') := g e w in ((chunk :: out, r), w').

(** [await m], inside a generator. *)
Definition await {A} (m : M A) (g : A -> Gen) : Gen := fun e w =>
  match m e w with (inl x, w') => (([], Some x), w') | (inr a, w') => g a e w' end.

Section relay.
Context (decode : string -> option string) (loads : string -> option json) (dumps : json -> string) (hermes : Hermes).

(** The loop over the blocks; [after] is what happens when the body is over. *)
Fixpoint relay_blocks (run : RunProcessing) (blocks : list (SseEvent * string)) (after : Gen) : Gen :=
  match blocks with
  | [] => after
  | (block, raw) :: rest =>
      yield raw (await (process_event hermes run block) (fun q =>
        match q.2 with
        | Some paused => yield (paused_bytes dumps paused) gen_end
        | None => relay_blocks q.1 rest after
        end))
  end.

(** The blocks a body gives: when it is cut, the last one is not closed and
    never comes out of [_iter_sse_blocks]. *)
Definition body_blocks (chunks : list string) (dropped : bool) : list (SseEvent * string) :=
  if dropped then (fun b => (_parse_sse_block decode loads b, (b ++ separator)%string)) <$> (feed "" chunks).1
  else _iter_sse_blocks decode loads chunks.

Definition stream_events (broker : option (list string)) (up : Upstream) (u : uuid) (run_id : string) : Gen :=
  match broker with
  | Some chunks =>
      await (assert_run_owner u run_id) (fun _ => await rollback (fun _ => foldr yield gen_end chunks))
  | None =>
      await (_ensure_running hermes u) (fun _ =>
        await (new_run_processing u run_id) (fun run =>
          match up with
          | up_failed o => gen_raise (_transport_error o)
          | up_answered status chunks dropped =>
              if negb (is_2xx status) then gen_raise (UpstreamError "hermes events stream failed")
              else relay_blocks run (body_blocks chunks (match dropped with Some _ => true | None => false end))
                     (match dropped with Some o => gen_raise (_transport_error o) | None => gen_end end)
          end))
  end.
End relay.
End Relay.

Import Relay.

(** ** With the broker, reading is all there is *)

Lemma yields_all chunks e w : foldr yield gen_end chunks e w = ((chunks, None), w).
Proof. induction chunks as [|c chunks IH]; [done|]. cbn. unfold yield at 1. by rewrite IH. Qed.

(** With the broker, following a run changes nothing, bills nothing and calls no
    instance: the owner gets exactly the chunks of the broker, anyone else gets
    nothing but an error, and the world is the one before. *)
Theorem broker_stream_reads_only decode loads dumps hermes chunks up u run_id e w :
  w.(w_db) = w.(w_committed) ->
  stream_events decode loads dumps hermes (Some chunks) up u run_id e w =
    (match w.(w_db).(agent_runs) !! run_id with
     | Some r => if N.eqb r.(ar_user_id) u then (chunks, None) else ([], Some (NotFoundError "run not found"))
     | None => ([], Some (NotFoundError "run not found"))
     end, w).
Proof.
  intros Hs. unfold stream_events, await, assert_run_owner, Runs.get, mbind, M_bind. cbn.
  destruct (agent_runs (w_db w) !! run_id) as [r|]; [|done]. destruct (N.eqb (ar_user_id r) u); [|done]. cbn.
  rewrite yields_all. f_equal. destruct w; cbn in *. by subst.
Qed.

(** ** Without it, the relay forwards and handles *)

(** The chunks of a body and the outcome of handling it. *)
Lemma relay_blocks_handled dumps hermes after blocks : forall run e w,
  let '((out, r), w') := relay_blocks dumps hermes run blocks after e w in
  let '(q, w1) := relay_events hermes run blocks.*1 e w in
  match q with
  | inr (run1, None) => exists out2, out = blocks.*2 ++ out2 /\ after e w1 = ((out2, r), w')
  | inr (run1, Some paused) =>
      exists n, (n < length blocks)%nat /\ out = take (S n) blocks.*2 ++ [paused_bytes dumps paused] /\ r = None /\ w' = w1
  | inl x => exists n, (n < length blocks)%nat /\ out = take (S n) blocks.*2 /\ r = Some x /\ w' = w1
  end.
Proof.
  induction blocks as [|[block raw] blocks IH]; intros run e w.
  { cbn. destruct (after e w) as [[out r] w'] eqn:E. by exists out. }
  cbn [relay_blocks relay_events fmap list_fmap]. unfold yield at 1, await, mbind at 1, M_bind at 1. cbn [fst snd].
  destruct (process_event hermes run block e w) as [[x|[run1 [paused|]]] w1] eqn:Ep; cbn [fst snd].
  - exists 0%nat. cbn. split; [lia|done].
  - cbn. exists 0%nat. cbn. split; [lia|done].
  - specialize (IH run1 e w1). destruct (relay_blocks dumps hermes run1 blocks after e w1) as [[out r] w'].
    destruct (relay_events hermes run1 blocks.*1 e w1) as [[x|[run2 [paused|]]] w2].
    + destruct IH as (n & Hn & -> & -> & ->). exists (S n). cbn. split; [lia|done].
    + destruct IH as (n & Hn & -> & -> & ->). exists (S n). cbn. split; [lia|done].
    + destruct IH as (out2 & -> & Ha). by exists out2.
Qed.

(** The bytes of a body that was not cut, but for a tail of white space. *)
Lemma body_bytes decode loads chunks :
  exists tail, blank tail = true /\ (glue (body_blocks decode loads chunks false).*2 ++ tail = glue chunks)%string.
Proof.
  unfold body_blocks, _iter_sse_blocks. rewrite feed_glue by done. change ("" ++ glue chunks)%string with (glue chunks). pose proof (blocks_of_glue (glue chunks)) as Hg.
  destruct (blocks_of (glue chunks)) as [bs l]. rewrite fmap_app, <- list_fmap_compose.
  change (snd ∘ (fun b => (_parse_sse_block decode loads b, (b ++ separator)%string))) with (fun b => (b ++ separator)%string).
  destruct (blank l) eqn:Hb; cbn [fmap list_fmap].
  - exists l. split; [done|]. by rewrite app_nil_r.
  - exists "". split; [done|]. rewrite glue_app, Str.app_nil_r. cbn. by rewrite Str.app_nil_r.
Qed.


(** ** A concrete stream *)

Definition demo_loads (s : string) : option json :=
  if String.eqb s "U" then Some (JObj [("step_index", JInt 1); ("cumulative_input_tokens", JInt 1500); ("cumulative_output_tokens", JInt 700)])
  else if String.eqb s "T" then Some (JObj [("delta", JStr "Hello")])
  else None.

Definition demo_chunks : list string :=
  let nl := String newline "" in
  ["event: message.delta" ++ nl ++ "data: T" ++ nl; nl ++ "event: usage.delta" ++ nl ++ "data: U" ++ nl ++ nl]%string.

Definition demo_stream (credits : Z) : (list string * option exn) * World :=
  stream_events Some demo_loads (fun _ => "{}") demo_hermes None (up_answered 200 demo_chunks None) alice "r1" billing_env
    (run_with_credits credits).

