(* ===== verification/ConsumerDemo.v ===== *)
(** * Runs of the consumer that can be evaluated

    The default settings, a stream of small blocks, and the traces that the
    witnesses about the consumer use. *)

From Stdlib Require Import SpecFloat Ascii String.
From S2P Require Import Prelude PyVal Redaction Store AuditTrail Logic Fixtures Wallet WalletRun WalletSpec WalletRefine WalletInv.
From S2P Require Import Policy ChatTools Website Instances Manager AgentRuns Usage Sse Hermes AgentService AgentBilling Ring AgentClient Orphans Consumer.

Open Scope string_scope.
Open Scope list_scope.
Open Scope Z_scope.

Definition consumer_defaults : ConsumerSettings :=
  mkConsumerSettings 7200 30 10 30 60 15 3 120 180 5000 8388608 900 500 1800 900 20 600 3000000 15000000 10000000 30000000 1 (Some "/0").

Definition demo_loads (s : string) : option json :=
  if String.eqb s "d" then Some (JObj [("event", JStr "message.delta"); ("text", JStr "x")])
  else if String.eqb s "u" then Some (JObj [("event", JStr "usage.delta"); ("step_index", JInt 1);
         ("cumulative_input_tokens", JInt 1500); ("cumulative_output_tokens", JInt 700)])
  else if String.eqb s "a" then Some (JObj [("event", JStr "approval.request"); ("tool", JStr "shell")])
  else if String.eqb s "c" then Some (JObj [("event", JStr "run.completed"); ("usage", JObj [("input_tokens", JInt 1500);
         ("output_tokens", JInt 700); ("total_tokens", JInt 2200)])])
  else None.

Notation demo_steps := (steps consumer_defaults demo_hermes Some demo_loads (fun _ => "{}") id alice "r1" "owner-1").

Notation demo_step := (step consumer_defaults demo_hermes Some demo_loads (fun _ => "{}") id alice "r1" "owner-1").

(** The moment at a second; [up] says whether Redis answers. *)
Definition at_second (up : bool) (s : Z) : Moment := mkMoment (seconds s) (s * 1000) up "fresh" billing_env.

Definition demo_consumer : Consumer := new_consumer 0 no_keys (run_with_credits 100).

Definition block_of (s : string) : string := ("data: " ++ s ++ separator)%string.

(** Lease, generation, snapshot, start of the worker, a 2xx. *)
Definition subscribe (up : bool) : list Label :=
  [l_consumer (at_second up 0); l_consumer (at_second up 0); l_consumer (at_second up 0); l_worker (at_second up 0);
   l_response (at_second up 1) (Some 200)].

(** Publish and handle one block. *)
Definition handle (up : bool) (s : Z) : list Label := [l_worker (at_second up s); l_process (at_second up s) fresh_run].

(** One round of the supervisor. *)
Definition round (up : bool) (s : Z) : list Label :=
  [l_supervisor (at_second up s); l_supervisor (at_second up s); l_supervisor (at_second up s); l_supervisor (at_second up s)].

(** Rounds every ten seconds. *)
Definition rounds (up : bool) (from : Z) (n : nat) : list Label :=
  List.concat ((fun i => round up (from + 10 * Z.of_nat i)) <$> seq 0 n).
