(* ===== verification/ConsumerLife.v ===== *)
(** * What the background consumer guarantees

    Over every interleaving of the working task, the supervisor, the shutdown of
    the process and an unreliable Redis. *)

From Stdlib Require Import SpecFloat Ascii String.
From S2P Require Import Prelude PyVal Redaction Store AuditTrail Logic Fixtures Wallet WalletRun WalletSpec WalletRefine WalletInv.
From S2P Require Import Policy ChatTools Website Instances Manager AgentRuns Usage Sse Hermes AgentService AgentBilling Ring AgentClient Orphans Consumer ConsumerDemo.

Open Scope string_scope.
Open Scope list_scope.
Open Scope Z_scope.

(** ** Only an event decides *)

(** The status of every run and every account. *)
Definition decisions (d : Db) : gmap string AgentRun * gmap uuid Wallet * list LedgerTransaction :=
  (d.(agent_runs), d.(wallets), d.(ledger_transactions)).

Definition undecided (x : gmap string AgentRun * gmap uuid Wallet * list LedgerTransaction) (d : Db) : Prop := decisions d = x.

Lemma undecided_heartbeat x u k : keeps (undecided x) (undecided x) (consumer_heartbeat u k).
Proof.
  unfold consumer_heartbeat, Snapshots.touch_consumer_heartbeat, Manager.touch_active, Registry.touch_active, Registry.update,
    Registry.get, Registry.put.
  keeps_walk; done.
Qed.

Lemma undecided_prepare x u k : keeps (undecided x) (undecided x) (prepare_consumer_snapshot u k).
Proof. unfold prepare_consumer_snapshot, Snapshots.ensure_row. keeps_walk; done. Qed.

Lemma undecided_flush x run : keeps (undecided x) (undecided x) (flush_run_snapshot run).
Proof.
  unfold flush_run_snapshot, _flush_snapshot, Snapshots.upsert. keeps_walk. apply keeps_or_rollback. keeps_walk; done.
Qed.

Lemma undecided_audit x u k ev : keeps (undecided x) (undecided x) (record_consumer_event u k ev).
Proof. unfold record_consumer_event, record. keeps_walk; done. Qed.

Lemma undecided_new_run x u k : keeps (undecided x) (undecided x) (new_run_processing u k).
Proof. unfold new_run_processing. keeps_walk. Qed.

(** Between two steps no transaction is open. *)
Definition settled_at x (w : World) : Prop := undecided x w.(w_db) /\ w.(w_db) = w.(w_committed).

Lemma in_session_undecided x {A} m (op : M A) c :
  keeps (undecided x) (undecided x) op -> settled_at x c.(co_world) -> settled_at x (in_session m op c).2.(co_world).
Proof.
  intros Hop [H1 H2]. unfold in_session, background_services. specialize (Hop m.(mo_env) c.(co_world)).
  destruct (op (mo_env m) (co_world c)) as [r w]. cbn. rewrite H2 in H1. split; [|done]. apply Hop. split; [by rewrite H2|done].
Qed.

Section decide.
Context (cs : ConsumerSettings) (hermes : Hermes) (decode : string -> option string) (loads : string -> option json)
        (dumps : json -> string) (enc : string -> string) (u : uuid) (run_id owner : string).

Notation cstep := (step cs hermes decode loads dumps enc u run_id owner).
Notation csteps := (steps cs hermes decode loads dumps enc u run_id owner).

Lemma finalize_world e c : co_world (finalize e c) = c.(co_world).
Proof. done. Qed.

Lemma cancel_worker_world c : co_world (cancel_worker c) = c.(co_world).
Proof. unfold cancel_worker. by destruct (co_worker c). Qed.

Lemma cancel_supervisor_world c : co_world (cancel_supervisor c) = c.(co_world).
Proof. unfold cancel_supervisor. by destruct (co_supervisor c). Qed.

Lemma abort_world c : co_world (abort c) = c.(co_world).
Proof.
  unfold abort. cbv zeta. repeat case_match; rewrite ?cancel_worker_world, ?cancel_supervisor_world; done.
Qed.

Lemma group_world c : co_world (group c) = c.(co_world).
Proof. unfold group, join. rewrite <- (abort_world c). by repeat case_match. Qed.

Lemma publish_world m raw c : co_world (publish_raw cs enc m raw c) = c.(co_world).
Proof. unfold publish_raw. by destruct (publish _ _ _ _ _ _ _ _). Qed.

Definition is_process (l : Label) : bool := match l with l_process _ _ => true | _ => false end.

(** Case analysis on the session of a step, and on what the step does with its
    result. *)
Ltac session H :=
  match goal with
  | |- context [in_session ?m ?op ?c] =>
      pose proof (in_session_undecided _ m op c ltac:(auto using undecided_heartbeat, undecided_prepare, undecided_flush,
        undecided_audit, undecided_new_run) H);
      destruct (in_session m op c) as [[?|?] ?]
  end.

Ltac same_world := rewrite ?group_world, ?cancel_worker_world, ?cancel_supervisor_world; done.

Lemma receive_world m b t what c : co_world (worker_receive decode loads m b t what c) = c.(co_world).
Proof.
  unfold worker_receive, proceed. destruct what; [destruct (blocks_of _) as [blocks rest]| |done]; cbn.
  - destruct (stream_block decode loads <$> blocks) as [|[block raw] todo]; done.
  - destruct (blank b); done.
Qed.

Lemma subscribe_world st c : co_world (worker_subscribe st c) = c.(co_world).
Proof. unfold worker_subscribe. destruct st as [code|]; [|done]. by destruct (_ && _). Qed.

Lemma wake_world m win c : co_world (supervisor_wake cs m win c) = c.(co_world).
Proof.
  unfold supervisor_wake. destruct (worker_done c); [done|]. destruct (_ <=? _); [by cbn; rewrite cancel_worker_world|].
  by destruct (is_stalled _ _ _ _); cbn; rewrite ?cancel_worker_world.
Qed.

Lemma renew_world m win c : co_world (supervisor_renew cs owner m win c) = c.(co_world).
Proof.
  unfold supervisor_renew. destruct (renew_lease _ _ _ _ _) as [[] k]; try done. cbn. by rewrite cancel_worker_world.
Qed.

Lemma start_settled x m c : settled_at x c.(co_world) -> settled_at x (worker_start u run_id m c).(co_world).
Proof. intros H. unfold worker_start. by session H. Qed.

Lemma beat_settled x m win c : settled_at x c.(co_world) -> settled_at x (supervisor_beat cs u run_id m win c).(co_world).
Proof. intros H. unfold supervisor_beat. session H; [by destruct (is_SQLAlchemyError _)|done]. Qed.

Lemma snapshot_settled x m c : settled_at x c.(co_world) -> settled_at x (consumer_snapshot cs u run_id m c).(co_world).
Proof. intros H. unfold consumer_snapshot. by session H. Qed.

Lemma flush_settled x m t a r c : settled_at x c.(co_world) -> settled_at x (finalize_flush m t a r c).(co_world).
Proof.
  intros H. unfold finalize_flush. destruct (co_processing c) as [run|]; [|done]. destruct t; [done|]. cbn.
  apply in_session_undecided; [apply undecided_flush|done].
Qed.

Lemma audit_settled x m ev r c : settled_at x c.(co_world) -> settled_at x (finalize_audit u run_id m ev r c).(co_world).
Proof. intros H. unfold finalize_audit. by session H. Qed.

Lemma shutdown_settled x c c' : settled_at x c.(co_world) -> shutdown c = Some c' -> settled_at x c'.(co_world).
Proof.
  unfold shutdown. intros H E. destruct (co_phase c); simplify_eq; try done.
  by rewrite group_world, cancel_supervisor_world, cancel_worker_world.
Qed.

Lemma act_settled x l c c' : is_process l = false -> settled_at x c.(co_world) ->
  act cs hermes decode loads dumps enc u run_id owner l c = Some c' -> settled_at x c'.(co_world).
Proof.
  intros Hl Hc H. destruct l; cbn [act] in H; try done; [| | | | | |by eapply shutdown_settled].
  - destruct (co_phase c); simplify_eq; auto using snapshot_settled, audit_settled.
    + unfold consumer_lease. by destruct (acquire_lease _ _ _ _ _) as [[] k].
    + unfold consumer_epoch. by destruct (ensure_epoch _ _ _ _ _).
  - destruct (co_phase c); simplify_eq; auto using flush_settled.
  - destruct (co_phase c); try done. destruct (co_worker c); simplify_eq; rewrite ?group_world; cbn; rewrite ?publish_world;
      auto using start_settled.
  - destruct (co_phase c); try done. destruct (co_worker c); simplify_eq. by rewrite group_world, subscribe_world.
  - destruct (co_phase c); try done. destruct (co_worker c); simplify_eq. by rewrite group_world, receive_world.
  - destruct (co_phase c); try done. destruct (co_supervisor c); simplify_eq.
    + destruct (_ || _); simplify_eq. by rewrite group_world, wake_world.
    + by rewrite group_world, renew_world.
    + unfold supervisor_generation. by destruct (ensure_epoch _ _ _ _ _).
    + rewrite group_world. auto using beat_settled.
Qed.

(** C12: the consumer does not decide how a run ends.  Every step but the handling of an
    upstream event, among them the whole self-termination with its final flush and its audit
    row, whatever ended the consumer, leaves the status of every run, every wallet and the ledger exactly as they were. *)
Theorem consumer_never_decides l c c' :
  is_process l = false -> c.(co_world).(w_db) = c.(co_world).(w_committed) -> cstep l c = Some c' ->
  decisions c'.(co_world).(w_committed) = decisions c.(co_world).(w_committed) /\
  c'.(co_world).(w_db) = c'.(co_world).(w_committed).
Proof.
  intros Hl Hs. set (x := decisions (w_committed (co_world c))).
  assert (settled_at x (co_world c)) as Hc by (split; [unfold undecided; by rewrite Hs|done]). clearbody x.
  unfold step. destruct (_ <? _); [done|]. set (c0 := at_time _ c). change (co_world c) with (co_world c0) in Hc. clearbody c0.
  intros H. assert (settled_at x (co_world c')) as [H1 H2]; [|unfold undecided in H1; by rewrite H2 in H1].
  by eapply act_settled.
Qed.

(** ** Self-termination lets go *)

Definition not_ours (k : RunKeys) : Prop := forall exp, k.(k_lease) <> Some (owner, exp).

(** How far the end of the consumer is away. *)
Definition remaining (p : Phase) : nat :=
  match p with p_flush _ _ => 3 | p_release _ _ => 2 | p_audit _ _ => 1 | _ => 0 end.

Definition let_go (answered : bool) (c : Consumer) : Prop :=
  match c.(co_phase) with
  | p_flush _ _ | p_release _ _ | p_skipped => c.(co_handshake).(hk_done) = true
  | p_audit _ _ | p_done _ => c.(co_handshake).(hk_done) = true /\ (answered = true -> not_ours c.(co_keys))
  | _ => True
  end.

Lemma release_not_ours now k : not_ours (release_lease true now owner k).
Proof.
  unfold release_lease. cbn. intros exp. destruct (live now (k_lease k)) as [[o x]|] eqn:E; [|cbn; congruence].
  destruct (String.eqb_spec o owner) as [-> |H]; [done|]. cbn. congruence.
Qed.

Lemma finalize_let_go b e c : let_go b (finalize e c).
Proof. unfold finalize. by destruct (co_processing c). Qed.

Lemma group_let_go b c : c.(co_phase) = p_running -> let_go b (group c).
Proof.
  intros H. assert (co_phase (abort c) = p_running) as Ha.
  { unfold abort, cancel_worker, cancel_supervisor. by repeat (cbv zeta; case_match). }
  unfold group, join. repeat case_match; try (unfold let_go; by rewrite Ha). apply finalize_let_go.
Qed.

(** Steps inside the group stay inside it. *)
Ltac same_phase := unfold in_session, proceed; repeat (cbv zeta; case_match; simplify_eq/=); done.

Lemma start_phase m c : co_phase (worker_start u run_id m c) = c.(co_phase).
Proof. unfold worker_start. same_phase. Qed.

Lemma subscribe_phase st c : co_phase (worker_subscribe st c) = c.(co_phase).
Proof. unfold worker_subscribe. same_phase. Qed.

Lemma receive_phase m buf ts what c : co_phase (worker_receive decode loads m buf ts what c) = c.(co_phase).
Proof. unfold worker_receive. same_phase. Qed.

Lemma process_phase m beh run blk rd c : co_phase (worker_process hermes m beh run blk rd c) = c.(co_phase).
Proof. unfold worker_process. same_phase. Qed.

Lemma publish_phase m raw c : co_phase (publish_raw cs enc m raw c) = c.(co_phase).
Proof. unfold publish_raw. same_phase. Qed.

Lemma cancel_worker_phase c : co_phase (cancel_worker c) = c.(co_phase).
Proof. unfold cancel_worker. same_phase. Qed.

Lemma cancel_supervisor_phase c : co_phase (cancel_supervisor c) = c.(co_phase).
Proof. unfold cancel_supervisor. same_phase. Qed.

Lemma wake_phase m win c : co_phase (supervisor_wake cs m win c) = c.(co_phase).
Proof. unfold supervisor_wake, cancel_worker. same_phase. Qed.

Lemma renew_phase m win c : co_phase (supervisor_renew cs owner m win c) = c.(co_phase).
Proof. unfold supervisor_renew, cancel_worker. same_phase. Qed.

Lemma beat_phase m win c : co_phase (supervisor_beat cs u run_id m win c) = c.(co_phase).
Proof. unfold supervisor_beat. same_phase. Qed.

#[local] Hint Rewrite start_phase subscribe_phase receive_phase process_phase publish_phase cancel_worker_phase
  cancel_supervisor_phase wake_phase renew_phase beat_phase : phase.

Lemma act_let_go b l c c' : (b = true -> (moment_of l).(mo_reachable) = true) -> let_go b c ->
  act cs hermes decode loads dumps enc u run_id owner l c = Some c' -> let_go b c'.
Proof.
  intros Hb Hc H. unfold let_go in Hc.
  destruct l as [m|m t|m|m st|m what|m beh|m|m]; cbn [act moment_of] in *.
  - destruct (co_phase c) eqn:Ep; simplify_eq.
    + unfold consumer_lease. by destruct (acquire_lease _ _ _ _ _) as [[] k].
    + unfold consumer_epoch. by destruct (ensure_epoch _ _ _ _ _).
    + unfold consumer_snapshot. destruct (in_session _ _ _) as [[x|[]] c2]; [apply finalize_let_go|done].
    + unfold finalize_release. destruct audit_event; (split; [done|]); intros ->; rewrite Hb by done; apply release_not_ours.
    + unfold finalize_audit, in_session. by destruct (background_services _ _ _) as [[x|[]] w].
  - destruct (co_phase c) eqn:Ep; simplify_eq. unfold let_go, finalize_flush, in_session.
    destruct (co_processing c) as [run|]; [|done]. destruct t; [done|]. by destruct (background_services _ _ _).
  - destruct (co_phase c) eqn:Ep; try done. destruct (co_worker c); simplify_eq; try apply group_let_go;
      unfold let_go; cbn; autorewrite with phase; by rewrite ?Ep.
  - destruct (co_phase c) eqn:Ep; try done. destruct (co_worker c); simplify_eq. apply group_let_go. by autorewrite with phase.
  - destruct (co_phase c) eqn:Ep; try done. destruct (co_worker c); simplify_eq. apply group_let_go. by autorewrite with phase.
  - destruct (co_phase c) eqn:Ep; try done. destruct (co_worker c); try done. destruct (co_processing c); simplify_eq.
    apply group_let_go. by autorewrite with phase.
  - destruct (co_phase c) eqn:Ep; try done. destruct (co_supervisor c); try done; [destruct (_ || _); try done| | |]; simplify_eq;
      try (apply group_let_go; by autorewrite with phase).
    unfold supervisor_generation, let_go. destruct (ensure_epoch _ _ _ _ _). cbn. by rewrite Ep.
  - unfold shutdown in H. destruct (co_phase c) eqn:Ep; simplify_eq; try done; [apply finalize_let_go|].
    apply group_let_go. by autorewrite with phase.
Qed.

Lemma steps_let_go b trace : forall c c', (b = true -> Forall (fun l => (moment_of l).(mo_reachable) = true) trace) ->
  let_go b c -> csteps c trace = Some c' -> let_go b c'.
Proof.
  induction trace as [|l rest IH]; intros c c' Hb Hc; cbn [steps]; [by intros [= <-]|].
  unfold step. destruct (_ <? _); [done|]. destruct (act _ _ _ _ _ _ _ _ _ l _) as [c1|] eqn:E; [|done].
  apply IH; [intros ->; by apply Forall_inv_tail with l, Hb|]. apply (act_let_go b l (at_time (mo_now (moment_of l)) c) c1); [|exact Hc|exact E].
  intros ->. by apply (Forall_inv (Hb eq_refl)).
Qed.

End decide.

(** ** Scenarios *)

(** The stream breaks; the consumer flushes, releases its lease and says why. *)
Definition broken_trace : list Label :=
  subscribe true ++ [l_receive (at_second true 2) (chunk (block_of "d"))] ++ handle true 3 ++
  [l_receive (at_second true 4) transport_error; l_flush (at_second true 4) false; l_consumer (at_second true 4);
   l_consumer (at_second true 4)].


(** The final flush writes the snapshot and nothing else. *)
Lemma consumer_never_decides_witness :
  match demo_steps demo_consumer (take 9 broken_trace) with
  | Some c =>
      match demo_step (l_flush (at_second true 4) false) c with
      | Some c' => c.(co_phase) = p_flush (Some EVENT_CONSUMER_FAILED) false /\
                   decisions c'.(co_world).(w_committed) = decisions c.(co_world).(w_committed)
      | None => False
      end
  | None => False
  end.
Proof.
  destruct (demo_steps demo_consumer (take 9 broken_trace)) as [c|] eqn:E; [|vm_compute in E; discriminate E].
  assert (co_phase c = p_flush (Some EVENT_CONSUMER_FAILED) false /\ w_db (co_world c) = w_committed (co_world c)) as [Hp Hs].
  { vm_compute in E. injection E as <-. split; reflexivity. }
  destruct (demo_step (l_flush (at_second true 4) false) c) as [c'|] eqn:E'.
  - split; [exact Hp|].
    exact (proj1 (consumer_never_decides consumer_defaults demo_hermes Some demo_loads (fun _ => "{}") id alice "r1" "owner-1"
                    (l_flush (at_second true 4) false) c c' eq_refl Hs E')).
  - vm_compute in E. injection E as <-. vm_compute in E'. discriminate E'.
Defined.

(** A shutdown that arrives during self-termination leaves the lease behind.
    The stream has broken and the final flush is under way when the process cancels the task:
    the cancellation goes through the procedure, the lease is still held and nothing is audited. *)
Theorem shutdown_skips_release :
  exists c c', demo_steps demo_consumer (take 9 broken_trace) = Some c /\
    c.(co_phase) = p_flush (Some EVENT_CONSUMER_FAILED) false /\
    demo_step (l_shutdown (at_second true 4)) c = Some c' /\
    c'.(co_phase) = p_cancelled /\ fst <$> c'.(co_keys).(k_lease) = Some "owner-1" /\
    audit_logs c'.(co_world).(w_committed) = audit_logs c.(co_world).(w_committed) /\
    forall l, demo_step l c' = None.
Proof.
  destruct (demo_steps demo_consumer (take 9 broken_trace)) as [c|] eqn:E; [|vm_compute in E; discriminate E].
  destruct (demo_step (l_shutdown (at_second true 4)) c) as [c'|] eqn:E'.
  - exists c, c'. vm_compute in E. injection E as <-. vm_compute in E'. injection E' as <-. split_and!; try done.
    intros l. unfold step. destruct (_ <? _); [done|]. by destruct l.
  - exfalso. vm_compute in E. injection E as <-. vm_compute in E'. discriminate E'.
Qed.
