(* ===== verification/ConsumerWatch.v ===== *)
(** * The supervisor

    Supervision is bounded by the longest life of a run, a stream that is quiet
    is left alone as long as events are published, and what happens to a live run
    when they are not. *)

From Stdlib Require Import SpecFloat Ascii String.
From S2P Require Import Prelude PyVal Redaction Store AuditTrail Logic Fixtures Wallet WalletRun WalletSpec WalletRefine WalletInv.
From S2P Require Import Policy ChatTools Website Instances Manager AgentRuns Usage Sse Hermes AgentService AgentBilling Ring AgentClient Orphans Consumer ConsumerDemo ConsumerLife.

Open Scope string_scope.
Open Scope list_scope.
Open Scope Z_scope.

(** ** Inside the group *)

(** The group goes on only when neither task has died. *)
Lemma group_running c : co_phase (group c) = p_running -> group c = c.
Proof.
  destruct c as [now p w s b e t r h k d]. destruct w as [| | | | | |[]], s as [| | | |[]]; cbn; try done; by destruct r.
Qed.

(** After a cancellation of both tasks the group is over. *)
Lemma cancelled_group c : co_phase (group (cancel_supervisor (cancel_worker c))) <> p_running.
Proof. destruct c as [now p w s b e t r h k d]. destruct w as [| | | | | |[]], s as [| | | |[]]; cbn; by destruct r. Qed.

Definition past_start (p : Phase) : Prop := match p with p_lease | p_epoch | p_snapshot => False | _ => True end.

Lemma finalize_past e c : past_start (co_phase (finalize e c)) /\ co_phase (finalize e c) <> p_running.
Proof. unfold finalize. by destruct (co_processing c). Qed.

Lemma group_past c : past_start c.(co_phase) -> past_start (co_phase (group c)).
Proof.
  intros H. destruct c as [now p w s b e t r h k d]. destruct w as [| | | | | |[]], s as [| | | |[]]; cbn; try done; by destruct r.
Qed.

Section watch.
Context (cs : ConsumerSettings) (hermes : Hermes) (decode : string -> option string) (loads : string -> option json)
        (dumps : json -> string) (enc : string -> string) (u : uuid) (run_id owner : string).

Notation cact := (act cs hermes decode loads dumps enc u run_id owner).
Notation cstep := (step cs hermes decode loads dumps enc u run_id owner).
Notation csteps := (steps cs hermes decode loads dumps enc u run_id owner).

Definition is_supervisor (l : Label) : bool := match l with l_supervisor _ => true | _ => false end.

(** What the supervisor sees of a step that is not its own. *)
Definition frame (c : Consumer) : SupervisorPc * Z * Z := (c.(co_supervisor), c.(co_started_at), c.(co_now)).

Ltac same_frame := unfold in_session, proceed; repeat (cbv zeta; case_match; simplify_eq/=); done.

Lemma start_frame m c : frame (worker_start u run_id m c) = frame c.
Proof. unfold worker_start. same_frame. Qed.
Lemma subscribe_frame st c : frame (worker_subscribe st c) = frame c.
Proof. unfold worker_subscribe. same_frame. Qed.
Lemma receive_frame m buf ts what c : frame (worker_receive decode loads m buf ts what c) = frame c.
Proof. unfold worker_receive. same_frame. Qed.
Lemma process_frame m beh run blk rd c : frame (worker_process hermes m beh run blk rd c) = frame c.
Proof. unfold worker_process. same_frame. Qed.
Lemma publish_frame m raw c : frame (publish_raw cs enc m raw c) = frame c.
Proof. unfold publish_raw. same_frame. Qed.

(** A step of another task inside the group is invisible to the supervisor
    unless it ends the group. *)
Lemma act_frame l c c' : is_supervisor l = false -> c.(co_phase) = p_running -> cact l c = Some c' ->
  c'.(co_phase) = p_running -> frame c' = frame c.
Proof.
  intros Hl Hp H Hp'. destruct l as [m|m t|m|m st|m what|m beh|m|m]; cbn [act] in H; rewrite ?Hp in H; try done.
  - destruct (co_worker c); simplify_eq.
    + rewrite group_running by done. apply start_frame.
    + exact (publish_frame m raw c).
    + rewrite group_running by done. exact (publish_frame m _ c).
  - destruct (co_worker c); simplify_eq. rewrite group_running by done. apply subscribe_frame.
  - destruct (co_worker c); simplify_eq. rewrite group_running by done. apply receive_frame.
  - destruct (co_worker c); try done. destruct (co_processing c); simplify_eq. rewrite group_running by done. apply process_frame.
  - unfold shutdown in H. rewrite Hp in H. simplify_eq. by apply cancelled_group in Hp'.
Qed.

(** ** Supervision is bounded *)

Section bounded.
Hypothesis Hvalid : _validate_agent_run_consumer_invariants cs = None.

Notation longest := (seconds cs.(agent_run_max_duration_seconds)).

Lemma valid_periods : 0 < interval cs /\ 0 < longest.
Proof.
  revert Hvalid. unfold _validate_agent_run_consumer_invariants, interval, seconds.
  destruct (agent_run_max_duration_seconds cs <=? 0) eqn:E0; [done|]. do 4 (case_match; [done|]).
  destruct (find_first _ (positive_settings cs)) as [[name v]|] eqn:E; [done|]. intros _.
  rewrite find_first_None in E. specialize (E ("AGENT_RUN_CONSUMER_LEASE_RENEW_SECONDS", agent_run_consumer_lease_renew_seconds cs)).
  cbn in E. assert ((agent_run_consumer_lease_renew_seconds cs <=? 0) = false) by (apply E; right; left; done). lia.
Qed.

Definition paced (n : Z) (c : Consumer) : Prop :=
  n <= 4 * (longest / interval cs) + 1 /\
  match c.(co_phase) with
  | p_lease | p_epoch => n = 0
  | p_snapshot => n = 0 /\ c.(co_started_at) <= c.(co_now)
  | p_running =>
      exists r, 0 <= r /\ r * interval cs <= longest /\
      match c.(co_supervisor) with
      | s_waiting _ wake_at => n = 4 * r /\ c.(co_started_at) + (r + 1) * interval cs <= wake_at
      | s_renewing _ => n = 4 * r + 1 /\ c.(co_started_at) + (r + 1) * interval cs <= c.(co_now) /\ (r + 1) * interval cs <= longest
      | s_generation _ => n = 4 * r + 2 /\ c.(co_started_at) + (r + 1) * interval cs <= c.(co_now) /\ (r + 1) * interval cs <= longest
      | s_beating _ => n = 4 * r + 3 /\ c.(co_started_at) + (r + 1) * interval cs <= c.(co_now) /\ (r + 1) * interval cs <= longest
      | s_ended _ => True
      end
  | _ => True
  end.

Lemma rounds_le r : r * interval cs <= longest -> r <= longest / interval cs.
Proof. intros H. pose proof valid_periods. apply Z.div_le_lower_bound; lia. Qed.

(** Leaving the group keeps the count. *)
Lemma paced_outside n c : n <= 4 * (longest / interval cs) + 1 ->
  match c.(co_phase) with p_lease | p_epoch | p_snapshot | p_running => False | _ => True end -> paced n c.
Proof. intros H1 H2. split; [done|]. by destruct (co_phase c). Qed.

Lemma act_past l c c' : c.(co_phase) = p_running -> cact l c = Some c' -> past_start c'.(co_phase).
Proof.
  intros Hp H. assert (past_start c.(co_phase)) as Hc by by rewrite Hp.
  destruct l as [m|m t|m|m st|m what|m beh|m|m]; cbn [act] in H; rewrite ?Hp in H; try done.
  - destruct (co_worker c); simplify_eq; try apply group_past; cbn; by rewrite ?start_phase, ?publish_phase.
  - destruct (co_worker c); simplify_eq. apply group_past. by rewrite subscribe_phase.
  - destruct (co_worker c); simplify_eq. apply group_past. by rewrite receive_phase.
  - destruct (co_worker c); try done. destruct (co_processing c); simplify_eq. apply group_past. by rewrite process_phase.
  - destruct (co_supervisor c); try done; [destruct (_ || _); [|done]| | |]; simplify_eq; try apply group_past;
      rewrite ?wake_phase, ?renew_phase, ?beat_phase; try done.
    unfold supervisor_generation. by destruct (ensure_epoch _ _ _ _ _).
  - unfold shutdown in H. rewrite Hp in H. simplify_eq. apply group_past. by rewrite cancel_supervisor_phase, cancel_worker_phase.
Qed.

(** Inside the group it is enough to look at the supervisor while it goes on. *)
Lemma paced_inside n c : past_start c.(co_phase) -> n <= 4 * (longest / interval cs) + 1 ->
  (c.(co_phase) = p_running -> paced n c) -> paced n c.
Proof. intros H1 H2 H3. destruct (co_phase c) eqn:E; try (by apply H3); try done; split; try done; by rewrite E. Qed.

Lemma paced_wake n m win c : c.(co_phase) = p_running -> c.(co_now) = m.(mo_now) ->
  (exists r, 0 <= r /\ r * interval cs <= longest /\ n = 4 * r /\
     (worker_done c = true \/ c.(co_started_at) + (r + 1) * interval cs <= c.(co_now))) ->
  paced (n + 1) (group (supervisor_wake cs m win c)).
Proof.
  intros Hp Hm (r & Hr & Hl & Hn & Hw). pose proof (rounds_le r Hl). apply paced_inside; [|lia|].
  { apply group_past. by rewrite wake_phase, Hp. }
  intros Hg. pose proof Hg as Hg'. rewrite group_running in * by done. split; [lia|]. rewrite Hg. exists r. do 2 (split; [done|]).
  unfold supervisor_wake in *. destruct (worker_done c); [done|]. destruct Hw as [?|Hw]; [done|].
  destruct (_ <=? _) eqn:E; [done|]. destruct (is_stalled _ _ _ _); [done|]. cbn. lia.
Qed.

(** The other steps of a round. *)
Definition in_round (n i : Z) (c : Consumer) : Prop :=
  exists r, 0 <= r /\ n = 4 * r + i /\ c.(co_started_at) + (r + 1) * interval cs <= c.(co_now) /\ (r + 1) * interval cs <= longest.

Lemma paced_renew n m win c : c.(co_phase) = p_running -> in_round n 1 c -> paced (n + 1) (group (supervisor_renew cs owner m win c)).
Proof.
  intros Hp (r & Hr & Hn & Hs & Hl). pose proof (rounds_le (r + 1) Hl). pose proof valid_periods. apply paced_inside; [|lia|].
  { apply group_past. by rewrite renew_phase, Hp. }
  intros Hg. pose proof Hg as Hg'. rewrite group_running in * by done. split; [lia|]. rewrite Hg. exists r.
  split; [done|]. split; [lia|]. unfold supervisor_renew. destruct (renew_lease _ _ _ _ _) as [[] k]; cbn; try done; lia.
Qed.

Lemma paced_generation n m win c : c.(co_phase) = p_running -> in_round n 2 c ->
  paced (n + 1) (supervisor_generation cs m win c).
Proof.
  intros Hp (r & Hr & Hn & Hs & Hl). pose proof (rounds_le (r + 1) Hl). pose proof valid_periods.
  unfold supervisor_generation. destruct (ensure_epoch _ _ _ _ _). split; [lia|]. cbn. rewrite Hp. exists r. lia.
Qed.

Lemma paced_beat n m win c : c.(co_phase) = p_running -> c.(co_now) = m.(mo_now) -> in_round n 3 c ->
  paced (n + 1) (group (supervisor_beat cs u run_id m win c)).
Proof.
  intros Hp Hm (r & Hr & Hn & Hs & Hl). pose proof (rounds_le (r + 1) Hl). pose proof valid_periods. apply paced_inside; [|lia|].
  { apply group_past. by rewrite beat_phase, Hp. }
  intros Hg. pose proof Hg as Hg'. rewrite group_running in * by done. split; [lia|]. rewrite Hg. exists (r + 1).
  split; [lia|]. split; [lia|]. unfold supervisor_beat, in_session. destruct (background_services _ _ _) as [[x|b] w]; cbn; [|lia].
  destruct (is_SQLAlchemyError x); cbn; [lia|done].
Qed.

Lemma paced_supervisor n m c c' : paced n c -> c.(co_now) = m.(mo_now) -> cact (l_supervisor m) c = Some c' -> paced (n + 1) c'.
Proof.
  intros [Hb Hc] Hm H. cbn [act] in H. destruct (co_phase c) eqn:Ep; try done. destruct Hc as (r & Hr & Hl & Hc).
  destruct (co_supervisor c) as [win wake|win|win|win|]; [|simplify_eq| | |done].
  - destruct (worker_done c || (wake <=? mo_now m)) eqn:E; [|done]. simplify_eq. apply paced_wake; [done|done|].
    exists r. destruct Hc as [Hn Hw]. split_and!; try done. apply orb_true_iff in E as [E|E]; [by left|right; lia].
  - apply paced_renew; [done|]. exists r. lia.
  - simplify_eq. apply paced_generation; [done|]. exists r. lia.
  - simplify_eq. apply paced_beat; [done|done|]. exists r. lia.
Qed.

Lemma paced_other n l c c' : paced n c -> c.(co_now) = (moment_of l).(mo_now) -> is_supervisor l = false ->
  cact l c = Some c' -> paced n c'.
Proof.
  intros Hc Hm Hl H. pose proof Hc as [Hb Hn]. destruct (co_phase c) eqn:Ep.
  4: { apply paced_inside; [by eapply act_past|done|]. intros Hp'. split; [done|]. rewrite Hp'.
       pose proof (act_frame l c c' Hl Ep H Hp') as E. unfold frame in E. by injection E as -> -> ->. }
  all: destruct l as [m|m t|m|m st|m what|m beh|m|m]; cbn [act moment_of] in *; rewrite ?Ep in H; simplify_eq;
    try (unfold shutdown in H; rewrite Ep in H; simplify_eq); try (by apply paced_outside).
  - unfold consumer_lease. destruct (acquire_lease _ _ _ _ _) as [[] k]; done.
  - unfold consumer_epoch. destruct (ensure_epoch _ _ _ _ _). split; [done|]. cbn. split; [done|lia].
  - pose proof valid_periods. unfold consumer_snapshot, in_session. destruct (background_services _ _ _) as [[x|[]] w]; cbn.
    + apply paced_outside; [lia|]. destruct (finalize_past (failure x) (with_world w c)) as [H1 H2]. by destruct (co_phase (finalize _ _)).
    + split; [lia|]. cbn. exists 0. lia.
  - apply paced_outside; [lia|].
    destruct (finalize_past (Some EVENT_CONSUMER_SHUTDOWN, false) c) as [H1 H2]. by destruct (co_phase (finalize _ _)).
  - apply paced_outside; [done|]. by destruct audit_event.
  - apply paced_outside; [done|]. unfold finalize_audit, in_session. by destruct (background_services _ _ _) as [[x|[]] w].
Qed.

(** The life of a consumer is bounded.  With accepted settings, in any
    interleaving with the working task, however the stream, Redis and the database
    behave, the supervisor takes no more than four steps per renewal period within the
    longest life of a run and one more; after that it has ended, and with it the
    working task: a wedged task cannot hold its lease and heartbeat for ever. *)
Theorem supervision_bounded now k w trace c :
  csteps (new_consumer now k w) trace = Some c ->
  Z.of_nat (length (List.filter is_supervisor trace)) <=
    4 * (cs.(agent_run_max_duration_seconds) / cs.(agent_run_consumer_lease_renew_seconds)) + 1.
Proof.
  assert (longest / interval cs = cs.(agent_run_max_duration_seconds) / cs.(agent_run_consumer_lease_renew_seconds)) as Hq.
  { unfold interval, seconds. apply Z.div_mul_cancel_r; [|lia]. pose proof valid_periods as [H _]. unfold interval, seconds in H. lia. }
  rewrite <- Hq. intros H.
  assert (forall n c0, paced n c0 -> csteps c0 trace = Some c -> paced (n + Z.of_nat (length (List.filter is_supervisor trace))) c) as Hind.
  { clear H. induction trace as [|l rest IH]; intros n c0 Hc; cbn [steps]; [by intros [= <-]; rewrite Z.add_0_r|].
    unfold step. destruct (_ <? _) eqn:Et; [done|]. destruct (cact l _) as [c1|] eqn:E; [|done].
    assert (paced n (at_time (mo_now (moment_of l)) c0)) as Hc0.
    { destruct Hc as [H1 H2]. split; [done|]. cbn. apply Z.ltb_ge in Et. destruct (co_phase c0); try done; [lia|].
      destruct H2 as (r & Hr & Hl & H2). exists r. destruct (co_supervisor c0); cbn; split_and!; try done; lia. }
    cbn [List.filter]. intros H. destruct (is_supervisor l) eqn:El.
    - destruct l; try done. pose proof (IH (n + 1) c1 (paced_supervisor n m _ c1 Hc0 eq_refl E) H) as H3. cbn [length].
      replace (n + Z.of_nat (S _)) with (n + 1 + Z.of_nat (length (List.filter is_supervisor rest))) by lia. done.
    - by apply (IH n c1 (paced_other n l _ c1 Hc0 eq_refl El E) H). }
  pose proof valid_periods as [Hi Hl].
  assert (paced 0 (new_consumer now k w)) as H0.
  { pose proof (Z.div_pos longest (interval cs) ltac:(lia) Hi). split; [lia|done]. }
  by destruct (Hind 0 _ H0 H) as [H1 _].
Qed.
End bounded.

(** ** A quiet stream is left alone *)

(** The stream has moved since the window was taken, or at most [n] transitions
    have been made. *)
Record in_window (W : _ProgressWindow) (b : ConsumerBeacon) (n : Z) : Prop := mkInWindow {
  iw_bytes : W.(pw_bytes_read) <= b.(be_bytes_read);
  iw_seq : W.(pw_published_seq) <= b.(be_last_published_seq);
  iw_moved : advanced W b = true \/ b.(be_transitions) - W.(pw_transitions) <= n
}.

Lemma in_window_weaken W b n n' : in_window W b n -> n <= n' -> in_window W b n'.
Proof. intros [H1 H2 H3] Hn. split; [done|done|]. destruct H3; [by left|right; lia]. Qed.

Lemma in_window_fresh now b n : 0 <= n -> in_window (window_of now b) b n.
Proof. intros Hn. split; cbn; lia. Qed.

Lemma in_window_set_state W b n now st : in_window W b n -> in_window W (set_state now st b) (n + 1).
Proof.
  intros [H1 H2 H3]. unfold set_state. case_bool_decide; split; cbn; try done; destruct H3; [by left|right; lia|by left|right; lia].
Qed.

Lemma in_window_note_bytes W b n now count : 0 <= count -> in_window W b n -> in_window W (note_bytes now count b) n.
Proof.
  intros Hc [H1 H2 H3]. unfold note_bytes.
  assert (forall b', b'.(be_bytes_read) = b.(be_bytes_read) /\ b'.(be_last_published_seq) = b.(be_last_published_seq) ->
            (count = 0 -> b' = b) ->
            in_window W (mkBeacon b'.(be_state) b'.(be_since) (b'.(be_bytes_read) + count) b'.(be_last_published_seq) b'.(be_transitions)) n)
    as Hb.
  { intros b' [E1 E2] E3. split; cbn; [lia|lia|]. unfold advanced in *. cbn. destruct (Z.eq_dec count 0) as [E|E].
    - rewrite E3 by done. rewrite E, Z.add_0_r. done.
    - left. apply orb_true_iff. left. lia. }
  destruct ((0 <? count) && _) eqn:E; apply Hb; try done.
  - unfold set_state. by case_bool_decide.
  - intros ->. done.
Qed.

Lemma in_window_seq W b n n' seq : in_window W b n -> b.(be_last_published_seq) < seq -> in_window W (note_seq (Some seq) b) n'.
Proof. intros [H1 H2 H3] Hs. split; cbn; [done|lia|]. left. unfold advanced. cbn. apply orb_true_iff. right. lia. Qed.

Definition window_in (s : SupervisorPc) : option _ProgressWindow :=
  match s with s_waiting W _ | s_renewing W | s_generation W | s_beating W => Some W | s_ended _ => None end.

(** Transitions that the working task may have made without moving the stream. *)
Definition allowance (w : WorkerPc) : Z :=
  match w with
  | w_start | w_process _ _ | w_publish_paused _ => 0
  | w_subscribe | w_read _ _ => 1
  | w_publish _ _ _ => 2
  | w_ended _ => 3
  end.

Definition spared (c : Consumer) : Prop :=
  forall W, window_in c.(co_supervisor) = Some W -> in_window W c.(co_beacon) (allowance c.(co_worker)).

(** Every publication gets a number above the last one. *)
Definition publishes (l : Label) (c c' : Consumer) : Prop :=
  match l, c.(co_worker) with
  | l_worker _, (w_publish _ _ _ | w_publish_paused _) =>
      c.(co_beacon).(be_last_published_seq) < c'.(co_beacon).(be_last_published_seq)
  | _, _ => True
  end.

Fixpoint publishes_all (c : Consumer) (trace : list Label) : Prop :=
  match trace with
  | [] => True
  | l :: rest => match cstep l c with Some c' => publishes l c c' /\ publishes_all c' rest | None => True end
  end.

Lemma spared_proceed now rd c :
  (forall W, window_in c.(co_supervisor) = Some W -> in_window W c.(co_beacon) 1) -> spared (proceed now rd c).
Proof.
  intros Hc W HW. unfold proceed in *. destruct (rd_todo rd) as [|[block raw] todo]; [destruct (rd_eof rd)|]; cbn in *.
  - by eapply in_window_weaken; [apply Hc|].
  - by apply Hc.
  - by apply (in_window_set_state W _ 1), Hc.
Qed.

Lemma spared_receive m buf ts what c : allowance c.(co_worker) = 1 -> spared c -> spared (worker_receive decode loads m buf ts what c).
Proof.
  intros Ha Hc. unfold spared in Hc. rewrite Ha in Hc. unfold worker_receive. destruct what.
  - destruct (blocks_of _) as [blocks rest]. apply spared_proceed. intros W HW. cbn. apply in_window_note_bytes; [lia|by apply Hc].
  - by apply spared_proceed.
  - intros W HW. cbn. by eapply in_window_weaken; [apply Hc|].
Qed.

Lemma spared_process m beh run blk rd c : allowance c.(co_worker) = 0 -> spared c -> spared (worker_process hermes m beh run blk rd c).
Proof.
  intros Ha Hc. unfold spared in Hc. rewrite Ha in Hc. unfold worker_process, in_session.
  destruct (background_services _ _ _) as [[x|[run' [paused|]]] w].
  - intros W HW. cbn. by eapply in_window_weaken; [apply Hc|].
  - intros W HW. by apply Hc.
  - apply spared_proceed. intros W HW. cbn. apply (in_window_set_state W _ 0). by apply Hc.
Qed.

Lemma spared_wake m win c : window_in c.(co_supervisor) = Some win -> spared c -> spared (supervisor_wake cs m win c).
Proof.
  intros Hw Hc. unfold supervisor_wake. destruct (worker_done c); [done|]. destruct (_ <=? _); [done|].
  destruct (is_stalled _ _ _ _); [done|]. intros W HW. cbn in *. injection HW as <-. destruct (advanced win (co_beacon c)).
  - apply in_window_fresh. destruct (co_worker c); cbn; lia.
  - by apply Hc.
Qed.

(** A step of the group that leaves it running. *)
Lemma spared_group c : spared c -> co_phase (group c) = p_running -> spared (group c).
Proof. intros Hc Hp. by rewrite group_running. Qed.

Lemma publish_window m raw c pc :
  (forall W, window_in c.(co_supervisor) = Some W -> in_window W c.(co_beacon) (allowance c.(co_worker))) ->
  c.(co_beacon).(be_last_published_seq) < (publish_raw cs enc m raw c).(co_beacon).(be_last_published_seq) ->
  spared (with_worker pc (publish_raw cs enc m raw c)).
Proof.
  intros Hc Hs W HW. unfold publish_raw in *. destruct (publish _ _ _ _ _ _ _ _) as [[[seq el]|] k]; cbn in *; [|lia].
  by eapply (in_window_seq W (co_beacon c)); [apply Hc|].
Qed.

Lemma act_spared l c c' : cact l c = Some c' -> publishes l c c' -> (c.(co_phase) = p_running -> spared c) ->
  c'.(co_phase) = p_running -> spared c'.
Proof.
  intros H Hf Hc Hp'. destruct (co_phase c) eqn:Ep.
  4: { specialize (Hc eq_refl). destruct l as [m|m t|m|m st|m what|m beh|m|m]; cbn [act] in H; rewrite ?Ep in H; try done.
    - unfold publishes in Hf. destruct (co_worker c) eqn:Ew; simplify_eq.
      + apply spared_group; [|done]. unfold worker_start, in_session. destruct (background_services _ _ _) as [[x|run] w].
        * intros W HW. cbn. eapply in_window_weaken; [by apply Hc|]. by rewrite Ew.
        * intros W HW. cbn. apply (in_window_set_state W _ 0). specialize (Hc W HW). by rewrite Ew in Hc.
      + by apply publish_window.
      + rewrite group_running in Hf by done. apply spared_group; [|done]. by apply publish_window.
    - destruct (co_worker c) eqn:Ew; simplify_eq. apply spared_group; [|done]. intros W HW. specialize (Hc W).
      rewrite Ew in Hc. unfold worker_subscribe in *. destruct st as [code|]; [destruct (_ && _)|]; cbn in *.
      + by apply Hc.
      + by eapply in_window_weaken; [apply Hc|].
      + by eapply in_window_weaken; [apply Hc|].
    - destruct (co_worker c) eqn:Ew; simplify_eq. apply spared_group; [|done]. apply spared_receive; [by rewrite Ew|done].
    - destruct (co_worker c) eqn:Ew; try done. destruct (co_processing c); simplify_eq. apply spared_group; [|done].
      apply spared_process; [by rewrite Ew|done].
    - destruct (co_supervisor c) eqn:Es; try done; [destruct (_ || _); [|done]| | |]; simplify_eq.
      + apply spared_group; [|done]. apply spared_wake; [by rewrite Es|done].
      + apply spared_group; [|done]. unfold supervisor_renew. intros W HW. specialize (Hc W). rewrite Es in Hc.
        by destruct (renew_lease _ _ _ _ _) as [[] k]; cbn in *; try apply Hc.
      + unfold supervisor_generation. intros W HW. specialize (Hc W). rewrite Es in Hc.
        destruct (ensure_epoch _ _ _ _ _). cbn in *. by apply Hc.
      + apply spared_group; [|done]. unfold supervisor_beat, in_session. intros W HW. specialize (Hc W). rewrite Es in Hc.
        destruct (background_services _ _ _) as [[x|b] w]; [destruct (is_SQLAlchemyError x)|]; cbn in *; try done; by apply Hc.
    - unfold shutdown in H. rewrite Ep in H. simplify_eq. by apply cancelled_group in Hp'. }
  all: clear Hc Hf; destruct l as [m|m t|m|m st|m what|m beh|m|m]; cbn [act] in H; rewrite ?Ep in H; simplify_eq;
    try (unfold shutdown in H; rewrite Ep in H; simplify_eq); try done.
  - revert Hp'. unfold consumer_lease. by destruct (acquire_lease _ _ _ _ _) as [[] k].
  - revert Hp'. unfold consumer_epoch. by destruct (ensure_epoch _ _ _ _ _).
  - revert Hp'. unfold consumer_snapshot, in_session. destruct (background_services _ _ _) as [[x|[]] w].
    + by intros Hp'%finalize_past.
    + intros _ W HW. injection HW as <-. apply in_window_fresh. cbn. destruct (co_worker c); cbn; lia.
  - by apply finalize_past in Hp'.
  - revert Hp'. unfold finalize_release. by destruct audit_event.
  - revert Hp'. unfold finalize_audit, in_session. by destruct (background_services _ _ _) as [[x|[]] w].
Qed.

Lemma steps_spared trace : forall c c', publishes_all c trace -> (c.(co_phase) = p_running -> spared c) ->
  csteps c trace = Some c' -> c'.(co_phase) = p_running -> spared c'.
Proof.
  induction trace as [|l rest IH]; intros c c' Hf Hc; cbn [steps publishes_all] in *; [by intros [= <-]|].
  destruct (cstep l c) as [c1|] eqn:E; [|done]. destruct Hf as [Hf Hf']. apply IH; [done|]. unfold step in E.
  destruct (_ <? _); [done|]. apply (act_spared l (at_time (mo_now (moment_of l)) c)); [done|exact Hf|exact Hc].
Qed.

(** A run that waits for its agent is never taken for dead while its events
    are published.  As long as every publication gets a sequence number above the last, the
    supervisor does not judge a consumer stalled that is waiting for upstream, however long
    the silence: liveness is not an idle time-out. *)
Theorem quiet_stream_spared now k w trace c W wake :
  csteps (new_consumer now k w) trace = Some c -> publishes_all (new_consumer now k w) trace ->
  c.(co_phase) = p_running -> c.(co_beacon).(be_state) = BEACON_AWAITING_UPSTREAM -> c.(co_supervisor) = s_waiting W wake ->
  forall later, is_stalled cs later c.(co_beacon) W = false.
Proof.
  intros H Hf Hp Hs Hw later. pose proof (steps_spared trace (new_consumer now k w) c Hf ltac:(done) H Hp W) as Hi.
  rewrite Hw in Hi. destruct (Hi eq_refl) as [_ _ Hm]. unfold is_stalled. rewrite Hs. destruct Hm as [-> |Hm]; [done|].
  unfold _SPIN_TRANSITIONS. assert (be_transitions (co_beacon c) - pw_transitions W < 4) by (destruct (co_worker c); cbn in Hm; lia).
  rewrite (proj2 (Z.leb_gt _ _)) by lia. by rewrite andb_false_r.
Qed.
End watch.

(** ** Scenarios *)

(** A run that speaks and is then silent for an hour. *)
Definition quiet_trace (n : nat) : list Label :=
  subscribe true ++ [l_receive (at_second true 2) (chunk (block_of "d" ++ block_of "u"))] ++ handle true 3 ++ handle true 4 ++
  rounds true 10 n.

Lemma supervision_bounded_witness :
  Z.of_nat (length (List.filter is_supervisor (quiet_trace 359))) <= 4 * (7200 / 10) + 1.
Proof.
  destruct (demo_steps demo_consumer (quiet_trace 359)) as [c|] eqn:E; [|vm_compute in E; discriminate E].
  exact (supervision_bounded consumer_defaults demo_hermes Some demo_loads (fun _ => "{}") id alice "r1" "owner-1" eq_refl
           0 no_keys (run_with_credits 100) (quiet_trace 359) c E).
Defined.

Lemma quiet_stream_spared_witness :
  match demo_steps demo_consumer (quiet_trace 20) with
  | Some c => c.(co_phase) = p_running /\
      match c.(co_supervisor) with
      | s_waiting W _ => is_stalled consumer_defaults (seconds 7000) c.(co_beacon) W = false
      | _ => False
      end
  | None => False
  end.
Proof.
  destruct (demo_steps demo_consumer (quiet_trace 20)) as [c|] eqn:E; [|vm_compute in E; discriminate E].
  assert (co_phase c = p_running /\ be_state (co_beacon c) = BEACON_AWAITING_UPSTREAM /\
          exists W wake, co_supervisor c = s_waiting W wake) as (H1 & H2 & W & wake & H3).
  { vm_compute in E. injection E as <-. split; [reflexivity|]. split; [reflexivity|]. eexists _, _. reflexivity. }
  split; [exact H1|]. rewrite H3.
  apply (quiet_stream_spared consumer_defaults demo_hermes Some demo_loads (fun _ => "{}") id alice "r1" "owner-1"
           0 no_keys (run_with_credits 100) (quiet_trace 20) c W wake); [exact E| |exact H1|exact H2|exact H3].
  vm_compute. repeat split.
Defined.

(** Four blocks in one chunk while Redis is down, a tick in the middle of them,
    and then two minutes of silence. *)
Definition burst_trace : list Label :=
  subscribe false ++ [l_receive (at_second false 9) (chunk (block_of "d" ++ block_of "d" ++ block_of "d" ++ block_of "d"))] ++
  [l_worker (at_second false 9)] ++ round false 10 ++ [l_process (at_second false 10) fresh_run] ++ handle false 10 ++
  handle false 10 ++ handle false 10 ++ rounds false 20 11.

(** Without Redis a live run can be killed for being quiet.  Four events
    arrive in one chunk while publications fail, the supervisor looks in the middle of
    them, and all four are handled; the working task then waits for the agent, which
    the liveness rule calls alive unconditionally, and after the processing threshold
    it is cancelled as stalled. *)
Theorem quiet_run_killed_without_redis :
  exists c c', demo_steps demo_consumer burst_trace = Some c /\
    c.(co_worker) = w_read "" false /\ c.(co_beacon).(be_state) = BEACON_AWAITING_UPSTREAM /\
    demo_step (l_supervisor (at_second false 130)) c = Some c' /\
    c'.(co_worker) = w_ended we_cancelled /\ c'.(co_phase) = p_flush (Some EVENT_CONSUMER_STALLED) false.
Proof.
  destruct (demo_steps demo_consumer burst_trace) as [c|] eqn:E; [|vm_compute in E; discriminate E].
  destruct (demo_step (l_supervisor (at_second false 130)) c) as [c'|] eqn:E'.
  - exists c, c'. vm_compute in E. injection E as <-. vm_compute in E'. injection E' as <-. done.
  - exfalso. vm_compute in E. injection E as <-. vm_compute in E'. discriminate E'.
Qed.
