(* ===== verification/ConsumerOutage.v ===== *)
(** * What the consumer does not depend on

    The working task treats the database in the same way with and without Redis;
    the registry of the process never drives a run twice; and the final flush,
    which asserts the approval it remembers. *)

From Stdlib Require Import SpecFloat Ascii String.
From S2P Require Import Prelude PyVal Redaction Store AuditTrail Logic Fixtures Wallet WalletRun WalletSpec WalletRefine WalletInv.
From S2P Require Import Policy ChatTools Website Instances Manager AgentRuns Usage Sse Hermes AgentService AgentBilling Ring AgentClient Orphans Consumer ConsumerDemo.

Open Scope string_scope.
Open Scope list_scope.
Open Scope Z_scope.

(** ** An outage of Redis *)

(** The same consumer, told other things by Redis. *)
Definition retold (k : RunKeys) (e : string) (seq : Z) (c : Consumer) : Consumer :=
  with_keys k (with_epoch e (with_beacon (note_seq (Some seq) c.(co_beacon)) c)).

Definition twins (c1 c2 : Consumer) : Prop := exists k e seq, c2 = retold k e seq c1.

(** The same moment in a world where Redis answers differently. *)
Definition same_moment (m1 m2 : Moment) : Prop := m1.(mo_now) = m2.(mo_now) /\ m1.(mo_env) = m2.(mo_env).

(** The same step of the working task. *)
Definition same_work (l1 l2 : Label) : Prop :=
  match l1, l2 with
  | l_worker m1, l_worker m2 => same_moment m1 m2
  | l_response m1 s1, l_response m2 s2 => same_moment m1 m2 /\ s1 = s2
  | l_receive m1 x1, l_receive m2 x2 => same_moment m1 m2 /\ x1 = x2
  | l_process m1 b1, l_process m2 b2 => same_moment m1 m2 /\ b1 = b2
  | _, _ => False
  end.

Section outage.
Context (cs : ConsumerSettings) (hermes : Hermes) (decode : string -> option string) (loads : string -> option json)
        (dumps : json -> string) (enc : string -> string) (u : uuid) (run_id owner : string).

Notation cact := (act cs hermes decode loads dumps enc u run_id owner).
Notation csteps := (steps cs hermes decode loads dumps enc u run_id owner).

#[local] Arguments note_seq : simpl never.

(** Redis does not matter to anything else. *)
Lemma group_retold k e s c : group (retold k e s c) = retold k e s (group c).
Proof.
  destruct c as [now p w sv b ep t r h ks d]. destruct w as [| | | | | |[]], sv as [| | | |[]]; cbn; try done; by destruct r.
Qed.

Lemma set_state_retold now st seq b : set_state now st (note_seq (Some seq) b) = note_seq (Some seq) (set_state now st b).
Proof. unfold set_state, note_seq. cbn. by case_bool_decide. Qed.

Lemma note_bytes_retold now n seq b : note_bytes now n (note_seq (Some seq) b) = note_seq (Some seq) (note_bytes now n b).
Proof. unfold note_bytes, set_state, note_seq. cbn. destruct (_ && _); [by case_bool_decide|done]. Qed.

Lemma proceed_retold now rd k e s c : proceed now rd (retold k e s c) = retold k e s (proceed now rd c).
Proof.
  unfold proceed. destruct (rd_todo rd) as [|[block raw] todo]; [by destruct (rd_eof rd)|]. unfold retold. cbn.
  by rewrite set_state_retold.
Qed.

Lemma in_session_retold {A} m1 m2 (op : M A) k e s c : m1.(mo_env) = m2.(mo_env) ->
  in_session m2 op (retold k e s c) = ((in_session m1 op c).1, retold k e s (in_session m1 op c).2).
Proof. intros E. unfold in_session. rewrite E. cbn. by destruct (background_services _ _ _). Qed.

Lemma start_retold m1 m2 k e s c : same_moment m1 m2 ->
  worker_start u run_id m2 (retold k e s c) = retold k e s (worker_start u run_id m1 c).
Proof.
  intros [En Ee]. unfold worker_start. rewrite (in_session_retold m1) by done.
  destruct (in_session m1 (new_run_processing u run_id) c) as [[x|run] c1]; cbn; [done|]. unfold retold. cbn.
  by rewrite set_state_retold, En.
Qed.

Lemma subscribe_retold st k e s c : worker_subscribe st (retold k e s c) = retold k e s (worker_subscribe st c).
Proof. unfold worker_subscribe. destruct st as [code|]; [|done]. by destruct (_ && _). Qed.

Lemma receive_retold m1 m2 buf ts what k e s c : same_moment m1 m2 ->
  worker_receive decode loads m2 buf ts what (retold k e s c) = retold k e s (worker_receive decode loads m1 buf ts what c).
Proof.
  intros [En Ee]. unfold worker_receive. rewrite <- En. destruct what; [| |done].
  - destruct (blocks_of _) as [blocks rest]. rewrite <- proceed_retold. f_equal. unfold retold. cbn. by rewrite note_bytes_retold.
  - by rewrite proceed_retold.
Qed.

Lemma process_retold m1 m2 beh run blk rd k e s c : same_moment m1 m2 ->
  worker_process hermes m2 beh run blk rd (retold k e s c) = retold k e s (worker_process hermes m1 beh run blk rd c).
Proof.
  intros [En Ee]. unfold worker_process. rewrite (in_session_retold m1) by done. rewrite <- En.
  destruct (in_session m1 (process_event hermes run blk) c) as [[x|[run' [paused|]]] c1]; cbn [fst snd]; [done|done|].
  rewrite <- proceed_retold. f_equal. unfold retold. cbn. by rewrite set_state_retold.
Qed.

(** Whatever a publication returns, only what Redis told changes. *)
Lemma publish_retold m1 m2 raw p k e s c :
  twins (with_worker p (publish_raw cs enc m1 raw c)) (with_worker p (publish_raw cs enc m2 raw (retold k e s c))).
Proof.
  unfold publish_raw, twins, retold. cbn.
  destruct (publish _ _ _ _ _ _ _ (co_keys c)) as [[[n1 el1]|] k1], (publish _ _ _ _ _ _ _ k) as [[[n2 el2]|] k2]; cbn;
    eexists k2, e, _; reflexivity.
Qed.

Lemma twins_group c1 c2 : twins c1 c2 -> twins (group c1) (group c2).
Proof. intros (k & e & s & ->). exists k, e, s. apply group_retold. Qed.

Lemma act_twins l1 l2 c1 c2 c1' : same_work l1 l2 -> twins c1 c2 -> cact l1 c1 = Some c1' ->
  exists c2', cact l2 c2 = Some c2' /\ twins c1' c2'.
Proof.
  intros Hl (k & e & s & ->) H.
  destruct l1 as [m1|m1 t1|m1|m1 st|m1 what|m1 beh|m1|m1], l2; try done; cbn [act same_work] in *; destruct (co_phase c1) eqn:Ep; try done;
    cbn [co_phase retold with_keys with_epoch with_beacon co_worker co_processing]; rewrite Ep.
  - destruct (co_worker c1); simplify_eq; eexists; (split; [reflexivity|]).
    + apply twins_group. exists k, e, s. by apply start_retold.
    + apply publish_retold.
    + apply twins_group, publish_retold.
  - destruct Hl as [Hm <-]. destruct (co_worker c1); simplify_eq. eexists. split; [reflexivity|]. apply twins_group. exists k, e, s.
    apply subscribe_retold.
  - destruct Hl as [Hm <-]. destruct (co_worker c1); simplify_eq. eexists. split; [reflexivity|]. apply twins_group. exists k, e, s.
    by apply receive_retold.
  - destruct Hl as [Hm <-]. destruct (co_worker c1); try done. destruct (co_processing c1); simplify_eq. eexists. split; [reflexivity|].
    apply twins_group. exists k, e, s. by apply process_retold.
Qed.

End outage.

(** Redis answers one of them and not the other; the run is billed alike. *)
Definition work (up : bool) : list Label :=
  [l_worker (at_second up 0); l_response (at_second up 1) (Some 200);
   l_receive (at_second up 2) (chunk (block_of "d" ++ block_of "u"))] ++ handle up 3 ++ handle up 4.

Definition running_consumer : Consumer :=
  with_phase p_running (with_supervisor (s_waiting (mkWindow 0 0 0 0) (seconds 10)) demo_consumer).


(** ** One live task per run *)

(** A request starts a consumer, a task ends, its callback runs. *)
Inductive registry_step (r : ConsumerRegistry) : ConsumerRegistry -> Prop :=
| rs_start run_id : registry_step r (start run_id r).2
| rs_end i : registry_step r (end_task i r)
| rs_forget run_id i t : r.(cr_all) !! i = Some t -> t.(tk_run_id) = run_id -> t.(tk_done) = true -> registry_step r (_forget run_id i r)
| rs_drain survive : registry_step r (drain survive r).2.

Record registry_ok (r : ConsumerRegistry) : Prop := mkRegistryOk {
  ro_listed : forall i t, r.(cr_all) !! i = Some t -> t.(tk_done) = false -> r.(cr_tasks) !! t.(tk_run_id) = Some i;
  ro_known : forall run_id i, r.(cr_tasks) !! run_id = Some i -> exists t, r.(cr_all) !! i = Some t /\ t.(tk_run_id) = run_id
}.

Lemma registry_new run_id r :
  registry_ok r -> (forall i, r.(cr_tasks) !! run_id = Some i -> task_done r i = true) ->
  registry_ok (mkRegistry (<[run_id := length r.(cr_all)]> r.(cr_tasks)) (r.(cr_all) ++ [mkTask run_id false])).
Proof.
  intros [H1 H2] Hd. split; cbn.
  - intros i t Hi Ht. apply lookup_app_Some in Hi as [Hi|[Hi Hs]].
    + specialize (H1 i t Hi Ht). destruct (decide (tk_run_id t = run_id)) as [E|E]; [|by rewrite lookup_insert_ne].
      subst run_id. specialize (Hd i H1). unfold task_done in Hd. rewrite Hi in Hd. congruence.
    + apply list_lookup_singleton_Some in Hs as [Hs <-]. cbn. rewrite lookup_insert_eq. f_equal. lia.
  - intros k i. destruct (decide (k = run_id)) as [-> |E].
    + rewrite lookup_insert_eq. intros [= <-]. exists (mkTask run_id false). split; [|done].
      rewrite lookup_app_r, Nat.sub_diag by lia. done.
    + rewrite lookup_insert_ne by done. intros (t & Ht & Hk)%H2. exists t. split; [|done]. by apply lookup_app_l_Some.
Qed.

Lemma registry_end i r : registry_ok r -> registry_ok (end_task i r).
Proof.
  intros [H1 H2]. split; cbn.
  - intros j t Hj Ht. destruct (decide (i = j)) as [-> |E].
    + rewrite list_lookup_alter_eq in Hj. destruct (cr_all r !! j); simplify_eq/=.
    + rewrite list_lookup_alter_ne in Hj by done. by apply H1.
  - intros k j (t & Ht & Hk)%H2. destruct (decide (i = j)) as [-> |E].
    + rewrite list_lookup_alter_eq, Ht. cbn. by eexists.
    + rewrite list_lookup_alter_ne by done. by exists t.
Qed.

Lemma registry_step_ok r r' : registry_ok r -> registry_step r r' -> registry_ok r'.
Proof.
  intros Hr [run_id|i|run_id i t Hi Hk Hd|survive].
  - unfold start. destruct (cr_tasks r !! run_id) as [i|] eqn:E; [|apply registry_new; [done|congruence]].
    destruct (task_done r i) eqn:Ed; [|done]. apply registry_new; [done|]. intros j Hj. congruence.
  - by apply registry_end.
  - unfold _forget. case_bool_decide as E; [|done]. destruct Hr as [H1 H2]. split; cbn.
    + intros j t' Hj Ht'. specialize (H1 j t' Hj Ht'). rewrite lookup_delete_ne; [done|]. intros Hk'. rewrite <- Hk' in H1. congruence.
    + intros k j (_ & Hj)%lookup_delete_Some. by apply H2.
  - unfold drain. cbn. generalize (live_tasks r). intros l. revert r Hr. induction l as [|kv l IH]; intros r Hr; cbn; [done|].
    apply IH. destruct (survive kv.2); [done|by apply registry_end].
Qed.

(** A process never drives a run twice.  However starts, ends, callbacks and
    drains are interleaved, two consumer tasks of the same run are never alive
    together, and every live task is the one the registry lists for its run, so a
    start during its life returns it instead of subscribing again to the one-shot
    stream. *)
Theorem one_consumer_per_run r i j t t' :
  rtc registry_step empty_registry r -> r.(cr_all) !! i = Some t -> r.(cr_all) !! j = Some t' ->
  t.(tk_done) = false -> t'.(tk_done) = false -> t.(tk_run_id) = t'.(tk_run_id) ->
  i = j /\ start t.(tk_run_id) r = (i, r).
Proof.
  intros Hr Hi Hj Ht Ht' Hk. assert (registry_ok r) as [H1 _].
  { eapply (rtc_ind_r (fun r => registry_ok r)); [| |exact Hr]; [by split|]. intros x y _ Hs Hx. by eapply registry_step_ok. }
  pose proof (H1 i t Hi Ht) as Ei. pose proof (H1 j t' Hj Ht') as Ej. rewrite <- Hk in Ej. split; [congruence|].
  unfold start. rewrite Ei. unfold task_done. by rewrite Hi, Ht.
Qed.

(** A consumer that is started, ends, is started again; the callback of the first comes late. *)
Definition restarted : ConsumerRegistry := _forget "r1" 0 (start "r1" (end_task 0 (start "r1" empty_registry).2)).2.

Lemma one_consumer_per_run_witness : start "r1" restarted = (1%nat, restarted).
Proof.
  apply (one_consumer_per_run restarted 1 1 (mkTask "r1" false) (mkTask "r1" false)); try reflexivity.
  eapply rtc_l; [apply (rs_start empty_registry "r1")|]. eapply rtc_l; [apply (rs_end _ 0)|]. eapply rtc_l; [apply (rs_start _ "r1")|].
  eapply rtc_l; [|apply rtc_refl]. apply (rs_forget _ "r1" 0 (mkTask "r1" true)); reflexivity.
Defined.

(** ** The approval that the final flush remembers *)

Definition pending_of (w : World) : option (option json) := sn_pending_approval <$> w.(w_committed).(agent_run_snapshots) !! "r1".

(** An approval request has been handled and the agent waits. *)
Definition asked_trace : list Label :=
  subscribe true ++ [l_receive (at_second true 2) (chunk (block_of "a"))] ++ handle true 3.

(** The final flush brings an answered approval back.  A run asks for an
    approval, the client answers it and the pending approval is cleared; when the
    process then shuts down, the flush of the consumer asserts the approval it
    remembers, and the client is told again that the run waits for an answer. *)
Theorem final_flush_resurrects_approval :
  exists c c', demo_steps demo_consumer asked_trace = Some c /\
    let answered := (session_scope (approval demo_hermes alice "r1" [("decision", JStr "approve")]) billing_env c.(co_world)).2 in
    pending_of answered = Some None /\
    demo_steps (with_world answered c) [l_shutdown (at_second true 5); l_flush (at_second true 5) false] = Some c' /\
    exists p, pending_of c'.(co_world) = Some (Some p).
Proof.
  destruct (demo_steps demo_consumer asked_trace) as [c|] eqn:E; [|vm_compute in E; discriminate E].
  destruct (demo_steps (with_world (session_scope (approval demo_hermes alice "r1" [("decision", JStr "approve")]) billing_env
              c.(co_world)).2 c) [l_shutdown (at_second true 5); l_flush (at_second true 5) false]) as [c'|] eqn:E'.
  - exists c, c'. vm_compute in E. injection E as <-. vm_compute in E'. injection E' as <-.
    split; [done|]. split; [vm_compute; reflexivity|]. split; [vm_compute; reflexivity|]. eexists. vm_compute. reflexivity.
  - exfalso. vm_compute in E. injection E as <-. vm_compute in E'. discriminate E'.
Qed.
