(* ===== verification/Reaper.v ===== *)
(** * The reaper

    Models [src/app/hermes_runtime/reaper.py]: the tick that hibernates idle
    instances, clears old snapshots and sweeps orphaned runs, and the loop that no
    failing tick stops.  The theorem ties it to the heartbeat of the consumer. *)

From Stdlib Require Import SpecFloat Ascii String.
From stdpp Require Import sorting.
From S2P Require Import Prelude PyVal Redaction Store AuditTrail Logic Fixtures Wallet WalletRun WalletSpec WalletRefine WalletInv.
From S2P Require Import Policy Byok ChatTools Website InstanceConfig Instances Manager InstanceLife AgentRuns Usage Hermes AgentService AgentBilling AgentClient Orphans Consumer.

Open Scope string_scope.
Open Scope list_scope.
Open Scope Z_scope.

Section reaper.
Context (rt : Runtime) (hs : RuntimeSettings) (bus : Bus) (age_json : Z -> json).
(** [AGENT_RUN_SNAPSHOT_TTL_DAYS] and [AGENT_RUN_CONSUMER_ENABLED]. *)
Context (ttl_days : Z) (consumer_enabled : bool).

(** The committed transaction of a tick. *)
Definition hibernation_pass : M unit :=
  session_scope (
    _ ← Manager.stop_idle rt hs.(hermes_idle_timeout_seconds);
    _ ← Snapshots.sweep_expired ttl_days;
    mret tt).

Definition _run_one_tick : M unit :=
  hibernation_pass;;
  if consumer_enabled then _ ← sweep_orphan_runs bus age_json; mret tt else mret tt.

(** [n] turns of the loop: an exception of a tick is logged, its session is
    closed, and the loop sleeps and goes on.  Every turn has its own
    environment. *)
Fixpoint run_reaper (turns : list Env) (w : World) : World :=
  match turns with
  | [] => w
  | e :: rest => let '(_, w') := _run_one_tick e w in run_reaper rest (with_db w'.(w_committed) w')
  end.

(** ** An instance in use is not hibernated *)

(** The user's row and container are exactly these. *)
Definition instance_is (u : uuid) (r : HermesInstance) (d : Db) : Prop := d.(hermes_instances) !! u = Some r.

Definition container_is (id : string) (k : option Container) (w : World) : Prop := w.(w_host).(containers) !! id = k.

(** No other row claims the container. *)
Definition owns (u : uuid) (id : string) (d : Db) : Prop :=
  forall v r, d.(hermes_instances) !! v = Some r -> or_else r.(in_container_id) "" = id -> v = u.

Lemma stop_sync_other c id k e w : c.(cr_container_id) <> id -> container_is id k w ->
  let '(_, w') := Docker._stop_sync rt c e w in container_is id k w' /\ w'.(w_db) = w.(w_db) /\ w'.(w_committed) = w.(w_committed).
Proof.
  intros Hc Hk. unfold Docker._stop_sync. do 2 (erewrite bind_inr by reflexivity). cbn.
  destruct (docker_up rt (w_ticks w)); cbn; [|done]. destruct (containers (w_host w) !! cr_container_id c); [|done].
  split; [|done]. unfold container_is. cbn. by rewrite lookup_insert_ne.
Qed.

(** One instance of the batch. *)
Definition stop_one (v : uuid) (r : HermesInstance) : M bool :=
  try_except (Docker._stop_sync rt (Manager._container_ref_from_row v r);; mret true)
    (fun x => if is_UpstreamError x then Some (mret false) else None).

Lemma stop_one_other v r id k e w : or_else r.(in_container_id) "" <> id -> container_is id k w ->
  let '(_, w') := stop_one v r e w in container_is id k w' /\ w'.(w_db) = w.(w_db) /\ w'.(w_committed) = w.(w_committed).
Proof.
  intros Hc Hk. pose proof (stop_sync_other (Manager._container_ref_from_row v r) id k e w Hc Hk) as H.
  unfold stop_one, try_except, mbind, M_bind. destruct (Docker._stop_sync rt _ e w) as [[x|[]] w']; cbn; [|done].
  destruct (is_UpstreamError x); done.
Qed.

Definition kept (u : uuid) (r : HermesInstance) (id : string) (k : option Container) (w : World) : Prop :=
  instance_is u r w.(w_db) /\ container_is id k w.

Lemma stop_rows_other u r id k e rows : forall n w,
  Forall (fun kv => kv.1 <> u /\ or_else kv.2.(in_container_id) "" <> id) rows -> kept u r id k w ->
  kept u r id k (Manager.stop_rows rt rows n e w).2 /\
  (Manager.stop_rows rt rows n e w).2.(w_committed) = w.(w_committed).
Proof.
  induction rows as [|[v r'] rows IH]; intros n w Hrows [Hu Hk]; cbn [Manager.stop_rows]; [done|].
  apply Forall_cons in Hrows as [[Hv Hid] Hrows]. cbn in Hv, Hid. fold (stop_one v r').
  pose proof (stop_one_other v r' id k e w Hid Hk) as H. unfold mbind at 1, M_bind at 1. unfold mbind at 2, M_bind at 2.
  destruct (stop_one v r' e w) as [[x|b] w1]; destruct H as (H1 & H2 & H3).
  - cbn. unfold kept. rewrite H2. done.
  - destruct b.
    + unfold Registry.mark_stopped, Registry.update, Registry.get, mbind, M_bind, get_db. cbn.
      destruct (hermes_instances (w_db w1) !! v) as [rv|]; cbn.
      * match goal with |- context [Manager.stop_rows rt rows (n + 1) e ?w2] =>
          pose proof (IH (n + 1) w2 Hrows) as Hi end. cbn in Hi. rewrite <- H3.
        apply Hi. split; [|done]. unfold instance_is. cbn. rewrite lookup_insert_ne, H2 by done. exact Hu.
      * rewrite <- H3. apply IH; [done|]. split; [by unfold instance_is; rewrite H2|done].
    + rewrite <- H3. apply IH; [done|]. split; [by unfold instance_is; rewrite H2|done].
Qed.

(** What the batch holds. *)
Lemma idle_rows_spec s limit e w kv : kv ∈ match (Registry.list_idle_running s limit e w).1 with inr rows => rows | inl _ => [] end ->
  w.(w_db).(hermes_instances) !! kv.1 = Some kv.2 /\ kv.2.(in_last_active_at) < e.(env_clock) w.(w_ticks) - s * 1000000.
Proof.
  cbn. intros Hk. apply (subseteq_take limit) in Hk. rewrite merge_sort_Permutation in Hk.
  apply list_elem_of_filter in Hk as [[_ Hi] Hm]. destruct kv as [v r]. by apply elem_of_map_to_list in Hm.
Qed.

Lemma hibernation_keeps u r id k e w :
  w.(w_db) = w.(w_committed) -> kept u r id k w -> or_else r.(in_container_id) "" = id -> owns u id w.(w_db) ->
  e.(env_clock) w.(w_ticks) - hs.(hermes_idle_timeout_seconds) * 1000000 <= r.(in_last_active_at) ->
  instance_is u r (hibernation_pass e w).2.(w_committed) /\ container_is id k (hibernation_pass e w).2.
Proof.
  intros Hs Hk Hid Hown Hact. unfold hibernation_pass, session_scope, Manager.stop_idle.
  pose proof (fun kv => idle_rows_spec hs.(hermes_idle_timeout_seconds) _REAPER_BATCH_LIMIT e w kv) as Hidle.
  set (w1 := mkWorld w.(w_db) w.(w_committed) w.(w_uuids) (S w.(w_ticks)) w.(w_seq) w.(w_metrics) w.(w_host)).
  assert (exists rows, Registry.list_idle_running hs.(hermes_idle_timeout_seconds) _REAPER_BATCH_LIMIT e w = (inr rows, w1)) as [rows E]
    by (unfold Registry.list_idle_running, mbind, M_bind; cbn; eexists; reflexivity).
  rewrite E in Hidle. cbn [fst] in Hidle.
  assert (Forall (fun kv => kv.1 <> u /\ or_else kv.2.(in_container_id) "" <> id) rows) as Hf.
  { apply Forall_forall. intros kv Hkv. destruct (Hidle kv Hkv) as [H1 H2]. assert (kv.1 <> u) as Hne.
    { intros Hu. rewrite Hu in H1. destruct Hk as [Hk _]. unfold instance_is in Hk. rewrite Hk in H1. injection H1 as H1. rewrite <- H1 in H2. lia. }
    split; [done|]. intros Hc. by apply Hne, (Hown kv.1 kv.2). }
  destruct (stop_rows_other u r id k e rows 0 w1 Hf Hk) as [[H1 H2] H3].
  unfold mbind, M_bind. rewrite E. destruct (Manager.stop_rows rt rows 0 e w1) as [[x|n] w2]; cbn in *.
  - split; [|done]. rewrite H3, <- Hs. apply Hk.
  - done.
Qed.

(** A run that is being consumed keeps its instance awake.  After a
    heartbeat of the consumer, a hibernation pass within the idle time leaves the
    user's container as it was and the user's row unchanged but for the new
    activity stamp, whichever instances the pass stops and whether or not Docker
    answers. *)
Theorem heartbeat_keeps_instance_awake u run_id r id k e1 e2 w :
  w.(w_db) = w.(w_committed) -> kept u r id k w -> or_else r.(in_container_id) "" = id -> owns u id w.(w_db) ->
  let w1 := (background_services (consumer_heartbeat u run_id) e1 w).2 in
  e2.(env_clock) w1.(w_ticks) <= e1.(env_clock) w.(w_ticks) + hs.(hermes_idle_timeout_seconds) * 1000000 ->
  let w2 := (hibernation_pass e2 w1).2 in
  w2.(w_committed).(hermes_instances) !! u = Some (Registry.with_active (e1.(env_clock) w.(w_ticks)) r) /\
  w2.(w_host).(containers) !! id = k.
Proof.
  intros Hs [Hr Hk] Hid Hown w1 Hclock w2. set (r' := Registry.with_active (e1.(env_clock) w.(w_ticks)) r).
  assert (w1.(w_db) = w1.(w_committed) /\ w1.(w_db).(hermes_instances) = <[u := r']> w.(w_db).(hermes_instances) /\ w1.(w_host) = w.(w_host))
    as (E1 & E2 & E3).
  { unfold w1, background_services, consumer_heartbeat, Snapshots.touch_consumer_heartbeat. unfold instance_is in Hr.
    unfold Manager.touch_active, Registry.touch_active, Registry.update, Registry.get, mbind, M_bind, get_db, pg_now. cbn.
    destruct (agent_run_snapshots (w_db w) !! run_id); cbn; rewrite Hr; cbn; done. }
  apply (hibernation_keeps u r' id k e2 w1); [done| |done| |cbn; lia].
  - split; [|by unfold container_is; rewrite E3]. unfold instance_is. by rewrite E2, lookup_insert_eq.
  - intros v rv. rewrite E2. destruct (decide (v = u)) as [-> |Hne]; [done|]. rewrite lookup_insert_ne by done. apply Hown.
Qed.
End reaper.

(** Alice's instance has been idle for years; bob's has no heartbeat. *)
Definition idle_row (u : uuid) (id : string) : HermesInstance :=
  mkInstance (Some id) (Some (own_address u)) "ctoken" "kbytes" "bytes" hi_running None 0 (Some 0) 0.

Definition idle_world : World :=
  let d := set_hermes_instances {[ alice := idle_row alice "c-a"; bob := idle_row bob "c-b" ]} demo_db in
  mkWorld d d 0 0 0 [] (mkHost {[ "c-a" := mkContainer (_container_name alice) true; "c-b" := mkContainer (_container_name bob) true ]} ∅).

Lemma heartbeat_keeps_instance_awake_witness :
  let w1 := (background_services (consumer_heartbeat alice "r1") demo_env idle_world).2 in
  let w2 := (hibernation_pass (demo_rt healthy) demo_runtime 14 demo_env w1).2 in
  w2.(w_committed).(hermes_instances) !! alice = Some (Registry.with_active 1700000000000000 (idle_row alice "c-a")) /\
  w2.(w_host).(containers) !! "c-a" = Some (mkContainer (_container_name alice) true) /\
  (in_status <$> w2.(w_committed).(hermes_instances) !! bob) = Some hi_stopped.
Proof.
  intros w1 w2.
  assert (kept alice (idle_row alice "c-a") "c-a" (Some (mkContainer (_container_name alice) true)) idle_world) as Hk
    by (split; vm_compute; reflexivity).
  assert (owns alice "c-a" idle_world.(w_db)) as Ho.
  { intros v r Hr Hc. change (({[ alice := idle_row alice "c-a"; bob := idle_row bob "c-b" ]} : gmap uuid HermesInstance) !! v = Some r) in Hr.
    apply lookup_insert_Some in Hr as [[Hv _]|[_ Hr]]; [done|]. apply lookup_singleton_Some in Hr as [_ <-]. vm_compute in Hc. discriminate Hc. }
  destruct (heartbeat_keeps_instance_awake (demo_rt healthy) demo_runtime 14 alice "r1" (idle_row alice "c-a") "c-a"
              (Some (mkContainer (_container_name alice) true)) demo_env demo_env idle_world eq_refl Hk eq_refl Ho) as [H1 H2].
  - vm_compute. discriminate.
  - split; [exact H1|]. split; [exact H2|]. vm_compute. reflexivity.
Defined.
