(* ===== verification/RateLimit.v ===== *)
(** * Rate limiting

    Models [src/app/api_gateway/rate_limit.py]: a sliding window per key, kept
    as a sorted set in Redis, and the limits of the chat, admin, auth, webhook
    and remaining routes.  A set maps its members to their scores, which are
    readings of the process clock ([time.time()], in microseconds); a key also
    has the instant, in milliseconds of the clock of Redis, at which it expires. *)

From Stdlib Require Import Ascii String.
From stdpp Require Import sorting.
From S2P Require Import Prelude PyVal Redaction Store Uuid.

Open Scope string_scope.
Open Scope list_scope.
Open Scope Z_scope.

Notation ZSets := (gmap string (gmap string Z * Z)).

(** What became of the pipeline: executed and answered, never executed, or
    executed with the answer lost; the last two raise [RedisError]. *)
Inductive Delivery : Type := answered | refused | answer_lost.

#[global] Instance Delivery_eq_dec : EqDecision Delivery.
Proof. solve_decision. Defined.

(** One call: the clocks, the fresh member [now:uuid4] and the fate of the
    pipeline. *)
Record Attempt : Type := mkAttempt {
  at_now : Z;
  at_redis_now : Z;
  at_member : string;
  at_delivery : Delivery
}.

Record RateSettings : Type := mkRateSettings {
  rate_limit_chat_per_user : Z;
  rate_limit_chat_per_device : Z;
  rate_limit_chat_per_ip : Z;
  rate_limit_other_per_user : Z;
  admin_rate_limit_per_min : Z;
  auth_rate_limit_per_ip : Z;
  cloudpayments_webhook_rate_limit_per_ip : Z;
  rate_limit_window_seconds : Z
}.

(** ** The window *)

(** The sorted set of a key, if it has not expired. *)
Definition members (redis_now : Z) (key : string) (s : ZSets) : gmap string Z :=
  match s !! key with
  | Some (set, exp) => if redis_now <? exp then set else ∅
  | None => ∅
  end.

(** ZREMRANGEBYSCORE key 0 cutoff *)
Definition pruned (cutoff : Z) (set : gmap string Z) : gmap string Z :=
  filter (fun kv => ~ (0 <= kv.2 /\ kv.2 <= cutoff)) set.

(** The four commands, one transaction; EXPIRE with no time left deletes the
    key. *)
Definition pipeline (a : Attempt) (key : string) (window_seconds : Z) (s : ZSets) : Z * ZSets :=
  let cutoff := a.(at_now) - window_seconds * 1000000 in
  let set := <[a.(at_member) := a.(at_now)]> (pruned cutoff (members a.(at_redis_now) key s)) in
  (Z.of_nat (size set),
   if window_seconds <=? 0 then base.delete key s
   else <[key := (set, a.(at_redis_now) + window_seconds * 1000)]> s).

(** [None] is a [RedisError]. *)
Definition _allow (a : Attempt) (key : string) (limit window_seconds : Z) (s : ZSets) : option bool * ZSets :=
  match a.(at_delivery) with
  | refused => (None, s)
  | answered => let '(count, s) := pipeline a key window_seconds s in (Some (count <=? limit), s)
  | answer_lost => (None, (pipeline a key window_seconds s).2)
  end.

(** ** The limits *)

Section limits.
Context (rs : RateSettings).

Definition or_unknown (ip : option string) : string :=
  match ip with Some (String _ _ as s) => s | _ => "unknown" end.

Definition check_of (prefix : string) (subject : option string) (limit : Z) : list (string * Z) :=
  match subject with
  | Some (String _ _ as s) => [((prefix ++ s)%string, limit)]
  | _ => []
  end.

(** The keys of a chat request with their limits. *)
Definition chat_checks (u : uuid) (device_id ip : option string) : list (string * Z) :=
  [(("rl:user:" ++ uuid_str u)%string, rs.(rate_limit_chat_per_user))] ++
  check_of "rl:dev:" device_id rs.(rate_limit_chat_per_device) ++
  check_of "rl:ip:" ip rs.(rate_limit_chat_per_ip).

(** The loop over the checks, each with its own reading of the clocks: the first
    one exceeded ends it, a [RedisError] lets the request through. *)
Fixpoint check_all (attempts : list Attempt) (checks : list (string * Z)) (s : ZSets) : bool * ZSets :=
  match checks, attempts with
  | (key, limit) :: checks, a :: attempts =>
      match _allow a key limit rs.(rate_limit_window_seconds) s with
      | (None, s) => (true, s)
      | (Some false, s) => (false, s)
      | (Some true, s) => check_all attempts checks s
      end
  | _, _ => (true, s)
  end.

Definition enforce_chat_limits (attempts : list Attempt) (u : uuid) (device_id ip : option string) (s : ZSets) : bool * ZSets :=
  check_all attempts (chat_checks u device_id ip) s.

(** One key, open when Redis is away. *)
Definition enforce_one (a : Attempt) (key : string) (limit : Z) (s : ZSets) : bool * ZSets :=
  match _allow a key limit rs.(rate_limit_window_seconds) s with
  | (None, s) => (true, s)
  | (Some ok, s) => (ok, s)
  end.

Definition enforce_admin_limits (a : Attempt) (ip : option string) (s : ZSets) : bool * ZSets :=
  enforce_one a ("rl:admin:" ++ or_unknown ip)%string rs.(admin_rate_limit_per_min) s.

Definition enforce_auth_limits (a : Attempt) (ip : option string) (s : ZSets) : bool * ZSets :=
  enforce_one a ("rl:auth:" ++ or_unknown ip)%string rs.(auth_rate_limit_per_ip) s.

Definition enforce_cloudpayments_webhook_limits (a : Attempt) (ip : option string) (s : ZSets) : bool * ZSets :=
  enforce_one a ("rl:cpwh:" ++ or_unknown ip)%string rs.(cloudpayments_webhook_rate_limit_per_ip) s.

Definition enforce_other_limits (a : Attempt) (u : uuid) (s : ZSets) : bool * ZSets :=
  enforce_one a ("rl:other:" ++ uuid_str u)%string rs.(rate_limit_other_per_user) s.
End limits.

(** ** The window counts exactly the recent attempts *)

(** A history: the keys asked for, with the limit and the attempt, oldest
    first. *)
Record Ask : Type := mkAsk { ask_key : string; ask_limit : Z; ask_attempt : Attempt }.

Definition replayed (window : Z) (history : list Ask) : ZSets :=
  foldl (fun s a => (_allow a.(ask_attempt) a.(ask_key) a.(ask_limit) window s).2) ∅ history.

(** The process clocks do not go back, and the clock of Redis does not run ahead
    of them. *)
Definition follows (a b : Ask) : Prop :=
  a.(ask_attempt).(at_now) <= b.(ask_attempt).(at_now) /\
  1000 * (b.(ask_attempt).(at_redis_now) - a.(ask_attempt).(at_redis_now)) <=
    b.(ask_attempt).(at_now) - a.(ask_attempt).(at_now).

Definition counts (key : string) (after : Z) (a : Ask) : Prop :=
  a.(ask_key) = key /\ a.(ask_attempt).(at_delivery) <> refused /\ after < a.(ask_attempt).(at_now).

#[global] Instance counts_dec key after a : Decision (counts key after a).
Proof. unfold counts. apply _. Defined.

Definition recent (window : Z) (key : string) (now : Z) (history : list Ask) : list Ask :=
  filter (counts key (now - window * 1000000)) history.

Definition member_of (a : Ask) : string := a.(ask_attempt).(at_member).

Section window.
Context (window : Z).
Hypothesis Hwindow : 0 < window.

(** What a later attempt finds in the set of the key. *)
Definition visible (key : string) (c : Ask) (s : ZSets) : gmap string Z :=
  pruned (c.(ask_attempt).(at_now) - window * 1000000) (members c.(ask_attempt).(at_redis_now) key s).

Lemma pruned_lookup cutoff (set : gmap string Z) m t :
  pruned cutoff set !! m = Some t <-> set !! m = Some t /\ ~ (0 <= t /\ t <= cutoff).
Proof. unfold pruned. apply map_lookup_filter_Some. Qed.

Lemma allow_stores a key limit s :
  (_allow a key limit window s).2 =
  if bool_decide (a.(at_delivery) = refused) then s else
  <[key := (<[a.(at_member) := a.(at_now)]> (pruned (a.(at_now) - window * 1000000) (members a.(at_redis_now) key s)),
            a.(at_redis_now) + window * 1000)]> s.
Proof.
  unfold _allow, pipeline. destruct (Z.leb_spec window 0); [lia|]. by destruct (at_delivery a).
Qed.

(** The set of a key holds the attempts of the window and nothing else. *)
Definition faithful (key : string) (history : list Ask) (s : ZSets) : Prop :=
  forall c, Forall (fun a => follows a c) history -> forall m t,
  visible key c s !! m = Some t <->
  exists a, a ∈ recent window key c.(ask_attempt).(at_now) history /\ member_of a = m /\ a.(ask_attempt).(at_now) = t.

Definition sane (a : Ask) : Prop := 0 <= a.(ask_attempt).(at_now).

Lemma elem_recent key now h a : a ∈ recent window key now h <-> a ∈ h /\ counts key (now - window * 1000000) a.
Proof. unfold recent. rewrite list_elem_of_filter. tauto. Qed.

Lemma recent_snoc key now h a :
  recent window key now (h ++ [a]) =
  recent window key now h ++ (if decide (counts key (now - window * 1000000) a) then [a] else []).
Proof. unfold recent. by rewrite filter_app, filter_cons, filter_nil. Qed.

Lemma faithful_idle key h s a :
  faithful key h s -> a.(ask_attempt).(at_delivery) = refused \/ a.(ask_key) <> key ->
  faithful key (h ++ [a]) (_allow a.(ask_attempt) a.(ask_key) a.(ask_limit) window s).2.
Proof.
  intros Hf Ha c [Hc _]%Forall_app m t. rewrite recent_snoc, decide_False, app_nil_r by (unfold counts; naive_solver).
  rewrite <- (Hf c Hc m t). rewrite allow_stores. case_bool_decide; [done|]. unfold visible, members.
  destruct Ha as [?|Ha]; [done|]. by rewrite lookup_insert_ne by done.
Qed.

Lemma faithful_applied key h s a :
  faithful key h s -> Forall (fun b => follows b a) h -> Forall sane h -> sane a ->
  member_of a ∉ (member_of <$> h) -> a.(ask_key) = key -> a.(ask_attempt).(at_delivery) <> refused ->
  faithful key (h ++ [a]) (_allow a.(ask_attempt) key a.(ask_limit) window s).2.
Proof.
  intros Hf Hh Hs Ha Hm Hk Hd c [Hc [Hac _]%Forall_cons]%Forall_app m t. destruct Hac as [Hn Hr].
  rewrite allow_stores, bool_decide_false by done. unfold visible, members. rewrite lookup_insert_eq.
  setoid_rewrite elem_recent. setoid_rewrite elem_of_app. setoid_rewrite list_elem_of_singleton. unfold counts.
  destruct (Z.ltb_spec (at_redis_now (ask_attempt c)) (at_redis_now (ask_attempt a) + window * 1000)).
  - rewrite pruned_lookup. rewrite lookup_insert_Some. fold (visible key a s). rewrite (Hf a Hh m t).
    setoid_rewrite elem_recent. unfold counts, member_of, sane in *. split.
    + intros [[[<- <-]|[Hne (b & [Hb (Hkb & Hdb & _)] & <- & <-)]] Ht].
      * exists a. split_and!; [by right|done|done|lia|done|done].
      * exists b. rewrite Forall_forall in Hs. specialize (Hs b Hb). cbn in Hs. split_and!; [by left|done|done|lia|done|done].
    + intros (b & [[Hb| ->] (Hkb & Hdb & Ht)] & <- & <-).
      * split; [right|lia]. split.
        -- intros E. apply Hm, list_elem_of_fmap. by exists b.
        -- exists b. rewrite Forall_forall in Hh. destruct (Hh b Hb). split_and!; try done; lia.
      * split; [by left|lia].
  - rewrite pruned_lookup, lookup_empty. split; [naive_solver|]. intros (b & [Hb (? & _ & Ht)] & _).
    exfalso. rewrite Forall_forall in Hh. destruct Hb as [Hb| ->]; [destruct (Hh b Hb)|]; lia.
Qed.

Lemma replayed_faithful key h :
  StronglySorted follows h -> Forall sane h -> NoDup (member_of <$> h) -> faithful key h (replayed window h).
Proof.
  induction h as [|a h IH] using rev_ind; intros Hs Hp Hn.
  { intros c _ m t. unfold visible, members, replayed. cbn [foldl]. rewrite lookup_empty, pruned_lookup, lookup_empty. unfold recent. rewrite filter_nil.
    split; [naive_solver|]. by intros (b & ?%elem_of_nil & _). }
  apply StronglySorted_app in Hs as (Hx & Hs & _). apply Forall_app in Hp as [Hp [Ha _]%Forall_cons].
  rewrite fmap_app in Hn. apply NoDup_app in Hn as (Hn & Hd & _).
  unfold replayed. rewrite foldl_app. cbn [foldl]. specialize (IH Hs Hp Hn).
  destruct (decide (a.(ask_attempt).(at_delivery) = refused \/ a.(ask_key) <> key)) as [Hc|Hc]; [by apply faithful_idle|].
  apply Decidable.not_or in Hc as [H1 H2]. destruct (decide (a.(ask_key) = key)) as [Hk|]; [|done]. rewrite Hk.
  apply faithful_applied; try done.
  - apply Forall_forall. intros b Hb. apply Hx; [done|by left].
  - intros Hin. apply (Hd _ Hin). by left.
Qed.

Lemma recent_size key (set : gmap string Z) h now :
  NoDup (member_of <$> h) ->
  (forall m t, set !! m = Some t <->
     exists a, a ∈ recent window key now h /\ member_of a = m /\ a.(ask_attempt).(at_now) = t) ->
  size set = length (recent window key now h).
Proof.
  intros Hn Hset. set (l := (fun a => (member_of a, a.(ask_attempt).(at_now))) <$> recent window key now h).
  assert (NoDup l.*1) as Hl.
  { subst l. rewrite <- list_fmap_compose. eapply sublist_NoDup; [exact Hn|]. apply fmap_sublist, sublist_filter. }
  assert (set = list_to_map l) as ->.
  { apply map_eq. intros m. apply option_eq. intros t. rewrite Hset, <- (elem_of_list_to_map l m t Hl).
    unfold l. rewrite list_elem_of_fmap. naive_solver. }
  rewrite <- length_map_to_list, (map_to_list_to_map l Hl). subst l. apply length_fmap.
Qed.
End window.


(** Two requests a second are allowed; the third within the second is refused,
    the next one a second after the first two is not. *)
Definition demo_ask (n : Z) (t : Z) : Ask :=
  mkAsk "rl:other:u" 2 (mkAttempt t (t / 1000) (Str.of_int n) answered).

Definition demo_asks : list Ask := [demo_ask 1 5000000; demo_ask 2 5200000].

