(* ===== verification/Gateway.v ===== *)
(** * The gateway

    What every request passes before it reaches a service: the size limit of
    [src/app/api_gateway/middleware.py], the client and operator keys of
    [src/app/api_gateway/auth.py], and from [src/app/deps.py] the resolution of
    the subject, the provisioning of its row and the client address.
    [ipaddress], [uuid.uuid5] and [int] of bytes are parameters. *)

From Stdlib Require Import Ascii String.
From S2P Require Import Prelude PyVal Redaction Store Logic Fixtures WalletRun Uuid.

Open Scope string_scope.
Open Scope list_scope.
Open Scope Z_scope.

Record GatewaySettings : Type := mkGatewaySettings {
  client_api_key : string;
  client_api_key_prev : string;
  admin_api_secret : string;
  admin_api_secret_prev : string;
  admin_api_key : string;
  trusted_proxy_ips : string;
  trusted_proxy_hop_count : Z;
  size_limit_body : Z;
  attachment_request_body_limit : Z;
  workspace_request_body_limit : Z
}.

(** ** Keys *)

Fixpoint is_ascii (s : string) : bool :=
  match s with
  | EmptyString => true
  | String c rest => (N_of_ascii c <? 128)%N && is_ascii rest
  end.

(** [hmac.compare_digest] of two [str]: only ASCII is accepted. *)
Definition compare_digest (a b : string) : exn + bool :=
  if is_ascii a && is_ascii b then inr (String.eqb a b) else inl TypeError.

(** The loop over the configured keys; an empty one is passed over, and all of
    them are compared. *)
Fixpoint matches_any (presented : string) (matched : bool) (candidates : list string) : exn + bool :=
  match candidates with
  | [] => inr matched
  | candidate :: rest =>
      if Str.nonempty candidate
      then match compare_digest presented candidate with
           | inl x => inl x
           | inr same => matches_any presented (matched || same) rest
           end
      else matches_any presented matched rest
  end.

Section gateway.
Context (gs : GatewaySettings).

Definition _client_api_key_matches (presented : string) : exn + bool :=
  matches_any presented false [gs.(client_api_key); gs.(client_api_key_prev)].

Definition verify_client_api_key (presented : option string) : exn + unit :=
  match presented with
  | None => inl (UnauthorizedError "invalid client api key")
  | Some p =>
      match _client_api_key_matches p with
      | inl x => inl x
      | inr true => inr tt
      | inr false => inl (UnauthorizedError "invalid client api key")
      end
  end.

Definition _admin_secret_candidates : list string :=
  List.filter Str.nonempty [gs.(admin_api_secret); gs.(admin_api_secret_prev); gs.(admin_api_key)].

Definition _admin_token_matches (presented : string) : exn + bool :=
  matches_any presented false _admin_secret_candidates.

Definition require_admin (x_admin_token x_admin_key : option string) : exn + unit :=
  match (match x_admin_token with Some t => Some t | None => x_admin_key end) with
  | None => inl (ForbiddenError "admin credentials required")
  | Some presented =>
      match _admin_token_matches presented with
      | inl x => inl x
      | inr true => inr tt
      | inr false => inl (UnauthorizedError "invalid admin token")
      end
  end.

(** ** The subject of a request *)

(** INSERT INTO users (id) VALUES (:sub) ON CONFLICT (id) DO NOTHING *)
Definition provision_user (u : uuid) : M unit :=
  now ← pg_now;
  modify_db (fun d => match d.(users) !! u with
                      | Some _ => d
                      | None => set_users (<[u := mkUser now false None]> d.(users)) d
                      end).

Section subject.
Context (uuid5 : uuid -> string -> uuid).

Definition HERMES_USER_NAMESPACE : uuid := default 0%N (UUID "638724f1-2181-4d61-96de-5b8eedf7ef7a").

Definition subject_of (raw : string) : uuid :=
  match UUID raw with Some u => u | None => uuid5 HERMES_USER_NAMESPACE raw end.

Definition get_current_user (api_key x_user_id : option string) : M uuid :=
  match verify_client_api_key api_key with
  | inl x => raise x
  | inr _ =>
      let raw := match x_user_id with Some h => Str.strip h | None => "" end in
      if negb (Str.nonempty raw) then raise (UnauthorizedError "missing user id")
      else
        let user_id := subject_of raw in
        provision_user user_id;;
        mret user_id
  end.
End subject.

(** ** The client address *)

Section address.
Context {Addr Net : Type} (ip_address : string -> option Addr) (ip_network : string -> option Net) (in_network : Addr -> Net -> bool).

Definition trusted_proxy_networks : list Net :=
  omap (fun raw => let entry := Str.strip raw in if Str.nonempty entry then ip_network entry else None)
    (Str.split "," gs.(trusted_proxy_ips)).

Definition _is_trusted_proxy (ip : string) : bool :=
  match ip_address ip with
  | None => false
  | Some addr => existsb (in_network addr) trusted_proxy_networks
  end.

Definition hops_of (forwarded_for : string) : list string :=
  List.filter Str.nonempty (Str.strip <$> Str.split "," forwarded_for).

Definition client_ip (peer forwarded_for real_ip : option string) : option string :=
  match peer with
  | None => None
  | Some p =>
      if negb (_is_trusted_proxy p) then Some p
      else
        let hops := match forwarded_for with Some h => hops_of h | None => [] end in
        match hops with
        | _ :: _ =>
            let hop_count := Z.max gs.(trusted_proxy_hop_count) 1 in
            let index := Z.of_nat (length hops) - hop_count - 1 in
            let index := if index <? 0 then 0 else index in
            hops !! Z.to_nat index
        | [] =>
            match real_ip with
            | Some (String _ _ as r) => Some (Str.strip r)
            | _ => Some p
            end
        end
  end.
End address.

(** ** The size of a body *)

Inductive Message : Type :=
| http_request (body : string) (more_body : bool)
| http_disconnect.

(** What the middleware does: it answers 413, or it hands the application the
    messages it will receive. *)
Inductive Passage : Type := too_large | to_app (messages : list Message).

Definition _CHAT_RUN_PATH : string := "/v1/chat/run".
Definition _WORKSPACE_FILES_PREFIX : string := "/v1/workspaces/".
Definition _WORKSPACE_FILES_SUFFIX : string := "/files".

Definition _limit_for (path : string) : Z :=
  if String.eqb path _CHAT_RUN_PATH then gs.(attachment_request_body_limit)
  else if Str.startswith _WORKSPACE_FILES_PREFIX path && Str.endswith _WORKSPACE_FILES_SUFFIX path
  then gs.(workspace_request_body_limit)
  else gs.(size_limit_body).

Fixpoint _content_length (int_of : string -> option Z) (headers : list (string * string)) : option Z :=
  match headers with
  | [] => None
  | (name, value) :: rest => if String.eqb name "content-length" then int_of value else _content_length int_of rest
  end.

(** The counting loop over [receive()]: [None] is a body over the limit, else
    the chunks and what [receive()] has left.  When nothing is left it returns
    disconnects. *)
Fixpoint read_body (limit received : Z) (chunks : list string) (stream : list Message) : option (list string * list Message) :=
  match stream with
  | [] => Some (chunks, [])
  | http_disconnect :: rest => Some (chunks, rest)
  | http_request body more :: rest =>
      let received := received + Z.of_nat (String.length body) in
      if limit <? received then None
      else if more then read_body limit received (chunks ++ [body]) rest
      else Some (chunks ++ [body], rest)
  end.

Definition joined (chunks : list string) : string := foldr String.append "" chunks.

Definition _make_replay (chunks : list string) (rest : list Message) : list Message :=
  http_request (joined chunks) false :: rest.

Definition size_limit (int_of : string -> option Z) (is_http : bool) (path : string) (headers : list (string * string))
    (stream : list Message) : Passage :=
  if negb is_http then to_app stream
  else
    let limit := _limit_for path in
    match _content_length int_of headers with
    | Some n => if limit <? n then too_large else to_app stream
    | None =>
        match read_body limit 0 [] stream with
        | None => too_large
        | Some (chunks, rest) => to_app (_make_replay chunks rest)
        end
    end.
End gateway.

(** ** Who gets in *)

Lemma matches_any_sound p m l b :
  matches_any p m l = inr b -> b = m || bool_decide (p ∈ l /\ Str.nonempty p = true).
Proof.
  revert m. induction l as [|c l IH]; intros m; cbn; [intros [= <-]; rewrite bool_decide_false; [by rewrite orb_false_r|]|].
  { by intros [?%elem_of_nil _]. }
  destruct (Str.nonempty c) eqn:Hc.
  - unfold compare_digest. destruct (_ && _); [|done]. intros ->%IH. destruct (String.eqb_spec p c) as [->|Hne].
    + rewrite (bool_decide_true (c ∈ c :: l /\ _)) by (split; [by left|done]). by rewrite !orb_true_r.
    + rewrite orb_false_r. f_equal. apply bool_decide_ext. rewrite elem_of_cons. naive_solver.
  - intros ->%IH. f_equal. apply bool_decide_ext. rewrite elem_of_cons. naive_solver congruence.
Qed.

Lemma matches_any_total p m l :
  is_ascii p = true -> Forall (fun c => is_ascii c = true) l -> exists b, matches_any p m l = inr b.
Proof.
  intros Hp Hl. revert m. induction Hl as [|c l Hc Hl IH]; intros m; cbn; [by eexists|].
  destruct (Str.nonempty c); [|apply IH]. unfold compare_digest. rewrite Hp, Hc. apply IH.
Qed.

Lemma matches_any_raises p m l x : matches_any p m l = inl x -> x = TypeError.
Proof.
  revert m. induction l as [|c l IH]; intros m; cbn; [done|]. destruct (Str.nonempty c); [|apply IH].
  unfold compare_digest. destruct (_ && _); [apply IH|]. by intros [= <-].
Qed.

Lemma provision_user_run e w u :
  provision_user u e w =
  (inr tt, with_db (match w.(w_db).(users) !! u with
                    | Some _ => w.(w_db)
                    | None => set_users (<[u := mkUser e.(env_pg_now) false None]> w.(w_db).(users)) w.(w_db)
                    end) w).
Proof. reflexivity. Qed.

(** The row of the subject exists afterwards; every row there was is kept. *)
Definition provisioned (u : uuid) (d d' : Db) : Prop :=
  user_exists d' u = true /\ (forall v r, d.(users) !! v = Some r -> d'.(users) !! v = Some r) /\
  forall v, v <> u -> d'.(users) !! v = d.(users) !! v.

Lemma provision_user_provisioned e w u : provisioned u w.(w_db) (provision_user u e w).2.(w_db).
Proof.
  rewrite provision_user_run. unfold provisioned, user_exists. cbn. destruct (users (w_db w) !! u) as [r|] eqn:E.
  - by rewrite E.
  - cbn. rewrite lookup_insert_eq. split_and!; [done| |].
    + intros v r Hv. rewrite lookup_insert_ne; [done|]. intros <-. congruence.
    + intros v Hv. by rewrite lookup_insert_ne.
Qed.

(** The caller holds one of the configured client keys. *)
Definition holds_client_key (gs : GatewaySettings) (api_key : option string) : Prop :=
  exists k, api_key = Some k /\ Str.nonempty k = true /\ (k = gs.(client_api_key) \/ k = gs.(client_api_key_prev)).

(** A request gets past authentication exactly with a configured client key
    and a subject.  Whoever gets in holds a non-empty key equal to one of the
    configured ones and becomes the subject of the header, whose row then
    exists while every other row is as before; whoever does not leaves no
    trace. *)
Theorem only_key_holders_enter gs uuid5 api_key x_user_id e w :
  match get_current_user gs uuid5 api_key x_user_id e w with
  | (inr u, w') =>
      holds_client_key gs api_key /\ provisioned u w.(w_db) w'.(w_db) /\ w'.(w_committed) = w.(w_committed) /\
      exists h, x_user_id = Some h /\ Str.nonempty (Str.strip h) = true /\ u = subject_of uuid5 (Str.strip h)
  | (inl _, w') => w' = w
  end.
Proof.
  unfold get_current_user, verify_client_api_key. destruct api_key as [k|]; [|done].
  destruct (_client_api_key_matches gs k) as [x|[]] eqn:E; [done| |done].
  apply matches_any_sound in E. cbn in E. symmetry in E. apply bool_decide_eq_true in E as [Hin Hk].
  destruct x_user_id as [h|]; [|done]. destruct (Str.nonempty (Str.strip h)) eqn:Hh; [|done]. cbn [negb].
  unfold mbind, M_bind. pose proof (provision_user_provisioned e w (subject_of uuid5 (Str.strip h))) as Hp.
  rewrite provision_user_run in Hp |- *. cbn in *. split_and!; [|done|done|by exists h].
  exists k. split_and!; [done|done|]. set_solver.
Qed.

Lemma strip_uuid u : Str.strip (uuid_str u) = uuid_str u.
Proof.
  apply Str.strip_absent. intros c Hc. apply uuid_str_no_char.
  - unfold is_hex, Str.is_space in *. revert Hc. generalize (N_of_ascii c). intros n.
    repeat (match goal with |- context [(?a <=? ?b)%N] => destruct (N.leb_spec a b) end; cbn [andb orb]); (done || lia).
  - destruct (Ascii.eqb_spec "-" c) as [<-|]; [discriminate Hc|done].
Qed.

Lemma uuid_nonempty u : Str.nonempty (uuid_str u) = true.
Proof. unfold uuid_str. by destruct (substring 0 8 _). Qed.

(** A key that is configured is accepted, and a subject in canonical form is the
    user with that id. *)
Theorem canonical_subject_round_trip gs uuid5 k u e w :
  (u < 2 ^ 128)%N -> is_ascii k = true -> is_ascii gs.(client_api_key) = true -> is_ascii gs.(client_api_key_prev) = true ->
  holds_client_key gs (Some k) -> exists w', get_current_user gs uuid5 (Some k) (Some (uuid_str u)) e w = (inr u, w').
Proof.
  intros Hu Hk H1 H2 (k' & [= <-] & Hn & Hc). unfold get_current_user, verify_client_api_key, _client_api_key_matches.
  destruct (matches_any_total k false [gs.(client_api_key); gs.(client_api_key_prev)] Hk) as [b E]; [by repeat constructor|].
  rewrite E. apply matches_any_sound in E. rewrite bool_decide_true in E by (split; [set_solver|done]). subst b.
  rewrite strip_uuid, uuid_nonempty. cbn [negb]. unfold subject_of. rewrite UUID_uuid_str by done. by eexists.
Qed.

(** ** Bodies *)

Lemma length_joined chunks : Z.of_nat (String.length (joined chunks)) = sumZ (fun c => Z.of_nat (String.length c)) chunks.
Proof.
  induction chunks as [|c chunks IH]; [done|]. unfold joined in *. cbn [foldr]. rewrite Str.length_append, sumZ_cons, <- IH. lia.
Qed.

Lemma joined_app a b : joined (a ++ b) = (joined a ++ joined b)%string.
Proof. induction a as [|c a IH]; [done|]. unfold joined in *. cbn [foldr app]. by rewrite IH, Str.app_assoc. Qed.

Lemma read_body_spec limit received acc chunks last rest :
  read_body limit received acc (((fun c => http_request c true) <$> chunks) ++ http_request last false :: rest) =
  if limit <? received + sumZ (fun c => Z.of_nat (String.length c)) (chunks ++ [last]) then None
  else Some (acc ++ chunks ++ [last], rest).
Proof.
  revert received acc. induction chunks as [|c chunks IH]; intros received acc; cbn [fmap list_fmap app read_body].
  - rewrite sumZ_singleton. by destruct (_ <? _).
  - rewrite IH, sumZ_cons, <- app_assoc. cbn [app].
    assert (0 <= sumZ (fun c => Z.of_nat (String.length c)) (chunks ++ [last])) by (apply sumZ_nonneg; lia).
    repeat match goal with |- context [?a <? ?b] => destruct (Z.ltb_spec a b) end; (done || lia).
Qed.

(** C27: the limit on a body cannot be passed by sending it in pieces.  A request
    without a usable Content-Length whose body arrives in any chunks is refused
    before the application sees it exactly when the whole body exceeds the limit
    of its path; otherwise the application receives that body, whole and
    unchanged, and then whatever follows it. *)
Theorem body_limit_enforced gs int_of path headers chunks last rest :
  _content_length int_of headers = None ->
  let body := joined (chunks ++ [last]) in
  size_limit gs int_of true path headers (((fun c => http_request c true) <$> chunks) ++ http_request last false :: rest) =
  if _limit_for gs path <? Z.of_nat (String.length body) then too_large else to_app (http_request body false :: rest).
Proof.
  intros Hc body. unfold size_limit. cbn [negb]. rewrite Hc, read_body_spec, Z.add_0_l, <- length_joined. subst body. cbv zeta.
  by destruct (_ <? _).
Qed.

Definition demo_gateway : GatewaySettings :=
  mkGatewaySettings "client-key" "" "admin" "" "" "10.0.0.5" 1 8 100 100.

Lemma body_limit_enforced_witness :
  size_limit demo_gateway (fun _ => None) true "/v1/chat" [("host", "api")] [http_request "12345" true; http_request "6789" false] =
    too_large /\
  size_limit demo_gateway (fun _ => None) true "/v1/chat" [("host", "api")] [http_request "1234" true; http_request "5678" false] =
    to_app [http_request "12345678" false].
Proof.
  split.
  - exact (body_limit_enforced demo_gateway (fun _ => None) "/v1/chat" [("host", "api")] ["12345"] "6789" [] eq_refl).
  - exact (body_limit_enforced demo_gateway (fun _ => None) "/v1/chat" [("host", "api")] ["1234"] "5678" [] eq_refl).
Defined.

(** A client that goes away in the middle of its body: the application is handed
    what had arrived as a complete body, and the disconnect that ended the
    reading is not among the messages it receives. *)
Theorem cut_body_looks_complete gs path rest :
  1 <= _limit_for gs path ->
  size_limit gs (fun _ => None) true path [] (http_request "{" true :: http_disconnect :: rest) =
  to_app (http_request "{" false :: rest).
Proof. 
  intros H. unfold size_limit. cbn [negb _content_length read_body].
  change (0 + Z.of_nat (String.length "{")) with 1. destruct (Z.ltb_spec (_limit_for gs path) 1); [lia|reflexivity].
Qed.

Lemma cut_body_looks_complete_witness :
  size_limit demo_gateway (fun _ => None) true "/v1/chat" [] [http_request "{" true; http_disconnect] = to_app [http_request "{" false].
Proof. apply (cut_body_looks_complete demo_gateway "/v1/chat" []). vm_compute. discriminate. Defined.

(** ** Addresses *)

(** What a proxy that appends the address it was reached from makes of the
    header ([$proxy_add_x_forwarded_for]). *)
Definition appended (h : option string) (from : string) : option string :=
  match h with
  | Some (String _ _ as s) => Some (s ++ ", " ++ from)%string
  | _ => Some from
  end.

Definition relayed (h : option string) (froms : list string) : option string := foldl appended h froms.

Definition plain_address (a : string) : Prop :=
  Str.nonempty a = true /\ Str.has_char "," a = false /\ forall c, Str.is_space c = true -> Str.has_char c a = false.

Lemma split_app sep a b : Str.split sep (a ++ String sep b)%string = Str.split sep a ++ Str.split sep b.
Proof.
  induction a as [|c a IH].
  - change (""%string ++ String sep b)%string with (String sep b). cbn. by rewrite Ascii.eqb_refl.
  - rewrite Str.app_cons. cbn [Str.split]. rewrite IH. destruct (Ascii.eqb c sep); [done|].
    pose proof (Str.split_nonnil sep a). by destruct (Str.split sep a).
Qed.

Lemma hops_single a : plain_address a -> hops_of a = [a] /\ hops_of (" " ++ a)%string = [a].
Proof.
  intros (Hn & Hc & Hs). unfold hops_of. change (" " ++ a)%string with (String " " a).
  rewrite (Str.split_no_sep "," a Hc), (Str.split_no_sep "," (String " " a)) by exact Hc. cbn [fmap list_fmap List.filter].
  change (Str.strip (String " " a)) with (Str.strip a). by rewrite Str.strip_absent, Hn.
Qed.

Definition hops_in (h : option string) : list string := match h with Some s => hops_of s | None => [] end.

Lemma hops_appended h a : plain_address a -> hops_in (appended h a) = hops_in h ++ [a].
Proof.
  intros Ha. destruct (hops_single a Ha) as [H1 H2]. destruct h as [[|c s]|]; cbn [appended hops_in]; [done| |done].
  change (", " ++ a)%string with (String "," (" " ++ a)%string). unfold hops_of in *.
  by rewrite split_app, fmap_app, List.filter_app, H2.
Qed.

Lemma hops_relayed h l : Forall plain_address l -> hops_in (relayed h l) = hops_in h ++ l.
Proof.
  intros Hl. revert h. induction Hl as [|a l Ha Hl IH]; intros h; cbn [relayed foldl]; [by rewrite app_nil_r|].
  rewrite IH, hops_appended by done. by rewrite <- app_assoc.
Qed.

Section addresses.
Context (gs : GatewaySettings) {Addr Net : Type} (ip_address : string -> option Addr) (ip_network : string -> option Net)
  (in_network : Addr -> Net -> bool).

Notation ip := (client_ip gs ip_address ip_network in_network).

End addresses.

(** One proxy address is trusted, networks are compared by name. *)
Notation demo_ip := (client_ip demo_gateway Some Some String.eqb).

Lemma plain_demo a : forallb (fun c => negb (Str.is_space c) && negb (Ascii.eqb c ",")) (list_ascii_of_string a) = true ->
  Str.nonempty a = true -> plain_address a.
Proof.
  intros H Hn. split; [done|]. clear Hn. induction a as [|x a IH]; [done|]. cbn in H. apply andb_prop in H as [Hx H].
  apply andb_prop in Hx as [Hs Hc]. apply negb_true_iff in Hs, Hc. destruct (IH H) as [H1 H2]. split.
  - cbn. by rewrite Hc, H1.
  - intros c Hcs. cbn. rewrite (H2 c Hcs), orb_false_r. destruct (Ascii.eqb_spec x c) as [->|]; [congruence|done].
Qed.


(** Behind a single proxy that appends, which is what [hop_count = 1] is
    documented for, the address is the last one that the sender wrote. *)
Theorem one_proxy_client_ip_forged client :
  plain_address client ->
  demo_ip (Some "10.0.0.5") (relayed (Some "1.1.1.1") [client]) None = Some "1.1.1.1".
Proof.
  intros Hc. unfold client_ip. cbn [_is_trusted_proxy negb]. change (_is_trusted_proxy _ _ _ _ _) with true. cbn [negb].
  fold (hops_in (relayed (Some "1.1.1.1") [client])). rewrite hops_relayed by (by constructor). reflexivity.
Qed.

Lemma one_proxy_client_ip_forged_witness :
  demo_ip (Some "10.0.0.5") (relayed (Some "1.1.1.1") ["203.0.113.9"]) None = Some "1.1.1.1".
Proof. apply one_proxy_client_ip_forged, plain_demo; reflexivity. Defined.

(** Spellings that are not canonical also resolve to the user with that id
    instead of a derived one. *)
Theorem other_spellings_same_subject uuid5 :
  subject_of uuid5 "{638724F1-2181-4d61-96de-5b8eedf7ef7a}" = HERMES_USER_NAMESPACE /\
  subject_of uuid5 "urn:uuid:638724f121814d6196de5b8eedf7ef7a" = HERMES_USER_NAMESPACE.
Proof. split; vm_compute; reflexivity. Qed.

(** A key with a character outside ASCII is an error of the comparison, not a
    refused key. *)
Theorem foreign_key_not_refused :
  verify_client_api_key demo_gateway (Some (String "233" "")) = inl TypeError.
Proof. reflexivity. Qed.

Lemma canonical_subject_round_trip_witness :
  exists w', get_current_user demo_gateway (fun _ _ => 0%N) (Some "client-key")
    (Some "00000000-0000-0000-0000-000000000007") demo_env demo_world = (inr alice, w').
Proof.
  apply (canonical_subject_round_trip demo_gateway (fun _ _ => 0%N) "client-key" alice); try reflexivity.
  exists "client-key". split; [reflexivity|]. split; [reflexivity|]. by left.
Defined.
