(* ===== verification/Http.v ===== *)
(** * Answers

    How the application turns what a handler returns or raises into an answer:
    the classes of [src/app/errors.py] with their status and code, the
    exception handlers of [create_app] in [src/app/main.py], and the two
    middlewares of [src/app/api_gateway/middleware.py] that add headers.
    An exception with a handler of its own is answered inside the middlewares;
    any other is answered by the outermost layer of the framework, and so is a
    body over the limit. *)

From Stdlib Require Import Ascii String.
From S2P Require Import Prelude PyVal Redaction Store Logic Fixtures WalletRun Uuid RateLimit Gateway.

Open Scope string_scope.
Open Scope list_scope.
Open Scope Z_scope.

(** ** The errors of the application *)

(** The status, the code and the message given; [None] for an exception that is
    not an [AppError]. *)
Definition error_class (x : exn) : option (Z * string * string) :=
  match x with
  | UnauthorizedError m => Some (401, "unauthorized", m)
  | ForbiddenError m => Some (403, "forbidden", m)
  | SubscriptionRequiredError m => Some (403, "subscription_required", m)
  | NotFoundError m => Some (404, "not_found", m)
  | SessionNotFoundError m => Some (404, "session_not_found", m)
  | UserNotFoundError m => Some (404, "user_not_found", m)
  | WorkspaceNotFoundError m => Some (404, "workspace_not_found", m)
  | MessageNotFoundError m => Some (404, "message_not_found", m)
  | ConflictError m => Some (409, "conflict", m)
  | InsufficientCreditsError m => Some (409, "insufficient_credits", m)
  | RunNotResumableError m => Some (409, "run_not_resumable", m)
  | ResumeInProgressError m => Some (409, "resume_in_progress", m)
  | SessionExpiredError m => Some (409, "session_expired", m)
  | PayloadTooLargeError m => Some (413, "payload_too_large", m)
  | BadRequestError m => Some (400, "bad_request", m)
  | ValidationFailedError m => Some (422, "validation_error", m)
  | RateLimitedError m => Some (429, "rate_limited", m)
  | UpstreamError m => Some (502, "upstream_error", m)
  | UpstreamTimeoutError m => Some (502, "upstream_timeout", m)
  | ServiceUnavailableError m => Some (503, "service_unavailable", m)
  | CloudPaymentsWebhookMisconfiguredError m => Some (500, "cloudpayments_webhook_misconfigured", m)
  | CloudPaymentsVerificationUnavailableError m => Some (500, "cloudpayments_verification_unavailable", m)
  | CloudPaymentsCheckoutNotConfiguredError m => Some (503, "cloudpayments_checkout_not_configured", m)
  | AdaptyWebhookMisconfiguredError m => Some (500, "adapty_webhook_misconfigured", m)
  | _ => None
  end.

(** [self.message = message or self.code] *)
Definition app_error (x : exn) : option (Z * string * string) :=
  match error_class x with
  | Some (status, code, message) => Some (status, code, if Str.nonempty message then message else code)
  | None => None
  end.

(** ** Answers and their headers *)

Record Response : Type := mkResponse { hr_status : Z; hr_body : json; hr_headers : list (string * string) }.

Definition _error_response (request_id : option string) (status : Z) (code message : string) : Response :=
  mkResponse status
    (JObj [("error", JObj [("code", JStr code); ("message", JStr message); ("requestId", jopt_str request_id)])]) [].

Definition _ADMIN_PREFIX : string := "/v1/admin".

Definition _app_error_handler (path : string) (request_id : option string) (e : Z * string * string) : Response :=
  let '(status, code, message) := e in
  if Str.startswith _ADMIN_PREFIX path then mkResponse status (JObj [("detail", JStr message)]) []
  else _error_response request_id status code message.

Definition _validation_handler (path : string) (request_id : option string) : Response :=
  if Str.startswith _ADMIN_PREFIX path then mkResponse 422 (JObj [("detail", JStr "request validation failed")]) []
  else _error_response request_id 422 "validation_error" "request validation failed".

Definition _unhandled (request_id : option string) : Response :=
  _error_response request_id 500 "internal_error" "internal error".

Definition set_header (k v : string) (hs : list (string * string)) : list (string * string) :=
  List.filter (fun h => negb (String.eqb h.1 k)) hs ++ [(k, v)].

Definition with_headers (f : list (string * string) -> list (string * string)) (r : Response) : Response :=
  mkResponse r.(hr_status) r.(hr_body) (f r.(hr_headers)).

Definition _PREVIEW_PREFIX : string := "/v1/preview/".

(** [SecurityHeadersMiddleware.dispatch] *)
Definition security_headers (path : string) (r : Response) : Response :=
  if Str.startswith _PREVIEW_PREFIX path then r
  else with_headers (fun hs =>
         set_header "Strict-Transport-Security" "max-age=63072000; includeSubDomains"
           (set_header "X-Frame-Options" "DENY" (set_header "X-Content-Type-Options" "nosniff" hs))) r.

(** [CorrelationIdMiddleware.dispatch]: the id of the client, unless it is
    missing or empty. *)
Definition correlation_id (x_request_id : option string) (fresh : uuid) : string :=
  match x_request_id with Some (String _ _ as id) => id | _ => uuid_str fresh end.

Definition correlated (request_id : string) (r : Response) : Response :=
  with_headers (set_header "X-Request-Id" request_id) r.

(** What came of a request: the answer of its handler, or what was raised. *)
Definition answer (path request_id : string) (o : exn + Response) : Response :=
  let inside r := correlated request_id (security_headers path r) in
  match o with
  | inr r => inside r
  | inl RequestValidationError => inside (_validation_handler path (Some request_id))
  | inl x =>
      match app_error x with
      | Some e => inside (_app_error_handler path (Some request_id) e)
      | None => _unhandled (Some request_id)
      end
  end.

(** [_request_id_from_scope] and [_send_too_large]: the outermost layer knows
    only the id the client sent. *)
Fixpoint _request_id_from_scope (headers : list (string * string)) : option string :=
  match headers with
  | [] => None
  | (name, value) :: rest => if String.eqb name "x-request-id" then Some value else _request_id_from_scope rest
  end.

Definition _send_too_large (headers : list (string * string)) : Response :=
  _error_response (_request_id_from_scope headers) 413 "payload_too_large" "request body exceeds limit".

(** ** What stands before a handler *)

(** A check that answers or raises, inside a handler. *)
Definition lift {A} (r : exn + A) : M A := match r with inl x => raise x | inr a => mret a end.

(** A body or a parameter that does not fit its schema. *)
Definition require_valid (ok : bool) : M unit := if ok then mret tt else raise RequestValidationError.

Definition _rate_limit (allowed : bool) : M unit :=
  if allowed then mret tt else raise (RateLimitedError "rate limit exceeded").

(** [require_owner]: the identity is the trusted header, the id of a body is
    not compared with it. *)
Definition require_owner (body_user_id current : uuid) : M unit := mret tt.

(** The headers of a client request, and what the rate limiter is given. *)
Record ClientCall : Type := mkClientCall {
  cl_api_key : option string;
  cl_user_id : option string;
  cl_device_id : option string;
  cl_ip : option string;
  cl_attempts : list Attempt;
  cl_counters : ZSets
}.

Section client.
Context (gs : GatewaySettings) (rs : RateSettings) (uuid5 : uuid -> string -> uuid) (c : ClientCall).

Definition attempt_now : Attempt := default (mkAttempt 0 0 "" refused) (head c.(cl_attempts)).

Definition current_user : M uuid := get_current_user gs uuid5 c.(cl_api_key) c.(cl_user_id).

Definition other_limit (u : uuid) : M unit :=
  _rate_limit (enforce_other_limits rs attempt_now u c.(cl_counters)).1.

(** [x_device_id or current.device_id]: the client contour has no device. *)
Definition chat_limit (u : uuid) : M unit :=
  _rate_limit (enforce_chat_limits rs c.(cl_attempts) u
                 (match c.(cl_device_id) with Some (String _ _ as d) => Some d | _ => None end) c.(cl_ip) c.(cl_counters)).1.

(** A route without and with the limit of the remaining routes, and one whose
    parameters are checked before its handler asks the limiter. *)
Definition client_route {A} (h : uuid -> M A) : M A := u ← current_user; h u.
Definition limited_route {A} (h : uuid -> M A) : M A := client_route (fun u => other_limit u;; h u).
Definition checked_route {A} (valid : bool) (h : uuid -> M A) : M A :=
  client_route (fun u => require_valid valid;; other_limit u;; h u).
End client.

(** ** What the client learns *)


(** A failure the application does not know has the client form on the operator
    surface too, and none of the default headers: it is answered outside the
    middlewares. *)
Theorem unhandled_outside_middleware path rid x :
  app_error x = None -> x <> RequestValidationError ->
  hr_headers (answer path rid (inl x)) = [] /\
  hr_body (answer "/v1/admin/users" rid (inl x)) =
    JObj [("error", JObj [("code", JStr "internal_error"); ("message", JStr "internal error"); ("requestId", JStr rid)])].
Proof. intros H Hne. unfold answer. by destruct x. Qed.

(** ** The client contour *)

Section contour.
Context (gs : GatewaySettings) (rs : RateSettings) (uuid5 : uuid -> string -> uuid).

(** A request without a client key, or with a wrong one, or without a user,
    never reaches a handler and changes nothing. *)
Definition refused_at_door (c : ClientCall) : Prop :=
  (exists x, verify_client_api_key gs c.(cl_api_key) = inl x) \/
  Str.nonempty (match c.(cl_user_id) with Some h => Str.strip h | None => "" end) = false.

Lemma door_closed {A} (c : ClientCall) (h : uuid -> M A) e w :
  refused_at_door c -> exists x, client_route gs uuid5 c h e w = (inl x, w).
Proof.
  unfold refused_at_door, client_route, current_user, get_current_user. intros Hr.
  destruct (verify_client_api_key gs (cl_api_key c)) as [x|[]]; [exists x; by fails by done|].
  destruct Hr as [[x Hx]|Hn]; [done|]. rewrite Hn. cbn. by eexists.
Qed.

(** Past the door the handler runs for the subject of the request. *)
Lemma door_open {A} (c : ClientCall) (h : uuid -> M A) e w id :
  verify_client_api_key gs c.(cl_api_key) = inr tt -> c.(cl_user_id) = Some id -> Str.nonempty (Str.strip id) = true ->
  let u := subject_of uuid5 (Str.strip id) in
  client_route gs uuid5 c h e w = (provision_user u;; h u) e w.
Proof.
  intros Hk Hu Hn. unfold client_route, current_user, get_current_user. rewrite Hk, Hu, Hn. cbn [negb].
  unfold mbind, M_bind. cbn. by destruct (provision_user _ e w) as [[x|[]] w'].
Qed.
End contour.
