(* ===== verification/Checkout.v ===== *)
(** * Payment links, the product catalogue and the webhook doors

    Models [src/app/billing_cloudpayments/checkout.py], the two header checks of
    [billing_cloudpayments/auth.py] and [billing_adapty/auth.py], the handlers
    of [api_gateway/routers/token_purchase.py], [billing_cloudpayments.py] and
    [billing_adapty.py], and the settings they read.  The provider is a
    parameter: what its HTTP call answers. *)

From Stdlib Require Import SpecFloat Ascii String.
From S2P Require Import Prelude PyVal Redaction Store AuditTrail Logic Fixtures Wallet WalletRun Policy Uuid Config.
From S2P Require Import StoreKit Adapty TokenPurchase CloudPayments Usage RateLimit Gateway Http.

Open Scope string_scope.
Open Scope list_scope.
Open Scope Z_scope.

Module Checkout.
Record CheckoutSettings : Type := mkCheckoutSettings {
  cloudpayments_app_id : string;
  cloudpayments_api_base : string;
  cloudpayments_webhook_token : string;
  adapty_webhook_secret : string;
  token_products_default_raw : string;
  products_catalog_raw : string;
  token_products_price_minor_units : bool
}.

(** ** The provider's answers *)

(** An HTTP call: a time-out, another transport error, or a status with a body
    ([None]: not JSON). *)
Inductive Reply : Type := http_timeout | http_error | http_reply (status : Z) (body : option json).

Definition is_success (status : Z) : bool := (200 <=? status) && (status <? 300).

Record CheckoutResult : Type := mkCheckoutResult {
  cr_payment_id : string;
  cr_payment_url : string;
  cr_status : string;
  cr_expires_at : option string
}.

(** The parts of the form that creates a link. *)
Record LinkForm : Type := mkLinkForm { lf_app_id : string; lf_product_id : string; lf_user_id : string; lf_customer_email : string }.

(** [classify_product] with the price table, or refused. *)
Definition validate_product (s : Settings) (product_id : string) : exn + unit :=
  let one_time_ids := (token_products s).*1 in
  let kind := CloudPayments.classify_product product_id None one_time_ids in
  if String.eqb kind CloudPayments.KIND_UNKNOWN then inl (ValidationFailedError "unknown_product")
  else if String.eqb kind CloudPayments.KIND_TOKENS && (default 0 (product_get (token_products s) product_id) <=? 0)
  then inl (ValidationFailedError "unknown_product")
  else inr tt.

Definition cloudpayments_checkout_configured (s : Settings) (cs : CheckoutSettings) : bool :=
  Str.nonempty cs.(cloudpayments_app_id) && Str.nonempty s.(cloudpayments_api_token).

Section provider.
Context (repr : json -> string).
(** [get_products]: GET /apps/{app_id}/products; [post_link]: POST
    /payments/link with its form. *)
Context (get_products : Reply) (post_link : LinkForm -> Reply).

Definition list_products (s : Settings) (cs : CheckoutSettings) : option (list json) :=
  if negb (cloudpayments_checkout_configured s cs) then None
  else match get_products with
       | http_reply status (Some (JObj body)) =>
           if is_success status then match dict_get body "data" with JArr l => Some l | _ => None end else None
       | _ => None
       end.

Definition text (v : json) : string := match v with JNull => "" | JStr s => s | _ => repr v end.

Definition _to_result (body : json) : option CheckoutResult :=
  match body with
  | JObj d =>
      match dict_get d "payment_url" with
      | JStr (String _ _ as url) =>
          Some (mkCheckoutResult (text (dict_get d "payment_id")) url (text (dict_get d "status")) (as_str (dict_get d "expires_at")))
      | _ => None
      end
  | _ => None
  end.

Definition _upstream_error : exn := UpstreamError "payment provider unavailable".

Definition create_payment_link (cs : CheckoutSettings) (u : uuid) (product_id customer_email : string) : exn + CheckoutResult :=
  match post_link (mkLinkForm cs.(cloudpayments_app_id) product_id (uuid_str u) customer_email) with
  | http_timeout | http_error => inl _upstream_error
  | http_reply status body =>
      if negb (is_success status) then inl _upstream_error
      else match body ≫= _to_result with Some r => inr r | None => inl _upstream_error end
  end.

(** ** The catalogue *)

Record TokenProduct : Type := mkTokenProduct {
  tp_product_id : string;
  tp_title : option string;
  tp_kind : option string;
  tp_period : option string;
  tp_price : option Z;
  tp_currency : option string;
  tp_credits : option Z;
  tp_is_special_offer : bool;
  tp_is_default : bool
}.

(** [round(f)]: to the nearest integer, ties to even. *)
Definition round_dyadic (m e : Z) : Z :=
  if 0 <=? e then m * 2 ^ e
  else
    let d := 2 ^ (- e) in
    let q := m / d in
    let r := m mod d in
    if 2 * r <? d then q else if d <? 2 * r then q + 1 else if Z.even q then q else q + 1.

Definition round_float (f : spec_float) : exn + Z :=
  match f with
  | S754_zero _ => inr 0
  | S754_infinity _ => inl OverflowError
  | S754_nan => inl ValueError
  | S754_finite s m e => inr (round_dyadic (signed_mantissa s m) e)
  end.

Definition hundred : spec_float := S754_finite false 7036874417766400 (-46).

(** [float(s)] of a text: [None] is [ValueError]. *)
Context (float_of_text : string -> option spec_float).

Definition py_float (v : json) : exn + spec_float :=
  match v with
  | JStr s => match float_of_text s with Some f => inr f | None => inl ValueError end
  | JInt z => match float_of_int z with Some f => inr f | None => inl OverflowError end
  | JFloat f => inr f
  | JBool b => match float_of_int (if b then 1 else 0) with Some f => inr f | None => inl OverflowError end
  | _ => inl TypeError
  end.

(** The price of an item: [None] when it is of another type or unreadable. *)
Definition price_of (amount : json) (minor_units : bool) : exn + option Z :=
  match amount with
  | JStr _ | JInt _ | JFloat _ | JBool _ =>
      match py_float amount with
      | inl (TypeError | ValueError) => inr None
      | inl x => inl x
      | inr f =>
          match (if minor_units then round_float (fmul f hundred) else int_of_float f) with
          | inl (TypeError | ValueError) => inr None
          | inl x => inl x
          | inr z => inr (Some z)
          end
      end
  | _ => inr None
  end.

Definition _from_broadapps (item : json) (token_products : list (string * Z)) (minor_units : bool) :
    exn + option TokenProduct :=
  match item with
  | JObj d =>
      match dict_get d "code" with
      | JStr (String _ _ as code) =>
          if match dict_get d "status" with JNull => false | JStr s => negb (String.eqb s "active") | _ => true end
          then inr None
          else
            let is_sub := bool_decide (as_str (dict_get d "payment_type") = Some "subscription") in
            match price_of (dict_get d "price_amount") minor_units with
            | inl x => inl x
            | inr price =>
                inr (Some (mkTokenProduct code (as_str (dict_get d "name"))
                             (Some (if is_sub then "subscription" else "tokens"))
                             (as_str (dict_get d "subscription_interval_unit")) price (as_str (dict_get d "price_currency"))
                             (if is_sub then None else product_get token_products code)
                             (match dict_get d "is_special_offer" with JBool b => b | _ => false end) false))
            end
      | _ => inr None
      end
  | _ => inr None
  end.

Fixpoint live_products (items : list json) (token_products : list (string * Z)) (minor_units : bool) :
    exn + list TokenProduct :=
  match items with
  | [] => inr []
  | item :: rest =>
      match _from_broadapps item token_products minor_units with
      | inl x => inl x
      | inr p =>
          match live_products rest token_products minor_units with
          | inl x => inl x
          | inr ps => inr (match p with Some p => p :: ps | None => ps end)
          end
      end
  end.

(** [json_loads]: [None] is a [ValueError]. *)
Context (json_loads : string -> option json).

Definition stripped_words (l : list string) : list string := List.filter Str.nonempty (Str.strip <$> l).

Definition token_products_default (cs : CheckoutSettings) : list string :=
  let txt := Str.strip cs.(token_products_default_raw) in
  if negb (Str.nonempty txt) then []
  else if Str.startswith "[" txt
  then match default (JArr []) (json_loads txt) with JArr l => stripped_words (omap as_str l) | _ => [] end
  else stripped_words (Str.split "," txt).

Definition products_catalog (cs : CheckoutSettings) : list dict :=
  match json_loads (if Str.nonempty cs.(products_catalog_raw) then cs.(products_catalog_raw) else "[]") with
  | Some (JArr l) =>
      omap (fun item => match item with
                        | JObj d => match dict_get d "productId" with JStr (String _ _) => Some d | _ => None end
                        | _ => None
                        end) l
  | _ => []
  end.

Definition mark_default (marked : list string) (p : TokenProduct) : TokenProduct :=
  if bool_decide (p.(tp_product_id) ∈ marked)
  then mkTokenProduct p.(tp_product_id) p.(tp_title) p.(tp_kind) p.(tp_period) p.(tp_price) p.(tp_currency) p.(tp_credits)
         p.(tp_is_special_offer) true
  else p.

Definition _catalog_response (cs : CheckoutSettings) (products : list TokenProduct) : list TokenProduct :=
  match token_products_default cs with [] => products | marked => mark_default marked <$> products end.

(** [TokenProduct.model_validate] *)
Context (model_validate : dict -> option TokenProduct).

Definition fallback_products (s : Settings) : list TokenProduct :=
  (fun kv => mkTokenProduct kv.1 None None None None None (Some kv.2) false false) <$> token_products s.

(** The live catalogue, else the static one, else the packs of the table. *)
Definition list_token_products (s : Settings) (cs : CheckoutSettings) : exn + list TokenProduct :=
  let static :=
    match omap model_validate (products_catalog cs) with
    | [] => _catalog_response cs (fallback_products s)
    | items => _catalog_response cs items
    end in
  match list_products s cs with
  | Some ((_ :: _) as data) =>
      match live_products data (token_products s) cs.(token_products_price_minor_units) with
      | inl x => inl x
      | inr [] => inr static
      | inr live => inr (_catalog_response cs live)
      end
  | _ => inr static
  end.
End provider.

(** ** The doors of the webhooks *)

Definition require_adapty_webhook (cs : CheckoutSettings) (credentials : option string) : exn + unit :=
  if negb (Str.nonempty cs.(adapty_webhook_secret))
  then inl (AdaptyWebhookMisconfiguredError "adapty webhook secret not configured")
  else match credentials with
       | None => inl (UnauthorizedError "invalid adapty webhook token")
       | Some presented =>
           match compare_digest presented cs.(adapty_webhook_secret) with
           | inl x => inl x
           | inr true => inr tt
           | inr false => inl (UnauthorizedError "invalid adapty webhook token")
           end
       end.

(** [value.split(None, 1)] of a stripped text: the first word, and the rest if
    there is one. *)
Fixpoint first_word (s : string) : string * string :=
  match s with
  | EmptyString => ("", "")
  | String c s' =>
      if Str.is_space c then ("", Str.lstrip s')
      else let '(word, rest) := first_word s' in (String c word, rest)
  end.

Definition _extract_webhook_credential (authorization : option string) : option string :=
  match authorization with
  | None => None
  | Some a =>
      let value := Str.strip a in
      if negb (Str.nonempty value) then None
      else
        let '(word, rest) := first_word value in
        if Str.nonempty rest && bool_decide (Str.lower word ∈ ["bearer"; "token"]) then
          let rest := Str.strip rest in if Str.nonempty rest then Some rest else None
        else Some value
  end.

Definition _auth_scheme_label (authorization : option string) : string :=
  match authorization with
  | None => "none"
  | Some a =>
      let value := Str.strip a in
      if negb (Str.nonempty value) then "empty"
      else let '(word, rest) := first_word value in if Str.nonempty rest then Str.lower word else "raw"
  end.

(** [_log_auth_observed]: whether the presented credential is the configured
    one, for the log. *)
Definition _log_auth_observed (cs : CheckoutSettings) (authorization : option string) : exn + bool :=
  if Str.nonempty cs.(cloudpayments_webhook_token)
  then compare_digest (default "" (_extract_webhook_credential authorization)) cs.(cloudpayments_webhook_token)
  else inr false.

Definition require_cloudpayments_webhook (cs : CheckoutSettings) (authorization : option string) : exn + unit :=
  match _log_auth_observed cs authorization with inl x => inl x | inr _ => inr tt end.

(** ** The routes *)

Definition purchase_tokens (verify : string -> exn + StoreKit.VerifiedTransaction) (gs : GatewaySettings) (rs : RateSettings)
    (uuid5 : uuid -> string -> uuid) (c : ClientCall) (body_user_id : uuid) (transaction : string) : M TokenPurchase.PurchaseResult :=
  client_route gs uuid5 c (fun u =>
    require_owner body_user_id u;; other_limit rs c u;; TokenPurchase.purchase verify u transaction).

Definition cloudpayments_checkout (repr : json -> string) (post_link : LinkForm -> Reply) (cs : CheckoutSettings)
    (gs : GatewaySettings) (rs : RateSettings) (uuid5 : uuid -> string -> uuid) (c : ClientCall)
    (product_id customer_email : string) : M CheckoutResult :=
  client_route gs uuid5 c (fun u =>
    s ← settings;
    if negb (cloudpayments_checkout_configured s cs)
    then raise (CloudPaymentsCheckoutNotConfiguredError "cloudpayments checkout not configured")
    else
      other_limit rs c u;;
      lift (validate_product s product_id);;
      lift (create_payment_link repr post_link cs u product_id customer_email)).

Definition token_products_route (get_products : Reply) (float_of_text : string -> option spec_float) (json_loads : string -> option json)
    (model_validate : dict -> option TokenProduct) (cs : CheckoutSettings) (gs : GatewaySettings) (uuid5 : uuid -> string -> uuid)
    (c : ClientCall) : M (list TokenProduct) :=
  client_route gs uuid5 c (fun _ => s ← settings; lift (list_token_products get_products float_of_text json_loads model_validate s cs)).

Definition adapty_webhook (fromisoformat : string -> option instant) (isoformat : instant -> string)
    (cs : CheckoutSettings) (credentials : option string) (raw : Adapty.raw_body) : M Adapty.WebhookOutcome :=
  lift (require_adapty_webhook cs credentials);; Adapty.handle fromisoformat isoformat raw.

(** [handle]: [CloudPaymentsWebhookService.handle] of the deployment. *)
Definition cloudpayments_webhook (handle : raw_body -> M CloudPayments.WebhookOutcome) (rs : RateSettings) (cs : CheckoutSettings)
    (authorization ip : option string) (a : Attempt) (counters : ZSets) (raw : raw_body) : M Z :=
  lift (require_cloudpayments_webhook cs authorization);;
  _rate_limit (enforce_cloudpayments_webhook_limits rs a ip counters).1;;
  handle raw;;
  mret 0.
End Checkout.

Import Checkout.

(** ** A link is for what can be credited *)

Lemma product_get_in s code z : product_get (token_products s) code = Some z -> str_in code (token_products s).*1 = true.
Proof.
  unfold product_get, str_in. intros H. apply fmap_Some in H as ([k z'] & Hf & ->).
  apply find_first_Some in Hf as [Hin He]. cbn in He. apply existsb_exists. exists k.
  split; [|by rewrite String.eqb_sym]. apply list_elem_of_In, list_elem_of_fmap. by exists (k, z').
Qed.

Lemma classified_in s code : str_in code (token_products s).*1 = true ->
  CloudPayments.classify_product code None (token_products s).*1 = CloudPayments.KIND_TOKENS.
Proof. intros H. unfold CloudPayments.classify_product. by rewrite H. Qed.

(** C20: the checkout and the webhook agree on what is for sale.  A link is
    issued for a product exactly when a one-time payment of that product is
    priced by the webhook, a token pack with a positive amount. *)
Theorem link_iff_creditable s p :
  p.(CloudPayments.payment_type) = "one_time" ->
  validate_product s p.(CloudPayments.product_code) = inr tt <->
  exists kind credits reason, CloudPayments.price_payment s p = Some (kind, credits, reason) /\ (kind = CloudPayments.KIND_TOKENS -> 0 < credits).
Proof.
  intros Ht. unfold validate_product, CloudPayments.price_payment. rewrite Ht. cbn [String.eqb Ascii.eqb Bool.eqb].
  set (code := CloudPayments.product_code p). set (ids := (token_products s).*1).
  assert (Hpos : forall z, product_get (token_products s) code = Some z -> 0 < z)
    by (intros z; unfold token_products; apply product_get_positive).
  destruct (str_in code ids) eqn:Hin.
  - pose proof (classified_in s code Hin) as Hc. fold ids in Hc. rewrite Hc. cbn.
    destruct (product_get (token_products s) code) as [z|] eqn:Hp; cbn.
    + specialize (Hpos z eq_refl). rewrite (proj2 (Z.leb_gt z 0)) by lia. split; [|done]. intros _.
      exists CloudPayments.KIND_TOKENS, z, "cloudpayments_tokens". naive_solver.
    + split; [done|]. by intros (? & ? & ? & ? & _).
  - assert (Hnone : product_get (token_products s) code = None).
    { destruct (product_get (token_products s) code) as [z|] eqn:Hp; [|done]. apply product_get_in in Hp. by unfold ids in Hin; congruence. }
    rewrite Hnone. cbn [default].
    assert (CloudPayments.classify_product code None ids = CloudPayments.KIND_TOKENS \/
            CloudPayments.classify_product code None ids = CloudPayments.KIND_SUBSCRIPTION \/
            CloudPayments.classify_product code None ids = CloudPayments.KIND_UNKNOWN) as Hk.
    { unfold CloudPayments.classify_product. rewrite Hin. cbn.
      destruct (CloudPayments._TOKENS_NAME_RE code); [by left|]. destruct (CloudPayments._looks_like_subscription code); eauto. }
    destruct Hk as [-> | [-> | ->]]; cbn; split; try done; try by intros (? & ? & ? & ? & _).
    intros _. eexists _, _, _. split; [done|]. done.
Qed.

Lemma link_iff_creditable_witness :
  validate_product shop_env.(env_settings) "tokens.500" = inr tt /\
  exists kind credits reason,
    CloudPayments.price_payment shop_env.(env_settings) (CloudPayments.mkCreditable "p1" "tokens.500" "one_time" "paid" 0) =
      Some (kind, credits, reason) /\ (kind = CloudPayments.KIND_TOKENS -> 0 < credits).
Proof.
  split; [vm_compute; reflexivity|].
  apply (link_iff_creditable shop_env.(env_settings) (CloudPayments.mkCreditable "p1" "tokens.500" "one_time" "paid" 0));
    vm_compute; reflexivity.
Defined.

(** ** The catalogue shows what is credited *)

Lemma from_broadapps_credits ft item tps minor p n :
  _from_broadapps ft item tps minor = inr (Some p) -> p.(tp_credits) = Some n -> product_get tps p.(tp_product_id) = Some n.
Proof.
  unfold _from_broadapps. intros H Hc. destruct item as [| | | | | |d]; try done.
  destruct (dict_get d "code") as [| | | |code| |]; try done. destruct code as [|ch code]; [done|].
  destruct (match dict_get d "status" with JNull => _ | _ => _ end); [done|].
  destruct (price_of ft (dict_get d "price_amount") minor) as [x|price]; [done|]. injection H as <-. cbn in *.
  by destruct (bool_decide _).
Qed.

Lemma live_products_credits ft items tps minor ps p n :
  live_products ft items tps minor = inr ps -> p ∈ ps -> p.(tp_credits) = Some n ->
  product_get tps p.(tp_product_id) = Some n.
Proof.
  revert ps. induction items as [|item items IH]; cbn; intros ps H Hin Hc; [by injection H as <-; apply not_elem_of_nil in Hin|].
  destruct (_from_broadapps ft item tps minor) as [x|o] eqn:Ef; [done|].
  destruct (live_products ft items tps minor) as [x|rest]; [done|]. injection H as <-.
  destruct o as [q|]; [|by eapply IH].
  apply elem_of_cons in Hin as [->|Hin]; [by eapply from_broadapps_credits|by eapply IH].
Qed.

Lemma catalog_response_member jl cs products p :
  p ∈ _catalog_response jl cs products ->
  exists q, q ∈ products /\ p.(tp_product_id) = q.(tp_product_id) /\ p.(tp_credits) = q.(tp_credits).
Proof.
  unfold _catalog_response. destruct (token_products_default jl cs) as [|d ds]; [eauto|].
  intros (q & -> & Hin)%list_elem_of_fmap. exists q. unfold mark_default. by destruct (bool_decide _).
Qed.

Lemma product_get_member (l : list (string * Z)) k z : NoDup l.*1 -> (k, z) ∈ l -> product_get l k = Some z.
Proof.
  unfold product_get. induction l as [|[k' z'] l IH]; intros Hnd Hin; [by apply not_elem_of_nil in Hin|].
  apply NoDup_cons in Hnd as [Hk Hnd]. apply elem_of_cons in Hin as [[= <- <-]|Hin]; cbn; [by rewrite String.eqb_refl|].
  destruct (String.eqb k' k) eqn:E; [|by apply IH]. apply String.eqb_eq in E as ->. exfalso. apply Hk.
  apply list_elem_of_fmap. by exists (k, z).
Qed.

(** The credits the catalogue promises for a pack are the credits its purchase
    grants, with the live catalogue and with the packs of the table. *)
Theorem catalogue_credits_true gp ft jl mv s cs ps p n :
  NoDup (token_products s).*1 -> products_catalog jl cs = [] ->
  list_token_products gp ft jl mv s cs = inr ps -> p ∈ ps -> p.(tp_credits) = Some n ->
  product_get (token_products s) p.(tp_product_id) = Some n.
Proof.
  intros Hnd Hcat H Hin Hc. unfold list_token_products in H. rewrite Hcat in H. cbn [omap list_omap] in H.
  assert (Hfall : p ∈ _catalog_response jl cs (fallback_products s) -> product_get (token_products s) (tp_product_id p) = Some n).
  { intros (q & Hq & Hid & Hcr)%catalog_response_member. unfold fallback_products in Hq.
    apply list_elem_of_fmap in Hq as ([k z] & -> & Hq). cbn in *. rewrite Hid. apply product_get_member; [done|]. congruence. }
  destruct (list_products gp s cs) as [[|d ds]|]; [by injection H as <-; apply Hfall| |by injection H as <-; apply Hfall].
  destruct (live_products ft (d :: ds) (token_products s) _) as [x|[|l ls]] eqn:El; [done|by injection H as <-; apply Hfall|].
  injection H as <-. apply catalog_response_member in Hin as (q & Hq & Hid & Hcr). rewrite Hid.
  eapply live_products_credits; [exact El|exact Hq|congruence].
Qed.

Definition shop_settings (catalog : string) : CheckoutSettings := mkCheckoutSettings "app-1" "https://pay" "hook" "adapty" "tokens.500" catalog true.

(** One live product at 6.99, a catalogue of our own that promises 900. *)
Definition live_item : json :=
  JObj [("code", JStr "tokens.500"); ("status", JStr "active"); ("payment_type", JStr "one_time"); ("price_amount", JStr "6.99")].

Definition float_699 : spec_float := S754_finite false 7870049148429271 (-50).

Definition demo_float (s : string) : option spec_float := if String.eqb s "6.99" then Some float_699 else None.

Definition promised_900 (_ : dict) : option TokenProduct :=
  Some (mkTokenProduct "tokens.500" None None None None None (Some 900) false false).

Definition own_catalogue (s : string) : option json :=
  if String.eqb s "own" then Some (JArr [JObj [("productId", JStr "tokens.500"); ("credits", JInt 900)]]) else None.

Lemma catalogue_credits_true_witness :
  list_token_products (http_reply 200 (Some (JObj [("data", JArr [live_item])]))) demo_float own_catalogue promised_900
    shop_env.(env_settings) (shop_settings "") =
    inr [mkTokenProduct "tokens.500" None (Some "tokens") None (Some 699) None (Some 500) false true] /\
  product_get (token_products shop_env.(env_settings)) "tokens.500" = Some 500.
Proof.
  split; [vm_compute; reflexivity|].
  apply (catalogue_credits_true (http_reply 200 (Some (JObj [("data", JArr [live_item])]))) demo_float own_catalogue promised_900
           shop_env.(env_settings) (shop_settings "")
           [mkTokenProduct "tokens.500" None (Some "tokens") None (Some 699) None (Some 500) false true]
           (mkTokenProduct "tokens.500" None (Some "tokens") None (Some 699) None (Some 500) false true) 500);
    [vm_compute; repeat constructor; set_solver|vm_compute; reflexivity|vm_compute; reflexivity|set_solver|done].
Defined.

(** The static catalogue states credits of its own, which nothing compares with
    the price table. *)
Theorem static_catalogue_may_promise_more :
  list_token_products http_error demo_float own_catalogue promised_900 shop_env.(env_settings) (shop_settings "own") =
    inr [mkTokenProduct "tokens.500" None None None None None (Some 900) false true] /\
  product_get (token_products shop_env.(env_settings)) "tokens.500" = Some 500.
Proof. split; vm_compute; reflexivity. Qed.

(** A price the provider writes as an infinite or too large number ends the
    catalogue request with an exception that is not handled. *)
Theorem huge_price_not_skipped :
  price_of (fun _ => Some (S754_infinity false)) (JStr "1e999") true = inl OverflowError /\
  app_error OverflowError = None.
Proof. split; reflexivity. Qed.

(** ** The doors *)

(** Without the configured secret nothing reaches the subscription handler. *)
Theorem adapty_door fi iso cs credentials raw e w :
  credentials <> Some cs.(adapty_webhook_secret) \/ cs.(adapty_webhook_secret) = "" ->
  exists x, adapty_webhook fi iso cs credentials raw e w = (inl x, w).
Proof.
  intros Hno. unfold adapty_webhook, require_adapty_webhook.
  destruct (Str.nonempty (adapty_webhook_secret cs)) eqn:En; cbn [negb].
  2: { eexists. by fails by done. }
  destruct credentials as [p|]; [|eexists; by fails by done]. unfold compare_digest.
  destruct (is_ascii p && is_ascii (adapty_webhook_secret cs)); [|eexists; by fails by done].
  destruct (String.eqb p (adapty_webhook_secret cs)) eqn:E; [|eexists; by fails by done].
  apply String.eqb_eq in E as ->. destruct Hno as [Hno|Hno]; [done|]. by rewrite Hno in En.
Qed.

(** The observation of the payment callback is said never to raise; a header
    with a byte outside ASCII makes it, and the callback is refused. *)
Theorem observation_can_raise :
  require_cloudpayments_webhook (shop_settings "") (Some (String (ascii_of_nat 233) "x")) = inl TypeError /\
  app_error TypeError = None.
Proof. split; reflexivity. Qed.
