(* ===== verification/Auth.v ===== *)
(** * Sign-in

    Models [src/app/auth]: the issuer of access tokens, Apple identity tokens,
    devices and refresh tokens ([service.py]), the cleanup of refresh tokens
    ([cleanup_reaper.py]), and the verifier of access tokens in
    [src/app/api_gateway/auth.py].  PyJWT and the JWKS clients, [sha256] and the
    random source are parameters.  So is what other transactions commit between
    two statements: a change of the tables, seen by the session and by everybody
    else. *)

From Stdlib Require Import Ascii String.
From S2P Require Import Prelude PyVal Redaction Store Logic Fixtures WalletRun Uuid Gateway.

Open Scope string_scope.
Open Scope list_scope.
Open Scope Z_scope.

Record AuthSettings : Type := mkAuthSettings {
  jwt_private_key_path : string;
  jwt_private_key : string;
  jwt_public_key_path : string;
  jwt_public_key : string;
  jwt_issuer : string;
  jwt_audience : string;
  jwt_kid : string;
  jwt_jwks_url : string;
  auth_access_ttl_seconds : Z;
  auth_refresh_ttl_seconds : Z;
  auth_refresh_cleanup_grace_seconds : Z;
  apple_oidc_issuer : string;
  apple_audience : string;
  appstore_bundle_id : string;
  apple_test_secret : string;
  apple_test_mode : bool
}.

(** PyJWT: [None] is [InvalidTokenError], of a signing key [PyJWKClientError] or
    [HTTPError].  Decoding has the required claims as its last argument. *)
Record Jwt : Type := mkJwt {
  jwt_encode : dict -> string -> option string -> string;
  get_unverified_header : string -> option dict;
  jwks_signing_key : string -> option string;
  apple_signing_key : string -> option string;
  jwt_decode : string -> string -> string -> option string -> option string -> list string -> option dict
}.

Record IssuedTokens : Type := mkIssuedTokens {
  it_user_id : uuid;
  it_device_id : string;
  it_access_token : string;
  it_expires_in : Z;
  it_refresh_token : string;
  it_refresh_expires_in : Z
}.

(** [str or None] *)
Definition or_none (s : string) : option string := if Str.nonempty s then Some s else None.

(** [s.replace("\\n", "\n")] *)
Fixpoint unescape_newlines (s : string) : string :=
  match s with
  | String "\" (String "n" rest) => String "010" (unescape_newlines rest)
  | String c rest => String c (unescape_newlines rest)
  | EmptyString => EmptyString
  end.

Section auth.
Context (st : AuthSettings) (jwt : Jwt) (sha256 : string -> string) (py_str : json -> string) (read_file : string -> string).
Context (draw : nat -> string) (meanwhile : nat -> Db -> Db).

(** Between two statements: others commit. *)
Definition gap : M unit := fun _ w =>
  (inr tt, mkWorld (meanwhile w.(w_ticks) w.(w_db)) (meanwhile w.(w_ticks) w.(w_committed)) w.(w_uuids) (S w.(w_ticks))
             w.(w_seq) w.(w_metrics) w.(w_host)).

(** [secrets.token_urlsafe(32)] *)
Definition token_urlsafe : M string := fun _ w =>
  (inr (draw w.(w_uuids)),
   mkWorld w.(w_db) w.(w_committed) (S w.(w_uuids)) w.(w_ticks) w.(w_seq) w.(w_metrics) w.(w_host)).

Definition text_of (v : json) : string := match v with JStr s => s | _ => py_str v end.

(** ** Keys *)

Definition _resolve_pem (path_value string_value : string) : string :=
  if Str.nonempty path_value then read_file path_value
  else if Str.nonempty string_value then unescape_newlines string_value
  else "".

Definition resolve_private_key : string := _resolve_pem st.(jwt_private_key_path) st.(jwt_private_key).
Definition resolve_public_key : string := _resolve_pem st.(jwt_public_key_path) st.(jwt_public_key).

Definition apple_audience_resolved : string :=
  let explicit := Str.strip st.(apple_audience) in
  if Str.nonempty explicit then explicit else Str.strip st.(appstore_bundle_id).

(** ** Access tokens *)

Definition configured : bool := Str.nonempty resolve_private_key.

Definition claim_of (name value : string) : dict := if Str.nonempty value then [(name, JStr value)] else [].

(** [int(t.timestamp())] of an instant after 1970. *)
Definition timestamp (t : instant) : Z := Z.quot t 1000000.

Definition access_claims (now : instant) (u : uuid) (device_id : string) : dict :=
  [("sub", JStr (uuid_str u)); ("device_id", JStr device_id); ("iat", JInt (timestamp now));
   ("exp", JInt (timestamp (now + st.(auth_access_ttl_seconds) * 1000000)))] ++
  claim_of "iss" st.(jwt_issuer) ++ claim_of "aud" st.(jwt_audience).

(** [None] is [IssuerNotConfiguredError]. *)
Definition issue_access_token (u : uuid) (device_id : string) : M (option string) :=
  if negb configured then mret None
  else
    now ← py_now;
    mret (Some (jwt.(jwt_encode) (access_claims now u device_id) resolve_private_key (or_none st.(jwt_kid)))).

Definition _signing_key (token : string) : exn + string :=
  if Str.nonempty st.(jwt_jwks_url)
  then match jwt.(jwks_signing_key) token with
       | Some key => inr key
       | None => inl (UnauthorizedError "unable to resolve signing key")
       end
  else if Str.nonempty resolve_public_key then inr resolve_public_key
  else inl (UnauthorizedError "no JWT verification key configured").

(** The user and the device of an access token. *)
Definition verify_access_token (token : string) : exn + (uuid * json) :=
  match _signing_key token with
  | inl x => inl x
  | inr key =>
      match jwt.(jwt_decode) token key "RS256" (or_none st.(jwt_issuer)) (or_none st.(jwt_audience)) ["exp"; "sub"] with
      | None => inl (UnauthorizedError "invalid token")
      | Some claims =>
          let sub := dict_get claims "sub" in
          if negb (truthy sub) then inl (UnauthorizedError "missing sub")
          else match UUID (text_of sub) with
               | None => inl (UnauthorizedError "sub is not a valid user id")
               | Some u => inr (u, dict_get claims "device_id")
               end
      end
  end.

Definition verify_bearer_token (authorization : option string) : exn + (uuid * json) :=
  match authorization with
  | Some a =>
      if Str.startswith "bearer " (Str.lower a) then verify_access_token (Str.strip (substring 7 (String.length a - 7) a))
      else inl (UnauthorizedError "missing bearer token")
  | None => inl (UnauthorizedError "missing bearer token")
  end.

(** ** Apple identity tokens *)

Record VerifiedAppleIdentity : Type := mkAppleIdentity { apple_sub : string; ap_email : json; ap_email_verified : bool }.

Definition invalid_apple : exn := UnauthorizedError "invalid apple identity token".

Definition apple_required : list string := ["sub"; "iss"; "aud"; "exp"].

Definition _decode_real (token : string) : exn + dict :=
  match jwt.(apple_signing_key) token with
  | None => inl invalid_apple
  | Some key =>
      match jwt.(jwt_decode) token key "RS256" (Some st.(apple_oidc_issuer)) (Some apple_audience_resolved) apple_required with
      | None => inl invalid_apple
      | Some claims => inr claims
      end
  end.

Definition _decode_test (token : string) : exn + dict :=
  match jwt.(jwt_decode) token st.(apple_test_secret) "HS256" (Some st.(apple_oidc_issuer)) (Some apple_audience_resolved)
          apple_required with
  | None => inl invalid_apple
  | Some claims => inr claims
  end.

(** The nonce is compared when both sides have one. *)
Definition _check_nonce (claims : dict) (nonce : option string) : bool :=
  let claim_nonce := dict_get claims "nonce" in
  match nonce with
  | Some (String _ _ as n) => if truthy claim_nonce then String.eqb (sha256 n) (text_of claim_nonce) else true
  | _ => true
  end.

Definition verify_apple (token : string) (nonce : option string) : exn + VerifiedAppleIdentity :=
  if negb (Str.nonempty apple_audience_resolved) then inl (ServiceUnavailableError "apple sign-in is not configured")
  else
    match jwt.(get_unverified_header) token with
    | None => inl invalid_apple
    | Some header =>
        let alg := text_of (default (JStr "") (dict_lookup "alg" header)) in
        let claims :=
          if String.eqb alg "HS256"
          then if st.(apple_test_mode) && Str.nonempty st.(apple_test_secret) then _decode_test token else inl invalid_apple
          else _decode_real token in
        match claims with
        | inl x => inl x
        | inr claims =>
            if negb (_check_nonce claims nonce) then inl invalid_apple
            else
              let sub := dict_get claims "sub" in
              if negb (truthy sub) then inl invalid_apple
              else inr (mkAppleIdentity (text_of sub) (dict_get claims "email")
                          (truthy (default (JBool false) (dict_lookup "email_verified" claims))))
        end
    end.

(** ** Devices *)

Definition _require_issuer : M unit :=
  if configured then mret tt else raise (ServiceUnavailableError "auth issuer is not configured").

Definition device_user (device_id : string) : M (option uuid) :=
  d ← get_db; mret (ad_user_id <$> d.(auth_devices) !! device_id).

Definition put_device (device_id : string) (r : AuthDevice) (d : Db) : Db :=
  set_auth_devices (<[device_id := r]> d.(auth_devices)) d.

(** INSERT INTO auth_devices ... ON CONFLICT (device_id) DO NOTHING *)
Definition insert_device (device_id : string) (u : uuid) : M unit :=
  d ← get_db;
  match d.(auth_devices) !! device_id with
  | Some _ => mret tt
  | None =>
      check_constraint (user_exists d u);;
      now ← pg_now;
      modify_db (put_device device_id (mkAuthDevice u now))
  end.

Definition _find_or_create_identity (device_id : string) : M uuid :=
  row ← device_user device_id;
  match row with
  | Some u =>
      now ← pg_now;
      modify_db (fun d => match d.(auth_devices) !! device_id with
                          | Some r => put_device device_id (mkAuthDevice r.(ad_user_id) now) d
                          | None => d
                          end);;
      mret u
  | None =>
      new_user_id ← gen_random_uuid;
      provision_user new_user_id;;
      gap;;
      insert_device device_id new_user_id;;
      winner ← device_user device_id;
      match winner with
      | None => raise (ServiceUnavailableError "failed to provision device identity")
      | Some u => mret u
      end
  end.

(** INSERT ... ON CONFLICT (device_id) DO UPDATE *)
Definition _upsert_device (device_id : string) (u : uuid) : M unit :=
  d ← get_db;
  check_constraint (user_exists d u);;
  now ← pg_now;
  modify_db (put_device device_id (mkAuthDevice u now)).

(** ** Token pairs *)

Definition _hash_refresh (token : string) : string := sha256 token.

Definition put_refresh (hash : string) (r : AuthRefreshToken) (d : Db) : Db :=
  set_auth_refresh_tokens (<[hash := r]> d.(auth_refresh_tokens)) d.

(** The unique index on the hash and both foreign keys are checked. *)
Definition insert_refresh (hash : string) (u : uuid) (device_id : string) (expires_at : instant) : M unit :=
  id ← gen_random_uuid;
  d ← get_db;
  check_constraint (bool_decide (d.(auth_refresh_tokens) !! hash = None));;
  check_constraint (user_exists d u && bool_decide (is_Some (d.(auth_devices) !! device_id)));;
  modify_db (put_refresh hash (mkAuthRefreshToken id u device_id expires_at None None)).

Definition _issue_pair (u : uuid) (device_id : string) : M IssuedTokens :=
  access ← issue_access_token u device_id;
  match access with
  | None => raise (ServiceUnavailableError "auth issuer is not configured")
  | Some access_token =>
      refresh_token ← token_urlsafe;
      now ← py_now;
      insert_refresh (_hash_refresh refresh_token) u device_id (now + st.(auth_refresh_ttl_seconds) * 1000000);;
      mret (mkIssuedTokens u device_id access_token st.(auth_access_ttl_seconds) refresh_token st.(auth_refresh_ttl_seconds))
  end.

(** [device_id or str(uuid.uuid4())] *)
Definition resolve_device (device_id : option string) : M string :=
  match device_id with
  | Some (String _ _ as s) => mret s
  | _ => u ← gen_random_uuid; mret (uuid_str u)
  end.

Definition register_or_token (device_id : option string) : M IssuedTokens :=
  _require_issuer;;
  resolved_device_id ← resolve_device device_id;
  user_id ← _find_or_create_identity resolved_device_id;
  tokens ← _issue_pair user_id resolved_device_id;
  commit;;
  mret tokens.

(** ** Apple accounts *)

Definition APPLE : string := "apple".

Definition apple_user (subject : string) : M (option uuid) :=
  d ← get_db; mret (ai_user_id <$> d.(auth_identities) !! (APPLE, subject)).

Definition has_apple (d : Db) (u : uuid) : bool :=
  existsb (fun kv => String.eqb kv.1.1 APPLE && N.eqb kv.2.(ai_user_id) u) (map_to_list d.(auth_identities)).

(** The driver refuses anything but text for the column. *)
Definition email_param (v : json) : M (option string) :=
  match v with JNull => mret None | JStr s => mret (Some s) | _ => raise DataError end.

(** INSERT INTO auth_identities ... ON CONFLICT (provider, subject) DO NOTHING *)
Definition insert_identity (u : uuid) (subject : string) (email : json) : M unit :=
  address ← email_param email;
  d ← get_db;
  match d.(auth_identities) !! (APPLE, subject) with
  | Some _ => mret tt
  | None =>
      check_constraint (user_exists d u);;
      modify_db (fun d => set_auth_identities (<[(APPLE, subject) := mkAuthIdentity u address]> d.(auth_identities)) d)
  end.

Definition _resolve_apple_user (subject : string) (email : json) (device_id : string) : M uuid :=
  row ← apple_user subject;
  match row with
  | Some u => mret u
  | None =>
      device_user_id ← _find_or_create_identity device_id;
      gap;;
      d ← get_db;
      link_to ← (if negb (has_apple d device_user_id) then mret device_user_id
                 else u ← gen_random_uuid; provision_user u;; mret u : M uuid);
      gap;;
      insert_identity link_to subject email;;
      winner ← apple_user subject;
      match winner with
      | None => raise (ServiceUnavailableError "failed to link apple identity")
      | Some u => mret u
      end
  end.

Definition sign_in_with_apple (identity_token : string) (device_id nonce : option string) : M IssuedTokens :=
  _require_issuer;;
  match verify_apple identity_token nonce with
  | inl x => raise x
  | inr identity =>
      resolved_device_id ← resolve_device device_id;
      target_user_id ← _resolve_apple_user identity.(apple_sub) identity.(ap_email) resolved_device_id;
      _upsert_device resolved_device_id target_user_id;;
      tokens ← _issue_pair target_user_id resolved_device_id;
      commit;;
      mret tokens
  end.

(** ** Refresh *)

Definition map_refresh (f : AuthRefreshToken -> AuthRefreshToken) (d : Db) : Db :=
  set_auth_refresh_tokens (f <$> d.(auth_refresh_tokens)) d.

Definition mark_used (id : uuid) (now : instant) (r : AuthRefreshToken) : AuthRefreshToken :=
  if N.eqb r.(rt_id) id
  then mkAuthRefreshToken r.(rt_id) r.(rt_user_id) r.(rt_device_id) r.(rt_expires_at) (Some now) r.(rt_revoked_at) else r.

Definition mark_revoked (u : uuid) (device_id : string) (now : instant) (r : AuthRefreshToken) : AuthRefreshToken :=
  if N.eqb r.(rt_user_id) u && String.eqb r.(rt_device_id) device_id && bool_decide (r.(rt_revoked_at) = None)
  then mkAuthRefreshToken r.(rt_id) r.(rt_user_id) r.(rt_device_id) r.(rt_expires_at) r.(rt_used_at) (Some now) else r.

Definition _revoke_chain (u : uuid) (device_id : string) : M unit :=
  now ← pg_now;
  modify_db (map_refresh (mark_revoked u device_id now)).

Definition refresh (refresh_token : string) : M IssuedTokens :=
  _require_issuer;;
  d ← get_db;
  match d.(auth_refresh_tokens) !! _hash_refresh refresh_token with
  | None => raise (UnauthorizedError "invalid refresh token")
  | Some row =>
      gap;;
      match row.(rt_used_at) with
      | Some _ =>
          _revoke_chain row.(rt_user_id) row.(rt_device_id);;
          commit;;
          raise (UnauthorizedError "refresh token reuse detected")
      | None =>
          match row.(rt_revoked_at) with
          | Some _ => raise (UnauthorizedError "refresh token revoked")
          | None =>
              now ← py_now;
              if row.(rt_expires_at) <=? now then raise (UnauthorizedError "refresh token expired")
              else
                pgnow ← pg_now;
                modify_db (map_refresh (mark_used row.(rt_id) pgnow));;
                tokens ← _issue_pair row.(rt_user_id) row.(rt_device_id);
                commit;;
                mret tokens
          end
      end
  end.

(** ** Cleanup *)

(** The rows the DELETE spares. *)
Definition kept_refresh (now grace : Z) (r : AuthRefreshToken) : bool :=
  negb (r.(rt_expires_at) <? now) &&
  match (match r.(rt_used_at) with Some t => Some t | None => r.(rt_revoked_at) end) with
  | Some t => negb (t <? now - grace * 1000000)
  | None => true
  end.

Definition cleanup_refresh_tokens : M Z :=
  let grace := Z.max st.(auth_refresh_cleanup_grace_seconds) 0 in
  session_scope (
    now ← pg_now;
    d ← get_db;
    let kept := filter (fun kv => kept_refresh now grace kv.2 = true) d.(auth_refresh_tokens) in
    modify_db (set_auth_refresh_tokens kept);;
    mret (Z.of_nat (size d.(auth_refresh_tokens)) - Z.of_nat (size kept))).

(** Turns of the loop; the exception of a tick is logged and swallowed. *)
Fixpoint run_cleanup_reaper (turns : list Env) (w : World) : World :=
  match turns with
  | [] => w
  | e :: rest => let '(_, w') := cleanup_refresh_tokens e w in run_cleanup_reaper rest (with_db w'.(w_committed) w')
  end.

(** ** Requests *)

Inductive AuthRequest : Type :=
| rq_register (device_id : option string)
| rq_apple (identity_token : string) (device_id nonce : option string)
| rq_refresh (refresh_token : string).

Definition serve (q : AuthRequest) : M IssuedTokens :=
  session_scope match q with
                | rq_register dev => register_or_token dev
                | rq_apple token dev nonce => sign_in_with_apple token dev nonce
                | rq_refresh token => refresh token
                end.
End auth.

(** ** Histories

    Every event has its own environment, its own random source, and its own
    neighbours. *)

Section histories.
Context (st : AuthSettings) (jwt : Jwt) (sha256 : string -> string) (py_str : json -> string) (read_file : string -> string).

Inductive AuthEvent : Type :=
| ev_request (draw : nat -> string) (meanwhile : nat -> Db -> Db) (e : Env) (q : AuthRequest)
| ev_cleanup (e : Env).

Notation served draw meanwhile := (serve st jwt sha256 py_str read_file draw meanwhile).

Definition after (w : World) (ev : AuthEvent) : World :=
  match ev with
  | ev_request draw meanwhile e q => (served draw meanwhile q e w).2
  | ev_cleanup e => run_cleanup_reaper st [e] w
  end.

Definition replay (events : list AuthEvent) (w : World) : World := foldl after w events.

(** The neighbours of an event keep a property of the database. *)
Definition respects (I : Db -> Prop) (ev : AuthEvent) : Prop :=
  match ev with
  | ev_request _ meanwhile _ _ => forall n d, I d -> I (meanwhile n d)
  | ev_cleanup _ => True
  end.

Lemma keeps_gap I meanwhile : (forall n d, I d -> I (meanwhile n d)) -> keeps I I (gap meanwhile).
Proof. intros H e w [H1 H2]. cbn. split; [by apply H|intros _; by apply H]. Qed.

Lemma keeps_draw {A} I J draw (k : string -> M A) :
  (forall n, keeps I J (k (draw n))) -> keeps I J (token_urlsafe draw ≫= k).
Proof. intros Hk e w Hw. apply (Hk _ e (mkWorld _ _ _ _ _ _ _) Hw). Qed.

(** What the statements of this module may do to a property of the database. *)
Class AuthStable (I : Db -> Prop) (draw : nat -> string) : Prop := {
  stable_user d u r : I d -> d.(users) !! u = None -> I (set_users (<[u := r]> d.(users)) d);
  stable_device d k r : I d -> I (put_device k r d);
  stable_identity d k r : I d -> d.(auth_identities) !! k = None -> I (set_auth_identities (<[k := r]> d.(auth_identities)) d);
  stable_issue d n r : I d -> d.(auth_refresh_tokens) !! sha256 (draw n) = None -> I (put_refresh (sha256 (draw n)) r d);
  stable_used d id now : I d -> I (map_refresh (mark_used id now) d);
  stable_revoked d u dev now : I d -> I (map_refresh (mark_revoked u dev now) d)
}.

Definition survives_cleanup (I : Db -> Prop) : Prop := forall d now grace, I d ->
  I (set_auth_refresh_tokens (filter (fun kv => kept_refresh now grace kv.2 = true) d.(auth_refresh_tokens)) d).

Section stable.
Context (I : Db -> Prop) (draw : nat -> string) (meanwhile : nat -> Db -> Db).
Context `{HI : !AuthStable I draw}.
Hypothesis Hm : forall n d, I d -> I (meanwhile n d).

Lemma stable_provision u : keeps I I (provision_user u).
Proof. unfold provision_user. keeps_walk. destruct (users _ !! u) eqn:E; [done|]. by apply (stable_user (draw := draw)). Qed.

Lemma stable_gap : keeps I I (gap meanwhile).
Proof. by apply keeps_gap. Qed.

Lemma stable_insert_device k u : keeps I I (insert_device k u).
Proof. unfold insert_device. keeps_walk. by apply (stable_device (draw := draw)). Qed.

Lemma stable_upsert_device J k u : keeps I J (_upsert_device k u).
Proof. unfold _upsert_device. keeps_walk. by apply (stable_device (draw := draw)). Qed.

Hint Resolve stable_provision stable_gap stable_insert_device stable_upsert_device : hermes.

Lemma stable_find_or_create k : keeps I I (_find_or_create_identity meanwhile k).
Proof.
  unfold _find_or_create_identity, device_user. keeps_walk.
  destruct (auth_devices _ !! k); [by apply (stable_device (draw := draw))|done].
Qed.

Lemma stable_insert_refresh J n u k x : keeps I J (insert_refresh (sha256 (draw n)) u k x).
Proof.
  intros e w Hw. unfold insert_refresh, mbind, M_bind, gen_random_uuid, get_db, check_constraint. cbn.
  case_bool_decide as Hn; cbn; [|split; [apply Hw|by intros _; apply Hw]].
  destruct (_ && _); cbn; [|split; [apply Hw|by intros _; apply Hw]].
  split; [apply Hw|intros _]. apply stable_issue; [apply Hw|exact Hn].
Qed.

Lemma stable_issue_pair J u k : keeps I J (_issue_pair st jwt sha256 read_file draw u k).
Proof.
  unfold _issue_pair, issue_access_token, _hash_refresh. apply keeps_bind; [keeps_walk|intros [a|]; [|keeps_walk]].
  apply keeps_draw. intros n. keeps_walk. apply stable_insert_refresh.
Qed.

Hint Resolve stable_find_or_create stable_issue_pair : hermes.

Lemma stable_insert_identity u s m : keeps I I (insert_identity u s m).
Proof.
  intros e w Hw. unfold insert_identity, email_param, mbind, M_bind, get_db.
  destruct m; cbn; try (split; [apply Hw|done]); destruct (auth_identities _ !! _) eqn:E; cbn; try (split; [apply Hw|by intros _; apply Hw]);
    unfold check_constraint; destruct (user_exists _ u); cbn; try (split; [apply Hw|by intros _; apply Hw]);
    (split; [apply Hw|intros _; by apply (stable_identity (draw := draw)); [apply Hw|]]).
Qed.

Hint Resolve stable_insert_identity : hermes.

Lemma stable_ops :
  (forall dev, keeps I I (register_or_token st jwt sha256 read_file draw meanwhile dev)) /\
  (forall token dev nonce, keeps I I (sign_in_with_apple st jwt sha256 py_str read_file draw meanwhile token dev nonce)) /\
  (forall token, keeps I I (refresh st jwt sha256 read_file draw meanwhile token)).
Proof.
  split_and!; intros; unfold register_or_token, sign_in_with_apple, refresh, _require_issuer, resolve_device, _resolve_apple_user,
    apple_user, _revoke_chain; keeps_walk; by (apply (stable_used (draw := draw)) || apply (stable_revoked (draw := draw))).
Qed.
End stable.

Lemma replay_stable I events w :
  survives_cleanup I ->
  Forall (fun ev => respects I ev /\ match ev with ev_request draw _ _ _ => AuthStable I draw | ev_cleanup _ => True end) events ->
  sound I I w -> sound I I (replay events w).
Proof.
  intros Hc Hev. revert w. induction Hev as [|ev events [Hr Hi] Hev IH]; intros w Hw; [done|].
  apply IH. clear IH. destruct ev as [draw meanwhile e q|e]; cbn [after].
  - unfold serve. apply scope_sound; [|done]. destruct (stable_ops I draw meanwhile Hr) as (H1 & H2 & H3).
    destruct q; [apply H1|apply H2|apply H3].
  - cbn. split; by apply Hc, Hw.
Qed.

(** ** Refresh tokens are single-use *)

(** A token that will not be accepted: its row is gone, used or revoked. *)
Definition dead (hash : string) (d : Db) : Prop :=
  forall r, d.(auth_refresh_tokens) !! hash = Some r -> is_Some r.(rt_used_at) \/ is_Some r.(rt_revoked_at).

Definition never_drawn (hash : string) (ev : AuthEvent) : Prop :=
  match ev with ev_request draw _ _ _ => forall n, sha256 (draw n) <> hash | ev_cleanup _ => True end.

Lemma dead_map hash f d :
  (forall r, is_Some r.(rt_used_at) \/ is_Some r.(rt_revoked_at) -> is_Some (f r).(rt_used_at) \/ is_Some (f r).(rt_revoked_at)) ->
  dead hash d -> dead hash (map_refresh f d).
Proof.
  intros Hf Hd r. cbn. rewrite lookup_fmap. intros (r' & Hr & ->)%fmap_Some. by apply Hf, Hd.
Qed.

Lemma dead_stable hash draw : (forall n, sha256 (draw n) <> hash) -> AuthStable (dead hash) draw.
Proof.
  intros Hn. split; try done.
  - intros d n r Hd _ r'. cbn. rewrite lookup_insert_ne by done. apply Hd.
  - intros d id now. apply dead_map. intros r Hr. unfold mark_used. destruct (_ =? _)%N; [by left|done].
  - intros d u dev now. apply dead_map. intros r Hr. unfold mark_revoked. destruct (_ && _); [by right|done].
Qed.

Lemma dead_cleanup hash : survives_cleanup (dead hash).
Proof. intros d now grace Hd r. cbn. intros [Hr _]%map_lookup_filter_Some. by apply Hd. Qed.

Lemma dead_replay hash events w :
  Forall (fun ev => respects (dead hash) ev /\ never_drawn hash ev) events -> sound (dead hash) (dead hash) w ->
  sound (dead hash) (dead hash) (replay events w).
Proof.
  intros Hev. apply replay_stable; [apply dead_cleanup|]. eapply Forall_impl; [exact Hev|].
  intros [draw m e q|e] [H1 H2]; split; try done. by apply dead_stable.
Qed.

Lemma dead_refused draw meanwhile t e w :
  configured st read_file = true -> dead (sha256 t) w.(w_db) ->
  exists msg, (served draw meanwhile (rq_refresh t) e w).1 = inl (UnauthorizedError msg).
Proof.
  intros Hc Hd. unfold serve, session_scope, refresh, _require_issuer, _hash_refresh. rewrite Hc. unfold mbind, M_bind, get_db. cbn.
  destruct (auth_refresh_tokens (w_db w) !! sha256 t) as [r|] eqn:E; [|by eexists].
  destruct (Hd r E) as [[x Hx]|[x Hx]]; [by rewrite Hx; eexists|].
  destruct (rt_used_at r); [by eexists|]. rewrite Hx. by eexists.
Qed.

Lemma issue_pair_user draw u k e w tk w' :
  _issue_pair st jwt sha256 read_file draw u k e w = (inr tk, w') -> tk.(it_user_id) = u.
Proof.
  unfold _issue_pair. intros (a & w1 & _ & H)%bind_ok. destruct a as [a|]; [|done].
  apply bind_ok in H as (b & w2 & _ & H). apply bind_ok in H as (c & w3 & _ & H). apply bind_ok in H as (x & w4 & _ & H).
  by injection H as <- _.
Qed.

(** Others may use, revoke or delete the row of a token, but do not put another
    one in its place. *)
Definition same_row (hash : string) (meanwhile : nat -> Db -> Db) : Prop :=
  forall n d r', (meanwhile n d).(auth_refresh_tokens) !! hash = Some r' ->
  exists r, d.(auth_refresh_tokens) !! hash = Some r /\
    r'.(rt_id) = r.(rt_id) /\ r'.(rt_user_id) = r.(rt_user_id) /\ r'.(rt_device_id) = r.(rt_device_id).

Lemma refresh_spends draw meanwhile t e w tokens w1 :
  same_row (sha256 t) meanwhile -> (forall n, sha256 (draw n) <> sha256 t) ->
  served draw meanwhile (rq_refresh t) e w = (inr tokens, w1) ->
  configured st read_file = true /\ sound (dead (sha256 t)) (dead (sha256 t)) w1.
Proof.
  intros Hrow Hn. unfold serve, session_scope.
  destruct (refresh st jwt sha256 read_file draw meanwhile t e w) as [[x|tk] w2] eqn:E; [done|]. intros [= -> <-].
  cut (configured st read_file = true /\ dead (sha256 t) w2.(w_db)); [intros [H1 H2]; by split_and!|].
  revert E. unfold refresh, _require_issuer, _hash_refresh. destruct (configured st read_file); [|done]. intros H. split; [done|]. revert H.
  unfold get_db. intros (? & ? & [= <- <-] & H)%bind_ok. apply bind_ok in H as (? & ? & [= <- <-] & H).
  destruct (auth_refresh_tokens (w_db w) !! sha256 t) as [r|] eqn:Er; [|done].
  apply bind_ok in H as (? & ? & [= <- <-] & H).
  destruct (rt_used_at r); [by cbn in H|]. destruct (rt_revoked_at r); [done|].
  apply bind_ok in H as (now & ? & [= <- <-] & H). destruct (_ <=? _); [done|].
  apply bind_ok in H as (? & ? & [= <- <-] & H). apply bind_ok in H as (? & ? & [= <- <-] & H).
  set (w3 := with_db _ _) in H. apply bind_ok in H as (tk & w4 & Ht & H). apply bind_ok in H as (? & ? & [= <- <-] & [= <- <-]).
  cbn. pose proof (dead_stable (sha256 t) draw Hn) as HI.
  pose proof (stable_issue_pair (dead (sha256 t)) draw (fun _ => True) (rt_user_id r) (rt_device_id r) e w3) as Hk.
  rewrite Ht in Hk. apply Hk; [|done]. split; [|done]. subst w3. intros r'. cbn. rewrite lookup_fmap.
  intros (r1 & H1 & ->)%fmap_Some. left. destruct (Hrow _ _ _ H1) as (r0 & H0 & Hid & _).
  rewrite Er in H0. injection H0 as <-. unfold mark_used. rewrite Hid, N.eqb_refl. by eexists.
Qed.

(** A refresh token is accepted once.  After a refresh with a token has
    succeeded, and after any events on top of it, sign-ins, refreshes and
    cleanups with other transactions between their statements, no refresh with
    that token is accepted. *)
Theorem refresh_token_once draw meanwhile e t w tokens w1 events draw' meanwhile' e' :
  served draw meanwhile (rq_refresh t) e w = (inr tokens, w1) ->
  same_row (sha256 t) meanwhile -> (forall n, sha256 (draw n) <> sha256 t) ->
  Forall (fun ev => respects (dead (sha256 t)) ev /\ never_drawn (sha256 t) ev) events ->
  exists msg, (served draw' meanwhile' (rq_refresh t) e' (replay events w1)).1 = inl (UnauthorizedError msg).
Proof.
  intros H Hrow Hn Hev. destruct (refresh_spends _ _ _ _ _ _ _ Hrow Hn H) as [Hc Hd].
  apply dead_refused; [done|]. by apply dead_replay.
Qed.

(** Presenting a used token again ends every session of the device.  The
    reuse is refused, and no refresh token that the device had by then is
    accepted ever after. *)
Theorem reuse_ends_chain draw meanwhile e t w r t' r' events draw' meanwhile' e' :
  configured st read_file = true -> w.(w_db).(auth_refresh_tokens) !! sha256 t = Some r -> is_Some r.(rt_used_at) ->
  w.(w_db).(auth_refresh_tokens) !! sha256 t' = Some r' ->
  r'.(rt_user_id) = r.(rt_user_id) -> r'.(rt_device_id) = r.(rt_device_id) -> same_row (sha256 t') meanwhile ->
  Forall (fun ev => respects (dead (sha256 t')) ev /\ never_drawn (sha256 t') ev) events ->
  let '(answer, w1) := served draw meanwhile (rq_refresh t) e w in
  answer = inl (UnauthorizedError "refresh token reuse detected") /\
  exists msg, (served draw' meanwhile' (rq_refresh t') e' (replay events w1)).1 = inl (UnauthorizedError msg).
Proof.
  intros Hc Hr [x Hx] Hr' Hu Hv Hrow Hev. unfold serve at 1, session_scope at 1, refresh, _require_issuer, _hash_refresh. rewrite Hc.
  unfold mbind, M_bind, get_db. cbn. rewrite Hr. cbn. rewrite Hx. cbn. split; [done|].
  apply dead_refused; [done|]. apply dead_replay; [done|].
  assert (dead (sha256 t') (map_refresh (mark_revoked (rt_user_id r) (rt_device_id r) (env_pg_now e))
            (meanwhile (w_ticks w) (w_db w)))) as Hd; [|by split].
  intros r2. cbn. rewrite lookup_fmap. intros (r1 & H1 & ->)%fmap_Some.
  destruct (Hrow _ _ _ H1) as (r0 & H0 & _ & Eu & Ev). rewrite Hr' in H0. injection H0 as <-.
  unfold mark_revoked. rewrite Eu, Ev, Hu, Hv, N.eqb_refl, String.eqb_refl. case_bool_decide as Hb; cbn; [by right|].
  right. destruct (rt_revoked_at r1); [done|]. by destruct Hb.
Qed.

(** ** One Apple account, one user *)

Definition linked (subject : string) (u : uuid) (d : Db) : Prop := ai_user_id <$> d.(auth_identities) !! (APPLE, subject) = Some u.

Lemma linked_stable subject u draw : AuthStable (linked subject u) draw.
Proof.
  split; try done. intros d k r Hd Hk. unfold linked in *. cbn. rewrite lookup_insert_ne; [done|].
  intros ->. rewrite Hk in Hd. discriminate Hd.
Qed.

Lemma apple_user_run subject e w : apple_user subject e w = (inr (ai_user_id <$> w.(w_db).(auth_identities) !! (APPLE, subject)), w).
Proof. reflexivity. Qed.

Lemma resolve_apple_links meanwhile subject email k e w u w' :
  _resolve_apple_user meanwhile subject email k e w = (inr u, w') ->
  linked subject u w'.(w_db) /\ forall v, linked subject v w.(w_db) -> u = v.
Proof.
  unfold _resolve_apple_user. intros (row & ? & Hrow & H)%bind_ok. rewrite apple_user_run in Hrow. injection Hrow as <- <-.
  unfold linked at 2. destruct (_ <$> _) as [v|] eqn:E.
  - injection H as <- <-. split; [exact E|]. congruence.
  - split; [|congruence]. clear E. do 6 (apply bind_ok in H as (? & ? & _ & H)).
    apply bind_ok in H as (row & ? & Hrow & H). rewrite apple_user_run in Hrow. injection Hrow as <- <-.
    destruct (_ <$> _) as [v|] eqn:E; [|done]. by injection H as <- <-.
Qed.

Lemma sign_in_links draw meanwhile token dev nonce identity e w tokens w1 :
  verify_apple st jwt sha256 py_str token nonce = inr identity ->
  served draw meanwhile (rq_apple token dev nonce) e w = (inr tokens, w1) ->
  sound (linked identity.(apple_sub) tokens.(it_user_id)) (linked identity.(apple_sub) tokens.(it_user_id)) w1 /\
  forall v, linked identity.(apple_sub) v w.(w_db) -> tokens.(it_user_id) = v.
Proof.
  intros Hv. unfold serve, session_scope.
  destruct (sign_in_with_apple st jwt sha256 py_str read_file draw meanwhile token dev nonce e w) as [[x|tk] w2] eqn:E; [done|].
  intros [= -> <-]. revert E. unfold sign_in_with_apple. rewrite Hv. unfold _require_issuer. destruct (configured _ _); [|done].
  intros (? & ? & [= <- <-] & H)%bind_ok. apply bind_ok in H as (k & wa & Hk & H).
  assert (wa.(w_db) = w.(w_db)) as Edb.
  { revert Hk. unfold resolve_device. destruct dev as [[|? ?]|]; by intros [= <- <-]. }
  apply bind_ok in H as (u & wb & Hu & H). apply resolve_apple_links in Hu as [Hl Hsame]. rewrite Edb in Hsame.
  apply bind_ok in H as (? & wc & Hd & H). apply bind_ok in H as (tk & wd & Ht & H). apply bind_ok in H as (? & ? & [= <- <-] & [= <- <-]).
  rewrite (issue_pair_user _ _ _ _ _ _ _ Ht). split; [|exact Hsame].
  pose proof (linked_stable identity.(apple_sub) u draw) as HI. cbn.
  pose proof (stable_upsert_device _ draw (fun _ => True) k u e wb (conj Hl Logic.I)) as H1. rewrite Hd in H1.
  pose proof (stable_issue_pair _ draw (fun _ => True) u k e wc) as H2. rewrite Ht in H2.
  assert (linked identity.(apple_sub) u wd.(w_db)) by (apply H2; [split; [by apply H1|done]|done]). by split.
Qed.

(** One Apple account is one user, on every device and for good.  However
    sign-ins race, two sign-ins with the same subject, from any devices and with
    any events in between, are given the same user. *)
Theorem one_apple_account draw meanwhile e token dev nonce identity w a w1 events draw' meanwhile' e' token' dev' nonce' identity' b w2 :
  verify_apple st jwt sha256 py_str token nonce = inr identity ->
  verify_apple st jwt sha256 py_str token' nonce' = inr identity' -> identity'.(apple_sub) = identity.(apple_sub) ->
  served draw meanwhile (rq_apple token dev nonce) e w = (inr a, w1) ->
  Forall (respects (linked identity.(apple_sub) a.(it_user_id))) events ->
  served draw' meanwhile' (rq_apple token' dev' nonce') e' (replay events w1) = (inr b, w2) ->
  b.(it_user_id) = a.(it_user_id).
Proof.
  intros Hv Hv' Hs Ha Hev Hb. destruct (sign_in_links _ _ _ _ _ _ _ _ _ _ Hv Ha) as [Hl _].
  destruct (sign_in_links _ _ _ _ _ _ _ _ _ _ Hv' Hb) as [_ Hsame]. apply Hsame. rewrite Hs.
  apply (replay_stable (linked identity.(apple_sub) a.(it_user_id)) events w1); [by intros ? ? ? H| |done]. eapply Forall_impl; [exact Hev|].
  intros [draw2 m2 e2 q|e2] H; split; try done. apply linked_stable.
Qed.

(** ** Access tokens verify *)

(** The issuer and the verifier agree: an access token names the user and the
    device it was issued for, when PyJWT decodes what it has encoded. *)
Theorem access_token_round_trip u device_id key e w token w' :
  (u < 2 ^ 128)%N ->
  issue_access_token st jwt read_file u device_id e w = (inr (Some token), w') -> _signing_key st jwt read_file token = inr key ->
  jwt.(jwt_decode) token key "RS256" (or_none st.(jwt_issuer)) (or_none st.(jwt_audience)) ["exp"; "sub"] =
    Some (access_claims st (e.(env_clock) w.(w_ticks)) u device_id) ->
  verify_access_token st jwt py_str read_file token = inr (u, JStr device_id).
Proof.
  intros Hu Hi Hk Hd. unfold verify_access_token. rewrite Hk, Hd. cbn. rewrite uuid_nonempty. cbn. by rewrite UUID_uuid_str.
Qed.
End histories.

(** ** A concrete issuer *)

Definition demo_auth : AuthSettings :=
  mkAuthSettings "" "private" "" "public" "hermes" "" "kid-1" "" 3600 2592000 86400 "https://appleid.apple.com" "app.bundle" "" ""
    false.

(** An identity token is its subject; an access token is the text of its user
    and device. *)
Definition demo_jwt : Jwt :=
  mkJwt
    (fun claims _ _ => match dict_get claims "sub", dict_get claims "device_id" with
                       | JStr s, JStr d => (s ++ "|" ++ d)%string
                       | _, _ => ""
                       end)
    (fun _ => Some [("alg", JStr "RS256")]) (fun _ => None) (fun _ => Some "apple-key")
    (fun token key _ _ _ _ =>
       if String.eqb key "apple-key" then Some [("sub", JStr token)]
       else match Str.split "|" token with
            | [s; d] => match UUID s with
                        | Some u => Some (access_claims demo_auth 1700000000000000 u d)
                        | None => None
                        end
            | _ => None
            end).

Definition demo_draw (prefix : string) (n : nat) : string := (prefix ++ Str.of_int (Z.of_nat n))%string.

Notation demo_served prefix meanwhile :=
  (serve demo_auth demo_jwt id (fun _ => "") id (demo_draw prefix) meanwhile).
Notation alone := (fun (_ : nat) (d : Db) => d).

Definition signed_up : World := (demo_served "a" alone (rq_register (Some "phone")) demo_env demo_world).2.
Definition refreshed : (exn + IssuedTokens) * World := demo_served "b" alone (rq_refresh "a1") demo_env signed_up.

Lemma draw_differs q p n s : Ascii.eqb q p = false -> id (demo_draw (String q "") n) <> String p s.
Proof. intros H [= -> _]. by rewrite Ascii.eqb_refl in H. Qed.

Lemma alone_same_row hash : same_row hash alone.
Proof. intros n d r' H. by exists r'. Qed.

Definition later : list AuthEvent :=
  [ev_cleanup demo_env; ev_request (demo_draw "c") alone demo_env (rq_register (Some "phone"))].

(** The token of the registration is used, and refused when it is used again
    after a cleanup and another registration. *)
Lemma refresh_token_once_witness :
  (exists tokens, refreshed.1 = inr tokens) /\
  exists msg, (demo_served "d" alone (rq_refresh "a1") demo_env
                 (replay demo_auth demo_jwt id (fun _ => "") id later refreshed.2)).1 = inl (UnauthorizedError msg).
Proof.
  destruct refreshed as [[x|tokens] w1] eqn:E; [vm_compute in E; discriminate E|]. split; [by exists tokens|].
  apply (refresh_token_once demo_auth demo_jwt id (fun _ => "") id (demo_draw "b") alone demo_env "a1" signed_up tokens w1).
  - exact E.
  - apply alone_same_row.
  - intros n. by apply draw_differs.
  - constructor; [by split|]. constructor; [|constructor]. split; [by intros n d|intros n; by apply draw_differs].
Defined.

(** The thief's copy of the first token costs the device the second one. *)
Lemma reuse_ends_chain_witness :
  (demo_served "d" alone (rq_refresh "a1") demo_env refreshed.2).1 = inl (UnauthorizedError "refresh token reuse detected") /\
  exists msg, (demo_served "e" alone (rq_refresh "b3") demo_env (demo_served "d" alone (rq_refresh "a1") demo_env refreshed.2).2).1 =
    inl (UnauthorizedError msg).
Proof.
  assert (exists r, refreshed.2.(w_db).(auth_refresh_tokens) !! "a1" = Some r /\ is_Some r.(rt_used_at) /\
            rt_user_id r = 1000%N /\ rt_device_id r = "phone") as (r & Hr & Hu & H1 & H2)
    by (vm_compute; eexists; split; [reflexivity|]; split; [eexists; reflexivity|split; reflexivity]).
  assert (exists r, refreshed.2.(w_db).(auth_refresh_tokens) !! "b3" = Some r /\ rt_user_id r = 1000%N /\ rt_device_id r = "phone")
    as (r' & Hr' & H1' & H2') by (vm_compute; eexists; split; [reflexivity|split; reflexivity]).
  pose proof (reuse_ends_chain demo_auth demo_jwt id (fun _ => "") id (demo_draw "d") alone demo_env "a1" refreshed.2 r "b3" r' []
    (demo_draw "e") alone demo_env eq_refl Hr Hu Hr' ltac:(congruence) ltac:(congruence) (alone_same_row _) (Forall_nil_2 _)) as H.
  destruct (demo_served "d" alone (rq_refresh "a1") demo_env refreshed.2) as [answer w1]. exact H.
Defined.

(** A phone and a tablet, signed in with the same Apple account. *)
Lemma one_apple_account_witness :
  exists a w1 b w2, demo_served "a" alone (rq_apple "sub-1" (Some "phone") None) demo_env demo_world = (inr a, w1) /\
    demo_served "b" alone (rq_apple "sub-1" (Some "tablet") None) demo_env w1 = (inr b, w2) /\ it_user_id b = it_user_id a.
Proof.
  destruct (demo_served "a" alone (rq_apple "sub-1" (Some "phone") None) demo_env demo_world) as [[x|a] w1] eqn:Ea;
    [vm_compute in Ea; discriminate Ea|].
  destruct (demo_served "b" alone (rq_apple "sub-1" (Some "tablet") None) demo_env w1) as [[x|b] w2] eqn:Eb.
  { exfalso. apply (f_equal snd) in Ea. cbn [snd] in Ea. apply (f_equal fst) in Eb. rewrite <- Ea in Eb. vm_compute in Eb. discriminate Eb. }
  exists a, w1, b, w2. split; [reflexivity|]. split; [exact Eb|].
  exact (one_apple_account demo_auth demo_jwt id (fun _ => "") id (demo_draw "a") alone demo_env "sub-1" (Some "phone") None
    (mkAppleIdentity "sub-1" JNull false) demo_world a w1 [] (demo_draw "b") alone demo_env "sub-1" (Some "tablet") None
    (mkAppleIdentity "sub-1" JNull false) b w2 eq_refl eq_refl eq_refl Ea (Forall_nil_2 _) Eb).
Defined.

(** Two refreshes that overlap are both accepted: the row is read without a lock,
    and the update that marks it used does not ask whether it already is. *)
Theorem overlapping_refreshes_both_succeed :
  exists first second, refreshed.1 = inr first /\
  (demo_served "c" (fun _ _ => refreshed.2.(w_committed)) (rq_refresh "a1") demo_env signed_up).1 = inr second /\
  it_refresh_token first <> it_refresh_token second.
Proof. vm_compute. do 2 eexists. split; [reflexivity|]. split; [reflexivity|]. discriminate. Qed.

Lemma access_token_round_trip_witness :
  verify_access_token demo_auth demo_jwt (fun _ => "") id "00000000-0000-0000-0000-000000000007|phone" = inr (alice, JStr "phone").
Proof.
  refine (access_token_round_trip demo_auth demo_jwt (fun _ => "") id alice "phone" "public" demo_env demo_world _
    (issue_access_token demo_auth demo_jwt id alice "phone" demo_env demo_world).2 _ _ _ _); vm_compute; reflexivity.
Defined.
