(* ===== verification/Profile.v ===== *)
(** * Profiles

    Models [src/app/profile]: the account id shown to a user, derived from the
    user id, and the display name.  [sha256(...).digest()] is a parameter: a
    text of 32 bytes. *)

From Stdlib Require Import Ascii String.
From S2P Require Import Prelude PyVal Redaction Store Logic Fixtures WalletRun Uuid Gateway.

Open Scope string_scope.
Open Scope list_scope.
Open Scope Z_scope.

(** ** The account id *)

Definition _ALPHANUM : string := "ABCDEFGHJKLMNPQRSTUVWXYZ23456789".

(** [int.from_bytes(s, "big")] *)
Fixpoint from_bytes (acc : Z) (s : string) : Z :=
  match s with
  | EmptyString => acc
  | String c rest => from_bytes (256 * acc + Z.of_N (N_of_ascii c)) rest
  end.

(** [digest[i:j]] *)
Definition byte_slice (i j : nat) (s : string) : string := substring i (j - i) s.

(** [f"{g:04d}"] of a number that is not negative. *)
Fixpoint zeros (n : nat) : string := match n with O => "" | S n => String "0" (zeros n) end.
Definition pad4 (g : Z) : string := let s := Str.of_int g in (zeros (4 - String.length s) ++ s)%string.

(** The loop of [divmod]. *)
Fixpoint base32_chars (n : nat) (value : Z) : string :=
  match n with
  | O => ""
  | S n =>
      let size := Z.of_nat (String.length _ALPHANUM) in
      let c := default "A"%char (String.get (Z.to_nat (value mod size)) _ALPHANUM) in
      String c (base32_chars n (value / size))
  end.

Section profile.
Context (sha256_digest : string -> string).

Definition account_id (u : uuid) : string :=
  let digest := sha256_digest (uuid_str u) in
  let g1 := from_bytes 0 (byte_slice 0 4 digest) mod 10000 in
  let g2 := from_bytes 0 (byte_slice 4 8 digest) mod 10000 in
  let value := from_bytes 0 (byte_slice 8 16 digest) in
  (pad4 g1 ++ "-" ++ pad4 g2 ++ "-" ++ base32_chars 5 value)%string.

(** ** The service *)

Record ProfileView : Type := mkProfileView {
  pv_account_id : string;
  pv_display_name : option string;
  pv_created_at : instant
}.

Definition _to_view (u : uuid) (r : UserRow) : ProfileView :=
  mkProfileView (account_id u) r.(u_display_name) r.(u_created_at).

Definition get_profile (u : uuid) : M ProfileView :=
  d ← get_db;
  match d.(users) !! u with
  | None => raise (NotFoundError "user not found")
  | Some r => mret (_to_view u r)
  end.

Definition update_display_name (u : uuid) (display_name : option string) : M ProfileView :=
  d ← get_db;
  match d.(users) !! u with
  | None => raise (NotFoundError "user not found")
  | Some r =>
      let r := mkUser r.(u_created_at) r.(u_trial_used) display_name in
      modify_db (fun d => set_users (<[u := r]> d.(users)) d);;
      commit;;
      mret (_to_view u r)
  end.

(** ** The shape of an account id *)

Fixpoint all_chars (p : ascii -> bool) (s : string) : bool :=
  match s with EmptyString => true | String c rest => p c && all_chars p rest end.

Lemma pad4_digits g : 0 <= g < 10000 -> String.length (pad4 g) = 4%nat /\ Str.all_digits (pad4 g) = true.
Proof.
  intros Hg. pose (ok g := Nat.eqb (String.length (pad4 (Z.of_nat g))) 4 && Str.all_digits (pad4 (Z.of_nat g))).
  assert (Hall : forallb ok (seq 0 (Z.to_nat 10000)) = true) by (vm_compute; reflexivity).
  rewrite forallb_forall in Hall. specialize (Hall (Z.to_nat g)). unfold ok in Hall. rewrite Z2Nat.id in Hall by lia.
  destruct (andb_prop _ _ (Hall ltac:(apply in_seq; lia))) as [H1 H2]. split; [by apply Nat.eqb_eq|done].
Qed.

Lemma alphabet_char k : Str.has_char (default "A"%char (String.get k _ALPHANUM)) _ALPHANUM = true.
Proof. do 32 (destruct k as [|k]; [reflexivity|]). by destruct k. Qed.

Lemma base32_shape n value :
  String.length (base32_chars n value) = n /\ all_chars (fun c => Str.has_char c _ALPHANUM) (base32_chars n value) = true.
Proof.
  revert value. induction n as [|n IH]; intros value; [done|]. destruct (IH (value / 32)) as [H1 H2].
  change (base32_chars (S n) value) with
    (String (default "A"%char (String.get (Z.to_nat (value mod 32)) _ALPHANUM)) (base32_chars n (value / 32))).
  cbn [String.length all_chars]. by rewrite H1, H2, alphabet_char.
Qed.

(** An account id has two groups of four digits and one of five characters of
    the alphabet, whatever the digest is. *)
Theorem account_id_shape u : exists a b c,
  account_id u = (a ++ "-" ++ b ++ "-" ++ c)%string /\
  (String.length a = 4%nat /\ Str.all_digits a = true) /\ (String.length b = 4%nat /\ Str.all_digits b = true) /\
  (String.length c = 5%nat /\ all_chars (fun x => Str.has_char x _ALPHANUM) c = true).
Proof.
  unfold account_id. do 3 eexists. split; [reflexivity|]. split_and!; try (apply pad4_digits, Z.mod_pos_bound; lia); apply base32_shape.
Qed.

(** A new display name is what the profile shows from then on, and nothing else
    about the user changes. *)
Theorem display_name_kept u name e w :
  user_exists w.(w_db) u = true ->
  exists view w', update_display_name u name e w = (inr view, w') /\ get_profile u e w' = (inr view, w') /\
    pv_display_name view = name /\ w'.(w_committed) = w'.(w_db) /\
    u_trial_used <$> w'.(w_db).(users) !! u = u_trial_used <$> w.(w_db).(users) !! u /\
    forall v, v <> u -> w'.(w_db).(users) !! v = w.(w_db).(users) !! v.
Proof.
  unfold user_exists. destruct (users (w_db w) !! u) as [r|] eqn:E; [intros _|done].
  unfold update_display_name, get_profile, mbind, M_bind, get_db. rewrite E. cbn.
  do 2 eexists. split; [reflexivity|]. cbn. rewrite !lookup_insert_eq. split_and!; try done.
  intros v Hv. by rewrite lookup_insert_ne.
Qed.
End profile.

Lemma display_name_kept_witness :
  exists view w', update_display_name (fun _ => zeros 32) alice (Some "Alice") demo_env demo_world = (inr view, w') /\
    pv_display_name view = Some "Alice" /\ pv_account_id view = "4432-4432-SBNAD".
Proof.
  destruct (display_name_kept (fun _ => zeros 32) alice (Some "Alice") demo_env demo_world eq_refl) as (view & w' & H & _ & Hn & _).
  exists view, w'. split; [exact H|]. split; [exact Hn|]. apply (f_equal fst) in H. cbn [fst] in H. injection H as <-. vm_compute. reflexivity.
Defined.
