(* ===== verification/Crm.v ===== *)
(** * The operator console

    Models [src/app/admin/crm_repo.py] (the read models over users, the ledger,
    subscriptions, agent runs and chats) and [src/app/admin/crm_service.py]
    (corrections of a balance, extensions of a subscription and the rows of the
    console). *)

From Stdlib Require Import SpecFloat Ascii String.
From stdpp Require Import sorting.
From S2P Require Import Prelude PyVal Redaction Store AuditTrail Logic Fixtures Wallet WalletRun WalletSpec WalletRefine WalletInv.
From S2P Require Import Like Config Uuid Subscription CloudPayments Admin Usage.

Open Scope string_scope.
Open Scope list_scope.
Open Scope Z_scope.

(** ** Rows in the order of a query

    [ORDER BY key DESC] puts the rows in non-increasing order of the key and
    says nothing of rows with equal keys: the database may order them
    differently at each call.  A query takes the order it got as an argument. *)

Class SqlOrder : Type := {
  order_desc : forall {A : Type}, (A -> instant) -> list A -> list A;
  order_desc_perm : forall {A : Type} (key : A -> instant) (rows : list A), order_desc key rows ≡ₚ rows;
  order_desc_sorted : forall {A : Type} (key : A -> instant) (rows : list A),
    StronglySorted (fun x y => key y <= key x) (order_desc key rows)
}.

(** [LIMIT limit OFFSET offset]: PostgreSQL refuses a negative count. *)
Definition window {A} (limit offset : Z) (rows : list A) : M (list A) :=
  if (limit <? 0) || (offset <? 0) then raise DataError
  else mret (take (Z.to_nat limit) (drop (Z.to_nat offset) rows)).

(** [s.replace(p, r)]: [skip] characters of a match are still to be dropped. *)
Fixpoint replace_sub (p r : string) (skip : nat) (s : string) : string :=
  match s with
  | EmptyString => ""
  | String c s' =>
      match skip with
      | S k => replace_sub p r k s'
      | O => if String.prefix p s then (r ++ replace_sub p r (String.length p - 1) s')%string
             else String c (replace_sub p r 0 s')
      end
  end.

Definition count_rows {A} (p : A -> bool) (rows : list A) : Z := Z.of_nat (length (filter (fun x => p x = true) rows)).

(** [float(z)]; no amount of the database reaches the largest float. *)
Definition to_float (z : Z) : spec_float := default S754_nan (float_of_int z).

Module Crm.
Record CrmUserRow : Type := mkCrmUserRow {
  user_id : uuid;
  registered_at : instant;
  balance : Z;
  subscription_status : option SubscriptionStatus;
  plan_id : option string;
  subscription_expires_at : option instant;
  is_paid : bool;
  payments_count : Z;
  renewals_count : Z
}.

Record CrmPaymentRow : Type := mkCrmPaymentRow {
  title : string;
  description : option string;
  amount : spec_float;
  currency : string;
  payment_status : string;
  occurred_at : instant
}.

Record CrmRequestRow : Type := mkCrmRequestRow {
  endpoint : string;
  prompt_preview : option string;
  status_code : Z;
  request_status : string;
  duration_sec : option spec_float;
  sent_at : instant
}.

Record CrmSubscriptionGrantEvent : Type := mkCrmGrantEvent { plan : string; expires_at : instant }.

(** The conditions a list of users is narrowed by. *)
Record UserFilter : Type := mkUserFilter {
  search : option string;
  date_from : option instant;
  date_to : option instant;
  only_paid : option bool
}.

Definition has_key (k : string) (d : dict) : bool := match dict_lookup k d with Some _ => true | None => false end.

(** [_PAYMENT_CREDIT_FILTER] *)
Definition _PAYMENT_CREDIT_FILTER (lt : LedgerTransaction) : bool :=
  bool_decide (as_str (dict_get lt.(lt_meta) "source") = Some "token_purchase")
  || has_key "adaptyEventId" lt.(lt_meta)
  || like "adapty-event:%" lt.(lt_idempotency_key).

Definition is_payment (u : uuid) (lt : LedgerTransaction) : bool :=
  N.eqb lt.(lt_user_id) u && bool_decide (lt.(lt_type) = credit) && _PAYMENT_CREDIT_FILTER lt.

Definition payments_of (d : Db) (u : uuid) : list LedgerTransaction :=
  filter (fun lt => is_payment u lt = true) d.(ledger_transactions).

Definition paid (d : Db) (u : uuid) : bool := existsb (is_payment u) d.(ledger_transactions).

(** [_SEARCH_CLAUSE] *)
Definition _SEARCH_CLAUSE (s : string) (u : uuid) : bool :=
  like (Str.lower ("%" ++ s ++ "%")%string) (Str.lower (uuid_str u)) || String.eqb (uuid_str u) s.

(** The clauses added to [1=1]. *)
Definition search_clause (f : UserFilter) (u : uuid) : bool :=
  match f.(search) with
  | Some s => if Str.nonempty s then _SEARCH_CLAUSE s u else true
  | None => true
  end.

Definition date_clauses (from to : option instant) (t : instant) : bool :=
  match from with Some x => x <=? t | None => true end && match to with Some x => t <=? x | None => true end.

Definition where_clause (d : Db) (f : UserFilter) (x : uuid * UserRow) : bool :=
  search_clause f x.1 && date_clauses f.(date_from) f.(date_to) x.2.(u_created_at)
  && match f.(only_paid) with Some b => Bool.eqb (paid d x.1) b | None => true end.

Definition selected (d : Db) (f : UserFilter) : list (uuid * UserRow) :=
  filter (fun x => where_clause d f x = true) (map_to_list d.(users)).

Definition count_users (f : UserFilter) : M Z :=
  d ← get_db; mret (Z.of_nat (length (selected d f))).

(** One row of the joined query. *)
Definition user_row (d : Db) (x : uuid * UserRow) : CrmUserRow :=
  mkCrmUserRow x.1 x.2.(u_created_at)
    (match d.(wallets) !! x.1 with Some w => w.(Store.balance) | None => 0 end)
    (s_status <$> d.(subscriptions) !! x.1)
    (d.(subscriptions) !! x.1 ≫= s_plan)
    (d.(subscriptions) !! x.1 ≫= s_expires_at)
    (paid d x.1)
    (Z.of_nat (length (payments_of d x.1)))
    (count_rows (fun kv : string * AdaptyWebhookEvent =>
                   N.eqb kv.2.(ae_user_id) x.1 && String.eqb kv.2.(ae_event_type) "subscription_renewed")
       (map_to_list d.(adapty_webhook_events))).

Definition list_users (o : SqlOrder) (limit offset : Z) (f : UserFilter) : M (list CrmUserRow) :=
  d ← get_db;
  rows ← window limit offset (order_desc (fun x => x.2.(u_created_at)) (selected d f));
  mret (user_row d <$> rows).

Definition get_user_row (o : SqlOrder) (u : uuid) : M (option CrmUserRow) :=
  rows ← list_users o 1 0 (mkUserFilter (Some (uuid_str u)) None None None);
  match find_first (fun r => N.eqb r.(user_id) u) rows with
  | Some r => mret (Some r)
  | None =>
      d ← get_db;
      if negb (user_exists d u) then mret None
      else mret ((fun r => user_row d (u, r)) <$> d.(users) !! u)
  end.

Definition get_subscription_grant_event (u : uuid) (key : string) : M (option CrmSubscriptionGrantEvent) :=
  d ← get_db;
  mret ((fun g => mkCrmGrantEvent g.(ge_plan) g.(ge_expires_at)) <$> d.(subscription_grant_events) !! (u, key)).

Definition amount_of (ty : ledger_tx_type) (u : uuid) (lt : LedgerTransaction) : Z :=
  if N.eqb lt.(lt_user_id) u && bool_decide (lt.(lt_type) = ty) then lt.(lt_amount) else 0.

Definition ledger_totals (u : uuid) : M (Z * Z) :=
  d ← get_db;
  mret (sumZ (amount_of credit u) d.(ledger_transactions), sumZ (amount_of debit u) d.(ledger_transactions)).

(** [MAX(created_at)] *)
Definition latest (times : list instant) : option instant :=
  match times with [] => None | t :: ts => Some (foldr Z.max t ts) end.

Definition last_payment_at (u : uuid) : M (option instant) :=
  d ← get_db; mret (latest (lt_created_at <$> payments_of d u)).

Definition count_payments (u : uuid) : M Z :=
  d ← get_db; mret (Z.of_nat (length (payments_of d u))).

Section rendering.
(** [str(v)] of a value that is not a string. *)
Context (repr : json -> string).

Definition py_str (v : json) : string := match v with JStr s => s | _ => repr v end.

Definition py_or (a b : json) : json := if truthy a then a else b.

Definition payment_row (lt : LedgerTransaction) : CrmPaymentRow :=
  let meta := lt.(lt_meta) in
  let source := dict_get meta "source" in
  let product_id := py_or (dict_get meta "productId") (dict_get meta "vendorProductId") in
  let event_type := dict_get meta "eventType" in
  let '(title, description) :=
    if bool_decide (as_str source = Some "token_purchase")
    then (("Покупка токенов (" ++ py_str (py_or product_id (JStr "pack")) ++ ")")%string, Some "App Store consumable")
    else if truthy (dict_get meta "adaptyEventId") || Str.startswith "adapty-event:" lt.(lt_idempotency_key)
    then (("Подписка (" ++ py_str (py_or product_id (JStr "plan")) ++ ")")%string,
          Some (match event_type with JNull => "Adapty" | v => py_str v end))
    else ("Начисление кредитов", match source with JNull => None | v => Some (py_str v) end) in
  mkCrmPaymentRow title description (to_float lt.(lt_amount)) "CREDITS" "success" lt.(lt_created_at).

Definition list_payments (o : SqlOrder) (u : uuid) (limit offset : Z) : M (list CrmPaymentRow) :=
  d ← get_db;
  rows ← window limit offset (order_desc lt_created_at (payments_of d u));
  mret (payment_row <$> rows).
End rendering.

Definition runs_of (d : Db) (u : uuid) : list (string * AgentRun) :=
  filter (fun x => x.2.(ar_user_id) = u) (map_to_list d.(agent_runs)).

Definition chats_of (d : Db) (u : uuid) : list (uuid * ChatSession) :=
  filter (fun x => x.2.(cs_user_id) = u) (map_to_list d.(chat_sessions)).

Definition count_requests (u : uuid) : M Z :=
  d ← get_db;
  mret (Z.of_nat (length (runs_of d u)) + Z.of_nat (length (chats_of d u))).

(** [LEFT(COALESCE(s, ''), 120)], then [x or None]. *)
Definition preview (s : option string) : option string :=
  let t := substring 0 120 (default "" s) in
  if Str.nonempty t then Some t else None.

Definition run_row (d : Db) (x : string * AgentRun) : CrmRequestRow :=
  let failed := bool_decide (x.2.(ar_status) = run_failed) in
  mkCrmRequestRow "agent_run" (preview (sn_result_text <$> d.(agent_run_snapshots) !! x.1))
    (if failed then 500 else 200) (if failed then "error" else "ok")
    (Some (fdiv (to_float (x.2.(ar_updated_at) - x.2.(ar_created_at))) (to_float 1000000)))
    x.2.(ar_created_at).

Definition chat_row (x : uuid * ChatSession) : CrmRequestRow :=
  mkCrmRequestRow "text_chat" (preview x.2.(cs_title)) 200 "ok" None x.2.(cs_created_at).

(** The two halves of the [UNION ALL]. *)
Definition requests_of (d : Db) (u : uuid) : list CrmRequestRow :=
  (run_row d <$> runs_of d u) ++ (chat_row <$> chats_of d u).

Definition list_requests (o : SqlOrder) (u : uuid) (limit offset : Z) : M (list CrmRequestRow) :=
  d ← get_db; window limit offset (order_desc sent_at (requests_of d u)).

Definition registered (d : Db) (from to : option instant) : list (uuid * UserRow) :=
  filter (fun x => date_clauses from to x.2.(u_created_at) = true) (map_to_list d.(users)).

Definition stats (from to : option instant) : M (Z * Z) :=
  d ← get_db;
  let rows := registered d from to in
  mret (Z.of_nat (length rows), count_rows (fun x => paid d x.1) rows).

(** ** The service *)

Section service.
Context (isoformat : instant -> string) (sha256 : string -> string).

Definition _utc_iso (dt : option instant) : option string :=
  match dt with None => None | Some t => Some (replace_sub "+00:00" "Z" 0 (isoformat t)) end.

Definition _subscription_active (status : option SubscriptionStatus) (expires_at : option instant) (now : instant) : bool :=
  if negb (bool_decide (status = Some sub_active)) then false
  else match expires_at with None => true | Some t => now <? t end.

Record CrmSubscriptionOutcome : Type := mkOutcome {
  tokens : Z;
  subscription_active : bool;
  outcome_expires_at : instant;
  applied : bool
}.

Definition _known_product_ids (s : Settings) : list string :=
  (adapty_product_tokens s).*1 ++ (token_products s).*1.

Definition list_users_page (o : SqlOrder) (limit offset : Z) (f : UserFilter) : M (Z * list CrmUserRow) :=
  total ← count_users f;
  items ← list_users o limit offset f;
  mret (total, items).

(** [if not await self._repo.get_user_row(user_id): raise] *)
Definition require_row (o : SqlOrder) (u : uuid) : M CrmUserRow :=
  row ← get_user_row o u;
  match row with Some r => mret r | None => raise (UserNotFoundError "user not found") end.

Definition list_payments_page (repr : json -> string) (o : SqlOrder) (u : uuid) (limit offset : Z) :
    M (Z * list CrmPaymentRow) :=
  require_row o u;;
  total ← count_payments u;
  items ← list_payments repr o u limit offset;
  mret (total, items).

Definition list_requests_page (o : SqlOrder) (u : uuid) (limit offset : Z) : M (Z * list CrmRequestRow) :=
  require_row o u;;
  total ← count_requests u;
  items ← list_requests o u limit offset;
  mret (total, items).

(** [sorted(keys)]: strings by their code points. *)
Definition str_le (a b : string) : Prop := String.leb a b = true.
#[global] Instance str_le_dec : RelDecision str_le.
Proof. intros a b. unfold str_le. apply _. Defined.

Definition sorted (l : list string) : list string := merge_sort str_le l.

(** Product id, name, price and period. *)
Definition list_products (s : Settings) : list (string * string * option string * option string) :=
  ((fun p => (p, p, None, Some "subscription")) <$> sorted (adapty_product_tokens s).*1) ++
  ((fun p => (p, ("Token pack " ++ p)%string, None, Some "consumable")) <$> sorted (token_products s).*1).

Definition adjust_tokens (u : uuid) (amount : Z) : M Z :=
  fresh ← gen_random_uuid;
  let key := ("crm-tokens:" ++ uuid_str fresh)%string in
  if amount =? 0 then raise (BadRequestError "amount must not be zero")
  else if 0 <? amount then
    result ← Admin.grant u amount key "crm_admin_tokens";
    mret result.(Admin.ar_new_balance)
  else
    result ← try_except (Admin.debit u (- amount) key "crm_admin_tokens")
               (fun x => if is_InsufficientCreditsError x
                         then Some (raise (BadRequestError "balance would go negative")) else None);
    mret result.(Admin.ar_new_balance).

(** The last microsecond of the year 9999, and [t + timedelta(days=n)]. *)
Definition datetime_max : instant := 253402300799999999.
Definition day_us : Z := 86400000000.

Definition plus_days (t : instant) (n : Z) : M instant :=
  let r := t + day_us * n in
  if datetime_max <? r then raise OverflowError else mret r.

(** [except ConflictError as exc: raise BadRequestError(...)] *)
Definition grant_conflict {A} (m : M A) : M A :=
  try_except m (fun x => if is_ConflictError x
                         then Some (raise (BadRequestError "subscription grant conflict")) else None).

Definition subscription_key (grant_id : string) : string := ("crm-subscription:" ++ grant_id)%string.

(** The end of both branches: the balance is read again. *)
Definition outcome (o : SqlOrder) (u : uuid) (row : CrmUserRow) (now : instant) (result : Subscription.AdminGrantResult) (applied : bool) :
    M CrmSubscriptionOutcome :=
  balance_row ← get_user_row o u;
  let balance := match balance_row with Some r => r.(balance) | None => row.(balance) end in
  mret (mkOutcome balance (_subscription_active (Some sub_active) (Some result.(ag_expires_at)) now)
          result.(ag_expires_at) applied).

(** The moment the extension is counted from. *)
Definition extension_base (row : CrmUserRow) (now : instant) : instant :=
  match row.(subscription_expires_at) with
  | Some exp => if bool_decide (row.(subscription_status) = Some sub_active) && (now <? exp) then exp else now
  | None => now
  end.

Definition set_subscription (o : SqlOrder) (u : uuid) (product_id : string) (expires_in_days : Z) (grant_id : string) :
    M CrmSubscriptionOutcome :=
  s ← settings;
  let known := _known_product_ids s in
  if match known with [] => false | _ => negb (bool_decide (product_id ∈ known)) end
  then raise (BadRequestError "unknown product_id")
  else
    row ← require_row o u;
    now ← py_now;
    let key := subscription_key grant_id in
    existing_grant ← get_subscription_grant_event u key;
    match existing_grant with
    | Some g =>
        result ← grant_conflict
          (Admin.subscription_grant sha256 isoformat u g.(plan) g.(expires_at) false key "crm_admin_subscription");
        outcome o u row now result false
    | None =>
        expires_at ← plus_days (extension_base row now) expires_in_days;
        result ← grant_conflict
          (Admin.subscription_grant sha256 isoformat u product_id expires_at false key "crm_admin_subscription");
        outcome o u row now result (negb result.(ag_idempotent_replay))
    end.

Definition jopt {A} (f : A -> json) (o : option A) : json := match o with Some x => f x | None => JNull end.

Definition build_crm_user_list_item (row : CrmUserRow) (now : instant) : dict :=
  [("id", JStr (uuid_str row.(user_id))); ("external_id", JNull); ("is_paid", JBool row.(is_paid));
   ("payments_count", JInt row.(payments_count)); ("renewals_count", JInt row.(renewals_count));
   ("tokens", JFloat (to_float row.(balance)));
   ("subscription_active",
      JBool (_subscription_active row.(subscription_status) row.(subscription_expires_at) now));
   ("subscription_expires_at", jopt_str (_utc_iso row.(subscription_expires_at)));
   ("plan_id", jopt_str row.(plan_id));
   ("registered_at", JStr (default "" (_utc_iso (Some row.(registered_at)))))].
End service.
End Crm.

(** ** What the console reads *)

Section reading.
Context (o : SqlOrder).

Lemma list_users_ok limit offset f e w :
  0 <= limit -> 0 <= offset ->
  Crm.list_users o limit offset f e w =
  (inr (Crm.user_row w.(w_db) <$>
     take (Z.to_nat limit) (drop (Z.to_nat offset) (order_desc (fun x => x.2.(u_created_at)) (Crm.selected w.(w_db) f)))), w).
Proof.
  intros Hl Ho. unfold Crm.list_users. run by done. unfold window.
  by rewrite (proj2 (Z.ltb_ge _ _) Hl), (proj2 (Z.ltb_ge _ _) Ho).
Qed.

Lemma ordered_selected f d x :
  x ∈ order_desc (fun x => x.2.(u_created_at)) (Crm.selected d f) -> d.(users) !! x.1 = Some x.2.
Proof.
  rewrite order_desc_perm. intros [_ H]%list_elem_of_filter. destruct x. by apply elem_of_map_to_list in H.
Qed.

(** The card of a user is the row of that user and no other, whatever the
    search over the textual ids returns first. *)
Lemma get_user_row_exact u e w :
  Crm.get_user_row o u e w = (inr ((fun r => Crm.user_row w.(w_db) (u, r)) <$> w.(w_db).(users) !! u), w).
Proof.
  unfold Crm.get_user_row. run by (apply list_users_ok; lia).
  destruct (find_first _ _) as [r|] eqn:Hf.
  - apply find_first_Some in Hf as [Hin Hu%N.eqb_eq]. apply list_elem_of_fmap in Hin as (x & -> & Hx).
    cbn in Hu.
    assert (x ∈ order_desc (fun x => x.2.(u_created_at)) (Crm.selected w.(w_db)
              (Crm.mkUserFilter (Some (uuid_str u)) None None None))) as Hx'.
    { apply subseteq_take in Hx. by apply subseteq_drop in Hx. }
    apply ordered_selected in Hx'. subst u. rewrite Hx'. by destruct x.
  - run by done. unfold user_exists. by destruct (users w.(w_db) !! u).
Qed.
End reading.

(** ** The totals of the card *)

Lemma amount_of_user d u ty :
  sumZ (Crm.amount_of ty u) d.(ledger_transactions) =
  sumZ (fun t => if bool_decide (t.(lt_type) = ty) then t.(lt_amount) else 0) (user_txs d u).
Proof.
  unfold user_txs. rewrite sumZ_filter. apply sumZ_ext. intros t _. unfold Crm.amount_of.
  destruct (N.eqb_spec t.(lt_user_id) u) as [->|Hne]; [by rewrite decide_True|by rewrite decide_False].
Qed.

Lemma signed_split l :
  sumZ signed l = sumZ (fun t => if bool_decide (t.(lt_type) = credit) then t.(lt_amount) else 0) l
                  - sumZ (fun t => if bool_decide (t.(lt_type) = debit) then t.(lt_amount) else 0) l.
Proof.
  induction l as [|t l IH]; [done|]. rewrite !sumZ_cons, IH. unfold signed at 1.
  destruct t.(lt_type); repeat case_bool_decide; try done; lia.
Qed.

(** The card reconciles: in sound books the credited total less the spent total is
    the balance shown plus the debt repaid so far, which no field of the card
    shows; without repaid debt the three numbers agree. *)
Theorem crm_card_reconciles o u e w credited spent row :
  wallet_inv w.(w_db) ->
  Crm.ledger_totals u e w = (inr (credited, spent), w) -> Crm.get_user_row o u e w = (inr (Some row), w) ->
  credited - spent = row.(Crm.balance) + (account w.(w_db) u).(ac_repaid) /\ 0 <= credited /\ 0 <= spent.
Proof.
  intros Hi Ht Hrow. rewrite get_user_row_exact in Hrow. injection Hrow as Hrow.
  apply fmap_Some in Hrow as (r & _ & ->). unfold Crm.ledger_totals in Ht. injection Ht as <- <-.
  destruct (wi_account _ Hi u) as [_ Hb _ Htx _]. rewrite !amount_of_user.
  assert (Crm.balance (Crm.user_row w.(w_db) (u, r)) = ac_balance (account w.(w_db) u)) as ->.
  { unfold account, wallet_balance. cbn. by destruct (_ !! u). }
  rewrite signed_split in Hb. unfold account in Hb, Htx |- *. cbn in Hb, Htx |- *.
  split; [lia|]. rewrite Forall_forall in Htx.
  split; apply sumZ_nonneg; intros t Hin; specialize (Htx t Hin); unfold tx_ok in Htx; cbn beta;
    case_bool_decide; lia.
Qed.

(** ** Extending a subscription *)

Section extension.
Context (sha256 : string -> string) (isoformat : instant -> string).

(** A grant without credits moves no money. *)
Lemma plain_grant_accounts u plan exp key reason e w r w' v :
  admin_grant sha256 isoformat u plan exp false key reason e w = (inr r, w') ->
  account w'.(w_db) v = account w.(w_db) v.
Proof.
  unfold admin_grant. intros H. inv_bind H. apply get_db_ok in Hstep as [-> ->]. destruct (_ !! (u, key)) as [g|].
  { unfold _handle_existing_grant_event in H. inv_bind H. apply get_db_ok in Hstep as [-> ->].
    destruct (_ !! (u, key)) as [g'|]; [|done]. destruct (negb _); [done|]. inv_bind H.
    apply settings_ok in Hstep as [-> ->]. by injection H as _ <-. }
  inv_bind H. apply check_ok in Hstep as [_ ->]. inv_bind H. apply modify_ok in Hstep as ->.
  unfold _apply_new_grant in H. inv_bind H. apply upsert_subscription_ok in Hstep as ->. inv_bind H.
  injection Hstep as <- <-. inv_bind H. apply record_ok in Hstep as ->. injection H as _ <-.
  cbn [w_db with_db]. by rewrite account_add_neutral by (by apply neutral_event_type).
Qed.

Lemma operator_grant_ok u plan exp gc key reason e w r w' :
  Admin.subscription_grant sha256 isoformat u plan exp gc key reason e w = (inr r, w') ->
  exists w1, admin_grant sha256 isoformat u plan exp gc key reason e w = (inr r, w1) /\ w'.(w_db) = w1.(w_db).
Proof.
  unfold Admin.subscription_grant. intros H. inv_bind H. apply get_db_ok in Hstep as [-> ->].
  destruct (negb _); [inv_bind H; done|]. inv_bind H. unfold Admin.count_conflict, try_except in Hstep.
  destruct (admin_grant _ _ _ _ _ _ _ _ e w) as [[x|r0] w2]; [by destruct (is_ConflictError x)|].
  injection Hstep as <- <-. inv_bind H. injection H as <- <-. injection Hstep as _ <-. by exists w2.
Qed.

Lemma grant_conflict_ok {A} (m : M A) e w r w' : Crm.grant_conflict m e w = (inr r, w') -> m e w = (inr r, w').
Proof.
  unfold Crm.grant_conflict, try_except. destruct (m e w) as [[x|a] w1]; [|done]. by destruct (is_ConflictError x).
Qed.

Lemma outcome_run o u row now result b e w :
  exists t, Crm.outcome o u row now result b e w =
    (inr (Crm.mkOutcome t (now <? result.(ag_expires_at)) result.(ag_expires_at) b), w).
Proof. unfold Crm.outcome. run by apply get_user_row_exact. eexists. reflexivity. Qed.

Lemma require_row_run o u r e w :
  w.(w_db).(users) !! u = Some r -> Crm.require_row o u e w = (inr (Crm.user_row w.(w_db) (u, r)), w).
Proof. intros Hu. unfold Crm.require_row. run by apply get_user_row_exact. by rewrite Hu. Qed.

Lemma require_row_ok o u e w row w' :
  Crm.require_row o u e w = (inr row, w') -> exists r, w.(w_db).(users) !! u = Some r /\ row = Crm.user_row w.(w_db) (u, r) /\ w' = w.
Proof.
  unfold Crm.require_row. intros H. inv_bind H. rewrite get_user_row_exact in Hstep. injection Hstep as <- <-.
  destruct (users w.(w_db) !! u) as [r|]; [|done]. injection H as <- <-. by exists r.
Qed.

Definition product_known (s : Settings) (product_id : string) : Prop :=
  Crm._known_product_ids s = [] \/ product_id ∈ Crm._known_product_ids s.

Lemma known_guard {A} s p (a b : A) :
  product_known s p ->
  (if match Crm._known_product_ids s with [] => false | _ => negb (bool_decide (p ∈ Crm._known_product_ids s)) end
   then a else b) = b.
Proof.
  intros [->|H]; [done|]. destruct (Crm._known_product_ids s); [done|]. by rewrite bool_decide_true.
Qed.

(** When the subscription in force ends: never before [now]. *)
Definition in_force_until (d : Db) (u : uuid) (now : instant) : instant :=
  match d.(subscriptions) !! u with
  | Some (mkSubscription sub_active _ (Some exp)) => Z.max now exp
  | _ => now
  end.

Lemma extension_base_eq d u r now : Crm.extension_base (Crm.user_row d (u, r)) now = in_force_until d u now.
Proof.
  unfold Crm.extension_base, in_force_until. cbn. destruct (subscriptions d !! u) as [[st p [exp|]]|]; cbn; [|by destruct st|done].
  destruct st; cbn; [|done|done].
  rewrite bool_decide_true by done. destruct (Z.ltb_spec now exp); cbn; lia.
Qed.

(** A first, applied extension. *)
Lemma extension_applied o u product days gid e w r w' :
  wallet_inv w.(w_db) -> Crm.set_subscription isoformat sha256 o u product days gid e w = (inr r, w') ->
  r.(Crm.applied) = true ->
  let until := in_force_until w.(w_db) u (e.(env_clock) w.(w_ticks)) + Crm.day_us * days in
  r.(Crm.outcome_expires_at) = until /\
  w'.(w_db).(subscriptions) !! u = Some (mkSubscription sub_active (Some product) (Some until)) /\
  (exists tx, w'.(w_db).(subscription_grant_events) !! (u, Crm.subscription_key gid) =
     Some (anchor_row sha256 isoformat product until false tx)) /\
  (forall v, account w'.(w_db) v = account w.(w_db) v).
Proof.
  intros Hi H Ha. unfold Crm.set_subscription in H. inv_bind H. apply settings_ok in Hstep as [-> ->].
  destruct (match Crm._known_product_ids _ with [] => _ | _ => _ end); [done|]. inv_bind H.
  apply require_row_ok in Hstep as (row & Hu & -> & ->). inv_bind H. injection Hstep as <- <-.
  inv_bind H. injection Hstep as <- <-. destruct (_ !! (u, _)) as [g|] eqn:Hg; cbn in H.
  { inv_bind H. edestruct (outcome_run o u) as [t Ho]. rewrite Ho in H. by injection H as <- _. }
  inv_bind H. unfold Crm.plus_days in Hstep. destruct (_ <? _) in Hstep; [done|]. injection Hstep as <- <-.
  rewrite extension_base_eq in H. inv_bind H. apply grant_conflict_ok, operator_grant_ok in Hstep as (w2 & Hgr & Hdb).
  edestruct (outcome_run o u) as [t Ho]. rewrite Ho in H. injection H as <- <-. cbn in Ha |- *.
  assert (ag_idempotent_replay a = false) as Hr by (by destruct (ag_idempotent_replay a)).
  apply admin_grant_ok in Hgr as Hok; [|done|done]. destruct Hok as (Ea & Hs & He).
  apply (f_equal ag_expires_at) in Ea. rewrite Hdb. split_and!; [done|done|by eexists|].
  intros v. by rewrite (plain_grant_accounts _ _ _ _ _ _ _ _ _ v Hgr).
Qed.
(** A repeated one, whatever product and length it now asks for. *)
Lemma extension_replayed o u product days gid e w row prod0 until tx :
  w.(w_db).(users) !! u = Some row -> product_known e.(env_settings) product ->
  w.(w_db).(subscription_grant_events) !! (u, Crm.subscription_key gid) = Some (anchor_row sha256 isoformat prod0 until false tx) ->
  exists t w', Crm.set_subscription isoformat sha256 o u product days gid e w =
    (inr (Crm.mkOutcome t (e.(env_clock) w.(w_ticks) <? until) until false), w') /\ w'.(w_db) = w.(w_db).
Proof.
  intros Hu Hk Hg. unfold Crm.set_subscription. run by done. rewrite known_guard by done.
  run by (by apply require_row_run). run by done. run by done. cbn [w_db]. rewrite Hg. cbn [fmap option_fmap option_map].
  edestruct (outcome_run o u) as [t Ho].
  assert (Hrun : forall w0, w0.(w_db) = w.(w_db) ->
    Crm.grant_conflict (Admin.subscription_grant sha256 isoformat u prod0 until false (Crm.subscription_key gid)
                          "crm_admin_subscription") e w0 =
    (inr (mkAdminGrantResult sub_active prod0 until None tx true),
     counted "admin_subscription_grant_total" "success" w0)).
  { intros w0 H0. unfold Crm.grant_conflict, try_except, Admin.subscription_grant.
    run by done. unfold user_exists. rewrite H0, Hu. cbn [negb]. unfold Admin.count_conflict, try_except at 1.
    erewrite bind_inr; [|unfold try_except; rewrite (admin_grant_anchored sha256 isoformat _ _ _ _ _ _ _ _
      (anchor_row sha256 isoformat prod0 until false tx)) by (by rewrite H0); cbn;
      rewrite String.eqb_refl; reflexivity].
    by run by done. }
  run by (by apply Hrun). rewrite Ho. by eexists _, _.
Qed.
End extension.

(** An operator's extension counts from the end of the subscription in force,
    or from now when none is, makes the product the plan in force, moves no money,
    and is applied once per grant id: any later call with the same
    id, whatever product and length it asks for, reports the first expiry as
    not applied and changes no table. *)
Theorem crm_extension_once (sha256 : string -> string) (isoformat : instant -> string)
    o u product days gid e w r w' o2 product2 days2 e2 w2 row2 :
  wallet_inv w.(w_db) ->
  Crm.set_subscription isoformat sha256 o u product days gid e w = (inr r, w') -> r.(Crm.applied) = true ->
  w2.(w_db).(subscription_grant_events) !! (u, Crm.subscription_key gid) =
    w'.(w_db).(subscription_grant_events) !! (u, Crm.subscription_key gid) ->
  w2.(w_db).(users) !! u = Some row2 -> product_known e2.(env_settings) product2 ->
  let until := in_force_until w.(w_db) u (e.(env_clock) w.(w_ticks)) + 86400000000 * days in
  r.(Crm.outcome_expires_at) = until /\
  w'.(w_db).(subscriptions) !! u = Some (mkSubscription sub_active (Some product) (Some until)) /\
  (forall v, account w'.(w_db) v = account w.(w_db) v) /\
  exists t w2', Crm.set_subscription isoformat sha256 o2 u product2 days2 gid e2 w2 =
    (inr (Crm.mkOutcome t (e2.(env_clock) w2.(w_ticks) <? until) until false), w2') /\ w2'.(w_db) = w2.(w_db).
Proof.
  intros Hi H Ha Hg Hu Hk. destruct (extension_applied _ _ _ _ _ _ _ _ _ _ _ Hi H Ha) as (H1 & H2 & [tx H3] & H4).
  split_and!; [done|done|done|]. rewrite H3 in Hg. by apply (extension_replayed _ _ _ _ _ _ _ _ _ row2 product _ tx).
Qed.

(** ** A concrete order *)

Section stable.
Context {A : Type} (key : A -> instant).

Definition key_ge (x y : A) : Prop := key y <= key x.
#[local] Instance key_ge_dec : RelDecision key_ge.
Proof. intros x y. unfold key_ge. apply _. Defined.
#[local] Instance key_ge_trans : Transitive key_ge.
Proof. intros x y z. unfold key_ge. lia. Qed.
#[local] Instance key_ge_total : Total key_ge.
Proof. intros x y. unfold key_ge. lia. Qed.

Definition sort_desc (rows : list A) : list A := merge_sort key_ge rows.

Lemma sort_desc_sorted rows : StronglySorted key_ge (sort_desc rows).
Proof. apply Sorted_StronglySorted; [apply _|]. apply Sorted_merge_sort. apply _. Qed.

Lemma sort_desc_perm rows : sort_desc rows ≡ₚ rows.
Proof. apply merge_sort_Permutation. Qed.
End stable.

(** Rows of equal keys as they come, and the other way round. *)
Definition stable_order : SqlOrder :=
  {| order_desc := @sort_desc; order_desc_perm := @sort_desc_perm; order_desc_sorted := @sort_desc_sorted |}.

Definition reversed_order : SqlOrder.
Proof.
  refine {| order_desc := fun A key rows => sort_desc key (reverse rows) |}.
  - intros A key rows. by rewrite sort_desc_perm, reverse_Permutation.
  - intros A key rows. apply sort_desc_sorted.
Defined.

Definition extended : World :=
  (Crm.set_subscription demo_isoformat (fun s => s) stable_order alice "pro" 30 "g-1" demo_env funded).2.

Lemma crm_extension_once_witness :
  exists t w2', Crm.set_subscription demo_isoformat (fun s => s) reversed_order alice "team" 90 "g-1" demo_env extended =
    (inr (Crm.mkOutcome t true 1702592000000000 false), w2') /\ w2'.(w_db) = extended.(w_db).
Proof.
  destruct (crm_extension_once (fun s => s) demo_isoformat stable_order alice "pro" 30 "g-1" demo_env funded
    (Crm.mkOutcome 100 true 1702592000000000 true) extended reversed_order "team" 90 demo_env extended
    (mkUser 0 false None) funded_inv) as (_ & _ & _ & H).
  - vm_compute. reflexivity.
  - reflexivity.
  - reflexivity.
  - vm_compute. reflexivity.
  - left. vm_compute. reflexivity.
  - exact H.
Defined.

(** ** Correcting a balance *)

Lemma admin_grant_account u amount key reason e w :
  wallet_inv w.(w_db) -> user_exists w.(w_db) u = true -> 0 < amount ->
  let '(r, w') := Admin.grant u amount key reason e w in
  let '(r', a') := spec_credit e.(env_settings).(agent_debt_reconcile_enabled)
                     (new_tx e w u credit amount [("source", JStr "admin"); ("reason", JStr reason)] key)
                     (account w.(w_db) u) in
  match r' with
  | inl x => r = inl x /\ (x <> DataError -> account w'.(w_db) u = account w.(w_db) u)
  | inr g => exists t b, r = inr (Admin.mkAdminResult g.(gr_new_balance) t b) /\ account w'.(w_db) u = a'
  end.
Proof.
  intros Hi Hu Ha.
  pose proof (grant_account e w u amount key [("source", JStr "admin"); ("reason", JStr reason)] reason Hu
                (ai_ok _ (wi_account _ Hi u)) Ha) as H.
  unfold Admin.grant. erewrite bind_inr; [|unfold Admin._require_user_exists; run by done; by rewrite Hu].
  destruct (grant _ _ _ _ _ e w) as [r w1] eqn:Hg.
  destruct (spec_credit _ _ _) as [r' a'] eqn:Hs. destruct H as (-> & Hacc & Hf). destruct r' as [x|g].
  - assert (exists w2, Admin.count_conflict "admin_grant_total"
        (grant u amount key [("source", JStr "admin"); ("reason", JStr reason)] reason) e w = (inl x, w2) /\
        w2.(w_db) = w1.(w_db)) as (w2 & H2 & Hdb).
    { unfold Admin.count_conflict, try_except. rewrite Hg. by destruct (is_ConflictError x); eexists. }
    erewrite bind_inl by exact H2. split; [done|]. intros Hx. rewrite Hdb, Hacc by congruence.
    unfold spec_credit in Hs. by repeat case_match_hyp Hs; simplify_eq.
  - erewrite bind_inr; [|unfold Admin.count_conflict, try_except; by rewrite Hg].
    erewrite bind_inr.
    2: { apply record_run; [|done]. cbn. unfold user_exists. rewrite (frame_users _ _ _ Hf). exact Hu. }
    erewrite bind_inr by done. do 2 eexists. split; [reflexivity|]. cbn [w_db with_db counted].
    rewrite account_add_neutral by (by apply neutral_event_type). by apply Hacc.
Qed.

(** A correction by the console changes what the user owns net of debt by
    exactly the amount asked for, or is refused and changes nothing: a zero amount
    and a debit larger than the balance are refused as bad requests, only an amount
    beyond 64 bits fails in the database, a debit never creates or settles debt,
    and the balance reported is the one stored. *)
Theorem crm_correction_exact u amount e w :
  wallet_inv w.(w_db) -> user_exists w.(w_db) u = true ->
  find_tx ("crm-tokens:" ++ uuid_str (next_uuid e w))%string (account w.(w_db) u) = None ->
  let a := account w.(w_db) u in
  let '(r, w') := Crm.adjust_tokens u amount e w in
  let a' := account w'.(w_db) u in
  match r with
  | inr b => amount <> 0 /\ a'.(ac_balance) = b /\ 0 <= b /\
             a'.(ac_balance) - a'.(ac_debt) = a.(ac_balance) - a.(ac_debt) + amount /\
             (amount < 0 -> a'.(ac_debt) = a.(ac_debt))
  | inl x => (x = DataError \/ a' = a) /\
             (amount < 0 -> a.(ac_balance) + amount < 0 /\
                            (- amount <= int8_max -> x = BadRequestError "balance would go negative")) /\
             (amount = 0 -> x = BadRequestError "amount must not be zero")
  end.
Proof.
  intros Hi Hu Hk a. unfold Crm.adjust_tokens. run by done.
  set (w1 := mkWorld _ _ _ _ _ _ _). set (key := ("crm-tokens:" ++ uuid_str _)%string).
  assert (Hacc : account w1.(w_db) u = a) by done. change (find_tx key a = None) in Hk.
  destruct (wi_account _ Hi u) as [[Hb Hd] _ _ _ _]. fold a in Hb, Hd.
  destruct (Z.eqb_spec amount 0) as [->|Hz]; [by cbn; split_and!; [right|lia|]|].
  destruct (Z.ltb_spec 0 amount) as [Hp|Hp].
  - pose proof (admin_grant_account u amount key "crm_admin_tokens" e w1 Hi Hu Hp) as H.
    destruct (Admin.grant _ _ _ _ e w1) as [r w2] eqn:Hr. destruct (spec_credit _ _ _) as [r' a'] eqn:Hs.
    rewrite Hacc in Hs. destruct r' as [x|g].
    + destruct H as [-> H]. erewrite bind_inl by exact Hr. split_and!; [|lia|lia].
      destruct (decide (x = DataError)) as [->|Hx]; [by left|right]. by rewrite H.
    + destruct H as (t & b & -> & H). erewrite bind_inr by exact Hr. cbn. rewrite H.
      unfold spec_credit in Hs. cbn [new_tx lt_amount lt_idempotency_key] in Hs. rewrite Hk in Hs.
      repeat case_match_hyp Hs; try done. injection Hs as <- <-. cbn. unfold repayment.
      change (wallet_balance (w_db w) u) with (ac_balance a). change (wallet_debt (w_db w) u) with (ac_debt a).
      destruct (agent_debt_reconcile_enabled _); lia.
  - pose proof (admin_debit_plain u (- amount) key "crm_admin_tokens" e w1 Hi Hu ltac:(lia)) as H.
    destruct (Admin.debit _ _ _ _ e w1) as [r w2] eqn:Hr. destruct (spec_debit _ _ _ _ _) as [r' a'] eqn:Hs.
    rewrite Hacc in Hs, H. destruct H as (-> & H & Hdebt & _). unfold spec_debit in Hs. rewrite Hk in Hs.
    destruct (Z.leb_spec (- amount) a.(ac_balance)) as [Hle|Hgt].
    + injection Hs as <- <-. erewrite bind_inr; [|unfold try_except; by rewrite Hr]. cbn. rewrite H. cbn. lia.
    + cbn in Hs. injection Hs as <- <-. destruct (Z.leb_spec (- amount) int8_max) as [Hm|Hm].
      * erewrite bind_inl; [|unfold try_except; rewrite Hr; reflexivity].
        split_and!; [by right|intros _; split; [lia|done]|lia].
      * erewrite bind_inl; [|unfold try_except; rewrite Hr; reflexivity]. split_and!; [by left|lia|lia].
Qed.

Lemma crm_correction_exact_witness :
  let '(r, w') := Crm.adjust_tokens alice (-130) demo_env funded in
  account w'.(w_db) alice = account funded.(w_db) alice.
Proof.
  pose proof (crm_correction_exact alice (-130) demo_env funded funded_inv ltac:(vm_compute; reflexivity)
                ltac:(vm_compute; reflexivity)) as H.
  destruct (Crm.adjust_tokens _ _ _ _) as [[x|b] w'] eqn:E; cbn beta iota zeta in H.
  - destruct H as [[->|H] [H2 _]]; [|exact H]. by destruct (H2 ltac:(lia)) as [_ ?].
  - apply (f_equal fst) in E. vm_compute in E. discriminate E.
Defined.

(** ** Pages *)

(** Rows of distinct keys have one order. *)
Lemma order_desc_unique {A} (key : A -> instant) (o o' : SqlOrder) (rows : list A) :
  NoDup (key <$> rows) -> @order_desc o A key rows = @order_desc o' A key rows.
Proof.
  intros Hn. apply (StronglySorted_unique_strong (fun x y => key y <= key x)).
  - intros x y Hx Hy H1 H2. rewrite (@order_desc_perm o) in Hx. rewrite (@order_desc_perm o') in Hy.
    apply list_elem_of_lookup in Hx as [i Hi]. apply list_elem_of_lookup in Hy as [j Hj].
    assert (i = j) as ->; [|congruence]. apply (NoDup_lookup (key <$> rows) i j (key x)); [done|by rewrite list_lookup_fmap, Hi|].
    rewrite list_lookup_fmap, Hj. cbn. f_equal. lia.
  - apply order_desc_sorted.
  - apply order_desc_sorted.
  - by rewrite (@order_desc_perm o), (@order_desc_perm o').
Qed.

(** When no two of the selected users registered in the same microsecond, the
    pages of the console are the slices of one list that holds every selected
    user once, however the database orders each call, and the total is its
    length. *)
Theorem crm_pages_complete (os : nat -> SqlOrder) limit f e w :
  0 <= limit -> NoDup ((fun x : uuid * UserRow => x.2.(u_created_at)) <$> Crm.selected w.(w_db) f) ->
  exists rows, rows ≡ₚ Crm.user_row w.(w_db) <$> Crm.selected w.(w_db) f /\
    forall k, Crm.list_users_page (os k) limit (limit * Z.of_nat k) f e w =
      (inr (Z.of_nat (length rows), take (Z.to_nat limit) (drop (Z.to_nat limit * k) rows)), w).
Proof.
  intros Hl Hn. set (key := fun x : uuid * UserRow => x.2.(u_created_at)) in *.
  exists (Crm.user_row w.(w_db) <$> @order_desc (os 0%nat) _ key (Crm.selected w.(w_db) f)).
  split; [by rewrite order_desc_perm|]. intros k. unfold Crm.list_users_page. run by done.
  run by (apply list_users_ok; nia). fold key.
  rewrite (order_desc_unique key (os k) (os 0%nat)) by done.
  rewrite length_fmap, (Permutation_length (order_desc_perm key _)). cbn.
  by rewrite fmap_take, fmap_drop, Z2Nat.inj_mul, Nat2Z.id by lia.
Qed.

(** Users registered in the same microsecond (the rows of one transaction carry
    one timestamp) can be lost: the console orders by the timestamp alone, so
    the page of the first call and the page of the second may both hold the one
    and never the other. *)
Theorem crm_ties_lose_users :
  exists o1 o2 row, Crm.list_users_page o1 1 0 (Crm.mkUserFilter None None None None) demo_env demo_world = (inr (2, [row]), demo_world) /\
    Crm.list_users_page o2 1 1 (Crm.mkUserFilter None None None None) demo_env demo_world = (inr (2, [row]), demo_world).
Proof.
  exists stable_order, reversed_order, (Crm.user_row demo_db (bob, mkUser 0 false None)).
  split; vm_compute; reflexivity.
Qed.

(** ** Which credits are payments *)

(** A payment through CloudPayments is not a payment of the console: neither
    its key nor its metadata passes the filter. *)
Theorem crm_ignores_cloudpayments e w u n p kind :
  Crm.is_payment u (new_tx e w u credit n (CloudPayments.payment_meta p kind) (CloudPayments.payment_key p)) = false.
Proof. unfold Crm.is_payment. cbn. by rewrite N.eqb_refl. Qed.

(** An open-ended subscription is cut: it was in force for ever, and after an
    applied extension it ends. *)
Theorem crm_extension_cuts_open_ended (sha256 : string -> string) (isoformat : instant -> string)
    o u product days gid e w r w' p :
  wallet_inv w.(w_db) -> w.(w_db).(subscriptions) !! u = Some (mkSubscription sub_active p None) ->
  Crm.set_subscription isoformat sha256 o u product days gid e w = (inr r, w') -> r.(Crm.applied) = true ->
  (forall t, Crm._subscription_active (Some sub_active) None t = true) /\
  forall t, e.(env_clock) w.(w_ticks) + 86400000000 * days <= t ->
    Crm._subscription_active (s_status <$> w'.(w_db).(subscriptions) !! u) (w'.(w_db).(subscriptions) !! u ≫= s_expires_at) t = false.
Proof.
  intros Hi Hs H Ha. split; [done|]. intros t Ht.
  destruct (extension_applied _ _ _ _ _ _ _ _ _ _ _ Hi H Ha) as (_ & H2 & _). rewrite H2.
  unfold in_force_until. rewrite Hs. cbn. unfold Crm.day_us, Crm._subscription_active.
  rewrite bool_decide_true by done. cbn. apply Z.ltb_ge. lia.
Qed.

(** ** The books *)

Lemma keeps_get_user_row I J o u : keeps I J (Crm.get_user_row o u).
Proof. intros e w [H1 H2]. by rewrite get_user_row_exact. Qed.

Lemma keeps_grant_conflict I {A} (m : M A) : keeps I I m -> keeps I I (Crm.grant_conflict m).
Proof.
  intros Hm. unfold Crm.grant_conflict. apply keeps_try; [done|done|].
  intros x k. destruct (is_ConflictError x); [|done]. intros [= <-]. keeps_walk.
Qed.

#[export] Hint Resolve keeps_get_user_row keeps_grant_conflict : hermes.

Lemma keeps_operator_grant sha iso u plan exp gc key reason :
  keeps wallet_inv wallet_inv (Admin.subscription_grant sha iso u plan exp gc key reason).
Proof. apply admin_subscription_books. Qed.

Lemma keeps_operator_credit u amount key reason : keeps wallet_inv wallet_inv (Admin.grant u amount key reason).
Proof. apply admin_grant_books. Qed.

Lemma keeps_operator_debit u amount key reason : keeps wallet_inv wallet_inv (Admin.debit u amount key reason).
Proof. apply admin_debit_books. Qed.

#[export] Hint Resolve keeps_operator_grant keeps_operator_credit keeps_operator_debit : hermes.

#[export] Instance adjust_tokens_books u amount : KeepsBooks (Crm.adjust_tokens u amount).
Proof. unfold KeepsBooks, Crm.adjust_tokens. keeps_walk. Qed.

#[export] Instance set_subscription_books iso sha o u p n g : KeepsBooks (Crm.set_subscription iso sha o u p n g).
Proof.
  unfold KeepsBooks, Crm.set_subscription, Crm.require_row, Crm.get_subscription_grant_event, Crm.plus_days, Crm.outcome.
  keeps_walk.
Qed.
