(* ===== verification/RoutesBilling.v ===== *)
(** * The money routes

    The handlers of [src/app/api_gateway/routers/wallet.py], [admin.py] and
    [crm_admin.py] with the request models of [src/app/schemas/wallet.py],
    [admin.py] and [crm_admin.py].  A request model is a record of typed fields
    and the constraints pydantic checks on them; an answer is the JSON of its
    response model.  [isoformat] renders a time. *)

From Stdlib Require Import SpecFloat Ascii String.
From S2P Require Import Prelude PyVal Redaction Store AuditTrail Logic Fixtures Wallet WalletRun WalletSpec WalletRefine WalletInv.
From S2P Require Import Policy Uuid Config Subscription Admin AgentRuns Usage Hermes AgentService AgentBilling RateLimit Gateway Http Crm.

Open Scope string_scope.
Open Scope list_scope.
Open Scope Z_scope.

Module Billing.
(** ** Request models *)

Record WalletConsumeRequest : Type := mkConsumeRequest {
  wc_user_id : uuid;
  wc_session_id : option uuid;
  wc_request_id : string;
  wc_amount : Z;
  wc_meta : dict
}.

Definition consume_valid (b : WalletConsumeRequest) : bool := Str.nonempty b.(wc_request_id) && (0 <? b.(wc_amount)).

(** [Field(min_length=1, max_length=n)] *)
Definition bounded (n : nat) (s : string) : bool := Str.nonempty s && (String.length s <=? n)%nat.

(** [AdminGrantRequest] and [AdminDebitRequest] *)
Record AdminGrantRequest : Type := mkGrantRequest {
  ga_user_id : uuid;
  ga_amount : Z;
  ga_idempotency_key : string;
  ga_reason : string
}.

Definition grant_valid (b : AdminGrantRequest) : bool :=
  (0 <? b.(ga_amount)) && bounded 128 b.(ga_idempotency_key) && bounded 512 b.(ga_reason).

Record AdminSubscriptionGrantRequest : Type := mkSubscriptionRequest {
  sg_user_id : uuid;
  sg_plan : string;
  sg_expires_at : instant;
  sg_idempotency_key : string;
  sg_reason : string;
  sg_grant_credits : bool
}.

(** With [_expires_in_future]. *)
Definition subscription_valid (now : instant) (b : AdminSubscriptionGrantRequest) : bool :=
  bounded 64 b.(sg_plan) && bounded 128 b.(sg_idempotency_key) && bounded 512 b.(sg_reason) && negb (b.(sg_expires_at) <=? now).

Record CrmSubscriptionSetRequest : Type := mkCrmSet { ss_product_id : string; ss_expires_in_days : Z; ss_grant_id : string }.

Definition crm_set_valid (b : CrmSubscriptionSetRequest) : bool :=
  bounded 255 b.(ss_product_id) && (0 <? b.(ss_expires_in_days)) && (b.(ss_expires_in_days) <=? 3650) && bounded 255 b.(ss_grant_id).

(** [Query(le=100)] and [Query(ge=0)] *)
Definition page_valid (limit offset : Z) : bool := (limit <=? 100) && (0 <=? offset).

(** ** Wallet routes *)

Definition type_str (t : ledger_tx_type) : string := match t with credit => "credit" | debit => "debit" end.

Section client.
Context (gs : GatewaySettings) (rs : RateSettings) (uuid5 : uuid -> string -> uuid) (c : ClientCall).
Context (isoformat : instant -> string) (wallet_last_transactions : nat).

Definition tx_view (t : LedgerTransaction) : json :=
  JObj [("id", JStr (uuid_str t.(lt_id))); ("type", JStr (type_str t.(lt_type))); ("amount", JInt t.(lt_amount));
        ("createdAt", JStr (isoformat t.(lt_created_at))); ("meta", JObj t.(lt_meta))].

Definition get_wallet : M json :=
  client_route gs uuid5 c (fun u =>
    v ← get_wallet_view u wallet_last_transactions;
    let '(balance, debt, txs) := v in
    mret (JObj [("balance", JInt balance); ("debt", JInt debt); ("netBalance", JInt (balance - debt));
                ("lastTransactions", JArr (tx_view <$> txs))])).

Definition consume_route (body : WalletConsumeRequest) : M json :=
  client_route gs uuid5 c (fun u =>
    require_valid (consume_valid body);;
    require_owner body.(wc_user_id) u;;
    other_limit rs c u;;
    result ← Wallet.consume u body.(wc_amount) body.(wc_request_id) body.(wc_meta) body.(wc_session_id);
    mret (JObj [("newBalance", JInt result.(cr_new_balance)); ("ledgerTxId", JStr (uuid_str result.(cr_ledger_tx_id)))])).
End client.

(** ** Operator routes *)

(** The headers of an operator's request. *)
Record AdminCall : Type := mkAdminCall {
  ad_token : option string;
  ad_key : option string;
  ad_content_length : option string;
  ad_ip : option string;
  ad_attempt : Attempt;
  ad_counters : ZSets
}.

Section operator.
Context (gs : GatewaySettings) (rs : RateSettings) (admin_size_limit_body : Z) (int_of : string -> option Z) (c : AdminCall).
Context (isoformat : instant -> string) (sha256 : string -> string) (wallet_last_transactions : nat).

Definition _enforce_admin_body_size : M unit :=
  match c.(ad_content_length) with
  | Some h =>
      match int_of h with
      | Some n => if admin_size_limit_body <? n then raise (PayloadTooLargeError "admin request body exceeds limit") else mret tt
      | None => mret tt
      end
  | None => mret tt
  end.

Definition _enforce_admin_rate_limit : M unit :=
  if (enforce_admin_limits rs c.(ad_attempt) c.(ad_ip) c.(ad_counters)).1 then mret tt
  else raise (RateLimitedError "admin rate limit exceeded").

(** A reading route, and a route with a body. *)
Definition admin_read {A} (valid : bool) (h : M A) : M A :=
  lift (require_admin gs c.(ad_token) c.(ad_key));; require_valid valid;; _enforce_admin_rate_limit;; h.

Definition admin_write {A} (valid : M bool) (h : M A) : M A :=
  lift (require_admin gs c.(ad_token) c.(ad_key));; ok ← valid; require_valid ok;;
  _enforce_admin_body_size;; _enforce_admin_rate_limit;; h.

Definition grant_response (r : Admin.AdminGrantResult) : json :=
  JObj [("newBalance", JInt r.(Admin.ar_new_balance)); ("ledgerTxId", JStr (uuid_str r.(Admin.ar_ledger_tx)));
        ("idempotentReplay", JBool r.(Admin.ar_idempotent_replay))].

Definition _admin_credits_grant (body : AdminGrantRequest) : M json :=
  admin_write (mret (grant_valid body))
    (r ← Admin.grant body.(ga_user_id) body.(ga_amount) body.(ga_idempotency_key) body.(ga_reason);
     mret (grant_response r)).

Definition admin_wallet_debit (body : AdminGrantRequest) : M json :=
  admin_write (mret (grant_valid body))
    (r ← Admin.debit body.(ga_user_id) body.(ga_amount) body.(ga_idempotency_key) body.(ga_reason);
     mret (grant_response r)).

(** The clock is read while the body is validated. *)
Definition admin_subscription_grant (body : AdminSubscriptionGrantRequest) : M json :=
  admin_write (now ← py_now; mret (subscription_valid now body))
    (r ← Admin.subscription_grant sha256 isoformat body.(sg_user_id) body.(sg_plan) body.(sg_expires_at) body.(sg_grant_credits)
           body.(sg_idempotency_key) body.(sg_reason);
     mret (JObj [("status", JStr "active"); ("plan", JStr r.(ag_plan)); ("expiresAt", JStr (isoformat r.(ag_expires_at)));
                 ("creditsGranted", match r.(ag_credits_granted) with Some z => JInt z | None => JNull end);
                 ("ledgerTxId", jopt_str (uuid_str <$> r.(ag_ledger_tx_id)));
                 ("idempotentReplay", JBool r.(ag_idempotent_replay))])).

Definition admin_wallet_view (u : uuid) : M json :=
  admin_read true
    (v ← Admin.get_wallet_view u wallet_last_transactions;
     let '(user_id, balance, debt, txs) := v in
     mret (JObj [("userId", JStr (uuid_str user_id)); ("balance", JInt balance); ("debt", JInt debt);
                 ("lastTransactions", JArr (tx_view isoformat <$> txs))])).

(** ** Console routes *)

Context (fromisoformat : string -> option instant) (repr : json -> string) (o : SqlOrder).

(** [fromisoformat(value.replace("Z", "+00:00"))]; an unreadable text is a
    [ValueError]. *)
Definition _parse_optional_dt (value : option string) : M (option instant) :=
  match value with
  | None => mret None
  | Some v => match fromisoformat (replace_sub "Z" "+00:00" 0 v) with
              | Some t => mret (Some t)
              | None => raise ValueError
              end
  end.

Definition jfloat (z : Z) : json := JFloat (to_float z).

Definition crm_list_users (limit offset : Z) (search date_from date_to : option string) (is_paid : option bool) : M json :=
  admin_read (page_valid limit offset)
    (now ← py_now;
     from ← _parse_optional_dt date_from;
     to ← _parse_optional_dt date_to;
     v ← Crm.list_users_page o limit offset (Crm.mkUserFilter search from to is_paid);
     let '(total, rows) := v in
     mret (JObj [("total", JInt total);
                 ("items", JArr ((fun row => JObj (Crm.build_crm_user_list_item isoformat row now)) <$> rows))])).

Definition crm_user_detail (u : uuid) : M json :=
  admin_read true
    (row ← Crm.get_user_row o u;
     match row with
     | None => raise (UserNotFoundError "user not found")
     | Some row =>
         now ← py_now;
         totals ← Crm.ledger_totals u;
         last_pay ← Crm.last_payment_at u;
         let '(credited, spent) := totals in
         mret (JObj
           [("id", JStr (uuid_str row.(Crm.user_id))); ("external_id", JNull);
            ("registered_at", JStr (default "" (Crm._utc_iso isoformat (Some row.(Crm.registered_at)))));
            ("balance", JObj [("tokens", jfloat row.(Crm.balance)); ("credited_total", jfloat credited); ("spent_total", jfloat spent)]);
            ("subscription",
             JObj [("plan_id", jopt_str row.(Crm.plan_id)); ("plan_name", jopt_str row.(Crm.plan_id)); ("price", JNull);
                   ("active", JBool (Crm._subscription_active row.(Crm.subscription_status) row.(Crm.subscription_expires_at) now));
                   ("expires_at", jopt_str (Crm._utc_iso isoformat row.(Crm.subscription_expires_at)));
                   ("last_payment_at", jopt_str (Crm._utc_iso isoformat last_pay)); ("last_payment_method", JNull)]);
            ("revenue", JNull); ("media_stats", JNull)])
     end).

Definition payment_item (row : Crm.CrmPaymentRow) : json :=
  JObj [("title", JStr row.(Crm.title)); ("description", jopt_str row.(Crm.description)); ("amount", JFloat row.(Crm.amount));
        ("currency", JStr row.(Crm.currency)); ("status", JStr row.(Crm.payment_status));
        ("occurred_at", JStr (default "" (Crm._utc_iso isoformat (Some row.(Crm.occurred_at)))))].

Definition crm_user_payments (u : uuid) (limit offset : Z) : M json :=
  admin_read (page_valid limit offset)
    (v ← Crm.list_payments_page repr o u limit offset;
     let '(total, rows) := v in
     mret (JObj [("total", JInt total); ("items", JArr (payment_item <$> rows))])).

Definition request_item (row : Crm.CrmRequestRow) : json :=
  JObj [("endpoint", JStr row.(Crm.endpoint)); ("prompt_preview", jopt_str row.(Crm.prompt_preview));
        ("status_code", JInt row.(Crm.status_code)); ("status", JStr row.(Crm.request_status));
        ("duration_sec", Crm.jopt JFloat row.(Crm.duration_sec));
        ("sent_at", JStr (default "" (Crm._utc_iso isoformat (Some row.(Crm.sent_at)))))].

Definition crm_user_requests (u : uuid) (limit offset : Z) : M json :=
  admin_read (page_valid limit offset)
    (v ← Crm.list_requests_page o u limit offset;
     let '(total, rows) := v in
     mret (JObj [("total", JInt total); ("items", JArr (request_item <$> rows))])).

Definition crm_stats (date_from date_to : option string) : M json :=
  admin_read true
    (from ← _parse_optional_dt date_from;
     to ← _parse_optional_dt date_to;
     v ← Crm.stats from to;
     let '(users_total, paid_users) := v in
     mret (JObj [("users_total", JInt users_total); ("paid_users", JInt paid_users); ("payments_sum_usd", jfloat 0)])).

Definition crm_products : M json :=
  admin_read true
    (s ← settings;
     mret (JObj [("items", JArr ((fun p : string * string * option string * option string =>
       let '(pid, name, price, period) := p in
       JObj [("product_id", JStr pid); ("name", JStr name); ("price", jopt_str price); ("period", jopt_str period)])
         <$> Crm.list_products s))])).

Definition crm_adjust_tokens (u : uuid) (amount : Z) : M json :=
  admin_write (mret true)
    (balance ← Crm.adjust_tokens u amount;
     mret (JObj [("id", JStr (uuid_str u)); ("tokens", jfloat balance)])).

Definition crm_set_subscription (u : uuid) (body : CrmSubscriptionSetRequest) : M json :=
  admin_write (mret (crm_set_valid body))
    (r ← Crm.set_subscription isoformat sha256 o u body.(ss_product_id) body.(ss_expires_in_days) body.(ss_grant_id);
     mret (JObj [("id", JStr (uuid_str u)); ("tokens", jfloat r.(Crm.tokens));
                 ("subscription_active", JBool r.(Crm.subscription_active));
                 ("subscription_expires_at", jopt_str (Crm._utc_iso isoformat (Some r.(Crm.outcome_expires_at))));
                 ("applied", JBool r.(Crm.applied))])).
End operator.
End Billing.

Import Billing.

(** ** Who may use the operator's routes *)

Section operators.
Context (gs : GatewaySettings) (rs : RateSettings) (size : Z) (int_of : string -> option Z) (c : AdminCall).
Context (iso : instant -> string) (sha256 : string -> string) (last_n : nat) (fi : string -> option instant).
Context (repr : json -> string) (o : SqlOrder).

(** Every route under [/v1/admin]. *)
Inductive operator_route : M json -> Prop :=
| op_grant body : operator_route (_admin_credits_grant gs rs size int_of c body)
| op_debit body : operator_route (admin_wallet_debit gs rs size int_of c body)
| op_subscription body : operator_route (admin_subscription_grant gs rs size int_of c iso sha256 body)
| op_wallet u : operator_route (admin_wallet_view gs rs c iso last_n u)
| op_users limit offset search from to paid :
    operator_route (crm_list_users gs rs c iso fi o limit offset search from to paid)
| op_user u : operator_route (crm_user_detail gs rs c iso o u)
| op_payments u limit offset : operator_route (crm_user_payments gs rs c iso repr o u limit offset)
| op_requests u limit offset : operator_route (crm_user_requests gs rs c iso o u limit offset)
| op_stats from to : operator_route (crm_stats gs rs c fi from to)
| op_products : operator_route (crm_products gs rs c)
| op_tokens u amount : operator_route (crm_adjust_tokens gs rs size int_of c u amount)
| op_set u body : operator_route (crm_set_subscription gs rs size int_of c iso sha256 o u body).

(** What a check before the limiter may do: answer, without touching the
    database. *)
Definition quiet (valid : M bool) : Prop := forall e w, exists b w', valid e w = (inr b, w') /\ w'.(w_db) = w.(w_db).

Lemma quiet_ret b : quiet (mret b).
Proof. intros e w. by exists b, w. Qed.

Lemma quiet_now f : quiet (now ← py_now; mret (f now)).
Proof. intros e w. eexists _, _. split; [by run by done|done]. Qed.

Definition over_limit : Prop := (enforce_admin_limits rs c.(ad_attempt) c.(ad_ip) c.(ad_counters)).1 = false.

Definition fails_quietly {A} (m : M A) : Prop := forall e w, exists x w', m e w = (inl x, w') /\ w'.(w_db) = w.(w_db).

Lemma read_over_limit {A} valid (h : M A) : over_limit -> fails_quietly (admin_read gs rs c valid h).
Proof.
  intros Hl e w. unfold admin_read, require_valid, _enforce_admin_rate_limit, lift. rewrite Hl.
  destruct (require_admin gs _ _) as [x|[]]; [eexists _, _; by split; [fails by done|]|]. run by done.
  destruct valid; [run by done|]; (eexists _, _; by split; [fails by done|]).
Qed.

Lemma write_over_limit {A} valid (h : M A) : over_limit -> quiet valid -> fails_quietly (admin_write gs rs size int_of c valid h).
Proof.
  intros Hl Hq e w. unfold admin_write, require_valid, _enforce_admin_body_size, _enforce_admin_rate_limit, lift. rewrite Hl.
  destruct (require_admin gs _ _) as [x|[]]; [eexists _, _; by split; [fails by done|]|]. run by done.
  destruct (Hq e w) as (b & w' & Hv & Hdb). run by exact Hv. rewrite <- Hdb.
  destruct b; [|eexists _, _; by split; [fails by done|]]. run by done.
  destruct (ad_content_length c) as [len|]; [destruct (int_of len) as [n|]; [destruct (size <? n)|]|];
    first [by eexists _, _; split; [fails by done|] | run by done; by eexists _, _; split; [fails by done|]].
Qed.

End operators.

(** ** Concrete requests *)

Definition demo_rates : RateSettings := mkRateSettings 30 30 60 120 60 20 60 60.

Definition no_attempt : Attempt := mkAttempt 0 0 "0:a" answered.

Definition admin_call (token : string) (limit : option string) : AdminCall :=
  mkAdminCall (Some token) None limit (Some "10.0.0.9") no_attempt ∅.

Definition user_call (u : uuid) : ClientCall :=
  mkClientCall (Some "client-key") (Some (uuid_str u)) None None [no_attempt] ∅.

Definition no_uuid5 (_ : uuid) (_ : string) : uuid := 0%N.


(** A page of a negative size and a date that is no date pass the checks of
    the request and end in errors nothing handles. *)
Theorem console_parameters_unchecked :
  let users limit from := crm_list_users demo_gateway demo_rates (admin_call "admin" None) (fun _ => "") (fun _ => None) stable_order
                            limit 0 None from None None demo_env funded in
  (users (-1) None).1 = inl DataError /\ (users 10 (Some "yesterday")).1 = inl ValueError /\
  app_error DataError = None /\ app_error ValueError = None.
Proof. vm_compute. split_and!; reflexivity. Qed.

(** The user named in a body is not looked at: the account is that of the
    header. *)
Theorem body_user_ignored gs rs uuid5 c b u :
  consume_route gs rs uuid5 c b =
  consume_route gs rs uuid5 c (mkConsumeRequest u b.(wc_session_id) b.(wc_request_id) b.(wc_amount) b.(wc_meta)).
Proof. done. Qed.

(** ** A run paid in advance

    The keys of the client's own debits and of the debits of its agent runs
    are the same keys.  Alice starts a run, is told its id, and consumes one
    credit under that id; the completion of the run, worth 13 credits, then
    finds its key taken and charges nothing. *)

Definition prepaid : World :=
  (consume_route demo_gateway demo_rates no_uuid5 (user_call alice) (mkConsumeRequest alice None "r1" 1 [])
     billing_env (run_with_credits 100)).2.

Definition completed (w : World) : Z :=
  wallet_balance (relay_events demo_hermes fresh_run [completion 3000 2000] billing_env w).2.(w_db) alice.

Theorem prepaid_run_escapes : completed (run_with_credits 100) = 87 /\ completed prepaid = 99.
Proof. split; vm_compute; reflexivity. Qed.
