(* ===== verification/Presets.v ===== *)
(** * Prompt presets

    Models [src/app/chat/presets.py], the choice of the language in
    [src/app/api_gateway/routers/presets.py] and the default of
    [Settings.resolved_presets_default_locale].  A text is its UTF-8 bytes. *)

From Stdlib Require Import Ascii String.
From S2P Require Import Prelude PyVal Redaction Store Logic RateLimit Gateway Http.

Open Scope string_scope.
Open Scope list_scope.
Open Scope Z_scope.

Module Presets.
Definition SUPPORTED_PRESET_LOCALES : list string := ["en"; "ru"].
Definition DEFAULT_PRESET_LOCALE : string := "en".

(** [by_lower.get(tag)]: the supported locale a lowered tag names. *)
Definition by_lower (tag : string) : option string :=
  find_first (fun locale => String.eqb (Str.lower locale) tag) SUPPORTED_PRESET_LOCALES.

Definition dashed (s : string) : string := Str.map_str (fun c => if Ascii.eqb c "_" then "-"%char else c) s.

(** The loop over the shorter prefixes, longest first. *)
Fixpoint by_prefix (n : nat) (parts : list string) : option string :=
  match n with
  | O => None
  | S m => match by_lower (Str.join "-" (take n parts)) with Some l => Some l | None => by_prefix m parts end
  end.

Definition canonicalize_preset_locale (raw : option string) : option string :=
  match raw with
  | None => None
  | Some r =>
      let tag := dashed (Str.lower (Str.strip r)) in
      if negb (Str.nonempty tag) then None
      else match by_lower tag with
           | Some l => Some l
           | None => let parts := Str.split "-" tag in by_prefix (length parts - 1) parts
           end
  end.

Record Preset : Type := mkPreset { pr_id : string; pr_icon : string; pr_title : list (string * string); pr_prompt : list (string * string) }.

Definition _PRESETS : list Preset :=
  [
   mkPreset "plan_week" "calendar"
     [("en", "Plan Week");
      ("ru", "Планирование недели")]
     [("en",
       "Help me plan my upcoming week. Ask me about my priorities, deadlines, and commitments, then propose a balanced day-by-day schedule.");
      ("ru",
       "Помоги спланировать предстоящую неделю. Расспроси меня о приоритетах, сроках и обязательствах, а затем предложи сбалансированное расписание по дням.")];
   mkPreset "meeting_notes" "person.2"
     [("en", "Meeting Notes");
      ("ru", "Заметки со встречи")]
     [("en",
       "Turn my raw meeting notes into a clean summary with key decisions, action items (with owners), and open questions. I'll paste the notes next.");
      ("ru",
       "Преврати мои черновые заметки со встречи в аккуратное резюме: ключевые решения, задачи с ответственными и открытые вопросы. Я вставлю заметки следующим сообщением.")];
   mkPreset "tasks_from_photo" "camera"
     [("en", "Tasks from Photo");
      ("ru", "Задачи с фото")]
     [("en",
       "I'll attach a photo of a note, whiteboard, or list. Extract every actionable task from it and return them as a clear checklist.");
      ("ru",
       "Я прикреплю фото заметки, доски или списка. Выдели из него все конкретные задачи и верни их в виде понятного чек-листа.")];
   mkPreset "design_brief" "paintbrush"
     [("en", "Design Brief");
      ("ru", "Дизайн-бриф")]
     [("en",
       "Help me write a concise design brief. Ask me about the goal, audience, scope, constraints, and success criteria, then draft the brief.");
      ("ru",
       "Помоги составить лаконичный дизайн-бриф. Расспроси меня о цели, аудитории, объёме работ, ограничениях и критериях успеха, а затем подготовь бриф.")];
   mkPreset "daily_review" "checklist"
     [("en", "Daily Review");
      ("ru", "Итоги дня")]
     [("en",
       "Guide me through a short daily review: what I accomplished, what's still open, and the top 3 priorities for tomorrow.");
      ("ru",
       "Проведи меня через короткий разбор дня: что удалось сделать, что осталось незавершённым и какие три главных приоритета на завтра.")];
   mkPreset "summarize_text" "doc.text"
     [("en", "Summarize Text");
      ("ru", "Краткое изложение")]
     [("en",
       "Summarize the text I provide. Give a 3-sentence overview, then key points as bullets. I'll paste the text next.");
      ("ru",
       "Кратко изложи текст, который я пришлю. Дай обзор в трёх предложениях, а затем ключевые мысли списком. Я вставлю текст следующим сообщением.")];
   mkPreset "project_structure" "folder"
     [("en", "Project Structure");
      ("ru", "Структура проекта")]
     [("en",
       "Help me design a project structure. Ask about the project type and goals, then propose a folder/file layout with a short rationale.");
      ("ru",
       "Помоги продумать структуру проекта. Расспроси о типе проекта и целях, а затем предложи структуру папок и файлов с кратким обоснованием.")]].

Definition texts_get (l : list (string * string)) (k : string) : option string := snd <$> find_first (fun kv => String.eqb kv.1 k) l.

(** [d.get(locale) or d["en"]]; [None] is a [KeyError]. *)
Definition localized (l : list (string * string)) (locale : string) : option string :=
  match texts_get l locale with
  | Some (String _ _ as t) => Some t
  | _ => texts_get l DEFAULT_PRESET_LOCALE
  end.

Definition preset_catalog (locale : string) : option (list dict) :=
  mapM (fun p =>
          title ← localized p.(pr_title) locale;
          prompt ← localized p.(pr_prompt) locale;
          Some [("id", JStr p.(pr_id)); ("title", JStr title); ("icon", JStr p.(pr_icon)); ("prompt", JStr prompt)]) _PRESETS.

(** ** The language of a request *)

(** [part.split(";", 1)[0].strip()] *)
Definition tag_of (part : string) : string := Str.strip (default "" (head (Str.split ";" part))).

Fixpoint first_tag (parts : list string) : option string :=
  match parts with
  | [] => None
  | part :: rest =>
      let tag := tag_of part in
      if negb (Str.nonempty tag) then first_tag rest
      else match canonicalize_preset_locale (Some tag) with Some l => Some l | None => first_tag rest end
  end.

Definition _first_supported_language (accept_language : option string) : option string :=
  match accept_language with
  | Some (String _ _ as h) => first_tag (Str.split "," h)
  | _ => None
  end.

Definition unsupported (l : string) : exn := ValidationFailedError ("locale '" ++ l ++ "' is not supported")%string.

Definition resolve_presets_locale (query_locale accept_language : option string) (default_locale : string) : exn + string :=
  match query_locale with
  | Some q => match canonicalize_preset_locale query_locale with Some l => inr l | None => inl (unsupported q) end
  | None =>
      match _first_supported_language accept_language with
      | Some l => inr l
      | None => inr (default DEFAULT_PRESET_LOCALE (canonicalize_preset_locale (Some default_locale)))
      end
  end.

Definition resolved_presets_default_locale (presets_default_locale : string) : string :=
  default DEFAULT_PRESET_LOCALE (canonicalize_preset_locale (Some presets_default_locale)).

Definition list_presets (gs : GatewaySettings) (rs : RateSettings) (uuid5 : uuid -> string -> uuid) (c : ClientCall)
    (presets_default_locale : string) (locale accept_language : option string) : M json :=
  limited_route gs rs uuid5 c (fun _ =>
    resolved ← lift (resolve_presets_locale locale accept_language (resolved_presets_default_locale presets_default_locale));
    catalog ← lift (match preset_catalog resolved with Some c => inr c | None => inl KeyError end);
    mret (JObj [("locale", JStr resolved); ("presets", JArr (JObj <$> catalog))])).
End Presets.

Import Presets.

Lemma by_lower_supported tag l : by_lower tag = Some l -> l ∈ SUPPORTED_PRESET_LOCALES /\ tag = l.
Proof.
  unfold by_lower. intros H. apply find_first_Some in H as [Hin He]. split; [done|]. apply String.eqb_eq in He. subst tag.
  unfold SUPPORTED_PRESET_LOCALES in Hin. apply elem_of_cons in Hin as [->|Hin]; [done|].
  apply list_elem_of_singleton in Hin as ->. done.
Qed.

Lemma by_prefix_spec n parts l :
  by_prefix n parts = Some l -> l ∈ SUPPORTED_PRESET_LOCALES /\ exists m, (0 < m <= n)%nat /\ l = Str.join "-" (take m parts).
Proof.
  induction n as [|n IH]; [done|]. cbn [by_prefix]. destruct (by_lower _) as [l'|] eqn:E.
  - intros [= <-]. apply by_lower_supported in E as [Hs He]. split; [done|]. exists (S n). split; [lia|done].
  - intros H. apply IH in H as (Hs & m & Hm & He). split; [done|]. exists m. split; [lia|done].
Qed.

(** What a tag resolves to is supported, and is the tag itself, up to case and
    separators, or a prefix of its parts. *)
Lemma canonical_supported raw l :
  canonicalize_preset_locale raw = Some l ->
  l ∈ SUPPORTED_PRESET_LOCALES /\
  exists r, raw = Some r /\ exists m, (0 < m)%nat /\ l = Str.join "-" (take m (Str.split "-" (dashed (Str.lower (Str.strip r))))).
Proof.
  unfold canonicalize_preset_locale. destruct raw as [r|]; [|done]. set (tag := dashed (Str.lower (Str.strip r))).
  destruct (Str.nonempty tag); [cbn [negb]|done]. destruct (by_lower tag) as [l'|] eqn:E.
  - intros [= <-]. apply by_lower_supported in E as [Hs He]. split; [done|]. exists r. split; [done|].
    exists 1%nat. fold tag. rewrite He. unfold SUPPORTED_PRESET_LOCALES in Hs. split; [lia|].
    apply elem_of_cons in Hs as [->|Hs]; [done|]. by apply list_elem_of_singleton in Hs as ->.
  - intros H. apply by_prefix_spec in H as (Hs & m & Hm & He). split; [done|]. exists r. split; [done|]. exists m. split; [lia|done].
Qed.

Lemma first_tag_supported parts l : first_tag parts = Some l -> l ∈ SUPPORTED_PRESET_LOCALES.
Proof.
  induction parts as [|p ps IH]; cbn [first_tag]; [done|]. destruct (negb _); [done|].
  destruct (canonicalize_preset_locale _) as [l'|] eqn:E; [|done]. intros [= <-]. by destruct (canonical_supported _ _ E).
Qed.

(** A resolved language is always one the catalogue has texts for, whatever the
    client and the operator write; only an explicit unknown [locale] is refused. *)
Theorem locale_always_supported query header def :
  match resolve_presets_locale query header def with
  | inr l => l ∈ SUPPORTED_PRESET_LOCALES /\ is_Some (preset_catalog l)
  | inl x => exists q, query = Some q /\ x = unsupported q /\ canonicalize_preset_locale query = None
  end.
Proof.
  assert (Hcat : forall l, l ∈ SUPPORTED_PRESET_LOCALES -> l ∈ SUPPORTED_PRESET_LOCALES /\ is_Some (preset_catalog l)).
  { intros l Hl. split; [done|]. apply elem_of_cons in Hl as [->|Hl]; [vm_compute; by eexists|].
    apply list_elem_of_singleton in Hl as ->. vm_compute. by eexists. }
  unfold resolve_presets_locale. destruct query as [q|].
  - destruct (canonicalize_preset_locale (Some q)) as [l|] eqn:E; [|by exists q]. apply Hcat. by destruct (canonical_supported _ _ E).
  - unfold _first_supported_language.
    destruct (match header with Some (String _ _ as h) => _ | _ => None end) as [l|] eqn:E.
    + apply Hcat. destruct header as [[|ch h]|]; [done| |done]. by apply first_tag_supported in E.
    + destruct (canonicalize_preset_locale (Some def)) as [l|] eqn:Ed; cbn [default].
      * apply Hcat. by destruct (canonical_supported _ _ Ed).
      * apply Hcat. by left.
Qed.

Example locale_examples :
  resolve_presets_locale (Some "RU_ru") None "en" = inr "ru" /\
  resolve_presets_locale None (Some "de-DE, ;q=1, ru-RU;q=0.8, en") "en" = inr "ru" /\
  resolve_presets_locale (Some "de") (Some "ru") "en" = inl (unsupported "de").
Proof. vm_compute. split_and!; reflexivity. Qed.
