(* ===== verification/RoutesClient.v ===== *)
(** * The client's routes

    The handlers of [chat.py], [agent.py], [chats.py], [workspaces.py],
    [byok.py], [profile.py], [preferences.py], [policy.py], [tools.py],
    [models.py], [preview.py] and [health.py] under
    [src/app/api_gateway/routers], with the request models of
    [src/app/schemas] and the validators they declare.  A request model is a
    record of typed fields; an answer is the JSON of its response model, with
    a status where the handler chooses one.  [json.dumps] and [encode] are
    parameters through the length they give. *)

From Stdlib Require Import Ascii String.
From S2P Require Import Prelude PyVal Redaction Store AuditTrail Logic Fixtures Wallet WalletRun Policy Uuid Config ChatTurns ChatReplay.
From S2P Require Import ChatTools Website Attachments Workspaces Byok ChatContext ChatRepo Chat Chats AgentRuns AgentService.
From S2P Require Import Hermes AgentClient Ring Broker StoreKit TokenPurchase RateLimit Gateway Http Checkout Profile Crm RoutesBilling Presets.

Open Scope string_scope.
Open Scope list_scope.
Open Scope Z_scope.

Module Api.
Import Orchestrator.
(** ** Request models *)

Record SchemaSettings : Type := mkSchemaSettings {
  size_limit_message : Z;
  size_limit_context : Z;
  size_limit_tool_result : Z;
  size_limit_api_key : Z
}.

Definition is_none {A} (o : option A) : bool := match o with None => true | Some _ => false end.
Definition is_some {A} (o : option A) : bool := negb (is_none o).
Definition blank (s : string) : bool := negb (Str.nonempty (Str.strip s)).

(** [Field(max_length=n)] *)
Definition at_most (n : nat) (s : string) : bool := (String.length s <=? n)%nat.

Section schemas.
Context (ss : SchemaSettings) (encoded_len : string -> Z) (dumps_len : dict -> Z).

(** [ChatRunRequest._check_sizes]: the request model is [RunArgs] and the id of
    a user. *)
Definition attachment_valid (a : AttachmentIn) : bool :=
  bool_decide (a.(mediaType) ∈ _IMAGE_TYPES ++ _DOCUMENT_TYPES ++ _TEXT_TYPES)
  && match a.(filename) with Some f => at_most 512 f | None => true end && Str.nonempty a.(data).

Definition _check_sizes (a : RunArgs) : bool :=
  negb (is_some a.(ra_edit_message_step_id) && is_none a.(ra_session_id))
  && match a.(ra_project_id) with Some p => negb (blank p) | None => true end
  && match a.(ra_model) with Some m => negb (blank m) | None => true end
  && negb (blank a.(ra_message) && match a.(ra_attachments) with [] => true | _ => false end)
  && (encoded_len a.(ra_message) <=? ss.(size_limit_message))
  && match a.(ra_context) with Some d => dumps_len d <=? ss.(size_limit_context) | None => true end.

Definition run_request_valid (a : RunArgs) : bool :=
  match a.(ra_assistant_mode) with Some m => bool_decide (m ∈ ["chat"; "code"]) | None => true end
  && forallb attachment_valid a.(ra_attachments) && _check_sizes a.

Record ToolErrorBody : Type := mkToolErrorBody { te_code : string; te_message : string }.

Record ToolResultItem : Type := mkToolResultItem {
  ri_tool_call_id : uuid;
  ri_result : option dict;
  ri_error : option ToolErrorBody
}.

Definition result_fits (result : option dict) : bool :=
  match result with Some d => dumps_len d <=? ss.(size_limit_tool_result) | None => true end.

(** [ToolResultItem._check_one_of] *)
Definition _check_one_of (i : ToolResultItem) : bool :=
  negb (Bool.eqb (is_none i.(ri_result)) (is_none i.(ri_error))) && result_fits i.(ri_result).

Record ChatToolResultRequest : Type := mkToolResultRequest {
  tr_user_id : uuid;
  tr_session_id : uuid;
  tr_results : option (list ToolResultItem);
  tr_tool_call_id : option uuid;
  tr_result : option dict;
  tr_error : option ToolErrorBody
}.

(** The loop over the batch: no call twice. *)
Fixpoint distinct_calls (seen : list uuid) (items : list ToolResultItem) : bool :=
  match items with
  | [] => true
  | i :: rest => negb (bool_decide (i.(ri_tool_call_id) ∈ seen)) && distinct_calls (i.(ri_tool_call_id) :: seen) rest
  end.

(** [ChatToolResultRequest._check], with the items checked before it. *)
Definition tool_results_valid (r : ChatToolResultRequest) : bool :=
  let has_single := is_some r.(tr_tool_call_id) || is_some r.(tr_result) || is_some r.(tr_error) in
  match r.(tr_results) with
  | Some items =>
      negb has_single && match items with [] => false | _ => true end
      && forallb _check_one_of items && distinct_calls [] items
  | None =>
      has_single && is_some r.(tr_tool_call_id)
      && negb (Bool.eqb (is_none r.(tr_result)) (is_none r.(tr_error))) && result_fits r.(tr_result)
  end.

(** [None] is the failed assertion. *)
Definition normalized_results (r : ChatToolResultRequest) : option (list ToolResultItem) :=
  match r.(tr_results) with
  | Some items => Some items
  | None => match r.(tr_tool_call_id) with
            | Some id => Some [mkToolResultItem id r.(tr_result) r.(tr_error)]
            | None => None
            end
  end.

(** [error.model_dump()] *)
Definition result_in (i : ToolResultItem) : ToolResultIn :=
  mkToolResultIn i.(ri_tool_call_id) i.(ri_result)
    ((fun e => [("code", JStr e.(te_code)); ("message", JStr e.(te_message))]) <$> i.(ri_error)).

(** [BYOKSetRequest] *)
Definition api_key_valid (key : string) : bool := Str.nonempty key && (encoded_len key <=? ss.(size_limit_api_key)).

(** *** Preferences *)

Definition _CODE_DEFAULTS_MAX_BYTES : Z := 8 * 1024.

Fixpoint _has_sensitive_keys (v : json) : bool :=
  match v with
  | JObj d => existsb (fun kv => _is_sensitive_key kv.1 || _has_sensitive_keys kv.2) d
  | JArr l => existsb _has_sensitive_keys l
  | _ => false
  end.

Record PreferencesPatchRequest : Type := mkPreferencesPatch {
  pp_default_assistant_mode : option string;
  pp_notifications_enabled : option bool;
  pp_code_defaults : option dict
}.

Definition preferences_valid (p : PreferencesPatchRequest) : bool :=
  match p.(pp_default_assistant_mode) with Some m => bool_decide (m ∈ ["chat"; "code"]) | None => true end
  && negb (is_none p.(pp_default_assistant_mode) && is_none p.(pp_notifications_enabled) && is_none p.(pp_code_defaults))
  && match p.(pp_code_defaults) with
     | Some d => (dumps_len d <=? _CODE_DEFAULTS_MAX_BYTES) && negb (_has_sensitive_keys (JObj d))
     | None => true
     end.

(** *** Profile, chats, workspaces *)

(** [ProfileUpdateRequest] and its [normalized]. *)
Definition _DISPLAY_NAME_MAX : nat := 80.
Definition normalized_name (display_name : string) : option string :=
  let stripped := Str.strip display_name in if Str.nonempty stripped then Some stripped else None.

(** [ChatPatchRequest]: a field that may be absent, null or given. *)
Record ChatPatchRequest : Type := mkChatPatch {
  cp_title : option (option string);
  cp_is_pinned : option bool;
  cp_workspace_project_id : option (option uuid)
}.

Definition _TITLE_MAX : nat := 200.

Definition chat_patch_valid (p : ChatPatchRequest) : bool :=
  match p.(cp_title) with Some (Some t) => at_most _TITLE_MAX t | _ => true end
  && negb (is_none p.(cp_title) && is_none p.(cp_is_pinned) && is_none p.(cp_workspace_project_id)).

Definition _NAME_MAX : nat := 120.
Definition _DESCRIPTION_MAX : nat := 1000.
Definition _INSTRUCTIONS_MAX : N := 16000.
Definition instructions_fit (s : string) : bool := at_most (N.to_nat _INSTRUCTIONS_MAX) s.

Definition opt_valid {A} (p : A -> bool) (o : option A) : bool := match o with Some x => p x | None => true end.

Definition workspace_create_valid (name : string) (description instructions : option string) : bool :=
  Str.nonempty name && at_most _NAME_MAX name && opt_valid (at_most _DESCRIPTION_MAX) description
  && opt_valid instructions_fit instructions && negb (blank name).

Record WorkspacePatchRequest : Type := mkWorkspacePatch {
  wpp_name : option (option string);
  wpp_description : option (option string);
  wpp_instructions : option (option string)
}.

Definition workspace_patch_valid (p : WorkspacePatchRequest) : bool :=
  opt_valid (opt_valid (at_most _NAME_MAX)) p.(wpp_name) && opt_valid (opt_valid (at_most _DESCRIPTION_MAX)) p.(wpp_description)
  && opt_valid (opt_valid instructions_fit) p.(wpp_instructions)
  && negb (is_none p.(wpp_name) && is_none p.(wpp_description) && is_none p.(wpp_instructions))
  && match p.(wpp_name) with
     | Some None => false
     | Some (Some n) => negb (blank n)
     | None => true
     end.

(** [WorkspaceFileUploadRequest] *)
Definition upload_valid (name : string) (a : AttachmentIn) : bool :=
  attachment_valid a && Str.nonempty name && at_most 512 name && negb (blank name).

(** [Query(ge=1, le=100)] of the two lists. *)
Definition list_limit_valid (limit : Z) : bool := (1 <=? limit) && (limit <=? 100).

(** ** Answers *)

Context (isoformat : instant -> string).

Definition juuid (o : option uuid) : json := jopt_str (uuid_str <$> o).
Definition jdict (o : option dict) : json := match o with Some d => JObj d | None => JNull end.

Definition tool_call_schema (t : ToolCallOut) : json :=
  JObj [("id", JStr t.(to_id)); ("name", JStr t.(to_name)); ("args", JObj t.(to_args))].

(** [_to_response] of chat.py *)
Definition chat_response (out : ChatRunOut) : json :=
  JObj [("status", JStr out.(co_status)); ("sessionId", JStr (uuid_str out.(co_session_id)));
        ("messageStepId", juuid out.(co_message_step_id)); ("stepId", juuid out.(co_step_id));
        ("assistantMessage", jopt_str out.(co_assistant_message));
        ("toolCalls", match out.(co_tool_calls) with Some l => JArr (tool_call_schema <$> l) | None => JNull end);
        ("toolCall", match out.(co_tool_call) with Some t => tool_call_schema t | None => JNull end);
        ("blockReason", jopt_str out.(co_block_reason)); ("usage", jdict out.(co_usage));
        ("serverTools", JArr ((fun st => JObj [("toolCallId", JStr (uuid_str st.(so_tool_call_id)));
                                               ("toolName", JStr st.(so_tool_name)); ("status", JStr st.(so_status));
                                               ("summary", JStr st.(so_summary))]) <$> out.(co_server_tools)))].

Definition ok (body : json) : Response := mkResponse 200 body [].
Definition created (body : json) : Response := mkResponse 201 body [].

Section routes.
Context (gs : GatewaySettings) (rs : RateSettings) (uuid5 : uuid -> string -> uuid) (c : ClientCall).

(** ** Chat *)

Definition chat_run (deps : ChatDeps) (body_user_id : uuid) (a : RunArgs) : M Response :=
  client_route gs uuid5 c (fun u =>
    require_valid (run_request_valid a);;
    require_owner body_user_id u;;
    chat_limit rs c u;;
    out ← Orchestrator.run deps u a;
    mret (ok (chat_response out))).

Definition chat_tool_result (deps : ChatDeps) (r : ChatToolResultRequest) : M Response :=
  client_route gs uuid5 c (fun u =>
    require_valid (tool_results_valid r);;
    require_owner r.(tr_user_id) u;;
    chat_limit rs c u;;
    match normalized_results r with
    | None => raise AssertionError
    | Some items =>
        out ← Orchestrator.tool_result deps u r.(tr_session_id) (result_in <$> items);
        mret (ok (chat_response out))
    end).

(** ** Agent *)

Definition run_response (status : string) (run_id continued_from reason : option string) : json :=
  JObj [("status", JStr status); ("runId", jopt_str run_id); ("continuedFrom", jopt_str continued_from);
        ("blockReason", jopt_str reason)].

(** [result.status or "queued"] *)
Definition or_queued (status : string) : string := if Str.nonempty status then status else "queued".

Definition agent_run (hermes : Hermes) (message : string) (session_id model : option string) : M Response :=
  client_route gs uuid5 c (fun u =>
    require_valid (Str.nonempty message);;
    result ← AgentClient.run hermes u message session_id model;
    mret (match result with
          | launch_blocked reason => mkResponse 200 (run_response "blocked" None None reason) []
          | launched run_id status => mkResponse 202 (run_response (or_queued status) (Some run_id) None None) []
          end)).

Definition agent_run_resume (hermes : Hermes) (run_id : string) (message : option string) : M Response :=
  client_route gs uuid5 c (fun u =>
    result ← resume hermes u run_id message;
    mret (match result with
          | resume_blocked reason => mkResponse 200 (run_response "blocked" None None reason) []
          | resumed_as child parent => mkResponse 202 (run_response "running" (Some child) (Some parent) None) []
          end)).

(** The cursor is read and the owner checked before the stream is opened; the
    stream itself is [Broker]'s. *)
Definition agent_run_events (run_id : string) (last_event_id after_seq : option string) : M (Cursor * list (string * string)) :=
  client_route gs uuid5 c (fun u =>
    cursor ← lift (parse_cursor last_event_id after_seq);
    assert_run_owner u run_id;;
    mret (cursor, [("Cache-Control", "no-cache"); ("X-Accel-Buffering", "no")])).

Definition client_status_str (s : ClientRunStatus) : string :=
  match s with
  | cs_running => "running" | cs_waiting_approval => "waiting_approval" | cs_paused => "paused"
  | cs_completed => "completed" | cs_failed => "failed" | cs_stopped => "stopped"
  end.

Definition state_response (v : RunStateView) : json :=
  JObj [("runId", JStr v.(AgentClient.sv_run_id)); ("sessionId", JStr v.(sv_session_id));
        ("status", JStr (client_status_str v.(sv_status))); ("resultText", JStr v.(sv_result_text));
        ("lastTool", jopt_str v.(sv_last_tool));
        ("pendingApproval", match v.(sv_pending_approval) with
                            | Some (JObj p) => JObj [("tool", dict_get p "tool"); ("preview", dict_get p "preview")]
                            | _ => JNull
                            end);
        ("blockReason", jopt_str v.(sv_block_reason));
        ("usage", JObj [("inputTokens", JInt v.(sv_input_tokens)); ("outputTokens", JInt v.(sv_output_tokens))]);
        ("updatedAt", JStr (isoformat v.(sv_updated_at))); ("continuedFrom", jopt_str v.(sv_continued_from))].

Definition agent_run_state (run_id : string) : M Response :=
  limited_route gs rs uuid5 c (fun u => view ← get_state u run_id; mret (ok (state_response view))).

Definition agent_run_approval (hermes : Hermes) (run_id choice : string) : M Response :=
  client_route gs uuid5 c (fun u =>
    require_valid (bool_decide (choice ∈ ["once"; "session"; "always"; "deny"]));;
    body ← approval hermes u run_id [("choice", JStr choice)];
    mret (ok (JObj body))).

Definition agent_run_stop (hermes : Hermes) (run_id : string) : M Response :=
  client_route gs uuid5 c (fun u => body ← AgentClient.stop hermes u run_id; mret (ok (JObj body))).

(** ** Chats *)

Definition list_chats_route (cc : ChatsCodec) (q cursor : option string) (limit : Z) (ws : option uuid) : M Response :=
  checked_route gs rs uuid5 c (list_limit_valid limit) (fun u =>
    view ← Chats.list_chats cc u q cursor (Z.to_nat limit) ws;
    let '(items, next_cursor) := view in
    mret (ok (JObj [("items", JArr ((fun i => JObj
        [("id", JStr (uuid_str i.(Chats.iv_id))); ("title", jopt_str i.(Chats.iv_title)); ("preview", jopt_str i.(Chats.iv_preview));
         ("assistantMode", JStr i.(Chats.iv_assistant_mode)); ("isPinned", JBool i.(Chats.iv_is_pinned));
         ("projectId", jopt_str i.(Chats.iv_project_id)); ("workspaceProjectId", juuid i.(Chats.iv_workspace_project_id));
         ("updatedAt", JStr (isoformat i.(Chats.iv_updated_at)))]) <$> items)); ("nextCursor", jopt_str next_cursor)]))).

Definition role_str (r : chat_role) : string := match r with role_user => "user" | role_assistant => "assistant" | role_tool => "tool" end.

Definition step_schema (st : Chats.ChatStepView) : json :=
  JObj [("id", JStr (uuid_str st.(Chats.sv_id))); ("messageStepId", JStr (uuid_str st.(Chats.sv_message_step_id)));
        ("role", JStr (role_str st.(Chats.sv_role))); ("payload", JObj st.(Chats.sv_payload)); ("usage", jdict st.(Chats.sv_usage));
        ("createdAt", JStr (isoformat st.(Chats.sv_created_at)))].

Definition get_chat_route (cc : ChatsCodec) (chat_id : uuid) : M Response :=
  limited_route gs rs uuid5 c (fun u =>
    v ← Chats.get_history cc chat_id u;
    mret (ok (JObj [("id", JStr (uuid_str v.(Chats.hv_id))); ("title", jopt_str v.(Chats.hv_title));
                    ("assistantMode", JStr v.(Chats.hv_assistant_mode)); ("mode", JStr (mode_value v.(Chats.hv_mode)));
                    ("steps", JArr (step_schema <$> v.(Chats.hv_steps)))]))).

Definition kind_str (k : Chats.step_kind) : string :=
  match k with
  | Chats.kind_reasoning => "reasoning" | Chats.kind_tool_call => "tool_call" | Chats.kind_tool_result => "tool_result"
  | Chats.kind_assistant_message => "assistant_message"
  end.

Definition get_chat_steps (cc : ChatsCodec) (chat_id : uuid) (message_step_id : option uuid) : M Response :=
  limited_route gs rs uuid5 c (fun u =>
    view ← Chats.steps_view cc chat_id u message_step_id;
    let '(msid, step_count, steps) := view in
    mret (ok (JObj [("messageStepId", JStr (uuid_str msid)); ("stepCount", JInt (Z.of_nat step_count));
                    ("steps", JArr ((fun st => JObj
                       [("kind", JStr (kind_str st.(Chats.vs_kind))); ("toolName", jopt_str st.(Chats.vs_tool_name));
                        ("summary", JStr st.(Chats.vs_summary)); ("createdAt", JStr (isoformat st.(Chats.vs_created_at)))]) <$> steps))]))).

Definition flatten {A} (o : option (option A)) : option A := match o with Some x => x | None => None end.

Definition patch_chat (chat_id : uuid) (p : ChatPatchRequest) : M Response :=
  checked_route gs rs uuid5 c (chat_patch_valid p) (fun u =>
    s ← Chats.rename_or_pin chat_id u
          (ChatsRepo.mkMetadata (flatten p.(cp_title)) (is_some p.(cp_title)) p.(cp_is_pinned)
             (is_some p.(cp_workspace_project_id)) (flatten p.(cp_workspace_project_id)));
    mret (ok (JObj [("id", JStr (uuid_str chat_id)); ("title", jopt_str s.(cs_title)); ("isPinned", JBool s.(cs_is_pinned));
                    ("workspaceProjectId", juuid s.(cs_workspace_project_id)); ("updatedAt", JStr (isoformat s.(cs_updated_at)))]))).

Definition delete_chat_route (chat_id : uuid) : M Response :=
  limited_route gs rs uuid5 c (fun u => Chats.delete_chat chat_id u;; mret (ok (JObj [("deleted", JBool true)]))).

(** ** Workspaces *)

Definition _file_meta (v : Workspaces.WorkspaceFileView) : json :=
  JObj [("fileId", JStr (uuid_str v.(Workspaces.fv_id))); ("filename", JStr v.(Workspaces.fv_filename));
        ("mediaType", JStr v.(Workspaces.fv_media_type)); ("size", JInt v.(Workspaces.fv_size));
        ("hasExtractedText", JBool v.(Workspaces.has_extracted_text)); ("createdAt", JStr (isoformat v.(Workspaces.fv_created_at)))].

Definition workspace_fields (id : uuid) (w : WorkspaceProject) : dict :=
  [("id", JStr (uuid_str id)); ("name", JStr w.(wp_name)); ("description", jopt_str w.(wp_description));
   ("instructions", jopt_str w.(wp_instructions))].

Definition workspace_times (w : WorkspaceProject) : dict :=
  [("createdAt", JStr (isoformat w.(wp_created_at))); ("updatedAt", JStr (isoformat w.(wp_updated_at)))].

Definition _detail_response (id : uuid) (view : WorkspaceProject * list Workspaces.WorkspaceFileView) : json :=
  JObj (workspace_fields id view.1 ++ [("files", JArr (_file_meta <$> view.2))] ++ workspace_times view.1).

Definition create_workspace_route (name : string) (description instructions : option string) : M Response :=
  checked_route gs rs uuid5 c (workspace_create_valid name description instructions) (fun u =>
    r ← Workspaces.create u name description instructions;
    mret (created (JObj (workspace_fields r.1 r.2 ++ workspace_times r.2)))).

Definition list_workspaces_route (cc : CursorCodec) (cursor : option string) (limit : Z) : M Response :=
  checked_route gs rs uuid5 c (list_limit_valid limit) (fun u =>
    page ← Workspaces.list_workspaces cc u cursor (Z.to_nat limit);
    mret (ok (JObj [("items", JArr ((fun i => JObj
       [("id", JStr (uuid_str i.(wl_id))); ("name", JStr i.(wl_workspace).(wp_name));
        ("description", jopt_str i.(wl_workspace).(wp_description)); ("updatedAt", JStr (isoformat i.(wl_workspace).(wp_updated_at)));
        ("fileCount", JInt i.(wl_file_count)); ("chatCount", JInt i.(wl_chat_count))]) <$> page.1)); ("nextCursor", jopt_str page.2)]))).

Definition get_workspace_route (workspace_id : uuid) : M Response :=
  limited_route gs rs uuid5 c (fun u => view ← Workspaces.get_detail workspace_id u; mret (ok (_detail_response workspace_id view))).

Definition patch_workspace (workspace_id : uuid) (p : WorkspacePatchRequest) : M Response :=
  checked_route gs rs uuid5 c (workspace_patch_valid p) (fun u =>
    view ← Workspaces.update workspace_id u (flatten p.(wpp_name)) (is_some p.(wpp_description)) (flatten p.(wpp_description))
             (is_some p.(wpp_instructions)) (flatten p.(wpp_instructions));
    mret (ok (_detail_response workspace_id view))).

Definition delete_workspace_route (workspace_id : uuid) : M Response :=
  limited_route gs rs uuid5 c (fun u => Workspaces.delete workspace_id u;; mret (ok (JObj [("deleted", JBool true)]))).

Definition upload_file_route (codec : Codec) (json_loads_ok : string -> bool) (pdf_reader : string -> pdf_outcome)
    (workspace_id : uuid) (name : string) (a : AttachmentIn) : M Response :=
  checked_route gs rs uuid5 c (upload_valid name a) (fun u =>
    view ← Workspaces.upload_file codec json_loads_ok pdf_reader workspace_id u name a;
    mret (created (_file_meta view))).

Definition list_files_route (workspace_id : uuid) : M Response :=
  limited_route gs rs uuid5 c (fun u =>
    files ← Workspaces.list_files workspace_id u; mret (ok (JObj [("items", JArr (_file_meta <$> files))]))).

Definition delete_file_route (workspace_id file_id : uuid) : M Response :=
  limited_route gs rs uuid5 c (fun u => Workspaces.delete_file workspace_id u file_id;; mret (ok (JObj [("deleted", JBool true)]))).

(** ** Keys, profile, preferences, policy *)

Definition byok_response (r : BYOKResult) : Response :=
  ok (JObj [("byokEnabled", JBool r.(br_enabled)); ("keyStatus", JStr (status_value r.(br_status)));
            ("activeModel", jopt_str r.(active_model))]).

Definition byok_set (crypto : Crypto) (validate_key : string -> KeyValidation) (body_user_id : uuid) (api_key : string) : M Response :=
  client_route gs uuid5 c (fun u =>
    require_valid (api_key_valid api_key);; require_owner body_user_id u;; other_limit rs c u;;
    r ← Byok.set_key crypto validate_key u api_key; mret (byok_response r)).

Definition byok_toggle (body_user_id : uuid) (enabled : bool) : M Response :=
  client_route gs uuid5 c (fun u =>
    require_owner body_user_id u;; other_limit rs c u;; r ← Byok.toggle u enabled; mret (byok_response r)).

Definition byok_delete (body_user_id : uuid) : M Response :=
  client_route gs uuid5 c (fun u =>
    require_owner body_user_id u;; other_limit rs c u;; r ← Byok.delete_key u; mret (byok_response r)).

Definition profile_response (v : ProfileView) : Response :=
  ok (JObj [("accountId", JStr v.(pv_account_id)); ("displayName", jopt_str v.(pv_display_name));
            ("createdAt", JStr (isoformat v.(pv_created_at)))]).

Definition get_profile_route (sha256_digest : string -> string) : M Response :=
  limited_route gs rs uuid5 c (fun u => v ← get_profile sha256_digest u; mret (profile_response v)).

Definition patch_profile (sha256_digest : string -> string) (display_name : string) : M Response :=
  checked_route gs rs uuid5 c (at_most _DISPLAY_NAME_MAX display_name) (fun u =>
    v ← update_display_name sha256_digest u (normalized_name display_name); mret (profile_response v)).

Definition preferences_response (v : UserPreferences) : Response :=
  ok (JObj [("defaultAssistantMode", JStr v.(up_default_assistant_mode)); ("notificationsEnabled", JBool v.(up_notifications_enabled));
            ("codeDefaults", JObj v.(up_code_defaults))]).

Definition get_preferences_route : M Response :=
  limited_route gs rs uuid5 c (fun u => v ← Preferences.get u; mret (preferences_response v)).

Definition patch_preferences (p : PreferencesPatchRequest) : M Response :=
  checked_route gs rs uuid5 c (preferences_valid p) (fun u =>
    v ← Preferences.patch u p.(pp_default_assistant_mode) p.(pp_notifications_enabled) p.(pp_code_defaults);
    mret (preferences_response v)).

Definition policy_effective : M Response :=
  client_route gs uuid5 c (fun u =>
    p ← effective u;
    mret (ok (JObj [("isSubscribed", JBool p.(is_subscribed)); ("trialRemaining", JInt p.(trial_remaining));
                    ("creditsBalance", JInt p.(ep_credits_balance)); ("debt", JInt p.(ep_debt));
                    ("netBalance", JInt (p.(ep_credits_balance) - p.(ep_debt))); ("byokEnabled", JBool p.(ep_byok_enabled));
                    ("canGenerateCreditsMode", JBool p.(can_generate_credits_mode));
                    ("canGenerateByokMode", JBool p.(can_generate_byok_mode));
                    ("reasons", JArr ((fun r => JStr (reason_value r)) <$> p.(reasons)))]))).

(** ** Tools and models *)

Definition list_tools (model_json_schema : list (string * field_type) -> dict) (description : string -> string) : M Response :=
  limited_route gs rs uuid5 c (fun _ =>
    match tool_catalog model_json_schema description with
    | Some tools => mret (ok (JObj [("tools", JArr (JObj <$> tools))]))
    | None => raise KeyError
    end).

Record ModelInfo : Type := mkModelInfo { mi_id : string; mi_display_name : json; mi_default : bool }.

(** The default model first, then the others in the order of the list. *)
Definition _build_models (cs : ChatSettings) : list ModelInfo :=
  let allowed := allowed_models cs in
  let default_id := default_model cs in
  mkModelInfo default_id (default (JStr default_id) (dict_lookup default_id allowed)) true
  :: omap (fun kv => if String.eqb kv.1 default_id then None else Some (mkModelInfo kv.1 kv.2 false)) allowed.

Definition list_models : M Response :=
  limited_route gs rs uuid5 c (fun _ =>
    s ← settings;
    mret (ok (JObj [("models", JArr ((fun m => JObj [("id", JStr m.(mi_id)); ("displayName", m.(mi_display_name));
                                                       ("default", JBool m.(mi_default))]) <$> _build_models s.(chat)))]))).
End routes.
End schemas.

(** ** Previews and probes *)

Definition _SECURITY_HEADERS : list (string * string) :=
  [("Content-Security-Policy", "sandbox allow-scripts allow-forms; default-src 'self'; frame-ancestors 'self'");
   ("X-Content-Type-Options", "nosniff"); ("X-Frame-Options", "SAMEORIGIN"); ("Cache-Control", "private, no-store")].

Definition _forbidden : M Response := metric_inc "preview_request_total" "forbidden";; mret (mkResponse 403 JNull _SECURITY_HEADERS).
Definition _not_found : M Response := metric_inc "preview_request_total" "not_found";; mret (mkResponse 404 JNull _SECURITY_HEADERS).

(** [get_project_by_id]: the owner of a project. *)
Definition project_owner (d : Db) (p : uuid) : option uuid :=
  (fun kv => kv.1.1) <$> find_first (fun kv : (uuid * string) * uuid => N.eqb kv.2 p) (map_to_list d.(projects)).

Definition get_preview (codec : Codec) (project_id : uuid) (token path : string) : M Response :=
  d ← get_db;
  match project_owner d project_id with
  | None => _not_found
  | Some owner =>
      s ← settings;
      now ← py_time;
      match verify_token codec s.(chat) project_id owner token now with
      | None | Some false => _forbidden
      | Some true =>
          file ← read_file project_id path;
          match file with
          | None => _not_found
          | Some f =>
              metric_inc "preview_request_total" "ok";;
              mret (mkResponse 200 (JStr f.(fc_content)) (("content-type", f.(fc_content_type)) :: _SECURITY_HEADERS))
          end
      end
  end.

Definition ready (db_ok redis_ok : bool) : Response :=
  mkResponse (if db_ok && redis_ok then 200 else 503)
    (JObj [("db", JStr (if db_ok then "ok" else "down")); ("redis", JStr (if redis_ok then "ok" else "down"))]) [].

Definition metrics (scrape_token : string) (presented : option string) (payload : string) : Response :=
  if Str.nonempty scrape_token && negb (bool_decide (presented = Some scrape_token)) then mkResponse 403 JNull []
  else mkResponse 200 (JStr payload) [].
End Api.

Import Api.

(** ** No key, no user: nothing *)

Section door.
Context (ss : SchemaSettings) (encoded_len : string -> Z) (dumps_len : dict -> Z) (iso : instant -> string).
Context (gs : GatewaySettings) (rs : RateSettings) (uuid5 : uuid -> string -> uuid) (c : ClientCall).

(** Every client route, by what it returns. *)
Inductive client_api : forall A : Type, M A -> Prop :=
| api_wallet n : client_api json (Billing.get_wallet gs uuid5 c iso n)
| api_consume b : client_api json (Billing.consume_route gs rs uuid5 c b)
| api_purchase v u tx : client_api TokenPurchase.PurchaseResult (Checkout.purchase_tokens v gs rs uuid5 c u tx)
| api_checkout repr post cs p m : client_api Checkout.CheckoutResult (Checkout.cloudpayments_checkout repr post cs gs rs uuid5 c p m)
| api_products gp ft jl mv cs : client_api (list Checkout.TokenProduct) (Checkout.token_products_route gp ft jl mv cs gs uuid5 c)
| api_presets d l a : client_api json (Presets.list_presets gs rs uuid5 c d l a)
| api_chat_run deps u a : client_api Response (chat_run ss encoded_len dumps_len gs rs uuid5 c deps u a)
| api_tool_result deps r : client_api Response (chat_tool_result ss dumps_len gs rs uuid5 c deps r)
| api_agent_run h m s mo : client_api Response (agent_run gs uuid5 c h m s mo)
| api_resume h r m : client_api Response (agent_run_resume gs uuid5 c h r m)
| api_events r l a : client_api (Cursor * list (string * string)) (agent_run_events gs uuid5 c r l a)
| api_state r : client_api Response (agent_run_state iso gs rs uuid5 c r)
| api_approval h r ch : client_api Response (agent_run_approval gs uuid5 c h r ch)
| api_stop h r : client_api Response (agent_run_stop gs uuid5 c h r)
| api_list_chats cc q k l w : client_api Response (list_chats_route iso gs rs uuid5 c cc q k l w)
| api_chat cc i : client_api Response (get_chat_route iso gs rs uuid5 c cc i)
| api_steps cc i m : client_api Response (get_chat_steps iso gs rs uuid5 c cc i m)
| api_patch_chat i p : client_api Response (patch_chat iso gs rs uuid5 c i p)
| api_delete_chat i : client_api Response (delete_chat_route gs rs uuid5 c i)
| api_create_workspace n d i : client_api Response (create_workspace_route iso gs rs uuid5 c n d i)
| api_list_workspaces cc k l : client_api Response (list_workspaces_route iso gs rs uuid5 c cc k l)
| api_workspace i : client_api Response (get_workspace_route iso gs rs uuid5 c i)
| api_patch_workspace i p : client_api Response (patch_workspace iso gs rs uuid5 c i p)
| api_delete_workspace i : client_api Response (delete_workspace_route gs rs uuid5 c i)
| api_upload codec jl pdf i n a : client_api Response (upload_file_route iso gs rs uuid5 c codec jl pdf i n a)
| api_files i : client_api Response (list_files_route iso gs rs uuid5 c i)
| api_delete_file i f : client_api Response (delete_file_route gs rs uuid5 c i f)
| api_byok_set cr v u k : client_api Response (byok_set ss encoded_len gs rs uuid5 c cr v u k)
| api_byok_toggle u b : client_api Response (byok_toggle gs rs uuid5 c u b)
| api_byok_delete u : client_api Response (byok_delete gs rs uuid5 c u)
| api_profile h : client_api Response (get_profile_route iso gs rs uuid5 c h)
| api_patch_profile h n : client_api Response (patch_profile iso gs rs uuid5 c h n)
| api_preferences : client_api Response (get_preferences_route gs rs uuid5 c)
| api_patch_preferences p : client_api Response (patch_preferences dumps_len gs rs uuid5 c p)
| api_policy : client_api Response (policy_effective gs uuid5 c)
| api_tools mj d : client_api Response (list_tools gs rs uuid5 c mj d)
| api_models : client_api Response (list_models gs rs uuid5 c).

End door.

(** ** Tool results *)

(** The deprecated single form as a batch. *)
Definition as_batch (r : ChatToolResultRequest) (id : uuid) : ChatToolResultRequest :=
  mkToolResultRequest r.(tr_user_id) r.(tr_session_id) (Some [mkToolResultItem id r.(tr_result) r.(tr_error)]) None None None.

Lemma single_valid ss dumps r id :
  r.(tr_results) = None -> r.(tr_tool_call_id) = Some id ->
  tool_results_valid ss dumps r = tool_results_valid ss dumps (as_batch r id).
Proof.
  intros Hn Hi. unfold tool_results_valid. rewrite Hn, Hi. unfold as_batch, _check_one_of. cbn. by rewrite !andb_true_r.
Qed.

(** The deprecated form of a tool result, with its fields at the top, is the
    batch of one: it is valid exactly when the batch is, and the request does
    exactly the same. *)
Theorem single_form_is_batch_of_one ss dumps gs rs uuid5 c deps r id e w :
  r.(tr_results) = None -> r.(tr_tool_call_id) = Some id ->
  tool_results_valid ss dumps r = tool_results_valid ss dumps (as_batch r id) /\
  chat_tool_result ss dumps gs rs uuid5 c deps r e w = chat_tool_result ss dumps gs rs uuid5 c deps (as_batch r id) e w.
Proof.
  intros Hn Hi. split; [by apply single_valid|]. unfold chat_tool_result, normalized_results. rewrite (single_valid ss dumps r id Hn Hi), Hn, Hi.
  done.
Qed.

Lemma distinct_calls_spec seen items :
  distinct_calls seen items = true -> NoDup (ri_tool_call_id <$> items) /\ forall i, i ∈ items -> i.(ri_tool_call_id) ∉ seen.
Proof.
  revert seen. induction items as [|i items IH]; intros seen H; [split; [constructor|set_solver]|].
  cbn in H. apply andb_true_iff in H as [Hi H]. apply negb_true_iff, bool_decide_eq_false in Hi.
  apply IH in H as [Hnd Hout]. split.
  - cbn. constructor; [|done]. intros (j & Hj & Hin)%list_elem_of_fmap. apply (Hout j Hin). rewrite <- Hj. by left.
  - intros j Hj. apply elem_of_cons in Hj as [->|Hj]; [done|]. intros Hs. apply (Hout j Hj). by right.
Qed.

(** What reaches the orchestrator: at least one result, no call twice, each
    with a result or an error but not both; the assertion of
    [normalized_results] never fails. *)
Theorem validated_results_wellformed ss dumps r :
  tool_results_valid ss dumps r = true ->
  exists items, normalized_results r = Some items /\ items <> [] /\ NoDup (ti_tool_call_id <$> (result_in <$> items)) /\
    Forall (fun t => is_Some t.(ti_result) <-> t.(ti_error) = None) (result_in <$> items).
Proof.
  intros H. unfold tool_results_valid, normalized_results in *.
  assert (Hone : forall i, _check_one_of ss dumps i = true -> is_Some (ti_result (result_in i)) <-> ti_error (result_in i) = None).
  { intros [id [d|] [x|]] Hc; cbn in *; try done; split; intros Hs; try done; by destruct Hs. }
  destruct (tr_results r) as [items|].
  - apply andb_true_iff in H as [H Hd]. apply andb_true_iff in H as [H Hf]. apply andb_true_iff in H as [_ Hne].
    exists items. split; [done|]. split; [by destruct items|]. split.
    + apply distinct_calls_spec in Hd as [Hd _]. by rewrite <- list_fmap_compose.
    + apply Forall_fmap, Forall_forall. intros i Hi. apply Hone. apply (proj1 (forallb_forall _ _) Hf). by apply list_elem_of_In.
  - destruct (tr_tool_call_id r) as [id|]; [|by rewrite andb_false_r in H]. cbn in H. apply andb_true_iff in H as [H1 H2].
    eexists. split; [done|]. split; [done|]. split; [cbn; apply NoDup_singleton|]. constructor; [|constructor].
    apply Hone. unfold _check_one_of. cbn. by rewrite H1, H2.
Qed.

(** ** Preferences hold no secrets *)

Lemma sensitive_found v : forall k x, at_key v k x -> _is_sensitive_key k = true -> _has_sensitive_keys v = true.
Proof.
  induction 1 as [d k x Hin|d k' y k x Hin _ IH|l y k x Hin _ IH]; intros Hs; cbn.
  - apply existsb_exists. exists (k, x). split; [by apply list_elem_of_In|]. cbn. by rewrite Hs.
  - apply existsb_exists. exists (k', y). split; [by apply list_elem_of_In|]. cbn. rewrite (IH Hs). apply orb_true_r.
  - apply existsb_exists. exists y. split; [by apply list_elem_of_In|]. by apply IH.
Qed.

(** No dict anywhere in the stored defaults has a key that is redacted. *)
Definition preferences_clean (d : Db) : Prop :=
  forall u p k x, d.(user_preferences) !! u = Some p -> at_key (JObj p.(up_code_defaults)) k x -> _is_sensitive_key k = false.

Lemma provision_preferences u e w r w' :
  provision_user u e w = (r, w') -> w'.(w_db).(user_preferences) = w.(w_db).(user_preferences).
Proof. unfold provision_user. intros H. cbn in H. injection H as _ <-. cbn. by destruct (users (w_db w) !! u). Qed.

Lemma patch_clean u m n d e w :
  preferences_clean w.(w_db) -> (forall v, d = Some v -> _has_sensitive_keys (JObj v) = false) ->
  preferences_clean (Preferences.patch u m n d e w).2.(w_db).
Proof.
  intros Hc Hd. unfold Preferences.patch, Preferences._load. run by done. run by done. destruct (user_exists (w_db w) u) eqn:Hx.
  2: { by fails by done. }
  run by done. run by done. run by done. cbn. unfold set_user_preferences. intros v q k y. cbn [user_preferences].
  destruct (decide (v = u)) as [->|Hne]; [rewrite lookup_insert_eq|by rewrite lookup_insert_ne by done; apply Hc].
  intros [= <-]. cbn. destruct d as [d|]; cbn.
  - intros Hat. destruct (_is_sensitive_key k) eqn:Hk; [|done]. pose proof (sensitive_found _ _ _ Hat Hk) as Hf. by rewrite (Hd d eq_refl) in Hf.
  - destruct (user_preferences (w_db w) !! u) as [old|] eqn:Eo; [by eapply Hc|]. intros Hat. inversion Hat; subst; set_solver.
Qed.

(** C28: what a client saves as its defaults never holds, at any depth, a key that
    the service treats as a secret; the validator of the request is what keeps
    it so. *)
Theorem preferences_stay_clean dumps gs rs uuid5 c p e w :
  preferences_clean w.(w_db) -> preferences_clean (patch_preferences dumps gs rs uuid5 c p e w).2.(w_db).
Proof.
  intros Hc. unfold patch_preferences, checked_route, client_route, current_user, get_current_user.
  destruct (verify_client_api_key gs _) as [x|[]]; [by fails by done|].
  destruct (Str.nonempty _); cbn [negb]; [|by fails by done].
  set (u := subject_of uuid5 _). destruct (provision_user u e w) as [rp w1] eqn:Ep.
  pose proof (provision_preferences _ _ _ _ _ Ep) as Hu. destruct rp as [x|[]].
  { by unfold provision_user in Ep; cbn in Ep; discriminate. }
  erewrite bind_inr by (erewrite bind_inr by exact Ep; reflexivity). cbn beta iota.
  assert (Hc1 : preferences_clean w1.(w_db)) by (intros v q k y Hv; rewrite Hu in Hv; by eapply Hc).
  unfold require_valid. destruct (preferences_valid dumps p) eqn:Hv; [run by done|by fails by done].
  unfold other_limit, _rate_limit. destruct (fst _); [run by done|by fails by done].
  assert (Hd : forall v, pp_code_defaults p = Some v -> _has_sensitive_keys (JObj v) = false).
  { intros v Hp. unfold preferences_valid in Hv. rewrite Hp in Hv. destruct (_has_sensitive_keys (JObj v)); [|done]. by rewrite !andb_false_r in Hv. }
  pose proof (patch_clean u (pp_default_assistant_mode p) (pp_notifications_enabled p) _ e w1 Hc1 Hd) as Hp.
  destruct (Preferences.patch _ _ _ _ e w1) as [[x|v] w2] eqn:E2; [by fails by exact E2|by run by exact E2].
Qed.

(** ** Previews *)

(** A file is served only over a link that is signed for this project and its
    present owner and has not expired, and what is served is the stored file
    at the canonical form of the path. *)
Theorem preview_serves_only_signed codec p token path e w r :
  (get_preview codec p token path e w).1 = inr r -> r.(hr_status) = 200 ->
  exists owner normalized f now,
    project_owner w.(w_db) p = Some owner /\
    verify_token codec e.(env_settings).(chat) p owner token now = Some true /\
    normalize_site_path path = inr normalized /\ w.(w_db).(site_files) !! (p, normalized) = Some f /\
    r.(hr_body) = JStr f.(sf_content).
Proof.
  unfold get_preview. run by done. destruct (project_owner (w_db w) p) as [o|]; [|by intros [= <-]].
  run by done. destruct (py_time e w) as [[x|now] w1] eqn:Et; [by fails by exact Et|]. run by exact Et.
  assert (Hw : w1.(w_db) = w.(w_db)) by (unfold py_time in Et; by injection Et as _ <-).
  destruct (verify_token _ _ _ _ _ _) as [[]|] eqn:Hv; [|by intros [= <-]..].
  unfold read_file. destruct (normalize_site_path path) as [x|n] eqn:Hn; [by run by done; intros [= <-]|].
  run by (run by done; reflexivity). rewrite Hw. destruct (site_files (w_db w) !! (p, n)) as [f|] eqn:Hf; cbn; intros [= <-] Hs; [|done].
  by eexists o, n, f, now.
Qed.

(** The answer tells whether a project exists to anyone who asks with a token
    that means nothing: 404 when it does not, 403 when it does. *)
Theorem preview_reveals_existence codec p token path e w :
  (forall o now, verify_token codec e.(env_settings).(chat) p o token now <> Some true) ->
  exists r, (get_preview codec p token path e w).1 = inr r /\
    r.(hr_status) = match project_owner w.(w_db) p with Some _ => 403 | None => 404 end.
Proof.
  intros Hbad. unfold get_preview. run by done. destruct (project_owner (w_db w) p) as [o|]; [|by eexists].
  run by done. erewrite bind_inr by reflexivity. cbn beta iota.
  destruct (verify_token _ _ _ _ _ _) as [[]|] eqn:Hv; [by apply Hbad in Hv|by eexists..].
Qed.

(** ** Models *)

(** The list of models starts with the default of the instance, marks no other
    as default, and names exactly the models a request may ask for. *)
Theorem models_default_first cs :
  (exists m rest, _build_models cs = m :: rest /\ m.(mi_id) = default_model cs /\ m.(mi_default) = true /\
     Forall (fun x => x.(mi_default) = false /\ x.(mi_id) <> default_model cs) rest) /\
  forall id, id ∈ mi_id <$> _build_models cs <-> id ∈ (allowed_models cs).*1.
Proof.
  unfold _build_models. split.
  - eexists _, _. split_and!; [done..|]. apply Forall_forall. intros x (kv & Hin & Hx)%list_elem_of_omap.
    destruct (String.eqb_spec kv.1 (default_model cs)); [done|]. by injection Hx as <-.
  - assert (Hdef : default_model cs ∈ (allowed_models cs).*1).
    { pose proof (default_model_allowed cs) as Ha. induction (allowed_models cs) as [|[k v] l IH]; cbn in *; [done|].
      destruct (String.eqb_spec (default_model cs) k) as [->|]; [by left|right; by apply IH]. }
    intros id. cbn. rewrite elem_of_cons. split.
    + intros [->|(m & -> & (kv & Hin & Hx)%list_elem_of_omap)%list_elem_of_fmap]; [done|].
      destruct (String.eqb kv.1 (default_model cs)); [done|]. injection Hx as <-. cbn. apply list_elem_of_fmap. by exists kv.
    + intros ([k v] & -> & Hin)%list_elem_of_fmap. destruct (String.eqb_spec k (default_model cs)) as [->|Hne]; [by left|right].
      apply list_elem_of_fmap. eexists. split; [|apply list_elem_of_omap; exists (k, v); split; [done|]; cbn; rewrite (proj2 (String.eqb_neq _ _) Hne); reflexivity].
      done.
Qed.

(** ** Concrete requests *)

Definition stranger_call : ClientCall := mkClientCall (Some "guess") (Some (uuid_str alice)) None None [no_attempt] ∅.


Definition one_result : ChatToolResultRequest :=
  mkToolResultRequest alice alice_session None (Some 9%N) (Some [("ok", JBool true)]) None.

Lemma single_form_is_batch_of_one_witness :
  let ss := mkSchemaSettings 1 1 100 1 in
  tool_results_valid ss (fun _ => 11) one_result = true /\
  tool_results_valid ss (fun _ => 11) one_result = tool_results_valid ss (fun _ => 11) (as_batch one_result 9%N) /\
  chat_tool_result ss (fun _ => 11) demo_gateway demo_rates no_uuid5 (user_call alice) answerer one_result demo_env demo_world =
    chat_tool_result ss (fun _ => 11) demo_gateway demo_rates no_uuid5 (user_call alice) answerer (as_batch one_result 9%N) demo_env demo_world.
Proof.
  split; [reflexivity|].
  apply (single_form_is_batch_of_one (mkSchemaSettings 1 1 100 1) (fun _ => 11) demo_gateway demo_rates no_uuid5 (user_call alice) answerer
           one_result 9%N demo_env demo_world); reflexivity.
Defined.

Lemma preferences_stay_clean_witness :
  let saved p := (patch_preferences (fun _ => 10) demo_gateway demo_rates no_uuid5 (user_call alice) p demo_env demo_world) in
  let nested k := mkPreferencesPatch None None (Some [("editor", JObj [(k, JStr "x")])]) in
  preferences_clean (saved (nested "tabSize")).2.(w_db) /\
  is_Some ((saved (nested "tabSize")).2.(w_db).(user_preferences) !! alice) /\
  (saved (nested "api_key")).1 = inl RequestValidationError.
Proof.
  cbv zeta. split; [|vm_compute; split; [eexists|]; reflexivity].
  apply (preferences_stay_clean (fun _ => 10) demo_gateway demo_rates no_uuid5 (user_call alice) _ demo_env demo_world).
  intros u p k x Hp. discriminate Hp.
Defined.
