(* ===== verification/Llm.v ===== *)
(** * The clients of the language model providers

    Models [src/app/chat/anthropic_client.py], [src/app/chat/openai_client.py]
    and the factory of [src/app/chat/llm_client.py]: how the neutral history, the
    tools and the attachments become the messages of a provider, and how its
    answer becomes the neutral result the orchestrator reads.  The SDKs
    ([send]), [json.dumps] and [json.loads] are parameters.  Stored blocks are a
    list of objects; a stored value of another shape raises [TypeError] here. *)

From Stdlib Require Import Ascii String.
From S2P Require Import Prelude PyVal Redaction Store Fixtures ChatTools Attachments Chat.

Open Scope string_scope.
Open Scope list_scope.
Open Scope Z_scope.

Definition STOP_REASON_END_TURN : string := "end_turn".

(** What a call of an SDK comes to. *)
Inductive SdkOutcome (A : Type) : Type :=
| sdk_ok (answer : A)
| sdk_authentication_error
| sdk_unreachable
| sdk_status_error.
Arguments sdk_ok {A} answer.
Arguments sdk_authentication_error {A}.
Arguments sdk_unreachable {A}.
Arguments sdk_status_error {A}.

Inductive KeyValidation : Type := kv_valid | kv_invalid | kv_offline.

Definition validation_of {A} (outcome : SdkOutcome A) : KeyValidation :=
  match outcome with
  | sdk_ok _ => kv_valid
  | sdk_authentication_error => kv_invalid
  | sdk_unreachable | sdk_status_error => kv_offline
  end.

(** A history is of neutral messages, or of messages in the shape of the
    provider. *)
Inductive HistoryItem : Type := raw_message (d : dict) | neutral (m : NeutralMessage).

Definition stop_reason_from (table : list (string * string)) (wire : option string) : string :=
  match wire with
  | None => STOP_REASON_END_TURN
  | Some w => default STOP_REASON_END_TURN (table_get table w)
  end.

Definition is_role (name : string) (d : dict) : bool :=
  match dict_get d "role" with JStr s => String.eqb s name | _ => false end.

(** [for m in reversed(messages): if m.get("role") == "user": ...; break] *)
Fixpoint change_first_user (f : dict -> dict) (l : list dict) : list dict :=
  match l with
  | [] => []
  | m :: rest => if is_role "user" m then f m :: rest else m :: change_first_user f rest
  end.

Definition change_last_user (f : dict -> dict) (l : list dict) : list dict :=
  List.rev (change_first_user f (List.rev l)).

(** Collect until the first exception. *)
Fixpoint collect {A B} (f : A -> exn + B) (l : list A) : exn + list B :=
  match l with
  | [] => inr []
  | a :: rest =>
      match f a with
      | inl x => inl x
      | inr b => match collect f rest with inl x => inl x | inr bs => inr (b :: bs) end
      end
  end.

Definition as_object (v : json) : exn + dict := match v with JObj d => inr d | _ => inl TypeError end.

Definition as_blocks (v : json) : exn + list dict := match v with JArr l => collect as_object l | _ => inl TypeError end.

Section llm.
Context (json_dumps : json -> string) (json_loads : string -> option json) (py_str : json -> string).

Definition text_of (v : json) : string := match v with JStr s => s | _ => py_str v end.

(** [getattr(usage, name, 0) or 0] *)
Definition count_of (usage : dict) (name : string) : Z := match dict_lookup name usage with Some (JInt z) => z | _ => 0 end.

Definition unknown_tool (name : string) : exn := ValidationFailedError ("unknown anthropic tool name: " ++ name)%string.

(** ** Anthropic *)

Definition _STOP_REASON_MAP : list (string * string) :=
  [("tool_use", STOP_REASON_TOOL_USE); ("max_tokens", STOP_REASON_MAX_TOKENS)].

Definition _BLOCK_WIRE_FIELDS : list (string * list string) :=
  [("text", ["type"; "text"]); ("image", ["type"; "source"]); ("document", ["type"; "source"]);
   ("tool_use", ["type"; "id"; "name"; "input"]); ("thinking", ["type"; "thinking"; "signature"]);
   ("redacted_thinking", ["type"; "data"])].

Definition _normalize_block (block : dict) : dict :=
  match (match dict_get block "type" with JStr t => table_get _BLOCK_WIRE_FIELDS t | _ => None end) with
  | Some allowed => omap (fun k => (fun v => (k, v)) <$> dict_lookup k block) allowed
  | None => List.filter (fun kv => negb (String.eqb kv.1 "caller")) block
  end.

(** A content block of the SDK, with what its [model_dump()] has besides the
    fields of its type. *)
Inductive SdkBlock : Type :=
| sdk_text (text : string) (extra : dict)
| sdk_tool_use (id name : string) (input : dict) (extra : dict)
| sdk_block (dump : dict).

Definition model_dump (b : SdkBlock) : dict :=
  match b with
  | sdk_text text extra => [("type", JStr "text"); ("text", JStr text)] ++ extra
  | sdk_tool_use id name input extra =>
      [("type", JStr "tool_use"); ("id", JStr id); ("name", JStr name); ("input", JObj input)] ++ extra
  | sdk_block dump => dump
  end.

Record AnthropicMessage : Type := mkAnthropicMessage {
  am_content : list SdkBlock;
  am_stop_reason : option string;
  am_usage : dict
}.

Record AnthropicCall : Type := mkAnthropicCall {
  ac_model : string;
  ac_max_tokens : Z;
  ac_system : list dict;
  ac_tools : list dict;
  ac_messages : list dict;
  ac_api_key : option string
}.

Definition ephemeral : json := JObj [("type", JStr "ephemeral")].

Definition _build_system (system_prompt : string) : list dict :=
  [[("type", JStr "text"); ("text", JStr system_prompt); ("cache_control", ephemeral)]].

Definition tool_result_message (m : NeutralMessage) (content : string) (is_error : bool) : dict :=
  [("role", JStr "user");
   ("content", JArr [JObj [("type", JStr "tool_result"); ("tool_use_id", m.(nm_provider_tool_use_id));
                           ("content", JStr content); ("is_error", JBool is_error)]])].

Definition anthropic_message (item : HistoryItem) : exn + dict :=
  match item with
  | raw_message d => inr d
  | neutral m =>
      match m.(nm_role) with
      | role_user => inr [("role", JStr "user"); ("content", m.(nm_content_blocks))]
      | role_assistant => inr [("role", JStr "assistant"); ("content", m.(nm_content_blocks))]
      | role_tool =>
          match m.(nm_error) with
          | JNull => inr (tool_result_message m (json_dumps m.(nm_result)) false)
          | JObj d => inr (tool_result_message m (text_of (default (JStr "tool error") (dict_lookup "message" d))) true)
          | _ => inl AttributeError
          end
      end
  end.

Definition anthropic_messages (items : list HistoryItem) : exn + list dict := collect anthropic_message items.

Definition anthropic_tool (t : dict) : exn + dict :=
  let name := match dict_lookup "name" t with None => "" | Some v => text_of v end in
  match (if Str.contains "." name then to_anthropic_tool_name name else Some name) with
  | None => inl UnknownToolNameError
  | Some wire =>
      match dict_lookup "description" t, dict_lookup "input_schema" t with
      | Some desc, Some schema => inr [("name", JStr wire); ("description", desc); ("input_schema", schema)]
      | _, _ => inl KeyError
      end
  end.

(** [cache_control] on the last definition. *)
Fixpoint cache_last (tools : list dict) : list dict :=
  match tools with
  | [] => []
  | [t] => [dict_set t "cache_control" ephemeral]
  | t :: rest => t :: cache_last rest
  end.

Definition anthropic_inject (blocks : list dict) (message : dict) : dict :=
  let base := match dict_get message "content" with JArr l => l | _ => [] end in
  dict_set message "content" (JArr (base ++ (JObj <$> blocks))).

Definition anthropic_usage (usage : dict) (model : string) : LLMUsage :=
  mkLLMUsage (count_of usage "input_tokens") (count_of usage "output_tokens") model
    (count_of usage "cache_read_input_tokens") (count_of usage "cache_creation_input_tokens").

(** The loop over [message.content], after the blocks were normalized. *)
Definition block_text (b : SdkBlock) : string := match b with sdk_text text _ => text | _ => "" end.

Fixpoint anthropic_tool_uses (blocks : list SdkBlock) : exn + list ToolUse :=
  match blocks with
  | [] => inr []
  | sdk_tool_use id name input _ :: rest =>
      match to_domain_tool_name name with
      | None => inl (unknown_tool name)
      | Some domain_name =>
          match anthropic_tool_uses rest with inl x => inl x | inr uses => inr (mkToolUse id domain_name input :: uses) end
      end
  | _ :: rest => anthropic_tool_uses rest
  end.

Definition anthropic_result (message : AnthropicMessage) (model : string) : exn + LLMResult :=
  match anthropic_tool_uses message.(am_content) with
  | inl x => inl x
  | inr uses =>
      inr (mkLLMResult (Some (stop_reason_from _STOP_REASON_MAP message.(am_stop_reason)))
             (_normalize_block ∘ model_dump <$> message.(am_content)) (anthropic_usage message.(am_usage) model)
             (Str.join "" (block_text <$> message.(am_content))) uses)
  end.

Section anthropic.
Context (default_model : string) (max_tokens : Z) (send : AnthropicCall -> SdkOutcome AnthropicMessage).

Definition anthropic_create_message (items : list HistoryItem) (rq : LLMRequest) : exn + LLMResult :=
  let model := default default_model rq.(rq_model) in
  match anthropic_messages items with
  | inl x => inl x
  | inr wire_messages =>
      let wire_messages :=
        match rq.(rq_attachments) with
        | Some a => match a.(content_blocks) with
                    | [] => wire_messages
                    | blocks => change_last_user (anthropic_inject blocks) wire_messages
                    end
        | None => wire_messages
        end in
      match collect anthropic_tool rq.(rq_tools) with
      | inl x => inl x
      | inr tools =>
          match send (mkAnthropicCall model max_tokens (_build_system rq.(rq_system_prompt)) (cache_last tools) wire_messages rq.(rq_api_key)) with
          | sdk_authentication_error => inl LLMAuthError
          | sdk_unreachable | sdk_status_error => inl (UpstreamError "anthropic upstream error")
          | sdk_ok message => anthropic_result message model
          end
      end
  end.

Definition anthropic_validate_key (api_key : string) : KeyValidation :=
  validation_of (send (mkAnthropicCall default_model 1 [] [] [[("role", JStr "user"); ("content", JStr "ping")]] (Some api_key))).
End anthropic.

(** ** OpenAI *)

Definition _FINISH_REASON_MAP : list (string * string) :=
  [("tool_calls", STOP_REASON_TOOL_USE); ("length", STOP_REASON_MAX_TOKENS)].

Inductive OpenAIToolCall : Type :=
| function_call (id name arguments : string)
| custom_call (id : string).

Record OpenAIChoice : Type := mkOpenAIChoice {
  oc_content : option string;
  oc_tool_calls : list OpenAIToolCall;
  oc_finish_reason : option string
}.

Record OpenAICompletion : Type := mkOpenAICompletion {
  oc_choices : list OpenAIChoice;
  oc_usage : option dict
}.

Record OpenAICall : Type := mkOpenAICall {
  ol_model : string;
  ol_max_tokens : Z;
  ol_messages : list dict;
  ol_tools : option (list dict);
  ol_api_key : option string
}.

Definition text_parts (blocks : list dict) : list string :=
  omap (fun b => match dict_get b "type", dict_get b "text" with
                 | JStr t, JStr s => if String.eqb t "text" then Some s else None
                 | _, _ => None
                 end) blocks.

Definition _assistant_message_from_blocks (blocks : list dict) : dict :=
  let foreign := let text := Str.join "" (text_parts blocks) in
                 [("role", JStr "assistant"); ("content", if Str.nonempty text then JStr text else JNull)] in
  match blocks with
  | [b] =>
      if is_role "assistant" b
      then match dict_lookup "content" b with Some _ => b | None => dict_set b "content" JNull end
      else foreign
  | _ => foreign
  end.

Definition _user_message_from_blocks (blocks : list dict) : dict :=
  [("role", JStr "user"); ("content", JStr (Str.join (String "010" "") (text_parts blocks)))].

Definition openai_message (item : HistoryItem) : exn + dict :=
  match item with
  | raw_message d => inr d
  | neutral m =>
      match m.(nm_role) with
      | role_assistant => match as_blocks m.(nm_content_blocks) with inl x => inl x | inr b => inr (_assistant_message_from_blocks b) end
      | role_user => match as_blocks m.(nm_content_blocks) with inl x => inl x | inr b => inr (_user_message_from_blocks b) end
      | role_tool =>
          let content := json_dumps (match m.(nm_error) with JNull => m.(nm_result) | e => e end) in
          inr [("role", JStr "tool"); ("tool_call_id", m.(nm_provider_tool_use_id)); ("content", JStr content)]
      end
  end.

Definition openai_messages (items : list HistoryItem) (system_prompt : string) : exn + list dict :=
  match collect openai_message items with
  | inl x => inl x
  | inr l => inr ([("role", JStr "system"); ("content", JStr system_prompt)] :: l)
  end.

Definition openai_tool (t : dict) : exn + dict :=
  match openai_tool_function py_str t with
  | Some d => inr d
  | None =>
      let name := match dict_lookup "name" t with None => "" | Some v => text_of v end in
      if Str.contains "." name && negb (bool_decide (is_Some (to_anthropic_tool_name name))) then inl UnknownToolNameError else inl KeyError
  end.

Definition openai_inject (blocks : list dict) (message : dict) : dict :=
  let existing := match dict_get message "content" with
                  | JStr s => if Str.nonempty s then [JObj [("type", JStr "text"); ("text", JStr s)]] else []
                  | JArr l => l
                  | _ => []
                  end in
  dict_set message "content" (JArr (existing ++ (JObj <$> blocks))).

Definition normalized_call (tc : OpenAIToolCall) : option json :=
  match tc with
  | function_call id name arguments =>
      Some (JObj [("id", JStr id); ("type", JStr "function");
                  ("function", JObj [("name", JStr name); ("arguments", JStr arguments)])])
  | custom_call _ => None
  end.

Definition openai_usage (completion : OpenAICompletion) (model : string) : LLMUsage :=
  match completion.(oc_usage) with
  | None => mkLLMUsage 0 0 model 0 0
  | Some usage =>
      let cache_read := match dict_lookup "prompt_tokens_details" usage with
                        | Some (JObj d) => count_of d "cached_tokens"
                        | _ => 0
                        end in
      mkLLMUsage (count_of usage "prompt_tokens") (count_of usage "completion_tokens") model cache_read 0
  end.

Fixpoint openai_tool_uses (calls : list OpenAIToolCall) : exn + list ToolUse :=
  match calls with
  | [] => inr []
  | custom_call _ :: rest => openai_tool_uses rest
  | function_call id name arguments :: rest =>
      match to_domain_tool_name name with
      | None => inl (unknown_tool name)
      | Some domain_name =>
          match (if Str.nonempty arguments then json_loads arguments else Some (JObj [])) with
          | None => inl (ValidationFailedError ("invalid tool_call arguments JSON for " ++ name)%string)
          | Some (JObj args) =>
              match openai_tool_uses rest with inl x => inl x | inr uses => inr (mkToolUse id domain_name args :: uses) end
          | Some _ => inl (ValidationFailedError ("tool_call arguments for " ++ name ++ " must be a JSON object")%string)
          end
      end
  end.

Definition assistant_message (choice : OpenAIChoice) : dict :=
  [("role", JStr "assistant"); ("content", jopt_str choice.(oc_content))] ++
  match omap normalized_call choice.(oc_tool_calls) with
  | [] => []
  | calls => [("tool_calls", JArr calls)]
  end.

Definition openai_result (completion : OpenAICompletion) (model : string) : exn + LLMResult :=
  match completion.(oc_choices) with
  | [] => inl IndexError
  | choice :: _ =>
      match openai_tool_uses choice.(oc_tool_calls) with
      | inl x => inl x
      | inr uses =>
          inr (mkLLMResult (Some (stop_reason_from _FINISH_REASON_MAP choice.(oc_finish_reason))) [assistant_message choice]
                 (openai_usage completion model) (default "" choice.(oc_content)) uses)
      end
  end.

Section openai.
Context (default_model : string) (max_tokens : Z) (send : OpenAICall -> SdkOutcome OpenAICompletion) (list_models : string -> SdkOutcome unit).

Definition openai_create_message (items : list HistoryItem) (rq : LLMRequest) : exn + LLMResult :=
  let model := default default_model rq.(rq_model) in
  match openai_messages items rq.(rq_system_prompt) with
  | inl x => inl x
  | inr wire_messages =>
      let wire_messages :=
        match rq.(rq_attachments) with
        | Some a => match a.(content_blocks) with
                    | [] => wire_messages
                    | blocks => change_last_user (openai_inject blocks) wire_messages
                    end
        | None => wire_messages
        end in
      match collect openai_tool rq.(rq_tools) with
      | inl x => inl x
      | inr tools =>
          match send (mkOpenAICall model max_tokens wire_messages (match tools with [] => None | _ => Some tools end) rq.(rq_api_key)) with
          | sdk_authentication_error => inl LLMAuthError
          | sdk_unreachable | sdk_status_error => inl (UpstreamError "openai upstream error")
          | sdk_ok completion => openai_result completion model
          end
      end
  end.

Definition openai_validate_key (api_key : string) : KeyValidation := validation_of (list_models api_key).
End openai.

(** ** The factory *)

(** [get_llm_client]: the provider of the process, called with the neutral
    history of the request. *)
Definition get_llm_client (cs : ChatSettings) (anthropic_max_tokens openai_max_tokens : Z) (send_anthropic : AnthropicCall -> SdkOutcome AnthropicMessage)
    (send_openai : OpenAICall -> SdkOutcome OpenAICompletion) (rq : LLMRequest) : exn + LLMResult :=
  if String.eqb (Str.lower (Str.strip cs.(llm_provider))) "openai"
  then openai_create_message cs.(openai_model) openai_max_tokens send_openai (neutral <$> rq.(rq_messages)) rq
  else anthropic_create_message cs.(anthropic_model) anthropic_max_tokens send_anthropic (neutral <$> rq.(rq_messages)) rq.
End llm.

(** ** What the orchestrator may rely on *)

Definition canonical_stop (s : option string) : Prop :=
  s = Some STOP_REASON_TOOL_USE \/ s = Some STOP_REASON_MAX_TOKENS \/ s = Some STOP_REASON_END_TURN.

(** The raw id of a tool call is in the stored answer, as a block or as a call of
    the message. *)
Definition carries (id : string) (blocks : list dict) : Prop :=
  exists b, b ∈ blocks /\
  (dict_get b "id" = JStr id \/
   exists calls c, dict_get b "tool_calls" = JArr calls /\ JObj c ∈ calls /\ dict_get c "id" = JStr id).

(** The promise of a client to the orchestrator. *)
Class MeetsContract (default_model : string) (client : LLMRequest -> exn + LLMResult) : Prop :=
  contract_result : forall rq r, client rq = inr r ->
    canonical_stop r.(stop_reason) /\ r.(lr_usage).(usage_model) = default default_model rq.(rq_model) /\
    Forall (fun t => t.(tu_name) ∈ ALL_TOOL_NAMES /\ carries t.(tu_id) r.(lr_content_blocks)) r.(tool_uses).

Lemma domain_name_known wire name : to_domain_tool_name wire = Some name -> name ∈ ALL_TOOL_NAMES.
Proof.
  intros H%table_get_in. apply list_elem_of_fmap in H as ([d a] & [= -> ->] & H).
  assert (forallb (fun p => bool_decide (p.1 ∈ ALL_TOOL_NAMES)) _DOMAIN_TO_ANTHROPIC = true) as Hall by (vm_compute; reflexivity).
  rewrite forallb_forall in Hall. specialize (Hall (d, a)). apply bool_decide_eq_true in Hall; [done|]. by apply list_elem_of_In.
Qed.

Lemma stop_reason_canonical table wire :
  Forall (fun p => p.2 = STOP_REASON_TOOL_USE \/ p.2 = STOP_REASON_MAX_TOKENS) table ->
  canonical_stop (Some (stop_reason_from table wire)).
Proof.
  intros Ht. unfold canonical_stop, stop_reason_from. destruct wire as [w|]; [|auto].
  destruct (table_get table w) as [s|] eqn:E; [|by auto]. apply table_get_in in E. rewrite Forall_forall in Ht.
  destruct (Ht _ E) as [H|H]; cbn in *; subst; auto.
Qed.

Lemma carries_here id b blocks : dict_get b "id" = JStr id -> carries id (b :: blocks).
Proof. intros H. exists b. split; [left|by left]. Qed.

Lemma carries_further id b blocks : carries id blocks -> carries id (b :: blocks).
Proof. intros (c & Hc & H). exists c. split; [by right|done]. Qed.

Lemma anthropic_uses_ok blocks uses :
  anthropic_tool_uses blocks = inr uses ->
  Forall (fun t => t.(tu_name) ∈ ALL_TOOL_NAMES /\ carries t.(tu_id) (_normalize_block ∘ model_dump <$> blocks)) uses.
Proof.
  revert uses. induction blocks as [|b blocks IH]; intros uses; cbn [anthropic_tool_uses fmap list_fmap]; [by intros [= <-]|].
  assert (forall us, anthropic_tool_uses blocks = inr us ->
    Forall (fun t => t.(tu_name) ∈ ALL_TOOL_NAMES /\ carries t.(tu_id) (_normalize_block (model_dump b) :: (_normalize_block ∘ model_dump <$> blocks))) us)
    as Hrest.
  { intros us Hus. eapply Forall_impl; [by apply IH|]. intros t [H1 H2]. split; [done|by apply carries_further]. }
  destruct b as [text extra|id name input extra|dump]; [apply Hrest| |apply Hrest].
  destruct (to_domain_tool_name name) as [d|] eqn:Ed; [|done]. destruct (anthropic_tool_uses blocks) as [x|us] eqn:Eu; [done|].
  intros [= <-]. constructor; [|by apply Hrest]. split; [by eapply domain_name_known|]. by apply carries_here.
Qed.

Lemma openai_uses_ok json_loads calls uses :
  openai_tool_uses json_loads calls = inr uses ->
  Forall (fun t => t.(tu_name) ∈ ALL_TOOL_NAMES /\
            exists c, JObj c ∈ omap normalized_call calls /\ dict_get c "id" = JStr t.(tu_id)) uses.
Proof.
  revert uses. induction calls as [|[id name arguments|id] calls IH]; intros uses;
    cbn [openai_tool_uses omap list_omap normalized_call]; [by intros [= <-]| |apply IH].
  destruct (to_domain_tool_name name) as [d|] eqn:Ed; [|done].
  destruct (if Str.nonempty arguments then json_loads arguments else Some (JObj [])) as [[]|]; try done.
  destruct (openai_tool_uses json_loads calls) as [x|us] eqn:Eu; [done|]. intros [= <-]. constructor.
  - split; [by eapply domain_name_known|]. eexists. split; [left|]. reflexivity.
  - eapply Forall_impl; [by apply IH|]. intros t (H1 & c & Hc & Hid). split; [done|]. exists c. split; [by right|done].
Qed.

#[export] Instance anthropic_contract dumps str model limit send :
  MeetsContract model (fun rq => anthropic_create_message dumps str model limit send (neutral <$> rq.(rq_messages)) rq).
Proof.
  intros rq r. unfold anthropic_create_message. destruct (anthropic_messages _ _ _); [done|].
  destruct (collect _ _); [done|]. destruct (send _) as [message| | |]; try done. unfold anthropic_result.
  destruct (anthropic_tool_uses (am_content message)) as [x|uses] eqn:E; [done|]. intros [= <-]. cbn. split_and!.
  - apply stop_reason_canonical. constructor; [by left|constructor; [by right|constructor]].
  - done.
  - by apply anthropic_uses_ok.
Qed.

#[export] Instance openai_contract dumps loads str model limit send :
  MeetsContract model (fun rq => openai_create_message dumps loads str model limit send (neutral <$> rq.(rq_messages)) rq).
Proof.
  intros rq r. unfold openai_create_message. destruct (openai_messages _ _ _); [done|].
  destruct (collect _ _); [done|]. destruct (send _) as [completion| | |]; try done. unfold openai_result.
  destruct (oc_choices completion) as [|choice rest]; [done|].
  destruct (openai_tool_uses loads (oc_tool_calls choice)) as [x|uses] eqn:E; [done|]. intros [= <-]. cbn. split_and!.
  - apply stop_reason_canonical. constructor; [by left|constructor; [by right|constructor]].
  - unfold openai_usage. by destruct (oc_usage completion).
  - eapply Forall_impl; [by eapply openai_uses_ok|]. intros t (H1 & c & Hc & Hid). split; [done|].
    exists (assistant_message choice). split; [left|]. right. unfold assistant_message.
    destruct (omap normalized_call (oc_tool_calls choice)) as [|call calls] eqn:Ec; [by apply elem_of_nil in Hc|].
    exists (call :: calls), c. done.
Qed.

(** C7: whichever provider answers, the orchestrator reads the same language.  An
    answer that gets through has one of the three canonical stop reasons, is
    counted under the model that was asked, uses only tools of the catalogue
    under their domain names, and the raw id of every tool call is in the blocks
    that are stored, so that its result can be sent back. *)
Theorem answers_meet_contract dumps loads str cs amax omax send_anthropic send_openai rq r :
  get_llm_client dumps loads str cs amax omax send_anthropic send_openai rq = inr r ->
  canonical_stop r.(stop_reason) /\
  (exists model, (model = cs.(openai_model) \/ model = cs.(anthropic_model)) /\
     r.(lr_usage).(usage_model) = default model rq.(rq_model)) /\
  Forall (fun t => t.(tu_name) ∈ ALL_TOOL_NAMES /\ carries t.(tu_id) r.(lr_content_blocks)) r.(tool_uses).
Proof.
  unfold get_llm_client. destruct (String.eqb _ _); intros H.
  - apply (contract_result (MeetsContract := openai_contract dumps loads str cs.(openai_model) omax send_openai)) in H as (H1 & H2 & H3).
    split_and!; eauto.
  - apply (contract_result (MeetsContract := anthropic_contract dumps str cs.(anthropic_model) amax send_anthropic)) in H as (H1 & H2 & H3).
    split_and!; eauto.
Qed.

(** ** What is stored is what is sent back *)

Lemma lookup_filter_other k (b : dict) : k <> "caller" ->
  dict_lookup k (List.filter (fun kv => negb (String.eqb kv.1 "caller")) b) = dict_lookup k b.
Proof.
  intros Hk. induction b as [|[k' v] b IH]; [done|]. cbn. destruct (String.eqb_spec k' "caller") as [->|Hne]; cbn.
  - destruct (String.eqb_spec k "caller"); [done|exact IH].
  - destruct (String.eqb k k'); [done|exact IH].
Qed.

Lemma lookup_filter_caller (b : dict) : dict_lookup "caller" (List.filter (fun kv => negb (String.eqb kv.1 "caller")) b) = None.
Proof.
  induction b as [|[k v] b IH]; [done|]. cbn [List.filter fst]. destruct (String.eqb_spec k "caller") as [->|Hne]; cbn [negb]; [exact IH|].
  cbn [dict_lookup]. destruct (String.eqb_spec "caller" k); [by subst|exact IH].
Qed.

Lemma filter_again (b : dict) :
  let clean := List.filter (fun kv : string * json => negb (String.eqb kv.1 "caller")) in clean (clean b) = clean b.
Proof. intros clean. induction b as [|kv b IH]; [done|]. subst clean. cbn. destruct (negb _) eqn:E; cbn; [rewrite E|]; by rewrite ?IH. Qed.

(** Normalizing leaves no field of the SDK, and once is enough. *)
Lemma normalize_block_clean b :
  dict_lookup "caller" (_normalize_block b) = None /\ _normalize_block (_normalize_block b) = _normalize_block b.
Proof.
  destruct (match dict_get b "type" with JStr t => table_get _BLOCK_WIRE_FIELDS t | _ => None end) as [allowed|] eqn:E.
  - destruct (dict_lookup "type" b) as [v|] eqn:Et; unfold dict_get in E; rewrite Et in E; cbn [default] in E; [|done].
    destruct v as [| | | |t| |]; try done. pose proof (table_get_in _ _ _ E) as Hin.
    unfold _normalize_block at 1 3 4. unfold dict_get. rewrite Et. cbn [default]. rewrite E. unfold _BLOCK_WIRE_FIELDS in Hin.
    repeat (apply elem_of_cons in Hin as [[= -> ->]|Hin]; [|]); [..|by apply elem_of_nil in Hin]; cbn [omap list_omap]; rewrite Et;
      cbn [fmap option_fmap option_map];
      repeat match goal with |- context [dict_lookup ?k b] => destruct (dict_lookup k b) end; split; reflexivity.
  - assert (_normalize_block b = List.filter (fun kv => negb (String.eqb kv.1 "caller")) b) as Eb by (unfold _normalize_block; by rewrite E).
    rewrite Eb. split; [apply lookup_filter_caller|]. unfold _normalize_block, dict_get. rewrite lookup_filter_other by done.
    unfold dict_get in E. rewrite E. apply filter_again.
Qed.

(** An assistant turn as the orchestrator hands it back. *)
Definition stored_answer (r : LLMResult) : HistoryItem :=
  neutral (mkNeutralMessage role_assistant (JArr (JObj <$> r.(lr_content_blocks))) JNull JNull JNull JNull JNull).

Lemma collect_objects (l : list dict) : collect as_object (JObj <$> l) = inr l.
Proof.
  induction l as [|d l IH]; [done|].
  change (collect as_object (JObj <$> d :: l)) with
    (match collect as_object (JObj <$> l) with inl x => inl x | inr bs => inr (d :: bs) end : exn + list dict).
  by rewrite IH.
Qed.

(** An answer is replayed as it was stored.  The blocks kept of an Anthropic
    answer hold no annotation of the SDK, normalizing them again changes
    nothing, and the next request carries them verbatim; the message kept of an
    OpenAI answer is itself the message of the next request. *)
Theorem answers_replayed_verbatim dumps str :
  (forall message model r, anthropic_result message model = inr r ->
     Forall (fun b => dict_lookup "caller" b = None /\ _normalize_block b = b) r.(lr_content_blocks) /\
     anthropic_message dumps str (stored_answer r) =
       inr [("role", JStr "assistant"); ("content", JArr (JObj <$> r.(lr_content_blocks)))]) /\
  (forall loads completion model r, openai_result loads completion model = inr r ->
     exists b, r.(lr_content_blocks) = [b] /\ openai_message dumps (stored_answer r) = inr b).
Proof.
  split.
  - intros message model r. unfold anthropic_result. destruct (anthropic_tool_uses _) as [x|uses]; [done|]. intros [= <-].
    split; [|done]. cbn [lr_content_blocks]. apply Forall_fmap, Forall_true. intros b. apply normalize_block_clean.
  - intros loads completion model r. unfold openai_result. destruct (oc_choices completion) as [|choice rest]; [done|].
    destruct (openai_tool_uses _ _) as [x|uses]; [done|]. intros [= <-]. exists (assistant_message choice). split; [done|].
    unfold stored_answer, openai_message. cbn [nm_role nm_content_blocks lr_content_blocks as_blocks].
    rewrite collect_objects. unfold assistant_message. by destruct (omap normalized_call _).
Qed.

(** Attachments reach exactly the last message of the user. *)
Theorem attachments_in_last_user f pre m post :
  is_role "user" m = true -> Forall (fun d => is_role "user" d = false) post ->
  change_last_user f (pre ++ m :: post) = pre ++ f m :: post.
Proof.
  intros Hm Hp. unfold change_last_user. rewrite rev_app_distr. cbn [List.rev]. rewrite <- app_assoc. cbn [app].
  assert (change_first_user f (rev post ++ m :: rev pre) = rev post ++ f m :: rev pre) as ->.
  { assert (Forall (fun d => is_role "user" d = false) (rev post)) as Hr by (apply Forall_rev; exact Hp).
    induction Hr as [|d l Hd Hl IH]; cbn; [by rewrite Hm|]. by rewrite Hd, IH. }
  rewrite rev_app_distr. cbn [List.rev]. rewrite !rev_involutive. by rewrite <- app_assoc.
Qed.

(** ** Concrete answers *)

Definition no_dumps (v : json) : string := "{}".
Definition demo_loads (s : string) : option json := if String.eqb s "{}" then Some (JObj []) else None.

Definition cut_openai : OpenAICompletion :=
  mkOpenAICompletion [mkOpenAIChoice None [function_call "call_1" "files_write" "{"] (Some "length")] None.

Definition cut_anthropic : AnthropicMessage :=
  mkAnthropicMessage [sdk_tool_use "toolu_1" "files_write" [] [("caller", JStr "direct")]] (Some "max_tokens") [].

(** A generation cut off inside a tool call: from Anthropic the orchestrator
    learns that the limit was reached, from OpenAI it gets a validation error. *)
Theorem cut_tool_call_differs model :
  (exists r, anthropic_result cut_anthropic model = inr r /\ stop_reason r = Some STOP_REASON_MAX_TOKENS) /\
  openai_result demo_loads cut_openai model = inl (ValidationFailedError "invalid tool_call arguments JSON for files_write").
Proof. split; [eexists; split; reflexivity|reflexivity]. Qed.

Definition demo_request : LLMRequest :=
  mkLLMRequest "be brief" [mkNeutralMessage role_user (JArr [JObj [("type", JStr "text"); ("text", JStr "hi")]]) JNull JNull JNull JNull JNull]
    [] None None None.

Lemma answers_meet_contract_witness :
  exists r, get_llm_client no_dumps demo_loads no_dumps chat_defaults 16000 16000 (fun _ => sdk_ok cut_anthropic) (fun _ => sdk_unreachable) demo_request = inr r /\
    stop_reason r = Some STOP_REASON_MAX_TOKENS /\ tool_uses r = [mkToolUse "toolu_1" "files.write" []] /\
    lr_content_blocks r = [[("type", JStr "tool_use"); ("id", JStr "toolu_1"); ("name", JStr "files_write"); ("input", JObj [])]] /\
    canonical_stop (stop_reason r) /\ Forall (fun t => tu_name t ∈ ALL_TOOL_NAMES /\ carries (tu_id t) (lr_content_blocks r)) (tool_uses r).
Proof.
  destruct (get_llm_client no_dumps demo_loads no_dumps chat_defaults 16000 16000 (fun _ => sdk_ok cut_anthropic) (fun _ => sdk_unreachable) demo_request)
    as [x|r] eqn:E; [vm_compute in E; discriminate E|].
  destruct (answers_meet_contract no_dumps demo_loads no_dumps chat_defaults 16000 16000 (fun _ => sdk_ok cut_anthropic) (fun _ => sdk_unreachable)
    demo_request r E) as (H1 & _ & H3).
  exists r. split; [reflexivity|]. assert (inr r = get_llm_client no_dumps demo_loads no_dumps chat_defaults 16000 16000 (fun _ => sdk_ok cut_anthropic)
    (fun _ => sdk_unreachable) demo_request) as E' by (symmetry; exact E). vm_compute in E'. injection E' as E'.
  split; [rewrite E'; reflexivity|]. split; [rewrite E'; reflexivity|]. split; [rewrite E'; reflexivity|]. split; [exact H1|exact H3].
Defined.

Lemma attachments_in_last_user_witness :
  change_last_user (anthropic_inject [[("type", JStr "image")]])
    [[("role", JStr "user"); ("content", JArr [])]; [("role", JStr "user"); ("content", JArr [])]; [("role", JStr "assistant")]] =
  [[("role", JStr "user"); ("content", JArr [])]; [("role", JStr "user"); ("content", JArr [JObj [("type", JStr "image")]])];
   [("role", JStr "assistant")]].
Proof.
  exact (attachments_in_last_user (anthropic_inject [[("type", JStr "image")]]) [[("role", JStr "user"); ("content", JArr [])]]
    [("role", JStr "user"); ("content", JArr [])] [[("role", JStr "assistant")]] eq_refl ltac:(repeat constructor)).
Defined.
