(* ===== verification/Requests.v ===== *)
(** * Every history of the service

    The services together: a history is a sequence of requests, webhooks,
    events of agent runs, orphan sweeps and writes of the rest of the program
    to tables that hold no money, each taken as a whole from one committed
    database to the next. *)

From Stdlib Require Import SpecFloat Ascii String.
From S2P Require Import Gateway Auth Profile Crm.
From S2P Require Import Prelude PyVal Redaction Store AuditTrail Logic Fixtures Wallet WalletRun WalletSpec WalletRefine WalletInv.
From S2P Require Import Policy Uuid Config Subscription Adapty TokenPurchase CloudPayments Admin.
From S2P Require Import ChatTools Website Attachments Workspaces Byok ChatContext ChatRepo Chat ChatTurns Chats.
From S2P Require Import AgentRuns Usage Hermes AgentService AgentBilling AgentClient Orphans.

Open Scope string_scope.
Open Scope list_scope.
Open Scope Z_scope.

(** ** The client operations on runs keep the books *)

Lemma keeps_assert_owner I J u k : keeps I J (assert_run_owner u k).
Proof. unfold assert_run_owner, Runs.get. keeps_walk. Qed.

Lemma keeps_clear_approval k u : keeps wallet_inv wallet_inv (Snapshots.clear_pending_approval k u).
Proof. unfold Snapshots.clear_pending_approval. keeps_walk. Qed.

Lemma keeps_create_running k u s m p st : keeps wallet_inv wallet_inv (Runs.create_running k u s m p st).
Proof. unfold Runs.create_running. keeps_walk. Qed.

Lemma keeps_credits_gate phase u : keeps wallet_inv wallet_inv (credits_gate phase u).
Proof. unfold credits_gate, current_debt, _current_debt. keeps_walk. Qed.

#[export] Hint Resolve keeps_assert_owner keeps_clear_approval keeps_create_running keeps_credits_gate : hermes.

#[export] Instance approval_books hermes u k body : KeepsBooks (approval hermes u k body).
Proof. unfold KeepsBooks, approval. keeps_walk. Qed.

#[export] Instance stop_books hermes u k : KeepsBooks (stop hermes u k).
Proof. unfold KeepsBooks, stop, _interrupt_run, Runs.mark_stopped. keeps_walk. Qed.

#[export] Instance run_books hermes u message sid model : KeepsBooks (run hermes u message sid model).
Proof.
  unfold KeepsBooks, run, effective_session. keeps_walk; apply quiet_keeps; auto with hermes.
Qed.

Lemma keeps_launch_continuation hermes u k message sid model :
  keeps wallet_inv wallet_inv (launch_continuation hermes u k message sid model).
Proof.
  intros e w [H1 H2]. unfold launch_continuation, try_except. set (m := (deadline ← _budget_deadline; _)).
  assert (Hq : quiet m).
  { subst m. apply quiet_bind; [auto with hermes|intros deadline]. apply quiet_bind; [auto with hermes|intros _].
    apply quiet_bind; [auto with hermes|intros history]. auto with hermes. }
  destruct (Hq e w) as [E1 E2]. destruct (m e w) as [[x|q] w1]; cbn [snd] in E1, E2; [|by rewrite E1, E2].
  assert (Hk : keeps wallet_inv wallet_inv (Runs.revert_cas k;; commit;; raise (A := string * string) x)).
  { unfold Runs.revert_cas. keeps_walk. }
  apply Hk. unfold sound. by rewrite E1, E2.
Qed.

#[export] Hint Resolve keeps_launch_continuation : hermes.

#[export] Instance resume_books hermes u k message : KeepsBooks (resume hermes u k message).
Proof. unfold KeepsBooks, resume, _resume_policy_block, Runs.get, Runs.cas_resume, Runs.active_child. keeps_walk. Qed.

#[export] Instance prepare_snapshot_books u k : KeepsBooks (prepare_consumer_snapshot u k).
Proof. unfold KeepsBooks, prepare_consumer_snapshot, Snapshots.ensure_row. keeps_walk. Qed.

(** ** Signing in keeps the books *)

Lemma wallet_inv_put_user u r d : wallet_inv d -> wallet_inv (set_users (<[u := r]> d.(users)) d).
Proof.
  intros [H1 H2]. split; [exact H1|]. intros v x Hv. specialize (H2 v x Hv). unfold user_exists in *. cbn.
  destruct (decide (u = v)) as [->|Hne]; [by rewrite lookup_insert_eq|by rewrite lookup_insert_ne].
Qed.

Lemma wallet_inv_auth sha draw : Auth.AuthStable sha wallet_inv draw.
Proof. split; intros; first [by apply wallet_inv_put_user|apply (wallet_inv_ext d); [reflexivity..|assumption]]. Qed.

#[export] Instance current_user_books gs uuid5 key subject : KeepsBooks (Gateway.get_current_user gs uuid5 key subject).
Proof.
  unfold KeepsBooks, Gateway.get_current_user, Gateway.provision_user. keeps_walk.
  destruct (users _ !! _); [done|by apply wallet_inv_put_user].
Qed.

Lemma sign_in_books st jwt sha str file draw meanwhile q :
  (forall n d, wallet_inv d -> wallet_inv (meanwhile n d)) -> KeepsBooks (Auth.serve st jwt sha str file draw meanwhile q).
Proof.
  intros Hm. unfold KeepsBooks, Auth.serve. apply keeps_scope. pose proof (wallet_inv_auth sha draw) as HI.
  destruct (Auth.stable_ops st jwt sha str file wallet_inv draw meanwhile Hm) as (H1 & H2 & H3). destruct q; auto.
Qed.

#[export] Instance cleanup_books st : KeepsBooks (Auth.cleanup_refresh_tokens st).
Proof.
  unfold KeepsBooks, Auth.cleanup_refresh_tokens. apply keeps_scope. keeps_walk.
Qed.

#[export] Instance display_name_books sha u name : KeepsBooks (Profile.update_display_name sha u name).
Proof. unfold KeepsBooks, Profile.update_display_name. keeps_walk. by apply wallet_inv_put_user. Qed.

(** ** Requests *)

(** Everything a request, a webhook or a background task may run.  A chat
    request awaits the provider several times; what the other requests commit
    meanwhile is itself part of a history. *)
Inductive serves : forall A, M A -> Prop :=
| serves_consume u amount key meta sid : serves _ (consume u amount key meta sid)
| serves_grant u amount key meta reason : serves _ (grant u amount key meta reason)
| serves_admin_grant u amount key reason : serves _ (Admin.grant u amount key reason)
| serves_admin_debit u amount key reason : serves _ (Admin.debit u amount key reason)
| serves_admin_subscription sha iso u plan exp gc key reason :
    serves _ (Admin.subscription_grant sha iso u plan exp gc key reason)
| serves_admin_view u n : serves _ (Admin.get_wallet_view u n)
| serves_crm_tokens u amount : serves _ (Crm.adjust_tokens u amount)
| serves_crm_subscription iso sha o u p n g : serves _ (Crm.set_subscription iso sha o u p n g)
| serves_purchase verify u tx : serves _ (TokenPurchase.purchase verify u tx)
| serves_adapty fi iso raw : serves _ (Adapty.handle fi iso raw)
| serves_cloudpayments fi iso repr loads provider raw : serves _ (CloudPayments.handle fi iso repr loads provider raw)
| serves_run hermes u message sid model : serves _ (run hermes u message sid model)
| serves_resume hermes u k message : serves _ (resume hermes u k message)
| serves_stop hermes u k : serves _ (stop hermes u k)
| serves_approval hermes u k body : serves _ (approval hermes u k body)
| serves_event hermes r block : serves _ (process_event hermes r block)
| serves_prepare u k : serves _ (prepare_consumer_snapshot u k)
| serves_orphan u k i o p h : serves _ (finalize_orphan_run u k i o p h)
| serves_chat deps u a :
    (forall n d, wallet_inv d -> wallet_inv (deps.(others) n d)) -> serves _ (Orchestrator.run deps u a)
| serves_tool_result deps u sid results :
    (forall n d, wallet_inv d -> wallet_inv (deps.(others) n d)) -> serves _ (Orchestrator.tool_result deps u sid results)
| serves_byok_set crypto validate u k : serves _ (Byok.set_key crypto validate u k)
| serves_byok_toggle u b : serves _ (Byok.toggle u b)
| serves_byok_delete u : serves _ (Byok.delete_key u)
| serves_preferences u m n c : serves _ (Preferences.patch u m n c)
| serves_edit_chat sid u m : serves _ (Chats.rename_or_pin sid u m)
| serves_delete_chat sid u : serves _ (Chats.delete_chat sid u)
| serves_entry gs uuid5 key subject : serves _ (Gateway.get_current_user gs uuid5 key subject)
| serves_sign_in st jwt sha str file draw meanwhile q :
    (forall n d, wallet_inv d -> wallet_inv (meanwhile n d)) -> serves _ (Auth.serve st jwt sha str file draw meanwhile q)
| serves_cleanup st : serves _ (Auth.cleanup_refresh_tokens st)
| serves_display_name sha u name : serves _ (Profile.update_display_name sha u name).

(** Each of them has its instance of the promise. *)
Lemma serves_keeps A (m : M A) : serves A m -> KeepsBooks m.
Proof. destruct 1; first [by apply chat_run_books|by apply tool_result_books|by apply sign_in_books|apply _]. Qed.

(** A write of the rest of the program: the money tables are as they were and
    nobody with a wallet is deleted. *)
Definition other_write (d d' : Db) : Prop :=
  d'.(wallets) = d.(wallets) /\ d'.(ledger_transactions) = d.(ledger_transactions) /\
  d'.(audit_logs) = d.(audit_logs) /\
  forall u, user_exists d u = true -> user_exists d' u = true.

(** One step of the committed database. *)
Inductive history_step (d : Db) : Db -> Prop :=
| step_request A (m : M A) e w :
    serves A m -> w.(w_db) = d -> w.(w_committed) = d -> history_step d (session_scope m e w).2.(w_committed)
| step_background A (m : M A) e w :
    serves A m -> w.(w_db) = d -> w.(w_committed) = d -> history_step d (background_services m e w).2.(w_committed)
| step_sweep bus age e w :
    w.(w_db) = d -> w.(w_committed) = d -> history_step d (sweep_orphan_runs bus age e w).2.(w_committed)
| step_other d' : other_write d d' -> history_step d d'.

Lemma history_step_inv d d' : history_step d d' -> wallet_inv d -> wallet_inv d'.
Proof.
  intros Hs Hi. destruct Hs as [A m e w Hm Hd Hc|A m e w Hm Hd Hc|bus age e w Hd Hc|d' (Hw & Hl & Ha & Hu)].
  - apply (scope_sound wallet_inv m (serves_keeps _ _ Hm) e w). split; congruence.
  - apply (background_sound wallet_inv m e w (serves_keeps _ _ Hm)). split; congruence.
  - apply (sweep_sound wallet_inv bus age e w); [intros; apply keeps_books|]. split; congruence.
  - destruct Hi as [H1 H2]. split.
    + intros u. unfold account, wallet_balance, wallet_debt, user_txs in *. rewrite Hw, Hl, Ha. apply H1.
    + intros u x Hx. rewrite Hw in Hx. apply Hu. by apply (H2 u x).
Qed.

(** C3: the books balance in every history.  From a database without wallets,
    ledger or audit rows, after any sequence of requests, webhooks, agent-run
    events, sweeps and unrelated writes, in any order and however many of them
    fail, every user's committed account is sound: balance and debt are not
    negative, the balance is the signed sum of the ledger rows less what was
    repaid, the debt is what was accrued less what was repaid, every row has a
    positive amount and no idempotency key occurs twice. *)
Theorem books_balance d0 d :
  d0.(wallets) = ∅ -> d0.(ledger_transactions) = [] -> d0.(audit_logs) = [] ->
  rtc history_step d0 d -> forall u, account_inv (account d u).
Proof.
  intros Hw Hl Ha Hr. assert (Hi : wallet_inv d0) by (by apply wallet_inv_fresh).
  clear Hw Hl Ha. cut (wallet_inv d); [intros [H _]; exact H|].
  induction Hr as [d|d1 d2 d3 H12 _ IH]; eauto using history_step_inv.
Qed.

(** A purchase, a failing debit, a paused agent run and the sweep. *)
Definition bought : Db :=
  (session_scope (grant alice 3 "purchase-1" [] "purchase") billing_env (run_world run_running)).2.(w_committed).
Definition refused : Db :=
  (session_scope (consume alice 10 "chat-1" [] None) billing_env (world_of bought)).2.(w_committed).
Definition stepped : Db :=
  (background_services (process_event demo_hermes fresh_run (usage_delta 1 1500 700)) billing_env
     (world_of refused)).2.(w_committed).

(** The databases of this history are compared by name before they are computed. *)
Strategy expand [bought refused stepped].

Lemma books_balance_witness :
  wallet_balance bought alice = 3 /\ wallet_balance stepped alice = 0 /\ account_inv (account stepped alice).
Proof.
  split; [vm_compute; reflexivity|]. split; [vm_compute; reflexivity|].
  apply (books_balance (run_world run_running).(w_db)); [reflexivity..|].
  apply (rtc_l _ _ bought).
  { exact (step_request _ _ _ billing_env (run_world run_running) (serves_grant alice 3 "purchase-1" [] "purchase")
             eq_refl eq_refl). }
  apply (rtc_l _ _ refused).
  { exact (step_request bought _ _ billing_env (world_of bought) (serves_consume alice 10 "chat-1" [] None)
             (world_of_db _) (world_of_committed _)). }
  apply rtc_once.
  exact (step_background refused _ _ billing_env (world_of refused)
           (serves_event demo_hermes fresh_run (usage_delta 1 1500 700)) (world_of_db _) (world_of_committed _)).
Defined.
